(* ===== verification/_CoqProject ===== *)
-Q . S2P
Prelude.v
Storage.v
BitArray.v
Scan.v
Bitmap.v
CircularBuffer.v
Vector.v
Stack.v
Pointers.v
IntrusiveList.v
Physical.v
Paging.v
Memory.v
Slab.v
Segments.v
Thread.v
Scheduler.v
Sync.v
Clib.v
Iterators.v
Strings.v
PathView.v
LinkedList.v
Handles.v
Buffers.v
Checksum.v
Network.v
Datagram.v
Dhcp.v
Dns.v
Tcp.v
Files.v
DomainSocket.v
Keyboard.v
Console.v
Vfs.v
Tar.v
Elf.v
Pe.v
AddressSpace.v
KernelSpace.v
SystemCalls.v
Ports.v
PciNames.v
Pci.v
Logger.v
Rtc.v
Rtl8139.v
Process.v
Execute.v
Interrupts.v
Arguments.v
SystemLibrary.v
Shell.v
Cat.v
Boot.v
BootStage.v
Booted.v
Sockets.v
