(* ===== verification/Prelude.v ===== *)
(** * A verification development for the CyanOS kernel

    CyanOS is a 32-bit x86 kernel in C++ with its own standard library, which user programs
    share. This library translates its code under [src/src] to executable definitions and
    proves what makes each part correct; where the code does something else than it means
    to, the theorem says what it does.

    ** How code is modelled

    - An integer of C++ is a [Z]; an operation that can leave the width of its type wraps
      ([u8], [u16], [u32], [s32] below).
    - Running code gives an [exec]: [Done] with a result, [Panic] for a failed [ASSERT] or a
      [PANIC], [Fault] for an access outside an object (undefined behaviour), [OutOfFuel]
      for a loop that was given too few turns. Errors of the code are values of [Result].
    - State is passed explicitly: a class is a [Record], a method [Class::method] the
      definition [Class_method]. An array is a list whose accesses are checked; a pointer
      into it is an offset. Objects that are linked by pointers live in finite maps by
      address, so that the use of a deleted object is a [Fault].
    - A block that has been given back to the heap keeps its contents until the heap gives
      it out again. The code reads or writes such blocks in a few places; where nothing can
      have taken the block in between, the model has the old contents: [terminate] of a
      process walks on from the list nodes of the threads that it ends, the clean-up destroys
      a process whose lock is held and releases that lock afterwards. Where the block may have
      been given out again the use is a [Fault]: the path of an entry of the archive when the
      node of the entry fits its block (Tar.v), the entry of the table of addresses that a
      thread has waited on when the table has moved (Network.v).
    - A counted loop is [for_]; other loops are [while], with a number of turns. The number
      is part of the definition where the code bounds its loop (the length of the array it
      walks, the nodes of a list, the bits of a map), and the theorems show that it is
      enough. Where the code does not bound the loop, the number is an argument and the
      theorems hold for every large enough one ([Scheduler], [Tcp], [Dhcp]).
    - A call that blocks is split where its thread sleeps: the part before and the part
      after ([_begin]/[_end], [_resume]), or it gives [Blocks] and is made again, so that
      anything can happen in between. A spin lock is held with interrupts off: a call under
      a lock is one step. What the locks themselves do is the subject of Sync.v.
    - In user programs assertions are compiled to nothing: their files say so, and code that
      is compiled for both has the build as an argument ([ASSERT_in]).

    ** The parts and their files

    The standard library (libraries/stdlib):
    - Storage.v (raw storage), BitArray.v, Bitmap.v (bitmap.cpp, static_bitmap.h),
      CircularBuffer.v, Vector.v, Stack.v, IntrusiveList.v, LinkedList.v (list.h): the
      containers. Each refines a simple one: a bounded queue, a list, a stack, disjoint
      sequences. [IdPool] (Bitmap.v) and [ListStore] (IntrusiveList.v) are the interfaces
      through which threads use them.
    - Pointers.v (unique_pointer.h, shared_pointer.h, null_or_reference.h, reference.h) and
      Iterators.v (algorithms.h, the iterators of vector.h).
    - Clib.v (clib.cpp), Strings.v (string.cpp, string_view.cpp), PathView.v
      (path_view.cpp), Arguments.v (argument_parser.cpp): characters, related to lists of
      characters, of path elements and of words.
    - Buffers.v (buffer.cpp, buffer_view.cpp, buffer_mutable_view.cpp, result.h) and
      Checksum.v (endianess.h, network_algorithms.cpp, algorithms.h).
    Memory (kernel/virtual_memory, kernel/arch/x86/paging.cpp):
    - Physical.v: frames are handed out first fit (Scan.v holds the search that it shares
      with VirtualMemory) and given back.
    - Paging.v: page tables in a memory of words, seen through the walk of the processor;
      mapping a page changes one translation.
    - Memory.v: VirtualMemory and Memory on top of both.
    - AddressSpace.v: the pages of a program under Memory, tables made on demand, and the
      bytes in their frames; [memory_space] is Memory as the [UserSpace] of the loaders.
    - KernelSpace.v: what [Memory::setup] builds before paging is on, and what
      [Memory::create_new_virtual_space] gives a process; loading a program after both.
    - Slab.v: slab allocator, heap and user heap over the interface [PageSource], which
      Memory implements.
    Tasks (kernel/tasking, kernel/arch/x86, kernel/devices/timer):
    - Segments.v: GDT, TSS, IDT, PIC, dispatch of interrupts, the stack of a new thread.
      Interrupts.v sets them up as [kernel_init] does, with the handlers of the timer, the
      keyboard, system calls, page faults and the network card that the scan of the bus finds.
    - Thread.v, Scheduler.v: threads, wait queues, timer and scheduler, over [ListStore] and
      [IdPool]; the invariant says in which list each thread is.
    - Sync.v: spin locks, semaphores, mutexes.
    - Process.v (process.cpp, process_description.cpp) with the threads that a process lists,
      over [ProcessServices]; Execute.v: the first thread of a process, which opens, reads
      and loads its program.
    - Elf.v, Pe.v: the loaders of programs, over the interface [UserSpace].
    Files (kernel/filesystem, kernel/devices):
    - Handles.v (handles_manager.cpp), Files.v (file_description.cpp, pipes, inode.cpp),
      DomainSocket.v, Sockets.v (ipsocket), Keyboard.v, Console.v, Vfs.v (fsnode.h,
      virtual_filesystem.cpp and the file systems that are mounted), Tar.v (ustar/tar_fs.cpp).
    - SystemCalls.v (tasking/system_call.cpp): the calls on files and handles, which put the
      tree, the open files, the devices and the handles together.
    - Boot.v (boot.cpp, kernel_init.cpp): the ramdisk is found and the file systems are
      mounted; BootStage.v puts [kernel_boot_stage2] together, from the memory and the tags
      that the boot loader leaves to the arguments of [kernel_init]; Booted.v runs the first
      program on what boot has made.
    Devices (kernel/devices), over the port instructions of Ports.v, whose laws are the
    documented behaviour of a device:
    - PciNames.v and Pci.v (bus), Rtl8139.v (ethernet), Rtc.v (rtc), Logger.v (debug_port).
    Network (kernel/network):
    - Network.v (Ethernet, ARP, IPv4), Datagram.v (ICMP, UDP), Tcp.v, Dhcp.v, Dns.v.
    User programs (userspace, libraries/systemlib):
    - SystemLibrary.v: entering the kernel by the number of a system call, the console of a
      program, what runs before [main]. Shell.v: the programs. Cat.v: [cat] on the kernel's
      own system calls.

    ** What is proved

    - Containers, strings and pointers: every sequence of calls acts as on the abstract
      container, failed assertions included; what a pointer owns is destroyed once.
    - Memory: boot maps the kernel twice, the ramdisk with the bytes that the boot loader has
      put there and a stack, and nothing else; allocations return what is free, as long as
      there is room, and change nothing else; a new process has an empty space with the
      kernel in it, and a program that is loaded there has the bytes of its segments at their
      addresses and no other page.
    - Tasks: every interrupt that boot enables, with or without a network card, reaches the
      handler that is meant for it; the timer wakes exactly the threads that are due; the
      scheduler passes over no ready thread for ever, while threads sleep, wait, wake others,
      are created and end; a semaphore counts its waiting threads; processes, their threads
      and their descriptions stay consistent under sequences of calls, and the program of a
      process is that of its path.
    - Files: paths lead to the nodes that their names say, the tree stays well formed, an
      archive is found in it entry by entry, handles name their own objects, pipes and
      connections are byte streams, and a session of system calls composes them.
    - Devices and network: the scan finds the functions of all devices, the card delivers
      the frames of its ring; the checksum of an even number of bytes is that of RFC 1071,
      packets that are built are accepted and delivered, TCP delivers segments in order and
      a send ends, the DHCP and DNS clients take from replies what the protocols say.
    - From boot to the screen: the file systems are mounted from the bytes of the ramdisk,
      the shell runs the lines that are typed, and [cat] shows the file it is given.
    Each property stands before its proof with the number of its claim; a property with
    hypotheses is followed by a witness that applies it to a concrete input.

    ** Bounds

    Where the code does not bound a loop the number of turns is an argument: polls of a
    device, the tags of the boot loader, the entries of the archive, the depth of the scan
    over PCI bridges, the lines typed to the shell, the turns at a lock that is held. The
    theorems give a number that is enough and hold for every larger one. The clean-up of
    processes takes as many turns as there are processes, an algorithm over a range as many
    as the range has elements, and a page table is made with a depth of 2, since the tables
    of the kernel are there from boot on.

    ** What is not modelled

    - Access rights of pages: the walk of Paging.v says where an access goes.
    - Code that only the compiler and the hardware give a meaning to: assembler
      ([thread_start], [enter_usermode], the entry of interrupts), the header for the boot
      loader, the C++ runtime, templates that compute types (type_traits.h, concepts.h,
      tuple.h), placement of operators [new] and [delete], which only call the heap.
    - [parse_mbi], which nothing calls, and tests.h; [kernel_init] is modelled in its parts
      (Interrupts.v, Boot.v, Process.v), which keep states of their own.
    - The maximum, swap and move templates of algorithms.h beyond what the containers use.
    - The TLB is taken to be coherent: the code invalidates every entry it changes. *)

From Stdlib Require Export ZArith Lia.
From stdpp Require Export base gmap list numbers strings.

Global Open Scope Z_scope.

Create Rewrite HintDb cyan.
Create HintDb cyan.

(** * Machine integers

    Every C++ integer is a [Z]; the width shows at the operations that can
    leave it, which wrap as the 32-bit target does. *)

Definition u8 (z : Z) : Z := z mod 2 ^ 8.
Definition u16 (z : Z) : Z := z mod 2 ^ 16.
Definition u32 (z : Z) : Z := z mod 2 ^ 32.

(** [int] obtained from a 32-bit pattern (two's complement). *)
Definition s32 (z : Z) : Z := (z + 2 ^ 31) mod 2 ^ 32 - 2 ^ 31.

(** An integer used as a condition. *)
Definition truthy (z : Z) : bool := negb (z =? 0).

(** Address arithmetic macros of types.h: [Bit(n)]. *)
Definition Bit (shift : Z) : Z := Z.shiftl 1 shift.

(** A pointer is [None] when it is null; used as a condition. *)
Definition not_null {A} (p : option A) : bool :=
  match p with Some _ => true | None => false end.

(** * Executions

    What running a piece of kernel code can do: return, stop the machine
    through [PANIC] / a failed [ASSERT], or touch memory outside an object
    ([Fault]: undefined behaviour in C++). [OutOfFuel] only comes from loops
    whose number of iterations is bounded by an explicit fuel. *)

Inductive exec (A : Type) : Type :=
| Done (a : A)
| Panic
| Fault
| OutOfFuel.

Arguments Done {A} a.
Arguments Panic {A}.
Arguments Fault {A}.
Arguments OutOfFuel {A}.

#[export] Instance exec_ret : MRet exec := fun A a => Done a.

#[export] Instance exec_bind : MBind exec := fun A B f m =>
  match m with
  | Done a => f a
  | Panic => Panic
  | Fault => Fault
  | OutOfFuel => OutOfFuel
  end.

#[export] Instance exec_fmap : FMap exec := fun A B f m =>
  match m with
  | Done a => Done (f a)
  | Panic => Panic
  | Fault => Fault
  | OutOfFuel => OutOfFuel
  end.

#[export] Instance exec_eq_dec `{EqDecision A} : EqDecision (exec A).
Proof. solve_decision. Defined.

(** [ASSERT(x)] of assert.h in the kernel build: a failed check panics. *)
Definition ASSERT (b : bool) : exec unit := if b then Done tt else Panic.

Lemma bind_Done {A B} (a : A) (f : A -> exec B) : (Done a ≫= f) = f a.
Proof. reflexivity. Qed.

Lemma bind_ASSERT {B} (b : bool) (f : unit -> exec B) :
  b = true -> (ASSERT b ≫= f) = f tt.
Proof. by intros ->. Qed.

Lemma bind_Done_inv {A B} (m : exec A) (f : A -> exec B) r :
  (m ≫= f) = Done r -> exists a, m = Done a /\ f a = Done r.
Proof. destruct m; simpl; naive_solver. Qed.

(** * Arrays

    A C array is the list of its elements; the length of the list is the
    number of elements of the object, so that an index outside it faults. *)

Definition aget {A} (l : list A) (i : Z) : exec A :=
  if 0 <=? i then
    match l !! Z.to_nat i with
    | Some x => Done x
    | None => Fault
    end
  else Fault.

Definition aset {A} (l : list A) (i : Z) (v : A) : exec (list A) :=
  if (0 <=? i) && (i <? Z.of_nat (length l)) then
    Done (<[Z.to_nat i := v]> l)
  else Fault.

(** Length of an array as an integer. *)
Definition alen {A} (l : list A) : Z := Z.of_nat (length l).

Section arrays.
Context {A : Type}.
Implicit Types (l : list A) (i j : Z).

Lemma aget_Done l i x :
  0 <= i -> l !! Z.to_nat i = Some x -> aget l i = Done x.
Proof. intros Hi Hx. unfold aget. by rewrite (proj2 (Z.leb_le _ _) Hi), Hx. Qed.

Lemma aget_in_range l i :
  0 <= i < alen l -> exists x, aget l i = Done x /\ l !! Z.to_nat i = Some x.
Proof.
  unfold alen; intros Hi.
  destruct (lookup_lt_is_Some_2 l (Z.to_nat i)) as [x Hx]; [lia|].
  exists x. split; [apply aget_Done; [lia|done]|done].
Qed.

Lemma aget_out_of_range l i : ~ (0 <= i < alen l) -> aget l i = Fault.
Proof.
  unfold aget, alen; intros Hi. destruct (Z.leb_spec 0 i); [|done].
  rewrite lookup_ge_None_2; [done|lia].
Qed.

Lemma aget_inv l i x :
  aget l i = Done x -> 0 <= i < alen l /\ l !! Z.to_nat i = Some x.
Proof.
  unfold aget, alen. destruct (Z.leb_spec 0 i); [|done].
  destruct (l !! Z.to_nat i) as [y|] eqn:E; [|done]. intros [= ->].
  split; [|done]. apply lookup_lt_Some in E. lia.
Qed.

Lemma aset_Done l i v :
  0 <= i < alen l -> aset l i v = Done (<[Z.to_nat i := v]> l).
Proof.
  unfold aset, alen; intros Hi.
  by rewrite (proj2 (Z.leb_le _ _)), (proj2 (Z.ltb_lt _ _)) by lia.
Qed.

Lemma aset_out_of_range l i v : ~ (0 <= i < alen l) -> aset l i v = Fault.
Proof.
  unfold aset, alen; intros Hi.
  destruct (Z.leb_spec 0 i), (Z.ltb_spec i (Z.of_nat (length l))); simpl; done || lia.
Qed.

Lemma aset_inv l i v l' :
  aset l i v = Done l' -> 0 <= i < alen l /\ l' = <[Z.to_nat i := v]> l.
Proof.
  unfold aset, alen.
  destruct (Z.leb_spec 0 i), (Z.ltb_spec i (Z.of_nat (length l))); simpl; naive_solver.
Qed.

Lemma alen_insert l (n : nat) v : alen (<[n := v]> l) = alen l.
Proof. unfold alen. by rewrite length_insert. Qed.

Lemma alen_nonneg l : 0 <= alen l.
Proof. unfold alen. lia. Qed.

End arrays.

Section alen.
Context {A : Type}.
Implicit Types (l : list A) (x : A).

Lemma alen_snoc l x : alen (l ++ [x]) = alen l + 1.
Proof. unfold alen. rewrite length_app. simpl. lia. Qed.

Lemma alen_cons l x : alen (x :: l) = alen l + 1.
Proof. unfold alen. simpl. lia. Qed.

Lemma alen_app l l' : alen (l ++ l') = alen l + alen l'.
Proof. unfold alen. rewrite length_app. lia. Qed.

Lemma alen_nil : alen (@nil A) = 0.
Proof. done. Qed.

Lemma alen_fmap {B} (f : A -> B) l : alen (f <$> l) = alen l.
Proof. unfold alen. by rewrite length_fmap. Qed.

Lemma alen_replicate (n : nat) x : alen (replicate n x) = Z.of_nat n.
Proof. unfold alen. by rewrite length_replicate. Qed.

End alen.

#[export] Hint Rewrite @alen_snoc @alen_cons @alen_app @alen_nil @alen_fmap @alen_replicate : cyan.

#[export] Hint Rewrite @alen_insert @length_insert @length_replicate @length_app : cyan.

(** * Lists around one of their elements *)

Lemma last_app_cons {A} (p s : list A) n : last (p ++ n :: s) = last (n :: s).
Proof.
  rewrite last_app. destruct (last (n :: s)) eqn:E; [done|]. by apply last_None in E.
Qed.

(** Splitting a list one element longer. *)
Lemma split_snoc {A} (ns p s : list A) (n k : A) :
  ns ++ [n] = p ++ k :: s ->
  (s = [] /\ k = n /\ p = ns) \/ (exists t, s = t ++ [n] /\ ns = p ++ k :: t).
Proof.
  destruct s as [|y t _] using rev_ind; intros E.
  - left. apply app_inj_tail in E as [-> ->]. done.
  - right. exists t. rewrite app_comm_cons, app_assoc in E.
    apply app_inj_tail in E as [-> ->]. done.
Qed.

(** Splitting a list without one of its elements. *)
Lemma split_removed {A} (p s p' s' : list A) (k : A) :
  p ++ s = p' ++ k :: s' ->
  (exists t, p = p' ++ k :: t /\ s' = t ++ s) \/ (exists t, s = t ++ k :: s' /\ p' = p ++ t).
Proof.
  revert p'. induction p as [|a p IH]; intros p' E; simpl in *.
  - right. exists p'. done.
  - destruct p' as [|b p']; injection E as <- E.
    + left. exists p. done.
    + destruct (IH p' E) as [(t & -> & ->)|(t & -> & ->)]; [left|right]; by exists t.
Qed.

Lemma NoDup_middle {A} (p s : list A) (n : A) :
  NoDup (p ++ n :: s) -> (n ∉ p) /\ (n ∉ s) /\ NoDup (p ++ s).
Proof.
  intros H. apply NoDup_app in H as (Hp & Hps & Hns). apply NoDup_cons in Hns as [Hn Hs].
  split; [|split; [done|]].
  - intros Hin. apply (Hps n Hin). by left.
  - apply NoDup_app. split; [done|]. split; [|done]. intros x Hx Hx'.
    apply (Hps x Hx). by right.
Qed.

(** * Loops *)

(** [for (i = lo; i < lo + n; i++) body]: the bound of the source is known
    before the loop, so the recursion is structural. *)
Fixpoint for_ {S} (n : nat) (i : Z) (body : Z -> S -> exec S) (s : S) : exec S :=
  match n with
  | O => Done s
  | S n => s' ← body i s; for_ n (i + 1) body s'
  end.

(** [while]: [step] is one evaluation of the condition and the body; it either
    goes round again ([inl]) or leaves the loop with a result ([inr]). *)
Fixpoint while {S R} (fuel : nat) (step : S -> exec (S + R)) (s : S) : exec R :=
  match fuel with
  | O => OutOfFuel
  | S fuel =>
      r ← step s;
      match r with
      | inl s' => while fuel step s'
      | inr out => Done out
      end
  end.

Section loops.
Context {S R : Type}.

(** One turn of a loop. *)
Lemma while_next (step : S -> exec (S + R)) fuel s s' :
  step s = Done (inl s') -> while (Datatypes.S fuel) step s = while fuel step s'.
Proof. intros E. simpl. by rewrite E. Qed.

Lemma while_out (step : S -> exec (S + R)) fuel s out :
  step s = Done (inr out) -> while (Datatypes.S fuel) step s = Done out.
Proof. intros E. simpl. by rewrite E. Qed.

(** Total correctness of a counted loop from an invariant. *)
Lemma for_inv (I : Z -> S -> Prop) (body : Z -> S -> exec S) n i s :
  I i s ->
  (forall j t, i <= j < i + Z.of_nat n -> I j t ->
     exists t', body j t = Done t' /\ I (j + 1) t') ->
  exists s', for_ n i body s = Done s' /\ I (i + Z.of_nat n) s'.
Proof.
  revert i s. induction n as [|n IH]; intros i s Hi Hb.
  - exists s. split; [done|]. by replace (i + Z.of_nat 0) with i by lia.
  - destruct (Hb i s) as (s1 & E & H1); [lia|done|].
    destruct (IH (i + 1) s1 H1) as (s2 & E2 & H2).
    { intros j t Hj. apply Hb. lia. }
    exists s2. simpl. rewrite E. split; [exact E2|].
    by replace (i + Z.of_nat (Datatypes.S n)) with (i + 1 + Z.of_nat n) by lia.
Qed.

(** Partial correctness of a counted loop. *)
Lemma for_inv_done (I : Z -> S -> Prop) (body : Z -> S -> exec S) n i s s' :
  I i s ->
  (forall j t t', i <= j < i + Z.of_nat n -> I j t -> body j t = Done t' -> I (j + 1) t') ->
  for_ n i body s = Done s' -> I (i + Z.of_nat n) s'.
Proof.
  revert i s. induction n as [|n IH]; intros i s Hi Hb E.
  - injection E as <-. by replace (i + Z.of_nat 0) with i by lia.
  - simpl in E. apply bind_Done_inv in E as (t & E1 & E2).
    replace (i + Z.of_nat (Datatypes.S n)) with (i + 1 + Z.of_nat n) by lia.
    apply (IH (i + 1) t); [eapply Hb; [|done..]; lia| |done].
    intros j u u' Hj. apply Hb. lia.
Qed.

(** Partial correctness of a [while]. *)
Lemma while_inv_done (I : S -> Prop) (Q : R -> Prop) (step : S -> exec (S + R)) fuel s r :
  I s -> (forall t t', I t -> step t = Done (inl t') -> I t') ->
  (forall t r, I t -> step t = Done (inr r) -> Q r) ->
  while fuel step s = Done r -> Q r.
Proof.
  intros Hs Hl Hr. revert s Hs. induction fuel as [|fuel IH]; intros s Hs E; [done|].
  simpl in E. apply bind_Done_inv in E as ([s'|r'] & E1 & E2); [by apply (IH s'); [eapply Hl|]|].
  injection E2 as ->. by eapply Hr.
Qed.

(** Total correctness of a [while] from an invariant and a measure. *)
Lemma while_inv (I : S -> Prop) (Q : R -> Prop) (mu : S -> nat)
    (step : S -> exec (S + R)) fuel s :
  I s -> (mu s < fuel)%nat ->
  (forall t, I t ->
     (exists t', step t = Done (inl t') /\ I t' /\ (mu t' < mu t)%nat) \/
     (exists r, step t = Done (inr r) /\ Q r)) ->
  exists r, while fuel step s = Done r /\ Q r.
Proof.
  revert s. induction fuel as [|fuel IH]; intros s Hs Hf Hstep; [lia|].
  simpl. destruct (Hstep s Hs) as [(t & E & Ht & Hmu)|(r & E & Hr)]; rewrite E; simpl.
  - apply IH; [done|lia|done].
  - eauto.
Qed.

End loops.

(** * Bits *)

Lemma u32_small z : 0 <= z < 2 ^ 32 -> u32 z = z.
Proof. apply Z.mod_small. Qed.

Lemma u16_small z : 0 <= z < 2 ^ 16 -> u16 z = z.
Proof. apply Z.mod_small. Qed.

Lemma u8_small z : 0 <= z < 2 ^ 8 -> u8 z = z.
Proof. apply Z.mod_small. Qed.

Lemma u32_range z : 0 <= u32 z < 2 ^ 32.
Proof. apply Z.mod_pos_bound. lia. Qed.

Lemma u16_range z : 0 <= u16 z < 2 ^ 16.
Proof. apply Z.mod_pos_bound. lia. Qed.

Lemma u8_range z : 0 <= u8 z < 2 ^ 8.
Proof. apply Z.mod_pos_bound. lia. Qed.

Lemma u8_testbit z n : 0 <= n -> Z.testbit (u8 z) n = (n <? 8) && Z.testbit z n.
Proof.
  intros Hn. unfold u8. destruct (Z.ltb_spec n 8).
  - by rewrite Z.mod_pow2_bits_low by lia.
  - by rewrite Z.mod_pow2_bits_high by lia.
Qed.

Lemma s32_small z : - 2 ^ 31 <= z < 2 ^ 31 -> s32 z = z.
Proof. intros. unfold s32. rewrite Z.mod_small; lia. Qed.

(** Parts that share no bit. *)
Lemma lor_parts a b k : 0 <= k -> 0 <= a < 2 ^ k -> Z.lor a (2 ^ k * b) = a + 2 ^ k * b.
Proof.
  intros Hk Ha. assert (E : Z.land a (2 ^ k * b) = 0).
  { apply Z.bits_inj'. intros n Hn. rewrite Z.land_spec, Z.bits_0, Z.mul_comm. destruct (Z.ltb_spec n k).
    - rewrite Z.mul_pow2_bits_low by lia. apply andb_false_r.
    - rewrite <- (Z.mod_small a (2 ^ k)), Z.mod_pow2_bits_high by lia. done. }
  by rewrite <- Z.lxor_lor, <- Z.add_nocarry_lxor.
Qed.

(** The bits of [x] from [k] to [k + n]. *)
Lemma bits_part x k n : 0 <= k -> 0 <= n -> Z.shiftr (Z.land x (Z.shiftl (Z.ones n) k)) k = (x / 2 ^ k) mod 2 ^ n.
Proof.
  intros Hk Hn. rewrite Z.shiftr_land, Z.shiftr_shiftl_l, Z.sub_diag, Z.shiftl_0_r by lia.
  by rewrite Z.land_ones, Z.shiftr_div_pow2 by lia.
Qed.

(** Clearing the low bits of an address. *)
Lemma land_lnot_ones a k : 0 <= k -> Z.land a (Z.lnot (Z.ones k)) = a - a mod 2 ^ k.
Proof.
  intros Hk. rewrite <- Z.ldiff_land, Z.ldiff_ones_r, Z.shiftr_div_pow2, Z.shiftl_mul_pow2 by lia.
  pose proof (Z.div_mod a (2 ^ k)). lia.
Qed.

(** The highest bit of a byte. *)
Lemma high_bit_clear data : 0 <= data < 0x100 -> (Z.land data 0x80 =? 0) = (data <? 0x80).
Proof.
  intros Hd.
  assert (E : forallb (fun d => Bool.eqb (Z.land d 0x80 =? 0) (d <? 0x80)) (seqZ 0 256) = true) by by vm_compute.
  rewrite forallb_forall in E. apply eqb_prop, E. apply list_elem_of_In, elem_of_seqZ. lia.
Qed.

#[export] Hint Rewrite @bind_Done : cyan.

(** * Automation *)

(** Turn boolean tests of the code into propositions, in hypotheses and goal. *)
Ltac to_prop :=
  repeat match goal with
  | H : (_ && _)%bool = true |- _ => apply andb_true_iff in H as [? ?]
  | H : (_ || _)%bool = false |- _ => apply orb_false_iff in H as [? ?]
  | H : negb _ = true |- _ => apply negb_true_iff in H
  | H : negb _ = false |- _ => apply negb_false_iff in H
  | H : (_ =? _) = true |- _ => apply Z.eqb_eq in H
  | H : (_ =? _) = false |- _ => apply Z.eqb_neq in H
  | H : (_ <? _) = true |- _ => apply Z.ltb_lt in H
  | H : (_ <? _) = false |- _ => apply Z.ltb_ge in H
  | H : (_ <=? _) = true |- _ => apply Z.leb_le in H
  | H : (_ <=? _) = false |- _ => apply Z.leb_gt in H
  end.

(** Case on the innermost boolean comparison of the goal. *)
Ltac case_test :=
  match goal with
  | |- context [?a <? ?b] => destruct (Z.ltb_spec a b)
  | |- context [?a <=? ?b] => destruct (Z.leb_spec a b)
  | |- context [?a =? ?b] => destruct (Z.eqb_spec a b)
  end.

(** Invert a chain of monadic binds that returned. *)
Ltac inv_done :=
  repeat match goal with
  | H : (_ ≫= _) = Done _ |- _ =>
      apply bind_Done_inv in H; destruct H as (? & ? & H); cbn beta iota in H
  | H : Done _ = Done _ |- _ => injection H as H; subst
  | H : ASSERT ?b = Done _ |- _ => destruct b eqn:?; [clear H|discriminate H]
  end.

(** Arithmetic with [/] and [mod] by constants. *)
Ltac zdiv := Z.div_mod_to_equations; lia.
