(* ===== verification/Storage.v ===== *)
(** Raw storage: memory from [operator new] in which objects are constructed,
    assigned and destroyed in place, as [Vector], [Stack] and [CircularBuffer] do,
    with the element loops the three classes share. *)

From S2P Require Import Prelude.

(** * Raw storage

    Memory from [operator new] that objects are constructed in and destroyed
    in place: a slot is [None] while no object lives in it. *)

Section storage.
Context {T : Type}.
Implicit Types (data : list (option T)) (x : T).

(** [operator new(sizeof(T) * n)] *)
Definition raw (n : Z) : list (option T) := replicate (Z.to_nat n) None.

(** Use of the object in slot [i]: a fault when none lives there. *)
Definition slot_read data (i : Z) : exec T :=
  s ← aget data i;
  match s with
  | Some x => Done x
  | None => Fault
  end.

(** [data[i].~T()] *)
Definition slot_destroy data (i : Z) : exec (list (option T)) :=
  _ ← slot_read data i;
  aset data i None.

(** [data[i] = x]: assignment to a live object. *)
Definition slot_assign data (i : Z) x : exec (list (option T)) :=
  _ ← slot_read data i;
  aset data i (Some x).

(** Storage that holds [l] in its first slots and is raw after them. *)
Definition filled (l : list T) (n : Z) : list (option T) :=
  (Some <$> l) ++ raw (n - alen l).

Lemma alen_raw n : 0 <= n -> alen (raw n) = n.
Proof. intros. unfold alen, raw. rewrite length_replicate. lia. Qed.

Lemma slot_read_Done data i x :
  0 <= i -> data !! Z.to_nat i = Some (Some x) -> slot_read data i = Done x.
Proof. intros Hi Hx. unfold slot_read. by rewrite (aget_Done _ _ _ Hi Hx). Qed.

Lemma slot_destroy_Done data i x :
  0 <= i -> data !! Z.to_nat i = Some (Some x) ->
  slot_destroy data i = Done (<[Z.to_nat i := None]> data).
Proof.
  intros Hi Hx. unfold slot_destroy. rewrite (slot_read_Done _ _ x) by done. simpl.
  apply aset_Done. apply lookup_lt_Some in Hx. unfold alen. lia.
Qed.

Lemma slot_assign_Done data i x y :
  0 <= i -> data !! Z.to_nat i = Some (Some x) ->
  slot_assign data i y = Done (<[Z.to_nat i := Some y]> data).
Proof.
  intros Hi Hx. unfold slot_assign. rewrite (slot_read_Done _ _ x) by done. simpl.
  apply aset_Done. apply lookup_lt_Some in Hx. unfold alen. lia.
Qed.

End storage.

Section filled.
Context {T : Type}.
Implicit Types (l : list T) (n : Z).

Lemma filled_nil n : filled (@nil T) n = raw n.
Proof. unfold filled. rewrite alen_nil. simpl. f_equal. lia. Qed.

Lemma alen_filled l n : alen l <= n -> alen (filled l n) = n.
Proof.
  intros. unfold filled. autorewrite with cyan. rewrite alen_raw by lia. lia.
Qed.

Lemma filled_lookup l n (i : nat) x :
  l !! i = Some x -> filled l n !! i = Some (Some x).
Proof.
  intros Hx. unfold filled. rewrite lookup_app_l.
  - by rewrite list_lookup_fmap, Hx.
  - rewrite length_fmap. by eapply lookup_lt_Some.
Qed.

Lemma filled_read l n (i : Z) x :
  0 <= i -> l !! Z.to_nat i = Some x -> slot_read (filled l n) i = Done x.
Proof. intros. apply slot_read_Done; [done|]. by apply filled_lookup. Qed.

Lemma filled_raw l n (i : nat) :
  alen l <= Z.of_nat i < n -> filled l n !! i = Some None.
Proof.
  unfold alen. intros Hi. unfold filled. rewrite lookup_app_r; rewrite length_fmap; [|lia].
  unfold raw. rewrite lookup_replicate. split; [done|unfold alen; lia].
Qed.

(** Constructing the next element. *)
Lemma filled_push l n x :
  alen l < n -> <[length l := Some x]> (filled l n) = filled (l ++ [x]) n.
Proof.
  intros Hn. unfold filled. rewrite insert_app_r_alt by (by rewrite length_fmap).
  rewrite length_fmap, Nat.sub_diag, fmap_app, <- app_assoc. f_equal.
  unfold raw. rewrite alen_snoc.
  replace (Z.to_nat (n - alen l)) with (S (Z.to_nat (n - (alen l + 1)))) by lia. done.
Qed.

(** Destroying the last element. *)
Lemma filled_pop l n x :
  alen l < n -> <[length l := None]> (filled (l ++ [x]) n) = filled l n.
Proof.
  intros Hn. unfold filled. rewrite fmap_app, <- app_assoc.
  rewrite insert_app_r_alt by (by rewrite length_fmap).
  rewrite length_fmap, Nat.sub_diag, alen_snoc. f_equal. simpl. unfold raw.
  replace (Z.to_nat (n - alen l)) with (S (Z.to_nat (n - (alen l + 1)))) by lia. done.
Qed.

(** Replacing a live element. *)
Lemma filled_update l n (i : nat) x :
  (i < length l)%nat -> <[i := Some x]> (filled l n) = filled (<[i := x]> l) n.
Proof.
  intros Hi. unfold filled. rewrite insert_app_l by (by rewrite length_fmap).
  by rewrite alen_insert, list_fmap_insert.
Qed.

End filled.

(** * Element loops *)

Lemma for_ext {S} (body body' : Z -> S -> exec S) n i s :
  (forall j t, body j t = body' j t) -> for_ n i body s = for_ n i body' s.
Proof.
  intros H. revert i s. induction n as [|n IH]; intros i s; simpl; [done|].
  rewrite H. destruct (body' i s); simpl; auto.
Qed.

Section loops.
Context {T : Type}.
Implicit Types (p s : list T) (src l rest : list (option T)).

(** [for (i = ..) new (&dst[i + off]) T{src[i]}] *)
Definition construct_loop src (n : nat) (i off : Z) (dst : list (option T))
    : exec (list (option T)) :=
  for_ n i (fun j d => x ← slot_read src j; aset d (j + off) (Some x)) dst.

(** [for (i = ..) data[i].~T()] *)
Definition destroy_loop (n : nat) (i : Z) (data : list (option T)) : exec (list (option T)) :=
  for_ n i (fun j d => slot_destroy d j) data.

Lemma construct_loop_spec src s i off l rest :
  0 <= i -> i + off = alen l ->
  (forall k x, s !! k = Some x -> src !! (Z.to_nat i + k)%nat = Some (Some x)) ->
  construct_loop src (length s) i off (l ++ replicate (length s) None ++ rest)
  = Done (l ++ (Some <$> s) ++ rest).
Proof.
  unfold construct_loop. revert i l. induction s as [|x s IH]; intros i l Hi Hoff Hsrc; [done|].
  simpl. rewrite (slot_read_Done _ _ x); [|done|].
  2: { specialize (Hsrc 0%nat x eq_refl). by rewrite Nat.add_0_r in Hsrc. }
  simpl. rewrite aset_Done by (autorewrite with cyan; pose proof (alen_nonneg rest); pose proof (alen_nonneg l); lia).
  rewrite bind_Done. replace (Z.to_nat (i + off)) with (length l) by (unfold alen in Hoff; lia).
  rewrite insert_app_r_alt by lia. rewrite Nat.sub_diag. simpl.
  specialize (IH (i + 1) (l ++ [Some x])). rewrite <- !app_assoc in IH. apply IH.
  - lia.
  - rewrite alen_snoc. lia.
  - intros k y Hy. specialize (Hsrc (S k) y Hy). by replace (Z.to_nat (i + 1) + k)%nat
      with (Z.to_nat i + S k)%nat by lia.
Qed.

Lemma destroy_loop_spec s i l rest :
  i = alen l ->
  destroy_loop (length s) i (l ++ (Some <$> s) ++ rest)
  = Done (l ++ replicate (length s) None ++ rest).
Proof.
  unfold destroy_loop. revert i l. induction s as [|x s IH]; intros i l ->; [done|].
  simpl. rewrite (slot_destroy_Done _ _ x).
  2: apply alen_nonneg.
  2: { unfold alen. rewrite Nat2Z.id. by rewrite list_lookup_middle. }
  rewrite bind_Done. replace (Z.to_nat (alen l)) with (length l) by (unfold alen; lia).
  rewrite insert_app_r_alt by lia. rewrite Nat.sub_diag. simpl.
  specialize (IH (alen l + 1) (l ++ [None])). rewrite <- !app_assoc in IH. apply IH.
  by rewrite alen_snoc.
Qed.

(** Destroying every element of a filled storage. *)
Lemma destroy_filled s n :
  alen s <= n -> destroy_loop (length s) 0 (filled s n) = Done (raw n).
Proof.
  intros Hn. unfold filled. pose proof (destroy_loop_spec s 0 [] (raw (n - alen s)) eq_refl) as E.
  simpl in E. rewrite E. f_equal. unfold raw. rewrite <- replicate_add. f_equal.
  unfold alen in *. lia.
Qed.

(** Constructing copies of all the elements of [s] in fresh storage. *)
Lemma construct_filled src s n :
  alen s <= n -> (forall k x, s !! k = Some x -> src !! k = Some (Some x)) ->
  construct_loop src (length s) 0 0 (raw n) = Done (filled s n).
Proof.
  intros Hn Hsrc.
  pose proof (construct_loop_spec src s 0 0 [] (raw (n - alen s))) as E. simpl in E.
  unfold filled. rewrite <- E by done. f_equal. unfold raw. rewrite <- replicate_add. f_equal.
  unfold alen in *. lia.
Qed.

End loops.
