(* ===== verification/BitArray.v ===== *)
(** Arrays of bytes used as bit sets.

    The byte arithmetic that bitmap.cpp, static_bitmap.h and physical.cpp share:
    bit [p] of an array of bytes is bit [p mod 8] of byte [p / 8]. The two
    counted loops that set or clear a run of bits, and the reading of one bit,
    are modelled once here and used by the three classes. *)

From S2P Require Import Prelude.

(** [#define CHECK_BIT(value, bit) ((value >> bit) & 1)] *)
Definition CHECK_BIT (value bit : Z) : Z := Z.land (Z.shiftr value bit) 1.

(** [data[p / 8] |= (1 << (p % 8))] *)
Definition set_bit (data : list Z) (p : Z) : exec (list Z) :=
  byte ← aget data (p / 8);
  aset data (p / 8) (u8 (Z.lor byte (Z.shiftl 1 (p mod 8)))).

(** [data[p / 8] &= ~(1 << (p % 8))] *)
Definition clear_bit (data : list Z) (p : Z) : exec (list Z) :=
  byte ← aget data (p / 8);
  aset data (p / 8) (u8 (Z.land byte (Z.lnot (Z.shiftl 1 (p mod 8))))).

(** The loop of [set_range]: [u32 current_position] advances with the counter
    and wraps at its width. *)
Definition set_bits (data : list Z) (position count : Z) : exec (list Z) :=
  fst <$> for_ (Z.to_nat count) 0
    (fun _ '(data, current_position) =>
       data' ← set_bit data current_position;
       Done (data', u32 (current_position + 1)))
    (data, position).

(** The loop of [clear_range]. *)
Definition clear_bits (data : list Z) (position count : Z) : exec (list Z) :=
  fst <$> for_ (Z.to_nat count) 0
    (fun _ '(data, current_position) =>
       data' ← clear_bit data current_position;
       Done (data', u32 (current_position + 1)))
    (data, position).

(** ** The abstraction: the set of positions whose bit is on *)

(** Number of bits the array holds. *)
Definition bit_capacity (data : list Z) : Z := 8 * alen data.

Definition bit_on (data : list Z) (p : Z) : bool :=
  match data !! Z.to_nat (p / 8) with
  | Some byte => Z.testbit byte (p mod 8)
  | None => false
  end.

(** Every element is an 8-bit value. *)
Definition bytes_ok (data : list Z) : Prop := Forall (fun b => 0 <= b < 2 ^ 8) data.

#[export] Instance bytes_ok_dec data : Decision (bytes_ok data).
Proof. unfold bytes_ok. apply _. Defined.

Lemma CHECK_BIT_testbit v n : 0 <= n -> truthy (CHECK_BIT v n) = Z.testbit v n.
Proof.
  intros Hn. unfold truthy, CHECK_BIT.
  change 1 with (Z.ones 1). rewrite Z.land_ones by lia. change (2 ^ 1) with 2.
  rewrite <- Z.bit0_mod, Z.shiftr_spec, Z.add_0_l by lia.
  by destruct (Z.testbit v n).
Qed.

Lemma bytes_ok_lookup data n b : bytes_ok data -> data !! n = Some b -> 0 <= b < 2 ^ 8.
Proof. intros Hok Hn. by apply (Forall_lookup_1 _ _ _ _ Hok Hn). Qed.

Lemma bytes_ok_insert data n b :
  bytes_ok data -> 0 <= b < 2 ^ 8 -> bytes_ok (<[n := b]> data).
Proof. intros. by apply Forall_insert. Qed.

(** A byte of the array and the bits it contributes. *)
Lemma bit_on_byte data p b :
  data !! Z.to_nat (p / 8) = Some b -> bit_on data p = Z.testbit b (p mod 8).
Proof. unfold bit_on. by intros ->. Qed.

(** Replacing one byte changes only the bits of that byte. *)
Lemma bit_on_insert data n b q :
  0 <= n < alen data -> 0 <= q ->
  bit_on (<[Z.to_nat n := b]> data) q =
  if q / 8 =? n then Z.testbit b (q mod 8) else bit_on data q.
Proof.
  unfold bit_on, alen. intros Hn Hq. destruct (Z.eqb_spec (q / 8) n) as [->|Hne].
  - rewrite list_lookup_insert_eq by lia. done.
  - rewrite list_lookup_insert_ne; [done|]. zdiv.
Qed.

Lemma pow2_bit_same q p :
  (q / 8 =? p / 8) = true -> (p mod 8 =? q mod 8) = (q =? p).
Proof.
  intros E. apply Z.eqb_eq in E.
  destruct (Z.eqb_spec (p mod 8) (q mod 8)), (Z.eqb_spec q p); try done; exfalso; zdiv.
Qed.

(** Value of the byte written by [set_bit] / [clear_bit], bit by bit. *)
Lemma set_bit_testbit b k n : 0 <= k < 8 -> 0 <= n < 8 ->
  Z.testbit (u8 (Z.lor b (Z.shiftl 1 k))) n = Z.testbit b n || (k =? n).
Proof.
  intros Hk Hn. rewrite u8_testbit, Z.lor_spec by lia.
  rewrite (proj2 (Z.ltb_lt n 8)) by lia. simpl. f_equal.
  rewrite Z.shiftl_1_l. destruct (Z.eqb_spec k n) as [->|].
  - by rewrite Z.pow2_bits_true by lia.
  - by rewrite Z.pow2_bits_false by lia.
Qed.

Lemma clear_bit_testbit b k n : 0 <= k < 8 -> 0 <= n < 8 ->
  Z.testbit (u8 (Z.land b (Z.lnot (Z.shiftl 1 k)))) n = Z.testbit b n && negb (k =? n).
Proof.
  intros Hk Hn. rewrite u8_testbit, Z.land_spec, Z.lnot_spec by lia.
  rewrite (proj2 (Z.ltb_lt n 8)) by lia. simpl. f_equal. f_equal.
  rewrite Z.shiftl_1_l. destruct (Z.eqb_spec k n) as [->|].
  - by rewrite Z.pow2_bits_true by lia.
  - by rewrite Z.pow2_bits_false by lia.
Qed.

Section update.
Context (data : list Z) (p : Z).
Context (Hok : bytes_ok data) (Hp : 0 <= p < bit_capacity data).

Lemma set_bit_spec :
  exists data', set_bit data p = Done data' /\ bytes_ok data' /\
    alen data' = alen data /\
    forall q, 0 <= q -> bit_on data' q = bit_on data q || (q =? p).
Proof.
  unfold bit_capacity in Hp.
  destruct (aget_in_range data (p / 8)) as (b & Eb & Lb); [zdiv|].
  unfold set_bit. rewrite Eb; simpl. rewrite aset_Done by zdiv.
  eexists; split; [done|]. split; [|split].
  - apply bytes_ok_insert; [done|apply u8_range].
  - apply alen_insert.
  - intros q Hq. rewrite bit_on_insert by zdiv.
    destruct (q / 8 =? p / 8) eqn:E.
    + rewrite set_bit_testbit, pow2_bit_same by (done || zdiv).
      apply Z.eqb_eq in E. by rewrite (bit_on_byte data q b) by (by rewrite E).
    + rewrite (proj2 (Z.eqb_neq q p)); [by rewrite orb_false_r|].
      intros ->. by rewrite Z.eqb_refl in E.
Qed.

Lemma clear_bit_spec :
  exists data', clear_bit data p = Done data' /\ bytes_ok data' /\
    alen data' = alen data /\
    forall q, 0 <= q -> bit_on data' q = bit_on data q && negb (q =? p).
Proof.
  unfold bit_capacity in Hp.
  destruct (aget_in_range data (p / 8)) as (b & Eb & Lb); [zdiv|].
  unfold clear_bit. rewrite Eb; simpl. rewrite aset_Done by zdiv.
  eexists; split; [done|]. split; [|split].
  - apply bytes_ok_insert; [done|apply u8_range].
  - apply alen_insert.
  - intros q Hq. rewrite bit_on_insert by zdiv.
    destruct (q / 8 =? p / 8) eqn:E.
    + rewrite clear_bit_testbit, pow2_bit_same by (done || zdiv).
      apply Z.eqb_eq in E. by rewrite (bit_on_byte data q b) by (by rewrite E).
    + rewrite (proj2 (Z.eqb_neq q p)); [by rewrite andb_true_r|].
      intros ->. by rewrite Z.eqb_refl in E.
Qed.

End update.

(** Membership of a position in the run [position, position + count). *)
Definition in_run (position count q : Z) : bool :=
  (position <=? q) && (q <? position + count).

Lemma in_run_step position i q :
  0 <= i -> in_run position i q || (q =? position + i) = in_run position (i + 1) q.
Proof. unfold in_run. intros. lia. Qed.

Lemma in_run_0 position q : in_run position 0 q = false.
Proof. unfold in_run. lia. Qed.

Section runs.
Context (data : list Z) (position count : Z).
Context (Hok : bytes_ok data) (Hpos : 0 <= position) (Hcount : 0 <= count).
Context (Hfit : position + count <= bit_capacity data).
Context (Hwidth : position + count < 2 ^ 32).

(** The setting loop turns on exactly the run, inside the array. *)
Lemma set_bits_spec :
  exists data', set_bits data position count = Done data' /\ bytes_ok data' /\
    alen data' = alen data /\
    forall q, 0 <= q -> bit_on data' q = bit_on data q || in_run position count q.
Proof.
  unfold set_bits.
  destruct (for_inv (fun i '(d, cur) =>
    cur = position + i /\ bytes_ok d /\ alen d = alen data /\
    forall q, 0 <= q -> bit_on d q = bit_on data q || in_run position i q)
    (fun _ '(d, cur) => d' ← set_bit d cur; Done (d', u32 (cur + 1)))
    (Z.to_nat count) 0 (data, position)) as ([d cur] & E & _ & H1 & H2 & H3).
  - split; [lia|]. split; [done|]. split; [done|].
    intros q Hq. by rewrite in_run_0, orb_false_r.
  - intros j [d cur] Hj (-> & Hd & Hl & Hb).
    destruct (set_bit_spec d (position + j)) as (d' & E & Hd' & Hl' & Hb');
      [done|unfold bit_capacity in *; lia|].
    exists (d', u32 (position + j + 1)). rewrite E. split; [done|].
    split; [rewrite u32_small; lia|]. split; [done|]. split; [congruence|].
    intros q Hq. by rewrite Hb', Hb, <- orb_assoc, in_run_step by lia.
  - rewrite E. simpl. eexists; split; [done|].
    replace (0 + Z.of_nat (Z.to_nat count)) with count in H3 by lia. done.
Qed.

(** The clearing loop turns off exactly the run. *)
Lemma clear_bits_spec :
  exists data', clear_bits data position count = Done data' /\ bytes_ok data' /\
    alen data' = alen data /\
    forall q, 0 <= q -> bit_on data' q = bit_on data q && negb (in_run position count q).
Proof.
  unfold clear_bits.
  destruct (for_inv (fun i '(d, cur) =>
    cur = position + i /\ bytes_ok d /\ alen d = alen data /\
    forall q, 0 <= q -> bit_on d q = bit_on data q && negb (in_run position i q))
    (fun _ '(d, cur) => d' ← clear_bit d cur; Done (d', u32 (cur + 1)))
    (Z.to_nat count) 0 (data, position)) as ([d cur] & E & _ & H1 & H2 & H3).
  - split; [lia|]. split; [done|]. split; [done|].
    intros q Hq. by rewrite in_run_0, andb_true_r.
  - intros j [d cur] Hj (-> & Hd & Hl & Hb).
    destruct (clear_bit_spec d (position + j)) as (d' & E & Hd' & Hl' & Hb');
      [done|unfold bit_capacity in *; lia|].
    exists (d', u32 (position + j + 1)). rewrite E. split; [done|].
    split; [rewrite u32_small; lia|]. split; [done|]. split; [congruence|].
    intros q Hq. by rewrite Hb', Hb, <- andb_assoc, <- negb_orb, in_run_step by lia.
  - rewrite E. simpl. eexists; split; [done|].
    replace (0 + Z.of_nat (Z.to_nat count)) with count in H3 by lia. done.
Qed.

End runs.

(** A full byte has all its bits on. *)
Lemma byte_full k : 0 <= k < 8 -> Z.testbit 0xFF k = true.
Proof. intros Hk. change 0xFF with (Z.ones 8). apply Z.ones_spec_low. lia. Qed.

(** Array of zero bytes. *)
Lemma bit_on_zeros n p : bit_on (replicate n 0) p = false.
Proof.
  unfold bit_on. destruct (replicate n 0 !! Z.to_nat (p / 8)) eqn:E; [|done].
  apply lookup_replicate in E as [-> _]. apply Z.testbit_0_l.
Qed.

Lemma bytes_ok_zeros n : bytes_ok (replicate n 0).
Proof. apply Forall_replicate. lia. Qed.

(** Reading the bit at [p] as the code does it. *)
Lemma read_bit data p :
  0 <= p < bit_capacity data ->
  exists b, aget data (p / 8) = Done b /\
    data !! Z.to_nat (p / 8) = Some b /\
    truthy (CHECK_BIT b (p mod 8)) = bit_on data p.
Proof.
  unfold bit_capacity. intros Hp.
  destruct (aget_in_range data (p / 8)) as (b & Eb & Lb); [zdiv|].
  exists b. split; [done|]. split; [done|].
  rewrite CHECK_BIT_testbit by zdiv. symmetry. by apply bit_on_byte.
Qed.
