(* ===== verification/Scan.v ===== *)
(** First-fit search for a run of free pages.

    [PhysicalMemory::find_pages] and [VirtualMemory::find_pages] keep the same two
    variables while they walk over the pages, [first_free_page] and
    [remaining_pages]. This file holds the invariant of that walk, over an abstract
    predicate that says which pages are taken. *)

From S2P Require Import Prelude.

(** [count] consecutive pages from [p] on are free. *)
Definition untaken_run (taken : Z -> bool) (p count : Z) : Prop :=
  forall q, p <= q < p + count -> taken q = false.

Section scan.
Context (taken : Z -> bool) (limit : Z).
Context (s0 count : Z) (Hcount : 0 < count).

(** State of the scan before page [p]: [count - remaining] free pages end there,
    their run cannot be extended to the left, and no complete run was passed. *)
Record scan_inv (p : Z) (st : Z * Z) : Prop := {
  scan_range : s0 <= p - (count - st.2) /\ 0 < st.2 <= count;
  scan_run : forall q, p - (count - st.2) <= q < p -> taken q = false;
  scan_first : st.2 <> count -> st.1 = p - (count - st.2);
  scan_left : p - (count - st.2) = s0 \/ taken (p - (count - st.2) - 1) = true;
  scan_none : forall a, s0 <= a -> a + count <= p -> ~ untaken_run taken a count
}.

(** A result of the scan: the first run of [count] free pages. *)
Definition scan_result (r : Z) : Prop :=
  s0 <= r /\ r + count <= limit /\ untaken_run taken r count /\
  forall a, s0 <= a < r -> ~ untaken_run taken a count.

Lemma scan_used p st r :
  scan_inv p st -> taken p = true -> scan_inv (p + 1) (r, count).
Proof.
  intros [] Hu. split; simpl; [lia|lia|lia|right; rewrite <- Hu; f_equal; lia|].
  intros a Ha Hc Hf. destruct (decide (a + count <= p)); [by apply (scan_none0 a)|].
  rewrite (Hf p) in Hu by lia. done.
Qed.

Lemma scan_free p st :
  scan_inv p st -> taken p = false -> st.2 <> 1 ->
  scan_inv (p + 1) (if st.2 =? count then p else st.1, st.2 - 1).
Proof.
  intros [] Hu Hr. split; simpl.
  - lia.
  - intros q Hq. destruct (decide (q = p)) as [->|]; [done|]. apply scan_run0. lia.
  - intros _. destruct (Z.eqb_spec st.2 count); [lia|]. rewrite scan_first0; lia.
  - destruct scan_left0 as [E|E]; [left; lia|right; rewrite <- E; f_equal; lia].
  - intros a Ha Hc Hf. destruct (decide (a + count <= p)); [by apply (scan_none0 a)|].
    destruct scan_left0 as [E|E]; [lia|].
    rewrite (Hf (p - (count - st.2) - 1)) in E by lia. done.
Qed.

Lemma scan_done p st :
  scan_inv p st -> taken p = false -> st.2 = 1 -> p < limit ->
  scan_result (if st.2 =? count then p else st.1).
Proof.
  intros [] Hu Hr Hp. assert (E : (if st.2 =? count then p else st.1) = p - (count - 1)).
  { destruct (Z.eqb_spec st.2 count); [lia|]. rewrite scan_first0; lia. }
  rewrite E. split; [lia|]. split; [lia|]. split.
  - intros q Hq. destruct (decide (q = p)) as [->|]; [done|]. apply scan_run0. lia.
  - intros a Ha Hf. destruct scan_left0 as [E'|E']; [lia|].
    rewrite (Hf (p - (count - st.2) - 1)) in E'; [done|].
    destruct (decide (a + count <= p)); [destruct (scan_none0 a); [lia|done|done]|]. lia.
Qed.

(** Nothing has been scanned yet. *)
Lemma scan_start r : scan_inv s0 (r, count).
Proof. split; simpl; [lia|lia|lia|left; lia|]. intros a Ha Hc. lia. Qed.

End scan.
