(* ===== verification/Bitmap.v ===== *)
(** The bit sets of the standard library: [Bitmap] (bitmap.h, bitmap.cpp), whose
    storage is allocated at run time, and [StaticBitmap] (static_bitmap.h), the
    same code over a template parameter. Process ids, thread ids, ports and slab
    blocks are handed out from them, through the interface [IdPool] below. *)

From S2P Require Import Prelude BitArray.

Definition BITMAP_NO_BITS_LEFT : Z := 0xFFFFFFFF.

Record Bitmap := mkBitmap {
  m_bitmap_size : Z;
  m_bitmap_data : list Z
}.

(** [Bitmap::Bitmap]: [size / 8 + 1] value-initialised bytes. *)
Definition Bitmap_new (size : Z) : Bitmap :=
  mkBitmap size (replicate (Z.to_nat (size / 8 + 1)) 0).

Definition Bitmap_set_range (b : Bitmap) (position count : Z) : exec Bitmap :=
  if m_bitmap_size b <? position then Done b
  else
    data ← set_bits (m_bitmap_data b) position count;
    Done (mkBitmap (m_bitmap_size b) data).

Definition Bitmap_set (b : Bitmap) (position : Z) : exec Bitmap :=
  Bitmap_set_range b position 1.

Definition Bitmap_clear_range (b : Bitmap) (position count : Z) : exec Bitmap :=
  if m_bitmap_size b <? position then Done b
  else
    data ← clear_bits (m_bitmap_data b) position count;
    Done (mkBitmap (m_bitmap_size b) data).

Definition Bitmap_clear (b : Bitmap) (position : Z) : exec Bitmap :=
  Bitmap_clear_range b position 1.

(** One turn of the search loops. The two searches are the same code up to the
    byte that is skipped ([0xFF] or [0]) and the bit looked for; the state is
    [(remaining_count, bit_index)]. *)
Definition find_range_step (skip : Z) (want : bool) (size : Z) (data : list Z) (count : Z)
    (st : Z * Z) : exec (Z * Z + Z) :=
  let '(remaining_count, bit_index) := st in
  if bit_index <? size then
    byte ← aget data (bit_index / 8);
    if byte =? skip then Done (inl (remaining_count, u32 (bit_index + 8)))
    else
      let remaining_count :=
        if Bool.eqb (truthy (CHECK_BIT byte (bit_index mod 8))) want
        then u32 (remaining_count - 1) else count in
      if remaining_count =? 0 then Done (inr (u32 (bit_index - count + 1)))
      else Done (inl (remaining_count, u32 (bit_index + 1)))
  else Done (inr BITMAP_NO_BITS_LEFT).

(** Each turn advances [bit_index], which stays below [size] while the loop
    runs: [size + 1] turns are enough. *)
Definition find_range (skip : Z) (want : bool) (size : Z) (data : list Z)
    (count start_search : Z) : exec Z :=
  while (S (Z.to_nat size)) (find_range_step skip want size data count) (count, start_search).

Definition Bitmap_find_first_clear_range (b : Bitmap) (count start_search : Z) : exec Z :=
  find_range 0xFF false (m_bitmap_size b) (m_bitmap_data b) count start_search.

Definition Bitmap_find_first_set_range (b : Bitmap) (count start_search : Z) : exec Z :=
  find_range 0 true (m_bitmap_size b) (m_bitmap_data b) count start_search.

Definition Bitmap_find_first_clear (b : Bitmap) (start_search : Z) : exec Z :=
  Bitmap_find_first_clear_range b 1 start_search.

Definition Bitmap_find_first_set (b : Bitmap) (start_search : Z) : exec Z :=
  Bitmap_find_first_set_range b 1 start_search.

Definition Bitmap_check_set (b : Bitmap) (position : Z) : exec bool :=
  byte ← aget (m_bitmap_data b) (position / 8);
  Done (truthy (CHECK_BIT byte (position mod 8))).

Definition Bitmap_check_clear (b : Bitmap) (position : Z) : exec bool :=
  byte ← aget (m_bitmap_data b) (position / 8);
  Done (negb (truthy (CHECK_BIT byte (position mod 8)))).

(** ** [StaticBitmap<bitmap_size>] *)

Section StaticBitmap.
Context (bitmap_size : Z).

Definition MAX_BITMAP_SIZE : Z := 24576.

(** [static_assert(bitmap_size <= MAX_BITMAP_SIZE)] *)
Definition StaticBitmap_size_ok : bool := bitmap_size <=? MAX_BITMAP_SIZE.

(** The constructor zeroes [bitmap_size / 8 + 1] bytes. *)
Definition StaticBitmap_new : list Z := replicate (Z.to_nat (bitmap_size / 8 + 1)) 0.

Definition StaticBitmap_set_range (data : list Z) (position count : Z) : exec (list Z) :=
  if bitmap_size <? position then Done data else set_bits data position count.

Definition StaticBitmap_set (data : list Z) (position : Z) : exec (list Z) :=
  StaticBitmap_set_range data position 1.

Definition StaticBitmap_clear_range (data : list Z) (position count : Z) : exec (list Z) :=
  if bitmap_size <? position then Done data else clear_bits data position count.

Definition StaticBitmap_clear (data : list Z) (position : Z) : exec (list Z) :=
  StaticBitmap_clear_range data position 1.

Definition StaticBitmap_find_first_clear_range (data : list Z) (count start_search : Z) : exec Z :=
  find_range 0xFF false bitmap_size data count start_search.

Definition StaticBitmap_find_first_set_range (data : list Z) (count start_search : Z) : exec Z :=
  find_range 0 true bitmap_size data count start_search.

Definition StaticBitmap_find_first_clear (data : list Z) (start_search : Z) : exec Z :=
  StaticBitmap_find_first_clear_range data 1 start_search.

Definition StaticBitmap_find_first_set (data : list Z) (start_search : Z) : exec Z :=
  StaticBitmap_find_first_set_range data 1 start_search.

Definition StaticBitmap_check_set (data : list Z) (position : Z) : exec bool :=
  byte ← aget data (position / 8);
  Done (truthy (CHECK_BIT byte (position mod 8))).

Definition StaticBitmap_check_clear (data : list Z) (position : Z) : exec bool :=
  byte ← aget data (position / 8);
  Done (negb (truthy (CHECK_BIT byte (position mod 8)))).

End StaticBitmap.

(** * Well-formedness *)

(** The storage has [size / 8 + 1] bytes, and the size leaves room for the skip
    of 8 in the search loops without leaving 32 bits. *)
Definition storage_ok (size : Z) (data : list Z) : Prop :=
  0 <= size <= 2 ^ 32 - 9 /\ alen data = size / 8 + 1 /\ bytes_ok data.

Definition Bitmap_wf (b : Bitmap) : Prop := storage_ok (m_bitmap_size b) (m_bitmap_data b).

#[export] Instance storage_ok_dec size data : Decision (storage_ok size data).
Proof. unfold storage_ok. apply _. Defined.

#[export] Instance Bitmap_wf_dec b : Decision (Bitmap_wf b).
Proof. unfold Bitmap_wf. apply _. Defined.

(** Bit [p] of a bitmap. *)
Definition Bitmap_mem (b : Bitmap) (p : Z) : bool := bit_on (m_bitmap_data b) p.

Lemma storage_capacity size data p :
  storage_ok size data -> p <= size -> p < bit_capacity data.
Proof. intros (? & ? & ?) ?. unfold bit_capacity. zdiv. Qed.

Lemma storage_new size :
  0 <= size <= 2 ^ 32 - 9 -> storage_ok size (replicate (Z.to_nat (size / 8 + 1)) 0).
Proof.
  intros H. split; [done|]. split; [|apply bytes_ok_zeros].
  unfold alen. rewrite length_replicate. zdiv.
Qed.

(** * The search for one bit *)

Section find_one.
Context (skip : Z) (want : bool).
Context (Hskip : forall k, 0 <= k < 8 -> Z.testbit skip k = negb want).
Context (size : Z) (data : list Z) (Hok : storage_ok size data).
Context (start : Z) (Hstart : 0 <= start < 2 ^ 32).

Definition skipped_to (i : Z) : Prop :=
  forall q, start <= q < i -> q < size -> bit_on data q = negb want.

(** From an aligned start a byte is entered in the middle only when it is not
    the skipped value. *)
Definition entered (i : Z) : Prop :=
  i mod 8 = 0 \/ forall b, data !! Z.to_nat (i / 8) = Some b -> b <> skip.

Definition search_result (r : Z) : Prop :=
  (r = BITMAP_NO_BITS_LEFT /\ (start mod 8 = 0 -> skipped_to size)) \/
  (start <= r < size /\ bit_on data r = want /\ (start mod 8 = 0 -> skipped_to r)).

Definition search_inv (st : Z * Z) : Prop :=
  st.1 = 1 /\ start <= st.2 < 2 ^ 32 /\
  (start mod 8 = 0 -> skipped_to st.2 /\ entered st.2).

Lemma skipped_byte i b :
  start <= i -> data !! Z.to_nat (i / 8) = Some b -> b = skip -> i mod 8 = 0 ->
  skipped_to i -> skipped_to (i + 8).
Proof.
  intros Hi Hb -> Ha Hs q Hq Hsz. destruct (decide (q < i)) as [|Hge]; [apply Hs; lia|].
  rewrite (bit_on_byte data q skip); [apply Hskip; zdiv|].
  by replace (q / 8) with (i / 8) by zdiv.
Qed.

Lemma entered_next i b :
  0 <= i -> data !! Z.to_nat (i / 8) = Some b -> b <> skip -> entered (i + 1).
Proof.
  intros Hi Hb Hne. destruct (decide ((i + 1) mod 8 = 0)); [by left|right].
  replace ((i + 1) / 8) with (i / 8) by zdiv. congruence.
Qed.

Lemma find_range_step_inv st :
  search_inv st ->
  (exists st', find_range_step skip want size data 1 st = Done (inl st') /\
     search_inv st' /\ (Z.to_nat (size - st'.2) < Z.to_nat (size - st.2))%nat) \/
  (exists r, find_range_step skip want size data 1 st = Done (inr r) /\ search_result r).
Proof.
  destruct st as [rem i]. intros (Hrem & Hi & Hal). simpl in *. subst rem.
  pose proof Hok as (Hsz & _). unfold find_range_step.
  destruct (Z.ltb_spec i size) as [Hlt|Hge]; simpl.
  2: { right. eexists; split; [done|]. left. split; [done|]. intros Ha.
       destruct (Hal Ha) as [Hs _]. intros q Hq. apply Hs. lia. }
  assert (Hc : 0 <= i < bit_capacity data).
  { split; [lia|]. eapply storage_capacity; [exact Hok|lia]. }
  destruct (read_bit data i Hc) as (b & Eb & Lb & Hbit). rewrite Eb; simpl.
  destruct (Z.eqb_spec b skip) as [Es|Hne].
  - left. eexists; split; [done|]. unfold search_inv. simpl.
    rewrite u32_small by lia. split; [|lia]. split; [done|]. split; [lia|].
    intros Ha. destruct (Hal Ha) as [Hs [Hm|Hn]]; [|by destruct (Hn b Lb)].
    split; [by eapply skipped_byte; [lia|..]|left; zdiv].
  - rewrite Hbit. destruct (Bool.eqb (bit_on data i) want) eqn:Ew.
    + apply eqb_prop in Ew. right. simpl. eexists; split; [done|]. right.
      rewrite u32_small by lia. replace (i - 1 + 1) with i by lia.
      split; [lia|]. split; [done|]. intros Ha. by destruct (Hal Ha).
    + apply eqb_false_iff in Ew. left. simpl. eexists; split; [done|].
      unfold search_inv. simpl. rewrite u32_small by lia. split; [|lia].
      split; [done|]. split; [lia|]. intros Ha. destruct (Hal Ha) as [Hs _].
      split; [|by eapply entered_next; [lia|..]].
      intros q Hq Hq'. destruct (decide (q = i)) as [->|]; [|apply Hs; lia].
      by destruct (bit_on data i), want.
Qed.

Lemma find_range_one :
  exists r, find_range skip want size data 1 start = Done r /\ search_result r.
Proof.
  unfold find_range. pose proof Hok as (Hsz & _).
  apply (while_inv search_inv search_result (fun st => Z.to_nat (size - st.2))).
  - split; [done|]. simpl. split; [lia|]. intros Ha. split; [|by left].
    intros q Hq. lia.
  - simpl. lia.
  - apply find_range_step_inv.
Qed.

End find_one.

Lemma skip_full k : 0 <= k < 8 -> Z.testbit 0xFF k = negb false.
Proof. intros. by rewrite byte_full. Qed.

Lemma skip_empty k : 0 <= k < 8 -> Z.testbit 0 k = negb true.
Proof. intros. apply Z.testbit_0_l. Qed.

(** * Specifications of the operations *)

Section Bitmap_ops.
Context (b : Bitmap) (Hwf : Bitmap_wf b).
Implicit Types (position count q : Z).

Lemma Bitmap_set_range_spec position count :
  0 <= position <= m_bitmap_size b -> 0 <= count ->
  position + count <= bit_capacity (m_bitmap_data b) ->
  exists b', Bitmap_set_range b position count = Done b' /\ Bitmap_wf b' /\
    m_bitmap_size b' = m_bitmap_size b /\
    forall q, 0 <= q -> Bitmap_mem b' q = Bitmap_mem b q || in_run position count q.
Proof.
  intros Hp Hc Hfit. destruct Hwf as (Hsz & Hlen & Hok).
  unfold Bitmap_set_range. rewrite (proj2 (Z.ltb_ge _ _)) by lia.
  destruct (set_bits_spec (m_bitmap_data b) position count)
    as (d & E & Hd & Hl & Hb); [done|lia|lia|done|unfold bit_capacity in *; zdiv|].
  rewrite E. simpl. eexists; split; [done|]. split; [|done].
  split; [done|]. split; [simpl; congruence|done].
Qed.

Lemma Bitmap_clear_range_spec position count :
  0 <= position <= m_bitmap_size b -> 0 <= count ->
  position + count <= bit_capacity (m_bitmap_data b) ->
  exists b', Bitmap_clear_range b position count = Done b' /\ Bitmap_wf b' /\
    m_bitmap_size b' = m_bitmap_size b /\
    forall q, 0 <= q -> Bitmap_mem b' q = Bitmap_mem b q && negb (in_run position count q).
Proof.
  intros Hp Hc Hfit. destruct Hwf as (Hsz & Hlen & Hok).
  unfold Bitmap_clear_range. rewrite (proj2 (Z.ltb_ge _ _)) by lia.
  destruct (clear_bits_spec (m_bitmap_data b) position count)
    as (d & E & Hd & Hl & Hb); [done|lia|lia|done|unfold bit_capacity in *; zdiv|].
  rewrite E. simpl. eexists; split; [done|]. split; [|done].
  split; [done|]. split; [simpl; congruence|done].
Qed.

Lemma in_run_one position q : in_run position 1 q = (q =? position).
Proof. unfold in_run. lia. Qed.

Lemma Bitmap_set_spec position :
  0 <= position <= m_bitmap_size b ->
  exists b', Bitmap_set b position = Done b' /\ Bitmap_wf b' /\
    m_bitmap_size b' = m_bitmap_size b /\
    forall q, 0 <= q -> Bitmap_mem b' q = Bitmap_mem b q || (q =? position).
Proof.
  intros Hp. destruct (Bitmap_set_range_spec position 1) as (b' & E & H1 & H2 & H3);
    [done|lia|apply storage_capacity with (p := position) in Hwf; lia|].
  exists b'. split; [done|]. split; [done|]. split; [done|].
  intros q Hq. by rewrite H3, in_run_one.
Qed.

Lemma Bitmap_clear_spec position :
  0 <= position <= m_bitmap_size b ->
  exists b', Bitmap_clear b position = Done b' /\ Bitmap_wf b' /\
    m_bitmap_size b' = m_bitmap_size b /\
    forall q, 0 <= q -> Bitmap_mem b' q = Bitmap_mem b q && negb (q =? position).
Proof.
  intros Hp. destruct (Bitmap_clear_range_spec position 1) as (b' & E & H1 & H2 & H3);
    [done|lia|apply storage_capacity with (p := position) in Hwf; lia|].
  exists b'. split; [done|]. split; [done|]. split; [done|].
  intros q Hq. by rewrite H3, in_run_one.
Qed.

Lemma Bitmap_check_set_spec position :
  0 <= position <= m_bitmap_size b ->
  Bitmap_check_set b position = Done (Bitmap_mem b position).
Proof.
  intros Hp. destruct (read_bit (m_bitmap_data b) position) as (x & E & _ & Hx).
  { split; [lia|]. eapply storage_capacity; [exact Hwf|lia]. }
  unfold Bitmap_check_set, Bitmap_mem. rewrite E. simpl. by rewrite Hx.
Qed.

Lemma Bitmap_check_clear_spec position :
  0 <= position <= m_bitmap_size b ->
  Bitmap_check_clear b position = Done (negb (Bitmap_mem b position)).
Proof.
  intros Hp. destruct (read_bit (m_bitmap_data b) position) as (x & E & _ & Hx).
  { split; [lia|]. eapply storage_capacity; [exact Hwf|lia]. }
  unfold Bitmap_check_clear, Bitmap_mem. rewrite E. simpl. by rewrite Hx.
Qed.

(** A search for one clear bit never returns a set one, and from a start that is
    a multiple of 8 it returns the least clear position. *)
Lemma Bitmap_find_first_clear_spec start :
  0 <= start < 2 ^ 32 ->
  exists r, Bitmap_find_first_clear b start = Done r /\
    search_result false (m_bitmap_size b) (m_bitmap_data b) start r.
Proof. intros. by apply find_range_one; [apply skip_full|apply Hwf|]. Qed.

Lemma Bitmap_find_first_set_spec start :
  0 <= start < 2 ^ 32 ->
  exists r, Bitmap_find_first_set b start = Done r /\
    search_result true (m_bitmap_size b) (m_bitmap_data b) start r.
Proof. intros. by apply find_range_one; [apply skip_empty|apply Hwf|]. Qed.

End Bitmap_ops.

Lemma Bitmap_new_wf size : 0 <= size <= 2 ^ 32 - 9 -> Bitmap_wf (Bitmap_new size).
Proof. apply storage_new. Qed.

Lemma Bitmap_new_mem size q : Bitmap_mem (Bitmap_new size) q = false.
Proof. apply bit_on_zeros. Qed.

#[export] Hint Resolve Bitmap_new_wf : cyan.

(** * The interface the kernel uses: a pool of identifiers

    [Process::reserve_pid], [Thread::reserve_tid] and the port maps of UDP and TCP
    use a bitmap only through these four calls. Their proofs are carried out
    against this class; [Bitmap] implements it. *)

Class IdPool (P : Type) := {
  pool_wf : P -> Prop;
  pool_limit : P -> Z;
  pool_mem : P -> Z -> bool;
  pool_find_first_clear : P -> exec Z;
  pool_set : P -> Z -> exec P;
  pool_clear : P -> Z -> exec P;
  pool_check_set : P -> Z -> exec bool;
  pool_find_law : forall p, pool_wf p ->
    exists r, pool_find_first_clear p = Done r /\
      ((r = BITMAP_NO_BITS_LEFT /\ forall q, 0 <= q < pool_limit p -> pool_mem p q = true) \/
       (0 <= r < pool_limit p /\ pool_mem p r = false /\
        forall q, 0 <= q < r -> pool_mem p q = true));
  pool_set_law : forall p i, pool_wf p -> 0 <= i <= pool_limit p ->
    exists p', pool_set p i = Done p' /\ pool_wf p' /\ pool_limit p' = pool_limit p /\
      forall q, 0 <= q -> pool_mem p' q = pool_mem p q || (q =? i);
  pool_set_beyond : forall p i, pool_wf p -> pool_limit p < i -> pool_set p i = Done p;
  pool_clear_law : forall p i, pool_wf p -> 0 <= i <= pool_limit p ->
    exists p', pool_clear p i = Done p' /\ pool_wf p' /\ pool_limit p' = pool_limit p /\
      forall q, 0 <= q -> pool_mem p' q = pool_mem p q && negb (q =? i);
  pool_check_law : forall p i, pool_wf p -> 0 <= i <= pool_limit p ->
    pool_check_set p i = Done (pool_mem p i);
  pool_limit_law : forall p, pool_wf p -> 0 <= pool_limit p < BITMAP_NO_BITS_LEFT
}.

#[export] Program Instance Bitmap_IdPool : IdPool Bitmap := {|
  pool_wf := Bitmap_wf;
  pool_limit := m_bitmap_size;
  pool_mem := Bitmap_mem;
  pool_find_first_clear := fun b => Bitmap_find_first_clear b 0;
  pool_set := Bitmap_set;
  pool_clear := Bitmap_clear;
  pool_check_set := Bitmap_check_set
|}.
Next Obligation.
  intros b Hwf. destruct (Bitmap_find_first_clear_spec b Hwf 0) as (r & E & Hr); [lia|].
  exists r. split; [done|]. destruct Hr as [[-> H]|(Hr & Hm & H)].
  - left. split; [done|]. intros q Hq. by apply H; [done|lia|lia].
  - right. split; [done|]. split; [done|]. intros q Hq. by apply H; [done|lia|lia].
Qed.
Next Obligation. intros. by apply Bitmap_set_spec. Qed.
Next Obligation.
  intros b i Hwf Hi. unfold Bitmap_set, Bitmap_set_range.
  by rewrite (proj2 (Z.ltb_lt _ _)).
Qed.
Next Obligation. intros. by apply Bitmap_clear_spec. Qed.
Next Obligation. intros. by apply Bitmap_check_set_spec. Qed.
Next Obligation. intros b (H & _). unfold BITMAP_NO_BITS_LEFT. lia. Qed.

(** The pattern [id = pool.find_first_clear(); pool.set(id);]. *)
Definition reserve_id {P} `{IdPool P} (p : P) : exec (Z * P) :=
  id ← pool_find_first_clear p;
  p' ← pool_set p id;
  Done (id, p').

Lemma reserve_id_spec {P} `{IdPool P} (p : P) :
  pool_wf p ->
  exists id p', reserve_id p = Done (id, p') /\ pool_wf p' /\ pool_limit p' = pool_limit p /\
    ((id = BITMAP_NO_BITS_LEFT /\ p' = p /\
      forall q, 0 <= q < pool_limit p -> pool_mem p q = true) \/
     (0 <= id < pool_limit p /\ pool_mem p id = false /\
      forall q, 0 <= q -> pool_mem p' q = pool_mem p q || (q =? id))).
Proof.
  intros Hwf. destruct (pool_find_law p Hwf) as (r & E & Hr).
  pose proof (pool_limit_law p Hwf). unfold reserve_id. rewrite E; simpl.
  destruct Hr as [[-> Hfull]|(Hr & Hm & _)].
  - rewrite pool_set_beyond by (done || lia). simpl. eauto 10.
  - destruct (pool_set_law p r Hwf) as (p' & Es & Hwf' & Hl & Hb); [lia|].
    rewrite Es. simpl. exists r, p'. split; [done|]. eauto 10.
Qed.

(** * Properties *)

(** [Bitmap::find_first_clear] from a start that is a multiple of 8 returns,
    and returns the least clear position of [start, size), or [BITMAP_NO_BITS_LEFT]
    exactly when there is none. *)
Theorem bitmap_find_first_clear_least (b : Bitmap) (start : Z) :
  Bitmap_wf b -> 0 <= start < 2 ^ 32 -> start mod 8 = 0 ->
  exists r, Bitmap_find_first_clear b start = Done r /\
    ((r = BITMAP_NO_BITS_LEFT /\
      forall q, start <= q < m_bitmap_size b -> Bitmap_mem b q = true) \/
     (start <= r < m_bitmap_size b /\ Bitmap_mem b r = false /\
      forall q, start <= q < r -> Bitmap_mem b q = true)).
Proof.
  intros Hwf Hs Ha. destruct (Bitmap_find_first_clear_spec b Hwf start Hs) as (r & E & Hr).
  exists r. split; [done|]. destruct Hr as [[-> H]|(Hr & Hm & H)].
  - left. split; [done|]. intros q Hq. by apply H; [|lia|lia].
  - right. split; [done|]. split; [done|]. intros q Hq. by apply H; [|lia|lia].
Qed.

Lemma bitmap_find_first_clear_least_witness :
  exists r, Bitmap_find_first_clear (mkBitmap 10 [0xFF; 1]) 0 = Done r /\
    ((r = BITMAP_NO_BITS_LEFT /\
      forall q, 0 <= q < 10 -> Bitmap_mem (mkBitmap 10 [0xFF; 1]) q = true) \/
     (0 <= r < 10 /\ Bitmap_mem (mkBitmap 10 [0xFF; 1]) r = false /\
      forall q, 0 <= q < r -> Bitmap_mem (mkBitmap 10 [0xFF; 1]) q = true)).
Proof.
  apply (bitmap_find_first_clear_least (mkBitmap 10 [0xFF; 1]) 0);
    [apply (bool_decide_unpack _); vm_compute; exact I|lia|reflexivity].
Defined.

(** The searches for a run of bits skip a byte without restarting the count:
    [find_first_clear_range(2)] on a bitmap whose bits 0-6 and 8-15 are taken
    answers 15, a run whose first bit is taken. *)
Theorem bitmap_find_clear_range_returns_taken :
  exists b r, Bitmap_wf b /\ Bitmap_find_first_clear_range b 2 0 = Done r /\
    r <> BITMAP_NO_BITS_LEFT /\ Bitmap_mem b r = true.
Proof.
  exists (mkBitmap 24 [0x7F; 0xFF; 0; 0]), 15.
  split; [apply (bool_decide_unpack _); vm_compute; exact I|].
  split; [reflexivity|]. split; [discriminate|reflexivity].
Qed.
