(* ===== verification/CircularBuffer.v ===== *)
(** [CircularBuffer<T>] (circular_buffer.h): the bounded queue behind pipes, domain
    socket connections and the keyboard. The storage is raw memory: a slot is [None]
    until an object is constructed in it and again after its destructor has run;
    reading such a slot is a fault. The abstract specification is a bounded FIFO
    list, and every sequence of calls refines it. *)

From S2P Require Import Prelude Storage.

Record CircularBuffer (T : Type) := mkCB {
  cb_data : list (option T);
  cb_head : Z;
  cb_tail : Z;
  cb_size : Z;
  cb_capacity : Z
}.

Arguments mkCB {T}.
Arguments cb_data {T}.
Arguments cb_head {T}.
Arguments cb_tail {T}.
Arguments cb_size {T}.
Arguments cb_capacity {T}.

Section CircularBuffer.
Context {T : Type}.
Implicit Types (b other : CircularBuffer T) (x : T).

Definition CircularBuffer_new (size : Z) : CircularBuffer T :=
  mkCB (raw size) 0 0 0 size.

Definition CircularBuffer_is_empty b : bool := cb_size b =? 0.

Definition CircularBuffer_is_full b : bool := cb_size b =? cb_capacity b.

Definition CircularBuffer_size b : Z := cb_size b.

Definition CircularBuffer_available_size b : Z := u32 (cb_capacity b - cb_size b).

Definition CircularBuffer_queue b x : exec (CircularBuffer T) :=
  _ ← ASSERT (negb (CircularBuffer_is_full b));
  data ← aset (cb_data b) (cb_tail b) (Some x);
  Done (mkCB data (cb_head b) (u32 (cb_tail b + 1) mod cb_capacity b)
          (u32 (cb_size b + 1)) (cb_capacity b)).

Definition CircularBuffer_dequeue b : exec (T * CircularBuffer T) :=
  _ ← ASSERT (negb (CircularBuffer_is_empty b));
  ret_data ← slot_read (cb_data b) (cb_head b);
  data ← aset (cb_data b) (cb_head b) None;
  Done (ret_data, mkCB data (u32 (cb_head b + 1) mod cb_capacity b) (cb_tail b)
                    (u32 (cb_size b - 1)) (cb_capacity b)).

Definition CircularBuffer_front b : exec T :=
  _ ← ASSERT (negb (CircularBuffer_is_empty b));
  slot_read (cb_data b) (cb_head b).

Definition CircularBuffer_back b : exec T :=
  _ ← ASSERT (negb (CircularBuffer_is_empty b));
  if cb_tail b =? 0 then slot_read (cb_data b) (u32 (cb_capacity b - 1))
  else slot_read (cb_data b) (u32 (cb_tail b - 1)).

(** The copy loop of the copy constructor and of the copy assignment:
    [new (&m_data[index]) T{other.m_data[index]}] for [size] slots from [head]. *)
Definition cb_copy_loop (src data : list (option T)) (head size capacity : Z)
    : exec (list (option T)) :=
  fst <$> for_ (Z.to_nat size) 0
    (fun _ '(data, index) =>
       x ← slot_read src index;
       data' ← aset data index (Some x);
       Done (data', u32 (index + 1) mod capacity))
    (data, head).

Definition CircularBuffer_copy other : exec (CircularBuffer T) :=
  data ← cb_copy_loop (cb_data other) (raw (cb_capacity other))
           (cb_head other) (cb_size other) (cb_capacity other);
  Done (mkCB data (cb_head other) (cb_tail other) (cb_size other) (cb_capacity other)).

(** The move constructor returns the new buffer and what is left of [other]; a
    null [m_data] has no elements. *)
Definition CircularBuffer_move other : CircularBuffer T * CircularBuffer T :=
  (mkCB (cb_data other) (cb_head other) (cb_tail other) (cb_size other) (cb_capacity other),
   mkCB [] 0 0 0 (cb_capacity other)).

Definition CircularBuffer_destroy_used_objects b : exec (list (option T)) :=
  fst <$> for_ (Z.to_nat (cb_size b)) 0
    (fun _ '(data, index) =>
       _ ← slot_read data index;
       data' ← aset data index None;
       Done (data', u32 (index + 1) mod cb_capacity b))
    (cb_data b, cb_head b).

(** [operator=(const CircularBuffer&)] for two different objects. The fresh
    storage is allocated for [m_capacity] objects before [m_capacity] is
    overwritten. *)
Definition CircularBuffer_assign b other : exec (CircularBuffer T) :=
  destroyed ← CircularBuffer_destroy_used_objects b;
  let storage :=
    if cb_capacity b =? cb_capacity other then destroyed else raw (cb_capacity b) in
  data ← cb_copy_loop (cb_data other) storage
           (cb_head other) (cb_size other) (cb_capacity other);
  Done (mkCB data (cb_head other) (cb_tail other) (cb_size other) (cb_capacity other)).

(** [operator=(CircularBuffer&&)] for two different objects. *)
Definition CircularBuffer_move_assign b other
    : exec (CircularBuffer T * CircularBuffer T) :=
  _ ← CircularBuffer_destroy_used_objects b;
  Done (CircularBuffer_move other).

(** * Refinement of a bounded FIFO list *)

(** Slot of the [i]-th element from the front. *)
Definition cb_slot b (i : Z) : nat := Z.to_nat ((cb_head b + i) mod cb_capacity b).

(** [cb_rep b l]: the buffer holds the elements of [l], front first; every slot
    outside the window is raw. *)
Record cb_rep b (l : list T) : Prop := {
  rep_capacity : 0 < cb_capacity b < 2 ^ 32;
  rep_storage : alen (cb_data b) = cb_capacity b;
  rep_head : 0 <= cb_head b < cb_capacity b;
  rep_size : cb_size b = alen l;
  rep_fits : alen l <= cb_capacity b;
  rep_tail : cb_tail b = (cb_head b + cb_size b) mod cb_capacity b;
  rep_live : forall i x, l !! i = Some x ->
    cb_data b !! cb_slot b (Z.of_nat i) = Some (Some x);
  rep_raw : forall i, alen l <= i < cb_capacity b ->
    cb_data b !! cb_slot b i = Some None
}.

Lemma wrap_index h i c :
  0 <= h < c -> 0 <= i <= c -> (h + i) mod c = if h + i <? c then h + i else h + i - c.
Proof.
  intros Hh Hi. case_test.
  - rewrite Z.mod_small; lia.
  - symmetry. apply (Z.mod_unique _ _ 1); lia.
Qed.

Lemma cb_slot_inj b i j :
  0 <= cb_head b < cb_capacity b -> 0 <= i < cb_capacity b -> 0 <= j < cb_capacity b ->
  cb_slot b i = cb_slot b j -> i = j.
Proof.
  intros Hh Hi Hj. unfold cb_slot. rewrite !wrap_index by lia.
  repeat case_test; lia.
Qed.

Lemma cb_slot_range b i :
  0 < cb_capacity b -> 0 <= Z.of_nat (cb_slot b i) < cb_capacity b.
Proof. intros. unfold cb_slot. pose proof (Z.mod_pos_bound (cb_head b + i) (cb_capacity b)). lia. Qed.

Lemma cb_new_rep size : 0 < size < 2 ^ 32 -> cb_rep (CircularBuffer_new size) [].
Proof.
  intros Hs. split; simpl; [lia| |lia|done| |by rewrite Z.mod_0_l by lia|done|].
  - rewrite alen_raw; lia.
  - unfold alen. simpl. lia.
  - intros i Hi. apply lookup_replicate. split; [done|].
    pose proof (cb_slot_range (CircularBuffer_new size) i). simpl in *. lia.
Qed.

Lemma rep_is_full b l :
  cb_rep b l -> CircularBuffer_is_full b = (alen l =? cb_capacity b).
Proof. intros H. unfold CircularBuffer_is_full. by rewrite (rep_size _ _ H). Qed.

Lemma rep_is_empty b l :
  cb_rep b l -> CircularBuffer_is_empty b = (alen l =? 0).
Proof. intros H. unfold CircularBuffer_is_empty. by rewrite (rep_size _ _ H). Qed.

Lemma rep_available b l :
  cb_rep b l -> CircularBuffer_available_size b = cb_capacity b - alen l.
Proof.
  intros H. unfold CircularBuffer_available_size. pose proof (rep_capacity _ _ H).
  pose proof (rep_fits _ _ H). pose proof (alen_nonneg l).
  rewrite (rep_size _ _ H), u32_small; lia.
Qed.

(** [queue] appends when there is room. *)
Lemma queue_rep b l x :
  cb_rep b l -> alen l < cb_capacity b ->
  exists b', CircularBuffer_queue b x = Done b' /\ cb_rep b' (l ++ [x]) /\
    cb_capacity b' = cb_capacity b.
Proof.
  intros H Hroom. pose proof (rep_capacity _ _ H). pose proof (rep_head _ _ H).
  pose proof (alen_nonneg l) as Hnn. pose proof (rep_tail _ _ H) as Htail.
  pose proof (rep_size _ _ H) as Hsize. pose proof (rep_storage _ _ H) as Hst.
  assert (Hslot : cb_tail b = Z.of_nat (cb_slot b (alen l))).
  { unfold cb_slot. rewrite Htail, Hsize.
    pose proof (Z.mod_pos_bound (cb_head b + alen l) (cb_capacity b)). lia. }
  pose proof (cb_slot_range b (alen l)) as Hr.
  unfold CircularBuffer_queue. rewrite (rep_is_full _ _ H).
  rewrite (proj2 (Z.eqb_neq _ _)) by lia. simpl.
  rewrite aset_Done by lia. simpl. eexists; split; [done|]. split; [|done].
  replace (Z.to_nat (cb_tail b)) with (cb_slot b (alen l)) by lia.
  split; simpl; try done.
  - by rewrite alen_insert.
  - rewrite alen_snoc, Hsize, u32_small; lia.
  - rewrite alen_snoc. lia.
  - rewrite Htail, (u32_small (_ + 1)), Hsize, (u32_small (alen l + 1)) by lia.
    rewrite Zplus_mod_idemp_l. f_equal. lia.
  - intros i y Hy. apply lookup_snoc_Some in Hy as [[Hlt Hy]|[-> ->]].
    + rewrite list_lookup_insert_ne; [by apply (rep_live _ _ H)|].
      intros E. apply (cb_slot_inj b) in E; unfold alen in *; lia.
    + apply list_lookup_insert_eq. unfold alen in *. lia.
  - intros i Hi. rewrite alen_snoc in Hi.
    rewrite list_lookup_insert_ne; [apply (rep_raw _ _ H); lia|].
    intros E. apply (cb_slot_inj b) in E; lia.
Qed.

(** [dequeue] removes the front element. *)
Lemma dequeue_rep b l x :
  cb_rep b (x :: l) ->
  exists b', CircularBuffer_dequeue b = Done (x, b') /\ cb_rep b' l /\
    cb_capacity b' = cb_capacity b.
Proof.
  intros H. pose proof (rep_capacity _ _ H). pose proof (rep_head _ _ H) as Hh.
  pose proof (rep_fits _ _ H) as Hf. pose proof (rep_size _ _ H) as Hsize.
  pose proof (rep_storage _ _ H) as Hst. pose proof (rep_tail _ _ H) as Htail.
  pose proof (alen_nonneg l) as Hnn. rewrite alen_cons in *.
  assert (Hslot : Z.of_nat (cb_slot b 0) = cb_head b).
  { unfold cb_slot. rewrite Z.mod_small; lia. }
  pose proof (rep_live _ _ H 0%nat x eq_refl) as Hlive0. simpl in Hlive0.
  unfold CircularBuffer_dequeue. rewrite (rep_is_empty _ _ H), alen_cons.
  rewrite (proj2 (Z.eqb_neq _ _)) by lia. simpl.
  erewrite slot_read_Done; [|lia|by replace (Z.to_nat (cb_head b)) with (cb_slot b 0) by lia].
  simpl. rewrite aset_Done by lia. simpl. eexists; split; [done|]. split; [|done].
  replace (Z.to_nat (cb_head b)) with (cb_slot b 0) by lia.
  rewrite (u32_small (cb_head b + 1)), (u32_small (cb_size b - 1)) by lia.
  assert (Hshift : forall i, 0 <= i -> Z.to_nat (((cb_head b + 1) mod cb_capacity b + i) mod cb_capacity b)
                      = cb_slot b (i + 1)).
  { intros i Hi. unfold cb_slot. rewrite Zplus_mod_idemp_l. f_equal. f_equal. lia. }
  split; simpl; try done; try lia.
  - by rewrite alen_insert.
  - apply Z.mod_pos_bound. lia.
  - rewrite Htail, Zplus_mod_idemp_l. f_equal. lia.
  - intros i y Hy. unfold cb_slot; simpl. rewrite Hshift by lia.
    rewrite list_lookup_insert_ne.
    + replace (Z.of_nat i + 1) with (Z.of_nat (S i)) by lia. by apply (rep_live _ _ H).
    + intros E. apply lookup_lt_Some in Hy. apply (cb_slot_inj b) in E; unfold alen in *; lia.
  - intros i Hi. unfold cb_slot; simpl. rewrite Hshift by lia.
    destruct (decide (i + 1 = cb_capacity b)) as [Hw|Hw].
    + replace (cb_slot b (i + 1)) with (cb_slot b 0).
      * apply list_lookup_insert_eq. unfold alen in Hst. fold (cb_slot b 0). lia.
      * unfold cb_slot. rewrite Hw, !wrap_index by lia. repeat case_test; lia.
    + rewrite list_lookup_insert_ne; [apply (rep_raw _ _ H); rewrite alen_cons; lia|].
      intros E. apply (cb_slot_inj b) in E; lia.
Qed.

Lemma queue_full b l x :
  cb_rep b l -> alen l = cb_capacity b -> CircularBuffer_queue b x = Panic.
Proof.
  intros H Hfull. unfold CircularBuffer_queue.
  by rewrite (rep_is_full _ _ H), Hfull, Z.eqb_refl.
Qed.

Lemma dequeue_empty b : cb_rep b [] -> CircularBuffer_dequeue b = Panic.
Proof. intros H. unfold CircularBuffer_dequeue. by rewrite (rep_is_empty _ _ H). Qed.

(** ** Sequences of calls *)

Inductive cb_call := CallQueue (x : T) | CallDequeue.

(** The implementation: the values the calls return, in order. *)
Fixpoint cb_run b (calls : list cb_call) : exec (list T * CircularBuffer T) :=
  match calls with
  | [] => Done ([], b)
  | CallQueue x :: rest => b' ← CircularBuffer_queue b x; cb_run b' rest
  | CallDequeue :: rest =>
      r ← CircularBuffer_dequeue b;
      out ← cb_run r.2 rest;
      Done (r.1 :: out.1, out.2)
  end.

(** The specification: a list of at most [capacity] elements; overflow and
    underflow stop the machine. *)
Fixpoint fifo_run (capacity : Z) (l : list T) (calls : list cb_call)
    : exec (list T * list T) :=
  match calls with
  | [] => Done ([], l)
  | CallQueue x :: rest =>
      if alen l <? capacity then fifo_run capacity (l ++ [x]) rest else Panic
  | CallDequeue :: rest =>
      match l with
      | [] => Panic
      | x :: l' => out ← fifo_run capacity l' rest; Done (x :: out.1, out.2)
      end
  end.

Definition run_agrees (impl : exec (list T * CircularBuffer T)) (spec : exec (list T * list T)) : Prop :=
  match impl, spec with
  | Done (out, b), Done (out', l) => out = out' /\ cb_rep b l
  | Panic, Panic => True
  | _, _ => False
  end.

Lemma cb_run_refines calls b l :
  cb_rep b l -> run_agrees (cb_run b calls) (fifo_run (cb_capacity b) l calls).
Proof.
  revert b l. induction calls as [|[x|] rest IH]; intros b l H; simpl; [done|..].
  - pose proof (rep_fits _ _ H). destruct (Z.ltb_spec (alen l) (cb_capacity b)).
    + destruct (queue_rep b l x H) as (b' & E & H' & Hc); [done|].
      rewrite E. simpl. rewrite <- Hc. by apply IH.
    + by rewrite (queue_full b l x) by (done || lia).
  - destruct l as [|x l].
    + by rewrite (dequeue_empty b) by done.
    + destruct (dequeue_rep b l x H) as (b' & E & H' & Hc).
      rewrite E. simpl. rewrite <- Hc. specialize (IH b' l H').
      destruct (cb_run b' rest) as [[o1 b1]| | |], (fifo_run (cb_capacity b') l rest)
        as [[o2 l2]| | |]; simpl in *; try done.
      by destruct IH as [-> ?].
Qed.

(** ** Copies *)

Lemma cb_copy_loop_spec src dst l :
  cb_rep src l -> alen dst = cb_capacity src ->
  (forall i, dst !! cb_slot src i = Some None) ->
  exists data, cb_copy_loop (cb_data src) dst (cb_head src) (cb_size src) (cb_capacity src)
               = Done data /\ alen data = alen dst /\
    (forall i x, l !! i = Some x -> data !! cb_slot src (Z.of_nat i) = Some (Some x)) /\
    (forall i, alen l <= i < cb_capacity src -> data !! cb_slot src i = Some None).
Proof.
  intros H Hd Hraw. pose proof (rep_capacity _ _ H). pose proof (rep_head _ _ H).
  pose proof (rep_fits _ _ H). pose proof (rep_size _ _ H) as Hsize.
  pose proof (rep_storage _ _ H) as Hst. unfold cb_copy_loop.
  destruct (for_inv (fun j '(data, index) =>
      index = (cb_head src + j) mod cb_capacity src /\ alen data = alen dst /\
      (forall i x, Z.of_nat i < j -> l !! i = Some x ->
         data !! cb_slot src (Z.of_nat i) = Some (Some x)) /\
      (forall i, j <= i < cb_capacity src -> data !! cb_slot src i = Some None))
    (fun _ '(data, index) => x ← slot_read (cb_data src) index;
       data' ← aset data index (Some x); Done (data', u32 (index + 1) mod cb_capacity src))
    (Z.to_nat (cb_size src)) 0 (dst, cb_head src)) as ([data index] & E & _ & Hl1 & Hl2 & Hl3).
  - split; [rewrite Z.mod_small; lia|]. split; [done|]. split; [lia|]. auto.
  - intros j [data index] Hj (-> & Hl & Hcp & Hrw).
    pose proof (Z.mod_pos_bound (cb_head src + j) (cb_capacity src)) as Hb.
    destruct (lookup_lt_is_Some_2 l (Z.to_nat j)) as [x Hx]; [unfold alen in *; lia|].
    pose proof (rep_live _ _ H _ _ Hx) as Hlive. rewrite Z2Nat.id in Hlive by lia.
    rewrite (slot_read_Done _ _ x) by (done || lia). simpl.
    rewrite aset_Done by lia. simpl. eexists; split; [done|].
    change (Z.to_nat ((cb_head src + j) mod cb_capacity src)) with (cb_slot src j).
    split; [rewrite u32_small, Zplus_mod_idemp_l by lia; f_equal; lia|].
    split; [by rewrite alen_insert|]. split.
    + intros i y Hi Hy. destruct (decide (Z.of_nat i = j)) as [<-|Hne].
      * rewrite Nat2Z.id in Hx. rewrite list_lookup_insert_eq; [congruence|].
        pose proof (cb_slot_range src (Z.of_nat i)). unfold alen in *. lia.
      * rewrite list_lookup_insert_ne; [apply Hcp; [lia|done]|].
        intros Es. apply (cb_slot_inj src) in Es; lia.
    + intros i Hi. rewrite list_lookup_insert_ne; [apply Hrw; lia|].
      intros Es. apply (cb_slot_inj src) in Es; lia.
  - rewrite E. simpl. eexists; split; [done|]. split; [done|].
    split; [|intros i Hi; apply Hl3; unfold alen in *; lia].
    intros i x Hx. apply Hl2; [|done]. apply lookup_lt_Some in Hx. unfold alen in *. lia.
Qed.

Lemma rep_copy_of src data l :
  cb_rep src l -> alen data = cb_capacity src ->
  (forall i x, l !! i = Some x -> data !! cb_slot src (Z.of_nat i) = Some (Some x)) ->
  (forall i, alen l <= i < cb_capacity src -> data !! cb_slot src i = Some None) ->
  cb_rep (mkCB data (cb_head src) (cb_tail src) (cb_size src) (cb_capacity src)) l.
Proof. intros [] **. split; simpl; done. Qed.

Lemma raw_slots b n i :
  0 < cb_capacity b -> cb_capacity b <= n -> @raw T n !! cb_slot b i = Some None.
Proof.
  intros Hc Hn. apply lookup_replicate. split; [done|].
  pose proof (cb_slot_range b i). lia.
Qed.

Lemma copy_rep src l :
  cb_rep src l -> exists b, CircularBuffer_copy src = Done b /\ cb_rep b l.
Proof.
  intros H. pose proof (rep_capacity _ _ H).
  assert (Hl : alen (@raw T (cb_capacity src)) = cb_capacity src).
  { rewrite alen_raw; lia. }
  destruct (cb_copy_loop_spec src (raw (cb_capacity src)) l) as (data & E & Hd & H1 & H2);
    [done|done|intros; apply raw_slots; lia|].
  unfold CircularBuffer_copy. rewrite E. simpl. eexists; split; [done|].
  apply rep_copy_of; [done|congruence|done|done].
Qed.

Lemma cb_slot_surj b (k : nat) :
  0 <= cb_head b < cb_capacity b -> Z.of_nat k < cb_capacity b ->
  exists i, 0 <= i < cb_capacity b /\ cb_slot b i = k.
Proof.
  intros Hh Hk.
  exists (if cb_head b <=? Z.of_nat k then Z.of_nat k - cb_head b
          else Z.of_nat k - cb_head b + cb_capacity b).
  destruct (Z.leb_spec (cb_head b) (Z.of_nat k)); split; try lia;
    unfold cb_slot; rewrite wrap_index by lia; case_test; lia.
Qed.

(** The destructor loop leaves only raw slots. *)
Lemma destroy_spec b l :
  cb_rep b l ->
  exists data, CircularBuffer_destroy_used_objects b = Done data /\
    data = raw (cb_capacity b).
Proof.
  intros H. pose proof (rep_capacity _ _ H). pose proof (rep_head _ _ H).
  pose proof (rep_fits _ _ H). pose proof (rep_size _ _ H) as Hsize.
  pose proof (rep_storage _ _ H) as Hst. unfold CircularBuffer_destroy_used_objects.
  destruct (for_inv (fun j '(data, index) =>
      index = (cb_head b + j) mod cb_capacity b /\ alen data = cb_capacity b /\
      (forall i x, j <= Z.of_nat i -> l !! i = Some x ->
         data !! cb_slot b (Z.of_nat i) = Some (Some x)) /\
      (forall i, 0 <= i < j \/ alen l <= i < cb_capacity b ->
         data !! cb_slot b i = Some None))
    (fun _ '(data, index) => _ ← slot_read data index;
       data' ← aset data index None; Done (data', u32 (index + 1) mod cb_capacity b))
    (Z.to_nat (cb_size b)) 0 (cb_data b, cb_head b)) as ([data index] & E & _ & Hl & _ & Hr).
  - split; [rewrite Z.mod_small; lia|]. split; [done|]. split.
    + intros i x _. apply (rep_live _ _ H).
    + intros i Hi. apply (rep_raw _ _ H). lia.
  - intros j [data index] Hj (-> & Hl & Hlive & Hraw).
    pose proof (Z.mod_pos_bound (cb_head b + j) (cb_capacity b)) as Hb.
    destruct (lookup_lt_is_Some_2 l (Z.to_nat j)) as [x Hx]; [unfold alen in *; lia|].
    pose proof (Hlive (Z.to_nat j) x ltac:(lia) Hx) as Hxl. rewrite Z2Nat.id in Hxl by lia.
    rewrite (slot_read_Done _ _ x) by (done || lia). simpl.
    rewrite aset_Done by lia. simpl. eexists; split; [done|].
    change (Z.to_nat ((cb_head b + j) mod cb_capacity b)) with (cb_slot b j).
    split; [rewrite u32_small, Zplus_mod_idemp_l by lia; f_equal; lia|].
    split; [by rewrite alen_insert|]. split.
    + intros i y Hi Hy. rewrite list_lookup_insert_ne; [apply Hlive; [lia|done]|].
      apply lookup_lt_Some in Hy. intros Es.
      apply (cb_slot_inj b) in Es; unfold alen in *; lia.
    + intros i Hi. destruct (decide (i = j)) as [->|].
      * apply list_lookup_insert_eq. pose proof (cb_slot_range b j). unfold alen in *. lia.
      * rewrite list_lookup_insert_ne; [apply Hraw; lia|].
        intros Es. apply (cb_slot_inj b) in Es; unfold alen in *; lia.
  - rewrite E. simpl. eexists; split; [done|]. apply list_eq_same_length with (n := length data).
    + unfold raw. rewrite length_replicate. unfold alen in Hl. lia.
    + done.
    + intros k x y Hk Hx Hy. apply lookup_replicate in Hy as [-> _].
      destruct (cb_slot_surj b k) as (i & Hi & <-); [lia|unfold alen in Hl; lia|].
      rewrite Hr in Hx; [congruence|]. unfold alen in *. lia.
Qed.

(** Copy assignment between buffers of the same capacity. *)
Lemma assign_rep b other l l' :
  cb_rep b l -> cb_rep other l' -> cb_capacity b = cb_capacity other ->
  exists b', CircularBuffer_assign b other = Done b' /\ cb_rep b' l'.
Proof.
  intros H H' Hc. pose proof (rep_capacity _ _ H').
  destruct (destroy_spec b l H) as (d & E & ->). unfold CircularBuffer_assign.
  rewrite E. simpl. rewrite Hc, Z.eqb_refl.
  assert (Hl : alen (@raw T (cb_capacity other)) = cb_capacity other).
  { rewrite alen_raw; lia. }
  destruct (cb_copy_loop_spec other (raw (cb_capacity other)) l') as (data & Ed & Hd & H1 & H2);
    [done|done|intros; apply raw_slots; lia|].
  rewrite Ed. simpl. eexists; split; [done|]. apply rep_copy_of; [done|congruence|done|done].
Qed.

Lemma front_rep b x l : cb_rep b (x :: l) -> CircularBuffer_front b = Done x.
Proof.
  intros H. unfold CircularBuffer_front. pose proof (rep_head _ _ H).
  rewrite (rep_is_empty _ _ H), alen_cons. pose proof (alen_nonneg l).
  rewrite (proj2 (Z.eqb_neq _ _)) by lia. simpl.
  pose proof (rep_live _ _ H 0%nat x eq_refl) as Hx. unfold cb_slot in Hx.
  rewrite Z.mod_small in Hx by lia.
  apply slot_read_Done; [lia|]. by replace (cb_head b) with (cb_head b + Z.of_nat 0) by lia.
Qed.

Lemma back_rep b x l : cb_rep b (l ++ [x]) -> CircularBuffer_back b = Done x.
Proof.
  intros H. unfold CircularBuffer_back. pose proof (rep_head _ _ H).
  pose proof (rep_fits _ _ H) as Hf. pose proof (rep_capacity _ _ H).
  pose proof (alen_nonneg l) as Hn. pose proof (rep_tail _ _ H) as Ht.
  rewrite (rep_is_empty _ _ H). rewrite alen_snoc in Hf |- *. rewrite (rep_size _ _ H), alen_snoc in Ht.
  rewrite (proj2 (Z.eqb_neq (alen l + 1) 0)) by lia. simpl.
  pose proof (rep_live _ _ H (length l) x) as Hx. rewrite list_lookup_middle in Hx by done.
  specialize (Hx eq_refl). fold (alen l) in Hx. unfold cb_slot in Hx.
  rewrite !wrap_index in * by lia. rewrite Ht. revert Hx.
  repeat case_test; intros Hx; try lia; apply slot_read_Done;
    rewrite ?u32_small by lia; try lia; rewrite <- Hx; f_equal; lia.
Qed.

End CircularBuffer.

Arguments cb_call : clear implicits.

#[export] Hint Resolve cb_new_rep : cyan.

(** * Properties *)

(** Any sequence of [queue] and [dequeue] calls on a fresh [CircularBuffer] of
    non-zero capacity behaves as a bounded first-in first-out list: the same values
    come out in the same order, the same calls stop on an overflow or underflow
    assertion, and no call touches memory outside the buffer. *)
Theorem circular_buffer_refines_fifo {T} (capacity : Z) (calls : list (cb_call T)) :
  0 < capacity < 2 ^ 32 ->
  run_agrees (cb_run (CircularBuffer_new capacity) calls) (fifo_run capacity [] calls).
Proof. intros H. exact (cb_run_refines calls _ [] (cb_new_rep capacity H)). Qed.

Lemma circular_buffer_refines_fifo_witness :
  run_agrees
    (cb_run (CircularBuffer_new 2) [CallQueue 7; CallQueue 8; CallDequeue; CallQueue 9; CallDequeue])
    (fifo_run 2 [] [CallQueue 7; CallQueue 8; CallDequeue; CallQueue 9; CallDequeue]).
Proof.
  apply (circular_buffer_refines_fifo 2
           [CallQueue 7; CallQueue 8; CallDequeue; CallQueue 9; CallDequeue]). lia.
Defined.

(** [front] and [back] give the first and last element, and the copy constructor
    and the copy assignment between buffers of equal capacity give a buffer with the
    same elements in the same order. *)
Theorem circular_buffer_copies {T} (b other : CircularBuffer T) (l l' : list T) (x y : T) :
  cb_rep b l -> cb_rep other (x :: l' ++ [y]) -> cb_capacity b = cb_capacity other ->
  CircularBuffer_front other = Done x /\ CircularBuffer_back other = Done y /\
  (exists c, CircularBuffer_copy other = Done c /\ cb_rep c (x :: l' ++ [y])) /\
  (exists c, CircularBuffer_assign b other = Done c /\ cb_rep c (x :: l' ++ [y])).
Proof.
  intros Hb Ho Hc. split; [by eapply front_rep|]. split; [by eapply (back_rep _ _ (x :: l'))|].
  split; [by apply copy_rep|by eapply assign_rep].
Qed.

Lemma circular_buffer_copies_witness :
  exists c, CircularBuffer_assign (CircularBuffer_new 3)
              (mkCB [Some 2; None; Some 1] 2 1 2 3) = Done c /\ cb_rep c [1; 2].
Proof.
  apply (circular_buffer_copies (CircularBuffer_new 3) (mkCB [Some 2; None; Some 1] 2 1 2 3)
           [] [] 1 2).
  - apply cb_new_rep. lia.
  - constructor; [simpl; lia|reflexivity|simpl; lia|reflexivity|vm_compute; congruence
      |reflexivity|intros [|[|i]] x Hx; by simplify_eq/=|].
    intros i Hi. by assert (i = 2) as -> by (unfold alen in Hi; simpl in Hi; lia).
  - done.
Defined.

(** The copy assignment allocates for its own old capacity and then copies as many
    elements as the source holds: assigning from a larger buffer writes past the end
    of the storage. *)
Theorem circular_buffer_assign_overruns :
  exists (b other : CircularBuffer Z) l l',
    cb_rep b l /\ cb_rep other l' /\ CircularBuffer_assign b other = Fault.
Proof.
  destruct (queue_rep (CircularBuffer_new 2) [] 7) as (c & Ec & Hc & Hcap);
    [apply cb_new_rep; lia|done|].
  destruct (queue_rep c [7] 8) as (d & Ed & Hd & _); [done|rewrite Hcap; done|].
  exists (CircularBuffer_new 1), d, [], [7; 8].
  split; [apply cb_new_rep; lia|]. split; [done|].
  vm_compute in Ec. injection Ec as <-. vm_compute in Ed. injection Ed as <-.
  reflexivity.
Qed.
