(* ===== verification/Vector.v ===== *)
(** [Vector<T>] (vector.h): the growing array of the standard library, used for the
    wait queues, the children of a directory, the handles and the arguments of a
    process. Storage is raw memory (file Storage); a null [m_storage] is [None].
    Allocation sizes [n * sizeof(T)] are taken not to leave 32 bits. The abstract
    specification is a list. *)

From S2P Require Import Prelude Storage.

Record Vector (T : Type) := mkVector {
  v_storage : option (list (option T));
  v_count : Z;
  v_capacity : Z;
  v_allocation_steps : Z
}.

Arguments mkVector {T}.
Arguments v_storage {T}.
Arguments v_count {T}.
Arguments v_capacity {T}.
Arguments v_allocation_steps {T}.

Section Vector.
Context {T : Type}.

(** Whether assignment to an element may be applied to raw memory: it may for
    integers and pointers, it runs on an indeterminate object for class types. *)
Context (trivial : bool).

Implicit Types (v other : Vector T) (x : T) (pos : Z).

(** The elements the storage pointer gives access to: none through a null one. *)
Definition v_slots v : list (option T) := default [] (v_storage v).

(** [m_storage[i] = x] *)
Definition element_assign (d : list (option T)) (i : Z) x : exec (list (option T)) :=
  if trivial then aset d i (Some x) else slot_assign d i x.

Definition Vector_destruct_used_objects v : exec (list (option T)) :=
  destroy_loop (Z.to_nat (v_count v)) 0 (v_slots v).

Definition Vector_copy_storage (storage other_storage : list (option T)) (size : Z)
    : exec (list (option T)) :=
  construct_loop other_storage (Z.to_nat size) 0 0 storage.

(** The moved-from objects stay alive until [destruct_used_objects]. *)
Definition Vector_realloc v (new_capacity : Z) : exec (Vector T) :=
  _ ← ASSERT (truthy new_capacity);
  if v_capacity v <? new_capacity then
    new_storage ← construct_loop (v_slots v) (Z.to_nat (v_count v)) 0 0 (raw new_capacity);
    _ ← Vector_destruct_used_objects v;
    Done (mkVector (Some new_storage) (v_count v) new_capacity (v_allocation_steps v))
  else Panic.

Definition Vector_new (reserved_size allocation_steps : Z) : exec (Vector T) :=
  _ ← ASSERT (truthy reserved_size);
  _ ← ASSERT (truthy allocation_steps);
  Vector_realloc (mkVector None 0 0 allocation_steps) reserved_size.

Definition Vector_copy other : exec (Vector T) :=
  storage ← Vector_copy_storage (raw (v_count other)) (v_slots other) (v_count other);
  Done (mkVector (Some storage) (v_count other) (v_capacity other) (v_allocation_steps other)).

(** The new vector and what is left of [other]. *)
Definition Vector_move other : Vector T * Vector T :=
  (mkVector (v_storage other) (v_count other) (v_capacity other) (v_allocation_steps other),
   mkVector None 0 (v_capacity other) (v_allocation_steps other)).

(** [operator=] for two different objects. *)
Definition Vector_assign v other : exec (Vector T) :=
  destructed ← Vector_destruct_used_objects v;
  let storage :=
    if v_capacity v =? v_capacity other then destructed else raw (v_count other) in
  data ← Vector_copy_storage storage (v_slots other) (v_count other);
  Done (mkVector (Some data) (v_count other) (v_capacity other) (v_allocation_steps other)).

Definition Vector_move_assign v other : exec (Vector T * Vector T) :=
  _ ← Vector_destruct_used_objects v;
  Done (Vector_move other).

Definition Vector_realloc_with_free_spot v (new_capacity free_spot_index : Z) : exec (Vector T) :=
  _ ← ASSERT (u32 (v_count v + 1) <=? new_capacity);
  _ ← ASSERT (free_spot_index <=? v_count v);
  if v_capacity v <? new_capacity then
    low ← construct_loop (v_slots v) (Z.to_nat free_spot_index) 0 0 (raw new_capacity);
    new_storage ← construct_loop (v_slots v) (Z.to_nat (v_count v - free_spot_index))
                    free_spot_index 1 low;
    _ ← Vector_destruct_used_objects v;
    Done (mkVector (Some new_storage) (v_count v) new_capacity (v_allocation_steps v))
  else Panic.

(** [for (i = m_count; i >= free_spot_index + 1; i--)]: the [k]-th turn has
    [i = m_count - k]. *)
Definition Vector_make_free_spot v (free_spot_index : Z) : exec (Vector T) :=
  data ← for_ (Z.to_nat (v_count v - free_spot_index)) 0
    (fun k d =>
       let i := v_count v - k in
       x ← slot_read d (i - 1);
       d' ← element_assign d i x;
       slot_destroy d' (i - 1))
    (v_slots v);
  Done (mkVector (Some data) (v_count v) (v_capacity v) (v_allocation_steps v)).

Definition Vector_reserve v (size : Z) : exec (Vector T) :=
  if v_capacity v <? size then Vector_realloc v size else Done v.

Definition Vector_clear v : exec (Vector T) :=
  data ← Vector_destruct_used_objects v;
  Done (mkVector ((fun _ => data) <$> v_storage v) 0 (v_capacity v) (v_allocation_steps v)).

(** An iterator is its index [m_current] in the storage. *)
Definition Vector_begin v : Z := 0.

Definition Vector_end v : Z := v_count v.

(** [insert]: the new vector and the iterator it returns. *)
Definition Vector_insert v pos x : exec (Vector T * Z) :=
  _ ← ASSERT (not_null (v_storage v));
  v' ← if v_count v =? v_capacity v then
         Vector_realloc_with_free_spot v (u32 (v_capacity v + v_allocation_steps v)) pos
       else Vector_make_free_spot v pos;
  data ← aset (v_slots v') pos (Some x);
  Done (mkVector (Some data) (u32 (v_count v' + 1)) (v_capacity v') (v_allocation_steps v'), pos).

Definition Vector_push_back v x : exec (Vector T * Z) := Vector_insert v (Vector_end v) x.

Definition Vector_push_front v x : exec (Vector T * Z) := Vector_insert v (Vector_begin v) x.

(** [emplace] of an object that is made from its arguments. *)
Definition Vector_emplace v pos x : exec (Vector T * Z) :=
  _ ← ASSERT (not_null (v_storage v));
  v' ← if v_count v =? v_capacity v then
         Vector_realloc_with_free_spot v (u32 (v_capacity v + v_allocation_steps v)) pos
       else Vector_make_free_spot v pos;
  data ← aset (v_slots v') pos (Some x);
  Done (mkVector (Some data) (u32 (v_count v' + 1)) (v_capacity v') (v_allocation_steps v'), pos).

Definition Vector_emplace_back v x : exec (Vector T * Z) := Vector_emplace v (Vector_end v) x.

Definition Vector_emplace_front v x : exec (Vector T * Z) := Vector_emplace v (Vector_begin v) x.

Definition Vector_remove v pos : exec (Vector T) :=
  _ ← ASSERT (not_null (v_storage v));
  _ ← slot_read (v_slots v) pos;
  data ← for_ (Z.to_nat (u32 (v_count v - 1) - pos)) pos
    (fun i d => x ← slot_read d (i + 1); slot_assign d i x)
    (v_slots v);
  data' ← slot_destroy data (u32 (v_count v - 1));
  Done (mkVector (Some data') (u32 (v_count v - 1)) (v_capacity v) (v_allocation_steps v)).

Definition Vector_pop_back v : exec (Vector T) := Vector_remove v (u32 (Vector_end v - 1)).

Definition Vector_pop_front v : exec (Vector T) := Vector_remove v (Vector_begin v).

(** [splice] moves the element at [from] of [v] to position [to] of the
    destination, a different vector. *)
Definition Vector_splice v destination_list (from to : Z) : exec (Vector T * Vector T) :=
  x ← slot_read (v_slots v) from;
  d ← Vector_insert destination_list to x;
  v' ← Vector_remove v from;
  Done (v', d.1).

Section predicates.
Context (predicate : T -> bool).

(** Every turn removes an element or advances: [m_count + 1] turns are enough. *)
Definition Vector_remove_if v : exec (Vector T * bool) :=
  while (S (Z.to_nat (v_count v)))
    (fun '(v, i, is_removed) =>
       if negb (i =? Vector_end v) then
         x ← slot_read (v_slots v) i;
         if predicate x then v' ← Vector_remove v i; Done (inl (v', i, true))
         else Done (inl (v, u32 (i + 1), is_removed))
       else Done (inr (v, is_removed)))
    (v, Vector_begin v, false).

Definition Vector_find_if v : exec Z :=
  while (S (Z.to_nat (v_count v)))
    (fun i =>
       if negb (i =? Vector_end v) then
         x ← slot_read (v_slots v) i;
         if predicate x then Done (inr i) else Done (inl (u32 (i + 1)))
       else Done (inr (Vector_end v)))
    (Vector_begin v).

Definition Vector_contains v : exec bool :=
  i ← Vector_find_if v;
  Done (negb (i =? Vector_end v)).

End predicates.

Definition Vector_find `{EqDecision T} v (element : T) : exec Z :=
  Vector_find_if (fun x => bool_decide (element = x)) v.

Definition Vector_head v : exec T :=
  _ ← ASSERT (not_null (v_storage v));
  slot_read (v_slots v) 0.

Definition Vector_tail v : exec T :=
  _ ← ASSERT (not_null (v_storage v));
  slot_read (v_slots v) (u32 (v_count v - 1)).

Definition Vector_at v (index : Z) : exec T :=
  _ ← ASSERT (index <? v_count v);
  _ ← ASSERT (not_null (v_storage v));
  slot_read (v_slots v) index.

Definition Vector_size v : Z := v_count v.

Definition Vector_capacity v : Z := v_capacity v.

Definition Vector_is_empty v : bool := negb (truthy (Vector_size v)).

(** * Refinement of a list *)

(** The vector holds the elements of [l] in its first slots; the capacity it
    records is the one of its storage. *)
Record v_rep v (l : list T) : Prop := {
  v_rep_storage : v_storage v = Some (filled l (v_capacity v));
  v_rep_count : v_count v = alen l;
  v_rep_fits : alen l <= v_capacity v < 2 ^ 32;
  v_rep_steps : 0 < v_allocation_steps v
}.

Lemma v_rep_slots v l : v_rep v l -> v_slots v = filled l (v_capacity v).
Proof. intros H. unfold v_slots. by rewrite (v_rep_storage _ _ H). Qed.

Lemma v_rep_nat v l : v_rep v l -> Z.to_nat (v_count v) = length l.
Proof. intros H. rewrite (v_rep_count _ _ H). unfold alen. lia. Qed.

Lemma mkVector_rep l n steps :
  alen l <= n < 2 ^ 32 -> 0 < steps -> v_rep (mkVector (Some (filled l n)) (alen l) n steps) l.
Proof. intros. by split. Qed.

Lemma destruct_rep v l :
  v_rep v l -> Vector_destruct_used_objects v = Done (raw (v_capacity v)).
Proof.
  intros H. unfold Vector_destruct_used_objects. rewrite (v_rep_slots _ _ H), (v_rep_nat _ _ H).
  apply destroy_filled. apply (v_rep_fits _ _ H).
Qed.

Lemma realloc_rep v l n :
  v_rep v l -> v_capacity v < n < 2 ^ 32 ->
  Vector_realloc v n = Done (mkVector (Some (filled l n)) (alen l) n (v_allocation_steps v)).
Proof.
  intros H Hn. pose proof (v_rep_fits _ _ H). pose proof (alen_nonneg l).
  unfold Vector_realloc, truthy. rewrite (proj2 (Z.eqb_neq n 0)) by lia. simpl.
  rewrite (proj2 (Z.ltb_lt _ _)) by lia. rewrite (v_rep_slots _ _ H), (v_rep_nat _ _ H).
  rewrite (construct_filled _ l) by (lia || intros; by apply filled_lookup). simpl.
  by rewrite (destruct_rep _ _ H), (v_rep_count _ _ H).
Qed.

Lemma Vector_new_rep n steps :
  0 < n < 2 ^ 32 -> 0 < steps ->
  Vector_new n steps = Done (mkVector (Some (filled [] n)) 0 n steps).
Proof.
  intros Hn Hs. unfold Vector_new, Vector_realloc, truthy. simpl.
  rewrite (proj2 (Z.eqb_neq n 0)), (proj2 (Z.eqb_neq steps 0)) by lia. simpl.
  rewrite (proj2 (Z.ltb_lt 0 n)) by lia. by rewrite filled_nil.
Qed.

(** Opening a gap at [length p] in storage that holds [p ++ s]. *)
Definition gap_storage (p s : list T) (n : Z) : list (option T) :=
  (Some <$> p) ++ None :: (Some <$> s) ++ raw (n - alen p - alen s - 1).

Lemma gap_filled p s n x :
  alen p + alen s < n -> <[length p := Some x]> (gap_storage p s n) = filled (p ++ x :: s) n.
Proof.
  intros Hn. unfold gap_storage, filled. rewrite insert_app_r_alt by (by rewrite length_fmap).
  rewrite length_fmap, Nat.sub_diag, fmap_app, <- app_assoc. simpl. do 4 f_equal.
  rewrite alen_app, alen_cons. lia.
Qed.

Lemma realloc_gap v p s n :
  v_rep v (p ++ s) -> v_capacity v < n < 2 ^ 32 ->
  Vector_realloc_with_free_spot v n (alen p)
  = Done (mkVector (Some (gap_storage p s n)) (v_count v) n (v_allocation_steps v)).
Proof.
  intros H Hn. pose proof (v_rep_fits _ _ H) as Hf. pose proof (v_rep_count _ _ H) as Hc.
  rewrite alen_app in *. pose proof (alen_nonneg p). pose proof (alen_nonneg s).
  unfold Vector_realloc_with_free_spot.
  rewrite u32_small, (proj2 (Z.leb_le _ n)), (proj2 (Z.leb_le (alen p) _)) by lia. simpl.
  rewrite (proj2 (Z.ltb_lt _ _)) by lia. rewrite (v_rep_slots _ _ H).
  replace (Z.to_nat (alen p)) with (length p) by (unfold alen; lia).
  rewrite (construct_filled _ p) by
    (lia || intros; apply filled_lookup; by apply lookup_app_l_Some).
  rewrite bind_Done. replace (Z.to_nat (v_count v - alen p)) with (length s) by (unfold alen in *; lia).
  replace (filled p n) with (((Some <$> p) ++ [None]) ++ replicate (length s) None
      ++ raw (n - alen p - alen s - 1)).
  - rewrite construct_loop_spec; [|lia|by autorewrite with cyan|].
    + simpl. rewrite (destruct_rep _ _ H). simpl. unfold gap_storage. by rewrite <- app_assoc.
    + intros k x Hx. apply filled_lookup. replace (Z.to_nat (alen p)) with (length p)
        by (unfold alen; lia). rewrite lookup_app_r by lia.
      by replace (length p + k - length p)%nat with k by lia.
  - unfold filled, raw. rewrite <- app_assoc, <- replicate_add. f_equal.
    replace (Z.to_nat (n - alen p))
      with (S (length s + Z.to_nat (n - alen p - alen s - 1)))%nat by (unfold alen in *; lia).
    done.
Qed.

Lemma element_assign_trivial d i x :
  trivial = true -> element_assign d i x = aset d i (Some x).
Proof. unfold element_assign. by intros ->. Qed.

(** The moving loop of [make_free_spot], from the last element down. *)
Lemma make_gap_loop (p s : list T) rest k c :
  trivial = true -> c - k = alen p + alen s ->
  for_ (length s) k
    (fun k d => let i := c - k in
       x ← slot_read d (i - 1); d' ← element_assign d i x; slot_destroy d' (i - 1))
    ((Some <$> p) ++ (Some <$> s) ++ None :: rest)
  = Done ((Some <$> p) ++ None :: (Some <$> s) ++ rest).
Proof.
  intros Htr. revert k rest. induction s as [|x s IH] using rev_ind; intros k rest Hk; [done|].
  rewrite length_app, Nat.add_comm. simpl. rewrite alen_snoc in Hk.
  rewrite fmap_app, <- !app_assoc, (app_assoc (Some <$> p)), <- fmap_app. simpl.
  pose proof (alen_nonneg p). pose proof (alen_nonneg s).
  assert (Hi : Z.to_nat (c - k - 1) = length (Some <$> (p ++ s))).
  { rewrite length_fmap, length_app. unfold alen in *. lia. }
  assert (Hi' : Z.to_nat (c - k) = S (length (Some <$> (p ++ s)))) by lia.
  rewrite (slot_read_Done _ _ x) by (lia || by rewrite Hi, list_lookup_middle). simpl.
  rewrite element_assign_trivial by done.
  rewrite aset_Done.
  2: { rewrite alen_app. autorewrite with cyan. pose proof (alen_nonneg rest). lia. }
  rewrite bind_Done, Hi', insert_app_r_alt by lia.
  replace (S (length (Some <$> p ++ s)) - length (Some <$> p ++ s))%nat with 1%nat by lia. simpl.
  rewrite (slot_destroy_Done _ _ x) by (lia || by rewrite Hi, list_lookup_middle).
  rewrite bind_Done, Hi, insert_app_r_alt by lia. rewrite Nat.sub_diag. simpl.
  rewrite fmap_app, <- app_assoc. apply IH. lia.
Qed.

Lemma make_free_spot_gap v p s :
  trivial = true -> v_rep v (p ++ s) -> alen p + alen s < v_capacity v ->
  Vector_make_free_spot v (alen p)
  = Done (mkVector (Some (gap_storage p s (v_capacity v))) (v_count v) (v_capacity v)
            (v_allocation_steps v)).
Proof.
  intros Htr H Hn. pose proof (v_rep_count _ _ H) as Hc. rewrite alen_app in Hc.
  unfold Vector_make_free_spot. rewrite (v_rep_slots _ _ H).
  replace (Z.to_nat (v_count v - alen p)) with (length s) by (unfold alen in *; lia).
  replace (filled (p ++ s) (v_capacity v)) with
    ((Some <$> p) ++ (Some <$> s) ++ None :: raw (v_capacity v - alen p - alen s - 1)).
  - rewrite make_gap_loop by (done || lia). done.
  - unfold filled, raw. rewrite fmap_app, <- app_assoc, alen_app. do 2 f_equal.
    replace (Z.to_nat (v_capacity v - (alen p + alen s)))
      with (S (Z.to_nat (v_capacity v - alen p - alen s - 1))) by lia. done.
Qed.

(** There is room for one more element, in the storage or after growing it. *)
Definition v_can_grow v (l : list T) : Prop :=
  alen l < v_capacity v \/ v_capacity v + v_allocation_steps v < 2 ^ 32.

(** Insertion at [length p], for trivially assignable elements or at the end or
    in a full vector. *)
Lemma insert_rep v p s x :
  v_rep v (p ++ s) -> v_can_grow v (p ++ s) ->
  trivial = true \/ s = [] \/ alen (p ++ s) = v_capacity v ->
  exists v', Vector_insert v (alen p) x = Done (v', alen p) /\ v_rep v' (p ++ x :: s) /\
    v_allocation_steps v' = v_allocation_steps v.
Proof.
  intros H Hg Hcase. pose proof (v_rep_fits _ _ H) as Hf. pose proof (v_rep_count _ _ H) as Hc.
  pose proof (v_rep_steps _ _ H) as Hst. pose proof (alen_nonneg p). pose proof (alen_nonneg s).
  unfold v_can_grow in Hg. rewrite alen_app in *.
  set (n := if v_count v =? v_capacity v then v_capacity v + v_allocation_steps v else v_capacity v).
  assert (Hgap : (if v_count v =? v_capacity v then
         Vector_realloc_with_free_spot v (u32 (v_capacity v + v_allocation_steps v)) (alen p)
       else Vector_make_free_spot v (alen p)) =
       Done (mkVector (Some (gap_storage p s n)) (v_count v) n (v_allocation_steps v))).
  { unfold n. destruct (Z.eqb_spec (v_count v) (v_capacity v)).
    - rewrite u32_small by lia. apply realloc_gap; [done|lia].
    - destruct Hcase as [Htr|[->|Hfull]]; [by apply make_free_spot_gap; [..|lia]| |lia].
      unfold Vector_make_free_spot. rewrite Hc, alen_nil.
      replace (alen p + 0 - alen p) with 0 by lia. simpl.
      rewrite (v_rep_slots _ _ H), app_nil_r. do 4 f_equal.
      unfold filled, gap_storage, raw. simpl. f_equal. rewrite alen_nil in *.
      replace (Z.to_nat (v_capacity v - alen p))
        with (S (Z.to_nat (v_capacity v - alen p - 0 - 1))) by lia. done. }
  assert (Hn : alen p + alen s < n < 2 ^ 32).
  { unfold n. destruct (Z.eqb_spec (v_count v) (v_capacity v)); lia. }
  unfold Vector_insert. rewrite (v_rep_storage _ _ H). simpl. rewrite Hgap. simpl.
  rewrite aset_Done.
  2: { unfold v_slots, gap_storage. simpl. autorewrite with cyan. rewrite alen_raw; lia. }
  simpl. eexists; split; [done|]. split; [|done].
  unfold v_slots. simpl. replace (Z.to_nat (alen p)) with (length p) by (unfold alen; lia).
  rewrite gap_filled by lia. rewrite u32_small by lia.
  replace (v_count v + 1) with (alen (p ++ x :: s)) by (rewrite alen_app, alen_cons; lia).
  apply mkVector_rep; [rewrite alen_app, alen_cons; lia|done].
Qed.

(** The shifting loop of [remove]. *)
Lemma shift_loop (p s : list T) y rest i :
  i = alen p ->
  for_ (length s) i (fun i d => x ← slot_read d (i + 1); slot_assign d i x)
    ((Some <$> p) ++ Some y :: (Some <$> s) ++ rest)
  = Done ((Some <$> (p ++ s)) ++ Some (default y (last s)) :: rest).
Proof.
  revert p y i. induction s as [|x s IH]; intros p y i ->; [by rewrite app_nil_r|].
  simpl. pose proof (alen_nonneg p).
  assert (Hl : Z.to_nat (alen p) = length (Some <$> p)) by (rewrite length_fmap; unfold alen; lia).
  rewrite (slot_read_Done _ _ x); [|lia|].
  2: { replace (Z.to_nat (alen p + 1)) with (length (Some <$> p) + 1)%nat by lia.
       rewrite lookup_app_r by lia. by replace (length (Some <$> p) + 1 - length (Some <$> p))%nat
         with 1%nat by lia. }
  simpl. rewrite (slot_assign_Done _ _ y) by (lia || by rewrite Hl, list_lookup_middle).
  rewrite bind_Done, Hl, insert_app_r_alt by lia. rewrite Nat.sub_diag. simpl.
  specialize (IH (p ++ [x]) x (alen p + 1)). rewrite fmap_app, <- !app_assoc in IH. simpl in IH.
  etrans; [apply IH; by rewrite alen_snoc|]. rewrite last_cons. by destruct (last s).
Qed.

Lemma v_remove_rep v p x s :
  v_rep v (p ++ x :: s) ->
  exists v', Vector_remove v (alen p) = Done v' /\ v_rep v' (p ++ s) /\
    v_capacity v' = v_capacity v /\ v_allocation_steps v' = v_allocation_steps v.
Proof.
  intros H. pose proof (v_rep_fits _ _ H) as Hf. pose proof (v_rep_count _ _ H) as Hc.
  rewrite alen_app, alen_cons in *. pose proof (alen_nonneg p). pose proof (alen_nonneg s).
  unfold Vector_remove. rewrite (v_rep_storage _ _ H). simpl. rewrite (v_rep_slots _ _ H).
  rewrite (filled_read _ _ _ x); [|lia|].
  2: { replace (Z.to_nat (alen p)) with (length p) by (unfold alen; lia). by rewrite list_lookup_middle. }
  simpl. rewrite u32_small by lia.
  replace (Z.to_nat (v_count v - 1 - alen p)) with (length s) by (unfold alen in *; lia).
  unfold filled at 1. rewrite fmap_app, <- app_assoc. simpl. rewrite shift_loop by done. simpl.
  rewrite Hc. replace (alen p + (alen s + 1) - 1) with (alen (p ++ s)) by (rewrite alen_app; lia).
  erewrite slot_destroy_Done; [|apply alen_nonneg|].
  2: { replace (Z.to_nat (alen (p ++ s))) with (length (Some <$> (p ++ s)))
         by (rewrite length_fmap; unfold alen; lia). by rewrite list_lookup_middle. }
  simpl. eexists; split; [done|]. split; [|done].
  replace (Z.to_nat (alen (p ++ s))) with (length (Some <$> (p ++ s)))
    by (rewrite length_fmap; unfold alen; lia).
  rewrite insert_app_r_alt by lia. rewrite Nat.sub_diag. simpl.
  replace ((Some <$> p ++ s) ++ None :: raw (v_capacity v - alen (p ++ x :: s)))
    with (filled (p ++ s) (v_capacity v)).
  - apply mkVector_rep; [rewrite alen_app; lia|apply (v_rep_steps _ _ H)].
  - unfold filled, raw. f_equal. rewrite !alen_app, alen_cons.
    replace (Z.to_nat (v_capacity v - (alen p + alen s)))
      with (S (Z.to_nat (v_capacity v - (alen p + (alen s + 1))))) by lia. done.
Qed.

(** ** Searching *)

Lemma v_rep_read v l i x :
  v_rep v l -> 0 <= i -> l !! Z.to_nat i = Some x -> slot_read (v_slots v) i = Done x.
Proof. intros H Hi Hx. rewrite (v_rep_slots _ _ H). by apply filled_read. Qed.

Lemma v_rep_at v p x s : v_rep v (p ++ x :: s) -> slot_read (v_slots v) (alen p) = Done x.
Proof.
  intros H. eapply v_rep_read; [done|apply alen_nonneg|]. unfold alen. rewrite Nat2Z.id.
  by rewrite list_lookup_middle.
Qed.

(** [find_if] returns the first position that satisfies the predicate, or the end. *)
Lemma find_if_rep v l (predicate : T -> bool) :
  v_rep v l ->
  exists i, Vector_find_if predicate v = Done i /\ 0 <= i <= alen l /\
    (forall k x, Z.of_nat k < i -> l !! k = Some x -> predicate x = false) /\
    (forall x, l !! Z.to_nat i = Some x -> predicate x = true).
Proof.
  intros H. unfold Vector_find_if. pose proof (v_rep_count _ _ H) as Hc.
  pose proof (v_rep_fits _ _ H) as Hf. unfold Vector_end, Vector_begin.
  apply (while_inv
    (fun i => 0 <= i <= alen l /\
       forall k x, Z.of_nat k < i -> l !! k = Some x -> predicate x = false)
    _ (fun i => Z.to_nat (alen l - i))).
  - split; [pose proof (alen_nonneg l); lia|]. intros. lia.
  - lia.
  - intros i [Hi Hbefore]. destruct (Z.eqb_spec i (v_count v)) as [->|Hne]; simpl.
    + right. exists (v_count v). split; [done|]. split; [lia|]. split; [done|].
      intros x Hx. apply lookup_lt_Some in Hx. unfold alen in *. lia.
    + destruct (lookup_lt_is_Some_2 l (Z.to_nat i)) as [x Hx]; [unfold alen in *; lia|].
      rewrite (v_rep_read v l i x) by (done || lia). simpl.
      destruct (predicate x) eqn:Ep; [right|left]; (eexists; split; [done|]).
      * split; [lia|]. split; [done|]. congruence.
      * rewrite u32_small by lia. split; [|lia]. split; [lia|].
        intros k y Hk Hy. destruct (decide (k = Z.to_nat i)) as [->|]; [congruence|].
        apply (Hbefore k); [lia|done].
Qed.

Lemma contains_rep v l (predicate : T -> bool) :
  v_rep v l -> Vector_contains predicate v = Done (existsb predicate l).
Proof.
  intros H. destruct (find_if_rep v l predicate H) as (i & E & Hi & Hb & Hp).
  unfold Vector_contains, Vector_end. rewrite E. simpl. f_equal.
  rewrite (v_rep_count _ _ H). destruct (Z.eqb_spec i (alen l)) as [->|Hne]; simpl; symmetry.
  - apply not_true_iff_false. rewrite existsb_exists. intros (x & Hin & Hx).
    apply list_elem_of_In, list_elem_of_lookup in Hin as [k Hk].
    rewrite (Hb k x) in Hx; [done| |done]. apply lookup_lt_Some in Hk. unfold alen. lia.
  - apply existsb_exists.
    destruct (lookup_lt_is_Some_2 l (Z.to_nat i)) as [x Hx]; [unfold alen in *; lia|].
    exists x. split; [|by apply Hp]. by eapply list_elem_of_In, list_elem_of_lookup_2.
Qed.

(** [remove_if] keeps, in order, the elements that fail the predicate. *)
Lemma remove_if_rep v l (predicate : T -> bool) :
  v_rep v l ->
  exists v', Vector_remove_if predicate v = Done (v', existsb predicate l) /\
    v_rep v' (List.filter (fun x => negb (predicate x)) l) /\
    v_capacity v' = v_capacity v /\ v_allocation_steps v' = v_allocation_steps v.
Proof.
  intros H. unfold Vector_remove_if.
  set (keep := List.filter (fun x => negb (predicate x))).
  match goal with |- context [while ?f ?step ?st] =>
    destruct (while_inv
    (fun '(w, i, b) => exists past rest, l = past ++ rest /\ i = alen (keep past) /\
       b = existsb predicate past /\ v_rep w (keep past ++ rest) /\
       v_capacity w = v_capacity v /\ v_allocation_steps w = v_allocation_steps v)
    (fun '(w, b) => b = existsb predicate l /\ v_rep w (keep l) /\
       v_capacity w = v_capacity v /\ v_allocation_steps w = v_allocation_steps v)
    (fun '(w, i, _) => Z.to_nat (v_count w - i)) step f st) as ([w b] & E & -> & ?)
  end; [..|by eauto].
  - exists [], l. done.
  - unfold Vector_begin. lia.
  - intros [[w i] b] (past & rest & -> & -> & -> & Hw & Hcap & Hst).
    pose proof (v_rep_count _ _ Hw) as Hc. pose proof (v_rep_fits _ _ Hw) as Hf.
    unfold Vector_end. destruct rest as [|x rest].
    + right. rewrite app_nil_r in *. rewrite Hc, Z.eqb_refl. simpl. eexists; split; [done|]. simpl. done.
    + left. rewrite alen_app, alen_cons in *. pose proof (alen_nonneg rest).
      rewrite (proj2 (Z.eqb_neq _ _)) by lia. simpl. rewrite (v_rep_at _ _ _ _ Hw). simpl.
      destruct (predicate x) eqn:Ep.
      * destruct (v_remove_rep w (keep past) x rest Hw) as (w' & E & Hw' & H1 & H2).
        rewrite E. simpl. eexists; split; [done|]. cbn. rewrite (v_rep_count _ _ Hw'), alen_app.
        split; [|lia]. exists (past ++ [x]), rest. rewrite <- app_assoc. split; [done|].
        unfold keep in *. rewrite List.filter_app, existsb_app. simpl.
        rewrite Ep, app_nil_r. simpl. rewrite orb_true_r. repeat split; congruence || apply Hw'.
      * eexists; split; [done|]. cbn. pose proof (alen_nonneg (keep past)).
        rewrite u32_small by lia. split; [|lia]. exists (past ++ [x]), rest.
        rewrite <- app_assoc. split; [done|]. unfold keep in *.
        rewrite List.filter_app, existsb_app. simpl. rewrite Ep. simpl.
        rewrite orb_false_r, alen_snoc, <- app_assoc. done.
Qed.

(** ** Copies *)

Lemma copy_slots v l :
  v_rep v l -> Vector_copy_storage (raw (v_count v)) (v_slots v) (v_count v)
               = Done (filled l (alen l)).
Proof.
  intros H. unfold Vector_copy_storage. rewrite (v_rep_nat _ _ H), (v_rep_count _ _ H).
  apply construct_filled; [lia|]. intros. rewrite (v_rep_slots _ _ H). by apply filled_lookup.
Qed.

(** The copy holds the same elements, in storage for exactly those. *)
Lemma copy_result v l :
  v_rep v l -> Vector_copy v
  = Done (mkVector (Some (filled l (alen l))) (alen l) (v_capacity v) (v_allocation_steps v)).
Proof.
  intros H. unfold Vector_copy. rewrite (copy_slots v l H). simpl. by rewrite (v_rep_count _ _ H).
Qed.

Lemma reserve_rep v l n :
  v_rep v l -> n < 2 ^ 32 ->
  exists v', Vector_reserve v n = Done v' /\ v_rep v' l /\
    v_capacity v' = Z.max n (v_capacity v) /\ v_allocation_steps v' = v_allocation_steps v.
Proof.
  intros H Hn. pose proof (v_rep_fits _ _ H). unfold Vector_reserve. case_test.
  - rewrite (realloc_rep v l n H) by lia. eexists; split; [done|].
    split; [apply mkVector_rep; [lia|apply (v_rep_steps _ _ H)]|]. simpl. split; [lia|done].
  - eexists; split; [done|]. split; [done|]. split; [lia|done].
Qed.

Lemma clear_rep v l :
  v_rep v l -> exists v', Vector_clear v = Done v' /\ v_rep v' [] /\
    v_capacity v' = v_capacity v /\ v_allocation_steps v' = v_allocation_steps v.
Proof.
  intros H. unfold Vector_clear. rewrite (destruct_rep _ _ H), (v_rep_storage _ _ H). simpl.
  eexists; split; [done|]. split; [|done]. rewrite <- filled_nil.
  pose proof (v_rep_fits _ _ H). pose proof (alen_nonneg l).
  apply (mkVector_rep []); [rewrite alen_nil; lia|apply (v_rep_steps _ _ H)].
Qed.

(** ** Sequences of calls *)

Inductive v_call :=
| CallInsert (pos : Z) (x : T)
| CallRemove (pos : Z)
| CallRemoveIf (predicate : T -> bool)
| CallReserve (size : Z)
| CallClear.

Definition v_step v (c : v_call) : exec (Vector T) :=
  match c with
  | CallInsert pos x => r ← Vector_insert v pos x; Done r.1
  | CallRemove pos => Vector_remove v pos
  | CallRemoveIf predicate => r ← Vector_remove_if predicate v; Done r.1
  | CallReserve size => Vector_reserve v size
  | CallClear => Vector_clear v
  end.

Fixpoint v_run v (calls : list v_call) : exec (Vector T) :=
  match calls with
  | [] => Done v
  | c :: rest => v' ← v_step v c; v_run v' rest
  end.

(** The specification: the elements and the capacity. It has no answer for a
    position outside the list or a capacity that leaves 32 bits. *)
Definition spec_step (steps : Z) (st : list T * Z) (c : v_call) : option (list T * Z) :=
  let '(l, cap) := st in
  match c with
  | CallInsert pos x =>
      if (0 <=? pos) && (pos <=? alen l) then
        let l' := take (Z.to_nat pos) l ++ x :: drop (Z.to_nat pos) l in
        if alen l =? cap then if cap + steps <? 2 ^ 32 then Some (l', cap + steps) else None
        else Some (l', cap)
      else None
  | CallRemove pos =>
      if (0 <=? pos) && (pos <? alen l) then Some (delete (Z.to_nat pos) l, cap) else None
  | CallRemoveIf predicate => Some (List.filter (fun x => negb (predicate x)) l, cap)
  | CallReserve size => if size <? 2 ^ 32 then Some (l, Z.max size cap) else None
  | CallClear => Some ([], cap)
  end.

Fixpoint spec_run (steps : Z) (st : list T * Z) (calls : list v_call) : option (list T * Z) :=
  match calls with
  | [] => Some st
  | c :: rest => st' ← spec_step steps st c; spec_run steps st' rest
  end.

Lemma insert_capacity v pos x v' i :
  Vector_insert v pos x = Done (v', i) ->
  v_capacity v' = if v_count v =? v_capacity v then u32 (v_capacity v + v_allocation_steps v)
                  else v_capacity v.
Proof.
  unfold Vector_insert. intros E. inv_done. simpl in *. destruct (v_count v =? v_capacity v).
  - unfold Vector_realloc_with_free_spot in *. inv_done. case_match; [|done]. inv_done. done.
  - unfold Vector_make_free_spot in *. inv_done. done.
Qed.

Lemma v_step_refines v l c l' cap' :
  trivial = true -> v_rep v l ->
  spec_step (v_allocation_steps v) (l, v_capacity v) c = Some (l', cap') ->
  exists v', v_step v c = Done v' /\ v_rep v' l' /\ v_capacity v' = cap' /\
    v_allocation_steps v' = v_allocation_steps v.
Proof.
  intros Htr H Hs. pose proof (v_rep_fits _ _ H) as Hf. pose proof (v_rep_steps _ _ H).
  destruct c as [pos x|pos|predicate|size|]; simpl in *.
  - case_match eqn:Ep; [|done]. to_prop.
    assert (Hl : alen (take (Z.to_nat pos) l) = pos).
    { unfold alen in *. rewrite length_take. lia. }
    destruct (insert_rep v (take (Z.to_nat pos) l) (drop (Z.to_nat pos) l) x) as (v' & E & Hr & Hst);
      [by rewrite take_drop|rewrite take_drop; unfold v_can_grow; repeat case_match; to_prop; try done; lia
      |by left|].
    rewrite Hl in E. rewrite E. simpl. exists v'. split; [done|].
    pose proof (insert_capacity _ _ _ _ _ E) as Hc. rewrite (v_rep_count _ _ H) in Hc.
    destruct (alen l =? v_capacity v); [case_match; [|done]|]; simplify_eq; to_prop; [|done].
    rewrite u32_small in Hc by lia. done.
  - case_match eqn:Ep; [|done]. simplify_eq. to_prop.
    destruct (lookup_lt_is_Some_2 l (Z.to_nat pos)) as [x Hx]; [unfold alen in *; lia|].
    assert (Hl : alen (take (Z.to_nat pos) l) = pos).
    { unfold alen in *. rewrite length_take. lia. }
    destruct (v_remove_rep v (take (Z.to_nat pos) l) x (drop (S (Z.to_nat pos)) l)) as (v' & E & Hr & Hc & Hst);
      [by rewrite take_drop_middle|].
    rewrite Hl in E. exists v'. rewrite delete_take_drop. done.
  - simplify_eq. destruct (remove_if_rep v l predicate H) as (v' & E & Hr & Hc & Hst).
    rewrite E. simpl. eauto.
  - case_match eqn:Ep; [|done]. simplify_eq. to_prop. by apply reserve_rep.
  - simplify_eq. by apply (clear_rep v l).
Qed.

Lemma v_run_refines v l calls l' cap' :
  trivial = true -> v_rep v l ->
  spec_run (v_allocation_steps v) (l, v_capacity v) calls = Some (l', cap') ->
  exists v', v_run v calls = Done v' /\ v_rep v' l' /\ v_capacity v' = cap'.
Proof.
  intros Htr. revert v l. induction calls as [|c rest IH]; intros v l H; simpl.
  - intros. simplify_eq. eauto.
  - intros Hs. apply bind_Some in Hs as ([l1 cap1] & H1 & H2).
    destruct (v_step_refines v l c l1 cap1) as (v1 & E & Hr & Hc & Hst); [done..|].
    rewrite E. simpl. apply (IH v1 l1); [done|]. by rewrite Hst, Hc.
Qed.

End Vector.

Arguments v_call : clear implicits.
Arguments CallInsert {T}.
Arguments CallRemove {T}.
Arguments CallRemoveIf {T}.
Arguments CallReserve {T}.
Arguments CallClear {T}.

#[export] Hint Resolve v_rep_at v_rep_slots mkVector_rep : cyan.

(** * Properties *)

(** C25: for element types whose assignment may be applied to raw memory (pointers,
    integers), any sequence of [insert], [remove], [remove_if], [reserve] and [clear]
    calls on a fresh vector, at positions inside the list and with capacities inside
    32 bits, returns and leaves the vector holding exactly the list the specification
    computes, in storage of exactly the recorded capacity. (For class types an insertion
    that moves elements within the storage assigns to raw memory, and [v_run false] faults
    there.) *)
Theorem vector_refines_list {T} (reserved steps : Z) (calls : list (v_call T))
    (l : list T) (cap : Z) :
  0 < reserved < 2 ^ 32 -> 0 < steps ->
  spec_run steps ([], reserved) calls = Some (l, cap) ->
  exists v0 v, Vector_new reserved steps = Done v0 /\ v_run true v0 calls = Done v /\
    v_rep v l /\ v_capacity v = cap.
Proof.
  intros Hr Hs Hrun. rewrite Vector_new_rep by done. eexists.
  enough (exists v, v_run true (mkVector (Some (filled [] reserved)) 0 reserved steps) calls = Done v
    /\ v_rep v l /\ v_capacity v = cap) as (v & ? & ?) by eauto.
  apply (v_run_refines true _ []); [done| |done].
  apply (mkVector_rep []); [rewrite alen_nil; lia|done].
Qed.

Lemma vector_refines_list_witness :
  exists v0 v : Vector Z, Vector_new 1 1 = Done v0 /\
    v_run true v0 [CallInsert 0 5; CallInsert 0 6; CallInsert 1 7; CallRemove 0;
                   CallRemoveIf (fun x => x =? 5)] = Done v /\
    v_rep v [7] /\ v_capacity v = 3.
Proof.
  apply (vector_refines_list 1 1 [CallInsert 0 5; CallInsert 0 6; CallInsert 1 7; CallRemove 0;
                                  CallRemoveIf (fun x => x =? 5)]);
    [lia|lia|reflexivity].
Defined.

(** [find_if] returns the first position that satisfies the predicate or [end()],
    [contains] answers whether there is one, and [remove_if] keeps, in order, exactly
    the elements that fail the predicate and reports whether it removed any. *)
Theorem vector_predicates {T} (v : Vector T) (l : list T) (predicate : T -> bool) :
  v_rep v l ->
  (exists i, Vector_find_if predicate v = Done i /\ 0 <= i <= alen l /\
    (forall k x, Z.of_nat k < i -> l !! k = Some x -> predicate x = false) /\
    (forall x, l !! Z.to_nat i = Some x -> predicate x = true)) /\
  Vector_contains predicate v = Done (existsb predicate l) /\
  (exists v', Vector_remove_if predicate v = Done (v', existsb predicate l) /\
    v_rep v' (List.filter (fun x => negb (predicate x)) l)).
Proof.
  intros H. split; [by apply find_if_rep|]. split; [by apply contains_rep|].
  destruct (remove_if_rep v l predicate H) as (v' & ? & ? & _). eauto.
Qed.

Lemma vector_predicates_witness :
  exists v', Vector_remove_if (fun x => 3 <? x) (mkVector (Some [Some 2; Some 4; Some 3; None]) 3 4 1)
             = Done (v', true) /\ v_rep v' [2; 3].
Proof.
  apply (vector_predicates (mkVector (Some [Some 2; Some 4; Some 3; None]) 3 4 1) [2; 4; 3]
           (fun x => 3 <? x)).
  apply (mkVector_rep [2; 4; 3] 4 1); [vm_compute; split; congruence|lia].
Defined.

(** The copy constructor allocates storage for the elements only but records the
    source's capacity, so that a vector with spare capacity has a copy whose next
    [push_back] writes past the end of the storage. *)
Theorem vector_copy_overflows {T} (trivial : bool) (v : Vector T) (l : list T) (x : T) :
  v_rep v l -> alen l < v_capacity v ->
  exists c, Vector_copy v = Done c /\ v_capacity c = v_capacity v /\
    Vector_push_back trivial c x = Fault.
Proof.
  intros H Hlt. rewrite (copy_result v l H). eexists; split; [done|]. split; [done|].
  unfold Vector_push_back, Vector_insert, Vector_end. simpl.
  rewrite (proj2 (Z.eqb_neq (alen l) (v_capacity v))) by lia.
  unfold Vector_make_free_spot. simpl. rewrite Z.sub_diag. simpl.
  rewrite aset_out_of_range; [done|]. unfold v_slots. simpl. rewrite alen_filled by lia. lia.
Qed.

Lemma vector_copy_overflows_witness :
  exists c, Vector_copy (mkVector (Some [Some 5; None]) 1 2 1) = Done c /\
    v_capacity c = 2 /\ Vector_push_back true c 6 = Fault.
Proof.
  apply (vector_copy_overflows true (mkVector (Some [Some 5; None]) 1 2 1) [5] 6).
  - apply (mkVector_rep [5] 2 1); [vm_compute; split; congruence|lia].
  - reflexivity.
Defined.

(** A vector that is made with the default sizes and never shrinks, one place and one more at
    a time, is full whenever it is not empty: every insertion at its front moves the elements
    to a new storage, where they are constructed, so it holds for all element types. *)
Lemma default_vector_front {T} (trivial : bool) (v : Vector T) (l : list T) (x : T) :
  v_rep v l -> v_capacity v = Z.max 1 (alen l) -> v_allocation_steps v = 1 -> alen l + 1 < 2 ^ 32 ->
  exists v', Vector_emplace_front trivial v x = Done (v', 0) /\ v_rep v' (x :: l) /\
    v_capacity v' = Z.max 1 (alen (x :: l)) /\ v_allocation_steps v' = 1.
Proof.
  intros H Hc Hs Hl. pose proof (alen_nonneg l). destruct (insert_rep trivial v [] l x) as (v' & E & Hr & Hst).
  - done.
  - unfold v_can_grow. cbn [app]. lia.
  - right. destruct l as [|y l]; [by left|right]. rewrite Hc. cbn [app]. rewrite alen_cons in *. pose proof (alen_nonneg l). lia.
  - exists v'. split; [exact E|]. split; [done|]. rewrite Hst. split; [|done].
    rewrite (insert_capacity _ _ _ _ _ _ E), (v_rep_count _ _ H), Hc, Hs, alen_cons.
    destruct (Z.eqb_spec (alen l) (Z.max 1 (alen l))); [rewrite u32_small by lia|]; lia.
Qed.
