(* ===== verification/Stack.v ===== *)
(** [Stack<T>] (stack.h): a bounded last-in first-out buffer over raw storage. *)

From S2P Require Import Prelude Storage.

Record Stack (T : Type) := mkStack {
  st_data : list (option T);
  st_size : Z;
  st_capacity : Z
}.

Arguments mkStack {T}.
Arguments st_data {T}.
Arguments st_size {T}.
Arguments st_capacity {T}.

Section Stack.
Context {T : Type}.
Implicit Types (s other : Stack T) (x : T) (l : list T).

Definition Stack_new (capacity : Z) : Stack T := mkStack (raw capacity) 0 capacity.

Definition Stack_is_empty s : bool := st_size s =? 0.

Definition Stack_is_full s : bool := st_size s =? st_capacity s.

Definition Stack_size s : Z := st_size s.

Definition Stack_available_size s : Z := u32 (st_capacity s - Stack_size s).

Definition Stack_push s x : exec (Stack T) :=
  _ ← ASSERT (negb (Stack_is_full s));
  data ← aset (st_data s) (st_size s) (Some x);
  Done (mkStack data (u32 (st_size s + 1)) (st_capacity s)).

Definition Stack_pop s : exec (T * Stack T) :=
  _ ← ASSERT (negb (Stack_is_empty s));
  ret_data ← slot_read (st_data s) (u32 (st_size s - 1));
  data ← slot_destroy (st_data s) (u32 (st_size s - 1));
  Done (ret_data, mkStack data (u32 (st_size s - 1)) (st_capacity s)).

(** [back] has no assertion: on an empty stack it reads at index [2^32 - 1]. *)
Definition Stack_back s : exec T := slot_read (st_data s) (u32 (st_size s - 1)).

Definition Stack_destroy_used_objects s : exec (list (option T)) :=
  destroy_loop (Z.to_nat (st_size s)) 0 (st_data s).

Definition Stack_copy other : exec (Stack T) :=
  data ← construct_loop (st_data other) (Z.to_nat (st_size other)) 0 0 (raw (st_capacity other));
  Done (mkStack data (st_size other) (st_capacity other)).

Definition Stack_move other : Stack T * Stack T :=
  (mkStack (st_data other) (st_size other) (st_capacity other),
   mkStack [] 0 (st_capacity other)).

(** [operator=] for two different objects: the fresh storage is allocated for the
    old [m_capacity]. *)
Definition Stack_assign s other : exec (Stack T) :=
  destroyed ← Stack_destroy_used_objects s;
  let storage :=
    if st_capacity s =? st_capacity other then destroyed else raw (st_capacity s) in
  data ← construct_loop (st_data other) (Z.to_nat (st_size other)) 0 0 storage;
  Done (mkStack data (st_size other) (st_capacity other)).

Definition Stack_move_assign s other : exec (Stack T * Stack T) :=
  _ ← Stack_destroy_used_objects s;
  Done (Stack_move other).

(** * Refinement of a list whose last element is the top *)

Record st_rep s l : Prop := {
  st_rep_data : st_data s = filled l (st_capacity s);
  st_rep_size : st_size s = alen l;
  st_rep_fits : alen l <= st_capacity s < 2 ^ 32
}.

Lemma Stack_new_rep capacity : 0 <= capacity < 2 ^ 32 -> st_rep (Stack_new capacity) [].
Proof. intros. split; simpl; [by rewrite filled_nil|done|rewrite alen_nil; lia]. Qed.

Lemma st_length s l : st_rep s l -> Z.to_nat (st_size s) = length l.
Proof. intros H. rewrite (st_rep_size _ _ H). unfold alen. lia. Qed.

Lemma push_rep s l x :
  st_rep s l -> alen l < st_capacity s ->
  exists s', Stack_push s x = Done s' /\ st_rep s' (l ++ [x]) /\ st_capacity s' = st_capacity s.
Proof.
  intros H Hlt. pose proof (st_rep_fits _ _ H). pose proof (alen_nonneg l).
  unfold Stack_push, Stack_is_full. rewrite (st_rep_size _ _ H), (st_rep_data _ _ H).
  rewrite (proj2 (Z.eqb_neq _ _)) by lia. simpl. rewrite aset_Done by (rewrite alen_filled; lia).
  simpl. eexists; split; [done|]. split; [|done].
  replace (Z.to_nat (alen l)) with (length l) by (unfold alen; lia).
  rewrite filled_push, u32_small by lia. split; simpl; rewrite ?alen_snoc; (done || lia).
Qed.

Lemma top_read s l x : st_rep s (l ++ [x]) ->
  st_data s !! Z.to_nat (u32 (st_size s - 1)) = Some (Some x) /\ u32 (st_size s - 1) = alen l.
Proof.
  intros H. pose proof (st_rep_fits _ _ H) as Hf. pose proof (alen_nonneg l).
  rewrite (st_rep_size _ _ H), alen_snoc in *.
  replace (alen l + 1 - 1) with (alen l) by lia. rewrite u32_small by lia. split; [|done].
  rewrite (st_rep_data _ _ H). apply filled_lookup.
  replace (Z.to_nat (alen l)) with (length l) by (unfold alen; lia). by rewrite list_lookup_middle.
Qed.

Lemma pop_rep s l x :
  st_rep s (l ++ [x]) ->
  exists s', Stack_pop s = Done (x, s') /\ st_rep s' l /\ st_capacity s' = st_capacity s.
Proof.
  intros H. destruct (top_read s l x H) as [Ht Hu]. pose proof (st_rep_fits _ _ H) as Hf.
  pose proof (alen_nonneg l). rewrite alen_snoc in Hf.
  unfold Stack_pop, Stack_is_empty.
  rewrite (proj2 (Z.eqb_neq (st_size s) 0)) by (rewrite (st_rep_size _ _ H), alen_snoc; lia). simpl.
  rewrite (slot_read_Done _ _ x), (slot_destroy_Done _ _ x) by (done || lia). simpl.
  eexists; split; [done|]. split; [|done]. rewrite Hu.
  replace (Z.to_nat (alen l)) with (length l) by (unfold alen; lia).
  rewrite (st_rep_data _ _ H), filled_pop by lia. split; simpl; done || lia.
Qed.

Lemma push_full s l x : st_rep s l -> alen l = st_capacity s -> Stack_push s x = Panic.
Proof.
  intros H Hf. unfold Stack_push, Stack_is_full. by rewrite (st_rep_size _ _ H), Hf, Z.eqb_refl.
Qed.

Lemma pop_empty s : st_rep s [] -> Stack_pop s = Panic.
Proof. intros H. unfold Stack_pop, Stack_is_empty. by rewrite (st_rep_size _ _ H). Qed.

Lemma stack_copy_rep s l : st_rep s l -> exists c, Stack_copy s = Done c /\ st_rep c l.
Proof.
  intros H. pose proof (st_rep_fits _ _ H). unfold Stack_copy.
  rewrite (st_length _ _ H), (construct_filled _ l), (st_rep_size _ _ H);
    [|lia|intros; rewrite (st_rep_data _ _ H); by apply filled_lookup].
  simpl. eexists; split; [done|]. by split.
Qed.

(** ** Sequences of calls *)

Inductive st_call := CallPush (x : T) | CallPop.

Fixpoint st_run s (calls : list st_call) : exec (list T * Stack T) :=
  match calls with
  | [] => Done ([], s)
  | CallPush x :: rest => s' ← Stack_push s x; st_run s' rest
  | CallPop :: rest =>
      r ← Stack_pop s;
      out ← st_run r.2 rest;
      Done (r.1 :: out.1, out.2)
  end.

(** The specification; the head of the list is the top. *)
Fixpoint lifo_run (capacity : Z) (l : list T) (calls : list st_call) : exec (list T * list T) :=
  match calls with
  | [] => Done ([], l)
  | CallPush x :: rest => if alen l <? capacity then lifo_run capacity (x :: l) rest else Panic
  | CallPop :: rest =>
      match l with
      | [] => Panic
      | x :: l' => out ← lifo_run capacity l' rest; Done (x :: out.1, out.2)
      end
  end.

Definition st_agrees (impl : exec (list T * Stack T)) (spec : exec (list T * list T)) : Prop :=
  match impl, spec with
  | Done (out, s), Done (out', l) => out = out' /\ st_rep s (rev l)
  | Panic, Panic => True
  | _, _ => False
  end.

Lemma alen_rev l : alen (rev l) = alen l.
Proof. unfold alen. by rewrite length_rev. Qed.

Lemma st_run_refines calls s l :
  st_rep s (rev l) -> st_agrees (st_run s calls) (lifo_run (st_capacity s) l calls).
Proof.
  revert s l. induction calls as [|[x|] rest IH]; intros s l H; simpl; [done|..].
  - pose proof (st_rep_fits _ _ H) as Hf. rewrite alen_rev in Hf.
    destruct (Z.ltb_spec (alen l) (st_capacity s)).
    + destruct (push_rep s (rev l) x H) as (s' & E & H' & Hc); [by rewrite alen_rev|].
      rewrite E. simpl. rewrite <- Hc. by apply IH.
    + by rewrite (push_full s (rev l) x) by (done || rewrite alen_rev; lia).
  - destruct l as [|x l].
    + by rewrite (pop_empty s) by done.
    + destruct (pop_rep s (rev l) x H) as (s' & E & H' & Hc). rewrite E. simpl.
      rewrite <- Hc. specialize (IH s' l H').
      destruct (st_run s' rest) as [[]| | |], (lifo_run (st_capacity s') l rest) as [[]| | |];
        simpl in *; try done. by destruct IH as [-> ?].
Qed.

End Stack.

Arguments st_call : clear implicits.

(** * Properties *)

(** Any sequence of [push] and [pop] calls on a fresh [Stack] behaves as a bounded
    last-in first-out list: the same values come out in the same order, the same calls
    stop on the overflow and underflow assertions, and the storage is never left. *)
Theorem stack_refines_lifo {T} (capacity : Z) (calls : list (st_call T)) :
  0 <= capacity < 2 ^ 32 ->
  st_agrees (st_run (Stack_new capacity) calls) (lifo_run capacity [] calls).
Proof. intros H. exact (st_run_refines calls _ [] (Stack_new_rep capacity H)). Qed.

Lemma stack_refines_lifo_witness :
  st_agrees (st_run (Stack_new 2) [CallPush 7; CallPush 8; CallPop; CallPush 9; CallPop])
            (lifo_run 2 [] [CallPush 7; CallPush 8; CallPop; CallPush 9; CallPop]).
Proof.
  apply (stack_refines_lifo 2 [CallPush 7; CallPush 8; CallPop; CallPush 9; CallPop]). lia.
Defined.
