(* ===== verification/Pointers.v ===== *)
(** * Owning pointers

    libraries/stdlib: [UniquePointer] (unique_pointer.h), [SharedPointer] (shared_pointer.h),
    [NullOrReference] and [Reference]. Variables of these classes are numbered, objects too;
    of an object only matters whether it is alive: deleting it when it is not is a fault. *)
From Hammer Require Import Tactics.
From S2P Require Import Prelude.

(** [delete]: nothing happens to the null pointer. *)
Definition delete_object (p : option nat) (live : gset nat) : exec (gset nat) :=
  match p with
  | None => Done live
  | Some p => if decide (p ∈ live) then Done (live ∖ {[p]}) else Fault
  end.

(** ** UniquePointer *)

(** [m_storage], null after a release. *)
Abbreviation UniquePointer := (option nat).

Definition UniquePointer_new (ptr : option nat) : exec UniquePointer :=
  _ ← ASSERT (not_null ptr);
  Done ptr.

Definition UniquePointer_release (m_storage : UniquePointer) : option nat * UniquePointer := (m_storage, None).

Definition UniquePointer_destroy (m_storage : UniquePointer) (live : gset nat) : exec (UniquePointer * gset nat) :=
  live ← delete_object m_storage live;
  Done (None, live).

Definition UniquePointer_reset (m_storage : UniquePointer) (new_ptr : option nat) (live : gset nat)
    : exec (UniquePointer * gset nat) :=
  '(_, live) ← UniquePointer_destroy m_storage live;
  Done (new_ptr, live).

(** The new pointer, and the old one after it. *)
Definition UniquePointer_move (other : UniquePointer) : UniquePointer * UniquePointer := UniquePointer_release other.

Definition UniquePointer_eq (m_storage other : UniquePointer) : bool := bool_decide (m_storage = other).
Definition UniquePointer_neq (m_storage other : UniquePointer) : bool := negb (bool_decide (m_storage = other)).

(** The object, which must be there to be used. *)
Definition UniquePointer_deref (m_storage : UniquePointer) : exec nat :=
  match m_storage with Some p => Done p | None => Fault end.

(** The variables of a program, the objects alive and the next new one. *)
Record UniqueState := mkUnique { u_vars : gmap nat UniquePointer; u_live : gset nat; u_next : nat }.

Definition no_pointers : UniqueState := mkUnique ∅ ∅ 0.

Definition u_var (s : UniqueState) (v : nat) : exec UniquePointer :=
  match u_vars s !! v with Some p => Done p | None => Fault end.

Definition make_unique (s : UniqueState) (v : nat) : exec UniqueState :=
  p ← UniquePointer_new (Some (u_next s));
  Done (mkUnique (<[v := p]> (u_vars s)) (u_live s ∪ {[u_next s]}) (S (u_next s))).

(** [this] and [other] are the variables. *)
Definition UniquePointer_move_assign (s : UniqueState) (this other : nat) : exec UniqueState :=
  _ ← ASSERT (negb (this =? other)%nat);
  p ← u_var s other;
  let '(ptr, p) := UniquePointer_release p in
  let vars := <[other := p]> (u_vars s) in
  m_storage ← u_var s this;
  '(m_storage, live) ← UniquePointer_reset m_storage ptr (u_live s);
  Done (mkUnique (<[this := m_storage]> vars) live (u_next s)).

(** What a program does with its variables: [UAdopt] is the constructor from a pointer, [UEnd]
    the end of the scope of the variable. *)
Inductive u_op :=
| UMake (v : nat) | UAdopt (v p : nat) | UMove (v w : nat) | UAssign (v w : nat) | URelease (v : nat)
| UReset (v p : nat) | UEnd (v : nat).

Definition u_step (s : UniqueState) (op : u_op) : exec UniqueState :=
  match op with
  | UMake v => make_unique s v
  | UAdopt v p => p ← UniquePointer_new (Some p); Done (mkUnique (<[v := p]> (u_vars s)) (u_live s) (u_next s))
  | UMove v w =>
      p ← u_var s w;
      let '(p, q) := UniquePointer_move p in
      Done (mkUnique (<[v := p]> (<[w := q]> (u_vars s))) (u_live s) (u_next s))
  | UAssign v w => UniquePointer_move_assign s v w
  | URelease v =>
      p ← u_var s v;
      Done (mkUnique (<[v := (UniquePointer_release p).2]> (u_vars s)) (u_live s) (u_next s))
  | UReset v p =>
      m_storage ← u_var s v;
      '(m_storage, live) ← UniquePointer_reset m_storage (Some p) (u_live s);
      Done (mkUnique (<[v := m_storage]> (u_vars s)) live (u_next s))
  | UEnd v =>
      m_storage ← u_var s v;
      '(_, live) ← UniquePointer_destroy m_storage (u_live s);
      Done (mkUnique (delete v (u_vars s)) live (u_next s))
  end.

Fixpoint u_run (s : UniqueState) (ops : list u_op) : exec UniqueState :=
  match ops with [] => Done s | op :: ops => s ← u_step s op; u_run s ops end.

(** *** The rules of the game *)

(** A new variable is not one in use, and a used one is; a pointer that is handed to a variable
    is one that was released and not handed on yet ([raw]); no variable is assigned to itself. *)
Definition u_allowed (s : UniqueState) (raw : gset nat) (op : u_op) : Prop :=
  match op with
  | UMake v => u_vars s !! v = None
  | UAdopt v p => u_vars s !! v = None /\ p ∈ raw
  | UMove v w => u_vars s !! v = None /\ is_Some (u_vars s !! w)
  | UAssign v w => v <> w /\ is_Some (u_vars s !! v) /\ is_Some (u_vars s !! w)
  | URelease v | UEnd v => is_Some (u_vars s !! v)
  | UReset v p => is_Some (u_vars s !! v) /\ p ∈ raw
  end.

#[export] Instance u_allowed_decision s raw op : Decision (u_allowed s raw op).
Proof. destruct op; cbn [u_allowed]; apply _. Defined.

Definition raw_after (s : UniqueState) (raw : gset nat) (op : u_op) : gset nat :=
  match op with
  | URelease v => match u_vars s !! v with Some (Some p) => raw ∪ {[p]} | _ => raw end
  | UAdopt _ p | UReset _ p => raw ∖ {[p]}
  | UMake _ | UMove _ _ | UAssign _ _ | UEnd _ => raw
  end.

(** A sequence of such steps, with what is in hand at its end. *)
Fixpoint u_plays (s : UniqueState) (raw : gset nat) (ops : list u_op) (raw' : gset nat) : Prop :=
  match ops with
  | [] => raw' = raw
  | op :: ops => u_allowed s raw op /\ forall s', u_step s op = Done s' -> u_plays s' (raw_after s raw op) ops raw'
  end.

(** An object is alive when exactly one variable owns it, or the program has it in hand. *)
Definition owns (vars : gmap nat UniquePointer) (v p : nat) : Prop := vars !! v = Some (Some p).

Record u_inv (vars : gmap nat UniquePointer) (live raw : gset nat) (next : nat) : Prop := {
  ui_owned v p : owns vars v p -> p ∈ live /\ p ∉ raw;
  ui_once v w p : owns vars v p -> owns vars w p -> v = w;
  ui_raw p : p ∈ raw -> p ∈ live;
  ui_live p : p ∈ live -> p ∈ raw \/ exists v, owns vars v p;
  ui_next p : p ∈ live -> (p < next)%nat
}.

Lemma owns_insert vars v q w p : owns (<[v := q]> vars) w p <-> (w = v /\ q = Some p) \/ (w <> v /\ owns vars w p).
Proof. unfold owns. rewrite lookup_insert_Some. hauto lq: on. Qed.

Lemma owns_delete vars v w p : owns (delete v vars) w p <-> w <> v /\ owns vars w p.
Proof. unfold owns. rewrite lookup_delete_Some. hauto lq: on. Qed.

(** The object of a pointer, as a set. *)
Definition object_of (m_storage : UniquePointer) : gset nat := match m_storage with Some p => {[p]} | None => ∅ end.

Lemma elem_of_object m_storage p : p ∈ object_of m_storage <-> m_storage = Some p.
Proof. destruct m_storage; cbn [object_of]; [rewrite elem_of_singleton; hauto lq: on|rewrite elem_of_empty; hauto lq: on]. Qed.

(** Every step is made of these: a variable hands out its object, or takes one; an object in
    hand is deleted; a new one comes into hand. *)
Lemma inv_take vars live raw next v m_storage :
  u_inv vars live raw next -> vars !! v = Some m_storage ->
  u_inv (<[v := None]> vars) live (raw ∪ object_of m_storage) next /\ raw ## object_of m_storage /\
  (forall p, ~ owns (<[v := None]> vars) v p).
Proof.
  intros [Ho H1 Hr Hl Hn] Hv. assert (Hown : forall p, m_storage = Some p -> owns vars v p) by (intros p ->; exact Hv).
  split; [split|split].
  - intros w p. rewrite owns_insert, elem_of_union, elem_of_object. intros [[_ ?]|[Hw Hp]]; [done|].
    destruct (Ho w p Hp). split; [done|]. intros [?|E]; [done|]. apply Hw. eapply H1; [exact Hp|by apply Hown].
  - intros w x p. rewrite !owns_insert. intros [[_ ?]|[_ Hw]] [[_ ?]|[_ Hx]]; [done..|]. by eapply H1.
  - intros p. rewrite elem_of_union, elem_of_object. intros [Hp|E]; [by apply Hr|]. by destruct (Ho v p (Hown p E)).
  - intros p Hp. rewrite elem_of_union, elem_of_object. destruct (Hl p Hp) as [?|[w Hw]]; [by left; left|].
    destruct (decide (w = v)) as [->|Hne]; [left; right; unfold owns in Hw; congruence|].
    right. exists w. rewrite owns_insert. by right.
  - exact Hn.
  - intros p Hp. rewrite elem_of_object. intros E. by destruct (Ho v p (Hown p E)).
  - intros p. rewrite owns_insert. by intros [[_ ?]|[? _]].
Qed.

Lemma inv_give vars live raw next v m_storage :
  u_inv vars live raw next -> (forall p, ~ owns vars v p) -> object_of m_storage ⊆ raw ->
  u_inv (<[v := m_storage]> vars) live (raw ∖ object_of m_storage) next.
Proof.
  intros [Ho H1 Hr Hl Hn] Hv Hsub. assert (Hin : forall p, m_storage = Some p -> p ∈ raw) by (intros p E; apply Hsub; by rewrite elem_of_object).
  split.
  - intros w p. rewrite owns_insert, elem_of_difference, elem_of_object. intros [[_ E]|[Hw Hp]]; [by split; [apply Hr, Hin|intros []]|].
    destruct (Ho w p Hp). split; [done|]. by intros [].
  - intros w x p. rewrite !owns_insert. intros [[-> E]|[_ Hw]] [[-> E']|[_ Hx]]; [done| | |by eapply H1].
    + by destruct (Ho x p Hx) as [_ []]; apply Hin.
    + by destruct (Ho w p Hw) as [_ []]; apply Hin.
  - intros p. rewrite elem_of_difference. intros [? _]. by apply Hr.
  - intros p Hp. rewrite elem_of_difference, elem_of_object. destruct (Hl p Hp) as [Hp'|[w Hw]].
    + destruct (decide (m_storage = Some p)); [|by left]. right. exists v. rewrite owns_insert. by left.
    + right. exists w. rewrite owns_insert. right. split; [|done]. intros ->. by destruct (Hv p).
  - exact Hn.
Qed.

Lemma inv_kill vars live raw next m_storage :
  u_inv vars live raw next -> object_of m_storage ⊆ raw ->
  exists live', delete_object m_storage live = Done live' /\ u_inv vars live' (raw ∖ object_of m_storage) next.
Proof.
  intros [Ho H1 Hr Hl Hn] Hsub. exists (live ∖ object_of m_storage). split.
  - destruct m_storage as [p|]; cbn [delete_object object_of] in *; [|by rewrite difference_empty_L].
    rewrite decide_True by (apply Hr, Hsub; by apply elem_of_singleton). done.
  - split.
    + intros v p Hp. rewrite !elem_of_difference. destruct (Ho v p Hp) as [? Hraw]. split; [split; [done|]|by intros [? _]].
      intros Hm. by apply Hraw, Hsub.
    + exact H1.
    + intros p. rewrite !elem_of_difference. intros [? ?]. split; [by apply Hr|done].
    + intros p. rewrite !elem_of_difference. intros [Hp Hm]. destruct (Hl p Hp); [by left|by right].
    + intros p. rewrite elem_of_difference. intros [? _]. by apply Hn.
Qed.

Lemma inv_new vars live raw next :
  u_inv vars live raw next -> u_inv vars (live ∪ {[next]}) (raw ∪ {[next]}) (S next) /\ next ∉ raw.
Proof.
  intros [Ho H1 Hr Hl Hn]. assert (Hf : next ∉ live) by (intros H; apply Hn in H; lia). split; [split|intros H; by apply Hf, Hr].
  - intros v p Hp. rewrite !elem_of_union, elem_of_singleton. destruct (Ho v p Hp). split; [by left|]. by intros [?| ->].
  - exact H1.
  - intros p. rewrite !elem_of_union. intros [?|?]; [left; by apply Hr|by right].
  - intros p. rewrite !elem_of_union. intros [Hp|?]; [|by left; right]. destruct (Hl p Hp); [by left; left|by right].
  - intros p. rewrite elem_of_union, elem_of_singleton. intros [Hp| ->]; [apply Hn in Hp|]; lia.
Qed.

Lemma inv_end vars live raw next v :
  u_inv vars live raw next -> (forall p, ~ owns vars v p) -> u_inv (delete v vars) live raw next.
Proof.
  intros [Ho H1 Hr Hl Hn] Hv. split; [|..|exact Hn].
  - intros w p. rewrite owns_delete. intros [_ ?]. by apply (Ho w).
  - intros w x p. rewrite !owns_delete. intros [_ ?] [_ ?]. by eapply H1.
  - exact Hr.
  - intros p Hp. destruct (Hl p Hp) as [?|[w Hw]]; [by left|]. right. exists w. rewrite owns_delete. split; [|done]. intros ->. by destruct (Hv p).
Qed.

Definition u_ok (s : UniqueState) (raw : gset nat) : Prop := u_inv (u_vars s) (u_live s) raw (u_next s).

(** What was taken into the hand and given away again. *)
Lemma taken_back (raw X : gset nat) : raw ## X -> (raw ∪ X) ∖ X = raw.
Proof.
  intros H. apply leibniz_equiv. intros p. rewrite elem_of_difference, elem_of_union. specialize (H p). tauto.
Qed.

Lemma subset_taken (raw X : gset nat) : X ⊆ raw ∪ X.
Proof. intros p. rewrite elem_of_union. by right. Qed.

Lemma object_in (p : nat) (raw : gset nat) : p ∈ raw -> object_of (Some p) ⊆ raw.
Proof. intros H q. cbn [object_of]. rewrite elem_of_singleton. by intros ->. Qed.

Lemma no_owner (vars : gmap nat UniquePointer) v : vars !! v = None -> forall p, ~ owns vars v p.
Proof. unfold owns. congruence. Qed.

(** The object of a variable goes away. *)
Lemma inv_destroyed vars live raw next v m_storage :
  u_inv vars live raw next -> vars !! v = Some m_storage ->
  exists live', delete_object m_storage live = Done live' /\ u_inv (<[v := None]> vars) live' raw next /\
    forall p, ~ owns (<[v := None]> vars) v p.
Proof.
  intros H Hv. destruct (inv_take _ _ _ _ _ _ H Hv) as (H1 & Hd & Ho).
  destruct (inv_kill _ _ _ _ m_storage H1) as (live' & E & H2); [apply subset_taken|].
  exists live'. by rewrite taken_back in H2.
Qed.

Lemma u_step_keeps s raw op :
  u_ok s raw -> u_allowed s raw op -> exists s', u_step s op = Done s' /\ u_ok s' (raw_after s raw op).
Proof.
  destruct s as [vars live next]. unfold u_ok. cbn [u_vars u_live u_next]. intros H Hop.
  destruct op as [v|v p0|v w|v w|v|v p0|v]; cbn [u_allowed u_step raw_after u_vars u_live u_next make_unique] in *.
  - eexists. split; [done|]. cbn [u_vars u_live u_next]. destruct (inv_new _ _ _ _ H) as [H' Hf].
    pose proof (inv_give _ _ _ _ v (Some next) H' (no_owner _ _ Hop) (subset_taken _ _)) as H2. cbn [object_of] in H2.
    rewrite taken_back in H2; [exact H2|]. by intros p Hp ->%elem_of_singleton.
  - destruct Hop as [Hv Hp]. eexists. split; [done|]. apply (inv_give _ _ _ _ v (Some p0) H (no_owner _ _ Hv)). by apply object_in.
  - destruct Hop as [Hv [p Hw]]. unfold u_var. cbn [u_vars]. rewrite Hw. eexists. split; [done|]. cbn [u_vars u_live u_next].
    destruct (inv_take _ _ _ _ _ _ H Hw) as (H1 & Hd & Ho).
    pose proof (inv_give _ _ _ _ v p H1) as H2. rewrite taken_back in H2 by done. apply H2; [|apply subset_taken].
    intros q. rewrite owns_insert. intros [[_ ?]|[_ Hq]]; [done|]. by eapply no_owner.
  - destruct Hop as (Hne & [q Hv] & [p Hw]). unfold UniquePointer_move_assign, u_var, UniquePointer_reset, UniquePointer_destroy.
    cbn [u_vars u_live u_next]. rewrite (proj2 (Nat.eqb_neq v w) Hne), Hw, Hv. cbn [negb ASSERT mbind exec_bind UniquePointer_release].
    destruct (inv_take _ _ _ _ _ _ H Hw) as (H1 & Hd & Ho).
    destruct (inv_destroyed _ _ _ _ v q H1) as (live' & -> & H2 & Ho2); [by rewrite lookup_insert_ne|]. cbn [mbind exec_bind].
    eexists. split; [done|]. cbn [u_vars u_live u_next]. pose proof (inv_give _ _ _ _ v p H2 Ho2 (subset_taken _ _)) as H3.
    by rewrite insert_insert_eq, taken_back in H3.
  - destruct Hop as [p Hv]. unfold u_var. cbn [u_vars]. rewrite Hv. eexists. split; [done|]. cbn [u_vars u_live u_next].
    destruct (inv_take _ _ _ _ _ _ H Hv) as (H1 & _). destruct p; [exact H1|]. cbn [object_of] in H1. by rewrite union_empty_r_L in H1.
  - destruct Hop as [[q Hv] Hp]. unfold u_var, UniquePointer_reset, UniquePointer_destroy. cbn [u_vars u_live u_next]. rewrite Hv.
    cbn [mbind exec_bind]. destruct (inv_destroyed _ _ _ _ v q H Hv) as (live' & -> & H2 & Ho2). cbn [mbind exec_bind].
    eexists. split; [done|]. cbn [u_vars u_live u_next]. pose proof (inv_give _ _ _ _ v (Some p0) H2 Ho2) as H3.
    rewrite insert_insert_eq in H3. apply H3. by apply object_in.
  - destruct Hop as [q Hv]. unfold u_var, UniquePointer_destroy. cbn [u_vars u_live u_next]. rewrite Hv. cbn [mbind exec_bind].
    destruct (inv_destroyed _ _ _ _ v q H Hv) as (live' & -> & H2 & Ho2). cbn [mbind exec_bind].
    eexists. split; [done|]. cbn [u_vars u_live u_next]. pose proof (inv_end _ _ _ _ v H2 Ho2) as H3. by rewrite delete_insert_eq in H3.
Qed.

Lemma u_run_keeps ops : forall s raw raw',
  u_ok s raw -> u_plays s raw ops raw' -> exists s', u_run s ops = Done s' /\ u_ok s' raw'.
Proof.
  induction ops as [|op ops IH]; intros s raw raw' Hok; cbn [u_plays u_run]; [intros ->; by exists s|].
  intros [Hop Hplay]. destruct (u_step_keeps s raw op Hok Hop) as (s1 & E & Hok1). rewrite E. cbn [mbind exec_bind].
  eapply IH; [exact Hok1|by apply Hplay].
Qed.

(** C33: Every object has one owner. A program makes, moves, assigns, releases, resets and ends
    its variables by these rules ([u_allowed]): a new variable is not one in use, the variables
    that a step uses are; a pointer that a variable is made from or reset to is one that was
    released and not handed on since; no variable is assigned to itself. Then, in whatever order
    it does so, no object is deleted twice, no assertion fails, two variables never own the same
    object, and at the end the objects alive are exactly those that a variable owns or that
    were released; when all variables have ended and nothing released is left in hand, none is
    alive. *)
Theorem unique_pointers_own_once ops raw :
  u_plays no_pointers ∅ ops raw ->
  exists s, u_run no_pointers ops = Done s /\
    (forall v w p, u_vars s !! v = Some (Some p) -> u_vars s !! w = Some (Some p) -> v = w) /\
    (forall p, p ∈ u_live s <-> p ∈ raw \/ exists v, u_vars s !! v = Some (Some p)) /\
    (u_vars s = ∅ -> raw = ∅ -> u_live s = ∅).
Proof.
  intros Hplay. assert (H0 : u_ok no_pointers ∅).
  { split; cbn; intros *; try (by unfold owns; rewrite lookup_empty); by intros ?%elem_of_empty. }
  destruct (u_run_keeps ops no_pointers ∅ raw H0 Hplay) as (s & E & [Ho H1 Hr Hl Hn]). exists s. split; [done|]. split; [exact H1|].
  assert (Hlive : forall p, p ∈ u_live s <-> p ∈ raw \/ exists v, u_vars s !! v = Some (Some p)).
  { intros p. split; [apply Hl|]. intros [?|[v Hv]]; [by apply Hr|]. by destruct (Ho v p Hv). }
  split; [exact Hlive|]. intros Hv Hraw. apply leibniz_equiv. intros p. rewrite Hlive, Hv, Hraw. split; [|by intros ?%elem_of_empty].
  intros [?|[v Hp]]; [done|]. by rewrite lookup_empty in Hp.
Qed.

Lemma unique_pointers_own_once_witness :
  exists s, u_run no_pointers [UMake 0; UMake 1; UMove 2 0; UAssign 1 2; URelease 1; UAdopt 3 0; UEnd 3; UEnd 2; UEnd 1; UEnd 0] = Done s /\
    u_live s = ∅.
Proof.
  destruct (unique_pointers_own_once [UMake 0; UMake 1; UMove 2 0; UAssign 1 2; URelease 1; UAdopt 3 0; UEnd 3; UEnd 2; UEnd 1; UEnd 0] ∅)
    as (s & E & _ & _ & Hl).
  - do 10 (split; [apply (bool_decide_unpack _); vm_compute; exact I|intros s' E; vm_compute in E; injection E as <-]).
    vm_compute. reflexivity.
  - exists s. split; [exact E|]. vm_compute in E. injection E as <-. reflexivity.
Defined.

(** ** SharedPointer *)

(** [m_storage] and [m_reference_count], pointers to the object and to the count that all
    pointers to the object share; the count is one less than their number. *)
Record SharedPointer := mkShared { sp_storage : option nat; sp_count : option nat }.

Record SharedState := mkSharedState {
  s_vars : gmap nat SharedPointer;
  s_live : gset nat;
  s_counts : gmap nat Z;
  s_next : nat
}.

Definition no_shared : SharedState := mkSharedState ∅ ∅ ∅ 0.

Definition s_var (s : SharedState) (v : nat) : exec SharedPointer :=
  match s_vars s !! v with Some p => Done p | None => Fault end.

Definition set_var (s : SharedState) (v : nat) (p : SharedPointer) : SharedState :=
  mkSharedState (<[v := p]> (s_vars s)) (s_live s) (s_counts s) (s_next s).

(** [*m_reference_count]; the count may have been deleted. *)
Definition read_count (s : SharedState) (m_reference_count : option nat) : exec Z :=
  match m_reference_count ≫= (fun c => s_counts s !! c) with Some n => Done n | None => Fault end.

Definition write_count (s : SharedState) (m_reference_count : option nat) (n : Z) : exec SharedState :=
  match m_reference_count with
  | Some c => if decide (is_Some (s_counts s !! c)) then Done (mkSharedState (s_vars s) (s_live s) (<[c := n]> (s_counts s)) (s_next s)) else Fault
  | None => Fault
  end.

(** [make_shared]: a new object with a new count. *)
Definition make_shared (s : SharedState) (v : nat) : exec SharedState :=
  let p := s_next s in
  Done (mkSharedState (<[v := mkShared (Some p) (Some p)]> (s_vars s)) (s_live s ∪ {[p]}) (<[p := 0]> (s_counts s)) (S p)).

(** The pointer afterwards, and the state. *)
Definition check_and_delete_object (s : SharedState) (p : SharedPointer) : exec (SharedPointer * SharedState) :=
  _ ← ASSERT (not_null (sp_storage p));
  _ ← ASSERT (not_null (sp_count p));
  tmp_ref_count ← read_count s (sp_count p);
  if tmp_ref_count =? 0 then
    live ← delete_object (sp_storage p) (s_live s);
    let counts := match sp_count p with Some c => delete c (s_counts s) | None => s_counts s end in
    Done (mkShared None None, mkSharedState (s_vars s) live counts (s_next s))
  else
    n ← read_count s (sp_count p);
    s ← write_count s (sp_count p) (u32 (n - 1));
    Done (mkShared None (sp_count p), s).

(** One more pointer to what [p] points to. *)
Definition increment_count (s : SharedState) (p : SharedPointer) : exec SharedState :=
  n ← read_count s (sp_count p);
  write_count s (sp_count p) (u32 (n + 1)).

Definition SharedPointer_copy (s : SharedState) (this other : nat) : exec SharedState :=
  p ← s_var s other;
  s ← increment_count s p;
  Done (set_var s this p).

Definition SharedPointer_assign (s : SharedState) (this other : nat) : exec SharedState :=
  _ ← ASSERT (negb (this =? other)%nat);
  m ← s_var s this;
  '(m, s) ← check_and_delete_object s m;
  p ← s_var s other;
  s ← increment_count s p;
  Done (set_var s this p).

Definition SharedPointer_destroy (s : SharedState) (this : nat) : exec SharedState :=
  m ← s_var s this;
  '(_, s) ← check_and_delete_object s m;
  Done (mkSharedState (delete this (s_vars s)) (s_live s) (s_counts s) (s_next s)).

Definition SharedPointer_move (s : SharedState) (this other : nat) : exec SharedState :=
  p ← s_var s other;
  Done (set_var (set_var s other (mkShared None None)) this p).

Definition SharedPointer_move_assign (s : SharedState) (this other : nat) : exec SharedState :=
  _ ← ASSERT (negb (this =? other)%nat);
  m ← s_var s this;
  '(m, s) ← check_and_delete_object s m;
  p ← s_var s other;
  '(q, s) ← check_and_delete_object s p;
  Done (set_var (set_var s other q) this p).

Definition SharedPointer_reference_count (s : SharedState) (this : nat) : exec Z :=
  p ← s_var s this;
  read_count s (sp_count p).

Inductive s_op := SMake (v : nat) | SCopy (v w : nat) | SAssign (v w : nat) | SMove (v w : nat) | SMoveAssign (v w : nat) | SEnd (v : nat).

Definition s_step (s : SharedState) (op : s_op) : exec SharedState :=
  match op with
  | SMake v => make_shared s v
  | SCopy v w => SharedPointer_copy s v w
  | SAssign v w => SharedPointer_assign s v w
  | SMove v w => SharedPointer_move s v w
  | SMoveAssign v w => SharedPointer_move_assign s v w
  | SEnd v => SharedPointer_destroy s v
  end.

Fixpoint s_run (s : SharedState) (ops : list s_op) : exec SharedState :=
  match ops with [] => Done s | op :: ops => s ← s_step s op; s_run s ops end.

(** The variable that was moved from fails the assertion when it ends, and a move assignment
    deletes the object that it hands over, so that the next use is one of a deleted object. *)
Example shared_move_panics : s_run no_shared [SMake 0; SMove 1 0; SEnd 1; SEnd 0] = Panic.
Proof. vm_compute. reflexivity. Qed.

Example shared_move_assign_deletes :
  (s ← s_run no_shared [SMake 0; SMake 1; SMoveAssign 0 1]; Done (s_live s)) = Done ∅ /\
  s_run no_shared [SMake 0; SMake 1; SMoveAssign 0 1; SEnd 0] = Fault.
Proof. split; vm_compute; reflexivity. Qed.

(** *** Without moves *)

Definition points_to (p : nat) : SharedPointer := mkShared (Some p) (Some p).

#[export] Instance SharedPointer_eq_dec : EqDecision SharedPointer.
Proof. solve_decision. Defined.

(** How many variables point to an object. *)
Definition users (vars : gmap nat SharedPointer) (p : nat) : nat := size (filter (fun vx => vx.2 = points_to p) vars).

Lemma users_new vars v q p :
  vars !! v = None -> users (<[v := points_to q]> vars) p = (users vars p + (if decide (p = q) then 1 else 0))%nat.
Proof.
  intros Hv. unfold users. destruct (decide (p = q)) as [->|Hne].
  - rewrite map_filter_insert_True by done. rewrite map_size_insert_None; [lia|]. apply map_lookup_filter_None. by left.
  - rewrite map_filter_insert_False; [|intros E; injection E as E; by apply Hne]. rewrite delete_id by done. lia.
Qed.

Lemma users_end vars v q p :
  vars !! v = Some (points_to q) -> (users (delete v vars) p + (if decide (p = q) then 1 else 0))%nat = users vars p.
Proof.
  intros Hv. rewrite <- (users_new (delete v vars) v q p) by apply lookup_delete_eq. by rewrite insert_delete_id.
Qed.

Lemma users_some vars p : users vars p <> 0%nat <-> exists v, vars !! v = Some (points_to p).
Proof.
  unfold users. split.
  - intros H. apply map_size_ne_0_lookup in H as (v & x & Hx). apply map_lookup_filter_Some in Hx as [Hx E]. cbn in E. subst x. by exists v.
  - intros [v Hv]. apply map_size_ne_0_lookup. exists v, (points_to p). by apply map_lookup_filter_Some.
Qed.

Lemma users_bound vars p : (users vars p <= size vars)%nat.
Proof. unfold users. apply map_subseteq_size, map_filter_subseteq. Qed.

(** The counts and the objects alive are those of numbers of users. *)
Record counted (f : nat -> nat) (s : SharedState) : Prop := {
  cn_counts p : s_counts s !! p = match f p with O => None | S n => Some (Z.of_nat n) end;
  cn_live p : p ∈ s_live s <-> f p <> 0%nat
}.

Lemma counted_count f s p n : counted f s -> f p = S n -> read_count s (Some p) = Done (Z.of_nat n).
Proof. intros [Hc _] E. unfold read_count. cbn [mbind option_bind]. by rewrite Hc, E. Qed.

Lemma counted_write f g s p n :
  counted f s -> f p <> 0%nat -> (forall q, q <> p -> g q = f q) -> g p = S n ->
  exists s', write_count s (Some p) (Z.of_nat n) = Done s' /\ counted g s' /\ s_vars s' = s_vars s /\ s_next s' = s_next s.
Proof.
  intros [Hc Hl] Hp Hq Hgp. unfold write_count. rewrite decide_True by (rewrite Hc; destruct (f p); [done|by eexists]).
  eexists. split; [done|]. split; [|done]. split; cbn [s_counts s_live]; intros q; destruct (decide (q = p)) as [->|Hne].
  - by rewrite lookup_insert_eq, Hgp.
  - by rewrite lookup_insert_ne, Hc, Hq.
  - rewrite Hl, Hgp. lia.
  - by rewrite Hl, Hq.
Qed.

Lemma counted_less f g s p :
  counted f s -> f p <> 0%nat -> (Z.of_nat (f p) < 2 ^ 32) -> (forall q, q <> p -> g q = f q) -> S (g p) = f p ->
  exists m s', check_and_delete_object s (points_to p) = Done (m, s') /\ counted g s' /\ s_vars s' = s_vars s /\ s_next s' = s_next s.
Proof.
  intros Hcn Hp Hb Hq Hgp. unfold check_and_delete_object. cbn [points_to sp_storage sp_count not_null ASSERT mbind exec_bind].
  symmetry in Hgp. rewrite (counted_count f s p _ Hcn Hgp). cbn [mbind exec_bind]. destruct (g p) as [|n] eqn:Hg.
  - pose proof Hcn as [Hc Hl]. cbn [delete_object]. rewrite decide_True by by rewrite Hl. cbn [mbind exec_bind].
    eexists _, _. split; [done|]. split; [|done]. split; cbn [s_counts s_live]; intros q; destruct (decide (q = p)) as [->|Hne].
    + by rewrite lookup_delete_eq, Hg.
    + by rewrite lookup_delete_ne, Hc, Hq.
    + rewrite elem_of_difference, elem_of_singleton, Hg. tauto.
    + rewrite elem_of_difference, elem_of_singleton, Hl, (Hq q Hne). tauto.
  - rewrite (proj2 (Z.eqb_neq _ 0)) by lia. rewrite u32_small by lia. replace (Z.of_nat (S n) - 1) with (Z.of_nat n) by lia.
    destruct (counted_write f g s p n Hcn Hp Hq Hg) as (s' & -> & Hs'). cbn [mbind exec_bind]. by eexists _, _.
Qed.

Lemma counted_more f g s p :
  counted f s -> f p <> 0%nat -> (Z.of_nat (f p) < 2 ^ 32) -> (forall q, q <> p -> g q = f q) -> g p = S (f p) ->
  exists s', increment_count s (points_to p) = Done s' /\ counted g s' /\ s_vars s' = s_vars s /\ s_next s' = s_next s.
Proof.
  intros Hcn Hp Hb Hq Hgp. destruct (f p) as [|n] eqn:Hf; [done|]. unfold increment_count. cbn [points_to sp_count].
  rewrite (counted_count f s p n Hcn Hf). cbn [mbind exec_bind]. rewrite u32_small by lia. replace (Z.of_nat n + 1) with (Z.of_nat (S n)) by lia.
  apply (counted_write f g s p (S n)); [done|by rewrite Hf|done|done].
Qed.

Record s_inv (s : SharedState) : Prop := {
  si_vars v x : s_vars s !! v = Some x -> exists p, x = points_to p;
  si_counted : counted (users (s_vars s)) s;
  si_next p : p ∈ s_live s -> (p < s_next s)%nat
}.

Definition s_allowed (s : SharedState) (op : s_op) : Prop :=
  match op with
  | SMake v => s_vars s !! v = None
  | SCopy v w => s_vars s !! v = None /\ is_Some (s_vars s !! w)
  | SAssign v w => v <> w /\ is_Some (s_vars s !! v) /\ is_Some (s_vars s !! w)
  | SEnd v => is_Some (s_vars s !! v)
  | SMove _ _ | SMoveAssign _ _ => False
  end.

#[export] Instance s_allowed_decision s op : Decision (s_allowed s op).
Proof. destruct op; cbn [s_allowed]; apply _. Defined.

Fixpoint s_plays (s : SharedState) (ops : list s_op) : Prop :=
  match ops with
  | [] => True
  | op :: ops => s_allowed s op /\ forall s', s_step s op = Done s' -> s_plays s' ops
  end.

Lemma vars_insert (vars : gmap nat SharedPointer) v p :
  (forall w x, vars !! w = Some x -> exists q, x = points_to q) ->
  forall w x, <[v := points_to p]> vars !! w = Some x -> exists q, x = points_to q.
Proof. intros H w x [[_ <-]|[_ Hx]]%lookup_insert_Some; [by exists p|by eapply H]. Qed.

(** Where the count of an object in use is below. *)
Lemma used_next s p : s_inv s -> users (s_vars s) p <> 0%nat -> (p < s_next s)%nat.
Proof. intros [_ [_ Hl] Hn] Hp. by apply Hn, Hl. Qed.

(** One more or one less user of [q]. *)
Lemma users_new_ne vars v q p : vars !! v = None -> p <> q -> users (<[v := points_to q]> vars) p = users vars p.
Proof. intros Hv Hne. rewrite users_new by done. rewrite decide_False by done. lia. Qed.

Lemma users_new_eq vars v q : vars !! v = None -> users (<[v := points_to q]> vars) q = S (users vars q).
Proof. intros Hv. rewrite users_new by done. rewrite decide_True by done. lia. Qed.

Lemma users_end_ne vars v q p : vars !! v = Some (points_to q) -> p <> q -> users (delete v vars) p = users vars p.
Proof. intros Hv Hne. rewrite <- (users_end vars v q p Hv), decide_False by done. lia. Qed.

Lemma users_end_eq vars v q : vars !! v = Some (points_to q) -> S (users (delete v vars) q) = users vars q.
Proof. intros Hv. rewrite <- (users_end vars v q q Hv), decide_True by done. lia. Qed.

(** The new state keeps the invariant when it counts the users of the new variables, all of
    which point to objects in use before. *)
Lemma s_inv_intro s s' vars :
  s_inv s -> counted (users vars) s' -> s_next s' = s_next s -> (forall v x, vars !! v = Some x -> exists p, x = points_to p) ->
  (forall v p, vars !! v = Some (points_to p) -> users (s_vars s) p <> 0%nat) ->
  s_inv (mkSharedState vars (s_live s') (s_counts s') (s_next s')).
Proof.
  intros Hinv [Hc Hl] Hn Hx Hu. split; cbn [s_vars s_live s_next]; [exact Hx|by split|].
  intros p Hp. apply Hl, users_some in Hp as [v Hv]. rewrite Hn. eapply used_next; [done|by eapply Hu].
Qed.

Lemma s_make_keeps s v : s_inv s -> s_vars s !! v = None -> exists s', make_shared s v = Done s' /\ s_inv s'.
Proof.
  intros Hinv Hv. pose proof Hinv as [Hx [Hc Hl] Hn]. eexists. split; [done|].
  assert (Hu : users (s_vars s) (s_next s) = 0%nat).
  { destruct (users (s_vars s) (s_next s)) as [|n] eqn:E; [done|]. pose proof (used_next s (s_next s) Hinv). lia. }
  split; cbn [s_vars s_live s_counts s_next].
  - by apply vars_insert.
  - split; cbn [s_live s_counts]; intros p; destruct (decide (p = s_next s)) as [->|Hne].
    + fold (points_to (s_next s)). by rewrite lookup_insert_eq, users_new_eq, Hu.
    + fold (points_to (s_next s)). by rewrite lookup_insert_ne, users_new_ne.
    + fold (points_to (s_next s)). rewrite users_new_eq, elem_of_union, elem_of_singleton by done. split; [done|by right].
    + fold (points_to (s_next s)). rewrite users_new_ne, elem_of_union, elem_of_singleton, Hl by done. tauto.
  - intros p. rewrite elem_of_union, elem_of_singleton. intros [Hp| ->]; [apply Hn in Hp|]; lia.
Qed.

Lemma s_copy_keeps s v w p :
  s_inv s -> Z.of_nat (size (s_vars s)) < 2 ^ 32 - 1 -> s_vars s !! v = None -> s_vars s !! w = Some (points_to p) ->
  exists s', SharedPointer_copy s v w = Done s' /\ s_inv s' /\ (size (s_vars s') <= S (size (s_vars s)))%nat.
Proof.
  intros Hinv Hsize Hv Hw. pose proof Hinv as [Hx Hcn Hn]. unfold SharedPointer_copy, s_var. rewrite Hw. cbn [mbind exec_bind].
  assert (Hp : users (s_vars s) p <> 0%nat) by (apply users_some; by exists w). pose proof (users_bound (s_vars s) p).
  destruct (counted_more _ (users (<[v := points_to p]> (s_vars s))) s p Hcn Hp) as (s1 & -> & Hc1 & Hv1 & Hn1);
    [lia|by intros q Hq; apply users_new_ne|by apply users_new_eq|].
  cbn [mbind exec_bind]. eexists. split; [done|]. unfold set_var. rewrite Hv1. split.
  - apply (s_inv_intro s); [done..|by apply vars_insert|]. intros y q [[_ E]|[_ Hy]]%lookup_insert_Some.
    + by injection E as <-.
    + apply users_some. by exists y.
  - cbn [s_vars]. rewrite map_size_insert_None by done. lia.
Qed.

Lemma s_assign_keeps s v w q p :
  s_inv s -> Z.of_nat (size (s_vars s)) < 2 ^ 32 - 1 -> v <> w -> s_vars s !! v = Some (points_to q) ->
  s_vars s !! w = Some (points_to p) ->
  exists s', SharedPointer_assign s v w = Done s' /\ s_inv s' /\ (size (s_vars s') <= S (size (s_vars s)))%nat.
Proof.
  intros Hinv Hsize Hne Hv Hw. pose proof Hinv as [Hx Hcn Hn].
  unfold SharedPointer_assign, s_var. rewrite (proj2 (Nat.eqb_neq v w) Hne), Hv. cbn [negb ASSERT mbind exec_bind].
  assert (Hq : users (s_vars s) q <> 0%nat) by (apply users_some; by exists v). pose proof (users_bound (s_vars s) q).
  destruct (counted_less _ (users (delete v (s_vars s))) s q Hcn Hq) as (m & s1 & -> & Hc1 & Hv1 & Hn1);
    [lia|by intros r Hr; apply (users_end_ne _ _ q)|by apply users_end_eq|].
  cbn [mbind exec_bind]. rewrite Hv1, Hw. cbn [mbind exec_bind].
  assert (Hd : delete v (s_vars s) !! v = None) by apply lookup_delete_eq.
  assert (Hp : users (delete v (s_vars s)) p <> 0%nat) by (apply users_some; exists w; by rewrite lookup_delete_ne).
  pose proof (users_bound (delete v (s_vars s)) p). pose proof (map_size_delete_Some _ _ (mk_is_Some _ _ Hv)).
  destruct (counted_more _ (users (<[v := points_to p]> (delete v (s_vars s)))) s1 p Hc1 Hp) as (s2 & -> & Hc2 & Hv2 & Hn2);
    [lia|by intros r Hr; apply users_new_ne|by apply users_new_eq|].
  cbn [mbind exec_bind]. eexists. split; [done|]. unfold set_var. rewrite insert_delete_eq in Hc2. rewrite Hv2, Hv1. split.
  - apply (s_inv_intro s); [done..|by rewrite Hn2|by apply vars_insert|]. intros y r [[_ E]|[_ Hy]]%lookup_insert_Some.
    + injection E as <-. apply users_some. by exists w.
    + apply users_some. by exists y.
  - cbn [s_vars]. rewrite map_size_insert_Some by (by eexists). lia.
Qed.

Lemma s_end_keeps s v q :
  s_inv s -> Z.of_nat (size (s_vars s)) < 2 ^ 32 - 1 -> s_vars s !! v = Some (points_to q) ->
  exists s', SharedPointer_destroy s v = Done s' /\ s_inv s' /\ (size (s_vars s') <= S (size (s_vars s)))%nat.
Proof.
  intros Hinv Hsize Hv. pose proof Hinv as [Hx Hcn Hn]. unfold SharedPointer_destroy, s_var. rewrite Hv. cbn [mbind exec_bind].
  assert (Hq : users (s_vars s) q <> 0%nat) by (apply users_some; by exists v). pose proof (users_bound (s_vars s) q).
  destruct (counted_less _ (users (delete v (s_vars s))) s q Hcn Hq) as (m & s1 & -> & Hc1 & Hv1 & Hn1);
    [lia|by intros r Hr; apply (users_end_ne _ _ q)|by apply users_end_eq|].
  cbn [mbind exec_bind]. eexists. split; [done|]. rewrite Hv1. split.
  - apply (s_inv_intro s); [done..| |].
    + intros w x [_ Hw]%lookup_delete_Some. by eapply Hx.
    + intros w r [_ Hw]%lookup_delete_Some. apply users_some. by exists w.
  - cbn [s_vars]. pose proof (map_size_delete_Some _ _ (mk_is_Some _ _ Hv)). lia.
Qed.

Lemma s_step_keeps s op :
  s_inv s -> Z.of_nat (size (s_vars s)) < 2 ^ 32 - 1 -> s_allowed s op ->
  exists s', s_step s op = Done s' /\ s_inv s' /\ (size (s_vars s') <= S (size (s_vars s)))%nat.
Proof.
  intros Hinv Hsize Hop. pose proof (si_vars _ Hinv) as Hx.
  destruct op as [v|v w|v w|v w|v w|v]; cbn [s_allowed s_step] in *; [| | |done|done|].
  - destruct (s_make_keeps s v Hinv Hop) as (s' & E & Hinv'). exists s'. split; [done|]. split; [done|].
    unfold make_shared in E. injection E as <-. cbn [s_vars]. rewrite map_size_insert_None by done. lia.
  - destruct Hop as [Hv [x Hw]]. destruct (Hx w x Hw) as [p ->]. by eapply s_copy_keeps.
  - destruct Hop as (Hne & [x Hv] & [y Hw]). destruct (Hx v x Hv) as [q ->]. destruct (Hx w y Hw) as [p ->]. by eapply s_assign_keeps.
  - destruct Hop as [x Hv]. destruct (Hx v x Hv) as [q ->]. by eapply s_end_keeps.
Qed.

Lemma s_run_keeps ops : forall s,
  s_inv s -> s_plays s ops -> Z.of_nat (size (s_vars s) + length ops) < 2 ^ 32 - 1 -> exists s', s_run s ops = Done s' /\ s_inv s'.
Proof.
  induction ops as [|op ops IH]; intros s Hinv; cbn [s_plays s_run length]; [by exists s|].
  intros [Hop Hplay] Hb. destruct (s_step_keeps s op Hinv ltac:(lia) Hop) as (s1 & E & Hinv1 & Hs). rewrite E. cbn [mbind exec_bind].
  apply IH; [done|by apply Hplay|lia].
Qed.

(** Shared objects live as long as they are shared. However a program makes, copies, assigns
    and ends shared pointers, fewer than 2^32 times, nothing is deleted twice or used after it
    was deleted, and no assertion fails; at every time an object is alive exactly when a
    variable points to it, and the reference count is the number of the other ones that do. *)
Theorem shared_pointers_count ops :
  s_plays no_shared ops -> Z.of_nat (length ops) < 2 ^ 32 - 1 ->
  exists s, s_run no_shared ops = Done s /\
    (forall p, p ∈ s_live s <-> exists v, s_vars s !! v = Some (points_to p)) /\
    (forall v x, s_vars s !! v = Some x -> exists p, x = points_to p /\
       SharedPointer_reference_count s v = Done (Z.of_nat (users (s_vars s) p) - 1)).
Proof.
  intros Hplay Hb. assert (H0 : s_inv no_shared).
  { split; [intros v x; cbn [no_shared s_vars]; by rewrite lookup_empty|split|]; intros p; cbn [no_shared s_vars s_live s_counts].
    - by rewrite lookup_empty.
    - split; [by intros ?%elem_of_empty|]. intros [v Hv]%users_some. by rewrite lookup_empty in Hv.
    - by intros ?%elem_of_empty. }
  destruct (s_run_keeps ops no_shared H0 Hplay) as (s & E & [Hx Hcn Hn]); [by cbn|]. exists s. split; [done|]. split.
  - intros p. by rewrite (cn_live _ _ Hcn), users_some.
  - intros v x Hv. destruct (Hx v x Hv) as [p ->]. exists p. split; [done|]. unfold SharedPointer_reference_count, s_var. rewrite Hv.
    cbn [mbind exec_bind]. assert (Hp : users (s_vars s) p <> 0%nat) by (apply users_some; by exists v).
    destruct (users (s_vars s) p) as [|n] eqn:Hu; [done|]. cbn [points_to sp_count]. rewrite (counted_count _ s p n Hcn Hu). f_equal. lia.
Qed.

Lemma shared_pointers_count_witness :
  exists s, s_run no_shared [SMake 0; SMake 1; SCopy 2 0; SCopy 3 2; SAssign 1 3; SEnd 0] = Done s /\
    (forall p, p ∈ s_live s <-> exists v, s_vars s !! v = Some (points_to p)) /\
    SharedPointer_reference_count s 1 = Done 2.
Proof.
  destruct (shared_pointers_count [SMake 0; SMake 1; SCopy 2 0; SCopy 3 2; SAssign 1 3; SEnd 0]) as (s & E & Hl & _).
  - do 6 (split; [apply (bool_decide_unpack _); vm_compute; exact I|intros s' E; vm_compute in E; injection E as <-]). exact I.
  - reflexivity.
  - exists s. split; [exact E|]. split; [exact Hl|]. vm_compute in E. injection E as <-. vm_compute. reflexivity.
Defined.

(** ** References *)

(** [NullOrReference]: the reference may be null, but is not used then. *)
Definition NullOrReference_of_pointer (storage : option nat) : exec (option nat) :=
  _ ← ASSERT (not_null storage);
  Done storage.

Definition NullOrReference_is_valid (m_storage : option nat) : bool := not_null m_storage.

Definition NullOrReference_ptr (m_storage : option nat) : exec (option nat) :=
  _ ← ASSERT (NullOrReference_is_valid m_storage);
  Done m_storage.

(** [value] and [operator*]. *)
Definition NullOrReference_value (m_storage : option nat) : exec nat :=
  _ ← ASSERT (NullOrReference_is_valid m_storage);
  match m_storage with Some p => Done p | None => Fault end.

Definition Reference_of_pointer (storage : option nat) : exec (option nat) :=
  _ ← ASSERT (not_null storage);
  Done storage.

(** An access to a reference never uses the null pointer: it is the object, or the assertion. *)
Lemma null_reference_asserts m : NullOrReference_value m <> Fault /\ (NullOrReference_value m = Panic <-> m = None).
Proof. destruct m; split; done. Qed.
