(* ===== verification/IntrusiveList.v ===== *)
(** [IntrusiveList<T>] (intrusive_list.h): the doubly linked lists of threads and
    processes. The links live in the elements, so the model is a heap of nodes and
    lists with the pointers the source has; an element is a member of at most one
    list, recorded in its [owner]. The abstract view is a finite map from lists to
    the sequence of their elements, and [ListStore] is the interface the scheduler
    is verified against. *)

From S2P Require Import Prelude.

(** A pointer to a node: an element, or the ending node inside a list. A null
    pointer is [None]. *)
Inductive node_ptr :=
| PNode (node : Z)
| PEnd (list : Z).

#[export] Instance node_ptr_eq_dec : EqDecision node_ptr.
Proof. solve_decision. Defined.

Record IntrusiveListNode := mkNode {
  n_next : option node_ptr;
  n_prev : option node_ptr;
  n_owner : option Z
}.

Record IntrusiveList := mkIList {
  il_count : Z;
  il_head : option node_ptr;
  il_tail : option node_ptr;
  il_ending_node : IntrusiveListNode
}.

(** The elements and the lists, by address. *)
Record node_heap := mkHeap {
  h_nodes : gmap Z IntrusiveListNode;
  h_lists : gmap Z IntrusiveList
}.

Definition fresh_node : IntrusiveListNode := mkNode None None None.

Definition get_list (h : node_heap) (this : Z) : exec IntrusiveList :=
  match h_lists h !! this with Some L => Done L | None => Fault end.

Definition put_list (h : node_heap) (this : Z) (L : IntrusiveList) : node_heap :=
  mkHeap (h_nodes h) (<[this := L]> (h_lists h)).

(** Dereference of a node pointer. *)
Definition get_node (h : node_heap) (p : option node_ptr) : exec IntrusiveListNode :=
  match p with
  | Some (PNode n) => match h_nodes h !! n with Some nd => Done nd | None => Fault end
  | Some (PEnd l) => L ← get_list h l; Done (il_ending_node L)
  | None => Fault
  end.

Definition put_node (h : node_heap) (p : option node_ptr) (nd : IntrusiveListNode) : exec node_heap :=
  match p with
  | Some (PNode n) => Done (mkHeap (<[n := nd]> (h_nodes h)) (h_lists h))
  | Some (PEnd l) =>
      L ← get_list h l;
      Done (put_list h l (mkIList (il_count L) (il_head L) (il_tail L) nd))
  | None => Fault
  end.

(** [p->next = v], [p->prev = v], [p->owner = v] *)
Definition set_next (h : node_heap) (p v : option node_ptr) : exec node_heap :=
  nd ← get_node h p; put_node h p (mkNode v (n_prev nd) (n_owner nd)).

Definition set_prev (h : node_heap) (p v : option node_ptr) : exec node_heap :=
  nd ← get_node h p; put_node h p (mkNode (n_next nd) v (n_owner nd)).

Definition set_owner (h : node_heap) (p : option node_ptr) (v : option Z) : exec node_heap :=
  nd ← get_node h p; put_node h p (mkNode (n_next nd) (n_prev nd) v).

(** [m_head = p], [m_tail = p], [m_count = c] *)
Definition set_head (h : node_heap) (this : Z) (p : option node_ptr) : exec node_heap :=
  L ← get_list h this;
  Done (put_list h this (mkIList (il_count L) p (il_tail L) (il_ending_node L))).

Definition set_tail (h : node_heap) (this : Z) (p : option node_ptr) : exec node_heap :=
  L ← get_list h this;
  Done (put_list h this (mkIList (il_count L) (il_head L) p (il_ending_node L))).

Definition set_count (h : node_heap) (this : Z) (c : Z) : exec node_heap :=
  L ← get_list h this;
  Done (put_list h this (mkIList c (il_head L) (il_tail L) (il_ending_node L))).

(** * The operations *)

Definition IntrusiveList_new (h : node_heap) (this : Z) : node_heap :=
  put_list h this (mkIList 0 (Some (PEnd this)) (Some (PEnd this))
                     (mkNode (Some (PEnd this)) (Some (PEnd this)) (Some this))).

Definition IntrusiveList_is_valid_node (h : node_heap) (this : Z) (node : node_ptr) : exec bool :=
  nd ← get_node h (Some node);
  if bool_decide (n_next nd = Some node) then Done false
  else if negb (bool_decide (n_owner nd = Some this)) then Done false
  else Done true.

Definition IntrusiveList_append_node (h : node_heap) (this node : Z) : exec node_heap :=
  let p := Some (PNode node) in
  nd ← get_node h p;
  _ ← ASSERT (negb (not_null (n_owner nd)));
  h ← set_owner h p (Some this);
  L ← get_list h this;
  h ← if bool_decide (il_head L = Some (PEnd this)) then
        h ← set_prev h p None;
        h ← set_next h p (Some (PEnd this));
        h ← set_tail h this p;
        set_head h this p
      else
        h ← set_prev h p (il_tail L);
        h ← set_next h p (Some (PEnd this));
        h ← set_next h (il_tail L) p;
        h ← set_tail h this p;
        set_prev h (Some (PEnd this)) p;
  L ← get_list h this;
  set_count h this (u32 (il_count L + 1)).

Definition IntrusiveList_remove_node (h : node_heap) (this : Z) (node : node_ptr) : exec node_heap :=
  let p := Some node in
  valid ← IntrusiveList_is_valid_node h this node;
  _ ← ASSERT valid;
  L ← get_list h this;
  nd ← get_node h p;
  h ← if bool_decide (il_head L = p) && bool_decide (il_tail L = p) then
        h ← set_tail h this (Some (PEnd this));
        set_head h this (Some (PEnd this))
      else if bool_decide (il_head L = p) then
        h ← set_head h this (n_next nd);
        set_prev h (n_next nd) None
      else if bool_decide (il_tail L = p) then
        h ← set_tail h this (n_prev nd);
        set_next h (n_prev nd) (Some (PEnd this))
      else
        h ← set_next h (n_prev nd) (n_next nd);
        set_prev h (n_next nd) (n_prev nd);
  h ← set_owner h p None;
  L ← get_list h this;
  set_count h this (u32 (il_count L - 1)).

Definition IntrusiveList_push_back (h : node_heap) (this node : Z) : exec node_heap :=
  IntrusiveList_append_node h this node.

(** Gives the node that was removed. *)
Definition IntrusiveList_pop_front (h : node_heap) (this : Z) : exec (node_ptr * node_heap) :=
  L ← get_list h this;
  _ ← ASSERT (negb (bool_decide (il_head L = Some (PEnd this))));
  match il_head L with
  | Some node => h ← IntrusiveList_remove_node h this node; Done (node, h)
  | None => Fault
  end.

Definition IntrusiveList_remove (h : node_heap) (this node : Z) : exec node_heap :=
  L ← get_list h this;
  _ ← ASSERT (not_null (il_head L));
  IntrusiveList_remove_node h this (PNode node).

(** Constructing an iterator asserts that the pointer is not null. *)
Definition Iterator_new (p : option node_ptr) : exec node_ptr :=
  match p with Some q => Done q | None => Panic end.

Definition IntrusiveList_begin (h : node_heap) (this : Z) : exec node_ptr :=
  L ← get_list h this; Iterator_new (il_head L).

Definition IntrusiveList_end (this : Z) : node_ptr := PEnd this.

Definition IntrusiveList_find (h : node_heap) (this node : Z) : exec node_ptr :=
  nd ← get_node h (Some (PNode node));
  Done (if bool_decide (n_owner nd = Some this) then PNode node else IntrusiveList_end this).

Definition IntrusiveList_first (h : node_heap) (this : Z) : exec node_ptr :=
  L ← get_list h this;
  _ ← ASSERT (negb (bool_decide (il_head L = Some (PEnd this))));
  match il_head L with Some p => Done p | None => Fault end.

Definition IntrusiveList_last (h : node_heap) (this : Z) : exec node_ptr :=
  L ← get_list h this;
  _ ← ASSERT (negb (bool_decide (il_tail L = Some (PEnd this))));
  match il_tail L with Some p => Done p | None => Fault end.

Definition IntrusiveList_is_empty (h : node_heap) (this : Z) : exec bool :=
  L ← get_list h this; Done (negb (truthy (il_count L))).

Definition IntrusiveList_size (h : node_heap) (this : Z) : exec Z :=
  L ← get_list h this; Done (il_count L).

(** [operator++] and [operator--]. *)
Definition Iterator_next (h : node_heap) (it : node_ptr) : exec node_ptr :=
  nd ← get_node h (Some it); Iterator_new (n_next nd).

Definition Iterator_prev (h : node_heap) (it : node_ptr) : exec node_ptr :=
  nd ← get_node h (Some it); Iterator_new (n_prev nd).

(** [operator*]: the element; the ending node is no element. *)
Definition Iterator_deref (h : node_heap) (it : node_ptr) : exec Z :=
  nd ← get_node h (Some it);
  match n_owner nd with
  | None => Panic
  | Some owner =>
      valid ← IntrusiveList_is_valid_node h owner it;
      _ ← ASSERT valid;
      match it with PNode n => Done n | PEnd _ => Fault end
  end.

(** The move constructor and the move assignment of two different lists. *)
Definition il_take (h : node_heap) (this other : Z) (ending : IntrusiveListNode) : exec node_heap :=
  from ← get_list h other;
  h ← Done (put_list h this (mkIList (il_count from) (il_head from) (il_tail from) ending));
  h ← set_next h (il_tail from) (Some (PEnd this));
  from ← get_list h other;
  Done (put_list h other (mkIList 0 None None (il_ending_node from))).

Definition IntrusiveList_move (h : node_heap) (this other : Z) : exec node_heap :=
  il_take h this other (mkNode (Some (PEnd this)) (Some (PEnd this)) (Some this)).

Definition IntrusiveList_move_assign (h : node_heap) (this other : Z) : exec node_heap :=
  L ← get_list h this;
  il_take h this other (il_ending_node L).

(** Evaluate heap accesses: lookups that the context or the last update answers,
    and pointer comparisons of literals. *)
Ltac heap_eval :=
  unfold set_owner, set_prev, set_next, set_tail, set_head, set_count, get_list, put_list;
  repeat first
    [ progress simpl
    | rewrite lookup_insert_eq
    | rewrite lookup_insert_ne by done
    | match goal with H : ?m !! ?k = Some _ |- context [?m !! ?k] => rewrite H end
    | rewrite bool_decide_eq_true_2 by done
    | rewrite bool_decide_eq_false_2 by done ];
  rewrite ?insert_insert_eq.

(** * Representation *)

(** First node of [s] in list [this], or its ending node. *)
Definition front_ptr (this : Z) (s : list Z) : option node_ptr :=
  match s with [] => Some (PEnd this) | n :: _ => Some (PNode n) end.

(** Last node of [p], or null. *)
Definition back_ptr (p : list Z) : option node_ptr := PNode <$> last p.

(** [m_tail] of a list that holds [ns]. *)
Definition tail_ptr (this : Z) (ns : list Z) : option node_ptr :=
  match last ns with None => Some (PEnd this) | Some n => Some (PNode n) end.

Record list_rep (h : node_heap) (this : Z) (ns : list Z) : Prop := {
  lr_list : exists ending, h_lists h !! this =
    Some (mkIList (alen ns) (front_ptr this ns) (tail_ptr this ns) ending) /\
    n_next ending = Some (PEnd this) /\ n_owner ending = Some this;
  lr_nodes : forall p n s, ns = p ++ n :: s ->
    h_nodes h !! n = Some (mkNode (front_ptr this s) (back_ptr p) (Some this));
  lr_nodup : NoDup ns;
  lr_bound : alen ns < 2 ^ 32
}.

(** The abstract store: the elements of each list, in order. *)
Abbreviation lists := (gmap Z (list Z)).

(** The heap holds exactly the lists of [A]; a node without an owner is in none. *)
Record heap_rep (h : node_heap) (A : lists) : Prop := {
  hr_list : forall l ns, A !! l = Some ns -> list_rep h l ns;
  hr_owner : forall n nd l, h_nodes h !! n = Some nd -> n_owner nd = Some l ->
    exists ns, A !! l = Some ns /\ n ∈ ns
}.

(** A node that is in no list. *)
Definition free_node (h : node_heap) (n : Z) : Prop :=
  exists nd, h_nodes h !! n = Some nd /\ n_owner nd = None.

Lemma rep_elem h l ns n :
  list_rep h l ns -> n ∈ ns -> exists nd, h_nodes h !! n = Some nd /\ n_owner nd = Some l.
Proof.
  intros H Hn. apply list_elem_of_split in Hn as (p & s & ->).
  pose proof (lr_nodes _ _ _ H p n s eq_refl). eauto.
Qed.

(** Two lists of the heap have no element in common. *)
Lemma rep_disjoint h l l' ns ns' n :
  list_rep h l ns -> list_rep h l' ns' -> n ∈ ns -> n ∈ ns' -> l = l'.
Proof.
  intros H H' Hn Hn'. destruct (rep_elem _ _ _ _ H Hn) as (nd & E & Ho).
  destruct (rep_elem _ _ _ _ H' Hn') as (nd' & E' & Ho'). congruence.
Qed.

Lemma free_not_elem h l ns n : list_rep h l ns -> free_node h n -> n ∉ ns.
Proof.
  intros H (nd & E & Ho) Hn. destruct (rep_elem _ _ _ _ H Hn) as (nd' & E' & Ho'). congruence.
Qed.

(** A list is untouched by changes outside its own record and elements. *)
Lemma list_rep_frame h h' l ns :
  list_rep h l ns -> h_lists h' !! l = h_lists h !! l ->
  (forall n, n ∈ ns -> h_nodes h' !! n = h_nodes h !! n) -> list_rep h' l ns.
Proof.
  intros [H1 H2 H3] Hl Hn. split; [by rewrite Hl| |done|done].
  intros p n s ->. rewrite Hn by (apply elem_of_app; right; left). by apply H2.
Qed.

(** ** Appending *)

Section append.
Context (h : node_heap) (A : lists) (Hh : heap_rep h A).
Context (this : Z) (ns : list Z) (HA : A !! this = Some ns).
Context (node : Z) (Hfree : free_node h node).
Context (Hroom : alen ns + 1 < 2 ^ 32).

(** The heap after [append_node]. *)
Definition appended (ending : IntrusiveListNode) : node_heap :=
  mkHeap
    (match last ns with
     | None => <[node := mkNode (Some (PEnd this)) None (Some this)]> (h_nodes h)
     | Some m =>
         <[m := mkNode (Some (PNode node)) (back_ptr (removelast ns)) (Some this)]>
           (<[node := mkNode (Some (PEnd this)) (Some (PNode m)) (Some this)]> (h_nodes h))
     end)
    (<[this := mkIList (alen ns + 1) (front_ptr this (ns ++ [node])) (Some (PNode node)) ending]>
       (h_lists h)).

Lemma append_node_result :
  exists ending, IntrusiveList_append_node h this node = Done (appended ending) /\
    n_next ending = Some (PEnd this) /\ n_owner ending = Some this.
Proof.
  pose proof (hr_list _ _ Hh _ _ HA) as Hl. pose proof (free_not_elem _ _ _ _ Hl Hfree) as Hnot.
  destruct (lr_list _ _ _ Hl) as (ending & EL & En & Eo).
  destruct Hfree as (nd & End & Hown). pose proof (alen_nonneg ns).
  unfold IntrusiveList_append_node, appended.
  destruct ns as [|m ns' _] eqn:Ens using rev_ind.
  - heap_eval. rewrite Hown. heap_eval. rewrite u32_small by lia. eauto.
  - assert (Hm : m <> node).
    { intros ->. apply Hnot. apply elem_of_app. right. by left. }
    pose proof (lr_nodes _ _ _ Hl ns' m [] eq_refl) as Em.
    assert (Hhd : front_ptr this (ns' ++ [m]) <> Some (PEnd this)) by (destruct ns'; simpl; congruence).
    unfold tail_ptr in EL. rewrite last_snoc in EL |- *. heap_eval. rewrite Hown. heap_eval.
    rewrite u32_small, removelast_last by lia.
    replace (front_ptr this ((ns' ++ [m]) ++ [node])) with (front_ptr this (ns' ++ [m]))
      by (by destruct ns').
    eexists; split; [done|]. done.
Qed.

Lemma appended_list_rep ending :
  n_next ending = Some (PEnd this) -> n_owner ending = Some this ->
  list_rep (appended ending) this (ns ++ [node]).
Proof.
  intros En Eo. pose proof (hr_list _ _ Hh _ _ HA) as Hl.
  pose proof (free_not_elem _ _ _ _ Hl Hfree) as Hnot. pose proof (lr_nodup _ _ _ Hl) as Hnd.
  split.
  - exists ending. unfold appended. simpl. rewrite lookup_insert_eq, alen_snoc.
    unfold tail_ptr. by rewrite last_snoc.
  - intros p k s E. unfold appended. simpl.
    apply split_snoc in E as [(-> & -> & ->)|(t & -> & E)].
    + unfold back_ptr. destruct (last ns) as [m|] eqn:Em; simpl; [|by rewrite lookup_insert_eq].
      rewrite lookup_insert_ne, lookup_insert_eq; [done|].
      intros ->. apply Hnot. by apply last_Some_elem_of.
    + assert (Hk : k <> node).
      { intros ->. apply Hnot. rewrite E. apply elem_of_app. right. by left. }
      rewrite E, last_app_cons. destruct t as [|y t _] using rev_ind.
      * simpl. rewrite removelast_last, lookup_insert_eq. done.
      * rewrite app_comm_cons, last_snoc.
        assert (Hky : y <> k).
        { intros ->. rewrite E in Hnd. apply NoDup_app in Hnd as (_ & _ & Hnd).
          apply NoDup_cons in Hnd as [Hnd _]. apply Hnd. apply elem_of_app. right. by left. }
        rewrite !lookup_insert_ne by done. rewrite (lr_nodes _ _ _ Hl p k (t ++ [y]) E).
        by destruct t.
  - apply NoDup_app. split; [done|]. split; [|apply NoDup_singleton].
    intros x Hx Hx'. apply list_elem_of_singleton in Hx' as ->. done.
  - by rewrite alen_snoc.
Qed.

Lemma appended_dom ending n :
  is_Some (h_nodes h !! n) -> is_Some (h_nodes (appended ending) !! n).
Proof.
  intros Hn. unfold appended. simpl. destruct (last ns); rewrite !lookup_insert_is_Some'; eauto.
Qed.

Lemma append_node_rep :
  exists h', IntrusiveList_append_node h this node = Done h' /\
    heap_rep h' (<[this := ns ++ [node]]> A) /\
    (forall n, is_Some (h_nodes h !! n) -> is_Some (h_nodes h' !! n)).
Proof.
  destruct append_node_result as (ending & E & En & Eo). exists (appended ending).
  split; [done|]. pose proof (hr_list _ _ Hh _ _ HA) as Hl.
  assert (Hlast : forall m, last ns = Some m -> m ∈ ns) by (intros; by apply last_Some_elem_of).
  split; [split|].
  - intros l ns' E'. destruct (decide (l = this)) as [->|Hne].
    + rewrite lookup_insert_eq in E'. simplify_eq. by apply appended_list_rep.
    + rewrite lookup_insert_ne in E' by done. pose proof (hr_list _ _ Hh _ _ E') as Hl'.
      pose proof (free_not_elem _ _ _ _ Hl' Hfree) as Hnot'.
      eapply list_rep_frame; [done|unfold appended; simpl; by rewrite lookup_insert_ne|].
      intros n Hn. unfold appended. simpl. assert (n <> node) by congruence.
      destruct (last ns) as [m|] eqn:Em; [|by rewrite lookup_insert_ne].
      rewrite !lookup_insert_ne; [done|done|]. intros ->. apply Hne.
      eapply (rep_disjoint h); [exact Hl'|exact Hl|done|by apply Hlast].
  - intros n nd l Hn Ho. destruct (decide (n ∈ ns ++ [node])) as [Hin|Hnin].
    + destruct (rep_elem _ _ _ _ (appended_list_rep ending En Eo) Hin) as (nd' & E1 & E2).
      assert (l = this) as -> by congruence. exists (ns ++ [node]).
      by rewrite lookup_insert_eq.
    + assert (Hn' : h_nodes h !! n = Some nd).
      { unfold appended in Hn. simpl in Hn. destruct (last ns) as [m|] eqn:Em.
        - rewrite !lookup_insert_ne in Hn; [done| |];
            intros ->; apply Hnin, elem_of_app; [right; by left|left; by apply Hlast].
        - rewrite lookup_insert_ne in Hn; [done|]. intros ->. apply Hnin, elem_of_app.
          right; by left. }
      destruct (hr_owner _ _ Hh _ _ _ Hn' Ho) as (ns' & E1 & E2). exists ns'.
      rewrite lookup_insert_ne; [done|]. intros ->. rewrite HA in E1. simplify_eq.
      apply Hnin, elem_of_app. by left.
  - apply appended_dom.
Qed.

End append.

(** ** Removing *)

Lemma front_ptr_node this s n : front_ptr this s = Some (PNode n) -> n ∈ s.
Proof. destruct s; simpl; [done|]. intros [= ->]. by left. Qed.

Lemma tail_ptr_node this s n : tail_ptr this s = Some (PNode n) -> n ∈ s.
Proof. unfold tail_ptr. destruct (last s) eqn:E; intros [= ->]. by apply last_Some_elem_of. Qed.

Section remove.
Context (h : node_heap) (A : lists) (Hh : heap_rep h A).
Context (this : Z) (p s : list Z) (node : Z) (HA : A !! this = Some (p ++ node :: s)).

(** The nodes after [remove_node]: the neighbours are linked to each other. *)
Definition removed_nodes : gmap Z IntrusiveListNode :=
  let left :=
    match last p with
    | None => h_nodes h
    | Some m => <[m := mkNode (front_ptr this s) (back_ptr (removelast p)) (Some this)]> (h_nodes h)
    end in
  let right :=
    match s with
    | [] => left
    | k :: s' => <[k := mkNode (front_ptr this s') (back_ptr p) (Some this)]> left
    end in
  <[node := mkNode (front_ptr this s) (back_ptr p) None]> right.

Definition removed (ending : IntrusiveListNode) : node_heap :=
  mkHeap removed_nodes
    (<[this := mkIList (alen (p ++ s)) (front_ptr this (p ++ s)) (tail_ptr this (p ++ s)) ending]>
       (h_lists h)).

Lemma remove_node_result :
  exists ending, IntrusiveList_remove_node h this (PNode node) = Done (removed ending) /\
    n_next ending = Some (PEnd this) /\ n_owner ending = Some this.
Proof.
  pose proof (hr_list _ _ Hh _ _ HA) as Hl.
  destruct (lr_list _ _ _ Hl) as (ending & EL & En & Eo).
  pose proof (lr_nodup _ _ _ Hl) as Hnd. destruct (NoDup_middle _ _ _ Hnd) as (Hp & Hs & Hps).
  pose proof (lr_nodes _ _ _ Hl p node s eq_refl) as End. pose proof (lr_bound _ _ _ Hl) as Hb.
  pose proof (alen_nonneg p). pose proof (alen_nonneg s).
  rewrite alen_app, alen_cons in Hb.
  exists ending. split; [|done].
  assert (Hvalid : front_ptr this s <> Some (PNode node))
    by (intros E; by apply front_ptr_node in E).
  assert (Hcount : u32 (alen (p ++ node :: s) - 1) = alen (p ++ s)).
  { rewrite !alen_app, alen_cons, u32_small; lia. }
  unfold IntrusiveList_remove_node, IntrusiveList_is_valid_node, removed, removed_nodes.
  unfold tail_ptr in EL. rewrite last_app_cons in EL.
  destruct p as [|m p' _] eqn:Ep using rev_ind.
  - destruct s as [|k s'] eqn:Es.
    + heap_eval. simpl in Hcount. by rewrite Hcount.
    + assert (Hk : k <> node) by (intros ->; apply Hs; by left).
      pose proof (lr_nodes _ _ _ Hl [node] k s' eq_refl) as Ek.
      assert (Ht : last (node :: k :: s') <> Some node).
      { rewrite last_cons_cons. intros E. apply Hs. by apply last_Some_elem_of. }
      simpl in EL. destruct (last (k :: s')) as [y|] eqn:Ey; [|by apply last_None in Ey].
      rewrite last_cons_cons, Ey in Ht.
      assert (Some (PNode y) <> Some (PNode node)) by congruence.
      heap_eval. simpl in Hcount. rewrite Hcount. unfold tail_ptr. by rewrite Ey.
  - assert (Hm : m <> node) by (intros ->; apply Hp, elem_of_app; right; by left).
    assert (Hhd : front_ptr this ((p' ++ [m]) ++ node :: s) <> Some (PNode node)).
    { intros E. apply Hp. destruct p'; simpl in *; injection E as ->; by left. }
    pose proof (lr_nodes _ _ _ Hl p' m (node :: s)) as Em. rewrite <- app_assoc in Em.
    specialize (Em eq_refl).
    assert (Hfr : forall t, front_ptr this ((p' ++ [m]) ++ t) = front_ptr this (p' ++ [m])).
    { intros t. by destruct p'. }
    rewrite Hfr in *.
    assert (Hbk : back_ptr (p' ++ [m]) = Some (PNode m)) by (unfold back_ptr; by rewrite last_snoc).
    rewrite Hbk in *. unfold tail_ptr. rewrite last_snoc, removelast_last, last_app.
    destruct s as [|k s'] eqn:Es.
    + heap_eval. rewrite Hcount. by rewrite last_snoc.
    + assert (Hk : k <> node) by (intros ->; apply Hs; by left).
      assert (Hmk : m <> k).
      { intros ->. rewrite <- app_assoc in Hps. apply NoDup_app in Hps as (_ & _ & Hps).
        apply NoDup_cons in Hps as [Hps _]. apply Hps. by left. }
      pose proof (lr_nodes _ _ _ Hl ((p' ++ [m]) ++ [node]) k s') as Ek.
      rewrite <- (app_assoc _ [node]) in Ek. specialize (Ek eq_refl).
      destruct (last (k :: s')) as [y|] eqn:Ey; [|by apply last_None in Ey].
      assert (y <> node).
      { intros ->. apply Hs. by apply last_Some_elem_of. }
      rewrite last_cons_cons, Ey in EL.
      assert (Some (PNode y) <> Some (PNode node)) by congruence.
      heap_eval. rewrite Hcount. done.
Qed.

Lemma removed_nodes_other n :
  n <> node -> last p <> Some n -> head s <> Some n -> removed_nodes !! n = h_nodes h !! n.
Proof.
  intros Hn Hl Hs. unfold removed_nodes. rewrite lookup_insert_ne by done.
  destruct s as [|k s'], (last p) as [m|]; simpl in *; rewrite ?lookup_insert_ne by congruence; done.
Qed.

Lemma removed_list_rep ending :
  n_next ending = Some (PEnd this) -> n_owner ending = Some this ->
  list_rep (removed ending) this (p ++ s).
Proof.
  intros En Eo. pose proof (hr_list _ _ Hh _ _ HA) as Hl.
  pose proof (lr_nodup _ _ _ Hl) as Hnd. destruct (NoDup_middle _ _ _ Hnd) as (Hp & Hs & Hps).
  pose proof (lr_bound _ _ _ Hl) as Hb. rewrite alen_app, alen_cons in Hb.
  split; [|intros p' k s' E; simpl|done|rewrite alen_app; lia].
  { exists ending. unfold removed. simpl. by rewrite lookup_insert_eq. }
  apply split_removed in E as [(t & Ep & ->)|(t & Es & ->)].
  - assert (Hk : k <> node) by (intros ->; apply Hp; rewrite Ep; apply elem_of_app; right; by left).
    rewrite Ep, <- app_assoc in Hps. apply NoDup_app in Hps as (_ & _ & Hps). simpl in Hps.
    apply NoDup_cons in Hps as [Hkt _]. rewrite not_elem_of_app in Hkt. destruct Hkt as [Hkt Hks].
    assert (Hhd : head s <> Some k).
    { intros E. apply Hks. apply head_Some in E as [? ->]. by left. }
    destruct t as [|y t _] using rev_ind.
    + unfold removed_nodes. rewrite Ep, lookup_insert_ne, last_snoc, removelast_last by done.
      destruct s; simpl in *; rewrite ?lookup_insert_ne by congruence; by rewrite lookup_insert_eq.
    + rewrite removed_nodes_other; [|done| |done].
      * rewrite (lr_nodes _ _ _ Hl p' k ((t ++ [y]) ++ node :: s)) by (by rewrite Ep, <- (app_assoc p')).
        by destruct t.
      * rewrite Ep, app_comm_cons, app_assoc, last_snoc. intros [= ->].
        apply Hkt, elem_of_app. right. by left.
  - assert (Hk : k <> node) by (intros ->; apply Hs; rewrite Es; apply elem_of_app; right; by left).
    rewrite Es, app_assoc in Hps. apply NoDup_middle in Hps as (Hkpt & _ & _).
    rewrite not_elem_of_app in Hkpt. destruct Hkpt as [Hkp Hkt].
    destruct t as [|y t].
    + unfold removed_nodes. rewrite Es. simpl. rewrite lookup_insert_ne, lookup_insert_eq by done.
      by rewrite app_nil_r.
    + rewrite removed_nodes_other; [|done| |].
      * rewrite (lr_nodes _ _ _ Hl (p ++ node :: y :: t) k s') by (by rewrite Es, <- app_assoc).
        unfold back_ptr. by rewrite !last_app_cons, last_cons_cons.
      * intros E. apply Hkp. by apply last_Some_elem_of.
      * rewrite Es. simpl. intros [= ->]. apply Hkt. by left.
Qed.

Lemma removed_elsewhere n : n ∉ p ++ node :: s -> removed_nodes !! n = h_nodes h !! n.
Proof.
  rewrite not_elem_of_app, not_elem_of_cons. intros (Hp & Hn & Hs). apply removed_nodes_other.
  - done.
  - intros E. apply Hp. by apply last_Some_elem_of.
  - intros E. apply Hs. apply head_Some in E as [? ->]. by left.
Qed.

Lemma remove_node_rep :
  exists h', IntrusiveList_remove_node h this (PNode node) = Done h' /\
    heap_rep h' (<[this := p ++ s]> A) /\
    (forall n, is_Some (h_nodes h !! n) -> is_Some (h_nodes h' !! n)).
Proof.
  destruct remove_node_result as (ending & E & En & Eo). exists (removed ending).
  split; [done|]. pose proof (hr_list _ _ Hh _ _ HA) as Hl.
  destruct (NoDup_middle _ _ _ (lr_nodup _ _ _ Hl)) as (Hp & Hs & _).
  assert (Hself : removed_nodes !! node = Some (mkNode (front_ptr this s) (back_ptr p) None)).
  { unfold removed_nodes. by rewrite lookup_insert_eq. }
  split; [split|].
  - intros l ns' E'. destruct (decide (l = this)) as [->|Hne].
    + rewrite lookup_insert_eq in E'. simplify_eq. by apply removed_list_rep.
    + rewrite lookup_insert_ne in E' by done. pose proof (hr_list _ _ Hh _ _ E') as Hl'.
      eapply list_rep_frame; [done|unfold removed; simpl; by rewrite lookup_insert_ne|].
      intros n Hn. apply removed_elsewhere. intros Hin. apply Hne.
      by eapply (rep_disjoint h).
  - intros n nd l Hn Ho. simpl in Hn. destruct (decide (n ∈ p ++ node :: s)) as [Hin|Hnin].
    + destruct (decide (n = node)) as [->|Hne]; [rewrite Hself in Hn; by simplify_eq/=|].
      assert (Hin' : n ∈ p ++ s).
      { rewrite elem_of_app, elem_of_cons in Hin. rewrite elem_of_app. tauto. }
      destruct (rep_elem _ _ _ _ (removed_list_rep ending En Eo) Hin') as (nd' & E1 & E2).
      simpl in E1. assert (l = this) as -> by congruence. exists (p ++ s).
      by rewrite lookup_insert_eq.
    + rewrite removed_elsewhere in Hn by done.
      destruct (hr_owner _ _ Hh _ _ _ Hn Ho) as (ns' & E1 & E2). exists ns'.
      rewrite lookup_insert_ne; [done|]. intros ->. rewrite HA in E1. by simplify_eq.
  - intros n Hn. simpl. unfold removed_nodes.
    destruct s, (last p); rewrite !lookup_insert_is_Some'; eauto.
Qed.

End remove.

(** ** The failing calls *)

Lemma append_owned h A l ns node this :
  heap_rep h A -> A !! l = Some ns -> node ∈ ns -> IntrusiveList_append_node h this node = Panic.
Proof.
  intros Hh HA Hn. destruct (rep_elem _ _ _ _ (hr_list _ _ Hh _ _ HA) Hn) as (nd & E & Ho).
  unfold IntrusiveList_append_node. simpl. rewrite E. simpl. by rewrite Ho.
Qed.

Lemma remove_foreign h A this ns node :
  heap_rep h A -> A !! this = Some ns -> is_Some (h_nodes h !! node) -> node ∉ ns ->
  IntrusiveList_remove_node h this (PNode node) = Panic.
Proof.
  intros Hh HA [nd E] Hn. unfold IntrusiveList_remove_node, IntrusiveList_is_valid_node. simpl.
  rewrite E. simpl. case_bool_decide; [done|]. rewrite bool_decide_eq_false_2; [done|].
  intros Ho. destruct (hr_owner _ _ Hh _ _ _ E Ho) as (ns' & E1 & E2). simplify_eq.
Qed.

(** ** Reading *)

Definition front_it (this : Z) (s : list Z) : node_ptr :=
  match s with [] => PEnd this | n :: _ => PNode n end.

Lemma front_ptr_it this s : front_ptr this s = Some (front_it this s).
Proof. by destruct s. Qed.

Section reading.
Context (h : node_heap) (A : lists) (Hh : heap_rep h A).
Context (this : Z) (ns : list Z) (HA : A !! this = Some ns).

Lemma get_list_rep :
  exists ending, get_list h this
    = Done (mkIList (alen ns) (front_ptr this ns) (tail_ptr this ns) ending) /\
    n_next ending = Some (PEnd this).
Proof.
  destruct (lr_list _ _ _ (hr_list _ _ Hh _ _ HA)) as (ending & E & ? & ?).
  exists ending. unfold get_list. by rewrite E.
Qed.

Lemma begin_rep : IntrusiveList_begin h this = Done (front_it this ns).
Proof.
  destruct get_list_rep as (ending & E & _). unfold IntrusiveList_begin. rewrite E. simpl.
  by rewrite front_ptr_it.
Qed.

Lemma next_rep p n s : ns = p ++ n :: s -> Iterator_next h (PNode n) = Done (front_it this s).
Proof.
  intros E. unfold Iterator_next. simpl.
  rewrite (lr_nodes _ _ _ (hr_list _ _ Hh _ _ HA) p n s E). simpl. by rewrite front_ptr_it.
Qed.

Lemma next_end_rep : Iterator_next h (PEnd this) = Done (PEnd this).
Proof.
  destruct get_list_rep as (ending & E & En). unfold Iterator_next. simpl. rewrite E. simpl.
  by rewrite En.
Qed.

Lemma elem_valid n : n ∈ ns -> IntrusiveList_is_valid_node h this (PNode n) = Done true.
Proof.
  intros Hn. apply list_elem_of_split in Hn as (p & s & E).
  pose proof (hr_list _ _ Hh _ _ HA) as Hl. unfold IntrusiveList_is_valid_node. simpl.
  rewrite (lr_nodes _ _ _ Hl p n s E). simpl.
  rewrite bool_decide_eq_false_2, bool_decide_eq_true_2; [done|done|].
  intros Ef. apply front_ptr_node in Ef. pose proof (lr_nodup _ _ _ Hl) as Hnd.
  rewrite E in Hnd. by apply NoDup_middle in Hnd as (_ & ? & _).
Qed.

Lemma deref_rep n : n ∈ ns -> Iterator_deref h (PNode n) = Done n.
Proof.
  intros Hn. destruct (rep_elem _ _ _ _ (hr_list _ _ Hh _ _ HA) Hn) as (nd & E & Ho).
  unfold Iterator_deref. simpl. rewrite E. simpl. rewrite Ho. by rewrite (elem_valid n Hn).
Qed.

Lemma find_rep n :
  is_Some (h_nodes h !! n) ->
  IntrusiveList_find h this n = Done (if decide (n ∈ ns) then PNode n else PEnd this).
Proof.
  intros [nd E]. unfold IntrusiveList_find. simpl. rewrite E. simpl. f_equal.
  destruct (decide (n ∈ ns)) as [Hn|Hn].
  - destruct (rep_elem _ _ _ _ (hr_list _ _ Hh _ _ HA) Hn) as (nd' & E' & Ho).
    rewrite bool_decide_eq_true_2; congruence.
  - rewrite bool_decide_eq_false_2; [done|]. intros Ho.
    destruct (hr_owner _ _ Hh _ _ _ E Ho) as (ns' & E1 & E2).
    by assert (ns' = ns) as -> by congruence.
Qed.

Lemma size_rep : IntrusiveList_size h this = Done (alen ns).
Proof.
  destruct get_list_rep as (ending & E & _). unfold IntrusiveList_size. by rewrite E.
Qed.

Lemma push_back_rep node :
  is_Some (h_nodes h !! node) -> (forall l ns, A !! l = Some ns -> node ∉ ns) ->
  alen ns + 1 < 2 ^ 32 ->
  exists h', IntrusiveList_push_back h this node = Done h' /\
    heap_rep h' (<[this := ns ++ [node]]> A) /\
    (forall n, is_Some (h_nodes h !! n) -> is_Some (h_nodes h' !! n)).
Proof.
  intros [nd E] Hfree Hb. destruct (append_node_rep h A Hh this ns HA node) as (h' & ? & ? & ?);
    [|done|eauto].
  exists nd. split; [done|]. destruct (n_owner nd) as [l|] eqn:Ho; [|done].
  destruct (hr_owner _ _ Hh _ _ _ E Ho) as (ns' & E1 & E2). by destruct (Hfree l ns').
Qed.

Lemma remove_rep p s node :
  ns = p ++ node :: s ->
  exists h', IntrusiveList_remove h this node = Done h' /\ heap_rep h' (<[this := p ++ s]> A) /\
    (forall n, is_Some (h_nodes h !! n) -> is_Some (h_nodes h' !! n)).
Proof.
  intros E. pose proof HA as HA'. rewrite E in HA'.
  destruct (remove_node_rep h A Hh this p s node HA') as (h' & Er & Hr & Hd).
  destruct get_list_rep as (ending & El & _).
  unfold IntrusiveList_remove. rewrite El. simpl. rewrite front_ptr_it. simpl. eauto.
Qed.

Lemma pop_front_rep :
  match ns with
  | [] => IntrusiveList_pop_front h this = Panic
  | n :: s => exists h', IntrusiveList_pop_front h this = Done (PNode n, h') /\
                heap_rep h' (<[this := s]> A) /\
                (forall n, is_Some (h_nodes h !! n) -> is_Some (h_nodes h' !! n))
  end.
Proof.
  destruct get_list_rep as (ending & El & _). unfold IntrusiveList_pop_front. rewrite El. simpl.
  destruct ns as [|n s]; simpl; [by rewrite bool_decide_eq_true_2 by done|].
  destruct (remove_node_rep h A Hh this [] s n HA) as (h' & Er & Hr & Hd).
  rewrite ?bool_decide_eq_false_2 by done. simpl. rewrite Er. simpl. eauto.
Qed.

Lemma ends_rep :
  IntrusiveList_first h this = match ns with [] => Panic | n :: _ => Done (PNode n) end /\
  IntrusiveList_last h this = match last ns with None => Panic | Some n => Done (PNode n) end.
Proof.
  destruct get_list_rep as (ending & El & _).
  unfold IntrusiveList_first, IntrusiveList_last, tail_ptr in *. rewrite El. simpl.
  destruct ns as [|n s]; simpl; [by rewrite bool_decide_eq_true_2 by done|].
  rewrite ?bool_decide_eq_false_2 by done. split; [done|].
  destruct (last (n :: s)) eqn:E; [|by apply last_None in E]. by rewrite ?bool_decide_eq_false_2 by done.
Qed.

End reading.

(** * The interface to the scheduler

    What the lists of threads promise: each operation acts on the abstract store,
    and a call that breaks the ownership discipline panics. *)

Class ListStore (H : Type) := {
  ls_rep : H -> lists -> Prop;
  ls_node : H -> Z -> Prop;
  (** the node part of a new object *)
  ls_new_node : H -> Z -> H;
  ls_push_back : H -> Z -> Z -> exec H;
  ls_remove : H -> Z -> Z -> exec H;
  ls_begin : H -> Z -> exec node_ptr;
  ls_next : H -> node_ptr -> exec node_ptr;
  ls_deref : H -> node_ptr -> exec Z;
  ls_find : H -> Z -> Z -> exec node_ptr;
  ls_size : H -> Z -> exec Z;
  ls_disjoint : forall h A l l' ns ns' n, ls_rep h A ->
    A !! l = Some ns -> A !! l' = Some ns' -> n ∈ ns -> n ∈ ns' -> l = l';
  ls_nodup : forall h A l ns, ls_rep h A -> A !! l = Some ns -> NoDup ns;
  ls_new_law : forall h A n, ls_rep h A -> (forall l ns, A !! l = Some ns -> n ∉ ns) ->
    ls_rep (ls_new_node h n) A /\ ls_node (ls_new_node h n) n /\
    (forall m, ls_node h m -> ls_node (ls_new_node h n) m);
  ls_member : forall h A l ns n, ls_rep h A -> A !! l = Some ns -> n ∈ ns -> ls_node h n;
  ls_push_law : forall h A l ns n, ls_rep h A -> A !! l = Some ns -> ls_node h n ->
    (forall l' ns', A !! l' = Some ns' -> n ∉ ns') -> alen ns + 1 < 2 ^ 32 ->
    exists h', ls_push_back h l n = Done h' /\ ls_rep h' (<[l := ns ++ [n]]> A) /\
      (forall m, ls_node h m -> ls_node h' m);
  ls_push_owned : forall h A l l' ns n, ls_rep h A -> A !! l' = Some ns -> n ∈ ns ->
    ls_push_back h l n = Panic;
  ls_remove_law : forall h A l p n s, ls_rep h A -> A !! l = Some (p ++ n :: s) ->
    exists h', ls_remove h l n = Done h' /\ ls_rep h' (<[l := p ++ s]> A) /\
      (forall m, ls_node h m -> ls_node h' m);
  ls_remove_foreign : forall h A l ns n, ls_rep h A -> A !! l = Some ns -> ls_node h n ->
    n ∉ ns -> ls_remove h l n = Panic;
  ls_begin_law : forall h A l ns, ls_rep h A -> A !! l = Some ns ->
    ls_begin h l = Done (front_it l ns);
  ls_next_law : forall h A l p n s, ls_rep h A -> A !! l = Some (p ++ n :: s) ->
    ls_next h (PNode n) = Done (front_it l s);
  ls_next_end : forall h A l ns, ls_rep h A -> A !! l = Some ns ->
    ls_next h (PEnd l) = Done (PEnd l);
  ls_deref_law : forall h A l ns n, ls_rep h A -> A !! l = Some ns -> n ∈ ns ->
    ls_deref h (PNode n) = Done n;
  ls_find_law : forall h A l ns n, ls_rep h A -> A !! l = Some ns -> ls_node h n ->
    ls_find h l n = Done (if decide (n ∈ ns) then PNode n else PEnd l);
  ls_size_law : forall h A l ns, ls_rep h A -> A !! l = Some ns -> ls_size h l = Done (alen ns)
}.

Lemma remove_foreign_list h A this ns node :
  heap_rep h A -> A !! this = Some ns -> is_Some (h_nodes h !! node) -> node ∉ ns ->
  IntrusiveList_remove h this node = Panic.
Proof.
  intros Hh HA Hn Hin. destruct (get_list_rep h A Hh this ns HA) as (ending & E & _).
  unfold IntrusiveList_remove. rewrite E. simpl. rewrite front_ptr_it. simpl.
  by apply (remove_foreign h A this ns).
Qed.

(** An object is constructed with a node in no list. *)
Definition IntrusiveListNode_new (h : node_heap) (node : Z) : node_heap :=
  mkHeap (<[node := fresh_node]> (h_nodes h)) (h_lists h).

Lemma new_node_rep h A n :
  heap_rep h A -> (forall l ns, A !! l = Some ns -> n ∉ ns) -> heap_rep (IntrusiveListNode_new h n) A.
Proof.
  intros Hh Hn. split.
  - intros l ns HA. eapply list_rep_frame; [by apply (hr_list _ _ Hh)|done|].
    intros m Hm. simpl. rewrite lookup_insert_ne; [done|]. intros ->. by apply (Hn l ns).
  - intros m nd l E Ho. simpl in E. apply lookup_insert_Some in E as [[<- <-]|[_ E]]; [done|].
    by apply (hr_owner _ _ Hh m nd).
Qed.

#[export] Program Instance node_heap_ListStore : ListStore node_heap := {|
  ls_rep := heap_rep;
  ls_node := fun h n => is_Some (h_nodes h !! n);
  ls_new_node := IntrusiveListNode_new;
  ls_push_back := IntrusiveList_push_back;
  ls_remove := IntrusiveList_remove;
  ls_begin := IntrusiveList_begin;
  ls_next := Iterator_next;
  ls_deref := Iterator_deref;
  ls_find := IntrusiveList_find;
  ls_size := IntrusiveList_size
|}.
Next Obligation. intros. by eapply (rep_disjoint h); [eapply hr_list..| |]. Qed.
Next Obligation. intros. by eapply lr_nodup, hr_list. Qed.
Next Obligation.
  intros h A n Hh Hn. split; [by apply new_node_rep|]. simpl. split.
  - by rewrite lookup_insert_eq.
  - intros m Hm. rewrite lookup_insert_is_Some'. auto.
Qed.
Next Obligation.
  intros h A l ns n Hh HA Hn. destruct (rep_elem _ _ _ _ (hr_list _ _ Hh _ _ HA) Hn) as (? & ? & _).
  eauto.
Qed.
Next Obligation. intros. by apply push_back_rep. Qed.
Next Obligation. intros. by eapply append_owned. Qed.
Next Obligation. intros. by eapply remove_rep. Qed.
Next Obligation. intros. by eapply remove_foreign_list. Qed.
Next Obligation. intros. by eapply begin_rep. Qed.
Next Obligation. intros. by eapply next_rep. Qed.
Next Obligation. intros. by eapply next_end_rep. Qed.
Next Obligation. intros. by eapply deref_rep. Qed.
Next Obligation. intros. by eapply find_rep. Qed.
Next Obligation. intros. by eapply size_rep. Qed.

(** * Sequences of calls on several lists *)

Inductive il_call :=
| CallPushBack (list node : Z)
| CallRemoveNode (list node : Z)
| CallPopFront (list : Z).

Definition il_step (h : node_heap) (c : il_call) : exec node_heap :=
  match c with
  | CallPushBack l n => IntrusiveList_push_back h l n
  | CallRemoveNode l n => IntrusiveList_remove h l n
  | CallPopFront l => r ← IntrusiveList_pop_front h l; Done r.2
  end.

Fixpoint il_run (h : node_heap) (calls : list il_call) : exec node_heap :=
  match calls with
  | [] => Done h
  | c :: rest => h' ← il_step h c; il_run h' rest
  end.

(** Whether an element is in some list of the store. *)
Definition is_listed (A : lists) (n : Z) : bool :=
  existsb (fun kv : Z * list Z => bool_decide (n ∈ kv.2)) (map_to_list A).

(** The specification: pushing an element that is in a list, removing one that is
    not in this list and popping an empty list panic. *)
Definition abs_step (A : lists) (c : il_call) : exec lists :=
  match c with
  | CallPushBack l n =>
      match A !! l with
      | Some ns => if is_listed A n then Panic else Done (<[l := ns ++ [n]]> A)
      | None => Fault
      end
  | CallRemoveNode l n =>
      match A !! l with
      | Some ns => if bool_decide (n ∈ ns) then Done (<[l := filter (.≠ n) ns]> A) else Panic
      | None => Fault
      end
  | CallPopFront l =>
      match A !! l with
      | Some (_ :: s) => Done (<[l := s]> A)
      | Some [] => Panic
      | None => Fault
      end
  end.

Fixpoint abs_run (A : lists) (calls : list il_call) : exec lists :=
  match calls with
  | [] => Done A
  | c :: rest => A' ← abs_step A c; abs_run A' rest
  end.

(** The call names an existing list and element. *)
Definition call_ok (h : node_heap) (A : lists) (c : il_call) : Prop :=
  match c with
  | CallPushBack l n | CallRemoveNode l n => is_Some (A !! l) /\ is_Some (h_nodes h !! n)
  | CallPopFront l => is_Some (A !! l)
  end.

(** No list can outgrow its 32-bit counter in [k] more calls. *)
Definition room (A : lists) (k : Z) : Prop := forall l ns, A !! l = Some ns -> alen ns + k < 2 ^ 32.

Lemma is_listed_true A n : is_listed A n = true -> exists l ns, A !! l = Some ns /\ n ∈ ns.
Proof.
  unfold is_listed. rewrite existsb_exists. intros ([l ns] & Hin & Hn).
  apply list_elem_of_In, elem_of_map_to_list in Hin. apply bool_decide_eq_true_1 in Hn. eauto.
Qed.

Lemma is_listed_false A n : is_listed A n = false -> forall l ns, A !! l = Some ns -> n ∉ ns.
Proof.
  unfold is_listed. intros Hf l ns HA Hn. apply not_true_iff_false in Hf. apply Hf.
  apply existsb_exists. exists (l, ns). split; [|by apply bool_decide_eq_true_2].
  by apply list_elem_of_In, elem_of_map_to_list.
Qed.

Lemma filter_absent (s : list Z) n : n ∉ s -> filter (.≠ n) s = s.
Proof.
  induction s as [|x s IH]; intros Hn; [done|]. apply not_elem_of_cons in Hn as [Hx Hn].
  rewrite filter_cons_True by congruence. by rewrite IH.
Qed.

Lemma filter_middle (p s : list Z) n :
  NoDup (p ++ n :: s) -> filter (.≠ n) (p ++ n :: s) = p ++ s.
Proof.
  intros H. apply NoDup_middle in H as (Hp & Hs & _). rewrite filter_app, filter_cons_False by auto.
  by rewrite !filter_absent.
Qed.

Definition agrees (h : node_heap) (impl : exec node_heap) (spec : exec lists) (k : Z) : Prop :=
  match impl, spec with
  | Done h', Done A' => heap_rep h' A' /\ room A' k /\
      forall n, is_Some (h_nodes h !! n) -> is_Some (h_nodes h' !! n)
  | Panic, Panic => True
  | _, _ => False
  end.

Lemma room_insert (A : lists) l ns ns' k :
  room A (k + 1) -> A !! l = Some ns -> alen ns' <= alen ns + 1 -> room (<[l := ns']> A) k.
Proof.
  intros Hr HA Hl l' ms E. destruct (decide (l' = l)) as [->|].
  - rewrite lookup_insert_eq in E. simplify_eq. specialize (Hr _ _ HA). lia.
  - rewrite lookup_insert_ne in E by done. specialize (Hr _ _ E). lia.
Qed.

Lemma il_step_refines h A c k :
  heap_rep h A -> call_ok h A c -> 0 <= k -> room A (k + 1) ->
  agrees h (il_step h c) (abs_step A c) k.
Proof.
  intros Hh Hok Hk Hr. destruct c as [l n|l n|l]; simpl in *.
  - destruct Hok as [[ns HA] Hn]. rewrite HA. destruct (is_listed A n) eqn:El.
    + destruct (is_listed_true _ _ El) as (l' & ns' & HA' & Hin).
      unfold IntrusiveList_push_back. by rewrite (append_owned h A l' ns').
    + destruct (push_back_rep h A Hh l ns HA n) as (h' & E & Hh' & Hd);
        [done|by apply is_listed_false|specialize (Hr _ _ HA); lia|].
      rewrite E. split; [done|]. split; [|done].
      eapply room_insert; [done..|]. rewrite alen_snoc. lia.
  - destruct Hok as [[ns HA] Hn]. rewrite HA. case_bool_decide as Hin.
    + pose proof (lr_nodup _ _ _ (hr_list _ _ Hh _ _ HA)) as Hnd.
      apply list_elem_of_split in Hin as (p & s & E). subst ns.
      destruct (remove_rep h A Hh l _ HA p s n eq_refl) as (h' & E & Hh' & Hd).
      rewrite E, filter_middle by done. split; [done|]. split; [|done].
      eapply room_insert; [done..|]. rewrite !alen_app, alen_cons. lia.
    + by rewrite (remove_foreign_list h A l ns).
  - destruct Hok as [ns HA]. rewrite HA. pose proof (pop_front_rep h A Hh l ns HA) as Hp.
    destruct ns as [|n s]; [by rewrite Hp|]. destruct Hp as (h' & E & Hh' & Hd). rewrite E. simpl.
    split; [done|]. split; [|done]. eapply room_insert; [done..|]. rewrite alen_cons. lia.
Qed.

(** Every call of the sequence names existing lists and elements. *)
Definition calls_ok (h : node_heap) (A : lists) (calls : list il_call) : Prop :=
  Forall (fun c => call_ok h A c) calls.

Lemma call_ok_mono h h' A A' c :
  (forall n, is_Some (h_nodes h !! n) -> is_Some (h_nodes h' !! n)) ->
  (forall l, is_Some (A !! l) -> is_Some (A' !! l)) -> call_ok h A c -> call_ok h' A' c.
Proof. destruct c; simpl; intuition auto. Qed.

Lemma abs_step_dom A c A' l : abs_step A c = Done A' -> is_Some (A !! l) -> is_Some (A' !! l).
Proof.
  destruct c as [k n|k n|k]; simpl; destruct (A !! k) as [[|m ns]|]; try done;
    try case_match; intros [= <-] Hl; apply lookup_insert_is_Some'; eauto.
Qed.

Lemma il_run_refines calls h A :
  heap_rep h A -> calls_ok h A calls -> room A (alen calls) ->
  match il_run h calls, abs_run A calls with
  | Done h', Done A' => heap_rep h' A'
  | Panic, Panic => True
  | _, _ => False
  end.
Proof.
  revert h A. induction calls as [|c rest IH]; intros h A Hh Hok Hr; simpl; [done|].
  apply Forall_cons in Hok as [Hc Hok]. rewrite alen_cons in Hr.
  pose proof (il_step_refines h A c (alen rest) Hh Hc (alen_nonneg rest) Hr) as Hs.
  unfold agrees in Hs.
  destruct (il_step h c) as [h'| | |] eqn:E, (abs_step A c) as [A'| | |] eqn:E'; try done.
  destruct Hs as (Hh' & Hr' & Hd). simpl. apply IH; [done| |done].
  eapply Forall_impl; [exact Hok|]. intros c' Hc'. eapply call_ok_mono; [done| |done].
  intros l. by apply (abs_step_dom A c).
Qed.

(** * Moving a list *)

(** After the move constructor the elements still name the old list as owner. *)
Lemma move_owner h A this other ns n :
  heap_rep h A -> A !! other = Some ns -> this <> other -> n ∈ ns ->
  exists h', IntrusiveList_move h this other = Done h' /\ IntrusiveList_remove h' this n = Panic.
Proof.
  intros Hh HA Hne Hn. destruct (lr_list _ _ _ (hr_list _ _ Hh _ _ HA)) as (ending & EL & _).
  destruct ns as [|m ns' _] using rev_ind; [by apply not_elem_of_nil in Hn|].
  pose proof (lr_nodes _ _ _ (hr_list _ _ Hh _ _ HA) ns' m [] eq_refl) as Em.
  destruct (rep_elem _ _ _ _ (hr_list _ _ Hh _ _ HA) Hn) as (nd & En & Ho).
  unfold tail_ptr in EL. rewrite last_snoc in EL.
  unfold IntrusiveList_move, il_take. heap_eval. eexists; split; [done|].
  unfold IntrusiveList_remove, IntrusiveList_remove_node, IntrusiveList_is_valid_node.
  heap_eval. rewrite front_ptr_it. simpl.
  assert (Some other <> Some this) by congruence.
  destruct (decide (m = n)) as [->|Hmn]; heap_eval.
  - by rewrite (bool_decide_eq_false_2 (Some other = Some this)) by done.
  - rewrite Ho. destruct (bool_decide (n_next nd = Some (PNode n))); [done|].
    by rewrite (bool_decide_eq_false_2 (Some other = Some this)) by done.
Qed.

(** * Properties *)

(** C8: any sequence of [push_back], [remove] and [pop_front] calls on the lists of a
    well-formed heap acts as the corresponding operations on the abstract store of
    disjoint lists, keeps the doubly linked structure, and panics exactly when the
    specification does (element already in a list, element of another list, empty
    list); no null or dangling pointer is followed. *)
Theorem intrusive_list_refines_store (h : node_heap) (A : lists) (calls : list il_call) :
  heap_rep h A -> calls_ok h A calls -> room A (alen calls) ->
  match il_run h calls, abs_run A calls with
  | Done h', Done A' => heap_rep h' A'
  | Panic, Panic => True
  | _, _ => False
  end.
Proof. apply il_run_refines. Qed.

(** Two empty lists and three elements. *)
Definition sample_heap : node_heap :=
  IntrusiveList_new (IntrusiveList_new
    (mkHeap (<[1 := fresh_node]> (<[2 := fresh_node]> (<[3 := fresh_node]> ∅))) ∅) 10) 20.

Lemma new_list_rep h this :
  list_rep (IntrusiveList_new h this) this [].
Proof.
  split; [|by intros []|constructor|done].
  unfold IntrusiveList_new, put_list. simpl. rewrite lookup_insert_eq. eauto.
Qed.

(** Constructing a list at a new address. *)
Lemma new_list_heap_rep h A this :
  heap_rep h A -> A !! this = None -> heap_rep (IntrusiveList_new h this) (<[this := []]> A).
Proof.
  intros Hh HA. split.
  - intros l ns E. apply lookup_insert_Some in E as [[<- <-]|[Hne E]]; [apply new_list_rep|].
    eapply list_rep_frame; [by apply (hr_list _ _ Hh)| |done].
    unfold IntrusiveList_new, put_list. simpl. by rewrite lookup_insert_ne.
  - intros n nd l E Ho. destruct (hr_owner _ _ Hh n nd l E Ho) as (ns & E' & Hn).
    exists ns. rewrite lookup_insert_ne; [done|]. congruence.
Qed.

(** Elements without lists. *)
Lemma fresh_nodes_rep (ns : list Z) : heap_rep (foldr (fun n h => IntrusiveListNode_new h n) (mkHeap ∅ ∅) ns) ∅.
Proof.
  induction ns as [|n ns IH]; simpl; [split; intros; by simplify_map_eq|].
  apply new_node_rep; [done|]. intros. by simplify_map_eq.
Qed.

Lemma sample_heap_rep : heap_rep sample_heap (<[20 := []]> (<[10 := []]> ∅)).
Proof.
  unfold sample_heap. apply new_list_heap_rep; [apply new_list_heap_rep|done]; [|done].
  apply (fresh_nodes_rep [1; 2; 3]).
Qed.

Lemma intrusive_list_refines_store_witness :
  match il_run sample_heap [CallPushBack 10 1; CallPushBack 10 2; CallPushBack 20 3;
                            CallRemoveNode 10 1; CallPopFront 20],
        abs_run (<[20 := []]> (<[10 := []]> ∅))
                [CallPushBack 10 1; CallPushBack 10 2; CallPushBack 20 3;
                 CallRemoveNode 10 1; CallPopFront 20] with
  | Done h', Done A' => heap_rep h' A'
  | Panic, Panic => True
  | _, _ => False
  end.
Proof.
  apply (intrusive_list_refines_store sample_heap (<[20 := []]> (<[10 := []]> ∅))
           [CallPushBack 10 1; CallPushBack 10 2; CallPushBack 20 3;
            CallRemoveNode 10 1; CallPopFront 20]).
  - apply sample_heap_rep.
  - repeat (apply Forall_cons; split; [simpl; eauto|]). apply Forall_nil. exact I.
  - intros l ns E.
    repeat (apply lookup_insert_Some in E as [[<- <-]|[_ E]]; [reflexivity|]). done.
Defined.

(** Moving a list leaves its elements owned by the old one: after the move
    constructor, removing any element from the new list fails its validity assertion. *)
Theorem intrusive_list_move_loses_elements (h : node_heap) (A : lists) (this other n : Z)
    (ns : list Z) :
  heap_rep h A -> A !! other = Some ns -> this <> other -> n ∈ ns ->
  exists h', IntrusiveList_move h this other = Done h' /\ IntrusiveList_remove h' this n = Panic.
Proof. apply move_owner. Qed.

Lemma intrusive_list_move_loses_elements_witness :
  exists h h', IntrusiveList_push_back sample_heap 10 1 = Done h /\
    IntrusiveList_move h 30 10 = Done h' /\ IntrusiveList_remove h' 30 1 = Panic.
Proof.
  destruct (push_back_rep sample_heap (<[20 := []]> (<[10 := []]> ∅)) sample_heap_rep 10 [] eq_refl 1)
    as (h & E & Hh & _); [by eexists| |reflexivity|].
  - intros l ns El.
    repeat (apply lookup_insert_Some in El as [[<- <-]|[_ El]]; [apply not_elem_of_nil|]). done.
  - exists h. destruct (intrusive_list_move_loses_elements h _ 30 10 1 [1] Hh) as (h' & E1 & E2);
      [apply lookup_insert_eq|done|by left|]. eauto.
Defined.
