(* ===== verification/Physical.v ===== *)
(** [PhysicalMemory] (virtual_memory/physical.cpp): the frame allocator. One bit per
    4 KiB frame in [physical_memory_tracer]; allocation is first fit. *)

From S2P Require Import Prelude BitArray Scan.

Definition PAGE_SIZE : Z := 0x1000.

Definition MAX_PHYSICAL_4K_PAGES : Z := 1024 * 1024.

Definition TEST_BIT (value bit : Z) : Z := Z.land (Z.shiftr value bit) 1.

Record PhysicalMemory := mkPhys {
  physical_memory_tracer : list Z;
  physical_memory_size : Z
}.

Definition PhysicalMemory_setup : PhysicalMemory :=
  mkPhys (replicate (Z.to_nat (MAX_PHYSICAL_4K_PAGES / 8)) 0) 0.

(** The loop ends with a result or after [count] turns. *)
Definition PhysicalMemory_check_free_pages (m : PhysicalMemory) (page_number count : Z) : exec bool :=
  while (S (Z.to_nat count))
    (fun index =>
       if index <? u32 (page_number + count) then
         byte ← aget (physical_memory_tracer m) (index / 8);
         if truthy (TEST_BIT byte (index mod 8)) then Done (inr false)
         else Done (inl (u32 (index + 1)))
       else Done (inr true))
    page_number.

Definition PhysicalMemory_set_free_pages (m : PhysicalMemory) (page_number count : Z)
    : exec PhysicalMemory :=
  data ← clear_bits (physical_memory_tracer m) page_number count;
  Done (mkPhys data (u32 (physical_memory_size m - count * PAGE_SIZE))).

Definition PhysicalMemory_set_used_pages (m : PhysicalMemory) (page_number count : Z)
    : exec PhysicalMemory :=
  data ← set_bits (physical_memory_tracer m) page_number count;
  Done (mkPhys data (u32 (physical_memory_size m + count * PAGE_SIZE))).

Definition PhysicalMemory_free_pages (m : PhysicalMemory) (page_number count : Z)
    : exec PhysicalMemory :=
  PhysicalMemory_set_free_pages m page_number count.

(** The inner loop of [find_pages], over the bits of byte [i] from [bit]: it
    updates [(first_free_page, remaining_pages)] or returns from the function. *)
Fixpoint find_pages_bits (n : nat) (byte i bit count : Z) (st : Z * Z) : (Z * Z) + Z :=
  match n with
  | O => inl st
  | S n =>
      let '(first_free_page, remaining_pages) := st in
      if negb (truthy (TEST_BIT byte bit)) then
        let first_free_page :=
          if remaining_pages =? count then u32 (bit + i * 8) else first_free_page in
        let remaining_pages := u32 (remaining_pages - 1) in
        if negb (truthy remaining_pages) then inr first_free_page
        else find_pages_bits n byte i (bit + 1) count (first_free_page, remaining_pages)
      else
        find_pages_bits n byte i (bit + 1) count
          (first_free_page, if negb (remaining_pages =? count) then count else remaining_pages)
  end.

(** One turn of the outer loop. *)
Definition find_pages_step (tracer : list Z) (count : Z) (st : Z * (Z * Z))
    : exec (Z * (Z * Z) + Z) :=
  let '(i, (first_free_page, remaining_pages)) := st in
  if i <? alen tracer then
    byte ← aget tracer i;
    if (byte =? 0xFF) && negb (remaining_pages =? count) then
      Done (inl (i + 1, (first_free_page, count)))
    else
      match find_pages_bits 8 byte i 0 count (first_free_page, remaining_pages) with
      | inl st' => Done (inl (i + 1, st'))
      | inr page => Done (inr page)
      end
  else Panic.

(** One turn per byte of the tracer. *)
Definition PhysicalMemory_find_pages (m : PhysicalMemory) (start_page count : Z) : exec Z :=
  while (S (length (physical_memory_tracer m)))
    (find_pages_step (physical_memory_tracer m) count) (start_page / 8, (0, count)).

Definition PhysicalMemory_alloc_page (m : PhysicalMemory) (start : Z) : exec (Z * PhysicalMemory) :=
  physical_page ← PhysicalMemory_find_pages m start 1;
  m' ← PhysicalMemory_set_used_pages m physical_page 1;
  Done (u32 (physical_page * PAGE_SIZE), m').

Definition PhysicalMemory_alloc_contagious_pages (m : PhysicalMemory) (start count : Z)
    : exec (Z * PhysicalMemory) :=
  physical_pages ← PhysicalMemory_find_pages m start count;
  m' ← PhysicalMemory_set_used_pages m physical_pages count;
  Done (u32 (physical_pages * PAGE_SIZE), m').

(** * Specification *)

Definition Phys_wf (m : PhysicalMemory) : Prop :=
  bytes_ok (physical_memory_tracer m) /\
  alen (physical_memory_tracer m) = MAX_PHYSICAL_4K_PAGES / 8.

#[export] Instance Phys_wf_dec m : Decision (Phys_wf m).
Proof. unfold Phys_wf. apply _. Defined.

(** Frame [p] is in use. *)
Definition used (m : PhysicalMemory) (p : Z) : bool := bit_on (physical_memory_tracer m) p.

Definition free_run (m : PhysicalMemory) (p count : Z) : Prop := untaken_run (used m) p count.

Lemma TEST_BIT_testbit v n : 0 <= n -> truthy (TEST_BIT v n) = Z.testbit v n.
Proof. apply (CHECK_BIT_testbit v n). Qed.

Section find_pages.
Context (m : PhysicalMemory) (Hwf : Phys_wf m).
Context (s0 count : Z) (Hcount : 0 < count < 2 ^ 32).

Abbreviation scan_inv := (scan_inv (used m) s0 count).
Abbreviation scan_result := (scan_result (used m) MAX_PHYSICAL_4K_PAGES s0 count).

Lemma page_bit byte i bit :
  physical_memory_tracer m !! Z.to_nat i = Some byte -> 0 <= i -> 0 <= bit < 8 ->
  Z.testbit byte bit = used m (8 * i + bit).
Proof.
  intros Hb Hi Hbit. unfold used.
  assert (E1 : (8 * i + bit) / 8 = i) by zdiv.
  assert (E2 : (8 * i + bit) mod 8 = bit) by zdiv.
  rewrite (bit_on_byte _ _ byte) by (by rewrite E1). by rewrite E2.
Qed.

Lemma find_pages_bits_spec byte i n bit st :
  physical_memory_tracer m !! Z.to_nat i = Some byte -> 0 <= i < MAX_PHYSICAL_4K_PAGES / 8 ->
  0 <= bit -> bit + Z.of_nat n = 8 -> scan_inv (8 * i + bit) st ->
  match find_pages_bits n byte i bit count st with
  | inl st' => scan_inv (8 * (i + 1)) st'
  | inr r => scan_result r
  end.
Proof.
  intros Hb Hi. revert bit st. induction n as [|n IH]; intros bit [first rem] Hbit Hn Hs.
  - simpl. by replace (8 * (i + 1)) with (8 * i + bit) by lia.
  - cbn [find_pages_bits]. pose proof (scan_range _ _ _ _ _ Hs) as [_ Hrem]. simpl in Hrem.
    change (MAX_PHYSICAL_4K_PAGES / 8) with 131072 in Hi.
    assert (Hlt : 8 * i + bit < MAX_PHYSICAL_4K_PAGES) by (unfold MAX_PHYSICAL_4K_PAGES; lia).
    rewrite TEST_BIT_testbit, (page_bit byte i bit) by (done || lia).
    destruct (used m (8 * i + bit)) eqn:Eu; simpl negb; cbn iota.
    + apply IH; [lia|lia|]. replace (8 * i + (bit + 1)) with (8 * i + bit + 1) by lia.
      replace (if negb (rem =? count) then count else rem) with count
        by (destruct (Z.eqb_spec rem count); done).
      by apply (scan_used (used m) s0 count ltac:(lia) _ (first, rem)).
    + rewrite (u32_small (bit + i * 8)) by (unfold MAX_PHYSICAL_4K_PAGES in Hlt; lia).
      replace (bit + i * 8) with (8 * i + bit) by lia. rewrite u32_small by lia.
      unfold truthy. destruct (Z.eqb_spec (rem - 1) 0) as [E|E]; simpl.
      * by apply (scan_done (used m) _ s0 count ltac:(lia) (8 * i + bit) (first, rem)); simpl; [| |lia|].
      * apply IH; [lia|lia|]. replace (8 * i + (bit + 1)) with (8 * i + bit + 1) by lia.
        by apply (scan_free _ _ _ (8 * i + bit) (first, rem)); simpl; [| |lia].
Qed.

(** A full byte passes as eight used pages. *)
Lemma scan_full_byte i st r :
  physical_memory_tracer m !! Z.to_nat i = Some 0xFF -> 0 <= i ->
  scan_inv (8 * i) st -> scan_inv (8 * (i + 1)) (r, count).
Proof.
  intros Hb Hi Hs.
  assert (Hu : forall k, 0 <= k < 8 -> used m (8 * i + k) = true).
  { intros k Hk. rewrite <- (page_bit 0xFF i k) by done. by apply byte_full. }
  assert (Hk : forall k, (k < 8)%nat -> scan_inv (8 * i + Z.of_nat k + 1) (r, count)).
  { intros k. induction k as [|k IH]; intros Hlt.
    - apply (scan_used (used m) s0 count ltac:(lia) _ st); [by rewrite Z.add_0_r|by apply Hu].
    - apply (scan_used (used m) s0 count ltac:(lia) _ (r, count)); [|apply Hu; lia].
      replace (8 * i + Z.of_nat (S k)) with (8 * i + Z.of_nat k + 1) by lia. apply IH. lia. }
  replace (8 * (i + 1)) with (8 * i + Z.of_nat 7 + 1) by lia. apply Hk. lia.
Qed.

Lemma find_pages_step_spec i st :
  0 <= i -> scan_inv (8 * i) st ->
  match find_pages_step (physical_memory_tracer m) count (i, st) with
  | Done (inl (i', st')) => i' = i + 1 /\ i < MAX_PHYSICAL_4K_PAGES / 8 /\ scan_inv (8 * i') st'
  | Done (inr r) => scan_result r
  | Panic => MAX_PHYSICAL_4K_PAGES / 8 <= i
  | _ => False
  end.
Proof.
  destruct st as [first rem]. intros Hi Hs. destruct Hwf as [Hok Hlen]. unfold find_pages_step.
  rewrite Hlen. destruct (Z.ltb_spec i (MAX_PHYSICAL_4K_PAGES / 8)) as [Hlt|]; [|done].
  destruct (aget_in_range (physical_memory_tracer m) i) as (byte & Eb & Lb); [lia|].
  rewrite Eb, bind_Done. destruct (Z.eqb_spec byte 0xFF) as [->|Hne]; cbn [andb].
  - destruct (Z.eqb_spec rem count) as [->|Hr]; cbn [negb].
    + pose proof (find_pages_bits_spec 0xFF i 8 0 (first, count) Lb) as H.
      destruct (find_pages_bits 8 0xFF i 0 count (first, count)) as [st'|r].
      * split; [done|]. split; [done|]. apply H; [lia|lia|lia|by rewrite Z.add_0_r].
      * apply H; [lia|lia|lia|by rewrite Z.add_0_r].
    + split; [done|]. split; [done|]. by apply (scan_full_byte _ (first, rem)).
  - pose proof (find_pages_bits_spec byte i 8 0 (first, rem) Lb) as H.
    destruct (find_pages_bits 8 byte i 0 count (first, rem)) as [st'|r].
    + split; [done|]. split; [done|]. apply H; [lia|lia|lia|by rewrite Z.add_0_r].
    + apply H; [lia|lia|lia|by rewrite Z.add_0_r].
Qed.

End find_pages.

Section find_result.
Context (m : PhysicalMemory) (Hwf : Phys_wf m).
Context (start count : Z) (Hstart : 0 <= start) (Hcount : 0 < count < 2 ^ 32).

(** The search starts at the byte of [start]. *)
Definition first_candidate : Z := 8 * (start / 8).

(** [find_pages] finds the first run of [count] free frames from the byte of
    [start] on, or panics because there is none. *)
Lemma find_pages_spec :
  (exists r, PhysicalMemory_find_pages m start count = Done r /\
     scan_result (used m) MAX_PHYSICAL_4K_PAGES first_candidate count r) \/
  (PhysicalMemory_find_pages m start count = Panic /\
   forall a, first_candidate <= a -> a + count <= MAX_PHYSICAL_4K_PAGES -> ~ free_run m a count).
Proof.
  assert (Hs0 : 0 <= first_candidate) by (unfold first_candidate; zdiv).
  unfold PhysicalMemory_find_pages. destruct Hwf as [Hok Hlen].
  assert (Hgen : forall n i st, 0 <= i ->
    Z.of_nat n > MAX_PHYSICAL_4K_PAGES / 8 - i -> (0 < n)%nat ->
    scan_inv (used m) first_candidate count (8 * i) st ->
    (exists r, while n (find_pages_step (physical_memory_tracer m) count) (i, st) = Done r /\
       scan_result (used m) MAX_PHYSICAL_4K_PAGES first_candidate count r) \/
    (while n (find_pages_step (physical_memory_tracer m) count) (i, st) = Panic /\
     forall a, first_candidate <= a -> a + count <= MAX_PHYSICAL_4K_PAGES -> ~ free_run m a count)).
  { intros n. induction n as [|n IH]; intros i st Hi Hn Hn0 Hs; [lia|].
    pose proof (find_pages_step_spec m Hwf first_candidate count Hcount i st Hi Hs) as H.
    cbn [while]. destruct (find_pages_step _ _ _) as [[[i' st']|r]| | |]; cbn [mbind exec_bind]; try done.
    - destruct H as (-> & Hlt & Hs'). apply IH; [lia|lia|lia|done].
    - left. eauto.
    - right. split; [done|]. intros a Ha Hc. eapply (scan_none _ _ _ _ _ Hs); [done|].
      unfold MAX_PHYSICAL_4K_PAGES in *. change (1024 * 1024 / 8) with 131072 in H. lia. }
  apply Hgen.
  - zdiv.
  - unfold alen in Hlen. assert (0 <= start / 8) by zdiv. lia.
  - lia.
  - apply scan_start. lia.
Qed.

(** Marking a run used or free. *)
Lemma set_used_pages_spec p :
  0 <= p -> p + count <= MAX_PHYSICAL_4K_PAGES ->
  exists m', PhysicalMemory_set_used_pages m p count = Done m' /\ Phys_wf m' /\
    physical_memory_size m' = u32 (physical_memory_size m + count * PAGE_SIZE) /\
    forall q, 0 <= q -> used m' q = used m q || in_run p count q.
Proof.
  intros Hp Hf. destruct Hwf as [Hok Hlen]. unfold PhysicalMemory_set_used_pages.
  change (MAX_PHYSICAL_4K_PAGES / 8) with 131072 in Hlen. unfold MAX_PHYSICAL_4K_PAGES in Hf.
  destruct (set_bits_spec (physical_memory_tracer m) p count) as (d & E & Hd & Hl & Hb);
    [done|lia|lia|unfold bit_capacity; lia|lia|].
  rewrite E. simpl. eexists; split; [done|]. split; [split; [done|etrans; [exact Hl|exact Hlen]]|]. done.
Qed.

Lemma set_free_pages_spec p :
  0 <= p -> p + count <= MAX_PHYSICAL_4K_PAGES ->
  exists m', PhysicalMemory_set_free_pages m p count = Done m' /\ Phys_wf m' /\
    physical_memory_size m' = u32 (physical_memory_size m - count * PAGE_SIZE) /\
    forall q, 0 <= q -> used m' q = used m q && negb (in_run p count q).
Proof.
  intros Hp Hf. destruct Hwf as [Hok Hlen]. unfold PhysicalMemory_set_free_pages.
  change (MAX_PHYSICAL_4K_PAGES / 8) with 131072 in Hlen. unfold MAX_PHYSICAL_4K_PAGES in Hf.
  destruct (clear_bits_spec (physical_memory_tracer m) p count) as (d & E & Hd & Hl & Hb);
    [done|lia|lia|unfold bit_capacity; lia|lia|].
  rewrite E. simpl. eexists; split; [done|]. split; [split; [done|etrans; [exact Hl|exact Hlen]]|]. done.
Qed.

(** Allocation of a run of frames. *)
Lemma alloc_contagious_spec :
  (exists p m', PhysicalMemory_alloc_contagious_pages m start count = Done (p * PAGE_SIZE, m') /\
     scan_result (used m) MAX_PHYSICAL_4K_PAGES first_candidate count p /\ Phys_wf m' /\
     physical_memory_size m' = u32 (physical_memory_size m + count * PAGE_SIZE) /\
     forall q, 0 <= q -> used m' q = used m q || in_run p count q) \/
  (PhysicalMemory_alloc_contagious_pages m start count = Panic /\
   forall a, first_candidate <= a -> a + count <= MAX_PHYSICAL_4K_PAGES -> ~ free_run m a count).
Proof.
  unfold PhysicalMemory_alloc_contagious_pages.
  destruct find_pages_spec as [(r & E & Hr)|[E Hn]]; rewrite E; simpl; [left|by right].
  destruct Hr as (Hr1 & Hr2 & Hr3). assert (0 <= first_candidate) by (unfold first_candidate; zdiv).
  destruct (set_used_pages_spec r) as (m' & E' & H1 & H2 & H3); [lia|done|].
  rewrite E'. simpl. exists r, m'.
  rewrite u32_small by (unfold MAX_PHYSICAL_4K_PAGES, PAGE_SIZE in *; lia).
  split; [done|]. split; [done|]. done.
Qed.

End find_result.

Lemma alloc_page_contagious m start :
  PhysicalMemory_alloc_page m start = PhysicalMemory_alloc_contagious_pages m start 1.
Proof. reflexivity. Qed.

(** [check_free_pages] answers whether a run of frames is free. *)
Lemma check_free_pages_spec m p count :
  Phys_wf m -> 0 <= p -> 0 <= count -> p + count <= MAX_PHYSICAL_4K_PAGES ->
  exists b, PhysicalMemory_check_free_pages m p count = Done b /\
    (b = true <-> free_run m p count).
Proof.
  intros [Hok Hlen] Hp Hc Hf. unfold PhysicalMemory_check_free_pages.
  change (MAX_PHYSICAL_4K_PAGES / 8) with 131072 in Hlen. unfold MAX_PHYSICAL_4K_PAGES in Hf.
  apply (while_inv
    (fun i => p <= i <= p + count /\ forall q, p <= q < i -> used m q = false)
    (fun b => b = true <-> free_run m p count) (fun i => Z.to_nat (p + count - i))).
  - split; [lia|]. intros; lia.
  - lia.
  - intros i [Hi Hq]. rewrite (u32_small (p + count)) by lia.
    destruct (Z.ltb_spec i (p + count)).
    + destruct (read_bit (physical_memory_tracer m) i) as (b & E & _ & Hb);
        [unfold bit_capacity; lia|].
      rewrite E. simpl. change (TEST_BIT b (i mod 8)) with (CHECK_BIT b (i mod 8)). rewrite Hb.
      destruct (bit_on (physical_memory_tracer m) i) eqn:Eb; [right|left];
        (eexists; split; [done|]).
      * split; [done|]. intros Hfree. specialize (Hfree i). unfold used in Hfree.
        rewrite Eb in Hfree. discriminate Hfree; lia.
      * rewrite u32_small by lia. split; [|lia]. split; [lia|]. intros q Hq'.
        destruct (decide (q = i)) as [->|]; [done|]. apply Hq. lia.
    + right. eexists; split; [done|]. split; [|done]. intros _ q Hq'. apply Hq. lia.
Qed.

Lemma setup_wf : Phys_wf PhysicalMemory_setup.
Proof.
  split; [apply bytes_ok_zeros|]. unfold PhysicalMemory_setup. cbn [physical_memory_tracer].
  rewrite alen_replicate, Z2Nat.id; [done|]. unfold MAX_PHYSICAL_4K_PAGES. zdiv.
Qed.

#[export] Hint Resolve setup_wf : cyan.

(** * Properties *)

(** The frame allocator is sound, complete and first fit. From a well-formed
    tracer, [alloc_contagious_pages] returns the address of the first run of [count]
    free frames at or after the byte of [start], marks exactly that run used and
    accounts for its size; it panics exactly when there is no such run. *)
Theorem physical_alloc_first_fit (m : PhysicalMemory) (start count : Z) :
  Phys_wf m -> 0 <= start -> 0 < count < 2 ^ 32 ->
  (exists p m', PhysicalMemory_alloc_contagious_pages m start count = Done (p * PAGE_SIZE, m') /\
     (8 * (start / 8) <= p /\ p + count <= MAX_PHYSICAL_4K_PAGES /\ free_run m p count /\
      forall a, 8 * (start / 8) <= a < p -> ~ free_run m a count) /\
     Phys_wf m' /\ physical_memory_size m' = u32 (physical_memory_size m + count * PAGE_SIZE) /\
     forall q, 0 <= q -> used m' q = used m q || in_run p count q) \/
  (PhysicalMemory_alloc_contagious_pages m start count = Panic /\
   forall a, 8 * (start / 8) <= a -> a + count <= MAX_PHYSICAL_4K_PAGES -> ~ free_run m a count).
Proof. intros. by apply alloc_contagious_spec. Qed.

Lemma physical_alloc_first_fit_witness :
  (exists p m', PhysicalMemory_alloc_contagious_pages PhysicalMemory_setup 256 3
                = Done (p * PAGE_SIZE, m') /\
     (256 <= p /\ p + 3 <= MAX_PHYSICAL_4K_PAGES /\ free_run PhysicalMemory_setup p 3 /\
      forall a, 256 <= a < p -> ~ free_run PhysicalMemory_setup a 3) /\
     Phys_wf m' /\ physical_memory_size m' = u32 (0 + 3 * PAGE_SIZE) /\
     forall q, 0 <= q -> used m' q = used PhysicalMemory_setup q || in_run p 3 q) \/
  (PhysicalMemory_alloc_contagious_pages PhysicalMemory_setup 256 3 = Panic /\
   forall a, 256 <= a -> a + 3 <= MAX_PHYSICAL_4K_PAGES -> ~ free_run PhysicalMemory_setup a 3).
Proof. apply (physical_alloc_first_fit PhysicalMemory_setup 256 3); [apply setup_wf|lia|lia]. Defined.

(** frames that were handed out and freed are free again: allocating a run and
    freeing it with the page number of the returned address restores every bit of the
    tracer and the accounted size. *)
Theorem physical_alloc_free_roundtrip (m m' : PhysicalMemory) (start count address : Z) :
  Phys_wf m -> 0 <= start -> 0 < count < 2 ^ 32 -> 0 <= physical_memory_size m < 2 ^ 32 ->
  PhysicalMemory_alloc_contagious_pages m start count = Done (address, m') ->
  exists m'', PhysicalMemory_free_pages m' (address / PAGE_SIZE) count = Done m'' /\
    Phys_wf m'' /\ physical_memory_size m'' = physical_memory_size m /\
    forall q, 0 <= q -> used m'' q = used m q.
Proof.
  intros Hwf Hs Hc Hz E. destruct (alloc_contagious_spec m Hwf start count Hs Hc)
    as [(p & m1 & E1 & (Hp & Hfit & Hfree & _) & Hwf1 & Hsz & Hb)|[E1 _]]; rewrite E1 in E; [|done].
  simplify_eq. rewrite Z.div_mul by (unfold PAGE_SIZE; lia).
  assert (0 <= first_candidate start) by (unfold first_candidate; zdiv).
  destruct (set_free_pages_spec m' Hwf1 count Hc p) as (m2 & E2 & Hwf2 & Hsz2 & Hb2); [lia|done|].
  exists m2. split; [done|]. split; [done|]. split.
  - rewrite Hsz2, Hsz. unfold u32. rewrite Zminus_mod_idemp_l.
    replace (physical_memory_size m + count * PAGE_SIZE - count * PAGE_SIZE)
      with (physical_memory_size m) by lia. by rewrite Z.mod_small.
  - intros q Hq. rewrite Hb2, Hb by done. destruct (in_run p count q) eqn:Er.
    + unfold in_run in Er. to_prop. rewrite (Hfree q) by lia. done.
    + by rewrite orb_false_r, andb_true_r.
Qed.

Lemma physical_alloc_free_roundtrip_witness :
  exists m' m'', PhysicalMemory_alloc_contagious_pages PhysicalMemory_setup 256 3
                 = Done (256 * PAGE_SIZE, m') /\
    PhysicalMemory_free_pages m' (256 * PAGE_SIZE / PAGE_SIZE) 3 = Done m'' /\ Phys_wf m''.
Proof.
  destruct (alloc_contagious_spec PhysicalMemory_setup setup_wf 256 3)
    as [(p & m1 & E1 & (Hp & Hfit & Hfree & Hleast) & _)|[_ Hn]]; [lia|lia| |].
  - change (first_candidate 256) with 256 in *. assert (Ep : p = 256).
    { destruct (decide (256 < p)); [|lia].
      destruct (Hleast 256); [lia|]. intros q Hq. apply bit_on_zeros. }
    subst p. exists m1.
    destruct (physical_alloc_free_roundtrip PhysicalMemory_setup m1 256 3 (256 * PAGE_SIZE))
      as (m2 & E2 & Hwf2 & _); [apply setup_wf|lia|lia|change (0 <= 0 < 2 ^ 32); lia|exact E1|]. exists m2. split; [exact E1|]. split; [exact E2|exact Hwf2].
  - change (first_candidate 256) with 256 in *. destruct (Hn 256); [lia|vm_compute; discriminate|].
    intros q Hq. apply bit_on_zeros.
Defined.
