(* ===== verification/Paging.v ===== *)
(** [Paging] (arch/x86/paging.cpp): the two-level page tables of the processor.

    Physical memory is a map from the addresses of 32-bit words to their contents
    (absent words read as zero); once paging is on, every access of the kernel goes
    through the walk of the MMU from [cr3], and the tables themselves are reached
    through the recursive directory entry. A missing page is [Fault]. The TLB is taken
    to be coherent: the code invalidates every entry that it changes. The read/write and user
    bits are filled in as the code does ([fill_entry]) but the walk does not look at them: it
    says where an access goes, for the accesses that the kernel makes at its own privilege.
    The processor lets those through to user pages, and as CR0.WP is set it lets writes
    through to writable pages only; the kernel writes to page tables, which it enters as
    writable, and to memory that it has asked for with PAGE_READWRITE. That other writes
    fault is not modelled. *)

From S2P Require Import Prelude Physical.

Definition NUMBER_OF_PAGE_DIRECOTRY_ENTRIES : Z := 1024.
Definition NUMBER_OF_PAGE_TABLE_ENTRIES : Z := 1024.
Definition RECURSIVE_ENTRY : Z := NUMBER_OF_PAGE_DIRECOTRY_ENTRIES - 1.
Definition KERNEL_BASE : Z := 0xC0000000.
Definition KERNEL_PHYSICAL_ADDRESS : Z := 0x00100000.
Definition KERNEL_VIRTUAL_ADDRESS : Z := KERNEL_BASE + KERNEL_PHYSICAL_ADDRESS.
Definition VIR_TO_PHY (x : Z) : Z := u32 (x - KERNEL_BASE).

Definition GET_FRAME (x : Z) : Z := Z.shiftr x 12.
Definition GET_PTE_INDEX (x : Z) : Z := Z.land (Z.shiftr x 12) 0x3FF.
Definition GET_PDE_INDEX (x : Z) : Z := Z.shiftr x 22.
Definition GET_OFFSET (x : Z) : Z := Z.land x 0xFFF.
Definition GET_PAGE_VIRTUAL_ADDRESS (dir_index page_index : Z) : Z :=
  u32 (Z.lor (Z.shiftl dir_index 22) (Z.shiftl page_index 12)).
Definition GET_PAGES (x : Z) : Z := x / PAGE_SIZE + (if x mod PAGE_SIZE =? 0 then 0 else 1).
Definition FULL_KERNEL_PAGES : Z := NUMBER_OF_PAGE_DIRECOTRY_ENTRIES - GET_PDE_INDEX KERNEL_BASE.
Definition FIRST_PAGE_ADDRESS : Z := 0x1000.
Definition LAST_PAGE_ADDRESS : Z :=
  GET_PAGE_VIRTUAL_ADDRESS (RECURSIVE_ENTRY - 1) (NUMBER_OF_PAGE_TABLE_ENTRIES - 1).

Definition PAGE_FLAGS_PRESENT : Z := Bit 0.
Definition PAGE_FLAGS_WRITABLE : Z := Bit 1.
Definition PAGE_FLAGS_USER : Z := Bit 2.
Definition PAGE_FLAGS_GLOBAL : Z := Bit 8.

(** ** Entries: the bit fields of [PAGE_TABLE_ENTRY_t] *)

Definition get_field (w lo n : Z) : Z := Z.land (Z.shiftr w lo) (Z.ones n).

Definition set_field (w lo n v : Z) : Z :=
  Z.lor (Z.land w (Z.lnot (Z.shiftl (Z.ones n) lo))) (Z.shiftl (Z.land v (Z.ones n)) lo).

Definition pte_present (w : Z) : Z := get_field w 0 1.
Definition pte_pse (w : Z) : Z := get_field w 7 1.
Definition pte_frame (w : Z) : Z := get_field w 12 20.

(** [BOOL(x)] assigned to a one-bit field. *)
Definition BOOL (x : Z) : Z := if truthy x then 1 else 0.

(** The three [fill_*] functions differ in the [pse] bit only; the frame is passed
    as a [u16]. *)
Definition fill_entry (pse : Z) (entry physical_frame flags : Z) : Z :=
  let physical_frame := u16 physical_frame in
  let e := set_field entry 9 3 0 in
  let e := set_field e 8 1 (BOOL (Z.land flags PAGE_FLAGS_GLOBAL)) in
  let e := set_field e 3 1 0 in
  let e := set_field e 4 1 0 in
  let e := set_field e 7 1 pse in
  let e := set_field e 0 1 (BOOL (Z.land flags PAGE_FLAGS_PRESENT)) in
  let e := set_field e 1 1 (BOOL (Z.land flags PAGE_FLAGS_WRITABLE)) in
  let e := set_field e 2 1 (BOOL (Z.land flags PAGE_FLAGS_USER)) in
  set_field e 12 20 physical_frame.

Definition Paging_fill_directory_entry := fill_entry 0.
Definition Paging_fill_directory_PSE_entry := fill_entry 1.
Definition Paging_fill_page_table_entry := fill_entry 0.

(** ** The machine *)

Record mmu := mkMMU {
  phys : gmap Z Z;
  cr3 : Z
}.

(** Words of physical memory. *)
Definition pread (s : mmu) (a : Z) : Z := default 0 (phys s !! a).
Definition pwrite (s : mmu) (a v : Z) : mmu := mkMMU (<[a := v]> (phys s)) (cr3 s).

(** The walk: directory entry, then table entry unless the page is a large one. The access
    rights in the entries are left out (above). *)
Definition translate (s : mmu) (v : Z) : exec Z :=
  let pde := pread s (GET_FRAME (cr3 s) * PAGE_SIZE + 4 * GET_PDE_INDEX v) in
  if truthy (pte_present pde) then
    if truthy (pte_pse pde) then
      Done (Z.lor (Z.shiftl (Z.shiftr (pte_frame pde) 10) 22) (Z.land v 0x3FFFFF))
    else
      let pte := pread s (pte_frame pde * PAGE_SIZE + 4 * GET_PTE_INDEX v) in
      if truthy (pte_present pte) then Done (pte_frame pte * PAGE_SIZE + GET_OFFSET v) else Fault
  else Fault.

(** Word accesses at virtual addresses. *)
Definition vread (s : mmu) (v : Z) : exec Z := a ← translate s v; Done (pread s a).
Definition vwrite (s : mmu) (v w : Z) : exec mmu := a ← translate s v; Done (pwrite s a w).

(** ** Operations with paging on *)

(** Virtual address of the table of directory entry [dir_index]. *)
Definition table_window (dir_index : Z) : Z := GET_PAGE_VIRTUAL_ADDRESS RECURSIVE_ENTRY dir_index.

(** [&page_table->entries[GET_PTE_INDEX(v)]] and [&page_dir->entries[GET_PDE_INDEX(v)]] *)
Definition pte_address (v : Z) : Z := u32 (table_window (GET_PDE_INDEX v) + 4 * GET_PTE_INDEX v).
Definition pde_address (v : Z) : Z := u32 (table_window RECURSIVE_ENTRY + 4 * GET_PDE_INDEX v).

Definition Paging_map_page (s : mmu) (virtual_address physical_address flags : Z) : exec mmu :=
  e ← vread s (pte_address virtual_address);
  vwrite s (pte_address virtual_address)
    (Paging_fill_page_table_entry e (GET_FRAME physical_address) flags).

Definition Paging_map_pages (s : mmu) (virtual_address physical_address pages flags : Z) : exec mmu :=
  for_ (Z.to_nat pages) 0
    (fun i s => Paging_map_page s (u32 (virtual_address + PAGE_SIZE * i))
                  (u32 (physical_address + PAGE_SIZE * i)) flags) s.

Definition Paging_unmap_page (s : mmu) (virtual_address : Z) : exec mmu :=
  e ← vread s (pte_address virtual_address);
  vwrite s (pte_address virtual_address) (set_field e 0 1 0).

Definition Paging_unmap_pages (s : mmu) (virtual_address pages : Z) : exec mmu :=
  for_ (Z.to_nat pages) 0
    (fun i s => Paging_unmap_page s (u32 (virtual_address + PAGE_SIZE * i))) s.

Definition Paging_get_physical_page (s : mmu) (virtual_address : Z) : exec Z :=
  e ← vread s (pte_address virtual_address);
  Done (pte_frame e).

Definition Paging_map_page_table (s : mmu) (virtual_address pt_virtual_address : Z) : exec mmu :=
  pt_frame ← Paging_get_physical_page s pt_virtual_address;
  e ← vread s (pde_address virtual_address);
  vwrite s (pde_address virtual_address)
    (Paging_fill_directory_entry e pt_frame
       (Z.lor (Z.lor PAGE_FLAGS_PRESENT PAGE_FLAGS_WRITABLE) PAGE_FLAGS_USER)).

Definition Paging_check_page_table_exists (s : mmu) (virtual_address : Z) : exec bool :=
  e ← vread s (pde_address virtual_address);
  Done (truthy (pte_present e)).

Definition Paging_check_page_exits_in_table (s : mmu) (virtual_address : Z) : exec bool :=
  e ← vread s (pte_address virtual_address);
  Done (truthy (pte_present e)).

Definition Paging_check_page_present (s : mmu) (virtual_address : Z) : exec bool :=
  exists_ ← Paging_check_page_table_exists s virtual_address;
  if negb exists_ then Done false else Paging_check_page_exits_in_table s virtual_address.

Definition Paging_load_page_directory (s : mmu) (page_direcotry : Z) : mmu :=
  mkMMU (phys s) page_direcotry.

(** Zeroing the 1024 entries of a directory or of a table, with the word write of
    the current addressing mode. *)
Definition Paging_initialize_page_directory (write : mmu -> Z -> Z -> exec mmu) (s : mmu)
    (page_direcotry : Z) : exec mmu :=
  for_ (Z.to_nat NUMBER_OF_PAGE_DIRECOTRY_ENTRIES) 0
    (fun i s => write s (u32 (page_direcotry + 4 * i)) 0) s.

Definition Paging_initialize_page_table (write : mmu -> Z -> Z -> exec mmu) (s : mmu)
    (page_table : Z) : exec mmu :=
  for_ (Z.to_nat NUMBER_OF_PAGE_TABLE_ENTRIES) 0
    (fun i s => write s (u32 (page_table + 4 * i)) 0) s.

(** ** Boot

    The static tables are at addresses the linker chooses. *)

Section boot.
Context (page_direcotry kernel_page_tables boostrap_page_table : Z).

(** Physical addressing, before paging is on. *)
Definition boot_write (s : mmu) (a v : Z) : exec mmu := Done (pwrite s a v).

Definition Paging_setup_page_tables (s : mmu) : exec mmu :=
  let ph_page_direcotry := VIR_TO_PHY page_direcotry in
  let ph_kpage_tables := VIR_TO_PHY kernel_page_tables in
  let ph_bootpage_tables := VIR_TO_PHY boostrap_page_table in
  let page_flags := Z.lor PAGE_FLAGS_PRESENT PAGE_FLAGS_WRITABLE in
  let link s index table :=
    let entry := u32 (ph_page_direcotry + 4 * index) in
    pwrite s entry (Paging_fill_directory_entry (pread s entry) (GET_FRAME table) page_flags) in
  s ← Paging_initialize_page_directory boot_write s ph_page_direcotry;
  s ← for_ (Z.to_nat FULL_KERNEL_PAGES) 0
        (fun i s =>
           let table := u32 (ph_kpage_tables + PAGE_SIZE * i) in
           s ← Paging_initialize_page_table boot_write s table;
           Done (link s (i + GET_PDE_INDEX KERNEL_BASE) table)) s;
  s ← for_ 2 0
        (fun i s =>
           let table := u32 (ph_bootpage_tables + PAGE_SIZE * i) in
           s ← Paging_initialize_page_table boot_write s table;
           Done (link s i table)) s;
  Done (link s RECURSIVE_ENTRY ph_page_direcotry).

Definition Paging_map_boot_pages (s : mmu) (virtual_address physical_address pages : Z) : exec mmu :=
  let ph_page_directory := VIR_TO_PHY page_direcotry in
  let page_flags := Z.lor (Z.lor PAGE_FLAGS_PRESENT PAGE_FLAGS_WRITABLE) PAGE_FLAGS_GLOBAL in
  '(s, _, _) ← for_ (Z.to_nat pages) 0
    (fun _ '(s, current_v_page, current_p_page) =>
       let pde := GET_PDE_INDEX current_v_page in
       let pte := GET_PTE_INDEX current_v_page in
       let ph_page_table := u32 (pte_frame (pread s (u32 (ph_page_directory + 4 * pde))) * PAGE_SIZE) in
       let entry := u32 (ph_page_table + 4 * pte) in
       let s := pwrite s entry
                  (Paging_fill_page_table_entry (pread s entry) (GET_FRAME current_p_page) page_flags) in
       Done (s, u32 (current_v_page + PAGE_SIZE), u32 (current_p_page + PAGE_SIZE)))
    (s, virtual_address, physical_address);
  Done s.

(** Enabling paging in [cr0] and [cr4] switches the model from [pread]/[pwrite]
    to [vread]/[vwrite]. *)
Definition Paging_setup (s : mmu) (num_kernel_pages : Z) : exec mmu :=
  let ph_page_direcotry := VIR_TO_PHY page_direcotry in
  s ← Paging_initialize_page_directory boot_write s ph_page_direcotry;
  s ← Paging_setup_page_tables s;
  s ← Paging_map_boot_pages s KERNEL_PHYSICAL_ADDRESS KERNEL_PHYSICAL_ADDRESS num_kernel_pages;
  s ← Paging_map_boot_pages s KERNEL_VIRTUAL_ADDRESS KERNEL_PHYSICAL_ADDRESS num_kernel_pages;
  Done (Paging_load_page_directory s ph_page_direcotry).

(** A new directory shares the kernel's tables and gets its own recursive entry. *)
Definition Paging_map_kernel_pd_entries (s : mmu) (pd : Z) : exec mmu :=
  s ← Paging_initialize_page_directory vwrite s pd;
  let start := GET_PDE_INDEX KERNEL_VIRTUAL_ADDRESS in
  s ← for_ (Z.to_nat (RECURSIVE_ENTRY - start)) start
        (fun i s =>
           e ← vread s (u32 (page_direcotry + 4 * i));
           vwrite s (u32 (pd + 4 * i)) e) s;
  frame ← Paging_get_physical_page s pd;
  e ← vread s (u32 (pd + 4 * RECURSIVE_ENTRY));
  vwrite s (u32 (pd + 4 * RECURSIVE_ENTRY))
    (Paging_fill_directory_entry e frame (Z.lor PAGE_FLAGS_PRESENT PAGE_FLAGS_WRITABLE)).

End boot.

(** * Bit fields *)

Lemma get_field_testbit w lo n k :
  0 <= lo -> 0 <= n -> 0 <= k -> Z.testbit (get_field w lo n) k = (k <? n) && Z.testbit w (k + lo).
Proof.
  intros. unfold get_field. rewrite Z.land_spec, Z.shiftr_spec, Z.testbit_ones_nonneg by lia.
  apply andb_comm.
Qed.

Lemma set_field_testbit w lo n v k :
  0 <= lo -> 0 <= n -> 0 <= k ->
  Z.testbit (set_field w lo n v) k =
  if (lo <=? k) && (k <? lo + n) then Z.testbit v (k - lo) else Z.testbit w k.
Proof.
  intros Hlo Hn Hk. unfold set_field.
  rewrite Z.lor_spec, Z.land_spec, Z.lnot_spec, !Z.shiftl_spec, Z.land_spec by lia.
  destruct (Z.leb_spec lo k).
  - rewrite !Z.testbit_ones_nonneg by lia.
    replace (k <? lo + n) with (k - lo <? n) by lia. destruct (k - lo <? n); simpl.
    + by rewrite andb_false_r, andb_true_r.
    + by rewrite andb_false_r, andb_true_r, orb_false_r.
  - rewrite !(Z.testbit_neg_r _ (k - lo)) by lia. simpl.
    by rewrite andb_true_r, orb_false_r.
Qed.

Lemma get_set_same w lo n v :
  0 <= lo -> 0 <= n -> get_field (set_field w lo n v) lo n = Z.land v (Z.ones n).
Proof.
  intros. apply Z.bits_inj'. intros k Hk.
  rewrite get_field_testbit, set_field_testbit, Z.land_spec, Z.testbit_ones_nonneg by lia.
  replace ((lo <=? k + lo) && (k + lo <? lo + n)) with (k <? n) by lia.
  replace (k + lo - lo) with k by lia. destruct (k <? n); simpl; [by rewrite andb_true_r|].
  by rewrite andb_false_r.
Qed.

Lemma get_set_other w lo n v lo' n' :
  0 <= lo -> 0 <= n -> 0 <= lo' -> 0 <= n' -> lo + n <= lo' \/ lo' + n' <= lo ->
  get_field (set_field w lo n v) lo' n' = get_field w lo' n'.
Proof.
  intros. apply Z.bits_inj'. intros k Hk.
  rewrite !get_field_testbit, set_field_testbit by lia. destruct (Z.ltb_spec k n'); [|done].
  by replace ((lo <=? k + lo') && (k + lo' <? lo + n)) with false by lia.
Qed.

Lemma fill_frame pse e f flags : pte_frame (fill_entry pse e f flags) = u16 f.
Proof.
  unfold pte_frame, fill_entry. rewrite get_set_same by lia. rewrite Z.land_ones by lia.
  pose proof (u16_range f). apply Z.mod_small. lia.
Qed.

Lemma fill_present pse e f flags :
  pte_present (fill_entry pse e f flags) = BOOL (Z.land flags PAGE_FLAGS_PRESENT).
Proof.
  unfold pte_present, fill_entry. do 3 rewrite get_set_other by lia.
  rewrite get_set_same by lia. unfold BOOL. by destruct (truthy _).
Qed.

Lemma fill_pse pse e f flags : pte_pse (fill_entry pse e f flags) = Z.land pse 1.
Proof.
  unfold pte_pse, fill_entry. do 4 rewrite get_set_other by lia. by rewrite get_set_same by lia.
Qed.

(** * Indices *)

Lemma GET_PDE_INDEX_div v : GET_PDE_INDEX v = v / 2 ^ 22.
Proof. unfold GET_PDE_INDEX. by rewrite Z.shiftr_div_pow2. Qed.

Lemma GET_PTE_INDEX_div v : GET_PTE_INDEX v = (v / 2 ^ 12) mod 2 ^ 10.
Proof.
  unfold GET_PTE_INDEX. change 0x3FF with (Z.ones 10).
  by rewrite Z.land_ones, Z.shiftr_div_pow2.
Qed.

Lemma GET_OFFSET_mod v : GET_OFFSET v = v mod 2 ^ 12.
Proof. unfold GET_OFFSET. change 0xFFF with (Z.ones 12). by rewrite Z.land_ones. Qed.

Lemma GET_FRAME_div v : GET_FRAME v = v / 2 ^ 12.
Proof. unfold GET_FRAME. by rewrite Z.shiftr_div_pow2. Qed.

Lemma directory_table_disjoint d p :
  0 <= p < 1024 -> Z.land (Z.shiftl d 22) (Z.shiftl p 12) = 0.
Proof.
  intros Hp. apply Z.bits_inj'. intros k Hk. rewrite Z.land_spec, !Z.shiftl_spec, Z.bits_0 by lia.
  destruct (decide (k < 22)); [by rewrite Z.testbit_neg_r by lia|].
  rewrite (Z.bits_above_log2 p), andb_false_r; [done|lia|].
  destruct (decide (p = 0)) as [->|]; [simpl; lia|]. apply Z.log2_lt_pow2; [lia|].
  apply Z.lt_le_trans with (2 ^ 10); [lia|]. apply Z.pow_le_mono_r; lia.
Qed.

Lemma GET_PAGE_VIRTUAL_ADDRESS_sum d p :
  0 <= d < 1024 -> 0 <= p < 1024 -> GET_PAGE_VIRTUAL_ADDRESS d p = d * 2 ^ 22 + p * 2 ^ 12.
Proof.
  intros Hd Hp. unfold GET_PAGE_VIRTUAL_ADDRESS. pose proof (directory_table_disjoint d p Hp).
  rewrite <- Z.lxor_lor, <- Z.add_nocarry_lxor by done.
  rewrite !Z.shiftl_mul_pow2, u32_small by lia. done.
Qed.

(** The page a virtual address is on. *)
Definition page_of (v : Z) : Z := v / 2 ^ 12.

Lemma page_indices v v' :
  GET_PDE_INDEX v = GET_PDE_INDEX v' -> GET_PTE_INDEX v = GET_PTE_INDEX v' -> page_of v = page_of v'.
Proof. rewrite !GET_PDE_INDEX_div, !GET_PTE_INDEX_div. unfold page_of. intros. zdiv. Qed.

Lemma PDE_page v : GET_PDE_INDEX v = page_of v / 2 ^ 10.
Proof. rewrite GET_PDE_INDEX_div. unfold page_of. zdiv. Qed.

Lemma PTE_page v : GET_PTE_INDEX v = page_of v mod 2 ^ 10.
Proof. apply GET_PTE_INDEX_div. Qed.

Section windows.
Context (v : Z) (Hv : 0 <= v < 2 ^ 32).

Lemma PDE_range : 0 <= GET_PDE_INDEX v < 1024.
Proof. rewrite GET_PDE_INDEX_div. zdiv. Qed.

Lemma PTE_range : 0 <= GET_PTE_INDEX v < 1024.
Proof. rewrite GET_PTE_INDEX_div. zdiv. Qed.

Lemma pte_address_sum :
  pte_address v = 1023 * 2 ^ 22 + GET_PDE_INDEX v * 2 ^ 12 + 4 * GET_PTE_INDEX v.
Proof.
  pose proof PDE_range. pose proof PTE_range. unfold pte_address, table_window.
  change RECURSIVE_ENTRY with 1023. rewrite GET_PAGE_VIRTUAL_ADDRESS_sum by lia.
  rewrite u32_small; lia.
Qed.

Lemma pde_address_sum : pde_address v = 1023 * 2 ^ 22 + 1023 * 2 ^ 12 + 4 * GET_PDE_INDEX v.
Proof.
  pose proof PDE_range. unfold pde_address, table_window. change RECURSIVE_ENTRY with 1023.
  rewrite GET_PAGE_VIRTUAL_ADDRESS_sum by lia. rewrite u32_small; lia.
Qed.

Lemma pte_address_indices :
  GET_PDE_INDEX (pte_address v) = 1023 /\ GET_PTE_INDEX (pte_address v) = GET_PDE_INDEX v /\
  GET_OFFSET (pte_address v) = 4 * GET_PTE_INDEX v.
Proof.
  pose proof PDE_range. pose proof PTE_range. rewrite pte_address_sum.
  rewrite (GET_PDE_INDEX_div (_ + _)), (GET_PTE_INDEX_div (_ + _)), GET_OFFSET_mod.
  repeat split; zdiv.
Qed.

Lemma pde_address_indices :
  GET_PDE_INDEX (pde_address v) = 1023 /\ GET_PTE_INDEX (pde_address v) = 1023 /\
  GET_OFFSET (pde_address v) = 4 * GET_PDE_INDEX v.
Proof.
  pose proof PDE_range. rewrite pde_address_sum.
  rewrite (GET_PDE_INDEX_div (_ + _)), (GET_PTE_INDEX_div (_ + _)), GET_OFFSET_mod.
  repeat split; zdiv.
Qed.

End windows.

(** * Address spaces *)

Definition pd_address (s : mmu) (i : Z) : Z := GET_FRAME (cr3 s) * PAGE_SIZE + 4 * i.

(** Directory entry [i] and the frame of its table. *)
Definition pd_entry (s : mmu) (i : Z) : Z := pread s (pd_address s i).
Definition pd_present (s : mmu) (i : Z) : bool := truthy (pte_present (pd_entry s i)).
Definition table_of (s : mmu) (i : Z) : Z := pte_frame (pd_entry s i).

(** Table entry of virtual address [v]. *)
Definition pt_address (s : mmu) (v : Z) : Z :=
  table_of s (GET_PDE_INDEX v) * PAGE_SIZE + 4 * GET_PTE_INDEX v.

(** A usable address space: the recursive entry is in place, there are no large
    pages, and no two directory entries share a table. *)
Record paging_wf (s : mmu) : Prop := {
  pw_recursive : pd_present s RECURSIVE_ENTRY = true /\
    table_of s RECURSIVE_ENTRY = GET_FRAME (cr3 s);
  pw_small : forall i, 0 <= i < 1024 -> pd_present s i = true -> pte_pse (pd_entry s i) = 0;
  pw_tables : forall i j, 0 <= i < 1024 -> 0 <= j < 1024 -> pd_present s i = true ->
    pd_present s j = true -> table_of s i = table_of s j -> i = j
}.

Lemma pread_same s a w : pread (pwrite s a w) a = w.
Proof. unfold pread, pwrite. simpl. by rewrite lookup_insert_eq. Qed.

Lemma pread_other s a b w : a <> b -> pread (pwrite s a w) b = pread s b.
Proof. intros. unfold pread, pwrite. simpl. by rewrite lookup_insert_ne. Qed.

Section spaces.
Context (s : mmu) (Hwf : paging_wf s).
Implicit Types (v : Z).

(** The walk, in terms of the entries. *)
Lemma translate_walk v :
  0 <= v < 2 ^ 32 ->
  translate s v =
  if pd_present s (GET_PDE_INDEX v) then
    let pte := pread s (pt_address s v) in
    if truthy (pte_present pte) then Done (pte_frame pte * PAGE_SIZE + GET_OFFSET v) else Fault
  else Fault.
Proof.
  intros Hv. unfold translate, pd_present, pt_address, table_of, pd_entry, pd_address.
  pose proof (pw_small _ Hwf (GET_PDE_INDEX v) (PDE_range v Hv)) as Hp.
  unfold pd_present, pd_entry, pd_address in Hp.
  destruct (truthy (pte_present _)); [|done]. by rewrite Hp.
Qed.

(** Through the recursive entry the tables appear in the last 4 MiB. *)
Lemma translate_pte_address v :
  0 <= v < 2 ^ 32 -> pd_present s (GET_PDE_INDEX v) = true ->
  translate s (pte_address v) = Done (pt_address s v).
Proof.
  intros Hv Hp. destruct (pte_address_indices v Hv) as (E1 & E2 & E3).
  pose proof (PDE_range v Hv). pose proof (PTE_range v Hv).
  rewrite translate_walk by (rewrite pte_address_sum; lia).
  unfold pt_address at 1. rewrite E1, E2, E3. destruct (pw_recursive _ Hwf) as [Hr Ht].
  change RECURSIVE_ENTRY with 1023 in *. rewrite Hr, Ht.
  change (pread s (GET_FRAME (cr3 s) * PAGE_SIZE + 4 * GET_PDE_INDEX v))
    with (pd_entry s (GET_PDE_INDEX v)).
  unfold pd_present in Hp. by rewrite Hp.
Qed.

Lemma translate_pde_address v :
  0 <= v < 2 ^ 32 -> translate s (pde_address v) = Done (pd_address s (GET_PDE_INDEX v)).
Proof.
  intros Hv. destruct (pde_address_indices v Hv) as (E1 & E2 & E3).
  pose proof (PDE_range v Hv).
  rewrite translate_walk by (rewrite pde_address_sum; lia).
  unfold pt_address. rewrite E1, E2, E3. destruct (pw_recursive _ Hwf) as [Hr Ht].
  change RECURSIVE_ENTRY with 1023 in *. rewrite Hr, Ht.
  change (pread s (GET_FRAME (cr3 s) * PAGE_SIZE + 4 * 1023)) with (pd_entry s 1023).
  unfold pd_present in Hr. rewrite Hr. fold (table_of s 1023). by rewrite Ht.
Qed.

(** Writes into tables do not touch the directory. *)
Lemma table_not_directory v i :
  0 <= v < 2 ^ 32 -> GET_PDE_INDEX v <> RECURSIVE_ENTRY -> pd_present s (GET_PDE_INDEX v) = true ->
  0 <= i < 1024 -> pt_address s v <> pd_address s i.
Proof.
  intros Hv Hne Hp Hi E. destruct (pw_recursive _ Hwf) as [Hr Ht].
  pose proof (PTE_range v Hv). unfold pt_address, pd_address, PAGE_SIZE in E.
  apply Hne. apply (pw_tables _ Hwf); [by apply PDE_range|done|done|done|]. rewrite Ht. lia.
Qed.

(** Different pages have different entries. *)
Lemma pt_address_inj v v' :
  0 <= v < 2 ^ 32 -> 0 <= v' < 2 ^ 32 -> pd_present s (GET_PDE_INDEX v) = true ->
  pd_present s (GET_PDE_INDEX v') = true -> pt_address s v = pt_address s v' -> page_of v = page_of v'.
Proof.
  intros Hv Hv' Hp Hp' E. pose proof (PTE_range v Hv). pose proof (PTE_range v' Hv').
  unfold pt_address, PAGE_SIZE in E. apply page_indices; [|lia].
  apply (pw_tables _ Hwf); [by apply PDE_range|by apply PDE_range|done|done|lia].
Qed.

(** Changing one table entry of a page outside the recursive window. *)
Section update_entry.
Context (v w : Z) (Hv : 0 <= v < 2 ^ 32).
Context (Hne : GET_PDE_INDEX v <> RECURSIVE_ENTRY) (Hp : pd_present s (GET_PDE_INDEX v) = true).

Lemma update_pd_entry i :
  0 <= i < 1024 -> pd_entry (pwrite s (pt_address s v) w) i = pd_entry s i.
Proof. intros Hi. apply pread_other. by apply table_not_directory. Qed.

Lemma update_wf : paging_wf (pwrite s (pt_address s v) w).
Proof.
  pose proof update_pd_entry as U. destruct Hwf as [[Hr Ht] Hs Hi].
  split; unfold pd_present, table_of in *.
  - rewrite !U by (unfold RECURSIVE_ENTRY, NUMBER_OF_PAGE_DIRECOTRY_ENTRIES; lia). done.
  - intros i Hb. rewrite U by done. by apply Hs.
  - intros i j Hb Hb'. rewrite !U by done. by apply Hi.
Qed.

Lemma update_pt_address v' :
  0 <= v' < 2 ^ 32 -> pt_address (pwrite s (pt_address s v) w) v' = pt_address s v'.
Proof.
  intros Hv'. unfold pt_address at 1 3, table_of. rewrite update_pd_entry by (by apply PDE_range).
  done.
Qed.

Lemma update_entry_walk v' :
  0 <= v' < 2 ^ 32 ->
  translate (pwrite s (pt_address s v) w) v' =
  if decide (page_of v' = page_of v) then
    if truthy (pte_present w) then Done (pte_frame w * PAGE_SIZE + GET_OFFSET v') else Fault
  else translate s v'.
Proof.
  intros Hv'. rewrite (translate_walk v') by done. pose proof (PDE_range v' Hv').
  unfold translate. fold (pd_address (pwrite s (pt_address s v) w) (GET_PDE_INDEX v')).
  fold (pd_entry (pwrite s (pt_address s v) w) (GET_PDE_INDEX v')).
  rewrite update_pd_entry by done. fold (pd_present s (GET_PDE_INDEX v')).
  destruct (pd_present s (GET_PDE_INDEX v')) eqn:Ep'.
  - rewrite (pw_small _ Hwf) by done. cbn [truthy negb Z.eqb].
    fold (table_of s (GET_PDE_INDEX v')). fold (pt_address s v').
    destruct (decide (page_of v' = page_of v)) as [E|E].
    + assert (Ea : pt_address s v' = pt_address s v).
      { unfold pt_address. by rewrite !PDE_page, !PTE_page, E. }
      by rewrite Ea, pread_same.
    + rewrite pread_other; [done|]. intros Ea. apply E. symmetry. by apply pt_address_inj.
  - destruct (decide (page_of v' = page_of v)) as [E|E]; [|done].
    rewrite PDE_page, E, <- PDE_page in Ep'. congruence.
Qed.

End update_entry.
End spaces.

(** * The operations *)

(** Whether a virtual address is mapped. *)
Definition mapped (s : mmu) (v : Z) : bool :=
  match translate s v with Done _ => true | _ => false end.

Section operations.
Context (s : mmu) (Hwf : paging_wf s).

Lemma vread_pte v :
  0 <= v < 2 ^ 32 -> pd_present s (GET_PDE_INDEX v) = true ->
  vread s (pte_address v) = Done (pread s (pt_address s v)).
Proof. intros. unfold vread. by rewrite translate_pte_address. Qed.

Lemma vread_pde v :
  0 <= v < 2 ^ 32 -> vread s (pde_address v) = Done (pd_entry s (GET_PDE_INDEX v)).
Proof. intros. unfold vread. by rewrite translate_pde_address. Qed.

Lemma map_page_result v p flags :
  0 <= v < 2 ^ 32 -> pd_present s (GET_PDE_INDEX v) = true ->
  Paging_map_page s v p flags = Done (pwrite s (pt_address s v)
    (fill_entry 0 (pread s (pt_address s v)) (GET_FRAME p) flags)).
Proof.
  intros Hv Hp. unfold Paging_map_page, vwrite. rewrite vread_pte by done. simpl.
  by rewrite translate_pte_address.
Qed.

Lemma unmap_page_result v :
  0 <= v < 2 ^ 32 -> pd_present s (GET_PDE_INDEX v) = true ->
  Paging_unmap_page s v = Done (pwrite s (pt_address s v)
    (set_field (pread s (pt_address s v)) 0 1 0)).
Proof.
  intros Hv Hp. unfold Paging_unmap_page, vwrite. rewrite vread_pte by done. simpl.
  by rewrite translate_pte_address.
Qed.

Lemma get_physical_page_result v :
  0 <= v < 2 ^ 32 -> pd_present s (GET_PDE_INDEX v) = true ->
  Paging_get_physical_page s v = Done (pte_frame (pread s (pt_address s v))).
Proof. intros. unfold Paging_get_physical_page. by rewrite vread_pte. Qed.

Lemma check_page_table_exists_result v :
  0 <= v < 2 ^ 32 ->
  Paging_check_page_table_exists s v = Done (pd_present s (GET_PDE_INDEX v)).
Proof. intros. unfold Paging_check_page_table_exists. by rewrite vread_pde. Qed.

Lemma check_page_present_result v :
  0 <= v < 2 ^ 32 -> Paging_check_page_present s v = Done (mapped s v).
Proof.
  intros Hv. unfold Paging_check_page_present, mapped.
  rewrite check_page_table_exists_result, translate_walk by done. simpl.
  destruct (pd_present s (GET_PDE_INDEX v)) eqn:Ep; [|done]. simpl.
  unfold Paging_check_page_exits_in_table. rewrite vread_pte by done. simpl.
  by destruct (truthy _).
Qed.

(** Mapping a page that already has a table. *)
Lemma map_page_spec v p flags :
  0 <= v < 2 ^ 32 -> GET_PDE_INDEX v <> RECURSIVE_ENTRY ->
  pd_present s (GET_PDE_INDEX v) = true -> Z.testbit flags 0 = true ->
  exists s', Paging_map_page s v p flags = Done s' /\ paging_wf s' /\ cr3 s' = cr3 s /\
    (forall i, 0 <= i < 1024 -> pd_entry s' i = pd_entry s i) /\
    forall v', 0 <= v' < 2 ^ 32 ->
      translate s' v' = if decide (page_of v' = page_of v)
                        then Done (u16 (GET_FRAME p) * PAGE_SIZE + GET_OFFSET v')
                        else translate s v'.
Proof.
  intros Hv Hne Hp Hf. eexists. split; [by apply map_page_result|].
  split; [by apply update_wf|]. split; [done|].
  split; [intros; by apply update_pd_entry|]. intros v' Hv'.
  rewrite update_entry_walk by done. rewrite fill_present, fill_frame.
  assert (E : truthy (Z.land flags PAGE_FLAGS_PRESENT) = true).
  { unfold truthy. change PAGE_FLAGS_PRESENT with (Z.ones 1). rewrite Z.land_ones by lia.
    change (2 ^ 1) with 2. rewrite <- Z.bit0_mod, Hf. done. }
  unfold BOOL. by rewrite E.
Qed.

Lemma unmap_page_spec v :
  0 <= v < 2 ^ 32 -> GET_PDE_INDEX v <> RECURSIVE_ENTRY ->
  pd_present s (GET_PDE_INDEX v) = true ->
  exists s', Paging_unmap_page s v = Done s' /\ paging_wf s' /\ cr3 s' = cr3 s /\
    (forall i, 0 <= i < 1024 -> pd_entry s' i = pd_entry s i) /\
    (forall v', 0 <= v' < 2 ^ 32 ->
      translate s' v' = if decide (page_of v' = page_of v) then Fault else translate s v') /\
    Paging_get_physical_page s' v = Paging_get_physical_page s v.
Proof.
  intros Hv Hne Hp. pose proof (PDE_range v Hv). eexists. split; [by apply unmap_page_result|].
  assert (Hwf' := update_wf s Hwf v (set_field (pread s (pt_address s v)) 0 1 0) Hv Hne Hp).
  split; [done|]. split; [done|]. split; [intros; by apply update_pd_entry|]. split.
  - intros v' Hv'. rewrite update_entry_walk by done.
    unfold pte_present. by rewrite get_set_same by lia.
  - rewrite get_physical_page_result by done. unfold Paging_get_physical_page, vread.
    rewrite translate_pte_address;
      [|done|done|unfold pd_present; by rewrite update_pd_entry by done].
    simpl. rewrite update_pt_address, pread_same by done.
    unfold pte_frame. by rewrite get_set_other by lia.
Qed.

End operations.

Create Rewrite HintDb paging.
#[export] Hint Rewrite GET_PDE_INDEX_div GET_PTE_INDEX_div GET_OFFSET_mod GET_FRAME_div : paging.

(** * Properties *)

(** [map_page] through the recursive mapping changes the translation of exactly
    one page. In a well-formed address space, for a page outside the recursive window
    whose table exists, it returns, keeps the address space well formed, maps every
    address of the page to the frame it was given (as a 16-bit number) with the
    offset kept, and leaves the translation of every other page as it was. *)
Theorem paging_map_page_exact (s : mmu) (v p flags : Z) :
  paging_wf s -> 0 <= v < 2 ^ 32 -> GET_PDE_INDEX v <> RECURSIVE_ENTRY ->
  pd_present s (GET_PDE_INDEX v) = true -> Z.testbit flags 0 = true ->
  exists s', Paging_map_page s v p flags = Done s' /\ paging_wf s' /\
    forall v', 0 <= v' < 2 ^ 32 ->
      translate s' v' = if decide (v' / 4096 = v / 4096)
                        then Done (u16 (p / 4096) * 4096 + v' mod 4096)
                        else translate s v'.
Proof.
  intros Hwf Hv Hne Hp Hf. destruct (map_page_spec s Hwf v p flags Hv Hne Hp Hf)
    as (s' & E & Hwf' & _ & _ & Ht).
  exists s'. split; [done|]. split; [done|]. intros v' Hv'. rewrite Ht by done.
  by rewrite GET_FRAME_div, GET_OFFSET_mod.
Qed.

(** An address space with its directory in frame 1 and one table in frame 2. *)
Definition sample_space : mmu :=
  mkMMU (<[4096 := 0x2003]> (<[4096 + 4 * 1023 := 0x1003]> ∅)) 4096.

Lemma sample_pd i : 0 <= i < 1024 ->
  pd_entry sample_space i = if i =? 0 then 0x2003 else if i =? 1023 then 0x1003 else 0.
Proof.
  intros Hi. unfold pd_entry, pd_address, pread, sample_space. simpl.
  change (GET_FRAME 4096 * PAGE_SIZE) with 4096.
  destruct (Z.eqb_spec i 0) as [->|]; [done|]. rewrite lookup_insert_ne by lia.
  destruct (Z.eqb_spec i 1023) as [->|]; [done|]. by rewrite lookup_insert_ne by lia.
Qed.

Lemma sample_space_wf : paging_wf sample_space.
Proof.
  split.
  - unfold pd_present, table_of. by rewrite sample_pd by (vm_compute; split; congruence).
  - intros i Hi. unfold pd_present. rewrite sample_pd by done.
    destruct (i =? 0); [done|]. by destruct (i =? 1023).
  - intros i j Hi Hj. unfold pd_present, table_of. rewrite !sample_pd by done.
    destruct (Z.eqb_spec i 0), (Z.eqb_spec j 0), (Z.eqb_spec i 1023), (Z.eqb_spec j 1023);
      by (intros; subst).
Qed.

Lemma paging_map_page_exact_witness :
  exists s', Paging_map_page sample_space 0x5000 0x9000 3 = Done s' /\ paging_wf s' /\
    forall v', 0 <= v' < 2 ^ 32 ->
      translate s' v' = if decide (v' / 4096 = 0x5000 / 4096)
                        then Done (u16 (0x9000 / 4096) * 4096 + v' mod 4096)
                        else translate sample_space v'.
Proof.
  apply (paging_map_page_exact sample_space 0x5000 0x9000 3);
    [apply sample_space_wf|lia|discriminate|reflexivity|reflexivity].
Defined.

(** [unmap_page] removes the translation of exactly one page and keeps the frame
    number readable: [get_physical_page] gives the same frame after the page was
    unmapped, which [create_page_table] and [create_new_virtual_space] rely on. *)
Theorem paging_unmap_page_exact (s : mmu) (v : Z) :
  paging_wf s -> 0 <= v < 2 ^ 32 -> GET_PDE_INDEX v <> RECURSIVE_ENTRY ->
  pd_present s (GET_PDE_INDEX v) = true ->
  exists s', Paging_unmap_page s v = Done s' /\ paging_wf s' /\
    (forall v', 0 <= v' < 2 ^ 32 ->
      translate s' v' = if decide (v' / 4096 = v / 4096) then Fault else translate s v') /\
    Paging_get_physical_page s' v = Paging_get_physical_page s v.
Proof.
  intros Hwf Hv Hne Hp. destruct (unmap_page_spec s Hwf v Hv Hne Hp)
    as (s' & E & Hwf' & _ & _ & Ht & Hg). eauto 10.
Qed.

Lemma paging_unmap_page_exact_witness :
  exists s', Paging_unmap_page sample_space 0x5000 = Done s' /\ paging_wf s' /\
    (forall v', 0 <= v' < 2 ^ 32 ->
      translate s' v' = if decide (v' / 4096 = 0x5000 / 4096) then Fault
                        else translate sample_space v') /\
    Paging_get_physical_page s' 0x5000 = Paging_get_physical_page sample_space 0x5000.
Proof.
  apply (paging_unmap_page_exact sample_space 0x5000);
    [apply sample_space_wf|lia|discriminate|reflexivity].
Defined.

(** C37: the [fill_*] functions take the 20-bit frame number as a [u16]: mapping any
    physical page at or above 256 MiB maps the virtual page to a different frame, 256
    MiB or a multiple of it below. *)
Theorem paging_high_frames_truncated (s : mmu) (v p flags : Z) :
  paging_wf s -> 0 <= v < 2 ^ 32 -> GET_PDE_INDEX v <> RECURSIVE_ENTRY ->
  pd_present s (GET_PDE_INDEX v) = true -> Z.testbit flags 0 = true ->
  2 ^ 28 <= p < 2 ^ 32 -> p mod 4096 = 0 ->
  exists s', Paging_map_page s v p flags = Done s' /\
    translate s' v = Done (p mod 2 ^ 28 + v mod 4096) /\ p mod 2 ^ 28 < p.
Proof.
  intros Hwf Hv Hne Hp Hf Hr Ha. destruct (map_page_spec s Hwf v p flags Hv Hne Hp Hf)
    as (s' & E & _ & _ & _ & Ht).
  exists s'. split; [done|]. rewrite Ht, decide_True by done. split; [|zdiv].
  rewrite GET_FRAME_div, GET_OFFSET_mod. f_equal. unfold u16, PAGE_SIZE. zdiv.
Qed.

Lemma paging_high_frames_truncated_witness :
  exists s', Paging_map_page sample_space 0x5000 0x10000000 3 = Done s' /\
    translate s' 0x5000 = Done (0x10000000 mod 2 ^ 28 + 0x5000 mod 4096) /\
    0x10000000 mod 2 ^ 28 < 0x10000000.
Proof.
  apply (paging_high_frames_truncated sample_space 0x5000 0x10000000 3);
    [apply sample_space_wf|lia|discriminate|reflexivity|reflexivity|lia|reflexivity].
Defined.
