(* ===== verification/Memory.v ===== *)
(** [VirtualMemory] (virtual_memory/virtual.cpp) and [Memory] (virtual_memory/memory.cpp):
    allocation of virtual pages backed by frames. The state is the page tables (file
    Paging) and the frame tracer (file Physical). The locks of [Memory] are held with
    interrupts disabled for the length of one call: each call is one atomic step. *)

From S2P Require Import Prelude BitArray Scan Physical Paging.

Record memory := mkMemory {
  tables : mmu;
  frames : PhysicalMemory
}.

Definition PAGE_USER : Z := 1.
Definition PAGE_READWRITE : Z := 2.
Definition PAGE_CONTAGIOUS : Z := 8.
Definition AVAILABLE_PAGES_START : Z := GET_FRAME 0x100000.

(** [sizeof(PAGE_TABLE)], [sizeof(PAGE_DIRECTORY)] *)
Definition sizeof_PAGE_TABLE : Z := 4 * NUMBER_OF_PAGE_TABLE_ENTRIES.
Definition sizeof_PAGE_DIRECTORY : Z := 4 * NUMBER_OF_PAGE_DIRECOTRY_ENTRIES.

Definition Memory_parse_flags (mem_flags : Z) : Z :=
  let page_flags := PAGE_FLAGS_PRESENT in
  let page_flags :=
    if truthy (Z.land mem_flags PAGE_READWRITE) then Z.lor page_flags PAGE_FLAGS_WRITABLE
    else page_flags in
  if truthy (Z.land mem_flags PAGE_USER) then Z.lor page_flags PAGE_FLAGS_USER else page_flags.

(** One turn of the search; the state is [vAdd], [first_free_page] and
    [remaining_pages]. *)
Definition vfind_step (s : mmu) (end_address pages_num : Z) (st : Z * (Z * Z))
    : exec (Z * (Z * Z) + Z) :=
  let '(vAdd, (first_free_page, remaining_pages)) := st in
  if vAdd <? end_address then
    present ← Paging_check_page_present s vAdd;
    if negb present then
      let first_free_page := if remaining_pages =? pages_num then vAdd else first_free_page in
      let remaining_pages := u32 (remaining_pages - 1) in
      if negb (truthy remaining_pages) then Done (inr first_free_page)
      else Done (inl (u32 (vAdd + PAGE_SIZE), (first_free_page, remaining_pages)))
    else Done (inl (u32 (vAdd + PAGE_SIZE), (first_free_page, pages_num)))
  else Panic.

(** One turn per page of the range. *)
Definition VirtualMemory_find_pages (s : mmu) (start_address end_address pages_num : Z) : exec Z :=
  while (S (S (Z.to_nat ((end_address - start_address) / PAGE_SIZE))))
    (vfind_step s end_address pages_num) (start_address, (0, pages_num)).

Definition VirtualMemory_check_free_pages (s : mmu) (start_address pages_num : Z) : exec bool :=
  while (S (Z.to_nat pages_num))
    (fun i =>
       if i <? pages_num then
         present ← Paging_check_page_present s (u32 (start_address + i * PAGE_SIZE));
         if (present : bool) then Done (inr false) else Done (inl (i + 1))
       else Done (inr true)) 0.

(** [map_pages] creates missing page tables with [create_page_table], which itself
    allocates a page and so calls [map_pages]: the functions are written over the
    one they call and the knot is tied below. *)
Section with_create.
Context (create_page_table : memory -> exec (Z * memory)).

Definition VirtualMemory_map_pages_with (m : memory)
    (virtual_address physical_address pages flags : Z) : exec memory :=
  for_ (Z.to_nat pages) 0
    (fun i m =>
       exists_ ← Paging_check_page_table_exists (tables m) virtual_address;
       m ← if Bool.eqb exists_ false then
             '(pt, m) ← create_page_table m;
             s ← Paging_map_page_table (tables m) virtual_address pt;
             Done (mkMemory s (frames m))
           else Done m;
       s ← Paging_map_page (tables m) (u32 (virtual_address + PAGE_SIZE * i))
             (u32 (physical_address + PAGE_SIZE * i)) flags;
       Done (mkMemory s (frames m))) m.

(** Where the pages of an allocation or of a mapping go. *)
Definition find_virtual (m : memory) (flags pages_num : Z) : exec Z :=
  if truthy (Z.land flags PAGE_USER) then
    VirtualMemory_find_pages (tables m) FIRST_PAGE_ADDRESS KERNEL_VIRTUAL_ADDRESS pages_num
  else VirtualMemory_find_pages (tables m) KERNEL_VIRTUAL_ADDRESS LAST_PAGE_ADDRESS pages_num.

(** The loop that backs each page with a frame of its own. *)
Definition back_pages (m : memory) (vAdd pages_num flags : Z) : exec memory :=
  for_ (Z.to_nat pages_num) 0
    (fun i m =>
       '(pAdd, f) ← PhysicalMemory_alloc_page (frames m) AVAILABLE_PAGES_START;
       VirtualMemory_map_pages_with (mkMemory (tables m) f) (u32 (vAdd + PAGE_SIZE * i)) pAdd 1
         (Memory_parse_flags flags)) m.

(** The result 0 is [nullptr]. *)
Definition Memory_alloc_no_lock_with (m : memory) (virtual_address size flags : Z)
    : exec (Z * memory) :=
  let pages_num := GET_PAGES size in
  vAdd ← if truthy virtual_address then
           free ← VirtualMemory_check_free_pages (tables m) virtual_address pages_num;
           Done (if (free : bool) then Some virtual_address else None)
         else v ← find_virtual m flags pages_num; Done (Some v);
  match vAdd with
  | None => Done (0, m)
  | Some vAdd =>
      m ← if truthy (Z.land flags PAGE_CONTAGIOUS) then
            '(pAdd, f) ← PhysicalMemory_alloc_contagious_pages (frames m) AVAILABLE_PAGES_START pages_num;
            VirtualMemory_map_pages_with (mkMemory (tables m) f) vAdd pAdd pages_num
              (Memory_parse_flags flags)
          else back_pages m vAdd pages_num flags;
      Done (vAdd, m)
  end.

End with_create.

(** Kernel addresses always have a table, so the allocation of a page table needs
    no further table: a depth of 2 is never exhausted in a booted kernel. *)
Fixpoint VirtualMemory_create_page_table (depth : nat) (m : memory) : exec (Z * memory) :=
  match depth with
  | O => OutOfFuel
  | S depth =>
      '(pt_addr, m) ← Memory_alloc_no_lock_with (VirtualMemory_create_page_table depth) m
                        0 sizeof_PAGE_TABLE PAGE_READWRITE;
      s ← Paging_unmap_pages (tables m) pt_addr (GET_PAGES sizeof_PAGE_TABLE);
      Done (pt_addr, mkMemory s (frames m))
  end.

Definition VirtualMemory_map_pages := VirtualMemory_map_pages_with (VirtualMemory_create_page_table 2).

Definition Memory_alloc_no_lock := Memory_alloc_no_lock_with (VirtualMemory_create_page_table 2).

Definition Memory_alloc (m : memory) (virtual_address size flags : Z) : exec (Z * memory) :=
  Memory_alloc_no_lock m virtual_address size flags.

(** [flags] is unused. *)
Definition Memory_free_no_lock (m : memory) (virtual_address size flags : Z) : exec memory :=
  let pages_num := GET_PAGES size in
  pAdd ← Paging_get_physical_page (tables m) virtual_address;
  f ← PhysicalMemory_free_pages (frames m) pAdd pages_num;
  s ← Paging_unmap_pages (tables m) virtual_address pages_num;
  Done (mkMemory s f).

Definition Memory_free (m : memory) (virtual_address size flags : Z) : exec memory :=
  Memory_free_no_lock m virtual_address size flags.

Definition Memory_map_no_lock (m : memory) (physical_address size flags : Z) : exec (Z * memory) :=
  let padding := physical_address mod PAGE_SIZE in
  let aligned_physical_address := physical_address - padding in
  let pAdd := GET_FRAME aligned_physical_address in
  let pages_num := GET_PAGES size in
  let pages_num := if truthy padding then u32 (pages_num + 1) else pages_num in
  if negb (truthy size) then Done (0, m)
  else
    free ← PhysicalMemory_check_free_pages (frames m) pAdd pages_num;
    if negb free then Done (0, m)
    else
      vAdd ← find_virtual m flags pages_num;
      f ← PhysicalMemory_set_used_pages (frames m) pAdd pages_num;
      m ← VirtualMemory_map_pages (mkMemory (tables m) f) vAdd aligned_physical_address
            (GET_PAGES size) (Memory_parse_flags flags);
      Done (u32 (vAdd + padding), m).

Definition Memory_unmap_no_lock (m : memory) (virtual_address size flags : Z) : exec memory :=
  Memory_free_no_lock m virtual_address size flags.

Definition Memory_map (m : memory) (physical_address size flags : Z) : exec (Z * memory) :=
  Memory_map_no_lock m physical_address size flags.

Definition Memory_unmap (m : memory) (virtual_address size flags : Z) : exec memory :=
  Memory_unmap_no_lock m virtual_address size flags.

(** [ASSERT_NOT_REACHABLE] *)
Definition Memory_virtual_memory_size (m : memory) : exec Z := Panic.

(** The functions outside the class. *)
Definition valloc (m : memory) (virtual_address size flags : Z) : exec (Z * memory) := Memory_alloc m virtual_address size flags.
Definition vfree (m : memory) (virtual_address size flags : Z) : exec memory := Memory_free m virtual_address size flags.

Definition Memory_switch_page_directory (m : memory) (physical_address : Z) : memory :=
  mkMemory (Paging_load_page_directory (tables m) physical_address) (frames m).

Definition Memory_physical_memory_size (m : memory) : Z := physical_memory_size (frames m).

Definition virtual_to_physical_address (m : memory) (virtual_address : Z) : exec Z :=
  page ← Paging_get_physical_page (tables m) virtual_address;
  Done (u32 (u32 (page * PAGE_SIZE) + virtual_address mod PAGE_SIZE)).

(** ** Boot; the symbols of the linker script are parameters *)

Section boot.
Context (KERNEL_START KERNEL_END page_direcotry kernel_page_tables boostrap_page_table : Z).

Definition Memory_get_kernel_pages : Z := GET_PAGES (u32 (KERNEL_END - KERNEL_START - 1)).

Definition Memory_setup (s : mmu) : exec memory :=
  s ← Paging_setup page_direcotry kernel_page_tables boostrap_page_table s Memory_get_kernel_pages;
  f ← PhysicalMemory_set_used_pages PhysicalMemory_setup (GET_FRAME KERNEL_PHYSICAL_ADDRESS)
        Memory_get_kernel_pages;
  Done (mkMemory s f).

Definition Memory_create_new_virtual_space (m : memory) : exec (Z * memory) :=
  '(pd, m) ← Memory_alloc m 0 sizeof_PAGE_DIRECTORY PAGE_READWRITE;
  s ← Paging_map_kernel_pd_entries page_direcotry (tables m) pd;
  s ← Paging_unmap_pages s pd (GET_PAGES sizeof_PAGE_DIRECTORY);
  page ← Paging_get_physical_page s pd;
  Done (u32 (page * PAGE_SIZE), mkMemory s (frames m)).

End boot.

(** * Searching virtual pages *)

(** Virtual page [q] is mapped. *)
Definition page_taken (s : mmu) (q : Z) : bool := mapped s (q * PAGE_SIZE).

Section vfind.
Context (s : mmu) (Hwf : paging_wf s).
Context (first last count : Z) (Hrange : 0 <= first <= last) (Hlast : last < 2 ^ 20).
Context (Hcount : 0 < count < 2 ^ 32).

Lemma vfind_step_spec p f r :
  first <= p -> scan_inv (page_taken s) first count p (f, r) ->
  match vfind_step s (last * PAGE_SIZE) count (p * PAGE_SIZE, (f * PAGE_SIZE, r)) with
  | Done (inl st') => exists f' r', st' = ((p + 1) * PAGE_SIZE, (f' * PAGE_SIZE, r')) /\ p < last /\
      scan_inv (page_taken s) first count (p + 1) (f', r')
  | Done (inr a) => exists g, a = g * PAGE_SIZE /\ scan_result (page_taken s) last first count g
  | Panic => last <= p
  | _ => False
  end.
Proof.
  intros Hp Hs. unfold vfind_step. change PAGE_SIZE with 4096.
  destruct (Z.ltb_spec (p * 4096) (last * 4096)); [|lia].
  rewrite check_page_present_result by (done || lia). rewrite bind_Done.
  pose proof (scan_range _ _ _ _ _ Hs) as [_ Hr]. simpl in Hr.
  change (mapped s (p * 4096)) with (page_taken s p).
  rewrite (u32_small (p * 4096 + 4096)) by lia.
  replace (p * 4096 + 4096) with ((p + 1) * 4096) by lia.
  destruct (page_taken s p) eqn:Et; cbn [negb].
  - exists f, count. split; [done|]. split; [lia|]. by apply (scan_used (page_taken s) first count ltac:(lia) p (f, r)).
  - rewrite u32_small by lia. unfold truthy. destruct (Z.eqb_spec (r - 1) 0); cbn [negb].
    + exists (if r =? count then p else f). split; [by destruct (r =? count)|].
      apply (scan_done (page_taken s) last first count ltac:(lia) p (f, r)); simpl; [done|done|lia|lia].
    + exists (if r =? count then p else f), (r - 1). split; [by destruct (r =? count)|].
      split; [lia|]. apply (scan_free (page_taken s) first count p (f, r)); simpl; [done|done|lia].
Qed.

(** [find_pages] returns the first run of unmapped pages of the range, or panics
    because there is none. *)
Lemma vfind_spec :
  (exists g, VirtualMemory_find_pages s (first * PAGE_SIZE) (last * PAGE_SIZE) count
             = Done (g * PAGE_SIZE) /\ scan_result (page_taken s) last first count g) \/
  (VirtualMemory_find_pages s (first * PAGE_SIZE) (last * PAGE_SIZE) count = Panic /\
   forall a, first <= a -> a + count <= last -> ~ untaken_run (page_taken s) a count).
Proof.
  unfold VirtualMemory_find_pages.
  assert (Hgen : forall n p f r, first <= p -> (0 < n)%nat -> Z.of_nat n > last - p ->
    scan_inv (page_taken s) first count p (f, r) ->
    (exists g, while n (vfind_step s (last * PAGE_SIZE) count) (p * PAGE_SIZE, (f * PAGE_SIZE, r))
               = Done (g * PAGE_SIZE) /\ scan_result (page_taken s) last first count g) \/
    (while n (vfind_step s (last * PAGE_SIZE) count) (p * PAGE_SIZE, (f * PAGE_SIZE, r)) = Panic /\
     forall a, first <= a -> a + count <= last -> ~ untaken_run (page_taken s) a count)).
  { intros n. induction n as [|n IH]; intros p f r Hp Hn0 Hn Hs; [lia|].
    pose proof (vfind_step_spec p f r Hp Hs) as H.
    cbn [while]. destruct (vfind_step _ _ _ _) as [[st'|a]| | |]; cbn [mbind exec_bind]; try done.
    - destruct H as (f' & r' & -> & Hlt & Hs'). apply IH; [lia|lia|lia|done].
    - destruct H as (g & -> & Hg). left. eauto.
    - right. split; [done|]. intros a Ha Hc. eapply (scan_none _ _ _ _ _ Hs); [done|lia]. }
  replace (first * PAGE_SIZE, (0, count)) with (first * PAGE_SIZE, (0 * PAGE_SIZE, count)) by done.
  apply Hgen; [lia|lia| |apply scan_start; lia].
  change PAGE_SIZE with 4096. zdiv.
Qed.

End vfind.

(** * Allocation in kernel space *)

Definition first_kernel_page : Z := 0xC0100.
Definition last_kernel_page : Z := 0xFFBFF.

(** Every kernel directory entry below the recursive one has its table, as
    [setup_page_tables] leaves them. *)
Definition kernel_tables (s : mmu) : Prop := forall i, 768 <= i < 1023 -> pd_present s i = true.

(** The relation between the memory before and after [n] pages from [p] on have been
    backed with the frames [fs]. *)
Record backed (m m' : memory) (p : Z) (fs : list Z) : Prop := {
  bk_wf : paging_wf (tables m') /\ Phys_wf (frames m') /\ kernel_tables (tables m');
  bk_fresh : forall f, f ∈ fs -> 256 <= f < 2 ^ 16 /\ used (frames m) f = false;
  bk_distinct : NoDup fs;
  bk_mapped : forall (k : nat) f off, fs !! k = Some f -> 0 <= off < PAGE_SIZE ->
    translate (tables m') ((p + Z.of_nat k) * PAGE_SIZE + off) = Done (f * PAGE_SIZE + off);
  bk_used : forall q, 0 <= q -> used (frames m') q = used (frames m) q || bool_decide (q ∈ fs);
  bk_others : forall v, 0 <= v < 2 ^ 32 -> ~ (p <= page_of v < p + alen fs) ->
    translate (tables m') v = translate (tables m) v
}.

Lemma backed_nil m p :
  paging_wf (tables m) -> Phys_wf (frames m) -> kernel_tables (tables m) -> backed m m p [].
Proof.
  intros. split; try done.
  - intros f Hf. by apply not_elem_of_nil in Hf.
  - constructor.
  - intros q Hq. rewrite bool_decide_eq_false_2 by apply not_elem_of_nil. by rewrite orb_false_r.
Qed.

Lemma parse_flags_present flags : Z.testbit (Memory_parse_flags flags) 0 = true.
Proof. unfold Memory_parse_flags. by repeat case_match. Qed.

(** A kernel page lies outside the recursive window and has a table. *)
Lemma kernel_page_index q :
  first_kernel_page <= q < last_kernel_page -> 768 <= GET_PDE_INDEX (q * PAGE_SIZE) < 1023.
Proof.
  unfold first_kernel_page, last_kernel_page. intros Hq. rewrite GET_PDE_INDEX_div.
  change PAGE_SIZE with 4096. zdiv.
Qed.

Lemma page_of_address q off : 0 <= off < PAGE_SIZE -> page_of (q * PAGE_SIZE + off) = q.
Proof. unfold page_of. change PAGE_SIZE with 4096. intros. zdiv. Qed.

Lemma page_of_base q : page_of (q * PAGE_SIZE) = q.
Proof. unfold page_of. change PAGE_SIZE with 4096. zdiv. Qed.

Lemma frame_of_page f : GET_FRAME (f * PAGE_SIZE) = f.
Proof. rewrite GET_FRAME_div. change PAGE_SIZE with (2 ^ 12). by rewrite Z.div_mul by lia. Qed.

(** Mapping one kernel page never needs a new table. *)
Lemma map_one_page create m q f flags :
  paging_wf (tables m) -> kernel_tables (tables m) -> first_kernel_page <= q < last_kernel_page ->
  0 <= f < 2 ^ 20 ->
  exists s', VirtualMemory_map_pages_with create m (q * PAGE_SIZE) (f * PAGE_SIZE) 1
               (Memory_parse_flags flags) = Done (mkMemory s' (frames m)) /\
    paging_wf s' /\ kernel_tables s' /\
    forall v, 0 <= v < 2 ^ 32 ->
      translate s' v = if decide (page_of v = q) then Done (u16 f * PAGE_SIZE + GET_OFFSET v)
                       else translate (tables m) v.
Proof.
  intros Hwf Hk Hq Hf. pose proof (kernel_page_index q Hq) as Hi.
  assert (Hv : 0 <= q * PAGE_SIZE < 2 ^ 32).
  { unfold first_kernel_page, last_kernel_page in Hq. change PAGE_SIZE with 4096. lia. }
  unfold VirtualMemory_map_pages_with. change (Z.to_nat 1) with 1%nat. cbn [for_].
  rewrite check_page_table_exists_result, Hk by done. simpl.
  rewrite !(u32_small (_ + _)) by (change PAGE_SIZE with 4096 in *; lia).
  rewrite !Z.mul_0_r, !Z.add_0_r.
  destruct (map_page_spec (tables m) Hwf (q * PAGE_SIZE) (f * PAGE_SIZE) (Memory_parse_flags flags))
    as (s' & E & Hwf' & _ & Hpd & Ht);
    [done|unfold RECURSIVE_ENTRY, NUMBER_OF_PAGE_DIRECOTRY_ENTRIES; lia|by apply Hk
    |apply parse_flags_present|].
  rewrite E. simpl. exists s'. split; [done|]. split; [done|]. split.
  - intros i Hi'. unfold pd_present. rewrite Hpd by lia. by apply Hk.
  - intros v Hv'. rewrite Ht, frame_of_page by done.
    pose proof (page_of_base q). repeat case_decide; done || congruence.
Qed.

Section back_pages.
Context (create : memory -> exec (Z * memory)).
Context (m : memory) (flags p n a : Z).
Context (Hwf : paging_wf (tables m)) (Hpw : Phys_wf (frames m)) (Hk : kernel_tables (tables m)).
Context (Hp : first_kernel_page <= p) (Hend : p + n <= last_kernel_page) (Hn : 0 < n).
Context (Ha : 256 <= a) (Hae : a + n <= 2 ^ 16) (Hfree : free_run (frames m) a n).

(** A free frame at or below [a + i] is found on turn [i]. *)
Lemma alloc_next m1 fs i :
  0 <= i < n -> backed m m1 p fs -> (forall k f, fs !! k = Some f -> f <= a + Z.of_nat k) ->
  alen fs = i ->
  exists f fr, PhysicalMemory_alloc_page (frames m1) AVAILABLE_PAGES_START = Done (f * PAGE_SIZE, fr) /\
    256 <= f <= a + i /\ used (frames m1) f = false /\ Phys_wf fr /\
    forall q, 0 <= q -> used fr q = used (frames m1) q || (q =? f).
Proof.
  intros Hi Hb Hle Hl. rewrite alloc_page_contagious. change AVAILABLE_PAGES_START with 256.
  assert (Hrun : free_run (frames m1) (a + i) 1).
  { intros q Hq. assert (q = a + i) as -> by lia. rewrite (bk_used _ _ _ _ Hb) by lia.
    rewrite (Hfree (a + i)) by lia. simpl. apply bool_decide_eq_false_2. intros Hin.
    apply list_elem_of_lookup in Hin as [k Hk']. pose proof (Hle k _ Hk').
    apply lookup_lt_Some in Hk'. unfold alen in Hl. lia. }
  destruct (bk_wf _ _ _ _ Hb) as (_ & Hpw1 & _).
  destruct (alloc_contagious_spec (frames m1) Hpw1 256 1)
    as [(f & fr & E & (H1 & H2 & H3 & H4) & H5 & _ & H6)|[_ Hnone]]; [lia|lia| |].
  - change (first_candidate 256) with 256 in *. exists f, fr. split; [done|].
    split; [|split; [apply (H3 f); lia|split; [done|]]].
    + split; [done|]. destruct (decide (a + i < f)); [|lia].
      destruct (H4 (a + i)); [lia|done].
    + intros q Hq. rewrite H6 by done. f_equal. unfold in_run. lia.
  - destruct (Hnone (a + i)); [change (first_candidate 256) with 256; lia
      |unfold MAX_PHYSICAL_4K_PAGES; lia|done].
Qed.

Lemma back_step m1 fs i :
  0 <= i < n -> backed m m1 p fs -> (forall k f, fs !! k = Some f -> f <= a + Z.of_nat k) ->
  alen fs = i ->
  exists m2 f, ('(pAdd, fr) ← PhysicalMemory_alloc_page (frames m1) AVAILABLE_PAGES_START;
     VirtualMemory_map_pages_with create (mkMemory (tables m1) fr) (u32 (p * PAGE_SIZE + PAGE_SIZE * i))
       pAdd 1 (Memory_parse_flags flags)) = Done m2 /\
    backed m m2 p (fs ++ [f]) /\ f <= a + i.
Proof.
  intros Hi Hb Hle Hl. unfold first_kernel_page, last_kernel_page in *.
  destruct (alloc_next m1 fs i Hi Hb Hle Hl) as (f & fr & E & Hf & Hu & Hpw1 & Hused).
  destruct (bk_wf _ _ _ _ Hb) as (Hwf1 & _ & Hk1).
  destruct (map_one_page create (mkMemory (tables m1) fr) (p + i) f flags)
    as (s' & E' & Hwf2 & Hk2 & Ht); [done|done|unfold first_kernel_page, last_kernel_page; lia|lia|].
  rewrite E. simpl. rewrite u32_small by (change PAGE_SIZE with 4096; lia).
  replace (p * PAGE_SIZE + PAGE_SIZE * i) with ((p + i) * PAGE_SIZE) by lia.
  simpl in E'. exists (mkMemory s' fr), f. split; [exact E'|]. split; [|lia].
  assert (Hnew : f ∉ fs).
  { intros Hin. rewrite (bk_used _ _ _ _ Hb), bool_decide_eq_true_2 in Hu by (done || lia).
    by rewrite orb_true_r in Hu. }
  rewrite (bk_used _ _ _ _ Hb), bool_decide_eq_false_2, orb_false_r in Hu by (done || lia).
  split; simpl.
  - done.
  - intros g Hg. apply elem_of_app in Hg as [Hg|Hg]; [by apply (bk_fresh _ _ _ _ Hb)|].
    apply list_elem_of_singleton in Hg as ->. split; [lia|done].
  - apply NoDup_app. split; [apply (bk_distinct _ _ _ _ Hb)|]. split; [|apply NoDup_singleton].
    intros g Hg Hg'. apply list_elem_of_singleton in Hg' as ->. done.
  - intros k g off Hg Hoff. rewrite Ht, page_of_address by
      (apply lookup_lt_Some in Hg; rewrite length_app in Hg; unfold alen in Hl; simpl in Hg;
       change PAGE_SIZE with 4096 in *; lia || done).
    apply lookup_snoc_Some in Hg as [[Hlt Hg]|[-> ->]].
    + rewrite decide_False by (unfold alen in Hl; lia). by apply (bk_mapped _ _ _ _ Hb).
    + fold (alen fs). rewrite Hl, decide_True, u16_small by (done || lia). rewrite GET_OFFSET_mod.
      do 2 f_equal. change PAGE_SIZE with 4096 in *. zdiv.
  - intros q Hq. rewrite Hused, (bk_used _ _ _ _ Hb), <- orb_assoc by done. f_equal.
    destruct (Z.eqb_spec q f) as [->|Hne].
    + rewrite orb_true_r. symmetry. apply bool_decide_eq_true_2, elem_of_app. right. by left.
    + rewrite orb_false_r. apply bool_decide_ext. rewrite elem_of_app, list_elem_of_singleton. tauto.
  - intros v Hv Hout. rewrite alen_snoc in Hout. rewrite Ht, decide_False by (done || lia).
    apply (bk_others _ _ _ _ Hb); [done|lia].
Qed.

Lemma back_pages_spec :
  exists m' fs, back_pages create m (p * PAGE_SIZE) n flags = Done m' /\ alen fs = n /\
    backed m m' p fs.
Proof.
  unfold back_pages.
  match goal with |- context [for_ ?turns ?lo ?body ?st] =>
    destruct (for_inv (fun i m1 => exists fs, alen fs = i /\ backed m m1 p fs /\
      forall k f, fs !! k = Some f -> f <= a + Z.of_nat k) body turns lo st) as (m' & E & fs & Hl & Hb & _)
  end.
  - exists []. split; [done|]. split; [by apply backed_nil|]. done.
  - intros i m1 Hi (fs & Hl & Hb & Hle).
    destruct (back_step m1 fs i) as (m2 & f & E & Hb' & Hf); [lia|done|done|done|].
    exists m2. split; [done|]. exists (fs ++ [f]). rewrite alen_snoc. split; [lia|]. split; [done|].
    intros k g Hg. apply lookup_snoc_Some in Hg as [[_ Hg]|[-> ->]]; [by apply Hle|].
    unfold alen in Hl. lia.
  - exists m', fs. rewrite E. split; [done|]. split; [lia|done].
Qed.

End back_pages.

(** A kernel allocation without a wished address. *)
Lemma kernel_alloc_spec m size flags a g0 :
  paging_wf (tables m) -> Phys_wf (frames m) -> kernel_tables (tables m) ->
  0 < size < 2 ^ 32 -> Z.testbit flags 0 = false -> Z.testbit flags 3 = false ->
  256 <= a -> a + GET_PAGES size <= 2 ^ 16 -> free_run (frames m) a (GET_PAGES size) ->
  first_kernel_page <= g0 -> g0 + GET_PAGES size <= last_kernel_page ->
  untaken_run (page_taken (tables m)) g0 (GET_PAGES size) ->
  exists g m' fs, Memory_alloc m 0 size flags = Done (g * PAGE_SIZE, m') /\
    scan_result (page_taken (tables m)) last_kernel_page first_kernel_page (GET_PAGES size) g /\
    alen fs = GET_PAGES size /\ backed m m' g fs.
Proof.
  intros Hwf Hpw Hk Hs Hu Hc Ha Hae Hfree Hg Hge Hrun.
  assert (Hn : 0 < GET_PAGES size < 2 ^ 32).
  { unfold GET_PAGES. change PAGE_SIZE with 4096. destruct (Z.eqb_spec (size mod 4096) 0); zdiv. }
  assert (Eu : truthy (Z.land flags PAGE_USER) = false).
  { unfold truthy. change PAGE_USER with (Z.ones 1). rewrite Z.land_ones by lia.
    change (2 ^ 1) with 2. by rewrite <- Z.bit0_mod, Hu. }
  assert (Ec : truthy (Z.land flags PAGE_CONTAGIOUS) = false).
  { unfold truthy. replace (Z.land flags PAGE_CONTAGIOUS) with 0; [done|]. symmetry.
    apply Z.bits_inj'. intros k Hk'. rewrite Z.land_spec, Z.bits_0.
    change PAGE_CONTAGIOUS with (2 ^ 3). destruct (decide (k = 3)) as [->|].
    - by rewrite Hc.
    - by rewrite Z.pow2_bits_false, andb_false_r by lia. }
  destruct (vfind_spec (tables m) Hwf first_kernel_page last_kernel_page (GET_PAGES size))
    as [(g & E & Hres)|[_ Hnone]];
    [vm_compute; split; congruence|vm_compute; congruence|done| |by destruct (Hnone g0)].
  destruct Hres as (Hr1 & Hr2 & Hr3 & Hr4).
  destruct (back_pages_spec (VirtualMemory_create_page_table 2) m flags g (GET_PAGES size) a)
    as (m' & fs & Eb & Hl & Hb); [done|done|done|done|lia|lia|done|done|done|].
  exists g, m', fs. split; [|done].
  unfold Memory_alloc, Memory_alloc_no_lock, Memory_alloc_no_lock_with, find_virtual.
  rewrite Eu, Ec. change (truthy 0) with false. cbn iota.
  change KERNEL_VIRTUAL_ADDRESS with (first_kernel_page * PAGE_SIZE).
  change LAST_PAGE_ADDRESS with (last_kernel_page * PAGE_SIZE). rewrite E, !bind_Done. cbn iota beta.
  rewrite Eb. done.
Qed.

(** * What every successful kernel allocation guarantees *)

Definition memory_wf (m : memory) : Prop :=
  paging_wf (tables m) /\ Phys_wf (frames m) /\ kernel_tables (tables m).

Lemma back_pages_live create m g n flags m' :
  memory_wf m -> first_kernel_page <= g -> g + n <= last_kernel_page -> 0 < n ->
  back_pages create m (g * PAGE_SIZE) n flags = Done m' ->
  memory_wf m' /\ mapped (tables m') (g * PAGE_SIZE) = true /\
  forall v, 0 <= v < 2 ^ 32 -> mapped (tables m) v = true -> mapped (tables m') v = true.
Proof.
  intros Hm Hg Hge Hn E. unfold back_pages in E. unfold first_kernel_page, last_kernel_page in *.
  apply (for_inv_done (fun i m1 => memory_wf m1 /\
    (0 < i -> mapped (tables m1) (g * PAGE_SIZE) = true) /\
    forall v, 0 <= v < 2 ^ 32 -> mapped (tables m) v = true -> mapped (tables m1) v = true)) in E.
  - destruct E as (H1 & H2 & H3). split; [done|]. split; [apply H2; lia|done].
  - split; [done|]. split; [lia|done].
  - clear E. intros i m1 m2 Hi ((Hw & Hpw & Hk) & Hfst & Hkeep) E.
    apply bind_Done_inv in E as ([pAdd fr] & Ea & E). rewrite alloc_page_contagious in Ea.
    destruct (alloc_contagious_spec (frames m1) Hpw AVAILABLE_PAGES_START 1)
      as [(f & fr' & Ea' & (Hf1 & Hf2 & _) & Hpw' & _)|[Ea' _]];
      [by vm_compute|lia| |congruence].
    rewrite Ea' in Ea. simplify_eq. change (first_candidate AVAILABLE_PAGES_START) with 256 in Hf1.
    unfold MAX_PHYSICAL_4K_PAGES in Hf2.
    destruct (map_one_page create (mkMemory (tables m1) fr) (g + i) f flags)
      as (s' & E' & Hw' & Hk' & Ht); [done|done|unfold first_kernel_page, last_kernel_page; lia|lia|].
    rewrite u32_small in E by (change PAGE_SIZE with 4096; lia).
    replace (g * PAGE_SIZE + PAGE_SIZE * i) with ((g + i) * PAGE_SIZE) in E by lia.
    simpl in E. rewrite E' in E. injection E as <-. simpl.
    assert (Hmap : forall v, 0 <= v < 2 ^ 32 ->
      mapped s' v = if decide (page_of v = g + i) then true else mapped (tables m1) v).
    { intros v Hv. unfold mapped. rewrite Ht by done. by case_decide. }
    split; [done|]. split.
    + intros _. rewrite Hmap by (change PAGE_SIZE with 4096; lia). rewrite page_of_base.
      case_decide; [done|]. apply Hfst. lia.
    + intros v Hv Hv'. rewrite Hmap by done. case_decide; [done|]. by apply Hkeep.
Qed.

Lemma kernel_alloc_live m n a m' :
  memory_wf m -> 0 < n < 2 ^ 32 -> Memory_alloc m 0 n PAGE_READWRITE = Done (a, m') ->
  memory_wf m' /\ 0 < a < 2 ^ 32 /\ mapped (tables m) a = false /\ mapped (tables m') a = true /\
  forall v, 0 <= v < 2 ^ 32 -> mapped (tables m) v = true -> mapped (tables m') v = true.
Proof.
  intros Hm Hn E.
  assert (Hp : 0 < GET_PAGES n < 2 ^ 32).
  { unfold GET_PAGES. change PAGE_SIZE with 4096. destruct (Z.eqb_spec (n mod 4096) 0); zdiv. }
  unfold Memory_alloc, Memory_alloc_no_lock, Memory_alloc_no_lock_with, find_virtual in E.
  change (truthy (Z.land PAGE_READWRITE PAGE_USER)) with false in E.
  change (truthy (Z.land PAGE_READWRITE PAGE_CONTAGIOUS)) with false in E.
  change (truthy 0) with false in E. cbn iota in E.
  change KERNEL_VIRTUAL_ADDRESS with (first_kernel_page * PAGE_SIZE) in E.
  change LAST_PAGE_ADDRESS with (last_kernel_page * PAGE_SIZE) in E.
  destruct (vfind_spec (tables m) (proj1 Hm) first_kernel_page last_kernel_page (GET_PAGES n))
    as [(g & Ef & Hr1 & Hr2 & Hr3 & _)|[Ef _]];
    [vm_compute; split; congruence|vm_compute; congruence|done| |by rewrite Ef in E].
  rewrite Ef, !bind_Done in E. cbn iota beta in E.
  apply bind_Done_inv in E as (m1 & Eb & E). injection E as <- <-.
  destruct (back_pages_live _ _ _ _ _ _ Hm Hr1 Hr2 (proj1 Hp) Eb) as (H1 & H2 & H3).
  split; [done|]. split; [|split; [apply (Hr3 g); lia|done]].
  unfold first_kernel_page, last_kernel_page in *. change PAGE_SIZE with 4096. lia.
Qed.

(** Following the window to a table that is not there faults. *)
Lemma translate_pte_missing s v :
  paging_wf s -> 0 <= v < 2 ^ 32 -> pd_present s (GET_PDE_INDEX v) = false ->
  translate s (pte_address v) = Fault.
Proof.
  intros Hwf Hv Hp. destruct (pte_address_indices v Hv) as (E1 & E2 & E3).
  pose proof (PDE_range v Hv). pose proof (PTE_range v Hv).
  rewrite translate_walk by (done || rewrite pte_address_sum; lia).
  unfold pt_address. rewrite E1, E2. destruct (pw_recursive _ Hwf) as [Hr Ht].
  change RECURSIVE_ENTRY with 1023 in *. rewrite Hr, Ht.
  change (pread s (GET_FRAME (cr3 s) * PAGE_SIZE + 4 * GET_PDE_INDEX v))
    with (pd_entry s (GET_PDE_INDEX v)).
  unfold pd_present in Hp. by rewrite Hp.
Qed.

(** An address space with its directory in frame 1 and tables for the first user
    and the first kernel entry in frames 2 and 3, and an empty tracer. *)
Definition sample_memory : memory :=
  mkMemory (mkMMU (<[4096 := 0x2003]> (<[4096 + 4 * 768 := 0x3003]>
                    (<[4096 + 4 * 1023 := 0x1003]> ∅))) 4096) PhysicalMemory_setup.

(** ** Behaviour that differs from the intent *)

(** [_map_no_lock] reserves one page more when the address is not aligned, but maps
    [GET_PAGES(size)] pages: the end of the object is not mapped. *)
Lemma memory_map_misses_last_page :
  (r ← Memory_map sample_memory 0x500800 0x1000 PAGE_READWRITE;
   Done (mapped (tables r.2) r.1, mapped (tables r.2) (r.1 + 0xFFF))) = Done (true, false).
Proof. vm_compute. reflexivity. Qed.

(** A fresh page table is linked without being cleared: words left in its frame act
    as page table entries. *)
Lemma memory_new_table_not_cleared :
  let m := mkMemory (pwrite (tables sample_memory) (256 * 4096 + 4) 0x7003) (frames sample_memory) in
  mapped (tables m) 0x401000 = false /\
  (m' ← VirtualMemory_map_pages m 0x400000 0x500000 1 7;
   Done (translate (tables m') 0x401000)) = Done (Done 0x7000).
Proof. vm_compute. split; reflexivity. Qed.

(** * Properties *)

(** C5: a kernel allocation finds room whenever there is room. If [size] bytes need
    [n] pages, a run of [n] unmapped kernel pages exists and so does a run of [n] free
    frames between 1 MiB and 256 MiB, then [Memory::alloc] returns the first run of
    [n] unmapped kernel pages; afterwards every byte of it is mapped to a frame of its
    own that was free before and is used now, no other frame changes, and no other
    address changes its translation. *)
Theorem memory_alloc_backs_pages (m : memory) (size flags a g0 : Z) :
  paging_wf (tables m) -> Phys_wf (frames m) -> kernel_tables (tables m) ->
  0 < size < 2 ^ 32 -> Z.testbit flags 0 = false -> Z.testbit flags 3 = false ->
  256 <= a -> a + GET_PAGES size <= 2 ^ 16 -> free_run (frames m) a (GET_PAGES size) ->
  first_kernel_page <= g0 -> g0 + GET_PAGES size <= last_kernel_page ->
  untaken_run (page_taken (tables m)) g0 (GET_PAGES size) ->
  exists g m' fs, Memory_alloc m 0 size flags = Done (g * PAGE_SIZE, m') /\
    scan_result (page_taken (tables m)) last_kernel_page first_kernel_page (GET_PAGES size) g /\
    alen fs = GET_PAGES size /\ backed m m' g fs.
Proof. apply kernel_alloc_spec. Qed.

(** All 255 kernel tables, in frames 1024 and up. *)
Definition kernel_space : mmu :=
  mkMMU (foldr (fun i mp => <[4096 + 4 * i := (1024 + i) * 4096 + 3]> mp)
           (<[4096 + 4 * 1023 := 0x1003]> ∅) (seqZ 768 255)) 4096.

Definition kernel_space_entry (i : Z) : Z :=
  if (768 <=? i) && (i <? 1023) then (1024 + i) * 4096 + 3 else if i =? 1023 then 0x1003 else 0.

Lemma kernel_space_pd i : 0 <= i < 1024 -> pd_entry kernel_space i = kernel_space_entry i.
Proof.
  intros Hi.
  assert (E : forallb (fun k => pd_entry kernel_space k =? kernel_space_entry k) (seqZ 0 1024) = true)
    by (vm_compute; reflexivity).
  rewrite forallb_forall in E. apply Z.eqb_eq, E, list_elem_of_In, elem_of_seqZ. lia.
Qed.

Lemma kernel_entry_fields i : 768 <= i < 1023 ->
  pte_present ((1024 + i) * 4096 + 3) = 1 /\ pte_pse ((1024 + i) * 4096 + 3) = 0 /\
  pte_frame ((1024 + i) * 4096 + 3) = 1024 + i.
Proof.
  intros Hi. unfold pte_present, pte_pse, pte_frame, get_field.
  rewrite !Z.land_ones, !Z.shiftr_div_pow2 by lia. repeat split; zdiv.
Qed.

Lemma kernel_space_wf : paging_wf kernel_space /\ kernel_tables kernel_space.
Proof.
  assert (Hcase : forall i, 0 <= i < 1024 -> pd_present kernel_space i = true ->
    pte_pse (pd_entry kernel_space i) = 0 /\
    ((768 <= i < 1023 /\ table_of kernel_space i = 1024 + i) \/
     (i = 1023 /\ table_of kernel_space i = 1))).
  { intros i Hi. unfold pd_present, table_of. rewrite kernel_space_pd by done.
    unfold kernel_space_entry. destruct ((768 <=? i) && (i <? 1023)) eqn:E1.
    - to_prop. destruct (kernel_entry_fields i) as (-> & -> & ->); [lia|]. intros _. lia.
    - destruct (Z.eqb_spec i 1023) as [->|]; [|done]. intros _. split; [done|]. by right. }
  split; [split|].
  - split; reflexivity.
  - intros i Hi Hp. by destruct (Hcase i Hi Hp).
  - intros i j Hi Hj Hpi Hpj Et. destruct (Hcase i Hi Hpi) as [_ Hc], (Hcase j Hj Hpj) as [_ Hc'].
    lia.
  - intros i Hi. unfold pd_present. rewrite kernel_space_pd by lia. unfold kernel_space_entry.
    replace ((768 <=? i) && (i <? 1023)) with true by lia.
    by destruct (kernel_entry_fields i) as (-> & _); [lia|].
Qed.

Lemma memory_alloc_backs_pages_witness :
  exists g m' fs, Memory_alloc (mkMemory kernel_space PhysicalMemory_setup) 0 0x2000 PAGE_READWRITE
                  = Done (g * PAGE_SIZE, m') /\
    scan_result (page_taken kernel_space) last_kernel_page first_kernel_page 2 g /\
    alen fs = 2 /\ backed (mkMemory kernel_space PhysicalMemory_setup) m' g fs.
Proof.
  apply (memory_alloc_backs_pages (mkMemory kernel_space PhysicalMemory_setup) 0x2000 PAGE_READWRITE
           256 first_kernel_page).
  - apply kernel_space_wf.
  - apply setup_wf.
  - apply kernel_space_wf.
  - lia.
  - reflexivity.
  - reflexivity.
  - lia.
  - vm_compute. congruence.
  - intros q Hq. apply bit_on_zeros.
  - lia.
  - vm_compute. congruence.
  - change (GET_PAGES 0x2000) with 2. intros q Hq. cbn [tables].
    assert (q = first_kernel_page \/ q = first_kernel_page + 1) as [->| ->] by lia;
      vm_compute; reflexivity.
Defined.

(** [Memory::free] gives back as many consecutive frames as the object has pages,
    although [Memory::alloc] takes its frames one by one: with frame 257 in use by
    someone else, allocating two pages and freeing them marks frame 257 free. *)
Theorem memory_free_frees_foreign_frame :
  exists m : memory, used (frames m) 257 = true /\
    (r ← Memory_alloc m 0 0x2000 PAGE_READWRITE;
     m' ← Memory_free r.2 r.1 0x2000 PAGE_READWRITE;
     Done (used (frames r.2) 257, used (frames m') 257)) = Done (true, false).
Proof.
  exists (mkMemory (tables sample_memory)
            (mkPhys (<[32%nat := 2]> (physical_memory_tracer PhysicalMemory_setup)) 4096)).
  vm_compute. split; reflexivity.
Qed.

(** [VirtualMemory::map_pages] looks for the page table of the first address only:
    mapping two pages of which the second belongs to a directory entry without a table
    faults, wherever the first one is the last page of an existing table. *)
Theorem memory_map_pages_across_tables (m : memory) (v p flags : Z) :
  paging_wf (tables m) -> 0 <= v -> v + 4096 < 2 ^ 32 -> Z.testbit flags 0 = true ->
  GET_PDE_INDEX v <> RECURSIVE_ENTRY -> pd_present (tables m) (GET_PDE_INDEX v) = true ->
  GET_PTE_INDEX v = 1023 -> pd_present (tables m) (GET_PDE_INDEX v + 1) = false ->
  VirtualMemory_map_pages m v p 2 flags = Fault.
Proof.
  intros Hwf Hv Hv' Hf Hne Hp Hlast Hmiss.
  unfold VirtualMemory_map_pages, VirtualMemory_map_pages_with. change (Z.to_nat 2) with 2%nat.
  cbn [for_]. rewrite check_page_table_exists_result, Hp by (done || lia). rewrite !bind_Done.
  cbn [Bool.eqb]. rewrite bind_Done, Z.mul_0_r, Z.add_0_r, (u32_small v) by lia.
  destruct (map_page_spec (tables m) Hwf v (u32 (p + 0)) flags) as (s' & E & Hwf' & _ & Hpd & _);
    [lia|done|done|done|]. rewrite E, !bind_Done. cbn [tables].
  pose proof (PDE_range v) as Hr.
  rewrite check_page_table_exists_result by (done || lia). unfold pd_present at 1.
  rewrite Hpd by lia. fold (pd_present (tables m) (GET_PDE_INDEX v)). rewrite Hp, !bind_Done.
  cbn [Bool.eqb]. rewrite bind_Done. cbn [tables].
  rewrite (u32_small (v + _)) by (change PAGE_SIZE with 4096; lia).
  replace (v + PAGE_SIZE * (0 + 1)) with (v + 4096) by (change PAGE_SIZE with 4096; lia).
  assert (Ei : GET_PDE_INDEX (v + 4096) = GET_PDE_INDEX v + 1).
  { rewrite GET_PTE_INDEX_div in Hlast. rewrite !GET_PDE_INDEX_div. zdiv. }
  unfold Paging_map_page, vread. rewrite translate_pte_missing; [done|done|lia|].
  rewrite Ei. unfold pd_present. rewrite Hpd; [done|].
  unfold RECURSIVE_ENTRY, NUMBER_OF_PAGE_DIRECOTRY_ENTRIES in Hne. lia.
Qed.

Lemma memory_map_pages_across_tables_witness :
  VirtualMemory_map_pages (mkMemory sample_space PhysicalMemory_setup) 0x3FF000 0x500000 2 3 = Fault.
Proof.
  apply (memory_map_pages_across_tables (mkMemory sample_space PhysicalMemory_setup) 0x3FF000 0x500000 3);
    [apply sample_space_wf|lia|lia|reflexivity|discriminate|reflexivity|reflexivity|reflexivity].
Defined.
