(* ===== verification/Slab.v ===== *)
(** The slab allocator ([Slab], [BigSlabAllocator] of slab_allocator.h) and the heap on
    top of it ([Heap] of heap.cpp, and its copy malloc.cpp for user programs).

    A slab is a page that holds a header with a bitmap and an array of equal blocks;
    every block starts with the address of its slab and the block size, which is how
    [kfree] finds the slab again. Pages come from the interface [PageSource]. The
    kernel and the user copies differ in the lock at the start of a slab
    ([lock_size]) and in the page source. *)

From S2P Require Import Prelude BitArray Bitmap Physical Paging Memory.

Definition MAGIC : Z := 0x8CBEEFC8.

(** Where slabs get their memory: [request_memory_from_os] and [free_memory_to_os]. *)
Class PageSource (M : Type) := {
  ps_alloc : M -> Z -> exec (Z * M);
  ps_free : M -> Z -> Z -> exec M;
  (** what the byte at an address holds *)
  ps_byte : M -> Z -> Z;
  ps_wf : M -> Prop;
  (** the address is in use *)
  ps_live : M -> Z -> bool;
  ps_byte_range : forall m a, 0 <= ps_byte m a < 2 ^ 8;
  ps_alloc_law : forall m n a m', ps_wf m -> 0 < n < 2 ^ 32 -> ps_alloc m n = Done (a, m') ->
    ps_wf m' /\ 0 < a < 2 ^ 32 /\ ps_live m a = false /\ ps_live m' a = true /\
    forall b, 0 <= b < 2 ^ 32 -> ps_live m b = true -> ps_live m' b = true
}.

(** ** Layout *)

Section layout.
Context (lock_size slab_size : Z).

(** [sizeof(SlabHeader<max_blocks>)]: six words and the bitmap, aligned to words. *)
Definition sizeof_SlabHeader (max_blocks : Z) : Z := 4 * ((24 + (max_blocks / 8 + 1) + 3) / 4).

(** [sizeof(MemoryBlock<slab_size>)] and the offset of [data] in it. *)
Definition sizeof_MemoryBlock : Z := 8 + slab_size.
Definition offsetof_data : Z := 8.

Definition MAX_HEADER_SIZE : Z := sizeof_SlabHeader (PAGE_SIZE / slab_size).
Definition MAX_BLOCKS : Z := (PAGE_SIZE - MAX_HEADER_SIZE) / sizeof_MemoryBlock.

(** Offsets of [header.mem_map] and of [blocks] in a slab, and its size. *)
Definition offsetof_mem_map : Z := lock_size + 24.
Definition offsetof_blocks : Z := lock_size + sizeof_SlabHeader MAX_BLOCKS.
Definition sizeof_Slab : Z := offsetof_blocks + MAX_BLOCKS * sizeof_MemoryBlock.

(** The static assertions of the class. *)
Definition Slab_static_asserts : bool :=
  (MAX_HEADER_SIZE <? PAGE_SIZE) && (sizeof_MemoryBlock + MAX_HEADER_SIZE <=? PAGE_SIZE).

(** [&blocks[i]] of the slab at [slab]. *)
Definition block_address (slab i : Z) : Z := slab + offsetof_blocks + i * sizeof_MemoryBlock.

End layout.

(** ** State *)

Record SlabHeader := mkSlab {
  sl_magic : Z;
  sl_size : Z;
  sl_free_blocks : Z;
  sl_next_fit_block : Z;
  sl_prev : Z;
  sl_next : Z;
  sl_mem_map : list Z
}.

(** The slabs by address, the two words at the start of each block by its address,
    the magic words of the big slabs, and the source of pages. *)
Record heap (M : Type) := mkHeapState {
  hp_slabs : gmap Z SlabHeader;
  hp_blocks : gmap Z (Z * Z);
  hp_bigs : gmap Z Z;
  hp_os : M
}.

Arguments mkHeapState {M}.
Arguments hp_slabs {M}.
Arguments hp_blocks {M}.
Arguments hp_bigs {M}.
Arguments hp_os {M}.

Section Slab.
Context {M : Type} `{PageSource M} (lock_size : Z).
Implicit Types (h : heap M).

Definition get_slab h (this : Z) : exec SlabHeader :=
  match hp_slabs h !! this with Some s => Done s | None => Fault end.

Definition put_slab h (this : Z) (s : SlabHeader) : heap M :=
  mkHeapState (<[this := s]> (hp_slabs h)) (hp_blocks h) (hp_bigs h) (hp_os h).

Definition put_block h (block slab_ptr slab_size : Z) : heap M :=
  mkHeapState (hp_slabs h) (<[block := (slab_ptr, slab_size)]> (hp_blocks h)) (hp_bigs h) (hp_os h).

Section size.
Context (slab_size : Z).

(** The bytes that lie where the bitmap of a slab at [this] will be. *)
Definition stale_mem_map (os : M) (this : Z) : list Z :=
  (fun i => ps_byte os (this + offsetof_mem_map lock_size + i)) <$> seqZ 0 (MAX_BLOCKS slab_size / 8 + 1).

(** [init] sets the header fields; the bitmap keeps the contents [mem_map] it has. *)
Definition Slab_init (mem_map : list Z) (prev : Z) : SlabHeader :=
  mkSlab MAGIC slab_size (MAX_BLOCKS slab_size) 0 prev 0 mem_map.

(** The constructor of the static slabs: the bitmap is constructed (zeroed) first. *)
Definition Slab_new : SlabHeader := Slab_init (StaticBitmap_new (MAX_BLOCKS slab_size)) 0.

Definition Slab_alloc_in_current_slab h (this block_index : Z) : exec (Z * heap M) :=
  s ← get_slab h this;
  mem_map ← StaticBitmap_set (MAX_BLOCKS slab_size) (sl_mem_map s) block_index;
  let s := mkSlab (sl_magic s) (sl_size s) (u32 (sl_free_blocks s - 1))
             (u32 (block_index + 1) mod MAX_BLOCKS slab_size) (sl_prev s) (sl_next s) mem_map in
  let block := block_address lock_size slab_size this block_index in
  Done (u32 (block + offsetof_data), put_block (put_slab h this s) block this slab_size).

(** [alloc] and [alloc_in_new_slab] follow or extend the chain of slabs; [depth]
    bounds its length. *)
Fixpoint Slab_alloc (depth : nat) h (this : Z) : exec (Z * heap M) :=
  match depth with
  | O => OutOfFuel
  | S depth =>
      s ← get_slab h this;
      _ ← ASSERT (sl_magic s =? MAGIC);
      _ ← ASSERT (sl_size s =? slab_size);
      block_index ←
        if truthy (sl_free_blocks s) then
          StaticBitmap_find_first_clear (MAX_BLOCKS slab_size) (sl_mem_map s) (sl_next_fit_block s)
        else Done BITMAP_NO_BITS_LEFT;
      if negb (block_index =? BITMAP_NO_BITS_LEFT) then Slab_alloc_in_current_slab h this block_index
      else if truthy (sl_next s) then Slab_alloc depth h (sl_next s)
      else
        '(new_slab, os) ← ps_alloc (hp_os h) (sizeof_Slab lock_size slab_size);
        let h := mkHeapState (hp_slabs h) (hp_blocks h) (hp_bigs h) os in
        if negb (truthy new_slab) then Done (0, h)
        else
          let h := put_slab h new_slab (Slab_init (stale_mem_map os new_slab) this) in
          let h := put_slab h this
                     (mkSlab (sl_magic s) (sl_size s) (sl_free_blocks s) (sl_next_fit_block s)
                        (sl_prev s) new_slab (sl_mem_map s)) in
          Slab_alloc depth h new_slab
  end.

Definition Slab_is_address_in_slab (this address : Z) : bool :=
  (block_address lock_size slab_size this 0 <=? address) &&
  (address <=? block_address lock_size slab_size this (MAX_BLOCKS slab_size - 1)
               + offsetof_data + slab_size - 1).

Definition Slab_free_from_current_slab h (this block_index : Z) : exec (heap M) :=
  s ← get_slab h this;
  mem_map ← StaticBitmap_clear (MAX_BLOCKS slab_size) (sl_mem_map s) block_index;
  let s := mkSlab (sl_magic s) (sl_size s) (u32 (sl_free_blocks s + 1)) block_index
             (sl_prev s) (sl_next s) mem_map in
  let h := put_slab h this s in
  if (sl_free_blocks s =? 0) && truthy (sl_prev s) then
    p ← get_slab h (sl_prev s);
    let h := put_slab h (sl_prev s)
               (mkSlab (sl_magic p) (sl_size p) (sl_free_blocks p) (sl_next_fit_block p)
                  (sl_prev p) 0 (sl_mem_map p)) in
    os ← ps_free (hp_os h) this (sizeof_Slab lock_size slab_size);
    Done (mkHeapState (delete this (hp_slabs h)) (hp_blocks h) (hp_bigs h) os)
  else Done h.

Definition Slab_free h (this address : Z) : exec (heap M) :=
  s ← get_slab h this;
  _ ← ASSERT (sl_magic s =? MAGIC);
  _ ← ASSERT (sl_size s =? slab_size);
  _ ← ASSERT (Slab_is_address_in_slab this address);
  let block_index :=
    u32 (address - block_address lock_size slab_size this 0) / sizeof_MemoryBlock slab_size in
  set ← StaticBitmap_check_set (sl_mem_map s) block_index;
  _ ← ASSERT set;
  Slab_free_from_current_slab h this block_index.

End size.

(** ** Big allocations: one object per request *)

(** [sizeof(BigSlab)]: the magic word, the two words of the block and one byte,
    padded. *)
Definition sizeof_BigSlab : Z := 16.

Definition BigSlabAllocator_alloc h (size : Z) : exec (Z * heap M) :=
  '(mem_block, os) ← ps_alloc (hp_os h) (u32 (size + sizeof_BigSlab));
  if negb (truthy mem_block) then Fault
  else
    let h := mkHeapState (hp_slabs h) (<[mem_block + 4 := (mem_block, u32 (size + sizeof_BigSlab))]> (hp_blocks h))
               (<[mem_block := MAGIC]> (hp_bigs h)) os in
    Done (u32 (mem_block + 4 + offsetof_data), h).

Definition BigSlabAllocator_free h (slab : Z) : exec (heap M) :=
  match hp_bigs h !! slab, hp_blocks h !! (slab + 4) with
  | Some magic, Some (_, slab_size) =>
      _ ← ASSERT (magic =? MAGIC);
      os ← ps_free (hp_os h) slab slab_size;
      Done (mkHeapState (hp_slabs h) (hp_blocks h) (delete slab (hp_bigs h)) os)
  | _, _ => Fault
  end.

(** ** The heap: five static slabs at addresses the linker chooses *)

Section Heap.
Context (slab_0x10 slab_0x20 slab_0x40 slab_0x80 slab_0x100 : Z).

(** Longest chain of slabs of one size that is followed. *)
Context (depth : nat).

Definition Heap_init_slab (slab_size this : Z) h : heap M :=
  put_slab h this
    (Slab_init slab_size
       (match hp_slabs h !! this with
        | Some s => sl_mem_map s
        | None => StaticBitmap_new (MAX_BLOCKS slab_size)
        end) 0).

Definition Heap_setup h : heap M :=
  Heap_init_slab 0x100 slab_0x100 (Heap_init_slab 0x80 slab_0x80 (Heap_init_slab 0x40 slab_0x40
    (Heap_init_slab 0x20 slab_0x20 (Heap_init_slab 0x10 slab_0x10 h)))).

(** The size class of a request and the first slab of that class. *)
Definition Heap_kmalloc h (size : Z) : exec (Z * heap M) :=
  if negb (truthy size) then Done (0, h)
  else if size <=? 0x10 then Slab_alloc 0x10 depth h slab_0x10
  else if size <=? 0x20 then Slab_alloc 0x20 depth h slab_0x20
  else if size <=? 0x40 then Slab_alloc 0x40 depth h slab_0x40
  else if size <=? 0x80 then Slab_alloc 0x80 depth h slab_0x80
  else if size <=? 0x100 then Slab_alloc 0x100 depth h slab_0x100
  else BigSlabAllocator_alloc h size.

Definition Heap_kfree h (address : Z) : exec (heap M) :=
  if negb (truthy address) then Done h
  else
    let block := address - offsetof_data in
    _ ← ASSERT (truthy block);
    match hp_blocks h !! block with
    | None => Fault
    | Some (slab_ptr, slab_size) =>
        _ ← ASSERT (truthy slab_ptr);
        if slab_size =? 0x10 then Slab_free 0x10 h slab_ptr address
        else if slab_size =? 0x20 then Slab_free 0x20 h slab_ptr address
        else if slab_size =? 0x40 then Slab_free 0x40 h slab_ptr address
        else if slab_size =? 0x80 then Slab_free 0x80 h slab_ptr address
        else if slab_size =? 0x100 then Slab_free 0x100 h slab_ptr address
        else BigSlabAllocator_free h slab_ptr
    end.

(** [operator new] and [operator delete]. *)
Definition operator_new h (size : Z) : exec (Z * heap M) := Heap_kmalloc h size.
Definition operator_delete h (p : Z) : exec (heap M) := Heap_kfree h p.

End Heap.

(** * Invariant *)

Definition size_class (sz : Z) : Prop := sz ∈ [0x10; 0x20; 0x40; 0x80; 0x100].

(** Facts about the five classes, by evaluation. *)
Lemma size_class_facts sz :
  size_class sz ->
  0 < sz <= 0x100 /\ 0 < MAX_BLOCKS sz < 200 /\ 0 < sizeof_SlabHeader (MAX_BLOCKS sz) /\
  sizeof_SlabHeader (MAX_BLOCKS sz) + MAX_BLOCKS sz * sizeof_MemoryBlock sz <= PAGE_SIZE - 8 /\
  Slab_static_asserts sz = true.
Proof.
  unfold size_class. intros Hs.
  repeat (apply elem_of_cons in Hs as [->|Hs]; [by vm_compute; repeat split; congruence|]).
  by apply not_elem_of_nil in Hs.
Qed.

Record slab_wf (s : SlabHeader) : Prop := {
  sw_magic : sl_magic s = MAGIC;
  sw_class : size_class (sl_size s);
  sw_map : storage_ok (MAX_BLOCKS (sl_size s)) (sl_mem_map s);
  sw_free : 0 <= sl_free_blocks s < 2 ^ 32;
  sw_next_fit : 0 <= sl_next_fit_block s < 2 ^ 32
}.

Record heap_inv h : Prop := {
  hi_os : ps_wf (hp_os h);
  hi_slabs : forall a s, hp_slabs h !! a = Some s -> slab_wf s /\ ps_live (hp_os h) a = true /\
    0 <= a < 2 ^ 32
}.

(** Block [i] of the slab at [slab] is marked as handed out. *)
Definition taken h (slab i : Z) : bool :=
  match hp_slabs h !! slab with Some s => bit_on (sl_mem_map s) i | None => false end.

Lemma map_set_spec n data i :
  storage_ok n data -> 0 <= i < n ->
  exists data', StaticBitmap_set n data i = Done data' /\ storage_ok n data' /\
    forall j, 0 <= j -> bit_on data' j = bit_on data j || (j =? i).
Proof.
  intros Hok Hi. destruct (Bitmap_set_spec (mkBitmap n data) Hok i) as (b & E & Hwf & Hn & Hb);
    [simpl; lia|].
  unfold Bitmap_set, Bitmap_set_range in E. unfold StaticBitmap_set, StaticBitmap_set_range.
  simpl in E. rewrite (proj2 (Z.ltb_ge n i)) in E |- * by lia. inv_done.
  exists x. unfold Bitmap_wf, Bitmap_mem in *. simpl in *. done.
Qed.

Lemma map_clear_spec n data i :
  storage_ok n data -> 0 <= i < n ->
  exists data', StaticBitmap_clear n data i = Done data' /\ storage_ok n data' /\
    forall j, 0 <= j -> bit_on data' j = bit_on data j && negb (j =? i).
Proof.
  intros Hok Hi. destruct (Bitmap_clear_spec (mkBitmap n data) Hok i) as (b & E & Hwf & Hn & Hb);
    [simpl; lia|].
  unfold Bitmap_clear, Bitmap_clear_range in E. unfold StaticBitmap_clear, StaticBitmap_clear_range.
  simpl in E. rewrite (proj2 (Z.ltb_ge n i)) in E |- * by lia. inv_done.
  exists x. unfold Bitmap_wf, Bitmap_mem in *. simpl in *. done.
Qed.

(** A search in the bitmap of a slab. *)
Lemma map_find_spec n data start :
  storage_ok n data -> 0 <= start < 2 ^ 32 ->
  exists r, StaticBitmap_find_first_clear n data start = Done r /\
    (r = BITMAP_NO_BITS_LEFT \/ (start <= r < n /\ bit_on data r = false)).
Proof.
  intros Hok Hs.
  destruct (find_range_one 0xFF false skip_full n data Hok start Hs) as (r & E & Hr).
  exists r. split; [exact E|]. destruct Hr as [[-> _]|(? & ? & _)]; auto.
Qed.

(** A slab fits in a page. *)
Lemma sizeof_Slab_range sz :
  size_class sz -> 0 <= lock_size <= 8 -> 0 < sizeof_Slab lock_size sz <= PAGE_SIZE.
Proof.
  intros Hsz Hl. destruct (size_class_facts sz Hsz) as (Hz & Hmx & Hhd & Hsum & _).
  unfold sizeof_Slab, offsetof_blocks. unfold sizeof_MemoryBlock in *. nia.
Qed.

(** ** One slab *)

Section in_slab.
Context (sz : Z) (Hsz : size_class sz).
Context h (this : Z) (s : SlabHeader).
Context (Hs : hp_slabs h !! this = Some s) (Hwf : slab_wf s) (Hsize : sl_size s = sz).

(** The slab after handing out block [i]. *)
Lemma alloc_in_current_spec i :
  0 <= i < MAX_BLOCKS sz ->
  exists s', Slab_alloc_in_current_slab sz h this i
    = Done (u32 (block_address lock_size sz this i + offsetof_data),
            put_block (put_slab h this s') (block_address lock_size sz this i) this sz) /\
    slab_wf s' /\ sl_size s' = sz /\ sl_prev s' = sl_prev s /\ sl_next s' = sl_next s /\
    sl_free_blocks s' = u32 (sl_free_blocks s - 1) /\
    forall j, 0 <= j -> bit_on (sl_mem_map s') j = bit_on (sl_mem_map s) j || (j =? i).
Proof.
  intros Hi. destruct Hwf as [Hm Hc Hmap Hf Hn]. rewrite Hsize in *.
  destruct (map_set_spec _ _ i Hmap Hi) as (d & E & Hd & Hb).
  unfold Slab_alloc_in_current_slab, get_slab. rewrite Hs. simpl. rewrite E. simpl.
  eexists. split; [done|]. simpl. split; [|done]. destruct (size_class_facts sz Hsz) as (_ & Hmx & _).
  split; simpl; rewrite ?Hsize; try done; [apply u32_range|].
  pose proof (Z.mod_pos_bound (u32 (i + 1)) (MAX_BLOCKS sz)). lia.
Qed.

Lemma free_from_current_spec i :
  0 <= i < MAX_BLOCKS sz -> sl_free_blocks s + 1 < 2 ^ 32 ->
  exists s', Slab_free_from_current_slab sz h this i = Done (put_slab h this s') /\
    slab_wf s' /\ sl_size s' = sz /\ sl_prev s' = sl_prev s /\ sl_next s' = sl_next s /\
    sl_free_blocks s' = sl_free_blocks s + 1 /\
    forall j, 0 <= j -> bit_on (sl_mem_map s') j = bit_on (sl_mem_map s) j && negb (j =? i).
Proof.
  intros Hi Hfb. destruct Hwf as [Hm Hc Hmap Hf Hn]. rewrite Hsize in *.
  destruct (map_clear_spec _ _ i Hmap Hi) as (d & E & Hd & Hb).
  unfold Slab_free_from_current_slab, get_slab. rewrite Hs. simpl. rewrite E. simpl.
  rewrite u32_small by lia. rewrite (proj2 (Z.eqb_neq _ 0)) by lia. simpl.
  eexists. split; [done|]. simpl. split; [|done].
  destruct (size_class_facts sz Hsz) as (_ & Hmx & _).
  split; simpl; rewrite ?Hsize; try done; lia.
Qed.

(** The address of block [i] leads back to block [i]. *)
Lemma address_index i :
  0 <= i < MAX_BLOCKS sz -> 0 <= lock_size <= 8 -> 0 <= this -> this + PAGE_SIZE <= 2 ^ 32 ->
  let address := u32 (block_address lock_size sz this i + offsetof_data) in
  address = block_address lock_size sz this i + offsetof_data /\
  Slab_is_address_in_slab sz this address = true /\
  u32 (address - block_address lock_size sz this 0) / sizeof_MemoryBlock sz = i.
Proof.
  intros Hi Hl Ht Hfit. destruct (size_class_facts sz Hsz) as (Hz & Hmx & Hh & Hsum & _).
  unfold block_address, offsetof_data, offsetof_blocks, sizeof_MemoryBlock in *.
  set (hd := sizeof_SlabHeader (MAX_BLOCKS sz)) in *. set (n := MAX_BLOCKS sz) in *.
  assert (Hib : 0 <= i * (8 + sz) /\ i * (8 + sz) + (8 + sz) <= n * (8 + sz)) by nia.
  rewrite u32_small by (unfold PAGE_SIZE in *; lia). split; [done|]. split.
  - unfold Slab_is_address_in_slab, block_address, offsetof_blocks, offsetof_data, sizeof_MemoryBlock.
    fold n. fold hd. apply andb_true_iff. split; apply Z.leb_le; nia.
  - rewrite u32_small by (unfold PAGE_SIZE in *; lia).
    replace (this + (lock_size + hd) + i * (8 + sz) + 8 - (this + (lock_size + hd) + 0 * (8 + sz)))
      with (i * (8 + sz) + 8) by lia.
    rewrite Z.div_add_l by lia. rewrite Z.div_small by lia. lia.
Qed.

End in_slab.

(** ** Chains of slabs *)

Lemma put_slab_inv h this s :
  heap_inv h -> slab_wf s -> ps_live (hp_os h) this = true -> 0 <= this < 2 ^ 32 ->
  heap_inv (put_slab h this s).
Proof.
  intros [Ho Hs] Hw Hl Hr. split; [done|]. simpl. intros a s' E.
  apply lookup_insert_Some in E as [[<- <-]|[_ E]]; [done|by apply Hs].
Qed.

Lemma stale_storage sz os a : size_class sz -> storage_ok (MAX_BLOCKS sz) (stale_mem_map sz os a).
Proof.
  intros Hsz. destruct (size_class_facts sz Hsz) as (_ & Hmx & _). split; [lia|].
  unfold stale_mem_map. split.
  - rewrite alen_fmap. unfold alen. rewrite length_seqZ. zdiv.
  - apply Forall_fmap, Forall_true. intros. apply ps_byte_range.
Qed.

Lemma init_wf sz os a p : size_class sz -> slab_wf (Slab_init sz (stale_mem_map sz os a) p).
Proof.
  intros Hsz. destruct (size_class_facts sz Hsz) as (_ & Hmx & _).
  split; simpl; [done|done|by apply stale_storage|lia|lia].
Qed.

(** What every allocation guarantees: the block it returns was not marked, is marked
    now, and carries the address of its slab; no mark is lost. *)
Definition alloc_safe (sz : Z) h (r : Z * heap M) : Prop :=
  heap_inv r.2 /\
  (forall t j, 0 <= j -> taken h t j = true -> taken r.2 t j = true) /\
  exists slab i, r.1 = u32 (block_address lock_size sz slab i + offsetof_data) /\
    0 <= i < MAX_BLOCKS sz /\ taken h slab i = false /\ taken r.2 slab i = true /\
    hp_blocks r.2 !! block_address lock_size sz slab i = Some (slab, sz).

Lemma taken_put_slab h this s t j :
  taken (put_slab h this s) t j = if decide (t = this) then bit_on (sl_mem_map s) j else taken h t j.
Proof.
  unfold taken, put_slab. simpl. destruct (decide (t = this)) as [->|].
  - by rewrite lookup_insert_eq.
  - by rewrite lookup_insert_ne.
Qed.

Lemma alloc_current_safe sz h this s i :
  size_class sz -> heap_inv h -> hp_slabs h !! this = Some s -> sl_size s = sz ->
  0 <= i < MAX_BLOCKS sz -> bit_on (sl_mem_map s) i = false ->
  exists r, Slab_alloc_in_current_slab sz h this i = Done r /\ alloc_safe sz h r.
Proof.
  intros Hsz Hh Hs Hz Hi Hb. destruct (hi_slabs _ Hh _ _ Hs) as (Hw & Hl & Hr).
  destruct (alloc_in_current_spec sz Hsz h this s Hs Hw Hz i Hi)
    as (s' & E & Hw' & _ & _ & _ & _ & Hbits).
  eexists; split; [exact E|]. split; [|split]; simpl.
  - pose proof (put_slab_inv h this s' Hh Hw' Hl Hr) as [H1 H2]. by split.
  - intros t j Hj Ht. change (taken (put_slab h this s') t j = true).
    rewrite taken_put_slab. case_decide as E'; [|done]. subst t.
    unfold taken in Ht. rewrite Hs in Ht. rewrite Hbits, Ht by done. done.
  - exists this, i. split; [done|]. split; [done|].
    split; [unfold taken; by rewrite Hs|]. split; [|by rewrite lookup_insert_eq].
    change (taken (put_slab h this s') this i = true).
    rewrite taken_put_slab, decide_True, Hbits, Z.eqb_refl, orb_true_r by (done || lia). done.
Qed.

(** Linking a fresh slab behind [this] keeps every mark. *)
Lemma grow_safe sz h this s a os :
  size_class sz -> heap_inv h -> hp_slabs h !! this = Some s -> ps_wf os -> 0 < a < 2 ^ 32 ->
  ps_live (hp_os h) a = false -> ps_live os a = true ->
  (forall b, 0 <= b < 2 ^ 32 -> ps_live (hp_os h) b = true -> ps_live os b = true) ->
  let h' := put_slab (put_slab (mkHeapState (hp_slabs h) (hp_blocks h) (hp_bigs h) os) a
                        (Slab_init sz (stale_mem_map sz os a) this)) this
              (mkSlab (sl_magic s) (sl_size s) (sl_free_blocks s) (sl_next_fit_block s)
                 (sl_prev s) a (sl_mem_map s)) in
  heap_inv h' /\ forall t j, 0 <= j -> taken h t j = true -> taken h' t j = true.
Proof.
  intros Hsz Hh Hs Hos Ha Hfresh Hlive Hkeep h'. destruct (hi_slabs _ Hh _ _ Hs) as (Hw & Hl & Hr).
  split.
  - apply put_slab_inv; [apply put_slab_inv| | |].
    + split; [done|]. simpl. intros b s' E. destruct (hi_slabs _ Hh _ _ E) as (? & ? & ?). auto.
    + by apply init_wf.
    + done.
    + lia.
    + destruct Hw. by split.
    + by apply Hkeep.
    + done.
  - intros t j Hj Ht. unfold h'. rewrite !taken_put_slab. destruct (decide (t = this)) as [->|].
    + simpl. unfold taken in Ht. by rewrite Hs in Ht.
    + destruct (decide (t = a)) as [->|]; [|done]. exfalso. unfold taken in Ht.
      destruct (hp_slabs h !! a) as [s'|] eqn:E; [|done].
      destruct (hi_slabs _ Hh _ _ E) as (_ & Hla & _). congruence.
Qed.

Lemma Slab_alloc_safe sz depth h this r :
  size_class sz -> 0 <= lock_size <= 8 -> heap_inv h -> Slab_alloc sz depth h this = Done r ->
  alloc_safe sz h r.
Proof.
  intros Hsz Hlk. revert h this. induction depth as [|depth IH]; intros h this Hh; [done|].
  cbn [Slab_alloc]. unfold get_slab at 1. destruct (hp_slabs h !! this) as [s|] eqn:Es; [|done].
  rewrite bind_Done. intros E. destruct (hi_slabs _ Hh _ _ Es) as (Hw & Hl & Hr).
  apply bind_Done_inv in E as (_ & _ & E). apply bind_Done_inv in E as (u & Ez & E).
  apply bind_Done_inv in E as (idx & Hidx & E).
  assert (Hsize : sl_size s = sz).
  { destruct (Z.eqb_spec (sl_size s) sz); done. }
  assert (Hfound : idx = BITMAP_NO_BITS_LEFT \/
                   (0 <= idx < MAX_BLOCKS sz /\ bit_on (sl_mem_map s) idx = false)).
  { pose proof (sw_map _ Hw) as Hm. rewrite Hsize in Hm. pose proof (sw_next_fit _ Hw).
    destruct (truthy (sl_free_blocks s)); [|simplify_eq; by left].
    destruct (map_find_spec _ _ _ Hm (sw_next_fit _ Hw)) as (r' & E' & Hr'). rewrite E' in Hidx.
    simplify_eq. destruct Hr' as [->|[? ?]]; [by left|right]. split; [lia|done]. }
  destruct (Z.eqb_spec idx BITMAP_NO_BITS_LEFT) as [->|Hne]; simpl in E.
  2: { destruct Hfound as [|[Hi Hb]]; [done|].
       destruct (alloc_current_safe sz h this s idx) as (r' & E' & Hsafe); try done.
       congruence. }
  destruct (truthy (sl_next s)); [by apply (IH h (sl_next s))|].
  apply bind_Done_inv in E as ([a os] & Eos & E).
  assert (Hn : 0 < sizeof_Slab lock_size sz < 2 ^ 32).
  { pose proof (sizeof_Slab_range sz Hsz Hlk). unfold PAGE_SIZE in *. lia. }
  destruct (ps_alloc_law _ _ _ _ (hi_os _ Hh) Hn Eos)
    as (Hwf' & Ha & Hfresh & Hlive & Hkeep).
  assert (Hat : truthy a = true) by (unfold truthy; rewrite (proj2 (Z.eqb_neq a 0)); [done|lia]).
  cbn beta iota in E. rewrite Hat in E. cbn [negb] in E.
  destruct (grow_safe sz h this s a os) as [Hh' Htk]; try done.
  destruct (IH _ _ Hh' E) as (H1 & H2 & slab & i & H3 & H4 & H5 & H6).
  split; [done|]. split; [intros t j Hj Ht; apply H2; [done|by apply Htk]|].
  exists slab, i. split; [done|]. split; [done|]. split; [|done].
  destruct (taken h slab i) eqn:Et; [|done]. rewrite Htk in H5; [done|lia|done].
Qed.

(** ** The heap *)

Section heap_calls.
Context (slab_0x10 slab_0x20 slab_0x40 slab_0x80 slab_0x100 : Z) (depth : nat).
Abbreviation kmalloc := (Heap_kmalloc slab_0x10 slab_0x20 slab_0x40 slab_0x80 slab_0x100 depth).

(** Block size of the class that serves a request, and its first slab. *)
Definition class_of (size : Z) : Z :=
  if size <=? 0x10 then 0x10 else if size <=? 0x20 then 0x20 else if size <=? 0x40 then 0x40
  else if size <=? 0x80 then 0x80 else 0x100.

Definition first_slab (size : Z) : Z :=
  if size <=? 0x10 then slab_0x10 else if size <=? 0x20 then slab_0x20
  else if size <=? 0x40 then slab_0x40 else if size <=? 0x80 then slab_0x80 else slab_0x100.

Lemma class_of_class size : size_class (class_of size).
Proof. unfold class_of, size_class. repeat case_match; by repeat constructor. Qed.

Lemma class_of_fits size : size <= 0x100 -> size <= class_of size.
Proof. intros. unfold class_of. repeat case_test; lia. Qed.

Lemma kmalloc_class h size :
  0 < size <= 0x100 -> kmalloc h size = Slab_alloc (class_of size) depth h (first_slab size).
Proof.
  intros Hs. unfold Heap_kmalloc, class_of, first_slab, truthy.
  rewrite (proj2 (Z.eqb_neq size 0)) by lia. simpl.
  repeat (case_match; [done|]). to_prop. lia.
Qed.

Lemma kfree_class h address slab sz :
  size_class sz -> 8 < address -> slab <> 0 ->
  hp_blocks h !! (address - offsetof_data) = Some (slab, sz) ->
  Heap_kfree h address = Slab_free sz h slab address.
Proof.
  intros Hsz Ha Hs Hb. unfold Heap_kfree, truthy. rewrite (proj2 (Z.eqb_neq address 0)) by lia.
  rewrite (proj2 (Z.eqb_neq (address - offsetof_data) 0)) by (unfold offsetof_data; lia). simpl.
  rewrite Hb, (proj2 (Z.eqb_neq slab 0)) by done. simpl.
  unfold size_class in Hsz.
  repeat (apply elem_of_cons in Hsz as [->|Hsz]; [reflexivity|]). by apply not_elem_of_nil in Hsz.
Qed.

(** A request that the first slab of its class can serve. *)
Lemma alloc_first_fit sz h this s i :
  size_class sz -> hp_slabs h !! this = Some s -> slab_wf s -> sl_size s = sz -> (0 < depth)%nat ->
  sl_free_blocks s <> 0 ->
  StaticBitmap_find_first_clear (MAX_BLOCKS sz) (sl_mem_map s) (sl_next_fit_block s) = Done i ->
  i <> BITMAP_NO_BITS_LEFT ->
  Slab_alloc sz depth h this = Slab_alloc_in_current_slab sz h this i.
Proof.
  intros Hsz Hs Hw Hz Hd Hf Hi Hne. destruct depth as [|d]; [lia|]. cbn [Slab_alloc].
  unfold get_slab at 1. rewrite Hs, bind_Done, (sw_magic _ Hw), Hz, !Z.eqb_refl. simpl.
  unfold truthy. rewrite (proj2 (Z.eqb_neq (sl_free_blocks s) 0)) by done. simpl. rewrite Hi. simpl.
  by rewrite (proj2 (Z.eqb_neq i BITMAP_NO_BITS_LEFT)) by done.
Qed.

Lemma kmalloc_kfree_first h size s i :
  0 < size <= 0x100 -> 0 <= lock_size <= 8 -> (0 < depth)%nat ->
  0 < first_slab size -> first_slab size + PAGE_SIZE <= 2 ^ 32 ->
  hp_slabs h !! first_slab size = Some s -> slab_wf s -> sl_size s = class_of size ->
  sl_free_blocks s <> 0 ->
  StaticBitmap_find_first_clear (MAX_BLOCKS (class_of size)) (sl_mem_map s) (sl_next_fit_block s) = Done i ->
  i <> BITMAP_NO_BITS_LEFT ->
  exists address h1 h2 s2, kmalloc h size = Done (address, h1) /\ Heap_kfree h1 address = Done h2 /\
    hp_slabs h2 = <[first_slab size := s2]> (hp_slabs h) /\ slab_wf s2 /\
    sl_free_blocks s2 = sl_free_blocks s /\
    forall j, 0 <= j -> bit_on (sl_mem_map s2) j = bit_on (sl_mem_map s) j.
Proof.
  intros Hs Hl Hd Hpos Hfit Hlk Hw Hz Hf Hi Hne. rewrite kmalloc_class by done.
  pose proof (class_of_class size) as Hc. set (sz := class_of size) in *.
  set (this := first_slab size) in *. destruct (size_class_facts sz Hc) as (Hszr & Hmx & Hhd & Hsum & _).
  pose proof (sw_map _ Hw) as Hmap. rewrite Hz in Hmap. pose proof (sw_free _ Hw).
  destruct (map_find_spec _ _ _ Hmap (sw_next_fit _ Hw)) as (r & Er & Hr).
  assert (r = i) as -> by congruence. destruct Hr as [|[Hri Hclear]]; [done|].
  pose proof (sw_next_fit _ Hw) as Hnf. assert (Hib : 0 <= i < MAX_BLOCKS sz) by lia.
  rewrite (alloc_first_fit sz h this s i) by done.
  destruct (alloc_in_current_spec sz Hc h this s Hlk Hw Hz i Hib)
    as (s1 & E1 & Hw1 & Hz1 & Hp1 & Hn1 & Hf1 & Hb1).
  destruct (address_index sz Hc this i Hib Hl) as (Ea & Hin & Hidx); [lia|lia|].
  set (address := u32 (block_address lock_size sz this i + offsetof_data)) in *.
  set (h1 := put_block (put_slab h this s1) (block_address lock_size sz this i) this sz) in *.
  assert (Hs1 : hp_slabs h1 !! this = Some s1) by apply lookup_insert_eq.
  destruct (free_from_current_spec sz Hc h1 this s1 Hs1 Hw1 Hz1 i Hib)
    as (s2 & E2 & Hw2 & Hz2 & Hp2 & Hn2 & Hf2 & Hb2); [rewrite Hf1, u32_small; lia|].
  exists address, h1, (put_slab h1 this s2), s2. split; [done|]. split; [|split; [|split; [done|split]]].
  - rewrite (kfree_class h1 address this sz);
      [|done|rewrite Ea; unfold block_address, offsetof_blocks, sizeof_MemoryBlock, offsetof_data; nia
       |lia|rewrite Ea; unfold h1; simpl; replace (block_address lock_size sz this i + offsetof_data
         - offsetof_data) with (block_address lock_size sz this i) by lia; apply lookup_insert_eq].
    unfold Slab_free, get_slab. rewrite Hs1. simpl. rewrite (sw_magic _ Hw1), Hz1, !Z.eqb_refl. simpl.
    rewrite Hin. simpl. rewrite Hidx. unfold StaticBitmap_check_set.
    pose proof (sw_map _ Hw1) as Hmap1. rewrite Hz1 in Hmap1.
    destruct (read_bit (sl_mem_map s1) i) as (b & Eb & _ & Hbit);
      [split; [lia|]; eapply storage_capacity; [exact Hmap1|lia]|].
    rewrite Eb. simpl. rewrite Hbit, Hb1, Z.eqb_refl, orb_true_r by lia. simpl. done.
  - unfold h1. simpl. by rewrite insert_insert_eq.
  - rewrite Hf2, Hf1, u32_small; lia.
  - intros j Hj. rewrite Hb2, Hb1 by done. destruct (Z.eqb_spec j i) as [->|].
    + rewrite Hclear. done.
    + by rewrite orb_false_r, andb_true_r.
Qed.

End heap_calls.

End Slab.

(** * The kernel's pages as a page source *)

(** Byte of memory at a virtual address. *)
Definition memory_byte (m : memory) (v : Z) : Z :=
  match translate (tables m) v with
  | Done a => u8 (Z.shiftr (pread (tables m) (4 * (a / 4))) (8 * (a mod 4)))
  | _ => 0
  end.

#[export] Program Instance memory_PageSource : PageSource memory := {|
  ps_alloc := fun m n => Memory_alloc m 0 n PAGE_READWRITE;
  ps_free := fun m a n => Memory_free m a n 0;
  ps_byte := memory_byte;
  ps_wf := memory_wf;
  ps_live := fun m v => mapped (tables m) v
|}.
Next Obligation. intros m a. unfold memory_byte. case_match; [apply u8_range|done..]. Qed.
Next Obligation. intros m n a m' Hm Hn E. by apply (kernel_alloc_live m n). Qed.

(** * The user heap

    systemlib has its own copy of the allocator: the same code without the lock, on
    pages from the [VirtualAlloc] system call. *)

Section user_heap.
Context {M : Type} `{PageSource M}.

Definition User_Slab_init := Slab_init.
Definition User_Slab_alloc_in_current_slab := Slab_alloc_in_current_slab (M := M) 0.
Definition User_Slab_alloc := Slab_alloc (M := M) 0.
Definition User_Slab_is_address_in_slab := Slab_is_address_in_slab 0.
Definition User_Slab_free_from_current_slab := Slab_free_from_current_slab (M := M) 0.
Definition User_Slab_free := Slab_free (M := M) 0.
Definition User_BigSlabAllocator_alloc := BigSlabAllocator_alloc (M := M).
Definition User_BigSlabAllocator_free := BigSlabAllocator_free (M := M).
Definition User_Heap_setup := Heap_setup (M := M).
Definition User_Heap_malloc := Heap_kmalloc (M := M) 0.
Definition User_Heap_free := Heap_kfree (M := M) 0.

End user_heap.

(** * Behaviour that differs from the intent *)

(** A slab whose last block is freed is full of free blocks, but it is tested with
    [free_blocks == 0] after the increment: it is never given back. *)
Lemma empty_slab_is_kept {M} `{PageSource M} (lock_size sz : Z) (h : heap M) (this i : Z) s :
  size_class sz -> hp_slabs h !! this = Some s -> slab_wf s -> sl_size s = sz ->
  0 <= i < MAX_BLOCKS sz -> sl_free_blocks s = MAX_BLOCKS sz - 1 ->
  exists s', Slab_free_from_current_slab lock_size sz h this i = Done (put_slab h this s') /\
    sl_free_blocks s' = MAX_BLOCKS sz.
Proof.
  intros Hsz Hs Hw Hz Hi Hf. destruct (size_class_facts sz Hsz) as (_ & Hmx & _).
  destruct (free_from_current_spec lock_size sz Hsz h this s Hs Hw Hz i Hi)
    as (s' & E & _ & _ & _ & _ & Hf' & _); [lia|]. exists s'. split; [done|lia].
Qed.

(** * Properties *)

(** C3: the heap never hands out a block twice. From a heap whose slabs are well
    formed, a successful [kmalloc] of up to 256 bytes returns the data address of a
    block of a size class that holds the request; that block was not marked as handed
    out and is marked now, it carries the address of its slab, every block that was
    marked stays marked, and the heap stays well formed, whatever the memory that new
    slabs are made of contains. *)
Theorem heap_kmalloc_never_reuses {M} `{PageSource M} (lock_size : Z) (s10 s20 s40 s80 s100 : Z)
    (depth : nat) (h h' : heap M) (size address : Z) :
  0 <= lock_size <= 8 -> heap_inv h -> 0 < size <= 0x100 ->
  Heap_kmalloc lock_size s10 s20 s40 s80 s100 depth h size = Done (address, h') ->
  size <= class_of size /\ heap_inv h' /\
  (forall t j, 0 <= j -> taken h t j = true -> taken h' t j = true) /\
  exists slab i, address = u32 (block_address lock_size (class_of size) slab i + offsetof_data) /\
    0 <= i < MAX_BLOCKS (class_of size) /\ taken h slab i = false /\ taken h' slab i = true /\
    hp_blocks h' !! block_address lock_size (class_of size) slab i = Some (slab, class_of size).
Proof.
  intros Hl Hh Hs E. rewrite kmalloc_class in E by done. split; [apply class_of_fits; lia|].
  exact (Slab_alloc_safe lock_size (class_of size) depth h _ (address, h')
           (class_of_class size) Hl Hh E).
Qed.

(** The kernel address space after boot and one empty slab for 16-byte blocks. *)
Definition sample_heap_memory : memory :=
  mkMemory (pwrite kernel_space ((1024 + 768) * 4096 + 4 * 0x102) 0x5003) PhysicalMemory_setup.

Definition sample_slab_heap : heap memory :=
  mkHeapState (<[0xC0102000 := Slab_new 0x10]> ∅) ∅ ∅ sample_heap_memory.

Lemma kernel_space_table : pt_address kernel_space 0xC0102000 = (1024 + 768) * 4096 + 4 * 0x102.
Proof. reflexivity. Qed.

Lemma sample_memory_wf : memory_wf sample_heap_memory.
Proof.
  destruct kernel_space_wf as [Hw Hk]. unfold sample_heap_memory. rewrite <- kernel_space_table.
  split; [|split; [apply setup_wf|]].
  - apply update_wf; [done|lia|vm_compute; congruence|reflexivity].
  - intros i Hi. unfold pd_present. cbn [tables].
    rewrite update_pd_entry by (done || lia || reflexivity || (vm_compute; congruence)).
    by apply Hk.
Qed.

Lemma slab_new_wf sz : size_class sz -> slab_wf (Slab_new sz).
Proof.
  intros Hsz. destruct (size_class_facts sz Hsz) as (_ & Hmx & _).
  split; simpl; [done|done|apply storage_new; lia|lia|lia].
Qed.

Lemma sample_slab_heap_inv : heap_inv sample_slab_heap.
Proof.
  split; [apply sample_memory_wf|]. intros a s E.
  unfold sample_slab_heap in E; cbn [hp_slabs] in E. apply lookup_insert_Some in E as [[<- <-]|[_ E]]; [|done].
  split; [apply slab_new_wf; by left|]. split; [vm_compute; reflexivity|lia].
Qed.

Lemma heap_kmalloc_never_reuses_witness :
  exists address h', Heap_kmalloc 8 0xC0102000 0 0 0 0 2 sample_slab_heap 12 = Done (address, h') /\
    heap_inv h'.
Proof.
  assert (Hdone : match Heap_kmalloc 8 0xC0102000 0 0 0 0 2 sample_slab_heap 12 with
                  | Done _ => true | _ => false end = true) by (vm_compute; reflexivity).
  destruct (Heap_kmalloc 8 0xC0102000 0 0 0 0 2 sample_slab_heap 12) as [[address h']| | |] eqn:E;
    [|discriminate Hdone..].
  exists address, h'. split; [done|].
  destruct (heap_kmalloc_never_reuses 8 0xC0102000 0 0 0 0 2 sample_slab_heap h' 12 address)
    as (_ & H & _); [lia|apply sample_slab_heap_inv|lia|exact E|]. exact H.
Defined.

(** [kfree] undoes [kmalloc]. When the first slab of the size class has a free
    block at or after its next-fit position, [kmalloc] succeeds, [kfree] of the address
    finds that slab again, and afterwards the slabs are as before: every bitmap bit and
    the count of free blocks of that slab are restored and no other slab has changed. *)
Theorem heap_kmalloc_kfree_roundtrip {M} `{PageSource M} (lock_size s10 s20 s40 s80 s100 : Z)
    (depth : nat) (h : heap M) (size i : Z) (s : SlabHeader) :
  0 < size <= 0x100 -> 0 <= lock_size <= 8 -> (0 < depth)%nat ->
  0 < first_slab s10 s20 s40 s80 s100 size ->
  first_slab s10 s20 s40 s80 s100 size + PAGE_SIZE <= 2 ^ 32 ->
  hp_slabs h !! first_slab s10 s20 s40 s80 s100 size = Some s -> slab_wf s ->
  sl_size s = class_of size -> sl_free_blocks s <> 0 ->
  StaticBitmap_find_first_clear (MAX_BLOCKS (class_of size)) (sl_mem_map s) (sl_next_fit_block s)
  = Done i -> i <> BITMAP_NO_BITS_LEFT ->
  exists address h1 h2 s2,
    Heap_kmalloc lock_size s10 s20 s40 s80 s100 depth h size = Done (address, h1) /\
    Heap_kfree lock_size h1 address = Done h2 /\
    hp_slabs h2 = <[first_slab s10 s20 s40 s80 s100 size := s2]> (hp_slabs h) /\ slab_wf s2 /\
    sl_free_blocks s2 = sl_free_blocks s /\
    forall j, 0 <= j -> bit_on (sl_mem_map s2) j = bit_on (sl_mem_map s) j.
Proof. apply kmalloc_kfree_first. Qed.

Lemma heap_kmalloc_kfree_roundtrip_witness :
  exists address h1 h2 s2,
    Heap_kmalloc 8 0xC0102000 0 0 0 0 2 sample_slab_heap 12 = Done (address, h1) /\
    Heap_kfree 8 h1 address = Done h2 /\
    hp_slabs h2 = <[0xC0102000 := s2]> (hp_slabs sample_slab_heap) /\ slab_wf s2 /\
    sl_free_blocks s2 = 168 /\
    forall j, 0 <= j -> bit_on (sl_mem_map s2) j = bit_on (sl_mem_map (Slab_new 0x10)) j.
Proof.
  apply (heap_kmalloc_kfree_roundtrip 8 0xC0102000 0 0 0 0 2 sample_slab_heap 12 0 (Slab_new 0x10));
    [lia|lia|lia|vm_compute; reflexivity|vm_compute; congruence|apply lookup_insert_eq
    |apply slab_new_wf; by left|reflexivity|vm_compute; congruence|vm_compute; reflexivity
    |vm_compute; congruence].
Defined.
