(* ===== verification/Segments.v ===== *)
(** The x86 tables of the kernel (arch/x86): segment descriptors and task state
    (gdt.cpp), interrupt gates (idt.cpp), the interrupt controller (pic.cpp), the
    dispatcher of interrupts (isr.cpp) and the stack a new thread starts on
    (context.cpp). What the processor reads out of a descriptor is defined here from
    its documented layout, so that the theorems speak about segment bases and handler
    addresses and not about the fields that were stored. *)

From S2P Require Import Prelude Paging.

(** * Segment descriptors *)

Definition GDT_NUMBER_OF_ENTRIES : Z := 8.

Definition SEGMENT_SELECTOR (index prv_level : Z) : Z := Z.lor (Z.shiftl index 3) prv_level.
Definition SEGMENT_INDEX (segment : Z) : Z := Z.shiftr segment 3.
Definition KCS_SELECTOR : Z := SEGMENT_SELECTOR 1 0.
Definition KDS_SELECTOR : Z := SEGMENT_SELECTOR 2 0.
Definition UCS_SELECTOR : Z := SEGMENT_SELECTOR 3 3.
Definition UDS_SELECTOR : Z := SEGMENT_SELECTOR 4 3.
Definition TSS_SELECTOR : Z := SEGMENT_SELECTOR 5 3.
Definition TIB_SELECTOR : Z := SEGMENT_SELECTOR 6 3.
Definition PIB_SELECTOR : Z := SEGMENT_SELECTOR 7 3.

Definition SEG_DESCTYPE (x : Z) : Z := Z.shiftl (Z.land x 0x01) 0x04.
Definition SEG_PRES (x : Z) : Z := Z.shiftl (Z.land x 0x01) 0x07.
Definition SEG_PRIV (x : Z) : Z := Z.shiftl (Z.land x 0x03) 0x05.

Definition SEG_DATA_RDWR : Z := 0x02.
Definition SEG_CODE_EXRDA : Z := 0x0B.
Definition SEG_TSS_AVAILABLE : Z := 0x9.

Definition seg_access (desctype priv type : Z) : Z :=
  Z.lor (Z.lor (Z.lor (SEG_DESCTYPE desctype) (SEG_PRES 1)) (SEG_PRIV priv)) type.

Definition GDT_CODE_PL0 : Z := seg_access 1 0 SEG_CODE_EXRDA.
Definition GDT_DATA_PL0 : Z := seg_access 1 0 SEG_DATA_RDWR.
Definition GDT_CODE_PL3 : Z := seg_access 1 3 SEG_CODE_EXRDA.
Definition GDT_DATA_PL3 : Z := seg_access 1 3 SEG_DATA_RDWR.
Definition GDT_TSS_PL3 : Z := seg_access 0 3 SEG_TSS_AVAILABLE.

Record GDT_ENTRY := mkGDTEntry {
  lim0_15 : Z;
  base0_15 : Z;
  base16_23 : Z;
  access : Z;
  lim16_19 : Z;
  gdt_flags : Z;
  base24_31 : Z
}.

(** The fields of the task state that are not zero. *)
Record TSS_ENTRY := mkTSS {
  esp0 : Z;
  ss0 : Z
}.

(** The tables, the descriptor register ([gdtr]) and the task register. *)
Record segments := mkSegments {
  gdt_entries : list GDT_ENTRY;
  tss_entry : TSS_ENTRY;
  gdt : Z * Z;
  gdtr : Z * Z;
  tr : Z
}.

Definition empty_entry : GDT_ENTRY := mkGDTEntry 0 0 0 0 0 0 0.

(** Fields are masked by their widths on assignment. *)
Definition GDT_fill_gdt_entry (s : segments) (gdt_entry base limit acc flags : Z) : exec segments :=
  let e := mkGDTEntry (u16 (Z.land limit 0xFFFF)) (u16 (Z.land base 0x0000FFFF))
             (u8 (Z.shiftr (Z.land base 0x00FF0000) 16)) (u8 acc)
             (Z.land (Z.shiftr (Z.land limit 0x0F0000) 16) 0xF) (Z.land flags 0xF)
             (u8 (Z.shiftr (Z.land base 0xFF000000) 24)) in
  entries ← aset (gdt_entries s) gdt_entry e;
  Done (mkSegments entries (tss_entry s) (gdt s) (gdtr s) (tr s)).

Definition GDT_fill_gdt (s : segments) (base limit : Z) : segments :=
  mkSegments (gdt_entries s) (tss_entry s) (base, u16 limit) (gdtr s) (tr s).

Definition GDT_load_gdt (s : segments) : segments :=
  mkSegments (gdt_entries s) (tss_entry s) (gdt s) (gdt s) (tr s).

Definition GDT_load_tss (s : segments) (tss : Z) : segments :=
  mkSegments (gdt_entries s) (tss_entry s) (gdt s) (gdtr s) tss.

(** The whole task state is cleared before the two fields are set. *)
Definition GDT_set_tss_stack (s : segments) (kernel_stack : Z) : segments :=
  mkSegments (gdt_entries s) (mkTSS kernel_stack KDS_SELECTOR) (gdt s) (gdtr s) (tr s).

Definition GDT_setup_tss (s : segments) (kernel_stack : Z) : segments :=
  GDT_load_tss (GDT_set_tss_stack s kernel_stack) TSS_SELECTOR.

Definition GDT_load_fs (s : segments) (address : Z) : exec segments :=
  s ← GDT_fill_gdt_entry s (SEGMENT_INDEX TIB_SELECTOR) address 0xFFFFF GDT_DATA_PL3 0x0D;
  Done (GDT_load_gdt s).

Definition GDT_load_gs (s : segments) (address : Z) : exec segments :=
  s ← GDT_fill_gdt_entry s (SEGMENT_INDEX PIB_SELECTOR) address 0xFFFFF GDT_DATA_PL3 0x0D;
  Done (GDT_load_gdt s).

(** [sizeof(TSS_ENTRY)] and [sizeof(GDT_ENTRY)], both packed. *)
Definition sizeof_TSS_ENTRY : Z := 104.
Definition sizeof_GDT_ENTRY : Z := 8.

(** [gdt_address] and [tss_address] are where the linker puts the tables. *)
Definition GDT_setup (gdt_address tss_address : Z) : exec segments :=
  let s := mkSegments (replicate (Z.to_nat GDT_NUMBER_OF_ENTRIES) empty_entry) (mkTSS 0 0)
             (0, 0) (0, 0) 0 in
  let s := GDT_fill_gdt s gdt_address (GDT_NUMBER_OF_ENTRIES * sizeof_GDT_ENTRY - 1) in
  s ← GDT_fill_gdt_entry s 0 0 0 0 0;
  s ← GDT_fill_gdt_entry s (SEGMENT_INDEX KCS_SELECTOR) 0 0xFFFFF GDT_CODE_PL0 0x0D;
  s ← GDT_fill_gdt_entry s (SEGMENT_INDEX KDS_SELECTOR) 0 0xFFFFF GDT_DATA_PL0 0x0D;
  s ← GDT_fill_gdt_entry s (SEGMENT_INDEX UCS_SELECTOR) 0 0xFFFFF GDT_CODE_PL3 0x0D;
  s ← GDT_fill_gdt_entry s (SEGMENT_INDEX UDS_SELECTOR) 0 0xFFFFF GDT_DATA_PL3 0x0D;
  s ← GDT_fill_gdt_entry s (SEGMENT_INDEX TSS_SELECTOR) tss_address sizeof_TSS_ENTRY GDT_TSS_PL3 0;
  s ← GDT_fill_gdt_entry s (SEGMENT_INDEX TIB_SELECTOR) 0 0xFFFFF GDT_DATA_PL3 0x0D;
  s ← GDT_fill_gdt_entry s (SEGMENT_INDEX PIB_SELECTOR) 0 0xFFFFF GDT_DATA_PL3 0x0D;
  Done (GDT_setup_tss (GDT_load_gdt s) 0).

Definition Context_switch_task_stack (s : segments) (task_stack_start pib tib : Z) : exec segments :=
  let s := GDT_set_tss_stack s task_stack_start in
  s ← GDT_load_gs s pib;
  GDT_load_fs s tib.

(** * Interrupt gates *)

Definition NUMBER_OF_IDT_ENTRIES : Z := 256.
Definition NUMBER_OF_IDT_EXCEPTIONS : Z := 32.

Definition IDT_PRESENT : Z := 0x80.
Definition IDT_RING3 : Z := 0x60.
Definition IDT_INT_GATE : Z := 0x6.
Definition IDT_GATE_32 : Z := 0x8.

Record IDTEntry := mkIDTEntry {
  offset0_15 : Z;
  idt_segment : Z;
  idt_zero : Z;
  idt_type : Z;
  offset16_31 : Z
}.

Definition IDT_fill_idt_entry (entries : list IDTEntry) (idt_entry address segment type : Z)
    : exec (list IDTEntry) :=
  aset entries (u8 idt_entry)
    (mkIDTEntry (u16 (Z.land address 0xFFFF)) (u16 segment) 0 (u8 type)
       (u16 (Z.shiftr (Z.land address 0xFFFF0000) 16))).

(** The gates of [isr_vector], the entry points in isr_dispatcher.asm. *)
Definition IDT_setup (entries : list IDTEntry) (isr_vector : list Z) : exec (list IDTEntry) :=
  for_ (Z.to_nat NUMBER_OF_IDT_ENTRIES) 0
    (fun i entries =>
       address ← aget isr_vector i;
       IDT_fill_idt_entry entries i address KCS_SELECTOR
         (Z.lor (Z.lor (Z.lor IDT_PRESENT IDT_GATE_32) IDT_INT_GATE) IDT_RING3))
    entries.

(** * The interrupt controller *)

Definition PIC1_COMMAND : Z := 0x20.
Definition PIC1_DATA : Z := 0x21.
Definition PIC2_COMMAND : Z := 0xA0.
Definition PIC2_DATA : Z := 0xA1.
Definition PIC1_IDT_OFFSET : Z := 0x20.
Definition PIC2_IDT_OFFSET : Z := 0x28.
Definition ICW1_ICW4 : Z := 0x01.
Definition ICW1_INIT : Z := 0x10.
Definition ICW4_BUF_SLAVE : Z := 0x08.
Definition ICW4_BUF_MASTER : Z := 0x0C.
Definition PIC_EOI : Z := 0x20.

(** The bytes written to the ports, the latest first. *)
Abbreviation port_log := (list (Z * Z)).

Definition log_out8 (port data : Z) (log : port_log) : port_log := (port, u8 data) :: log.

(** The data port of a controller reads back its mask, the last byte written to it. *)
Fixpoint log_in8 (port : Z) (log : port_log) : Z :=
  match log with
  | [] => 0
  | (p, v) :: rest => if p =? port then v else log_in8 port rest
  end.

Definition PIC_setup (log : port_log) : port_log :=
  let log := log_out8 PIC1_COMMAND (Z.lor ICW1_ICW4 ICW1_INIT) log in
  let log := log_out8 PIC2_COMMAND (Z.lor ICW1_ICW4 ICW1_INIT) log in
  let log := log_out8 PIC1_DATA PIC1_IDT_OFFSET log in
  let log := log_out8 PIC2_DATA PIC2_IDT_OFFSET log in
  let log := log_out8 PIC1_DATA 0x4 log in
  let log := log_out8 PIC2_DATA 0x2 log in
  let log := log_out8 PIC1_DATA ICW4_BUF_MASTER log in
  let log := log_out8 PIC2_DATA ICW4_BUF_SLAVE log in
  let log := log_out8 PIC1_DATA 0xFB log in
  log_out8 PIC2_DATA 0xFF log.

(** [~x] of an [int] in an expression that is cut to a byte afterwards. *)
Definition PIC_enable_irq (interrupt_line : Z) (log : port_log) : port_log :=
  if interrupt_line <? 8 then
    log_out8 PIC1_DATA (Z.land (log_in8 PIC1_DATA log) (Z.lnot (Z.shiftl 1 interrupt_line))) log
  else
    log_out8 PIC2_DATA (Z.land (log_in8 PIC2_DATA log) (Z.lnot (Z.shiftl 1 (interrupt_line - 8)))) log.

Definition PIC_acknowledge_pic (irq : Z) (log : port_log) : port_log :=
  if irq <? PIC1_IDT_OFFSET + 8 then log_out8 PIC1_COMMAND PIC_EOI log
  else log_out8 PIC2_COMMAND PIC_EOI (log_out8 PIC1_COMMAND PIC_EOI log).

(** * Dispatching interrupts *)

Inductive ISRType := Hardware | Software.

Record RegistersContext := mkRegisters {
  r_gs : Z; r_fs : Z; r_es : Z; r_ds : Z;
  r_edi : Z; r_esi : Z; r_ebp : Z; r_esp : Z;
  r_ebx : Z; r_edx : Z; r_ecx : Z; r_eax : Z
}.

Record ISRContextFrame := mkFrame {
  context_stack : Z;
  registers : RegistersContext;
  irq_number : Z;
  error_code : Z;
  f_eip : Z; f_cs : Z; f_eflags : Z
}.

(** A table of handlers; a handler runs on the kernel state [K] and the frame. *)
Section dispatch.
Context {K : Type}.

Definition ISRFunction : Type := K -> ISRContextFrame -> exec (K * ISRContextFrame).
Definition handlers : Type := list (option (ISRFunction * ISRType)).

Definition ISR_register_software_interrupt_handler (v : handlers) (f : ISRFunction) (irq : Z)
    : exec handlers :=
  aset v irq (Some (f, Software)).

Definition ISR_register_hardware_interrupt_handler (v : handlers) (log : port_log)
    (f : ISRFunction) (interrupt_line : Z) : exec (handlers * port_log) :=
  let log := PIC_enable_irq interrupt_line log in
  v ← aset v (interrupt_line + PIC1_IDT_OFFSET) (Some (f, Hardware));
  Done (v, log).

(** An interrupt without a handler goes to [default_interrupt_handler] (Interrupts.v). *)
Definition interrupt_dispatcher (default_interrupt_handler : ISRFunction) (v : handlers) (log : port_log)
    (k : K) (info : ISRContextFrame) : exec (K * ISRContextFrame * port_log) :=
  handler ← aget v (irq_number info);
  match handler with
  | Some (f, type) =>
      '(k, info) ← f k info;
      Done (k, info,
            match type with
            | Hardware => PIC_acknowledge_pic (irq_number info) log
            | Software => log
            end)
  | None => '(k, info) ← default_interrupt_handler k info; Done (k, info, log)
  end.

End dispatch.

(** Registers that carry the arguments and the results of a system call. *)
Definition set_registers (f : ISRContextFrame) (r : RegistersContext) : ISRContextFrame :=
  mkFrame (context_stack f) r (irq_number f) (error_code f) (f_eip f) (f_cs f) (f_eflags f).

Definition Context_set_return_value (f : ISRContextFrame) (value : Z) : ISRContextFrame :=
  let r := registers f in
  set_registers f (mkRegisters (r_gs r) (r_fs r) (r_es r) (r_ds r) (r_edi r) (r_esi r) (r_ebp r)
    (r_esp r) (r_ebx r) (r_edx r) (r_ecx r) value).

Definition Context_set_return_arg1 (f : ISRContextFrame) (value : Z) : ISRContextFrame :=
  let r := registers f in
  set_registers f (mkRegisters (r_gs r) (r_fs r) (r_es r) (r_ds r) (r_edi r) (r_esi r) (r_ebp r)
    (r_esp r) (r_ebx r) (r_edx r) value (r_eax r)).

Definition Context_set_return_arg2 (f : ISRContextFrame) (value : Z) : ISRContextFrame :=
  let r := registers f in
  set_registers f (mkRegisters (r_gs r) (r_fs r) (r_es r) (r_ds r) (r_edi r) (r_esi r) (r_ebp r)
    (r_esp r) (r_ebx r) value (r_ecx r) (r_eax r)).

Definition Context_set_return_arg3 (f : ISRContextFrame) (value : Z) : ISRContextFrame :=
  let r := registers f in
  set_registers f (mkRegisters (r_gs r) (r_fs r) (r_es r) (r_ds r) (r_edi r) (r_esi r) (r_ebp r)
    (r_esp r) value (r_edx r) (r_ecx r) (r_eax r)).

Definition Context_syscall_num (f : ISRContextFrame) : Z := r_eax (registers f).
Definition Context_syscall_param1 (f : ISRContextFrame) : Z := r_ecx (registers f).
Definition Context_syscall_param2 (f : ISRContextFrame) : Z := r_edx (registers f).
Definition Context_syscall_param3 (f : ISRContextFrame) : Z := r_ebx (registers f).
Definition Context_syscall_param4 (f : ISRContextFrame) : Z := r_esi (registers f).
Definition Context_syscall_param5 (f : ISRContextFrame) : Z := r_edi (registers f).

(** * The stack of a new thread *)

Inductive ContextType := ContextKernel | ContextUser.

Record ContextInformation := mkContextInformation {
  ci_stack : Z;
  ci_stack_size : Z;
  ci_start_function : Z;
  ci_return_function : Z;
  ci_argument : Z
}.

(** Offsets in [InitialTaskContext]: the interrupt frame, then the return address and
    the argument of the start function. *)
Definition sizeof_InitialTaskContext : Z := 80.
Definition offsetof_gs : Z := 4.
Definition offsetof_fs : Z := 8.
Definition offsetof_es : Z := 12.
Definition offsetof_ds : Z := 16.
Definition offsetof_eip : Z := 60.
Definition offsetof_cs : Z := 64.
Definition offsetof_eflags : Z := 68.
Definition offsetof_return_address : Z := 72.
Definition offsetof_argument : Z := 76.

Definition EFLAGS_IF_ENABLE : Z := 0x202.

(** [type] is not used. *)
Definition Context_setup_task_stack_context (s : mmu) (type : ContextType)
    (info : ContextInformation) : exec (Z * mmu) :=
  let context := u32 (ci_stack info + ci_stack_size info - sizeof_InitialTaskContext) in
  s ← vwrite s (context + offsetof_return_address) (ci_return_function info);
  s ← vwrite s (context + offsetof_argument) (ci_argument info);
  s ← vwrite s (context + offsetof_eip) (ci_start_function info);
  s ← vwrite s (context + offsetof_cs) KCS_SELECTOR;
  s ← vwrite s (context + offsetof_ds) KDS_SELECTOR;
  s ← vwrite s (context + offsetof_es) KDS_SELECTOR;
  s ← vwrite s (context + offsetof_fs) TIB_SELECTOR;
  s ← vwrite s (context + offsetof_gs) PIB_SELECTOR;
  s ← vwrite s (context + offsetof_eflags) EFLAGS_IF_ENABLE;
  Done (u32 (context + 4), s).

(** * What the processor reads *)

Definition segment_base (e : GDT_ENTRY) : Z :=
  base0_15 e + 2 ^ 16 * base16_23 e + 2 ^ 24 * base24_31 e.

(** The last offset of the segment: the limit counts pages when bit 3 of the flags
    is set. *)
Definition segment_limit (e : GDT_ENTRY) : Z :=
  let limit := lim0_15 e + 2 ^ 16 * lim16_19 e in
  if Z.testbit (gdt_flags e) 3 then 2 ^ 12 * limit + 0xFFF else limit.

Definition segment_privilege (e : GDT_ENTRY) : Z := get_field (access e) 5 2.

(** The entry a selector names. *)
Definition descriptor (s : segments) (selector : Z) : exec GDT_ENTRY :=
  aget (gdt_entries s) (SEGMENT_INDEX selector).

Definition gate_offset (e : IDTEntry) : Z := offset0_15 e + 2 ^ 16 * offset16_31 e.

Lemma field_of_mask w lo n :
  0 <= lo -> 0 <= n -> Z.shiftr (Z.land w (Z.shiftl (Z.ones n) lo)) lo = w / 2 ^ lo mod 2 ^ n.
Proof.
  intros Hlo Hn. rewrite Z.shiftr_land, Z.shiftr_shiftl_l, Z.sub_diag, Z.shiftl_0_r by lia.
  rewrite Z.land_ones by done. by rewrite Z.shiftr_div_pow2.
Qed.

Lemma low_mask w : Z.land w 0xFFFF = w mod 2 ^ 16.
Proof. exact (Z.land_ones w 16 ltac:(lia)). Qed.

Lemma gate_offset_spec address :
  0 <= address < 2 ^ 32 ->
  u16 (Z.land address 0xFFFF) + 2 ^ 16 * u16 (Z.shiftr (Z.land address 0xFFFF0000) 16) = address.
Proof.
  intros Ha. rewrite low_mask.
  change 0xFFFF0000 with (Z.shiftl (Z.ones 16) 16). rewrite field_of_mask by lia. unfold u16. zdiv.
Qed.

Lemma filled_base base :
  0 <= base < 2 ^ 32 ->
  u16 (Z.land base 0xFFFF) + 2 ^ 16 * u8 (Z.shiftr (Z.land base 0xFF0000) 16)
  + 2 ^ 24 * u8 (Z.shiftr (Z.land base 0xFF000000) 24) = base.
Proof.
  intros Hb. rewrite low_mask. change 0xFF0000 with (Z.shiftl (Z.ones 8) 16).
  change 0xFF000000 with (Z.shiftl (Z.ones 8) 24). rewrite !field_of_mask by lia.
  unfold u16, u8. zdiv.
Qed.

(** Filling an entry sets what its selector denotes and nothing else. *)
Lemma fill_gdt_entry_spec s i base limit acc flags :
  0 <= i < alen (gdt_entries s) -> 0 <= base < 2 ^ 32 ->
  exists e entries, GDT_fill_gdt_entry s i base limit acc flags
    = Done (mkSegments entries (tss_entry s) (gdt s) (gdtr s) (tr s)) /\
    entries = <[Z.to_nat i := e]> (gdt_entries s) /\ segment_base e = base /\
    access e = u8 acc /\ gdt_flags e = Z.land flags 0xF /\
    lim0_15 e = u16 (Z.land limit 0xFFFF) /\
    lim16_19 e = Z.land (Z.shiftr (Z.land limit 0x0F0000) 16) 0xF.
Proof.
  intros Hi Hb. unfold GDT_fill_gdt_entry. rewrite aset_Done by done. simpl.
  eexists _, _. split; [done|]. split; [done|]. split; [|done].
  unfold segment_base. cbn [base0_15 base16_23 base24_31]. by apply filled_base.
Qed.

(** Reading an entry after another one has changed. *)
Lemma aget_insert {A} (l : list A) i j v :
  0 <= i < alen l -> 0 <= j ->
  aget (<[Z.to_nat i := v]> l) j = if i =? j then Done v else aget l j.
Proof.
  unfold alen. intros Hi Hj. destruct (Z.eqb_spec i j) as [->|Hne].
  - apply aget_Done; [done|]. apply list_lookup_insert_eq. lia.
  - unfold aget. rewrite list_lookup_insert_ne by lia. done.
Qed.

(** Which interrupt lines reach the processor. *)
Definition line_masked (log : port_log) (line : Z) : bool :=
  Z.testbit (log_in8 (if line <? 8 then PIC1_DATA else PIC2_DATA) log) (line mod 8).

Lemma setup_masks log line : 0 <= line < 16 -> line_masked (PIC_setup log) line = negb (line =? 2).
Proof.
  intros Hl. assert (line ∈ [0;1;2;3;4;5;6;7;8;9;10;11;12;13;14;15]) as H.
  { rewrite !elem_of_cons. lia. }
  repeat (apply elem_of_cons in H as [->|H]; [reflexivity|]). by apply not_elem_of_nil in H.
Qed.

Lemma enable_line_mask log line l :
  0 <= line < 16 -> 0 <= l < 16 ->
  line_masked (PIC_enable_irq line log) l = line_masked log l && negb (l =? line).
Proof.
  intros Hline Hl. unfold line_masked, PIC_enable_irq, log_out8.
  assert (Hbit : forall w k n, 0 <= k < 8 -> 0 <= n < 8 ->
    Z.testbit (u8 (Z.land w (Z.lnot (Z.shiftl 1 k)))) n = Z.testbit w n && negb (n =? k)).
  { intros w k n Hk Hn. rewrite u8_testbit by lia. rewrite (proj2 (Z.ltb_lt n 8)) by lia.
    simpl. rewrite Z.land_spec, Z.lnot_spec, Z.shiftl_1_l, Z.pow2_bits_eqb by lia.
    by rewrite Z.eqb_sym. }
  destruct (Z.ltb_spec line 8), (Z.ltb_spec l 8); cbn [log_in8].
  - rewrite Z.eqb_refl, Hbit by (lia || apply Z.mod_pos_bound; lia).
    by rewrite (Z.mod_small l) by lia.
  - rewrite (proj2 (Z.eqb_neq PIC1_DATA PIC2_DATA)) by done.
    rewrite (proj2 (Z.eqb_neq l line)) by lia. by rewrite andb_true_r.
  - rewrite (proj2 (Z.eqb_neq PIC2_DATA PIC1_DATA)) by done.
    rewrite (proj2 (Z.eqb_neq l line)) by lia. by rewrite andb_true_r.
  - rewrite Z.eqb_refl, Hbit by (lia || apply Z.mod_pos_bound; lia). f_equal. f_equal.
    replace (l mod 8) with (l - 8) by zdiv.
    destruct (Z.eqb_spec (l - 8) (line - 8)), (Z.eqb_spec l line); lia || done.
Qed.

(** Enabling lines in some order. *)
Definition enable_lines (lines : list Z) (log : port_log) : port_log :=
  foldl (fun log line => PIC_enable_irq line log) log lines.

Lemma enable_lines_mask lines log l :
  Forall (fun line => 0 <= line < 16) lines -> 0 <= l < 16 ->
  line_masked (enable_lines lines log) l = line_masked log l && negb (bool_decide (l ∈ lines)).
Proof.
  intros Hf Hl. revert log. induction Hf as [|line lines Hline Hf IH]; intros log.
  - change (line_masked log l = line_masked log l && negb (bool_decide (l ∈ []))).
    by rewrite bool_decide_eq_false_2, andb_true_r by apply not_elem_of_nil.
  - change (line_masked (enable_lines lines (PIC_enable_irq line log)) l = line_masked log l &&
      negb (bool_decide (l ∈ line :: lines))).
    rewrite IH, enable_line_mask by done. rewrite <- andb_assoc. f_equal.
    rewrite <- negb_orb. f_equal. destruct (Z.eqb_spec l line) as [->|Hne]; simpl.
    + symmetry. apply bool_decide_eq_true_2. by left.
    + apply bool_decide_ext. rewrite elem_of_cons. tauto.
Qed.

(** * Properties *)

(** switching to a thread points the segment registers and the processor's
    kernel stack to it. Whatever the tables held, after [switch_task_stack] the segment
    that [fs] selects starts at the thread's information block, the one [gs] selects at
    the process's, both span the whole address space at user privilege; the stack for
    interrupts from user mode is the one given, and every other descriptor is as
    before. *)
Theorem context_switch_installs (s : segments) (stack pib tib : Z) :
  alen (gdt_entries s) = GDT_NUMBER_OF_ENTRIES -> 0 <= pib < 2 ^ 32 -> 0 <= tib < 2 ^ 32 ->
  exists s' fs gs, Context_switch_task_stack s stack pib tib = Done s' /\
    descriptor s' TIB_SELECTOR = Done fs /\ descriptor s' PIB_SELECTOR = Done gs /\
    segment_base fs = tib /\ segment_base gs = pib /\
    segment_limit fs = 0xFFFFFFFF /\ segment_limit gs = 0xFFFFFFFF /\
    segment_privilege fs = 3 /\ segment_privilege gs = 3 /\
    esp0 (tss_entry s') = stack /\ ss0 (tss_entry s') = KDS_SELECTOR /\
    gdtr s' = gdt s /\ alen (gdt_entries s') = GDT_NUMBER_OF_ENTRIES /\
    forall i, 0 <= i < 6 -> aget (gdt_entries s') i = aget (gdt_entries s) i.
Proof.
  intros Hlen Hpib Htib. unfold GDT_NUMBER_OF_ENTRIES in *.
  unfold Context_switch_task_stack, GDT_load_gs, GDT_load_fs.
  change (SEGMENT_INDEX PIB_SELECTOR) with 7. change (SEGMENT_INDEX TIB_SELECTOR) with 6.
  destruct (fill_gdt_entry_spec (GDT_set_tss_stack s stack) 7 pib 0xFFFFF GDT_DATA_PL3 0x0D)
    as (gs & es & Eg & Hes & Hgb & Hga & Hgf & Hg0 & Hg1); [simpl; lia|done|].
  rewrite Eg. cbn [mbind exec_bind].
  set (s1 := GDT_load_gdt _).
  destruct (fill_gdt_entry_spec s1 6 tib 0xFFFFF GDT_DATA_PL3 0x0D)
    as (fs & es' & Ef & Hes' & Hfb & Hfa & Hff & Hf0 & Hf1);
    [simpl; rewrite Hes, alen_insert; simpl; lia|done|].
  rewrite Ef. cbn [mbind exec_bind]. eexists _, fs, gs. split; [reflexivity|].
  unfold descriptor. change (SEGMENT_INDEX PIB_SELECTOR) with 7.
  change (SEGMENT_INDEX TIB_SELECTOR) with 6. cbn [gdt_entries GDT_load_gdt] in *.
  subst s1. cbn [gdt_entries GDT_load_gdt GDT_set_tss_stack tss_entry gdt gdtr tr esp0 ss0] in *.
  subst es es'. rewrite !aget_insert by (rewrite ?alen_insert; lia). simpl.
  split; [done|]. split; [done|]. split; [done|]. split; [done|].
  unfold segment_limit, segment_privilege. rewrite Hff, Hgf, Hfa, Hga, Hf0, Hf1, Hg0, Hg1.
  repeat (split; [reflexivity|]). split; [rewrite !alen_insert; lia|].
  intros i Hi. rewrite !aget_insert by (rewrite ?alen_insert; lia).
  by rewrite (proj2 (Z.eqb_neq 6 i)), (proj2 (Z.eqb_neq 7 i)) by lia.
Qed.

(** The tables after boot. *)
Definition sample_segments : segments :=
  mkSegments (replicate 8 empty_entry) (mkTSS 0 0) (0xC0200000, 63) (0xC0200000, 63) TSS_SELECTOR.

Lemma context_switch_installs_witness :
  exists s' fs, Context_switch_task_stack sample_segments 0xC0301000 0x2000 0x3000 = Done s' /\
    descriptor s' TIB_SELECTOR = Done fs /\ segment_base fs = 0x3000.
Proof.
  destruct (context_switch_installs sample_segments 0xC0301000 0x2000 0x3000)
    as (s' & fs & gs & E & Hf & _ & Hb & _); [reflexivity|lia|lia|]. eauto.
Defined.

(** The interrupt controller lets through exactly the lines that drivers
    enabled: after [PIC::setup] and [PIC::enable_irq] for any sequence of lines, a line
    is unmasked when it is the cascade line or one of them, and masked otherwise. *)
Theorem pic_enables_exactly (lines : list Z) (log : list (Z * Z)) (l : Z) :
  Forall (fun line => 0 <= line < 16) lines -> 0 <= l < 16 ->
  line_masked (enable_lines lines (PIC_setup log)) l = negb (bool_decide (l = 2 \/ l ∈ lines)).
Proof.
  intros Hf Hl. rewrite enable_lines_mask, setup_masks by done. rewrite <- negb_orb. f_equal.
  rewrite bool_decide_or. f_equal. destruct (Z.eqb_spec l 2).
  - by rewrite bool_decide_eq_true_2.
  - by rewrite bool_decide_eq_false_2.
Qed.

Lemma pic_enables_exactly_witness :
  line_masked (enable_lines [0; 1; 11] (PIC_setup [])) 11 = false.
Proof.
  rewrite (pic_enables_exactly [0; 1; 11] [] 11); [reflexivity|repeat constructor; lia|lia].
Defined.
