(* ===== verification/Thread.v ===== *)
(** Threads, wait queues and the scheduler (tasking/thread.cpp, wait_queue.cpp,
    scheduler.cpp, devices/timer/pit.cpp).

    A thread is in one of four intrusive lists according to its state: ready,
    sleeping, blocked on a wait queue, or blocked with a time-out. A wait queue is a
    vector of entries that survive the wake-up until the thread runs again. The list
    code is used through [ListStore] and the identifiers through [IdPool]; memory and
    segments are the models of the files Memory and Segments. A thread that yields
    stops in the middle of [sleep] or [wait]: the part before and the part after the
    interrupt are separate operations here, and anything can run in between. *)

From S2P Require Import Prelude Storage Bitmap Vector IntrusiveList Physical Paging Memory Segments.

Inductive ThreadState := Ready | BlockedSleep | BlockedQueue | BlockedQueueTimed | Suspended.
Inductive ThreadPrivilege := PrivilegeKernel | PrivilegeUser.

#[export] Instance ThreadState_eq_dec : EqDecision ThreadState.
Proof. solve_decision. Defined.

Definition STACK_SIZE : Z := 0x1000.

(** A thread; [t_parent] and [t_blocker] are addresses of a process and a queue. *)
Record Thread := mkThread {
  t_tid : Z;
  t_parent : Z;
  t_state : ThreadState;
  t_privilege : ThreadPrivilege;
  t_blocker : option Z;
  t_tib : Z;
  t_sleep_ticks : Z;
  t_kernel_stack_start : Z;
  t_kernel_stack_end : Z;
  t_kernel_stack_pointer : Z
}.

(** [WaitQueue::State] and [WaitQueue::Queue]. *)
Inductive WaitState := Blocked | WokenUpNormally | Timeout.

#[export] Instance WaitState_eq_dec : EqDecision WaitState.
Proof. solve_decision. Defined.

Record Queue := mkQueue {
  q_thread : Z;
  q_state : WaitState
}.

Record WaitQueue := mkWaitQueue {
  wq_queue : Vector Queue;
  wq_is_moved : bool
}.

(** The part of a process that the scheduler uses; its list of threads by content. *)
Record process_info := mkProcessInfo {
  p_pid : Z;
  p_page_directory : Z;
  p_pib : Z;
  p_threads : list Z
}.

(** The addresses of the four static lists of [Thread]. *)
Definition ready_threads : Z := 1.
Definition sleeping_threads : Z := 2.
Definition blocked_threads : Z := 3.
Definition blocked_timed_threads : Z := 4.

(** The state threads share: the lists, the objects by address, [Thread::current],
    the identifiers, [PIT::ticks], memory and segments. *)
Record kernel (H P : Type) := mkKernel {
  k_lists : H;
  k_threads : gmap Z Thread;
  k_current : option Z;
  k_tids : P;
  k_ticks : Z;
  k_queues : gmap Z WaitQueue;
  k_processes : gmap Z process_info;
  k_memory : memory;
  k_segments : segments
}.

Arguments mkKernel {H P}.
Arguments k_lists {H P}.
Arguments k_threads {H P}.
Arguments k_current {H P}.
Arguments k_tids {H P}.
Arguments k_ticks {H P}.
Arguments k_queues {H P}.
Arguments k_processes {H P}.
Arguments k_memory {H P}.
Arguments k_segments {H P}.

Section Threads.
Context {H P : Type} `{ListStore H} `{IdPool P}.

Abbreviation kern := (kernel H P).

Implicit Types (k : kern).

(** ** Access to the objects *)

Definition get_thread k (t : Z) : exec Thread :=
  match k_threads k !! t with Some th => Done th | None => Fault end.

Definition set_lists k (h : H) : kern :=
  mkKernel h (k_threads k) (k_current k) (k_tids k) (k_ticks k) (k_queues k) (k_processes k)
    (k_memory k) (k_segments k).

Definition put_thread k (t : Z) (th : Thread) : kern :=
  mkKernel (k_lists k) (<[t := th]> (k_threads k)) (k_current k) (k_tids k) (k_ticks k)
    (k_queues k) (k_processes k) (k_memory k) (k_segments k).

Definition get_queue k (q : Z) : exec WaitQueue :=
  match k_queues k !! q with Some w => Done w | None => Fault end.

Definition put_queue k (q : Z) (w : WaitQueue) : kern :=
  mkKernel (k_lists k) (k_threads k) (k_current k) (k_tids k) (k_ticks k)
    (<[q := w]> (k_queues k)) (k_processes k) (k_memory k) (k_segments k).

Definition get_process k (p : Z) : exec process_info :=
  match k_processes k !! p with Some pr => Done pr | None => Fault end.

Definition put_process k (p : Z) (pr : process_info) : kern :=
  mkKernel (k_lists k) (k_threads k) (k_current k) (k_tids k) (k_ticks k) (k_queues k)
    (<[p := pr]> (k_processes k)) (k_memory k) (k_segments k).

Definition set_memory k (m : memory) : kern :=
  mkKernel (k_lists k) (k_threads k) (k_current k) (k_tids k) (k_ticks k) (k_queues k)
    (k_processes k) m (k_segments k).

Definition set_current k (t : Z) : kern :=
  mkKernel (k_lists k) (k_threads k) (Some t) (k_tids k) (k_ticks k) (k_queues k)
    (k_processes k) (k_memory k) (k_segments k).

Definition set_segments k (s : segments) : kern :=
  mkKernel (k_lists k) (k_threads k) (k_current k) (k_tids k) (k_ticks k) (k_queues k)
    (k_processes k) (k_memory k) s.

Definition set_tids k (p : P) : kern :=
  mkKernel (k_lists k) (k_threads k) (k_current k) p (k_ticks k) (k_queues k)
    (k_processes k) (k_memory k) (k_segments k).

Definition set_ticks k (ticks : Z) : kern :=
  mkKernel (k_lists k) (k_threads k) (k_current k) (k_tids k) ticks (k_queues k)
    (k_processes k) (k_memory k) (k_segments k).

(** [Thread::current], used as a reference. *)
Definition current k : exec Z :=
  match k_current k with Some t => Done t | None => Fault end.

Definition thread_with (th : Thread) (state : ThreadState) (blocker : option Z) (ticks : Z) : Thread :=
  mkThread (t_tid th) (t_parent th) state (t_privilege th) blocker (t_tib th) ticks
    (t_kernel_stack_start th) (t_kernel_stack_end th) (t_kernel_stack_pointer th).

(** ** State changes of a thread *)

(** The list a thread in this state is taken from; none for the other states. *)
Definition waiting_list (s : ThreadState) : option Z :=
  match s with
  | BlockedSleep => Some sleeping_threads
  | BlockedQueue => Some blocked_threads
  | BlockedQueueTimed => Some blocked_timed_threads
  | Ready | Suspended => None
  end.

Definition Thread_wake_up k (t : Z) : exec kern :=
  th ← get_thread k t;
  h ← match waiting_list (t_state th) with
      | Some l => ls_remove (k_lists k) l t
      | None => Done (k_lists k)
      end;
  h ← ls_push_back h ready_threads t;
  Done (put_thread (set_lists k h) t (thread_with th Ready None (t_sleep_ticks th))).

Definition Thread_block k (t blocker ms_timeout : Z) : exec kern :=
  th ← get_thread k t;
  h ← ls_remove (k_lists k) ready_threads t;
  if truthy ms_timeout then
    h ← ls_push_back h blocked_timed_threads t;
    Done (put_thread (set_lists k h) t
            (thread_with th BlockedQueueTimed (Some blocker) (u32 (k_ticks k + ms_timeout))))
  else
    h ← ls_push_back h blocked_threads t;
    Done (put_thread (set_lists k h) t
            (thread_with th BlockedQueue (Some blocker) (t_sleep_ticks th))).

(** [sleep] up to the point where it yields. *)
Definition Thread_sleep k (t ms : Z) : exec kern :=
  th ← get_thread k t;
  h ← ls_remove (k_lists k) ready_threads t;
  h ← ls_push_back h sleeping_threads t;
  Done (put_thread (set_lists k h) t
          (thread_with th BlockedSleep (t_blocker th) (u32 (k_ticks k + ms)))).

(** ** Wait queues *)

(** Assignment to a member of an entry in place. *)
Definition entry_set_state (v : Vector Queue) (i : Z) (state : WaitState) : exec (Vector Queue) :=
  e ← slot_read (v_slots v) i;
  data ← slot_assign (v_slots v) i (mkQueue (q_thread e) state);
  Done (mkVector (Some data) (v_count v) (v_capacity v) (v_allocation_steps v)).

Definition WaitQueue_new : exec WaitQueue :=
  v ← Vector_new 1 1;
  Done (mkWaitQueue v false).

Definition is_blocked_entry (e : Queue) : bool := bool_decide (q_state e = Blocked).

Definition WaitQueue_wake_up_queue k (q i : Z) : exec kern :=
  w ← get_queue k q;
  e ← slot_read (v_slots (wq_queue w)) i;
  v ← entry_set_state (wq_queue w) i WokenUpNormally;
  Thread_wake_up (put_queue k q (mkWaitQueue v (wq_is_moved w))) (q_thread e).

Definition WaitQueue_wake_up k (q : Z) : exec kern :=
  w ← get_queue k q;
  i ← Vector_find_if is_blocked_entry (wq_queue w);
  _ ← ASSERT (negb (i =? Vector_end (wq_queue w)));
  WaitQueue_wake_up_queue k q i.

(** The index runs over the entries, whose number does not change. *)
Definition WaitQueue_wake_up_all k (q : Z) : exec kern :=
  w ← get_queue k q;
  for_ (Z.to_nat (v_count (wq_queue w))) (Vector_begin (wq_queue w))
    (fun i k =>
       w ← get_queue k q;
       e ← slot_read (v_slots (wq_queue w)) i;
       if is_blocked_entry e then WaitQueue_wake_up_queue k q i else Done k)
    k.

Definition WaitQueue_is_empty_queue k (q : Z) : exec bool :=
  w ← get_queue k q;
  i ← Vector_find_if is_blocked_entry (wq_queue w);
  Done (i =? Vector_end (wq_queue w)).

(** The destructor, and the two moves: the new queue and what is left of the other. *)
Definition WaitQueue_destroy k (q : Z) : exec kern :=
  w ← get_queue k q;
  if wq_is_moved w then Done k else WaitQueue_wake_up_all k q.

Definition WaitQueue_move (other : WaitQueue) : WaitQueue * WaitQueue :=
  let '(v, rest) := Vector_move (wq_queue other) in
  (mkWaitQueue v false, mkWaitQueue rest true).

Definition WaitQueue_move_assign (this other : WaitQueue) : exec (WaitQueue * WaitQueue) :=
  '(v, rest) ← Vector_move_assign (wq_queue this) (wq_queue other);
  Done (mkWaitQueue v (wq_is_moved this), mkWaitQueue rest true).

(** [i.thread->tid() == tid]. Comparing reads the threads of the entries: an entry
    whose thread has been deleted is a dangling reference. *)
Definition has_tid k (tid : Z) (e : Queue) : bool :=
  match k_threads k !! q_thread e with Some th => t_tid th =? tid | None => false end.

Definition entries_live k (v : Vector Queue) : exec unit :=
  for_ (Z.to_nat (v_count v)) 0
    (fun i _ => e ← slot_read (v_slots v) i; _ ← get_thread k (q_thread e); Done tt) tt.

Definition WaitQueue_handle_thread_timeout k (q t : Z) : exec kern :=
  th ← get_thread k t;
  w ← get_queue k q;
  _ ← entries_live k (wq_queue w);
  i ← Vector_find_if (has_tid k (t_tid th)) (wq_queue w);
  _ ← ASSERT (negb (i =? Vector_end (wq_queue w)));
  v ← entry_set_state (wq_queue w) i Timeout;
  Done (put_queue k q (mkWaitQueue v (wq_is_moved w))).

Definition WaitQueue_handle_thread_terminated k (q t : Z) : exec kern :=
  th ← get_thread k t;
  w ← get_queue k q;
  _ ← entries_live k (wq_queue w);
  '(v, removed) ← Vector_remove_if (has_tid k (t_tid th)) (wq_queue w);
  _ ← ASSERT removed;
  Done (put_queue k q (mkWaitQueue v (wq_is_moved w))).

(** [wait] up to the point where it yields. The iterator that [emplace_back] returns
    holds the address of the storage and an index; storage only ever changes to a
    larger one, so its capacity identifies it. *)
Definition WaitQueue_wait_begin k (q ms_timeout : Z) : exec (Z * Z * kern) :=
  cur ← current k;
  k ← Thread_block k cur q ms_timeout;
  w ← get_queue k q;
  '(v, i) ← Vector_push_back true (wq_queue w) (mkQueue cur Blocked);
  Done (v_capacity v, i, put_queue k q (mkWaitQueue v (wq_is_moved w))).

(** Use of an iterator: the storage it points to is gone after a reallocation. *)
Definition iterator_read (v : Vector Queue) (storage i : Z) : exec Queue :=
  if storage =? v_capacity v then slot_read (v_slots v) i else Fault.

(** The rest of [wait], when the thread runs again. *)
Definition WaitQueue_wait_end k (q storage i : Z) : exec (WaitState * kern) :=
  w ← get_queue k q;
  e ← iterator_read (wq_queue w) storage i;
  v ← Vector_remove (wq_queue w) i;
  Done (q_state e, put_queue k q (mkWaitQueue v (wq_is_moved w))).

(** [wait_on_event]: the first part returns at once when [checker] is false; the part
    after the yield either blocks again or leaves. *)
Definition WaitQueue_wait_on_event_begin k (q : Z) (checker : kern -> bool) (ms_timeout : Z)
    : exec (WaitState * kern + (Z * Z * kern)) :=
  if negb (checker k) then Done (inl (WokenUpNormally, k))
  else
    cur ← current k;
    w ← get_queue k q;
    '(v, i) ← Vector_push_back true (wq_queue w) (mkQueue cur Blocked);
    k ← Thread_block (put_queue k q (mkWaitQueue v (wq_is_moved w))) cur q ms_timeout;
    Done (inr (v_capacity v, i, k)).

Definition WaitQueue_wait_on_event_resume k (q storage i : Z) (checker : kern -> bool) (ms_timeout : Z)
    : exec (WaitState * kern + kern) :=
  cur ← current k;
  w ← get_queue k q;
  again ← (if checker k then
             e ← iterator_read (wq_queue w) storage i;
             Done (negb (bool_decide (q_state e = Timeout)))
           else Done false : exec bool);
  if again : bool then k ← Thread_block k cur q ms_timeout; Done (inr k)
  else
    e ← iterator_read (wq_queue w) storage i;
    v ← Vector_remove (wq_queue w) i;
    Done (inl (q_state e, put_queue k q (mkWaitQueue v (wq_is_moved w)))).

(** ** The timer *)

(** One turn of the loops of [wake_up_sleepers] on list [l]: the iterator moves on
    before the thread can leave the list. *)
Definition wake_sleeper_turn (l : Z) (due : kern -> Z -> exec kern) (st : kern * node_ptr)
    : exec (kern * node_ptr + kern) :=
  let '(k, it) := st in
  if bool_decide (it = PEnd l) then Done (inr k)
  else
    next ← ls_next (k_lists k) it;
    t ← ls_deref (k_lists k) it;
    th ← get_thread k t;
    if t_sleep_ticks th <=? k_ticks k then
      let k := put_thread k t (thread_with th (t_state th) (t_blocker th) 0) in
      k ← due k t;
      Done (inl (k, next))
    else Done (inl (k, next)).

(** Every turn passes one element: the number of elements and one more are enough. *)
Definition wake_sleepers_loop (l : Z) (due : kern -> Z -> exec kern) k : exec kern :=
  it ← ls_begin (k_lists k) l;
  n ← ls_size (k_lists k) l;
  while (S (Z.to_nat n)) (wake_sleeper_turn l due) (k, it).

Definition timed_out k (t : Z) : exec kern :=
  th ← get_thread k t;
  match t_blocker th with
  | Some q => k ← WaitQueue_handle_thread_timeout k q t; Thread_wake_up k t
  | None => Fault
  end.

Definition Thread_wake_up_sleepers k : exec kern :=
  k ← wake_sleepers_loop sleeping_threads Thread_wake_up k;
  wake_sleepers_loop blocked_timed_threads timed_out k.

(** ** Creation and termination *)

Definition Thread_reserve_tid k : exec (Z * kern) :=
  '(id, tids) ← reserve_id (k_tids k);
  Done (id, set_tids k tids).

(** Address of [thread_start], and [sizeof(UserThreadInformationBlock)]. *)
Context (thread_start : Z).
Definition sizeof_UserThreadInformationBlock : Z := 4.

(** Memory of the thread's information block, in the current address space. *)
Definition Thread_new_tib (m : memory) (tid : Z) : exec (Z * memory) :=
  '(tib, m) ← Memory_alloc m 0 sizeof_UserThreadInformationBlock (Z.lor PAGE_USER PAGE_READWRITE);
  s ← vwrite (tables m) tib tid;
  Done (tib, mkMemory s (frames m)).

(** The constructor, for an object at address [this]. *)
Definition Thread_new k (this process : Z) (priv : ThreadPrivilege) : exec kern :=
  '(tid, k) ← Thread_reserve_tid k;
  '(stack, m) ← Memory_alloc (k_memory k) 0 STACK_SIZE PAGE_READWRITE;
  let info := mkContextInformation stack STACK_SIZE thread_start 0 this in
  '(stack_pointer, s) ← Context_setup_task_stack_context (tables m)
      (match priv with PrivilegeKernel => ContextKernel | PrivilegeUser => ContextUser end) info;
  let m := mkMemory s (frames m) in
  parent ← get_process k process;
  other ← match k_current k with
          | None => Done None
          | Some c =>
              cur ← get_thread k c;
              cur_parent ← get_process k (t_parent cur);
              Done (if negb (p_pid parent =? p_pid cur_parent)
                    then Some (p_page_directory cur_parent) else None)
          end;
  '(tib, m) ← match other with
              | Some own =>
                  '(tib, m) ← Thread_new_tib (Memory_switch_page_directory m (p_page_directory parent)) tid;
                  Done (tib, Memory_switch_page_directory m own)
              | None => Thread_new_tib m tid
              end;
  let th := mkThread tid process Ready priv None tib 0 stack (u32 (stack + STACK_SIZE)) stack_pointer in
  Done (put_thread (set_lists (set_memory k m) (ls_new_node (k_lists k) this)) this th).

Definition Process_list_new_thread k (process t : Z) : exec kern :=
  pr ← get_process k process;
  Done (put_process k process
          (mkProcessInfo (p_pid pr) (p_page_directory pr) (p_pib pr) (p_threads pr ++ [t]))).

(** Entries with the same thread identifier are removed; the threads are read. *)
Definition Process_unlist_new_thread k (process t : Z) : exec kern :=
  th ← get_thread k t;
  pr ← get_process k process;
  keep ← foldl (fun acc u => l ← acc; o ← get_thread k u;
                  Done (if t_tid o =? t_tid th then l else l ++ [u])) (Done []) (p_threads pr);
  Done (put_process k process
          (mkProcessInfo (p_pid pr) (p_page_directory pr) (p_pib pr) keep)).

Definition Thread_create_thread k (this process : Z) (priv : ThreadPrivilege) : exec kern :=
  k ← Thread_new k this process priv;
  h ← ls_push_back (k_lists k) ready_threads this;
  Process_list_new_thread (set_lists k h) process this.

Definition Thread_create_init_thread k (this process : Z) : exec kern :=
  _ ← ASSERT (negb (not_null (k_current k)));
  k ← Thread_create_thread k this process PrivilegeKernel;
  Done (set_current k this).

(** The destructor gives the identifier back; [cleanup] deletes the object. *)
Definition Thread_destroy k (t : Z) : exec kern :=
  th ← get_thread k t;
  set ← pool_check_set (k_tids k) (t_tid th);
  _ ← ASSERT set;
  tids ← pool_clear (k_tids k) (t_tid th);
  Done (set_tids k tids).

Definition Thread_cleanup k (t : Z) : exec kern :=
  k ← Thread_destroy k t;
  Done (mkKernel (k_lists k) (delete t (k_threads k)) (k_current k) (k_tids k) (k_ticks k)
          (k_queues k) (k_processes k) (k_memory k) (k_segments k)).

Definition Thread_terminate k (t : Z) : exec kern :=
  th ← get_thread k t;
  k ← match t_state th with
      | Ready => h ← ls_remove (k_lists k) ready_threads t; Done (set_lists k h)
      | BlockedSleep => h ← ls_remove (k_lists k) sleeping_threads t; Done (set_lists k h)
      | BlockedQueue =>
          _ ← ASSERT (not_null (t_blocker th));
          h ← ls_remove (k_lists k) blocked_threads t;
          WaitQueue_handle_thread_terminated (set_lists k h) (default 0 (t_blocker th)) t
      | BlockedQueueTimed =>
          _ ← ASSERT (not_null (t_blocker th));
          h ← ls_remove (k_lists k) blocked_timed_threads t;
          WaitQueue_handle_thread_terminated (set_lists k h) (default 0 (t_blocker th)) t
      | Suspended => Panic
      end;
  k ← Process_unlist_new_thread k (t_parent th) t;
  Thread_cleanup k t.

(** * Invariant *)

(** The list a thread in this state is in. *)
Definition list_of_state (s : ThreadState) : option Z :=
  match s with Ready => Some ready_threads | _ => waiting_list s end.

Definition on_queue (s : ThreadState) : bool :=
  match s with BlockedQueue | BlockedQueueTimed => true | _ => false end.

(** Identifiers come from a map of this many bits. *)
Definition MAX_THREADS : Z := 65535.

(** A thread is in the list of its state and in no other, and lists hold threads. *)
Record threads_inv k (A : lists) : Prop := {
  ti_rep : ls_rep (k_lists k) A;
  ti_dom : forall l, is_Some (A !! l) <->
    l ∈ [ready_threads; sleeping_threads; blocked_threads; blocked_timed_threads];
  ti_state : forall t th, k_threads k !! t = Some th ->
    ls_node (k_lists k) t /\ is_Some (list_of_state (t_state th)) /\
    forall l ns, A !! l = Some ns -> (t ∈ ns <-> list_of_state (t_state th) = Some l);
  ti_live : forall l ns t, A !! l = Some ns -> t ∈ ns -> is_Some (k_threads k !! t);
  ti_few : Z.of_nat (size (k_threads k)) <= MAX_THREADS
}.

(** The entries of one queue: one per thread, all of live threads, and the ones that
    are not woken up belong to threads blocked on this queue. *)
Record entries_ok k (q : Z) (es : list Queue) : Prop := {
  eo_nodup : NoDup (q_thread <$> es);
  eo_live : forall e, e ∈ es -> is_Some (k_threads k !! q_thread e);
  eo_blocked : forall e, e ∈ es -> q_state e = Blocked ->
    exists th, k_threads k !! q_thread e = Some th /\ on_queue (t_state th) = true /\
      t_blocker th = Some q
}.

Record queues_inv k (E : gmap Z (list Queue)) : Prop := {
  qi_rep : forall q w, k_queues k !! q = Some w ->
    exists es, E !! q = Some es /\ v_rep (wq_queue w) es /\
      v_capacity (wq_queue w) <= MAX_THREADS /\ v_allocation_steps (wq_queue w) = 1;
  qi_dom : forall q es, E !! q = Some es -> is_Some (k_queues k !! q) /\ entries_ok k q es;
  qi_entry : forall t th, k_threads k !! t = Some th -> on_queue (t_state th) = true ->
    exists q es, t_blocker th = Some q /\ E !! q = Some es /\ t ∈ q_thread <$> es
}.

(** Identifiers of threads are distinct. *)
Definition tids_distinct k : Prop :=
  forall t u th uh, k_threads k !! t = Some th -> k_threads k !! u = Some uh ->
    t_tid th = t_tid uh -> t = u.

Record kinv k (A : lists) (E : gmap Z (list Queue)) : Prop := {
  ki_threads : threads_inv k A;
  ki_queues : queues_inv k E;
  ki_tids : tids_distinct k
}.

(** ** Moving a thread between lists *)

Lemma list_le_threads k A l ns :
  threads_inv k A -> A !! l = Some ns -> (length ns <= size (k_threads k))%nat.
Proof.
  intros Hi HA. rewrite <- size_dom, <- (size_list_to_set (C := gset Z) ns).
  - apply subseteq_size. intros t Ht. apply elem_of_list_to_set in Ht.
    apply elem_of_dom. by apply (ti_live _ _ Hi l ns).
  - apply (ls_nodup _ _ _ _ (ti_rep _ _ Hi) HA).
Qed.

Lemma list_fits k A l ns : threads_inv k A -> A !! l = Some ns -> alen ns <= MAX_THREADS.
Proof.
  intros Hi HA. pose proof (list_le_threads _ _ _ _ Hi HA). pose proof (ti_few _ _ Hi).
  unfold alen. lia.
Qed.

Lemma thread_in_list k A t th l :
  threads_inv k A -> k_threads k !! t = Some th -> list_of_state (t_state th) = Some l ->
  exists p s, A !! l = Some (p ++ t :: s).
Proof.
  intros Hi Ht Hl. destruct (ti_state _ _ Hi t th Ht) as (_ & _ & Hs).
  assert (is_Some (A !! l)) as [ns HA].
  { apply (ti_dom _ _ Hi). destruct (t_state th); simplify_eq/=; rewrite !elem_of_cons; auto. }
  apply (Hs l ns HA) in Hl. apply list_elem_of_split in Hl as (p & s & ->). eauto.
Qed.

Lemma size_insert_thread k t th th' :
  k_threads k !! t = Some th -> size (<[t := th']> (k_threads k)) = size (k_threads k).
Proof. intros E. by rewrite map_size_insert, E. Qed.

(** Removing a thread from its list and appending it to another, with the change of
    state that goes with it. *)
Lemma transfer_inv k A t th l1 p s l2 ns2 th' :
  threads_inv k A -> k_threads k !! t = Some th -> list_of_state (t_state th) = Some l1 ->
  A !! l1 = Some (p ++ t :: s) -> l2 <> l1 -> A !! l2 = Some ns2 ->
  list_of_state (t_state th') = Some l2 ->
  exists h1 h2, ls_remove (k_lists k) l1 t = Done h1 /\ ls_push_back h1 l2 t = Done h2 /\
    threads_inv (put_thread (set_lists k h2) t th') (<[l2 := ns2 ++ [t]]> (<[l1 := p ++ s]> A)).
Proof.
  intros Hi Ht Hl1 HA1 Hne HA2 Hl2.
  destruct (ls_remove_law (k_lists k) A l1 p t s) as (h1 & E1 & Hr1 & Hn1);
    [apply (ti_rep _ _ Hi)|done|].
  pose proof (ls_nodup _ _ _ _ (ti_rep _ _ Hi) HA1) as Hnd. apply NoDup_middle in Hnd as (Hp & Hs & _).
  assert (Hfree : forall l ns, <[l1 := p ++ s]> A !! l = Some ns -> t ∉ ns).
  { intros l ns E Hin. apply lookup_insert_Some in E as [[<- <-]|[Hl E]].
    - apply elem_of_app in Hin. tauto.
    - apply Hl. eapply (ls_disjoint (k_lists k) A l1 l); [apply (ti_rep _ _ Hi)|done..| |done].
      apply elem_of_app. right. by left. }
  destruct (ti_state _ _ Hi t th Ht) as (Hnode & _ & _).
  destruct (ls_push_law h1 (<[l1 := p ++ s]> A) l2 ns2 t) as (h2 & E2 & Hr2 & Hn2);
    [done|by rewrite lookup_insert_ne|by apply Hn1|done| |].
  { pose proof (list_fits _ _ _ _ Hi HA2). unfold MAX_THREADS in *. lia. }
  exists h1, h2. split; [done|]. split; [done|]. split; simpl.
  - done.
  - intros l. rewrite !lookup_insert_is_Some', <- (ti_dom _ _ Hi). split; [|auto].
    intros [<-|[<-|?]]; [by rewrite HA2|by rewrite HA1|done].
  - intros u uh Hu. apply lookup_insert_Some in Hu as [[<- <-]|[Hut Hu]].
    + split; [by apply Hn2, Hn1|]. split; [by rewrite Hl2|]. intros l ns E.
      rewrite Hl2. apply lookup_insert_Some in E as [[<- <-]|[Hl E]].
      * split; [done|]. intros _. apply elem_of_app. right. by left.
      * split; [|congruence]. intros Hin. by apply (Hfree l ns) in Hin.
    + destruct (ti_state _ _ Hi u uh Hu) as (Hnu & Hsu & Hlu).
      split; [by apply Hn2, Hn1|]. split; [done|]. intros l ns E.
      apply lookup_insert_Some in E as [[<- <-]|[Hl E]].
      * rewrite <- (Hlu _ _ HA2), elem_of_app, list_elem_of_singleton. intuition congruence.
      * apply lookup_insert_Some in E as [[<- <-]|[Hl' E]].
        -- rewrite <- (Hlu _ _ HA1), !elem_of_app, elem_of_cons. intuition congruence.
        -- by apply Hlu.
  - intros l ns u E Hin. rewrite lookup_insert_is_Some'.
    apply lookup_insert_Some in E as [[<- <-]|[Hl E]].
    + apply elem_of_app in Hin as [Hin|Hin]; [right; by apply (ti_live _ _ Hi l2 ns2)|].
      apply list_elem_of_singleton in Hin as ->. by left.
    + apply lookup_insert_Some in E as [[<- <-]|[Hl' E]]; right; [|by apply (ti_live _ _ Hi l ns)].
      apply (ti_live _ _ Hi l1 _ u HA1). rewrite elem_of_app, elem_of_cons.
      apply elem_of_app in Hin. tauto.
  - rewrite (size_insert_thread k t th th' Ht). apply (ti_few _ _ Hi).
Qed.

(** ** Changes that keep the queues in order *)

(** A thread may change as long as its waiting entries stay justified. *)
Lemma queues_put_thread k E h t th th' :
  queues_inv k E -> k_threads k !! t = Some th ->
  (forall q es e, E !! q = Some es -> e ∈ es -> q_thread e = t -> q_state e = Blocked ->
     on_queue (t_state th') = true /\ t_blocker th' = Some q) ->
  (on_queue (t_state th') = true ->
     exists q es, t_blocker th' = Some q /\ E !! q = Some es /\ t ∈ q_thread <$> es) ->
  queues_inv (put_thread (set_lists k h) t th') E.
Proof.
  intros Hq Ht Hb He. split; simpl.
  - apply (qi_rep _ _ Hq).
  - intros q es HE. destruct (qi_dom _ _ Hq q es HE) as (Hw & [Hnd Hl Hbl]).
    split; [done|]. split; [done| |]; simpl.
    + intros e Hin. rewrite lookup_insert_is_Some'. right. by apply Hl.
    + intros e Hin Hs. destruct (decide (q_thread e = t)) as [Et|Et].
      * exists th'. rewrite Et, lookup_insert_eq. split; [done|]. by apply (Hb q es e).
      * rewrite lookup_insert_ne by done. by apply Hbl.
  - intros u uh Hu Hs. apply lookup_insert_Some in Hu as [[<- <-]|[Hut Hu]]; [by apply He|].
    by apply (qi_entry _ _ Hq u uh).
Qed.

(** A queue may change as long as the threads that are blocked on it keep an entry. *)
Lemma queues_put_queue k E q w v es es' :
  queues_inv k E -> k_queues k !! q = Some w -> E !! q = Some es ->
  v_rep v es' -> v_capacity v <= MAX_THREADS -> v_allocation_steps v = 1 -> entries_ok k q es' ->
  (forall t, t ∈ q_thread <$> es -> t ∈ q_thread <$> es') ->
  queues_inv (put_queue k q (mkWaitQueue v (wq_is_moved w))) (<[q := es']> E).
Proof.
  intros Hq Hw HE Hv Hc Hst Hok Hkeep. split; simpl.
  - intros q' w' E'. apply lookup_insert_Some in E' as [[<- <-]|[Hne E']].
    + exists es'. by rewrite lookup_insert_eq.
    + destruct (qi_rep _ _ Hq q' w' E') as (es0 & ? & ?). exists es0.
      by rewrite lookup_insert_ne.
  - intros q' es0 E'. rewrite lookup_insert_is_Some'.
    apply lookup_insert_Some in E' as [[<- <-]|[Hne E']].
    + split; [by left|]. destruct Hok. by split.
    + destruct (qi_dom _ _ Hq q' es0 E') as [? []]. split; [by right|]. by split.
  - intros t th Ht Hs. destruct (qi_entry _ _ Hq t th Ht Hs) as (q' & es0 & Hb & HE' & Hin).
    exists q'. destruct (decide (q' = q)) as [->|Hne].
    + exists es'. rewrite lookup_insert_eq. split; [done|]. split; [done|]. apply Hkeep.
      by simplify_eq.
    + exists es0. by rewrite lookup_insert_ne.
Qed.

(** A change of queues leaves the thread lists alone. *)
Lemma threads_put_queue k A q w : threads_inv k A -> threads_inv (put_queue k q w) A.
Proof. intros [? ? ? ? ?]. by split. Qed.

Lemma tids_put_thread k h t th th' :
  tids_distinct k -> k_threads k !! t = Some th -> t_tid th' = t_tid th ->
  tids_distinct (put_thread (set_lists k h) t th').
Proof.
  intros Hd Ht Hid u v uh vh Hu Hv E. simpl in *.
  apply lookup_insert_Some in Hu as [[<- <-]|[Hu Hu']];
    apply lookup_insert_Some in Hv as [[<- <-]|[Hv Hv']]; [done|..].
  - eapply (Hd t v); [done..|congruence].
  - eapply (Hd u t); [done..|congruence].
  - by eapply (Hd u v).
Qed.

(** ** The operations on a thread *)

(** [Thread_wake_up] of a waiting thread none of whose entries is still waiting. *)
Lemma wake_up_spec k A E t th l :
  kinv k A E -> k_threads k !! t = Some th -> waiting_list (t_state th) = Some l ->
  (forall q es e, E !! q = Some es -> e ∈ es -> q_thread e = t -> q_state e <> Blocked) ->
  exists h p s r, Thread_wake_up k t
      = Done (put_thread (set_lists k h) t (thread_with th Ready None (t_sleep_ticks th))) /\
    A !! l = Some (p ++ t :: s) /\ A !! ready_threads = Some r /\
    kinv (put_thread (set_lists k h) t (thread_with th Ready None (t_sleep_ticks th)))
      (<[ready_threads := r ++ [t]]> (<[l := p ++ s]> A)) E.
Proof.
  intros [Hi Hq Hd] Ht Hl Hno.
  assert (Hl' : list_of_state (t_state th) = Some l) by (by destruct (t_state th)).
  destruct (thread_in_list _ _ _ _ _ Hi Ht Hl') as (p & s & HA).
  destruct (proj2 (ti_dom _ _ Hi ready_threads)) as [r Hr]; [by left|].
  destruct (transfer_inv k A t th l p s ready_threads r
              (thread_with th Ready None (t_sleep_ticks th))) as (h1 & h2 & E1 & E2 & Hi');
    [done..| |done|done|].
  { intros <-. destruct (t_state th); simplify_eq/=. }
  exists h2, p, s, r. unfold Thread_wake_up, get_thread. rewrite Ht. cbn [mbind exec_bind].
  rewrite Hl, E1. cbn [mbind exec_bind]. rewrite E2. split; [done|]. split; [done|]. split; [done|].
  split; [done| |by eapply tids_put_thread].
  eapply queues_put_thread; [done|exact Ht| |done].
  intros q es e HE Hin Ht' Hs. by destruct (Hno q es e).
Qed.

(** [Thread_block] of a running thread moves it to one of the two lists of blocked
    threads. *)
Lemma block_lists k A t th q ms :
  threads_inv k A -> k_threads k !! t = Some th -> t_state th = Ready ->
  exists h st ticks l ns p s,
    Thread_block k t q ms = Done (put_thread (set_lists k h) t (thread_with th st (Some q) ticks)) /\
    on_queue st = true /\ A !! ready_threads = Some (p ++ t :: s) /\ l <> ready_threads /\
    threads_inv (put_thread (set_lists k h) t (thread_with th st (Some q) ticks))
      (<[l := ns ++ [t]]> (<[ready_threads := p ++ s]> A)).
Proof.
  intros Hi Ht Hs. unfold Thread_block, get_thread. rewrite Ht. cbn [mbind exec_bind].
  destruct (thread_in_list k A t th ready_threads Hi Ht) as (p & s & HA); [by rewrite Hs|].
  set (st := if truthy ms then BlockedQueueTimed else BlockedQueue).
  set (l := if truthy ms then blocked_timed_threads else blocked_threads).
  set (ticks := if truthy ms then u32 (k_ticks k + ms) else t_sleep_ticks th).
  destruct (proj2 (ti_dom _ _ Hi l)) as [ns Hns].
  { unfold l. destruct (truthy ms); rewrite !elem_of_cons; auto. }
  assert (Hl : l <> ready_threads) by (unfold l; by destruct (truthy ms)).
  destruct (transfer_inv k A t th ready_threads p s l ns (thread_with th st (Some q) ticks))
    as (h1 & h2 & E1 & E2 & Hi'); [done|done|by rewrite Hs|done..
    |by unfold st, l; destruct (truthy ms)|].
  rewrite E1. cbn [mbind exec_bind]. exists h2, st, ticks, l, ns, p, s.
  split; [|split; [unfold st; by destruct (truthy ms)|done]].
  unfold l, st, ticks in *. destruct (truthy ms); by rewrite E2.
Qed.

(** A thread that blocks again on a queue in which it kept its entry. *)
Lemma block_again_spec k A E t th q es ms :
  kinv k A E -> k_threads k !! t = Some th -> t_state th = Ready ->
  E !! q = Some es -> t ∈ q_thread <$> es ->
  exists k' A', Thread_block k t q ms = Done k' /\ kinv k' A' E /\ k_queues k' = k_queues k.
Proof.
  intros [Hi Hq Hd] Ht Hs HE Hin.
  destruct (block_lists k A t th q ms Hi Ht Hs) as (h & st & ticks & l & ns & p & s & Eb & Hon & _ & _ & Hi').
  eexists _, _. split; [exact Eb|]. split; [|done]. split; [exact Hi'| |by eapply tids_put_thread].
  eapply queues_put_thread; [done|exact Ht| |by eauto].
  intros q' es' e HE' Hin' Ht' Hs'. exfalso. destruct (qi_dom _ _ Hq q' es' HE') as (_ & [_ _ Hb]).
  destruct (Hb e Hin' Hs') as (th0 & Ht0 & Hon0 & _). subst t. simplify_eq. by rewrite Hs in Hon0.
Qed.

Lemma sleep_spec k A E t th ms :
  kinv k A E -> k_threads k !! t = Some th -> t_state th = Ready ->
  exists h p s sl, let th' := thread_with th BlockedSleep (t_blocker th) (u32 (k_ticks k + ms)) in
    Thread_sleep k t ms = Done (put_thread (set_lists k h) t th') /\
    A !! ready_threads = Some (p ++ t :: s) /\ A !! sleeping_threads = Some sl /\
    kinv (put_thread (set_lists k h) t th')
      (<[sleeping_threads := sl ++ [t]]> (<[ready_threads := p ++ s]> A)) E.
Proof.
  intros [Hi Hq Hd] Ht Hs.
  destruct (thread_in_list k A t th ready_threads Hi Ht) as (p & s & HA); [by rewrite Hs|].
  destruct (proj2 (ti_dom _ _ Hi sleeping_threads)) as [sl Hsl]; [rewrite !elem_of_cons; auto|].
  set (th' := thread_with th BlockedSleep (t_blocker th) (u32 (k_ticks k + ms))).
  destruct (transfer_inv k A t th ready_threads p s sleeping_threads sl th')
    as (h1 & h2 & E1 & E2 & Hi'); [done|done|by rewrite Hs|done..|].
  exists h2, p, s, sl. cbn zeta. unfold Thread_sleep, get_thread. rewrite Ht. cbn [mbind exec_bind].
  rewrite E1. cbn [mbind exec_bind]. rewrite E2. split; [done|]. split; [done|]. split; [done|].
  split; [done| |by eapply tids_put_thread].
  eapply queues_put_thread; [done|exact Ht| |done].
  intros q es e HE Hin Ht' Hst. destruct (qi_dom _ _ Hq q es HE) as (_ & [_ _ Hb]).
  destruct (Hb e Hin Hst) as (th0 & E0 & Hon & _). subst t. simplify_eq. by rewrite Hs in Hon.
Qed.

(** ** The operations on a queue *)

Definition woken (e : Queue) (st : WaitState) : Queue := mkQueue (q_thread e) st.

Lemma entry_set_state_rep v p e s st :
  v_rep v (p ++ e :: s) ->
  exists v', entry_set_state v (alen p) st = Done v' /\ v_rep v' (p ++ woken e st :: s) /\
    v_capacity v' = v_capacity v /\ v_allocation_steps v' = v_allocation_steps v.
Proof.
  intros Hv. unfold entry_set_state. rewrite (v_rep_at _ _ _ _ Hv). cbn [mbind exec_bind].
  rewrite (slot_assign_Done _ _ e).
  - cbn [mbind exec_bind]. eexists; split; [done|]. split; [|done].
    pose proof (v_rep_fits _ _ Hv) as Hf. rewrite (v_rep_count _ _ Hv).
    assert (Hlen : alen (p ++ e :: s) = alen (p ++ woken e st :: s)) by by rewrite !alen_app, !alen_cons.
    rewrite Hlen, (v_rep_slots _ _ Hv). unfold alen at 1. rewrite Nat2Z.id.
    replace (<[length p := Some (mkQueue (q_thread e) st)]> (filled (p ++ e :: s) (v_capacity v)))
      with (filled (p ++ woken e st :: s) (v_capacity v)).
    + apply mkVector_rep; [by rewrite <- Hlen|apply (v_rep_steps _ _ Hv)].
    + unfold filled. rewrite !fmap_app, <- !app_assoc, insert_app_r_alt by by rewrite length_fmap.
      rewrite length_fmap, Nat.sub_diag. simpl. by rewrite Hlen.
  - apply alen_nonneg.
  - rewrite (v_rep_slots _ _ Hv). apply filled_lookup. unfold alen. rewrite Nat2Z.id.
    by rewrite list_lookup_middle.
Qed.

(** Changing the state of an entry to one that no longer waits. *)
Lemma entries_ok_woken k q p e s st :
  entries_ok k q (p ++ e :: s) -> st <> Blocked -> entries_ok k q (p ++ woken e st :: s).
Proof.
  intros [Hnd Hl Hb] Hst.
  assert (Hold : forall x, x ∈ p ++ woken e st :: s -> x = woken e st \/ x ∈ p ++ e :: s).
  { intros x. rewrite !elem_of_app, !elem_of_cons. tauto. }
  split.
  - by rewrite fmap_app in *.
  - intros x [->|Hx]%Hold; [|by apply Hl]. apply (Hl e). apply elem_of_app. right. by left.
  - intros x [->|Hx]%Hold Hs; [done|]. by apply Hb.
Qed.

Lemma woken_threads p e s st : q_thread <$> p ++ woken e st :: s = q_thread <$> p ++ e :: s.
Proof. by rewrite !fmap_app. Qed.

Lemma fmap_nodup_eq {X Y} (f : X -> Y) p s (e x : X) :
  NoDup (f <$> p ++ e :: s) -> x ∈ p ++ s -> f x <> f e.
Proof.
  rewrite fmap_app. simpl. intros Hnd Hx Hf. apply NoDup_middle in Hnd as (Hp & Hs & _).
  rewrite elem_of_app in Hx. destruct Hx as [Hx|Hx];
    [apply Hp|apply Hs]; rewrite <- Hf; by apply list_elem_of_fmap_2.
Qed.

(** A thread whose entry no longer waits has no other entry that does. *)
Lemma woken_no_blocked k E q p e s th st :
  queues_inv k E -> E !! q = Some (p ++ e :: s) -> k_threads k !! q_thread e = Some th ->
  t_blocker th = Some q -> st <> Blocked ->
  forall q' es e', <[q := p ++ woken e st :: s]> E !! q' = Some es -> e' ∈ es ->
    q_thread e' = q_thread e -> q_state e' <> Blocked.
Proof.
  intros Hq HE Ht Hbl Hst q' es e' HE1 Hin Hth Hsb.
  destruct (qi_dom _ _ Hq q _ HE) as (_ & Hok).
  apply lookup_insert_Some in HE1 as [[<- <-]|[Hne HE1]].
  - assert (e' = woken e st \/ e' ∈ p ++ s) as [->|Hin'];
      [|done|by apply (fmap_nodup_eq q_thread p s e e') in Hth; [|apply (eo_nodup _ _ _ Hok)|]].
    revert Hin. rewrite !elem_of_app, !elem_of_cons. tauto.
  - destruct (qi_dom _ _ Hq q' es HE1) as (_ & [_ _ Hb]).
    destruct (Hb e' Hin Hsb) as (th' & Ht' & _ & Hbl'). rewrite Hth in Ht'. congruence.
Qed.

(** Waking the thread of entry [e]. *)
Lemma wake_up_queue_spec k A E q p e s :
  kinv k A E -> E !! q = Some (p ++ e :: s) -> q_state e = Blocked ->
  exists k' th l p' s' r, WaitQueue_wake_up_queue k q (alen p) = Done k' /\
    k_threads k !! q_thread e = Some th /\
    A !! l = Some (p' ++ q_thread e :: s') /\ l <> ready_threads /\ A !! ready_threads = Some r /\
    kinv k' (<[ready_threads := r ++ [q_thread e]]> (<[l := p' ++ s']> A))
      (<[q := p ++ woken e WokenUpNormally :: s]> E) /\
    k_threads k' = <[q_thread e := thread_with th Ready None (t_sleep_ticks th)]> (k_threads k) /\
    k_current k' = k_current k /\ k_ticks k' = k_ticks k.
Proof.
  intros Hk HE Hs. destruct Hk as [Hi Hq Hd].
  destruct (qi_dom _ _ Hq q _ HE) as ([w Hw] & Hok).
  destruct (qi_rep _ _ Hq q w Hw) as (es & HE' & Hv & Hc & Hst). rewrite HE in HE'. simplify_eq.
  destruct (eo_blocked _ _ _ Hok e) as (th & Ht & Hon & Hbl);
    [apply elem_of_app; right; by left|done|].
  destruct (entry_set_state_rep _ p e s WokenUpNormally Hv) as (v' & Ev & Hv' & Hc' & Hst').
  unfold WaitQueue_wake_up_queue, get_queue. rewrite Hw. cbn [mbind exec_bind].
  rewrite (v_rep_at _ _ _ _ Hv). cbn [mbind exec_bind]. rewrite Ev. cbn [mbind exec_bind].
  set (k1 := put_queue k q (mkWaitQueue v' (wq_is_moved w))).
  assert (Hk1 : kinv k1 A (<[q := p ++ woken e WokenUpNormally :: s]> E)).
  { split; [by apply threads_put_queue| |done].
    eapply queues_put_queue; [done|done|done|done|congruence|congruence| |].
    - by apply entries_ok_woken.
    - intros t. by rewrite woken_threads. }
  assert (exists l, waiting_list (t_state th) = Some l) as [l Hl] by (destruct (t_state th); by eauto).
  destruct (wake_up_spec k1 A _ (q_thread e) th l Hk1 Ht Hl) as (h & p' & s' & r & E1 & HA & Hr & Hk').
  { by apply (woken_no_blocked k E q p e s th). }
  eexists _, th, l, p', s', r. split; [exact E1|]. split; [done|]. split; [done|].
  split; [destruct (t_state th); by simplify_eq/=|]. split; [done|]. split; [done|]. done.
Qed.

(** First waiting entry of a list of entries. *)
Lemma find_blocked v es :
  v_rep v es ->
  (Vector_find_if is_blocked_entry v = Done (alen es) /\ Forall (fun e => q_state e <> Blocked) es) \/
  (exists p e s, es = p ++ e :: s /\ q_state e = Blocked /\ Forall (fun e => q_state e <> Blocked) p /\
     Vector_find_if is_blocked_entry v = Done (alen p)).
Proof.
  intros Hv. destruct (find_if_rep v es is_blocked_entry Hv) as (i & Ei & Hi & Hbefore & Hat).
  assert (Hno : forall p s, es = p ++ s -> alen p <= i -> Forall (fun e => q_state e <> Blocked) p).
  { intros p s -> Hp. apply Forall_lookup. intros j x Hx Hs.
    assert (is_blocked_entry x = false) as Hf.
    { apply (Hbefore j x); [apply lookup_lt_Some in Hx; unfold alen in Hp; lia|].
      by apply lookup_app_l_Some. }
    unfold is_blocked_entry in Hf. by rewrite bool_decide_eq_true_2 in Hf. }
  destruct (decide (i = alen es)) as [->|Hne].
  - left. split; [done|]. apply (Hno es []); [by rewrite app_nil_r|lia].
  - right. destruct (lookup_lt_is_Some_2 es (Z.to_nat i)) as [e He]; [unfold alen in *; lia|].
    pose proof (Hat e He) as Hb. unfold is_blocked_entry in Hb. apply bool_decide_eq_true_1 in Hb.
    apply list_elem_of_split_length in He as (p & s & -> & Hlen).
    exists p, e, s. assert (alen p = i) as Hp by (unfold alen; lia).
    split; [done|]. split; [done|]. split; [by apply (Hno p (e :: s)); [|lia]|]. by rewrite Hp.
Qed.

Lemma queue_of k E q es :
  queues_inv k E -> E !! q = Some es ->
  exists w, k_queues k !! q = Some w /\ v_rep (wq_queue w) es /\
    v_capacity (wq_queue w) <= MAX_THREADS /\ v_allocation_steps (wq_queue w) = 1 /\ entries_ok k q es.
Proof.
  intros Hq HE. destruct (qi_dom _ _ Hq q es HE) as ([w Hw] & Hok).
  destruct (qi_rep _ _ Hq q w Hw) as (es' & HE' & ?). assert (es' = es) as -> by congruence.
  exists w. tauto.
Qed.

(** What a sequence of changes does to the ready list while thread [c] runs: others
    are appended, [c] may leave. *)
Inductive ready_step (c : Z) : list Z -> list Z -> Prop :=
| ready_wake t r : t ∉ r -> ready_step c r (r ++ [t])
| ready_leave p s : c ∉ p ++ s -> ready_step c (p ++ c :: s) (p ++ s).

Definition ready_of (A : lists) : list Z := default [] (A !! ready_threads).

(** What every call keeps: the invariant, the threads and who runs. *)
Record call_result k A (k' : kern) : Prop := {
  cr_inv : exists A' E', kinv k' A' E' /\ forall c, k_current k = Some c ->
    rtc (ready_step c) (ready_of A) (ready_of A');
  cr_current : k_current k' = k_current k;
  cr_dom : dom (k_threads k') = dom (k_threads k)
}.

Lemma ready_of_move (A : lists) l p s r t :
  l <> ready_threads -> ready_of (<[ready_threads := r ++ [t]]> (<[l := p ++ s]> A)) = r ++ [t].
Proof. intros. unfold ready_of. by rewrite lookup_insert_eq. Qed.

Lemma not_ready k A t l p s r :
  threads_inv k A -> A !! l = Some (p ++ t :: s) -> l <> ready_threads ->
  A !! ready_threads = Some r -> t ∉ r.
Proof.
  intros Hi HA Hne Hr Hin. apply Hne.
  eapply (ls_disjoint (k_lists k) A l ready_threads); [apply (ti_rep _ _ Hi)|done..| |done].
  apply elem_of_app. right. by left.
Qed.

Lemma wake_entry_spec k A E q p e s c :
  kinv k A E -> E !! q = Some (p ++ e :: s) -> q_state e = Blocked ->
  exists k' A', WaitQueue_wake_up_queue k q (alen p) = Done k' /\
    kinv k' A' (<[q := p ++ woken e WokenUpNormally :: s]> E) /\
    ready_of A' = ready_of A ++ [q_thread e] /\ ready_step c (ready_of A) (ready_of A') /\
    k_current k' = k_current k /\ dom (k_threads k') = dom (k_threads k).
Proof.
  intros Hk HE Hs.
  destruct (wake_up_queue_spec k A E q p e s Hk HE Hs)
    as (k' & th & l & p' & s' & r & Ek & Ht & HA & Hne & Hr & Hk' & Hth & Hc & _).
  exists k'. eexists. split; [done|]. split; [exact Hk'|].
  rewrite (ready_of_move A l p' s' r _ Hne). unfold ready_of. rewrite Hr. simpl. split; [done|].
  split; [|split; [done|rewrite Hth, dom_insert_lookup_L by (by rewrite Ht); done]].
  apply ready_wake. by eapply not_ready; [apply (ki_threads _ _ _ Hk)|..].
Qed.

(** [WaitQueue_wake_up] wakes the first waiting entry, and asserts that there is one. *)
Lemma queue_wake_up_spec k A E q es c :
  kinv k A E -> E !! q = Some es ->
  (WaitQueue_wake_up k q = Panic /\ Forall (fun e => q_state e <> Blocked) es) \/
  (exists p e s k' A', es = p ++ e :: s /\ q_state e = Blocked /\
     Forall (fun e => q_state e <> Blocked) p /\ WaitQueue_wake_up k q = Done k' /\
     kinv k' A' (<[q := p ++ woken e WokenUpNormally :: s]> E) /\
     ready_of A' = ready_of A ++ [q_thread e] /\ ready_step c (ready_of A) (ready_of A') /\
     k_current k' = k_current k /\ dom (k_threads k') = dom (k_threads k)).
Proof.
  intros Hk HE. destruct (queue_of k E q es (ki_queues _ _ _ Hk) HE) as (w & Hw & Hv & _).
  unfold WaitQueue_wake_up, get_queue, Vector_end. rewrite Hw. cbn [mbind exec_bind].
  rewrite (v_rep_count _ _ Hv).
  destruct (find_blocked _ _ Hv) as [[Ef Hno]|(p & e & s & -> & Hs & Hp & Ef)]; rewrite Ef.
  - left. cbn [mbind exec_bind]. by rewrite Z.eqb_refl.
  - right. cbn [mbind exec_bind].
    rewrite (proj2 (Z.eqb_neq (alen p) _)) by (rewrite alen_app, alen_cons; pose proof (alen_nonneg s); lia).
    destruct (wake_entry_spec k A E q p e s c Hk HE Hs) as (k' & A' & ?). simpl.
    exists p, e, s, k', A'. tauto.
Qed.

(** [WaitQueue_wake_up_all] leaves no entry waiting. *)
Lemma queue_wake_up_all_spec k A E q es :
  kinv k A E -> E !! q = Some es ->
  exists k' A' es', WaitQueue_wake_up_all k q = Done k' /\ kinv k' A' (<[q := es']> E) /\
    Forall (fun e => q_state e <> Blocked) es' /\ q_thread <$> es' = q_thread <$> es /\
    (forall c, rtc (ready_step c) (ready_of A) (ready_of A')) /\
    k_current k' = k_current k /\ dom (k_threads k') = dom (k_threads k).
Proof.
  intros Hk HE. destruct (queue_of k E q es (ki_queues _ _ _ Hk) HE) as (w & Hw & Hv & _).
  unfold WaitQueue_wake_up_all, get_queue. rewrite Hw. cbn [mbind exec_bind].
  rewrite (v_rep_nat _ _ Hv). unfold Vector_begin.
  match goal with |- context [for_ ?n0 ?i0 ?b0 ?s0] =>
    destruct (for_inv (fun i k' => exists A' p s, i = alen p /\ q_thread <$> p ++ s = q_thread <$> es /\
      kinv k' A' (<[q := p ++ s]> E) /\ Forall (fun e => q_state e <> Blocked) p /\
      (forall c, rtc (ready_step c) (ready_of A) (ready_of A')) /\
      k_current k' = k_current k /\ dom (k_threads k') = dom (k_threads k)) b0 n0 i0 s0)
      as (k' & Ek & A' & p & s' & Hp & Hth & Hk' & Hno & Hr & Hc & Hd) end.
  - exists A, [], es. simpl. rewrite insert_id by done. done.
  - intros i t Hi (A' & p & s & -> & Hth & Ht & Hno & Hr & Hc & Hd).
    assert (Hlen : length (p ++ s) = length es) by (by rewrite <- (length_fmap q_thread), Hth, length_fmap).
    rewrite length_app in Hlen. destruct s as [|e s]; [simpl in Hlen; unfold alen in Hi; lia|].
    destruct (queue_of t _ q (p ++ e :: s) (ki_queues _ _ _ Ht)) as (w' & Hw' & Hv' & _);
      [by rewrite lookup_insert_eq|].
    rewrite Hw'. cbn [mbind exec_bind]. rewrite (v_rep_at _ _ _ _ Hv').
    cbn [mbind exec_bind]. unfold is_blocked_entry. case_bool_decide as Hs.
    + assert (HE' : <[q := p ++ e :: s]> E !! q = Some (p ++ e :: s)) by by rewrite lookup_insert_eq.
      destruct (wake_up_queue_spec t A' _ q p e s Ht HE' Hs)
        as (k' & th & l & p' & s' & r & Ek & Hte & HA & Hne & Hre & Hk' & Hthr & Hcu & _).
      exists k'. split; [done|]. eexists _, (p ++ [woken e WokenUpNormally]), s.
      rewrite alen_snoc, <- app_assoc. split; [done|]. simpl. rewrite woken_threads. split; [done|].
      rewrite insert_insert_eq in Hk'. split; [exact Hk'|]. split; [by apply Forall_app_2; [|repeat constructor]|].
      split; [|split; [congruence|rewrite Hthr, dom_insert_lookup_L by (by rewrite Hte); done]].
      intros c. eapply rtc_r; [apply Hr|]. rewrite ready_of_move by done.
      unfold ready_of. rewrite Hre. simpl. apply ready_wake.
      by eapply not_ready; [apply (ki_threads _ _ _ Ht)|..].
    + exists t. split; [done|]. exists A', (p ++ [e]), s. rewrite alen_snoc, <- app_assoc.
      split; [done|]. split; [done|]. split; [done|].
      split; [by apply Forall_app_2; [|repeat constructor]|]. done.
  - exists k', A', (p ++ s'). split; [done|]. split; [done|].
    assert (Hlen : length (p ++ s') = length es) by (by rewrite <- (length_fmap q_thread), Hth, length_fmap).
    rewrite length_app in Hlen. destruct s'; [|simpl in Hlen; unfold alen in Hp; lia].
    rewrite app_nil_r in *. done.
Qed.

Lemma current_thread k t : k_current k = Some t -> current k = Done t.
Proof. unfold current. by intros ->. Qed.

(** There is room for another entry: entries belong to distinct threads. *)
Lemma entries_fit k A q es c :
  threads_inv k A -> entries_ok k q es -> is_Some (k_threads k !! c) -> c ∉ q_thread <$> es ->
  alen es < MAX_THREADS.
Proof.
  intros Hi Hok Hc Hno. pose proof (ti_few _ _ Hi) as Hfew.
  assert (alen (c :: (q_thread <$> es)) <= MAX_THREADS) as Hle.
  2: { rewrite alen_cons, alen_fmap in Hle. lia. }
  etrans; [|exact Hfew]. unfold alen. rewrite <- size_dom. apply inj_le.
  rewrite <- (size_list_to_set (C := gset Z)) by
    (apply NoDup_cons; split; [done|apply (eo_nodup _ _ _ Hok)]).
  apply subseteq_size. intros t Hin. apply elem_of_list_to_set in Hin. apply elem_of_dom.
  apply elem_of_cons in Hin as [->|Hin]; [done|].
  apply list_elem_of_fmap in Hin as (e & -> & Hin). by apply (eo_live _ _ _ Hok).
Qed.

(** Adding an entry to the vector of a queue. *)
Lemma push_entry_spec w es e :
  v_rep (wq_queue w) es -> v_capacity (wq_queue w) <= MAX_THREADS ->
  v_allocation_steps (wq_queue w) = 1 -> alen es < MAX_THREADS ->
  exists v, Vector_push_back true (wq_queue w) e = Done (v, alen es) /\ v_rep v (es ++ [e]) /\
    v_capacity v <= MAX_THREADS /\ v_allocation_steps v = 1.
Proof.
  intros Hv Hcap Hst Hfull. pose proof (v_rep_fits _ _ Hv) as Hfit.
  pose proof (v_rep_count _ _ Hv) as Hcount. pose proof (alen_nonneg es).
  unfold Vector_push_back, Vector_end.
  destruct (insert_rep true (wq_queue w) es [] e) as (v' & Ev & Hv' & Hst');
    [by rewrite app_nil_r|unfold v_can_grow, MAX_THREADS in *; rewrite app_nil_r; lia|by left|].
  rewrite Hcount, Ev. exists v'. split; [done|]. split; [done|]. split; [|congruence].
  rewrite (insert_capacity _ _ _ _ _ _ Ev), Hcount, Hst.
  destruct (Z.eqb_spec (alen es) (v_capacity (wq_queue w))); [|lia].
  rewrite u32_small; unfold MAX_THREADS in *; lia.
Qed.

(** A running thread has no entry that still waits. *)
Lemma ready_not_blocked k E t th q es e :
  queues_inv k E -> k_threads k !! t = Some th -> on_queue (t_state th) = false ->
  E !! q = Some es -> e ∈ es -> q_thread e = t -> q_state e <> Blocked.
Proof.
  intros Hq Ht Hs HE He Het Hse. destruct (qi_dom _ _ Hq q es HE) as (_ & [_ _ Hb]).
  destruct (Hb e He Hse) as (th0 & Ht0 & Hon & _). congruence.
Qed.

(** A thread that starts to wait, together with its new entry. *)
Lemma queues_enqueue k E h c th th' q w v es :
  queues_inv k E -> k_threads k !! c = Some th -> on_queue (t_state th) = false ->
  on_queue (t_state th') = true -> t_blocker th' = Some q ->
  E !! q = Some es -> k_queues k !! q = Some w -> c ∉ q_thread <$> es ->
  v_rep v (es ++ [mkQueue c Blocked]) -> v_capacity v <= MAX_THREADS -> v_allocation_steps v = 1 ->
  queues_inv (put_queue (put_thread (set_lists k h) c th') q (mkWaitQueue v (wq_is_moved w)))
    (<[q := es ++ [mkQueue c Blocked]]> E).
Proof.
  intros Hq Ht Hs Hon Hbl HE Hw Hno Hv Hcap Hst.
  set (k' := put_queue _ _ _).
  assert (Hold : forall q0 es0, E !! q0 = Some es0 -> entries_ok k' q0 es0).
  { intros q0 es0 HE0. destruct (qi_dom _ _ Hq q0 es0 HE0) as (_ & [Hn0 Hl0 Hb0]).
    split; [done| |]; simpl.
    - intros e He. rewrite lookup_insert_is_Some'. right. by apply Hl0.
    - intros e He Hse. rewrite lookup_insert_ne; [by apply Hb0|]. intros Heq.
      by apply (ready_not_blocked k E c th q0 es0 e). }
  assert (Hnew : k_threads k' !! c = Some th') by apply lookup_insert_eq.
  split; simpl.
  - intros q' w' E'. apply lookup_insert_Some in E' as [[<- <-]|[Hne E']].
    + eexists. by rewrite lookup_insert_eq.
    + rewrite lookup_insert_ne by done. by apply (qi_rep _ _ Hq).
  - intros q' es' E'. rewrite lookup_insert_is_Some'.
    apply lookup_insert_Some in E' as [[<- <-]|[Hne E']].
    2: { split; [right; by apply (qi_dom _ _ Hq q' es')|by apply Hold]. }
    split; [by left|]. destruct (Hold q es HE) as [Hn0 Hl0 Hb0]. split.
    + rewrite fmap_app. apply NoDup_app. split; [done|]. split; [|apply NoDup_singleton].
      intros x Hx Hx'. apply list_elem_of_singleton in Hx' as ->. done.
    + intros e [He|He]%elem_of_app; [by apply Hl0|]. apply list_elem_of_singleton in He as ->.
      exists th'. exact Hnew.
    + intros e [He|He]%elem_of_app Hse; [by apply Hb0|]. apply list_elem_of_singleton in He as ->.
      exists th'. split; [exact Hnew|done].
  - intros t uh Ht' Hon'. apply lookup_insert_Some in Ht' as [[<- <-]|[Hne Ht']].
    + exists q. eexists. rewrite lookup_insert_eq. split; [done|]. split; [done|].
      rewrite fmap_app. apply elem_of_app. right. by left.
    + destruct (qi_entry _ _ Hq t uh Ht' Hon') as (q' & es' & Hb & HE' & Hin). exists q'.
      destruct (decide (q' = q)) as [->|Hneq]; [|exists es'; by rewrite lookup_insert_ne].
      eexists. rewrite lookup_insert_eq. split; [done|]. split; [done|].
      rewrite fmap_app. apply elem_of_app. left. by simplify_eq.
Qed.

(** [WaitQueue_wait_begin] by a running thread that has no entry in the queue yet. *)
Lemma wait_begin_spec k A E c th q es ms :
  kinv k A E -> k_current k = Some c -> k_threads k !! c = Some th -> t_state th = Ready ->
  E !! q = Some es -> c ∉ q_thread <$> es ->
  exists st k' A', WaitQueue_wait_begin k q ms = Done (st, alen es, k') /\
    kinv k' A' (<[q := es ++ [mkQueue c Blocked]]> E) /\
    (exists p s, ready_of A = p ++ c :: s /\ ready_of A' = p ++ s) /\
    k_current k' = k_current k /\ dom (k_threads k') = dom (k_threads k).
Proof.
  intros Hk Hc Ht Hs HE Hno. destruct Hk as [Hi Hq Hd].
  destruct (block_lists k A c th q ms Hi Ht Hs) as (h & st & ticks & l & ns & p & s & Eb & Hon & HA & Hl & Hi').
  destruct (queue_of k E q es Hq HE) as (w & Hw & Hv & Hcap & Hst & Hok).
  destruct (push_entry_spec w es (mkQueue c Blocked) Hv Hcap Hst) as (v & Ev & Hv' & Hcap' & Hst').
  { apply (entries_fit k A q es c); [done|done|by rewrite Ht|done]. }
  unfold WaitQueue_wait_begin. rewrite (current_thread k c Hc). cbn [mbind exec_bind].
  rewrite Eb. cbn [mbind exec_bind]. unfold get_queue. cbn [k_queues put_thread set_lists].
  rewrite Hw. cbn [mbind exec_bind]. rewrite Ev. cbn [mbind exec_bind].
  eexists _, _, _. split; [reflexivity|]. split; [|split; [|split; [done|]]].
  - split; [apply threads_put_queue, Hi'| |by eapply (tids_put_thread k h c th)].
    apply (queues_enqueue k E h c th _ q w v es); try done. by rewrite Hs.
  - exists p, s. unfold ready_of. rewrite HA. split; [done|].
    by rewrite lookup_insert_ne, lookup_insert_eq by done.
  - simpl. apply dom_insert_lookup_L. by rewrite Ht.
Qed.

(** ** The timer *)

Lemma set_lists_same k : set_lists k (k_lists k) = k.
Proof. by destruct k. Qed.

(** Changing only the time a thread waits for. *)
Lemma kinv_put_ticks k A E t th n :
  kinv k A E -> k_threads k !! t = Some th ->
  kinv (put_thread k t (thread_with th (t_state th) (t_blocker th) n)) A E.
Proof.
  intros [Hi Hq Hd] Ht. rewrite <- (set_lists_same k).
  split; [|eapply queues_put_thread|by eapply tids_put_thread].
  - destruct Hi as [Hr Hdom Hs Hl Hf]. split; simpl; [done|done| | |].
    + intros u uh Hu. apply lookup_insert_Some in Hu as [[<- <-]|[_ Hu]]; [|by apply Hs].
      apply (Hs t th Ht).
    + intros l ns u HA Hu. rewrite lookup_insert_is_Some'. right. by apply (Hl l ns).
    + by rewrite (size_insert_thread k t th).
  - done.
  - exact Ht.
  - simpl. intros q es e HE He Het Hs. destruct (qi_dom _ _ Hq q es HE) as (_ & [_ _ Hb]).
    destruct (Hb e He Hs) as (th0 & Ht0 & ?). by simplify_eq.
  - simpl. intros Hon. by apply (qi_entry _ _ Hq t th).
Qed.

(** The state of a thread in a waiting list. *)
Lemma state_of_member k A t th l ns :
  threads_inv k A -> k_threads k !! t = Some th -> A !! l = Some ns -> t ∈ ns ->
  list_of_state (t_state th) = Some l.
Proof. intros Hi Ht HA Hin. destruct (ti_state _ _ Hi t th Ht) as (_ & _ & Hs). by apply (Hs l ns). Qed.

(** The thread at an address has slept long enough. *)
Definition is_due k (t : Z) : bool :=
  match k_threads k !! t with Some th => t_sleep_ticks th <=? k_ticks k | None => false end.

(** What the body of the loop over list [l] promises for a due thread. *)
Definition wakes (l : Z) (due : kern -> Z -> exec kern) : Prop :=
  forall k A E t th p s r, kinv k A E -> k_threads k !! t = Some th ->
    A !! l = Some (p ++ t :: s) -> A !! ready_threads = Some r ->
    exists k' E', due (put_thread k t (thread_with th (t_state th) (t_blocker th) 0)) t = Done k' /\
      kinv k' (<[ready_threads := r ++ [t]]> (<[l := p ++ s]> A)) E' /\
      (forall u, u <> t -> k_threads k' !! u = k_threads k !! u) /\
      k_ticks k' = k_ticks k /\ k_current k' = k_current k /\ dom (k_threads k') = dom (k_threads k).

(** The lists after the threads [d] of [d ++ rest] have been looked at. *)
Definition after_turns (A : lists) (l : Z) (due : Z -> bool) (r d rest : list Z) : lists :=
  <[ready_threads := r ++ List.filter due d]>
    (<[l := List.filter (fun t => negb (due t)) d ++ rest]> A).

Lemma after_turns_due A l due r d t rest :
  l <> ready_threads -> due t = true ->
  <[ready_threads := (r ++ List.filter due d) ++ [t]]>
    (<[l := List.filter (fun t => negb (due t)) d ++ rest]> (after_turns A l due r d (t :: rest)))
  = after_turns A l due r (d ++ [t]) rest.
Proof.
  intros Hl Hd. unfold after_turns. rewrite !List.filter_app. simpl. rewrite Hd. simpl.
  rewrite app_nil_r, app_assoc. rewrite (insert_insert_ne _ l ready_threads) by done.
  by rewrite !insert_insert_eq.
Qed.

Lemma after_turns_not_due A l (due : Z -> bool) r d t rest :
  due t = false -> after_turns A l due r d (t :: rest) = after_turns A l due r (d ++ [t]) rest.
Proof.
  intros Hd. unfold after_turns. rewrite !List.filter_app. simpl. rewrite Hd. simpl.
  by rewrite app_nil_r, <- app_assoc.
Qed.

Lemma after_turns_lookup A l due r d rest :
  l <> ready_threads ->
  after_turns A l due r d rest !! l = Some (List.filter (fun t => negb (due t)) d ++ rest) /\
  after_turns A l due r d rest !! ready_threads = Some (r ++ List.filter due d).
Proof.
  intros Hl. unfold after_turns. by rewrite lookup_insert_ne, !lookup_insert_eq by done.
Qed.

(** The state of the loop when the threads of [d] have been looked at. *)
Definition turns_inv k A l r (d rest : list Z) (k' : kern) : Prop :=
  exists E', kinv k' (after_turns A l (is_due k) r d rest) E' /\
    (forall u, u ∉ d -> k_threads k' !! u = k_threads k !! u) /\
    k_ticks k' = k_ticks k /\ k_current k' = k_current k /\ dom (k_threads k') = dom (k_threads k).

Lemma sleeper_turn_spec l due k A r d t rest k' :
  l <> ready_threads -> wakes l due -> NoDup (d ++ t :: rest) ->
  turns_inv k A l r d (t :: rest) k' ->
  exists k'', wake_sleeper_turn l due (k', PNode t) = Done (inl (k'', front_it l rest)) /\
    turns_inv k A l r (d ++ [t]) rest k''.
Proof.
  intros Hl Hw Hnd (E & Hk & Hsame & Hti & Hcu & Hdo).
  apply NoDup_middle in Hnd as (Hd & Hrest & _).
  pose proof (ti_rep _ _ (ki_threads _ _ _ Hk)) as Hrep.
  destruct (after_turns_lookup A l (is_due k) r d (t :: rest) Hl) as [HA Hre].
  set (before := List.filter (fun t => negb (is_due k t)) d) in *.
  assert (Hin : t ∈ before ++ t :: rest) by (apply elem_of_app; right; by left).
  destruct (ti_live _ _ (ki_threads _ _ _ Hk) _ _ _ HA Hin) as [th Ht].
  unfold wake_sleeper_turn. rewrite bool_decide_eq_false_2 by done.
  rewrite (ls_next_law _ _ _ _ _ _ Hrep HA), (ls_deref_law _ _ _ _ _ Hrep HA Hin).
  cbn [mbind exec_bind]. unfold get_thread. rewrite Ht. cbn [mbind exec_bind].
  assert (Hdue : is_due k t = (t_sleep_ticks th <=? k_ticks k')).
  { unfold is_due. rewrite <- (Hsame t Hd), Ht. by rewrite Hti. }
  destruct (t_sleep_ticks th <=? k_ticks k').
  - destruct (Hw k' _ E t th before rest _ Hk Ht HA Hre) as (k'' & E' & Ek & Hk'' & Hs'' & Ht'' & Hc'' & Hd'').
    rewrite Ek. cbn [mbind exec_bind]. exists k''. split; [done|]. exists E'.
    rewrite <- (after_turns_due A l (is_due k) r d t rest Hl Hdue).
    split; [exact Hk''|]. split; [|split; [congruence|split; congruence]].
    intros u Hu. rewrite not_elem_of_app, list_elem_of_singleton in Hu. rewrite Hs'' by tauto.
    apply Hsame. tauto.
  - exists k'. split; [done|]. exists E. rewrite <- (after_turns_not_due A l (is_due k) r d t rest Hdue).
    split; [exact Hk|]. split; [|done]. intros u Hu. rewrite not_elem_of_app in Hu. apply Hsame. tauto.
Qed.

Lemma sleepers_turns l due k A r d rest k' fuel :
  l <> ready_threads -> wakes l due -> NoDup (d ++ rest) -> (length rest < fuel)%nat ->
  turns_inv k A l r d rest k' ->
  exists k'', while fuel (wake_sleeper_turn l due) (k', front_it l rest) = Done k'' /\
    turns_inv k A l r (d ++ rest) [] k''.
Proof.
  intros Hl Hw. revert d k' fuel. induction rest as [|t rest IH]; intros d k' fuel Hnd Hf Hi;
    (destruct fuel as [|fuel]; [lia|]).
  - exists k'. cbn [while front_it]. unfold wake_sleeper_turn.
    rewrite bool_decide_eq_true_2 by done. rewrite app_nil_r. done.
  - destruct (sleeper_turn_spec l due k A r d t rest k' Hl Hw Hnd Hi) as (k1 & E1 & Hi1).
    cbn [while front_it]. rewrite E1. cbn [mbind exec_bind].
    destruct (IH (d ++ [t]) k1 fuel) as (k2 & E2 & Hi2);
      [by rewrite <- app_assoc|simpl in Hf; lia|done|].
    exists k2. rewrite <- app_assoc in Hi2. done.
Qed.

(** The loop moves exactly the due threads, in their order, to the end of the ready
    list, and ends. *)
Lemma sleepers_loop_spec l due k A E ns r :
  kinv k A E -> A !! l = Some ns -> A !! ready_threads = Some r -> l <> ready_threads ->
  wakes l due ->
  exists k', wake_sleepers_loop l due k = Done k' /\ turns_inv k A l r ns [] k'.
Proof.
  intros Hk HA Hr Hl Hw. unfold wake_sleepers_loop.
  pose proof (ti_rep _ _ (ki_threads _ _ _ Hk)) as Hrep.
  rewrite (ls_begin_law _ _ _ _ Hrep HA), (ls_size_law _ _ _ _ Hrep HA). cbn [mbind exec_bind].
  destruct (sleepers_turns l due k A r [] ns k (S (Z.to_nat (alen ns)))) as (k' & Ek & Hi);
    [done|done|apply (ls_nodup _ _ _ _ Hrep HA)|unfold alen; lia| |by exists k'].
  exists E. split; [|done]. unfold after_turns. simpl. rewrite app_nil_r.
  rewrite (insert_id A l ns) by done. by rewrite insert_id.
Qed.

(** A list splits at a thread in one way only. *)
Lemma same_split k A l t p s p' s' :
  threads_inv k A -> A !! l = Some (p ++ t :: s) -> A !! l = Some (p' ++ t :: s') -> p ++ s = p' ++ s'.
Proof.
  intros Hi HA HA'. pose proof (ls_nodup _ _ _ _ (ti_rep _ _ Hi) HA) as Hnd.
  rewrite HA in HA'. injection HA' as HA'.
  rewrite <- (filter_middle p s t Hnd), <- (filter_middle p' s' t); [by rewrite HA'|by rewrite <- HA'].
Qed.

Lemma dom_put_twice k t th th1 th2 :
  k_threads k !! t = Some th ->
  dom (<[t := th2]> (<[t := th1]> (k_threads k))) = dom (k_threads k).
Proof. intros Ht. rewrite insert_insert_eq. apply dom_insert_lookup_L. by rewrite Ht. Qed.

(** The two bodies. *)
Lemma wakes_sleeping : wakes sleeping_threads Thread_wake_up.
Proof.
  intros k A E t th p s r Hk Ht HA Hr.
  assert (Hin : t ∈ p ++ t :: s) by (apply elem_of_app; right; by left).
  pose proof (state_of_member _ _ _ _ _ _ (ki_threads _ _ _ Hk) Ht HA Hin) as Hs.
  set (th0 := thread_with th (t_state th) (t_blocker th) 0). set (k1 := put_thread k t th0).
  assert (Hk1 : kinv k1 A E) by by apply kinv_put_ticks.
  assert (Ht1 : k_threads k1 !! t = Some th0) by apply lookup_insert_eq.
  assert (Hst : t_state th = BlockedSleep) by (destruct (t_state th); by simplify_eq/=).
  destruct (wake_up_spec k1 A E t th0 sleeping_threads Hk1 Ht1) as (h & p' & s' & r' & E1 & HA' & Hr' & Hk');
    [simpl; by rewrite Hst| |].
  { intros q es e HE He Het. eapply (ready_not_blocked k1 E t th0 q es e); try done;
      [apply (ki_queues _ _ _ Hk1)|simpl; by rewrite Hst]. }
  eexists _, E. split; [exact E1|]. assert (r' = r) as -> by congruence.
  rewrite (same_split _ _ _ _ _ _ _ _ (ki_threads _ _ _ Hk) HA HA'). split; [exact Hk'|]. simpl. split; [intros u Hu; by rewrite !lookup_insert_ne|].
  split; [done|]. split; [done|]. apply (dom_put_twice k _ th _ _ Ht).
Qed.

Lemma entries_live_spec k q v es :
  v_rep v es -> entries_ok k q es -> entries_live k v = Done tt.
Proof.
  intros Hv Hok. unfold entries_live. rewrite (v_rep_nat _ _ Hv).
  match goal with |- for_ ?n ?i ?b ?s = _ =>
    destruct (for_inv (fun _ _ => True) b n i s) as ([] & E & _) end; [done| |done].
  intros j [] Hj _. exists tt. split; [|done].
  destruct (lookup_lt_is_Some_2 es (Z.to_nat j)) as [e He]; [lia|].
  rewrite (v_rep_read v es j e) by (done || lia). cbn [mbind exec_bind].
  destruct (eo_live _ _ _ Hok e) as [th Ht]; [by eapply list_elem_of_lookup_2|].
  unfold get_thread. by rewrite Ht.
Qed.

(** The search by identifier finds the entry of the thread. *)
Lemma find_tid_spec k A E q p e s v th :
  kinv k A E -> E !! q = Some (p ++ e :: s) -> v_rep v (p ++ e :: s) ->
  k_threads k !! q_thread e = Some th ->
  Vector_find_if (has_tid k (t_tid th)) v = Done (alen p).
Proof.
  intros Hk HE Hv Ht. destruct (queue_of _ _ _ _ (ki_queues _ _ _ Hk) HE) as (_ & _ & _ & _ & _ & Hok).
  destruct (find_if_rep v _ (has_tid k (t_tid th)) Hv) as (i & Ei & Hi & Hbefore & Hat).
  rewrite Ei. f_equal. assert (He : (p ++ e :: s) !! length p = Some e) by by rewrite list_lookup_middle.
  assert (Hself : has_tid k (t_tid th) e = true) by (unfold has_tid; rewrite Ht; apply Z.eqb_refl).
  assert (Hle : i <= alen p).
  { destruct (Z.le_gt_cases i (alen p)); [done|]. rewrite (Hbefore (length p) e) in Hself; [done| |done].
    unfold alen in *. lia. }
  destruct (lookup_lt_is_Some_2 (p ++ e :: s) (Z.to_nat i)) as [x Hx].
  { rewrite length_app. simpl. unfold alen in *. lia. }
  pose proof (Hat x Hx) as Hm. unfold has_tid in Hm.
  destruct (k_threads k !! q_thread x) as [xh|] eqn:Hxh; [|done]. apply Z.eqb_eq in Hm.
  pose proof (ki_tids _ _ _ Hk _ _ _ _ Hxh Ht Hm) as Hsame.
  assert (Z.to_nat i = length p); [|unfold alen; lia].
  eapply (NoDup_lookup (q_thread <$> p ++ e :: s)); [apply (eo_nodup _ _ _ Hok)| |].
  - rewrite list_lookup_fmap, Hx. done.
  - rewrite list_lookup_fmap, He. simpl. by rewrite Hsame.
Qed.

Lemma handle_timeout_spec k A E q p e s th :
  kinv k A E -> E !! q = Some (p ++ e :: s) -> k_threads k !! q_thread e = Some th ->
  exists w, WaitQueue_handle_thread_timeout k q (q_thread e) = Done (put_queue k q w) /\
    kinv (put_queue k q w) A (<[q := p ++ woken e Timeout :: s]> E).
Proof.
  intros Hk HE Ht. destruct (queue_of _ _ _ _ (ki_queues _ _ _ Hk) HE) as (w & Hw & Hv & Hc & Hst & Hok).
  unfold WaitQueue_handle_thread_timeout, get_thread, get_queue. rewrite Ht, Hw. cbn [mbind exec_bind].
  rewrite (entries_live_spec k q _ _ Hv Hok). cbn [mbind exec_bind].
  rewrite (find_tid_spec k A E q p e s _ th Hk HE Hv Ht). cbn [mbind exec_bind].
  unfold Vector_end. rewrite (v_rep_count _ _ Hv), alen_app, alen_cons. pose proof (alen_nonneg s).
  rewrite (proj2 (Z.eqb_neq (alen p) _)) by lia. cbn [negb ASSERT mbind exec_bind].
  destruct (entry_set_state_rep _ p e s Timeout Hv) as (v & Ev & Hv' & Hc' & Hst').
  rewrite Ev. cbn [mbind exec_bind]. eexists. split; [done|].
  split; [apply threads_put_queue, Hk| |apply (ki_tids _ _ _ Hk)].
  eapply queues_put_queue; [apply Hk|done|done|done|congruence|congruence| |].
  - by apply entries_ok_woken.
  - intros t. by rewrite woken_threads.
Qed.

Lemma wakes_timed : wakes blocked_timed_threads timed_out.
Proof.
  intros k A E t th p s r Hk Ht HA Hr.
  assert (Hin : t ∈ p ++ t :: s) by (apply elem_of_app; right; by left).
  pose proof (state_of_member _ _ _ _ _ _ (ki_threads _ _ _ Hk) Ht HA Hin) as Hs.
  set (th0 := thread_with th (t_state th) (t_blocker th) 0). set (k1 := put_thread k t th0).
  assert (Hk1 : kinv k1 A E) by by apply kinv_put_ticks.
  assert (Ht1 : k_threads k1 !! t = Some th0) by apply lookup_insert_eq.
  assert (Hst : t_state th = BlockedQueueTimed) by (destruct (t_state th); by simplify_eq/=).
  destruct (qi_entry _ _ (ki_queues _ _ _ Hk1) t th0 Ht1) as (q & es & Hb & HE & Hen);
    [simpl; by rewrite Hst|].
  apply list_elem_of_fmap in Hen as (e & -> & He). apply list_elem_of_split in He as (ep & es' & ->).
  destruct (handle_timeout_spec k1 A E q ep e es' th0 Hk1 HE Ht1) as (w & Ew & Hk2).
  unfold timed_out. unfold get_thread at 1. rewrite Ht1. cbn [mbind exec_bind]. rewrite Hb, Ew.
  cbn [mbind exec_bind].
  destruct (wake_up_spec (put_queue k1 q w) A _ (q_thread e) th0 blocked_timed_threads Hk2 Ht1)
    as (h & p' & s' & r' & E1 & HA' & Hr' & Hk'); [simpl; by rewrite Hst| |].
  { by apply (woken_no_blocked k1 E q ep e es' th0 Timeout); [apply Hk1|..]. }
  eexists _, _. split; [exact E1|]. assert (r' = r) as -> by congruence.
  rewrite (same_split _ _ _ _ _ _ _ _ (ki_threads _ _ _ Hk) HA HA'). split; [exact Hk'|]. simpl. split; [intros u Hu; by rewrite !lookup_insert_ne|].
  split; [done|]. split; [done|]. apply (dom_put_twice k _ th _ _ Ht).
Qed.

(** The whole of [wake_up_sleepers]. *)
Lemma wake_up_sleepers_spec k A E r sl bt :
  kinv k A E -> A !! ready_threads = Some r -> A !! sleeping_threads = Some sl ->
  A !! blocked_timed_threads = Some bt ->
  exists k' A' E', Thread_wake_up_sleepers k = Done k' /\ kinv k' A' E' /\
    A' !! ready_threads = Some (r ++ List.filter (is_due k) sl ++ List.filter (is_due k) bt) /\
    A' !! sleeping_threads = Some (List.filter (fun t => negb (is_due k t)) sl) /\
    A' !! blocked_timed_threads = Some (List.filter (fun t => negb (is_due k t)) bt) /\
    A' !! blocked_threads = A !! blocked_threads /\
    k_ticks k' = k_ticks k /\ k_current k' = k_current k /\ dom (k_threads k') = dom (k_threads k).
Proof.
  intros Hk Hr Hsl Hbt. unfold Thread_wake_up_sleepers.
  destruct (sleepers_loop_spec sleeping_threads Thread_wake_up k A E sl r Hk Hsl Hr)
    as (k1 & E1 & E1' & Hk1 & Hs1 & Ht1 & Hc1 & Hd1); [done|apply wakes_sleeping|].
  rewrite E1. cbn [mbind exec_bind].
  set (A1 := after_turns A sleeping_threads (is_due k) r sl []) in *.
  destruct (after_turns_lookup A sleeping_threads (is_due k) r sl []) as [Hsl1 Hr1]; [done|].
  assert (Hbt1 : A1 !! blocked_timed_threads = Some bt)
    by (unfold A1, after_turns; by rewrite !lookup_insert_ne).
  destruct (sleepers_loop_spec blocked_timed_threads timed_out k1 A1 E1' bt _ Hk1 Hbt1 Hr1)
    as (k2 & E2 & E2' & Hk2 & Hs2 & Ht2 & Hc2 & Hd2); [done|apply wakes_timed|].
  assert (Hdue : forall t, t ∈ bt -> is_due k1 t = is_due k t).
  { intros t Hin. unfold is_due. rewrite Ht1, Hs1; [done|]. intros Hsl'.
    assert (sleeping_threads = blocked_timed_threads) as Hx; [|done].
    eapply (ls_disjoint (k_lists k) A); [apply (ti_rep _ _ (ki_threads _ _ _ Hk))|done..]. }
  assert (Hf : List.filter (is_due k1) bt = List.filter (is_due k) bt /\
    List.filter (fun t => negb (is_due k1 t)) bt = List.filter (fun t => negb (is_due k t)) bt).
  { split; apply List.filter_ext_in; intros t Hin; apply list_elem_of_In in Hin;
      by rewrite (Hdue t Hin). }
  destruct Hf as [Hf1 Hf2].
  destruct (after_turns_lookup A1 blocked_timed_threads (is_due k1)
    (r ++ List.filter (is_due k) sl) bt []) as [Hbt2 Hr2]; [done|].
  eexists k2, _, E2'. split; [done|]. split; [exact Hk2|].
  rewrite Hr2, Hbt2, Hf1, Hf2, app_nil_r, app_assoc.
  split; [done|]. fold A1 in Hsl1. unfold after_turns at 1. rewrite !lookup_insert_ne by done.
  rewrite Hsl1, app_nil_r. split; [done|]. split; [done|].
  split; [unfold after_turns, A1; rewrite !lookup_insert_ne by done; unfold after_turns;
          by rewrite !lookup_insert_ne by done|].
  split; [congruence|]. split; congruence.
Qed.

End Threads.

(** * Properties *)

(** C17: a timer tick wakes exactly the threads whose time has come. In a consistent
    state [wake_up_sleepers] terminates and succeeds; the sleeping threads and then the
    threads blocked with a time-out that are due move to the end of the ready list, in
    the order in which they waited; every other thread stays in its list; and the state
    stays consistent, every thread being in the list of its state and every blocked
    thread having an entry in the queue it is blocked on. *)
Theorem timer_wakes_exactly_due {H P} `{ListStore H} `{IdPool P} (k : kernel H P) (A : lists)
    (E : gmap Z (list Queue)) (r sl bt : list Z) :
  kinv k A E -> A !! ready_threads = Some r -> A !! sleeping_threads = Some sl ->
  A !! blocked_timed_threads = Some bt ->
  exists k' A' E', Thread_wake_up_sleepers k = Done k' /\ kinv k' A' E' /\
    A' !! ready_threads = Some (r ++ List.filter (is_due k) sl ++ List.filter (is_due k) bt) /\
    A' !! sleeping_threads = Some (List.filter (fun t => negb (is_due k t)) sl) /\
    A' !! blocked_timed_threads = Some (List.filter (fun t => negb (is_due k t)) bt) /\
    A' !! blocked_threads = A !! blocked_threads /\
    k_ticks k' = k_ticks k /\ k_current k' = k_current k /\ dom (k_threads k') = dom (k_threads k).
Proof. apply wake_up_sleepers_spec. Qed.

(** Three threads of one process: 100 runs, 101 is ready, 102 sleeps until tick 5. *)
Definition sample_thread (tid : Z) (state : ThreadState) (ticks : Z) : Thread :=
  mkThread tid 1 state PrivilegeKernel None 0x3000 ticks 0 0 0.

Definition sample_nodes : node_heap :=
  foldr (fun n h => IntrusiveListNode_new h n) (mkHeap ∅ ∅) [100; 101; 102].

Definition sample_lists : node_heap :=
  IntrusiveList_new (IntrusiveList_new (IntrusiveList_new (IntrusiveList_new sample_nodes
    blocked_timed_threads) blocked_threads) sleeping_threads) ready_threads.

Definition no_threads : lists :=
  <[ready_threads := []]> (<[sleeping_threads := []]> (<[blocked_threads := []]>
    (<[blocked_timed_threads := []]> ∅))).

Definition sample_store : lists :=
  <[ready_threads := [100; 101]]> (<[sleeping_threads := [102]]> (<[blocked_threads := []]>
    (<[blocked_timed_threads := []]> ∅))).

Definition sample_calls : list il_call :=
  [CallPushBack ready_threads 100; CallPushBack ready_threads 101; CallPushBack sleeping_threads 102].

Definition sample_kernel (ticks : Z) : kernel node_heap Bitmap :=
  mkKernel (match il_run sample_lists sample_calls with Done h => h | _ => sample_lists end)
    (<[100 := sample_thread 0 Ready 0]> (<[101 := sample_thread 1 Ready 0]>
      (<[102 := sample_thread 2 BlockedSleep 5]> ∅)))
    (Some 100) (mkBitmap 8 [0; 0]) ticks ∅ (<[1 := mkProcessInfo 0 0x1000 0x2000 [100; 101; 102]]> ∅)
    sample_memory sample_segments.

Lemma sample_store_rep :
  heap_rep (k_lists (sample_kernel 0)) sample_store.
Proof.
  assert (Hr : heap_rep sample_lists no_threads).
  { unfold sample_lists, no_threads. repeat (apply new_list_heap_rep; [|done]). apply fresh_nodes_rep. }
  assert (Hok : calls_ok sample_lists no_threads sample_calls).
  { repeat (apply Forall_cons; split; [split; by eexists|]). apply Forall_nil. exact I. }
  assert (Hroom : room no_threads (alen sample_calls)).
  { intros l ns E. unfold no_threads in E.
    repeat (apply lookup_insert_Some in E as [[<- <-]|[_ E]]; [reflexivity|]). done. }
  pose proof (il_run_refines sample_calls sample_lists no_threads Hr Hok Hroom) as Hrun.
  assert (Habs : abs_run no_threads sample_calls = Done sample_store) by (vm_compute; reflexivity).
  rewrite Habs in Hrun. unfold sample_kernel. cbn [k_lists].
  by destruct (il_run sample_lists sample_calls).
Qed.

Lemma sample_threads_inv ticks : threads_inv (sample_kernel ticks) sample_store.
Proof.
  split.
  - exact sample_store_rep.
  - intros l. unfold sample_store. rewrite !lookup_insert_is_Some', lookup_empty.
    rewrite !elem_of_cons, elem_of_nil. split.
    + intros [|[|[|[|[? [=]]]]]]; auto.
    + intros [|[|[|[|[]]]]]; auto.
  - intros t th Ht. cbn [sample_kernel k_threads] in Ht.
    assert (Hlists : forall l ns, sample_store !! l = Some ns ->
      (l = ready_threads /\ ns = [100; 101]) \/ (l = sleeping_threads /\ ns = [102]) \/
      ((l = blocked_threads \/ l = blocked_timed_threads) /\ ns = [])).
    { intros l ns E. unfold sample_store in E.
      repeat (apply lookup_insert_Some in E as [[<- <-]|[_ E]]; [tauto|]). done. }
    repeat (apply lookup_insert_Some in Ht as [[<- <-]|[_ Ht]];
      [split; [vm_compute; by eexists|]; split; [by eexists|]; intros l ns E;
       destruct (Hlists l ns E) as [[-> ->]|[[-> ->]|[[-> | ->] ->]]];
       cbn [t_state sample_thread]; refine (bool_decide_unpack _ _); vm_compute; exact I|]).
    done.
  - intros l ns t E Hin. unfold sample_store in E.
    repeat (apply lookup_insert_Some in E as [[<- <-]|[_ E]];
      [repeat (apply elem_of_cons in Hin as [->|Hin]; [by eexists|]); by apply not_elem_of_nil in Hin|]).
    done.
  - vm_compute. congruence.
Qed.

Lemma sample_kinv ticks : kinv (sample_kernel ticks) sample_store ∅.
Proof.
  split; [apply sample_threads_inv|split|].
  - intros q w E. done.
  - intros q es E. done.
  - intros t th Ht. cbn [sample_kernel k_threads] in Ht.
    repeat (apply lookup_insert_Some in Ht as [[<- <-]|[_ Ht]]; [done|]). done.
  - intros t u th uh Ht Hu. cbn [sample_kernel k_threads] in *.
    repeat (apply lookup_insert_Some in Ht as [[<- <-]|[_ Ht]];
      [repeat (apply lookup_insert_Some in Hu as [[<- <-]|[_ Hu]]; [done|]); done|]). done.
Qed.

Lemma timer_wakes_exactly_due_witness :
  exists k' A' E', Thread_wake_up_sleepers (sample_kernel 7) = Done k' /\ kinv k' A' E' /\
    A' !! ready_threads = Some [100; 101; 102] /\ A' !! sleeping_threads = Some [].
Proof.
  destruct (timer_wakes_exactly_due (sample_kernel 7) sample_store ∅ [100; 101] [102] []
              (sample_kinv 7) eq_refl eq_refl eq_refl) as (k' & A' & E' & H1 & H2 & H3 & H4 & _).
  exists k', A', E'. split; [exact H1|]. split; [exact H2|]. split; [exact H3|exact H4].
Defined.
