(* ===== verification/Scheduler.v ===== *)
(** The scheduler (tasking/scheduler.cpp) and the timer interrupt
    (devices/timer/pit.cpp), on the threads of the file Thread: which thread runs next
    and what is switched, and that no ready thread is passed over for ever. *)

From S2P Require Import Prelude Storage Bitmap Vector IntrusiveList Physical Paging Memory Segments Thread.

Section Scheduler.
Context {H P : Type} `{ListStore H} `{IdPool P}.

Abbreviation kern := (kernel H P).

Implicit Types (k : kern).

Definition Thread_number_of_ready_threads k : exec Z := ls_size (k_lists k) ready_threads.

(** ** The scheduler *)

Inductive ScheduleType := Forced | Timed.

(** A thread that is not in the ready list is found at its end, and the end is its
    own successor: the search then starts over at the first ready thread. *)
Definition Scheduler_select_next_thread k : exec Z :=
  n ← Thread_number_of_ready_threads k;
  _ ← ASSERT (truthy n);
  cur ← current k;
  found ← ls_find (k_lists k) ready_threads cur;
  next_thread ← ls_next (k_lists k) found;
  if bool_decide (next_thread = PEnd ready_threads) then
    first ← ls_begin (k_lists k) ready_threads; ls_deref (k_lists k) first
  else ls_deref (k_lists k) next_thread.

Definition Scheduler_save_context k (frame : ISRContextFrame) (t : Z) : exec kern :=
  th ← get_thread k t;
  Done (put_thread k t
          (mkThread (t_tid th) (t_parent th) (t_state th) (t_privilege th) (t_blocker th) (t_tib th)
             (t_sleep_ticks th) (t_kernel_stack_start th) (t_kernel_stack_end th)
             (context_stack frame))).

Definition Scheduler_load_context k (frame : ISRContextFrame) (t : Z) : exec (ISRContextFrame * kern) :=
  th ← get_thread k t;
  parent ← get_process k (t_parent th);
  s ← Context_switch_task_stack (k_segments k) (t_kernel_stack_end th) (p_pib parent) (t_tib th);
  Done (mkFrame (t_kernel_stack_pointer th) (registers frame) (irq_number frame) (error_code frame)
          (f_eip frame) (f_cs frame) (f_eflags frame),
        set_segments k s).

Definition Scheduler_schedule k (frame : ISRContextFrame) (type : ScheduleType)
    : exec (ISRContextFrame * kern) :=
  _ ← ASSERT (not_null (k_current k));
  k ← match type with Timed => Thread_wake_up_sleepers k | Forced => Done k end;
  cur ← current k;
  k ← Scheduler_save_context k frame cur;
  next ← Scheduler_select_next_thread k;
  if negb (next =? cur) then
    next_th ← get_thread k next;
    next_parent ← get_process k (t_parent next_th);
    cur_th ← get_thread k cur;
    cur_parent ← get_process k (t_parent cur_th);
    let k := if negb (p_pid next_parent =? p_pid cur_parent)
             then set_memory k (Memory_switch_page_directory (k_memory k) (p_page_directory next_parent))
             else k in
    Scheduler_load_context (set_current k next) frame next
  else Done (frame, k).

Definition Scheduler_schedule_handler k (frame : ISRContextFrame) : exec (ISRContextFrame * kern) :=
  Scheduler_schedule k frame Forced.

Definition PIT_pit_handler k (frame : ISRContextFrame) : exec (ISRContextFrame * kern) :=
  '(frame, k) ← Scheduler_schedule k frame Timed;
  Done (frame, set_ticks k (u32 (k_ticks k + 1))).

(** * Choosing the next thread *)

(** Round robin: the successor of [c] in the ready list, the first thread at its end
    or when [c] is not ready. *)
Definition next_of (r : list Z) (c : Z) : option Z :=
  match list_find (.= c) r with
  | Some (i, _) => match r !! S i with Some t => Some t | None => head r end
  | None => head r
  end.

Lemma next_of_split p c s :
  c ∉ p -> next_of (p ++ c :: s) c = head (s ++ p ++ [c]).
Proof.
  intros Hp. unfold next_of. rewrite (list_find_app_r (.= c) p (c :: s)).
  - simpl. rewrite decide_True by done. simpl. rewrite lookup_app_r by lia.
    replace (S (length p) - length p)%nat with 1%nat by lia. simpl.
    destruct s as [|y s]; [by destruct p|done].
  - apply list_find_None, Forall_forall. intros x Hx ->. done.
Qed.

Lemma next_of_absent r c : c ∉ r -> next_of r c = head r.
Proof.
  intros Hc. unfold next_of. rewrite (proj2 (list_find_None (.= c) r)); [done|].
  apply Forall_forall. intros x Hx ->. done.
Qed.

Lemma select_next_spec k A c :
  threads_inv k A -> k_current k = Some c -> is_Some (k_threads k !! c) ->
  Scheduler_select_next_thread k =
    match next_of (ready_of A) c with Some t => Done t | None => Panic end.
Proof.
  intros Hi Hc [th Ht]. pose proof (ti_rep _ _ Hi) as Hrep.
  destruct (proj2 (ti_dom _ _ Hi ready_threads)) as [r Hr]; [by left|].
  destruct (ti_state _ _ Hi c th Ht) as (Hnode & _).
  unfold Scheduler_select_next_thread, Thread_number_of_ready_threads, ready_of.
  rewrite (ls_size_law _ _ _ _ Hrep Hr), Hr. cbn [mbind exec_bind from_option]. unfold id.
  rewrite (current_thread k c Hc). cbn [mbind exec_bind].
  rewrite (ls_find_law _ _ _ _ _ Hrep Hr Hnode). cbn [mbind exec_bind].
  pose proof (list_fits _ _ _ _ Hi Hr) as Hfit. unfold truthy.
  destruct (decide (c ∈ r)) as [Hin|Hout].
  - apply list_elem_of_split in Hin as (p & s & ->).
    pose proof (ls_nodup _ _ _ _ Hrep Hr) as Hnd. apply NoDup_middle in Hnd as (Hp & Hs & _).
    rewrite (next_of_split p c s Hp), (ls_next_law _ _ _ _ _ _ Hrep Hr).
    rewrite (proj2 (Z.eqb_neq _ 0)) by (rewrite alen_app, alen_cons; pose proof (alen_nonneg p); pose proof (alen_nonneg s); lia).
    cbn [negb ASSERT mbind exec_bind].
    destruct s as [|y s].
    + cbn [front_it]. rewrite bool_decide_eq_true_2 by done.
      rewrite (ls_begin_law _ _ _ _ Hrep Hr). cbn [mbind exec_bind].
      destruct p as [|x p]; cbn [front_it app head];
        (rewrite (ls_deref_law _ _ _ _ _ Hrep Hr); [done|by left]).
    + cbn [front_it]. rewrite bool_decide_eq_false_2 by done.
      rewrite (ls_deref_law _ _ _ _ y Hrep Hr); [done|]. apply elem_of_app. right. right. by left.
  - rewrite (next_of_absent r c Hout), (ls_next_end _ _ _ _ Hrep Hr). cbn [mbind exec_bind].
    rewrite bool_decide_eq_true_2 by done. rewrite (ls_begin_law _ _ _ _ Hrep Hr).
    destruct r as [|x r]; cbn [alen length head]; [done|].
    rewrite (proj2 (Z.eqb_neq _ 0)) by (rewrite alen_cons; pose proof (alen_nonneg r); lia).
    cbn [negb ASSERT mbind exec_bind front_it]. rewrite (ls_deref_law _ _ _ _ x Hrep Hr); [done|by left].
Qed.

(** * What any operation does to the ready list

    For the lists alone no assumption on the queues is needed: an operation that
    returns has kept the threads and their lists consistent, and has changed the ready
    list only by appending threads and by taking out the running one. *)

Record advances (c : Z) k (k' : kern) : Prop := {
  ad_current : k_current k' = k_current k;
  ad_dom : dom (k_threads k') = dom (k_threads k);
  ad_lists : forall A, threads_inv k A -> exists A', threads_inv k' A' /\
    rtc (ready_step c) (ready_of A) (ready_of A')
}.

#[global] Instance advances_preorder c : PreOrder (advances c).
Proof.
  split.
  - intros k. split; [done|done|]. intros A Hi. exists A. split; [done|apply rtc_refl].
  - intros k1 k2 k3 [Hc1 Hd1 H1'] [Hc2 Hd2 H2']. split; [congruence|congruence|].
    intros A Hi. destruct (H1' A Hi) as (A1 & Hi1 & R1). destruct (H2' A1 Hi1) as (A2 & Hi2 & R2).
    exists A2. split; [done|by etrans].
Qed.

Lemma put_queue_advances c k q w : advances c k (put_queue k q w).
Proof.
  split; [done|done|]. intros A Hi. exists A. split; [by apply threads_put_queue|apply rtc_refl].
Qed.

Lemma wake_up_advances c k t k' : Thread_wake_up k t = Done k' -> advances c k k'.
Proof.
  unfold Thread_wake_up, get_thread. destruct (k_threads k !! t) as [th|] eqn:Ht; [|done].
  cbn [mbind exec_bind]. intros E.
  assert (Hk' : exists h, k' = put_thread (set_lists k h) t (thread_with th Ready None (t_sleep_ticks th))).
  { apply bind_Done_inv in E as (h & _ & E). apply bind_Done_inv in E as (h' & _ & E).
    injection E as <-. eauto. }
  destruct Hk' as [h0 Hk']. split; [by rewrite Hk'| |].
  { rewrite Hk'. simpl. apply dom_insert_lookup_L. by rewrite Ht. }
  intros A Hi. destruct (proj2 (ti_dom _ _ Hi ready_threads)) as [r Hr]; [by left|].
  destruct (waiting_list (t_state th)) as [l|] eqn:Hl.
  - assert (Hl' : list_of_state (t_state th) = Some l) by (by destruct (t_state th)).
    destruct (thread_in_list _ _ _ _ _ Hi Ht Hl') as (p & s & HA).
    assert (Hne : ready_threads <> l) by (intros <-; destruct (t_state th); by simplify_eq/=).
    destruct (transfer_inv k A t th l p s ready_threads r
                (thread_with th Ready None (t_sleep_ticks th))) as (h1 & h2 & E1 & E2 & Hi'); [done..|].
    rewrite E1 in E. cbn [mbind exec_bind] in E. rewrite E2 in E. injection E as <-.
    eexists. split; [exact Hi'|]. rewrite ready_of_move by done. unfold ready_of. rewrite Hr. simpl.
    apply rtc_once, ready_wake. by eapply not_ready; [..|done|done].
  - exfalso. destruct (ti_state _ _ Hi t th Ht) as (_ & [l' Hl'] & Hs).
    assert (t ∈ r). { apply (Hs _ _ Hr). by destruct (t_state th). }
    cbn [mbind exec_bind] in E. by rewrite (ls_push_owned _ _ _ _ _ _ (ti_rep _ _ Hi) Hr) in E.
Qed.

(** Removing a thread that is not ready from the ready list panics. *)
Lemma remove_not_ready k A t th :
  threads_inv k A -> k_threads k !! t = Some th -> t_state th <> Ready ->
  ls_remove (k_lists k) ready_threads t = Panic.
Proof.
  intros Hi Ht Hs. destruct (proj2 (ti_dom _ _ Hi ready_threads)) as [r Hr]; [by left|].
  destruct (ti_state _ _ Hi t th Ht) as (Hn & _ & Hst).
  apply (ls_remove_foreign _ _ _ _ _ (ti_rep _ _ Hi) Hr Hn). rewrite (Hst _ _ Hr).
  by destruct (t_state th).
Qed.

Lemma leave_ready (A : lists) k l ns c p s :
  threads_inv k A -> l <> ready_threads -> A !! ready_threads = Some (p ++ c :: s) ->
  rtc (ready_step c) (ready_of A) (ready_of (<[l := ns]> (<[ready_threads := p ++ s]> A))).
Proof.
  intros Hi Hl HA. unfold ready_of. rewrite HA, lookup_insert_ne, lookup_insert_eq by done. simpl.
  apply rtc_once, ready_leave.
  pose proof (ls_nodup _ _ _ _ (ti_rep _ _ Hi) HA) as Hnd. apply NoDup_middle in Hnd as (? & ? & _).
  rewrite not_elem_of_app. done.
Qed.

Lemma block_advances c k q ms k' : Thread_block k c q ms = Done k' -> advances c k k'.
Proof.
  intros E. assert (Hk' : exists th h th', k_threads k !! c = Some th /\ k' = put_thread (set_lists k h) c th').
  { unfold Thread_block, get_thread in E. destruct (k_threads k !! c) as [th|]; [|done].
    cbn [mbind exec_bind] in E. apply bind_Done_inv in E as (h & _ & E).
    destruct (truthy ms); apply bind_Done_inv in E as (h' & _ & E); injection E as <-; eauto 10. }
  destruct Hk' as (th & h0 & th0 & Ht & Hk'). split; [by rewrite Hk'| |].
  { rewrite Hk'. simpl. apply dom_insert_lookup_L. by rewrite Ht. }
  intros A Hi. destruct (decide (t_state th = Ready)) as [Hs|Hs].
  - destruct (block_lists k A c th q ms Hi Ht Hs)
      as (h & st & ticks & l & ns & p & s & Eb & Hon & HA & Hl & Hi').
    rewrite Eb in E. injection E as <-. eexists. split; [exact Hi'|]. by eapply leave_ready.
  - exfalso. unfold Thread_block, get_thread in E. rewrite Ht in E. cbn [mbind exec_bind] in E.
    by rewrite (remove_not_ready k A c th Hi Ht Hs) in E.
Qed.

Lemma sleep_advances c k ms k' : Thread_sleep k c ms = Done k' -> advances c k k'.
Proof.
  intros E. assert (Hk' : exists th h th', k_threads k !! c = Some th /\ k' = put_thread (set_lists k h) c th').
  { unfold Thread_sleep, get_thread in E. destruct (k_threads k !! c) as [th|]; [|done].
    cbn [mbind exec_bind] in E. apply bind_Done_inv in E as (h & _ & E).
    apply bind_Done_inv in E as (h' & _ & E); injection E as <-; eauto 10. }
  destruct Hk' as (th & h0 & th0 & Ht & Hk'). split; [by rewrite Hk'| |].
  { rewrite Hk'. simpl. apply dom_insert_lookup_L. by rewrite Ht. }
  intros A Hi. unfold Thread_sleep, get_thread in E. rewrite Ht in E. cbn [mbind exec_bind] in E.
  destruct (decide (t_state th = Ready)) as [Hs|Hs];
    [|by rewrite (remove_not_ready k A c th Hi Ht Hs) in E].
  destruct (thread_in_list k A c th ready_threads Hi Ht) as (p & s & HA); [by rewrite Hs|].
  destruct (proj2 (ti_dom _ _ Hi sleeping_threads)) as [sl Hsl]; [rewrite !elem_of_cons; auto|].
  destruct (transfer_inv k A c th ready_threads p s sleeping_threads sl
    (thread_with th BlockedSleep (t_blocker th) (u32 (k_ticks k + ms))))
    as (h1 & h2 & E1 & E2 & Hi'); [done|done|by rewrite Hs|done..|].
  rewrite E1 in E. cbn [mbind exec_bind] in E. rewrite E2 in E. injection E as <-.
  eexists. split; [exact Hi'|]. by eapply leave_ready.
Qed.

Lemma wake_up_queue_advances c k q i k' : WaitQueue_wake_up_queue k q i = Done k' -> advances c k k'.
Proof.
  unfold WaitQueue_wake_up_queue. intros E. inv_done.
  etrans; [apply put_queue_advances|by eapply wake_up_advances].
Qed.

Lemma queue_wake_up_advances c k q k' : WaitQueue_wake_up k q = Done k' -> advances c k k'.
Proof. unfold WaitQueue_wake_up. intros E. inv_done. by eapply wake_up_queue_advances. Qed.

Lemma queue_wake_up_all_advances c k q k' : WaitQueue_wake_up_all k q = Done k' -> advances c k k'.
Proof.
  unfold WaitQueue_wake_up_all. intros E. apply bind_Done_inv in E as (w & _ & E).
  refine (for_inv_done (fun _ k' => advances c k k') _ _ _ _ _ _ _ E); [reflexivity|].
  intros j t t' _ Hk Et. inv_done. destruct (is_blocked_entry x0); [|by inv_done].
  etrans; [done|by eapply wake_up_queue_advances].
Qed.

Lemma wait_begin_advances c k q ms r k' :
  k_current k = Some c -> WaitQueue_wait_begin k q ms = Done (r, k') -> advances c k k'.
Proof.
  intros Hc E. unfold WaitQueue_wait_begin in E. rewrite (current_thread k c Hc) in E.
  cbn [mbind exec_bind] in E. inv_done. destruct x1 as [v i]. inv_done.
  etrans; [by eapply block_advances|apply put_queue_advances].
Qed.

Lemma wait_end_advances c k q storage i st k' :
  WaitQueue_wait_end k q storage i = Done (st, k') -> advances c k k'.
Proof. unfold WaitQueue_wait_end. intros E. inv_done. apply put_queue_advances. Qed.

(** Changing only the time a thread waits for, or where its stack is. *)
Lemma put_same_state_advances c k t th th' :
  k_threads k !! t = Some th -> t_state th' = t_state th -> advances c k (put_thread k t th').
Proof.
  intros Ht Hs. split; [done|simpl; apply dom_insert_lookup_L; by rewrite Ht|].
  intros A [Hr Hdom Hst Hl Hf]. exists A. split; [|apply rtc_refl]. split; simpl; [done|done| | |].
  - intros u uh Hu. apply lookup_insert_Some in Hu as [[<- <-]|[_ Hu]]; [|by apply Hst].
    rewrite Hs. by apply Hst.
  - intros l ns u HA Hu. rewrite lookup_insert_is_Some'. right. by apply (Hl l ns).
  - by rewrite (size_insert_thread k t th).
Qed.

Lemma timed_out_advances c k t k' : timed_out k t = Done k' -> advances c k k'.
Proof.
  unfold timed_out, WaitQueue_handle_thread_timeout. intros E.
  apply bind_Done_inv in E as (th & _ & E). destruct (t_blocker th); [|done]. inv_done.
  etrans; [apply put_queue_advances|by eapply wake_up_advances].
Qed.

Lemma sleepers_loop_advances c l due k k' :
  (forall k t k', due k t = Done k' -> advances c k k') ->
  wake_sleepers_loop l due k = Done k' -> advances c k k'.
Proof.
  intros Hdue E. unfold wake_sleepers_loop in E. inv_done.
  refine (while_inv_done (fun st => advances c k st.1) (advances c k) _ _ _ _ _ _ _ E);
    [reflexivity| |].
  - intros [k1 it] [k2 it'] Hk Et. cbn [fst] in *. unfold wake_sleeper_turn in Et.
    case_bool_decide; [done|]. inv_done. unfold get_thread in *.
    destruct (k_threads k1 !! _) as [th|] eqn:Ht; [|done]. inv_done.
    destruct (t_sleep_ticks _ <=? k_ticks k1); [|by inv_done]. inv_done.
    etrans; [exact Hk|]. etrans; [|by eapply Hdue]. by eapply put_same_state_advances.
  - intros [k1 it] k2 Hk Et. cbn [fst] in *. unfold wake_sleeper_turn in Et.
    case_bool_decide; [by simplify_eq|]. inv_done.
    destruct (t_sleep_ticks _ <=? k_ticks k1); inv_done; done.
Qed.

Lemma wake_up_sleepers_advances c k k' : Thread_wake_up_sleepers k = Done k' -> advances c k k'.
Proof.
  unfold Thread_wake_up_sleepers. intros E. apply bind_Done_inv in E as (k1 & E1 & E2). etrans.
  - eapply sleepers_loop_advances; [|exact E1]. intros. by eapply wake_up_advances.
  - eapply sleepers_loop_advances; [|exact E2]. intros. by eapply timed_out_advances.
Qed.

(** Running the scheduler: the ready list advances and the next thread is chosen from
    it. *)
Lemma schedule_spec k A frame type frame' k' c :
  threads_inv k A -> k_current k = Some c -> Scheduler_schedule k frame type = Done (frame', k') ->
  exists A', threads_inv k' A' /\ rtc (ready_step c) (ready_of A) (ready_of A') /\
    k_current k' = next_of (ready_of A') c /\ dom (k_threads k') = dom (k_threads k) /\
    is_Some (k_current k').
Proof.
  intros Hi Hc E. unfold Scheduler_schedule in E. rewrite Hc in E. cbn [not_null ASSERT mbind exec_bind] in E.
  apply bind_Done_inv in E as (k1 & E1 & E).
  assert (H1' : advances c k k1).
  { destruct type; [by injection E1 as <-|by eapply wake_up_sleepers_advances]. }
  rewrite (current_thread k1 c) in E by (by rewrite (ad_current _ _ _ H1')). cbn [mbind exec_bind] in E.
  apply bind_Done_inv in E as (k2 & E2 & E).
  assert (H2' : advances c k k2).
  { etrans; [exact H1'|]. unfold Scheduler_save_context, get_thread in E2.
    destruct (k_threads k1 !! c) as [th|] eqn:Ht; [|done]. injection E2 as <-.
    by eapply put_same_state_advances. }
  destruct (ad_lists _ _ _ H2' A Hi) as (A2 & Hi2 & R2).
  assert (Hc2 : k_current k2 = Some c) by by rewrite (ad_current _ _ _ H2').
  assert (Hl2 : is_Some (k_threads k2 !! c)).
  { unfold Scheduler_save_context, get_thread in E2. destruct (k_threads k1 !! c) as [th|] eqn:Ht; [|done].
    injection E2 as <-. simpl. rewrite lookup_insert_eq. by eexists. }
  rewrite (select_next_spec k2 A2 c Hi2 Hc2 Hl2) in E.
  destruct (next_of (ready_of A2) c) as [t|] eqn:Hn; [|done]. cbn [mbind exec_bind] in E.
  exists A2. destruct (Z.eqb_spec t c) as [->|Hne]; cbn [negb] in E.
  - injection E as <- <-. rewrite Hc2, Hn, (ad_dom _ _ _ H2'). eauto.
  - apply bind_Done_inv in E as (th & _ & E). apply bind_Done_inv in E as (pr & _ & E).
    apply bind_Done_inv in E as (cth & _ & E). apply bind_Done_inv in E as (cpr & _ & E).
    unfold Scheduler_load_context in E. inv_done. rewrite Hn.
    assert (Hk : k_threads k2 = k_threads k2) by done.
    destruct (negb _); simpl; (split; [by destruct Hi2; split|]);
      (split; [done|]); (split; [done|]); (split; [apply (ad_dom _ _ _ H2')|eauto]).
Qed.

(** * Fairness *)

(** Index of the first occurrence; the length when there is none. *)
Fixpoint pos (x : Z) (l : list Z) : nat :=
  match l with
  | [] => 0
  | y :: l => if decide (x = y) then 0 else S (pos x l)
  end.

Lemma pos_lt x l : x ∈ l -> (pos x l < length l)%nat.
Proof.
  induction l as [|y l IH]; intros Hx; [by apply not_elem_of_nil in Hx|]. simpl.
  apply elem_of_cons in Hx. case_decide; [lia|]. destruct Hx as [->|Hx]; [done|]. specialize (IH Hx). lia.
Qed.

Lemma pos_app_l x l m : x ∈ l -> pos x (l ++ m) = pos x l.
Proof.
  induction l as [|y l IH]; intros Hx; [by apply not_elem_of_nil in Hx|]. simpl.
  apply elem_of_cons in Hx. case_decide; [done|]. destruct Hx as [->|Hx]; [done|]. by rewrite IH.
Qed.

Lemma pos_app_r x l m : x ∉ l -> pos x (l ++ m) = (length l + pos x m)%nat.
Proof.
  induction l as [|y l IH]; intros Hx; [done|]. apply not_elem_of_cons in Hx as [Hne Hx]. simpl.
  rewrite decide_False by done. by rewrite IH.
Qed.

Lemma pos_middle x p s : x ∉ p -> pos x (p ++ x :: s) = length p.
Proof. intros Hx. rewrite pos_app_r by done. simpl. rewrite decide_True by done. lia. Qed.

Lemma next_of_pos r c c' :
  NoDup r -> c ∈ r -> next_of r c = Some c' ->
  c' ∈ r /\ ((S (pos c r) < length r /\ pos c' r = S (pos c r)) \/
             (length r = S (pos c r) /\ pos c' r = 0))%nat.
Proof.
  intros Hnd Hc Hn. apply list_elem_of_split in Hc as (p & s & ->).
  pose proof Hnd as Hnd'. apply NoDup_middle in Hnd' as (Hp & Hs & Hps).
  rewrite (next_of_split p c s Hp) in Hn. rewrite (pos_middle c p s Hp), length_app. simpl.
  destruct s as [|y s]; simpl in *.
  - destruct p as [|x p]; simpl in *; injection Hn as <-.
    + split; [by left|]. right. rewrite decide_True by done. lia.
    + split; [by left|]. right. rewrite decide_True by done. lia.
  - injection Hn as <-. split; [apply elem_of_app; right; right; by left|]. left. split; [lia|].
    replace (p ++ c :: y :: s) with ((p ++ [c]) ++ y :: s) by by rewrite <- app_assoc.
    rewrite pos_middle; [rewrite length_app; simpl; lia|].
    rewrite not_elem_of_app, list_elem_of_singleton. split.
    + intros Hy. apply NoDup_app in Hps as (_ & Hd & _). apply (Hd y Hy). by left.
    + intros ->. apply Hs. by left.
Qed.

(** What the operations of a turn keep of a thread [t] that waits for its turn. *)
Record kept (c t : Z) (r r' : list Z) : Prop := {
  kp_in : t ∈ r';
  kp_nodup : NoDup r';
  kp_pos : (pos t r' <= pos t r)%nat;
  kp_length : (length r <= length r' + (if decide (c ∈ r') then 0 else 1))%nat;
  kp_before : pos t r' = pos t r -> c ∈ r -> (pos c r < pos t r)%nat ->
    c ∈ r' /\ pos c r' = pos c r;
  kp_after : pos t r' = pos t r -> ~ (c ∈ r /\ (pos c r < pos t r)%nat) -> c ∈ r' ->
    (pos t r' < pos c r')%nat /\ (c ∈ r -> (pos c r <= pos c r')%nat)
}.

Lemma kept_refl c t r : NoDup r -> t ∈ r -> t <> c -> kept c t r r.
Proof.
  intros Hnd Ht Hne. split; [done|done|done|case_decide; lia|done|].
  intros _ Hb Hc. split; [|done].
  assert (pos t r <> pos c r); [|destruct (decide (pos c r < pos t r)%nat); [tauto|lia]].
  intros E. apply Hne. apply list_elem_of_split in Hc as (p & s & ->).
  apply NoDup_middle in Hnd as (Hp & Hs & _). rewrite (pos_middle c p s Hp) in E.
  apply elem_of_app in Ht as [Ht|Ht].
  - rewrite pos_app_l in E by done. apply pos_lt in Ht. lia.
  - apply elem_of_cons in Ht as [->|Ht]; [done|].
    rewrite pos_app_r in E; [|intros Hin; rewrite pos_app_l in E by done; apply pos_lt in Hin; lia].
    simpl in E. rewrite decide_False in E by done. lia.
Qed.

Lemma kept_wake c t r r' u : kept c t r r' -> t <> c -> u ∉ r' -> kept c t r (r' ++ [u]).
Proof.
  intros [Hin Hnd Hpos Hlen Hb Ha] Hne Hu. pose proof (pos_app_l t r' [u] Hin) as Ept. split.
  - apply elem_of_app. by left.
  - apply NoDup_app. split; [done|]. split; [|apply NoDup_singleton].
    intros x Hx Hx'. apply list_elem_of_singleton in Hx' as ->. done.
  - lia.
  - rewrite length_app. simpl. case_decide as Hc; case_decide as Hc'; lia.
  - rewrite Ept. intros E Hc Hbe. destruct (Hb E Hc Hbe) as [Hc' Ec].
    split; [apply elem_of_app; by left|]. by rewrite pos_app_l.
  - rewrite Ept. intros E Hno Hc. apply elem_of_app in Hc as [Hc|Hc].
    + rewrite pos_app_l by done. by apply Ha.
    + apply list_elem_of_singleton in Hc as ->. rewrite pos_middle by done.
      split; [by apply pos_lt|]. intros Hc. apply pos_lt in Hc. rewrite decide_False in Hlen by done. lia.
Qed.

Lemma kept_leave c t r p s :
  kept c t r (p ++ c :: s) -> t <> c -> c ∉ p ++ s -> kept c t r (p ++ s).
Proof.
  intros [Hin Hnd Hpos Hlen Hb Ha] Hne Hc. apply not_elem_of_app in Hc as [Hcp Hcs].
  pose proof Hnd as Hnd'. apply NoDup_middle in Hnd' as (_ & _ & Hps).
  rewrite length_app in Hlen. simpl in Hlen.
  rewrite decide_True in Hlen by (apply elem_of_app; right; by left).
  assert (Hnc : c ∉ p ++ s) by by rewrite not_elem_of_app.
  apply elem_of_app in Hin as [Hin|Hin].
  - rewrite pos_app_l in * by done. split; try done.
    + apply elem_of_app. by left.
    + by rewrite pos_app_l.
    + rewrite length_app, decide_False by done. lia.
    + rewrite pos_app_l by done. intros E Hcr Hbe. destruct (Hb E Hcr Hbe) as [_ Ec]. rewrite pos_middle in Ec by done.
      apply pos_lt in Hin. lia.
  - apply elem_of_cons in Hin as [->|Hin]; [done|].
    assert (Htp : t ∉ p) by (intros Htp; apply NoDup_app in Hps as (_ & Hd & _); by apply (Hd t)).
    rewrite pos_app_r in Hpos by done. simpl in Hpos. rewrite decide_False in Hpos by done.
    split; try done.
    + apply elem_of_app. by right.
    + rewrite pos_app_r by done. lia.
    + rewrite length_app, decide_False by done. lia.
    + rewrite pos_app_r by done. lia.
Qed.

Lemma kept_steps c t r r' : NoDup r -> t ∈ r -> t <> c -> rtc (ready_step c) r r' -> kept c t r r'.
Proof.
  intros Hnd Ht Hne. cut (forall r0, rtc (ready_step c) r0 r' -> kept c t r r0 -> kept c t r r').
  { intros Hgen Hs. apply (Hgen r); [done|by apply kept_refl]. }
  intros r0. induction 1 as [|r0 r1 r2 Hstep _ IH]; intros Hk; [done|]. apply IH.
  destruct Hstep; [by apply kept_wake|by apply kept_leave].
Qed.

(** How far thread [t] is from running while [c] runs, among at most [n] threads. *)
Definition distance (n : nat) (t : Z) (r : list Z) (c : Z) : nat :=
  pos t r * (2 * n + 3) +
  (if decide (c ∈ r) then
     if decide (pos c r < pos t r)%nat then pos t r - pos c r else 2 * n + 1 - pos c r
   else 2 * n + 2).

Lemma distance_decreases n t r r' c c' :
  kept c t r r' -> (length r <= n)%nat -> (length r' <= n)%nat ->
  next_of r' c = Some c' -> c' <> t -> (distance n t r' c' < distance n t r c)%nat.
Proof.
  intros [Hin Hnd Hpos _ Hb Ha] Hn Hn' Hnext Hne. apply pos_lt in Hin as Hlt.
  assert (Hc' : c' ∈ r' /\ (c ∉ r' -> pos c' r' = 0%nat)).
  { destruct (decide (c ∈ r')) as [Hc|Hc]; [split; [by eapply next_of_pos|done]|].
    rewrite (next_of_absent r' c Hc) in Hnext. apply head_Some in Hnext as [s ->].
    split; [by left|]. intros _. simpl. by rewrite decide_True. }
  destruct Hc' as [Hin' Hfirst]. apply pos_lt in Hin' as Hlt'.
  assert (Hdiff : pos c' r' <> pos t r').
  { intros E. apply Hne. apply list_elem_of_split in Hin as (p & s & ->).
    pose proof Hnd as Hnd'. apply NoDup_middle in Hnd' as (Hp & Hs & _).
    rewrite (pos_middle t p s Hp) in E. apply elem_of_app in Hin' as [Hx|Hx].
    - rewrite pos_app_l in E by done. apply pos_lt in Hx. lia.
    - apply elem_of_cons in Hx as [->|Hx]; [done|].
      rewrite pos_app_r in E; [|intros Hy; rewrite pos_app_l in E by done; apply pos_lt in Hy; lia].
      simpl in E. destruct (decide (c' = t)); [done|lia]. }
  unfold distance. rewrite (decide_True (P := c' ∈ r')) by done.
  assert (Hsmall : ((if decide (pos c' r' < pos t r')%nat then pos t r' - pos c' r'
                     else 2 * n + 1 - pos c' r') < 2 * n + 2)%nat) by (case_decide; lia).
  destruct (decide (pos t r' = pos t r)) as [Eq|Hlt2]; [|nia].
  rewrite Eq in *. apply Nat.add_lt_mono_l.
  destruct (decide (c ∈ r)) as [Hc|Hc]; [destruct (decide (pos c r < pos t r)%nat) as [Hbe|Hbe]|].
  - destruct (Hb eq_refl Hc Hbe) as [Hcr Ec].
    destruct (next_of_pos r' c c' Hnd Hcr Hnext) as [_ [[? E]|[? E]]]; [|lia].
    rewrite decide_True by lia. lia.
  - destruct (decide (c ∈ r')) as [Hcr|Hcr].
    + destruct (Ha eq_refl ltac:(tauto) Hcr) as [Hx Hy]. specialize (Hy Hc).
      destruct (next_of_pos r' c c' Hnd Hcr Hnext) as [_ [[? E]|[? E]]]; case_decide; lia.
    + rewrite Hfirst in * by done. apply pos_lt in Hc. case_decide; lia.
  - case_decide; lia.
Qed.

Lemma distance_bound n t r c :
  t ∈ r -> (length r <= n)%nat -> (distance n t r c < n * (2 * n + 3) + 2 * n + 3)%nat.
Proof.
  intros Ht Hle. pose proof (pos_lt t _ Ht) as Hp. unfold distance.
  assert (pos t r * (2 * n + 3) <= n * (2 * n + 3))%nat by (apply Nat.mul_le_mono_r; lia).
  case_decide as Hin; [case_decide|]; lia.
Qed.

(** ** The calls of the running threads *)

(** The operations a running thread performs between two runs of the scheduler. A new thread
    is at the address [this] that the heap gives; the entry point is [thread_start]. *)
Inductive thread_call :=
| CallSleep (ms : Z)
| CallWait (queue ms_timeout : Z)
| CallWaitEnd (queue storage index : Z)
| CallWaitOnEvent (queue : Z) (checker : kern -> bool) (ms_timeout : Z)
| CallWaitOnEventResume (queue storage index : Z) (checker : kern -> bool) (ms_timeout : Z)
| CallWakeUp (queue : Z)
| CallWakeUpAll (queue : Z)
| CallDestroyQueue (queue : Z)
| CallCreateThread (this process : Z) (priv : ThreadPrivilege)
| CallTerminate (thread : Z).

Context (thread_start : Z).

(** The heap does not give out the address of a thread that is there. *)
Definition thread_step k (call : thread_call) : exec kern :=
  match call with
  | CallSleep ms => cur ← current k; Thread_sleep k cur ms
  | CallWait q ms => r ← WaitQueue_wait_begin k q ms; Done r.2
  | CallWaitEnd q storage i => r ← WaitQueue_wait_end k q storage i; Done r.2
  | CallWaitOnEvent q checker ms =>
      r ← WaitQueue_wait_on_event_begin k q checker ms; Done match r with inl (_, k) => k | inr (_, k) => k end
  | CallWaitOnEventResume q storage i checker ms =>
      r ← WaitQueue_wait_on_event_resume k q storage i checker ms; Done match r with inl (_, k) => k | inr k => k end
  | CallWakeUp q => WaitQueue_wake_up k q
  | CallWakeUpAll q => WaitQueue_wake_up_all k q
  | CallDestroyQueue q => WaitQueue_destroy k q
  | CallCreateThread this process priv =>
      match k_threads k !! this with
      | None => Thread_create_thread thread_start k this process priv
      | Some _ => Fault
      end
  | CallTerminate t => Thread_terminate k t
  end.

Fixpoint run_calls k (calls : list thread_call) : exec kern :=
  match calls with
  | [] => Done k
  | call :: rest => k ← thread_step k call; run_calls k rest
  end.

Record turn := mkTurn {
  tn_calls : list thread_call;
  tn_frame : ISRContextFrame;
  tn_type : ScheduleType
}.

(** Turns of the running threads; the threads that the scheduler chose, in order. *)
Fixpoint run_turns k (turns : list turn) : exec (list Z * kern) :=
  match turns with
  | [] => Done ([], k)
  | tn :: rest =>
      k ← run_calls k (tn_calls tn);
      r ← Scheduler_schedule k (tn_frame tn) (tn_type tn);
      cur ← current r.2;
      '(chosen, k) ← run_turns r.2 rest;
      Done (cur :: chosen, k)
  end.

(** How many threads calls create and terminate, and in all turns. *)
Definition created (call : thread_call) : nat := match call with CallCreateThread _ _ _ => 1 | _ => 0 end.
Definition terminated (call : thread_call) : nat := match call with CallTerminate _ => 1 | _ => 0 end.
Definition total (f : thread_call -> nat) (calls : list thread_call) : nat := foldr (fun call n => f call + n)%nat 0%nat calls.
Definition calls_of (turns : list turn) : list thread_call := turns ≫= tn_calls.

Lemma total_app f l m : total f (l ++ m) = (total f l + total f m)%nat.
Proof. induction l as [|x l IH]; [done|]. cbn [app total foldr]. fold (total f (l ++ m)) (total f l). lia. Qed.

(** The effect of calls while [c] runs that create at most [m] threads and end [d], but not
    [t]: with none ended, the ready list has advanced. *)
Record effect (c t : Z) (m d : nat) k (k' : kern) : Prop := {
  ef_current : k_current k' = k_current k;
  ef_size : (size (k_threads k') <= size (k_threads k) + m)%nat;
  ef_lists : forall A, threads_inv k A -> Z.of_nat (size (k_threads k) + m) <= MAX_THREADS ->
    exists A', threads_inv k' A' /\ (t ∈ ready_of A -> t ∈ ready_of A') /\
      (d = 0%nat -> rtc (ready_step c) (ready_of A) (ready_of A'))
}.

Lemma effect_refl c t k : effect c t 0 0 k k.
Proof. split; [done|lia|]. intros A Hi _. exists A. split; [done|]. split; [done|]. intros _. apply rtc_refl. Qed.

Lemma effect_trans c t m1 d1 m2 d2 k1 k2 k3 :
  effect c t m1 d1 k1 k2 -> effect c t m2 d2 k2 k3 -> effect c t (m1 + m2) (d1 + d2) k1 k3.
Proof.
  intros [Hc1 Hs1 Hl1] [Hc2 Hs2 Hl2]. split; [congruence|lia|]. intros A Hi Hm.
  destruct (Hl1 A Hi) as (A1 & Hi1 & Ht1 & R1); [lia|]. destruct (Hl2 A1 Hi1) as (A2 & Hi2 & Ht2 & R2); [lia|].
  exists A2. split; [done|]. split; [auto|]. intros Hd. etrans; [apply R1|apply R2]; lia.
Qed.

Lemma ready_of_lookup k A : threads_inv k A -> A !! ready_threads = Some (ready_of A).
Proof.
  intros Hi. destruct (proj2 (ti_dom _ _ Hi ready_threads)) as [r Hr]; [by left|].
  unfold ready_of. by rewrite Hr.
Qed.

Lemma advances_effect c t k k' : t <> c -> advances c k k' -> effect c t 0 0 k k'.
Proof.
  intros Hne [Hc Hd Hl]. split; [done| |].
  - rewrite <- !size_dom, Hd. lia.
  - intros A Hi _. destruct (Hl A Hi) as (A' & Hi' & R). exists A'. split; [done|]. split; [|done]. intros Ht.
    apply (kp_in c t (ready_of A)). apply kept_steps; [|done..].
    apply (ls_nodup _ _ _ _ (ti_rep _ _ Hi) (ready_of_lookup k A Hi)).
Qed.

Lemma wait_on_event_advances c k q checker ms r k' :
  k_current k = Some c -> WaitQueue_wait_on_event_begin k q checker ms = Done r ->
  k' = match r with inl (_, k) => k | inr (_, k) => k end -> advances c k k'.
Proof.
  intros Hc E Ek. unfold WaitQueue_wait_on_event_begin in E. destruct (negb (checker k)).
  { injection E as <-. rewrite Ek. reflexivity. }
  rewrite (current_thread k c Hc) in E. cbn [mbind exec_bind] in E. apply bind_Done_inv in E as (w & _ & E).
  apply bind_Done_inv in E as ([v i] & _ & E). apply bind_Done_inv in E as (k1 & E1 & E). injection E as <-. rewrite Ek.
  etrans; [apply put_queue_advances|by eapply block_advances].
Qed.

Lemma wait_on_event_resume_advances c k q storage i checker ms r k' :
  k_current k = Some c -> WaitQueue_wait_on_event_resume k q storage i checker ms = Done r ->
  k' = match r with inl (_, k) => k | inr k => k end -> advances c k k'.
Proof.
  intros Hc E Ek. unfold WaitQueue_wait_on_event_resume in E.
  rewrite (current_thread k c Hc) in E. cbn [mbind exec_bind] in E. apply bind_Done_inv in E as (w & _ & E).
  apply bind_Done_inv in E as (again & _ & E). destruct again.
  - apply bind_Done_inv in E as (k1 & E1 & E). injection E as <-. rewrite Ek. by eapply block_advances.
  - apply bind_Done_inv in E as (e & _ & E). apply bind_Done_inv in E as (v & _ & E). injection E as <-. rewrite Ek.
    apply put_queue_advances.
Qed.

Lemma destroy_queue_advances c k q k' : WaitQueue_destroy k q = Done k' -> advances c k k'.
Proof.
  unfold WaitQueue_destroy. intros E. apply bind_Done_inv in E as (w & _ & E). destruct (wq_is_moved w).
  - injection E as <-. reflexivity.
  - by eapply queue_wake_up_all_advances.
Qed.

(** A new thread: its node is in no list, and it is ready. *)
Lemma thread_new_shape k this process priv k1 :
  Thread_new thread_start k this process priv = Done k1 ->
  k_current k1 = k_current k /\ k_lists k1 = ls_new_node (k_lists k) this /\
  exists th, t_state th = Ready /\ k_threads k1 = <[this := th]> (k_threads k).
Proof.
  unfold Thread_new, Thread_reserve_tid. intros E. apply bind_Done_inv in E as ([tid k0] & E0 & E).
  apply bind_Done_inv in E0 as ([id tids] & _ & E0). injection E0 as <- <-.
  apply bind_Done_inv in E as ([stack m] & _ & E). cbv zeta in E.
  apply bind_Done_inv in E as ([sp ps] & _ & E). apply bind_Done_inv in E as (parent & _ & E).
  apply bind_Done_inv in E as (other & _ & E). apply bind_Done_inv in E as ([tib m'] & _ & E). injection E as <-.
  split; [done|]. split; [done|]. eexists. split; [|done]. done.
Qed.

Lemma create_effect c t k this process priv k' :
  k_threads k !! this = None -> Thread_create_thread thread_start k this process priv = Done k' -> effect c t 1 0 k k'.
Proof.
  intros Hfree E. unfold Thread_create_thread in E. apply bind_Done_inv in E as (k1 & E1 & E).
  destruct (thread_new_shape k this process priv k1 E1) as (Ec & El & th & Es & Eth).
  apply bind_Done_inv in E as (h & Ep & E). unfold Process_list_new_thread in E.
  apply bind_Done_inv in E as (pr & _ & E). injection E as <-.
  split; [done|cbn; rewrite Eth, map_size_insert, Hfree; lia|]. cbn [k_threads k_lists put_process set_lists k_current].
  intros A Hi Hm. pose proof (ti_rep _ _ Hi) as Hrep. pose proof (ready_of_lookup k A Hi) as Hr.
  assert (Hno : forall l ns, A !! l = Some ns -> this ∉ ns).
  { intros l ns HA Hin. destruct (ti_live _ _ Hi l ns this HA Hin) as [x Hx]. congruence. }
  destruct (ls_new_law (k_lists k) A this Hrep Hno) as (Hrep1 & Hnode & Hkeep). rewrite <- El in *.
  destruct (ls_push_law (k_lists k1) A ready_threads (ready_of A) this) as (h' & Ep' & Hrep2 & Hkeep2); [done..| |].
  { pose proof (list_fits k A _ _ Hi Hr). unfold MAX_THREADS in *. lia. }
  rewrite Ep' in Ep. injection Ep as <-.
  assert (Er : ready_of (<[ready_threads := ready_of A ++ [this]]> A) = ready_of A ++ [this]).
  { unfold ready_of at 1. by rewrite lookup_insert_eq. }
  exists (<[ready_threads := ready_of A ++ [this]]> A). rewrite Er. split; [|split].
  - split; cbn [k_threads k_lists put_process set_lists]; rewrite ?Eth; [done| | | |].
    + intros l. rewrite lookup_insert_is_Some', <- (ti_dom _ _ Hi). split; [intros [<-|?]; [by rewrite Hr|done]|by right].
    + intros u uh Hu. apply lookup_insert_Some in Hu as [[<- <-]|[Hne Hu]].
      * split; [by apply Hkeep2|]. rewrite Es. split; [by eexists|]. intros l ns Hl.
        apply lookup_insert_Some in Hl as [[<- <-]|[Hnl Hl]].
        -- split; [done|]. intros _. apply elem_of_app. right. by left.
        -- split; [intros Hin; by destruct (Hno l ns Hl)|]. intros [= El']. done.
      * destruct (ti_state _ _ Hi u uh Hu) as (Hn & Hs & Hst). split; [by apply Hkeep2, Hkeep|]. split; [done|].
        intros l ns Hl. apply lookup_insert_Some in Hl as [[<- <-]|[Hnl Hl]]; [|by apply Hst].
        rewrite <- (Hst _ _ Hr), elem_of_app, list_elem_of_singleton. intuition congruence.
    + intros l ns u Hl Hin. apply lookup_insert_is_Some'. apply lookup_insert_Some in Hl as [[<- <-]|[Hnl Hl]].
      * apply elem_of_app in Hin as [Hin|Hin%list_elem_of_singleton]; [right; by apply (ti_live _ _ Hi _ _ u Hr)|by left].
      * right. by apply (ti_live _ _ Hi l ns).
    + rewrite map_size_insert, Hfree. lia.
  - intros Ht. apply elem_of_app. by left.
  - intros _. apply rtc_once, ready_wake. by apply (Hno ready_threads).
Qed.

(** A thread leaves its list and is gone. *)
Lemma threads_gone_inv k (k' : kern) A u th l p s h :
  threads_inv k A -> k_threads k !! u = Some th -> list_of_state (t_state th) = Some l -> A !! l = Some (p ++ u :: s) ->
  ls_remove (k_lists k) l u = Done h -> k_lists k' = h -> k_threads k' = delete u (k_threads k) ->
  threads_inv k' (<[l := p ++ s]> A).
Proof.
  intros Hi Hu Hl HA E Eh Eth. destruct (ls_remove_law (k_lists k) A l p u s) as (h' & E' & Hrep & Hkeep);
    [apply (ti_rep _ _ Hi)|done|]. rewrite E' in E. injection E as <-.
  pose proof (ls_nodup _ _ _ _ (ti_rep _ _ Hi) HA) as Hnd. apply NoDup_middle in Hnd as (Hp & Hs & _).
  split; rewrite ?Eh, ?Eth; [done| | | |].
  - intros l'. rewrite lookup_insert_is_Some', <- (ti_dom _ _ Hi). split; [intros [<-|?]; [by rewrite HA|done]|by right].
  - intros v vh Hv. apply lookup_delete_Some in Hv as [Hne Hv]. destruct (ti_state _ _ Hi v vh Hv) as (Hn & Hsv & Hst).
    split; [by apply Hkeep|]. split; [done|]. intros l' ns Hl'. apply lookup_insert_Some in Hl' as [[<- <-]|[Hnl Hl']]; [|by apply Hst].
    rewrite <- (Hst _ _ HA), !elem_of_app, elem_of_cons. intuition congruence.
  - intros l' ns v Hl' Hin. apply lookup_insert_Some in Hl' as [[<- <-]|[Hnl Hl']].
    + assert (Hne : u <> v) by (intros ->; apply elem_of_app in Hin; tauto). rewrite lookup_delete_ne by done.
      apply (ti_live _ _ Hi l _ v HA). rewrite elem_of_app, elem_of_cons. apply elem_of_app in Hin. tauto.
    + assert (Hne : u <> v).
      { intros ->. apply Hnl. eapply (ls_disjoint (k_lists k) A l l'); [apply (ti_rep _ _ Hi)|done..| |done].
        apply elem_of_app. right. by left. }
      rewrite lookup_delete_ne by done. by apply (ti_live _ _ Hi l' ns).
  - pose proof (ti_few _ _ Hi). rewrite map_size_delete, Hu. lia.
Qed.

(** What [terminate] does, apart from queues, processes and identifiers. *)
Lemma terminate_shape k u k' :
  Thread_terminate k u = Done k' ->
  exists th l h, k_threads k !! u = Some th /\ list_of_state (t_state th) = Some l /\ ls_remove (k_lists k) l u = Done h /\
    k_lists k' = h /\ k_threads k' = delete u (k_threads k) /\ k_current k' = k_current k.
Proof.
  unfold Thread_terminate. unfold get_thread at 1. destruct (k_threads k !! u) as [th|] eqn:Hu; [|done].
  cbn [mbind exec_bind]. intros E. apply bind_Done_inv in E as (k1 & E1 & E). apply bind_Done_inv in E as (k2 & E2 & E).
  assert (Hfirst : exists l h, list_of_state (t_state th) = Some l /\ ls_remove (k_lists k) l u = Done h /\ k_lists k1 = h /\
    k_threads k1 = k_threads k /\ k_current k1 = k_current k).
  { destruct (t_state th); cbn [list_of_state waiting_list].
    1, 2: apply bind_Done_inv in E1 as (h & E1 & E3); injection E3 as <-; eauto 10.
    1, 2: apply bind_Done_inv in E1 as (? & _ & E1); apply bind_Done_inv in E1 as (h & E1 & E3);
      unfold WaitQueue_handle_thread_terminated in E3;
      repeat (apply bind_Done_inv in E3 as (? & _ & E3); try case_match); injection E3 as <-; eauto 10.
    done. }
  destruct Hfirst as (l & h & El & Er & Eh & Et1 & Ec1).
  assert (H2' : k_lists k2 = k_lists k1 /\ k_threads k2 = k_threads k1 /\ k_current k2 = k_current k1).
  { unfold Process_unlist_new_thread in E2. repeat (apply bind_Done_inv in E2 as (? & _ & E2)). by injection E2 as <-. }
  destruct H2' as (El2 & Et2 & Ec2).
  unfold Thread_cleanup, Thread_destroy in E. apply bind_Done_inv in E as (k3 & E3 & E). injection E as <-.
  repeat (apply bind_Done_inv in E3 as (? & _ & E3)). injection E3 as <-.
  exists th, l, h. cbn. rewrite El2, Et2, Ec2. split; [done|]. split; [done|]. split; [done|]. split; [done|].
  by rewrite Et1, Ec1.
Qed.

Lemma terminate_effect c t u k k' : u <> t -> Thread_terminate k u = Done k' -> effect c t 0 1 k k'.
Proof.
  intros Hne E. destruct (terminate_shape k u k' E) as (th & l & h & Hu & Hl & Er & Eh & Et & Ec).
  split; [done|rewrite Et, map_size_delete, Hu; lia|]. intros A Hi _.
  destruct (thread_in_list k A u th l Hi Hu Hl) as (p & s & HA).
  exists (<[l := p ++ s]> A). split; [by eapply threads_gone_inv|]. split; [|done]. unfold ready_of.
  destruct (decide (l = ready_threads)) as [->|Hnl]; [|by rewrite lookup_insert_ne].
  rewrite HA, lookup_insert_eq. cbn. rewrite !elem_of_app, elem_of_cons. intuition congruence.
Qed.

Lemma thread_step_effect c t k call k' :
  t <> c -> k_current k = Some c -> call <> CallTerminate t -> thread_step k call = Done k' ->
  effect c t (created call) (terminated call) k k'.
Proof.
  intros Hne Hc Hcall. destruct call; cbn [thread_step created terminated]; intros E.
  10: by apply (terminate_effect c t thread); [congruence|].
  9: destruct (k_threads k !! this) eqn:Hfree; [done|]; by eapply create_effect.
  all: apply advances_effect; [done|].
  - rewrite (current_thread k c Hc) in E. by eapply sleep_advances.
  - apply bind_Done_inv in E as ([r k1] & E & E2). injection E2 as <-. by eapply wait_begin_advances.
  - apply bind_Done_inv in E as ([r k1] & E & E2). injection E2 as <-. by eapply wait_end_advances.
  - apply bind_Done_inv in E as (r & E & E2). injection E2 as E2. by eapply wait_on_event_advances.
  - apply bind_Done_inv in E as (r & E & E2). injection E2 as E2. by eapply wait_on_event_resume_advances.
  - by eapply queue_wake_up_advances.
  - by eapply queue_wake_up_all_advances.
  - by eapply destroy_queue_advances.
Qed.

Lemma run_calls_effect c t k calls k' :
  t <> c -> k_current k = Some c -> CallTerminate t ∉ calls -> run_calls k calls = Done k' ->
  effect c t (total created calls) (total terminated calls) k k'.
Proof.
  intros Hne. revert k. induction calls as [|call calls IH]; intros k Hc Hn E; [injection E as <-; apply effect_refl|].
  apply not_elem_of_cons in Hn as [Hn1 Hn]. cbn [run_calls] in E. apply bind_Done_inv in E as (k1 & E1 & E2).
  pose proof (thread_step_effect c t k call k1 Hne Hc (fun E => Hn1 (eq_sym E)) E1) as He.
  eapply effect_trans; [exact He|]. apply IH; [by rewrite (ef_current _ _ _ _ _ _ He)|done|done].
Qed.

(** The measure: what is still to be terminated, and the distance from [t]. *)
Lemma run_turns_fair turns k A c t n chosen k' :
  threads_inv k A -> k_current k = Some c -> (size (k_threads k) + total created (calls_of turns) <= n)%nat ->
  Z.of_nat n <= MAX_THREADS -> t ∈ ready_of A -> t <> c -> CallTerminate t ∉ calls_of turns ->
  run_turns k turns = Done (chosen, k') ->
  (total terminated (calls_of turns) * (n * (2 * n + 3) + 2 * n + 3) + distance n t (ready_of A) c < length turns)%nat ->
  t ∈ chosen.
Proof.
  revert k A c chosen. induction turns as [|tn turns IH]; intros k A c chosen Hi Hc Hn Hmax Ht Hne Hnt E Hd;
    cbn [run_turns calls_of length] in *; [lia|]. change (calls_of (tn :: turns)) with (tn_calls tn ++ calls_of turns) in *.
  rewrite !total_app in *. apply not_elem_of_app in Hnt as [Hnt1 Hnt].
  apply bind_Done_inv in E as (k1 & E1 & E). apply bind_Done_inv in E as ([frame k2] & E2 & E).
  apply bind_Done_inv in E as (cur & E3 & E). apply bind_Done_inv in E as ([rest k3] & E4 & E).
  injection E as <- <-. cbn [snd] in *.
  destruct (run_calls_effect c t k _ k1 Hne Hc Hnt1 E1) as [Hc1 Hs1 Hl1].
  destruct (Hl1 A Hi) as (A1 & Hi1 & Ht1 & R1); [lia|]. specialize (Ht1 Ht).
  destruct (schedule_spec k1 A1 (tn_frame tn) (tn_type tn) frame k2 c Hi1) as (A2 & Hi2 & R2 & Hc2 & Hd2 & Hsome);
    [congruence|exact E2|].
  destruct Hsome as [c2 Hcur]. rewrite (current_thread k2 c2 Hcur) in E3. injection E3 as <-.
  destruct (decide (t = c2)) as [->|Hne2]; [by left|]. right.
  pose proof (ready_of_lookup k A Hi) as Hr. pose proof (ready_of_lookup k1 A1 Hi1) as Hr1. pose proof (ready_of_lookup k2 A2 Hi2) as Hr2.
  assert (Hsize : size (k_threads k2) = size (k_threads k1)) by by rewrite <- !size_dom, Hd2.
  assert (Hk1 : kept c t (ready_of A1) (ready_of A2)).
  { apply kept_steps; [apply (ls_nodup _ _ _ _ (ti_rep _ _ Hi1) Hr1)|done..]. }
  pose proof (list_le_threads k A ready_threads _ Hi Hr) as Hle. pose proof (list_le_threads k2 A2 ready_threads _ Hi2 Hr2) as Hle2.
  apply (IH k2 A2 c2 rest); [done|done|lia|done|apply (kp_in _ _ _ _ Hk1)|done|done|done|].
  destruct (total terminated (tn_calls tn)) as [|d].
  - assert (Hkept : kept c t (ready_of A) (ready_of A2)).
    { apply kept_steps; [apply (ls_nodup _ _ _ _ (ti_rep _ _ Hi) Hr)|done|done|]. etrans; [by apply R1|done]. }
    assert (distance n t (ready_of A2) c2 < distance n t (ready_of A) c)%nat; [|lia].
    apply distance_decreases; [done|lia|lia|congruence|done].
  - pose proof (distance_bound n t (ready_of A2) c2 (kp_in _ _ _ _ Hk1)) as Hb. lia.
Qed.

End Scheduler.

Arguments CallSleep {H P}.
Arguments CallWait {H P}.
Arguments CallWaitEnd {H P}.
Arguments CallWaitOnEvent {H P}.
Arguments CallWaitOnEventResume {H P}.
Arguments CallWakeUp {H P}.
Arguments CallWakeUpAll {H P}.
Arguments CallDestroyQueue {H P}.
Arguments CallCreateThread {H P}.
Arguments CallTerminate {H P}.
Arguments mkTurn {H P}.

(** * Properties *)


(** A frame of the scheduling interrupt. *)
Definition sample_frame : ISRContextFrame :=
  mkFrame 0xC0300F00 (mkRegisters 0 0 0 0 0 0 0 0 0 0 0 0) 0x81 0 0xC0100000 KCS_SELECTOR 0x202.

(** The identifiers of the three threads are in use. *)
Definition fair_kernel : kernel node_heap Bitmap := set_tids (sample_kernel 0) (mkBitmap 8 [7; 0]).

(** In the first turn the running thread creates one, ends the sleeping one and sleeps; later
    turns only yield. *)
Definition sample_turns : list (turn (H := node_heap) (P := Bitmap)) :=
  mkTurn [CallCreateThread 103 1 PrivilegeKernel; CallTerminate 102; CallSleep 1000] sample_frame Forced
  :: replicate 120 (mkTurn [] sample_frame Timed).

Lemma fair_kernel_inv : threads_inv fair_kernel sample_store.
Proof. by destruct (sample_threads_inv 0). Qed.

Lemma sample_calls_of : calls_of sample_turns =
  [CallCreateThread (H := node_heap) (P := Bitmap) 103 1 PrivilegeKernel; CallTerminate 102; CallSleep 1000].
Proof. reflexivity. Qed.

Lemma sample_turns_spare : CallTerminate 101 ∉ calls_of sample_turns.
Proof. rewrite sample_calls_of, !not_elem_of_cons. repeat split; [discriminate..|]. apply not_elem_of_nil. Qed.

