(* ===== verification/Sync.v ===== *)
(** Synchronisation: spin locks (arch/x86/spinlock.cpp, tasking/spin_lock.h,
    scoped_lock.h), semaphores (tasking/semaphore.cpp) and mutexes (mutex.cpp), on the
    wait queues of the file Thread. *)

From S2P Require Import Prelude Storage Bitmap Vector IntrusiveList Physical Paging Memory Segments Thread.

(** * Spin locks

    One processor: a lock disables interrupts while it is held and remembers whether
    they were on. *)

Record StaticSpinlock := mkSpinlock {
  sp_value : Z;
  sp_eflags : Z
}.

(** [eflags] with the interrupt flag (bit 9) cleared. *)
Definition DISABLE_INTERRUPTS (eflags : Z) : Z := Z.clearbit eflags 9.

Definition interrupts_on (eflags : Z) : bool := Z.testbit eflags 9.

Definition StaticSpinlock_init (l : StaticSpinlock) : StaticSpinlock := mkSpinlock 0 (sp_eflags l).

(** [test_and_set]: the old value; the lock becomes taken. *)
Definition test_and_set (value : Z) : Z * Z := (value, 1).

(** The lock and the processor flags afterwards. [fuel] bounds the spinning: on one
    processor nobody can release the lock meanwhile. *)
Definition StaticSpinlock_acquire (fuel : nat) (l : StaticSpinlock) (eflags : Z)
    : exec (StaticSpinlock * Z) :=
  let temp_eflags := eflags in
  let eflags := DISABLE_INTERRUPTS eflags in
  value ← while fuel
    (fun value => let '(old, value) := test_and_set value in
       if negb (old =? 0) then Done (inl value) else Done (inr value))
    (sp_value l);
  Done (mkSpinlock value temp_eflags, eflags).

Definition StaticSpinlock_release (l : StaticSpinlock) (eflags : Z) : exec (StaticSpinlock * Z) :=
  _ ← ASSERT (negb (sp_value l =? 0));
  Done (mkSpinlock 0 (sp_eflags l), sp_eflags l).

(** [ScopedLock]: whether it holds the lock; the destructor releases only then. *)
Record ScopedLock := mkScopedLock {
  sc_lock : StaticSpinlock;
  sc_locked : bool
}.

Definition ScopedLock_acquire (fuel : nat) (s : ScopedLock) (eflags : Z) : exec (ScopedLock * Z) :=
  '(l, eflags) ← StaticSpinlock_acquire fuel (sc_lock s) eflags;
  Done (mkScopedLock l true, eflags).

Definition ScopedLock_release (s : ScopedLock) (eflags : Z) : exec (ScopedLock * Z) :=
  '(l, eflags) ← StaticSpinlock_release (sc_lock s) eflags;
  Done (mkScopedLock l false, eflags).

Definition ScopedLock_new (fuel : nat) (l : StaticSpinlock) (eflags : Z) : exec (ScopedLock * Z) :=
  ScopedLock_acquire fuel (mkScopedLock l true) eflags.

Definition ScopedLock_destroy (s : ScopedLock) (eflags : Z) : exec (ScopedLock * Z) :=
  if sc_locked s then ScopedLock_release s eflags else Done (s, eflags).

Lemma acquire_free fuel l eflags :
  sp_value l = 0 ->
  StaticSpinlock_acquire (S fuel) l eflags = Done (mkSpinlock 1 eflags, DISABLE_INTERRUPTS eflags).
Proof. intros E. unfold StaticSpinlock_acquire. simpl. by rewrite E. Qed.

(** A lock that is already held is never got: the loop would not end. *)
Lemma acquire_held fuel l eflags :
  sp_value l <> 0 -> StaticSpinlock_acquire fuel l eflags = OutOfFuel.
Proof.
  intros E. unfold StaticSpinlock_acquire.
  assert (forall v, v <> 0 -> while fuel
    (fun value => let '(old, value) := test_and_set value in
       if negb (old =? 0) then Done (inl value) else Done (inr value)) v = OutOfFuel (A := Z)) as ->; [|done|done].
  induction fuel as [|fuel IH]; intros v Hv; [done|]. simpl.
  rewrite (proj2 (Z.eqb_neq v 0)) by done. simpl. by apply IH.
Qed.

(** Locks taken one inside the other. *)
Fixpoint acquire_all (locks : list StaticSpinlock) (eflags : Z) : exec (list StaticSpinlock * Z) :=
  match locks with
  | [] => Done ([], eflags)
  | l :: rest =>
      '(l, eflags) ← StaticSpinlock_acquire 1 l eflags;
      '(rest, eflags) ← acquire_all rest eflags;
      Done (l :: rest, eflags)
  end.

(** Released in the reverse order. *)
Fixpoint release_all (locks : list StaticSpinlock) (eflags : Z) : exec (list StaticSpinlock * Z) :=
  match locks with
  | [] => Done ([], eflags)
  | l :: rest =>
      '(rest, eflags) ← release_all rest eflags;
      '(l, eflags) ← StaticSpinlock_release l eflags;
      Done (l :: rest, eflags)
  end.

Lemma disabled_off eflags : interrupts_on (DISABLE_INTERRUPTS eflags) = false.
Proof. apply Z.clearbit_eq. Qed.

Lemma nested_locks locks eflags :
  Forall (fun l => sp_value l = 0) locks ->
  exists held eflags', acquire_all locks eflags = Done (held, eflags') /\
    Forall (fun l => sp_value l = 1) held /\
    (locks <> [] -> interrupts_on eflags' = false) /\
    (locks = [] -> eflags' = eflags) /\
    exists freed, release_all held eflags' = Done (freed, eflags) /\
      Forall (fun l => sp_value l = 0) freed.
Proof.
  intros Hf. revert eflags. induction Hf as [|l locks Hl Hf IH]; intros eflags; simpl.
  { exists [], eflags. split; [done|]. split; [done|]. split; [done|]. split; [done|]. by exists []. }
  rewrite acquire_free by done. simpl.
  destruct (IH (DISABLE_INTERRUPTS eflags)) as (held & e' & E & Hh & Hoff & Hnil & freed & Er & Hfr).
  rewrite E. simpl. eexists _, e'. split; [done|]. split; [by constructor|]. split; [|split; [done|]].
  - intros _. destruct locks as [|l2 locks]; [rewrite (Hnil eq_refl); apply disabled_off|by apply Hoff].
  - simpl. rewrite Er. simpl. eexists; split; [done|]. by constructor.
Qed.

(** * Semaphores *)

(** The count and the address of the wait queue. *)
Record Semaphore := mkSemaphore {
  sem_count : Z;
  sem_queue : Z
}.

Section Semaphores.
Context {H P : Type} `{ListStore H} `{IdPool P}.

Implicit Types (k : kernel H P) (s : Semaphore).

(** The queue [q] is constructed with the semaphore. *)
Definition Semaphore_new k (initial_value q : Z) : exec (Semaphore * kernel H P) :=
  w ← WaitQueue_new;
  Done (mkSemaphore initial_value q, put_queue k q w).

(** [acquire] up to the point where it returns ([None]) or the thread yields in
    [wait], with the iterator of its entry. *)
Definition Semaphore_acquire k s : exec (option (Z * Z) * Semaphore * kernel H P) :=
  let s := mkSemaphore (s32 (sem_count s - 1)) (sem_queue s) in
  if sem_count s <? 0 then
    r ← WaitQueue_wait_begin k (sem_queue s) 0;
    Done (Some r.1, s, r.2)
  else Done (None, s, k).

(** The rest of [acquire] after the yield. *)
Definition Semaphore_acquire_resume k s (it : Z * Z) : exec (kernel H P) :=
  r ← WaitQueue_wait_end k (sem_queue s) it.1 it.2;
  Done r.2.

Definition Semaphore_release k s : exec (Semaphore * kernel H P) :=
  k ← if sem_count s <? 0 then WaitQueue_wake_up k (sem_queue s) else Done k;
  Done (mkSemaphore (s32 (sem_count s + 1)) (sem_queue s), k).

Definition Mutex_new k (q : Z) : exec (Semaphore * kernel H P) := Semaphore_new k 1 q.
Definition Mutex_acquire := Semaphore_acquire.
Definition Mutex_release := Semaphore_release.

(** Entries that still wait. *)
Definition waiters (es : list Queue) : Z := alen (List.filter is_blocked_entry es).

(** The count below zero is the number of threads that wait. *)
Record sem_inv k s (A : lists) (E : gmap Z (list Queue)) (es : list Queue) : Prop := {
  si_kinv : kinv k A E;
  si_queue : E !! sem_queue s = Some es;
  si_count : waiters es = Z.max 0 (- sem_count s);
  si_range : - MAX_THREADS <= sem_count s < 2 ^ 31 - 1
}.

Lemma waiters_app es es' : waiters (es ++ es') = waiters es + waiters es'.
Proof. unfold waiters. by rewrite List.filter_app, alen_app. Qed.

Lemma waiters_none es : Forall (fun e => q_state e <> Blocked) es -> waiters es = 0.
Proof.
  induction 1 as [|e es He _ IH]; [done|]. unfold waiters in *. simpl. unfold is_blocked_entry at 1.
  by rewrite bool_decide_eq_false_2.
Qed.

Lemma waiters_blocked e : q_state e = Blocked -> waiters [e] = 1.
Proof. intros Hs. unfold waiters, is_blocked_entry. simpl. by rewrite bool_decide_eq_true_2. Qed.

Lemma waiters_not_blocked e : q_state e <> Blocked -> waiters [e] = 0.
Proof. intros Hs. apply waiters_none. by repeat constructor. Qed.

Lemma waiters_le es : 0 <= waiters es <= alen es.
Proof.
  unfold waiters. split; [apply alen_nonneg|]. unfold alen. apply inj_le, List.filter_length_le.
Qed.

Lemma waiters_threads k A q es :
  threads_inv k A -> entries_ok k q es -> alen es <= MAX_THREADS.
Proof.
  intros Hi Hok. etrans; [|apply (ti_few _ _ Hi)]. rewrite <- (alen_fmap q_thread es). unfold alen.
  rewrite <- size_dom. apply inj_le.
  rewrite <- (size_list_to_set (C := gset Z)) by apply (eo_nodup _ _ _ Hok).
  apply subseteq_size. intros t Hin. apply elem_of_list_to_set, list_elem_of_fmap in Hin as (e & -> & Hin).
  apply elem_of_dom. by apply (eo_live _ _ _ Hok).
Qed.

(** Taking a semaphore that is free. *)
Lemma acquire_free_spec k s A E es :
  sem_inv k s A E es -> 0 < sem_count s ->
  exists s', Semaphore_acquire k s = Done (None, s', k) /\ sem_count s' = sem_count s - 1 /\
    sem_inv k s' A E es.
Proof.
  intros [Hk HE Hc Hr] Hpos. unfold Semaphore_acquire. cbn [sem_count sem_queue].
  rewrite s32_small by lia. rewrite (proj2 (Z.ltb_ge _ _)) by lia.
  eexists. split; [done|]. split; [done|]. split; simpl; [done|done|lia|unfold MAX_THREADS in *; lia].
Qed.

(** Waiting for one that is taken. *)
Lemma acquire_taken_spec k s A E es c th :
  sem_inv k s A E es -> sem_count s <= 0 ->
  k_current k = Some c -> k_threads k !! c = Some th -> t_state th = Ready ->
  c ∉ q_thread <$> es ->
  exists it s' k' A' E', Semaphore_acquire k s = Done (Some it, s', k') /\
    sem_count s' = sem_count s - 1 /\ sem_inv k' s' A' E' (es ++ [mkQueue c Blocked]) /\
    exists p r, ready_of A = p ++ c :: r /\ ready_of A' = p ++ r.
Proof.
  intros [Hk HE Hc Hr] Hneg Hcur Ht Hs Hno. unfold Semaphore_acquire. cbn [sem_count sem_queue].
  destruct (wait_begin_spec k A E c th (sem_queue s) es 0 Hk Hcur Ht Hs HE Hno)
    as (st & k' & A' & Ew & Hk' & Hre & _).
  rewrite s32_small by (unfold MAX_THREADS in *; lia). rewrite (proj2 (Z.ltb_lt _ _)) by lia.
  rewrite Ew. cbn [mbind exec_bind]. eexists _, _, k', A', _. split; [done|]. split; [done|].
  split; [|done].
  assert (Hc' : waiters (es ++ [mkQueue c Blocked]) = Z.max 0 (- (sem_count s - 1))).
  { rewrite waiters_app, waiters_blocked by done. lia. }
  split; cbn [sem_count sem_queue]; [exact Hk'|by rewrite lookup_insert_eq|done|].
  destruct (queue_of k' _ (sem_queue s) (es ++ [mkQueue c Blocked]) (ki_queues _ _ _ Hk'))
    as (_ & _ & _ & _ & _ & Hok); [by rewrite lookup_insert_eq|].
  pose proof (waiters_threads k' A' _ _ (ki_threads _ _ _ Hk') Hok).
  pose proof (waiters_le (es ++ [mkQueue c Blocked])). lia.
Qed.

(** Releasing wakes the thread that has waited longest. *)
Lemma release_spec k s A E es :
  sem_inv k s A E es -> sem_count s < 2 ^ 31 - 2 ->
  exists s' k' A' E' es', Semaphore_release k s = Done (s', k') /\
    sem_count s' = sem_count s + 1 /\ sem_inv k' s' A' E' es' /\
    ((0 <= sem_count s /\ k' = k) \/
     (sem_count s < 0 /\ exists p e r, es = p ++ e :: r /\ q_state e = Blocked /\
        Forall (fun e => q_state e <> Blocked) p /\ es' = p ++ woken e WokenUpNormally :: r /\
        ready_of A' = ready_of A ++ [q_thread e])).
Proof.
  intros [Hk HE Hc Hr] Hmax. unfold Semaphore_release.
  destruct (Z.ltb_spec (sem_count s) 0) as [Hneg|Hpos].
  - destruct (queue_wake_up_spec k A E (sem_queue s) es 0 Hk HE)
      as [[_ Hno]|(p & e & r & k' & A' & -> & Hs & Hp & Ew & Hk' & Hre & _)].
    { rewrite (waiters_none es Hno) in Hc. lia. }
    rewrite Ew. cbn [mbind exec_bind]. eexists _, k', A', _, _. split; [done|].
    cbn [sem_count]. rewrite s32_small by (unfold MAX_THREADS in *; lia). split; [done|]. split.
    + split; cbn [sem_count sem_queue]; [exact Hk'|by rewrite lookup_insert_eq| |unfold MAX_THREADS in *; lia].
      assert (Hsplit : forall x, p ++ x :: r = p ++ [x] ++ r) by done.
      rewrite Hsplit, !waiters_app in *. rewrite waiters_blocked in Hc by done.
      rewrite waiters_not_blocked by done. pose proof (waiters_le r). pose proof (waiters_le p). lia.
    + right. split; [done|]. exists p, e, r. done.
  - eexists _, k, A, E, es. split; [done|]. cbn [sem_count].
    rewrite s32_small by (unfold MAX_THREADS in *; lia). split; [done|].
    split; [|by left]. split; cbn [sem_count sem_queue]; [done|done|lia|unfold MAX_THREADS in *; lia].
Qed.

End Semaphores.

(** A second thread that waits reallocates a full queue: the iterator of a thread that
    waits already points to freed storage. *)
Lemma wait_reallocates {H P} `{ListStore H} `{IdPool P} (k k' : kernel H P) (q ms storage i : Z)
    w st j :
  k_queues k !! q = Some w -> v_count (wq_queue w) = v_capacity (wq_queue w) ->
  storage = v_capacity (wq_queue w) -> 0 <= v_capacity (wq_queue w) < 2 ^ 32 - 1 ->
  v_allocation_steps (wq_queue w) = 1 ->
  WaitQueue_wait_begin k q ms = Done (st, j, k') -> WaitQueue_wait_end k' q storage i = Fault.
Proof.
  intros Hw Hfull -> Hcap Hst E. unfold WaitQueue_wait_begin in E. inv_done.
  destruct x2 as [v j']. inv_done. unfold get_queue, Thread_block in *. inv_done.
  assert (Hx : k_queues x0 = k_queues k) by (destruct (truthy ms); by inv_done).
  rewrite Hx, Hw in *. inv_done.
  unfold WaitQueue_wait_end, get_queue. cbn [k_queues put_queue]. rewrite lookup_insert_eq.
  cbn [mbind exec_bind wq_queue]. unfold iterator_read.
  assert (Hv : v_capacity v = v_capacity (wq_queue x1) + 1).
  { unfold Vector_push_back in *.
    match goal with Hp : Vector_insert _ _ _ _ = Done _ |- _ => rewrite (insert_capacity _ _ _ _ _ _ Hp) end.
    rewrite Hfull, Z.eqb_refl, Hst. apply u32_small. lia. }
  rewrite Hv, (proj2 (Z.eqb_neq _ _)) by lia. done.
Qed.

(** * Properties *)


(** The kernel of the file Thread with an empty queue at 7. *)
Definition sample_queue : WaitQueue := mkWaitQueue (mkVector (Some (filled [] 1)) 0 1 1) false.

Definition sample_sem_kernel : kernel node_heap Bitmap := put_queue (sample_kernel 0) 7 sample_queue.

Lemma sample_sem_inv : sem_inv sample_sem_kernel (mkSemaphore 0 7) sample_store (<[7 := []]> ∅) [].
Proof.
  destruct (sample_kinv 0) as [Hi [_ _ Hq] Hd].
  split; [split; [by apply threads_put_queue|split|done]|reflexivity|reflexivity|simpl; unfold MAX_THREADS; lia].
  - intros q w Ew. unfold sample_sem_kernel, put_queue in Ew. cbn [k_queues] in Ew. apply lookup_insert_Some in Ew as [[<- <-]|[_ Ew]]; [|done].
    exists []. split; [reflexivity|]. split; [by apply mkVector_rep|]. simpl. unfold MAX_THREADS. lia.
  - intros q es Ee. apply lookup_insert_Some in Ee as [[<- <-]|[_ Ee]]; [|done].
    split; [by eexists|]. split; [constructor|intros e He; by apply not_elem_of_nil in He..].
  - intros t th Ht Hon. destruct (Hq t th Ht Hon) as (q & es & _ & He & _). done.
Qed.


(** Two threads cannot wait on one queue. [wait] keeps an iterator into the vector of
    entries across the yield; when the vector is full (it is created with room for one
    entry), a second [wait] moves the entries to new storage, and the first thread then
    reads its entry through a pointer to freed memory when it is woken up. *)
Theorem second_wait_invalidates_first {H P} `{ListStore H} `{IdPool P} (k k' : kernel H P)
    (q ms storage i : Z) (w : WaitQueue) (st j : Z) :
  k_queues k !! q = Some w -> v_count (wq_queue w) = v_capacity (wq_queue w) ->
  storage = v_capacity (wq_queue w) -> 0 <= v_capacity (wq_queue w) < 2 ^ 32 - 1 ->
  v_allocation_steps (wq_queue w) = 1 ->
  WaitQueue_wait_begin k q ms = Done (st, j, k') -> WaitQueue_wait_end k' q storage i = Fault.
Proof. apply wait_reallocates. Qed.

(** Thread 100 waits, the scheduler would choose 101, and 101 waits too. *)
Definition after_first_wait : exec (kernel node_heap Bitmap) :=
  r ← WaitQueue_wait_begin sample_sem_kernel 7 0; Done (set_current r.2 101).

Definition second_wait_check : bool :=
  match after_first_wait with
  | Done k1 =>
      match k_queues k1 !! 7, WaitQueue_wait_begin k1 7 0 with
      | Some w, Done (st, j, _) =>
          (v_count (wq_queue w) =? 1) && (v_capacity (wq_queue w) =? 1) &&
          (v_allocation_steps (wq_queue w) =? 1) && (st =? 2) && (j =? 1)
      | _, _ => false
      end
  | _ => false
  end.

Lemma second_wait_invalidates_first_witness :
  exists k1 k2, after_first_wait = Done k1 /\ WaitQueue_wait_begin k1 7 0 = Done (2, 1, k2) /\
    WaitQueue_wait_end k2 7 1 0 = Fault.
Proof.
  assert (Hcheck : second_wait_check = true) by (vm_compute; reflexivity).
  unfold second_wait_check in Hcheck.
  destruct after_first_wait as [k1| | |]; [|discriminate Hcheck..].
  destruct (k_queues k1 !! 7) as [w|] eqn:Hw; [|discriminate Hcheck].
  destruct (WaitQueue_wait_begin k1 7 0) as [[[st j] k2]| | |] eqn:E2; [|discriminate Hcheck..].
  to_prop. subst st j. exists k1, k2. split; [reflexivity|]. split; [exact E2|].
  apply (second_wait_invalidates_first k1 k2 7 0 1 0 w 2 1);
    [exact Hw|congruence|congruence|lia|assumption|exact E2].
Defined.

(** Nested spin locks keep interrupts off and restore them. Free locks taken one
    inside the other are all held, with interrupts disabled as long as any is held, and
    releasing them in the reverse order frees all of them and restores the processor
    flags from before, whatever they were. *)
Theorem spinlocks_nest (locks : list StaticSpinlock) (eflags : Z) :
  Forall (fun l => sp_value l = 0) locks ->
  exists held eflags', acquire_all locks eflags = Done (held, eflags') /\
    Forall (fun l => sp_value l = 1) held /\
    (locks <> [] -> interrupts_on eflags' = false) /\
    (locks = [] -> eflags' = eflags) /\
    exists freed, release_all held eflags' = Done (freed, eflags) /\
      Forall (fun l => sp_value l = 0) freed.
Proof. apply nested_locks. Qed.

Lemma spinlocks_nest_witness :
  exists held eflags', acquire_all [mkSpinlock 0 0; mkSpinlock 0 7] 0x202 = Done (held, eflags') /\
    interrupts_on eflags' = false.
Proof.
  destruct (spinlocks_nest [mkSpinlock 0 0; mkSpinlock 0 7] 0x202) as (h & e & H1 & _ & H2 & _);
    [by repeat constructor|]. exists h, e. split; [exact H1|by apply H2].
Defined.
