(* ===== verification/Clib.v ===== *)
(** The C string functions of the standard library (clib.cpp). A character array is the
    list of its bytes and a pointer into it is an offset, so that every access outside
    the array is a fault; loops that look for a terminating zero run as long as the
    array is. *)

From S2P Require Import Prelude.

(** A character array with the terminating zero of a literal, and the array of a literal. *)
Definition c_str (cs : list Z) : list Z := cs ++ [0].

Definition literal (s : string) : list Z :=
  c_str ((fun c => Z.of_N (Ascii.N_of_ascii c)) <$> String.list_ascii_of_string s).

(** [_dest[i] = _source[i]] for two different objects. *)
Definition memcpy (dest : list Z) (d : Z) (source : list Z) (s len : Z) : exec (list Z) :=
  for_ (Z.to_nat len) 0 (fun i dest => x ← aget source (s + i); aset dest (d + i) x) dest.

(** [memcpy] when both pointers lead into one object: it copies upwards also then. *)
Definition memcpy_within (buf : list Z) (d s len : Z) : exec (list Z) :=
  for_ (Z.to_nat len) 0 (fun i buf => x ← aget buf (s + i); aset buf (d + i) x) buf.

(** Inside one object, where the two areas may overlap: backwards when the source is
    below the destination. *)
Definition memmove (buf : list Z) (d s len : Z) : exec (list Z) :=
  if s <? d then
    for_ (Z.to_nat len) 0
      (fun k buf => x ← aget buf (s + len - 1 - k); aset buf (d + len - 1 - k) x) buf
  else
    for_ (Z.to_nat len) 0 (fun k buf => x ← aget buf (s + k); aset buf (d + k) x) buf.

Definition memset (dest : list Z) (d value len : Z) : exec (list Z) :=
  for_ (Z.to_nat len) 0 (fun i dest => aset dest (d + i) value) dest.

(** [len] only grows, and faults at the end of the array: its length and one more are
    enough turns. *)
Definition strlen (str : list Z) (off : Z) : exec Z :=
  while (S (length str))
    (fun len => c ← aget str (off + len);
       if truthy c then Done (inl (u32 (len + 1))) else Done (inr len))
    0.

(** [true] when the areas differ, as the [bool] result of the source. *)
Definition memcmp (source : list Z) (s : Z) (dest : list Z) (d len : Z) : exec bool :=
  while (S (Z.to_nat len))
    (fun i => if i <? len then
                a ← aget source (s + i); b ← aget dest (d + i);
                if negb (a =? b) then Done (inr true) else Done (inl (i + 1))
              else Done (inr false))
    0.

Definition strncmp (source : list Z) (s : Z) (dest : list Z) (d len : Z) : exec bool :=
  memcmp source s dest d len.

Definition strcmp (source : list Z) (s : Z) (dest : list Z) (d : Z) : exec bool :=
  src_len ← strlen source s;
  dst_len ← strlen dest d;
  if negb (src_len =? dst_len) then Done true
  else memcmp source s dest d src_len.

Definition strcpy (dst : list Z) (d : Z) (src : list Z) (s : Z) : exec (Z * list Z) :=
  while (S (length src))
    (fun '(i, dst) => c ← aget src (s + i); dst ← aset dst (d + i) c;
       if truthy c then Done (inl (u32 (i + 1), dst)) else Done (inr (i, dst)))
    (0, dst).

(** A [char], which is signed on the target, as a number; the character is its byte. *)
Definition char_value (c : Z) : Z := if c <? 128 then c else c - 256.

(** The character codes used below: ['a'], ['z'], ['A'], ['Z'], ['0']. *)
Definition is_lower (c : Z) : bool := (97 <=? c) && (c <=? 122).
Definition is_upper (c : Z) : bool := (65 <=? c) && (c <=? 90).

Definition toupper (str : list Z) : exec (Z * list Z) :=
  while (S (length str))
    (fun '(i, str) => c ← aget str i;
       if truthy c then
         str ← (if is_lower c then aset str i (u8 (c + (65 - 97))) else Done str);
         Done (inl (u32 (i + 1), str))
       else Done (inr (i, str)))
    (0, str).

Definition tolower (str : list Z) : exec (Z * list Z) :=
  while (S (length str))
    (fun '(i, str) => c ← aget str i;
       if truthy c then
         str ← (if is_upper c then aset str i (u8 (c - (65 - 97))) else Done str);
         Done (inl (u32 (i + 1), str))
       else Done (inr (i, str)))
    (0, str).

Definition digit_char (tmp : Z) : Z := if tmp <? 10 then tmp + 48 else tmp + 97 - 10.

(** Digits, the least significant first; 32 turns suffice in base 2. *)
Definition itoa_digits (buf : list Z) (n base : Z) : exec (Z * list Z) :=
  while 33
    (fun '(i, n, buf) =>
       buf ← aset buf i (digit_char (n mod base));
       if truthy (n / base) then Done (inl (i + 1, n / base, buf)) else Done (inr (i + 1, buf)))
    (0, n, buf).

(** Reversal in place, from both ends. *)
Definition itoa_reverse (buf : list Z) (i : Z) : exec (list Z) :=
  while 33
    (fun '(j, i, buf) =>
       if j <? i then
         tmp ← aget buf j; x ← aget buf i;
         buf ← aset buf j x; buf ← aset buf i tmp;
         Done (inl (j + 1, i - 1, buf))
       else Done (inr buf))
    (0, i, buf).

Definition itoa (buf : list Z) (n base : Z) : exec (list Z) :=
  '(i, buf) ← itoa_digits buf n base;
  buf ← aset buf i 0;
  itoa_reverse buf (i - 1).

(** * Copying *)

Lemma aget_middle {A} (p s : list A) x : aget (p ++ x :: s) (alen p) = Done x.
Proof.
  apply aget_Done; [apply alen_nonneg|]. unfold alen. rewrite Nat2Z.id. by rewrite list_lookup_middle.
Qed.

Lemma aset_middle {A} (p s : list A) x y : aset (p ++ x :: s) (alen p) y = Done (p ++ y :: s).
Proof.
  rewrite aset_Done.
  - unfold alen. rewrite Nat2Z.id. by rewrite insert_app_r_alt, Nat.sub_diag by lia.
  - rewrite alen_app, alen_cons. pose proof (alen_nonneg p). pose proof (alen_nonneg s). lia.
Qed.

Lemma snoc_middle {A} (p s : list A) x : p ++ x :: s = (p ++ [x]) ++ s.
Proof. by rewrite <- app_assoc. Qed.

Lemma memcpy_loop (source : list Z) (c old p rest sp sr : list Z) d s i :
  length old = length c -> source = sp ++ c ++ sr -> s + i = alen sp -> d + i = alen p ->
  for_ (length c) i (fun i dest => x ← aget source (s + i); aset dest (d + i) x) (p ++ old ++ rest)
  = Done (p ++ c ++ rest).
Proof.
  revert old p sp i. induction c as [|x c IH]; intros old p sp i Hl Hs Hsp Hp.
  { destruct old; [done|discriminate Hl]. }
  destruct old as [|o old]; [discriminate Hl|]. simpl. simpl in Hs.
  rewrite Hsp, Hp, Hs, aget_middle. cbn [mbind exec_bind]. rewrite aset_middle. cbn [mbind exec_bind].
  rewrite (snoc_middle p (old ++ rest) x), (snoc_middle p (c ++ rest) x).
  rewrite <- Hs. apply (IH old (p ++ [x]) (sp ++ [x])); [by injection Hl|by rewrite <- app_assoc|..];
    rewrite alen_snoc; lia.
Qed.

(** [memcpy] replaces exactly the area by the bytes of the source. *)
Lemma memcpy_spec (c old p rest sp sr : list Z) :
  length old = length c ->
  memcpy (p ++ old ++ rest) (alen p) (sp ++ c ++ sr) (alen sp) (alen c) = Done (p ++ c ++ rest).
Proof.
  intros Hl. unfold memcpy. replace (Z.to_nat (alen c)) with (length c) by (unfold alen; lia).
  apply (memcpy_loop _ c old p rest sp sr); [done|done|lia|lia].
Qed.

Lemma memcpy_length dest d source s len dest' : memcpy dest d source s len = Done dest' -> alen dest' = alen dest.
Proof.
  unfold memcpy. intros E. refine (for_inv_done (fun _ l => alen l = alen dest) _ _ _ _ _ eq_refl _ E).
  intros i l l' _ Hl El. inv_done. apply aset_inv in El as [_ ->]. by rewrite alen_insert.
Qed.

Lemma memmove_loop (y x p r : list Z) (d s i : Z) :
  s + i = alen p + alen x -> d + i = alen p ->
  exists z, length z = length x /\
    for_ (length y) i (fun k buf => x ← aget buf (s + k); aset buf (d + k) x) (p ++ x ++ y ++ r)
    = Done (p ++ y ++ z ++ r).
Proof.
  revert x p i. induction y as [|y0 y IH]; intros x p i Hs Hd; [by exists x|].
  simpl. rewrite Hs, Hd, <- alen_app, app_assoc, aget_middle. cbn [mbind exec_bind].
  rewrite <- app_assoc. destruct x as [|x0 x]; simpl.
  - rewrite aset_middle. cbn [mbind exec_bind]. rewrite (snoc_middle p (y ++ r) y0).
    destruct (IH [] (p ++ [y0]) (i + 1)) as (z & Hz & E);
      [rewrite alen_snoc, alen_nil in *; lia|rewrite alen_snoc; lia|].
    exists z. split; [done|]. simpl in E. rewrite E. by rewrite <- app_assoc.
  - rewrite aset_middle. cbn [mbind exec_bind].
    rewrite (snoc_middle p (x ++ y0 :: y ++ r) y0), (snoc_middle x (y ++ r) y0).
    destruct (IH (x ++ [y0]) (p ++ [y0]) (i + 1)) as (z & Hz & E).
    + rewrite !alen_snoc, alen_cons in *. lia.
    + rewrite alen_snoc. lia.
    + exists z. rewrite length_app in Hz. simpl in *. split; [lia|].
      rewrite E. by rewrite <- app_assoc.
Qed.

Lemma memcpy_down (p x y r : list Z) :
  exists z, length z = length x /\
    memcpy_within (p ++ x ++ y ++ r) (alen p) (alen p + alen x) (alen y) = Done (p ++ y ++ z ++ r).
Proof.
  unfold memcpy_within. replace (Z.to_nat (alen y)) with (length y) by (unfold alen; lia). apply memmove_loop; lia.
Qed.

(** Moving a part of an array down over an area that it may overlap. *)
Lemma memmove_down (p x y r : list Z) :
  exists z, length z = length x /\
    memmove (p ++ x ++ y ++ r) (alen p) (alen p + alen x) (alen y) = Done (p ++ y ++ z ++ r).
Proof.
  unfold memmove. rewrite (proj2 (Z.ltb_ge _ _)) by (pose proof (alen_nonneg x); lia).
  replace (Z.to_nat (alen y)) with (length y) by (unfold alen; lia).
  apply memmove_loop; lia.
Qed.

(** * Scanning and comparing *)

Lemma strlen_spec (p cs r : list Z) :
  Forall (fun c => c <> 0) cs -> alen cs < 2 ^ 32 ->
  strlen (p ++ cs ++ 0 :: r) (alen p) = Done (alen cs).
Proof.
  intros Hnz Hb. unfold strlen.
  destruct (while_inv (fun len => exists q s, cs = q ++ s /\ len = alen q) (fun r => r = alen cs)
    (fun len => Z.to_nat (alen cs - len))
    (fun len => c ← aget (p ++ cs ++ 0 :: r) (alen p + len);
       if truthy c then Done (inl (u32 (len + 1))) else Done (inr len))
    (S (length (p ++ cs ++ 0 :: r))) 0) as (len & E & ->); [| | |done].
  - exists [], cs. done.
  - rewrite !length_app. simpl. unfold alen. lia.
  - intros len (q & s & -> & ->). destruct s as [|c s].
    + right. exists (alen q). rewrite app_nil_r. split; [|done].
      replace (alen p + alen q) with (alen (p ++ q)) by by rewrite alen_app.
      rewrite app_assoc, aget_middle. done.
    + left. replace (alen p + alen q) with (alen (p ++ q)) by by rewrite alen_app.
      rewrite <- (app_assoc q), app_assoc. simpl. rewrite aget_middle.
      apply Forall_app in Hnz as [_ Hnz]. apply Forall_cons in Hnz as [Hc _].
      cbn [mbind exec_bind]. unfold truthy. rewrite (proj2 (Z.eqb_neq c 0)) by done. simpl.
      eexists. split; [done|]. rewrite !alen_app, !alen_cons in *. pose proof (alen_nonneg s).
      pose proof (alen_nonneg q). rewrite u32_small by lia. split; [|lia].
      exists (q ++ [c]), s. rewrite <- app_assoc, alen_snoc. done.
Qed.

(** Changing the case of a string: each character on its own. *)
Definition upper (c : Z) : Z := if is_lower c then u8 (c + (65 - 97)) else c.
Definition lower (c : Z) : Z := if is_upper c then u8 (c - (65 - 97)) else c.

Lemma case_loop (test : Z -> bool) (f : Z -> Z) (cs r : list Z) :
  Forall (fun c => c <> 0) cs -> alen cs < 2 ^ 32 ->
  while (S (length (cs ++ 0 :: r)))
    (fun '(i, str) => c ← aget str i;
       if truthy c then
         str ← (if test c then aset str i (f c) else Done str);
         Done (inl (u32 (i + 1), str))
       else Done (inr (i, str)))
    (0, cs ++ 0 :: r) = Done (alen cs, ((fun c => if test c then f c else c) <$> cs) ++ 0 :: r).
Proof.
  intros Hnz Hb. set (g := fun c => if test c then f c else c).
  match goal with |- while ?n ?step ?st = _ =>
    destruct (while_inv (fun '(i, str) => exists q s, cs = q ++ s /\ i = alen q /\ str = (g <$> q) ++ s ++ 0 :: r)
      (fun o => o = (alen cs, (g <$> cs) ++ 0 :: r)) (fun '(i, _) => Z.to_nat (alen cs - i)) step n st)
      as (o & E & ->) end; [| | |done].
  - by exists [], cs.
  - rewrite !length_app. simpl. unfold alen. lia.
  - intros [i str] (q & s & -> & -> & ->). rewrite <- (alen_fmap g q). destruct s as [|c s].
    + right. exists (alen (g <$> q), (g <$> q) ++ 0 :: r). simpl. rewrite aget_middle, app_nil_r, alen_fmap. done.
    + left. cbn [app]. rewrite aget_middle. cbn [mbind exec_bind]. apply Forall_app in Hnz as [_ Hnz].
      apply Forall_cons in Hnz as [Hc _]. unfold truthy. rewrite (proj2 (Z.eqb_neq c 0)) by done. cbn [negb].
      rewrite !alen_app, !alen_cons in *. pose proof (alen_nonneg s). pose proof (alen_nonneg q).
      rewrite alen_fmap, u32_small by lia.
      exists (alen q + 1, (g <$> q) ++ g c :: s ++ 0 :: r). split.
      * replace (g c) with (if test c then f c else c) by done.
        destruct (test c); [|done]. rewrite <- (alen_fmap g q), aset_middle. done.
      * split; [|lia]. exists (q ++ [c]), s. rewrite alen_snoc, fmap_app, <- !app_assoc. done.
Qed.

Lemma toupper_spec (cs r : list Z) :
  Forall (fun c => c <> 0) cs -> alen cs < 2 ^ 32 -> toupper (cs ++ 0 :: r) = Done (alen cs, (upper <$> cs) ++ 0 :: r).
Proof. apply (case_loop is_lower (fun c => u8 (c + (65 - 97)))). Qed.

Lemma tolower_spec (cs r : list Z) :
  Forall (fun c => c <> 0) cs -> alen cs < 2 ^ 32 -> tolower (cs ++ 0 :: r) = Done (alen cs, (lower <$> cs) ++ 0 :: r).
Proof. apply (case_loop is_upper (fun c => u8 (c - (65 - 97)))). Qed.

(** [memcmp] tells whether the two areas differ. *)
Lemma memcmp_spec (a b p q ra rb : list Z) :
  length a = length b ->
  memcmp (p ++ a ++ ra) (alen p) (q ++ b ++ rb) (alen q) (alen a) = Done (negb (bool_decide (a = b))).
Proof.
  intros Hl. unfold memcmp.
  match goal with |- while ?f ?step ?st = _ =>
    destruct (while_inv (fun i => exists c a' b', a = c ++ a' /\ b = c ++ b' /\ i = alen c)
      (fun r => r = negb (bool_decide (a = b))) (fun i => Z.to_nat (alen a - i)) step f st)
      as (r & E & ->) end; [| | |done].
  - exists [], a, b. done.
  - unfold alen. lia.
  - intros i (c & a' & b' & -> & -> & ->). rewrite !length_app in Hl. rewrite alen_app.
    destruct a' as [|x a'], b' as [|y b']; simpl in Hl; [|lia|lia|].
    + right. rewrite app_nil_r, alen_nil, (proj2 (Z.ltb_ge _ _)) by lia.
      eexists; split; [done|]. by rewrite bool_decide_eq_true_2.
    + rewrite alen_cons. pose proof (alen_nonneg a'). rewrite (proj2 (Z.ltb_lt _ _)) by lia.
      replace (alen p + alen c) with (alen (p ++ c)) by by rewrite alen_app.
      replace (alen q + alen c) with (alen (q ++ c)) by by rewrite alen_app.
      rewrite <- !(app_assoc c), !(app_assoc p), !(app_assoc q). simpl. rewrite !aget_middle.
      cbn [mbind exec_bind]. destruct (Z.eqb_spec x y) as [->|Hne]; simpl.
      * left. eexists; split; [done|]. split; [|lia]. exists (c ++ [y]), a', b'.
        rewrite <- !app_assoc, alen_snoc. done.
      * right. eexists; split; [done|]. rewrite bool_decide_eq_false_2; [done|].
        intros E. apply app_inv_head in E. congruence.
Qed.

(** * Printing numbers *)

(** The digit a character stands for, and the number a sequence of digits denotes in a
    base, the most significant digit first. *)
Definition char_digit (c : Z) : Z := if c <? 58 then c - 48 else c - 97 + 10.

Definition number (base : Z) (ds : list Z) : Z :=
  foldl (fun acc c => acc * base + char_digit c) 0 ds.

(** The same for digits with the least significant one first. *)
Fixpoint number_le (base : Z) (ds : list Z) : Z :=
  match ds with [] => 0 | c :: ds => char_digit c + base * number_le base ds end.

Lemma number_snoc base ds c : number base (ds ++ [c]) = number base ds * base + char_digit c.
Proof. unfold number. by rewrite foldl_app. Qed.

Lemma number_reverse base ds : number base (reverse ds) = number_le base ds.
Proof.
  induction ds as [|c ds IH]; [done|]. rewrite reverse_cons, number_snoc, IH. simpl. lia.
Qed.

Lemma number_le_snoc base ds c :
  number_le base (ds ++ [c]) = number_le base ds + base ^ alen ds * char_digit c.
Proof.
  induction ds as [|d ds IH]; cbn [number_le app]; [change (alen (@nil Z)) with 0; rewrite Z.pow_0_r; lia|].
  rewrite IH, alen_cons.
  rewrite Z.pow_add_r, Z.pow_1_r by (lia || apply alen_nonneg). ring.
Qed.

Lemma digit_char_spec d : 0 <= d < 36 -> char_digit (digit_char d) = d /\ digit_char d <> 0.
Proof.
  intros Hd. unfold char_digit, digit_char. destruct (Z.ltb_spec d 10); case_test; lia.
Qed.

Lemma drop_next (buf : list Z) (n : nat) :
  (n < length buf)%nat -> exists o, drop n buf = o :: drop (S n) buf.
Proof.
  intros Hn. destruct (lookup_lt_is_Some_2 buf n Hn) as [o Ho]. exists o. by apply drop_S.
Qed.

(** The quotient loses a bit in every turn. *)
Lemma quotient_bound m base k :
  2 <= base -> 0 < k -> 0 <= m < 2 ^ k -> 0 <= m / base < 2 ^ (k - 1).
Proof.
  intros Hb Hk Hm. split; [apply Z.div_pos; lia|]. apply Z.div_lt_upper_bound; [lia|].
  replace (2 ^ k) with (2 * 2 ^ (k - 1)) in Hm by (rewrite <- Z.pow_succ_r by lia; f_equal; lia).
  assert (0 < 2 ^ (k - 1)) by (apply Z.pow_pos_nonneg; lia). nia.
Qed.

Lemma number_le_digit base ds m :
  2 <= base <= 36 -> 0 <= m ->
  number_le base ds + base ^ alen ds * m
  = number_le base (ds ++ [digit_char (m mod base)]) + base ^ (alen ds + 1) * (m / base).
Proof.
  intros Hb Hm. assert (0 <= m mod base < base) by (apply Z.mod_pos_bound; lia).
  destruct (digit_char_spec (m mod base)) as [Hcd _]; [lia|].
  rewrite number_le_snoc, Hcd, Z.pow_add_r, Z.pow_1_r by (lia || apply alen_nonneg).
  rewrite (Z.div_mod m base) at 1 by lia. ring.
Qed.

(** A character that stands for a digit of the base. *)
Definition is_digit (base c : Z) : Prop := exists d, 0 <= d < base /\ c = digit_char d.

Lemma is_digit_nonzero base ds : 2 <= base <= 36 -> Forall (is_digit base) ds -> Forall (fun c => c <> 0) ds.
Proof.
  intros Hb Hds. eapply Forall_impl; [exact Hds|]. intros c (d & Hd & ->). by apply digit_char_spec; lia.
Qed.

Lemma quotient_power m base k :
  2 <= base -> 0 < k -> 0 <= m < base ^ k -> m / base < base ^ (k - 1).
Proof.
  intros Hb Hk Hm. apply Z.div_lt_upper_bound; [lia|].
  rewrite <- Z.pow_succ_r by lia. replace (Z.succ (k - 1)) with k by lia. lia.
Qed.

(** A number below [base ^ k] takes at most [k] digits. *)
Lemma itoa_digits_spec (buf : list Z) (n base k : Z) :
  2 <= base <= 36 -> 0 <= n < 2 ^ 32 -> 0 < k < alen buf -> n < base ^ k ->
  exists ds, itoa_digits buf n base = Done (alen ds, ds ++ drop (length ds) buf) /\
    0 < alen ds <= 32 /\ alen ds <= k /\ number_le base ds = n /\ Forall (is_digit base) ds.
Proof.
  intros Hb Hn Hbuf Hk. unfold itoa_digits.
  match goal with |- context [while ?f ?step ?st] =>
    destruct (while_inv
      (fun '(i, m, b) => exists ds, b = ds ++ drop (length ds) buf /\ i = alen ds /\
         alen ds < 32 /\ alen ds < k /\ 0 <= m < 2 ^ (32 - alen ds) /\ m < base ^ (k - alen ds) /\
         n = number_le base ds + base ^ alen ds * m /\ Forall (is_digit base) ds)
      (fun '(i, b) => exists ds, i = alen ds /\ b = ds ++ drop (length ds) buf /\
         0 < alen ds <= 32 /\ alen ds <= k /\ number_le base ds = n /\ Forall (is_digit base) ds)
      (fun '(i, m, b) => Z.to_nat (32 - i)) step f st) as ([i b] & E & ds & -> & -> & ?) end.
  - exists []. rewrite (@alen_nil Z). simpl. rewrite !Z.sub_0_r. repeat split; try done; lia.
  - lia.
  - intros [[i m] b] (ds & -> & -> & Hds & Hdk & Hm & Hmk & Hnum & Hdig). pose proof (alen_nonneg ds).
    destruct (drop_next buf (length ds)) as [o Ho]; [unfold alen in *; lia|].
    rewrite Ho, aset_middle. cbn [mbind exec_bind].
    pose proof (Z.mod_pos_bound m base ltac:(lia)) as Hmod.
    pose proof (quotient_bound m base (32 - alen ds) ltac:(lia) ltac:(lia) Hm) as Hq.
    pose proof (quotient_power m base (k - alen ds) ltac:(lia) ltac:(lia) ltac:(lia)) as Hqk.
    rewrite (number_le_digit base ds m Hb) in Hnum by lia.
    set (c := digit_char (m mod base)) in *.
    assert (Hdig' : Forall (is_digit base) (ds ++ [c])).
    { apply Forall_app_2; [done|]. apply Forall_singleton. by exists (m mod base). }
    assert (Hsnoc : ds ++ c :: drop (S (length ds)) buf = (ds ++ [c]) ++ drop (length (ds ++ [c])) buf).
    { rewrite length_app, Nat.add_comm. by rewrite <- app_assoc. }
    unfold truthy. destruct (Z.eqb_spec (m / base) 0) as [E0|E0]; simpl.
    + right. eexists. split; [done|]. exists (ds ++ [c]). rewrite alen_snoc.
      rewrite E0 in Hnum. repeat split; try done; lia.
    + left. eexists. split; [done|]. assert (alen ds + 1 < 32).
      { destruct (Z.lt_ge_cases (alen ds + 1) 32); [done|].
        replace (32 - alen ds - 1) with 0 in Hq by lia. simpl in Hq. lia. }
      assert (alen ds + 1 < k).
      { destruct (Z.lt_ge_cases (alen ds + 1) k); [done|].
        replace (k - alen ds - 1) with 0 in Hqk by lia. simpl in Hqk. lia. }
      split; [|lia]. exists (ds ++ [c]). rewrite alen_snoc.
      replace (32 - (alen ds + 1)) with (32 - alen ds - 1) by lia.
      replace (k - (alen ds + 1)) with (k - alen ds - 1) by lia. repeat split; try done; lia.
  - exists ds. rewrite E. done.
Qed.

(** Exchanging the two ends of an area. *)
Lemma swap_ends (a mid b : list Z) x y :
  let i := alen a + alen mid + 1 in
  aget (a ++ x :: mid ++ y :: b) (alen a) = Done x /\
  aget (a ++ x :: mid ++ y :: b) i = Done y /\
  aset (a ++ x :: mid ++ y :: b) (alen a) y = Done (a ++ y :: mid ++ y :: b) /\
  aset (a ++ y :: mid ++ y :: b) i x = Done (a ++ y :: mid ++ x :: b).
Proof.
  cbn zeta.
  assert (Hi : forall z, alen a + alen mid + 1 = alen (a ++ z :: mid)).
  { intros z. rewrite alen_app, alen_cons. lia. }
  assert (Hs : forall z w, a ++ z :: mid ++ w = (a ++ z :: mid) ++ w) by (intros; by rewrite <- app_assoc).
  rewrite aget_middle, aset_middle. split; [done|]. rewrite (Hs x (y :: b)), (Hi x), aget_middle.
  split; [done|]. split; [done|]. rewrite <- (Hi x), (Hi y), !(Hs y), aset_middle. done.
Qed.

Lemma itoa_reverse_spec (ds rest : list Z) :
  0 < alen ds <= 32 -> itoa_reverse (ds ++ rest) (alen ds - 1) = Done (reverse ds ++ rest).
Proof.
  intros Hds. unfold itoa_reverse.
  match goal with |- while ?f ?step ?st = _ =>
    destruct (while_inv
      (fun '(j, i, b) => exists p mid s, ds = p ++ mid ++ s /\ alen p = alen s /\ j = alen p /\
         i = alen p + alen mid - 1 /\ b = reverse s ++ mid ++ reverse p ++ rest)
      (fun b => b = reverse ds ++ rest) (fun '(j, i, b) => Z.to_nat (i - j + 1)) step f st)
      as (b & E & ->) end; [| | |done].
  - exists [], ds, []. rewrite app_nil_r. repeat split; try done.
  - lia.
  - intros [[j i] b] (p & mid & s & -> & Hps & -> & -> & ->).
    assert (Hr : alen (reverse s) = alen p) by (unfold alen in *; by rewrite length_reverse).
    destruct mid as [|x mid]; [|destruct mid as [|y mid _] using rev_ind].
    + right. rewrite (proj2 (Z.ltb_ge _ _)) by (rewrite (@alen_nil Z); lia). eexists; split; [done|].
      simpl. by rewrite reverse_app, <- app_assoc.
    + right. rewrite (proj2 (Z.ltb_ge _ _)) by (rewrite alen_cons, (@alen_nil Z); lia).
      eexists; split; [done|]. rewrite !reverse_app, <- !app_assoc. done.
    + left. rewrite alen_cons, alen_snoc. pose proof (alen_nonneg mid).
      rewrite (proj2 (Z.ltb_lt _ _)) by lia.
      destruct (swap_ends (reverse s) mid (reverse p ++ rest) x y) as (E1 & E2 & E3 & E4).
      replace (alen p + (alen mid + 1 + 1) - 1) with (alen (reverse s) + alen mid + 1) by lia.
      rewrite <- Hr. cbn [app]. rewrite <- (app_assoc mid). cbn [app].
      rewrite E1. cbn [mbind exec_bind]. rewrite E2. cbn [mbind exec_bind]. rewrite E3.
      cbn [mbind exec_bind]. rewrite E4. cbn [mbind exec_bind]. eexists. split; [done|]. split; [|lia].
      exists (p ++ [x]), mid, (y :: s). rewrite alen_snoc, alen_cons, reverse_cons, reverse_snoc.
      rewrite <- !app_assoc. simpl. repeat split; try done; lia.
Qed.

(** * Properties *)

Lemma itoa_spec (buf : list Z) (n base k : Z) :
  2 <= base <= 36 -> 0 <= n < 2 ^ 32 -> 0 < k < alen buf -> n < base ^ k ->
  exists ds rest, itoa buf n base = Done (ds ++ 0 :: rest) /\ number base ds = n /\
    0 < alen ds <= k /\ Forall (is_digit base) ds /\ rest = drop (S (length ds)) buf.
Proof.
  intros Hb Hn Hbuf Hk. destruct (itoa_digits_spec buf n base k Hb Hn Hbuf Hk) as (ds & E & Hds & Hdk & Hnum & Hdig).
  destruct (drop_next buf (length ds)) as [o Ho]; [unfold alen in *; lia|].
  unfold itoa. rewrite E. cbn [mbind exec_bind]. rewrite Ho, aset_middle. cbn [mbind exec_bind].
  rewrite itoa_reverse_spec by done. exists (reverse ds), (drop (S (length ds)) buf).
  split; [done|]. rewrite number_reverse. split; [done|].
  unfold alen in *. rewrite !length_reverse. split; [lia|]. split; [|done].
  by apply Forall_reverse.
Qed.

(** [itoa] prints the number it is given. For a base from 2 to 36, a number
    below the k-th power of the base and a buffer of more than k bytes it leaves a
    zero-terminated string in the buffer whose at most k digits, read from the left in that
    base, denote the number; the call terminates within the 33 turns of its loops, stays
    inside the buffer and leaves the rest of it as it was. *)
Theorem itoa_prints_number (buf : list Z) (n base k : Z) :
  2 <= base <= 36 -> 0 <= n < 2 ^ 32 -> 0 < k < alen buf -> n < base ^ k ->
  exists ds rest, itoa buf n base = Done (ds ++ 0 :: rest) /\ number base ds = n /\
    0 < alen ds <= k /\ Forall (is_digit base) ds /\ rest = drop (S (length ds)) buf.
Proof. apply itoa_spec. Qed.

Lemma itoa_prints_number_witness :
  exists ds rest, itoa (replicate 5 7) 48879 16 = Done (ds ++ 0 :: rest) /\ number 16 ds = 48879.
Proof.
  destruct (itoa_prints_number (replicate 5 7) 48879 16 4) as (ds & rest & E & Hn & _);
    [lia|lia|done|done|]. exists ds, rest. split; [exact E|exact Hn].
Defined.

