(* ===== verification/Iterators.v ===== *)
(** * Iterators and the algorithms over them

    libraries/stdlib: the iterators of [Vector] (vector.h), pointers as iterators, and the loops
    of algorithms.h, which are templates: they are given and verified once, for every iterator
    that keeps the laws of the interface. *)
From S2P Require Import Prelude Clib.

(** Arrays of elements by their addresses. *)
Abbreviation arrays T := (gmap Z (list T)).

(** ** The interface *)

(** An iterator refers to an element of an array; [it_ne] and [it_eq] are its comparisons. *)
Class Iterator (I : Type) := {
  it_place : I -> Z * Z;
  it_next : I -> I;
  it_prev : I -> I;
  it_ne : I -> I -> bool;
  it_eq : I -> I -> bool
}.

(** Inside one array, an iterator is its index. *)
Class IteratorLaws (I : Type) `{Iterator I} (at_ : Z -> Z -> I) : Prop := {
  law_place a k : 0 <= k < 2 ^ 32 -> it_place (at_ a k) = (a, k);
  law_next a k : 0 <= k -> k + 1 < 2 ^ 32 -> it_next (at_ a k) = at_ a (k + 1);
  law_prev a k : 0 < k -> k < 2 ^ 32 -> it_prev (at_ a k) = at_ a (k - 1);
  law_ne a i j : 0 <= i < 2 ^ 32 -> 0 <= j < 2 ^ 32 -> it_ne (at_ a i) (at_ a j) = negb (i =? j);
  law_eq a i j : 0 <= i < 2 ^ 32 -> 0 <= j < 2 ^ 32 -> it_eq (at_ a i) (at_ a j) = (i =? j)
}.

(** ** Pointers *)

Record Pointer := mkPointer { p_array : Z; p_index : Z }.

#[export] Instance Pointer_iterator : Iterator Pointer := {|
  it_place p := (p_array p, p_index p);
  it_next p := mkPointer (p_array p) (p_index p + 1);
  it_prev p := mkPointer (p_array p) (p_index p - 1);
  it_ne p q := negb ((p_array p =? p_array q) && (p_index p =? p_index q));
  it_eq p q := (p_array p =? p_array q) && (p_index p =? p_index q)
|}.

#[export] Instance Pointer_laws : IteratorLaws Pointer mkPointer.
Proof. split; intros; cbn; rewrite ?Z.eqb_refl; done. Qed.

(** ** The iterators of a vector *)

Record BaseIterator := mkIterator { bi_storage : Z; m_current : Z }.

Definition Vector_begin_iterator (storage : Z) : BaseIterator := mkIterator storage 0.
Definition Vector_end_iterator (storage m_count : Z) : BaseIterator := mkIterator storage m_count.

(** [operator++()] and [operator++(int)]: the iterator afterwards, and the old one before it. *)
Definition BaseIterator_increment (it : BaseIterator) : BaseIterator := mkIterator (bi_storage it) (u32 (m_current it + 1)).
Definition BaseIterator_post_increment (it : BaseIterator) : BaseIterator * BaseIterator := (it, BaseIterator_increment it).
Definition BaseIterator_decrement (it : BaseIterator) : BaseIterator := mkIterator (bi_storage it) (u32 (m_current it - 1)).
Definition BaseIterator_post_decrement (it : BaseIterator) : BaseIterator * BaseIterator := (it, BaseIterator_decrement it).

Definition BaseIterator_add_assign (it : BaseIterator) (arg : Z) : BaseIterator := mkIterator (bi_storage it) (u32 (m_current it + arg)).
Definition BaseIterator_sub_assign (it : BaseIterator) (arg : Z) : BaseIterator := BaseIterator_add_assign it (- arg).
Definition BaseIterator_add (it : BaseIterator) (arg : Z) : BaseIterator := BaseIterator_add_assign it arg.
Definition BaseIterator_sub (it : BaseIterator) (arg : Z) : BaseIterator := BaseIterator_sub_assign it arg.

Definition BaseIterator_neq (it other : BaseIterator) : bool := negb (m_current it =? m_current other).
Definition BaseIterator_eq (it other : BaseIterator) : bool := (m_current it =? m_current other) && (bi_storage it =? bi_storage other).

Definition BaseIterator_deref {T} (m : arrays T) (it : BaseIterator) : exec T :=
  match m !! bi_storage it with Some l => aget l (m_current it) | None => Fault end.

#[export] Instance BaseIterator_iterator : Iterator BaseIterator := {|
  it_place it := (bi_storage it, m_current it);
  it_next := BaseIterator_increment;
  it_prev := BaseIterator_decrement;
  it_ne := BaseIterator_neq;
  it_eq := BaseIterator_eq
|}.

#[export] Instance BaseIterator_laws : IteratorLaws BaseIterator mkIterator.
Proof.
  split; intros; cbn; unfold BaseIterator_increment, BaseIterator_decrement, BaseIterator_neq, BaseIterator_eq; cbn [bi_storage m_current];
    rewrite ?Z.eqb_refl, ?andb_true_r, ?u32_small by lia; done.
Qed.

(** Random access: steps back undo steps forward, and [n] steps are one addition, wherever the
    index leads in between. *)
Lemma iterator_arithmetic it n :
  0 <= m_current it < 2 ^ 32 ->
  BaseIterator_sub (BaseIterator_add it n) n = it /\ BaseIterator_decrement (BaseIterator_increment it) = it /\
  forall k : nat, Nat.iter k BaseIterator_increment it = BaseIterator_add it (Z.of_nat k).
Proof.
  destruct it as [a i]. cbn [m_current]. intros Hi.
  unfold BaseIterator_sub, BaseIterator_sub_assign, BaseIterator_add, BaseIterator_add_assign, BaseIterator_decrement, BaseIterator_increment.
  cbn [bi_storage m_current]. split; [|split].
  - f_equal. unfold u32. rewrite Zplus_mod_idemp_l. replace (i + n + - n) with i by lia. by apply Z.mod_small.
  - f_equal. unfold u32. rewrite Zminus_mod_idemp_l. replace (i + 1 - 1) with i by lia. by apply Z.mod_small.
  - induction k as [|k IH]; [cbn; by rewrite Z.add_0_r, u32_small|]. rewrite Nat.iter_succ, IH. cbn [bi_storage m_current].
    f_equal. unfold u32. rewrite Zplus_mod_idemp_l. f_equal. lia.
Qed.

(** Iterators of two vectors at one index are neither equal nor unequal: a loop that compares
    with the end of another vector stops there. *)
Example iterators_neither : let it := mkIterator 4096 2 in let other := mkIterator 8192 2 in
  BaseIterator_eq it other = false /\ BaseIterator_neq it other = false.
Proof. done. Qed.

(** ** The algorithms *)

Section algorithms.
Context {I O T : Type} `{Iterator I} `{Iterator O}.
Implicit Types (m : arrays T) (first last : I) (result dest : O).

(** [*it], and an assignment to it. *)
Definition it_load {J} `{Iterator J} m (it : J) : exec T :=
  match m !! (it_place it).1 with Some l => aget l (it_place it).2 | None => Fault end.

Definition it_store {J} `{Iterator J} m (it : J) (x : T) : exec (arrays T) :=
  match m !! (it_place it).1 with
  | Some l => l ← aset l (it_place it).2 x; Done (<[(it_place it).1 := l]> m)
  | None => Fault
  end.

Definition copy (fuel : nat) m first last result : exec (O * arrays T) :=
  while fuel (fun '(first, result, m) =>
    if it_ne first last then
      x ← it_load m first;
      m ← it_store m result x;
      Done (inl (it_next first, it_next result, m))
    else Done (inr (result, m))) (first, result, m).

Definition copy_backward (fuel : nat) m first last (d_last : O) : exec (O * arrays T) :=
  while fuel (fun '(last, d_last, m) =>
    if it_ne first last then
      let last := it_prev last in
      x ← it_load m last;
      let d_last := it_prev d_last in
      m ← it_store m d_last x;
      Done (inl (last, d_last, m))
    else Done (inr (d_last, m))) (last, d_last, m).

Definition copy_if (fuel : nat) m first last (d_first : O) (pred : T -> bool) : exec (O * arrays T) :=
  while fuel (fun '(first, d_first, m) =>
    if it_ne first last then
      x ← it_load m first;
      '(d_first, m) ← (if pred x then
                         x ← it_load m first; m ← it_store m d_first x; Done (it_next d_first, m)
                       else Done (d_first, m));
      Done (inl (it_next first, d_first, m))
    else Done (inr (d_first, m))) (first, d_first, m).

Definition copy_while (fuel : nat) m first last dest (pred : T -> bool) : exec (O * arrays T) :=
  while fuel (fun '(first, dest, m) =>
    goes_on ← (if it_ne first last then x ← it_load m first; Done (pred x) else Done false);
    if goes_on : bool then
      x ← it_load m first;
      m ← it_store m dest x;
      Done (inl (it_next first, it_next dest, m))
    else Done (inr (dest, m))) (first, dest, m).

Definition find_if (fuel : nat) m first last (p : T -> bool) : exec I :=
  while fuel (fun first =>
    if it_ne first last then
      x ← it_load m first;
      if p x then Done (inr first) else Done (inl (it_next first))
    else Done (inr last)) first.

Definition find_if_not (fuel : nat) m first last (q : T -> bool) : exec I :=
  while fuel (fun first =>
    if it_ne first last then
      x ← it_load m first;
      if negb (q x) then Done (inr first) else Done (inl (it_next first))
    else Done (inr last)) first.

Definition find `{EqDecision T} (fuel : nat) m first last (val : T) : exec I :=
  while fuel (fun first =>
    if it_ne first last then
      x ← it_load m first;
      if bool_decide (x = val) then Done (inr first) else Done (inl (it_next first))
    else Done (inr last)) first.

Definition all_of (fuel : nat) m first last (p : T -> bool) : exec bool :=
  it ← find_if_not fuel m first last p;
  Done (it_eq it last).

Definition any_of (fuel : nat) m first last (p : T -> bool) : exec bool :=
  it ← find_if fuel m first last p;
  Done (it_ne it last).

Definition none_of (fuel : nat) m first last (p : T -> bool) : exec bool :=
  it ← find_if fuel m first last p;
  Done (it_eq it last).

Definition count `{EqDecision T} (fuel : nat) m first last (val : T) : exec Z :=
  while fuel (fun '(first, ret) =>
    if it_ne first last then
      x ← it_load m first;
      Done (inl (it_next first, if bool_decide (x = val) then u32 (ret + 1) else ret))
    else Done (inr ret)) (first, 0).

(** [add] is the [operator+] of the type of the sum. *)
Definition accumulate {A} (add : A -> T -> A) (fuel : nat) m first last (init : A) : exec A :=
  while fuel (fun '(first, init) =>
    if it_ne first last then
      x ← it_load m first;
      Done (inl (it_next first, add init x))
    else Done (inr init)) (first, init).

End algorithms.

(** ** What they do, as functions of lists *)

(** The index of the first element with the property, the length if there is none. *)
Fixpoint position {T} (p : T -> bool) (l : list T) : Z :=
  match l with [] => 0 | x :: l => if p x then 0 else 1 + position p l end.

Fixpoint leading {T} (p : T -> bool) (l : list T) : list T :=
  match l with [] => [] | x :: l => if p x then x :: leading p l else [] end.

Lemma position_end {T} (p : T -> bool) l : 0 <= position p l <= alen l /\ (position p l =? alen l) = negb (existsb p l).
Proof.
  induction l as [|x l [IH1 IH2]]; [done|]. cbn [position existsb]. rewrite alen_cons. pose proof (alen_nonneg l).
  destruct (p x); cbn [orb negb].
  - split; [lia|]. apply Z.eqb_neq. lia.
  - split; [lia|]. rewrite <- IH2. destruct (Z.eqb_spec (position p l) (alen l)); [apply Z.eqb_eq|apply Z.eqb_neq]; lia.
Qed.

Lemma existsb_negb {T} (p : T -> bool) l : negb (existsb (fun x => negb (p x)) l) = forallb p l.
Proof. induction l as [|x l IH]; [done|]. cbn. rewrite negb_orb, negb_involutive. by rewrite IH. Qed.

Section laws.
Context {I T : Type} {at_ : Z -> Z -> I} `{IteratorLaws I at_}.

Lemma load_at m a (p : list T) x q :
  m !! a = Some (p ++ x :: q) -> alen p < 2 ^ 32 -> it_load m (at_ a (alen p)) = Done x.
Proof.
  intros Hm Hb. pose proof (alen_nonneg p). unfold it_load. rewrite law_place by lia. cbn [fst snd]. rewrite Hm. apply aget_middle.
Qed.

Lemma store_at m a (p : list T) x y q :
  m !! a = Some (p ++ x :: q) -> alen p < 2 ^ 32 -> it_store m (at_ a (alen p)) y = Done (<[a := p ++ y :: q]> m).
Proof.
  intros Hm Hb. pose proof (alen_nonneg p). unfold it_store. rewrite law_place by lia. cbn [fst snd]. rewrite Hm.
  rewrite aset_Done by (rewrite alen_app, alen_cons; pose proof (alen_nonneg q); lia). cbn [mbind exec_bind].
  rewrite insert_app_r_alt by (unfold alen; lia). unfold alen. by rewrite Nat2Z.id, Nat.sub_diag.
Qed.

(** The comparison with the end of the range, and the step to the next element. *)
Lemma at_end a (p : list T) e : alen p + alen (@nil T) = e -> e < 2 ^ 32 -> it_ne (at_ a (alen p)) (at_ a e) = false.
Proof. intros <- Hb. rewrite (@alen_nil T), Z.add_0_r in *. pose proof (alen_nonneg p). rewrite law_ne, Z.eqb_refl by lia. done. Qed.

Lemma before_end a (p : list T) x l e :
  alen p + alen (x :: l) = e -> e < 2 ^ 32 ->
  alen p < 2 ^ 32 /\ alen (p ++ [x]) + alen l = e /\
  it_ne (at_ a (alen p)) (at_ a e) = true /\ it_next (at_ a (alen p)) = at_ a (alen (p ++ [x])).
Proof.
  rewrite alen_cons, alen_snoc. intros <- Hb. pose proof (alen_nonneg p). pose proof (alen_nonneg l).
  rewrite law_ne, (proj2 (Z.eqb_neq _ _)) by lia. split; [lia|]. split; [lia|]. split; [done|]. apply law_next; lia.
Qed.

Section reading.
Context (m : arrays T) (a e : Z) (He : e < 2 ^ 32).

Lemma find_if_at p : forall (l pre post : list T) fuel,
  m !! a = Some (pre ++ l ++ post) -> alen pre + alen l = e -> (length l < fuel)%nat ->
  find_if fuel m (at_ a (alen pre)) (at_ a e) p = Done (at_ a (alen pre + position p l)).
Proof.
  induction l as [|x l IH]; intros pre post [|fuel] Hm Hb Hf; cbn [length] in Hf; try lia; unfold find_if; cbn [while position].
  - rewrite at_end by done. rewrite (@alen_nil T) in Hb. by rewrite Hb.
  - destruct (before_end a pre x l e Hb He) as (Hp & Hb' & -> & Hnext). rewrite (load_at m a pre x (l ++ post)) by done.
    cbn [mbind exec_bind]. destruct (p x); cbn [mbind exec_bind]; [by rewrite Z.add_0_r|]. rewrite Hnext.
    specialize (IH (pre ++ [x]) post fuel). unfold find_if in IH. rewrite IH; [|by rewrite <- !app_assoc|done|lia].
    rewrite alen_snoc. f_equal. f_equal. lia.
Qed.

Lemma count_at `{EqDecision T} val : forall (l pre post : list T) fuel ret,
  m !! a = Some (pre ++ l ++ post) -> alen pre + alen l = e -> (length l < fuel)%nat -> 0 <= ret <= alen pre ->
  while fuel (fun '(first, ret) =>
    if it_ne first (at_ a e) then
      x ← it_load m first; Done (inl (it_next first, if bool_decide (x = val) then u32 (ret + 1) else ret))
    else Done (inr ret)) (at_ a (alen pre), ret) = Done (ret + alen (List.filter (fun x => bool_decide (x = val)) l)).
Proof.
  induction l as [|x l IH]; intros pre post [|fuel] ret Hm Hb Hf Hr; cbn [length] in Hf; try lia; cbn [while List.filter].
  - rewrite at_end by done. by rewrite (@alen_nil T), Z.add_0_r.
  - destruct (before_end a pre x l e Hb He) as (Hp & Hb' & -> & Hnext). rewrite (load_at m a pre x (l ++ post)) by done.
    cbn [mbind exec_bind]. rewrite Hnext. pose proof (alen_nonneg l). rewrite alen_snoc in Hb'.
    rewrite (IH (pre ++ [x]) post fuel); [|by rewrite <- !app_assoc|by rewrite alen_snoc|lia|].
    + case_bool_decide; [rewrite alen_cons, u32_small by lia|]; f_equal; lia.
    + rewrite alen_snoc. case_bool_decide; [rewrite u32_small by lia|]; lia.
Qed.

Lemma accumulate_at {A} (add : A -> T -> A) : forall (l pre post : list T) fuel init,
  m !! a = Some (pre ++ l ++ post) -> alen pre + alen l = e -> (length l < fuel)%nat ->
  accumulate add fuel m (at_ a (alen pre)) (at_ a e) init = Done (foldl add init l).
Proof.
  induction l as [|x l IH]; intros pre post [|fuel] init Hm Hb Hf; cbn [length] in Hf; try lia; unfold accumulate; cbn [while foldl].
  - by rewrite at_end.
  - destruct (before_end a pre x l e Hb He) as (Hp & Hb' & -> & Hnext). rewrite (load_at m a pre x (l ++ post)) by done.
    cbn [mbind exec_bind]. rewrite Hnext.
    specialize (IH (pre ++ [x]) post fuel (add init x)). unfold accumulate in IH. apply IH; [by rewrite <- !app_assoc|done|lia].
Qed.

(** The questions about a whole range. *)
Lemma range_questions p (l pre post : list T) fuel :
  m !! a = Some (pre ++ l ++ post) -> alen pre + alen l = e -> (length l < fuel)%nat ->
  let first := at_ a (alen pre) in let last := at_ a e in
  all_of fuel m first last p = Done (forallb p l) /\ any_of fuel m first last p = Done (existsb p l) /\
  none_of fuel m first last p = Done (negb (existsb p l)).
Proof.
  intros Hm Hb Hf first last. pose proof (alen_nonneg pre). pose proof (alen_nonneg l).
  assert (Hend : forall q, it_eq (at_ a (alen pre + position q l)) last = negb (existsb q l) /\
    it_ne (at_ a (alen pre + position q l)) last = existsb q l).
  { intros q. destruct (position_end q l) as [Hq Eq]. unfold last. rewrite law_eq, law_ne by lia.
    assert (E : (alen pre + position q l =? e) = negb (existsb q l)).
    { rewrite <- Eq. destruct (Z.eqb_spec (position q l) (alen l)); [apply Z.eqb_eq|apply Z.eqb_neq]; lia. }
    rewrite E. split; [done|apply negb_involutive]. }
  unfold all_of, any_of, none_of. change (find_if_not fuel m first last p) with (find_if fuel m first last (fun x => negb (p x))).
  unfold first, last. rewrite !(find_if_at _ l pre post fuel Hm Hb Hf). cbn [mbind exec_bind]. fold last.
  destruct (Hend p) as [-> ->]. destruct (Hend (fun x => negb (p x))) as [-> _]. by rewrite existsb_negb.
Qed.

End reading.

End laws.

Section writing.
Context {I O T : Type} {atI : Z -> Z -> I} {atO : Z -> Z -> O} `{LI : IteratorLaws I atI} `{LO : IteratorLaws O atO}.
Context (a b e : Z) (He : e < 2 ^ 32).

(** An element goes to the next free place of another array. *)
Lemma copy_one m (pre l post out room : list T) x y :
  a <> b -> m !! a = Some (pre ++ (x :: l) ++ post) -> m !! b = Some (out ++ y :: room) -> alen (out ++ y :: room) < 2 ^ 32 ->
  let m' := <[b := (out ++ [x]) ++ room]> m in
  it_store m (atO b (alen out)) x = Done m' /\ it_next (atO b (alen out)) = atO b (alen (out ++ [x])) /\
  m' !! a = Some ((pre ++ [x]) ++ l ++ post) /\ m' !! b = Some ((out ++ [x]) ++ room) /\ alen ((out ++ [x]) ++ room) < 2 ^ 32.
Proof.
  intros Hab Ha Hb Hlen m'. assert (E : (out ++ [x]) ++ room = out ++ x :: room) by by rewrite <- app_assoc.
  unfold m'. rewrite E. pose proof (alen_nonneg out). pose proof (alen_nonneg room).
  assert (Elen : alen (out ++ x :: room) = alen (out ++ y :: room)) by by rewrite !alen_app, !alen_cons.
  rewrite Elen. split; [|split; [|split; [|split]]].
  - apply (store_at (at_ := atO) m b out y x room Hb). rewrite alen_app, alen_cons in Hlen. lia.
  - rewrite alen_app, alen_cons in Hlen. rewrite alen_snoc. apply law_next; lia.
  - rewrite lookup_insert_ne, <- !app_assoc by done. exact Ha.
  - apply lookup_insert_eq.
  - exact Hlen.
Qed.

Lemma copy_at : forall (l pre post out room : list T) m fuel,
  a <> b -> m !! a = Some (pre ++ l ++ post) -> alen pre + alen l = e -> m !! b = Some (out ++ room) -> alen (out ++ room) < 2 ^ 32 ->
  (length l <= length room)%nat -> (length l < fuel)%nat ->
  copy fuel m (atI a (alen pre)) (atI a e) (atO b (alen out)) =
    Done (atO b (alen (out ++ l)), <[b := out ++ l ++ drop (length l) room]> m).
Proof.
  induction l as [|x l IH]; intros pre post out room m [|fuel] Hab Ha Hl Hb Hlen Hr Hf; cbn [length] in *; try lia;
    unfold copy; cbn [while].
  - rewrite (at_end (at_ := atI)) by done. rewrite app_nil_r, drop_0. cbn [app]. by rewrite insert_id.
  - destruct room as [|y room]; cbn [length] in Hr; [lia|].
    destruct (before_end (at_ := atI) a pre x l e Hl He) as (Hp & Hl' & -> & ->). rewrite (load_at (at_ := atI) m a pre x (l ++ post) Ha) by done.
    cbn [mbind exec_bind]. destruct (copy_one m pre l post out room x y Hab Ha Hb Hlen) as (-> & -> & Ha' & Hb' & Hlen').
    cbn [mbind exec_bind]. specialize (IH (pre ++ [x]) post (out ++ [x]) room _ fuel Hab Ha' Hl' Hb' Hlen'). unfold copy in IH.
    rewrite IH by lia. rewrite insert_insert_eq, <- !app_assoc. done.
Qed.

Lemma copy_if_at pred : forall (l pre post out room : list T) m fuel,
  a <> b -> m !! a = Some (pre ++ l ++ post) -> alen pre + alen l = e -> m !! b = Some (out ++ room) -> alen (out ++ room) < 2 ^ 32 ->
  (length (List.filter pred l) <= length room)%nat -> (length l < fuel)%nat ->
  copy_if fuel m (atI a (alen pre)) (atI a e) (atO b (alen out)) pred =
    Done (atO b (alen (out ++ List.filter pred l)), <[b := out ++ List.filter pred l ++ drop (length (List.filter pred l)) room]> m).
Proof.
  induction l as [|x l IH]; intros pre post out room m [|fuel] Hab Ha Hl Hb Hlen Hr Hf; cbn [length List.filter] in *; try lia;
    unfold copy_if; cbn [while].
  - rewrite (at_end (at_ := atI)) by done. rewrite app_nil_r, drop_0. cbn [app]. by rewrite insert_id.
  - destruct (before_end (at_ := atI) a pre x l e Hl He) as (Hp & Hl' & -> & ->). rewrite (load_at (at_ := atI) m a pre x (l ++ post) Ha) by done.
    cbn [mbind exec_bind]. destruct (pred x); cbn [mbind exec_bind length] in *.
    + destruct room as [|y room]; cbn [length] in Hr; [lia|].
      destruct (copy_one m pre l post out room x y Hab Ha Hb Hlen) as (-> & -> & Ha' & Hb' & Hlen'). cbn [mbind exec_bind].
      specialize (IH (pre ++ [x]) post (out ++ [x]) room _ fuel Hab Ha' Hl' Hb' Hlen'). unfold copy_if in IH.
      rewrite IH by lia. rewrite insert_insert_eq, <- !app_assoc. done.
    + specialize (IH (pre ++ [x]) post out room m fuel Hab). unfold copy_if in IH. apply IH; [by rewrite <- !app_assoc|done..|lia].
Qed.

Lemma copy_while_at pred : forall (l pre post out room : list T) m fuel,
  a <> b -> m !! a = Some (pre ++ l ++ post) -> alen pre + alen l = e -> m !! b = Some (out ++ room) -> alen (out ++ room) < 2 ^ 32 ->
  (length (leading pred l) <= length room)%nat -> (length l < fuel)%nat ->
  copy_while fuel m (atI a (alen pre)) (atI a e) (atO b (alen out)) pred =
    Done (atO b (alen (out ++ leading pred l)), <[b := out ++ leading pred l ++ drop (length (leading pred l)) room]> m).
Proof.
  induction l as [|x l IH]; intros pre post out room m [|fuel] Hab Ha Hl Hb Hlen Hr Hf; cbn [length leading] in *; try lia;
    unfold copy_while; cbn [while].
  - rewrite (at_end (at_ := atI)) by done. cbn [mbind exec_bind]. rewrite app_nil_r, drop_0. cbn [app]. by rewrite insert_id.
  - destruct (before_end (at_ := atI) a pre x l e Hl He) as (Hp & Hl' & -> & ->). rewrite (load_at (at_ := atI) m a pre x (l ++ post) Ha) by done.
    cbn [mbind exec_bind]. destruct (pred x); cbn [mbind exec_bind length] in *.
    + destruct room as [|y room]; cbn [length] in Hr; [lia|].
      destruct (copy_one m pre l post out room x y Hab Ha Hb Hlen) as (-> & -> & Ha' & Hb' & Hlen'). cbn [mbind exec_bind].
      specialize (IH (pre ++ [x]) post (out ++ [x]) room _ fuel Hab Ha' Hl' Hb' Hlen'). unfold copy_while in IH.
      rewrite IH by lia. rewrite insert_insert_eq, <- !app_assoc. done.
    + rewrite app_nil_r, drop_0. cbn [app]. by rewrite insert_id.
Qed.

(** Inside one array, to a place [gap] before: the elements are read before they are overwritten. *)
Lemma copy_within : forall (l gap pre post : list T) m fuel,
  m !! a = Some (pre ++ gap ++ l ++ post) -> alen pre + alen gap + alen l = e -> (length l < fuel)%nat ->
  copy fuel m (atI a (alen pre + alen gap)) (atI a e) (atO a (alen pre)) =
    Done (atO a (alen (pre ++ l)), <[a := pre ++ l ++ drop (length l) (gap ++ l) ++ post]> m).
Proof.
  induction l as [|x l IH]; intros gap pre post m [|fuel] Ha Hl Hf; cbn [length] in *; try lia;
    unfold copy; cbn [while]; rewrite <- alen_app in Hl |- *.
  - rewrite (at_end (at_ := atI)) by done. rewrite !app_nil_r, drop_0. cbn [app] in *. by rewrite insert_id.
  - pose proof (alen_nonneg pre). pose proof (alen_nonneg gap). pose proof (alen_nonneg l).
    destruct (before_end (at_ := atI) a (pre ++ gap) x l e Hl He) as (Hp & Hl' & -> & ->).
    rewrite (load_at (at_ := atI) m a (pre ++ gap) x (l ++ post)) by (done || by rewrite Ha, <- app_assoc). cbn [mbind exec_bind].
    rewrite alen_app in Hp. rewrite !alen_app in Hl'. change (alen [x]) with 1 in Hl'.
    set (gap' := tail (gap ++ [x])).
    assert (Es : it_store m (atO a (alen pre)) x = Done (<[a := (pre ++ [x]) ++ gap' ++ l ++ post]> m)).
    { destruct gap as [|y gap]; cbn [app tail] in gap'; unfold gap'; rewrite <- ?app_assoc; cbn [app] in *.
      - by rewrite (store_at (at_ := atO) m a pre x x (l ++ post)) by (done || lia).
      - rewrite (store_at (at_ := atO) m a pre y x (gap ++ x :: l ++ post)) by (done || lia). do 2 f_equal. }
    assert (Eg : alen gap' = alen gap) by (unfold gap'; destruct gap; cbn [app tail]; rewrite ?alen_snoc, ?alen_cons; done).
    rewrite Es. cbn [mbind exec_bind]. rewrite law_next by lia. specialize (IH gap' (pre ++ [x]) post (<[a := (pre ++ [x]) ++ gap' ++ l ++ post]> m) fuel).
    unfold copy in IH. rewrite !alen_app, Eg in IH. rewrite !alen_app. change (alen [x]) with 1 in *.
    replace (alen pre + alen gap + 1) with (alen pre + 1 + alen gap) by lia. rewrite IH; [|by rewrite lookup_insert_eq|lia|lia].
    rewrite insert_insert_eq, alen_cons, <- !app_assoc. f_equal. f_equal; [f_equal; lia|]. f_equal. f_equal. cbn [app]. f_equal. f_equal. f_equal.
    unfold gap'. destruct gap as [|y gap]; cbn [app tail drop]; [done|]. by rewrite <- app_assoc.
Qed.

(** An element in front of others, seen from the back. *)
Lemma cons_snoc (x : T) gap : exists g y, x :: gap = g ++ [y] /\ length g = length gap /\ alen g = alen gap.
Proof.
  destruct (exists_last (l := x :: gap) ltac:(done)) as (g & y & E). exists g, y. split; [done|].
  pose proof (f_equal length E) as El. rewrite length_app in El. cbn [length] in El. unfold alen. lia.
Qed.

(** To a place [gap] behind, from the end. *)
Lemma copy_backward_within (pre : list T) : forall (l gap post : list T) m fuel,
  m !! a = Some (pre ++ l ++ gap ++ post) -> alen pre + alen l + alen gap < 2 ^ 32 -> (length l < fuel)%nat ->
  copy_backward fuel m (atI a (alen pre)) (atI a (alen pre + alen l)) (atO a (alen pre + alen l + alen gap)) =
    Done (atO a (alen pre + alen gap), <[a := pre ++ take (length gap) (l ++ gap) ++ l ++ post]> m).
Proof.
  pose proof (alen_nonneg pre). induction l as [|x l IH] using rev_ind; intros gap post m [|fuel] Ha Hb Hf; try (cbn [length] in *; lia);
    unfold copy_backward; cbn [while]; pose proof (alen_nonneg gap).
  - rewrite (@alen_nil T), Z.add_0_r in *. rewrite law_ne, Z.eqb_refl by lia. cbn [negb app] in *. rewrite take_ge by lia. by rewrite insert_id.
  - pose proof (alen_nonneg l). rewrite length_app in Hf. cbn [length] in Hf. rewrite !alen_snoc in *. rewrite <- !app_assoc in Ha. cbn [app] in Ha.
    rewrite law_ne, (proj2 (Z.eqb_neq _ _)) by lia. cbn [negb]. rewrite !law_prev by lia.
    replace (alen pre + (alen l + 1) - 1) with (alen pre + alen l) by lia.
    replace (alen pre + (alen l + 1) + alen gap - 1) with (alen pre + alen l + alen gap) by lia.
    replace (it_load m (atI a (alen pre + alen l))) with (Done x)
      by (rewrite <- alen_app; symmetry; apply (load_at (at_ := atI) m a (pre ++ l) x (gap ++ post)); [by rewrite Ha, <- app_assoc|rewrite alen_app; lia]).
    cbn [mbind exec_bind]. destruct (cons_snoc x gap) as (g & y & Eg & Egl & Ega).
    assert (Es : it_store m (atO a (alen pre + alen l + alen gap)) x = Done (<[a := pre ++ l ++ g ++ x :: post]> m)).
    { replace (alen pre + alen l + alen gap) with (alen (pre ++ l ++ g)) by (rewrite !alen_app; lia).
      rewrite (store_at (at_ := atO) m a (pre ++ l ++ g) y x post).
      - by rewrite <- !app_assoc.
      - rewrite Ha. f_equal. rewrite <- !app_assoc. do 2 f_equal. rewrite app_comm_cons, Eg, <- app_assoc. done.
      - rewrite !alen_app. lia. }
    rewrite Es. cbn [mbind exec_bind]. specialize (IH g (x :: post) (<[a := pre ++ l ++ g ++ x :: post]> m) fuel).
    unfold copy_backward in IH. rewrite Ega, Egl in IH. rewrite IH; [|by rewrite lookup_insert_eq|lia|lia].
    rewrite insert_insert_eq. do 4 f_equal. rewrite <- !app_assoc. cbn [app]. f_equal.
    rewrite Eg, (app_assoc l g [y]), (take_app_le (l ++ g) [y]); [done|]. rewrite length_app. lia.
Qed.

End writing.

(** C32: The algorithms do what their names say, for every iterator that keeps the laws of the
    interface - the iterators of a vector and pointers do. On a range with the elements [l] of
    an array, and with fewer than 2^32 elements before its end: the searches stop at the first
    element with the property or at the end, the questions about all, any and none, the count
    and the sum are those of the list; the copying loops write exactly the elements, those with
    the property, or those before the first without it, to the places behind the destination;
    and inside one array a copy to the front, and a backward copy to the back, move the range
    although it overlaps its destination. *)
Theorem algorithms_agree_with_lists {I T A : Type} {at_ : Z -> Z -> I} `{IteratorLaws I at_} `{EqDecision T}
    (m : arrays T) (a b : Z) (l pre post out room gap : list T) (p : T -> bool) (val : T) (add : A -> T -> A) (init : A) (fuel : nat) :
  let first := at_ a (alen pre) in let last := at_ a (alen pre + alen l) in
  let dest := at_ b (alen out) in
  m !! a = Some (pre ++ l ++ post) -> alen pre + alen l < 2 ^ 32 -> (length l < fuel)%nat ->
  a <> b -> m !! b = Some (out ++ room) -> alen (out ++ room) < 2 ^ 32 -> (length l <= length room)%nat ->
  find_if fuel m first last p = Done (at_ a (alen pre + position p l)) /\
  find_if_not fuel m first last p = Done (at_ a (alen pre + position (fun x => negb (p x)) l)) /\
  find fuel m first last val = Done (at_ a (alen pre + position (fun x => bool_decide (x = val)) l)) /\
  all_of fuel m first last p = Done (forallb p l) /\ any_of fuel m first last p = Done (existsb p l) /\
  none_of fuel m first last p = Done (negb (existsb p l)) /\
  count fuel m first last val = Done (alen (List.filter (fun x => bool_decide (x = val)) l)) /\
  accumulate add fuel m first last init = Done (foldl add init l) /\
  copy fuel m first last dest = Done (at_ b (alen (out ++ l)), <[b := out ++ l ++ drop (length l) room]> m) /\
  (exists it, copy_if fuel m first last dest p =
     Done (it, <[b := out ++ List.filter p l ++ drop (length (List.filter p l)) room]> m)) /\
  (exists it, copy_while fuel m first last dest p =
     Done (it, <[b := out ++ leading p l ++ drop (length (leading p l)) room]> m)) /\
  (forall front, pre = front ++ gap -> exists it,
     copy fuel m first last (at_ a (alen front)) = Done (it, <[a := front ++ l ++ drop (length l) (gap ++ l) ++ post]> m)) /\
  (forall back, post = gap ++ back -> alen pre + alen l + alen gap < 2 ^ 32 -> exists it,
     copy_backward fuel m first last (at_ a (alen pre + alen l + alen gap)) =
       Done (it, <[a := pre ++ take (length gap) (l ++ gap) ++ l ++ back]> m)).
Proof.
  intros first last dest Hm He Hf Hab Hb Hlen Hr.
  assert (Hfilter : (length (List.filter p l) <= length l)%nat) by apply List.filter_length_le.
  assert (Hlead : (length (leading p l) <= length l)%nat).
  { clear. induction l as [|x l IH]; [done|]. cbn. destruct (p x); cbn; lia. }
  pose proof (fun q => find_if_at m a _ He q l pre post fuel Hm eq_refl Hf) as Hfind.
  split; [apply Hfind|]. split; [apply Hfind|]. split; [apply Hfind|].
  destruct (range_questions m a _ He p l pre post fuel Hm eq_refl Hf) as (Hall & Hany & Hnone).
  do 3 (split; [done|]). split; [|split; [by apply (accumulate_at m a _ He add l pre post)|]].
  - pose proof (alen_nonneg pre). exact (count_at (at_ := at_) m a _ He val l pre post fuel 0 Hm eq_refl Hf ltac:(lia)).
  - split; [by apply (copy_at a b _ He l pre post)|]. split; [|split; [|split]].
    + eexists. apply (copy_if_at a b _ He p l pre post); try done. lia.
    + eexists. apply (copy_while_at a b _ He p l pre post); try done. lia.
    + intros front ->. rewrite alen_app in *. unfold first, last. eexists. rewrite alen_app.
      apply (copy_within a _ He); [by rewrite Hm, <- app_assoc|lia|done].
    + intros back -> Hg. eexists. by apply copy_backward_within.
Qed.

Lemma algorithms_agree_with_lists_witness :
  let m : arrays Z := {[1 := [7; 5; 6; 5; 8]; 2 := [0; 0; 0; 0]]} in
  find 4 m (mkIterator 1 1) (mkIterator 1 4) 6 = Done (mkIterator 1 2) /\
  count 4 m (mkIterator 1 1) (mkIterator 1 4) 5 = Done 2 /\
  copy 4 m (mkIterator 1 1) (mkIterator 1 4) (mkIterator 1 0) = Done (mkIterator 1 3, <[1 := [5; 6; 5; 5; 8]]> m).
Proof.
  intros m. destruct (algorithms_agree_with_lists (at_ := mkIterator) m 1 2 [5; 6; 5] [7] [8] [0] [0; 0; 0] [7] Z.even 6 Z.add 0 4)
    as (_ & _ & Hfind & _ & _ & _ & _ & _ & _ & _ & _ & Hcopy & _); try (vm_compute; congruence || reflexivity); [cbn; lia..|].
  destruct (algorithms_agree_with_lists (at_ := mkIterator) m 1 2 [5; 6; 5] [7] [8] [0] [0; 0; 0] [7] Z.even 5 Z.add 0 4)
    as (_ & _ & _ & _ & _ & _ & Hcount & _); try (vm_compute; congruence || reflexivity); [cbn; lia..|].
  split; [exact Hfind|]. split; [exact Hcount|]. vm_compute. reflexivity.
Defined.
