(* ===== verification/Strings.v ===== *)
(** [String] and [StringView] (string.cpp, string_view.cpp). A string owns a character
    array ([None] after a move), a view is a length and a pointer into somebody else's
    array, given by the array and an offset. Both are related to the list of their
    characters. *)

From S2P Require Import Prelude Clib.

(** [END] and [NOT_FOUND]: [size_t(-1)]. *)
Definition END : Z := 0xFFFFFFFF.
Definition NOT_FOUND : Z := 0xFFFFFFFF.

Record String := mkString {
  s_size : Z;
  s_data : option (list Z)
}.

Record StringView := mkView {
  sv_size : Z;
  sv_data : list Z;
  sv_off : Z
}.

(** The array the data pointer gives access to: none through a null one. *)
Definition s_bytes (s : String) : list Z := default [] (s_data s).

(** [new char[n]]; every byte is written before it is read. *)
Definition new_char (n : Z) : list Z := replicate (Z.to_nat (u32 n)) 0.

(** * Searching

    The loops of [find] and [rfind], the same in both classes: the [size] characters
    from [off] on are searched for the [n] characters of the needle. A loop that runs
    past the array faults, so the length of the array bounds the turns. *)

Definition find_loop (data : list Z) (off size : Z) (needle : list Z) (noff n pos : Z) : exec Z :=
  while (S (S (length data)))
    (fun i =>
       if i <? u32 (u32 (size - n) + 1) then
         differ ← strncmp data (off + i) needle noff n;
         if negb differ then Done (inr i) else Done (inl (u32 (i + 1)))
       else Done (inr NOT_FOUND))
    pos.

(** [for (int i = pos - n; i >= 0; i--)] *)
Definition rfind_loop (data : list Z) (off : Z) (needle : list Z) (noff n pos : Z) : exec Z :=
  while (S (S (Z.to_nat (s32 (u32 (pos - n))))))
    (fun i =>
       if 0 <=? i then
         differ ← strncmp data (off + i) needle noff n;
         if negb differ then Done (inr i) else Done (inl (i - 1))
       else Done (inr NOT_FOUND))
    (s32 (u32 (pos - n))).

(** The array of the one-character string that the [char] overloads build. *)
Definition char_string (c : Z) : list Z := [c; 0].

(** * Views *)

Definition StringView_of_cstr (str : list Z) (off : Z) : exec StringView :=
  n ← strlen str off;
  Done (mkView n str off).

Definition StringView_of_cstr_len (str : list Z) (off len : Z) : exec StringView :=
  n ← (if len =? END then strlen str off else Done len);
  Done (mkView n str off).

Definition StringView_of_string (s : String) : StringView := mkView (s_size s) (s_bytes s) 0.

Definition StringView_at (v : StringView) (off : Z) : exec Z := aget (sv_data v) (sv_off v + off).

Definition StringView_eq (v other : StringView) : exec bool :=
  if negb (sv_size v =? sv_size other) then Done false
  else
    differ ← strncmp (sv_data v) (sv_off v) (sv_data other) (sv_off other) (sv_size v);
    Done (negb differ).

Definition StringView_eq_cstr (v : StringView) (other : list Z) (off : Z) : exec bool :=
  n ← strlen other off;
  if negb (sv_size v =? n) then Done false
  else differ ← strncmp (sv_data v) (sv_off v) other off (sv_size v); Done (negb differ).

Definition StringView_neq (v other : StringView) : exec bool :=
  if sv_size v =? sv_size other then Done false
  else
    differ ← strncmp (sv_data v) (sv_off v) (sv_data other) (sv_off other) (sv_size v);
    Done (negb (negb differ)).

Definition StringView_neq_cstr (v : StringView) (other : list Z) (off : Z) : exec bool :=
  n ← strlen other off;
  if sv_size v =? n then Done false
  else differ ← strncmp (sv_data v) (sv_off v) other off (sv_size v); Done (negb (negb differ)).

Definition StringView_substr (v : StringView) (pos len : Z) : exec StringView :=
  let pos := if pos =? END then sv_size v else pos in
  let len := if len =? END then u32 (sv_size v - pos) else len in
  _ ← ASSERT (u32 (pos + len) <=? sv_size v);
  StringView_of_cstr_len (sv_data v) (sv_off v + pos) len.

Definition StringView_find (v str : StringView) (pos : Z) : exec Z :=
  let pos := if pos =? END then sv_size v else pos in
  _ ← ASSERT (pos <=? sv_size v);
  find_loop (sv_data v) (sv_off v) (sv_size v) (sv_data str) (sv_off str) (sv_size str) pos.

Definition StringView_find_cstr (v : StringView) (str : list Z) (off pos : Z) : exec Z :=
  let pos := if pos =? END then sv_size v else pos in
  _ ← ASSERT (pos <=? sv_size v);
  str_len ← strlen str off;
  find_loop (sv_data v) (sv_off v) (sv_size v) str off str_len pos.

Definition StringView_find_char (v : StringView) (c pos : Z) : exec Z :=
  StringView_find_cstr v (char_string c) 0 pos.

Definition StringView_rfind (v str : StringView) (pos : Z) : exec Z :=
  let pos := if pos =? END then sv_size v else pos in
  _ ← ASSERT (pos <=? sv_size v);
  rfind_loop (sv_data v) (sv_off v) (sv_data str) (sv_off str) (sv_size str) pos.

Definition StringView_rfind_cstr (v : StringView) (str : list Z) (off pos : Z) : exec Z :=
  let pos := if pos =? END then sv_size v else pos in
  _ ← ASSERT (pos <=? sv_size v);
  str_len ← strlen str off;
  rfind_loop (sv_data v) (sv_off v) str off str_len pos.

Definition StringView_rfind_char (v : StringView) (c pos : Z) : exec Z :=
  StringView_rfind_cstr v (char_string c) 0 pos.

(** * Strings *)

Definition String_of_view (str : StringView) : exec String :=
  let size := sv_size str in
  data ← memcpy (new_char (size + 1)) 0 (sv_data str) (sv_off str) size;
  data ← aset data size 0;
  Done (mkString size (Some data)).

Definition String_of_cstr (str : list Z) (off : Z) : exec String :=
  size ← strlen str off;
  data ← memcpy (new_char (size + 1)) 0 str off (u32 (size + 1));
  Done (mkString size (Some data)).

Definition String_of_cstr_len (str : list Z) (off len : Z) : exec String :=
  data ← memcpy (new_char (len + 1)) 0 str off len;
  data ← aset data len 0;
  Done (mkString len (Some data)).

(** The move constructor and assignment: the new string and what is left of [other]. *)
Definition String_move (other : String) : String * String :=
  (mkString (s_size other) (s_data other), mkString (s_size other) None).

Definition String_copy (other : String) : exec String :=
  data ← memcpy (new_char (s_size other + 1)) 0 (s_bytes other) 0 (u32 (s_size other + 1));
  Done (mkString (s_size other) (Some data)).

(** [operator=] from another string. *)
Definition String_assign (other : String) : exec String := String_copy other.

Definition String_assign_cstr (str : list Z) (off : Z) : exec String := String_of_cstr str off.

(** The common part of the four [insert]s: [len] characters of [str] from [off] on go
    between the first [pos] characters and the others. *)
Definition String_insert_bytes (s : String) (pos : Z) (str : list Z) (off len : Z) : exec String :=
  let new_len := u32 (len + s_size s) in
  d ← memcpy (new_char (new_len + 1)) 0 (s_bytes s) 0 pos;
  d ← memcpy d pos str off len;
  d ← memcpy d (pos + len) (s_bytes s) pos (s_size s - pos);
  d ← aset d new_len 0;
  Done (mkString new_len (Some d)).

Definition String_insert (s : String) (pos : Z) (str : String) : exec String :=
  let pos := if pos =? END then s_size s else pos in
  _ ← ASSERT (pos <=? s_size s);
  String_insert_bytes s pos (s_bytes str) 0 (s_size str).

Definition String_insert_cstr (s : String) (pos : Z) (str : list Z) (off : Z) : exec String :=
  let pos := if pos =? END then s_size s else pos in
  _ ← ASSERT (pos <=? s_size s);
  str_len ← strlen str off;
  String_insert_bytes s pos str off str_len.

Definition String_insert_sub (s : String) (pos : Z) (str : String) (subpos sublen : Z) : exec String :=
  let subpos := if subpos =? END then s_size str else subpos in
  let pos := if pos =? END then s_size s else pos in
  _ ← ASSERT (u32 (subpos + sublen) <=? s_size str);
  _ ← ASSERT (pos <=? s_size s);
  let str_len := if sublen <? s_size str then sublen else s_size str in
  String_insert_bytes s pos (s_bytes str) subpos str_len.

Definition String_insert_cstr_sub (s : String) (pos : Z) (str : list Z) (off subpos sublen : Z)
    : exec String :=
  n ← strlen str off;
  let subpos := if subpos =? END then n else subpos in
  let pos := if pos =? END then s_size s else pos in
  _ ← ASSERT (u32 (subpos + sublen) <=? n);
  _ ← ASSERT (pos <=? s_size s);
  String_insert_bytes s pos str (off + subpos) sublen.

Definition String_append (s other : String) : exec String := String_insert s END other.
Definition String_append_cstr (s : String) (other : list Z) (off : Z) : exec String :=
  String_insert_cstr s END other off.

(** [operator+=(char)] passes the address of its parameter: [other] alone is the
    object, what follows it in memory is not part of it. *)
Definition String_append_char (s : String) (other : Z) : exec String :=
  String_insert_cstr s END [other] 0.

Definition String_plus (s other : String) : exec String :=
  copy ← String_copy s; String_append copy other.

Definition String_push_back (s : String) (c : Z) : exec String :=
  String_insert_cstr s END (char_string c) 0.

Definition String_pop_back (s : String) : exec String :=
  _ ← ASSERT (truthy (s_size s));
  data ← aset (s_bytes s) (s_size s - 1) 0;
  Done (mkString (s_size s - 1) (Some data)).

Definition String_erase (s : String) (pos len : Z) : exec String :=
  _ ← ASSERT (u32 (pos + len) <=? s_size s);
  data ← memmove (s_bytes s) pos (pos + len) (u32 (s_size s - pos - len + 1));
  Done (mkString (u32 (s_size s - len)) (Some data)).

(** The predicate may change the variables it captures, [st]. Every turn passes or removes a
    character. *)
Definition String_erase_if_with {V} (predictor : V -> Z -> bool * V) (st : V) (s : String) : exec String :=
  while (S (Z.to_nat (s_size s)))
    (fun '(i, s, st) =>
       if i <? s_size s then
         c ← aget (s_bytes s) i;
         let '(gone, st) := predictor st c in
         if gone : bool then s ← String_erase s i 1; Done (inl (i, s, st))
         else Done (inl (i + 1, s, st))
       else Done (inr s))
    (0, s, st).

Definition String_erase_if (s : String) (predictor : Z -> bool) : exec String :=
  String_erase_if_with (fun _ c => (predictor c, tt)) tt s.

Definition String_at (s : String) (off : Z) : exec Z := aget (s_bytes s) off.

(** [operator[]] that gives a reference; here the assignment through it. *)
Definition String_set_at (s : String) (off c : Z) : exec String :=
  _ ← ASSERT (off <? s_size s);
  data ← aset (s_bytes s) off c;
  Done (mkString (s_size s) (Some data)).

Definition String_eq_view (s : String) (other : StringView) : exec bool :=
  if negb (s_size s =? sv_size other) then Done false
  else differ ← memcmp (s_bytes s) 0 (sv_data other) (sv_off other) (s_size s); Done (negb differ).

Definition String_eq (s other : String) : exec bool :=
  if negb (s_size s =? s_size other) then Done false
  else differ ← strcmp (s_bytes s) 0 (s_bytes other) 0; Done (negb differ).

Definition String_eq_cstr (s : String) (other : list Z) (off : Z) : exec bool :=
  differ ← strcmp (s_bytes s) 0 other off; Done (negb differ).

Definition String_neq_view (s : String) (other : StringView) : exec bool :=
  if s_size s =? sv_size other then Done false
  else
    differ ← memcmp (s_bytes s) 0 (sv_data other) (sv_off other) (s_size s);
    Done (negb (negb differ)).

Definition String_neq (s other : String) : exec bool :=
  if s_size s =? s_size other then Done false
  else differ ← strcmp (s_bytes s) 0 (s_bytes other) 0; Done (negb (negb differ)).

Definition String_neq_cstr (s : String) (other : list Z) (off : Z) : exec bool :=
  differ ← strcmp (s_bytes s) 0 other off; Done (negb (negb differ)).

Definition String_substr (s : String) (pos len : Z) : exec String :=
  let pos := if pos =? END then s_size s else pos in
  _ ← ASSERT (u32 (pos + len) <=? s_size s);
  String_of_cstr_len (s_bytes s) pos len.

Definition String_find (s str : String) (pos : Z) : exec Z :=
  let pos := if pos =? END then s_size s else pos in
  _ ← ASSERT (pos <=? s_size s);
  find_loop (s_bytes s) 0 (s_size s) (s_bytes str) 0 (s_size str) pos.

Definition String_find_cstr (s : String) (str : list Z) (off pos : Z) : exec Z :=
  let pos := if pos =? END then s_size s else pos in
  _ ← ASSERT (pos <=? s_size s);
  str_len ← strlen str off;
  find_loop (s_bytes s) 0 (s_size s) str off str_len pos.

Definition String_find_char (s : String) (c pos : Z) : exec Z :=
  String_find_cstr s (char_string c) 0 pos.

Definition String_rfind (s str : String) (pos : Z) : exec Z :=
  let pos := if pos =? END then s_size s else pos in
  _ ← ASSERT (pos <=? s_size s);
  rfind_loop (s_bytes s) 0 (s_bytes str) 0 (s_size str) pos.

Definition String_rfind_cstr (s : String) (str : list Z) (off pos : Z) : exec Z :=
  let pos := if pos =? END then s_size s else pos in
  _ ← ASSERT (pos <=? s_size s);
  str_len ← strlen str off;
  rfind_loop (s_bytes s) 0 str off str_len pos.

Definition String_rfind_char (s : String) (c pos : Z) : exec Z :=
  String_rfind_cstr s (char_string c) 0 pos.

Definition String_cleanup (s : String) : String := mkString 0 None.

(** * What a string holds

    The characters, a terminating zero, and whatever [erase] left behind it; the size
    leaves room for the zero. Characters may be zero. *)
Definition str_rep (s : String) (cs : list Z) : Prop :=
  alen cs + 1 < 2 ^ 32 /\ exists junk, s = mkString (alen cs) (Some (cs ++ 0 :: junk)).

(** A view of the characters [cs]. *)
Definition view_rep (v : StringView) (cs : list Z) : Prop :=
  alen cs + 1 < 2 ^ 32 /\ exists p r, v = mkView (alen cs) (p ++ cs ++ r) (alen p).

Lemma str_rep_view s cs : str_rep s cs -> view_rep (StringView_of_string s) cs.
Proof. intros (Hb & junk & ->). split; [done|]. by exists [], (0 :: junk). Qed.

Lemma split_at (cs : list Z) (i : Z) :
  0 <= i <= alen cs -> exists a b, cs = a ++ b /\ alen a = i /\ alen b = alen cs - i.
Proof.
  intros Hi. exists (take (Z.to_nat i) cs), (drop (Z.to_nat i) cs).
  unfold alen in *. rewrite take_drop, length_take, length_drop. repeat split; lia.
Qed.

Lemma new_char_split (a b c : list Z) :
  alen a + alen b + alen c + 1 < 2 ^ 32 ->
  new_char (alen a + alen b + alen c + 1)
  = replicate (length a) 0 ++ replicate (length b) 0 ++ replicate (length c) 0 ++ [0].
Proof.
  intros Hb. unfold new_char.
  rewrite u32_small by (pose proof (alen_nonneg a); pose proof (alen_nonneg b);
                        pose proof (alen_nonneg c); lia).
  change [0] with (replicate 1 0).
  rewrite <- !replicate_add. f_equal. unfold alen. lia.
Qed.

(** Copying a string with its terminator, a view, and a piece of an array. *)
Lemma String_of_cstr_len_rep (p cs r : list Z) :
  alen cs + 1 < 2 ^ 32 ->
  exists s, String_of_cstr_len (p ++ cs ++ r) (alen p) (alen cs) = Done s /\ str_rep s cs.
Proof.
  intros Hb. unfold String_of_cstr_len.
  replace (alen cs + 1) with (alen (@nil Z) + alen cs + alen (@nil Z) + 1) by (rewrite (@alen_nil Z); lia).
  rewrite new_char_split by (rewrite (@alen_nil Z); lia). simpl.
  pose proof (memcpy_spec cs (replicate (length cs) 0) [] [0] p r) as E.
  rewrite (@alen_nil Z) in E. simpl in E. rewrite E by by rewrite length_replicate. cbn [mbind exec_bind].
  rewrite aset_middle. cbn [mbind exec_bind]. eexists; split; [done|]. split; [done|]. by exists [].
Qed.

Lemma String_of_view_rep v cs :
  view_rep v cs -> exists s, String_of_view v = Done s /\ str_rep s cs.
Proof. intros (Hb & p & r & ->). by apply (String_of_cstr_len_rep p cs r). Qed.

Lemma String_copy_rep s cs :
  str_rep s cs -> exists s', String_copy s = Done s' /\ str_rep s' cs.
Proof.
  intros (Hb & junk & ->). unfold String_copy, s_bytes. simpl. pose proof (alen_nonneg cs).
  rewrite (u32_small (alen cs + 1)) by lia. unfold new_char. rewrite u32_small by lia.
  pose proof (memcpy_spec (cs ++ [0]) (replicate (Z.to_nat (alen cs + 1)) 0) [] [] [] junk) as E.
  rewrite alen_snoc, !app_nil_r, <- app_assoc, (@alen_nil Z) in E. simpl in E. rewrite E.
  - cbn [mbind exec_bind]. eexists; split; [done|]. split; [done|]. by exists [].
  - rewrite length_replicate, length_app. unfold alen. simpl. lia.
Qed.

(** * Edits *)

Lemma String_insert_bytes_rep s (a b p c r : list Z) :
  str_rep s (a ++ b) -> alen (a ++ b) + alen c + 1 < 2 ^ 32 ->
  exists s', String_insert_bytes s (alen a) (p ++ c ++ r) (alen p) (alen c) = Done s' /\
    str_rep s' (a ++ c ++ b).
Proof.
  intros (_ & junk & ->) Hb. unfold String_insert_bytes, s_bytes. simpl. rewrite alen_app in *.
  rewrite u32_small
    by (pose proof (alen_nonneg a); pose proof (alen_nonneg b); pose proof (alen_nonneg c); lia).
  replace (alen c + (alen a + alen b) + 1) with (alen a + alen c + alen b + 1) by lia.
  rewrite new_char_split by lia.
  pose proof (memcpy_spec a (replicate (length a) 0) []
    (replicate (length c) 0 ++ replicate (length b) 0 ++ [0]) [] (b ++ 0 :: junk)) as E.
  rewrite <- app_assoc, (@alen_nil Z) in *. simpl in E. rewrite E by by rewrite length_replicate. cbn [mbind exec_bind]. clear E.
  rewrite memcpy_spec by by rewrite length_replicate. cbn [mbind exec_bind].
  rewrite <- (alen_app a c), (app_assoc a c).
  replace (alen a + alen b - alen a) with (alen b) by lia.
  rewrite memcpy_spec by by rewrite length_replicate. cbn [mbind exec_bind].
  rewrite (app_assoc (a ++ c) b).
  replace (alen c + (alen a + alen b)) with (alen ((a ++ c) ++ b)) by (rewrite !alen_app; lia).
  rewrite aset_middle. cbn [mbind exec_bind]. rewrite (app_assoc a c b).
  eexists; split; [done|]. split; [rewrite !alen_app; lia|]. by exists [].
Qed.

Lemma String_insert_rep s str a b c :
  str_rep s (a ++ b) -> str_rep str c -> alen (a ++ b) + alen c + 1 < 2 ^ 32 ->
  exists s', String_insert s (alen a) str = Done s' /\ str_rep s' (a ++ c ++ b).
Proof.
  intros Hs (Hc & junk & ->) Hb. pose proof Hs as (_ & js & E).
  assert (Es : s_size s = alen a + alen b) by (rewrite E; simpl; by rewrite alen_app).
  unfold String_insert. rewrite alen_app in Hb. pose proof (alen_nonneg b). pose proof (alen_nonneg c).
  rewrite (proj2 (Z.eqb_neq _ _)) by (unfold END; lia).
  rewrite bind_ASSERT by (apply Z.leb_le; lia).
  apply (String_insert_bytes_rep s a b [] c (0 :: junk)); [done|rewrite alen_app; lia].
Qed.

(** The storage after an insertion is as long as the characters and the terminator. *)
Lemma String_insert_storage s pos str off len s' :
  String_insert_bytes s pos str off len = Done s' -> alen (s_bytes s') = u32 (s_size s' + 1).
Proof.
  unfold String_insert_bytes. intros E. inv_done. cbn [s_bytes s_data s_size default].
  repeat match goal with H : memcpy _ _ _ _ _ = Done _ |- _ => apply memcpy_length in H | H : aset _ _ _ = Done _ |- _ => apply aset_inv in H as [_ ->] end.
  unfold s_bytes, id. simpl. rewrite alen_insert. etrans; [eassumption|]. etrans; [eassumption|]. etrans; [eassumption|].
  unfold new_char, alen. rewrite length_replicate. pose proof (u32_range (u32 (len + s_size s) + 1)). lia.
Qed.

Lemma String_insert_cstr_rep s a b (p c r : list Z) :
  str_rep s (a ++ b) -> Forall (fun x => x <> 0) c -> alen (a ++ b) + alen c + 1 < 2 ^ 32 ->
  exists s', String_insert_cstr s (alen a) (p ++ c ++ 0 :: r) (alen p) = Done s' /\
    str_rep s' (a ++ c ++ b).
Proof.
  intros Hs Hnz Hb. pose proof Hs as (_ & js & E).
  assert (Es : s_size s = alen a + alen b) by (rewrite E; simpl; by rewrite alen_app).
  unfold String_insert_cstr. rewrite alen_app in Hb.
  pose proof (alen_nonneg a). pose proof (alen_nonneg b). pose proof (alen_nonneg c).
  rewrite (proj2 (Z.eqb_neq _ _)) by (unfold END; lia).
  rewrite bind_ASSERT by (apply Z.leb_le; lia).
  rewrite strlen_spec by (done || lia). cbn [mbind exec_bind].
  apply (String_insert_bytes_rep s a b p c (0 :: r)); [done|rewrite alen_app; lia].
Qed.

(** At [END]: at the end. *)
Lemma String_insert_END s str cs : str_rep s cs -> String_insert s END str = String_insert s (alen cs) str.
Proof.
  intros (Hb & junk & ->). unfold String_insert. simpl.
  by destruct (alen cs =? END) eqn:?.
Qed.

Lemma String_insert_cstr_END s str off cs :
  str_rep s cs -> String_insert_cstr s END str off = String_insert_cstr s (alen cs) str off.
Proof.
  intros (Hb & junk & ->). unfold String_insert_cstr. simpl.
  by destruct (alen cs =? END) eqn:?.
Qed.

(** A zero is not appended: it ends the one-character string. *)
Lemma String_push_back_rep s cs c :
  str_rep s cs -> alen cs + 2 < 2 ^ 32 ->
  exists s', String_push_back s c = Done s' /\ str_rep s' (if c =? 0 then cs else cs ++ [c]).
Proof.
  intros Hs Hb. unfold String_push_back. rewrite (String_insert_cstr_END s _ _ cs Hs).
  rewrite <- (app_nil_r cs) in Hs at 1. unfold char_string. case_test.
  - subst c. destruct (String_insert_cstr_rep s cs [] [] [] [0] Hs) as (s' & E & Hs').
    + constructor.
    + rewrite app_nil_r, (@alen_nil Z). lia.
    + exists s'. simpl in E, Hs'. by rewrite app_nil_r in Hs'.
  - apply (String_insert_cstr_rep s cs [] [] [c] [] Hs); [by repeat constructor|].
    rewrite app_nil_r, alen_cons, (@alen_nil Z). lia.
Qed.

Lemma String_append_rep s t cs ct :
  str_rep s cs -> str_rep t ct -> alen cs + alen ct + 1 < 2 ^ 32 ->
  exists s', String_append s t = Done s' /\ str_rep s' (cs ++ ct).
Proof.
  intros Hs Ht Hb. unfold String_append. rewrite (String_insert_END s t cs Hs).
  rewrite <- (app_nil_r cs) in Hs at 1.
  destruct (String_insert_rep s t cs [] ct Hs Ht) as (s' & E & Hs'); [by rewrite app_nil_r|].
  exists s'. by rewrite app_nil_r in Hs'.
Qed.

Lemma String_pop_back_storage s s' : String_pop_back s = Done s' -> alen (s_bytes s') = alen (s_bytes s).
Proof.
  unfold String_pop_back. intros E. apply bind_Done_inv in E as (_ & _ & E). apply bind_Done_inv in E as (d & Ed & E).
  injection E as <-. apply aset_inv in Ed as [_ ->]. cbn. apply alen_insert.
Qed.

Lemma String_pop_back_rep s cs c :
  str_rep s (cs ++ [c]) -> exists s', String_pop_back s = Done s' /\ str_rep s' cs.
Proof.
  intros (Hb & junk & ->). unfold String_pop_back, s_bytes. simpl. rewrite alen_snoc in *.
  pose proof (alen_nonneg cs). unfold truthy. rewrite (proj2 (Z.eqb_neq _ _)) by lia.
  cbn [negb ASSERT mbind exec_bind]. replace (alen cs + 1 - 1) with (alen cs) by lia.
  rewrite <- app_assoc. cbn [app]. rewrite aset_middle. cbn [mbind exec_bind].
  eexists; split; [done|]. split; [lia|]. by exists (0 :: junk).
Qed.

Lemma String_erase_rep s a x b :
  str_rep s (a ++ x ++ b) -> exists s', String_erase s (alen a) (alen x) = Done s' /\ str_rep s' (a ++ b).
Proof.
  intros (Hb & junk & ->). unfold String_erase, s_bytes. cbn [s_size s_data default].
  rewrite !alen_app in *. pose proof (alen_nonneg a). pose proof (alen_nonneg b). pose proof (alen_nonneg x).
  rewrite !u32_small by lia. rewrite bind_ASSERT by (apply Z.leb_le; lia).
  replace (alen a + (alen x + alen b) - alen a - alen x + 1) with (alen (b ++ [0]))
    by (rewrite alen_snoc; lia).
  replace ((a ++ x ++ b) ++ 0 :: junk) with (a ++ x ++ (b ++ [0]) ++ junk) by by rewrite <- !app_assoc.
  destruct (memmove_down a x (b ++ [0]) junk) as (z & _ & E). unfold id. rewrite E. cbn [mbind exec_bind].
  eexists; split; [done|]. split; [rewrite alen_app; lia|]. exists (z ++ junk).
  rewrite <- !app_assoc, alen_app. f_equal. lia.
Qed.

Lemma String_set_at_rep s a x b c :
  str_rep s (a ++ x :: b) -> exists s', String_set_at s (alen a) c = Done s' /\ str_rep s' (a ++ c :: b).
Proof.
  intros (Hb & junk & ->). unfold String_set_at, s_bytes. simpl.
  rewrite alen_app, alen_cons in *. pose proof (alen_nonneg b).
  rewrite bind_ASSERT by (apply Z.ltb_lt; lia). rewrite <- app_assoc. simpl.
  rewrite aset_middle. cbn [mbind exec_bind]. eexists; split; [done|].
  split; [rewrite alen_app, alen_cons; lia|]. exists junk. by rewrite <- app_assoc, alen_app, alen_cons.
Qed.

(** What a predicate with state lets stand. *)
Fixpoint passed_by {V} (pred : V -> Z -> bool * V) (st : V) (cs : list Z) : list Z :=
  match cs with
  | [] => []
  | c :: cs => let '(gone, st) := pred st c in if gone : bool then passed_by pred st cs else c :: passed_by pred st cs
  end.

Lemma String_erase_if_with_rep {V} (pred : V -> Z -> bool * V) st s cs :
  str_rep s cs -> exists s', String_erase_if_with pred st s = Done s' /\ str_rep s' (passed_by pred st cs).
Proof.
  intros Hs. unfold String_erase_if_with.
  match goal with |- context [while ?f ?step ?w] =>
    destruct (while_inv
      (fun '(i, t, st') => exists a b, str_rep t (a ++ b) /\ i = alen a /\ a ++ passed_by pred st' b = passed_by pred st cs)
      (fun t => str_rep t (passed_by pred st cs))
      (fun '(i, t, st') => Z.to_nat (s_size t - i)) step f w) as (r & E & Hr) end.
  - by exists [], cs.
  - simpl. destruct Hs as (_ & junk & ->). simpl. lia.
  - intros [[i t] st'] (a & b & Ht & -> & Hf). pose proof Ht as (Hb & junk & ->). cbn [s_size] in *.
    pose proof (alen_nonneg a). destruct b as [|c b].
    + right. rewrite app_nil_r, Z.ltb_irrefl. eexists; split; [done|].
      simpl in Hf. rewrite app_nil_r in Hf, Ht. by rewrite <- Hf.
    + left. rewrite alen_app, alen_cons in *. pose proof (alen_nonneg b).
      rewrite (proj2 (Z.ltb_lt _ _)) by lia. unfold s_bytes. cbn [s_data default].
      unfold id. rewrite <- app_assoc. cbn [app]. rewrite aget_middle. cbn [mbind exec_bind].
      simpl in Hf. destruct (pred st' c) as [[|] st'']; simpl in Hf.
      * destruct (String_erase_rep _ a [c] b Ht) as (t & E & Ht').
        rewrite <- app_assoc in E. simpl in E. change (alen [c]) with 1 in E. rewrite E.
        eexists; split; [done|]. split; [by exists a, b|]. destruct Ht' as (_ & j' & ->).
        simpl. rewrite alen_app. lia.
      * eexists; split; [done|]. split; [|simpl; lia]. exists (a ++ [c]), b.
        rewrite <- !app_assoc, alen_snoc. cbn [app]. split; [|done].
        split; [rewrite alen_app, alen_cons; lia|]. exists junk.
        by rewrite <- app_assoc, alen_app, alen_cons.
  - by exists r.
Qed.

Lemma String_erase_if_rep s cs (pred : Z -> bool) :
  str_rep s cs ->
  exists s', String_erase_if s pred = Done s' /\ str_rep s' (List.filter (fun c => negb (pred c)) cs).
Proof.
  intros Hs. destruct (String_erase_if_with_rep (fun _ c => (pred c, tt)) tt s cs Hs) as (s' & E & Hs').
  exists s'. split; [done|]. replace (List.filter _ cs) with (passed_by (fun _ c => (pred c, tt)) tt cs); [done|].
  clear. induction cs as [|c cs IH]; [done|]. cbn. rewrite IH. by destruct (pred c).
Qed.

(** The edits a caller can make, what they do to the object and what they are to do to
    the characters ([None]: a failed assertion). *)
Inductive edit :=
| Insert (pos : Z) (str : String) (cs : list Z)
| PushBack (c : Z)
| PopBack
| Erase (pos len : Z)
| EraseIf (pred : Z -> bool)
| SetAt (off c : Z).

Definition run_edit (s : String) (e : edit) : exec String :=
  match e with
  | Insert pos str _ => String_insert s pos str
  | PushBack c => String_push_back s c
  | PopBack => String_pop_back s
  | Erase pos len => String_erase s pos len
  | EraseIf pred => String_erase_if s pred
  | SetAt off c => String_set_at s off c
  end.

Definition edit_chars (cs : list Z) (e : edit) : option (list Z) :=
  match e with
  | Insert pos _ ds =>
      let pos := if pos =? END then alen cs else pos in
      if pos <=? alen cs then Some (take (Z.to_nat pos) cs ++ ds ++ drop (Z.to_nat pos) cs) else None
  | PushBack c => Some (if c =? 0 then cs else cs ++ [c])
  | PopBack => match cs with [] => None | _ => Some (take (length cs - 1) cs) end
  | Erase pos len =>
      if pos + len <=? alen cs
      then Some (take (Z.to_nat pos) cs ++ drop (Z.to_nat (pos + len)) cs) else None
  | EraseIf pred => Some (List.filter (fun c => negb (pred c)) cs)
  | SetAt off c => if off <? alen cs then Some (<[Z.to_nat off := c]> cs) else None
  end.

Fixpoint run_edits (s : String) (es : list edit) : exec String :=
  match es with [] => Done s | e :: es => s ← run_edit s e; run_edits s es end.

Fixpoint edits_chars (cs : list Z) (es : list edit) : option (list Z) :=
  match es with [] => Some cs | e :: es => cs ← edit_chars cs e; edits_chars cs es end.

(** The arguments of an edit: positions are unsigned, the area to erase does not wrap,
    and the inserted string holds the characters it is said to hold. *)
Definition edit_ok (e : edit) : Prop :=
  match e with
  | Insert pos str ds => 0 <= pos /\ str_rep str ds
  | Erase pos len => 0 <= pos /\ 0 <= len /\ pos + len < 2 ^ 32
  | SetAt off _ => 0 <= off
  | _ => True
  end.

(** How much an edit can add. *)
Definition edit_growth (e : edit) : Z :=
  match e with Insert _ _ ds => alen ds | PushBack _ => 1 | _ => 0 end.

Definition edits_growth (es : list edit) : Z := foldr (fun e n => edit_growth e + n) 0 es.

Lemma edit_grows cs e cs' :
  edit_ok e -> edit_chars cs e = Some cs' -> alen cs' <= alen cs + edit_growth e.
Proof.
  intros Hok. destruct e; simpl in *.
  - destruct (_ <=? _) eqn:?; [|done]. intros [= <-].
    rewrite !alen_app. unfold alen. rewrite length_take, length_drop. lia.
  - intros [= <-]. destruct (_ =? _); [|rewrite alen_snoc]; lia.
  - destruct cs; [done|]. intros [= <-]. unfold alen. rewrite length_take. lia.
  - destruct (_ <=? _) eqn:?; [|done]. intros [= <-].
    rewrite !alen_app. unfold alen. rewrite length_take, length_drop. lia.
  - intros [= <-]. unfold alen. pose proof (List.filter_length_le (fun c => negb (pred c)) cs). lia.
  - destruct (_ <? _) eqn:?; [|done]. intros [= <-]. rewrite alen_insert. lia.
Qed.

Lemma alen_take (cs : list Z) (i : Z) : 0 <= i <= alen cs -> alen (take (Z.to_nat i) cs) = i.
Proof. unfold alen. rewrite length_take. lia. Qed.

Lemma run_insert_refines s cs pos str ds :
  str_rep s cs -> edit_ok (Insert pos str ds) -> alen cs + alen ds + 1 < 2 ^ 32 ->
  match edit_chars cs (Insert pos str ds) with
  | Some cs' => exists s', String_insert s pos str = Done s' /\ str_rep s' cs'
  | None => String_insert s pos str = Panic
  end.
Proof.
  intros Hs [Hpos Hstr] Hb. simpl.
  destruct (Z.eqb_spec pos END) as [->|Hne].
  - rewrite (String_insert_END s str cs Hs), Z.leb_refl.
    rewrite firstn_all2, drop_ge by (unfold alen; lia). rewrite <- (app_nil_r cs) in Hs, Hb.
    apply String_insert_rep; [done..|lia].
  - case_test.
    + rewrite <- (take_drop (Z.to_nat pos) cs) in Hs, Hb.
      destruct (String_insert_rep s str _ _ ds Hs Hstr) as (s' & E & Hs'); [lia|].
      rewrite alen_take in E by lia. by exists s'.
    + destruct Hs as (_ & junk & ->). unfold String_insert. rewrite (proj2 (Z.eqb_neq _ _) Hne).
      simpl. by rewrite (proj2 (Z.leb_gt _ _)) by lia.
Qed.

Lemma run_erase_refines s cs pos len :
  str_rep s cs -> edit_ok (Erase pos len) ->
  match edit_chars cs (Erase pos len) with
  | Some cs' => exists s', String_erase s pos len = Done s' /\ str_rep s' cs'
  | None => String_erase s pos len = Panic
  end.
Proof.
  intros Hs (Hpos & Hlen & Hw). simpl. case_test.
  - destruct (split_at cs (pos + len)) as (ax & b & -> & Hax & _); [lia|].
    destruct (split_at ax pos) as (a & x & -> & <- & Hx); [lia|].
    rewrite Hax in Hx. replace (alen a + len - alen a) with len in Hx by lia. subst len.
    rewrite <- alen_app, <- app_assoc. replace (Z.to_nat (alen a)) with (length a) by (unfold alen; lia).
    rewrite take_app_length, app_assoc.
    replace (Z.to_nat (alen (a ++ x))) with (length (a ++ x)) by (unfold alen; lia).
    rewrite drop_app_length. apply String_erase_rep. by rewrite app_assoc.
  - destruct Hs as (_ & junk & ->). unfold String_erase. rewrite (u32_small (pos + len)) by lia. simpl.
    by rewrite (proj2 (Z.leb_gt _ _)) by lia.
Qed.

Lemma run_edit_refines s cs e :
  str_rep s cs -> edit_ok e -> alen cs + edit_growth e + 1 < 2 ^ 32 ->
  match edit_chars cs e with
  | Some cs' => exists s', run_edit s e = Done s' /\ str_rep s' cs'
  | None => run_edit s e = Panic
  end.
Proof.
  intros Hs Hok Hb. destruct e as [pos str ds|c| |pos len|pred|off c]; cbn [run_edit].
  - by apply run_insert_refines.
  - apply String_push_back_rep; [done|]. simpl in Hb. lia.
  - destruct cs as [|c cs _] using rev_ind.
    + destruct Hs as (_ & junk & ->). done.
    + destruct (String_pop_back_rep s cs c Hs) as (s' & E & Hs').
      cbn [edit_chars]. destruct (cs ++ [c]) eqn:Ecs; [by destruct cs|]. rewrite <- Ecs.
      rewrite length_app, Nat.add_sub, take_app_length. by exists s'.
  - by apply run_erase_refines.
  - by apply String_erase_if_rep.
  - simpl. simpl in Hok. case_test.
    + destruct (split_at cs off) as (a & b & -> & <- & Hl); [lia|].
      destruct b as [|x b]; [rewrite (@alen_nil Z) in *; lia|].
      replace (Z.to_nat (alen a)) with (length a) by (unfold alen; lia).
      rewrite insert_app_r_alt, Nat.sub_diag by lia. by apply (String_set_at_rep s a x b).
    + destruct Hs as (_ & junk & ->). unfold String_set_at. simpl.
      by rewrite (proj2 (Z.ltb_ge _ _)) by lia.
Qed.

(** C26: a string edited through its interface always holds the characters that the
    same edits make of the characters alone, in whatever order they come: an [insert]
    (at a position or at [END]) puts the other string's characters there, [push_back]
    adds one unless it is zero, [erase] takes out exactly the area, [erase_if] exactly
    the characters chosen; the terminating zero and the size follow. The first edit with
    a position outside the string, or a [pop_back] of an empty one, fails an assertion,
    and no edit reads or writes outside the arrays. *)
Theorem string_edits_refine (es : list edit) (s : String) (cs : list Z)
    (Hs : str_rep s cs) (Hok : Forall edit_ok es) (Hb : alen cs + edits_growth es + 1 < 2 ^ 32) :
  match edits_chars cs es with
  | Some cs' => exists s', run_edits s es = Done s' /\ str_rep s' cs'
  | None => run_edits s es = Panic
  end.
Proof.
  revert s cs Hs Hb. induction es as [|e es IH]; intros s cs Hs Hb; [by exists s|].
  apply Forall_cons in Hok as [He Hes]. simpl in *.
  assert (Hg : 0 <= edits_growth es).
  { clear. induction es as [|[] es]; simpl; try pose proof (alen_nonneg cs); lia. }
  pose proof (run_edit_refines s cs e Hs He) as Hstep. pose proof (edit_grows cs e) as Hgrow.
  destruct (edit_chars cs e) as [cs1|]; simpl.
  - destruct Hstep as (s1 & -> & Hs1); [lia|]. simpl. specialize (Hgrow cs1 He eq_refl).
    apply IH; [done..|]. lia.
  - by rewrite Hstep by lia.
Qed.

(** The string "ab" is edited to "xb" and then popped once too often. *)
Lemma string_edits_refine_witness :
  let s := mkString 2 (Some [97; 98; 0]) in
  let es := [Erase 0 1; Insert 0 (mkString 1 (Some [120; 0])) [120]] in
  (exists s', run_edits s es = Done s' /\ str_rep s' [120; 98]) /\
  run_edits s (es ++ [PopBack; PopBack; PopBack]) = Panic.
Proof.
  intros s es.
  assert (Hs : str_rep s [97; 98]) by (split; [vm_compute; done|by exists []]).
  assert (Hx : str_rep (mkString 1 (Some [120; 0])) [120]) by (split; [vm_compute; done|by exists []]).
  split.
  - apply (string_edits_refine es s [97; 98]); [done| |vm_compute; done].
    unfold es. cbn [app]. rewrite !Forall_cons. simpl. repeat split; try lia; apply Hx || apply Forall_nil_2.
  - apply (string_edits_refine (es ++ [PopBack; PopBack; PopBack]) s [97; 98]); [done| |vm_compute; done].
    unfold es. cbn [app]. rewrite !Forall_cons. simpl. repeat split; try lia; apply Hx || apply Forall_nil_2.
Defined.

(** * Searching *)

Definition occurs_at (cs ns : list Z) (i : Z) : Prop := exists a b, cs = a ++ ns ++ b /\ alen a = i.

(** [r] is the first (last) place of [ns] in [cs] that starts at [pos] or later (ends at
    [pos] or before), or [NOT_FOUND] when there is none. *)
Definition first_occurrence (cs ns : list Z) (pos r : Z) : Prop :=
  (r = NOT_FOUND /\ forall i, pos <= i -> ~ occurs_at cs ns i) \/
  (pos <= r /\ occurs_at cs ns r /\ forall i, pos <= i < r -> ~ occurs_at cs ns i).

Definition last_occurrence (cs ns : list Z) (pos r : Z) : Prop :=
  (r = NOT_FOUND /\ forall i, i + alen ns <= pos -> ~ occurs_at cs ns i) \/
  (r + alen ns <= pos /\ occurs_at cs ns r /\
   forall i, r < i -> i + alen ns <= pos -> ~ occurs_at cs ns i).

Lemma occurs_at_bound cs ns i : occurs_at cs ns i -> 0 <= i <= alen cs - alen ns.
Proof.
  intros (a & b & -> & <-). rewrite !alen_app. pose proof (alen_nonneg a). pose proof (alen_nonneg b). lia.
Qed.

(** One comparison of the search. *)
Lemma compare_at (p cs r q ns rq : list Z) (i : Z) :
  0 <= i <= alen cs - alen ns ->
  exists differ, strncmp (p ++ cs ++ r) (alen p + i) (q ++ ns ++ rq) (alen q) (alen ns) = Done differ /\
    (differ = false <-> occurs_at cs ns i).
Proof.
  intros Hi. pose proof (alen_nonneg ns).
  destruct (split_at cs i) as (a & b & -> & <- & Hb); [lia|].
  destruct (split_at b (alen ns)) as (m & b' & -> & Hm & _); [lia|].
  assert (Hl : length m = length ns) by (unfold alen in Hm; lia).
  pose proof (memcmp_spec m ns (p ++ a) q (b' ++ r) rq Hl) as E.
  rewrite Hm, alen_app in E. rewrite <- !app_assoc in *. unfold strncmp. rewrite E.
  eexists; split; [done|]. rewrite negb_false_iff, bool_decide_eq_true. split.
  - intros ->. by exists a, b'.
  - intros (a' & b'' & E' & Ha). apply app_inj_1 in E' as [-> E']; [|unfold alen in Ha; lia].
    by apply app_inj_1 in E' as [-> _].
Qed.

Lemma find_loop_spec (p cs r q ns rq : list Z) (pos : Z) :
  alen cs + 1 < 2 ^ 32 -> 0 <= pos -> alen ns <= alen cs + 1 ->
  exists res, find_loop (p ++ cs ++ r) (alen p) (alen cs) (q ++ ns ++ rq) (alen q) (alen ns) pos = Done res /\
    first_occurrence cs ns pos res.
Proof.
  intros Hcs Hpos Hns. unfold find_loop. pose proof (alen_nonneg ns).
  assert (Hlim : u32 (u32 (alen cs - alen ns) + 1) = alen cs - alen ns + 1).
  { unfold u32. rewrite Z.add_mod_idemp_l by lia. apply Z.mod_small. lia. }
  rewrite Hlim.
  match goal with |- context [while ?f ?step ?st] =>
    apply (while_inv (fun i => pos <= i /\ forall j, pos <= j < i -> ~ occurs_at cs ns j)
      (first_occurrence cs ns pos) (fun i => Z.to_nat (alen cs + 1 - i)) step f st) end.
  - split; [lia|]. intros j Hj. lia.
  - rewrite !length_app. unfold alen. lia.
  - intros i [Hi Hnone]. case_test; [|right].
    + destruct (compare_at p cs r q ns rq i) as (differ & -> & Hd); [lia|].
      cbn [mbind exec_bind]. destruct differ; simpl; [left|right].
      * eexists; split; [done|]. rewrite u32_small by lia. split; [split; [lia|]|lia].
        intros j Hj. destruct (decide (j = i)) as [->|]; [|apply Hnone; lia].
        intros Ho. by apply Hd in Ho.
      * eexists; split; [done|]. right. split; [done|]. split; [by apply Hd|done].
    + eexists; split; [done|]. left. split; [done|]. intros j Hj Ho.
      pose proof (occurs_at_bound _ _ _ Ho). apply (Hnone j); [lia|done].
Qed.

Lemma rfind_loop_spec (p cs r q ns rq : list Z) (pos : Z) :
  alen cs < 2 ^ 31 -> alen ns < 2 ^ 31 -> 0 <= pos <= alen cs ->
  exists res, rfind_loop (p ++ cs ++ r) (alen p) (q ++ ns ++ rq) (alen q) (alen ns) pos = Done res /\
    last_occurrence cs ns pos res.
Proof.
  intros Hcs Hns Hpos. unfold rfind_loop. pose proof (alen_nonneg ns).
  assert (Hint : s32 (u32 (pos - alen ns)) = pos - alen ns).
  { unfold s32, u32. rewrite Z.add_mod_idemp_l by lia. rewrite Z.mod_small; lia. }
  rewrite Hint.
  match goal with |- context [while ?f ?step ?st] =>
    apply (while_inv (fun i => i + alen ns <= pos /\
        forall j, i < j -> j + alen ns <= pos -> ~ occurs_at cs ns j)
      (last_occurrence cs ns pos) (fun i => Z.to_nat (i + 1)) step f st) end.
  - split; [lia|]. intros j Hj. lia.
  - lia.
  - intros i [Hi Hnone]. case_test; [|right].
    + destruct (compare_at p cs r q ns rq i) as (differ & -> & Hd); [lia|].
      cbn [mbind exec_bind]. destruct differ; simpl; [left|right].
      * eexists; split; [done|]. split; [split; [lia|]|lia].
        intros j Hj Hjp. destruct (decide (j = i)) as [->|]; [|apply Hnone; lia].
        intros Ho. by apply Hd in Ho.
      * eexists; split; [done|]. right. split; [done|]. split; [by apply Hd|done].
    + eexists; split; [done|]. left. split; [done|]. intros j Hj Ho.
      pose proof (occurs_at_bound _ _ _ Ho). apply (Hnone j); [lia|done|done].
Qed.

(** A needle without zeros differs from a shorter terminated string inside the string. *)
Lemma first_difference (b ns : list Z) :
  Forall (fun x => x <> 0) ns -> alen b < alen ns ->
  exists c x y b' ns', b ++ [0] = c ++ x :: b' /\ ns = c ++ y :: ns' /\ x <> y.
Proof.
  revert ns. induction b as [|x b IH]; intros [|y ns] Hnz Hl; rewrite ?alen_cons, ?alen_nil in Hl;
    [lia| |pose proof (alen_nonneg b); lia|]; apply Forall_cons in Hnz as [Hy Hnz].
  - by exists [], 0, y, [], ns.
  - destruct (decide (x = y)) as [->|Hne]; [|by exists [], x, y, (b ++ [0]), ns].
    destruct (IH ns Hnz) as (c & x & y' & b' & ns' & E & -> & Hne); [lia|].
    exists (y :: c), x, y', b', ns'. simpl. by rewrite E.
Qed.

Lemma memcmp_differ (p c a q b : list Z) (x y len : Z) :
  x <> y -> alen c < len ->
  memcmp (p ++ c ++ x :: a) (alen p) (q ++ c ++ y :: b) (alen q) len = Done true.
Proof.
  intros Hne Hl. unfold memcmp.
  match goal with |- while ?f ?step ?st = _ =>
    destruct (while_inv (fun i => exists c1 c2, c = c1 ++ c2 /\ i = alen c1) (fun r => r = true)
      (fun i => Z.to_nat (alen c - i)) step f st) as (r & E & ->) end; [| | |done].
  - by exists [], c.
  - lia.
  - intros i (c1 & c2 & -> & ->). rewrite alen_app in Hl. pose proof (alen_nonneg c2).
    rewrite (proj2 (Z.ltb_lt _ _)) by lia.
    replace (alen p + alen c1) with (alen (p ++ c1)) by by rewrite alen_app.
    replace (alen q + alen c1) with (alen (q ++ c1)) by by rewrite alen_app.
    rewrite <- !(app_assoc c1), !(app_assoc p), !(app_assoc q).
    destruct c2 as [|z c2]; simpl; rewrite !aget_middle; cbn [mbind exec_bind]; [right|left].
    + rewrite (proj2 (Z.eqb_neq _ _)) by done. by exists true.
    + rewrite Z.eqb_refl. eexists; split; [done|]. rewrite alen_app, alen_cons in *.
      pose proof (alen_nonneg c2). split; [|lia]. exists (c1 ++ [z]), c2. by rewrite <- app_assoc, alen_snoc.
Qed.

Lemma strncmp_short (cs q ns rq : list Z) (i : Z) :
  Forall (fun x => x <> 0) ns -> alen cs < alen ns -> 0 <= i <= alen cs ->
  strncmp (cs ++ [0]) (0 + i) (q ++ ns ++ rq) (alen q) (alen ns) = Done true.
Proof.
  intros Hnz Hn Hi. destruct (split_at cs i) as (a & b & -> & <- & Hb); [lia|].
  pose proof (alen_nonneg a).
  destruct (first_difference b ns Hnz) as (c & x & y & b' & ns' & E & -> & Hxy);
    [rewrite alen_app in *; lia|].
  unfold strncmp. replace (0 + alen a) with (alen a) by lia.
  rewrite <- app_assoc, E. rewrite <- (app_assoc c). cbn [app].
  rewrite memcmp_differ; [done|done|rewrite alen_app, alen_cons; pose proof (alen_nonneg ns'); lia].
Qed.

Lemma strncmp_overrun (source dest : list Z) (s d len : Z) :
  alen source <= s -> 0 < len -> strncmp source s dest d len = Fault.
Proof.
  intros Hs Hl. unfold strncmp, memcmp. cbn [while]. rewrite (proj2 (Z.ltb_lt _ _)) by lia.
  by rewrite (aget_out_of_range source) by lia.
Qed.

(** A needle that is longer by more than one makes the limit of the loop wrap. *)
Lemma find_loop_overrun (cs q ns rq : list Z) (pos : Z) :
  Forall (fun x => x <> 0) ns -> alen cs + 2 <= alen ns < 2 ^ 32 -> 0 <= pos <= alen cs ->
  find_loop (cs ++ [0]) 0 (alen cs) (q ++ ns ++ rq) (alen q) (alen ns) pos = Fault.
Proof.
  intros Hnz Hn Hpos. unfold find_loop. pose proof (alen_nonneg cs).
  assert (Hlim : u32 (u32 (alen cs - alen ns) + 1) = 2 ^ 32 + alen cs - alen ns + 1).
  { unfold u32. rewrite Z.add_mod_idemp_l by lia. rewrite <- (Z.mod_add _ 1) by lia.
    rewrite Z.mod_small; lia. }
  rewrite Hlim. clear Hlim.
  assert (Hfuel : alen cs + 1 - pos < Z.of_nat (S (S (length (cs ++ [0])))))
    by (rewrite length_app; unfold alen in *; simpl; lia).
  assert (Hpos' : 0 <= pos <= alen cs + 1) by lia. clear Hpos.
  revert pos Hpos' Hfuel. generalize (S (S (length (cs ++ [0])))) as fuel.
  induction fuel as [|fuel IH]; intros pos Hpos Hfuel; [lia|]. cbn [while].
  rewrite (proj2 (Z.ltb_lt _ _)) by lia. destruct (decide (pos = alen cs + 1)) as [->|Hne].
  - by rewrite strncmp_overrun by (rewrite ?alen_snoc; lia).
  - rewrite strncmp_short by (done || lia). cbn [mbind exec_bind negb].
    rewrite u32_small by lia. apply IH; lia.
Qed.

Lemma StringView_find_spec v w cs ns pos :
  view_rep v cs -> view_rep w ns -> 0 <= pos <= alen cs -> alen ns <= alen cs + 1 ->
  exists r, StringView_find v w pos = Done r /\ first_occurrence cs ns pos r.
Proof.
  intros (Hcs & p & r & ->) (Hns & q & rq & ->) Hpos Hl. unfold StringView_find. cbn [sv_size sv_data sv_off].
  rewrite (proj2 (Z.eqb_neq pos END)) by (unfold END; lia). rewrite bind_ASSERT by (apply Z.leb_le; lia).
  apply find_loop_spec; lia.
Qed.

Lemma StringView_rfind_spec v w cs ns pos :
  view_rep v cs -> view_rep w ns -> 0 <= pos <= alen cs -> alen cs < 2 ^ 31 -> alen ns < 2 ^ 31 ->
  exists r, StringView_rfind v w pos = Done r /\ last_occurrence cs ns pos r.
Proof.
  intros (Hcs & p & r & ->) (Hns & q & rq & ->) Hpos Hl Hl'. unfold StringView_rfind. cbn [sv_size sv_data sv_off].
  rewrite (proj2 (Z.eqb_neq pos END)) by (unfold END; lia). rewrite bind_ASSERT by (apply Z.leb_le; lia).
  apply rfind_loop_spec; lia.
Qed.

(** The overloads for a terminated array and for one character. *)
Lemma StringView_find_cstr_spec v cs (q ns rq : list Z) pos :
  view_rep v cs -> Forall (fun x => x <> 0) ns -> 0 <= pos <= alen cs -> alen ns <= alen cs + 1 ->
  exists r, StringView_find_cstr v (q ++ ns ++ 0 :: rq) (alen q) pos = Done r /\
    first_occurrence cs ns pos r.
Proof.
  intros (Hcs & p & r & ->) Hnz Hpos Hl. unfold StringView_find_cstr. cbn [sv_size sv_data sv_off].
  rewrite (proj2 (Z.eqb_neq pos END)) by (unfold END; lia). rewrite bind_ASSERT by (apply Z.leb_le; lia).
  rewrite strlen_spec by (done || lia). cbn [mbind exec_bind]. apply find_loop_spec; lia.
Qed.

Lemma StringView_find_char_spec v cs c pos :
  view_rep v cs -> c <> 0 -> 0 <= pos <= alen cs ->
  exists r, StringView_find_char v c pos = Done r /\ first_occurrence cs [c] pos r.
Proof.
  intros Hv Hc Hpos. apply (StringView_find_cstr_spec v cs [] [c] []); [done|by repeat constructor|done|].
  rewrite alen_cons, (@alen_nil Z). pose proof (alen_nonneg cs). lia.
Qed.

(** Searching. [find], in a string as in a view, returns the first place at or after
    [pos] where the other string's characters stand, and [NOT_FOUND] exactly when there
    is none, as long as the other string is at most one character longer; [rfind]
    returns the last place that ends at or before [pos]. With a string that is longer
    by two or more the limit of the loop of [find] wraps around, and the search leaves
    the array. *)
Theorem string_find_first (s t : String) (cs ns : list Z) (pos : Z)
    (Hs : str_rep s cs) (Ht : str_rep t ns) (Hpos : 0 <= pos <= alen cs) :
  (alen ns <= alen cs + 1 ->
     exists r, String_find s t pos = Done r /\
       StringView_find (StringView_of_string s) (StringView_of_string t) pos = Done r /\
       first_occurrence cs ns pos r) /\
  (alen cs < 2 ^ 31 -> alen ns < 2 ^ 31 ->
     exists r, String_rfind s t pos = Done r /\
       StringView_rfind (StringView_of_string s) (StringView_of_string t) pos = Done r /\
       last_occurrence cs ns pos r) /\
  (alen cs + 2 <= alen ns -> Forall (fun x => x <> 0) ns -> s_data s = Some (cs ++ [0]) ->
     String_find s t pos = Fault).
Proof.
  pose proof (str_rep_view s cs Hs) as Hv. pose proof (str_rep_view t ns Ht) as Hw. repeat split.
  - intros Hl. destruct (StringView_find_spec _ _ cs ns pos Hv Hw Hpos Hl) as (r & E & Hr).
    exists r. split; [exact E|]. by split.
  - intros Hl Hl'. destruct (StringView_rfind_spec _ _ cs ns pos Hv Hw Hpos Hl Hl') as (r & E & Hr).
    exists r. split; [exact E|]. by split.
  - intros Hl Hnz Hd. destruct Hs as (Hb & j & ->), Ht as (Hb' & j' & ->). simpl in Hd. injection Hd as Hd.
    unfold String_find, s_bytes. cbn [s_size s_data default]. unfold id. rewrite Hd.
    rewrite (proj2 (Z.eqb_neq pos END)) by (unfold END; lia). rewrite bind_ASSERT by (apply Z.leb_le; lia).
    apply (find_loop_overrun cs [] ns (0 :: j')); [done|lia|lia].
Qed.

(** "ab" in "xabab", and "abc" in "a". *)
Lemma string_find_first_witness :
  (exists r, String_find (mkString 5 (Some [120; 97; 98; 97; 98; 0])) (mkString 2 (Some [97; 98; 0])) 2
     = Done r /\ first_occurrence [120; 97; 98; 97; 98] [97; 98] 2 r) /\
  String_find (mkString 1 (Some [97; 0])) (mkString 3 (Some [97; 98; 99; 0])) 0 = Fault.
Proof.
  assert (H1 : str_rep (mkString 5 (Some [120; 97; 98; 97; 98; 0])) [120; 97; 98; 97; 98])
    by (split; [done|by exists []]).
  assert (H2 : str_rep (mkString 2 (Some [97; 98; 0])) [97; 98]) by (split; [done|by exists []]).
  assert (H3 : str_rep (mkString 1 (Some [97; 0])) [97]) by (split; [done|by exists []]).
  assert (H4 : str_rep (mkString 3 (Some [97; 98; 99; 0])) [97; 98; 99]) by (split; [done|by exists []]).
  split.
  - destruct (string_find_first _ _ _ _ 2 H1 H2) as [Hf _]; [vm_compute; split; congruence|].
    destruct Hf as (r & E & _ & Hr); [vm_compute; congruence|]. by exists r.
  - destruct (string_find_first _ _ _ _ 0 H3 H4) as (_ & _ & Hf); [vm_compute; split; congruence|].
    apply Hf; [vm_compute; congruence|by repeat constructor|done].
Defined.

(** * Comparing *)

Lemma view_compare (p a ra q b rb : list Z) :
  alen a = alen b ->
  strncmp (p ++ a ++ ra) (alen p) (q ++ b ++ rb) (alen q) (alen a) = Done (negb (bool_decide (a = b))).
Proof. intros Hl. unfold strncmp. apply memcmp_spec. unfold alen in Hl. lia. Qed.

Lemma StringView_eq_spec v w cs ds :
  view_rep v cs -> view_rep w ds -> StringView_eq v w = Done (bool_decide (cs = ds)).
Proof.
  intros (Hcs & p & r & ->) (Hds & q & rq & ->). unfold StringView_eq. cbn [sv_size sv_data sv_off].
  destruct (Z.eqb_spec (alen cs) (alen ds)) as [E|E]; simpl.
  - rewrite view_compare by done. cbn [mbind exec_bind]. by rewrite negb_involutive.
  - rewrite bool_decide_eq_false_2; [done|]. intros ->. lia.
Qed.

Lemma strcmp_spec (p a ra q b rb : list Z) :
  Forall (fun x => x <> 0) a -> Forall (fun x => x <> 0) b -> alen a < 2 ^ 32 -> alen b < 2 ^ 32 ->
  strcmp (p ++ a ++ 0 :: ra) (alen p) (q ++ b ++ 0 :: rb) (alen q) = Done (negb (bool_decide (a = b))).
Proof.
  intros Ha Hb Hla Hlb. unfold strcmp. rewrite !strlen_spec by done. cbn [mbind exec_bind].
  destruct (Z.eqb_spec (alen a) (alen b)) as [E|E]; simpl.
  - apply memcmp_spec. unfold alen in E. lia.
  - rewrite bool_decide_eq_false_2; [done|]. intros ->. lia.
Qed.

(** Comparisons. [operator==] of strings, of views, and of a string with a view,
    holds exactly for equal characters. [operator!=] is not its negation: between two
    strings it only tells whether the sizes differ, so that different strings of the
    same size are not found unequal; between views of the same size it never holds. *)
Theorem string_comparisons (s t : String) (cs ds : list Z)
    (Hs : str_rep s cs) (Ht : str_rep t ds)
    (Hcs : Forall (fun x => x <> 0) cs) (Hds : Forall (fun x => x <> 0) ds) :
  let v := StringView_of_string s in
  let w := StringView_of_string t in
  String_eq s t = Done (bool_decide (cs = ds)) /\
  StringView_eq v w = Done (bool_decide (cs = ds)) /\
  String_eq_view s w = Done (bool_decide (cs = ds)) /\
  String_neq s t = Done (negb (alen cs =? alen ds)) /\
  (alen cs = alen ds -> StringView_neq v w = Done false /\ String_neq_view s w = Done false).
Proof.
  intros v w. pose proof (StringView_eq_spec v w cs ds (str_rep_view s cs Hs) (str_rep_view t ds Ht)) as Eq.
  destruct Hs as (Hb & j & ->), Ht as (Hb' & j' & ->).
  pose proof (strcmp_spec [] cs j [] ds j' Hcs Hds ltac:(lia) ltac:(lia)) as E. rewrite (@alen_nil Z) in E.
  cbn [app] in E. subst v w. unfold String_eq, String_neq, s_bytes in *. cbn [s_size s_data default] in *.
  unfold id in *. rewrite E. repeat split.
  - destruct (Z.eqb_spec (alen cs) (alen ds)) as [|Hne]; simpl; [by rewrite negb_involutive|].
    rewrite bool_decide_eq_false_2; [done|]. intros ->. lia.
  - exact Eq.
  - exact Eq.
  - destruct (Z.eqb_spec (alen cs) (alen ds)) as [|Hne]; simpl; [done|].
    rewrite bool_decide_eq_false_2; [done|]. intros ->. lia.
  - unfold StringView_neq, StringView_of_string. simpl. by rewrite (proj2 (Z.eqb_eq _ _) H).
  - unfold String_neq_view, StringView_of_string. simpl. by rewrite (proj2 (Z.eqb_eq _ _) H).
Qed.

(** "a" and "b" are different, and not found unequal. *)
Lemma string_comparisons_witness :
  let s := mkString 1 (Some [97; 0]) in
  let t := mkString 1 (Some [98; 0]) in
  String_eq s t = Done false /\ String_neq s t = Done false /\
  StringView_neq (StringView_of_string s) (StringView_of_string t) = Done false.
Proof.
  intros s t. assert (Hs : str_rep s [97]) by (split; [done|by exists []]).
  assert (Ht : str_rep t [98]) by (split; [done|by exists []]).
  destruct (string_comparisons s t [97] [98] Hs Ht) as (E1 & _ & _ & E2 & E3);
    [by repeat constructor|by repeat constructor|].
  split; [exact E1|]. split; [exact E2|]. by apply E3.
Defined.
