(* ===== verification/PathView.v ===== *)
(** Paths (path_view.cpp): a path is a view of an absolute part and one of a relative
    part, cut into elements at every ['/'] by searching from its start. It is related to
    the list of its elements. *)

From S2P Require Import Prelude Clib Strings.

(** [SPLITER]: ['/']. *)
Definition SPLITER : Z := 47.

Inductive PathType := Absolute | Relative | RelativeRecursive.

#[export] Instance PathType_eq_dec : EqDecision PathType.
Proof. solve_decision. Defined.

Record PathView := mkPath {
  m_type : PathType;
  m_absolute_path : StringView;
  m_relative_path : StringView;
  m_absolute_path_count : Z;
  m_relative_path_count : Z
}.

Definition is_absolute (t : PathType) : bool := bool_decide (t = Absolute).

(** The view of the literal [""]. *)
Definition empty_view : StringView := mkView 0 [0] 0.

Definition PathView_is_valid (path : StringView) : exec bool :=
  if sv_size path =? 0 then Done false
  else if sv_size path =? 1 then Done true
  else
    c ← StringView_at path (sv_size path - 1);
    Done (negb (c =? SPLITER)).

Definition PathView_get_type (path : StringView) : exec PathType :=
  valid ← PathView_is_valid path;
  _ ← ASSERT valid;
  c ← StringView_at path 0;
  if c =? SPLITER then Done Absolute
  else
    dots ← StringView_find_cstr path [46; 46; 0] 0 0;
    if negb (dots =? END) then Done RelativeRecursive else Done Relative.

(** Every turn finds another ['/']. *)
Definition count_elements (path : StringView) : exec Z :=
  c ← StringView_at path 0;
  if (c =? SPLITER) && (sv_size path =? 1) then Done 0
  else
    count ← while (S (Z.to_nat (sv_size path)))
      (fun '(last_found, count) =>
         r ← StringView_find_char path SPLITER (u32 last_found);
         let last_found := s32 r in
         if negb (last_found =? s32 NOT_FOUND) && truthy (last_found + 1)
         then Done (inl (last_found + 1, count + 1))
         else Done (inr count))
      (if c =? SPLITER then 1 else 0, 0);
    Done (u32 (count + 1)).

(** [while (cur--) pos = path.find(SPLITER, pos) + 1;] for a count that is not negative. *)
Definition skip_elements (path : StringView) (cur pos : Z) : exec Z :=
  for_ (Z.to_nat cur) 0
    (fun _ pos => r ← StringView_find_char path SPLITER (u32 pos); Done (s32 (u32 (r + 1)))) pos.

Definition get_element_from_full_path (path : StringView) (index : Z) : exec StringView :=
  c ← StringView_at path 0;
  pos ← skip_elements path (s32 index) (if c =? SPLITER then 1 else 0);
  next_splitter ← StringView_find_char path SPLITER (u32 pos);
  let len := if next_splitter =? END then u32 (sv_size path - pos) else u32 (next_splitter - pos) in
  StringView_substr path (u32 pos) len.

Definition PathView_of_view (path : StringView) : exec PathView :=
  type ← PathView_get_type path;
  let absolute_path := if is_absolute type then path else empty_view in
  let relative_path := if is_absolute type then empty_view else path in
  absolute_count ← (if is_absolute type then count_elements absolute_path else Done 0);
  relative_count ← (if is_absolute type then Done 0 else count_elements relative_path);
  Done (mkPath type absolute_path relative_path absolute_count relative_count).

Definition PathView_of_string (path : String) : exec PathView :=
  PathView_of_view (StringView_of_string path).

Definition PathView_of_cstr (path : list Z) (off : Z) : exec PathView :=
  v ← StringView_of_cstr path off; PathView_of_view v.

Definition PathView_of_views (working_dir relative_path : StringView) : exec PathView :=
  absolute_count ← count_elements working_dir;
  relative_count ← count_elements relative_path;
  type ← PathView_get_type working_dir;
  _ ← ASSERT (is_absolute type);
  type ← PathView_get_type relative_path;
  _ ← ASSERT (negb (is_absolute type));
  Done (mkPath Absolute working_dir relative_path absolute_count relative_count).

Definition PathView_set_absolute_path (p path : PathView) : exec PathView :=
  _ ← ASSERT (negb (is_absolute (m_type p)));
  _ ← ASSERT (is_absolute (m_type path));
  _ ← ASSERT (0 <? m_absolute_path_count path);
  _ ← ASSERT (m_relative_path_count path =? 0);
  Done (mkPath (m_type p) (m_absolute_path path) (m_relative_path p)
          (m_absolute_path_count path) (m_relative_path_count p)).

Definition PathView_count (p : PathView) : Z :=
  u32 (m_relative_path_count p + m_absolute_path_count p).

(** The checks of an index, and a negative one counted from the end. *)
Definition check_index (p : PathView) (index : Z) : bool :=
  (index <? s32 (PathView_count p)) && (- s32 (PathView_count p) - 1 <? index).

Definition normal_index (p : PathView) (index : Z) : Z :=
  if index <? 0 then s32 (u32 (PathView_count p + index)) else index.

Definition PathView_index (p : PathView) (index : Z) : exec StringView :=
  _ ← ASSERT (check_index p index);
  let index := normal_index p index in
  if index <? s32 (m_absolute_path_count p)
  then get_element_from_full_path (m_absolute_path p) index
  else get_element_from_full_path (m_relative_path p) (u32 (index - m_absolute_path_count p)).

Definition sub_absolute_path (p : PathView) (start_index end_index : Z) : exec StringView :=
  if m_absolute_path_count p <=? start_index then Done empty_view
  else
    start_pos ← skip_elements (m_absolute_path p) (s32 start_index) 1;
    if end_index <? u32 (m_absolute_path_count p - 1) then
      end_pos ← skip_elements (m_absolute_path p) (s32 (u32 (end_index - start_index + 1))) start_pos;
      StringView_substr (m_absolute_path p) (u32 (start_pos - 1)) (u32 (end_pos - start_pos))
    else StringView_substr (m_absolute_path p) (u32 (start_pos - 1)) END.

(** The start is looked for in the absolute part. *)
Definition sub_relative_path (p : PathView) (start_index end_index : Z) : exec StringView :=
  if end_index <? m_absolute_path_count p then Done empty_view
  else
    let start_index := if start_index <? m_absolute_path_count p then 0
                       else u32 (start_index - m_absolute_path_count p) in
    let end_index := u32 (end_index - m_absolute_path_count p) in
    start_pos ← skip_elements (m_absolute_path p) (s32 start_index) 0;
    if end_index <? u32 (m_relative_path_count p - 1) then
      end_pos ← skip_elements (m_relative_path p) (s32 (u32 (end_index - start_index + 1))) start_pos;
      StringView_substr (m_relative_path p) (u32 start_pos) (u32 (u32 (end_pos - start_pos) - 1))
    else StringView_substr (m_relative_path p) (u32 start_pos) END.

Definition PathView_sub_path (p : PathView) (start_index end_index : Z) : exec PathView :=
  _ ← ASSERT (check_index p start_index);
  _ ← ASSERT (check_index p end_index);
  let start_index := normal_index p start_index in
  let end_index := normal_index p end_index in
  _ ← ASSERT (start_index <? end_index);
  new_absolute_path ← sub_absolute_path p (u32 start_index) (u32 end_index);
  new_relative_path ← sub_relative_path p (u32 start_index) (u32 end_index);
  no_absolute ← StringView_eq_cstr new_absolute_path [0] 0;
  if no_absolute : bool then PathView_of_view new_relative_path
  else
    no_relative ← StringView_eq_cstr new_relative_path [0] 0;
    if no_relative : bool then PathView_of_view new_absolute_path
    else PathView_of_views new_absolute_path new_relative_path.

Definition PathView_full_path (p : PathView) : exec String :=
  full_path_str ← String_of_view (m_absolute_path p);
  if truthy (m_relative_path_count p) then
    full_path_str ← String_append_cstr full_path_str [47; 0] 0;
    relative ← String_of_view (m_relative_path p);
    String_append full_path_str relative
  else Done full_path_str.

(** * Elements *)

(** The pieces between the splitters, in order; two splitters in a row enclose an empty
    one. *)
Fixpoint split (cs : list Z) : list (list Z) :=
  match cs with
  | [] => [[]]
  | c :: cs =>
      if c =? SPLITER then [] :: split cs
      else match split cs with w :: ws => (c :: w) :: ws | [] => [[c]] end
  end.

Definition lead (cs : list Z) : list Z := if bool_decide (head cs = Some SPLITER) then [SPLITER] else [].

(** The elements of a path: a leading splitter is not an element, and "/" has none. *)
Definition elements (cs : list Z) : list (list Z) :=
  if bool_decide (cs = [SPLITER]) then [] else split (drop (length (lead cs)) cs).

(** Elements each followed, or each preceded, by a splitter. *)
Definition closed (ws : list (list Z)) : list Z := concat ((fun w => w ++ [SPLITER]) <$> ws).
Definition opened (ws : list (list Z)) : list Z := concat ((fun w => SPLITER :: w) <$> ws).

Definition plain (w : list Z) : Prop := SPLITER ∉ w.

Lemma closed_cons u us : closed (u :: us) = u ++ SPLITER :: closed us.
Proof. unfold closed. simpl. by rewrite <- app_assoc. Qed.

Lemma opened_cons v vs : opened (v :: vs) = SPLITER :: v ++ opened vs.
Proof. done. Qed.

Lemma split_plain cs : Forall plain (split cs).
Proof.
  induction cs as [|c cs IH]; simpl; [repeat constructor; apply not_elem_of_nil|].
  case_test.
  - constructor; [apply not_elem_of_nil|done].
  - destruct (split cs) as [|w ws]; constructor; try done.
    + apply not_elem_of_cons. split; [done|apply not_elem_of_nil].
    + apply Forall_cons in IH as [Hw _]. by apply not_elem_of_cons.
    + by apply Forall_cons in IH as [_ Hws].
Qed.

Lemma split_opened cs : exists w ws, split cs = w :: ws /\ cs = w ++ opened ws.
Proof.
  induction cs as [|c cs (w & ws & Hs & E)]; simpl; [by exists [], []|].
  rewrite Hs. destruct (Z.eqb_spec c SPLITER) as [->|Hne].
  - exists [], (w :: ws). split; [done|].
    change (opened (w :: ws)) with (SPLITER :: w ++ opened ws). simpl. by rewrite <- E.
  - exists (c :: w), ws. split; [done|]. simpl. by rewrite <- E.
Qed.

Lemma closed_snoc us w : closed (us ++ [w]) = closed us ++ w ++ [SPLITER].
Proof. unfold closed. rewrite fmap_app, concat_app. simpl. by rewrite app_nil_r. Qed.

Lemma closed_app us vs : closed (us ++ vs) = closed us ++ closed vs.
Proof. unfold closed. by rewrite fmap_app, concat_app. Qed.

Lemma closed_opened w ws : closed (w :: ws) = w ++ opened ws ++ [SPLITER].
Proof.
  revert w. induction ws as [|v ws IH]; intros w.
  - unfold closed, opened. simpl. by rewrite app_nil_r.
  - rewrite closed_cons, IH, opened_cons. cbn [app]. by rewrite <- app_assoc.
Qed.

(** Around any element of the list. *)
Lemma split_at_element cs us w vs : split cs = us ++ w :: vs -> cs = closed us ++ w ++ opened vs.
Proof.
  destruct (split_opened cs) as (w0 & ws & Hs & E). rewrite Hs. intros Hw. rewrite E. clear E Hs.
  revert w0 ws Hw. induction us as [|u us IH]; intros w0 ws Hw; simpl in Hw; injection Hw as -> ->; [done|].
  destruct us as [|u' us']; cbn [app].
  - rewrite closed_cons, opened_cons. by rewrite <- app_assoc.
  - rewrite closed_cons, opened_cons, <- !app_assoc. cbn [app]. do 2 f_equal. by apply (IH u').
Qed.

Lemma split_pieces w ws : Forall plain (w :: ws) -> split (w ++ opened ws) = w :: ws.
Proof.
  revert w. induction ws as [|v ws IH]; intros w Hp.
  - unfold opened. simpl. rewrite app_nil_r. apply Forall_cons in Hp as [Hw _].
    induction w as [|c w IHw]; [done|]. apply not_elem_of_cons in Hw as [Hc Hw]. simpl.
    rewrite (proj2 (Z.eqb_neq _ _)) by done. by rewrite (IHw Hw).
  - apply Forall_cons in Hp as [Hw Hvs]. change (opened (v :: ws)) with (SPLITER :: v ++ opened ws).
    induction w as [|c w IHw]; simpl.
    + by rewrite IH.
    + apply not_elem_of_cons in Hw as [Hc Hw]. rewrite (proj2 (Z.eqb_neq _ _)) by done.
      by rewrite (IHw Hw).
Qed.

(** * Finding splitters *)

Lemma occurs_one (cs : list Z) c i : occurs_at cs [c] i -> 0 <= i /\ cs !! Z.to_nat i = Some c.
Proof.
  intros (a & b & -> & <-). split; [apply alen_nonneg|]. unfold alen. rewrite Nat2Z.id. by apply list_lookup_middle.
Qed.

(** The first [c] from the end of [a] on, when [w] has none. *)
Lemma find_separator v (c : Z) (a w rest : list Z) :
  view_rep v (a ++ w ++ rest) -> c <> 0 -> c ∉ w -> alen (a ++ w ++ rest) < 2 ^ 31 -> (rest = [] \/ head rest = Some c) ->
  StringView_find_char v c (u32 (alen a)) = Done (match rest with [] => NOT_FOUND | _ => alen a + alen w end).
Proof.
  intros Hv Hc Hw Hb Hrest. rewrite !alen_app in Hb. pose proof (alen_nonneg a). pose proof (alen_nonneg w).
  pose proof (alen_nonneg rest).
  destruct (StringView_find_char_spec v (a ++ w ++ rest) c (alen a)) as (r & E & Hr); [done|done|rewrite !alen_app; lia|].
  rewrite u32_small by lia. rewrite E. f_equal.
  assert (Hplain : forall i, alen a <= i < alen a + alen w -> ~ occurs_at (a ++ w ++ rest) [c] i).
  { intros i Hi Ho. apply occurs_one in Ho as [_ Ho]. apply Hw.
    rewrite lookup_app_r in Ho by (unfold alen in *; lia).
    rewrite lookup_app_l in Ho by (unfold alen in *; lia). by apply list_elem_of_lookup_2 in Ho. }
  destruct Hrest as [->|Hrest].
  - destruct Hr as [[-> _]|(Hr & Ho & _)]; [done|]. exfalso. apply (Hplain r); [|done].
    apply occurs_at_bound in Ho. rewrite !alen_app, alen_cons, !(@alen_nil Z) in Ho. lia.
  - destruct rest as [|c' rest]; [done|]. injection Hrest as ->.
    assert (Hat : occurs_at (a ++ w ++ c :: rest) [c] (alen a + alen w)).
    { exists (a ++ w), rest. rewrite alen_app. split; [|done]. by rewrite <- app_assoc. }
    destruct Hr as [[-> Hnone]|(Hr & Ho & Hnone)]; [by destruct (Hnone (alen a + alen w)); [lia|]|].
    destruct (Z.lt_trichotomy r (alen a + alen w)) as [Hlt|[->|Hgt]]; [|done|].
    + by destruct (Hplain r); [lia|].
    + by destruct (Hnone (alen a + alen w)); [lia|].
Qed.

Lemma find_splitter v (a w : list Z) vs :
  view_rep v (a ++ w ++ opened vs) -> plain w -> alen (a ++ w ++ opened vs) < 2 ^ 31 ->
  StringView_find_char v SPLITER (u32 (alen a))
  = Done (match vs with [] => NOT_FOUND | _ => alen a + alen w end).
Proof.
  intros Hv Hw Hb. rewrite (find_separator v SPLITER a w (opened vs)); [by destruct vs|done|done|done|done|].
  destruct vs; [by left|by right].
Qed.

(** Skipping elements goes to the start of a later one. *)
Lemma skip_elements_spec v (a : list Z) us w vs :
  view_rep v (a ++ closed us ++ w ++ opened vs) -> Forall plain us ->
  alen (a ++ closed us ++ w ++ opened vs) < 2 ^ 31 ->
  skip_elements v (alen us) (alen a) = Done (alen (a ++ closed us)).
Proof.
  unfold skip_elements. replace (Z.to_nat (alen us)) with (length us) by (unfold alen; lia).
  generalize 0 at 1. revert a. induction us as [|u us IH]; intros a i Hv Hp Hb.
  { unfold closed. simpl. by rewrite app_nil_r. }
  apply Forall_cons in Hp as [Hu Hus]. rewrite closed_cons in *.
  destruct (split_opened (closed us ++ w ++ opened vs)) as (x & xs & _ & E).
  assert (Hsplit : (u ++ SPLITER :: closed us) ++ w ++ opened vs = u ++ opened (x :: xs)).
  { rewrite <- app_assoc, opened_cons. cbn [app]. by rewrite E. }
  rewrite Hsplit in Hv, Hb.
  cbn [length for_]. rewrite (find_splitter v a u (x :: xs)) by done. cbn [mbind exec_bind].
  rewrite <- Hsplit in Hv, Hb. rewrite !alen_app, alen_cons in Hb.
  pose proof (alen_nonneg a). pose proof (alen_nonneg u). pose proof (alen_nonneg (closed us)).
  pose proof (alen_nonneg w). pose proof (alen_nonneg (opened vs)).
  rewrite u32_small, s32_small by lia.
  replace (alen a + alen u + 1) with (alen (a ++ u ++ [SPLITER]))
    by (rewrite !alen_app; change (alen [SPLITER]) with 1; lia).
  assert (Hre : (a ++ u ++ [SPLITER]) ++ closed us ++ w ++ opened vs = a ++ (u ++ SPLITER :: closed us) ++ w ++ opened vs)
    by by rewrite <- !app_assoc.
  rewrite (IH (a ++ u ++ [SPLITER])); [by rewrite <- !app_assoc|by rewrite Hre|done|].
  rewrite !alen_app. change (alen [SPLITER]) with 1. lia.
Qed.

(** * Views of parts of a path *)

(** A view of the characters [cs] of a storage that goes on with [next]. *)
Definition shows_before (v : StringView) (cs next : list Z) : Prop :=
  alen cs + 1 < 2 ^ 32 /\ exists p r, v = mkView (alen cs) (p ++ cs ++ next ++ r) (alen p).

Lemma shows_before_rep v cs next : shows_before v cs next -> view_rep v cs.
Proof. intros (Hb & p & r & ->). split; [done|]. by eexists _, _. Qed.

Lemma StringView_substr_spec v (a m b : list Z) :
  view_rep v (a ++ m ++ b) ->
  exists v', StringView_substr v (alen a) (alen m) = Done v' /\ shows_before v' m b.
Proof.
  intros (Hb & p & r & ->). rewrite !alen_app in Hb. unfold StringView_substr. cbn [sv_size sv_data sv_off].
  pose proof (alen_nonneg a). pose proof (alen_nonneg m). pose proof (alen_nonneg b).
  rewrite !(proj2 (Z.eqb_neq _ END)) by (unfold END; lia).
  rewrite u32_small by lia. rewrite bind_ASSERT by (apply Z.leb_le; rewrite !alen_app; lia).
  unfold StringView_of_cstr_len. rewrite !(proj2 (Z.eqb_neq _ END)) by (unfold END; lia).
  cbn [mbind exec_bind]. eexists; split; [done|]. split; [lia|]. exists (p ++ a), r.
  by rewrite alen_app, <- !app_assoc.
Qed.

(** Up to the end. *)
Lemma StringView_substr_END v (a m : list Z) :
  view_rep v (a ++ m) -> exists v', StringView_substr v (alen a) END = Done v' /\ view_rep v' m.
Proof.
  intros Hv. pose proof Hv as (Hb & p & r & E). rewrite alen_app in Hb.
  pose proof (alen_nonneg a). pose proof (alen_nonneg m).
  rewrite <- (app_nil_r m) in Hv. destruct (StringView_substr_spec v a m [] Hv) as (v' & Ev & Hv'%shows_before_rep).
  exists v'. split; [|done]. rewrite <- Ev. unfold StringView_substr. rewrite E. cbn [sv_size].
  rewrite !(proj2 (Z.eqb_neq _ END)) by (unfold END; lia). rewrite Z.eqb_refl, alen_app, u32_small by lia.
  rewrite (proj2 (Z.eqb_neq (alen m) END)) by (unfold END; lia).
  by replace (alen a + alen m - alen a) with (alen m) by lia.
Qed.

Lemma StringView_at_spec v (a b : list Z) c : view_rep v (a ++ c :: b) -> StringView_at v (alen a) = Done c.
Proof.
  intros (_ & p & r & ->). unfold StringView_at. simpl. rewrite <- alen_app.
  rewrite <- app_assoc, app_assoc. apply aget_middle.
Qed.

Lemma view_rep_size v cs : view_rep v cs -> sv_size v = alen cs.
Proof. by intros (_ & p & r & ->). Qed.

Lemma lead_drop cs : cs = lead cs ++ drop (length (lead cs)) cs.
Proof.
  unfold lead. destruct cs as [|c cs]; [done|]. case_bool_decide as H; [|done].
  simpl in *. by injection H as ->.
Qed.

Lemma lead_first v cs :
  view_rep v cs -> cs <> [] ->
  exists c, StringView_at v 0 = Done c /\ (if c =? SPLITER then 1 else 0) = alen (lead cs) /\
    (c =? SPLITER) && (sv_size v =? 1) = bool_decide (cs = [SPLITER]).
Proof.
  intros Hv Hne. destruct cs as [|c cs]; [done|]. exists c.
  split; [exact (StringView_at_spec v [] cs c Hv)|]. rewrite (view_rep_size v _ Hv), alen_cons.
  unfold lead. simpl. destruct (Z.eqb_spec c SPLITER) as [->|Hc].
  - split; [by rewrite bool_decide_eq_true_2|]. destruct cs as [|c' cs].
    + by rewrite bool_decide_eq_true_2.
    + rewrite bool_decide_eq_false_2 by done. rewrite alen_cons. pose proof (alen_nonneg cs).
      apply Z.eqb_neq. lia.
  - split; (rewrite bool_decide_eq_false_2; [done|congruence]).
Qed.

(** A path around one of its elements. *)
Lemma path_at_element cs us w vs :
  elements cs = us ++ w :: vs ->
  cs <> [SPLITER] /\ cs = lead cs ++ closed us ++ w ++ opened vs /\ Forall plain us /\ plain w.
Proof.
  unfold elements. intros E. case_bool_decide as Hs; [by destruct us|].
  pose proof (split_plain (drop (length (lead cs)) cs)) as Hp. rewrite E in Hp.
  apply Forall_app in Hp as [Hus Hw]. apply Forall_cons in Hw as [Hw _].
  apply split_at_element in E. split; [done|]. split; [|done]. rewrite <- E. apply lead_drop.
Qed.

Lemma opened_length vs : (length vs <= length (opened vs))%nat.
Proof. induction vs as [|v vs IH]; [done|]. rewrite opened_cons. simpl. rewrite length_app. lia. Qed.

Lemma count_elements_spec v cs :
  view_rep v cs -> cs <> [] -> alen cs < 2 ^ 31 -> count_elements v = Done (alen (elements cs)).
Proof.
  intros Hv Hne Hb. unfold count_elements.
  destruct (lead_first v cs Hv Hne) as (c & -> & Hpos & Hroot). cbn [mbind exec_bind].
  rewrite Hpos, Hroot. unfold elements. case_bool_decide as Hs; [done|].
  destruct (split_opened (drop (length (lead cs)) cs)) as (w & ws & Hw & E).
  pose proof (lead_drop cs) as Hcs. rewrite E in Hcs.
  assert (Hlen : alen ws <= alen cs).
  { pose proof (opened_length ws). rewrite Hcs, !alen_app. unfold alen. lia. }
  match goal with |- context [while ?f ?step ?st] =>
    destruct (while_inv (fun '(pos, count) => exists us x vs,
        split (drop (length (lead cs)) cs) = us ++ x :: vs /\ pos = alen (lead cs ++ closed us) /\ count = alen us)
      (fun count => count + 1 = alen (split (drop (length (lead cs)) cs)))
      (fun '(_, count) => Z.to_nat (alen (split (drop (length (lead cs)) cs)) - 1 - count)) step f st) as (r & -> & Hr) end.
  - exists [], w, ws. split; [done|]. split; [|done]. unfold closed. simpl. by rewrite app_nil_r.
  - rewrite Hw, alen_cons, (view_rep_size v cs Hv). pose proof (alen_nonneg ws). lia.
  - intros [pos count] (us & x & vs & Hx & -> & ->).
    pose proof (split_plain (drop (length (lead cs)) cs)) as Hp. rewrite Hx in Hp.
    apply Forall_app in Hp as [_ Hp]. apply Forall_cons in Hp as [Hpx _].
    pose proof (split_at_element _ _ _ _ Hx) as Hd. pose proof (lead_drop cs) as Hl. rewrite Hd, app_assoc in Hl.
    rewrite Hl in Hv. rewrite (find_splitter v _ x vs Hv Hpx) by by rewrite <- Hl.
    assert (Hn : alen (split (drop (length (lead cs)) cs)) = alen us + (alen vs + 1))
      by by rewrite Hx, alen_app, alen_cons.
    cbn [mbind exec_bind]. rewrite Hn. pose proof (alen_nonneg us). destruct vs as [|y vs].
    + right. eexists; split; [done|]. done.
    + left. rewrite Hl, opened_cons, (alen_app _ (x ++ _)), (alen_app x), alen_cons in Hb.
      pose proof (alen_nonneg (lead cs ++ closed us)). pose proof (alen_nonneg x).
      pose proof (alen_nonneg (y ++ opened vs)). rewrite s32_small by lia.
      change (s32 NOT_FOUND) with (-1). unfold truthy. rewrite !(proj2 (Z.eqb_neq _ _)) by lia. simpl.
      eexists; split; [done|]. pose proof (alen_nonneg vs). rewrite ?Hn, alen_cons. split; [|lia].
      exists (us ++ [x]), y, vs. rewrite Hx, <- app_assoc, closed_snoc, alen_snoc. split; [done|]. split; [|done].
      rewrite !alen_app. change (alen [SPLITER]) with 1. lia.
  - cbn [mbind exec_bind]. rewrite Hr, Hw, alen_cons. rewrite u32_small; [done|].
    pose proof (alen_nonneg ws). lia.
Qed.

Lemma get_element_spec v cs us w vs :
  view_rep v cs -> cs <> [] -> alen cs < 2 ^ 31 -> elements cs = us ++ w :: vs ->
  exists v', get_element_from_full_path v (alen us) = Done v' /\ shows_before v' w (opened vs).
Proof.
  intros Hv Hne Hb He. unfold get_element_from_full_path.
  destruct (lead_first v cs Hv Hne) as (c & -> & Hpos & _). cbn [mbind exec_bind]. rewrite Hpos.
  destruct (path_at_element cs us w vs He) as (_ & Hcs & Hus & Hw).
  set (l := lead cs) in *. rewrite Hcs in Hv, Hb.
  assert (Hk : 0 <= alen us < 2 ^ 31).
  { assert (alen us <= alen (closed us)).
    { clear. induction us as [|u us IH]; [done|]. rewrite closed_cons, alen_app, !alen_cons.
      pose proof (alen_nonneg u). lia. }
    rewrite !alen_app in Hb. pose proof (alen_nonneg l). pose proof (alen_nonneg w).
    pose proof (alen_nonneg (opened vs)). split; [apply alen_nonneg|lia]. }
  rewrite s32_small by lia. rewrite (skip_elements_spec v l us w vs) by done. cbn [mbind exec_bind].
  rewrite app_assoc in Hv, Hb. rewrite (find_splitter v _ w vs) by done. cbn [mbind exec_bind].
  pose proof (StringView_substr_spec v _ _ _ Hv) as Hsub. rewrite (view_rep_size v _ Hv).
  rewrite !(alen_app (l ++ _)) in *. rewrite (alen_app w) in *.
  pose proof (alen_nonneg (l ++ closed us)). pose proof (alen_nonneg w). pose proof (alen_nonneg (opened vs)).
  rewrite (u32_small (alen (l ++ closed us))) by lia. destruct vs as [|y vs].
  - rewrite Z.eqb_refl. change (alen (opened [])) with 0. rewrite u32_small by lia.
    replace (alen (l ++ closed us) + (alen w + 0) - alen (l ++ closed us)) with (alen w) by lia. done.
  - rewrite (proj2 (Z.eqb_neq _ END)) by (unfold END; lia). rewrite u32_small by lia.
    replace (alen (l ++ closed us) + alen w - alen (l ++ closed us)) with (alen w) by lia. done.
Qed.

(** * Paths *)

(** The elements of one of the two parts of a path; a part may be missing. *)
Definition parts (cs : list Z) : list (list Z) := if bool_decide (cs = []) then [] else elements cs.

Definition path_rep (p : PathView) (acs rcs : list Z) : Prop :=
  view_rep (m_absolute_path p) acs /\ view_rep (m_relative_path p) rcs /\
  alen acs + alen rcs + 2 < 2 ^ 31 /\
  m_absolute_path_count p = alen (parts acs) /\ m_relative_path_count p = alen (parts rcs).

(** [is_valid]: not empty, and "/" or without a splitter at the end. *)
Definition valid_path (cs : list Z) : bool :=
  match cs with
  | [] => false
  | [_] => true
  | _ => bool_decide (last cs <> Some SPLITER)
  end.

Lemma empty_view_rep : view_rep empty_view [].
Proof. split; [done|]. by exists [], [0]. Qed.

Lemma is_valid_spec v cs : view_rep v cs -> PathView_is_valid v = Done (valid_path cs).
Proof.
  intros Hv. unfold PathView_is_valid. rewrite (view_rep_size v cs Hv).
  destruct cs as [|c cs _] using rev_ind; [done|]. rewrite alen_snoc.
  replace (alen cs + 1 - 1) with (alen cs) by lia. rewrite (StringView_at_spec v cs [] c Hv).
  pose proof (alen_nonneg cs). rewrite (proj2 (Z.eqb_neq _ 0)) by lia. unfold valid_path.
  destruct cs as [|c0 cs]; [done|]. rewrite alen_cons in *. pose proof (alen_nonneg cs).
  rewrite (proj2 (Z.eqb_neq _ 1)) by lia. cbn [mbind exec_bind app].
  destruct (cs ++ [c]) as [|c1 cs'] eqn:E; [by destruct cs|].
  change (c0 :: c1 :: cs') with ([c0] ++ (c1 :: cs')). rewrite <- E, app_assoc, last_snoc.
  f_equal. destruct (Z.eqb_spec c SPLITER) as [->|Hc]; symmetry.
  - apply bool_decide_eq_false_2. naive_solver.
  - apply bool_decide_eq_true_2. congruence.
Qed.

(** What kind of path the characters are. *)
Definition has_type (cs : list Z) (t : PathType) : Prop :=
  match t with
  | Absolute => head cs = Some SPLITER
  | RelativeRecursive => head cs <> Some SPLITER /\ exists i, occurs_at cs [46; 46] i
  | Relative => head cs <> Some SPLITER /\ forall i, ~ occurs_at cs [46; 46] i
  end.

Lemma get_type_spec v cs :
  view_rep v cs ->
  if valid_path cs then exists t, PathView_get_type v = Done t /\ has_type cs t
  else PathView_get_type v = Panic.
Proof.
  intros Hv. unfold PathView_get_type. rewrite (is_valid_spec v cs Hv).
  destruct (valid_path cs) eqn:Hval; [|done]. cbn [mbind exec_bind ASSERT].
  destruct cs as [|c cs]; [done|]. rewrite (StringView_at_spec v [] cs c Hv : StringView_at v 0 = _). cbn [mbind exec_bind].
  destruct (Z.eqb_spec c SPLITER) as [->|Hc]; [by exists Absolute|].
  destruct (StringView_find_cstr_spec v (c :: cs) [] [46; 46] [] 0 Hv) as (r & E & Hr);
    [by repeat constructor|pose proof (alen_nonneg (c :: cs)); lia| |].
  { rewrite !alen_cons, (@alen_nil Z). pose proof (alen_nonneg cs). lia. }
  rewrite (@alen_nil Z) in E. cbn [app] in E. rewrite E. cbn [mbind exec_bind].
  destruct Hr as [[-> Hnone]|(Hpos & Ho & _)].
  - rewrite Z.eqb_refl. exists Relative. split; [done|]. split; [simpl; congruence|].
    intros i Ho. apply (Hnone i); [|done]. apply occurs_at_bound in Ho. lia.
  - pose proof (occurs_at_bound _ _ _ Ho) as Hb. destruct Hv as (Hv & _).
    rewrite (proj2 (Z.eqb_neq r END)) by (unfold END; change (alen [46; 46]) with 2 in Hb; lia).
    exists RelativeRecursive. split; [done|]. split; [simpl; congruence|by exists r].
Qed.

Lemma has_type_absolute cs t : has_type cs t -> is_absolute t = bool_decide (head cs = Some SPLITER).
Proof.
  destruct t; simpl; unfold is_absolute.
  - intros H. by rewrite !bool_decide_eq_true_2.
  - intros [H _]. by rewrite !bool_decide_eq_false_2.
  - intros [H _]. by rewrite !bool_decide_eq_false_2.
Qed.

Lemma count_parts v cs :
  view_rep v cs -> valid_path cs = true -> alen cs < 2 ^ 31 -> count_elements v = Done (alen (parts cs)).
Proof.
  intros Hv Hval Hb. unfold parts. destruct cs as [|c cs]; [done|].
  rewrite bool_decide_eq_false_2 by done. by apply count_elements_spec.
Qed.

Lemma PathView_of_view_spec v cs :
  view_rep v cs -> valid_path cs = true -> alen cs + 2 < 2 ^ 31 ->
  exists p, PathView_of_view v = Done p /\ has_type cs (m_type p) /\
    if bool_decide (head cs = Some SPLITER) then path_rep p cs [] else path_rep p [] cs.
Proof.
  intros Hv Hval Hb. unfold PathView_of_view. pose proof (get_type_spec v cs Hv) as Ht. rewrite Hval in Ht.
  destruct Ht as (t & -> & Ht). cbn [mbind exec_bind]. rewrite (has_type_absolute cs t Ht).
  pose proof empty_view_rep. case_bool_decide; rewrite (count_parts v cs) by (done || lia);
    (eexists; split; [done|]; split; [done|]; split; [done|]; split; [done|]; split; [|done]);
    rewrite (@alen_nil Z); lia.
Qed.

Lemma PathView_of_views_spec v w acs rcs :
  view_rep v acs -> view_rep w rcs -> valid_path acs = true -> valid_path rcs = true ->
  head acs = Some SPLITER -> head rcs <> Some SPLITER -> alen acs + alen rcs + 2 < 2 ^ 31 ->
  exists p, PathView_of_views v w = Done p /\ m_type p = Absolute /\ path_rep p acs rcs.
Proof.
  intros Hv Hw Hva Hvr Ha Hr Hb. unfold PathView_of_views. pose proof (alen_nonneg acs). pose proof (alen_nonneg rcs).
  rewrite (count_parts v acs), (count_parts w rcs) by (done || lia). cbn [mbind exec_bind].
  pose proof (get_type_spec v acs Hv) as Ht. rewrite Hva in Ht. destruct Ht as (t & -> & Ht).
  pose proof (get_type_spec w rcs Hw) as Ht'. rewrite Hvr in Ht'. destruct Ht' as (t' & -> & Ht').
  cbn [mbind exec_bind]. rewrite (has_type_absolute acs t Ht), (has_type_absolute rcs t' Ht').
  rewrite (bool_decide_eq_true_2 _ Ha), (bool_decide_eq_false_2 _ Hr). cbn [negb ASSERT mbind exec_bind].
  by eexists.
Qed.

(** * Indexing *)

Lemma alen_closed ws : alen (closed ws) = alen (opened ws).
Proof.
  induction ws as [|w ws IH]; [done|].
  rewrite closed_cons, opened_cons, alen_app, !alen_cons, alen_app, IH. lia.
Qed.

Lemma parts_bound cs : alen (parts cs) <= alen cs + 1.
Proof.
  pose proof (alen_nonneg cs). unfold parts, elements. repeat case_bool_decide; rewrite ?(@alen_nil (list Z)); try lia.
  destruct (split_opened (drop (length (lead cs)) cs)) as (w & ws & -> & E). rewrite alen_cons.
  pose proof (opened_length ws). rewrite (lead_drop cs), E. unfold alen. rewrite !length_app. lia.
Qed.

Section indexing.
Context (p : PathView) (acs rcs : list Z) (Hp : path_rep p acs rcs).
#[local] Abbreviation ws := (parts acs ++ parts rcs).

Lemma PathView_count_spec : PathView_count p = alen ws /\ alen ws < 2 ^ 31.
Proof.
  destruct Hp as (_ & _ & Hb & Ha & Hr). unfold PathView_count. rewrite Ha, Hr, alen_app.
  pose proof (parts_bound acs). pose proof (parts_bound rcs).
  pose proof (alen_nonneg (parts acs)). pose proof (alen_nonneg (parts rcs)).
  rewrite u32_small; lia.
Qed.

Lemma check_index_spec k : check_index p k = (- alen ws <=? k) && (k <? alen ws).
Proof.
  destruct PathView_count_spec as [E Hb]. unfold check_index. rewrite E. pose proof (alen_nonneg ws).
  rewrite s32_small by lia. rewrite andb_comm. f_equal. repeat case_test; lia.
Qed.

Lemma normal_index_spec k :
  - alen ws <= k < alen ws -> normal_index p k = (if k <? 0 then alen ws + k else k).
Proof.
  destruct PathView_count_spec as [E Hb]. intros Hk. unfold normal_index. rewrite E. case_test; [|done].
  rewrite u32_small, s32_small; lia.
Qed.

End indexing.

Lemma get_element_lookup v cs w k :
  view_rep v cs -> alen cs < 2 ^ 31 -> 0 <= k -> parts cs !! Z.to_nat k = Some w ->
  exists v', get_element_from_full_path v k = Done v' /\ view_rep v' w.
Proof.
  intros Hv Hb Hk Hw. unfold parts in Hw. case_bool_decide as Hne; [done|].
  pose proof (take_drop_middle _ _ _ Hw) as E.
  destruct (get_element_spec v cs (take (Z.to_nat k) (elements cs)) w (drop (S (Z.to_nat k)) (elements cs)))
    as (v' & Ev & Hv'%shows_before_rep); [done|done|done|by rewrite E|].
  apply lookup_lt_Some in Hw. exists v'. split; [|done]. rewrite <- Ev. f_equal.
  unfold alen. rewrite length_take. lia.
Qed.

Lemma PathView_of_view_storage v p : PathView_of_view v = Done p -> m_type p = Absolute -> sv_data (m_absolute_path p) = sv_data v.
Proof. unfold PathView_of_view. intros E. inv_done. cbn [m_type m_absolute_path]. by intros ->. Qed.

(** An element is a view of the storage of the path. *)
Lemma get_element_storage v k e : get_element_from_full_path v k = Done e -> sv_data e = sv_data v.
Proof.
  unfold get_element_from_full_path, StringView_substr, StringView_of_cstr_len. intros E. inv_done.
  by repeat case_match; inv_done.
Qed.

Lemma PathView_index_storage p acs k v :
  path_rep p acs [] -> PathView_index p k = Done v -> sv_data v = sv_data (m_absolute_path p).
Proof.
  intros Hp. unfold PathView_index. rewrite (check_index_spec p acs [] Hp). change (parts []) with (@nil (list Z)).
  rewrite app_nil_r. destruct (_ && _) eqn:Hk; [|done]. cbn [ASSERT mbind exec_bind]. to_prop.
  rewrite (normal_index_spec p acs [] Hp) by (change (parts []) with (@nil (list Z)); by rewrite app_nil_r).
  change (parts []) with (@nil (list Z)). rewrite app_nil_r. pose proof (parts_bound acs). pose proof (alen_nonneg acs).
  destruct Hp as (_ & _ & Hb & Ha & _). rewrite Ha. pose proof (alen_nonneg (@nil Z)). rewrite s32_small by lia.
  rewrite (proj2 (Z.ltb_lt _ _)) by (case_test; lia). apply get_element_storage.
Qed.

(** [operator[]] gives the elements, of both parts, from either end. *)
Lemma PathView_index_spec p acs rcs k :
  path_rep p acs rcs ->
  let n := alen (parts acs ++ parts rcs) in
  if (- n <=? k) && (k <? n) then
    exists v w, PathView_index p k = Done v /\ view_rep v w /\
      (parts acs ++ parts rcs) !! Z.to_nat (if k <? 0 then n + k else k) = Some w
  else PathView_index p k = Panic.
Proof.
  intros Hp n. unfold PathView_index. rewrite (check_index_spec p acs rcs Hp). fold n.
  destruct (_ && _) eqn:Hk; [|done]. cbn [ASSERT mbind exec_bind]. to_prop.
  rewrite (normal_index_spec p acs rcs Hp) by done. fold n. set (i := if k <? 0 then n + k else k).
  assert (Hi : 0 <= i < n) by (unfold i; case_test; lia).
  pose proof (parts_bound acs). pose proof (parts_bound rcs). pose proof (alen_nonneg (parts acs)).
  destruct Hp as (Hva & Hvr & Hb & Ha & Hr). rewrite Ha. pose proof (alen_nonneg acs). pose proof (alen_nonneg rcs).
  subst n. rewrite alen_app in Hi. rewrite s32_small by lia.
  destruct (lookup_lt_is_Some_2 (parts acs ++ parts rcs) (Z.to_nat i)) as [w Hw].
  { rewrite length_app. unfold alen in Hi. lia. }
  rewrite Hw. case_test.
  - rewrite lookup_app_l in Hw by (unfold alen in *; lia).
    destruct (get_element_lookup (m_absolute_path p) acs w i) as (v & E & Hv); [done|lia|lia|done|].
    by exists v, w.
  - rewrite lookup_app_r in Hw by (unfold alen in *; lia). rewrite u32_small by lia.
    destruct (get_element_lookup (m_relative_path p) rcs w (i - alen (parts acs))) as (v & E & Hv);
      [done|lia|lia| |by exists v, w].
    replace (Z.to_nat (i - alen (parts acs))) with (Z.to_nat i - length (parts acs))%nat
      by (unfold alen; lia). done.
Qed.

(** Reading a path. A valid path is absolute, relative or relative with ".." as its
    characters say, and an invalid one fails an assertion; a valid working directory and
    a valid relative path make one path. [count] is then the number of elements between
    the splitters, of the absolute part followed by the relative part, and [operator[]]
    gives exactly these elements, the negative indices from the end; any other index
    fails an assertion. *)
Theorem path_indexing (v w : StringView) (cs rcs : list Z)
    (Hv : view_rep v cs) (Hw : view_rep w rcs) (Hb : alen cs + alen rcs + 2 < 2 ^ 31) :
  (if valid_path cs then exists p, PathView_of_view v = Done p /\ has_type cs (m_type p)
   else PathView_of_view v = Panic) /\
  (valid_path cs = true -> valid_path rcs = true ->
   head cs = Some SPLITER -> head rcs <> Some SPLITER ->
   exists p, PathView_of_views v w = Done p /\
     let ws := elements cs ++ elements rcs in
     PathView_count p = alen ws /\
     forall k, if (- alen ws <=? k) && (k <? alen ws)
       then exists e x, PathView_index p k = Done e /\ view_rep e x /\
              ws !! Z.to_nat (if k <? 0 then alen ws + k else k) = Some x
       else PathView_index p k = Panic).
Proof.
  split.
  - destruct (valid_path cs) eqn:Hval.
    + pose proof (alen_nonneg rcs). destruct (PathView_of_view_spec v cs Hv Hval) as (p & E & Ht & _); [lia|].
      by exists p.
    + pose proof (get_type_spec v cs Hv) as Ht. rewrite Hval in Ht. unfold PathView_of_view. by rewrite Ht.
  - intros Hva Hvr Ha Hr.
    destruct (PathView_of_views_spec v w cs rcs Hv Hw Hva Hvr Ha Hr Hb) as (p & E & _ & Hp).
    exists p. split; [done|]. intros ws.
    assert (Hws : ws = parts cs ++ parts rcs).
    { unfold ws, parts. destruct cs, rcs; (discriminate Hva || discriminate Hvr || done). }
    clearbody ws. subst ws. split; [by apply PathView_count_spec|].
    intros k. apply (PathView_index_spec p cs rcs k Hp).
Qed.

(** "/a" and "b" are the path with the elements "a" and "b". *)
Lemma path_indexing_witness :
  exists p, PathView_of_views (mkView 2 [47; 97; 0] 0) (mkView 1 [98; 0] 0) = Done p /\
    PathView_count p = 2 /\ PathView_index p 2 = Panic /\
    exists e x, PathView_index p (-1) = Done e /\ view_rep e x /\ [[97]; [98]] !! 1%nat = Some x.
Proof.
  assert (Hv : view_rep (mkView 2 [47; 97; 0] 0) [47; 97]) by (split; [done|by exists [], [0]]).
  assert (Hw : view_rep (mkView 1 [98; 0] 0) [98]) by (split; [done|by exists [], [0]]).
  destruct (path_indexing _ _ _ _ Hv Hw) as [_ H]; [vm_compute; done|].
  destruct H as (p & E & Hc & Hk); [done|done|done|vm_compute; congruence|].
  exists p. split; [exact E|]. split; [exact Hc|]. split; [exact (Hk 2)|exact (Hk (-1))].
Defined.

(** * Parts of an absolute path

    The absolute path with the elements [ws] is [opened ws]. *)

Lemma cons_closed us : SPLITER :: closed us = opened us ++ [SPLITER].
Proof.
  induction us as [|u us IH]; [done|]. rewrite closed_cons, opened_cons, IH. cbn [app].
  by rewrite <- app_assoc.
Qed.

Lemma opened_app us vs : opened (us ++ vs) = opened us ++ opened vs.
Proof. unfold opened. by rewrite fmap_app, concat_app. Qed.

Lemma opened_recut us w vs : opened (us ++ w :: vs) = [SPLITER] ++ closed us ++ w ++ opened vs.
Proof.
  rewrite opened_app, opened_cons. cbn [app].
  by rewrite (app_comm_cons (closed us)), cons_closed, <- app_assoc.
Qed.

Definition proper_element (w : list Z) : Prop := plain w /\ w <> [].

Lemma elements_opened ws : Forall proper_element ws -> ws <> [] -> elements (opened ws) = ws.
Proof.
  intros Hws Hne. destruct ws as [|w ws]; [done|]. rewrite opened_cons. unfold elements, lead. simpl.
  rewrite bool_decide_eq_false_2.
  - apply split_pieces. eapply Forall_impl; [done|]. by intros x [].
  - apply Forall_cons in Hws as [[_ Hw] _]. destruct w; naive_solver.
Qed.

Lemma valid_opened ws : Forall proper_element ws -> ws <> [] -> valid_path (opened ws) = true.
Proof.
  intros Hws Hne. destruct ws as [|w ws _] using rev_ind; [done|].
  apply Forall_app in Hws as [_ Hw]. apply Forall_cons in Hw as [[Hw Hnw] _].
  destruct w as [|c w _] using rev_ind; [done|].
  rewrite opened_app, opened_cons. change (opened []) with (@nil Z). rewrite app_nil_r.
  replace (opened ws ++ SPLITER :: w ++ [c]) with ((opened ws ++ SPLITER :: w) ++ [c]) by by rewrite <- app_assoc.
  assert (Hc : c <> SPLITER) by (intros ->; apply Hw, elem_of_app; right; by apply list_elem_of_singleton).
  destruct (opened ws ++ SPLITER :: w) as [|c0 l] eqn:E; [by destruct (opened ws)|].
  unfold valid_path. destruct (((c0 :: l) ++ [c])) as [|x [|y r]] eqn:E'; [done|done|].
  rewrite <- E'. apply bool_decide_eq_true_2. rewrite last_snoc. congruence.
Qed.

(** The element before the last one of an absolute path: it is followed by the splitter. *)
Lemma PathView_parent_element p us u w :
  Forall proper_element (us ++ [u; w]) -> path_rep p (opened (us ++ [u; w])) [] ->
  exists v, PathView_index p (-2) = Done v /\ shows_before v u (SPLITER :: w).
Proof.
  intros Hws Hp. set (ws := us ++ [u; w]) in *. assert (Hne : ws <> []) by (unfold ws; by destruct us).
  assert (Hels : elements (opened ws) = ws) by by apply elements_opened.
  assert (Hpa : parts (opened ws) = ws).
  { unfold parts. rewrite bool_decide_eq_false_2; [done|]. by destruct ws. }
  assert (Hl : alen ws = alen us + 2) by (unfold ws; rewrite alen_app; done). pose proof (alen_nonneg us).
  pose proof (check_index_spec p _ _ Hp (-2)) as Hck. pose proof (normal_index_spec p _ _ Hp (-2)) as Hno.
  destruct (PathView_count_spec p _ _ Hp) as [_ Hn].
  change (parts []) with (@nil (list Z)) in *. rewrite app_nil_r, Hpa in *. unfold PathView_index.
  rewrite bind_ASSERT by (rewrite Hck; apply andb_true_iff; split; [apply Z.leb_le|apply Z.ltb_lt]; lia).
  rewrite Hno by lia. change (-2 <? 0) with true. cbv iota. destruct Hp as (Hva & _ & Hb & -> & _). rewrite Hpa.
  rewrite s32_small, (proj2 (Z.ltb_lt _ _)) by lia. replace (alen ws + -2) with (alen us) by lia.
  rewrite (@alen_nil Z) in Hb.
  destruct (get_element_spec (m_absolute_path p) (opened ws) us u [w]) as (v & E & Hv);
    [done|by destruct ws|lia|done|]. exists v. split; [done|].
  unfold opened in Hv. simpl in Hv. by rewrite app_nil_r in Hv.
Qed.

Lemma is_empty_spec v cs : view_rep v cs -> StringView_eq_cstr v [0] 0 = Done (bool_decide (cs = [])).
Proof.
  intros Hv. unfold StringView_eq_cstr. rewrite (view_rep_size v cs Hv).
  change (strlen [0] 0) with (Done 0). cbn [mbind exec_bind].
  destruct cs as [|c cs]; [done|]. rewrite alen_cons. pose proof (alen_nonneg cs).
  rewrite (proj2 (Z.eqb_neq _ 0)) by lia. by rewrite bool_decide_eq_false_2.
Qed.

(** The part of an absolute path between two elements. *)
Lemma sub_absolute_path_spec p us ms vs :
  Forall proper_element (us ++ ms ++ vs) -> ms <> [] -> path_rep p (opened (us ++ ms ++ vs)) [] ->
  exists v, sub_absolute_path p (alen us) (alen us + alen ms - 1) = Done v /\ view_rep v (opened ms).
Proof.
  intros Hws Hms (Hv & _ & Hb & Hc & _). rewrite (@alen_nil Z) in Hb.
  assert (Hne : us ++ ms ++ vs <> []) by (destruct us, ms; done).
  assert (Hpl : Forall plain us /\ Forall plain ms).
  { apply Forall_app in Hws as [H1 H2]. apply Forall_app in H2 as [H2 _].
    split; eapply Forall_impl; [exact H1|by intros x []|exact H2|by intros x []]. }
  assert (Hcount : m_absolute_path_count p = alen us + alen ms + alen vs).
  { rewrite Hc. unfold parts. rewrite bool_decide_eq_false_2.
    - rewrite elements_opened by done. rewrite !alen_app. lia.
    - destruct us, ms; done. }
  pose proof (alen_nonneg us). pose proof (alen_nonneg vs).
  assert (0 < alen ms) by (destruct ms; [done|]; rewrite alen_cons; pose proof (alen_nonneg ms); lia).
  assert (Hn : alen us + alen ms + alen vs < 2 ^ 31).
  { rewrite <- Hcount, Hc. pose proof (parts_bound (opened (us ++ ms ++ vs))). lia. }
  unfold sub_absolute_path. rewrite Hcount, (proj2 (Z.leb_gt _ _)) by lia. rewrite (s32_small (alen us)) by lia.
  destruct ms as [|m ms'] eqn:Ems; [done|]. rewrite <- Ems in Hpl.
  rewrite <- app_comm_cons, opened_recut in Hv, Hb.
  pose proof (skip_elements_spec _ [SPLITER] us m (ms' ++ vs) Hv (proj1 Hpl) ltac:(lia)) as Esk.
  change (alen [SPLITER]) with 1 in Esk. rewrite Esk. clear Esk.
  cbn [mbind exec_bind]. rewrite <- opened_recut, app_comm_cons, <- Ems in *.
  assert (Hs : alen ([SPLITER] ++ closed us) = alen (opened us) + 1)
    by (rewrite alen_app, alen_closed; change (alen [SPLITER]) with 1; lia).
  pose proof (alen_nonneg (opened us)). pose proof (alen_nonneg (opened ms)).
  pose proof Hb as Hb'. rewrite !opened_app, !alen_app in Hb'. pose proof (alen_nonneg (opened vs)).
  rewrite (u32_small (alen ([SPLITER] ++ closed us) - 1)), Hs by lia.
  replace (alen (opened us) + 1 - 1) with (alen (opened us)) by lia.
  rewrite (u32_small (alen us + alen ms + alen vs - 1)) by lia.
  destruct vs as [|y vs].
  - rewrite app_nil_r, (@alen_nil (list Z)), (proj2 (Z.ltb_ge _ _)) in * by lia.
    apply StringView_substr_END. by rewrite <- opened_app.
  - rewrite alen_cons in *. pose proof (alen_nonneg vs). rewrite (proj2 (Z.ltb_lt _ _)) by lia.
    replace (alen us + alen ms - 1 - alen us + 1) with (alen ms) by lia. rewrite u32_small, s32_small by lia.
    rewrite app_assoc, opened_recut, closed_app, <- !app_assoc, app_assoc in Hv, Hb. rewrite <- Hs.
    rewrite (skip_elements_spec _ _ ms y vs Hv) by (apply Hpl || lia). cbn [mbind exec_bind].
    replace (alen (([SPLITER] ++ closed us) ++ closed ms) - alen ([SPLITER] ++ closed us))
      with (alen (opened ms)) by (rewrite (alen_app _ (closed ms)), alen_closed; lia).
    rewrite u32_small by lia.
    destruct (StringView_substr_spec (m_absolute_path p) (opened us) (opened ms) (opened (y :: vs)))
      as (v' & E' & H'%shows_before_rep); [|by exists v'].
    rewrite <- !opened_app. rewrite app_assoc, opened_recut, closed_app, <- !app_assoc, app_assoc. done.
Qed.

(** The elements from number [i] to number [j], both included. *)
Definition slice (ws : list (list Z)) (i j : Z) : list (list Z) :=
  take (Z.to_nat (j - i + 1)) (drop (Z.to_nat i) ws).

Lemma slice_split ws i j :
  0 <= i <= j -> j < alen ws ->
  exists us vs, ws = us ++ slice ws i j ++ vs /\ alen us = i /\ alen (slice ws i j) = j - i + 1.
Proof.
  intros Hi Hj. exists (take (Z.to_nat i) ws), (drop (Z.to_nat (j - i + 1)) (drop (Z.to_nat i) ws)).
  unfold slice, alen in *. rewrite !take_drop, !length_take, length_drop. repeat split; lia.
Qed.

Lemma sub_path_slice p ws i j :
  Forall proper_element ws -> path_rep p (opened ws) [] -> 0 <= i < j -> j < alen ws -> alen ws < 2 ^ 31 ->
  exists q, (a ← sub_absolute_path p (u32 i) (u32 j);
             r ← sub_relative_path p (u32 i) (u32 j);
             no_absolute ← StringView_eq_cstr a [0] 0;
             if no_absolute : bool then PathView_of_view r
             else no_relative ← StringView_eq_cstr r [0] 0;
                  if no_relative : bool then PathView_of_view a else PathView_of_views a r) = Done q /\
    m_type q = Absolute /\ path_rep q (opened (slice ws i j)) [].
Proof.
  intros Hws Hp Hi Hj Hn. destruct (slice_split ws i j) as (us & vs & E & Hus & Hms); [lia|lia|].
  pose proof Hp as (_ & _ & Hb & Hc & _). set (ms := slice ws i j) in *. clearbody ms. subst ws.
  assert (Hne : ms <> []) by (intros ->; rewrite (@alen_nil (list Z)) in Hms; lia).
  destruct (sub_absolute_path_spec p us ms vs) as (a & Ea & Ha); [done..|].
  replace (alen us + alen ms - 1) with j in Ea by lia. rewrite Hus in Ea.
  rewrite !u32_small by lia. rewrite Ea. cbn [mbind exec_bind].
  assert (Hcount : m_absolute_path_count p = alen (us ++ ms ++ vs)).
  { rewrite Hc. unfold parts. rewrite bool_decide_eq_false_2 by (destruct us, ms; done).
    rewrite elements_opened; [done..|]. by destruct us, ms. }
  unfold sub_relative_path. rewrite Hcount, (proj2 (Z.ltb_lt _ _)) by lia. cbn [mbind exec_bind].
  rewrite (is_empty_spec a _ Ha), (is_empty_spec _ _ empty_view_rep). cbn [mbind exec_bind].
  rewrite bool_decide_eq_false_2 by (by destruct ms). rewrite bool_decide_eq_true_2 by done.
  apply Forall_app in Hws as [_ Hws]. apply Forall_app in Hws as [Hws _].
  destruct (PathView_of_view_spec a (opened ms) Ha) as (q & Eq & Ht & Hq); [by apply valid_opened| |].
  { rewrite !opened_app, !alen_app, (@alen_nil Z) in Hb. pose proof (alen_nonneg (opened us)).
    pose proof (alen_nonneg (opened vs)). lia. }
  exists q. split; [done|]. assert (Hh : head (opened ms) = Some SPLITER) by by destruct ms.
  rewrite Hh in Hq. rewrite bool_decide_eq_true_2 in Hq by done. split; [|done].
  apply has_type_absolute in Ht. rewrite bool_decide_eq_true_2 in Ht by done. by apply bool_decide_eq_true in Ht.
Qed.

(** [sub_path] of an absolute path. *)
Lemma sub_path_spec p ws i j :
  Forall proper_element ws -> ws <> [] -> path_rep p (opened ws) [] ->
  let n := alen ws in
  let i' := if i <? 0 then n + i else i in
  let j' := if j <? 0 then n + j else j in
  if bool_decide (0 <= i' < j' /\ j' < n) then
    exists q, PathView_sub_path p i j = Done q /\
      m_type q = Absolute /\ path_rep q (opened (slice ws i' j')) []
  else PathView_sub_path p i j = Panic.
Proof.
  intros Hws Hne Hp. assert (Hparts : parts (opened ws) ++ parts [] = ws).
  { unfold parts. rewrite bool_decide_eq_false_2 by by destruct ws.
    rewrite elements_opened by done. apply app_nil_r. }
  destruct (PathView_count_spec p _ _ Hp) as [_ Hn]. rewrite Hparts in Hn. intros n i' j'.
  pose proof (check_index_spec p _ _ Hp) as Hck. pose proof (normal_index_spec p _ _ Hp) as Hno.
  rewrite Hparts in Hck, Hno. unfold PathView_sub_path. rewrite !Hck.
  destruct ((_ <=? i) && (i <? _)) eqn:Hi; [|rewrite bool_decide_eq_false_2; [done|]];
    [destruct ((_ <=? j) && (j <? _)) eqn:Hj; [|rewrite bool_decide_eq_false_2; [done|]]|].
  - to_prop. rewrite !Hno by done. cbn [ASSERT mbind exec_bind]. fold n i' j'.
    assert (0 <= i' < n /\ 0 <= j' < n) by (unfold i', j', n in *; repeat case_test; lia).
    case_bool_decide as Hij.
    + rewrite bind_ASSERT by (apply Z.ltb_lt; lia). apply sub_path_slice; (done || lia).
    + by rewrite (proj2 (Z.ltb_ge _ _)) by lia.
  - unfold j', n in *. apply andb_false_iff in Hj. intros Hij. destruct (Z.ltb_spec j 0); destruct Hj; to_prop; lia.
  - unfold i', j', n in *. apply andb_false_iff in Hi. intros Hij. destruct (Z.ltb_spec i 0); destruct Hi; to_prop; lia.
Qed.

(** the parts of an absolute path. [sub_path] from one element of the path
    "/w1/.../wn" to a later one, each counted from the start or, negative, from the end,
    is the absolute path of exactly the elements in between, both included. When the
    second does not lie after the first an assertion fails: so the path of the parent,
    [sub_path(0, -2)], exists only for paths of at least three elements. *)
Theorem path_slices (v : StringView) (ws : list (list Z)) (i j : Z)
    (Hv : view_rep v (opened ws)) (Hws : Forall proper_element ws) (Hne : ws <> [])
    (Hb : alen (opened ws) + 2 < 2 ^ 31) :
  exists p, PathView_of_view v = Done p /\
    let n := alen ws in
    let i' := if i <? 0 then n + i else i in
    let j' := if j <? 0 then n + j else j in
    if bool_decide (0 <= i' < j' /\ j' < n) then
      exists q, PathView_sub_path p i j = Done q /\
        m_type q = Absolute /\ path_rep q (opened (slice ws i' j')) []
    else PathView_sub_path p i j = Panic.
Proof.
  destruct (PathView_of_view_spec v (opened ws) Hv) as (p & E & _ & Hp); [by apply valid_opened|done|].
  assert (Hh : head (opened ws) = Some SPLITER) by by destruct ws.
  rewrite Hh in Hp. rewrite bool_decide_eq_true_2 in Hp by done. exists p. split; [done|].
  by apply sub_path_spec.
Qed.

(** The parent of "/a/b/c", and none of "/a/b". *)
Lemma path_slices_witness :
  (exists p, PathView_of_view (mkView 6 [47; 97; 47; 98; 47; 99; 0] 0) = Done p /\
     exists q, PathView_sub_path p 0 (-2) = Done q /\ m_type q = Absolute /\
       path_rep q [47; 97; 47; 98] []) /\
  (exists p, PathView_of_view (mkView 4 [47; 97; 47; 98; 0] 0) = Done p /\
     PathView_sub_path p 0 (-2) = Panic).
Proof.
  assert (Hws : Forall proper_element [[97]; [98]; [99]]).
  { repeat constructor; try done; intros H%list_elem_of_singleton; discriminate H. }
  split.
  - apply (path_slices _ [[97]; [98]; [99]] 0 (-2)); [|done|done|vm_compute; done].
    split; [vm_compute; done|by exists [], [0]].
  - apply (path_slices _ [[97]; [98]] 0 (-2)); [| |done|vm_compute; done].
    + split; [vm_compute; done|by exists [], [0]].
    + repeat constructor; try done; intros H%list_elem_of_singleton; discriminate H.
Defined.
