(* ===== verification/LinkedList.v ===== *)
(** [List<T>] (list.h): doubly linked lists that own their nodes. A list is the record
    of the source together with the nodes it has allocated, by address; deleting a node
    takes it out of that store, so that an access to it afterwards is a fault. The
    abstract view is the sequence of the elements. *)

From S2P Require Import Prelude.

(** A pointer to a node: an allocated one, or the ending node inside a list. *)
Inductive lptr :=
| LNode (addr : Z)
| LEnd (list : Z).

#[export] Instance lptr_eq_dec : EqDecision lptr.
Proof. solve_decision. Defined.

(** The links alone, and a node with its element. *)
Record ShallowNode := mkShallow {
  sn_next : option lptr;
  sn_prev : option lptr
}.

Record Node (T : Type) := mkLNode {
  ln_data : T;
  ln_links : ShallowNode
}.
Arguments mkLNode {T}.
Arguments ln_data {T}.
Arguments ln_links {T}.

Record List (T : Type) := mkList {
  l_this : Z;
  l_nodes : gmap Z (Node T);
  l_ending : ShallowNode;
  l_head : option lptr;
  l_tail : option lptr;
  l_count : Z
}.
Arguments mkList {T}.
Arguments l_this {T}.
Arguments l_nodes {T}.
Arguments l_ending {T}.
Arguments l_head {T}.
Arguments l_tail {T}.
Arguments l_count {T}.

Section operations.
Context {T : Type}.
Implicit Types (l : List T) (p : option lptr) (x : T).

Definition ending_node l : option lptr := Some (LEnd (l_this l)).

(** Dereference: the nodes of the list and its own ending node. *)
Definition links_of l p : exec ShallowNode :=
  match p with
  | Some (LNode a) => match l_nodes l !! a with Some n => Done (ln_links n) | None => Fault end
  | Some (LEnd i) => if i =? l_this l then Done (l_ending l) else Fault
  | None => Fault
  end.

Definition put_links l p (s : ShallowNode) : exec (List T) :=
  match p with
  | Some (LNode a) =>
      match l_nodes l !! a with
      | Some n => Done (mkList (l_this l) (<[a := mkLNode (ln_data n) s]> (l_nodes l)) (l_ending l)
                          (l_head l) (l_tail l) (l_count l))
      | None => Fault
      end
  | Some (LEnd i) =>
      if i =? l_this l
      then Done (mkList (l_this l) (l_nodes l) s (l_head l) (l_tail l) (l_count l)) else Fault
  | None => Fault
  end.

(** [p->next = v] and [p->prev = v]. *)
Definition put_next l p v : exec (List T) :=
  s ← links_of l p; put_links l p (mkShallow v (sn_prev s)).
Definition put_prev l p v : exec (List T) :=
  s ← links_of l p; put_links l p (mkShallow (sn_next s) v).

(** [m_head = p], [m_tail = p], [m_count = c]. *)
Definition put_head l p : List T :=
  mkList (l_this l) (l_nodes l) (l_ending l) p (l_tail l) (l_count l).
Definition put_tail l p : List T :=
  mkList (l_this l) (l_nodes l) (l_ending l) (l_head l) p (l_count l).
Definition put_count l (c : Z) : List T :=
  mkList (l_this l) (l_nodes l) (l_ending l) (l_head l) (l_tail l) c.

(** [new Node{...}] at the address [a] and [delete]. *)
Definition new_Node l (a : Z) x : List T :=
  mkList (l_this l) (<[a := mkLNode x (mkShallow None None)]> (l_nodes l)) (l_ending l)
    (l_head l) (l_tail l) (l_count l).
Definition delete_Node l (p : lptr) : exec (List T) :=
  match p with
  | LNode a =>
      match l_nodes l !! a with
      | Some _ => Done (mkList (l_this l) (delete a (l_nodes l)) (l_ending l)
                          (l_head l) (l_tail l) (l_count l))
      | None => Fault
      end
  | LEnd _ => Fault
  end.

Definition List_new (this : Z) : List T :=
  mkList this ∅ (mkShallow None None) (Some (LEnd this)) (Some (LEnd this)) 0.

Definition List_link_node l (new_node : Z) (old_node : lptr) : exec (List T) :=
  let n := Some (LNode new_node) in
  l ← (if l_count l =? 0 then
         l ← put_prev l n None;
         l ← put_next l n (ending_node l);
         l ← put_prev l (ending_node l) n;
         Done (put_head (put_tail l n) n)
       else if bool_decide (Some old_node = l_head l) then
         l ← put_prev l n None;
         l ← put_next l n (l_head l);
         l ← put_prev l (l_head l) n;
         Done (put_head l n)
       else if bool_decide (Some old_node = ending_node l) then
         e ← links_of l (ending_node l);
         l ← put_prev l n (sn_prev e);
         l ← put_next l n (ending_node l);
         l ← put_next l (sn_prev e) n;
         l ← put_prev l (ending_node l) n;
         Done (put_tail l n)
       else
         o ← links_of l (Some old_node);
         l ← put_prev l n (sn_prev o);
         l ← put_next l n (Some old_node);
         l ← put_next l (sn_prev o) n;
         put_prev l (Some old_node) n);
  Done (put_count l (u32 (l_count l + 1))).

Definition List_unlink_node l (node : lptr) : exec (List T) :=
  let n := Some node in
  s ← links_of l n;
  l ← (if bool_decide (l_head l = n) && bool_decide (l_tail l = n) then
         Done (put_head (put_tail l (ending_node l)) (ending_node l))
       else if bool_decide (l_head l = n) then
         put_prev (put_head l (sn_next s)) (sn_next s) None
       else if bool_decide (l_tail l = n) then
         l ← Done (put_tail l (sn_prev s));
         l ← put_next l (sn_prev s) (ending_node l);
         put_prev l (ending_node l) (sn_prev s)
       else
         l ← put_next l (sn_prev s) (sn_next s);
         put_prev l (sn_next s) (sn_prev s));
  Done (put_count l (u32 (l_count l - 1))).

(** An iterator is a pointer that is not null. *)
Definition LIterator_new p : exec lptr := match p with Some q => Done q | None => Panic end.
Definition LIterator_next l (it : lptr) : exec lptr := s ← links_of l (Some it); LIterator_new (sn_next s).
Definition LIterator_prev l (it : lptr) : exec lptr := s ← links_of l (Some it); LIterator_new (sn_prev s).

(** [operator*]: the ending node has no element. *)
Definition LIterator_deref l (it : lptr) : exec T :=
  match it with
  | LNode a => match l_nodes l !! a with Some n => Done (ln_data n) | None => Fault end
  | LEnd _ => Fault
  end.

Definition List_begin l : exec lptr := LIterator_new (l_head l).
Definition List_end l : lptr := LEnd (l_this l).

(** [insert] and [emplace]: the new node gets the address [a]. *)
Definition List_insert l (pos : lptr) (a : Z) x : exec (List T) :=
  List_link_node (new_Node l a x) a pos.
Definition List_emplace l (pos : lptr) (a : Z) x : exec (List T) := List_insert l pos a x.
Definition List_push_back l (a : Z) x : exec (List T) := List_insert l (List_end l) a x.
Definition List_push_front l (a : Z) x : exec (List T) :=
  pos ← List_begin l; List_insert l pos a x.
Definition List_emplace_back l (a : Z) x : exec (List T) := List_emplace l (List_end l) a x.
Definition List_emplace_front l (a : Z) x : exec (List T) :=
  pos ← List_begin l; List_emplace l pos a x.

Definition List_remove l (it : lptr) : exec (List T) :=
  l ← List_unlink_node l it; delete_Node l it.

Definition List_pop_back l : exec (List T) :=
  it ← LIterator_prev l (List_end l); List_remove l it.
Definition List_pop_front l : exec (List T) := it ← List_begin l; List_remove l it.

(** Every turn passes a node: the nodes of the list bound the turns. *)
Definition List_remove_if l (predicate : T -> bool) : exec (bool * List T) :=
  i ← List_begin l;
  while (S (size (l_nodes l)))
    (fun '(i, is_removed, l) =>
       if bool_decide (i <> List_end l) then
         next ← LIterator_next l i;
         x ← LIterator_deref l i;
         if predicate x then l ← List_remove l i; Done (inl (next, true, l))
         else Done (inl (next, is_removed, l))
       else Done (inr (is_removed, l)))
    (i, false, l).

Definition List_find_if l (predicate : T -> bool) : exec lptr :=
  i ← List_begin l;
  while (S (size (l_nodes l)))
    (fun i =>
       if bool_decide (i <> List_end l) then
         x ← LIterator_deref l i;
         if predicate x then Done (inr i)
         else next ← LIterator_next l i; Done (inl next)
       else Done (inr (List_end l)))
    i.

(** [find]: [find_if] with the comparison of the elements. *)
Definition List_find l (eqb : T -> T -> bool) (element : T) : exec lptr :=
  List_find_if l (fun x => eqb element x).

Definition List_contains l (predicate : T -> bool) : exec bool :=
  it ← List_find_if l predicate; Done (bool_decide (it <> List_end l)).

Definition List_first l : exec T := it ← List_begin l; LIterator_deref l it.
Definition List_last l : exec T := it ← LIterator_prev l (List_end l); LIterator_deref l it.
Definition List_size l : Z := l_count l.
Definition List_is_empty l : bool := negb (truthy (List_size l)).

(** The iterator [num] steps after [begin()]; [operator[]] is its element. A negative number
    counts down as well, and wraps around: the steps go past the end. *)
Definition List_iterator_at l (num : Z) : exec lptr :=
  itr ← List_begin l; for_ (Z.to_nat (u32 num)) 0 (fun _ itr => LIterator_next l itr) itr.
Definition List_index l (num : Z) : exec T := itr ← List_iterator_at l num; LIterator_deref l itr.

(** [while (curr && curr != m_ending_node)] *)
Definition List_clear l : exec (List T) :=
  l ← while (S (size (l_nodes l)))
    (fun '(curr, l) =>
       match curr with
       | Some p =>
           if bool_decide (curr <> ending_node l) then
             s ← links_of l curr; l ← delete_Node l p; Done (inl (sn_next s, l))
           else Done (inr l)
       | None => Done (inr l)
       end)
    (l_head l, l);
  Done (put_count (put_head (put_tail l (ending_node l)) (ending_node l)) 0).

(** Copying pushes the elements of [other] in order; [addr] gives the addresses. *)
Definition List_append_copy l (other : List T) (addr : Z -> Z) : exec (List T) :=
  i ← List_begin other;
  while (S (size (l_nodes other)))
    (fun '(i, k, l) =>
       if bool_decide (i <> List_end other) then
         x ← LIterator_deref other i;
         l ← List_push_back l (addr k) x;
         next ← LIterator_next other i;
         Done (inl (next, k + 1, l))
       else Done (inr l))
    (i, 0, l).

Definition List_copy (this : Z) (other : List T) (addr : Z -> Z) : exec (List T) :=
  List_append_copy (List_new this) other addr.

(** [operator=] of a different list. *)
Definition List_assign l (other : List T) (addr : Z -> Z) : exec (List T) :=
  l ← List_clear l; List_append_copy l other addr.

(** The moves: the nodes change hands, the ending nodes stay where they are. Writing
    through the tail of an empty [other] changes the ending node of [other]. *)
Definition List_take (this : Z) (ending : ShallowNode) (other : List T) : exec (List T * List T) :=
  let l := mkList this (l_nodes other) ending (l_head other) (l_tail other) (l_count other) in
  let left_over e := mkList (l_this other) ∅ e None None 0 in
  match l_tail other with
  | Some (LEnd i) =>
      if i =? l_this other
      then Done (l, left_over (mkShallow (ending_node l) (sn_prev (l_ending other)))) else Fault
  | _ => l ← put_next l (l_tail other) (ending_node l); Done (l, left_over (l_ending other))
  end.

Definition List_move (this : Z) (other : List T) : exec (List T * List T) :=
  List_take this (mkShallow None None) other.

Definition List_move_assign l (other : List T) : exec (List T * List T) :=
  l ← List_clear l; List_take (l_this l) (l_ending l) other.

(** Unlinks a node of [l] and links it at the end of [list]; the node keeps its address. *)
Definition List_splice l (list : List T) (itr : lptr) : exec (List T * List T) :=
  l ← List_unlink_node l itr;
  x ← LIterator_deref l itr;
  match itr with
  | LNode a => l ← delete_Node l itr; list ← List_push_back list a x; Done (l, list)
  | LEnd _ => Fault
  end.

End operations.

(** * Representation *)

(** Pointers to the first node of [s] (the ending node when there is none), to the last
    node of [p] (null when there is none), and the tail of a list. *)
Definition next_ptr {T} (this : Z) (s : list (Z * T)) : lptr :=
  match s with [] => LEnd this | (a, _) :: _ => LNode a end.
Definition prev_ptr {T} (p : list (Z * T)) : option lptr := (fun e => LNode e.1) <$> last p.
Definition last_ptr {T} (this : Z) (es : list (Z * T)) : lptr :=
  match last es with None => LEnd this | Some (a, _) => LNode a end.

(** The list holds the nodes [es]: their addresses and elements, in order. *)
Record list_holds {T} (l : List T) (es : list (Z * T)) : Prop := {
  lh_nodes : forall p a x s, es = p ++ (a, x) :: s ->
    l_nodes l !! a = Some (mkLNode x (mkShallow (Some (next_ptr (l_this l) s)) (prev_ptr p)));
  lh_dom : forall a, is_Some (l_nodes l !! a) -> a ∈ es.*1;
  lh_nodup : NoDup es.*1;
  lh_head : l_head l = Some (next_ptr (l_this l) es);
  lh_tail : l_tail l = Some (last_ptr (l_this l) es);
  lh_end_next : sn_next (l_ending l) = None;
  lh_end_prev : es <> [] -> sn_prev (l_ending l) = prev_ptr es;
  lh_count : l_count l = alen es;
  lh_bound : alen es < 2 ^ 32
}.

(** Evaluate accesses to the nodes that the context or the last write answers. *)
Ltac node_eval :=
  unfold put_prev, put_next, put_links, links_of, put_head, put_tail, put_count, ending_node in *;
  repeat first
    [ progress simpl
    | rewrite Z.eqb_refl
    | rewrite lookup_insert_eq
    | rewrite lookup_insert_ne by done
    | match goal with H : ?m !! ?k = Some _ |- context [?m !! ?k] => rewrite H end
    | rewrite bool_decide_eq_true_2 by done
    | rewrite bool_decide_eq_false_2 by done ];
  rewrite ?insert_insert_eq.

Section insertion.
Context {T : Type} (l : List T) (p s : list (Z * T)) (a : Z) (x : T).
Context (Hl : list_holds l (p ++ s)) (Hfree : l_nodes l !! a = None).
Context (Hroom : alen (p ++ s) + 1 < 2 ^ 32).

(** The nodes after an insertion: the new one, and its neighbours linked to it. *)
Definition inserted_nodes : gmap Z (Node T) :=
  let base := <[a := mkLNode x (mkShallow (Some (next_ptr (l_this l) s)) (prev_ptr p))]> (l_nodes l) in
  let left := match last p with
    | None => base
    | Some (b, y) => <[b := mkLNode y (mkShallow (Some (LNode a)) (prev_ptr (removelast p)))]> base
    end in
  match s with
  | [] => left
  | (c, z) :: s' => <[c := mkLNode z (mkShallow (Some (next_ptr (l_this l) s')) (Some (LNode a)))]> left
  end.

Lemma holds_fresh e : e ∈ p ++ s -> e.1 <> a.
Proof.
  intros He Ea. apply list_elem_of_split in He as (q & r & E). destruct e as [b y].
  pose proof (lh_nodes _ _ Hl q b y r E) as Hn. simpl in *. congruence.
Qed.

Lemma insert_result :
  exists ending,
    List_insert l (next_ptr (l_this l) s) a x = Done (mkList (l_this l) inserted_nodes ending
      (Some (next_ptr (l_this l) (p ++ (a, x) :: s))) (Some (last_ptr (l_this l) (p ++ (a, x) :: s)))
      (alen (p ++ (a, x) :: s))) /\
    sn_next ending = None /\ sn_prev ending = prev_ptr (p ++ (a, x) :: s).
Proof.
  pose proof holds_fresh as Hfresh. pose proof (lh_head _ _ Hl) as Ehd. pose proof (lh_tail _ _ Hl) as Etl.
  pose proof (lh_end_next _ _ Hl) as Een. pose proof (lh_end_prev _ _ Hl) as Eep.
  pose proof (lh_count _ _ Hl) as Ec. pose proof (alen_nonneg (p ++ s)).
  assert (Hcount : alen (p ++ (a, x) :: s) = alen (p ++ s) + 1) by (rewrite !alen_app, alen_cons; lia).
  unfold List_insert, List_link_node, new_Node, inserted_nodes. cbn [l_this l_nodes l_ending l_head l_tail l_count].
  assert (Hz : (alen (p ++ s) =? 0) = match p ++ s with [] => true | _ => false end)
    by (destruct (p ++ s); [done|]; apply Z.eqb_neq; unfold alen; simpl; lia).
  rewrite Ehd, Etl, Ec, Hcount, Hz. clear Ec Hcount Hz.
  pose proof Hroom as Hroom'. revert H Hroom'.
  generalize (alen (p ++ s)). intros n Hn0 Hn. destruct p as [|[b y] p' _] eqn:Ep using rev_ind.
  - destruct s as [|[c z] s'] eqn:Es.
    + node_eval. rewrite u32_small by lia. eexists; split; [done|]. split; [exact Een|done].
    + pose proof (lh_nodes _ _ Hl [] c z s' eq_refl) as Ec'.
      assert (c <> a) by (apply (Hfresh (c, z)); by left).
      node_eval. rewrite u32_small by lia. unfold last_ptr. rewrite last_cons_cons.
      eexists; split; [done|]. split; [exact Een|].
      rewrite Eep by done. unfold prev_ptr. by rewrite last_cons_cons.
  - pose proof (lh_nodes _ _ Hl p' b y s) as Eb. rewrite <- app_assoc in Eb. specialize (Eb eq_refl).
    assert (b <> a) by (apply (Hfresh (b, y)); apply elem_of_app; left; apply elem_of_app; right; by left).
    replace (match (p' ++ [(b, y)]) ++ s with [] => true | _ => false end) with false by (by destruct p').
    assert (Hfr : forall t, next_ptr (l_this l) ((p' ++ [(b, y)]) ++ t) = next_ptr (l_this l) (p' ++ [(b, y)]))
      by (intros t; by destruct p' as [|[] ?]).
    assert (Hbk : prev_ptr (p' ++ [(b, y)]) = Some (LNode b)) by (unfold prev_ptr; by rewrite last_snoc).
    assert (Hhd : next_ptr (l_this l) (p' ++ [(b, y)]) <> LEnd (l_this l)) by (by destruct p' as [|[] ?]).
    rewrite !Hfr, last_snoc, removelast_last. destruct s as [|[c z] s'] eqn:Es.
    + assert (Some (LEnd (l_this l)) <> Some (next_ptr (l_this l) (p' ++ [(b, y)]))) by congruence.
      rewrite app_nil_r in Eep. specialize (Eep ltac:(by destruct p')). rewrite Hbk in *.
      node_eval. rewrite Eep. node_eval. rewrite u32_small by lia.
      unfold last_ptr, prev_ptr. rewrite last_snoc. eexists; split; [done|]. split; [exact Een|done].
    + pose proof (lh_nodes _ _ Hl (p' ++ [(b, y)]) c z s' eq_refl) as Ec'. rewrite Hbk in *.
      assert (c <> a) by (apply (Hfresh (c, z)); apply elem_of_app; right; by left).
      assert (Hnd : NoDup (((p' ++ [(b, y)]) ++ (c, z) :: s').*1)) by apply (lh_nodup _ _ Hl).
      assert (b <> c).
      { rewrite !fmap_app, <- app_assoc in Hnd. apply NoDup_app in Hnd as (_ & _ & Hnd). simpl in Hnd.
        apply NoDup_cons in Hnd as [Hnd _]. rewrite not_elem_of_cons in Hnd. tauto. }
      assert (Some (LNode c) <> Some (next_ptr (l_this l) (p' ++ [(b, y)]))).
      { intros E. destruct p' as [|[d w] p']; simpl in E; [congruence|]. injection E as ->.
        simpl in Hnd. apply NoDup_cons in Hnd as [Hnd _]. apply Hnd.
        rewrite !fmap_app. apply elem_of_app. right. by left. }
      node_eval. rewrite u32_small by lia.
      unfold last_ptr, prev_ptr in *. rewrite !last_app_cons, last_cons_cons in *.
      eexists; split; [done|]. split; [exact Een|]. rewrite Eep by (by destruct p'). done.
Qed.

Lemma inserted_other b :
  b <> a -> fst <$> last p <> Some b -> fst <$> head s <> Some b -> inserted_nodes !! b = l_nodes l !! b.
Proof.
  intros Ha Hp Hs. unfold inserted_nodes.
  destruct s as [|[c z] s'], (last p) as [[d w]|]; simpl in *; by rewrite !lookup_insert_ne by congruence.
Qed.

Lemma inserted_nodes_rep q b y r :
  p ++ (a, x) :: s = q ++ (b, y) :: r ->
  inserted_nodes !! b = Some (mkLNode y (mkShallow (Some (next_ptr (l_this l) r)) (prev_ptr q))).
Proof.
  pose proof (lh_nodup _ _ Hl) as Hnd. pose proof holds_fresh as Hfresh. intros E.
  apply split_removed in E as [(t & Ep & ->)|([|[a0 x0] t] & Es & ->)].
  - assert (Hb : b <> a) by (apply (Hfresh (b, y)); rewrite Ep; apply elem_of_app; left; apply elem_of_app; right; by left).
    rewrite Ep, <- app_assoc, fmap_app in Hnd. apply NoDup_app in Hnd as (_ & _ & Hnd). simpl in Hnd.
    apply NoDup_cons in Hnd as [Hnd _]. rewrite fmap_app, not_elem_of_app in Hnd. destruct Hnd as [Hbt Hbs].
    assert (Hhs : fst <$> head s <> Some b).
    { destruct s as [|[c z] s']; [done|]. simpl in *. rewrite not_elem_of_cons in Hbs. intuition congruence. }
    destruct t as [|[d w] t _] using rev_ind.
    + unfold inserted_nodes. rewrite Ep, last_snoc, removelast_last. simpl.
      destruct s as [|[c z] s']; simpl in *; rewrite ?lookup_insert_ne by congruence; by rewrite lookup_insert_eq.
    + rewrite inserted_other; [|done| |done].
      * rewrite (lh_nodes _ _ Hl q b y ((t ++ [(d, w)]) ++ s)) by (by rewrite Ep, <- app_assoc).
        by destruct t as [|[] ?].
      * rewrite Ep, app_comm_cons, app_assoc, last_snoc. simpl. intros [= ->].
        apply Hbt. rewrite fmap_app. apply elem_of_app. right. by left.
  - simpl in Es. injection Es as <- <- <-. rewrite app_nil_r. unfold inserted_nodes.
    assert (Hd : forall d w, last p = Some (d, w) -> d <> a).
    { intros d w El. apply (Hfresh (d, w)), elem_of_app. left. by apply last_Some_elem_of. }
    assert (Hc : forall c z, head s = Some (c, z) -> c <> a).
    { intros c z Eh. apply (Hfresh (c, z)), elem_of_app. right. destruct s; [done|]. injection Eh as ->. by left. }
    destruct s as [|[c z] s'], (last p) as [[d w]|]; try specialize (Hd _ _ eq_refl);
      try specialize (Hc _ _ eq_refl); by rewrite ?lookup_insert_ne, lookup_insert_eq by done.
  - simpl in Es. injection Es as <- <- Es.
    assert (Hb : b <> a) by (apply (Hfresh (b, y)); rewrite Es; apply elem_of_app; right; apply elem_of_app; right; by left).
    rewrite Es, app_assoc, fmap_app in Hnd. simpl in Hnd. apply NoDup_middle in Hnd as (Hbpt & _ & _).
    rewrite fmap_app, not_elem_of_app in Hbpt. destruct Hbpt as [Hbp Hbt].
    assert (Hlp : fst <$> last p <> Some b).
    { intros E. apply Hbp. destruct (last p) as [e|] eqn:El; [|done]. injection E as <-.
      apply list_elem_of_fmap_2. by apply last_Some_elem_of. }
    destruct t as [|[d w] t].
    + unfold inserted_nodes. rewrite Es. simpl. rewrite lookup_insert_eq. unfold prev_ptr. by rewrite last_snoc.
    + rewrite inserted_other; [|done|done|].
      * rewrite (lh_nodes _ _ Hl (p ++ (d, w) :: t) b y r) by (by rewrite Es, <- app_assoc).
        unfold prev_ptr. by rewrite !last_app_cons, last_cons_cons.
      * rewrite Es. simpl. intros [= ->]. apply Hbt. by left.
Qed.

Lemma insert_holds :
  exists l', List_insert l (next_ptr (l_this l) s) a x = Done l' /\ list_holds l' (p ++ (a, x) :: s) /\
    l_this l' = l_this l.
Proof.
  destruct insert_result as (ending & E & Een & Eep). eexists. split; [exact E|]. split; [|done].
  pose proof (lh_nodup _ _ Hl) as Hnd. pose proof holds_fresh as Hfresh.
  assert (Ha : a ∉ (p ++ s).*1).
  { intros ((b & y) & -> & He)%list_elem_of_fmap. by apply (Hfresh (b, y)). }
  split; simpl; try done.
  - apply inserted_nodes_rep.
  - intros b Hb. rewrite fmap_app. simpl. destruct (decide (b = a)) as [->|Hba]; [apply elem_of_app; right; by left|].
    assert (Hin : b ∈ (p ++ s).*1).
    { destruct (decide (fst <$> last p = Some b)) as [El|El].
      { destruct (last p) as [e|] eqn:E'; [|done]. injection El as <-. apply list_elem_of_fmap_2, elem_of_app.
        left. by apply last_Some_elem_of. }
      destruct (decide (fst <$> head s = Some b)) as [Eh|Eh].
      { destruct s as [|e s']; [done|]. injection Eh as <-. apply list_elem_of_fmap_2, elem_of_app. right. by left. }
      rewrite inserted_other in Hb by done. by apply (lh_dom _ _ Hl). }
    rewrite fmap_app, elem_of_app in Hin. rewrite elem_of_app, elem_of_cons. tauto.
  - rewrite fmap_app in *. simpl. rewrite not_elem_of_app in Ha. apply NoDup_app in Hnd as (H1 & H2 & H3).
    apply NoDup_app. split; [done|]. split; [|apply NoDup_cons; tauto].
    intros b Hb Hb'. apply elem_of_cons in Hb' as [->|Hb']; [tauto|]. by apply (H2 b).
  - rewrite !alen_app, alen_cons in *. lia.
Qed.

End insertion.

Section removal.
Context {T : Type} (l : List T) (p s : list (Z * T)) (a : Z) (x : T).
Context (Hl : list_holds l (p ++ (a, x) :: s)).

(** The nodes after unlinking: the neighbours are linked to each other. *)
Definition unlinked_nodes : gmap Z (Node T) :=
  let left := match last p with
    | None => l_nodes l
    | Some (b, y) =>
        <[b := mkLNode y (mkShallow (Some (next_ptr (l_this l) s)) (prev_ptr (removelast p)))]> (l_nodes l)
    end in
  match s with
  | [] => left
  | (c, z) :: s' => <[c := mkLNode z (mkShallow (Some (next_ptr (l_this l) s')) (prev_ptr p))]> left
  end.

Definition unlinked (ending : ShallowNode) : List T :=
  mkList (l_this l) unlinked_nodes ending (Some (next_ptr (l_this l) (p ++ s)))
    (Some (last_ptr (l_this l) (p ++ s))) (alen (p ++ s)).

Lemma removal_nodup : (a ∉ p.*1) /\ (a ∉ s.*1) /\ NoDup ((p ++ s).*1).
Proof.
  pose proof (lh_nodup _ _ Hl) as Hnd. rewrite fmap_app in Hnd. simpl in Hnd.
  rewrite fmap_app. by apply NoDup_middle.
Qed.

Lemma neighbours_distinct b y p' c z s' : p = p' ++ [(b, y)] -> s = (c, z) :: s' -> b <> c.
Proof.
  intros Ep Es. destruct removal_nodup as (_ & _ & Hnd).
  rewrite Ep, Es, <- app_assoc, fmap_app in Hnd. apply NoDup_app in Hnd as (_ & _ & Hnd). simpl in Hnd.
  apply NoDup_cons in Hnd as [Hnd _]. rewrite not_elem_of_cons in Hnd. tauto.
Qed.

Lemma unlink_result :
  exists ending, List_unlink_node l (LNode a) = Done (unlinked ending) /\
    sn_next ending = None /\ (p ++ s <> [] -> sn_prev ending = prev_ptr (p ++ s)).
Proof.
  pose proof (lh_head _ _ Hl) as Ehd. pose proof (lh_tail _ _ Hl) as Etl.
  pose proof (lh_end_next _ _ Hl) as Een. pose proof (lh_end_prev _ _ Hl) as Eep.
  pose proof (lh_nodes _ _ Hl p a x s eq_refl) as Ea. pose proof (lh_count _ _ Hl) as Ec.
  destruct removal_nodup as (Hap & Has & _). pose proof neighbours_distinct as Hbc.
  pose proof (lh_bound _ _ Hl) as Hb. specialize (Eep ltac:(by destruct p)).
  assert (Hcount : u32 (l_count l - 1) = alen (p ++ s)).
  { rewrite Ec in *. rewrite !alen_app, alen_cons in *. pose proof (alen_nonneg p). pose proof (alen_nonneg s).
    rewrite u32_small; lia. }
  unfold List_unlink_node, unlinked, unlinked_nodes. cbn [links_of]. rewrite Ea. cbn [mbind exec_bind ln_links sn_next sn_prev].
  rewrite <- Hcount. clear Hcount Ec Hb.
  assert (Hta : s <> [] -> last_ptr (l_this l) (p ++ (a, x) :: s) = last_ptr (l_this l) (p ++ s) /\
     last_ptr (l_this l) (p ++ s) <> LNode a /\ prev_ptr (p ++ (a, x) :: s) = prev_ptr (p ++ s)).
  { unfold last_ptr, prev_ptr. destruct s as [|e s'] eqn:Es; [done|]. intros _.
    rewrite !last_app_cons, last_cons_cons. destruct (last (e :: s')) as [[d w]|] eqn:El; [|by apply last_None in El].
    split; [done|]. split; [|done]. intros [= ->]. apply Has.
    apply (list_elem_of_fmap_2 fst _ (a, w)). by apply last_Some_elem_of. }
  rewrite Ehd, Etl. destruct p as [|[b y] p' _] eqn:Ep using rev_ind.
  - destruct s as [|[c z] s'] eqn:Es.
    + node_eval. eexists; split; [done|]. done.
    + assert (c <> a) by (intros ->; apply Has; by left).
      pose proof (lh_nodes _ _ Hl [(a, x)] c z s' eq_refl) as Ec'.
      destruct (Hta ltac:(done)) as (E1 & E2 & E3). rewrite E1 in *. simpl in E2, E3.
      assert (Some (last_ptr (l_this l) ((c, z) :: s')) <> Some (LNode a)) by congruence.
      node_eval. rewrite ?Ehd, ?Etl. eexists; split; [done|]. split; [exact Een|].
      intros _. etrans; [exact Eep|exact E3].
  - pose proof (lh_nodes _ _ Hl p' b y ((a, x) :: s)) as Eb. rewrite <- app_assoc in Eb. specialize (Eb eq_refl).
    assert (b <> a) by (intros ->; apply Hap; rewrite fmap_app; apply elem_of_app; right; by left).
    assert (Hfr : forall t, next_ptr (l_this l) ((p' ++ [(b, y)]) ++ t) = next_ptr (l_this l) (p' ++ [(b, y)]))
      by (intros t; by destruct p' as [|[] ?]).
    assert (Hbk : prev_ptr (p' ++ [(b, y)]) = Some (LNode b)) by (unfold prev_ptr; by rewrite last_snoc).
    assert (Hhd : Some (next_ptr (l_this l) (p' ++ [(b, y)])) <> Some (LNode a)).
    { intros E. apply Hap. destruct p' as [|[d w] p']; injection E as ->; by left. }
    rewrite !Hfr, last_snoc, removelast_last in *. rewrite Hbk. destruct s as [|[c z] s'] eqn:Es.
    + unfold last_ptr. rewrite last_snoc, app_nil_r, last_snoc. node_eval. rewrite ?Ehd.
      eexists; split; [done|]. simpl. split; [exact Een|]. by rewrite Hbk.
    + assert (c <> a) by (intros ->; apply Has; by left). assert (b <> c) by by eapply Hbc.
      pose proof (lh_nodes _ _ Hl ((p' ++ [(b, y)]) ++ [(a, x)]) c z s') as Ec'.
      rewrite <- (app_assoc _ [(a, x)]) in Ec'. specialize (Ec' eq_refl).
      destruct (Hta ltac:(done)) as (E1 & E2 & E3). rewrite E1 in *.
      assert (Some (last_ptr (l_this l) ((p' ++ [(b, y)]) ++ (c, z) :: s')) <> Some (LNode a)) by congruence.
      node_eval. rewrite ?Ehd, ?Etl. eexists; split; [done|]. split; [exact Een|].
      intros _. etrans; [exact Eep|exact E3].
Qed.

Lemma unlinked_other b :
  fst <$> last p <> Some b -> fst <$> head s <> Some b -> unlinked_nodes !! b = l_nodes l !! b.
Proof.
  intros Hp Hs. unfold unlinked_nodes.
  destruct s as [|[c z] s'], (last p) as [[d w]|]; simpl in *; by rewrite ?lookup_insert_ne by congruence.
Qed.

Lemma unlinked_nodes_rep q b y r :
  p ++ s = q ++ (b, y) :: r ->
  unlinked_nodes !! b = Some (mkLNode y (mkShallow (Some (next_ptr (l_this l) r)) (prev_ptr q))).
Proof.
  destruct removal_nodup as (Hap & Has & Hnd). intros E.
  apply split_removed in E as [(t & Ep & ->)|(t & Es & ->)].
  - rewrite Ep, <- app_assoc, fmap_app in Hnd. apply NoDup_app in Hnd as (_ & _ & Hnd). simpl in Hnd.
    apply NoDup_cons in Hnd as [Hnd _]. rewrite fmap_app, not_elem_of_app in Hnd. destruct Hnd as [Hbt Hbs].
    assert (Hhs : fst <$> head s <> Some b).
    { destruct s as [|[c z] s']; [done|]. simpl in *. rewrite not_elem_of_cons in Hbs. intuition congruence. }
    destruct t as [|[d w] t _] using rev_ind.
    + unfold unlinked_nodes. rewrite Ep, last_snoc, removelast_last. simpl.
      destruct s as [|[c z] s']; simpl in *; rewrite ?lookup_insert_ne by congruence; by rewrite lookup_insert_eq.
    + rewrite unlinked_other; [| |done].
      * rewrite (lh_nodes _ _ Hl q b y ((t ++ [(d, w)]) ++ (a, x) :: s)) by (by rewrite Ep, <- (app_assoc q)).
        by destruct t as [|[] ?].
      * rewrite Ep, app_comm_cons, app_assoc, last_snoc. simpl. intros [= ->].
        apply Hbt. rewrite fmap_app. apply elem_of_app. right. by left.
  - rewrite Es, app_assoc, fmap_app in Hnd. simpl in Hnd. apply NoDup_middle in Hnd as (Hbpt & _ & _).
    rewrite fmap_app, not_elem_of_app in Hbpt. destruct Hbpt as [Hbp Hbt].
    assert (Hlp : fst <$> last p <> Some b).
    { intros E. apply Hbp. destruct (last p) as [e|] eqn:El; [|done]. injection E as <-.
      apply list_elem_of_fmap_2. by apply last_Some_elem_of. }
    destruct t as [|[d w] t].
    + unfold unlinked_nodes. rewrite Es. simpl. by rewrite lookup_insert_eq, app_nil_r.
    + rewrite unlinked_other; [|done|].
      * rewrite (lh_nodes _ _ Hl (p ++ (a, x) :: (d, w) :: t) b y r) by (by rewrite Es, <- app_assoc).
        unfold prev_ptr. by rewrite !last_app_cons, last_cons_cons.
      * rewrite Es. simpl. intros [= ->]. apply Hbt. by left.
Qed.

Lemma unlinked_self :
  unlinked_nodes !! a = Some (mkLNode x (mkShallow (Some (next_ptr (l_this l) s)) (prev_ptr p))).
Proof.
  destruct removal_nodup as (Hap & Has & _). rewrite unlinked_other.
  - apply (lh_nodes _ _ Hl p a x s eq_refl).
  - intros E. apply Hap. destruct (last p) as [e|] eqn:El; [|done]. injection E as <-.
    apply list_elem_of_fmap_2. by apply last_Some_elem_of.
  - destruct s as [|[c z] s']; [done|]. simpl in *. rewrite not_elem_of_cons in Has. intuition congruence.
Qed.

Lemma unlinked_dom b : is_Some (unlinked_nodes !! b) -> b ∈ (p ++ (a, x) :: s).*1.
Proof.
  intros Hb. destruct (decide (fst <$> last p = Some b)) as [El|El].
  { destruct (last p) as [e|] eqn:E'; [|done]. injection El as <-. apply list_elem_of_fmap_2, elem_of_app.
    left. by apply last_Some_elem_of. }
  destruct (decide (fst <$> head s = Some b)) as [Eh|Eh].
  { destruct s as [|e s']; [done|]. injection Eh as <-. apply list_elem_of_fmap_2, elem_of_app. right. right. by left. }
  rewrite unlinked_other in Hb by done. by apply (lh_dom _ _ Hl).
Qed.

(** Unlinking and deleting the node. *)
Lemma unlink_delete_holds :
  exists l1 l', List_unlink_node l (LNode a) = Done l1 /\ LIterator_deref l1 (LNode a) = Done x /\
    delete_Node l1 (LNode a) = Done l' /\ list_holds l' (p ++ s) /\ l_this l' = l_this l.
Proof.
  destruct unlink_result as (ending & E & Een & Eep). destruct removal_nodup as (Hap & Has & Hnd).
  eexists _, _. split; [exact E|]. unfold unlinked. simpl. rewrite unlinked_self.
  split; [done|]. split; [done|]. split; [|done].
  assert (Ha : a ∉ (p ++ s).*1) by (rewrite fmap_app, not_elem_of_app; done).
  split; simpl; try done.
  - intros q b y r Eq. rewrite lookup_delete_ne; [by apply unlinked_nodes_rep|].
    intros <-. apply Ha. rewrite Eq, fmap_app. apply elem_of_app. right. by left.
  - intros b Hb. destruct (decide (b = a)) as [->|Hne]; [rewrite lookup_delete_eq in Hb; by destruct Hb|].
    rewrite lookup_delete_ne in Hb by done. apply unlinked_dom in Hb.
    rewrite fmap_app in *. simpl in Hb. rewrite elem_of_app, elem_of_cons in Hb. rewrite elem_of_app. tauto.
  - pose proof (lh_bound _ _ Hl) as Hb. rewrite alen_app, alen_cons in Hb. rewrite alen_app. lia.
Qed.

Lemma remove_holds :
  exists l', List_remove l (LNode a) = Done l' /\ list_holds l' (p ++ s) /\ l_this l' = l_this l.
Proof.
  destruct unlink_delete_holds as (l1 & l' & E1 & _ & E2 & Hl' & Ht). exists l'.
  unfold List_remove. rewrite E1. by split.
Qed.

End removal.

(** * Reading *)

Section reading.
Context {T : Type} (l : List T) (es : list (Z * T)) (Hl : list_holds l es).

Lemma List_begin_holds : List_begin l = Done (next_ptr (l_this l) es).
Proof. unfold List_begin. by rewrite (lh_head _ _ Hl). Qed.

Lemma LIterator_next_holds p a x s :
  es = p ++ (a, x) :: s -> LIterator_next l (LNode a) = Done (next_ptr (l_this l) s).
Proof. intros E. unfold LIterator_next. simpl. by rewrite (lh_nodes _ _ Hl p a x s E). Qed.

Lemma LIterator_deref_holds p a x s :
  es = p ++ (a, x) :: s -> LIterator_deref l (LNode a) = Done x.
Proof. intros E. simpl. by rewrite (lh_nodes _ _ Hl p a x s E). Qed.

Lemma next_ptr_end (s : list (Z * T)) : bool_decide (next_ptr (l_this l) s <> List_end l) = match s with [] => false | _ => true end.
Proof.
  destruct s as [|[a x] s]; cbn [next_ptr]; unfold List_end.
  - apply bool_decide_eq_false_2. naive_solver.
  - by apply bool_decide_eq_true_2.
Qed.

(** The nodes are at least as many as the elements: enough turns for every loop. *)
Lemma holds_size : (length es <= size (l_nodes l))%nat.
Proof.
  rewrite <- size_dom, <- (length_fmap fst es), <- (size_list_to_set (C := gset Z)) by apply (lh_nodup _ _ Hl).
  apply subseteq_size. intros a Ha. apply elem_of_list_to_set in Ha.
  apply list_elem_of_fmap in Ha as ([b x] & -> & He). apply list_elem_of_split in He as (p & s & E).
  apply elem_of_dom. simpl. rewrite (lh_nodes _ _ Hl p b x s E). eauto.
Qed.

(** The iterator after [k] steps from the start; the step past the end is a failed
    assertion. *)
Lemma List_iterator_at_holds k :
  List_iterator_at l k =
    if u32 k <=? alen es then Done (next_ptr (l_this l) (drop (Z.to_nat (u32 k)) es)) else Panic.
Proof.
  pose proof (u32_range k) as Hk. unfold List_iterator_at. rewrite List_begin_holds. cbn [mbind exec_bind].
  assert (H : forall (n : nat) i p s, es = p ++ s ->
    for_ n i (fun _ itr => LIterator_next l itr) (next_ptr (l_this l) s)
    = if (n <=? length s)%nat then Done (next_ptr (l_this l) (drop n s)) else Panic).
  { intros n. induction n as [|n IH]; intros i p s E; [done|]. cbn [for_]. destruct s as [|[a x] s].
    - unfold LIterator_next. simpl. rewrite Z.eqb_refl. simpl. by rewrite (lh_end_next _ _ Hl).
    - change (next_ptr (l_this l) ((a, x) :: s)) with (LNode a).
      rewrite (LIterator_next_holds p a x s E). cbn [mbind exec_bind].
      rewrite (IH _ (p ++ [(a, x)]) s) by (by rewrite <- app_assoc). done. }
  rewrite (H _ _ [] es eq_refl). destruct (Nat.leb_spec (Z.to_nat (u32 k)) (length es)), (Z.leb_spec (u32 k) (alen es));
    unfold alen in *; done || lia.
Qed.

Lemma List_index_holds k :
  0 <= k < alen es -> k < 2 ^ 32 -> exists x, es.*2 !! Z.to_nat k = Some x /\ List_index l k = Done x.
Proof.
  intros Hk Hk'. destruct (lookup_lt_is_Some_2 es (Z.to_nat k)) as [[a x] E]; [unfold alen in Hk; lia|].
  exists x. split; [by rewrite list_lookup_fmap, E|]. unfold List_index.
  rewrite List_iterator_at_holds, u32_small, (proj2 (Z.leb_le _ _)) by lia. cbn [mbind exec_bind].
  rewrite (drop_S _ (a, x) _ E). simpl. pose proof (take_drop_middle _ _ _ E) as Em.
  by rewrite (lh_nodes _ _ Hl _ a x _ (eq_sym Em)).
Qed.

(** The first element that satisfies the predicate, or the end. *)
Fixpoint drop_until (f : T -> bool) (s : list (Z * T)) : list (Z * T) :=
  match s with [] => [] | e :: s' => if f e.2 then s else drop_until f s' end.

Lemma List_find_if_holds (f : T -> bool) :
  List_find_if l f = Done (next_ptr (l_this l) (drop_until f es)).
Proof.
  unfold List_find_if. rewrite List_begin_holds. cbn [mbind exec_bind].
  pose proof holds_size as Hsz. revert Hsz. generalize (size (l_nodes l)) as n. intros n Hsz.
  assert (Hfuel : (length es < S n)%nat) by lia. clear Hsz. revert Hfuel. generalize (S n) as fuel.
  assert (Hsplit : exists p, es = p ++ es) by by exists []. destruct Hsplit as [p E]. revert p E.
  generalize es at 2 3 4 5 as s. induction s as [|[a x] s IH]; intros p E [|fuel] Hf; simpl in Hf; try lia;
    cbn [while]; rewrite next_ptr_end; [done|].
  change (next_ptr (l_this l) ((a, x) :: s)) with (LNode a).
  rewrite (LIterator_deref_holds p a x s E). cbn [mbind exec_bind drop_until snd]. destruct (f x); [done|].
  rewrite (LIterator_next_holds p a x s E). cbn [mbind exec_bind].
  apply (IH (p ++ [(a, x)])); [by rewrite <- app_assoc|lia].
Qed.

Lemma drop_until_found f (s : list (Z * T)) :
  match drop_until f s with [] => false | _ => true end = existsb f s.*2.
Proof. induction s as [|[a x] s IH]; [done|]. simpl. by destruct (f x). Qed.

Lemma List_contains_holds (f : T -> bool) : List_contains l f = Done (existsb f es.*2).
Proof.
  unfold List_contains. rewrite List_find_if_holds. cbn [mbind exec_bind].
  by rewrite next_ptr_end, drop_until_found.
Qed.

Lemma List_last_holds a x p : es = p ++ [(a, x)] -> List_last l = Done x.
Proof.
  intros E. unfold List_last, LIterator_prev, List_end. simpl. rewrite Z.eqb_refl. simpl.
  rewrite (lh_end_prev _ _ Hl) by (rewrite E; by destruct p). rewrite E. unfold prev_ptr. rewrite last_snoc. simpl.
  by rewrite (lh_nodes _ _ Hl p a x [] E).
Qed.

End reading.

(** * Loops that change the list *)

(** The elements that a predicate does not remove. *)
Definition keep {T} (f : T -> bool) (s : list (Z * T)) : list (Z * T) :=
  List.filter (fun e => negb (f e.2)) s.

Lemma remove_if_loop {T} (f : T -> bool) (s : list (Z * T)) : forall p (l : List T) fuel flag,
  list_holds l (p ++ s) -> (length s < fuel)%nat ->
  exists l', while fuel
    (fun '(i, is_removed, l) =>
       if bool_decide (i <> List_end l) then
         next ← LIterator_next l i;
         x ← LIterator_deref l i;
         if f x then l ← List_remove l i; Done (inl (next, true, l))
         else Done (inl (next, is_removed, l))
       else Done (inr (is_removed, l)))
    (next_ptr (l_this l) s, flag, l) = Done (flag || existsb f s.*2, l') /\
  list_holds l' (p ++ keep f s) /\ l_this l' = l_this l.
Proof.
  induction s as [|[a x] s IH]; intros p l [|fuel] flag Hl Hf; simpl in Hf; try lia;
    cbn [while]; rewrite next_ptr_end.
  { exists l. cbn [mbind exec_bind fmap list_fmap existsb]. rewrite orb_false_r. by split. }
  change (next_ptr (l_this l) ((a, x) :: s)) with (LNode a).
  rewrite (LIterator_next_holds _ _ Hl p a x s eq_refl), (LIterator_deref_holds _ _ Hl p a x s eq_refl).
  cbn [mbind exec_bind]. unfold keep. simpl. destruct (f x) eqn:Ef; simpl.
  - destruct (remove_holds l p s a x Hl) as (l1 & -> & Hl1 & Ht). cbn [mbind exec_bind].
    destruct (IH p l1 fuel true Hl1) as (l' & E & Hl' & Ht'); [lia|]. rewrite Ht in E.
    exists l'. rewrite E, orb_true_r. split; [done|]. split; [done|congruence].
  - destruct (IH (p ++ [(a, x)]) l fuel flag) as (l' & E & Hl' & Ht'); [by rewrite <- app_assoc|lia|].
    exists l'. rewrite E. split; [done|]. by rewrite <- app_assoc in Hl'.
Qed.

Lemma List_remove_if_holds {T} (l : List T) es (f : T -> bool) :
  list_holds l es ->
  exists l', List_remove_if l f = Done (existsb f es.*2, l') /\ list_holds l' (keep f es) /\ l_this l' = l_this l.
Proof.
  intros Hl. unfold List_remove_if. rewrite (List_begin_holds _ _ Hl). cbn [mbind exec_bind].
  apply (remove_if_loop f es [] l _ false); [done|]. pose proof (holds_size _ _ Hl). lia.
Qed.

Lemma clear_loop {T} (s : list (Z * T)) : forall (l : List T) fuel,
  (forall p a x r, s = p ++ (a, x) :: r -> exists prev,
     l_nodes l !! a = Some (mkLNode x (mkShallow (Some (next_ptr (l_this l) r)) prev))) ->
  (forall a, is_Some (l_nodes l !! a) -> a ∈ s.*1) -> NoDup s.*1 -> (length s < fuel)%nat ->
  while fuel
    (fun '(curr, l) =>
       match curr with
       | Some p =>
           if bool_decide (curr <> ending_node l) then
             s ← links_of l curr; l ← delete_Node l p; Done (inl (sn_next s, l))
           else Done (inr l)
       | None => Done (inr l)
       end)
    (Some (next_ptr (l_this l) s), l)
  = Done (mkList (l_this l) ∅ (l_ending l) (l_head l) (l_tail l) (l_count l)).
Proof.
  induction s as [|[a x] s IH]; intros l [|fuel] Hn Hd Hnd Hf; simpl in Hf; try lia; cbn [while].
  - rewrite bool_decide_eq_false_2 by (unfold ending_node; naive_solver). cbn [mbind exec_bind].
    do 2 f_equal. assert (E : l_nodes l = ∅).
    { apply map_empty. intros a. destruct (l_nodes l !! a) eqn:Ea; [|done].
      exfalso. apply (not_elem_of_nil a), Hd. eauto. }
    destruct l; simpl in *. by subst.
  - destruct (Hn [] a x s eq_refl) as [prev Ea]. simpl in Hnd. apply NoDup_cons in Hnd as [Ha Hnd].
    rewrite bool_decide_eq_true_2 by (unfold ending_node; simpl; congruence).
    cbn [next_ptr links_of]. rewrite Ea. cbn [mbind exec_bind delete_Node]. rewrite Ea. cbn [mbind exec_bind ln_links sn_next].
    set (l1 := mkList (l_this l) (delete a (l_nodes l)) (l_ending l) (l_head l) (l_tail l) (l_count l)).
    apply (IH l1 fuel); [|..|done|lia]; simpl.
    + intros p b y r E. rewrite lookup_delete_ne; [apply (Hn ((a, x) :: p)); by rewrite E|].
      intros <-. apply Ha. rewrite E, fmap_app. apply elem_of_app. right. by left.
    + intros b Hb. destruct (decide (b = a)) as [->|Hba]; [rewrite lookup_delete_eq in Hb; by destruct Hb|].
      rewrite lookup_delete_ne in Hb by done. apply Hd, elem_of_cons in Hb as [->|]; done.
Qed.

Lemma List_clear_holds {T} (l : List T) es :
  list_holds l es -> exists l', List_clear l = Done l' /\ list_holds l' [] /\ l_this l' = l_this l.
Proof.
  intros Hl. unfold List_clear. rewrite (lh_head _ _ Hl), (clear_loop es l).
  - cbn [mbind exec_bind]. eexists. split; [done|]. split; [|done].
    split; simpl; try done; [by intros []|intros a Ha; rewrite lookup_empty in Ha; by destruct Ha|constructor|apply (lh_end_next _ _ Hl)].
  - intros p a x r E. rewrite (lh_nodes _ _ Hl p a x r E). eauto.
  - apply (lh_dom _ _ Hl).
  - apply (lh_nodup _ _ Hl).
  - pose proof (holds_size _ _ Hl). lia.
Qed.

Lemma List_new_holds {T} this : list_holds (@List_new T this) [].
Proof.
  split; simpl; try done; [by intros []|intros a Ha; rewrite lookup_empty in Ha; by destruct Ha|constructor].
Qed.

(** * Sequences of calls

    Nodes are allocated at increasing addresses, the next one is [a]. *)

Inductive list_call {T} :=
| LInsert (k : Z) (x : T)
| LPushBack (x : T)
| LPushFront (x : T)
| LPopBack
| LPopFront
| LRemove (k : Z)
| LRemoveIf (f : T -> bool)
| LClear.
Arguments list_call : clear implicits.

Definition list_step {T} (l : List T) (a : Z) (c : list_call T) : exec (List T) :=
  match c with
  | LInsert k x => it ← List_iterator_at l k; List_insert l it a x
  | LPushBack x => List_push_back l a x
  | LPushFront x => List_push_front l a x
  | LPopBack => List_pop_back l
  | LPopFront => List_pop_front l
  | LRemove k => it ← List_iterator_at l k; List_remove l it
  | LRemoveIf f => r ← List_remove_if l f; Done r.2
  | LClear => List_clear l
  end.

Fixpoint list_run {T} (l : List T) (a : Z) (cs : list (list_call T)) : exec (List T) :=
  match cs with [] => Done l | c :: cs => l ← list_step l a c; list_run l (a + 1) cs end.

(** The same on the elements; [None] for a position that is not in the list. *)
Definition list_spec {T} (xs : list T) (c : list_call T) : option (list T) :=
  match c with
  | LInsert k x =>
      if (0 <=? k) && (k <=? alen xs) then Some (take (Z.to_nat k) xs ++ x :: drop (Z.to_nat k) xs) else None
  | LPushBack x => Some (xs ++ [x])
  | LPushFront x => Some (x :: xs)
  | LPopBack => match xs with [] => None | _ => Some (removelast xs) end
  | LPopFront => match xs with [] => None | _ :: xs => Some xs end
  | LRemove k =>
      if (0 <=? k) && (k <? alen xs) then Some (take (Z.to_nat k) xs ++ drop (S (Z.to_nat k)) xs) else None
  | LRemoveIf f => Some (List.filter (fun x => negb (f x)) xs)
  | LClear => Some []
  end.

Fixpoint list_specs {T} (xs : list T) (cs : list (list_call T)) : option (list T) :=
  match cs with [] => Some xs | c :: cs => xs ← list_spec xs c; list_specs xs cs end.

(** The list holds the elements [xs], and its nodes are below the next address. *)
Definition holds_elements {T} (l : List T) (a : Z) (xs : list T) : Prop :=
  exists es, list_holds l es /\ es.*2 = xs /\ Forall (fun e => e.1 < a) es.

Lemma fresh_address {T} (l : List T) es a :
  list_holds l es -> Forall (fun e => e.1 < a) es -> l_nodes l !! a = None.
Proof.
  intros Hl Ha. destruct (l_nodes l !! a) eqn:E; [|done]. exfalso.
  assert (Hin : a ∈ es.*1) by (apply (lh_dom _ _ Hl); eauto).
  apply list_elem_of_fmap in Hin as (e & -> & He). rewrite Forall_forall in Ha. apply Ha in He. lia.
Qed.

Lemma insert_elements {T} (l : List T) a p s x :
  list_holds l (p ++ s) -> Forall (fun e => e.1 < a) (p ++ s) -> alen (p ++ s) + 1 < 2 ^ 32 ->
  exists l', List_insert l (next_ptr (l_this l) s) a x = Done l' /\
    holds_elements l' (a + 1) (p.*2 ++ x :: s.*2).
Proof.
  intros Hl Ha Hb. destruct (insert_holds l p s a x Hl) as (l' & E & Hl' & _); [by eapply fresh_address|done|].
  exists l'. split; [done|]. exists (p ++ (a, x) :: s). split; [done|]. split; [by rewrite fmap_app|].
  apply Forall_app in Ha as [Hp Hs].
  apply Forall_app. split; [|apply Forall_cons; split; [simpl; lia|]];
    (eapply Forall_impl; [eassumption|simpl; intros; lia]).
Qed.

Lemma remove_elements {T} (l : List T) a p b y s :
  list_holds l (p ++ (b, y) :: s) -> Forall (fun e => e.1 < a) (p ++ (b, y) :: s) ->
  exists l', List_remove l (LNode b) = Done l' /\ holds_elements l' (a + 1) (p.*2 ++ s.*2).
Proof.
  intros Hl Ha. destruct (remove_holds l p s b y Hl) as (l' & E & Hl' & _).
  exists l'. split; [done|]. exists (p ++ s). split; [done|]. split; [by rewrite fmap_app|].
  apply Forall_app in Ha as [Hp Hs]. apply Forall_cons in Hs as [_ Hs].
  apply Forall_app. split; (eapply Forall_impl; [eassumption|simpl; intros; lia]).
Qed.

Lemma pop_back_spec {A} (p q : list A) x :
  match p ++ [x] with [] => None | _ => Some (removelast (p ++ [x])) end = Some q -> q = p.
Proof. rewrite removelast_last. destruct (p ++ [x]) eqn:E; [by destruct p|]. by intros [= ->]. Qed.

Lemma keep_elements {T} (f : T -> bool) (es : list (Z * T)) :
  (keep f es).*2 = List.filter (fun x => negb (f x)) es.*2.
Proof. induction es as [|[a x] es IH]; [done|]. unfold keep in *. simpl. destruct (f x); simpl; [exact IH|by f_equal]. Qed.

Lemma keep_bound {T} (f : T -> bool) (es : list (Z * T)) a :
  Forall (fun e => e.1 < a) es -> Forall (fun e => e.1 < a + 1) (keep f es).
Proof.
  induction es as [|e es IH]; intros Ha; [constructor|]. apply Forall_cons in Ha as [He Ha].
  unfold keep in *. simpl. destruct (negb (f e.2)); [|by apply IH]. constructor; [lia|by apply IH].
Qed.

Lemma list_step_refines {T} (l : List T) a xs c xs' :
  holds_elements l a xs -> list_spec xs c = Some xs' -> alen xs + 1 < 2 ^ 32 ->
  exists l', list_step l a c = Done l' /\ holds_elements l' (a + 1) xs'.
Proof.
  intros (es & Hl & <- & Ha) Hs Hb. rewrite alen_fmap in Hb. destruct c as [k x|x|x| | |k|f|]; simpl in Hs |- *.
  - rewrite alen_fmap in Hs. destruct (_ && _) eqn:Hk; [|done]. injection Hs as <-. to_prop.
    rewrite (List_iterator_at_holds l es Hl), u32_small, (proj2 (Z.leb_le k _)) by lia. cbn [mbind exec_bind].
    rewrite <- fmap_take, <- fmap_drop. apply insert_elements; by rewrite take_drop.
  - injection Hs as <-. rewrite <- (app_nil_r es) in Hl, Ha, Hb. by apply (insert_elements l a es []).
  - injection Hs as <-. unfold List_push_front. rewrite (List_begin_holds l es Hl). cbn [mbind exec_bind].
    by apply (insert_elements l a [] es).
  - destruct es as [|[b y] es _] using rev_ind; [done|]. unfold List_pop_back, LIterator_prev, List_end. simpl.
    rewrite Z.eqb_refl. simpl. rewrite (lh_end_prev _ _ Hl) by (by destruct es). unfold prev_ptr. rewrite last_snoc. simpl.
    rewrite fmap_app in Hs. apply pop_back_spec in Hs as ->. rewrite <- (app_nil_r es.*2).
    by apply (remove_elements l a es b y []).
  - destruct es as [|[b y] es]; [done|]. injection Hs as <-. unfold List_pop_front.
    rewrite (List_begin_holds l _ Hl). cbn [mbind exec_bind next_ptr]. by apply (remove_elements l a [] b y es).
  - rewrite alen_fmap in Hs. destruct (_ && _) eqn:Hk; [|done]. injection Hs as <-. to_prop.
    rewrite (List_iterator_at_holds l es Hl), u32_small, (proj2 (Z.leb_le k _)) by lia. cbn [mbind exec_bind].
    destruct (lookup_lt_is_Some_2 es (Z.to_nat k)) as [[b y] E]; [unfold alen in *; lia|].
    rewrite (drop_S _ _ _ E). cbn [next_ptr]. pose proof (take_drop_middle _ _ _ E) as Em.
    rewrite <- fmap_take, <- fmap_drop. rewrite <- Em in Hl, Ha. by apply (remove_elements _ _ _ b y).
  - injection Hs as <-. destruct (List_remove_if_holds l es f Hl) as (l' & -> & Hl' & _). cbn [mbind exec_bind snd].
    exists l'. split; [done|]. exists (keep f es). split; [done|]. split; [apply keep_elements|by apply keep_bound].
  - injection Hs as <-. destruct (List_clear_holds l es Hl) as (l' & -> & Hl' & _). exists l'. split; [done|].
    exists []. split; [done|]. split; [done|constructor].
Qed.

Lemma list_spec_grows {T} (xs : list T) c xs' : list_spec xs c = Some xs' -> alen xs' <= alen xs + 1.
Proof.
  destruct c as [k x|x|x| | |k|f|]; simpl; intros Hs.
  - destruct (_ && _); [|done]. injection Hs as <-. rewrite alen_app, alen_cons. unfold alen. rewrite length_take, length_drop. lia.
  - injection Hs as <-. rewrite alen_snoc. lia.
  - injection Hs as <-. rewrite alen_cons. lia.
  - destruct xs as [|x xs _] using rev_ind; [done|]. apply pop_back_spec in Hs as ->. rewrite alen_snoc. lia.
  - destruct xs as [|x xs]; [done|]. injection Hs as <-. rewrite alen_cons. lia.
  - destruct (_ && _); [|done]. injection Hs as <-. rewrite alen_app. unfold alen. rewrite length_take, length_drop. lia.
  - injection Hs as <-. unfold alen. pose proof (List.filter_length_le (fun x => negb (f x)) xs). lia.
  - injection Hs as <-. rewrite (@alen_nil T). pose proof (alen_nonneg xs). lia.
Qed.

Lemma list_specs_grow {T} cs : forall (xs xs' : list T), list_specs xs cs = Some xs' -> alen xs' <= alen xs + alen cs.
Proof.
  induction cs as [|c cs IH]; intros xs xs' Hs; simpl in Hs.
  - injection Hs as ->. rewrite (@alen_nil (list_call T)). lia.
  - apply bind_Some in Hs as (xs1 & E & Hs). apply IH in Hs. apply list_spec_grows in E. rewrite alen_cons. lia.
Qed.

Lemma list_run_refines {T} (cs : list (list_call T)) : forall (l : List T) a xs xs',
  holds_elements l a xs -> list_specs xs cs = Some xs' -> alen xs + alen cs < 2 ^ 32 ->
  exists l', list_run l a cs = Done l' /\ holds_elements l' (a + alen cs) xs'.
Proof.
  induction cs as [|c cs IH]; intros l a xs xs' Hl Hs Hb; simpl in *.
  - injection Hs as <-. exists l. split; [done|]. rewrite (@alen_nil (list_call T)). by rewrite Z.add_0_r.
  - destruct (list_spec xs c) as [xs1|] eqn:E; [|done]. simpl in Hs. rewrite alen_cons in *. pose proof (alen_nonneg cs).
    destruct (list_step_refines l a xs c xs1 Hl E) as (l1 & -> & Hl1); [lia|]. cbn [mbind exec_bind].
    pose proof (list_spec_grows xs c xs1 E).
    destruct (IH l1 (a + 1) xs1 xs' Hl1 Hs) as (l' & E' & Hl'); [lia|]. exists l'. split; [done|].
    by replace (a + (alen cs + 1)) with (a + 1 + alen cs) by lia.
Qed.

(** C24: a list changed by any sequence of [insert], [push_back], [push_front],
    [pop_back], [pop_front], [remove], [remove_if] and [clear] calls, at positions that
    are in the list, holds the elements that the same changes make of a sequence: the
    links, the head, the tail, the count and the ending node stay consistent, every
    deleted node is unlinked first and no pointer to one is followed. On the result,
    [size], [operator[]], [contains], [first] and [last] are those of the sequence. *)
Theorem list_refines_sequence {T} (this : Z) (cs : list (list_call T)) (xs : list T)
    (Hs : list_specs [] cs = Some xs) (Hb : alen cs < 2 ^ 32) :
  exists l, list_run (List_new this) 0 cs = Done l /\
    List_size l = alen xs /\
    (forall k, 0 <= k < alen xs -> exists x, xs !! Z.to_nat k = Some x /\ List_index l k = Done x) /\
    (forall f, List_contains l f = Done (existsb f xs)) /\
    (forall x p, xs = x :: p -> List_first l = Done x) /\
    (forall x p, xs = p ++ [x] -> List_last l = Done x).
Proof.
  destruct (list_run_refines cs (List_new this) 0 [] xs) as (l & E & es & Hl & <- & _); [|done|done|].
  { exists []. split; [apply List_new_holds|]. split; [done|constructor]. }
  exists l. split; [done|]. split; [by rewrite alen_fmap; apply (lh_count _ _ Hl)|]. split; [|split; [|split]].
  - intros k Hk. apply list_specs_grow in Hs. rewrite (@alen_nil T) in Hs. rewrite alen_fmap in *. apply List_index_holds; lia || done.
  - intros f. by apply List_contains_holds.
  - intros x p Ex. destruct es as [|[a y] es]; [done|]. injection Ex as <- _. unfold List_first.
    rewrite (List_begin_holds l _ Hl). apply (LIterator_deref_holds l _ Hl [] a y es eq_refl).
  - intros x p Ex. destruct es as [|[a y] es _] using rev_ind; [by destruct p|]. rewrite fmap_app in Ex.
    apply app_inj_tail in Ex as [_ <-]. by apply (List_last_holds l _ Hl a y es).
Qed.

Lemma list_refines_sequence_witness :
  exists l, list_run (List_new 7) 0 [LPushBack 1; LPushFront 2; LInsert 1 3; LPushBack 4; LPopFront; LRemove 1] = Done l /\
    List_size l = 2 /\ List_contains l (fun x => x =? 4) = Done true /\ List_last l = Done 4.
Proof.
  destruct (list_refines_sequence 7 [LPushBack 1; LPushFront 2; LInsert 1 3; LPushBack 4; LPopFront; LRemove 1] [3; 4])
    as (l & E & Hsz & _ & Hc & _ & Hl); [reflexivity|reflexivity|].
  exists l. split; [exact E|]. split; [exact Hsz|]. split; [apply Hc|]. by apply (Hl 4 [3]).
Defined.

(** * Moving and splicing *)

(** The move constructor does not set the ending node of the new list: the next
    [push_back] follows its null [prev]. *)
Lemma list_move_push_back_faults {T} (this b : Z) (other : List T) es a x y :
  list_holds other (es ++ [(a, x)]) ->
  exists l left_over, List_move this other = Done (l, left_over) /\ List_push_back l b y = Fault.
Proof.
  intros Ho. pose proof (lh_head _ _ Ho) as Ehd. pose proof (lh_tail _ _ Ho) as Etl.
  pose proof (lh_nodes _ _ Ho es a x [] eq_refl) as Ea. pose proof (lh_count _ _ Ho) as Ec.
  unfold last_ptr in Etl. rewrite last_snoc in Etl. unfold List_move, List_take. rewrite Etl. node_eval.
  eexists _, _. split; [done|]. unfold List_push_back, List_insert, List_link_node, new_Node, List_end.
  cbn [l_this l_nodes l_ending l_head l_tail l_count].
  rewrite (proj2 (Z.eqb_neq _ 0)) by (rewrite Ec, alen_snoc; pose proof (alen_nonneg es); lia).
  assert (Some (LEnd this) <> l_head other) by (rewrite Ehd; by destruct es as [|[] ?]).
  by node_eval.
Qed.

(** [splice] moves one node: it leaves the first list and ends the second, at the same
    address. *)
Lemma list_splice_holds {T} (l m : List T) p a x s es :
  list_holds l (p ++ (a, x) :: s) -> list_holds m es -> l_nodes m !! a = None -> alen es + 1 < 2 ^ 32 ->
  exists l' m', List_splice l m (LNode a) = Done (l', m') /\ list_holds l' (p ++ s) /\ list_holds m' (es ++ [(a, x)]).
Proof.
  intros Hl Hm Ha Hb. destruct (unlink_delete_holds l p s a x Hl) as (l1 & l' & E1 & E2 & E3 & Hl' & _).
  unfold List_splice. rewrite E1. cbn [mbind exec_bind]. rewrite E2. cbn [mbind exec_bind]. rewrite E3. cbn [mbind exec_bind].
  rewrite <- (app_nil_r es) in Hm, Hb. destruct (insert_holds m es [] a x Hm Ha Hb) as (m' & E & Hm' & _).
  unfold List_push_back, List_end. cbn [next_ptr] in E. rewrite E. cbn [mbind exec_bind]. by exists l', m'.
Qed.
