(* ===== verification/Handles.v ===== *)
(** The handles of a process (handles_manager.cpp): numbers for open files and
    processes. The three [List]s of the manager are the sequences of their elements, as
    verified in LinkedList; an object that the manager owns is its address, and
    dropping its [UniquePointer] destroys it. *)

From S2P Require Import Prelude.

Inductive HandleType := HInvalid | HFileDescription | HProcessDescription.

#[export] Instance HandleType_eq_dec : EqDecision HandleType.
Proof. solve_decision. Defined.

(** The two pointers of the union are one address. *)
Record HandleEntry := mkEntry {
  he_type : HandleType;
  he_description : Z
}.

Record HandlesManager := mkHandles {
  handle_table : list HandleEntry;
  file_description_table : list Z;
  process_description_table : list Z
}.

(** What a handle can stand for, by the address of its description. *)
Inductive object := File (description : Z) | Process (description : Z).

#[export] Instance object_eq_dec : EqDecision object.
Proof. solve_decision. Defined.

Definition HandlesManager_new : HandlesManager := mkHandles [] [] [].

(** [handle_table[handle]]: [operator[]] takes an [int] and walks from the start; one
    past the end is the ending node, which holds no entry, and the step after it fails an
    assertion, as every negative number does in the end. *)
Definition table_entry (m : HandlesManager) (handle : Z) : exec HandleEntry :=
  let num := s32 handle in
  if num <? 0 then Panic
  else if num <? alen (handle_table m) then aget (handle_table m) num
  else if num =? alen (handle_table m) then Fault
  else Panic.

Definition HandlesManager_add_file (m : HandlesManager) (file_description : Z) : Z * HandlesManager :=
  let table := handle_table m ++ [mkEntry HFileDescription file_description] in
  (u32 (alen table - 1),
   mkHandles table (file_description_table m ++ [file_description]) (process_description_table m)).

Definition HandlesManager_add_process (m : HandlesManager) (process_description : Z) : Z * HandlesManager :=
  let table := handle_table m ++ [mkEntry HProcessDescription process_description] in
  (u32 (alen table - 1),
   mkHandles table (file_description_table m) (process_description_table m ++ [process_description])).

(** [remove_if] of a table of unique pointers: what is left, and what is destroyed. *)
Definition drop_pointer (table : list Z) (p : Z) : list Z * list Z :=
  (List.filter (fun q => negb (q =? p)) table, List.filter (fun q => q =? p) table).

(** Also gives the objects that were destroyed. *)
Definition HandlesManager_remove_handle (m : HandlesManager) (handle : Z) : exec (list object * HandlesManager) :=
  entry ← table_entry m handle;
  _ ← ASSERT (truthy (he_description entry));
  _ ← ASSERT (negb (bool_decide (he_type entry = HInvalid)));
  let p := he_description entry in
  '(files, processes, destroyed) ←
    (match he_type entry with
     | HFileDescription =>
         let '(rest, gone) := drop_pointer (file_description_table m) p in
         Done (rest, process_description_table m, File <$> gone)
     | HProcessDescription =>
         let '(rest, gone) := drop_pointer (process_description_table m) p in
         Done (file_description_table m, rest, Process <$> gone)
     | HInvalid => Panic
     end);
  table ← aset (handle_table m) (s32 handle) (mkEntry HInvalid p);
  Done (destroyed, mkHandles table files processes).

Definition HandlesManager_get_file_description (m : HandlesManager) (handle : Z) : exec Z :=
  entry ← table_entry m handle;
  _ ← ASSERT (truthy (he_description entry));
  _ ← ASSERT (bool_decide (he_type entry = HFileDescription));
  Done (he_description entry).

Definition HandlesManager_get_process_description (m : HandlesManager) (handle : Z) : exec Z :=
  entry ← table_entry m handle;
  _ ← ASSERT (truthy (he_description entry));
  _ ← ASSERT (bool_decide (he_type entry = HProcessDescription));
  Done (he_description entry).

Definition HandlesManager_check_handle (m : HandlesManager) (handle : Z) : exec HandleType :=
  if alen (handle_table m) <=? handle then Done HInvalid
  else entry ← table_entry m handle; Done (he_type entry).

(** * What the handles stand for

    The abstract table gives for every handle handed out the object it stands for, or
    nothing once it was removed. Handles are never given out again. *)

Definition live_file (o : option object) : option Z :=
  match o with Some (File p) => Some p | _ => None end.
Definition live_process (o : option object) : option Z :=
  match o with Some (Process p) => Some p | _ => None end.

Definition object_type (o : option object) : HandleType :=
  match o with Some (File _) => HFileDescription | Some (Process _) => HProcessDescription | None => HInvalid end.

Definition entry_rep (e : HandleEntry) (o : option object) : Prop :=
  he_type e = object_type o /\ he_description e <> 0 /\
  (forall p, live_file o = Some p \/ live_process o = Some p -> he_description e = p).

(** The owned files and processes are exactly the live objects of the table, each once. *)
Record handles_rep (m : HandlesManager) (os : list (option object)) : Prop := {
  hm_table : Forall2 entry_rep (handle_table m) os;
  hm_files : file_description_table m = omap live_file os;
  hm_processes : process_description_table m = omap live_process os;
  hm_nodup_files : NoDup (omap live_file os);
  hm_nodup_processes : NoDup (omap live_process os);
  hm_bound : alen os < 2 ^ 31
}.

Inductive handle_call :=
| AddFile (p : Z)
| AddProcess (p : Z)
| RemoveHandle (h : Z).

(** A call, with the handle it returns and the objects it destroys. *)
Definition handles_step (m : HandlesManager) (c : handle_call) : exec (option Z * list object * HandlesManager) :=
  match c with
  | AddFile p => let '(h, m) := HandlesManager_add_file m p in Done (Some h, [], m)
  | AddProcess p => let '(h, m) := HandlesManager_add_process m p in Done (Some h, [], m)
  | RemoveHandle h =>
      r ← HandlesManager_remove_handle m h; Done (None, r.1, r.2)
  end.

(** The same on the abstract table: a removal destroys the object of its handle. *)
Definition objects_step (os : list (option object)) (c : handle_call)
    : exec (option Z * list object * list (option object)) :=
  match c with
  | AddFile p => Done (Some (alen os), [], os ++ [Some (File p)])
  | AddProcess p => Done (Some (alen os), [], os ++ [Some (Process p)])
  | RemoveHandle h =>
      match os !! Z.to_nat h with
      | Some (Some o) => Done (None, [o], <[Z.to_nat h := None]> os)
      | _ => Panic
      end
  end.

(** An added object is new; a removed handle was handed out. *)
Definition handle_call_ok (os : list (option object)) (c : handle_call) : Prop :=
  match c with
  | AddFile p => p <> 0 /\ Some (File p) ∉ os
  | AddProcess p => p <> 0 /\ Some (Process p) ∉ os
  | RemoveHandle h => 0 <= h < alen os
  end.

Lemma drop_absent (t : list Z) p : p ∉ t ->
  List.filter (fun q => negb (q =? p)) t = t /\ List.filter (fun q => q =? p) t = [].
Proof.
  induction t as [|q t IH]; intros Hp; [done|]. apply not_elem_of_cons in Hp as [Hq Hp]. simpl.
  rewrite (proj2 (Z.eqb_neq q p)) by congruence. simpl. destruct (IH Hp) as [-> ->]. done.
Qed.

Lemma drop_pointer_middle (s t : list Z) p :
  NoDup (s ++ p :: t) -> drop_pointer (s ++ p :: t) p = (s ++ t, [p]).
Proof.
  intros Hnd. apply NoDup_middle in Hnd as (Hs & Ht & _). unfold drop_pointer.
  rewrite !List.filter_app. simpl. rewrite Z.eqb_refl. simpl.
  destruct (drop_absent s p Hs) as [-> ->], (drop_absent t p Ht) as [-> ->]. done.
Qed.

Section handles.
Context (m : HandlesManager) (os : list (option object)) (Hm : handles_rep m os).

Lemma handles_length : alen (handle_table m) = alen os.
Proof. unfold alen. by rewrite (Forall2_length _ _ _ (hm_table _ _ Hm)). Qed.

(** The entry of a handle that was handed out. *)
Lemma table_entry_rep h :
  0 <= h < alen os ->
  exists e o p t, os = p ++ o :: t /\ alen p = h /\ os !! Z.to_nat h = Some o /\
    s32 h = h /\ table_entry m h = Done e /\ entry_rep e o.
Proof.
  intros Hh. pose proof (hm_bound _ _ Hm). pose proof handles_length as Hlen.
  destruct (lookup_lt_is_Some_2 os (Z.to_nat h)) as [o Eo]; [unfold alen in Hh; lia|].
  destruct (Forall2_lookup_r _ _ _ _ _ (hm_table _ _ Hm) Eo) as (e & Ee & He).
  exists e, o, (take (Z.to_nat h) os), (drop (S (Z.to_nat h)) os).
  split; [by rewrite take_drop_middle|]. split; [unfold alen in *; rewrite length_take; lia|]. split; [done|].
  assert (Hs : s32 h = h) by (apply s32_small; lia). split; [done|]. split; [|done].
  unfold table_entry. rewrite Hs, (proj2 (Z.ltb_ge _ _)), (proj2 (Z.ltb_lt _ _)) by lia.
  by apply aget_Done; [lia|].
Qed.

(** Reading a handle. *)
Lemma handles_read h :
  0 <= h ->
  HandlesManager_check_handle m h = Done (object_type (os !! Z.to_nat h ≫= id)) /\
  (h < alen os ->
   HandlesManager_get_file_description m h
     = match os !! Z.to_nat h with Some (Some (File p)) => Done p | _ => Panic end /\
   HandlesManager_get_process_description m h
     = match os !! Z.to_nat h with Some (Some (Process p)) => Done p | _ => Panic end).
Proof.
  intros Hh. unfold HandlesManager_check_handle. rewrite handles_length.
  destruct (Z.leb_spec (alen os) h) as [Hge|Hlt].
  { rewrite lookup_ge_None_2 by (unfold alen in Hge; lia). split; [done|lia]. }
  destruct (table_entry_rep h) as (e & o & p & t & _ & _ & Eo & _ & Ee & Ht & Hd & Hp); [lia|].
  unfold HandlesManager_get_file_description, HandlesManager_get_process_description.
  rewrite Ee, Eo. cbn [mbind exec_bind option_bind id]. rewrite Ht. split; [done|]. intros _.
  unfold truthy. rewrite (proj2 (Z.eqb_neq _ 0) Hd). cbn [negb ASSERT mbind exec_bind].
  destruct o as [[q|q]|]; simpl; [| |done].
  - split; [|done]. by rewrite (Hp q) by (by left).
  - split; [done|]. by rewrite (Hp q) by (by right).
Qed.

Lemma insert_handle_rep e o :
  entry_rep e o -> alen os + 1 < 2 ^ 31 ->
  (forall p, live_file o = Some p -> p ∉ omap live_file os) ->
  (forall p, live_process o = Some p -> p ∉ omap live_process os) ->
  handles_rep (mkHandles (handle_table m ++ [e])
    (file_description_table m ++ omap live_file [o]) (process_description_table m ++ omap live_process [o]))
    (os ++ [o]).
Proof.
  intros He Hb Hf Hp. split; simpl.
  - apply Forall2_app; [apply (hm_table _ _ Hm)|by constructor].
  - by rewrite omap_app, (hm_files _ _ Hm).
  - by rewrite omap_app, (hm_processes _ _ Hm).
  - rewrite omap_app. simpl. destruct (live_file o) as [p|]; [|rewrite app_nil_r; apply (hm_nodup_files _ _ Hm)].
    apply NoDup_app. split; [apply (hm_nodup_files _ _ Hm)|]. split; [|apply NoDup_singleton].
    intros x Hx ->%list_elem_of_singleton. by apply (Hf p).
  - rewrite omap_app. simpl. destruct (live_process o) as [p|]; [|rewrite app_nil_r; apply (hm_nodup_processes _ _ Hm)].
    apply NoDup_app. split; [apply (hm_nodup_processes _ _ Hm)|]. split; [|apply NoDup_singleton].
    intros x Hx ->%list_elem_of_singleton. by apply (Hp p).
  - by rewrite alen_snoc.
Qed.

Lemma omap_absent (f : option object -> option Z) (o : object) p :
  (forall o', f o' = Some p -> o' = Some o) -> Some o ∉ os -> p ∉ omap f os.
Proof.
  intros Hf Ho Hp. apply list_elem_of_omap in Hp as (o' & Ho' & E). apply Hf in E as ->. done.
Qed.

(** Removing a handle. *)
Lemma remove_handle_rep h :
  0 <= h < alen os ->
  match os !! Z.to_nat h with
  | Some (Some o) => exists m', HandlesManager_remove_handle m h = Done ([o], m') /\
      handles_rep m' (<[Z.to_nat h := None]> os)
  | _ => HandlesManager_remove_handle m h = Panic
  end.
Proof.
  intros Hh. destruct (table_entry_rep h Hh) as (e & o & p & t & Eos & Hlen & Eo & Hs & Ee & Ht & Hd & Hp).
  rewrite Eo. unfold HandlesManager_remove_handle. rewrite Ee. cbn [mbind exec_bind]. unfold truthy.
  rewrite (proj2 (Z.eqb_neq _ 0) Hd), Ht. cbn [negb ASSERT mbind exec_bind].
  destruct o as [o|]; [|done].
  assert (Hins : <[Z.to_nat h := None]> os = p ++ None :: t).
  { rewrite Eos, <- Hlen. unfold alen. rewrite Nat2Z.id. by rewrite insert_app_r_alt, Nat.sub_diag by lia. }
  pose proof (hm_nodup_files _ _ Hm) as Hnf. pose proof (hm_nodup_processes _ _ Hm) as Hnp.
  assert (Htab : exists tab, aset (handle_table m) h (mkEntry HInvalid (he_description e)) = Done tab /\
    Forall2 entry_rep tab (<[Z.to_nat h := None]> os)).
  { rewrite aset_Done by (rewrite handles_length; lia). eexists; split; [done|].
    apply Forall2_insert; [apply (hm_table _ _ Hm)|]. split; [done|]. split; [done|]. by intros q []. }
  destruct Htab as (tab & Etab & Htab). rewrite Hins in *. pose proof (hm_bound _ _ Hm) as Hb.
  rewrite (hm_files _ _ Hm), (hm_processes _ _ Hm), Eos in *. rewrite !omap_app in *.
  destruct o as [q|q]; simpl in *; cbn [negb ASSERT mbind exec_bind].
  - pose proof (drop_pointer_middle _ _ q Hnf) as Hdp. injection Hdp as E1 E2.
    rewrite (Hp q) in * by (by left). rewrite Hs, Etab. cbn [mbind exec_bind]. rewrite E1, E2.
    eexists; split; [done|].
    apply NoDup_middle in Hnf as (_ & _ & Hnf).
    split; simpl; rewrite ?omap_app; simpl; try done. rewrite alen_app, alen_cons in *. lia.
  - pose proof (drop_pointer_middle _ _ q Hnp) as Hdp. injection Hdp as E1 E2.
    rewrite (Hp q) in * by (by right). rewrite Hs, Etab. cbn [mbind exec_bind]. rewrite E1, E2.
    eexists; split; [done|].
    apply NoDup_middle in Hnp as (_ & _ & Hnp).
    split; simpl; rewrite ?omap_app; simpl; try done. rewrite alen_app, alen_cons in *. lia.
Qed.

End handles.

(** Any sequence of calls: the results, and the table at the end. *)
Fixpoint handles_run (m : HandlesManager) (cs : list handle_call)
    : exec (list (option Z * list object) * HandlesManager) :=
  match cs with
  | [] => Done ([], m)
  | c :: cs => r ← handles_step m c; r' ← handles_run r.2 cs; Done (r.1 :: r'.1, r'.2)
  end.

Fixpoint objects_run (os : list (option object)) (cs : list handle_call)
    : exec (list (option Z * list object) * list (option object)) :=
  match cs with
  | [] => Done ([], os)
  | c :: cs => r ← objects_step os c; r' ← objects_run r.2 cs; Done (r.1 :: r'.1, r'.2)
  end.

(** Every call is in order when its turn comes. *)
Fixpoint handle_calls_ok (os : list (option object)) (cs : list handle_call) : Prop :=
  match cs with
  | [] => True
  | c :: cs => handle_call_ok os c /\
      match objects_step os c with Done r => handle_calls_ok r.2 cs | _ => True end
  end.

Lemma handles_step_refines m os c :
  handles_rep m os -> handle_call_ok os c -> alen os + 1 < 2 ^ 31 ->
  match objects_step os c with
  | Done (h, gone, os') => exists m', handles_step m c = Done (h, gone, m') /\ handles_rep m' os'
  | _ => handles_step m c = Panic
  end.
Proof.
  intros Hm Hok Hb. pose proof (alen_nonneg os). destruct c as [p|p|h]; simpl in Hok |- *.
  - destruct Hok as [Hp Hnew]. unfold HandlesManager_add_file. rewrite alen_snoc, (handles_length m os Hm).
    rewrite Z.add_simpl_r, u32_small by lia. eexists; split; [done|].
    rewrite <- (app_nil_r (process_description_table m)).
    apply (insert_handle_rep m os Hm (mkEntry HFileDescription p) (Some (File p))); [|done| |done].
    + split; [done|]. split; [done|]. intros q [[= ->]|]; done.
    + intros q [= <-]. apply (omap_absent os live_file (File p)); [|done].
      intros [[q|q]|] E; simplify_eq/=; done.
  - destruct Hok as [Hp Hnew]. unfold HandlesManager_add_process. rewrite alen_snoc, (handles_length m os Hm).
    rewrite Z.add_simpl_r, u32_small by lia. eexists; split; [done|].
    rewrite <- (app_nil_r (file_description_table m)).
    apply (insert_handle_rep m os Hm (mkEntry HProcessDescription p) (Some (Process p))); [|done|done|].
    + split; [done|]. split; [done|]. intros q [|[= ->]]; done.
    + intros q [= <-]. apply (omap_absent os live_process (Process p)); [|done].
      intros [[q|q]|] E; simplify_eq/=; done.
  - pose proof (remove_handle_rep m os Hm h Hok) as Hr.
    destruct (os !! Z.to_nat h) as [[o|]|]; [|by rewrite Hr|by rewrite Hr].
    destruct Hr as (m' & -> & Hm'). by exists m'.
Qed.

Lemma objects_step_length os c r : objects_step os c = Done r -> alen r.2 <= alen os + 1.
Proof.
  destruct c as [p|p|h]; simpl; [intros [= <-]; simpl; rewrite alen_snoc; lia..|].
  destruct (os !! Z.to_nat h) as [[o|]|]; [|done..]. intros [= <-]. simpl. rewrite alen_insert. lia.
Qed.

Lemma handles_run_refines cs : forall m os,
  handles_rep m os -> handle_calls_ok os cs -> alen os + alen cs < 2 ^ 31 ->
  match objects_run os cs with
  | Done (rs, os') => exists m', handles_run m cs = Done (rs, m') /\ handles_rep m' os'
  | _ => handles_run m cs = Panic
  end.
Proof.
  induction cs as [|c cs IH]; intros m os Hm Hok Hb; [by exists m|].
  destruct Hok as [Hc Hok]. rewrite alen_cons in Hb. pose proof (alen_nonneg cs). cbn [objects_run handles_run].
  pose proof (handles_step_refines m os c Hm Hc ltac:(lia)) as Hs.
  destruct (objects_step os c) as [[[h gone] os1]| | |] eqn:E; cbn [mbind exec_bind];
    [|by rewrite Hs|by rewrite Hs|by rewrite Hs].
  destruct Hs as (m1 & -> & Hm1). cbn [mbind exec_bind fst snd] in *. pose proof (objects_step_length _ _ _ E).
  simpl in *. specialize (IH m1 os1 Hm1 Hok ltac:(lia)).
  destruct (objects_run os1 cs) as [[rs os']| | |]; cbn [mbind exec_bind fst snd];
    [|by rewrite IH|by rewrite IH|by rewrite IH].
  destruct IH as (m' & -> & Hm'). by exists m'.
Qed.

Lemma handles_new_rep : handles_rep HandlesManager_new [].
Proof. split; simpl; done || constructor. Qed.

(** C12: the handles of a process. After any sequence of [add_handle] and
    [remove_handle] calls, every handle given out was a new number and stands for the
    object it was given out for until it is removed: [check_handle] tells its kind and
    says [Invalid] for a removed handle and for a number never given out, and the two
    [get] calls return the object of a handle of their kind and fail an assertion
    otherwise. A removal destroys the object of its handle and no other; removing a
    handle twice fails an assertion. *)
Theorem handles_stand_for_objects (cs : list handle_call)
    (Hok : handle_calls_ok [] cs) (Hb : alen cs < 2 ^ 31) :
  match objects_run [] cs with
  | Done (rs, os) => exists m, handles_run HandlesManager_new cs = Done (rs, m) /\
      forall h, 0 <= h ->
        HandlesManager_check_handle m h = Done (object_type (os !! Z.to_nat h ≫= id)) /\
        (h < alen os ->
         HandlesManager_get_file_description m h
           = match os !! Z.to_nat h with Some (Some (File p)) => Done p | _ => Panic end /\
         HandlesManager_get_process_description m h
           = match os !! Z.to_nat h with Some (Some (Process p)) => Done p | _ => Panic end)
  | _ => handles_run HandlesManager_new cs = Panic
  end.
Proof.
  pose proof (handles_run_refines cs HandlesManager_new [] handles_new_rep Hok) as H.
  rewrite (@alen_nil (option object)) in H. specialize (H ltac:(lia)).
  destruct (objects_run [] cs) as [[rs os]| | |]; [|done..]. destruct H as (m & E & Hm).
  exists m. split; [done|]. intros h Hh. by apply handles_read.
Qed.

(** Two files; the first is closed, and closing it again fails. *)
Lemma handles_stand_for_objects_witness :
  (exists m, handles_run HandlesManager_new [AddFile 100; AddFile 200; RemoveHandle 0]
     = Done ([(Some 0, []); (Some 1, []); (None, [File 100])], m) /\
   HandlesManager_check_handle m 0 = Done HInvalid /\
   HandlesManager_get_file_description m 1 = Done 200) /\
  handles_run HandlesManager_new [AddFile 100; RemoveHandle 0; RemoveHandle 0] = Panic.
Proof.
  split.
  - pose proof (handles_stand_for_objects [AddFile 100; AddFile 200; RemoveHandle 0]) as H.
    destruct H as (m & E & Hm); [|reflexivity|].
    + simpl. unfold alen. simpl. repeat split; try lia; rewrite ?not_elem_of_cons; try split;
        try apply not_elem_of_nil; congruence.
    + exists m. split; [exact E|]. split; [by apply (Hm 0)|]. by apply (Hm 1).
  - apply (handles_stand_for_objects [AddFile 100; RemoveHandle 0; RemoveHandle 0]); [|reflexivity].
    simpl. unfold alen. simpl. repeat split; try lia. apply not_elem_of_nil.
Defined.
