(* ===== verification/Buffers.v ===== *)
(** Results and error codes (result.h, error_codes.h), and the buffers that files and the
    network pass around: [Buffer] (buffer.cpp), which owns its bytes, the mutable view
    (buffer_mutable_view.cpp), modelled by the bytes it shows, and the constant view
    (buffer_view.cpp), a window into an array. A structure that the code lays over a
    buffer is read and written at the offsets of its fields, low byte first as the
    machine does. *)

From S2P Require Import Prelude Clib.

Definition ERROR_SUCCESS : Z := 0.
Definition ERROR_FILE_DOES_NOT_EXIST : Z := 2.
Definition ERROR_EOF : Z := 4.
Definition ERROR_INVALID_PARAMETER : Z := 5.
Definition ERROR_NO_ROOT_NODE : Z := 8.
Definition ERROR_INVALID_OPERATION : Z := 9.
Definition ERROR_FILE_ALREADY_EXISTS : Z := 10.
Definition ERROR_FS_ALREADY_EXISTS : Z := 13.
Definition ERROR_INVALID_HANDLE : Z := 14.
Definition ERROR_CONNECTION_CLOSED : Z := 19.
Definition ERROR_CONNECTION_TIMEOUT : Z := 20.
Definition ERROR_PORT_ALREADY_IN_USE : Z := 21.
Definition ERROR_BUFFER_OVERFLOW : Z := 22.
Definition ERROR_ECHO_BAD_REPLY : Z := 23.
Definition ERROR_ECHO_TIMEOUT : Z := 24.

(** [Result<T>]: a value, or an error code that is not zero. *)
Inductive Result (T : Type) := Value (v : T) | Error (code : Z).
Arguments Value {T} v.
Arguments Error {T} code.

(** * Mutable views *)

Definition BufferMutableView_fill_from (dest src : list Z) (dest_offset size : Z) : exec (list Z) :=
  _ ← ASSERT (u32 (dest_offset + size) <=? alen dest);
  memcpy dest dest_offset src 0 size.

Definition BufferMutableView_set (dest : list Z) (index x : Z) : exec (list Z) :=
  _ ← ASSERT (index <? alen dest); aset dest index x.

(** [convert_to]: the structure of [sizeof] bytes fits. *)
Definition BufferMutableView_convert_to (dest : list Z) (sizeof : Z) : exec unit := ASSERT (sizeof <=? alen dest).

(** [fill_by] copies a structure, given by its bytes. *)
Definition BufferMutableView_fill_by (dest src : list Z) (dest_offset : Z) : exec (list Z) :=
  _ ← ASSERT (u32 (dest_offset + alen src) <=? alen dest);
  memcpy dest dest_offset src 0 (alen src).

(** Assignments to the fields of a structure at [off]. *)
Definition put8 (b : list Z) (off x : Z) : exec (list Z) := aset b off (u8 x).

Definition put16 (b : list Z) (off x : Z) : exec (list Z) :=
  b ← put8 b off x; put8 b (off + 1) (Z.shiftr x 8).

(** * Constant views *)

Record BufferView := mkView {
  bv_array : list Z;
  bv_start : Z;
  bv_size : Z
}.

Definition BufferView_empty : BufferView := mkView [] 0 0.

(** The views of a buffer or of a mutable view, and of another view. *)
Definition BufferView_of_buffer (b : list Z) (src_offset src_size : Z) : exec BufferView :=
  _ ← ASSERT (u32 (src_size + src_offset) <=? alen b);
  Done (mkView b src_offset (if src_size =? 0 then u32 (alen b - src_offset) else src_size)).

Definition BufferView_of_view (v : BufferView) (src_offset src_size : Z) : exec BufferView :=
  _ ← ASSERT (u32 (src_size + src_offset) <=? bv_size v);
  Done (mkView (bv_array v) (bv_start v + src_offset)
          (if src_size =? 0 then u32 (bv_size v - src_offset) else src_size)).

(** The view of a whole object, from its address and size. *)
Definition BufferView_of_ptr (b : list Z) : BufferView := mkView b 0 (alen b).

Definition BufferView_at (v : BufferView) (index : Z) : exec Z := aget (bv_array v) (bv_start v + index).

Definition BufferView_copy_to (v : BufferView) (dest : list Z) (d src_offset src_size : Z) : exec (list Z) :=
  _ ← ASSERT (u32 (src_offset + src_size) <=? bv_size v);
  memcpy dest d (bv_array v) (bv_start v + src_offset) src_size.

Definition BufferView_const_convert_to (v : BufferView) (sizeof : Z) : exec unit := ASSERT (sizeof <=? bv_size v).

(** The fields of a structure at [off], and an array of [n] bytes. *)
Definition field8 (v : BufferView) (off : Z) : exec Z := BufferView_at v off.

Definition field16 (v : BufferView) (off : Z) : exec Z :=
  lo ← field8 v off; hi ← field8 v (off + 1); Done (lo + 2 ^ 8 * hi).

Definition field32 (v : BufferView) (off : Z) : exec Z :=
  lo ← field16 v off; hi ← field16 v (off + 2); Done (lo + 2 ^ 16 * hi).

(** * Buffers that own their bytes

    [new u8[n]] gives bytes that nobody has written: [junk] says which. *)

Definition new_u8 (junk : Z -> Z) (n : Z) : list Z := junk <$> seqZ 0 (u32 n).

Definition Buffer_new (size : Z) : list Z := replicate (Z.to_nat size) 0.

Definition Buffer_copy (junk : Z -> Z) (other : list Z) (dest_offset : Z) : exec (list Z) :=
  memcpy (new_u8 junk (alen other + dest_offset)) dest_offset other 0 (alen other).

Definition Buffer_of_view (junk : Z -> Z) (other : BufferView) (dest_offset : Z) : exec (list Z) :=
  BufferView_copy_to other (new_u8 junk (bv_size other + dest_offset)) dest_offset 0 (bv_size other).

Definition Buffer_assign (junk : Z -> Z) (other : list Z) : exec (list Z) :=
  memcpy (new_u8 junk (alen other)) 0 other 0 (alen other).

Definition Buffer_resize (junk : Z -> Z) (b : list Z) (new_size : Z) : exec (list Z) :=
  _ ← ASSERT (alen b <? new_size);
  if new_size =? alen b then Done b else memcpy (new_u8 junk new_size) 0 b 0 (alen b).

Lemma set_middle (p r : list Z) o x :
  BufferMutableView_set (p ++ o :: r) (alen p) x = Done (p ++ x :: r).
Proof.
  unfold BufferMutableView_set. rewrite bind_ASSERT; [apply aset_middle|].
  apply Z.ltb_lt. rewrite alen_app, alen_cons. pose proof (alen_nonneg r). lia.
Qed.

(** * What the views show *)

(** A window inside its array. *)
Definition view_ok (v : BufferView) : Prop :=
  0 <= bv_start v /\ 0 <= bv_size v < 2 ^ 32 /\ bv_start v + bv_size v <= alen (bv_array v).

Definition shown (v : BufferView) : list Z :=
  take (Z.to_nat (bv_size v)) (drop (Z.to_nat (bv_start v)) (bv_array v)).

Definition is_byte (x : Z) : Prop := 0 <= x < 2 ^ 8.

Lemma alen_new_u8 junk n : 0 <= n < 2 ^ 32 -> alen (new_u8 junk n) = n.
Proof. intros Hn. unfold new_u8. rewrite alen_fmap, u32_small by lia. unfold alen. rewrite length_seqZ. lia. Qed.

Lemma alen_shown v : view_ok v -> alen (shown v) = bv_size v.
Proof.
  intros (? & ? & Ha). unfold shown, alen in *. rewrite length_take, length_drop. lia.
Qed.

Lemma view_split v : view_ok v ->
  exists p s, bv_array v = p ++ shown v ++ s /\ alen p = bv_start v.
Proof.
  intros (? & ? & Ha). exists (take (Z.to_nat (bv_start v)) (bv_array v)).
  exists (drop (Z.to_nat (bv_size v)) (drop (Z.to_nat (bv_start v)) (bv_array v))). unfold shown. split.
  - by rewrite take_drop, take_drop.
  - unfold alen in *. rewrite length_take. lia.
Qed.

Lemma view_at v i : view_ok v -> 0 <= i < bv_size v -> BufferView_at v i = aget (shown v) i.
Proof.
  intros Hok Hi. pose proof (alen_shown v Hok) as Hl. unfold BufferView_at.
  destruct (view_split v Hok) as (p & s & E & Ep). rewrite E, <- Ep.
  destruct (aget_in_range (shown v) i) as (x & -> & Hx); [lia|].
  apply aget_Done; [pose proof (alen_nonneg p); lia|]. unfold alen in *.
  rewrite lookup_app_r by lia. rewrite lookup_app_l by lia. rewrite <- Hx. f_equal. lia.
Qed.

Lemma shown_of_ptr b : alen b < 2 ^ 32 -> view_ok (BufferView_of_ptr b) /\ shown (BufferView_of_ptr b) = b.
Proof.
  intros Hb. pose proof (alen_nonneg b). unfold view_ok, shown; simpl. split; [lia|].
  rewrite drop_0. apply take_ge. unfold alen. lia.
Qed.

(** The part of a view from [off] on, of [size] bytes or up to its end. *)
Lemma of_view_spec v off size : view_ok v -> 0 <= off -> 0 <= size -> off + size <= bv_size v ->
  exists w, BufferView_of_view v off size = Done w /\ view_ok w /\
    bv_size w = (if size =? 0 then bv_size v - off else size) /\
    shown w = take (Z.to_nat (bv_size w)) (drop (Z.to_nat off) (shown v)).
Proof.
  intros (H1 & H2 & H3) Ho Hs Hb. unfold BufferView_of_view. rewrite !u32_small by lia.
  rewrite bind_ASSERT by (apply Z.leb_le; lia). eexists. split; [done|].
  unfold view_ok, shown; simpl. split; [destruct (Z.eqb_spec size 0); lia|]. split; [done|].
  rewrite Z2Nat.inj_add, <- drop_drop, !take_drop_commute, take_take by lia. do 3 f_equal.
  destruct (Z.eqb_spec size 0); lia.
Qed.
