(* ===== verification/Checksum.v ===== *)
(** Byte order (endianess.h) and the Internet checksum (network_algorithms.cpp), with the
    rounding helpers of algorithms.h. The checksum of the code is proved equal to the one of
    RFC 1071 for an even number of bytes, and its folding loop to stop; for an odd number it
    takes in the byte behind them. *)

From S2P Require Import Prelude Clib Buffers.

Definition align_to (num alignment : Z) (align_zero : bool) : Z :=
  if num =? 0 then if align_zero then alignment else 0
  else if num mod alignment =? 0 then num
  else u32 (num + alignment - num mod alignment).

(** [number_of_words<T>]: [sizeof] is the size of [T]. *)
Definition number_of_words (sizeof size : Z) : Z :=
  let result := size / sizeof in
  if truthy (size mod sizeof) then u32 (result + 1) else result.

Definition to_big_endian16 (value : Z) : Z :=
  u16 (Z.lor (Z.shiftr (Z.land value 0xFF00) 8) (Z.shiftl (Z.land value 0xFF) 8)).

Definition to_big_endian32 (value : Z) : Z :=
  u32 (Z.lor (Z.lor (Z.lor (Z.shiftr (Z.land value 0xFF000000) 24) (Z.shiftr (Z.land value 0x00FF0000) 8))
                    (Z.shiftl (Z.land value 0x0000FF00) 8))
             (Z.shiftl (Z.land value 0x000000FF) 24)).

Definition network_word16 (value : Z) : Z := to_big_endian16 value.
Definition network_word32 (value : Z) : Z := to_big_endian32 value.

(** The words of [v], as [u16_array] reads them, are added to [sum]. *)
Definition sum_words (v : BufferView) (sum : Z) : exec Z :=
  for_ (Z.to_nat (number_of_words 2 (bv_size v))) 0
    (fun i sum => w ← field16 v (2 * i); Done (u32 (sum + to_big_endian16 w))) sum.

(** A sum of 32 bits is below 2^16 after two turns; the third one leaves the loop. *)
Definition fold_carries (sum : Z) : exec Z :=
  while 3 (fun sum =>
    if 0xFFFF <? sum then
      Done (inl (u32 (Z.land sum 0xFFFF + Z.shiftr (Z.land sum 0xFFFF0000) 16)))
    else Done (inr sum)) sum.

Definition checksum (v : BufferView) : exec Z :=
  sum ← sum_words v 0;
  sum ← fold_carries sum;
  Done (to_big_endian16 (u32 (Z.lnot (u16 sum)))).

(** * The one's complement sum *)

(** The 16-bit words of a byte sequence, high byte first. *)
Fixpoint words (l : list Z) : list Z :=
  match l with
  | hi :: lo :: l => 2 ^ 8 * hi + lo :: words l
  | _ => []
  end.

(** Addition with the carry brought around to the low end. *)
Definition ones_add (a b : Z) : Z := if 0xFFFF <? a + b then a + b - 0xFFFF else a + b.

Definition ones_sum (ws : list Z) : Z := foldr ones_add 0 ws.

Definition plain_sum (ws : list Z) : Z := foldr Z.add 0 ws.

(** [s] is a way to write the number [n] in one's complement. *)
Definition ones_of (n s : Z) : Prop := 0 <= s <= 0xFFFF /\ s mod 0xFFFF = n mod 0xFFFF /\ (s = 0 <-> n = 0).

Lemma ones_of_unique n s t : ones_of n s -> ones_of n t -> s = t.
Proof. intros (Hs & Es & Zs) (Ht & Et & Zt). zdiv. Qed.

Lemma ones_add_of m n s t : 0 <= m -> 0 <= n -> ones_of m s -> ones_of n t -> ones_of (m + n) (ones_add s t).
Proof.
  intros Hm Hn (Hs & Es & Zs) (Ht & Et & Zt). unfold ones_add, ones_of.
  destruct (Z.ltb_spec 0xFFFF (s + t)); split; [lia| |lia|]; (split; [zdiv|lia]).
Qed.

Lemma plain_sum_bounds ws : Forall (fun w => 0 <= w < 2 ^ 16) ws -> 0 <= plain_sum ws <= 0xFFFF * alen ws.
Proof. induction 1 as [|w ws Hw _ IH]; [done|]. rewrite alen_cons. simpl. lia. Qed.

Lemma ones_sum_of ws : Forall (fun w => 0 <= w < 2 ^ 16) ws -> ones_of (plain_sum ws) (ones_sum ws).
Proof.
  induction 1 as [|w ws Hw Hws IH]; [by repeat split|]. pose proof (plain_sum_bounds ws Hws). simpl.
  apply ones_add_of; [lia..| |done]. repeat split; lia.
Qed.

Lemma words_app l l' : Nat.Even (length l) -> words (l ++ l') = words l ++ words l'.
Proof.
  intros [k Hk]. revert l Hk. induction k as [|k IH]; intros l Hk.
  - by destruct l.
  - destruct l as [|a [|b l]]; simpl in Hk; [lia..|]. simpl. by rewrite IH by lia.
Qed.

Lemma words_range l : Forall is_byte l -> Forall (fun w => 0 <= w < 2 ^ 16) (words l).
Proof.
  revert l. fix IH 1. intros [|a [|b l]] H; simpl; [constructor..|].
  apply Forall_cons in H as [Ha H]. apply Forall_cons in H as [Hb H]. constructor; [unfold is_byte in *; lia|]. by apply IH.
Qed.

Lemma alen_words l : alen (words l) = alen l / 2.
Proof.
  revert l. fix IH 1. intros [|a [|b l]]; [done..|]. simpl. rewrite !alen_cons, IH. zdiv.
Qed.

(** * The loops of the code *)

(** The two bytes of a number, swapped. *)
Lemma swap_bytes x : to_big_endian16 x = 2 ^ 8 * (x mod 2 ^ 8) + (x / 2 ^ 8) mod 2 ^ 8.
Proof.
  unfold to_big_endian16. change 0xFF00 with (Z.shiftl (Z.ones 8) 8). rewrite bits_part by lia.
  change 0xFF with (Z.ones 8). rewrite Z.land_ones, Z.shiftl_mul_pow2, (Z.mul_comm _ (2 ^ 8)) by lia.
  rewrite lor_parts, u16_small; zdiv.
Qed.

(** A word read from the array, in the byte order of the network. *)
Lemma big_endian_load hi lo : is_byte hi -> is_byte lo -> to_big_endian16 (hi + 2 ^ 8 * lo) = 2 ^ 8 * hi + lo.
Proof. unfold is_byte. intros. rewrite swap_bytes. zdiv. Qed.

Lemma fold_carries_spec n : 0 <= n < 2 ^ 32 -> exists s, fold_carries n = Done s /\ ones_of n s.
Proof.
  intros Hn. unfold fold_carries.
  apply (while_inv (fun s => 0 <= s < 2 ^ 32 /\ s mod 0xFFFF = n mod 0xFFFF /\ (s = 0 <-> n = 0)) (ones_of n)
    (fun s => if s <=? 0xFFFF then 0%nat else if s <=? 0x1FFFE then 1%nat else 2%nat)).
  - done.
  - repeat case_test; lia.
  - intros s (Hs & Es & Zs). destruct (Z.ltb_spec 0xFFFF s) as [Hbig|Hsmall].
    + left. eexists. split; [done|].
      change 0xFFFF0000 with (Z.shiftl (Z.ones 16) 16). rewrite bits_part by lia.
      change (Z.land s 0xFFFF) with (Z.land s (Z.ones 16)). rewrite Z.land_ones by lia.
      rewrite u32_small by zdiv. split; [zdiv|]. repeat case_test; zdiv.
    + right. exists s. split; [done|]. by repeat split; lia.
Qed.

Lemma plain_sum_app a b : plain_sum (a ++ b) = plain_sum a + plain_sum b.
Proof. induction a as [|x a IH]; simpl; [done|]. unfold plain_sum in *. lia. Qed.

Lemma take_two (l : list Z) (n : nat) a b :
  l !! n = Some a -> l !! S n = Some b -> take (S (S n)) l = take n l ++ [a; b].
Proof. intros Ha Hb. rewrite (take_S_r _ _ b), (take_S_r _ _ a), <- app_assoc by done. done. Qed.

(** The words are added up without wrapping around as long as there are few enough. An
    array of odd size is read one byte past its end. *)
Lemma sum_words_spec v sum l : 0 <= bv_size v <= 2 ^ 16 -> 0 <= sum < 2 ^ 31 ->
  Forall is_byte l -> alen l = 2 * number_of_words 2 (bv_size v) ->
  (forall i, 0 <= i < alen l -> BufferView_at v i = aget l i) ->
  sum_words v sum = Done (sum + plain_sum (words l)) /\ 0 <= sum + plain_sum (words l) < 2 ^ 32.
Proof.
  intros Hs Hsum Hl Hlen Hat. unfold sum_words. set (n := number_of_words 2 (bv_size v)) in *.
  assert (Hn : 0 <= n <= 2 ^ 15).
  { unfold n, number_of_words, truthy. destruct (Z.eqb_spec (bv_size v mod 2) 0); simpl; [zdiv|].
    rewrite u32_small; zdiv. }
  assert (Hbound : forall k, 0 <= plain_sum (words (take k l)) <= 0xFFFF * 2 ^ 15).
  { intros k. pose proof (plain_sum_bounds (words (take k l)) (words_range _ (Forall_take _ _ _ Hl))) as Hb.
    assert (alen (words (take k l)) <= 2 ^ 15); [|lia]. rewrite alen_words. unfold alen in *. rewrite length_take. zdiv. }
  destruct (for_inv (fun i s => 0 <= i /\ s = sum + plain_sum (words (take (Z.to_nat (2 * i)) l)))
    (fun i sum => w ← field16 v (2 * i); Done (u32 (sum + to_big_endian16 w))) (Z.to_nat n) 0 sum) as (s & E & _ & Hsm).
  - split; [lia|]. rewrite Z.mul_0_r, take_0. simpl. lia.
  - intros j t Hj [_ ->].
    destruct (aget_in_range l (2 * j)) as (a & Ea & Ha); [lia|].
    destruct (aget_in_range l (2 * j + 1)) as (b & Eb & Hb); [lia|].
    unfold field16, field8. rewrite (Hat (2 * j)), Ea, (Hat (2 * j + 1)), Eb by lia. simpl.
    assert (Hab : is_byte a /\ is_byte b) by (split; [by apply (Forall_lookup_1 _ _ _ _ Hl Ha)|by apply (Forall_lookup_1 _ _ _ _ Hl Hb)]).
    rewrite big_endian_load by tauto. eexists. split; [done|]. split; [lia|].
    pose proof (Hbound (Z.to_nat (2 * (j + 1)))) as Hbd.
    replace (Z.to_nat (2 * (j + 1))) with (S (S (Z.to_nat (2 * j)))) in * by lia.
    rewrite (take_two _ _ a b), words_app, plain_sum_app in *; try done.
    2, 3: rewrite length_take; exists (Z.to_nat j); unfold alen in *; lia.
    2, 3: by replace (S (Z.to_nat (2 * j))) with (Z.to_nat (2 * j + 1)) by lia.
    pose proof (Hbound (Z.to_nat (2 * j))). unfold is_byte in *. cbn [words plain_sum foldr] in *.
    rewrite u32_small; unfold plain_sum in *; lia.
  - rewrite E, Hsm. replace (take _ l) with l; [|symmetry; apply take_ge; unfold alen in *; lia].
    split; [done|]. specialize (Hbound (length l)). rewrite take_ge in Hbound by lia. lia.
Qed.

(** The bytes that the checksum of [v] reads: those of the view, and the next byte of the
    array when their number is odd. *)
Definition read_bytes (v : BufferView) : list Z :=
  take (Z.to_nat (2 * number_of_words 2 (bv_size v))) (drop (Z.to_nat (bv_start v)) (bv_array v)).

(** The bytes of the checksum lie in the array. *)
Definition words_inside (v : BufferView) : Prop :=
  0 <= bv_start v /\ 0 <= bv_size v <= 2 ^ 16 /\
  bv_start v + 2 * number_of_words 2 (bv_size v) <= alen (bv_array v) /\ Forall is_byte (bv_array v).

Lemma number_of_words_2 n : 0 <= n <= 2 ^ 16 -> 2 * number_of_words 2 n = n + n mod 2.
Proof.
  intros Hn. unfold number_of_words, truthy. destruct (Z.eqb_spec (n mod 2) 0); simpl; [zdiv|].
  rewrite u32_small; zdiv.
Qed.

Lemma read_bytes_spec v : words_inside v ->
  Forall is_byte (read_bytes v) /\ alen (read_bytes v) = 2 * number_of_words 2 (bv_size v) /\
  forall i, 0 <= i < alen (read_bytes v) -> BufferView_at v i = aget (read_bytes v) i.
Proof.
  intros (Hs & Hn & Hin & Hb). pose proof (number_of_words_2 _ Hn) as En.
  set (w := mkView (bv_array v) (bv_start v) (2 * number_of_words 2 (bv_size v))).
  assert (Hw : view_ok w) by (unfold view_ok; simpl; zdiv).
  change (read_bytes v) with (shown w). split; [by apply Forall_take, Forall_drop|].
  rewrite (alen_shown w Hw). split; [done|]. intros i Hi. apply (view_at w i Hw). done.
Qed.

Lemma words_inside_even v : view_ok v -> bv_size v mod 2 = 0 -> bv_size v <= 2 ^ 16 -> Forall is_byte (bv_array v) ->
  words_inside v /\ read_bytes v = shown v.
Proof.
  intros (? & ? & ?) He Hs Hb. unfold words_inside, read_bytes, shown. rewrite number_of_words_2 by lia.
  split; [repeat split; lia || done|]. do 2 f_equal. lia.
Qed.

Lemma swap_twice x : 0 <= x < 2 ^ 16 -> to_big_endian16 (to_big_endian16 x) = x.
Proof. intros. rewrite !swap_bytes. zdiv. Qed.

Lemma big_endian16_range x : 0 <= to_big_endian16 x < 2 ^ 16.
Proof. rewrite swap_bytes. zdiv. Qed.

Lemma complement16 s : 0 <= s <= 0xFFFF -> to_big_endian16 (u32 (Z.lnot (u16 s))) = to_big_endian16 (0xFFFF - s).
Proof.
  intros Hs. rewrite (u16_small s) by lia. rewrite !swap_bytes. unfold Z.lnot, u32. zdiv.
Qed.

Lemma checksum_value v : words_inside v ->
  checksum v = Done (to_big_endian16 (0xFFFF - ones_sum (words (read_bytes v)))).
Proof.
  intros Hv. destruct (read_bytes_spec v Hv) as (Hb & Hl & Hat). destruct Hv as (_ & Hn & _ & _).
  pose proof (ones_sum_of _ (words_range _ Hb)) as Hones. pose proof (proj1 Hones).
  unfold checksum. destruct (sum_words_spec v 0 (read_bytes v)) as [-> Hs]; [done..|]. simpl in *.
  destruct (fold_carries_spec _ Hs) as (s & -> & Hof). simpl.
  rewrite (ones_of_unique _ _ _ Hof Hones). by rewrite complement16.
Qed.

Lemma swap_zero x : 0 <= x < 2 ^ 16 -> to_big_endian16 x = 0 <-> x = 0.
Proof. intros. rewrite swap_bytes. zdiv. Qed.

(** Data with the complement of its sum in one of its words adds up to 0xFFFF. *)
Lemma sum_with_complement p q : Forall (fun w => 0 <= w < 2 ^ 16) (p ++ q) ->
  ones_sum (p ++ [0xFFFF - ones_sum (p ++ [0] ++ q)] ++ q) = 0xFFFF.
Proof.
  intros Hpq. assert (Hz : forall w, 0 <= w < 2 ^ 16 -> Forall (fun w => 0 <= w < 2 ^ 16) (p ++ [w] ++ q)).
  { intros w Hw. apply Forall_app in Hpq as [Hp Hq]. by repeat (apply Forall_app; split); [|constructor|]. }
  pose proof (ones_sum_of _ (Hz 0 ltac:(lia))) as Hs. set (s := ones_sum _) in Hs |- *.
  destruct Hs as (Hr & Hm & H0).
  pose proof (ones_sum_of _ (Hz (0xFFFF - s) ltac:(lia))) as (Hr' & Hm' & H0').
  pose proof (plain_sum_bounds _ (Hz 0 ltac:(lia))) as Hpos. simpl in *.
  rewrite !plain_sum_app in *. cbn [plain_sum foldr] in *. unfold plain_sum in *. zdiv.
Qed.

(** The two bytes in which a 16-bit number is stored. *)
Definition bytes16 (x : Z) : list Z := [u8 x; u8 (Z.shiftr x 8)].

Lemma words_bytes16 x : 0 <= x < 2 ^ 16 -> words (bytes16 x) = [to_big_endian16 x].
Proof.
  intros Hx. unfold bytes16. cbn [words]. rewrite swap_bytes, Z.shiftr_div_pow2 by lia. unfold u8. done.
Qed.

(** Data that carries the checksum computed with 0 in its place. *)
Lemma checksum_completes v w p q : words_inside v -> words_inside w -> Nat.Even (length p) ->
  read_bytes v = p ++ bytes16 0 ++ q -> forall c, checksum v = Done c -> read_bytes w = p ++ bytes16 c ++ q ->
  checksum w = Done 0.
Proof.
  intros Hv Hw Hp Ev c Ec Ew. destruct (read_bytes_spec v Hv) as (Hb & _ & _).
  pose proof (ones_sum_of _ (words_range _ Hb)) as [Hr _]. rewrite (checksum_value v Hv), Ev in Ec.
  assert (c = to_big_endian16 (0xFFFF - ones_sum (words (p ++ bytes16 0 ++ q)))) as -> by congruence. clear Ec.
  rewrite Ev in *. apply Forall_app in Hb as [Hbp Hbq]. apply Forall_app in Hbq as [_ Hbq].
  assert (Es : words (p ++ bytes16 0 ++ q) = words p ++ [0] ++ words q) by (by rewrite !words_app by (done || by exists 1%nat)).
  rewrite Es in *. set (s := ones_sum _) in Hr, Ew.
  assert (words (bytes16 (to_big_endian16 (0xFFFF - s))) = [0xFFFF - s]) as Ec.
  { rewrite words_bytes16, swap_twice; [done|lia|apply big_endian16_range]. }
  rewrite (checksum_value w Hw), Ew, !words_app, Ec by (done || by exists 1%nat). unfold s.
  rewrite sum_with_complement; [done|]. apply Forall_app. by split; apply words_range.
Qed.

(** The checksum of RFC 1071: a sequence of odd length is completed with a zero. *)
Definition rfc1071 (l : list Z) : Z := 0xFFFF - ones_sum (words (l ++ if Nat.odd (length l) then [0] else [])).

Lemma rfc1071_even l : Nat.Even (length l) -> rfc1071 l = 0xFFFF - ones_sum (words l).
Proof. intros He%Nat.even_spec. unfold rfc1071. rewrite <- Nat.negb_even, He. cbn [negb]. by rewrite app_nil_r. Qed.

Lemma words_inside_view v : words_inside v -> view_ok v.
Proof. intros (Hs & Hn & Hin & _). rewrite number_of_words_2 in Hin by lia. unfold view_ok. zdiv. Qed.

Lemma even_shown v : words_inside v -> bv_size v mod 2 = 0 -> Nat.Even (length (shown v)) /\ read_bytes v = shown v.
Proof.
  intros Hv He. pose proof (words_inside_view v Hv) as Hok. destruct Hv as (_ & Hn & _ & Hb).
  destruct (words_inside_even v) as [_ E]; [done|done|lia|done|]. split; [|done].
  pose proof (alen_shown v Hok) as Hl. unfold alen in Hl. exists (Z.to_nat (bv_size v / 2)). zdiv.
Qed.

(** An odd number of bytes: the one behind them is taken in. *)
Lemma odd_read v : words_inside v -> bv_size v mod 2 = 1 ->
  exists next, aget (bv_array v) (bv_start v + bv_size v) = Done next /\ read_bytes v = shown v ++ [next] /\
    Nat.Even (length (shown v ++ [next])).
Proof.
  intros Hv Ho. pose proof (words_inside_view v Hv) as Hok. pose proof (alen_shown v Hok) as Hl. unfold alen in Hl.
  destruct Hv as (Hs & Hn & Hin & _). rewrite number_of_words_2 in Hin by lia.
  destruct (lookup_lt_is_Some_2 (bv_array v) (Z.to_nat (bv_start v + bv_size v))) as [next Hnext]; [unfold alen in Hin; lia|].
  exists next. split; [apply aget_Done; [lia|done]|]. split.
  - unfold read_bytes, shown. rewrite number_of_words_2 by lia.
    replace (Z.to_nat (bv_size v + bv_size v mod 2)) with (S (Z.to_nat (bv_size v))) by lia.
    apply take_S_r. rewrite lookup_drop. replace (Z.to_nat (bv_start v) + Z.to_nat (bv_size v))%nat with (Z.to_nat (bv_start v + bv_size v)) by lia. done.
  - rewrite length_app. cbn [length]. exists (Z.to_nat ((bv_size v + 1) / 2)). zdiv.
Qed.

(** C31: the checksum of at most 65536 bytes of a buffer. For an even number of bytes it equals
    the one of RFC 1071, the complement of the one's complement sum of the 16-bit words, in
    the byte order of the network; data that carries its own checksum, computed with 0 in its
    place, passes the check of the receiver. For an odd number of bytes it is the one of RFC
    1071 for these bytes and the byte that happens to follow them, which must lie in the
    array, where the RFC takes a zero. The loops end. *)
Theorem checksum_is_internet_checksum (v : BufferView) (Hv : words_inside v) :
  exists c, checksum v = Done c /\ 0 <= c < 2 ^ 16 /\
    (bv_size v mod 2 = 0 -> to_big_endian16 c = rfc1071 (shown v) /\
       forall p q w, shown v = p ++ bytes16 0 ++ q -> Nat.Even (length p) -> words_inside w -> bv_size w mod 2 = 0 ->
         shown w = p ++ bytes16 c ++ q -> checksum w = Done 0) /\
    (bv_size v mod 2 = 1 -> exists next, aget (bv_array v) (bv_start v + bv_size v) = Done next /\
       to_big_endian16 c = rfc1071 (shown v ++ [next])) /\
    (c = 0 <-> ones_sum (words (read_bytes v)) = 0xFFFF).
Proof.
  destruct (read_bytes_spec v Hv) as (Hb & _ & _). pose proof (ones_sum_of _ (words_range _ Hb)) as [Hr _].
  eexists. split; [by apply checksum_value|]. split; [apply big_endian16_range|].
  rewrite swap_twice, swap_zero by lia. split; [|split; [|lia]].
  - intros He. destruct (even_shown v Hv He) as [Hev Ev]. rewrite (rfc1071_even _ Hev), Ev. split; [done|].
    intros p q w Es Hp Hw Hwe Ew. destruct (even_shown w Hw Hwe) as [_ Erw]. rewrite <- Erw, <- Ev in *.
    apply (checksum_completes v w p q Hv Hw Hp Es _ (checksum_value v Hv) Ew).
  - intros Ho. destruct (odd_read v Hv Ho) as (next & En & Er & Hev). exists next. split; [done|].
    by rewrite (rfc1071_even _ Hev), Er.
Qed.

(** A header of ten bytes with its checksum in the third word. *)
Lemma checksum_is_internet_checksum_witness :
  let header c := BufferView_of_ptr ([69; 0; 0; 84] ++ bytes16 c ++ [10; 0; 2; 15]) in
  exists c, checksum (header 0) = Done c /\ checksum (header c) = Done 0.
Proof.
  intros header. assert (Hin : forall c, words_inside (header c)).
  { intros c. unfold words_inside, is_byte, alen. simpl. pose proof (u8_range c). pose proof (u8_range (Z.shiftr c 8)).
    repeat split; try done. repeat constructor; lia. }
  destruct (checksum_is_internet_checksum (header 0) (Hin 0)) as (c & E & _ & He & _).
  destruct (He eq_refl) as [_ H].
  exists c. split; [done|]. apply (H [69; 0; 0; 84] [10; 0; 2; 15]); [done|by exists 2%nat|apply Hin|done|done].
Defined.
