(* ===== verification/Network.v ===== *)
(** Addresses (ipv4_address.cpp, macaddress.cpp), Ethernet frames
    (ethernet_network_adapter.cpp, network_adapter.cpp), address resolution (arp.cpp) and
    IPv4 packets (ipv4.cpp). The driver that puts a frame on the wire is outside: frames
    are collected in the order in which they are handed to it. *)

From S2P Require Import Prelude Clib Buffers Checksum.

(** * Addresses

    An address is its bytes; the two classes have the same code for 4 and for 6 bytes. *)

Definition IPv4_ELEMENTS_SIZE : Z := 4.
Definition MAC_ELEMENTS_SIZE : Z := 6.

(** From bytes in memory, and back to memory; the loop of [memcpy]. *)
Definition address_of_bytes (size : Z) (v : BufferView) (off : Z) : exec (list Z) :=
  memcpy (replicate (Z.to_nat size) 0) 0 (bv_array v) (bv_start v + off) size.

Definition address_copy (size : Z) (a b : list Z) (off : Z) : exec (list Z) := memcpy b off a 0 size.

Definition address_eq (size : Z) (a b : list Z) : exec bool :=
  while (S (Z.to_nat size)) (fun i =>
    if i <? size then
      x ← aget a i; y ← aget b i;
      if negb (x =? y) then Done (inr false) else Done (inl (i + 1))
    else Done (inr true)) 0.

Definition address_mask (size : Z) (a mask : list Z) : exec (list Z) :=
  for_ (Z.to_nat size) 0
    (fun i b => x ← aget a i; y ← aget mask i; aset b i (Z.land x y)) (replicate (Z.to_nat size) 0).

Definition IPv4Address_of_bytes := address_of_bytes IPv4_ELEMENTS_SIZE.
Definition IPv4Address_copy := address_copy IPv4_ELEMENTS_SIZE.
Definition IPv4Address_eq := address_eq IPv4_ELEMENTS_SIZE.
Definition IPv4Address_mask := address_mask IPv4_ELEMENTS_SIZE.
Definition IPv4Address_of_u32 (ip : Z) : list Z :=
  [u8 ip; u8 (Z.shiftr ip 8); u8 (Z.shiftr ip 16); u8 (Z.shiftr ip 24)].
Definition IPv4Address_at (a : list Z) (index : Z) : exec Z := aget a index.
Definition IPv4_Broadcast : list Z := [0xFF; 0xFF; 0xFF; 0xFF].
Definition IPv4_Zero : list Z := [0; 0; 0; 0].

Definition MACAddress_of_bytes := address_of_bytes MAC_ELEMENTS_SIZE.
Definition MACAddress_copy := address_copy MAC_ELEMENTS_SIZE.
Definition MACAddress_eq := address_eq MAC_ELEMENTS_SIZE.
Definition MACAddress_mask := address_mask MAC_ELEMENTS_SIZE.
Definition MACAddress_at (a : list Z) (index : Z) : exec Z := aget a index.
Definition MAC_Broadcast : list Z := [0xFF; 0xFF; 0xFF; 0xFF; 0xFF; 0xFF].
Definition MAC_Zero : list Z := [0; 0; 0; 0; 0; 0].

(** * The state of a network *)

Record ARPEntry := mkARPEntry {
  ae_ip : list Z;
  ae_mac : list Z
}.

Record Network := mkNetwork {
  n_mac : list Z;
  n_device_ip : list Z;
  n_gateway_ip : list Z;
  n_subnet_mask : list Z;
  n_arp_table : list ARPEntry;
  n_frames : list (list Z)
}.

Definition put_table (n : Network) (t : list ARPEntry) : Network :=
  mkNetwork (n_mac n) (n_device_ip n) (n_gateway_ip n) (n_subnet_mask n) t (n_frames n).

Definition put_frame (n : Network) (f : list Z) : Network :=
  mkNetwork (n_mac n) (n_device_ip n) (n_gateway_ip n) (n_subnet_mask n) (n_arp_table n) (n_frames n ++ [f]).

(** * Ethernet *)

Inductive ProtocolType := ProtocolIPv4 | ProtocolARP | ProtocolWakeOnLan.

Definition protocol_type (t : ProtocolType) : Z :=
  match t with ProtocolIPv4 => 0x0800 | ProtocolARP => 0x0806 | ProtocolWakeOnLan => 0x0842 end.

(** [offsetof(EthernetFrame, data)] and [sizeof(EthernetFrame)]. *)
Definition ETHERNET_HEADER_SIZE : Z := 14.
Definition sizeof_EthernetFrame : Z := 15.

Definition send_frame (junk : Z -> Z) (n : Network) (type : ProtocolType) (destination : list Z) (data : BufferView)
    : exec Network :=
  frame ← Buffer_of_view junk data ETHERNET_HEADER_SIZE;
  _ ← BufferMutableView_convert_to frame sizeof_EthernetFrame;
  frame ← MACAddress_copy (n_mac n) frame 6;
  frame ← MACAddress_copy destination frame 0;
  frame ← put16 frame 12 (network_word16 (protocol_type type));
  Done (put_frame n frame).

(** The type of a received frame and the bytes behind its header, which the adapter copies
    for the thread that handles them. *)
Definition handle_received_ethernet_frame (junk : Z -> Z) (data : BufferView) : exec (Z * BufferView) :=
  _ ← BufferView_const_convert_to data sizeof_EthernetFrame;
  t ← field16 data 12;
  payload ← BufferView_of_view data ETHERNET_HEADER_SIZE 0;
  copy ← Buffer_of_view junk payload 0;
  v ← BufferView_of_buffer copy 0 0;
  Done (network_word16 t, v).

(** * ARP *)

Definition ARP_Request : Z := 1.
Definition ARP_Reply : Z := 2.
Definition sizeof_ARPHeader : Z := 28.

(** An [ARPHeader]: hardware type, protocol type, the lengths of the addresses, opcode,
    source hardware and protocol address, destination hardware and protocol address. *)
Definition ARPHeader (opcode : Z) (source_hw source_ip destination_hw destination_ip : list Z) : exec (list Z) :=
  let b := bytes16 (network_word16 1) ++ bytes16 (network_word16 (protocol_type ProtocolIPv4)) ++
           [MAC_ELEMENTS_SIZE; IPv4_ELEMENTS_SIZE] ++ bytes16 (network_word16 opcode) ++ replicate 20 0 in
  b ← IPv4Address_copy source_ip b 14;
  b ← MACAddress_copy source_hw b 8;
  b ← MACAddress_copy destination_hw b 18;
  IPv4Address_copy destination_ip b 24.

Definition send_arp_request (junk : Z -> Z) (n : Network) (lookup_ip : list Z) : exec Network :=
  arp ← ARPHeader ARP_Request (n_mac n) (n_device_ip n) MAC_Zero lookup_ip;
  send_frame junk n ProtocolARP MAC_Broadcast (BufferView_of_ptr arp).

Definition answer_arp_request (junk : Z -> Z) (n : Network) (dest_ip dest_mac : list Z) : exec Network :=
  arp ← ARPHeader ARP_Reply (n_mac n) (n_device_ip n) dest_mac dest_ip;
  send_frame junk n ProtocolARP dest_mac (BufferView_of_ptr arp).

(** [find_if] over the table: the place of the first entry of [ip]. *)
Fixpoint find_entry (t : list ARPEntry) (ip : list Z) : exec (option (list ARPEntry * ARPEntry * list ARPEntry)) :=
  match t with
  | [] => Done None
  | e :: t =>
      b ← IPv4Address_eq (ae_ip e) ip;
      if (b : bool) then Done (Some ([], e, t))
      else r ← find_entry t ip;
        Done (match r with Some (p, x, s) => Some (e :: p, x, s) | None => None end)
  end.

(** The address when the table has it. Otherwise the request has been sent, the new entry
    is the first of the table and the thread waits on it. The table is a vector of the default
    sizes that never shrinks: it is full whenever it is not empty, and its entries move to a
    new storage ([default_vector_front]). *)
Definition mac_address_lookup (junk : Z -> Z) (n : Network) (lookup_ip : list Z) : exec (option (list Z) * Network) :=
  r ← find_entry (n_arp_table n) lookup_ip;
  match r with
  | Some (_, e, _) => Done (Some (ae_mac e), n)
  | None =>
      n ← send_arp_request junk n lookup_ip;
      Done (None, put_table n (mkARPEntry lookup_ip MAC_Zero :: n_arp_table n))
  end.

(** When the thread has been woken: [new_arp_entry] refers to the first place of the storage
    that the table had with [count] entries. Every other entry that has come in the meantime
    has moved the table and freed that storage. *)
Definition mac_address_lookup_resume (n : Network) (count : Z) : exec (list Z) :=
  if alen (n_arp_table n) =? count then e ← aget (n_arp_table n) 0; Done (ae_mac e) else Fault.

Definition add_arp_entry (n : Network) (ip mac : list Z) : exec Network :=
  r ← find_entry (n_arp_table n) ip;
  Done (match r with
        | None => put_table n (n_arp_table n ++ [mkARPEntry ip mac])
        | Some (p, e, s) => put_table n (p ++ mkARPEntry (ae_ip e) mac :: s)
        end).

Definition ARP_handle (junk : Z -> Z) (n : Network) (data : BufferView) : exec Network :=
  _ ← BufferView_const_convert_to data sizeof_ARPHeader;
  opcode ← field16 data 6;
  source_hw ← MACAddress_of_bytes data 8;
  source_ip ← IPv4Address_of_bytes data 14;
  destination_ip ← IPv4Address_of_bytes data 24;
  if network_word16 opcode =? ARP_Request then
    mine ← IPv4Address_eq destination_ip (n_device_ip n);
    if (mine : bool) then answer_arp_request junk n source_ip source_hw else Done n
  else if network_word16 opcode =? ARP_Reply then add_arp_entry n source_ip source_hw
  else Done n.

(** * IPv4 *)

Inductive IPv4Protocols := IP_ICMP | IP_TCP | IP_UDP.

Definition protocol_number (p : IPv4Protocols) : Z :=
  match p with IP_ICMP => 0x1 | IP_TCP => 0x6 | IP_UDP => 0x11 end.

Definition sizeof_IPv4Header : Z := 20.
Definition IPv4_VERSION_LENGTH : Z := Z.lor 0x40 (sizeof_IPv4Header / 4).

Definition IPv4_header_length (value : Z) : Z := Z.land value 0xF * 4.

(** The packet, with its header and checksum. *)
Definition IPv4_packet (junk : Z -> Z) (n : Network) (destination : list Z) (protocol : IPv4Protocols) (data : BufferView)
    : exec (list Z) :=
  p ← Buffer_of_view junk data sizeof_IPv4Header;
  _ ← BufferMutableView_convert_to p sizeof_IPv4Header;
  p ← put8 p 0 IPv4_VERSION_LENGTH;
  p ← put8 p 1 0;
  p ← put16 p 2 (network_word16 (u16 (alen p)));
  p ← put16 p 4 1;
  p ← put16 p 6 0x0040;
  p ← put8 p 8 64;
  p ← put8 p 9 (protocol_number protocol);
  p ← put16 p 10 0;
  p ← IPv4Address_copy (n_device_ip n) p 12;
  p ← IPv4Address_copy destination p 16;
  v ← BufferView_of_buffer p 0 sizeof_IPv4Header;
  c ← checksum v;
  put16 p 10 c.

Definition is_in_local_subnet (n : Network) (address : list Z) : exec bool :=
  a ← IPv4Address_mask address (n_subnet_mask n);
  b ← IPv4Address_mask (n_device_ip n) (n_subnet_mask n);
  IPv4Address_eq a b.

Definition destination_mac_lookup (junk : Z -> Z) (n : Network) (address : list Z) : exec (option (list Z) * Network) :=
  broadcast ← IPv4Address_eq address IPv4_Broadcast;
  if (broadcast : bool) then Done (Some MAC_Broadcast, n)
  else
    mine ← IPv4Address_eq address (n_device_ip n);
    if (mine : bool) then Done (Some (n_mac n), n)
    else
      local ← is_in_local_subnet n address;
      mac_address_lookup junk n (if (local : bool) then address else n_gateway_ip n).

(** The frame is sent, or the packet waits for the hardware address. *)
Definition IPv4_send (junk : Z -> Z) (n : Network) (destination : list Z) (protocol : IPv4Protocols) (data : BufferView)
    : exec (option (list Z) * Network) :=
  packet ← IPv4_packet junk n destination protocol data;
  '(mac, n) ← destination_mac_lookup junk n destination;
  match mac with
  | Some mac => n ← send_frame junk n ProtocolIPv4 mac (BufferView_of_ptr packet); Done (None, n)
  | None => Done (Some packet, n)
  end.

Definition IPv4_send_resume (junk : Z -> Z) (n : Network) (count : Z) (packet : list Z) : exec Network :=
  mac ← mac_address_lookup_resume n count;
  send_frame junk n ProtocolIPv4 mac (BufferView_of_ptr packet).

(** [is_packet_ok] looks at the fixed part of the header. *)
Definition IPv4_is_packet_ok (data : BufferView) : exec bool :=
  c ← checksum (mkView (bv_array data) (bv_start data) sizeof_IPv4Header);
  Done (c =? 0).

(** The handlers of the three protocols, over a state of their own, get the address of the
    sender and the payload. *)
Definition IPv4_handle {S} (icmp tcp udp : S -> list Z -> BufferView -> exec S) (s : S) (data : BufferView) : exec S :=
  _ ← BufferView_const_convert_to data sizeof_IPv4Header;
  total_length ← field16 data 2;
  let packet_size := network_word16 total_length in
  ok ← IPv4_is_packet_ok data;
  if negb ok then Done s
  else
    version_length ← field8 data 0;
    let header_len := IPv4_header_length version_length in
    extracted_data ← BufferView_of_view data header_len (u32 (packet_size - header_len));
    protocol ← field8 data 9;
    src_ip ← IPv4Address_of_bytes data 12;
    if protocol =? protocol_number IP_ICMP then icmp s src_ip extracted_data
    else if protocol =? protocol_number IP_TCP then tcp s src_ip extracted_data
    else if protocol =? protocol_number IP_UDP then udp s src_ip extracted_data
    else Done s.

(** * Addresses are compared and copied byte by byte *)

Definition bytes_of (size : Z) (a : list Z) : Prop := alen a = size /\ Forall is_byte a.

Lemma aget_nth {A} (l : list A) (i : Z) x : 0 <= i -> l !! Z.to_nat i = Some x -> aget l i = Done x.
Proof. apply aget_Done. Qed.

Lemma address_eq_spec size a b : alen a = size -> alen b = size -> address_eq size a b = Done (bool_decide (a = b)).
Proof.
  intros Ha Hb. unfold address_eq.
  destruct (while_inv (fun i => 0 <= i <= size /\ take (Z.to_nat i) a = take (Z.to_nat i) b) (fun r => r = bool_decide (a = b))
    (fun i => Z.to_nat (size - i)) (fun i =>
    if i <? size then
      x ← aget a i; y ← aget b i;
      if negb (x =? y) then Done (inr false) else Done (inl (i + 1))
    else Done (inr true)) (S (Z.to_nat size)) 0) as (r & E & ->); [|lia| |done].
  - pose proof (alen_nonneg a). split; [lia|]. by rewrite !take_0.
  - intros i [Hi Et]. destruct (Z.ltb_spec i size).
    + destruct (aget_in_range a i) as (x & -> & Hx); [lia|]. destruct (aget_in_range b i) as (y & -> & Hy); [lia|].
      cbn [mbind exec_bind]. destruct (Z.eqb_spec x y) as [->|Hne]; simpl.
      * left. exists (i + 1). split; [done|]. split; [|lia]. split; [lia|].
        replace (Z.to_nat (i + 1)) with (S (Z.to_nat i)) by lia.
        by rewrite (take_S_r _ _ _ Hx), (take_S_r _ _ _ Hy), Et.
      * right. exists false. split; [done|]. symmetry. apply bool_decide_eq_false_2. intros ->. congruence.
    + right. exists true. split; [done|]. symmetry. apply bool_decide_eq_true_2.
      unfold alen in *. rewrite !firstn_all2 in Et by lia. done.
Qed.

(** Bytes of a view. *)
Definition part (v : BufferView) (off size : Z) : list Z := take (Z.to_nat size) (drop (Z.to_nat off) (shown v)).

Lemma alen_part v off size : view_ok v -> 0 <= off -> 0 <= size -> off + size <= bv_size v -> alen (part v off size) = size.
Proof.
  intros Hv ? ? ?. pose proof (alen_shown v Hv) as Hl. unfold part, alen in *. rewrite length_take, length_drop. lia.
Qed.

Lemma part_split v off size : view_ok v -> 0 <= off -> 0 <= size -> off + size <= bv_size v ->
  exists p s, bv_array v = p ++ part v off size ++ s /\ alen p = bv_start v + off.
Proof.
  intros Hv ? ? ?. pose proof (alen_shown v Hv) as Hl. destruct (view_split v Hv) as (p & s & E & Ep).
  exists (p ++ take (Z.to_nat off) (shown v)), (drop (Z.to_nat size) (drop (Z.to_nat off) (shown v)) ++ s). split.
  - unfold part. rewrite <- app_assoc. rewrite (app_assoc (take (Z.to_nat size) _)), take_drop, app_assoc, app_assoc.
    by rewrite <- (app_assoc p), take_drop, <- app_assoc.
  - rewrite alen_app. unfold alen in *. rewrite length_take. lia.
Qed.

Lemma address_of_bytes_spec size v off : view_ok v -> 0 <= off -> 0 <= size -> off + size <= bv_size v ->
  address_of_bytes size v off = Done (part v off size).
Proof.
  intros Hv ? ? ?. destruct (part_split v off size) as (p & s & E & Ep); [done..|].
  pose proof (alen_part v off size Hv) as Hl. unfold address_of_bytes. rewrite E, <- Ep.
  pose proof (memcpy_spec (part v off size) (replicate (Z.to_nat size) 0) [] [] p s) as Em.
  rewrite !app_nil_r, (@alen_nil Z), Hl in Em by lia. cbn [app] in Em. rewrite Em; [done|].
  rewrite length_replicate. specialize (Hl ltac:(lia) ltac:(lia) ltac:(lia)). unfold alen in Hl. lia.
Qed.

(** Writing over a part of a buffer. *)
Lemma put8_at b p o rest off x : b = p ++ o :: rest -> off = alen p -> put8 b off x = Done (p ++ u8 x :: rest).
Proof. intros -> ->. apply aset_middle. Qed.

Lemma put16_at b p old rest off x : b = p ++ old ++ rest -> alen old = 2 -> off = alen p ->
  put16 b off x = Done (p ++ bytes16 x ++ rest).
Proof.
  intros -> Hl ->. destruct old as [|o [|o' [|o'' old]]]; rewrite ?alen_cons, ?(@alen_nil Z) in Hl; try lia.
  2: pose proof (alen_nonneg old); lia.
  unfold put16. rewrite (put8_at _ p o (o' :: rest)) by done. cbn [mbind exec_bind].
  rewrite (put8_at _ (p ++ [u8 x]) o' rest); [by rewrite <- app_assoc|by rewrite <- app_assoc|by rewrite alen_snoc].
Qed.

Lemma memcpy_at b p old rest off a size : b = p ++ old ++ rest -> alen old = size -> alen a = size -> off = alen p ->
  memcpy b off a 0 size = Done (p ++ a ++ rest).
Proof.
  intros -> Ho Ha ->. pose proof (memcpy_spec a old p rest [] []) as E. rewrite app_nil_r, Ha in E.
  apply E. unfold alen in *. lia.
Qed.

(** Writes at a known place of a buffer whose first bytes are listed. *)
Ltac put_known :=
  match goal with
  | |- context [put8 ?b ?off ?x] =>
      let k := eval vm_compute in (Z.to_nat off) in
      rewrite (put8_at b (take k b) (nth k b 0) (drop (S k) b) off x) by reflexivity
  | |- context [put16 ?b ?off ?x] =>
      let k := eval vm_compute in (Z.to_nat off) in
      rewrite (put16_at b (take k b) (take 2 (drop k b)) (drop (2 + k) b) off x) by reflexivity
  end; cbn [take drop nth app Nat.add mbind exec_bind].

Ltac list_bytes l H :=
  let x := fresh "b" in
  destruct l as [|x l]; autorewrite with cyan in H; [exfalso; lia|].

(** A list in two parts. *)
Lemma two_parts {A} (l : list A) (n : Z) : 0 <= n <= alen l ->
  exists a b, l = a ++ b /\ alen a = n /\ alen b = alen l - n.
Proof.
  intros Hn. exists (take (Z.to_nat n) l), (drop (Z.to_nat n) l). rewrite take_drop. unfold alen in *.
  rewrite length_take, length_drop. split; [done|lia].
Qed.

(** A buffer with room in front of the bytes of a view. *)
Lemma Buffer_of_view_spec junk v off : view_ok v -> 0 <= off -> bv_size v + off < 2 ^ 32 ->
  exists head, Buffer_of_view junk v off = Done (head ++ shown v) /\ alen head = off.
Proof.
  intros Hv Ho Hs. pose proof Hv as (Hv1 & Hv2 & Hv3). pose proof (alen_shown v Hv) as Hl.
  destruct (view_split v Hv) as (p & s & E & Ep).
  set (b := new_u8 junk (bv_size v + off)). assert (Hb : alen b = bv_size v + off) by (apply alen_new_u8; lia).
  exists (take (Z.to_nat off) b). unfold Buffer_of_view, BufferView_copy_to. fold b.
  rewrite Z.add_0_l, u32_small, bind_ASSERT by (lia || by apply Z.leb_refl).
  pose proof (memcpy_spec (shown v) (drop (Z.to_nat off) b) (take (Z.to_nat off) b) [] p s) as Em.
  rewrite app_nil_r, take_drop, app_nil_r in Em. rewrite Z.add_0_r, E, <- Hl.
  assert (Ht : alen (take (Z.to_nat off) b) = off) by (unfold alen in *; rewrite length_take; lia).
  rewrite Ht, Ep in Em. rewrite Em; [done|]. unfold alen in *. rewrite length_drop. lia.
Qed.

(** A frame: destination, source, type, payload. *)
Definition frame_of (destination source : list Z) (type : ProtocolType) (payload : list Z) : list Z :=
  destination ++ source ++ bytes16 (network_word16 (protocol_type type)) ++ payload.

Lemma send_frame_spec junk n type dest v :
  alen (n_mac n) = 6 -> alen dest = 6 -> view_ok v -> 0 < bv_size v < 2 ^ 31 ->
  send_frame junk n type dest v = Done (put_frame n (frame_of dest (n_mac n) type (shown v))).
Proof.
  intros Hm Hd Hv Hs. unfold send_frame, ETHERNET_HEADER_SIZE, sizeof_EthernetFrame, BufferMutableView_convert_to.
  destruct (Buffer_of_view_spec junk v 14) as (head & -> & Hh); [done|lia..|]. cbn [mbind exec_bind].
  rewrite bind_ASSERT by (apply Z.leb_le; rewrite alen_app, (alen_shown v Hv); lia).
  destruct (two_parts head 6) as (h1 & t & -> & H1 & Ht); [lia|]. destruct (two_parts t 6) as (h2 & h3 & -> & H2 & H3); [lia|].
  unfold MACAddress_copy, address_copy, MAC_ELEMENTS_SIZE. rewrite <- !app_assoc.
  rewrite (memcpy_at _ h1 h2 (h3 ++ shown v)) by done. cbn [mbind exec_bind].
  rewrite (memcpy_at _ [] h1 (n_mac n ++ h3 ++ shown v)) by done. cbn [mbind exec_bind app].
  rewrite (put16_at _ (dest ++ n_mac n) h3 (shown v)); [by rewrite <- app_assoc|by rewrite <- app_assoc|lia|rewrite alen_app; lia].
Qed.

(** Reading a part of a view. *)
Lemma field8_at v p x rest off : view_ok v -> shown v = p ++ x :: rest -> off = alen p -> field8 v off = Done x.
Proof.
  intros Hv E ->. unfold field8. pose proof (alen_shown v Hv) as Hl. pose proof (alen_nonneg p). pose proof (alen_nonneg rest).
  rewrite view_at; [|done|rewrite <- Hl, E, alen_app, alen_cons; lia]. rewrite E. apply aget_middle.
Qed.

Lemma bytes16_value x : 0 <= x < 2 ^ 16 -> u8 x + 2 ^ 8 * u8 (Z.shiftr x 8) = x.
Proof. intros Hx. rewrite Z.shiftr_div_pow2 by lia. unfold u8. zdiv. Qed.

Lemma field16_at v p x rest off : view_ok v -> shown v = p ++ bytes16 x ++ rest -> off = alen p -> 0 <= x < 2 ^ 16 ->
  field16 v off = Done x.
Proof.
  intros Hv E -> Hx. unfold field16. rewrite (field8_at v p (u8 x) (u8 (Z.shiftr x 8) :: rest) (alen p)) by done.
  cbn [mbind exec_bind]. rewrite (field8_at v (p ++ [u8 x]) (u8 (Z.shiftr x 8)) rest); [|done|by rewrite E, <- app_assoc|by rewrite alen_snoc].
  cbn [mbind exec_bind]. by rewrite bytes16_value.
Qed.

Lemma part_at v p a rest off size : shown v = p ++ a ++ rest -> off = alen p -> size = alen a -> part v off size = a.
Proof.
  intros E -> ->. unfold part, alen. rewrite E, !Nat2Z.id, drop_app_length. apply take_app_length.
Qed.

Lemma address_at v p a rest off size : view_ok v -> shown v = p ++ a ++ rest -> off = alen p -> size = alen a ->
  address_of_bytes size v off = Done a.
Proof.
  intros Hv E Ho Hs. pose proof (alen_shown v Hv) as Hl. rewrite E, !alen_app in Hl.
  pose proof (alen_nonneg p). pose proof (alen_nonneg a). pose proof (alen_nonneg rest).
  rewrite address_of_bytes_spec by (done || lia). f_equal. by apply (part_at v p a rest).
Qed.

Lemma network_word16_twice x : 0 <= x < 2 ^ 16 -> network_word16 (network_word16 x) = x.
Proof. apply swap_twice. Qed.

Lemma network_word16_range x : 0 <= network_word16 x < 2 ^ 16.
Proof. apply big_endian16_range. Qed.

Lemma protocol_type_range t : 0 <= protocol_type t < 2 ^ 16.
Proof. by destruct t. Qed.

(** What a station receives when a frame arrives. *)
Lemma receive_frame_spec junk v dst src type payload :
  view_ok v -> alen dst = 6 -> alen src = 6 -> 0 < alen payload -> shown v = frame_of dst src type payload ->
  handle_received_ethernet_frame junk v = Done (protocol_type type, BufferView_of_ptr payload).
Proof.
  intros Hv Hd Hs Hp E. pose proof (alen_shown v Hv) as Hl. pose proof Hv as (_ & Hv2 & _).
  assert (Hlen : bv_size v = 14 + alen payload) by (rewrite <- Hl, E; unfold frame_of; rewrite !alen_app; unfold bytes16; rewrite !alen_cons, (@alen_nil Z); lia).
  unfold handle_received_ethernet_frame, BufferView_const_convert_to, sizeof_EthernetFrame, ETHERNET_HEADER_SIZE.
  rewrite bind_ASSERT by (apply Z.leb_le; lia).
  rewrite (field16_at v (dst ++ src) (network_word16 (protocol_type type)) payload); [|done|by rewrite E, <- app_assoc|rewrite alen_app; lia|apply network_word16_range].
  cbn [mbind exec_bind]. destruct (of_view_spec v 14 0) as (w & -> & Hw & Hws & Ew); [done|lia..|]. cbn [mbind exec_bind].
  simpl in Hws. assert (Esh : shown w = payload).
  { rewrite Ew, Hws. apply (part_at v (dst ++ src ++ bytes16 (network_word16 (protocol_type type))) payload []).
    - by rewrite app_nil_r, <- !app_assoc.
    - rewrite !alen_app. unfold bytes16. rewrite !alen_cons, (@alen_nil Z). lia.
    - lia. }
  destruct (Buffer_of_view_spec junk w 0) as (head & -> & Hh); [done|lia..|].
  destruct head as [|h head]; [|rewrite alen_cons in Hh; pose proof (alen_nonneg head); lia].
  cbn [mbind exec_bind app]. rewrite Esh. unfold BufferView_of_buffer. rewrite bind_ASSERT by (apply Z.leb_le; unfold u32; simpl; apply alen_nonneg).
  cbn [mbind exec_bind Z.eqb]. rewrite network_word16_twice by apply protocol_type_range.
  by rewrite Z.sub_0_r, u32_small by lia.
Qed.

(** * Packets *)

(** The header of a packet, before its checksum and with it. *)
Definition header_of (total protocol c : Z) (src dst : list Z) : list Z :=
  [0x45; 0] ++ bytes16 (network_word16 total) ++ bytes16 1 ++ bytes16 0x0040 ++ [64; protocol] ++ bytes16 c ++ src ++ dst.

Lemma alen_bytes16 x : alen (bytes16 x) = 2.
Proof. done. Qed.

#[export] Hint Rewrite alen_bytes16 : cyan.

Ltac len := autorewrite with cyan; try lia.

Lemma alen_header total protocol c src dst : alen src = 4 -> alen dst = 4 -> alen (header_of total protocol c src dst) = 20.
Proof. intros. unfold header_of. len. Qed.

Lemma header_bytes total protocol c src dst : is_byte protocol -> bytes_of 4 src -> bytes_of 4 dst ->
  Forall is_byte (header_of total protocol c src dst).
Proof.
  intros Hp [_ Hs] [_ Hd]. unfold header_of, bytes16.
  cbn [app]. repeat (apply Forall_cons; split; [first [apply u8_range|done]|]). apply Forall_app. by split.
Qed.

(** The view of the first bytes of a buffer, and what its checksum reads. *)
Lemma front_view h rest : alen h = 20 -> Forall is_byte (h ++ rest) ->
  let v := mkView (h ++ rest) 0 20 in words_inside v /\ read_bytes v = h.
Proof.
  intros Hh Hb v. pose proof (alen_nonneg rest).
  destruct (words_inside_even v) as [Hw E]; [unfold view_ok, v; simpl; len|done|done|done|].
  split; [done|]. rewrite E. unfold shown, v. cbn [bv_array bv_start bv_size]. rewrite drop_0.
  replace (Z.to_nat 20) with (length h) by (unfold alen in Hh; lia). apply take_app_length.
Qed.

(** What [IPv4_packet] builds, and that the checksum it stores makes the header add up. *)
Lemma IPv4_packet_spec junk n dst protocol data :
  bytes_of 4 (n_device_ip n) -> bytes_of 4 dst -> view_ok data -> Forall is_byte (shown data) -> bv_size data < 2 ^ 31 ->
  exists c, 0 <= c < 2 ^ 16 /\
    let h := header_of (u16 (20 + bv_size data)) (protocol_number protocol) c (n_device_ip n) dst in
    IPv4_packet junk n dst protocol data = Done (h ++ shown data) /\
    forall rest, Forall is_byte rest -> checksum (mkView (h ++ rest) 0 20) = Done 0.
Proof.
  intros Hs Hd Hv Hb Hsz. set (total := u16 (20 + bv_size data)). set (proto := protocol_number protocol).
  assert (Hproto : is_byte proto) by (unfold proto, is_byte; destruct protocol; simpl; lia).
  set (h0 := header_of total proto 0 (n_device_ip n) dst). pose proof Hv as (_ & Hv2 & _). pose proof (alen_shown data Hv) as Hl.
  assert (Hh : forall c, alen (header_of total proto c (n_device_ip n) dst) = 20) by (intros; by apply alen_header; [apply Hs|apply Hd]).
  assert (Hhb : forall c, Forall is_byte (header_of total proto c (n_device_ip n) dst)) by (intros; by apply header_bytes).
  destruct (front_view h0 (shown data)) as [Hw0 E0]; [apply Hh|apply Forall_app; split; [apply Hhb|done]|].
  pose proof (checksum_value _ Hw0) as Hc. set (c := to_big_endian16 _) in Hc. exists c. split; [apply big_endian16_range|]. intros h.
  assert (Hpre : forall c, header_of total proto c (n_device_ip n) dst =
    ([0x45; 0] ++ bytes16 (network_word16 total) ++ bytes16 1 ++ bytes16 0x0040 ++ [64; proto]) ++ bytes16 c ++ (n_device_ip n ++ dst)) by done.
  split.
  - unfold IPv4_packet, sizeof_IPv4Header, BufferMutableView_convert_to.
    destruct (Buffer_of_view_spec junk data 20) as (head & -> & Hhead); [done|lia..|]. cbn [mbind exec_bind].
    rewrite bind_ASSERT by (apply Z.leb_le; len).
    destruct (two_parts head 12) as (f & r & -> & Hf & Hr); [lia|].
    do 12 list_bytes f Hf. destruct f; [|autorewrite with cyan in Hf; pose proof (alen_nonneg f); lia].
    destruct (two_parts r 4) as (r1 & r2 & -> & Hr1 & Hr2); [lia|]. cbn [app].
    assert (Hr4 : alen r1 + alen r2 = 8) by (autorewrite with cyan in Hhead; lia).
    put_known. put_known.
    match goal with |- context [u16 (alen ?l)] => replace (u16 (alen l)) with total by (unfold total; f_equal; len) end.
    change (u8 IPv4_VERSION_LENGTH) with 0x45. change (u8 0) with 0.
    do 5 put_known. fold proto. change (u8 64) with 64. rewrite (u8_small proto) by apply Hproto. put_known.
    unfold IPv4Address_copy, address_copy, IPv4_ELEMENTS_SIZE. destruct Hs as [Hs _], Hd as [Hd _].
    set (pre := [0x45; 0] ++ bytes16 (network_word16 total) ++ bytes16 1 ++ bytes16 0x0040 ++ [64; proto] ++ bytes16 0).
    rewrite (memcpy_at _ pre r1 (r2 ++ shown data)) by (by rewrite <- ?app_assoc). cbn [mbind exec_bind].
    rewrite (memcpy_at _ (pre ++ n_device_ip n) r2 (shown data)); [|by rewrite <- app_assoc|lia|done|rewrite alen_app; change (alen pre) with 12; lia].
    cbn [mbind exec_bind]. replace ((pre ++ n_device_ip n) ++ dst ++ shown data) with (h0 ++ shown data)
      by (unfold h0, header_of, pre; by rewrite <- !app_assoc).
    unfold BufferView_of_buffer. rewrite bind_ASSERT by (apply Z.leb_le; change (u32 (20 + 0)) with 20; rewrite alen_app; unfold h0; rewrite Hh; lia).
    cbn [mbind exec_bind Z.eqb]. rewrite Hc. cbn [mbind exec_bind]. unfold h0. rewrite Hpre, <- !app_assoc.
    rewrite (put16_at _ ([0x45; 0] ++ bytes16 (network_word16 total) ++ bytes16 1 ++ bytes16 0x0040 ++ [64; proto])
      (bytes16 0) (n_device_ip n ++ dst ++ shown data)); [|by rewrite <- !app_assoc|done|done].
    unfold h. by rewrite Hpre, <- !app_assoc.
  - intros rest Hrest. destruct (front_view h rest) as [Hw E]; [apply Hh|apply Forall_app; split; [apply Hhb|done]|].
    apply (checksum_completes _ _ _ _ Hw0 Hw) with (3 := Hc) (2 := eq_trans E0 (Hpre 0)); [by exists 5%nat|].
    rewrite E. apply Hpre.
Qed.

(** The handler that a protocol number selects. *)
Definition handler_of {S} (icmp tcp udp : S -> list Z -> BufferView -> exec S) (protocol : IPv4Protocols) :=
  match protocol with IP_ICMP => icmp | IP_TCP => tcp | IP_UDP => udp end.

Lemma select_handler {S} (icmp tcp udp : S -> list Z -> BufferView -> exec S) protocol s src v :
  (let number := protocol_number protocol in
   if number =? protocol_number IP_ICMP then icmp s src v
   else if number =? protocol_number IP_TCP then tcp s src v
   else if number =? protocol_number IP_UDP then udp s src v
   else Done s) = handler_of icmp tcp udp protocol s src v.
Proof. by destruct protocol. Qed.

(** A packet that a sender built, as a receiver sees it: with what the adapter put
    behind it to reach the least size of a frame. *)
Lemma IPv4_handle_spec {S} (icmp tcp udp : S -> list Z -> BufferView -> exec S) s total protocol c src dst rest :
  let h := header_of total (protocol_number protocol) c src dst in
  alen src = 4 -> alen dst = 4 -> 0 <= total < 2 ^ 16 -> alen rest < 2 ^ 31 -> checksum (mkView (h ++ rest) 0 20) = Done 0 ->
  IPv4_handle icmp tcp udp s (BufferView_of_ptr (h ++ rest)) =
    (w ← BufferView_of_view (BufferView_of_ptr (h ++ rest)) 20 (u32 (total - 20)); handler_of icmp tcp udp protocol s src w).
Proof.
  intros h Hs Hd Ht Hr Hc. pose proof (alen_nonneg rest). assert (Hh : alen h = 20) by (by apply alen_header).
  assert (Hlen : alen (h ++ rest) = 20 + alen rest) by len.
  destruct (shown_of_ptr (h ++ rest)) as [Hv Ev]; [lia|]. set (v := BufferView_of_ptr (h ++ rest)) in *.
  unfold IPv4_handle, BufferView_const_convert_to, sizeof_IPv4Header. rewrite bind_ASSERT by (apply Z.leb_le; change (bv_size v) with (alen (h ++ rest)); lia).
  set (num := protocol_number protocol) in h. set (ntotal := network_word16 total) in h.
  rewrite (field16_at v [0x45; 0] (network_word16 total) ((bytes16 1 ++ bytes16 0x0040 ++ [64; num] ++ bytes16 c ++ src ++ dst) ++ rest));
    [|done|by rewrite Ev|done|apply network_word16_range].
  cbn [mbind exec_bind]. unfold IPv4_is_packet_ok, sizeof_IPv4Header. change (bv_array v) with (h ++ rest). change (bv_start v) with 0. rewrite Hc.
  cbn [mbind exec_bind Z.eqb negb]. rewrite network_word16_twice by done.
  rewrite (field8_at v [] 0x45 (drop 1 (h ++ rest)) 0); [|done|by rewrite Ev|done]. cbn [mbind exec_bind].
  change (IPv4_header_length 0x45) with 20. destruct (BufferView_of_view v 20 (u32 (total - 20))) as [w| | |]; try done.
  cbn [mbind exec_bind].
  rewrite (field8_at v ([0x45; 0] ++ bytes16 ntotal ++ bytes16 1 ++ bytes16 0x0040 ++ [64]) num ((bytes16 c ++ src ++ dst) ++ rest));
    [|done|by rewrite Ev|done].
  cbn [mbind exec_bind]. unfold IPv4Address_of_bytes.
  rewrite (address_at v ([0x45; 0] ++ bytes16 ntotal ++ bytes16 1 ++ bytes16 0x0040 ++ [64; num] ++ bytes16 c) src (dst ++ rest));
    [|done| |done|done].
  - cbn [mbind exec_bind]. apply select_handler.
  - rewrite Ev. unfold h, header_of. fold ntotal. by rewrite <- !app_assoc.
Qed.

(** A header that does not add up. *)
Lemma IPv4_handle_drops {S} (icmp tcp udp : S -> list Z -> BufferView -> exec S) s v :
  view_ok v -> 20 <= bv_size v -> Forall is_byte (bv_array v) -> ones_sum (words (take 20 (shown v))) <> 0xFFFF ->
  IPv4_handle icmp tcp udp s v = Done s.
Proof.
  intros Hv Hs Hb Hne. unfold IPv4_handle, BufferView_const_convert_to, sizeof_IPv4Header.
  rewrite bind_ASSERT by (apply Z.leb_le; lia). pose proof (alen_shown v Hv) as Hl. pose proof Hv as (Hv1 & Hv2 & Hv3).
  unfold field16, field8. rewrite !view_at by (done || lia).
  destruct (aget_in_range (shown v) 2) as (a & -> & _); [lia|]. destruct (aget_in_range (shown v) (2 + 1)) as (b & -> & _); [lia|].
  cbn [mbind exec_bind]. unfold IPv4_is_packet_ok. set (w := mkView _ _ _).
  destruct (words_inside_even w) as [Hw E]; [unfold view_ok, w, sizeof_IPv4Header; simpl; lia|done|done|done|].
  assert (Esh : shown w = take 20 (shown v)).
  { unfold shown, w, sizeof_IPv4Header. cbn [bv_array bv_start bv_size]. rewrite take_take. f_equal. lia. }
  rewrite (checksum_value w Hw), E, Esh. cbn [mbind exec_bind].
  assert (Hr : ones_of (plain_sum (words (take 20 (shown v)))) (ones_sum (words (take 20 (shown v))))).
  { apply ones_sum_of, words_range, Forall_take, Forall_take, Forall_drop, Hb. }
  destruct Hr as [Hr _]. rewrite (proj2 (Z.eqb_neq _ 0)); [done|]. rewrite swap_zero; lia.
Qed.

(** C29: IPv4 packets make the round trip. A packet built for a payload of up to 65515
    bytes and received with any padding behind it passes the check and is handed to the
    handler of its protocol with the address of the sender and exactly the payload; an
    empty payload, however, becomes the padding. A packet whose header does not add up to
    0xFFFF is dropped without any effect. *)
Theorem ipv4_roundtrip (junk : Z -> Z) (n : Network) (dst : list Z) (protocol : IPv4Protocols) (data : BufferView)
    (Hsrc : bytes_of 4 (n_device_ip n)) (Hdst : bytes_of 4 dst) (Hview : view_ok data)
    (Hbytes : Forall is_byte (shown data)) (Hsize : bv_size data <= 65515) :
  (exists packet, IPv4_packet junk n dst protocol data = Done packet /\ alen packet = 20 + bv_size data /\
    forall pad S (icmp tcp udp : S -> list Z -> BufferView -> exec S) s, Forall is_byte pad -> alen pad < 2 ^ 16 ->
      exists w, view_ok w /\ shown w = (if bv_size data =? 0 then pad else shown data) /\
        IPv4_handle icmp tcp udp s (BufferView_of_ptr (packet ++ pad)) = handler_of icmp tcp udp protocol s (n_device_ip n) w) /\
  (forall v S (icmp tcp udp : S -> list Z -> BufferView -> exec S) s,
     view_ok v -> 20 <= bv_size v -> Forall is_byte (bv_array v) -> ones_sum (words (take 20 (shown v))) <> 0xFFFF ->
     IPv4_handle icmp tcp udp s v = Done s).
Proof.
  split; [|intros; by apply IPv4_handle_drops].
  destruct (IPv4_packet_spec junk n dst protocol data) as (c & Hc & E & Hok); [done..|lia|].
  pose proof (alen_shown data Hview) as Hl. pose proof Hview as (_ & Hv2 & _).
  set (h := header_of _ _ _ _ _) in E, Hok. assert (Hh : alen h = 20) by (apply alen_header; [apply Hsrc|apply Hdst]).
  eexists. split; [exact E|]. split; [len|]. intros pad S icmp tcp udp s Hpad Hpl. rewrite <- app_assoc.
  set (rest := shown data ++ pad). assert (Hrest : alen rest = bv_size data + alen pad) by (unfold rest; len).
  pose proof (alen_nonneg pad). unfold h. rewrite IPv4_handle_spec; [|apply Hsrc|apply Hdst|apply u16_range|lia|apply Hok, Forall_app; by split].
  fold h. rewrite u16_small by lia. replace (20 + bv_size data - 20) with (bv_size data) by lia. rewrite u32_small by lia.
  destruct (shown_of_ptr (h ++ rest)) as [Hv Ev]; [len|].
  destruct (of_view_spec (BufferView_of_ptr (h ++ rest)) 20 (bv_size data)) as (w & -> & Hw & Hws & Esh); [done|lia|lia|change (20 + bv_size data <= alen (h ++ rest)); rewrite alen_app; lia|].
  exists w. split; [done|]. split; [|done]. rewrite Esh, Ev.
  change (bv_size (BufferView_of_ptr (h ++ rest))) with (alen (h ++ rest)) in Hws. rewrite alen_app, Hh, Hrest in Hws.
  replace (Z.to_nat 20) with (length h) by (unfold alen in Hh; lia). rewrite drop_app_length. unfold rest.
  destruct (Z.eqb_spec (bv_size data) 0) as [Ez|Ez]; rewrite Hws.
  - rewrite (nil_length_inv (shown data)) by (unfold alen in Hl; lia). apply take_ge. simpl. unfold alen in *. lia.
  - replace (Z.to_nat (bv_size data)) with (length (shown data)) by (unfold alen in Hl; lia). apply take_app_length.
Qed.

(** A packet from 10.0.2.15 with three bytes for UDP, received with padding. *)
Lemma ipv4_roundtrip_witness :
  let n := mkNetwork [2; 0; 0; 0; 0; 1] [10; 0; 2; 15] [10; 0; 2; 2] [255; 255; 255; 0] [] [] in
  exists packet, IPv4_packet (fun _ => 0) n [10; 0; 2; 2] IP_UDP (BufferView_of_ptr [1; 2; 3]) = Done packet /\
    exists w, shown w = [1; 2; 3] /\
      IPv4_handle (fun s _ _ => Done s) (fun s _ _ => Done s) (fun s src w => Done (s ++ src ++ shown w)) []
        (BufferView_of_ptr (packet ++ [0; 0])) = Done ([10; 0; 2; 15] ++ shown w).
Proof.
  intros n. destruct (ipv4_roundtrip (fun _ => 0) n [10; 0; 2; 2] IP_UDP (BufferView_of_ptr [1; 2; 3])) as [(packet & E & _ & H) _].
  - split; [done|]. repeat constructor; done.
  - split; [done|]. repeat constructor; done.
  - by apply shown_of_ptr.
  - repeat constructor; done.
  - done.
  - exists packet. split; [exact E|].
    destruct (H [0; 0] (list Z) (fun s _ _ => Done s) (fun s _ _ => Done s) (fun s src w => Done (s ++ src ++ shown w)) []) as (w & _ & Ew & Eh);
      [repeat constructor; done|done|]. exists w. by split.
Defined.

(** * Address resolution *)

Definition arp_of (opcode : Z) (source_hw source_ip destination_hw destination_ip : list Z) : list Z :=
  bytes16 (network_word16 1) ++ bytes16 (network_word16 0x0800) ++ [6; 4] ++ bytes16 (network_word16 opcode) ++
  source_hw ++ source_ip ++ destination_hw ++ destination_ip.

Lemma ARPHeader_spec opcode shw sip dhw dip : alen shw = 6 -> alen sip = 4 -> alen dhw = 6 -> alen dip = 4 ->
  ARPHeader opcode shw sip dhw dip = Done (arp_of opcode shw sip dhw dip).
Proof.
  intros Hsh Hsi Hdh Hdi. unfold ARPHeader, IPv4Address_copy, MACAddress_copy, address_copy, MAC_ELEMENTS_SIZE, IPv4_ELEMENTS_SIZE.
  set (pre := bytes16 (network_word16 1) ++ bytes16 (network_word16 (protocol_type ProtocolIPv4)) ++ [6; 4] ++ bytes16 (network_word16 opcode)).
  rewrite (memcpy_at _ (pre ++ replicate 6 0) (replicate 4 0) (replicate 6 0 ++ replicate 4 0)) by (done || by rewrite <- ?app_assoc).
  cbn [mbind exec_bind].
  rewrite (memcpy_at _ pre (replicate 6 0) (sip ++ replicate 6 0 ++ replicate 4 0)) by (done || by rewrite <- ?app_assoc).
  cbn [mbind exec_bind].
  rewrite (memcpy_at _ (pre ++ shw ++ sip) (replicate 6 0) (replicate 4 0)); [|by rewrite <- !app_assoc|done|done|rewrite !alen_app; change (alen pre) with 8; lia].
  cbn [mbind exec_bind].
  rewrite (memcpy_at _ (pre ++ shw ++ sip ++ dhw) (replicate 4 0) []); [|by rewrite <- !app_assoc|done|done|rewrite !alen_app; change (alen pre) with 8; lia].
  unfold arp_of, pre. by rewrite app_nil_r, <- !app_assoc.
Qed.

Lemma alen_arp op shw sip dhw dip : alen shw = 6 -> alen sip = 4 -> alen dhw = 6 -> alen dip = 4 ->
  alen (arp_of op shw sip dhw dip) = 28.
Proof. intros. unfold arp_of. len. Qed.

(** What [ARP_handle] does with a request and with a reply, padded as they arrive. *)
Lemma ARP_handle_spec junk n op shw sip dhw dip pad :
  alen shw = 6 -> alen sip = 4 -> alen dhw = 6 -> alen dip = 4 -> alen (n_device_ip n) = 4 -> 0 <= op < 2 ^ 16 -> alen pad < 2 ^ 16 ->
  ARP_handle junk n (BufferView_of_ptr (arp_of op shw sip dhw dip ++ pad)) =
    if op =? ARP_Request then
      if bool_decide (dip = n_device_ip n) then answer_arp_request junk n sip shw else Done n
    else if op =? ARP_Reply then add_arp_entry n sip shw else Done n.
Proof.
  intros Hsh Hsi Hdh Hdi Hn Hop Hp. pose proof (alen_nonneg pad).
  pose proof (alen_arp op shw sip dhw dip Hsh Hsi Hdh Hdi) as Hl. set (b := arp_of op shw sip dhw dip ++ pad).
  assert (Hb : alen b = 28 + alen pad) by (unfold b; rewrite alen_app; lia).
  destruct (shown_of_ptr b) as [Hv Ev]; [lia|]. set (v := BufferView_of_ptr b) in *.
  unfold ARP_handle, BufferView_const_convert_to, sizeof_ARPHeader.
  rewrite bind_ASSERT by (apply Z.leb_le; change (bv_size v) with (alen b); lia).
  set (pre := bytes16 (network_word16 1) ++ bytes16 (network_word16 0x0800) ++ [6; 4]).
  set (nop := network_word16 op). assert (Eb : b = pre ++ bytes16 nop ++ shw ++ sip ++ dhw ++ dip ++ pad)
    by (unfold b, arp_of, pre; by rewrite <- !app_assoc).
  rewrite (field16_at v pre nop (shw ++ sip ++ dhw ++ dip ++ pad)); [|done|by rewrite Ev, Eb|done|apply network_word16_range].
  cbn [mbind exec_bind]. unfold MACAddress_of_bytes, IPv4Address_of_bytes.
  rewrite (address_at v (pre ++ bytes16 nop) shw (sip ++ dhw ++ dip ++ pad) 8); [|done|by rewrite Ev, Eb, <- !app_assoc|done|done].
  cbn [mbind exec_bind].
  rewrite (address_at v (pre ++ bytes16 nop ++ shw) sip (dhw ++ dip ++ pad) 14);
    [|done|by rewrite Ev, Eb, <- !app_assoc|rewrite !alen_app, Hsh; done|done].
  cbn [mbind exec_bind].
  rewrite (address_at v (pre ++ bytes16 nop ++ shw ++ sip ++ dhw) dip pad 24);
    [|done|by rewrite Ev, Eb, <- !app_assoc|rewrite !alen_app, Hsh, Hsi, Hdh; done|done].
  cbn [mbind exec_bind]. unfold nop. rewrite network_word16_twice by done.
  destruct (op =? ARP_Request); [|done]. unfold IPv4Address_eq. rewrite address_eq_spec by done. cbn [mbind exec_bind]. by case_bool_decide.
Qed.

Definition table_ok (t : list ARPEntry) : Prop := Forall (fun e => alen (ae_ip e) = 4) t.

Lemma find_entry_none t ip : table_ok t -> alen ip = 4 -> (forall e, e ∈ t -> ae_ip e <> ip) -> find_entry t ip = Done None.
Proof.
  intros Ht Hip. induction Ht as [|e t He Ht IH]; intros Hn; [done|]. simpl. unfold IPv4Address_eq.
  rewrite address_eq_spec by done. cbn [mbind exec_bind]. rewrite bool_decide_eq_false_2 by (apply Hn; by left).
  rewrite IH; [done|]. intros e' He'. apply Hn. by right.
Qed.

Lemma find_entry_some p e s : table_ok (p ++ e :: s) -> (forall x, x ∈ p -> ae_ip x <> ae_ip e) ->
  find_entry (p ++ e :: s) (ae_ip e) = Done (Some (p, e, s)).
Proof.
  intros Ht. apply Forall_app in Ht as [Hp Hes]. apply Forall_cons in Hes as [He _].
  induction Hp as [|x p Hx Hp IH]; intros Hn; simpl; unfold IPv4Address_eq; rewrite address_eq_spec by done; cbn [mbind exec_bind].
  - by rewrite bool_decide_eq_true_2.
  - rewrite bool_decide_eq_false_2 by (apply Hn; by left). rewrite IH; [done|]. intros y Hy. apply Hn. by right.
Qed.

Definition network_ok (n : Network) : Prop :=
  alen (n_mac n) = 6 /\ alen (n_device_ip n) = 4 /\ table_ok (n_arp_table n).

Lemma send_arp_spec junk n op dest dhw dip : network_ok n -> alen dest = 6 -> alen dhw = 6 -> alen dip = 4 ->
  (arp ← ARPHeader op (n_mac n) (n_device_ip n) dhw dip; send_frame junk n ProtocolARP dest (BufferView_of_ptr arp)) =
  Done (put_frame n (frame_of dest (n_mac n) ProtocolARP (arp_of op (n_mac n) (n_device_ip n) dhw dip))).
Proof.
  intros (Hm & Hi & _) Hd Hh Hp. rewrite ARPHeader_spec by done. cbn [mbind exec_bind].
  pose proof (alen_arp op _ _ _ _ Hm Hi Hh Hp) as Hl. destruct (shown_of_ptr (arp_of op (n_mac n) (n_device_ip n) dhw dip)) as [Hv Ev]; [lia|].
  rewrite send_frame_spec; [by rewrite Ev|done|done|done|]. simpl. lia.
Qed.

(** A frame as the other station sees it, with the padding behind it. *)
Definition arrives (junk : Z -> Z) (frame pad : list Z) : exec (Z * BufferView) :=
  handle_received_ethernet_frame junk (BufferView_of_ptr (frame ++ pad)).

Lemma arrives_spec junk dst src type payload pad : alen dst = 6 -> alen src = 6 -> 0 < alen payload < 2 ^ 31 -> alen pad < 2 ^ 16 ->
  arrives junk (frame_of dst src type payload) pad = Done (protocol_type type, BufferView_of_ptr (payload ++ pad)).
Proof.
  intros Hd Hs Hp Hpad. pose proof (alen_nonneg pad).
  assert (E : frame_of dst src type payload ++ pad = frame_of dst src type (payload ++ pad)) by (unfold frame_of; by rewrite <- !app_assoc).
  assert (alen (frame_of dst src type (payload ++ pad)) = 14 + alen payload + alen pad) by (unfold frame_of; len).
  unfold arrives. rewrite E. destruct (shown_of_ptr (frame_of dst src type (payload ++ pad))) as [Hv Ev]; [lia|].
  apply (receive_frame_spec junk _ dst src); [done|done|done|rewrite alen_app; lia|done].
Qed.

(** Address resolution. A station that looks for the hardware address of another one
    and has no entry for it broadcasts one request; the owner of the address, and only the
    owner, answers it with one reply; when the reply arrives the waiting lookup returns the
    hardware address of the owner, and later lookups return it without another frame. All
    frames arrive with any padding. *)
Theorem arp_resolution (junk : Z -> Z) (a b : Network) (pad pad' : list Z) (Ha : network_ok a) (Hb : network_ok b)
    (Hnew : forall e, e ∈ n_arp_table a -> ae_ip e <> n_device_ip b) (Hpad : alen pad < 2 ^ 16) (Hpad' : alen pad' < 2 ^ 16) :
  exists a1 request v b1 reply w a2,
    mac_address_lookup junk a (n_device_ip b) = Done (None, a1) /\ n_frames a1 = n_frames a ++ [request] /\
    arrives junk request pad = Done (protocol_type ProtocolARP, v) /\
    (forall c, network_ok c -> n_device_ip c <> n_device_ip b -> ARP_handle junk c v = Done c) /\
    ARP_handle junk b v = Done b1 /\ n_frames b1 = n_frames b ++ [reply] /\ n_arp_table b1 = n_arp_table b /\
    arrives junk reply pad' = Done (protocol_type ProtocolARP, w) /\
    ARP_handle junk a1 w = Done a2 /\ n_frames a2 = n_frames a1 /\
    mac_address_lookup_resume a2 (alen (n_arp_table a1)) = Done (n_mac b) /\
    mac_address_lookup junk a2 (n_device_ip b) = Done (Some (n_mac b), a2).
Proof.
  pose proof Ha as (Ham & Hai & Hat). pose proof Hb as (Hbm & Hbi & Hbt).
  assert (Hz : alen MAC_Zero = 6) by done. assert (Hbc : alen MAC_Broadcast = 6) by done.
  unfold mac_address_lookup. rewrite find_entry_none by done. cbn [mbind exec_bind].
  unfold send_arp_request. rewrite (send_arp_spec junk a) by done. cbn [mbind exec_bind].
  set (q := arp_of ARP_Request _ _ _ _). assert (Hq : alen q = 28) by (by apply alen_arp).
  set (r := arp_of ARP_Reply (n_mac b) (n_device_ip b) (n_mac a) (n_device_ip a)). assert (Hr : alen r = 28) by (by apply alen_arp).
  set (a1 := put_table (put_frame a (frame_of MAC_Broadcast (n_mac a) ProtocolARP q)) _).
  exists a1, (frame_of MAC_Broadcast (n_mac a) ProtocolARP q), (BufferView_of_ptr (q ++ pad)),
    (put_frame b (frame_of (n_mac a) (n_mac b) ProtocolARP r)), (frame_of (n_mac a) (n_mac b) ProtocolARP r), (BufferView_of_ptr (r ++ pad')),
    (put_table a1 (mkARPEntry (n_device_ip b) (n_mac b) :: n_arp_table a)).
  split; [done|]. split; [done|]. split; [apply arrives_spec; lia|]. split.
  { intros c (Hcm & Hci & Hct) Hne. unfold q. rewrite ARP_handle_spec by done. simpl. by rewrite bool_decide_eq_false_2 by congruence. }
  split; [unfold q; rewrite ARP_handle_spec by done; simpl; rewrite bool_decide_eq_true_2 by done; by apply send_arp_spec|].
  split; [done|]. split; [done|]. split; [apply arrives_spec; lia|].
  assert (Hf : forall m t, table_ok t -> find_entry (mkARPEntry (n_device_ip b) m :: t) (n_device_ip b) = Done (Some ([], mkARPEntry (n_device_ip b) m, t))).
  { intros m t Ht. apply (find_entry_some [] (mkARPEntry (n_device_ip b) m) t); [by constructor|]. by intros x ?%elem_of_nil. }
  split. { unfold r. rewrite ARP_handle_spec by done. simpl. unfold add_arp_entry. change (n_arp_table a1) with (mkARPEntry (n_device_ip b) MAC_Zero :: n_arp_table a). by rewrite Hf. }
  split; [done|]. split.
  { unfold mac_address_lookup_resume. cbn [n_arp_table put_table a1]. by rewrite !alen_cons, Z.eqb_refl. }
  cbn [n_arp_table put_table]. by rewrite Hf.
Qed.

(** 10.0.2.15 asks for 10.0.2.2. *)
Lemma arp_resolution_witness :
  let a := mkNetwork [2; 0; 0; 0; 0; 1] [10; 0; 2; 15] [10; 0; 2; 2] [255; 255; 255; 0] [] [] in
  let b := mkNetwork [2; 0; 0; 0; 0; 2] [10; 0; 2; 2] [10; 0; 2; 2] [255; 255; 255; 0] [] [] in
  exists a1 a2 : Network, mac_address_lookup (fun _ => 0) a (n_device_ip b) = Done (None, a1) /\
    mac_address_lookup (fun _ => 0) a2 (n_device_ip b) = Done (Some (n_mac b), a2).
Proof.
  intros a b. destruct (arp_resolution (fun _ => 0) a b [] []) as (a1 & q & v & b1 & r & w & a2 & H1 & _ & _ & _ & _ & _ & _ & _ & _ & _ & _ & H2).
  - repeat split; constructor.
  - repeat split; constructor.
  - by intros e ?%elem_of_nil.
  - done.
  - done.
  - by exists a1, a2.
Defined.

(** A second lookup of an address that is being resolved does not wait: it returns the
    address of zeros that the entry still has. *)
Lemma lookup_while_pending junk n ip t : table_ok (mkARPEntry ip MAC_Zero :: t) -> n_arp_table n = mkARPEntry ip MAC_Zero :: t ->
  mac_address_lookup junk n ip = Done (Some MAC_Zero, n).
Proof.
  intros Ht E. unfold mac_address_lookup. pose proof (find_entry_some [] (mkARPEntry ip MAC_Zero) t Ht) as F. cbn [app ae_ip] in F.
  rewrite E, F; [done|]. by intros x ?%elem_of_nil.
Qed.

(** The reply to an address that nobody asked for, or a second lookup, makes the table move:
    the thread that waits on an entry is left with a reference to freed memory. *)
Lemma lookup_resumes_in_freed_table n n1 n2 ip mac :
  n_arp_table n2 = n_arp_table n1 ++ [mkARPEntry ip mac] \/ n_arp_table n2 = mkARPEntry ip mac :: n_arp_table n1 ->
  n_arp_table n1 = n_arp_table n -> mac_address_lookup_resume n2 (alen (n_arp_table n)) = Fault.
Proof.
  intros E E1. unfold mac_address_lookup_resume. rewrite (proj2 (Z.eqb_neq _ _)); [done|].
  destruct E as [-> | ->]; rewrite ?alen_snoc, ?alen_cons, E1; lia.
Qed.

(** A packet whose length field is smaller than its header: the size of the payload wraps
    around, its check still holds, and the handler gets a view of almost 4 GiB. *)
Lemma short_length_wraps {S} (icmp tcp udp : S -> list Z -> BufferView -> exec S) s total protocol c src dst rest :
  let h := header_of total (protocol_number protocol) c src dst in
  alen src = 4 -> alen dst = 4 -> 0 <= total < 20 -> alen rest < 2 ^ 31 -> checksum (mkView (h ++ rest) 0 20) = Done 0 ->
  IPv4_handle icmp tcp udp s (BufferView_of_ptr (h ++ rest)) =
    handler_of icmp tcp udp protocol s src (mkView (h ++ rest) 20 (2 ^ 32 - (20 - total))).
Proof.
  intros h Hs Hd Ht Hr Hc. unfold h. rewrite IPv4_handle_spec by (done || lia). fold h.
  assert (E : u32 (total - 20) = 2 ^ 32 - (20 - total)) by (unfold u32; zdiv). rewrite E.
  assert (alen (h ++ rest) = 20 + alen rest) by (rewrite alen_app; unfold h; rewrite alen_header by done; done).
  pose proof (alen_nonneg rest). unfold BufferView_of_view.
  rewrite bind_ASSERT by (apply Z.leb_le; change (bv_size (BufferView_of_ptr (h ++ rest))) with (alen (h ++ rest)); unfold u32; zdiv).
  cbn [mbind exec_bind bv_array bv_start BufferView_of_ptr]. by rewrite (proj2 (Z.eqb_neq _ 0)) by lia.
Qed.
