(* ===== verification/Datagram.v ===== *)
(** ICMP echo (icmp.cpp) and UDP (udp.cpp) above IPv4, and the way of a received frame
    through the adapter to the handlers (network_adapter.cpp). A call that waits is split
    where the thread is blocked: what it does before, and what it does when it has been
    woken ([_resume]). *)

From S2P Require Import Prelude Clib Buffers Checksum Bitmap Network.

(** [find_if] over a vector: what is before the first match, the match, what is behind. *)
Fixpoint find_first {A} (f : A -> bool) (l : list A) : option (list A * A * list A) :=
  match l with
  | [] => None
  | x :: l =>
      if f x then Some ([], x, l)
      else match find_first f l with Some (p, y, s) => Some (x :: p, y, s) | None => None end
  end.

(** * ICMP *)

Inductive EchoState := EchoSent | EchoSuccessfulReply | EchoBadReply.

Record EchoConnection := mkEcho {
  ec_state : EchoState;
  ec_dest : list Z
}.

Definition sizeof_EchoPacket : Z := 8.
Definition ICMP_EchoReply : Z := 0.
Definition ICMP_EchoRequest : Z := 8.

(** The request, with the identifier 'a' and the sequence 'z'. *)
Definition echo_packet : exec (list Z) :=
  let b := Buffer_new sizeof_EchoPacket in
  _ ← BufferMutableView_convert_to b sizeof_EchoPacket;
  b ← put8 b 0 ICMP_EchoRequest;
  b ← put8 b 1 0;
  b ← put16 b 2 0;
  b ← put16 b 4 97;
  b ← put16 b 6 122;
  v ← BufferView_of_buffer b 0 0;
  c ← checksum v;
  put16 b 2 c.

(** The request is sent, or waits for a hardware address; the connection is added to the
    list when it has been sent. *)
Definition send_echo_request (junk : Z -> Z) (n : Network) (cs : list EchoConnection) (address : list Z)
    : exec (option (list Z) * Network * list EchoConnection) :=
  packet ← echo_packet;
  v ← BufferView_of_buffer packet 0 0;
  '(pending, n) ← IPv4_send junk n address IP_ICMP v;
  match pending with
  | None => Done (None, n, cs ++ [mkEcho EchoSent address])
  | Some packet => Done (Some packet, n, cs)
  end.

(** When the thread runs again, by a reply or by the timeout: [i] is the place of its
    connection. *)
Definition send_echo_request_resume (cs : list EchoConnection) (i : Z) : exec (Result unit * list EchoConnection) :=
  c ← aget cs i;
  let cs := List.filter (fun x => negb (bool_decide (ec_dest x = ec_dest c))) cs in
  Done (match ec_state c with
        | EchoSuccessfulReply => Value tt
        | EchoBadReply => Error ERROR_ECHO_BAD_REPLY
        | EchoSent => Error ERROR_ECHO_TIMEOUT
        end, cs).

Definition is_icmp_reply_ok (data : BufferView) : exec bool :=
  _ ← BufferView_const_convert_to data sizeof_EchoPacket;
  id ← field16 data 4;
  seq ← field16 data 6;
  if negb (id =? 97) || negb (seq =? 122) then Done false
  else c ← checksum data; Done (c =? 0).

Definition handle_echo_reply (cs : list EchoConnection) (source_ip : list Z) (data : BufferView) : exec (list EchoConnection) :=
  match find_first (fun c => bool_decide (ec_dest c = source_ip)) cs with
  | None => Done cs
  | Some (p, c, s) =>
      ok ← is_icmp_reply_ok data;
      Done (p ++ mkEcho (if (ok : bool) then EchoSuccessfulReply else EchoBadReply) (ec_dest c) :: s)
  end.

Definition handle_icmp_reply (cs : list EchoConnection) (source_ip : list Z) (data : BufferView) : exec (list EchoConnection) :=
  _ ← BufferView_const_convert_to data sizeof_EchoPacket;
  type ← field8 data 0;
  if type =? ICMP_EchoReply then handle_echo_reply cs source_ip data else Done cs.

(** * UDP *)

Record UDPConnection := mkUDP {
  uc_dest_port : Z;
  uc_src_port : Z;
  uc_src_ip : list Z;
  uc_buffer : list Z;
  uc_data_size : Z
}.

Definition sizeof_UDPHeader : Z := 8.

Definition udp_segment (src_port dest_port : Z) (data : BufferView) : exec (list Z) :=
  let b := Buffer_new (u32 (sizeof_UDPHeader + bv_size data)) in
  _ ← BufferMutableView_convert_to b sizeof_UDPHeader;
  b ← put16 b 0 (network_word16 src_port);
  b ← put16 b 2 (network_word16 dest_port);
  b ← put16 b 4 (network_word16 (u16 (sizeof_UDPHeader + bv_size data)));
  b ← put16 b 6 0;
  BufferMutableView_fill_from b (drop (Z.to_nat (bv_start data)) (bv_array data)) sizeof_UDPHeader (bv_size data).

(** [IPv4_send] of the segment; its result says whether the packet waits. *)
Definition send_segment (junk : Z -> Z) (n : Network) (dest_ip : list Z) (dest_port src_port : Z) (data : BufferView)
    : exec (option (list Z) * Network) :=
  segment ← udp_segment src_port dest_port data;
  v ← BufferView_of_buffer segment 0 0;
  IPv4_send junk n dest_ip IP_UDP v.

(** From a free port, or from a given one. The ports are never marked as used. *)
Definition UDP_send (junk : Z -> Z) (n : Network) (ports : Bitmap) (dest_ip : list Z) (dest_port : Z) (data : BufferView)
    : exec (Result Z * option (list Z) * Network * Bitmap) :=
  src_port ← Bitmap_find_first_clear ports 0;
  '(pending, n) ← send_segment junk n dest_ip dest_port (u16 src_port) data;
  ports ← Bitmap_clear ports (u16 src_port);
  Done (Value (bv_size data), pending, n, ports).

Definition UDP_send_from (junk : Z -> Z) (n : Network) (ports : Bitmap) (dest_ip : list Z) (dest_port src_port : Z) (data : BufferView)
    : exec (Result Z * option (list Z) * Network * Bitmap) :=
  used ← Bitmap_check_set ports src_port;
  if (used : bool) then Done (Error ERROR_PORT_ALREADY_IN_USE, None, n, ports)
  else
    '(pending, n) ← send_segment junk n dest_ip dest_port src_port data;
    ports ← Bitmap_clear ports src_port;
    Done (Value (bv_size data), pending, n, ports).

(** The receiver waits with its buffer; the other fields are not set yet. *)
Definition receive_segment (junk : Z -> Z) (cs : list UDPConnection) (dest_port : Z) (buffer : list Z) : exec (list UDPConnection) :=
  _ ← ASSERT (negb (existsb (fun c => dest_port =? uc_dest_port c) cs));
  Done (cs ++ [mkUDP dest_port (junk 0) IPv4_Zero buffer (junk 1)]).

(** When it has been woken: size, sender and port, from the connection at [i], and the
    bytes in its buffer. *)
Definition receive_segment_resume (cs : list UDPConnection) (i : Z) : exec (Z * list Z * Z * list Z * list UDPConnection) :=
  c ← aget cs i;
  Done (uc_data_size c, uc_src_ip c, uc_src_port c, uc_buffer c,
        List.filter (fun x => negb (uc_dest_port c =? uc_dest_port x)) cs).

Definition UDP_handle (cs : list UDPConnection) (src_ip : list Z) (data : BufferView) : exec (list UDPConnection) :=
  _ ← BufferView_const_convert_to data sizeof_UDPHeader;
  destination_port ← field16 data 2;
  let dest_port := network_word16 destination_port in
  match find_first (fun c => uc_dest_port c =? dest_port) cs with
  | None => Done cs
  | Some (p, c, s) =>
      source_port ← field16 data 0;
      let size := u32 (bv_size data - sizeof_UDPHeader) in
      buffer ← BufferMutableView_fill_from (uc_buffer c)
        (drop (Z.to_nat (bv_start data + sizeof_UDPHeader)) (bv_array data)) 0 size;
      Done (p ++ mkUDP (uc_dest_port c) (network_word16 source_port) src_ip buffer size :: s)
  end.

(** * The way of a frame

    [T] is the state of TCP. *)

Record Host (T : Type) := mkHost {
  h_network : Network;
  h_udp : list UDPConnection;
  h_icmp : list EchoConnection;
  h_tcp : T
}.

Arguments mkHost {T}.
Arguments h_network {T}.
Arguments h_udp {T}.
Arguments h_icmp {T}.
Arguments h_tcp {T}.

Section host.
Context {T : Type} (tcp : Host T -> list Z -> BufferView -> exec (Host T)).

Definition host_icmp (h : Host T) (src : list Z) (v : BufferView) : exec (Host T) :=
  cs ← handle_icmp_reply (h_icmp h) src v; Done (mkHost (h_network h) (h_udp h) cs (h_tcp h)).

Definition host_udp (h : Host T) (src : list Z) (v : BufferView) : exec (Host T) :=
  cs ← UDP_handle (h_udp h) src v; Done (mkHost (h_network h) cs (h_icmp h) (h_tcp h)).

(** [handle_received_frame]. *)
Definition handle_received_frame (junk : Z -> Z) (h : Host T) (type : Z) (data : BufferView) : exec (Host T) :=
  if type =? protocol_type ProtocolARP then
    n ← ARP_handle junk (h_network h) data; Done (mkHost n (h_udp h) (h_icmp h) (h_tcp h))
  else if type =? protocol_type ProtocolIPv4 then IPv4_handle host_icmp tcp host_udp h data
  else Done h.

(** A frame reaches the host. *)
Definition receive_frame (junk : Z -> Z) (h : Host T) (frame pad : list Z) : exec (Host T) :=
  '(type, v) ← arrives junk frame pad; handle_received_frame junk h type v.

End host.

(** * Segments *)

Definition segment_of (src_port dest_port : Z) (data : list Z) : list Z :=
  bytes16 (network_word16 src_port) ++ bytes16 (network_word16 dest_port) ++
  bytes16 (network_word16 (u16 (8 + alen data))) ++ bytes16 0 ++ data.

Lemma view_rest v : view_ok v ->
  exists s, drop (Z.to_nat (bv_start v)) (bv_array v) = shown v ++ s.
Proof.
  intros Hv. destruct (view_split v Hv) as (p & s & E & Ep). exists s. rewrite E, <- Ep. unfold alen.
  by rewrite Nat2Z.id, drop_app_length.
Qed.

(** [fill_from] at a place of a buffer, from bytes that are followed by others. *)
Lemma fill_from_at b p old rest (src more : list Z) off size :
  b = p ++ old ++ rest -> alen old = size -> alen src = size -> off = alen p -> alen b < 2 ^ 32 ->
  BufferMutableView_fill_from b (src ++ more) off size = Done (p ++ src ++ rest).
Proof.
  intros -> Ho Hs -> Hb. pose proof (alen_nonneg p). pose proof (alen_nonneg rest). pose proof (alen_nonneg old).
  rewrite !alen_app in Hb. unfold BufferMutableView_fill_from.
  rewrite u32_small, bind_ASSERT by (lia || (apply Z.leb_le; rewrite !alen_app; lia)).
  pose proof (memcpy_spec src old p rest [] more) as E. rewrite Hs in E. apply E. unfold alen in *. lia.
Qed.

Lemma udp_segment_spec src_port dest_port data : view_ok data -> bv_size data < 2 ^ 31 ->
  udp_segment src_port dest_port data = Done (segment_of src_port dest_port (shown data)).
Proof.
  intros Hv Hs. pose proof (alen_shown data Hv) as Hl. pose proof Hv as (_ & Hv2 & _).
  unfold udp_segment, sizeof_UDPHeader, BufferMutableView_convert_to, Buffer_new. rewrite u32_small by lia.
  assert (E : replicate (Z.to_nat (8 + bv_size data)) 0 = [0; 0; 0; 0; 0; 0; 0; 0] ++ replicate (Z.to_nat (bv_size data)) 0).
  { replace (Z.to_nat (8 + bv_size data)) with (8 + Z.to_nat (bv_size data))%nat by lia. done. }
  rewrite E. rewrite bind_ASSERT by (apply Z.leb_le; len). cbn [app].
  do 4 put_known. destruct (view_rest data Hv) as (more & ->).
  set (pre := bytes16 (network_word16 src_port) ++ bytes16 (network_word16 dest_port) ++ bytes16 (network_word16 (u16 (8 + bv_size data))) ++ bytes16 0).
  match goal with |- BufferMutableView_fill_from _ ?s ?o ?n = _ =>
    change (BufferMutableView_fill_from (pre ++ replicate (Z.to_nat (bv_size data)) 0) s o n = Done (segment_of src_port dest_port (shown data))) end.
  rewrite (fill_from_at _ pre (replicate (Z.to_nat (bv_size data)) 0) []).
  - unfold segment_of, pre. by rewrite app_nil_r, Hl, <- !app_assoc.
  - by rewrite app_nil_r.
  - rewrite alen_replicate. lia.
  - done.
  - done.
  - rewrite alen_app. change (alen pre) with 8. len.
Qed.

Lemma alen_segment sp dp data : alen (segment_of sp dp data) = 8 + alen data.
Proof. unfold segment_of. len. Qed.

(** What becomes of the receivers when a segment arrives: the first one on its port gets
    the data in front of its buffer, with the address of the sender. *)
Definition udp_arrival (cs : list UDPConnection) (src_ip : list Z) (sp dp : Z) (data : list Z) : exec (list UDPConnection) :=
  match find_first (fun c => uc_dest_port c =? dp) cs with
  | None => Done cs
  | Some (p, c, s) =>
      if alen data <=? alen (uc_buffer c) then
        Done (p ++ mkUDP dp sp src_ip (data ++ drop (length data) (uc_buffer c)) (alen data) :: s)
      else Panic
  end.

Lemma find_first_spec {A} (f : A -> bool) l p x s : find_first f l = Some (p, x, s) ->
  l = p ++ x :: s /\ f x = true /\ forall y, y ∈ p -> f y = false.
Proof.
  revert p. induction l as [|a l IH]; intros p E; simpl in E; [done|]. destruct (f a) eqn:Ef.
  - injection E as <- <- <-. repeat split; [done|]. by intros y ?%elem_of_nil.
  - destruct (find_first f l) as [[[p' y] s']|]; [|done]. injection E as <- <- <-.
    destruct (IH p' eq_refl) as (-> & Hy & Hp). repeat split; [done|]. intros z [->|Hz]%elem_of_cons; [done|by apply Hp].
Qed.

Lemma UDP_handle_spec cs src v sp dp data : view_ok v -> shown v = segment_of sp dp data ->
  0 <= sp < 2 ^ 16 -> 0 <= dp < 2 ^ 16 -> Forall (fun c => alen (uc_buffer c) < 2 ^ 32) cs -> UDP_handle cs src v = udp_arrival cs src sp dp data.
Proof.
  intros Hv Es Hsp Hdp Hcs. pose proof (alen_shown v Hv) as Hl. rewrite Es, alen_segment in Hl. pose proof (alen_nonneg data).
  pose proof Hv as (Hv1 & Hv2 & Hv3). set (rest := bytes16 (network_word16 (u16 (8 + alen data))) ++ bytes16 0 ++ data).
  unfold UDP_handle, sizeof_UDPHeader, BufferView_const_convert_to. rewrite bind_ASSERT by (apply Z.leb_le; lia).
  rewrite (field16_at v (bytes16 (network_word16 sp)) (network_word16 dp) rest 2); [|done|done|done|apply network_word16_range].
  cbn [mbind exec_bind]. rewrite network_word16_twice by done. unfold udp_arrival.
  destruct (find_first _ cs) as [[[p c] s]|] eqn:Ef; [|done]. apply find_first_spec in Ef as (Ecs & Hc & _). apply Z.eqb_eq in Hc.
  rewrite (field16_at v [] (network_word16 sp) (bytes16 (network_word16 dp) ++ rest) 0); [|done|done|done|apply network_word16_range].
  cbn [mbind exec_bind]. rewrite network_word16_twice by done. rewrite <- Hl, u32_small by lia. replace (8 + alen data - 8) with (alen data) by lia.
  assert (Hb : alen (uc_buffer c) < 2 ^ 32).
  { rewrite Ecs in Hcs. apply Forall_app in Hcs as [_ Hcs]. by apply Forall_cons in Hcs as [Hcs _]. }
  destruct (Z.leb_spec (alen data) (alen (uc_buffer c))) as [Hfit|Hbig].
  - destruct (view_rest v Hv) as (more & Em).
    replace (drop (Z.to_nat (bv_start v + 8)) (bv_array v)) with (data ++ more).
    2: { rewrite Z2Nat.inj_add, <- drop_drop, Em, Es by lia. done. }
    destruct (two_parts (uc_buffer c) (alen data)) as (o & r & Eb & Ho & Hr); [lia|].
    rewrite (fill_from_at _ [] o r); [|done|done|done|done|done]. cbn [mbind exec_bind app]. rewrite Eb, Hc.
    replace (length data) with (length o) by (unfold alen in Ho; lia). by rewrite drop_app_length.
  - unfold BufferMutableView_fill_from. rewrite Z.add_0_l, u32_small by lia. by rewrite (proj2 (Z.leb_gt _ _)).
Qed.

(** C22: the way of a datagram, through every layer. A station that knows the hardware
    address to use sends a datagram of up to 65507 bytes in one frame; whoever receives
    that frame, with any padding behind it, hands the bytes of the datagram, and nothing
    else, to the first receiver that waits on the port, together with the address and the
    port of the sender; the other receivers keep theirs. Without a receiver on the port
    nothing changes; a receiver whose buffer is too small stops the machine. *)
Theorem udp_delivery {T} (tcp : Host T -> list Z -> BufferView -> exec (Host T)) (junk : Z -> Z)
    (a : Network) (mac dst_ip : list Z) (dp sp : Z) (data : BufferView)
    (Hmac : alen (n_mac a) = 6) (Hip : bytes_of 4 (n_device_ip a)) (Hdst : bytes_of 4 dst_ip)
    (Hknown : destination_mac_lookup junk a dst_ip = Done (Some mac, a)) (Hm : alen mac = 6)
    (Hview : view_ok data) (Hbytes : Forall is_byte (shown data)) (Hsize : bv_size data <= 65507)
    (Hsp : 0 <= sp < 2 ^ 16) (Hdp : 0 <= dp < 2 ^ 16) :
  exists frame, send_segment junk a dst_ip dp sp data = Done (None, put_frame a frame) /\
    forall (b : Host T) pad, Forall is_byte pad -> alen pad < 2 ^ 15 -> Forall (fun c => alen (uc_buffer c) < 2 ^ 32) (h_udp b) ->
      receive_frame tcp junk b frame pad =
        (cs ← udp_arrival (h_udp b) (n_device_ip a) sp dp (shown data); Done (mkHost (h_network b) cs (h_icmp b) (h_tcp b))).
Proof.
  pose proof (alen_shown data Hview) as Hl. pose proof Hview as (_ & Hv2 & _).
  set (seg := segment_of sp dp (shown data)). assert (Hseg : alen seg = 8 + bv_size data) by (unfold seg; rewrite alen_segment; lia).
  assert (Hsb : Forall is_byte seg).
  { unfold seg, segment_of, bytes16. cbn [app]. by repeat (apply Forall_cons; split; [apply u8_range|]). }
  destruct (shown_of_ptr seg) as [Hv Ev]; [lia|]. unfold send_segment. rewrite udp_segment_spec by (done || lia). cbn [mbind exec_bind].
  fold seg. unfold BufferView_of_buffer. rewrite bind_ASSERT by (apply Z.leb_le; change (u32 (0 + 0)) with 0; lia).
  cbn [mbind exec_bind Z.eqb]. rewrite Z.sub_0_r, u32_small by lia. change (mkView seg 0 (alen seg)) with (BufferView_of_ptr seg).
  destruct (IPv4_packet_spec junk a dst_ip IP_UDP (BufferView_of_ptr seg)) as (c & Hc & Ep & Hok); [done..|by rewrite Ev|simpl; lia|].
  rewrite Ev in Ep. set (h := header_of _ _ _ _ _) in Ep, Hok. change (bv_size (BufferView_of_ptr seg)) with (alen seg) in h.
  assert (Hh : alen h = 20) by (apply alen_header; [apply Hip|apply Hdst]).
  unfold IPv4_send. rewrite Ep. cbn [mbind exec_bind]. rewrite Hknown. cbn [mbind exec_bind].
  assert (Hpk : alen (h ++ seg) = 28 + bv_size data) by (rewrite alen_app; lia).
  destruct (shown_of_ptr (h ++ seg)) as [Hvp Evp]; [lia|].
  rewrite send_frame_spec; [|done|done|done|change (bv_size _) with (alen (h ++ seg)); lia].
  rewrite Evp. cbn [mbind exec_bind]. eexists. split; [done|]. intros b pad Hpad Hpl Hcs. pose proof (alen_nonneg pad).
  unfold receive_frame. rewrite arrives_spec by (done || lia). cbn [mbind exec_bind].
  unfold handle_received_frame. change (protocol_type ProtocolIPv4 =? protocol_type ProtocolARP) with false.
  change (protocol_type ProtocolIPv4 =? protocol_type ProtocolIPv4) with true. cbn match. rewrite <- app_assoc.
  set (rest := seg ++ pad). assert (Hrest : alen rest = 8 + bv_size data + alen pad) by (unfold rest; rewrite alen_app; lia).
  unfold h. rewrite IPv4_handle_spec; [|apply Hip|apply Hdst|apply u16_range|lia|apply Hok, Forall_app; by split]. fold h.
  rewrite u16_small by lia. replace (20 + alen seg - 20) with (alen seg) by lia. rewrite u32_small by lia.
  destruct (shown_of_ptr (h ++ rest)) as [Hvr Evr]; [rewrite alen_app; lia|].
  destruct (of_view_spec (BufferView_of_ptr (h ++ rest)) 20 (alen seg)) as (w & -> & Hw & Hws & Esh);
    [done|lia|lia|change (20 + alen seg <= alen (h ++ rest)); rewrite alen_app; lia|].
  rewrite (proj2 (Z.eqb_neq _ 0)) in Hws by lia. cbn [mbind exec_bind handler_of]. unfold host_udp.
  assert (Ew : shown w = seg).
  { rewrite Esh, Evr, Hws. replace (Z.to_nat 20) with (length h) by (unfold alen in Hh; lia). rewrite drop_app_length.
    unfold rest, alen. rewrite Nat2Z.id. apply take_app_length. }
  by rewrite (UDP_handle_spec _ _ w sp dp (shown data)).
Qed.

(** A datagram of two bytes to port 53. *)
Lemma udp_delivery_witness :
  let a := mkNetwork [2; 0; 0; 0; 0; 1] [10; 0; 2; 15] [10; 0; 2; 2] [255; 255; 255; 0] [mkARPEntry [10; 0; 2; 2] [2; 0; 0; 0; 0; 2]] [] in
  let b := mkHost a [mkUDP 80 0 [] [] 0; mkUDP 53 0 [] [0; 0; 0] 0] [] tt in
  exists frame, send_segment (fun _ => 0) a [10; 0; 2; 2] 53 1024 (BufferView_of_ptr [7; 8]) = Done (None, put_frame a frame) /\
    receive_frame (fun h _ _ => Done h) (fun _ => 0) b frame [0; 0] =
      Done (mkHost a [mkUDP 80 0 [] [] 0; mkUDP 53 1024 [10; 0; 2; 15] [7; 8; 0] 2] [] tt).
Proof.
  intros a b.
  destruct (udp_delivery (fun (h : Host unit) _ _ => Done h) (fun _ => 0) a [2; 0; 0; 0; 0; 2] [10; 0; 2; 2] 53 1024 (BufferView_of_ptr [7; 8]))
    as (frame & E & H); [done| | | |done|by apply shown_of_ptr| |done|done|done|].
  - split; [done|]. repeat constructor; done.
  - split; [done|]. repeat constructor; done.
  - vm_compute. done.
  - repeat constructor; done.
  - exists frame. split; [exact E|]. rewrite H; [done| |done|]; repeat constructor; done.
Defined.
