(* ===== verification/Dhcp.v ===== *)
(** The DHCP client (dhcp.cpp): the messages that it sends, and what it takes from the
    options of the replies. Datagrams handed to [UDP::send] are collected in order; the
    datagrams that arrive for the client are given, and when there are no more of them the
    client is still waiting ([None]). *)

From S2P Require Import Prelude Clib Buffers Checksum Network.

(** [DHCPHeader]: the offsets of its fields. *)
Definition sizeof_DHCPHeader : Z := 300.
Definition offsetof_your_ip : Z := 16.
Definition offsetof_client_hardware_addr : Z := 28.
Definition offsetof_magic_cookie : Z := 236.
Definition offsetof_options : Z := 240.

(** [OptionCodes] *)
Definition Pading : Z := 0.
Definition SubnetMask : Z := 1.
Definition RouterIPs : Z := 3.
Definition DNSServers : Z := 6.
Definition NetworkTimeProtocolServers : Z := 42.
Definition RequestedIP : Z := 50.
Definition MessageType : Z := 53.
Definition ParameterRequestList : Z := 55.
Definition ClientIdentifier : Z := 61.
Definition End_ : Z := 255.

(** [DCHPMessageType]: a byte of a message. *)
Definition Discover : Z := 1.
Definition Offer : Z := 2.
Definition Request : Z := 3.
Definition ACK : Z := 5.
Definition NACK : Z := 6.

Definition DHCP_OP_Request : Z := 1.

Inductive DHCPState := DHCP_Idle | DHCP_Discovery | DHCP_Offer | DHCP_Request | DHCP_Acknowledge.

#[export] Instance DHCPState_eq_dec : EqDecision DHCPState.
Proof. solve_decision. Defined.

Record DHCPInformation := mkLease {
  device_ip : list Z;
  gateway_ip : list Z;
  subnet_mask : list Z
}.

(** A datagram for [UDP::send]: address, ports and bytes. *)
Record datagram := mkDatagram {
  dg_dest : list Z;
  dg_dest_port : Z;
  dg_src_port : Z;
  dg_data : list Z
}.

Record DHCP := mkDHCP {
  dh_mac : list Z;
  dh_state : DHCPState;
  dh_info : DHCPInformation;
  dh_sent : list datagram
}.

Definition DHCP_new (mac : list Z) : DHCP := mkDHCP mac DHCP_Idle (mkLease IPv4_Zero IPv4_Zero IPv4_Zero) [].

Definition put32 (b : list Z) (off x : Z) : exec (list Z) :=
  b ← put16 b off x; put16 b (off + 2) (Z.shiftr x 16).

Definition make_dhcp_segment (mac requested_ip : list Z) (type : Z) : exec (list Z) :=
  let b := Buffer_new sizeof_DHCPHeader in
  _ ← BufferMutableView_convert_to b sizeof_DHCPHeader;
  b ← put8 b 0 DHCP_OP_Request;
  b ← put8 b 1 1;
  b ← put8 b 2 6;
  b ← put8 b 3 0;
  b ← put32 b 4 0xDEADC0DE;
  b ← put16 b 8 0;
  b ← put16 b 10 (network_word16 0x8000);
  b ← MACAddress_copy mac b offsetof_client_hardware_addr;
  b ← put32 b offsetof_magic_cookie (network_word32 0x63825363);
  let options_offset := offsetof_options in
  let message_type := [MessageType; 1; u8 type] in
  b ← BufferMutableView_fill_by b message_type options_offset;
  let options_offset := options_offset + alen message_type in
  client_id ← MACAddress_copy mac [ClientIdentifier; 7; 1; 0; 0; 0; 0; 0; 0] 3;
  b ← BufferMutableView_fill_by b client_id options_offset;
  let options_offset := options_offset + alen client_id in
  client_ip ← IPv4Address_copy requested_ip [RequestedIP; 4; 0; 0; 0; 0] 2;
  b ← BufferMutableView_fill_by b client_ip options_offset;
  let options_offset := options_offset + alen client_ip in
  let param_list := [ParameterRequestList; 4; SubnetMask; RouterIPs; DNSServers; NetworkTimeProtocolServers; 0; 0; 0; 0] in
  b ← BufferMutableView_fill_by b param_list options_offset;
  let options_offset := options_offset + alen param_list in
  BufferMutableView_fill_by b [End_] options_offset.

(** A turn of the loop of [get_dhcp_type]. It does not pass the header of an option, and
    stays where it is at an option of size 0: the number of turns is not bounded. *)
Definition type_step (buffer : BufferView) (options_offset : Z) : exec (Z + Z) :=
  if options_offset <? sizeof_DHCPHeader then
    code ← field8 buffer options_offset;
    if negb (code =? End_) then
      if code =? MessageType then type ← field8 buffer (options_offset + 2); Done (inr type)
      else if code =? Pading then Done (inl (options_offset + 1))
      else size ← field8 buffer (options_offset + 1); Done (inl (options_offset + size))
    else Done (inr NACK)
  else Done (inr NACK).

Definition get_dhcp_type (turns : nat) (buffer : BufferView) : exec Z :=
  _ ← BufferView_const_convert_to buffer sizeof_DHCPHeader;
  while turns (type_step buffer) offsetof_options.

(** A turn of the loop of [parse_dhcp_offer]. *)
Definition offer_step (buffer : BufferView) (st : Z * DHCPInformation) : exec (Z * DHCPInformation + DHCPInformation) :=
  let '(options_offset, info) := st in
  if options_offset <? sizeof_DHCPHeader then
    code ← field8 buffer options_offset;
    if negb (code =? End_) then
      info ← (if code =? RouterIPs then
                ip ← field32 buffer (options_offset + 2);
                Done (mkLease (device_ip info) (IPv4Address_of_u32 ip) (subnet_mask info))
              else if code =? SubnetMask then
                ip ← field32 buffer (options_offset + 2);
                Done (mkLease (device_ip info) (gateway_ip info) (IPv4Address_of_u32 ip))
              else Done info);
      if code =? Pading then Done (inl (options_offset + 1, info))
      else size ← field8 buffer (options_offset + 1); Done (inl (options_offset + (size + 2), info))
    else Done (inr info)
  else Done (inr info).

(** Every turn moves on: 61 are enough for the 60 bytes of options. *)
Definition parse_dhcp_offer (buffer : BufferView) (info : DHCPInformation) : exec DHCPInformation :=
  _ ← BufferView_const_convert_to buffer sizeof_DHCPHeader;
  your_ip ← IPv4Address_of_bytes buffer offsetof_your_ip;
  while 61 (offer_step buffer) (offsetof_options, mkLease your_ip (gateway_ip info) (subnet_mask info)).

Definition send_dhcp (d : DHCP) (requested_ip : list Z) (type : Z) (state : DHCPState) : exec DHCP :=
  segment ← make_dhcp_segment (dh_mac d) requested_ip type;
  Done (mkDHCP (dh_mac d) state (dh_info d) (dh_sent d ++ [mkDatagram IPv4_Broadcast 67 68 segment])).

Definition send_dhcp_discovery (d : DHCP) : exec DHCP := send_dhcp d IPv4_Zero Discover DHCP_Discovery.
Definition send_dhcp_request (d : DHCP) (requested_ip : list Z) : exec DHCP := send_dhcp d requested_ip Request DHCP_Request.

Definition handle_dhcp_offer (d : DHCP) (buffer : BufferView) : exec DHCP :=
  info ← parse_dhcp_offer buffer (dh_info d);
  d ← send_dhcp_request (mkDHCP (dh_mac d) (dh_state d) info (dh_sent d)) (device_ip info);
  Done (mkDHCP (dh_mac d) DHCP_Offer (dh_info d) (dh_sent d)).

Definition handle_dhcp_ack (d : DHCP) : DHCP := mkDHCP (dh_mac d) DHCP_Acknowledge (dh_info d) (dh_sent d).

Definition handle_dhcp (turns : nat) (d : DHCP) (buffer : BufferView) : exec DHCP :=
  type ← get_dhcp_type turns buffer;
  if type =? Offer then handle_dhcp_offer d buffer
  else if type =? ACK then Done (handle_dhcp_ack d)
  else Done d.

(** [UDP::receive] puts the bytes of a datagram at the start of the buffer of the caller,
    which keeps its other bytes. *)
Fixpoint receive_replies (turns : nat) (d : DHCP) (received_data : list Z) (replies : list (list Z)) : exec (option DHCPInformation * DHCP) :=
  if bool_decide (dh_state d = DHCP_Acknowledge) then Done (Some (dh_info d), d)
  else match replies with
       | [] => Done (None, d)
       | r :: replies =>
           received_data ← BufferMutableView_fill_from received_data r 0 (alen r);
           d ← handle_dhcp turns d (BufferView_of_ptr received_data);
           receive_replies turns d received_data replies
       end.

Definition request_dhcp_information (turns : nat) (d : DHCP) (replies : list (list Z)) : exec (option DHCPInformation * DHCP) :=
  d ← send_dhcp_discovery d;
  receive_replies turns d (Buffer_new 2000) replies.

(** [IPv4::start]: the addresses of the device are those that the server gives. *)
Definition put_addresses (n : Network) (info : DHCPInformation) : Network :=
  mkNetwork (n_mac n) (device_ip info) (gateway_ip info) (subnet_mask info) (n_arp_table n) (n_frames n).

Definition IPv4_start (turns : nat) (n : Network) (d : DHCP) (replies : list (list Z)) : exec (option Network * DHCP) :=
  '(info, d) ← request_dhcp_information turns d replies;
  Done (match info with Some info => Some (put_addresses n info) | None => None end, d).

Definition IPv4_ip (n : Network) : list Z := n_device_ip n.
Definition Network_device_ip (n : Network) : list Z := IPv4_ip n.
Definition Network_device_mac (n : Network) : list Z := n_mac n.

(** * Options *)

Inductive dhcp_option := Pad | Opt (code : Z) (data : list Z).

Definition encode_option (o : dhcp_option) : list Z :=
  match o with Pad => [Pading] | Opt code data => code :: alen data :: data end.
Definition encode_options (os : list dhcp_option) : list Z := os ≫= encode_option.

(** The two options that the client reads hold at least one address. *)
Definition option_ok (o : dhcp_option) : Prop :=
  match o with
  | Pad => True
  | Opt code data => code <> Pading /\ code <> End_ /\ ((code = RouterIPs \/ code = SubnetMask) -> 4 <= alen data)
  end.

(** What the options say: the last of each kind counts, and its first address. *)
Definition read_option (info : DHCPInformation) (o : dhcp_option) : DHCPInformation :=
  match o with
  | Opt 3 data => mkLease (device_ip info) (take 4 data) (subnet_mask info)
  | Opt 1 data => mkLease (device_ip info) (gateway_ip info) (take 4 data)
  | _ => info
  end.

Definition read_options (info : DHCPInformation) (os : list dhcp_option) : DHCPInformation := foldl read_option info os.

(** * Reading a message *)

Section message.
Context (b : list Z) (Hb : sizeof_DHCPHeader <= alen b < 2 ^ 32) (Hbytes : Forall is_byte b).

Abbreviation v := (BufferView_of_ptr b).

Lemma message_byte p x s : b = p ++ x :: s -> field8 v (alen p) = Done x.
Proof. intros E. unfold field8, BufferView_at. cbn [bv_array bv_start BufferView_of_ptr]. rewrite Z.add_0_l, E. apply aget_middle. Qed.

Lemma message_word p w s : b = p ++ w ++ s -> alen w = 4 ->
  exists ip, field32 v (alen p) = Done ip /\ IPv4Address_of_u32 ip = w.
Proof.
  intros E Hw. destruct w as [|w0 [|w1 [|w2 [|w3 [|]]]]]; try (unfold alen in Hw; simpl in Hw; lia).
  assert (Hw4 : Forall is_byte [w0; w1; w2; w3]).
  { rewrite E in Hbytes. apply Forall_app in Hbytes as [_ H']. by apply Forall_app in H' as [H' _]. }
  apply Forall_cons in Hw4 as [H0 Hw4]. apply Forall_cons in Hw4 as [H1 Hw4]. apply Forall_cons in Hw4 as [H2 Hw4].
  apply Forall_cons in Hw4 as [H3 _].
  assert (E0 : field8 v (alen p) = Done w0) by by apply (message_byte p w0 (w1 :: w2 :: w3 :: s)).
  assert (E1 : field8 v (alen p + 1) = Done w1).
  { replace (alen p + 1) with (alen (p ++ [w0])) by (by rewrite alen_snoc). apply (message_byte _ w1 (w2 :: w3 :: s)).
    by rewrite E, <- !app_assoc. }
  assert (E2 : field8 v (alen p + 2) = Done w2).
  { replace (alen p + 2) with (alen (p ++ [w0; w1])) by (rewrite alen_app; unfold alen; simpl; lia).
    apply (message_byte _ w2 (w3 :: s)). by rewrite E, <- !app_assoc. }
  assert (E3 : field8 v (alen p + 2 + 1) = Done w3).
  { replace (alen p + 2 + 1) with (alen (p ++ [w0; w1; w2])) by (rewrite alen_app; unfold alen; simpl; lia).
    apply (message_byte _ w3 s). by rewrite E, <- !app_assoc. }
  unfold field32, field16. rewrite E0, E1, E2, E3. cbn [mbind exec_bind]. eexists. split; [done|].
  unfold IPv4Address_of_u32, u8, is_byte in *. rewrite !Z.shiftr_div_pow2 by lia. f_equal; [zdiv|]. f_equal; [zdiv|].
  f_equal; [zdiv|]. f_equal. zdiv.
Qed.

Lemma convert_message : BufferView_const_convert_to v sizeof_DHCPHeader = Done tt.
Proof. unfold BufferView_const_convert_to. cbn [bv_size BufferView_of_ptr]. by rewrite (proj2 (Z.leb_le _ _)) by lia. Qed.

(** The options from [p] on. *)
Lemma offer_loop os : forall p s info turns,
  b = p ++ encode_options os ++ End_ :: s -> Forall option_ok os -> alen p + alen (encode_options os) < sizeof_DHCPHeader ->
  (length os < turns)%nat -> while turns (offer_step v) (alen p, info) = Done (read_options info os).
Proof.
  induction os as [|o os IH]; intros p s info turns E Hok Hl Ht; (destruct turns as [|turns]; [lia|]); cbn [while offer_step].
  - rewrite (proj2 (Z.ltb_lt _ _)) by (unfold alen in *; simpl in *; lia). rewrite (message_byte p End_ s E).
    cbn [mbind exec_bind]. rewrite Z.eqb_refl. done.
  - apply Forall_cons in Hok as [Ho Hos]. change (encode_options (o :: os)) with (encode_option o ++ encode_options os) in *.
    rewrite alen_app in Hl. rewrite <- app_assoc in E. pose proof (alen_nonneg (encode_options os)).
    assert (Hnext : forall info', while turns (offer_step v) (alen (p ++ encode_option o), info') = Done (read_options info' os)).
    { intros info'. apply (IH _ s); [by rewrite E, <- app_assoc|done|rewrite alen_app; lia|simpl in Ht; lia]. }
    rewrite alen_app in Hnext. destruct o as [|code data]; cbn [encode_option app] in *.
    + rewrite alen_cons in Hl. rewrite (proj2 (Z.ltb_lt _ _)) by (unfold alen in *; simpl in *; lia).
      rewrite (message_byte p Pading _ E). cbn [mbind exec_bind]. apply (Hnext info).
    + destruct Ho as (Hp & He & H4). rewrite !alen_cons in Hl, Hnext. pose proof (alen_nonneg data).
      rewrite (proj2 (Z.ltb_lt _ _)), (message_byte p code _ E) by lia. cbn [mbind exec_bind].
      rewrite (proj2 (Z.eqb_neq code End_)), (proj2 (Z.eqb_neq code Pading)) by done. cbn [negb].
      assert (Esz : field8 v (alen p + 1) = Done (alen data)).
      { rewrite <- (alen_snoc p code). apply (message_byte _ _ (data ++ encode_options os ++ End_ :: s)). by rewrite E, <- app_assoc. }
      assert (Eip : (code = RouterIPs \/ code = SubnetMask) ->
        exists ip, field32 v (alen p + 2) = Done ip /\ IPv4Address_of_u32 ip = take 4 data).
      { intros Hc. specialize (H4 Hc).
        destruct (message_word (p ++ [code; alen data]) (take 4 data) (drop 4 data ++ encode_options os ++ End_ :: s)) as (ip & Ei & Hi).
        - by rewrite E, <- app_assoc, (app_assoc (take 4 data)), take_drop.
        - unfold alen in *. rewrite length_take. lia.
        - exists ip. split; [|done]. rewrite <- Ei. f_equal. rewrite alen_app. done. }
      rewrite Esz. replace (alen data + 1 + 1) with (alen data + 2) in Hnext by lia.
      change (read_options info (Opt code data :: os)) with (read_options (read_option info (Opt code data)) os).
      destruct (Z.eqb_spec code RouterIPs) as [->|Hr].
      { destruct (Eip (or_introl eq_refl)) as (ip & -> & Hi). cbn [mbind exec_bind]. rewrite Hi. apply Hnext. }
      destruct (Z.eqb_spec code SubnetMask) as [->|Hm].
      { destruct (Eip (or_intror eq_refl)) as (ip & -> & Hi). cbn [mbind exec_bind]. rewrite Hi. apply Hnext. }
      cbn [mbind exec_bind]. rewrite Hnext. f_equal. unfold RouterIPs, SubnetMask in *. unfold read_option.
      destruct code as [|[[]|[]|]|]; done.
Qed.

(** The type, when only padding comes before it. *)
Lemma type_loop n : forall p t s turns,
  b = p ++ encode_options (replicate n Pad ++ [Opt MessageType [t]]) ++ s -> alen p + Z.of_nat n < sizeof_DHCPHeader ->
  (n < turns)%nat -> while turns (type_step v) (alen p) = Done t.
Proof.
  clear Hb Hbytes. induction n as [|n IH]; intros p t s turns E Hl Ht; (destruct turns as [|turns]; [lia|]).
  - apply while_out. unfold type_step. rewrite (proj2 (Z.ltb_lt _ _)) by lia.
    rewrite (message_byte p MessageType (1 :: t :: s) E). cbn [mbind exec_bind].
    replace (alen p + 2) with (alen (p ++ [MessageType; 1])) by (by rewrite alen_app).
    rewrite (message_byte _ t s) by by rewrite E, <- app_assoc. done.
  - erewrite while_next.
    + apply (IH (p ++ [Pading]) t s); [by rewrite E, <- app_assoc|rewrite alen_snoc; lia|lia].
    + unfold type_step. rewrite (proj2 (Z.ltb_lt _ _)), (message_byte p Pading _ E) by lia. cbn [mbind exec_bind].
      by rewrite alen_snoc.
Qed.

End message.

(** * The messages of the client *)

Definition request_bytes (mac ip : list Z) (type : Z) : list Z :=
  [DHCP_OP_Request; 1; 6; 0; 0xDE; 0xC0; 0xAD; 0xDE; 0; 0; 0x80; 0] ++ replicate 16 0 ++ mac ++ replicate 202 0 ++
  [0x63; 0x82; 0x53; 0x63] ++
  encode_options [Opt MessageType [type]; Opt ClientIdentifier (1 :: mac); Opt RequestedIP ip;
    Opt ParameterRequestList [SubnetMask; RouterIPs; DNSServers; NetworkTimeProtocolServers]; Pad; Pad; Pad; Pad] ++
  End_ :: replicate 31 0.

Lemma make_dhcp_segment_spec mac ip type :
  alen mac = 6 -> alen ip = 4 -> is_byte type -> make_dhcp_segment mac ip type = Done (request_bytes mac ip type).
Proof.
  intros Hm Hi Ht. rewrite <- (Z.mod_small type (2 ^ 8)) at 2 by done. clear Ht.
  destruct mac as [|a [|b [|c [|d [|e [|f [|]]]]]]]; try (unfold alen in Hm; simpl in Hm; lia).
  destruct ip as [|x [|y [|z [|w [|]]]]]; try (unfold alen in Hi; simpl in Hi; lia).
  vm_compute. reflexivity.
Qed.

(** * Replies *)

(** What a datagram from a server means to the client. *)
Inductive dhcp_reply := ROffer (your_ip : list Z) (os : list dhcp_option) | RAck | ROther.

(** [raw] is a message that says [type] before any other option. *)
Definition says_type (raw : list Z) (type : Z) : Prop :=
  exists n p s, raw = p ++ encode_options (replicate n Pad ++ [Opt MessageType [type]]) ++ s /\
    alen p = offsetof_options /\ Z.of_nat n < 60.

Definition reply_rep (raw : list Z) (r : dhcp_reply) : Prop :=
  sizeof_DHCPHeader <= alen raw <= 2000 /\ Forall is_byte raw /\
  match r with
  | ROffer your_ip os => says_type raw Offer /\ take 4 (drop 16 raw) = your_ip /\ Forall option_ok os /\
      exists p s, raw = p ++ encode_options os ++ End_ :: s /\ alen p = offsetof_options /\
        alen p + alen (encode_options os) < sizeof_DHCPHeader
  | RAck => says_type raw ACK
  | ROther => exists type, says_type raw type /\ type <> Offer /\ type <> ACK
  end.

(** What the client makes of replies: the lease, and the requests it sends meanwhile. *)
Fixpoint lease (mac : list Z) (info : DHCPInformation) (rs : list dhcp_reply) : option DHCPInformation * list datagram :=
  match rs with
  | [] => (None, [])
  | RAck :: _ => (Some info, [])
  | ROther :: rs => lease mac info rs
  | ROffer your_ip os :: rs =>
      let r := lease mac (read_options (mkLease your_ip (gateway_ip info) (subnet_mask info)) os) rs in
      (r.1, mkDatagram IPv4_Broadcast 67 68 (request_bytes mac your_ip Request) :: r.2)
  end.

Section replies.
Context (b : list Z) (Hb : alen b = 2000) (Hbytes : Forall is_byte b).

Lemma message_type_spec raw type turns :
  says_type raw type -> (exists s, b = raw ++ s) -> (60 < turns)%nat ->
  get_dhcp_type turns (BufferView_of_ptr b) = Done type.
Proof.
  intros (n & p & s & E & Hp & Hn) (s' & Eb) Ht. unfold get_dhcp_type.
  rewrite convert_message by (unfold sizeof_DHCPHeader; lia). cbn [mbind exec_bind]. rewrite <- Hp.
  apply (type_loop b n p type (s ++ s')); [by rewrite Eb, E, <- !app_assoc| |lia].
  unfold offsetof_options, sizeof_DHCPHeader in *. lia.
Qed.

Lemma parse_offer_spec raw your_ip os info :
  reply_rep raw (ROffer your_ip os) -> (exists s, b = raw ++ s) ->
  parse_dhcp_offer (BufferView_of_ptr b) info = Done (read_options (mkLease your_ip (gateway_ip info) (subnet_mask info)) os).
Proof.
  intros (Hl & Hby & _ & Hip & Hok & p & s & E & Hp & Hend) (s' & Eb). unfold parse_dhcp_offer.
  rewrite convert_message by (unfold sizeof_DHCPHeader; lia). cbn [mbind exec_bind]. unfold IPv4Address_of_bytes, address_of_bytes.
  cbn [bv_array bv_start BufferView_of_ptr].
  assert (Hlen : (300 <= length raw)%nat) by (unfold sizeof_DHCPHeader, alen in Hl; lia).
  assert (Hd4 : length (take 4 (drop 16 raw)) = 4%nat) by (rewrite length_take, length_drop; lia).
  pose proof (memcpy_spec (take 4 (drop 16 raw)) (replicate 4 0) [] [] (take 16 raw) (drop 20 raw ++ s')) as M.
  rewrite Hd4 in M. specialize (M eq_refl). rewrite (@alen_nil Z) in M. cbn [app] in M. rewrite !app_nil_r in M.
  replace (take 16 raw ++ take 4 (drop 16 raw) ++ drop 20 raw ++ s') with b in M.
  2: { rewrite Eb, !app_assoc. f_equal. rewrite <- app_assoc. change 20%nat with (16 + 4)%nat.
       by rewrite <- drop_drop, take_drop, take_drop. }
  replace (alen (take 4 (drop 16 raw))) with IPv4_ELEMENTS_SIZE in M by (unfold alen; by rewrite Hd4).
  replace (alen (take 16 raw)) with (0 + offsetof_your_ip) in M by (unfold alen; rewrite length_take_le by lia; done).
  change (Z.to_nat IPv4_ELEMENTS_SIZE) with 4%nat. rewrite M. cbn [mbind exec_bind]. rewrite Hip, <- Hp.
  assert (Hos : (length os <= length (encode_options os))%nat).
  { clear. induction os as [|o os IH]; [done|]. change (encode_options (o :: os)) with (encode_option o ++ encode_options os).
    rewrite length_app. destruct o; simpl; lia. }
  apply (offer_loop b Hbytes os p (s ++ s')); [by rewrite Eb, E, <- !app_assoc|done|done|].
  rewrite Hp in Hend. unfold sizeof_DHCPHeader, offsetof_options, alen in Hend. lia.
Qed.

End replies.

(** * The exchange *)

Lemma read_options_ip info os : device_ip (read_options info os) = device_ip info.
Proof.
  unfold read_options. revert info. induction os as [|o os IH]; intros info; [done|]. cbn [foldl]. rewrite IH.
  destruct o as [|code data]; [done|]. by destruct code as [|[[]|[]|]|].
Qed.

(** One reply in the buffer of the client. *)
Lemma handle_dhcp_spec turns mac state info sent b raw r :
  alen b = 2000 -> Forall is_byte b -> (exists s, b = raw ++ s) -> reply_rep raw r -> alen mac = 6 -> (60 < turns)%nat ->
  handle_dhcp turns (mkDHCP mac state info sent) (BufferView_of_ptr b) =
    Done match r with
         | ROffer your_ip os =>
             let info' := read_options (mkLease your_ip (gateway_ip info) (subnet_mask info)) os in
             mkDHCP mac DHCP_Offer info' (sent ++ [mkDatagram IPv4_Broadcast 67 68 (request_bytes mac your_ip Request)])
         | RAck => mkDHCP mac DHCP_Acknowledge info sent
         | ROther => mkDHCP mac state info sent
         end.
Proof.
  intros Hb Hby Hs Hr Hm Ht. unfold handle_dhcp. pose proof Hr as (Hl & Hraw & Hcase). destruct r as [your_ip os| |].
  - destruct Hcase as (Hty & Hip & _). rewrite (message_type_spec b Hb raw Offer turns Hty Hs Ht). cbn [mbind exec_bind].
    rewrite Z.eqb_refl. unfold handle_dhcp_offer. cbn [dh_info dh_mac dh_state dh_sent].
    rewrite (parse_offer_spec b Hb Hby raw your_ip os info Hr Hs). cbn [mbind exec_bind].
    unfold send_dhcp_request, send_dhcp. rewrite read_options_ip. cbn [dh_mac dh_info dh_sent device_ip].
    rewrite make_dhcp_segment_spec; [done|done| |done].
    rewrite <- Hip. unfold alen, sizeof_DHCPHeader in *. rewrite length_take, length_drop. lia.
  - rewrite (message_type_spec b Hb raw ACK turns Hcase Hs Ht). done.
  - destruct Hcase as (type & Hty & H1 & H2). rewrite (message_type_spec b Hb raw type turns Hty Hs Ht). cbn [mbind exec_bind].
    by rewrite (proj2 (Z.eqb_neq type Offer)), (proj2 (Z.eqb_neq type ACK)).
Qed.

Lemma receive_replies_spec turns mac raws : forall rs state info sent b,
  Forall2 reply_rep raws rs -> state <> DHCP_Acknowledge -> alen b = 2000 -> Forall is_byte b -> alen mac = 6 -> (60 < turns)%nat ->
  exists state' info', receive_replies turns (mkDHCP mac state info sent) b raws =
    Done ((lease mac info rs).1, mkDHCP mac state' info' (sent ++ (lease mac info rs).2)).
Proof.
  induction raws as [|raw raws IH]; intros rs state info sent b Hrs Hst Hb Hby Hm Ht;
    inversion Hrs as [|? r ? rs' Hr Hrs']; subst; cbn [receive_replies dh_state]; rewrite bool_decide_eq_false_2 by done.
  { exists state, info. cbn. by rewrite app_nil_r. }
  pose proof Hr as (Hl & Hraw & _). unfold sizeof_DHCPHeader in Hl.
  assert (Efill : BufferMutableView_fill_from b raw 0 (alen raw) = Done (raw ++ drop (length raw) b)).
  { unfold BufferMutableView_fill_from. rewrite Z.add_0_l, u32_small, bind_ASSERT by (lia || apply Z.leb_le; lia).
    pose proof (memcpy_spec raw (take (length raw) b) [] (drop (length raw) b) [] []) as M. cbn [app] in M.
    rewrite take_drop, app_nil_r, (@alen_nil Z) in M. apply M. rewrite length_take. unfold alen in *. lia. }
  rewrite Efill. cbn [mbind exec_bind].
  assert (Hb' : alen (raw ++ drop (length raw) b) = 2000).
  { rewrite alen_app. unfold alen in *. rewrite length_drop. lia. }
  assert (Hby' : Forall is_byte (raw ++ drop (length raw) b)) by (apply Forall_app; split; [done|by apply Forall_drop]).
  rewrite (handle_dhcp_spec turns mac state info sent _ raw r Hb' Hby' ltac:(by eexists) Hr Hm Ht). cbn [mbind exec_bind].
  destruct r as [your_ip os| |]; cbn [lease].
  - destruct (IH rs' DHCP_Offer (read_options (mkLease your_ip (gateway_ip info) (subnet_mask info)) os)
      (sent ++ [mkDatagram IPv4_Broadcast 67 68 (request_bytes mac your_ip Request)]) _ Hrs' ltac:(done) Hb' Hby' Hm Ht)
      as (state' & info' & E). exists state', info'. rewrite E. cbn [fst snd]. by rewrite <- app_assoc.
  - exists DHCP_Acknowledge, info. destruct raws; cbn [receive_replies dh_state dh_info]; by rewrite bool_decide_eq_true_2, app_nil_r.
  - by apply IH.
Qed.

(** C39: the exchange with a DHCP server. Whatever well-formed replies arrive, in any order
    and with any stale bytes behind them, the client broadcasts one discovery and, for every
    offer, one request for the offered address; the first acknowledgement ends the exchange
    with the address, the gateway and the mask of the offers before it, read from the
    options by their codes; other messages change nothing, and without an acknowledgement
    the client goes on waiting. *)
Theorem dhcp_exchange (mac : list Z) (raws : list (list Z)) (rs : list dhcp_reply) (turns : nat)
    (Hmac : alen mac = 6) (Hrs : Forall2 reply_rep raws rs) (Ht : (60 < turns)%nat) :
  exists d, request_dhcp_information turns (DHCP_new mac) raws =
    Done ((lease mac (mkLease IPv4_Zero IPv4_Zero IPv4_Zero) rs).1, d) /\
    dh_sent d = mkDatagram IPv4_Broadcast 67 68 (request_bytes mac IPv4_Zero Discover) ::
                (lease mac (mkLease IPv4_Zero IPv4_Zero IPv4_Zero) rs).2.
Proof.
  unfold request_dhcp_information, send_dhcp_discovery, send_dhcp, DHCP_new. cbn [dh_mac dh_info dh_sent].
  rewrite make_dhcp_segment_spec by done. cbn [mbind exec_bind app].
  destruct (receive_replies_spec turns mac raws rs DHCP_Discovery (mkLease IPv4_Zero IPv4_Zero IPv4_Zero)
    [mkDatagram IPv4_Broadcast 67 68 (request_bytes mac IPv4_Zero Discover)] (Buffer_new 2000)) as (state' & info' & ->);
    [done|done|done|by apply Forall_replicate|done|done|]. by eexists.
Qed.

(** A message of a server, and options that give a mask and a gateway. *)
Definition example_message (ip : list Z) (os : list dhcp_option) : list Z :=
  replicate 16 0 ++ ip ++ replicate 220 0 ++ encode_options os ++ End_ :: replicate 60 0.

Definition example_options : list dhcp_option :=
  [Opt MessageType [Offer]; Opt SubnetMask [255; 255; 255; 0]; Opt RouterIPs [10; 0; 2; 2]].

Lemma dhcp_exchange_witness :
  let mac := [82; 84; 0; 18; 52; 86] in
  exists d, request_dhcp_information 100 (DHCP_new mac)
      [example_message [10; 0; 2; 15] example_options; example_message [10; 0; 2; 15] [Opt MessageType [ACK]; Opt DNSServers (replicate 12 0)]] =
    Done (Some (mkLease [10; 0; 2; 15] [10; 0; 2; 2] [255; 255; 255; 0]), d) /\
    dh_sent d = [mkDatagram IPv4_Broadcast 67 68 (request_bytes mac IPv4_Zero Discover);
                 mkDatagram IPv4_Broadcast 67 68 (request_bytes mac [10; 0; 2; 15] Request)].
Proof.
  intros mac. apply (dhcp_exchange mac _ [ROffer [10; 0; 2; 15] example_options; RAck] 100); [done| |lia].
  assert (Hbytes : forall ip os, forallb (fun x => (0 <=? x) && (x <? 256)) (example_message ip os) = true ->
    Forall is_byte (example_message ip os)).
  { intros ip os H. apply Forall_forall. intros x Hx. rewrite forallb_forall in H. specialize (H x).
    rewrite <- list_elem_of_In in H. specialize (H Hx). unfold is_byte. lia. }
  constructor; [|constructor; [|constructor]].
  - split; [split; vm_compute; congruence|]. split; [apply Hbytes; vm_compute; reflexivity|]. split; [|split; [vm_compute; reflexivity|split]].
    + exists 0%nat, (take 240 (example_message [10; 0; 2; 15] example_options)), (drop 243 (example_message [10; 0; 2; 15] example_options)).
      repeat split; vm_compute; reflexivity.
    + unfold example_options. repeat (apply Forall_cons; split;
        [split; [done|split; [done|intros [H|H]; vm_compute in H |- *; congruence]]|]). by apply Forall_nil.
    + exists (take 240 (example_message [10; 0; 2; 15] example_options)), (replicate 60 0). repeat split; vm_compute; reflexivity.
  - split; [split; vm_compute; congruence|]. split; [apply Hbytes; vm_compute; reflexivity|].
    exists 0%nat, (replicate 16 0 ++ [10; 0; 2; 15] ++ replicate 220 0),
      (encode_options [Opt DNSServers (replicate 12 0)] ++ End_ :: replicate 60 0). repeat split; vm_compute; reflexivity.
Defined.

(** A reply whose first option is empty: the client never finishes with it. *)
Lemma dhcp_empty_option_hangs turns code :
  0 < code < 255 -> code <> MessageType ->
  get_dhcp_type turns (BufferView_of_ptr (example_message [10; 0; 2; 15] [Opt code []])) = OutOfFuel.
Proof.
  intros Hc Hm. unfold get_dhcp_type.
  assert (Hstep : type_step (BufferView_of_ptr (example_message [10; 0; 2; 15] [Opt code []])) offsetof_options =
    Done (inl offsetof_options)).
  { unfold type_step. change (field8 _ offsetof_options) with (@Done Z code). cbn [mbind exec_bind].
    change (field8 _ (offsetof_options + 1)) with (@Done Z 0). unfold End_, Pading.
    rewrite (proj2 (Z.eqb_neq code 255)), (proj2 (Z.eqb_neq code 0)), (proj2 (Z.eqb_neq code MessageType)) by lia. done. }
  replace (BufferView_const_convert_to _ _) with (Done tt) by (vm_compute; reflexivity). cbn [mbind exec_bind].
  induction turns as [|turns IH]; [done|]. by rewrite (while_next _ _ _ _ Hstep).
Qed.

(** An acknowledgement is accepted before any offer, and the lease is empty. *)
Lemma dhcp_ack_without_offer :
  (r ← request_dhcp_information 100 (DHCP_new [82; 84; 0; 18; 52; 86]) [example_message [10; 0; 2; 15] [Opt MessageType [ACK]; Opt DNSServers (replicate 12 0)]];
   Done r.1) = Done (Some (mkLease IPv4_Zero IPv4_Zero IPv4_Zero)).
Proof. vm_compute. reflexivity. Qed.
