(* ===== verification/Dns.v ===== *)
(** The DNS client (application_layer/dns.cpp): a name as a sequence of labels, the query for
    it, and the address that a response gives. The query is a datagram for [UDP::send]; the
    datagrams that arrive on port 53 are given, and when there are no more of them the
    client is still waiting ([None]). *)

From S2P Require Import Prelude Bitmap Clib Strings PathView Buffers Checksum Network Dhcp.

Definition DNS_MESSAGE_FLAG_RESPONSE : Z := Bit 15.
Definition DNS_MESSAGE_FLAG_RECURSIVE_DESIRED : Z := Bit 8.
Definition DNS_MESSAGE_FLAG_QUERY : Z := 0.
Definition DNS_MESSAGE_TYPE_HOST_IP : Z := 1.
Definition DNS_MESSAGE_CLASS_IN : Z := 1.
Definition ERROR_DNS_UNRESOLVABLE : Z := 25.
Definition DOT : Z := 46.

Definition sizeof_DNSHeader : Z := 12.
Definition sizeof_DNSAnswer : Z := 16.

(** The getters and setters of the two structures swap the bytes. *)
Definition get_word16 (v : BufferView) (off : Z) : exec Z := w ← field16 v off; Done (network_word16 w).
Definition set_word16 (b : list Z) (off value : Z) : exec (list Z) := put16 b off (network_word16 value).

(** A turn of the loop over the dots of the name. *)
Definition notation_step (name : StringView) (st : Z * list Z) : exec (Z * list Z + list Z) :=
  let '(curr_dot, dns_notation) := st in
  if negb (curr_dot =? END) then
    next_dot ← StringView_find_char name DOT (u32 (curr_dot + 1));
    dns_notation ←
      (if negb (next_dot =? END) then
         BufferMutableView_set dns_notation (u32 (curr_dot + 1)) (u8 (next_dot - curr_dot - 1))
       else BufferMutableView_set dns_notation (u32 (curr_dot + 1)) (u8 (sv_size name - curr_dot - 1)));
    Done (inl (next_dot, dns_notation))
  else Done (inr dns_notation).

(** Every turn passes a dot: the size of the name bounds the turns. *)
Definition convert_to_dns_notation (name : StringView) : exec (list Z) :=
  let b := Buffer_new (sv_size name + 2) in
  b ← BufferMutableView_fill_from b (drop (Z.to_nat (sv_off name)) (sv_data name)) 1 (sv_size name);
  curr_dot ← StringView_find_char name DOT 0;
  b ← BufferMutableView_set b 0 (u8 curr_dot);
  b ← while (S (S (Z.to_nat (sv_size name)))) (notation_step name) (curr_dot, b);
  BufferMutableView_set b (sv_size name + 1) 0.

Definition dns_query (name : StringView) : exec (list Z) :=
  dns_notation ← convert_to_dns_notation name;
  let b := Buffer_new (sizeof_DNSHeader + alen dns_notation + 4) in
  _ ← BufferMutableView_convert_to b sizeof_DNSHeader;
  b ← set_word16 b 0 1;
  b ← set_word16 b 2 (Z.lor DNS_MESSAGE_FLAG_QUERY DNS_MESSAGE_FLAG_RECURSIVE_DESIRED);
  b ← set_word16 b 4 1;
  b ← set_word16 b 6 0;
  b ← set_word16 b 8 0;
  b ← set_word16 b 10 0;
  b ← BufferMutableView_fill_from b dns_notation sizeof_DNSHeader (alen dns_notation);
  let header_offset := sizeof_DNSHeader + alen dns_notation in
  b ← BufferMutableView_set b (header_offset + 0) 0;
  b ← BufferMutableView_set b (header_offset + 1) DNS_MESSAGE_TYPE_HOST_IP;
  b ← BufferMutableView_set b (header_offset + 2) 0;
  BufferMutableView_set b (header_offset + 3) DNS_MESSAGE_CLASS_IN.

(** The error of [UDP::send] becomes 1: its result is converted to [bool]. *)
Definition send_dns_query (server : list Z) (ports : Bitmap) (name : StringView) : exec (Result unit * list datagram) :=
  query ← dns_query name;
  used ← Bitmap_check_set ports 53;
  Done (if (used : bool) then (Error 1, []) else (Value tt, [mkDatagram server 53 53 query])).

Definition test_ip (ip : list Z) : bool := true.

(** Every turn looks at the first answer. *)
Fixpoint select_dns_response (answers : BufferView) (number_of_answer : nat) : exec (Result (list Z)) :=
  match number_of_answer with
  | O => Done (Error ERROR_DNS_UNRESOLVABLE)
  | S n =>
      let dns_answer := mkView (bv_array answers) (bv_start answers + 0) sizeof_DNSAnswer in
      _ ← BufferView_const_convert_to dns_answer sizeof_DNSAnswer;
      type ← get_word16 dns_answer 2;
      class ← (if type =? DNS_MESSAGE_TYPE_HOST_IP then get_word16 dns_answer 4 else Done 0);
      if (type =? DNS_MESSAGE_TYPE_HOST_IP) && (class =? DNS_MESSAGE_CLASS_IN) then
        ip ← IPv4Address_of_bytes dns_answer 12;
        if test_ip ip then Done (Value ip) else select_dns_response answers n
      else select_dns_response answers n
  end.

(** The offset behind the questions. *)
Definition skip_questions (b : list Z) (questions : Z) : exec Z :=
  for_ (Z.to_nat questions) 0 (fun _ off => n ← strlen b off; Done (u32 (off + (n + 1 + 4)))) sizeof_DNSHeader.

Definition handle_dns_response (b : list Z) : exec (option (Result (list Z))) :=
  let v := BufferView_of_ptr b in
  _ ← BufferView_const_convert_to v sizeof_DNSHeader;
  id ← get_word16 v 0;
  if negb (id =? 1) then Done None
  else
    flags ← get_word16 v 2;
    if negb (truthy (Z.land flags DNS_MESSAGE_FLAG_RESPONSE)) then Done None
    else
      answers ← get_word16 v 6;
      if answers =? 0 then Done None
      else
        questions ← get_word16 v 4;
        off ← skip_questions b questions;
        r ← select_dns_response (mkView b off (u32 (alen b - off))) (Z.to_nat answers);
        Done (Some r).

(** The function calls itself, with a new buffer, until a response is accepted. *)
Fixpoint get_dns_response (replies : list (list Z)) : exec (option (Result (list Z))) :=
  match replies with
  | [] => Done None
  | r :: replies =>
      b ← BufferMutableView_fill_from (Buffer_new 1024) r 0 (alen r);
      result ← handle_dns_response b;
      match result with Some x => Done (Some x) | None => get_dns_response replies end
  end.

Definition reslove (server : list Z) (ports : Bitmap) (name : StringView) (replies : list (list Z))
    : exec (option (Result (list Z)) * list datagram) :=
  '(r, sent) ← send_dns_query server ports name;
  match r with
  | Error e => Done (Some (Error e), sent)
  | Value _ => r ← get_dns_response replies; Done (r, sent)
  end.

(** * Names *)

Definition dots (ls : list (list Z)) : list Z := concat ((fun l => DOT :: l) <$> ls).
Definition dotted (ls : list (list Z)) : list Z := match ls with [] => [] | l :: ls => l ++ dots ls end.

(** The notation of RFC 1035: every label with its length before it, and a zero. *)
Definition labels (ls : list (list Z)) : list Z := concat ((fun l => alen l :: l) <$> ls).

Definition label_ok (l : list Z) : Prop := (DOT ∉ l) /\ alen l < 2 ^ 8.

Lemma alen_dots_labels ls : alen (dots ls) = alen (labels ls).
Proof.
  induction ls as [|l ls IH]; [done|]. unfold dots, labels in *. cbn [fmap list_fmap concat]. rewrite !alen_app, !alen_cons. lia.
Qed.

Section names.
Context (name : StringView) (cs : list Z) (Hv : view_rep name cs) (Hb : alen cs + 2 < 2 ^ 31).

Lemma name_size : sv_size name = alen cs.
Proof. by destruct Hv as (_ & p & r & ->). Qed.

Lemma notation_turn a w rest e :
  cs = a ++ DOT :: w ++ rest -> DOT ∉ w -> alen w < 2 ^ 8 -> (rest = [] \/ head rest = Some DOT) -> alen e = alen a + 1 ->
  notation_step name (alen a, e ++ DOT :: w ++ rest ++ [0]) =
    Done (inl (match rest with [] => NOT_FOUND | _ => alen a + 1 + alen w end, e ++ alen w :: w ++ rest ++ [0])).
Proof.
  intros Hcs Hw Hw8 Hrest He. pose proof (f_equal alen Hcs) as Hl. rewrite alen_app, alen_cons, alen_app in Hl.
  pose proof (alen_nonneg a). pose proof (alen_nonneg w). pose proof (alen_nonneg rest). unfold notation_step.
  rewrite (proj2 (Z.eqb_neq (alen a) END)) by (unfold END; lia). cbn [negb].
  assert (Hcs' : cs = (a ++ [DOT]) ++ w ++ rest) by by rewrite <- app_assoc.
  rewrite <- (alen_snoc a DOT). pose proof Hv as Hv'. rewrite Hcs' in Hv'.
  rewrite (find_separator name DOT (a ++ [DOT]) w rest Hv') by (done || rewrite <- Hcs'; lia). cbn [mbind exec_bind].
  rewrite alen_snoc, <- He. rewrite (u32_small (alen e)), name_size by lia.
  destruct rest as [|c rest].
  - change (NOT_FOUND =? END) with true. cbn [negb]. rewrite set_middle. cbn [mbind exec_bind]. rewrite (@alen_nil Z) in Hl.
    unfold u8. rewrite Z.mod_small by lia. do 5 f_equal. lia.
  - rewrite (proj2 (Z.eqb_neq (alen e + alen w) END)) by (unfold END; rewrite alen_cons in *; lia). cbn [negb].
    rewrite set_middle. cbn [mbind exec_bind]. unfold u8. rewrite Z.mod_small by lia. do 5 f_equal. lia.
Qed.

Lemma notation_loop ls : forall a w e turns,
  cs = a ++ DOT :: w ++ dots ls -> alen e = alen a + 1 -> Forall label_ok (w :: ls) -> (S (length ls) < turns)%nat ->
  while turns (notation_step name) (alen a, e ++ DOT :: w ++ dots ls ++ [0]) = Done (e ++ labels (w :: ls) ++ [0]).
Proof.
  induction ls as [|l ls IH]; intros a w e turns Hcs He Hok Ht; apply Forall_cons in Hok as [[Hw Hw8] Hls];
    (destruct turns as [|turns]; [lia|]).
  - rewrite (while_next _ _ _ _ (notation_turn a w [] e Hcs Hw Hw8 (or_introl eq_refl) He)).
    destruct turns as [|turns]; [simpl in Ht; lia|]. apply while_out. unfold notation_step. rewrite Z.eqb_refl. cbn [negb labels fmap list_fmap concat].
    by rewrite app_nil_r.
  - rewrite (while_next _ _ _ _ (notation_turn a w (dots (l :: ls)) e Hcs Hw Hw8 (or_intror eq_refl) He)).
    change (dots (l :: ls)) with (DOT :: l ++ dots ls) in *.
    replace (alen a + 1 + alen w) with (alen (a ++ DOT :: w)) by (rewrite alen_app, alen_cons; lia).
    replace (e ++ alen w :: w ++ (DOT :: l ++ dots ls) ++ [0]) with ((e ++ alen w :: w) ++ DOT :: l ++ dots ls ++ [0])
      by by simplify_list_eq.
    rewrite IH; [|by rewrite Hcs, <- app_assoc|rewrite !alen_app, !alen_cons; lia|done|simpl in *; lia].
    change (labels (w :: l :: ls)) with ((alen w :: w) ++ labels (l :: ls)). by rewrite <- !app_assoc.
Qed.

(** The name, with room for a length before it and a zero behind it. *)
Lemma notation_copy :
  BufferMutableView_fill_from (Buffer_new (sv_size name + 2)) (drop (Z.to_nat (sv_off name)) (sv_data name)) 1 (sv_size name)
  = Done (0 :: cs ++ [0]).
Proof.
  rewrite name_size. destruct Hv as (_ & p & r & ->). cbn [sv_off sv_data]. pose proof (alen_nonneg cs).
  replace (Z.to_nat (alen p)) with (length p) by (unfold alen; lia). rewrite drop_app_length.
  assert (Hnew : Buffer_new (alen cs + 2) = [0] ++ replicate (length cs) 0 ++ [0]).
  { unfold Buffer_new. replace (Z.to_nat (alen cs + 2)) with (1 + (length cs + 1))%nat by (unfold alen; lia).
    by rewrite !replicate_add. }
  rewrite Hnew. unfold BufferMutableView_fill_from. rewrite u32_small by lia. rewrite bind_ASSERT.
  - pose proof (memcpy_spec cs (replicate (length cs) 0) [0] [0] [] r) as M. apply M. by rewrite length_replicate.
  - apply Z.leb_le. rewrite !alen_app, alen_replicate. unfold alen. simpl. lia.
Qed.

Lemma convert_spec l0 l1 ls :
  cs = dotted (l0 :: l1 :: ls) -> Forall label_ok (l0 :: l1 :: ls) ->
  convert_to_dns_notation name = Done (labels (l0 :: l1 :: ls) ++ [0]).
Proof.
  intros Hcs Hok. pose proof Hok as [[H0 H08] Hls]%Forall_cons. unfold convert_to_dns_notation. rewrite notation_copy.
  cbn [mbind exec_bind]. change (dotted (l0 :: l1 :: ls)) with ([] ++ l0 ++ dots (l1 :: ls)) in Hcs.
  pose proof Hv as Hv'. rewrite Hcs in Hv'. pose proof (alen_nonneg l0).
  pose proof (find_separator name DOT [] l0 (dots (l1 :: ls)) Hv' ltac:(done) H0 ltac:(rewrite <- Hcs; lia) (or_intror eq_refl)) as Ef.
  rewrite (@alen_nil Z), Z.add_0_l in Ef. change (u32 0) with 0 in Ef. rewrite Ef. cbn [app] in Hcs.
  change (dots (l1 :: ls)) with (DOT :: l1 ++ dots ls) in *. cbn [mbind exec_bind].
  pose proof (set_middle [] (cs ++ [0]) 0 (u8 (alen l0))) as Es. rewrite (@alen_nil Z) in Es. cbn [app] in Es. rewrite Es.
  cbn [mbind exec_bind]. unfold u8. rewrite Z.mod_small by lia.
  replace (alen l0 :: cs ++ [0]) with ((alen l0 :: l0) ++ DOT :: l1 ++ dots ls ++ [0])
    by (rewrite Hcs; by simplify_list_eq).
  assert (Hlen : (length ls <= length cs)%nat).
  { rewrite Hcs, length_app. simpl. rewrite length_app. clear. induction ls as [|l ls IH]; [simpl; lia|].
    change (dots (l :: ls)) with (DOT :: l ++ dots ls). simpl. rewrite length_app. lia. }
  rewrite name_size.
  rewrite (notation_loop ls l0 l1 (alen l0 :: l0)); [|done|by rewrite alen_cons|done|].
  - cbn [mbind exec_bind]. change ((alen l0 :: l0) ++ labels (l1 :: ls) ++ [0]) with ((alen l0 :: l0) ++ (labels (l1 :: ls) ++ [0])).
    rewrite app_assoc. change ((alen l0 :: l0) ++ labels (l1 :: ls)) with (labels (l0 :: l1 :: ls)).
    replace (alen cs + 1) with (alen (labels (l0 :: l1 :: ls))); [apply set_middle|].
    rewrite <- alen_dots_labels, Hcs. change (dots (l0 :: l1 :: ls)) with (DOT :: l0 ++ DOT :: l1 ++ dots ls). by rewrite alen_cons.
  - unfold alen in *. pose proof (f_equal length Hcs) as E. rewrite length_app in E. simpl in E. rewrite length_app in E. lia.
Qed.

End names.

(** A name without a dot gets 255 as its first length, and no other. *)
Lemma dns_single_label :
  convert_to_dns_notation (Strings.mkView 2 [97; 98] 0) = Done [255; 97; 98; 0].
Proof. vm_compute. reflexivity. Qed.

(** * Responses *)

Definition be16 (x : Z) : list Z := [x / 2 ^ 8; x mod 2 ^ 8].
Definition is_word16 (x : Z) : Prop := 0 <= x < 2 ^ 16.

(** A question: a name that ends at its first zero, its type and class. *)
Definition question := (list Z * list Z)%type.
Definition question_ok (q : question) : Prop := Forall (fun c => c <> 0) q.1 /\ alen q.2 = 4.
Definition question_bytes (q : question) : list Z := q.1 ++ 0 :: q.2.

(** A message, with the number of answers it says it has. *)
Definition message (id flags : Z) (qs : list question) (answers : Z) (rest : list Z) : list Z :=
  be16 id ++ be16 flags ++ be16 (alen qs) ++ be16 answers ++ [0; 0; 0; 0] ++ (qs ≫= question_bytes) ++ rest.

(** An answer with a compressed name, and the address it holds. *)
Record answer := mkAnswer {
  an_name : Z;
  an_type : Z;
  an_class : Z;
  an_ttl : list Z;
  an_ip : list Z
}.

Definition answer_ok (a : answer) : Prop :=
  is_word16 (an_name a) /\ is_word16 (an_type a) /\ is_word16 (an_class a) /\ alen (an_ttl a) = 6 /\ alen (an_ip a) = 4.

Definition answer_bytes (a : answer) : list Z :=
  be16 (an_name a) ++ be16 (an_type a) ++ be16 (an_class a) ++ an_ttl a ++ an_ip a.

Definition answer_value (a : answer) : Result (list Z) :=
  if (an_type a =? DNS_MESSAGE_TYPE_HOST_IP) && (an_class a =? DNS_MESSAGE_CLASS_IN) then Value (an_ip a)
  else Error ERROR_DNS_UNRESOLVABLE.

Lemma word16_at v off p x s :
  bv_array v = p ++ be16 x ++ s -> alen p = bv_start v + off -> is_word16 x -> get_word16 v off = Done x.
Proof.
  intros E Hp Hx. unfold get_word16, field16, field8, BufferView_at. rewrite E, <- Hp.
  assert (E1 : aget (p ++ be16 x ++ s) (alen p) = Done (x / 2 ^ 8)) by apply aget_middle.
  assert (E2 : aget (p ++ be16 x ++ s) (bv_start v + (off + 1)) = Done (x mod 2 ^ 8)).
  { replace (p ++ be16 x ++ s) with ((p ++ [x / 2 ^ 8]) ++ x mod 2 ^ 8 :: s) by by rewrite <- app_assoc.
    replace (bv_start v + (off + 1)) with (alen (p ++ [x / 2 ^ 8])) by (rewrite alen_snoc; lia). apply aget_middle. }
  rewrite E1, E2. cbn [mbind exec_bind]. unfold is_word16 in Hx.
  unfold network_word16. rewrite big_endian_load by (unfold is_byte; zdiv). f_equal. zdiv.
Qed.

(** A turn, and all turns: they look at the same answer. *)
Lemma select_turn b p a s n size :
  b = p ++ answer_bytes a ++ s -> answer_ok a ->
  select_dns_response (mkView b (alen p) size) (S n) =
    match answer_value a with Value ip => Done (Value ip) | Error _ => select_dns_response (mkView b (alen p) size) n end.
Proof.
  intros E (Hn & Ht & Hc & Httl & Hip). unfold answer_value, answer_bytes in *. cbn [select_dns_response bv_array bv_start].
  unfold BufferView_const_convert_to. cbn [bv_size]. rewrite bind_ASSERT by done.
  rewrite (word16_at _ 2 (p ++ be16 (an_name a)) (an_type a) (be16 (an_class a) ++ an_ttl a ++ an_ip a ++ s))
    by (done || (cbn [bv_array]; rewrite E; by rewrite <- !app_assoc) || (rewrite alen_app; cbn [bv_start]; unfold alen; simpl; lia)).
  cbn [mbind exec_bind].
  destruct (Z.eqb_spec (an_type a) DNS_MESSAGE_TYPE_HOST_IP) as [Et|]; cbn [andb mbind exec_bind]; [|done].
  rewrite (word16_at _ 4 (p ++ be16 (an_name a) ++ be16 (an_type a)) (an_class a) (an_ttl a ++ an_ip a ++ s))
    by (done || (cbn [bv_array]; rewrite E; by rewrite <- !app_assoc) || (rewrite !alen_app; cbn [bv_start]; unfold alen; simpl; lia)).
  cbn [mbind exec_bind]. destruct (Z.eqb_spec (an_class a) DNS_MESSAGE_CLASS_IN); [|done].
  unfold IPv4Address_of_bytes, address_of_bytes. cbn [bv_array bv_start]. change (Z.to_nat IPv4_ELEMENTS_SIZE) with 4%nat.
  pose proof (memcpy_spec (an_ip a) (replicate 4 0) [] [] (p ++ be16 (an_name a) ++ be16 (an_type a) ++ be16 (an_class a) ++ an_ttl a) s) as M.
  rewrite (@alen_nil Z), !app_nil_r in M. cbn [app] in M. rewrite Hip in M.
  replace ((p ++ be16 (an_name a) ++ be16 (an_type a) ++ be16 (an_class a) ++ an_ttl a) ++ an_ip a ++ s) with b in M
    by (rewrite E; by rewrite <- !app_assoc).
  replace (alen (p ++ be16 (an_name a) ++ be16 (an_type a) ++ be16 (an_class a) ++ an_ttl a)) with (alen p + 0 + 12) in M
    by (rewrite !alen_app, Httl; unfold alen; simpl; lia).
  unfold IPv4_ELEMENTS_SIZE. rewrite M by (unfold alen in Hip; simpl; lia). done.
Qed.

Lemma select_spec b p a s n size :
  b = p ++ answer_bytes a ++ s -> answer_ok a ->
  select_dns_response (mkView b (alen p) size) (S n) = Done (answer_value a).
Proof.
  intros E Hok. assert (Herr : forall e, answer_value a = Error e -> e = ERROR_DNS_UNRESOLVABLE)
    by (unfold answer_value; intros e; case_match; congruence).
  induction n as [|n IH]; rewrite (select_turn b p a s) by done; destruct (answer_value a) as [ip|e] eqn:Ea; try done.
  by rewrite (Herr e eq_refl).
Qed.

Lemma skip_questions_spec qs : forall p s b i,
  b = p ++ (qs ≫= question_bytes) ++ s -> Forall question_ok qs -> alen b < 2 ^ 31 ->
  for_ (length qs) i (fun _ off => n ← strlen b off; Done (u32 (off + (n + 1 + 4)))) (alen p) = Done (alen (p ++ (qs ≫= question_bytes))).
Proof.
  induction qs as [|q qs IH]; intros p s b i E Hok Hb; [cbn; by rewrite app_nil_r|].
  apply Forall_cons in Hok as [[Hq H4] Hqs]. change ((q :: qs) ≫= question_bytes) with (question_bytes q ++ (qs ≫= question_bytes)) in *.
  unfold question_bytes at 1 in E. cbn [length for_].
  assert (Es : strlen b (alen p) = Done (alen q.1)).
  { rewrite E, <- !app_assoc. cbn [app]. apply (strlen_spec p q.1); [done|]. apply (f_equal alen) in E.
    rewrite !alen_app, alen_cons in E. pose proof (alen_nonneg p). pose proof (alen_nonneg q.2).
    pose proof (alen_nonneg (qs ≫= question_bytes)). pose proof (alen_nonneg s). lia. }
  rewrite Es. cbn [mbind exec_bind]. apply (f_equal alen) in E as El.
  rewrite !alen_app, alen_cons in El. pose proof (alen_nonneg p). pose proof (alen_nonneg q.1).
  pose proof (alen_nonneg (qs ≫= question_bytes)). pose proof (alen_nonneg s).
  replace (u32 (alen p + (alen q.1 + 1 + 4))) with (alen (p ++ question_bytes q)).
  - rewrite (IH (p ++ question_bytes q) s b (i + 1)); [by rewrite <- app_assoc| |done|done].
    rewrite E. unfold question_bytes at 2. by rewrite <- !app_assoc.
  - rewrite alen_app. unfold question_bytes. rewrite alen_app, alen_cons, H4, u32_small by lia. lia.
Qed.

Lemma set_word16_at p o1 o2 s x off :
  is_word16 x -> off = alen p -> set_word16 (p ++ o1 :: o2 :: s) off x = Done (p ++ be16 x ++ s).
Proof.
  intros Hx ->. unfold set_word16, put16, put8. rewrite aset_middle. cbn [mbind exec_bind].
  rewrite <- (alen_snoc p (u8 (network_word16 x))).
  replace (p ++ u8 (network_word16 x) :: o2 :: s) with ((p ++ [u8 (network_word16 x)]) ++ o2 :: s) by by rewrite <- app_assoc.
  rewrite aset_middle, <- app_assoc. unfold network_word16, u8, is_word16 in *. rewrite swap_bytes, Z.shiftr_div_pow2 by lia.
  cbn [be16 app]. do 2 f_equal. f_equal; [zdiv|]. f_equal. zdiv.
Qed.

(** The query is a message with one question, for the address of the name. *)
Lemma dns_query_spec name cs l0 l1 ls :
  view_rep name cs -> alen cs + 32 < 2 ^ 31 -> cs = dotted (l0 :: l1 :: ls) -> Forall label_ok (l0 :: l1 :: ls) ->
  dns_query name = Done (message 1 0x100 [(labels (l0 :: l1 :: ls), [0; 1; 0; 1])] 0 []).
Proof.
  intros Hv Hb Hcs Hok. unfold dns_query. rewrite (convert_spec name cs Hv ltac:(lia) l0 l1 ls Hcs Hok). cbn [mbind exec_bind].
  set (n := labels (l0 :: l1 :: ls) ++ [0]). pose proof (alen_nonneg n).
  assert (Hn : alen n < 2 ^ 31 - 30).
  { unfold n. rewrite alen_snoc, <- alen_dots_labels.
    change (dots (l0 :: l1 :: ls)) with (DOT :: dotted (l0 :: l1 :: ls)). rewrite <- Hcs, alen_cons. lia. }
  assert (Hnew : Buffer_new (sizeof_DNSHeader + alen n + 4) = replicate 12 0 ++ replicate (length n) 0 ++ replicate 4 0).
  { unfold Buffer_new, sizeof_DNSHeader. replace (Z.to_nat (12 + alen n + 4)) with (12 + (length n + 4))%nat by (unfold alen; lia).
    by rewrite !replicate_add. }
  set (T := replicate (length n) 0 ++ replicate 4 0) in Hnew.
  rewrite Hnew. unfold BufferMutableView_convert_to. rewrite bind_ASSERT.
  2: { apply Z.leb_le. rewrite alen_app. pose proof (alen_nonneg T). unfold sizeof_DNSHeader, alen. simpl. lia. }
  change (replicate 12 0 ++ T) with ([] ++ 0 :: 0 :: (replicate 10 0 ++ T)). rewrite set_word16_at by done. cbn [mbind exec_bind].
  change ([] ++ be16 1 ++ replicate 10 0 ++ T) with (be16 1 ++ 0 :: 0 :: (replicate 8 0 ++ T)).
  rewrite set_word16_at by done. cbn [mbind exec_bind]. change (Z.lor _ _) with 0x100.
  change (be16 1 ++ be16 0x100 ++ replicate 8 0 ++ T) with ((be16 1 ++ be16 0x100) ++ 0 :: 0 :: (replicate 6 0 ++ T)).
  rewrite set_word16_at by done. cbn [mbind exec_bind].
  change ((be16 1 ++ be16 0x100) ++ be16 1 ++ replicate 6 0 ++ T) with ((be16 1 ++ be16 0x100 ++ be16 1) ++ 0 :: 0 :: (replicate 4 0 ++ T)).
  rewrite set_word16_at by done. cbn [mbind exec_bind].
  change ((be16 1 ++ be16 0x100 ++ be16 1) ++ be16 0 ++ replicate 4 0 ++ T)
    with ((be16 1 ++ be16 0x100 ++ be16 1 ++ be16 0) ++ 0 :: 0 :: (replicate 2 0 ++ T)).
  rewrite set_word16_at by done. cbn [mbind exec_bind].
  change ((be16 1 ++ be16 0x100 ++ be16 1 ++ be16 0) ++ be16 0 ++ replicate 2 0 ++ T)
    with ((be16 1 ++ be16 0x100 ++ be16 1 ++ be16 0 ++ be16 0) ++ 0 :: 0 :: T).
  rewrite set_word16_at by done. cbn [mbind exec_bind].
  set (hdr := be16 1 ++ be16 0x100 ++ be16 1 ++ be16 0 ++ be16 0 ++ be16 0).
  change ((be16 1 ++ be16 0x100 ++ be16 1 ++ be16 0 ++ be16 0) ++ be16 0 ++ T) with (hdr ++ T).
  assert (Ef : BufferMutableView_fill_from (hdr ++ T) n sizeof_DNSHeader (alen n) = Done (hdr ++ n ++ [0; 0; 0; 0])).
  { unfold BufferMutableView_fill_from, sizeof_DNSHeader. rewrite u32_small, bind_ASSERT by (lia || apply Z.leb_le; unfold T;
      rewrite !alen_app, alen_replicate; unfold alen; simpl; lia).
    pose proof (memcpy_spec n (replicate (length n) 0) hdr [0; 0; 0; 0] [] []) as M. rewrite (@alen_nil Z), app_nil_r in M.
    apply M. by rewrite length_replicate. }
  rewrite Ef. cbn [mbind exec_bind]. clear Ef.
  assert (Hset : forall d x y s k, alen d = k -> BufferMutableView_set (hdr ++ n ++ d ++ x :: s) (sizeof_DNSHeader + alen n + k) y
    = Done (hdr ++ n ++ d ++ y :: s)).
  { intros d x y s k Hk. replace (sizeof_DNSHeader + alen n + k) with (alen (hdr ++ n ++ d)) by (rewrite !alen_app, Hk; unfold sizeof_DNSHeader, alen; simpl; lia).
    rewrite 2!app_assoc, <- (app_assoc hdr), set_middle. by rewrite <- !app_assoc. }
  pose proof (Hset [] 0 0 [0; 0; 0] 0 eq_refl) as H0. pose proof (Hset [0] 0 DNS_MESSAGE_TYPE_HOST_IP [0; 0] 1 eq_refl) as H1.
  pose proof (Hset [0; DNS_MESSAGE_TYPE_HOST_IP] 0 0 [0] 2 eq_refl) as H2. pose proof (Hset [0; DNS_MESSAGE_TYPE_HOST_IP; 0] 0 DNS_MESSAGE_CLASS_IN [] 3 eq_refl) as H3.
  cbn [app] in H0, H1, H2, H3. rewrite H0. cbn [mbind exec_bind]. rewrite H1. cbn [mbind exec_bind]. rewrite H2.
  cbn [mbind exec_bind]. rewrite H3. f_equal. unfold message, n, hdr, question_bytes. cbn [mbind list_bind fst snd].
  rewrite !app_nil_r, <- !app_assoc. done.
Qed.

(** What a datagram means to the client. *)
Inductive dns_reply := Ignored | Answered (a : answer).

Definition dns_reply_rep (raw : list Z) (r : dns_reply) : Prop :=
  alen raw <= 1024 /\ exists id flags qs n rest, raw = message id flags qs n rest /\
    is_word16 id /\ is_word16 flags /\ is_word16 (alen qs) /\ is_word16 n /\
    match r with
    | Ignored => id <> 1 \/ Z.land flags DNS_MESSAGE_FLAG_RESPONSE = 0 \/ n = 0
    | Answered a => id = 1 /\ Z.land flags DNS_MESSAGE_FLAG_RESPONSE <> 0 /\ n <> 0 /\ Forall question_ok qs /\ answer_ok a /\
        exists s, rest = answer_bytes a ++ s
    end.

(** The first response that is not ignored decides. *)
Fixpoint first_answer (rs : list dns_reply) : option (Result (list Z)) :=
  match rs with
  | [] => None
  | Ignored :: rs => first_answer rs
  | Answered a :: _ => Some (answer_value a)
  end.

Lemma handle_response_spec raw r z :
  dns_reply_rep raw r -> alen (raw ++ z) = 1024 ->
  handle_dns_response (raw ++ z) = Done (match r with Ignored => None | Answered a => Some (answer_value a) end).
Proof.
  intros (_ & id & flags & qs & n & rest & -> & Hid & Hfl & Hqs & Hn & Hr) Hl. set (b := message id flags qs n rest ++ z) in *.
  unfold handle_dns_response, BufferView_const_convert_to. cbn [bv_size BufferView_of_ptr]. rewrite bind_ASSERT.
  2: { apply Z.leb_le. unfold sizeof_DNSHeader. lia. }
  set (tail := [0; 0; 0; 0] ++ (qs ≫= question_bytes) ++ rest ++ z).
  assert (Eb : b = be16 id ++ be16 flags ++ be16 (alen qs) ++ be16 n ++ tail).
  { unfold b, message, tail. by rewrite <- !app_assoc. }
  rewrite (word16_at _ 0 [] id (be16 flags ++ be16 (alen qs) ++ be16 n ++ tail)) by done. cbn [mbind exec_bind].
  rewrite (word16_at _ 2 (be16 id) flags (be16 (alen qs) ++ be16 n ++ tail)) by done. cbn [mbind exec_bind].
  rewrite (word16_at _ 6 (be16 id ++ be16 flags ++ be16 (alen qs)) n tail) by done. cbn [mbind exec_bind].
  rewrite (word16_at _ 4 (be16 id ++ be16 flags) (alen qs) (be16 n ++ tail)) by done. cbn [mbind exec_bind]. unfold truthy.
  destruct r as [|a].
  - destruct (Z.eqb_spec id 1); [|done]. destruct (Z.eqb_spec (Z.land flags DNS_MESSAGE_FLAG_RESPONSE) 0); [done|].
    destruct (Z.eqb_spec n 0); [done|]. by destruct Hr as [?|[?|?]].
  - destruct Hr as (-> & Hf & Hn0 & Hq & Ha & s & ->). cbn [negb]. rewrite (proj2 (Z.eqb_neq _ _) Hf), (proj2 (Z.eqb_neq _ _) Hn0).
    cbn [negb]. set (hdr := be16 1 ++ be16 flags ++ be16 (alen qs) ++ be16 n ++ [0; 0; 0; 0]).
    assert (Eb' : b = hdr ++ (qs ≫= question_bytes) ++ answer_bytes a ++ s ++ z).
    { rewrite Eb. unfold hdr, tail. by rewrite <- !app_assoc. }
    pose proof (skip_questions_spec qs hdr (answer_bytes a ++ s ++ z) b 0 Eb' Hq ltac:(lia)) as Es.
    unfold skip_questions. replace (Z.to_nat (alen qs)) with (length qs) by (unfold alen; lia).
    change (alen hdr) with sizeof_DNSHeader in Es. rewrite Es. cbn [mbind exec_bind].
    destruct (Z.to_nat n) as [|k] eqn:Hk; [unfold is_word16 in Hn; lia|].
    rewrite (select_spec b (hdr ++ (qs ≫= question_bytes)) a (s ++ z)); [done| |done]. by rewrite Eb', <- app_assoc.
Qed.

Lemma get_response_spec raws rs :
  Forall2 dns_reply_rep raws rs -> get_dns_response raws = Done (first_answer rs).
Proof.
  induction 1 as [|raw r raws rs Hr _ IH]; [done|]. cbn [get_dns_response first_answer]. pose proof Hr as [Hl _].
  pose proof (alen_nonneg raw).
  assert (Efill : BufferMutableView_fill_from (Buffer_new 1024) raw 0 (alen raw) = Done (raw ++ replicate (1024 - length raw) 0)).
  { unfold BufferMutableView_fill_from. change (alen (Buffer_new 1024)) with 1024.
    rewrite Z.add_0_l, u32_small, bind_ASSERT by (lia || apply Z.leb_le; lia).
    pose proof (memcpy_spec raw (replicate (length raw) 0) [] (replicate (1024 - length raw) 0) [] []) as M. cbn [app] in M.
    rewrite app_nil_r, (@alen_nil Z), <- replicate_add in M.
    replace (length raw + (1024 - length raw))%nat with 1024%nat in M by (unfold alen in *; lia).
    apply M. by rewrite length_replicate. }
  rewrite Efill. cbn [mbind exec_bind]. rewrite (handle_response_spec raw r _ Hr).
  - cbn [mbind exec_bind]. destruct r; [apply IH|done].
  - rewrite alen_app, alen_replicate. unfold alen in *. lia.
Qed.

(** C40: resolving a name of two or more labels of at most 255 characters, none of which is a
    dot, while the port 53 is free (a name of one label is written wrongly: [dns_single_label]).
    The client sends the server one query, the name in the notation of RFC 1035 in a message
    with one question. Let the datagrams that arrive be messages of at most 1024 bytes; those
    with another identifier, the queries and those without answers are skipped. The first
    other one decides: its answers come behind questions of the usual form, and the first
    answer has its name as one compressed word; when it is an internet address the result is
    that address, and otherwise the name is unresolvable. *)
Theorem dns_resolution (server : list Z) (ports : Bitmap) (name : StringView) (l0 l1 : list Z) (ls : list (list Z))
    (raws : list (list Z)) (rs : list dns_reply)
    (Hv : view_rep name (dotted (l0 :: l1 :: ls))) (Hb : alen (dotted (l0 :: l1 :: ls)) + 32 < 2 ^ 31)
    (Hok : Forall label_ok (l0 :: l1 :: ls)) (Hports : Bitmap_check_set ports 53 = Done false)
    (Hrs : Forall2 dns_reply_rep raws rs) :
  reslove server ports name raws =
    Done (first_answer rs, [mkDatagram server 53 53 (message 1 0x100 [(labels (l0 :: l1 :: ls), [0; 1; 0; 1])] 0 [])]).
Proof.
  unfold reslove, send_dns_query. rewrite (dns_query_spec name _ l0 l1 ls Hv Hb eq_refl Hok). cbn [mbind exec_bind].
  rewrite Hports. cbn [mbind exec_bind]. by rewrite (get_response_spec raws rs Hrs).
Qed.

Lemma dns_resolution_witness :
  let a := mkAnswer 0xC00C 1 1 [0; 0; 0; 60; 0; 4] [10; 0; 2; 3] in
  let raw := message 1 0x8180 [([1; 97; 1; 98], [0; 1; 0; 1])] 1 (answer_bytes a) in
  reslove [10; 0; 2; 3] (Bitmap_new 65535) (Strings.mkView 3 [97; DOT; 98] 0) [message 2 0x8180 [] 1 []; raw] =
    Done (Some (Value [10; 0; 2; 3]),
          [mkDatagram [10; 0; 2; 3] 53 53 (message 1 0x100 [([1; 97; 1; 98], [0; 1; 0; 1])] 0 [])]).
Proof.
  intros a raw. apply (dns_resolution [10; 0; 2; 3] _ _ [97] [98] [] _ [Ignored; Answered a]).
  - split; [done|]. by exists [], [].
  - done.
  - assert (forall c, c <> DOT -> label_ok [c]) as H by (intros c Hc; split; [intros ?%list_elem_of_singleton; congruence|done]).
    apply Forall_cons. split; [by apply H|]. apply Forall_singleton. by apply H.
  - vm_compute. reflexivity.
  - constructor; [|constructor; [|constructor]].
    + split; [done|]. exists 2, 0x8180, [], 1, []. repeat split; try done. by left.
    + split; [done|]. exists 1, 0x8180, [([1; 97; 1; 98], [0; 1; 0; 1])], 1, (answer_bytes a). repeat split; try done.
      * apply Forall_singleton. split; [by repeat constructor|done].
      * exists []. by rewrite app_nil_r.
Defined.
