(* ===== verification/Tcp.v ===== *)
(** TCP sessions (transport_layer/tcp.cpp). The segments that a call hands to
    [IPv4::send] are collected in order. A call that blocks takes the states of the
    session at the moments at which its thread runs again from the list [events]: other
    threads change the session while it is blocked. It gives [None] when the list ends
    while the thread is still blocked. *)

From S2P Require Import Prelude Clib Buffers Checksum Bitmap Network Datagram.

Definition FLAG_FIN : Z := Bit 0.
Definition FLAG_SYN : Z := Bit 1.
Definition FLAG_RST : Z := Bit 2.
Definition FLAG_PSH : Z := Bit 3.
Definition FLAG_ACK : Z := Bit 4.

Inductive TCPState :=
  LISTEN | SYN_SENT | SYN_RECEIVED | ESTABLISHED | FIN_WAIT1 | FIN_WAIT2 | CLOSE_WAIT | LAST_ACK | TIME_WAIT | CLOSED.

#[export] Instance TCPState_eq_dec : EqDecision TCPState.
Proof. solve_decision. Defined.

Definition MAX_WINDOW_SIZE : Z := 8000.

(** [ts_syn] is the count of the semaphore [m_syn_waitqueue]; [ts_ports] the bitmap that
    the sessions share. *)
Record TCPSession := mkTCP {
  ts_state : TCPState;
  ts_syn : Z;
  ts_remote_ip : list Z;
  ts_buffer : list Z;
  ts_start : Z;
  ts_written : Z;
  ts_remote_seq : Z;
  ts_local_seq : Z;
  ts_last_ack : Z;
  ts_local_port : Z;
  ts_remote_port : Z;
  ts_local_window : Z;
  ts_remote_window : Z;
  ts_ports : Bitmap
}.

Definition TCPSession_new (ports : Bitmap) : TCPSession :=
  mkTCP CLOSED 0 IPv4_Zero (Buffer_new MAX_WINDOW_SIZE) 0 0 0 0 0 0 0 MAX_WINDOW_SIZE 1 ports.

(** Assignments to members. *)
Definition set_state (s : TCPSession) (x : TCPState) : TCPSession :=
  mkTCP x (ts_syn s) (ts_remote_ip s) (ts_buffer s) (ts_start s) (ts_written s) (ts_remote_seq s) (ts_local_seq s) (ts_last_ack s)
    (ts_local_port s) (ts_remote_port s) (ts_local_window s) (ts_remote_window s) (ts_ports s).
Definition set_syn (s : TCPSession) (x : Z) : TCPSession :=
  mkTCP (ts_state s) x (ts_remote_ip s) (ts_buffer s) (ts_start s) (ts_written s) (ts_remote_seq s) (ts_local_seq s) (ts_last_ack s)
    (ts_local_port s) (ts_remote_port s) (ts_local_window s) (ts_remote_window s) (ts_ports s).
Definition set_remote (s : TCPSession) (ip : list Z) (port : Z) : TCPSession :=
  mkTCP (ts_state s) (ts_syn s) ip (ts_buffer s) (ts_start s) (ts_written s) (ts_remote_seq s) (ts_local_seq s) (ts_last_ack s)
    (ts_local_port s) port (ts_local_window s) (ts_remote_window s) (ts_ports s).
Definition set_buffer (s : TCPSession) (b : list Z) (written : Z) : TCPSession :=
  mkTCP (ts_state s) (ts_syn s) (ts_remote_ip s) b (ts_start s) written (ts_remote_seq s) (ts_local_seq s) (ts_last_ack s)
    (ts_local_port s) (ts_remote_port s) (ts_local_window s) (ts_remote_window s) (ts_ports s).
Definition set_start (s : TCPSession) (x : Z) : TCPSession :=
  mkTCP (ts_state s) (ts_syn s) (ts_remote_ip s) (ts_buffer s) x (ts_written s) (ts_remote_seq s) (ts_local_seq s) (ts_last_ack s)
    (ts_local_port s) (ts_remote_port s) (ts_local_window s) (ts_remote_window s) (ts_ports s).
Definition set_remote_seq (s : TCPSession) (x : Z) : TCPSession :=
  mkTCP (ts_state s) (ts_syn s) (ts_remote_ip s) (ts_buffer s) (ts_start s) (ts_written s) x (ts_local_seq s) (ts_last_ack s)
    (ts_local_port s) (ts_remote_port s) (ts_local_window s) (ts_remote_window s) (ts_ports s).
Definition set_local_seq (s : TCPSession) (x : Z) : TCPSession :=
  mkTCP (ts_state s) (ts_syn s) (ts_remote_ip s) (ts_buffer s) (ts_start s) (ts_written s) (ts_remote_seq s) x (ts_last_ack s)
    (ts_local_port s) (ts_remote_port s) (ts_local_window s) (ts_remote_window s) (ts_ports s).
Definition set_last_ack (s : TCPSession) (x : Z) : TCPSession :=
  mkTCP (ts_state s) (ts_syn s) (ts_remote_ip s) (ts_buffer s) (ts_start s) (ts_written s) (ts_remote_seq s) (ts_local_seq s) x
    (ts_local_port s) (ts_remote_port s) (ts_local_window s) (ts_remote_window s) (ts_ports s).
Definition set_local_port (s : TCPSession) (x : Z) : TCPSession :=
  mkTCP (ts_state s) (ts_syn s) (ts_remote_ip s) (ts_buffer s) (ts_start s) (ts_written s) (ts_remote_seq s) (ts_local_seq s) (ts_last_ack s)
    x (ts_remote_port s) (ts_local_window s) (ts_remote_window s) (ts_ports s).
Definition set_windows (s : TCPSession) (local remote : Z) : TCPSession :=
  mkTCP (ts_state s) (ts_syn s) (ts_remote_ip s) (ts_buffer s) (ts_start s) (ts_written s) (ts_remote_seq s) (ts_local_seq s) (ts_last_ack s)
    (ts_local_port s) (ts_remote_port s) local remote (ts_ports s).
Definition set_ports (s : TCPSession) (b : Bitmap) : TCPSession :=
  mkTCP (ts_state s) (ts_syn s) (ts_remote_ip s) (ts_buffer s) (ts_start s) (ts_written s) (ts_remote_seq s) (ts_local_seq s) (ts_last_ack s)
    (ts_local_port s) (ts_remote_port s) (ts_local_window s) (ts_remote_window s) b.

Definition is_closed (s : TCPSession) : bool := bool_decide (ts_state s = CLOSED).

(** * Segments *)

Definition sizeof_TCPHeader : Z := 20.

Definition to_data_offset (value : Z) : Z := u8 (Z.shiftl (Z.land (number_of_words 4 value) 0xF) 4).
Definition from_data_offset (value : Z) : Z := Z.shiftr value 4 * 4.

(** The four bytes in which a 32-bit number is stored. *)
Definition bytes32 (x : Z) : list Z := bytes16 x ++ bytes16 (Z.shiftr x 16).

(** [PseudoIPHeader]. *)
Definition pseudo_header (device_ip remote_ip : list Z) (length : Z) : list Z :=
  device_ip ++ remote_ip ++ [0; protocol_number IP_TCP] ++ bytes16 (to_big_endian16 length).

Definition tcp_checksum (device_ip : list Z) (s : TCPSession) (data : BufferView) : exec Z :=
  sum ← sum_words data 0;
  sum ← sum_words (BufferView_of_ptr (pseudo_header device_ip (ts_remote_ip s) (bv_size data))) sum;
  sum ← fold_carries sum;
  Done (to_big_endian16 (u32 (Z.lnot (u16 sum)))).

(** [TCPHeader]. *)
Definition tcp_header (s : TCPSession) (flags checksum : Z) : list Z :=
  bytes16 (network_word16 (ts_local_port s)) ++ bytes16 (network_word16 (ts_remote_port s)) ++
  bytes32 (network_word32 (ts_local_seq s)) ++ bytes32 (network_word32 (ts_remote_seq s)) ++
  [to_data_offset sizeof_TCPHeader; flags] ++ bytes16 (network_word16 (ts_local_window s)) ++
  bytes16 checksum ++ bytes16 0.

(** A segment and the address it goes to. *)
Definition send_packet (device_ip : list Z) (s : TCPSession) (data : BufferView) (flags : Z) : exec (list Z * list Z) :=
  if 0 <? bv_size data then
    let segment := Buffer_new (u32 (bv_size data + sizeof_TCPHeader)) in
    segment ← BufferMutableView_fill_by segment (tcp_header s flags 0) 0;
    segment ← BufferMutableView_fill_from segment (drop (Z.to_nat (bv_start data)) (bv_array data)) sizeof_TCPHeader (bv_size data);
    _ ← BufferMutableView_convert_to segment sizeof_TCPHeader;
    v ← BufferView_of_buffer segment 0 0;
    c ← tcp_checksum device_ip s v;
    segment ← put16 segment 16 c;
    Done (ts_remote_ip s, segment)
  else
    c ← tcp_checksum device_ip s (BufferView_of_ptr (tcp_header s flags 0));
    Done (ts_remote_ip s, tcp_header s flags c).

Definition send_ack (device_ip : list Z) (s : TCPSession) : exec (list Z * list Z) :=
  send_packet device_ip s BufferView_empty FLAG_ACK.

Definition is_packet_ok (device_ip : list Z) (s : TCPSession) (data : BufferView) : exec bool :=
  c ← tcp_checksum device_ip s data; Done (c =? 0).

Definition is_in_order_packet (s : TCPSession) (remote_sequence : Z) : bool := ts_remote_seq s =? remote_sequence.

Definition is_in_window_packet (s : TCPSession) (new_remote_sequence data_size : Z) : bool :=
  u32 (data_size + new_remote_sequence - ts_remote_seq s) <=? ts_local_window s.

Definition is_buffer_available (s : TCPSession) (requested_size : Z) : bool := requested_size <=? ts_local_window s.

Definition is_packet_for_me (s : TCPSession) (ip : list Z) (data : BufferView) : exec bool :=
  _ ← BufferView_const_convert_to data sizeof_TCPHeader;
  if is_closed s then Done false
  else
    dest_port ← field16 data 2;
    if bool_decide (ts_state s = LISTEN) then Done (to_big_endian16 dest_port =? ts_local_port s)
    else
      src_port ← field16 data 0;
      same ← IPv4Address_eq ip (ts_remote_ip s);
      Done ((to_big_endian16 dest_port =? ts_local_port s) && (to_big_endian16 src_port =? ts_remote_port s) && same).

(** * Waiting *)

(** The thread runs again: woken, or by its timeout. *)
Inductive wake := Woken (s : TCPSession) | TimedOut (s : TCPSession).

(** [wait_on_event] with a timeout: the session, whether the time ran out, and the events
    that are left. *)
Fixpoint wait_loop (checker : TCPSession -> bool) (events : list wake) : option (TCPSession * bool * list wake) :=
  match events with
  | [] => None
  | Woken s :: events => if checker s then wait_loop checker events else Some (s, false, events)
  | TimedOut s :: events => Some (s, true, events)
  end.

Definition wait_on_event (checker : TCPSession -> bool) (s : TCPSession) (events : list wake)
    : option (TCPSession * bool * list wake) :=
  if checker s then wait_loop checker events else Some (s, false, events).

(** [m_syn_waitqueue.acquire()]. *)
Definition acquire_syn (s : TCPSession) (events : list wake) : option (TCPSession * list wake) :=
  match wait_on_event (fun s => ts_syn s <=? 0) s events with
  | Some (s, _, events) => Some (set_syn s (ts_syn s - 1), events)
  | None => None
  end.

Definition end_connection (s : TCPSession) : exec TCPSession :=
  let s := set_syn (set_state s CLOSED) (ts_syn s + 1) in
  ports ← Bitmap_clear (ts_ports s) (ts_local_port s);
  Done (set_ports s ports).

(** [send_and_wait_ack]: its result, the session, what was sent and the events left. At
    most five segments are sent: each turn of the loop sends one. *)
Definition sending := option (Z * TCPSession * list (list Z * list Z) * list wake).

Definition send_turn (device_ip : list Z) (data : BufferView) (flags sent_sequence : Z)
    (st : Z * TCPSession * list (list Z * list Z) * list wake)
    : exec (Z * TCPSession * list (list Z * list Z) * list wake + sending) :=
  let '(retransmitions, s, sent, events) := st in
  let ack_checker s := (ts_last_ack s <=? sent_sequence) && negb (is_closed s) in
  packet ← send_packet device_ip s data flags;
  let sent := sent ++ [packet] in
  let retransmitions := retransmitions + 1 in
  match wait_on_event ack_checker s events with
  | None => Done (inr None)
  | Some (s, timeout, events) =>
      if negb (retransmitions =? 5) && timeout then Done (inl (retransmitions, s, sent, events))
      else if (timeout : bool) then Done (inr (Some (ERROR_CONNECTION_TIMEOUT, s, sent, events)))
      else if is_closed s then Done (inr (Some (ERROR_CONNECTION_CLOSED, s, sent, events)))
      else if truthy (Z.land flags FLAG_FIN) || truthy (Z.land flags FLAG_SYN) then
        Done (inr (Some (ERROR_SUCCESS, set_local_seq s (u32 (ts_local_seq s + 1)), sent, events)))
      else Done (inr (Some (ERROR_SUCCESS, set_local_seq s (u32 (ts_local_seq s + bv_size data)), sent, events)))
  end.

Definition send_and_wait_ack (device_ip : list Z) (s : TCPSession) (data : BufferView) (flags : Z) (events : list wake) : exec sending :=
  while 5 (send_turn device_ip data flags (ts_local_seq s)) (0, s, [], events).

Definition send_syn (device_ip : list Z) (s : TCPSession) (events : list wake) : exec sending :=
  send_and_wait_ack device_ip s BufferView_empty FLAG_SYN events.
Definition send_fin (device_ip : list Z) (s : TCPSession) (events : list wake) : exec sending :=
  send_and_wait_ack device_ip s BufferView_empty (Z.lor FLAG_FIN FLAG_ACK) events.
Definition send_payload (device_ip : list Z) (s : TCPSession) (payload : BufferView) (events : list wake) : exec sending :=
  send_and_wait_ack device_ip s payload (Z.lor FLAG_ACK FLAG_PSH) events.

(** * Opening, closing and using a connection *)

Definition wait_for_syn (s : TCPSession) (events : list wake) : option (Z * TCPSession * list wake) :=
  match acquire_syn s events with
  | None => None
  | Some (s, events) => Some (if is_closed s then ERROR_CONNECTION_CLOSED else ERROR_SUCCESS, s, events)
  end.

(** The way out of a call whose step failed. *)
Definition fail (s : TCPSession) (sent : list (list Z * list Z)) (events : list wake) (error : Z) : exec sending :=
  s ← end_connection s; Done (Some (error, s, sent, events)).

Definition TCPSession_accept (device_ip : list Z) (s : TCPSession) (port : Z) (events : list wake) : exec sending :=
  let s := set_state (set_local_port s port) LISTEN in
  match wait_for_syn s events with
  | None => Done None
  | Some (error, s, events) =>
      if truthy error then fail s [] events error
      else
        r ← send_syn device_ip (set_state s SYN_RECEIVED) events;
        match r with
        | None => Done None
        | Some (error, s, sent, events) =>
            if truthy error then fail s sent events error
            else Done (Some (ERROR_SUCCESS, set_state s ESTABLISHED, sent, events))
        end
  end.

Definition TCPSession_connect (device_ip : list Z) (s : TCPSession) (ip : list Z) (port : Z) (events : list wake) : exec sending :=
  local_port ← Bitmap_find_first_clear (ts_ports s) 0;
  let s := set_state (set_local_port (set_remote s ip port) (u16 local_port)) SYN_SENT in
  r ← send_syn device_ip s events;
  match r with
  | None => Done None
  | Some (error, s, sent, events) =>
      if truthy error then fail s sent events error
      else match wait_for_syn s events with
        | None => Done None
        | Some (error, s, events) =>
            if truthy error then fail s sent events error
            else
              ack ← send_ack device_ip s;
              Done (Some (ERROR_SUCCESS, set_state s ESTABLISHED, sent ++ [ack], events))
        end
  end.

Definition TCPSession_close (device_ip : list Z) (s : TCPSession) (events : list wake) : exec sending :=
  r ← send_fin device_ip (set_state s FIN_WAIT1) events;
  match r with
  | None => Done None
  | Some (_, s, sent, events) => s ← end_connection s; Done (Some (ERROR_SUCCESS, s, sent, events))
  end.

Definition TCPSession_send (device_ip : list Z) (s : TCPSession) (data : BufferView) (events : list wake) : exec sending :=
  if negb (bool_decide (ts_state s = ESTABLISHED)) then Done (Some (ERROR_CONNECTION_CLOSED, s, [], events))
  else
    r ← send_payload device_ip s data events;
    match r with
    | None => Done None
    | Some (error, s, sent, events) => if truthy error then fail s sent events error else Done r
    end.

(** [receive] before it waits for data, and when it has been woken: the result, the buffer
    of the caller and the session. *)
Definition TCPSession_receive (s : TCPSession) : Result TCPSession :=
  if negb (bool_decide (ts_state s = ESTABLISHED)) then Error ERROR_CONNECTION_CLOSED
  else Value (set_start s (ts_written s)).

Definition TCPSession_receive_resume (s : TCPSession) (data : list Z) : exec (Result Z * list Z * TCPSession) :=
  if is_closed s then s ← end_connection s; Done (Error ERROR_CONNECTION_CLOSED, data, s)
  else
    let data_size := u32 (ts_written s - ts_start s) in
    if alen data <? data_size then Done (Error ERROR_BUFFER_OVERFLOW, data, s)
    else if (data_size =? 0) && negb (bool_decide (ts_state s = ESTABLISHED)) then Done (Error ERROR_CONNECTION_CLOSED, data, s)
    else
      data ← BufferMutableView_fill_from data (drop (Z.to_nat (ts_start s)) (ts_buffer s)) 0 data_size;
      Done (Value data_size, data, set_windows s (u16 (ts_local_window s + data_size)) (ts_remote_window s)).

(** * Received segments *)

Definition handle_syn (s : TCPSession) (src_ip : list Z) (data : BufferView) : exec TCPSession :=
  _ ← BufferView_const_convert_to data sizeof_TCPHeader;
  if bool_decide (ts_state s = LISTEN) || bool_decide (ts_state s = SYN_SENT) then
    seq ← field32 data 4;
    src_port ← field16 data 0;
    let s := set_remote_seq s (u32 (network_word32 seq + 1)) in
    let s := set_remote s src_ip (network_word16 src_port) in
    Done (set_syn s (ts_syn s + 1))
  else Done s.

Definition handle_ack (s : TCPSession) (ack_number : Z) : TCPSession := set_last_ack s ack_number.

Definition handle_rst (s : TCPSession) : exec TCPSession := end_connection s.

Definition handle_fin (device_ip : list Z) (s : TCPSession) (events : list wake)
    : exec (option (TCPSession * list (list Z * list Z) * list wake)) :=
  if bool_decide (ts_state s = FIN_WAIT2) then
    let s := set_remote_seq s (u32 (ts_remote_seq s + 1)) in
    ack ← send_ack device_ip s;
    Done (Some (set_state s CLOSED, [ack], events))
  else if bool_decide (ts_state s = ESTABLISHED) then
    let s := set_remote_seq (set_state s CLOSE_WAIT) (u32 (ts_remote_seq s + 1)) in
    ack ← send_ack device_ip s;
    r ← send_fin device_ip (set_state s LAST_ACK) events;
    match r with
    | None => Done None
    | Some (_, s, sent, events) => s ← end_connection (set_state s CLOSED); Done (Some (s, ack :: sent, events))
    end
  else Done (Some (s, [], events)).

Definition handle_data (device_ip : list Z) (s : TCPSession) (data : BufferView) (payload_offset payload_size : Z)
    : exec (TCPSession * list (list Z * list Z)) :=
  if is_buffer_available s (bv_size data) then
    b ← BufferMutableView_fill_from (ts_buffer s) (drop (Z.to_nat (bv_start data + payload_offset)) (bv_array data)) (ts_written s) payload_size;
    let s := set_buffer s b (u32 (ts_written s + payload_size)) in
    let s := set_remote_seq s (u32 (ts_remote_seq s + payload_size)) in
    let s := set_windows s (u16 (ts_local_window s - payload_size)) (ts_remote_window s) in
    ack ← send_ack device_ip s;
    Done (s, [ack])
  else Done (s, []).

(** The loop ends with whether the segment is in the window; every turn but the last takes
    an event. *)
Fixpoint wait_in_order (device_ip : list Z) (s : TCPSession) (seq data_size : Z) (sent : list (list Z * list Z)) (events : list wake)
    : exec (option (bool * TCPSession * list (list Z * list Z) * list wake)) :=
  if negb (is_in_order_packet s seq) && is_in_window_packet s seq data_size then
    ack ← send_ack device_ip s;
    match events with
    | [] => Done None
    | (Woken s | TimedOut s) :: events => wait_in_order device_ip s seq data_size (sent ++ [ack]) events
    end
  else Done (Some (is_in_window_packet s seq data_size, s, sent, events)).

Definition handle_out_of_order_packets (device_ip : list Z) (s : TCPSession) (remote_sequence data_size : Z) (events : list wake)
    : exec (option (bool * TCPSession * list (list Z * list Z) * list wake)) :=
  if negb (bool_decide (ts_state s = ESTABLISHED)) then Done (Some (true, s, [], events))
  else wait_in_order device_ip s remote_sequence data_size [] events.

(** The part of [TCPSession::handle] behind the check of the order. *)
Definition handle_flags (device_ip : list Z) (s : TCPSession) (src_ip : list Z) (data : BufferView) (payload_offset payload_size : Z)
    (sent : list (list Z * list Z)) (events : list wake) : exec (option (TCPSession * list (list Z * list Z) * list wake)) :=
  '(s, acks) ← (if 0 <? payload_size then handle_data device_ip s data payload_offset payload_size else Done (s, []));
  flags ← field8 data 13;
  s ← (if truthy (Z.land flags FLAG_SYN) then handle_syn s src_ip data else Done s);
  s ← (if truthy (Z.land flags FLAG_RST) then handle_rst s else Done s);
  r ← (if truthy (Z.land flags FLAG_FIN) then handle_fin device_ip s events else Done (Some (s, [], events)));
  match r with
  | None => Done None
  | Some (s, fins, events) =>
      ack ← field32 data 8;
      let s := if truthy (Z.land flags FLAG_ACK) then handle_ack s (network_word32 ack) else s in
      Done (Some (s, sent ++ acks ++ fins, events))
  end.

Definition TCPSession_handle (device_ip : list Z) (s : TCPSession) (src_ip : list Z) (data : BufferView) (events : list wake)
    : exec (option (TCPSession * list (list Z * list Z) * list wake)) :=
  ok ← is_packet_ok device_ip s data;
  if negb ok then Done (Some (s, [], events))
  else
    _ ← BufferView_const_convert_to data sizeof_TCPHeader;
    data_offset ← field8 data 12;
    let payload_offset := from_data_offset data_offset in
    let payload_size := u32 (bv_size data - payload_offset) in
    window ← field16 data 14;
    let s := set_windows s (ts_local_window s) (network_word16 window) in
    if is_closed s then Done (Some (s, [], events))
    else
      seq ← field32 data 4;
      r ← handle_out_of_order_packets device_ip s (network_word32 seq) payload_size events;
      match r with
      | None => Done None
      | Some (in_window, s, sent, events) =>
          if (in_window : bool) then handle_flags device_ip s src_ip data payload_offset payload_size sent events
          else Done (Some (s, sent, events))
      end.

(** [TCP::handle]: the first session that the segment is for. *)
Fixpoint find_session (ss : list TCPSession) (src_ip : list Z) (data : BufferView)
    : exec (option (list TCPSession * TCPSession * list TCPSession)) :=
  match ss with
  | [] => Done None
  | s :: ss =>
      b ← is_packet_for_me s src_ip data;
      if (b : bool) then Done (Some ([], s, ss))
      else r ← find_session ss src_ip data;
        Done (match r with Some (p, x, q) => Some (s :: p, x, q) | None => None end)
  end.

Definition TCP_handle (device_ip : list Z) (ss : list TCPSession) (src_ip : list Z) (data : BufferView) (events : list wake)
    : exec (option (list TCPSession * list (list Z * list Z) * list wake)) :=
  r ← find_session ss src_ip data;
  match r with
  | None => Done (Some (ss, [], events))
  | Some (p, s, q) =>
      r ← TCPSession_handle device_ip s src_ip data events;
      Done (match r with Some (s, sent, events) => Some (p ++ s :: q, sent, events) | None => None end)
  end.

(** * Sending ends *)

Lemma sum_words_range v sum r : 0 <= sum < 2 ^ 32 -> sum_words v sum = Done r -> 0 <= r < 2 ^ 32.
Proof.
  intros Hs E. unfold sum_words in E.
  apply (for_inv_done (fun _ s => 0 <= s < 2 ^ 32)) in E; [done|done|].
  intros j t t' _ _ Et. inv_done. apply u32_range.
Qed.

Lemma for_no_fuel {S} (body : Z -> S -> exec S) n i s :
  (forall j t, body j t <> OutOfFuel) -> for_ n i body s <> OutOfFuel.
Proof.
  intros Hb. revert i s. induction n as [|n IH]; intros i s; simpl; [done|].
  destruct (body i s) as [t| | |] eqn:E; [apply IH|done|done|by apply Hb in E].
Qed.

Lemma aget_no_fuel {A} (l : list A) i : aget l i <> OutOfFuel.
Proof. unfold aget. by repeat case_match. Qed.

Lemma aset_no_fuel {A} (l : list A) i x : aset l i x <> OutOfFuel.
Proof. unfold aset. by repeat case_match. Qed.

(** A sequence of steps runs out of fuel only if one of them does. *)
Lemma bind_no_fuel {A B} (m : exec A) (f : A -> exec B) : m <> OutOfFuel -> (forall a, m = Done a -> f a <> OutOfFuel) -> (m ≫= f) <> OutOfFuel.
Proof. destruct m; simpl; auto. Qed.

Lemma sum_words_no_fuel v sum : sum_words v sum <> OutOfFuel.
Proof.
  apply for_no_fuel. intros j t. unfold field16, field8, BufferView_at.
  repeat (apply bind_no_fuel; [|intros]); try apply aget_no_fuel; done.
Qed.

Lemma tcp_checksum_no_fuel device_ip s v : tcp_checksum device_ip s v <> OutOfFuel.
Proof.
  unfold tcp_checksum. apply bind_no_fuel; [apply sum_words_no_fuel|]. intros s1 E1.
  apply sum_words_range in E1; [|lia]. apply bind_no_fuel; [apply sum_words_no_fuel|]. intros s2 E2.
  apply sum_words_range in E2; [|done]. by destruct (fold_carries_spec s2 E2) as (r & -> & _).
Qed.

Lemma memcpy_no_fuel d i s j n : memcpy d i s j n <> OutOfFuel.
Proof. apply for_no_fuel. intros. apply bind_no_fuel; [apply aget_no_fuel|]. intros. apply aset_no_fuel. Qed.

Lemma ASSERT_no_fuel b : ASSERT b <> OutOfFuel.
Proof. by destruct b. Qed.

Lemma send_packet_no_fuel device_ip s data flags : send_packet device_ip s data flags <> OutOfFuel.
Proof.
  unfold send_packet, BufferMutableView_fill_by, BufferMutableView_fill_from, BufferMutableView_convert_to, BufferView_of_buffer, put16, put8.
  destruct (0 <? bv_size data);
    repeat first [apply ASSERT_no_fuel|apply memcpy_no_fuel|apply tcp_checksum_no_fuel|apply aset_no_fuel|done|apply bind_no_fuel; [|intros]].
Qed.

Lemma wait_loop_spec checker events s t rest : wait_loop checker events = Some (s, t, rest) -> t = false -> checker s = false.
Proof.
  induction events as [|[s'|s'] events IH]; simpl; [done| |by intros [= <- <- <-]].
  destruct (checker s') eqn:E; [done|]. by intros [= <- <- <-] _.
Qed.

Lemma wait_on_event_spec checker s0 events s t rest : wait_on_event checker s0 events = Some (s, t, rest) -> t = false -> checker s = false.
Proof.
  unfold wait_on_event. destruct (checker s0) eqn:E; [apply wait_loop_spec|]. by intros [= <- <- <-] _.
Qed.

(** What [send_and_wait_ack] may report, when it started at [seq0]. *)
Definition send_outcome (seq0 : Z) (data : BufferView) (flags error : Z) (s' : TCPSession) (sent : list (list Z * list Z)) : Prop :=
  (1 <= length sent <= 5)%nat /\
  ((error = ERROR_SUCCESS /\ seq0 < ts_last_ack s' /\ is_closed s' = false /\
    exists before, s' = set_local_seq before (u32 (ts_local_seq before +
      (if truthy (Z.land flags FLAG_FIN) || truthy (Z.land flags FLAG_SYN) then 1 else bv_size data)))) \/
   (error = ERROR_CONNECTION_TIMEOUT /\ length sent = 5%nat) \/
   (error = ERROR_CONNECTION_CLOSED /\ is_closed s' = true)).

Definition sending_ok (seq0 : Z) (data : BufferView) (flags : Z) (r : sending) : Prop :=
  match r with None => True | Some (error, s', sent, _) => send_outcome seq0 data flags error s' sent end.

Lemma send_turn_spec device_ip data flags seq0 n t sent es : n = Z.of_nat (length sent) -> n < 5 ->
  match send_turn device_ip data flags seq0 (n, t, sent, es) with
  | Done (inl (n', _, sent', _)) => n' = Z.of_nat (length sent') /\ n' = n + 1 /\ n' < 5
  | Done (inr r) => sending_ok seq0 data flags r
  | OutOfFuel => False
  | _ => True
  end.
Proof.
  intros Hn Hlt. unfold send_turn. pose proof (send_packet_no_fuel device_ip t data flags).
  destruct (send_packet device_ip t data flags) as [packet| | |]; [|done..]. cbn [mbind exec_bind].
  assert (Hl : length (sent ++ [packet]) = S (length sent)) by (rewrite length_app; simpl; lia).
  destruct (wait_on_event _ t es) as [[[s' to] rest]|] eqn:Ew; [|done]. destruct to.
  - destruct (Z.eqb_spec (n + 1) 5); simpl; [|lia]. split; [lia|]. right; left. split; [done|lia].
  - apply wait_on_event_spec in Ew; [|done]. rewrite andb_false_r.
    destruct (is_closed s') eqn:Ec; [split; [lia|]; right; right; done|]. rewrite andb_true_r in Ew. to_prop.
    destruct (_ || _) eqn:Ef; simpl; (split; [lia|]); left; (split; [done|]); (split; [done|]); (split; [done|]); exists s'; by rewrite Ef.
Qed.

Lemma send_loop_spec device_ip data flags seq0 fuel : forall n t sent es,
  n = Z.of_nat (length sent) -> n < 5 -> 5 - n <= Z.of_nat fuel ->
  match while fuel (send_turn device_ip data flags seq0) (n, t, sent, es) with
  | Done r => sending_ok seq0 data flags r
  | OutOfFuel => False
  | _ => True
  end.
Proof.
  induction fuel as [|fuel IH]; intros n t sent es Hn Hlt Hf; [lia|]. cbn [while].
  pose proof (send_turn_spec device_ip data flags seq0 n t sent es Hn Hlt) as H.
  destruct (send_turn _ _ _ _ _) as [[[[[n' t'] sent'] es']|r]| | |]; try done. cbn [mbind exec_bind].
  destruct H as (? & ? & ?). apply IH; lia.
Qed.


(** * The checksum of a segment covers the two addresses *)

Lemma plain_sum_range l : Forall is_byte l -> 0 <= plain_sum (words l) <= 0xFFFF * (alen l / 2).
Proof. intros Hl. rewrite <- alen_words. by apply plain_sum_bounds, words_range. Qed.

Lemma pseudo_bytes d r n : bytes_of 4 d -> bytes_of 4 r -> Forall is_byte (pseudo_header d r n) /\ alen (pseudo_header d r n) = 12.
Proof.
  intros [Hd Hdb] [Hr Hrb]. unfold pseudo_header. split; [|len].
  repeat (apply Forall_app; split); try done; repeat (apply Forall_cons; split; [first [apply u8_range|done]|]); done.
Qed.

(** The checksum of an even number of bytes, from the sum of the words of segment and
    pseudo header. *)
Lemma tcp_checksum_value d s v : view_ok v -> Forall is_byte (bv_array v) -> bv_size v mod 2 = 0 -> bv_size v < 2 ^ 16 ->
  bytes_of 4 d -> bytes_of 4 (ts_remote_ip s) ->
  let n := plain_sum (words (shown v)) + plain_sum (words (pseudo_header d (ts_remote_ip s) (bv_size v))) in
  exists t, ones_of n t /\ tcp_checksum d s v = Done (to_big_endian16 (0xFFFF - t)).
Proof.
  intros Hv Hb He Hs Hd Hr n. destruct (words_inside_even v) as [Hw Ev]; [done|done|lia|done|].
  destruct (read_bytes_spec v Hw) as (Hrb & Hrl & Hat). rewrite Ev in *. pose proof (alen_shown v Hv) as Hl.
  pose proof Hv as (_ & Hv2 & _).
  pose proof (plain_sum_range (shown v) Hrb) as Hsum. unfold tcp_checksum.
  destruct (sum_words_spec v 0 (shown v)) as [-> H1]; [lia|lia|done|done|done|]. cbn [mbind exec_bind].
  destruct (pseudo_bytes d (ts_remote_ip s) (bv_size v) Hd Hr) as [Hpb Hpl]. set (p := pseudo_header _ _ _) in *.
  destruct (shown_of_ptr p) as [Hvp Evp]; [lia|].
  destruct (words_inside_even (BufferView_of_ptr p)) as [Hwp Ep]; [done|by simpl; rewrite Hpl|simpl; lia|done|].
  destruct (read_bytes_spec _ Hwp) as (Hprb & Hprl & Hpat). rewrite Ep, Evp in *.
  assert (Hlt : 0 <= 0 + plain_sum (words (shown v)) < 2 ^ 31) by zdiv.
  destruct (sum_words_spec (BufferView_of_ptr p) (0 + plain_sum (words (shown v))) p) as [-> H2]; [simpl; lia|done|done|done|done|]. cbn [mbind exec_bind].
  destruct (fold_carries_spec _ H2) as (t & -> & Ht). cbn [mbind exec_bind]. exists t. split; [done|].
  rewrite complement16; [done|apply Ht].
Qed.

Lemma words_4 (a : list Z) : alen a = 4 -> exists x y z w, a = [x; y; z; w].
Proof.
  intros H. destruct a as [|x [|y [|z [|w [|u t]]]]]; autorewrite with cyan in H; try lia; [by exists x, y, z, w|].
  pose proof (alen_nonneg t). lia.
Qed.

Definition address_sum (a : list Z) : Z := plain_sum (words a).

Lemma pseudo_sum d r n : alen d = 4 -> alen r = 4 ->
  plain_sum (words (pseudo_header d r n)) = address_sum d + address_sum r + 6 + plain_sum (words (bytes16 (to_big_endian16 n))).
Proof.
  intros Hd Hr. destruct (words_4 d Hd) as (? & ? & ? & ? & ->). destruct (words_4 r Hr) as (? & ? & ? & ? & ->).
  unfold address_sum, pseudo_header, bytes16. cbn [app words plain_sum foldr protocol_number]. lia.
Qed.

(** * A segment as the receiver sees it *)

Definition header_front (s : TCPSession) (flags : Z) : list Z :=
  bytes16 (network_word16 (ts_local_port s)) ++ bytes16 (network_word16 (ts_remote_port s)) ++
  bytes32 (network_word32 (ts_local_seq s)) ++ bytes32 (network_word32 (ts_remote_seq s)) ++
  [to_data_offset sizeof_TCPHeader; flags] ++ bytes16 (network_word16 (ts_local_window s)).

Lemma tcp_header_split s flags c : tcp_header s flags c = header_front s flags ++ bytes16 c ++ bytes16 0.
Proof. unfold tcp_header, header_front. by rewrite <- !app_assoc. Qed.

Lemma header_front_bytes s flags : is_byte flags -> Forall is_byte (header_front s flags) /\ alen (header_front s flags) = 16.
Proof.
  intros Hf. split; [|done]. unfold header_front, bytes32, bytes16. cbn [app].
  repeat (apply Forall_cons; split; [first [apply u8_range|done]|]). constructor.
Qed.

(** The checksum of a segment whose checksum field is zero makes the sum of the words,
    with those of the pseudo header, a form of zero. *)
Lemma segment_checksum d s flags payload : Forall is_byte payload -> alen payload < 2 ^ 15 -> alen payload mod 2 = 0 ->
  is_byte flags -> bytes_of 4 d -> bytes_of 4 (ts_remote_ip s) ->
  exists c, 0 <= c < 2 ^ 16 /\ tcp_checksum d s (BufferView_of_ptr (tcp_header s flags 0 ++ payload)) = Done c /\
    (plain_sum (words (tcp_header s flags c ++ payload)) +
     plain_sum (words (pseudo_header d (ts_remote_ip s) (20 + alen payload)))) mod 0xFFFF = 0.
Proof.
  intros Hb Hs He Hf Hd Hr. destruct (header_front_bytes s flags Hf) as [Hfb Hfl]. pose proof (alen_nonneg payload).
  set (seg := tcp_header s flags 0 ++ payload).
  assert (Hseg : alen seg = 20 + alen payload) by (unfold seg; rewrite tcp_header_split; len).
  destruct (shown_of_ptr seg) as [Hvs Evs]; [lia|].
  assert (Hsb : Forall is_byte seg).
  { unfold seg. rewrite tcp_header_split, <- app_assoc. apply Forall_app. split; [done|]. unfold bytes16. cbn [app].
    repeat (apply Forall_cons; split; [apply u8_range|]). done. }
  destruct (tcp_checksum_value d s (BufferView_of_ptr seg)) as (t & Ht & ->); [done|done|simpl; zdiv|simpl; lia|done|done|].
  rewrite Evs in Ht. change (bv_size (BufferView_of_ptr seg)) with (alen seg) in Ht. rewrite Hseg in Ht.
  set (c := to_big_endian16 (0xFFFF - t)). exists c. split; [apply big_endian16_range|]. split; [done|].
  destruct Ht as (Htr & Htm & _). unfold seg in Htm. rewrite !tcp_header_split, <- !app_assoc in *.
  assert (Hev : Nat.Even (length (header_front s flags))) by by exists 8%nat.
  rewrite !words_app in * by (done || by exists 1%nat). rewrite !plain_sum_app in *.
  rewrite (words_bytes16 c) by apply big_endian16_range. unfold c. rewrite swap_twice by lia.
  change (words (bytes16 0)) with [0] in *. cbn [plain_sum foldr] in *. unfold plain_sum in *.
  remember (foldr Z.add 0 (words (header_front s flags))) as A. remember (foldr Z.add 0 (words payload)) as B.
  remember (foldr Z.add 0 (words (pseudo_header d (ts_remote_ip s) (20 + alen payload)))) as C. zdiv.
Qed.

Lemma alen_tcp_header s flags c : alen (tcp_header s flags c) = 20.
Proof. done. Qed.

(** The segment for data of even size. *)
Lemma send_packet_spec d s data flags : view_ok data -> Forall is_byte (shown data) -> bv_size data < 2 ^ 15 -> bv_size data mod 2 = 0 ->
  is_byte flags -> bytes_of 4 d -> bytes_of 4 (ts_remote_ip s) ->
  exists c, 0 <= c < 2 ^ 16 /\
    send_packet d s data flags = Done (ts_remote_ip s, tcp_header s flags c ++ shown data) /\
    (plain_sum (words (tcp_header s flags c ++ shown data)) +
     plain_sum (words (pseudo_header d (ts_remote_ip s) (20 + bv_size data)))) mod 0xFFFF = 0.
Proof.
  intros Hv Hb Hs He Hf Hd Hr. pose proof (alen_shown data Hv) as Hl. pose proof Hv as (_ & Hv2 & _).
  destruct (segment_checksum d s flags (shown data)) as (c & Hc & Ec & Esum); [done|lia|by rewrite Hl|done|done|done|].
  rewrite Hl in Esum. exists c. split; [done|]. split; [|done]. unfold send_packet, sizeof_TCPHeader.
  destruct (Z.ltb_spec 0 (bv_size data)) as [Hpos|Hz].
  2: { rewrite (nil_length_inv (shown data)) in * by (unfold alen in Hl; lia). rewrite app_nil_r in *. by rewrite Ec. }
  rewrite u32_small by lia. unfold BufferMutableView_fill_by, BufferMutableView_convert_to.
  unfold Buffer_new. set (z := replicate _ 0). assert (Hz : alen z = bv_size data + 20) by (unfold z; rewrite alen_replicate; lia).
  rewrite alen_tcp_header, Z.add_0_l, (u32_small 20), bind_ASSERT by (lia || (apply Z.leb_le; lia)).
  destruct (two_parts z 20) as (z1 & z2 & Ez & Hz1 & Hz2); [lia|]. rewrite Ez.
  rewrite (memcpy_at _ [] z1 z2) by (done || by rewrite alen_tcp_header). cbn [mbind exec_bind app].
  destruct (view_rest data Hv) as (more & ->).
  rewrite (fill_from_at _ (tcp_header s flags 0) z2 []); [|by rewrite app_nil_r|lia|lia|done|rewrite alen_app, alen_tcp_header; lia].
  cbn [mbind exec_bind]. rewrite app_nil_r. set (seg := tcp_header s flags 0 ++ shown data).
  assert (Hseg : alen seg = 20 + bv_size data) by (unfold seg; rewrite alen_app, alen_tcp_header; lia).
  rewrite bind_ASSERT by (apply Z.leb_le; lia). unfold BufferView_of_buffer.
  rewrite bind_ASSERT by (apply Z.leb_le; change (u32 (0 + 0)) with 0; lia). cbn [mbind exec_bind Z.eqb].
  rewrite Z.sub_0_r, u32_small by lia. change (mkView seg 0 (alen seg)) with (BufferView_of_ptr seg). fold seg in Ec. rewrite Ec.
  cbn [mbind exec_bind]. unfold seg. rewrite tcp_header_split, <- app_assoc.
  rewrite (put16_at _ (header_front s flags) (bytes16 0) (bytes16 0 ++ shown data)); [|by rewrite <- app_assoc|done|done].
  cbn [mbind exec_bind]. by rewrite tcp_header_split, <- !app_assoc.
Qed.

(** The check of the receiver. *)
Lemma is_packet_ok_spec d s v : view_ok v -> Forall is_byte (bv_array v) -> bv_size v mod 2 = 0 -> bv_size v < 2 ^ 16 ->
  bytes_of 4 d -> bytes_of 4 (ts_remote_ip s) ->
  is_packet_ok d s v =
    Done ((plain_sum (words (shown v)) + plain_sum (words (pseudo_header d (ts_remote_ip s) (bv_size v)))) mod 0xFFFF =? 0).
Proof.
  intros Hv Hb He Hs Hd Hr. unfold is_packet_ok. destruct (tcp_checksum_value d s v) as (t & (Ht & Hm & H0) & ->); [done..|].
  cbn [mbind exec_bind]. f_equal.
  assert (Hsh : Forall is_byte (shown v)) by (unfold shown; by apply Forall_take, Forall_drop).
  pose proof (plain_sum_range _ Hsh) as Hp. pose proof (alen_shown v Hv) as Hl. pose proof Hv as (_ & Hv2 & _).
  assert (Hpos : 6 <= plain_sum (words (pseudo_header d (ts_remote_ip s) (bv_size v)))).
  { rewrite pseudo_sum by (apply Hd || apply Hr). unfold address_sum. destruct Hd as [Hd Hdb], Hr as [Hr Hrb].
    pose proof (plain_sum_range _ Hdb). pose proof (plain_sum_range _ Hrb).
    assert (Forall is_byte (bytes16 (to_big_endian16 (bv_size v)))) as Hbb by (repeat (apply Forall_cons; split; [apply u8_range|]); done).
    pose proof (plain_sum_range _ Hbb). lia. }
  set (n := plain_sum _ + plain_sum _) in *.
  destruct (Z.eqb_spec (n mod 0xFFFF) 0); [apply Z.eqb_eq|apply Z.eqb_neq]; rewrite swap_zero by lia; zdiv.
Qed.

Lemma swap_bytes32 x : to_big_endian32 x =
  2 ^ 24 * (x mod 2 ^ 8) + 2 ^ 16 * ((x / 2 ^ 8) mod 2 ^ 8) + 2 ^ 8 * ((x / 2 ^ 16) mod 2 ^ 8) + (x / 2 ^ 24) mod 2 ^ 8.
Proof.
  unfold to_big_endian32.
  change 0xFF000000 with (Z.shiftl (Z.ones 8) 24). rewrite bits_part by lia.
  replace (Z.shiftr (Z.land x 0x00FF0000) 8) with (2 ^ 8 * ((x / 2 ^ 16) mod 2 ^ 8)).
  2: { change 0x00FF0000 with (Z.shiftl (Z.ones 8) 16). replace (Z.shiftr _ 8) with (Z.shiftl (Z.shiftr (Z.land x (Z.shiftl (Z.ones 8) 16)) 16) 8).
       - rewrite bits_part, Z.shiftl_mul_pow2 by lia. lia.
       - apply Z.bits_inj'. intros k Hk. rewrite Z.shiftl_spec, (Z.shiftr_spec _ 8) by lia. destruct (Z.ltb_spec k 8).
         + rewrite Z.testbit_neg_r by lia. rewrite Z.land_spec, (Z.shiftl_spec_low _ 16) by lia. by rewrite andb_false_r.
         + rewrite Z.shiftr_spec by lia. f_equal. lia. }
  replace (Z.shiftl (Z.land x 0x0000FF00) 8) with (2 ^ 16 * ((x / 2 ^ 8) mod 2 ^ 8)).
  2: { change 0x0000FF00 with (Z.shiftl (Z.ones 8) 8). replace (Z.shiftl (Z.land _ _) 8) with (Z.shiftl (Z.shiftr (Z.land x (Z.shiftl (Z.ones 8) 8)) 8) 16).
       - rewrite bits_part, Z.shiftl_mul_pow2 by lia. lia.
       - apply Z.bits_inj'. intros k Hk. rewrite !Z.shiftl_spec by lia. destruct (Z.ltb_spec k 16).
         + rewrite (Z.testbit_neg_r _ (k - 16)) by lia. destruct (Z.ltb_spec k 8); [by rewrite Z.testbit_neg_r by lia|].
           rewrite Z.land_spec, (Z.shiftl_spec_low _ 8) by lia. by rewrite andb_false_r.
         + rewrite Z.shiftr_spec by lia. f_equal. lia. }
  change 0x000000FF with (Z.ones 8). rewrite Z.land_ones, (Z.shiftl_mul_pow2 _ 24), (Z.mul_comm _ (2 ^ 24)) by lia.
  rewrite (lor_parts _ _ 8) by zdiv. rewrite (lor_parts _ _ 16) by zdiv. rewrite (lor_parts _ _ 24) by zdiv. rewrite u32_small; zdiv.
Qed.

Lemma swap_parts32 b0 b1 b2 b3 : is_byte b0 -> is_byte b1 -> is_byte b2 -> is_byte b3 ->
  to_big_endian32 (b0 + 2 ^ 8 * b1 + 2 ^ 16 * b2 + 2 ^ 24 * b3) = b3 + 2 ^ 8 * b2 + 2 ^ 16 * b1 + 2 ^ 24 * b0.
Proof.
  unfold is_byte. intros. rewrite swap_bytes32. set (x := b0 + 2 ^ 8 * b1 + 2 ^ 16 * b2 + 2 ^ 24 * b3).
  assert (x mod 2 ^ 8 = b0) by (unfold x; zdiv). assert ((x / 2 ^ 8) mod 2 ^ 8 = b1) by (unfold x; zdiv).
  assert ((x / 2 ^ 16) mod 2 ^ 8 = b2) by (unfold x; zdiv). assert ((x / 2 ^ 24) mod 2 ^ 8 = b3) by (unfold x; zdiv). lia.
Qed.

Lemma parts32 x : 0 <= x < 2 ^ 32 -> exists b0 b1 b2 b3, is_byte b0 /\ is_byte b1 /\ is_byte b2 /\ is_byte b3 /\
  x = b0 + 2 ^ 8 * b1 + 2 ^ 16 * b2 + 2 ^ 24 * b3.
Proof.
  intros Hx. exists (x mod 2 ^ 8), ((x / 2 ^ 8) mod 2 ^ 8), ((x / 2 ^ 16) mod 2 ^ 8), (x / 2 ^ 24). unfold is_byte.
  repeat (split; [zdiv|]). zdiv.
Qed.

Lemma network_word32_twice x : 0 <= x < 2 ^ 32 -> network_word32 (network_word32 x) = x.
Proof.
  intros Hx. destruct (parts32 x Hx) as (b0 & b1 & b2 & b3 & H0 & H1 & H2 & H3 & ->). unfold network_word32.
  rewrite swap_parts32 by done. rewrite swap_parts32 by done. lia.
Qed.

Lemma network_word32_range x : 0 <= network_word32 x < 2 ^ 32.
Proof. unfold network_word32. rewrite swap_bytes32. zdiv. Qed.

Lemma field32_at v p x rest off : view_ok v -> shown v = p ++ bytes32 x ++ rest -> off = alen p -> 0 <= x < 2 ^ 32 ->
  field32 v off = Done x.
Proof.
  intros Hv E -> Hx. unfold field32, bytes32 in *. rewrite <- app_assoc in E.
  assert (H1 : bytes16 x = bytes16 (x mod 2 ^ 16)).
  { unfold bytes16. rewrite !Z.shiftr_div_pow2 by lia. unfold u8. f_equal; [zdiv|]. f_equal. zdiv. }
  assert (H2 : Z.shiftr x 16 = x / 2 ^ 16) by (apply Z.shiftr_div_pow2; lia).
  rewrite (field16_at v p (x mod 2 ^ 16) (bytes16 (Z.shiftr x 16) ++ rest) (alen p)); [|done|by rewrite E, <- H1|done|zdiv].
  cbn [mbind exec_bind].
  rewrite (field16_at v (p ++ bytes16 x) (Z.shiftr x 16) rest (alen p + 2)); [|done|by rewrite E, <- app_assoc|by rewrite alen_app|rewrite H2; zdiv].
  cbn [mbind exec_bind]. f_equal. rewrite H2. zdiv.
Qed.

(** Numbers of the widths of the header. *)
Definition session_ok (s : TCPSession) : Prop :=
  0 <= ts_local_seq s < 2 ^ 32 /\ 0 <= ts_remote_seq s < 2 ^ 32 /\ 0 <= ts_local_window s <= MAX_WINDOW_SIZE /\
  alen (ts_buffer s) = MAX_WINDOW_SIZE /\ 0 <= ts_written s <= MAX_WINDOW_SIZE.

(** The fields of a segment of [p]. *)
Lemma tcp_fields p flags c payload v : view_ok v -> shown v = tcp_header p flags c ++ payload -> session_ok p ->
  field32 v 4 = Done (network_word32 (ts_local_seq p)) /\ field32 v 8 = Done (network_word32 (ts_remote_seq p)) /\
  field8 v 12 = Done 0x50 /\ field8 v 13 = Done flags /\ field16 v 14 = Done (network_word16 (ts_local_window p)).
Proof.
  intros Hv E Hp. rewrite tcp_header_split in E. unfold header_front in E. rewrite <- !app_assoc in E.
  set (a := bytes16 (network_word16 (ts_local_port p))) in *. set (b := bytes16 (network_word16 (ts_remote_port p))) in *.
  set (q := bytes32 (network_word32 (ts_local_seq p))) in *. set (k := bytes32 (network_word32 (ts_remote_seq p))) in *.
  set (w := bytes16 (network_word16 (ts_local_window p))) in *. set (r := bytes16 c ++ bytes16 0 ++ payload) in *.
  repeat split.
  - apply (field32_at v (a ++ b) _ (k ++ [to_data_offset sizeof_TCPHeader; flags] ++ w ++ r)); [done|by rewrite E, <- !app_assoc|done|apply network_word32_range].
  - apply (field32_at v (a ++ b ++ q) _ ([to_data_offset sizeof_TCPHeader; flags] ++ w ++ r)); [done|by rewrite E, <- !app_assoc|done|apply network_word32_range].
  - apply (field8_at v (a ++ b ++ q ++ k) _ ([flags] ++ w ++ r)); [done|by rewrite E, <- !app_assoc|done].
  - apply (field8_at v (a ++ b ++ q ++ k ++ [to_data_offset sizeof_TCPHeader]) _ (w ++ r)); [done|by rewrite E, <- !app_assoc|done].
  - apply (field16_at v (a ++ b ++ q ++ k ++ [to_data_offset sizeof_TCPHeader; flags]) _ r); [done|by rewrite E, <- !app_assoc|done|apply network_word16_range].
Qed.

Lemma send_ack_spec d s : bytes_of 4 d -> bytes_of 4 (ts_remote_ip s) ->
  exists c, send_ack d s = Done (ts_remote_ip s, tcp_header s FLAG_ACK c).
Proof.
  intros Hd Hr. destruct (send_packet_spec d s BufferView_empty FLAG_ACK) as (c & _ & E & _); try done.
  exists c. unfold send_ack. rewrite E. by rewrite app_nil_r.
Qed.

(** A segment of the peer of [r] passes its check. *)
Lemma peer_segment_ok p r flags c payload v : view_ok v -> Forall is_byte (bv_array v) -> shown v = tcp_header p flags c ++ payload ->
  alen payload < 2 ^ 15 -> alen payload mod 2 = 0 -> bytes_of 4 (ts_remote_ip p) -> bytes_of 4 (ts_remote_ip r) ->
  (plain_sum (words (tcp_header p flags c ++ payload)) +
   plain_sum (words (pseudo_header (ts_remote_ip r) (ts_remote_ip p) (20 + alen payload)))) mod 0xFFFF = 0 ->
  is_packet_ok (ts_remote_ip p) r v = Done true.
Proof.
  intros Hv Hb E Hl He Hp Hr Hsum. pose proof (alen_shown v Hv) as Hs. rewrite E, alen_app, alen_tcp_header in Hs.
  rewrite is_packet_ok_spec by (done || zdiv). rewrite E, <- Hs. f_equal. apply Z.eqb_eq. rewrite <- Hsum. f_equal.
  rewrite !pseudo_sum by (apply Hp || apply Hr). lia.
Qed.

Lemma handle_data_spec d s v payload hdr : view_ok v -> shown v = hdr ++ payload -> alen hdr = 20 -> session_ok s ->
  bytes_of 4 d -> bytes_of 4 (ts_remote_ip s) -> bv_size v <= ts_local_window s ->
  if ts_written s + alen payload <=? MAX_WINDOW_SIZE then
    exists s' ack c, handle_data d s v 20 (alen payload) = Done (s', [ack]) /\ ack = (ts_remote_ip s, tcp_header s' FLAG_ACK c) /\
      s' = set_windows (set_remote_seq (set_buffer s
             (take (Z.to_nat (ts_written s)) (ts_buffer s) ++ payload ++ drop (Z.to_nat (ts_written s + alen payload)) (ts_buffer s))
             (ts_written s + alen payload)) (u32 (ts_remote_seq s + alen payload))) (ts_local_window s - alen payload) (ts_remote_window s)
  else handle_data d s v 20 (alen payload) = Panic.
Proof.
  intros Hv E Hh (_ & _ & Hw & Hb & Hwr) Hd Hr Hfit. unfold MAX_WINDOW_SIZE in *. pose proof (alen_nonneg payload).
  pose proof (alen_shown v Hv) as Hl. rewrite E, alen_app in Hl. pose proof Hv as (Hv1 & _ & _).
  unfold handle_data, is_buffer_available. rewrite (proj2 (Z.leb_le (bv_size v) _)) by done.
  destruct (Z.leb_spec (ts_written s + alen payload) 8000) as [Hin|Hout].
  - destruct (view_rest v Hv) as (more & Em).
    replace (drop (Z.to_nat (bv_start v + 20)) (bv_array v)) with (payload ++ more).
    2: { rewrite Z2Nat.inj_add, <- drop_drop, Em, E, <- app_assoc by lia.
         replace (Z.to_nat 20) with (length hdr) by (unfold alen in Hh; lia). by rewrite drop_app_length. }
    destruct (two_parts (ts_buffer s) (ts_written s)) as (b1 & b2 & Eb & Hb1 & Hb2); [lia|].
    destruct (two_parts b2 (alen payload)) as (o & b3 & Eb2 & Ho & Hb3); [lia|].
    rewrite (fill_from_at _ b1 o b3); [|by rewrite Eb, Eb2|done|done|done|lia]. cbn [mbind exec_bind].
    assert (Et : take (Z.to_nat (ts_written s)) (ts_buffer s) = b1).
    { rewrite Eb. replace (Z.to_nat (ts_written s)) with (length b1) by (unfold alen in Hb1; lia). apply take_app_length. }
    assert (Ed : drop (Z.to_nat (ts_written s + alen payload)) (ts_buffer s) = b3).
    { rewrite Eb, Eb2, app_assoc. replace (Z.to_nat _) with (length (b1 ++ o)) by (rewrite length_app; unfold alen in *; lia). apply drop_app_length. }
    cbn [ts_local_window ts_remote_seq ts_remote_window set_remote_seq set_buffer].
    rewrite Et, Ed, (u32_small (ts_written s + alen payload)), u16_small by lia.
    set (s' := set_windows _ _ _). destruct (send_ack_spec d s' Hd) as (c & ->); [done|]. cbn [mbind exec_bind].
    by exists s', (ts_remote_ip s, tcp_header s' FLAG_ACK c), c.
  - unfold BufferMutableView_fill_from. rewrite u32_small by lia. by rewrite (proj2 (Z.leb_gt _ _)) by lia.
Qed.

Lemma wait_in_order_now d s seq size sent events : is_in_order_packet s seq = true ->
  wait_in_order d s seq size sent events = Done (Some (is_in_window_packet s seq size, s, sent, events)).
Proof. intros H. destruct events; simpl; by rewrite H. Qed.

(** The part of [handle] up to the payload, for the next segment of the peer. *)
Lemma handle_in_order p r flags c payload v events : view_ok v -> Forall is_byte (bv_array v) -> shown v = tcp_header p flags c ++ payload ->
  session_ok p -> session_ok r -> ts_state r = ESTABLISHED -> ts_remote_seq r = ts_local_seq p ->
  20 + alen payload <= ts_local_window r -> is_packet_ok (ts_remote_ip p) r v = Done true ->
  TCPSession_handle (ts_remote_ip p) r (ts_remote_ip r) v events =
    handle_flags (ts_remote_ip p) (set_windows r (ts_local_window r) (ts_local_window p)) (ts_remote_ip r) v 20 (alen payload) [] events.
Proof.
  intros Hv Hb E Hp Hr Hest Horder Hfit Hok. pose proof (alen_shown v Hv) as Hs. rewrite E, alen_app, alen_tcp_header in Hs.
  pose proof (alen_nonneg payload). destruct (tcp_fields p flags c payload v Hv E Hp) as (F4 & F8 & F12 & F13 & F14).
  destruct Hp as (Hp1 & Hp2 & Hp3 & _). destruct Hr as (_ & _ & Hr3 & _). unfold MAX_WINDOW_SIZE in *.
  unfold TCPSession_handle. rewrite Hok. cbn [mbind exec_bind negb]. unfold BufferView_const_convert_to, sizeof_TCPHeader.
  rewrite bind_ASSERT by (apply Z.leb_le; lia). rewrite F12. cbn [mbind exec_bind]. change (from_data_offset 0x50) with 20.
  rewrite F14. cbn [mbind exec_bind]. rewrite network_word16_twice by lia. rewrite u32_small by lia.
  replace (bv_size v - 20) with (alen payload) by lia. set (s1 := set_windows r _ _).
  assert (Ec : is_closed s1 = false) by (unfold is_closed, s1; simpl; by rewrite Hest). rewrite Ec, F4. cbn [mbind exec_bind].
  rewrite network_word32_twice by done. unfold handle_out_of_order_packets.
  rewrite bool_decide_eq_true_2 by done. cbn [negb]. rewrite wait_in_order_now by (apply Z.eqb_eq; done). cbn [mbind exec_bind].
  unfold is_in_window_packet. change (ts_remote_seq s1) with (ts_remote_seq r). change (ts_local_window s1) with (ts_local_window r).
  rewrite Horder, Z.add_simpl_r, u32_small by lia. by rewrite (proj2 (Z.leb_le _ _)) by lia.
Qed.

(** C10: data goes through a connection. Let the peer of an established session send a segment
    of a positive, even number of bytes that is the next in order (its sequence number is the
    one that the session expects) and fits the window together with its header of 20 bytes;
    let both sessions be well formed: numbers of 32 bits, a window of at most 8000 and a buffer
    of 8000 bytes. Then the segment passes the check, is put behind the bytes received so far,
    and is acknowledged by one segment with the number of the next byte; a call that waits in
    [receive] with nothing left to read and a buffer that is large enough, of less than 2 GiB,
    returns exactly its bytes, and the window is what it was. But the buffer of the session is
    never used again from its start: the segment that passes 8000 bytes in total stops the
    machine. *)
Theorem tcp_delivery (p r : TCPSession) (data : BufferView) (Hp : session_ok p) (Hr : session_ok r)
    (Hpip : bytes_of 4 (ts_remote_ip p)) (Hrip : bytes_of 4 (ts_remote_ip r)) (Hest : ts_state r = ESTABLISHED)
    (Horder : ts_remote_seq r = ts_local_seq p) (Hdata : view_ok data) (Hbytes : Forall is_byte (shown data))
    (Hsize : 0 < bv_size data) (Heven : bv_size data mod 2 = 0) (Hfit : 20 + bv_size data <= ts_local_window r) :
  exists segment, send_packet (ts_remote_ip r) p data (Z.lor FLAG_ACK FLAG_PSH) = Done (ts_remote_ip p, segment) /\
    forall v events, view_ok v -> Forall is_byte (bv_array v) -> shown v = segment ->
      if ts_written r + bv_size data <=? MAX_WINDOW_SIZE then
        exists r' ack, TCPSession_handle (ts_remote_ip p) r (ts_remote_ip r) v events = Done (Some (r', [(ts_remote_ip r, ack)], events)) /\
          ts_state r' = ESTABLISHED /\ ts_written r' = ts_written r + bv_size data /\
          take (Z.to_nat (ts_written r')) (ts_buffer r') = take (Z.to_nat (ts_written r)) (ts_buffer r) ++ shown data /\
          ts_remote_seq r' = u32 (ts_remote_seq r + bv_size data) /\ ts_last_ack r' = ts_remote_seq p /\
          take 4 (drop 8 ack) = bytes32 (network_word32 (ts_remote_seq r')) /\
          (forall buffer, ts_start r = ts_written r -> bv_size data <= alen buffer < 2 ^ 31 ->
             exists r'', TCPSession_receive_resume r' buffer = Done (Value (bv_size data), shown data ++ drop (length (shown data)) buffer, r'') /\
               ts_local_window r'' = ts_local_window r)
      else TCPSession_handle (ts_remote_ip p) r (ts_remote_ip r) v events = Panic.
Proof.
  pose proof (alen_shown data Hdata) as Hl. pose proof Hr as (_ & _ & Hwin & Hbuf & Hwr). unfold MAX_WINDOW_SIZE in *.
  set (flags := Z.lor FLAG_ACK FLAG_PSH).
  destruct (send_packet_spec (ts_remote_ip r) p data flags) as (c & Hc & E & Esum); [done|done|lia|done|done|done|done|].
  exists (tcp_header p flags c ++ shown data). split; [done|]. intros v events Hv Hvb Ev.
  pose proof (alen_shown v Hv) as Hs. rewrite Ev, alen_app, alen_tcp_header in Hs.
  assert (Hok : is_packet_ok (ts_remote_ip p) r v = Done true).
  { apply (peer_segment_ok p r flags c (shown data)); try done; [lia|by rewrite Hl|by rewrite Hl]. }
  rewrite (handle_in_order p r flags c (shown data)) by (done || lia). rewrite Hl.
  destruct (tcp_fields p flags c (shown data) v Hv Ev Hp) as (_ & F8 & _ & F13 & _).
  set (s1 := set_windows r _ _). unfold handle_flags. rewrite (proj2 (Z.ltb_lt 0 (bv_size data))) by done.
  pose proof (handle_data_spec (ts_remote_ip p) s1 v (shown data) (tcp_header p flags c) Hv Ev eq_refl) as Hd.
  rewrite Hl in Hd. specialize (Hd ltac:(done) Hpip Hrip ltac:(simpl; lia)). unfold MAX_WINDOW_SIZE in Hd.
  change (ts_written s1) with (ts_written r) in Hd. destruct (ts_written r + bv_size data <=? 8000); [|by rewrite Hd].
  destruct Hd as (s2 & ack & ca & -> & -> & Es2). cbn [mbind exec_bind]. rewrite F13. cbn [mbind exec_bind].
  change (truthy (Z.land flags FLAG_SYN)) with false. change (truthy (Z.land flags FLAG_RST)) with false.
  change (truthy (Z.land flags FLAG_FIN)) with false. change (truthy (Z.land flags FLAG_ACK)) with true.
  cbn [mbind exec_bind]. rewrite F8. cbn [mbind exec_bind app]. rewrite network_word32_twice by apply Hp.
  exists (handle_ack s2 (ts_remote_seq p)), (tcp_header s2 FLAG_ACK ca). split; [done|].
  set (b1 := take (Z.to_nat (ts_written r)) (ts_buffer r)). set (b3 := drop (Z.to_nat (ts_written r + bv_size data)) (ts_buffer r)).
  assert (Hb1 : alen b1 = ts_written r) by (unfold b1, alen in *; rewrite length_take; lia).
  assert (Ebuf : ts_buffer s2 = b1 ++ shown data ++ b3) by (by rewrite Es2). assert (Ewr : ts_written s2 = ts_written r + bv_size data) by (by rewrite Es2).
  assert (Etk : take (Z.to_nat (ts_written s2)) (ts_buffer s2) = b1 ++ shown data).
  { rewrite Ebuf, Ewr, app_assoc. replace (Z.to_nat _) with (length (b1 ++ shown data)); [apply take_app_length|].
    rewrite length_app. unfold alen in *. lia. }
  split; [by rewrite Es2|]. split; [done|]. split; [exact Etk|]. split; [by rewrite Es2|]. split; [done|]. split; [done|].
  intros buffer Hst Hbl. unfold TCPSession_receive_resume.
  assert (Ec : is_closed (handle_ack s2 (ts_remote_seq p)) = false) by (unfold is_closed; rewrite Es2; simpl; by rewrite Hest). rewrite Ec.
  change (ts_written (handle_ack s2 _)) with (ts_written s2). change (ts_start (handle_ack s2 _)) with (ts_start s2).
  change (ts_buffer (handle_ack s2 _)) with (ts_buffer s2).
  assert (Est : ts_start s2 = ts_written r) by (by rewrite Es2). rewrite Ewr, Est.
  replace (ts_written r + bv_size data - ts_written r) with (bv_size data) by lia. rewrite u32_small by lia.
  rewrite (proj2 (Z.ltb_ge _ _)) by lia. rewrite (proj2 (Z.eqb_neq _ _)) by lia. cbn [andb].
  assert (Edr : drop (Z.to_nat (ts_written r)) (ts_buffer s2) = shown data ++ b3).
  { rewrite Ebuf. replace (Z.to_nat (ts_written r)) with (length b1) by (unfold alen in *; lia). apply drop_app_length. }
  rewrite Edr. destruct (two_parts buffer (bv_size data)) as (o & t & -> & Ho & Ht); [lia|].
  rewrite (fill_from_at _ [] o t); [|done|done|done|done|lia]. cbn [mbind exec_bind app]. eexists. split.
  - replace (length (shown data)) with (length o) by (unfold alen in *; lia). by rewrite drop_app_length.
  - simpl. rewrite Es2. simpl. rewrite u16_small by lia. lia.
Qed.

(** Two ends of a connection between 10.0.2.15 and 10.0.2.2. *)
Definition sample_session (remote : list Z) (state : TCPState) : TCPSession :=
  set_remote (set_state (TCPSession_new (mkBitmap 0 [0])) state) remote 80.

Lemma sample_session_ok remote state : session_ok (sample_session remote state).
Proof.
  split; [done|]. split; [done|]. split; [done|]. split; [|done]. change (alen (Buffer_new 8000) = 8000).
  unfold Buffer_new. by rewrite alen_replicate.
Qed.

Lemma tcp_delivery_witness :
  let p := sample_session [10; 0; 2; 2] ESTABLISHED in
  let r := sample_session [10; 0; 2; 15] ESTABLISHED in
  exists segment r' ack r'', send_packet [10; 0; 2; 15] p (BufferView_of_ptr [7; 8]) (Z.lor FLAG_ACK FLAG_PSH) = Done ([10; 0; 2; 2], segment) /\
    TCPSession_handle [10; 0; 2; 2] r [10; 0; 2; 15] (BufferView_of_ptr segment) [] = Done (Some (r', [([10; 0; 2; 15], ack)], [])) /\
    TCPSession_receive_resume r' [0; 0; 0] = Done (Value 2, [7; 8; 0], r'').
Proof.
  intros p r. assert (Hb : forall a b c d, is_byte a -> is_byte b -> is_byte c -> is_byte d -> bytes_of 4 [a; b; c; d])
    by (intros; split; [done|]; repeat (apply Forall_cons; split; [done|]); by apply Forall_nil).
  destruct (tcp_delivery p r (BufferView_of_ptr [7; 8])) as (segment & E & H);
    [apply sample_session_ok|apply sample_session_ok|by apply Hb|by apply Hb|done|done|by apply shown_of_ptr|repeat constructor; done|done|done|done|].
  assert (Es : send_packet [10; 0; 2; 15] p (BufferView_of_ptr [7; 8]) (Z.lor FLAG_ACK FLAG_PSH) =
    Done ([10; 0; 2; 2], [0;0;0;80;0;0;0;0;0;0;0;0;80;24;31;64;113;34;0;0;7;8])) by (vm_compute; reflexivity).
  assert (segment = [0;0;0;80;0;0;0;0;0;0;0;0;80;24;31;64;113;34;0;0;7;8]) as -> by (pose proof (eq_trans (eq_sym E) Es) as X; congruence).
  destruct (shown_of_ptr [0;0;0;80;0;0;0;0;0;0;0;0;80;24;31;64;113;34;0;0;7;8]) as [Hv Ev]; [done|].
  destruct (H _ [] Hv ltac:(repeat constructor; done) Ev) as (r' & ack & Eh & _ & _ & _ & _ & _ & _ & Hrec).
  assert (Hlen : bv_size (BufferView_of_ptr [7; 8]) <= alen [0; 0; 0] < 2 ^ 31) by (split; [discriminate|reflexivity]).
  assert (Hst : ts_start r = ts_written r) by reflexivity.
  specialize (Hrec [0; 0; 0] Hst Hlen).
  destruct Hrec as (r'' & Er & _).
  exists [0;0;0;80;0;0;0;0;0;0;0;0;80;24;31;64;113;34;0;0;7;8], r', ack, r''. split; [exact Es|]. split; [exact Eh|exact Er].
Defined.

(** A listening session drops every connection request. The check of a segment
    takes the address of the peer from the session, where it is 0.0.0.0 until a request
    has been accepted, while the sender used its own address; so unless the words of that
    address add up to a form of zero, a well formed SYN is discarded and [accept] keeps
    waiting. *)
Theorem tcp_listen_drops_syn (p r : TCPSession) (ip : list Z) (Hip : bytes_of 4 ip) (Hdst : bytes_of 4 (ts_remote_ip p))
    (Hlisten : ts_remote_ip r = IPv4_Zero) (Haddr : address_sum ip mod 0xFFFF <> 0) :
  exists segment, send_packet ip p BufferView_empty FLAG_SYN = Done (ts_remote_ip p, segment) /\
    forall v events, view_ok v -> Forall is_byte (bv_array v) -> shown v = segment ->
      TCPSession_handle (ts_remote_ip p) r ip v events = Done (Some (r, [], events)).
Proof.
  destruct (send_packet_spec ip p BufferView_empty FLAG_SYN) as (c & Hc & E & Esum); try done.
  eexists. split; [exact E|]. intros v events Hv Hb Ev. pose proof (alen_shown v Hv) as Hs.
  rewrite Ev, alen_app, alen_tcp_header in Hs. change (alen (shown BufferView_empty)) with 0 in Hs.
  change (20 + bv_size BufferView_empty) with 20 in Esum.
  assert (Hz : bytes_of 4 IPv4_Zero) by (split; [done|]; repeat constructor; done).
  unfold TCPSession_handle. rewrite is_packet_ok_spec; [|done|done|by rewrite <- Hs|lia|done|by rewrite Hlisten].
  rewrite Ev, Hlisten, <- Hs. cbn [mbind exec_bind]. rewrite (proj2 (Z.eqb_neq _ 0)); [done|].
  rewrite !pseudo_sum in * by (done || apply Hip || apply Hdst). change (address_sum IPv4_Zero) with 0.
  set (A := plain_sum (words (tcp_header p FLAG_SYN c ++ shown BufferView_empty))) in *.
  set (L := plain_sum (words (bytes16 (to_big_endian16 (20 + 0))))) in *. change (20 + 0) with 20 in *.
  change (plain_sum (words (bytes16 (to_big_endian16 20)))) with L in Esum. zdiv.
Qed.

(** A request from 10.0.2.2. *)
Lemma tcp_listen_drops_syn_witness :
  let p := sample_session [10; 0; 2; 15] SYN_SENT in
  let r := set_state (TCPSession_new (mkBitmap 0 [0])) LISTEN in
  exists segment, send_packet [10; 0; 2; 2] p BufferView_empty FLAG_SYN = Done ([10; 0; 2; 15], segment) /\
    forall v events, view_ok v -> Forall is_byte (bv_array v) -> shown v = segment ->
      TCPSession_handle [10; 0; 2; 15] r [10; 0; 2; 2] v events = Done (Some (r, [], events)).
Proof.
  intros p r. apply (tcp_listen_drops_syn p r [10; 0; 2; 2]); [split; [done|]; repeat constructor; done..|done|done].
Defined.
