(* ===== verification/Files.v ===== *)
(** Open files (file_description.cpp) over two kinds of nodes: the files of the boot
    archive (ustar/inode.cpp) and pipes (pipes/pipe.cpp). A call that has to wait for an event gives [Blocks]: its thread is then in the wait
    queue of the node. When the thread has been woken the call is made again ([again]):
    [wait_on_event] checks the condition once more, and a thread that has to go on waiting
    keeps its old entry in the queue, which is no longer marked as blocked. *)

From S2P Require Import Prelude Storage CircularBuffer Clib Buffers.

(** A call on a node: it waits, or returns; both with the new state. *)
Inductive outcome (S A : Type) := Blocks (s : S) | Returns (a : A).
Arguments Blocks {S A} s.
Arguments Returns {S A} a.

(** [OpenMode], a number made of these bits. *)
Definition OM_READ : Z := Bit 0.
Definition OM_WRITE : Z := Bit 1.

Inductive SeekOrigin := SEEK_SET | SEEK_CURRENT | SEEK_END.

(** * Files of the archive

    [m_data] points into the archive: the bytes from there to its end. *)

Record INode := mkINode {
  in_size : Z;
  in_data : list Z
}.

Definition INode_new (size : Z) (data : list Z) : INode := mkINode size data.
Definition INode_open (n : INode) : Z := ERROR_SUCCESS.
Definition INode_close (n : INode) : Z := ERROR_SUCCESS.
Definition INode_can_read (n : INode) : bool := true.

(** The number of bytes read and the buffer of the caller. *)
Definition INode_read (n : INode) (dest : list Z) (offset : Z) : exec (Result Z * list Z) :=
  let size_to_read := Z.min (alen dest) (u32 (in_size n - offset)) in
  dest ← BufferMutableView_fill_from dest (in_data n) offset size_to_read;
  Done (Value size_to_read, dest).

(** * Pipes

    [p_waiting] is the number of entries of [m_wait_queue] that are marked as blocked. *)

Definition PIPE_BUFFER_SIZE : Z := 1024.

Record Pipe := mkPipe {
  p_buffer : CircularBuffer Z;
  p_readers : Z;
  p_writers : Z;
  p_waiting : Z
}.

Definition Pipe_new : Pipe := mkPipe (CircularBuffer_new PIPE_BUFFER_SIZE) 0 0 0.

Definition Pipe_open (p : Pipe) (mode : Z) : Z * Pipe :=
  if mode =? OM_READ then (ERROR_SUCCESS, mkPipe (p_buffer p) (u32 (p_readers p + 1)) (p_writers p) (p_waiting p))
  else if mode =? OM_WRITE then (ERROR_SUCCESS, mkPipe (p_buffer p) (p_readers p) (u32 (p_writers p + 1)) (p_waiting p))
  else (ERROR_INVALID_PARAMETER, p).

Definition Pipe_close (p : Pipe) (mode : Z) : exec (Z * Pipe) :=
  if mode =? OM_READ then
    _ ← ASSERT (truthy (p_readers p));
    Done (ERROR_SUCCESS, mkPipe (p_buffer p) (u32 (p_readers p - 1)) (p_writers p) (p_waiting p))
  else if mode =? OM_WRITE then
    _ ← ASSERT (truthy (p_writers p));
    Done (ERROR_SUCCESS, mkPipe (p_buffer p) (p_readers p) (u32 (p_writers p - 1)) (p_waiting p))
  else Panic.

Definition Pipe_can_read (p : Pipe) : bool := negb (CircularBuffer_is_empty (p_buffer p)).
Definition Pipe_can_write (p : Pipe) : bool := negb (CircularBuffer_is_full (p_buffer p)).

(** [m_wait_queue.wait_on_event] blocks the thread, with a new entry the first time;
    [m_wait_queue.wake_up] wakes the first thread whose entry is marked as blocked, which
    it asserts to exist. *)
Definition Pipe_block (p : Pipe) (again : bool) : Pipe :=
  mkPipe (p_buffer p) (p_readers p) (p_writers p) (if again then p_waiting p else p_waiting p + 1).

Definition Pipe_wake_up (p : Pipe) (b : CircularBuffer Z) : exec Pipe :=
  _ ← ASSERT (0 <? p_waiting p);
  Done (mkPipe b (p_readers p) (p_writers p) (p_waiting p - 1)).

Definition Pipe_read (p : Pipe) (again : bool) (dest : list Z) : exec (outcome Pipe (Result Z * list Z * Pipe)) :=
  if PIPE_BUFFER_SIZE <? alen dest then Done (Returns (Error ERROR_EOF, dest, p))
  else if negb (Pipe_can_read p) then Done (Blocks (Pipe_block p again))
  else
    let size_to_read := Z.min (alen dest) (CircularBuffer_size (p_buffer p)) in
    r ← for_ (Z.to_nat size_to_read) 0
      (fun i '(dest, b) =>
         r ← CircularBuffer_dequeue b;
         dest ← BufferMutableView_set dest i r.1;
         Done (dest, r.2))
      (dest, p_buffer p);
    p ← Pipe_wake_up p r.2;
    Done (Returns (Value size_to_read, r.1, p)).

Definition Pipe_write (p : Pipe) (again : bool) (src : list Z) : exec (outcome Pipe (Result Z * Pipe)) :=
  if PIPE_BUFFER_SIZE <? alen src then Done (Returns (Error ERROR_EOF, p))
  else if negb (Pipe_can_write p) then Done (Blocks (Pipe_block p again))
  else
    let size_to_write := Z.min (alen src) (CircularBuffer_available_size (p_buffer p)) in
    b ← for_ (Z.to_nat size_to_write) 0
      (fun i b => x ← BufferView_at (BufferView_of_ptr src) i; CircularBuffer_queue b x) (p_buffer p);
    p ← Pipe_wake_up p b;
    Done (Returns (Value size_to_write, p)).

(** * Descriptions

    [m_current_position] and the mode; the size is that of the node. *)

Record FileDescription := mkFD {
  fd_mode : Z;
  fd_position : Z
}.

Definition FileDescription_new (mode : Z) : FileDescription := mkFD mode 0.

(** The guard of [read] and [write]: [None] when the call goes on to the node. *)
Definition beyond_end (node_size position size : Z) : option Z :=
  if (node_size <? u32 (position + size)) && negb (node_size =? 0) then Some ERROR_EOF else None.

(** [read] and [write] call the virtual functions of the node. *)
Definition FileDescription_read {A} (node_size : Z) (node_read : list Z -> Z -> A) (refuse : Z -> A)
    (fd : FileDescription) (buffer : list Z) : A :=
  match beyond_end node_size (fd_position fd) (alen buffer) with
  | Some e => refuse e
  | None => node_read buffer (fd_position fd)
  end.

Definition FileDescription_write {A} (node_size : Z) (node_write : list Z -> Z -> A) (refuse : Z -> A)
    (fd : FileDescription) (buffer : list Z) : A :=
  match beyond_end node_size (fd_position fd) (alen buffer) with
  | Some e => refuse e
  | None => node_write buffer (u32 (fd_position fd + alen buffer))
  end.

Definition FileDescription_seek (node_size : Z) (fd : FileDescription) (offset : Z) (origin : SeekOrigin)
    : Z * FileDescription :=
  let at_ p := mkFD (fd_mode fd) p in
  match origin with
  | SEEK_SET =>
      if offset <? 0 then (ERROR_EOF, fd)
      else if node_size <? u32 offset then (ERROR_EOF, fd)
      else (ERROR_SUCCESS, at_ (u32 offset))
  | SEEK_CURRENT =>
      if ((0 <? offset) && (u32 (node_size - fd_position fd) <? u32 offset)) ||
         ((offset <? 0) && (fd_position fd <? u32 (- offset)))
      then (ERROR_EOF, fd)
      else (ERROR_SUCCESS, at_ (u32 (offset + fd_position fd)))
  | SEEK_END =>
      if 0 <? offset then (ERROR_EOF, fd)
      else if node_size <? u32 (- offset) then (ERROR_EOF, fd)
      else (ERROR_SUCCESS, at_ (u32 (node_size + offset)))
  end.

(** The calls of a process on an open file and on the two ends of a pipe. *)
Definition read_file (n : INode) (fd : FileDescription) (buffer : list Z) : exec (Result Z * list Z) :=
  FileDescription_read (in_size n) (fun b off => INode_read n b off) (fun e => Done (Error e, buffer)) fd buffer.

Definition read_pipe (p : Pipe) (again : bool) (fd : FileDescription) (buffer : list Z)
    : exec (outcome Pipe (Result Z * list Z * Pipe)) :=
  FileDescription_read PIPE_BUFFER_SIZE (fun b _ => Pipe_read p again b)
    (fun e => Done (Returns (Error e, buffer, p))) fd buffer.

Definition write_pipe (p : Pipe) (again : bool) (fd : FileDescription) (buffer : list Z) : exec (outcome Pipe (Result Z * Pipe)) :=
  FileDescription_write PIPE_BUFFER_SIZE (fun b _ => Pipe_write p again b)
    (fun e => Done (Returns (Error e, p))) fd buffer.

(** Opening a pipe: a description whose node refuses to be opened is destroyed, and the
    destructor closes the node. *)
Definition open_pipe (p : Pipe) (mode : Z) : exec (Result FileDescription * Pipe) :=
  let fd := FileDescription_new mode in
  let '(e, p) := Pipe_open p mode in
  if truthy e then r ← Pipe_close p mode; Done (Error e, r.2) else Done (Value fd, p).

(** * Pipes carry bytes in order *)

Lemma at_middle (p r : list Z) x : BufferView_at (BufferView_of_ptr (p ++ x :: r)) (alen p) = Done x.
Proof. unfold BufferView_at. simpl. rewrite Z.add_0_l. apply aget_middle. Qed.

Lemma dequeue_loop (xs : list Z) : forall (b : CircularBuffer Z) l p old rest,
  cb_rep b (xs ++ l) -> length old = length xs ->
  exists b', for_ (length xs) (alen p)
    (fun i '(dest, b) => r ← CircularBuffer_dequeue b; dest ← BufferMutableView_set dest i r.1; Done (dest, r.2))
    (p ++ old ++ rest, b) = Done (p ++ xs ++ rest, b') /\ cb_rep b' l /\ cb_capacity b' = cb_capacity b.
Proof.
  induction xs as [|x xs IH]; intros b l p old rest Hb Hl.
  { destruct old; [|done]. by exists b. }
  destruct old as [|o old]; [done|]. cbn [length for_].
  destruct (dequeue_rep b (xs ++ l) x Hb) as (b1 & -> & Hb1 & Hc1). cbn [mbind exec_bind fst snd].
  cbn [app]. rewrite set_middle. cbn [mbind exec_bind].
  rewrite (snoc_middle p (old ++ rest) x), (snoc_middle p (xs ++ rest) x).
  destruct (IH b1 l (p ++ [x]) old rest Hb1) as (b' & E & Hb' & Hc); [by injection Hl|].
  rewrite alen_snoc in E. rewrite E. exists b'. split; [done|]. split; [done|congruence].
Qed.

Lemma queue_loop (xs : list Z) : forall (b : CircularBuffer Z) l p rest,
  cb_rep b l -> alen l + alen xs <= cb_capacity b ->
  exists b', for_ (length xs) (alen p)
    (fun i b => x ← BufferView_at (BufferView_of_ptr (p ++ xs ++ rest)) i; CircularBuffer_queue b x) b = Done b' /\
    cb_rep b' (l ++ xs) /\ cb_capacity b' = cb_capacity b.
Proof.
  induction xs as [|x xs IH]; intros b l p rest Hb Hr.
  { exists b. by rewrite app_nil_r. }
  cbn [length for_ app]. rewrite at_middle. cbn [mbind exec_bind].
  rewrite alen_cons in Hr. pose proof (alen_nonneg xs).
  destruct (queue_rep b l x Hb) as (b1 & -> & Hb1 & Hc1); [lia|]. cbn [mbind exec_bind].
  destruct (IH b1 (l ++ [x]) (p ++ [x]) rest Hb1) as (b' & E & Hb' & Hc); [rewrite alen_snoc; lia|].
  rewrite alen_snoc, <- app_assoc in E. cbn [app] in E. rewrite E. exists b'.
  split; [done|]. split; [by rewrite <- app_assoc in Hb'|congruence].
Qed.

Definition pipe_rep (p : Pipe) (l : list Z) : Prop :=
  cb_rep (p_buffer p) l /\ cb_capacity (p_buffer p) = PIPE_BUFFER_SIZE.

Lemma pipe_wake_rep (p : Pipe) (b b' : CircularBuffer Z) l :
  cb_rep b' l -> cb_capacity b' = cb_capacity b -> cb_capacity b = PIPE_BUFFER_SIZE ->
  0 < p_waiting p -> exists p', Pipe_wake_up p b' = Done p' /\ pipe_rep p' l /\ p_waiting p' = p_waiting p - 1.
Proof.
  intros Hb Hc Hc' Hw. unfold Pipe_wake_up. rewrite bind_ASSERT by by apply Z.ltb_lt.
  eexists. split; [done|]. split; [split; simpl; congruence || done|done].
Qed.

(** A read takes the first bytes of the pipe, as many as there are and fit. *)
Lemma Pipe_read_rep p again l dest :
  pipe_rep p l -> alen dest <= PIPE_BUFFER_SIZE -> l <> [] ->
  let k := Nat.min (length dest) (length l) in
  if 0 <? p_waiting p then
    exists p', Pipe_read p again dest = Done (Returns (Value (Z.of_nat k), take k l ++ drop k dest, p')) /\
      pipe_rep p' (drop k l) /\ p_waiting p' = p_waiting p - 1
  else Pipe_read p again dest = Panic.
Proof.
  intros [Hb Hc] Hd Hne k. unfold Pipe_read, Pipe_can_read. rewrite (proj2 (Z.ltb_ge PIPE_BUFFER_SIZE _)) by done.
  rewrite (rep_is_empty _ _ Hb), negb_involutive.
  rewrite (proj2 (Z.eqb_neq _ 0)) by (destruct l; [done|]; rewrite alen_cons; pose proof (alen_nonneg l); lia).
  unfold CircularBuffer_size. rewrite (rep_size _ _ Hb).
  assert (Hk : Z.min (alen dest) (alen l) = Z.of_nat k) by (unfold k, alen; lia). rewrite Hk, Nat2Z.id.
  assert (Hlk : length (take k l) = k) by (rewrite length_take; lia).
  destruct (dequeue_loop (take k l) (p_buffer p) (drop k l) [] (take k dest) (drop k dest)) as (b' & E & Hb' & Hc').
  - by rewrite take_drop.
  - rewrite !length_take. lia.
  - cbn [app] in E. rewrite (@alen_nil Z), Hlk, take_drop in E. rewrite E. cbn [mbind exec_bind fst snd].
    destruct (Z.ltb_spec 0 (p_waiting p)) as [Hw|Hw].
    + destruct (pipe_wake_rep p (p_buffer p) b' _ Hb' Hc' Hc Hw) as (p' & -> & Hp'). exists p'. by split.
    + unfold Pipe_wake_up. by rewrite (proj2 (Z.ltb_ge _ _)).
Qed.

(** A write adds the first bytes that there is room for. *)
Lemma Pipe_write_rep p again l src :
  pipe_rep p l -> alen src <= PIPE_BUFFER_SIZE -> alen l <> PIPE_BUFFER_SIZE ->
  let k := Nat.min (length src) (Z.to_nat PIPE_BUFFER_SIZE - length l) in
  if 0 <? p_waiting p then
    exists p', Pipe_write p again src = Done (Returns (Value (Z.of_nat k), p')) /\
      pipe_rep p' (l ++ take k src) /\ p_waiting p' = p_waiting p - 1
  else Pipe_write p again src = Panic.
Proof.
  intros [Hb Hc] Hd Hne k. unfold Pipe_write, Pipe_can_write. rewrite (proj2 (Z.ltb_ge PIPE_BUFFER_SIZE _)) by done.
  rewrite (rep_is_full _ _ Hb), negb_involutive, Hc, (proj2 (Z.eqb_neq _ _)) by done.
  pose proof (rep_fits _ _ Hb) as Hf. rewrite (rep_available _ _ Hb), Hc in *.
  assert (Hk : Z.min (alen src) (PIPE_BUFFER_SIZE - alen l) = Z.of_nat k) by (unfold k, alen in *; lia).
  rewrite Hk, Nat2Z.id. assert (Hlk : length (take k src) = k) by (rewrite length_take; lia).
  destruct (queue_loop (take k src) (p_buffer p) l [] (drop k src) Hb) as (b' & E & Hb' & Hc').
  - rewrite Hc. unfold alen at 2. rewrite Hlk. lia.
  - cbn [app] in E. rewrite (@alen_nil Z), Hlk, take_drop in E. rewrite E. cbn [mbind exec_bind].
    destruct (Z.ltb_spec 0 (p_waiting p)) as [Hw|Hw].
    + destruct (pipe_wake_rep p (p_buffer p) b' _ Hb' Hc' Hc Hw) as (p' & -> & Hp'). exists p'. by split.
    + unfold Pipe_wake_up. by rewrite (proj2 (Z.ltb_ge _ _)).
Qed.

(** The waiting calls. *)
Lemma Pipe_read_empty p again dest : pipe_rep p [] -> alen dest <= PIPE_BUFFER_SIZE -> Pipe_read p again dest = Done (Blocks (Pipe_block p again)).
Proof.
  intros [Hb Hc] Hd. unfold Pipe_read, Pipe_can_read. rewrite (proj2 (Z.ltb_ge PIPE_BUFFER_SIZE _)) by done.
  by rewrite (rep_is_empty _ _ Hb), negb_involutive.
Qed.

Lemma Pipe_write_full p again l src : pipe_rep p l -> alen src <= PIPE_BUFFER_SIZE -> alen l = PIPE_BUFFER_SIZE ->
  Pipe_write p again src = Done (Blocks (Pipe_block p again)).
Proof.
  intros [Hb Hc] Hd Hl. unfold Pipe_write, Pipe_can_write. rewrite (proj2 (Z.ltb_ge PIPE_BUFFER_SIZE _)) by done.
  by rewrite (rep_is_full _ _ Hb), negb_involutive, Hc, Hl, Z.eqb_refl.
Qed.

(** The calls that the readers and writers of a pipe make, in the order in which they
    hold the lock. *)
Inductive pipe_call := ReadPipe (again : bool) (buffer : list Z) | WritePipe (again : bool) (bytes : list Z).

(** A description of a pipe is never moved from its start. *)
Definition pipe_end (mode : Z) : FileDescription := FileDescription_new mode.

(** One call: the bytes it takes out and puts in, as the caller sees them from the result
    and its buffer. A call that waits or is refused moves none. *)
Definition pipe_step (p : Pipe) (c : pipe_call) : exec (list Z * list Z * Pipe) :=
  match c with
  | ReadPipe again buffer =>
      r ← read_pipe p again (pipe_end OM_READ) buffer;
      Done match r with
           | Returns (Value k, dest, p) => (take (Z.to_nat k) dest, [], p)
           | Returns (Error _, _, p) | Blocks p => ([], [], p)
           end
  | WritePipe again bytes =>
      r ← write_pipe p again (pipe_end OM_WRITE) bytes;
      Done match r with
           | Returns (Value k, p) => ([], take (Z.to_nat k) bytes, p)
           | Returns (Error _, p) | Blocks p => ([], [], p)
           end
  end.

Fixpoint pipe_run (p : Pipe) (cs : list pipe_call) : exec (list Z * list Z * Pipe) :=
  match cs with
  | [] => Done ([], [], p)
  | c :: cs =>
      '(out, put, p) ← pipe_step p c;
      r ← pipe_run p cs; Done (out ++ r.1.1, put ++ r.1.2, r.2)
  end.

Lemma beyond_pipe size :
  0 <= size < 2 ^ 32 -> beyond_end PIPE_BUFFER_SIZE 0 size = if PIPE_BUFFER_SIZE <? size then Some ERROR_EOF else None.
Proof. intros Hs. unfold beyond_end. rewrite Z.add_0_l, u32_small by lia. by rewrite andb_true_r. Qed.

Definition pipe_call_ok (c : pipe_call) : Prop :=
  match c with ReadPipe _ b | WritePipe _ b => alen b < 2 ^ 32 end.

(** What a pipe that holds [l] does with a call: the bytes out, in, held afterwards, and
    the number of waiting threads; nothing when the machine stops. *)
Definition pipe_spec (l : list Z) (waiting : Z) (c : pipe_call) : option (list Z * list Z * list Z * Z) :=
  let transfer r := if 0 <? waiting then Some r else None in
  let wait again := if (again : bool) then waiting else waiting + 1 in
  match c with
  | ReadPipe again b =>
      if PIPE_BUFFER_SIZE <? alen b then Some ([], [], l, waiting)
      else if bool_decide (l = []) then Some ([], [], [], wait again)
      else transfer (take (length b) l, [], drop (length b) l, waiting - 1)
  | WritePipe again b =>
      if PIPE_BUFFER_SIZE <? alen b then Some ([], [], l, waiting)
      else if alen l =? PIPE_BUFFER_SIZE then Some ([], [], l, wait again)
      else let room := Z.to_nat (PIPE_BUFFER_SIZE - alen l) in
        transfer ([], take room b, l ++ take room b, waiting - 1)
  end.

Lemma pipe_step_spec p l c : pipe_rep p l -> pipe_call_ok c ->
  match pipe_spec l (p_waiting p) c with
  | Some (out, put, l', w) => exists p', pipe_step p c = Done (out, put, p') /\ pipe_rep p' l' /\ p_waiting p' = w
  | None => pipe_step p c = Panic
  end.
Proof.
  intros Hp Hc. destruct c as [again b|again b]; simpl in Hc; unfold pipe_step, pipe_spec, read_pipe, write_pipe, FileDescription_read,
    FileDescription_write, pipe_end, FileDescription_new; cbn [fd_position]; pose proof (alen_nonneg b); rewrite beyond_pipe by lia.
  - destruct (Z.ltb_spec PIPE_BUFFER_SIZE (alen b)) as [Hbig|Hfit]; [by exists p|].
    case_bool_decide as Hl.
    { subst l. rewrite Pipe_read_empty by done. by exists (Pipe_block p again). }
    pose proof (Pipe_read_rep p again l b Hp Hfit Hl) as Hr. destruct (Z.ltb_spec 0 (p_waiting p)); [|by rewrite Hr].
    destruct Hr as (p' & -> & Hp' & Hw). exists p'. cbn [mbind exec_bind]. rewrite Nat2Z.id. split.
    + do 3 f_equal. rewrite take_app_le by (rewrite length_take; lia). rewrite take_take, Nat.min_id.
      destruct (Nat.min_spec (length b) (length l)) as [[_ ->]|[Hge ->]]; [done|]. by rewrite !firstn_all2 by lia.
    + split; [|done]. destruct (Nat.min_spec (length b) (length l)) as [[_ E]|[Hge E]]; rewrite E in Hp'; [done|].
      by rewrite (drop_ge l (length b)), drop_ge in * by lia.
  - destruct (Z.ltb_spec PIPE_BUFFER_SIZE (alen b)) as [Hbig|Hfit]; [by exists p|].
    destruct (Z.eqb_spec (alen l) PIPE_BUFFER_SIZE) as [Hl|Hl].
    { rewrite (Pipe_write_full p again l) by done. by exists (Pipe_block p again). }
    pose proof (Pipe_write_rep p again l b Hp Hfit Hl) as Hr. destruct (Z.ltb_spec 0 (p_waiting p)); [|by rewrite Hr].
    destruct Hr as (p' & -> & Hp' & Hw). exists p'. cbn [mbind exec_bind]. rewrite Nat2Z.id.
    replace (Z.to_nat PIPE_BUFFER_SIZE - length l)%nat with (Z.to_nat (PIPE_BUFFER_SIZE - alen l)) in * by (unfold alen; lia).
    set (room := Z.to_nat (PIPE_BUFFER_SIZE - alen l)) in *.
    assert (E : take (length b `min` room) b = take room b).
    { destruct (Nat.min_spec (length b) room) as [[Hlt ->]|[_ ->]]; [|done]. by rewrite !firstn_all2 by lia. }
    rewrite E in *. done.
Qed.

Lemma pipe_run_stream cs : forall p l, pipe_rep p l -> Forall pipe_call_ok cs ->
  match pipe_run p cs with
  | Done (out, put, p') => exists l', pipe_rep p' l' /\ l ++ put = out ++ l'
  | Panic => True
  | _ => False
  end.
Proof.
  induction cs as [|c cs IH]; intros p l Hp Hok; simpl; [exists l; by rewrite app_nil_r|].
  apply Forall_cons in Hok as [Hc Hok]. pose proof (pipe_step_spec p l c Hp Hc) as Hs.
  destruct (pipe_spec l (p_waiting p) c) as [[[[out put] l1] w]|] eqn:Es; [|by rewrite Hs].
  destruct Hs as (p1 & -> & Hp1 & _). cbn [mbind exec_bind]. specialize (IH p1 l1 Hp1 Hok).
  destruct (pipe_run p1 cs) as [[[out' put'] p']| | |]; try done. destruct IH as (l' & Hp' & E).
  exists l'. split; [done|]. simpl. rewrite <- app_assoc, <- E, !app_assoc. f_equal.
  unfold pipe_spec in Es. destruct c as [again b|again b]; repeat case_match; simplify_eq; rewrite ?app_nil_r, ?take_drop; try done.
  all: by match goal with H : bool_decide _ = true |- _ => apply bool_decide_eq_true_1 in H end.
Qed.

Lemma Pipe_new_rep : pipe_rep Pipe_new [].
Proof. split; [apply cb_new_rep; done|done]. Qed.



(** Opening a pipe with a mode that is neither reading nor writing: the refused
    description closes the node, which stops the machine. *)
Lemma open_pipe_bad_mode p mode : mode <> OM_READ -> mode <> OM_WRITE -> open_pipe p mode = Panic.
Proof.
  intros Hr Hw. unfold open_pipe, Pipe_open, Pipe_close.
  by rewrite (proj2 (Z.eqb_neq _ _) Hr), (proj2 (Z.eqb_neq _ _) Hw).
Qed.

(** * Positions in files *)

(** Where a [seek] is to go. *)
Definition seek_target (node_size position offset : Z) (origin : SeekOrigin) : Z :=
  match origin with
  | SEEK_SET => offset
  | SEEK_CURRENT => position + offset
  | SEEK_END => node_size + offset
  end.

Lemma seek_exact node_size fd offset origin :
  0 <= node_size < 2 ^ 31 -> 0 <= fd_position fd <= node_size -> - 2 ^ 31 <= offset < 2 ^ 31 ->
  let target := seek_target node_size (fd_position fd) offset origin in
  FileDescription_seek node_size fd offset origin =
    if (0 <=? target) && (target <=? node_size) then (ERROR_SUCCESS, mkFD (fd_mode fd) target)
    else (ERROR_EOF, fd).
Proof.
  intros Hs Hp Ho. destruct fd as [mode pos]. simpl in *. unfold FileDescription_seek, seek_target. destruct origin; simpl.
  - destruct (Z.ltb_spec offset 0); [by rewrite (proj2 (Z.leb_gt 0 offset)) by lia|].
    rewrite u32_small, (proj2 (Z.leb_le 0 offset)) by lia. simpl. repeat case_test; done || lia.
  - rewrite (u32_small (node_size - pos)) by lia. destruct (Z.ltb_spec 0 offset), (Z.ltb_spec offset 0); simpl; try lia.
    + rewrite (u32_small offset), orb_false_r by lia. rewrite (proj2 (Z.leb_le 0 _)) by lia. simpl.
      destruct (Z.ltb_spec (node_size - pos) offset), (Z.leb_spec (pos + offset) node_size); try lia; [done|].
      rewrite u32_small by lia. by rewrite Z.add_comm.
    + rewrite (u32_small (- offset)) by lia. rewrite (proj2 (Z.leb_le _ node_size)), andb_true_r by lia.
      destruct (Z.ltb_spec pos (- offset)), (Z.leb_spec 0 (pos + offset)); try lia; [done|].
      rewrite u32_small by lia. by rewrite Z.add_comm.
    + assert (offset = 0) as -> by lia. rewrite !Z.add_0_r. simpl. rewrite u32_small by lia.
      by rewrite (proj2 (Z.leb_le 0 pos)), (proj2 (Z.leb_le pos _)) by lia.
  - destruct (Z.ltb_spec 0 offset); [by rewrite (proj2 (Z.leb_gt _ node_size)), andb_false_r by lia|].
    rewrite u32_small, (proj2 (Z.leb_le _ node_size)), andb_true_r by lia.
    destruct (Z.ltb_spec node_size (- offset)), (Z.leb_spec 0 (node_size + offset)); try lia; [done|].
    by rewrite u32_small by lia.
Qed.

(** [fill_from] at the start of the buffer. *)
Lemma fill_from_start (dest src : list Z) (n : nat) :
  (n <= length dest)%nat -> (n <= length src)%nat -> alen dest < 2 ^ 32 ->
  BufferMutableView_fill_from dest src 0 (Z.of_nat n) = Done (take n src ++ drop n dest).
Proof.
  intros Hd Hs Hb. unfold BufferMutableView_fill_from. unfold alen in Hb.
  rewrite Z.add_0_l, u32_small by lia. rewrite bind_ASSERT by (apply Z.leb_le; unfold alen; lia).
  pose proof (memcpy_spec (take n src) (take n dest) [] (drop n dest) [] (drop n src)) as E.
  assert (Hl : length (take n src) = n) by (rewrite length_take; lia).
  cbn [app] in E. rewrite !take_drop, (@alen_nil Z) in E. unfold alen in E. rewrite Hl in E.
  apply E. rewrite length_take. lia.
Qed.

(** positions in a file of the archive. [seek] goes exactly to the positions from
    the start to the end of the file, from each of its three origins, and leaves the
    description as it was otherwise. A [read] past the end is refused, and at the start
    of the file it fills the buffer with the first bytes. But at any other position it
    fails an assertion: the position is used as an offset into the buffer of the caller
    instead of into the file. *)
Theorem file_positions (n : INode) (fd : FileDescription)
    (Hsize : 0 <= in_size n < 2 ^ 31) (Hdata : in_size n <= alen (in_data n))
    (Hpos : 0 <= fd_position fd <= in_size n) :
  (forall offset origin, - 2 ^ 31 <= offset < 2 ^ 31 ->
     let target := seek_target (in_size n) (fd_position fd) offset origin in
     FileDescription_seek (in_size n) fd offset origin =
       if (0 <=? target) && (target <=? in_size n) then (ERROR_SUCCESS, mkFD (fd_mode fd) target)
       else (ERROR_EOF, fd)) /\
  (forall buffer, alen buffer < 2 ^ 31 ->
     read_file n fd buffer =
       if (in_size n <? fd_position fd + alen buffer) && negb (in_size n =? 0) then Done (Error ERROR_EOF, buffer)
       else if fd_position fd =? 0 then
         let k := Z.to_nat (Z.min (alen buffer) (in_size n)) in
         Done (Value (Z.of_nat k), take k (in_data n) ++ drop k buffer)
       else Panic).
Proof.
  split; [intros offset origin Ho; by apply seek_exact|]. intros buffer Hb. pose proof (alen_nonneg buffer).
  unfold read_file, FileDescription_read, beyond_end. rewrite u32_small by lia.
  destruct ((in_size n <? _) && _) eqn:Hguard; [done|]. unfold INode_read. rewrite u32_small by lia.
  apply andb_false_iff in Hguard. destruct (Z.eqb_spec (fd_position fd) 0) as [E|E].
  - rewrite E, Z.sub_0_r.
    remember (Z.to_nat (Z.min (alen buffer) (in_size n))) as k eqn:Hk.
    replace (Z.min (alen buffer) (in_size n)) with (Z.of_nat k) by lia. cbn zeta.
    rewrite fill_from_start; [done|unfold alen in *; lia..].
  - assert (Hfit : fd_position fd + alen buffer <= in_size n).
    { destruct Hguard as [Hg|Hg]; to_prop; lia. }
    replace (Z.min (alen buffer) (in_size n - fd_position fd)) with (alen buffer) by lia.
    unfold BufferMutableView_fill_from. rewrite u32_small by lia.
    by rewrite (proj2 (Z.leb_gt _ _)) by lia.
Qed.

(** A file of three bytes: its first two are read, and after a [seek] to the second
    byte the same read stops the machine. *)
Lemma file_positions_witness :
  let n := mkINode 3 [10; 20; 30; 0] in
  read_file n (FileDescription_new OM_READ) [0; 0] = Done (Value 2, [10; 20]) /\
  read_file n (FileDescription_seek 3 (FileDescription_new OM_READ) 1 SEEK_SET).2 [0; 0] = Panic.
Proof.
  intros n. split.
  - apply (file_positions n (FileDescription_new OM_READ)); simpl; unfold alen; simpl; lia.
  - apply (file_positions n (mkFD OM_READ 1)); simpl; unfold alen; simpl; lia.
Defined.
