(* ===== verification/DomainSocket.v ===== *)
(** The connections of domain sockets (domain_socket/connection.cpp): two bounded buffers, one
    for each direction, with a wait queue each. As in Files.v a call that has to wait gives
    [Blocks] and is made again when its thread has been woken, and of a wait queue the number
    of its blocked entries counts. The node itself (domain_socket.cpp) accepts connections
    that nobody can ask for: the body of [connect] is commented out. *)

From S2P Require Import Prelude Storage CircularBuffer Buffers Files.

Definition OM_SERVER : Z := 4.
Definition OM_CLIENT : Z := 8.
Definition CONNECTION_BUFFER_SIZE : Z := 1024.

(** A buffer and its wait queue. *)
Record direction := mkDirection {
  di_buffer : CircularBuffer Z;
  di_waiting : Z
}.

(** [m_server_buffer] holds the bytes for the server, [m_client_buffer] those for the client. *)
Record Connection := mkConnection {
  co_server : direction;
  co_client : direction
}.

Definition Connection_new : Connection :=
  mkConnection (mkDirection (CircularBuffer_new CONNECTION_BUFFER_SIZE) 0) (mkDirection (CircularBuffer_new CONNECTION_BUFFER_SIZE) 0).

Definition with_server (c : Connection) (d : direction) : Connection := mkConnection d (co_client c).
Definition with_client (c : Connection) (d : direction) : Connection := mkConnection (co_server c) d.

Definition di_block (d : direction) (again : bool) : direction :=
  mkDirection (di_buffer d) (if again then di_waiting d else di_waiting d + 1).

(** Other modes are not reachable. *)
Definition Connection_can_read (c : Connection) (mode : Z) : exec bool :=
  if mode =? OM_SERVER then Done (negb (CircularBuffer_is_empty (di_buffer (co_server c))))
  else if mode =? OM_CLIENT then Done (negb (CircularBuffer_is_empty (di_buffer (co_client c))))
  else Panic.

Definition Connection_can_write (c : Connection) (mode : Z) : exec bool :=
  if mode =? OM_SERVER then Done (negb (CircularBuffer_is_full (di_buffer (co_client c))))
  else if mode =? OM_CLIENT then Done (negb (CircularBuffer_is_full (di_buffer (co_server c))))
  else Panic.

(** What the two read functions do with their buffer, and the two write functions: all
    waiting threads are woken after a read, one (which has to exist) after a write. *)
Definition take_bytes (d : direction) (dest : list Z) : exec (Z * list Z * direction) :=
  let size_to_read := Z.min (alen dest) (CircularBuffer_size (di_buffer d)) in
  r ← for_ (Z.to_nat size_to_read) 0
    (fun i '(dest, b) =>
       r ← CircularBuffer_dequeue b;
       dest ← BufferMutableView_set dest i r.1;
       Done (dest, r.2))
    (dest, di_buffer d);
  Done (size_to_read, r.1, mkDirection r.2 0).

Definition put_bytes (d : direction) (src : list Z) : exec (Z * direction) :=
  let size_to_write := Z.min (alen src) (CircularBuffer_available_size (di_buffer d)) in
  b ← for_ (Z.to_nat size_to_write) 0
    (fun i b => x ← BufferView_at (BufferView_of_ptr src) i; CircularBuffer_queue b x) (di_buffer d);
  _ ← ASSERT (0 <? di_waiting d);
  Done (size_to_write, mkDirection b (di_waiting d - 1)).

Definition read_server_buffer (c : Connection) (mode : Z) (again : bool) (dest : list Z)
    : exec (outcome Connection (Z * list Z * Connection)) :=
  ready ← Connection_can_read c mode;
  if negb ready then Done (Blocks (with_server c (di_block (co_server c) again)))
  else '(n, dest, d) ← take_bytes (co_server c) dest; Done (Returns (n, dest, with_server c d)).

Definition read_client_buffer (c : Connection) (mode : Z) (again : bool) (dest : list Z)
    : exec (outcome Connection (Z * list Z * Connection)) :=
  ready ← Connection_can_read c mode;
  if negb ready then Done (Blocks (with_client c (di_block (co_client c) again)))
  else '(n, dest, d) ← take_bytes (co_client c) dest; Done (Returns (n, dest, with_client c d)).

Definition write_client_buffer (c : Connection) (mode : Z) (again : bool) (src : list Z) : exec (outcome Connection (Z * Connection)) :=
  ready ← Connection_can_write c mode;
  if negb ready then Done (Blocks (with_server c (di_block (co_server c) again)))
  else '(n, d) ← put_bytes (co_server c) src; Done (Returns (n, with_server c d)).

Definition write_server_buffer (c : Connection) (mode : Z) (again : bool) (src : list Z) : exec (outcome Connection (Z * Connection)) :=
  ready ← Connection_can_write c mode;
  if negb ready then Done (Blocks (with_client c (di_block (co_client c) again)))
  else '(n, d) ← put_bytes (co_client c) src; Done (Returns (n, with_client c d)).

Definition Connection_read (c : Connection) (mode : Z) (again : bool) (dest : list Z)
    : exec (outcome Connection (Z * list Z * Connection)) :=
  if mode =? OM_SERVER then read_server_buffer c mode again dest
  else if mode =? OM_CLIENT then read_client_buffer c mode again dest
  else Panic.

Definition Connection_write (c : Connection) (mode : Z) (again : bool) (src : list Z) : exec (outcome Connection (Z * Connection)) :=
  if mode =? OM_SERVER then write_server_buffer c mode again src
  else if mode =? OM_CLIENT then write_client_buffer c mode again src
  else Panic.

(** * The node

    [DomainSocket]: connections that have been asked for and not accepted yet, those that have
    been accepted, and the numbers of entries in the two wait queues. A pending connection
    points to an accepted one by its place in the list. [connect] has no body, so that no
    definition changes [ds_pending] but [accept]. *)
Record NewPendingConnection := mkPending {
  is_accepted : bool;
  pending_connection : option nat
}.

Record DomainSocket := mkDomainSocket {
  ds_pending : list NewPendingConnection;
  ds_connections : list Connection;
  ds_server_waiting : Z;
  ds_connections_waiting : Z
}.

Definition NewPendingConnection_new : NewPendingConnection := mkPending false None.
Definition DomainSocket_new : DomainSocket := mkDomainSocket [] [] 0 0.

Definition DomainSocket_open (d : DomainSocket) : Z * DomainSocket := (0, d).
Definition DomainSocket_close (d : DomainSocket) : Z * DomainSocket := (0, d).
Definition DomainSocket_can_accept (d : DomainSocket) : bool := false.

(** The first pending connection is marked, the last one is given the new connection, and one
    thread, which has to exist, is woken. *)
Definition DomainSocket_accept (d : DomainSocket) (again : bool) : exec (outcome DomainSocket (nat * DomainSocket)) :=
  match ds_pending d with
  | [] => Done (Blocks (mkDomainSocket [] (ds_connections d) (if again then ds_server_waiting d else ds_server_waiting d + 1)
                          (ds_connections_waiting d)))
  | first :: rest =>
      let index := length (ds_connections d) in
      let pending := mkPending true (pending_connection first) :: rest in
      let last := Nat.pred (length pending) in
      let pending := alter (fun c => mkPending (is_accepted c) (Some index)) last pending in
      _ ← ASSERT (0 <? ds_connections_waiting d);
      Done (Returns (index, mkDomainSocket pending (ds_connections d ++ [Connection_new]) (ds_server_waiting d) (ds_connections_waiting d - 1)))
  end.

(** Nobody adds a pending connection: every [accept] of a socket that was made waits, however
    often it is woken. *)
Inductive socket_reached : DomainSocket -> Prop :=
  | reached_new : socket_reached DomainSocket_new
  | reached_open d : socket_reached d -> socket_reached (DomainSocket_open d).2
  | reached_close d : socket_reached d -> socket_reached (DomainSocket_close d).2
  | reached_waits d again d' : socket_reached d -> DomainSocket_accept d again = Done (Blocks d') -> socket_reached d'
  | reached_accepted d again i d' : socket_reached d -> DomainSocket_accept d again = Done (Returns (i, d')) -> socket_reached d'.

Lemma reached_nothing_pending d : socket_reached d -> ds_pending d = [] /\ ds_connections d = [].
Proof.
  induction 1 as [|d _ IH|d _ IH|d again d' _ [Hp Hc] E|d again i d' _ [Hp Hc] E]; try done;
    unfold DomainSocket_accept in E; rewrite Hp in E; by simplify_eq/=.
Qed.

Lemma domain_socket_never_accepts d again :
  socket_reached d -> exists d', DomainSocket_accept d again = Done (Blocks d') /\ socket_reached d'.
Proof.
  intros Hd. destruct (reached_nothing_pending d Hd) as [Hp _].
  assert (E : exists d', DomainSocket_accept d again = Done (Blocks d')) by (unfold DomainSocket_accept; rewrite Hp; by eexists).
  destruct E as [d' E]. exists d'. split; [done|]. by eapply reached_waits.
Qed.

(** With two pending connections the first is marked as accepted and the second is given the
    connection. *)
Lemma accept_confuses_connections :
  (r ← DomainSocket_accept (mkDomainSocket [NewPendingConnection_new; NewPendingConnection_new] [] 0 2) false;
   Done (match r with Returns (_, d) => (fun c => (is_accepted c, pending_connection c)) <$> ds_pending d | Blocks _ => [] end)) =
  Done [(true, None); (false, Some 0%nat)].
Proof. vm_compute. reflexivity. Qed.

(** * Two streams *)

Definition di_rep (d : direction) (l : list Z) : Prop :=
  cb_rep (di_buffer d) l /\ cb_capacity (di_buffer d) = CONNECTION_BUFFER_SIZE.

Lemma take_bytes_rep d l dest :
  di_rep d l -> let k := Nat.min (length dest) (length l) in
  exists d', take_bytes d dest = Done (Z.of_nat k, take k l ++ drop k dest, d') /\ di_rep d' (drop k l) /\ di_waiting d' = 0.
Proof.
  intros [Hb Hc] k. unfold take_bytes, CircularBuffer_size. rewrite (rep_size _ _ Hb).
  assert (Hk : Z.min (alen dest) (alen l) = Z.of_nat k) by (unfold k, alen; lia). rewrite Hk, Nat2Z.id.
  assert (Hlk : length (take k l) = k) by (rewrite length_take; lia).
  destruct (dequeue_loop (take k l) (di_buffer d) (drop k l) [] (take k dest) (drop k dest)) as (b' & E & Hb' & Hc').
  - by rewrite take_drop.
  - rewrite !length_take. lia.
  - cbn [app] in E. rewrite (@alen_nil Z), Hlk, take_drop in E. rewrite E. cbn [mbind exec_bind fst snd].
    eexists. split; [done|]. split; [split; cbn; congruence || done|done].
Qed.

Lemma put_bytes_rep d l src :
  di_rep d l -> let k := Nat.min (length src) (Z.to_nat CONNECTION_BUFFER_SIZE - length l) in
  if 0 <? di_waiting d then
    exists d', put_bytes d src = Done (Z.of_nat k, d') /\ di_rep d' (l ++ take k src) /\ di_waiting d' = di_waiting d - 1
  else put_bytes d src = Panic.
Proof.
  intros [Hb Hc] k. unfold put_bytes. pose proof (rep_fits _ _ Hb) as Hf. rewrite (rep_available _ _ Hb), Hc in *.
  assert (Hk : Z.min (alen src) (CONNECTION_BUFFER_SIZE - alen l) = Z.of_nat k) by (unfold k, alen in *; lia).
  rewrite Hk, Nat2Z.id. assert (Hlk : length (take k src) = k) by (rewrite length_take; lia).
  destruct (queue_loop (take k src) (di_buffer d) l [] (drop k src) Hb) as (b' & E & Hb' & Hc').
  - rewrite Hc. unfold alen at 2. rewrite Hlk. lia.
  - cbn [app] in E. rewrite (@alen_nil Z), Hlk, take_drop in E. rewrite E. cbn [mbind exec_bind].
    destruct (0 <? di_waiting d); [|done]. rewrite bind_ASSERT by done. eexists. split; [done|].
    split; [split; cbn; congruence || done|done].
Qed.

(** The calls of the two ends; [true] is the server. *)
Inductive connection_call :=
| ReadEnd (server again : bool) (buffer : list Z)
| WriteEnd (server again : bool) (bytes : list Z).

Definition mode_of (server : bool) : Z := if server then OM_SERVER else OM_CLIENT.

(** The bytes that a call takes and puts. *)
Definition connection_step (c : Connection) (call : connection_call) : exec (list Z * list Z * Connection) :=
  match call with
  | ReadEnd server again buffer =>
      r ← Connection_read c (mode_of server) again buffer;
      Done match r with Returns (n, dest, c) => (take (Z.to_nat n) dest, [], c) | Blocks c => ([], [], c) end
  | WriteEnd server again bytes =>
      r ← Connection_write c (mode_of server) again bytes;
      Done match r with Returns (n, c) => ([], take (Z.to_nat n) bytes, c) | Blocks c => ([], [], c) end
  end.

(** Whether a call is one of the stream to the server, or to the client. *)
Definition to_server (call : connection_call) : bool :=
  match call with ReadEnd server _ _ => server | WriteEnd server _ _ => negb server end.

Definition co_rep (c : Connection) (ls lc : list Z) : Prop := di_rep (co_server c) ls /\ di_rep (co_client c) lc.

(** A call continues its own stream and leaves the other one alone. *)
Lemma connection_step_stream c ls lc call :
  co_rep c ls lc ->
  match connection_step c call with
  | Done (out, put, c') => exists l', (if to_server call then ls else lc) ++ put = out ++ l' /\
      co_rep c' (if to_server call then l' else ls) (if to_server call then lc else l')
  | Panic => exists server again bytes, call = WriteEnd server again bytes
  | _ => False
  end.
Proof.
  intros [Hs Hc]. pose proof Hs as [Hsb Hsc]. pose proof Hc as [Hcb Hcc].
  assert (Hblock : forall d l again, di_rep d l -> di_rep (di_block d again) l) by by intros d l again [H1 H2].
  assert (Hout : forall (l dest : list Z), let k := Nat.min (length dest) (length l) in
    take (Z.to_nat (Z.of_nat k)) (take k l ++ drop k dest) = take k l).
  { intros l dest k. rewrite Nat2Z.id, take_app_le by (rewrite length_take; lia). by rewrite take_take, Nat.min_id. }
  destruct call as [[|] again buf|[|] again bytes]; cbn [connection_step to_server negb].
  - unfold Connection_read, read_server_buffer, Connection_can_read. cbn [mode_of Z.eqb].
    rewrite (rep_is_empty _ _ Hsb). change (OM_SERVER =? OM_SERVER) with true. cbn [mbind exec_bind]. rewrite negb_involutive.
    destruct (Z.eqb_spec (alen ls) 0); [exists ls; rewrite app_nil_r; split; [done|split; [by apply Hblock|done]]|].
    destruct (take_bytes_rep _ _ buf Hs) as (d' & -> & Hd' & _). cbn [mbind exec_bind]. rewrite Hout. eexists.
    split; [by rewrite app_nil_r, take_drop|by split].
  - unfold Connection_read, read_client_buffer, Connection_can_read. cbn [mode_of].
    rewrite (rep_is_empty _ _ Hcb). change (OM_CLIENT =? OM_SERVER) with false. change (OM_CLIENT =? OM_CLIENT) with true.
    cbn [mbind exec_bind]. rewrite negb_involutive.
    destruct (Z.eqb_spec (alen lc) 0); [exists lc; rewrite app_nil_r; split; [done|split; [done|by apply Hblock]]|].
    destruct (take_bytes_rep _ _ buf Hc) as (d' & -> & Hd' & _). cbn [mbind exec_bind]. rewrite Hout. eexists.
    split; [by rewrite app_nil_r, take_drop|by split].
  - unfold Connection_write, write_server_buffer, Connection_can_write. cbn [mode_of].
    rewrite (rep_is_full _ _ Hcb). change (OM_SERVER =? OM_SERVER) with true. cbn [mbind exec_bind]. rewrite negb_involutive.
    destruct (alen lc =? _); [exists lc; rewrite app_nil_r; split; [done|split; [done|by apply Hblock]]|].
    pose proof (put_bytes_rep _ _ bytes Hc) as Hp. destruct (0 <? di_waiting (co_client c)); [|rewrite Hp; by eexists _, _, _].
    destruct Hp as (d' & -> & Hd' & _). cbn [mbind exec_bind]. rewrite Nat2Z.id. eexists. split; [done|by split].
  - unfold Connection_write, write_client_buffer, Connection_can_write. cbn [mode_of].
    rewrite (rep_is_full _ _ Hsb). change (OM_CLIENT =? OM_SERVER) with false. change (OM_CLIENT =? OM_CLIENT) with true.
    cbn [mbind exec_bind]. rewrite negb_involutive.
    destruct (alen ls =? _); [exists ls; rewrite app_nil_r; split; [done|split; [by apply Hblock|done]]|].
    pose proof (put_bytes_rep _ _ bytes Hs) as Hp. destruct (0 <? di_waiting (co_server c)); [|rewrite Hp; by eexists _, _, _].
    destruct Hp as (d' & -> & Hd' & _). cbn [mbind exec_bind]. rewrite Nat2Z.id. eexists. split; [done|by split].
Qed.

(** The bytes out and in of each stream: to the server, and to the client. *)
Fixpoint connection_run (c : Connection) (calls : list connection_call) : exec (list Z * list Z * (list Z * list Z) * Connection) :=
  match calls with
  | [] => Done ([], [], ([], []), c)
  | call :: calls =>
      '(out, put, c) ← connection_step c call;
      '(outs, puts, (outc, putc), c) ← connection_run c calls;
      Done (if to_server call then (out ++ outs, put ++ puts, (outc, putc), c) else (outs, puts, (out ++ outc, put ++ putc), c))
  end.

Lemma connection_run_streams calls : forall c ls lc, co_rep c ls lc ->
  match connection_run c calls with
  | Done (outs, puts, (outc, putc), c') => exists ls' lc', ls ++ puts = outs ++ ls' /\ lc ++ putc = outc ++ lc' /\ co_rep c' ls' lc'
  | Panic => exists server again bytes, WriteEnd server again bytes ∈ calls
  | _ => False
  end.
Proof.
  induction calls as [|call calls IH]; intros c ls lc Hc; cbn [connection_run]; [exists ls, lc; by rewrite !app_nil_r|].
  pose proof (connection_step_stream c ls lc call Hc) as Hs.
  destruct (connection_step c call) as [[[out put] c1]| | |]; try done.
  - destruct Hs as (l' & El & Hc1). specialize (IH c1 _ _ Hc1). cbn [mbind exec_bind].
    destruct (connection_run c1 calls) as [[[[outs puts] [outc putc]] c2]| | |]; try done.
    + destruct IH as (ls' & lc' & Es & Ec & Hc2). cbn [mbind exec_bind].
      destruct (to_server call); exists ls', lc'; (split; [|split; [|done]]); try done; by rewrite app_assoc, El, <- !app_assoc, ?Es, ?Ec.
    + destruct IH as (server & again & bytes & Hin). exists server, again, bytes. by right.
  - destruct Hs as (server & again & bytes & ->). exists server, again, bytes. by left.
Qed.

Lemma Connection_new_rep : co_rep Connection_new [] [].
Proof. split; (split; [apply cb_new_rep; done|done]). Qed.

(** A connection is two streams of bytes: whatever calls the two ends make, each of them
    receives exactly what the other one has put in, in order, and what is still on its way
    is in the buffers; only a write stops the machine, when no thread waits on its buffer. *)
Theorem connection_is_two_streams (calls : list connection_call) :
  match connection_run Connection_new calls with
  | Done (outs, puts, (outc, putc), c) => exists ls lc, puts = outs ++ ls /\ putc = outc ++ lc /\ co_rep c ls lc
  | Panic => exists server again bytes, WriteEnd server again bytes ∈ calls
  | _ => False
  end.
Proof. apply (connection_run_streams calls Connection_new [] [] Connection_new_rep). Qed.
