(* ===== verification/Keyboard.v ===== *)
(** The keyboard (keyboard.cpp): scan codes of the controller become characters of a
    bounded buffer that [read] empties. [kb_waiting] is the number of blocked threads of
    the wait queue; as in Files.v a call that has to wait gives [Blocks]. *)

From S2P Require Import Prelude Storage CircularBuffer Clib Buffers Files.

Definition SHIFT_KEY : Z := 0x2A.

(** The characters of a key, without and with shift. *)
Definition asccode : list (Z * Z) :=
  [(0, 0); (0, 0); (49, 33); (50, 64); (51, 35); (52, 36); (53, 37); (54, 94); (55, 38);
   (56, 42); (57, 40); (48, 41); (45, 95); (61, 43); (8, 8); (9, 9); (113, 81); (119, 87);
   (101, 69); (114, 82); (116, 84); (121, 89); (117, 85); (105, 73); (111, 79); (112, 80); (91, 123);
   (93, 125); (10, 10); (0, 0); (97, 65); (115, 83); (100, 68); (102, 70); (103, 71); (104, 72);
   (106, 74); (107, 75); (108, 76); (59, 58); (39, 34); (96, 126); (0, 0); (92, 124); (122, 90);
   (120, 88); (99, 67); (118, 86); (98, 66); (110, 78); (109, 77); (44, 60); (46, 62); (47, 63);
   (0, 0); (0, 0); (0, 0); (32, 32)].

Record Keyboard := mkKeyboard {
  kb_buffer : CircularBuffer Z;
  is_shift_pressed : bool;
  kb_waiting : Z
}.

Definition KEYBOARD_BUFFER_SIZE : Z := 1024.

Definition Keyboard_new : Keyboard := mkKeyboard (CircularBuffer_new KEYBOARD_BUFFER_SIZE) false 0.

(** Both give a [char]. *)
Definition key_pressed (key : Z) : Z := char_value key.
Definition key_released (key : Z) : Z := char_value (u8 (Z.lor key 0x80)).

Definition Keyboard_can_read (kb : Keyboard) : bool := negb (CircularBuffer_is_empty (kb_buffer kb)).

Definition Keyboard_read (kb : Keyboard) (again : bool) (dest : list Z)
    : exec (outcome Keyboard (Result Z * list Z * Keyboard)) :=
  if negb (Keyboard_can_read kb) then
    Done (Blocks (mkKeyboard (kb_buffer kb) (is_shift_pressed kb) (if again then kb_waiting kb else kb_waiting kb + 1)))
  else
    let size_to_read := Z.min (alen dest) (CircularBuffer_size (kb_buffer kb)) in
    r ← for_ (Z.to_nat size_to_read) 0
      (fun i '(dest, b) =>
         r ← CircularBuffer_dequeue b;
         dest ← BufferMutableView_set dest i r.1;
         Done (dest, r.2))
      (dest, kb_buffer kb);
    Done (Returns (Value size_to_read, r.1, mkKeyboard r.2 (is_shift_pressed kb) (kb_waiting kb))).

(** [data] is an [unsigned char]. *)
Definition Keyboard_enqueue_keystoke (kb : Keyboard) (data : Z) : exec Keyboard :=
  if data =? key_pressed SHIFT_KEY then Done (mkKeyboard (kb_buffer kb) true (kb_waiting kb))
  else if data =? key_released SHIFT_KEY then Done (mkKeyboard (kb_buffer kb) false (kb_waiting kb))
  else if Z.land data 0x80 =? 0 then
    b ← (if CircularBuffer_is_full (kb_buffer kb) then r ← CircularBuffer_dequeue (kb_buffer kb); Done r.2
         else Done (kb_buffer kb));
    codes ← aget asccode data;
    b ← CircularBuffer_queue b (if is_shift_pressed kb then codes.2 else codes.1);
    Done (mkKeyboard b (is_shift_pressed kb) 0)
  else Done kb.

(** The interrupt handler reads the data port. *)
Definition keyboard_driver_handler (current_instance : option Keyboard) (port_data : Z) : exec (option Keyboard) :=
  match current_instance with
  | None => Panic
  | Some kb => kb ← Keyboard_enqueue_keystoke kb port_data; Done (Some kb)
  end.

(** * Characters in order *)

(** What happens to a keyboard: a scan code arrives, or a thread reads. *)
Inductive keyboard_event := Stroke (data : Z) | ReadKeys (again : bool) (buffer : list Z).

(** One event; the characters that a reader gets. *)
Definition keyboard_step (kb : Keyboard) (e : keyboard_event) : exec (list Z * Keyboard) :=
  match e with
  | Stroke data => kb ← Keyboard_enqueue_keystoke kb data; Done ([], kb)
  | ReadKeys again buffer =>
      r ← Keyboard_read kb again buffer;
      Done match r with
           | Returns (Value k, dest, kb) => (take (Z.to_nat k) dest, kb)
           | Returns (Error _, _, kb) | Blocks kb => ([], kb)
           end
  end.

Fixpoint keyboard_run (kb : Keyboard) (es : list keyboard_event) : exec (list Z * Keyboard) :=
  match es with
  | [] => Done ([], kb)
  | e :: es => '(out, kb) ← keyboard_step kb e; r ← keyboard_run kb es; Done (out ++ r.1, r.2)
  end.

(** The characters of a key code. *)
Definition key_char (shift : bool) (data : Z) : Z :=
  let codes := default (0, 0) (asccode !! Z.to_nat data) in if shift then codes.2 else codes.1.

(** The keyboard as a list: shift stays pressed, releases say nothing, and a new
    character pushes out the oldest one of 1024. *)
Definition keys_step (s : bool * list Z) (e : keyboard_event) : list Z * (bool * list Z) :=
  let '(shift, l) := s in
  match e with
  | Stroke data =>
      if data =? SHIFT_KEY then ([], (true, l))
      else if 0x80 <=? data then ([], (shift, l))
      else
        let l' := if alen l =? KEYBOARD_BUFFER_SIZE then tail l else l in
        ([], (shift, l' ++ [key_char shift data]))
  | ReadKeys _ buffer => (take (length buffer) l, (shift, drop (length buffer) l))
  end.

Fixpoint keys_run (s : bool * list Z) (es : list keyboard_event) : list Z * (bool * list Z) :=
  match es with
  | [] => ([], s)
  | e :: es => let '(out, s) := keys_step s e in let '(out', s) := keys_run s es in (out ++ out', s)
  end.

(** A code that the table has, or one of a released key. *)
Definition event_ok (e : keyboard_event) : Prop :=
  match e with
  | Stroke data => 0 <= data < alen asccode \/ 0x80 <= data < 0x100
  | ReadKeys _ _ => True
  end.

Definition keyboard_rep (kb : Keyboard) (s : bool * list Z) : Prop :=
  cb_rep (kb_buffer kb) s.2 /\ cb_capacity (kb_buffer kb) = KEYBOARD_BUFFER_SIZE /\ is_shift_pressed kb = s.1.

Lemma keystroke_rep kb shift l data :
  keyboard_rep kb (shift, l) -> event_ok (Stroke data) ->
  exists kb', Keyboard_enqueue_keystoke kb data = Done kb' /\ keyboard_rep kb' (keys_step (shift, l) (Stroke data)).2.
Proof.
  intros (Hb & Hc & Hs) Hd. cbn [fst snd] in Hb, Hs. unfold Keyboard_enqueue_keystoke, keys_step.
  change (key_pressed SHIFT_KEY) with SHIFT_KEY. change (key_released SHIFT_KEY) with (-86).
  cbn [event_ok] in Hd. change (alen asccode) with 58 in Hd.
  destruct (Z.eqb_spec data SHIFT_KEY); [by eexists|]. rewrite (proj2 (Z.eqb_neq data (-86))) by lia.
  rewrite high_bit_clear by lia. destruct (Z.leb_spec 0x80 data).
  - rewrite (proj2 (Z.ltb_ge _ _)) by lia. by eexists.
  - rewrite (proj2 (Z.ltb_lt _ _)) by lia. rewrite (rep_is_full _ _ Hb), Hc.
    destruct (lookup_lt_is_Some_2 asccode (Z.to_nat data)) as [codes Hcodes]; [change (length asccode) with 58%nat; lia|].
    rewrite (aget_Done asccode data codes) by (done || lia).
    assert (Hk : key_char shift data = if is_shift_pressed kb then codes.2 else codes.1).
    { unfold key_char. by rewrite Hcodes, Hs. }
    assert (Hroom : exists b l', (if alen l =? KEYBOARD_BUFFER_SIZE then r ← CircularBuffer_dequeue (kb_buffer kb); Done r.2
         else Done (kb_buffer kb)) = Done b /\ l' = (if alen l =? KEYBOARD_BUFFER_SIZE then tail l else l) /\
         cb_rep b l' /\ cb_capacity b = KEYBOARD_BUFFER_SIZE /\ alen l' < KEYBOARD_BUFFER_SIZE).
    { destruct (Z.eqb_spec (alen l) KEYBOARD_BUFFER_SIZE) as [Hl|Hl].
      - destruct l as [|x l]; [done|]. destruct (dequeue_rep _ l x Hb) as (b & -> & Hb' & Hc').
        exists b, l. rewrite alen_cons in Hl. split; [done|]. split; [done|]. split; [done|]. split; [congruence|lia].
      - eexists _, l. pose proof (rep_fits _ _ Hb). split; [done|]. split; [done|]. split; [done|]. split; [done|lia]. }
    destruct Hroom as (b & l' & -> & El & Hb' & Hc' & Hlt). cbn [mbind exec_bind].
    destruct (queue_rep b l' (key_char shift data) Hb') as (b' & E & Hb'' & Hc''); [lia|].
    rewrite Hk in E, Hb''. rewrite E. cbn [mbind exec_bind]. eexists. split; [done|]. rewrite <- El, <- Hk in *.
    split; [done|]. split; [cbn [kb_buffer]; congruence|done].
Qed.

Lemma keyboard_read_rep kb shift l again buffer :
  keyboard_rep kb (shift, l) ->
  exists kb', keyboard_step kb (ReadKeys again buffer) = Done (take (length buffer) l, kb') /\
    keyboard_rep kb' (shift, drop (length buffer) l).
Proof.
  intros (Hb & Hc & Hs). cbn [fst snd] in Hb, Hs. cbn [keyboard_step]. unfold Keyboard_read, Keyboard_can_read.
  rewrite (rep_is_empty _ _ Hb), negb_involutive. destruct (Z.eqb_spec (alen l) 0) as [Hl|Hl].
  - destruct l; [|rewrite alen_cons in Hl; pose proof (alen_nonneg l); lia]. rewrite take_nil, drop_nil.
    cbn [mbind exec_bind]. by eexists.
  - unfold CircularBuffer_size. rewrite (rep_size _ _ Hb). set (k := Nat.min (length buffer) (length l)).
    assert (Hk : Z.min (alen buffer) (alen l) = Z.of_nat k) by (unfold k, alen; lia). rewrite Hk, Nat2Z.id.
    assert (Hlk : length (take k l) = k) by (rewrite length_take; lia).
    destruct (dequeue_loop (take k l) (kb_buffer kb) (drop k l) [] (take k buffer) (drop k buffer)) as (b' & E & Hb' & Hc').
    + by rewrite take_drop.
    + rewrite !length_take. lia.
    + cbn [app] in E. rewrite (@alen_nil Z), Hlk, take_drop in E. rewrite E. cbn [mbind exec_bind fst snd].
      rewrite Nat2Z.id, take_app_le, take_ge by lia.
      assert (Et : take k l = take (length buffer) l /\ drop k l = drop (length buffer) l).
      { unfold k. destruct (Nat.min_spec (length buffer) (length l)) as [[? ->]|[? ->]]; [done|].
        by rewrite !take_ge, !drop_ge by lia. }
      destruct Et as [<- <-]. eexists. split; [done|]. split; [done|]. split; [cbn [kb_buffer]; congruence|done].
Qed.

Lemma keyboard_run_rep es : forall kb s,
  keyboard_rep kb s -> Forall event_ok es ->
  exists kb', keyboard_run kb es = Done ((keys_run s es).1, kb') /\ keyboard_rep kb' (keys_run s es).2.
Proof.
  induction es as [|e es IH]; intros kb [shift l] Hkb Hes; [by exists kb|]. apply Forall_cons in Hes as [He Hes].
  assert (Hstep : exists kb', keyboard_step kb e = Done ((keys_step (shift, l) e).1, kb') /\
    keyboard_rep kb' (keys_step (shift, l) e).2).
  { destruct e as [data|again buffer]; [|by apply keyboard_read_rep].
    destruct (keystroke_rep kb shift l data Hkb He) as (kb' & E & Hkb'). exists kb'. split; [|done].
    cbn [keyboard_step]. rewrite E. cbn [mbind exec_bind keys_step]. by repeat case_match. }
  destruct Hstep as (kb1 & E1 & Hkb1). cbn [keyboard_run keys_run]. rewrite E1. cbn [mbind exec_bind].
  destruct (keys_step (shift, l) e) as [out s1]. cbn [fst snd] in *.
  destruct (IH kb1 s1 Hkb1 Hes) as (kb' & E' & Hkb'). rewrite E'. cbn [mbind exec_bind].
  destruct (keys_run s1 es) as [out' s']. by exists kb'.
Qed.

(** The characters of the keys pressed in [es]. *)
Fixpoint typed (shift : bool) (es : list keyboard_event) : list Z :=
  match es with
  | [] => []
  | Stroke data :: es =>
      if data =? SHIFT_KEY then typed true es
      else if 0x80 <=? data then typed shift es
      else key_char shift data :: typed shift es
  | ReadKeys _ _ :: es => typed shift es
  end.

Lemma keys_kept es : forall shift l,
  alen l + alen (typed shift es) <= KEYBOARD_BUFFER_SIZE ->
  (keys_run (shift, l) es).1 ++ (keys_run (shift, l) es).2.2 = l ++ typed shift es.
Proof.
  induction es as [|[data|again buffer] es IH]; intros shift l Hl; [by rewrite app_nil_r| |];
    cbn [typed keys_run keys_step] in *.
  - destruct (data =? SHIFT_KEY); [|destruct (0x80 <=? data)].
    + specialize (IH true l Hl). by destruct (keys_run (true, l) es).
    + specialize (IH shift l Hl). by destruct (keys_run (shift, l) es).
    + rewrite alen_cons in Hl. pose proof (alen_nonneg (typed shift es)).
      rewrite (proj2 (Z.eqb_neq _ _)) by lia. specialize (IH shift (l ++ [key_char shift data])).
      rewrite alen_snoc in IH. specialize (IH ltac:(lia)).
      destruct (keys_run (shift, l ++ [key_char shift data]) es). cbn [fst snd app] in *. by rewrite IH, <- app_assoc.
  - specialize (IH shift (drop (length buffer) l)). unfold alen in Hl at 1. unfold alen in IH at 1.
    rewrite length_drop in IH. specialize (IH ltac:(lia)).
    destruct (keys_run (shift, drop (length buffer) l) es). cbn [fst snd] in *.
    by rewrite <- app_assoc, IH, app_assoc, take_drop.
Qed.

Lemma shift_stays es : forall l, (keys_run (true, l) es).2.1 = true.
Proof.
  induction es as [|[data|again buffer] es IH]; intros l; [done| |]; cbn [keys_run keys_step].
  - destruct (data =? SHIFT_KEY); [|destruct (0x80 <=? data)].
    1-2: specialize (IH l); by destruct (keys_run (true, l) es).
    set (l' := _ ++ _). specialize (IH l'). by destruct (keys_run (true, l') es).
  - specialize (IH (drop (length buffer) l)). by destruct (keys_run _ es).
Qed.

(** C38: the keyboard. For any sequence of scan codes, of keys that the table has and of
    released keys, and of reads in between, readers get the characters of the keys in
    order, as from a list that forgets its oldest character when 1024 are waiting; as long
    as at most 1024 are typed none is lost, those handed out followed by those waiting are
    those typed. A code from 58 on, as of the function keys, reads outside the table. Once
    shift is pressed it stays pressed: its release, 0xAA, is compared with a negative
    [char]. *)
Theorem keyboard_delivers_keys (es : list keyboard_event) (data : Z)
    (Hes : Forall event_ok es) (Hdata : 58 <= data < 0x80) :
  exists kb, keyboard_run Keyboard_new es = Done ((keys_run (false, []) es).1, kb) /\
    keyboard_rep kb (keys_run (false, []) es).2 /\
    (alen (typed false es) <= KEYBOARD_BUFFER_SIZE ->
     (keys_run (false, []) es).1 ++ (keys_run (false, []) es).2.2 = typed false es) /\
    Keyboard_enqueue_keystoke kb data = Fault /\
    (forall es', Forall event_ok es' -> exists out kb',
       keyboard_run kb (Stroke SHIFT_KEY :: es') = Done (out, kb') /\ is_shift_pressed kb' = true).
Proof.
  destruct (keyboard_run_rep es Keyboard_new (false, [])) as (kb & E & Hkb); [|done|].
  { split; [by apply cb_new_rep|]. by split. }
  exists kb. split; [done|]. split; [done|]. split; [intros Ht; by apply (keys_kept es false [])|].
  destruct (keys_run (false, []) es) as [out [shift l]]. cbn [fst snd] in *. split.
  - pose proof Hkb as (Hb & Hc & _). cbn [fst snd] in Hb. unfold Keyboard_enqueue_keystoke.
    change (key_pressed SHIFT_KEY) with 42. change (key_released SHIFT_KEY) with (-86).
    rewrite !(proj2 (Z.eqb_neq _ _)) by lia.
    rewrite high_bit_clear, (proj2 (Z.ltb_lt _ _)) by lia. rewrite (rep_is_full _ _ Hb), Hc. change (alen asccode) with 58.
    rewrite (aget_out_of_range asccode) by (change (alen asccode) with 58; lia).
    destruct (Z.eqb_spec (alen l) KEYBOARD_BUFFER_SIZE) as [Hl|]; [|done]. destruct l as [|x l]; [done|].
    by destruct (dequeue_rep _ l x Hb) as (b & -> & _).
  - intros es' Hes'. destruct (keyboard_run_rep (Stroke SHIFT_KEY :: es') kb (shift, l) Hkb) as (kb' & E' & _ & _ & Hs).
    { apply Forall_cons. split; [|done]. left. done. }
    eexists _, kb'. split; [exact E'|]. rewrite Hs. cbn [keys_run keys_step]. rewrite Z.eqb_refl.
    pose proof (shift_stays es' l) as H. by destruct (keys_run (true, l) es').
Qed.

(** "a", shift pressed, "a" and shift released: a reader gets "aA", and the next "a" is "A". *)
Lemma keyboard_delivers_keys_witness :
  exists kb, keyboard_run Keyboard_new [Stroke 30; Stroke 42; Stroke 30; Stroke 0xAA; ReadKeys false [0; 0; 0]; Stroke 30]
             = Done ([97; 65], kb) /\ is_shift_pressed kb = true /\ Keyboard_enqueue_keystoke kb 59 = Fault.
Proof.
  destruct (keyboard_delivers_keys [Stroke 30; Stroke 42; Stroke 30; Stroke 0xAA; ReadKeys false [0; 0; 0]; Stroke 30] 59)
    as (kb & E & (_ & _ & Hs) & _ & Hf & _).
  - repeat (apply Forall_cons; split; [(left; split; done) || (right; split; done) || done|]). by apply Forall_nil.
  - done.
  - exists kb. split; [exact E|]. split; [exact Hs|exact Hf].
Defined.
