(* ===== verification/Console.v ===== *)
(** The text console (console.cpp). The mapped video memory is the array of its cells: the
    page at [VGATEXTMODE_BUFFER], 0x1000 bytes, has room for 2048 of them, of which the
    screen shows 80 times 25. *)

From S2P Require Import Prelude Clib Buffers.

Definition VGA_WIDTH : Z := 80.
Definition VGA_HEIGHT : Z := 25.
Definition VGA_CELLS : Z := 2048.

Definition VGA_COLOR_BLACK : Z := 0.
Definition VGA_COLOR_WHITE : Z := 15.

Record Console := mkConsole {
  m_video_ram : list Z;
  m_vPosition : Z;
  m_hPosition : Z;
  m_charColor : Z
}.

Definition set_ram (c : Console) (ram : list Z) : Console := mkConsole ram (m_vPosition c) (m_hPosition c) (m_charColor c).
Definition set_position (c : Console) (v h : Z) : Console := mkConsole (m_video_ram c) v h (m_charColor c).

Definition Console_open (c : Console) : Z := ERROR_SUCCESS.
Definition Console_close (c : Console) : Z := ERROR_SUCCESS.
Definition Console_can_write (c : Console) : bool := true.

(** The cell of the current position. *)
Definition here (c : Console) : Z := m_hPosition c + m_vPosition c * VGA_WIDTH.

Definition put_cell (c : Console) (index cell : Z) : exec Console :=
  ram ← aset (m_video_ram c) index cell; Done (set_ram c ram).

Definition vga_entry_color (fg bg : Z) : Z := u8 (Z.lor fg (Z.shiftl bg 4)).
Definition vga_entry (uc color : Z) : Z := u16 (Z.lor uc (Z.shiftl color 8)).

Definition Console_clearScreen (c : Console) : exec Console :=
  ram ← for_ (Z.to_nat VGA_WIDTH) 0
    (fun i ram => for_ (Z.to_nat VGA_HEIGHT) 0 (fun i2 ram => aset ram (i + i2 * VGA_WIDTH) 0) ram)
    (m_video_ram c);
  Done (mkConsole ram 0 0 (m_charColor c)).

(** The video memory [ram] is mapped; its old contents are kept by the mapping. *)
Definition Console_initiate_console (ram : list Z) : exec Console := Console_clearScreen (mkConsole ram 0 0 0x0F).

Definition Console_set_color (c : Console) (color backcolor : Z) : Console :=
  mkConsole (m_video_ram c) (m_vPosition c) (m_hPosition c) (vga_entry_color color backcolor).

(** The rows are copied one after the other, and the last one is cleared. *)
Definition Console_page_up (c : Console) : exec Console :=
  ram ← for_ (Z.to_nat (VGA_HEIGHT - 1)) 0
    (fun i ram => memcpy ram (VGA_WIDTH * i) ram (VGA_WIDTH * (i + 1)) VGA_WIDTH)
    (m_video_ram c);
  ram ← memset ram (VGA_WIDTH * (VGA_HEIGHT - 1)) 0 VGA_WIDTH;
  Done (set_ram c ram).

Definition Console_update_cursor (c : Console) : exec Console :=
  put_cell c (here c) (vga_entry 0 (vga_entry_color VGA_COLOR_BLACK VGA_COLOR_WHITE)).

(** [if (m_hPosition != VGA_WIDTH) m_video_ram[...] = 0;] *)
Definition clear_cursor (c : Console) : exec Console :=
  if negb (m_hPosition c =? VGA_WIDTH) then put_cell c (here c) 0 else Done c.

Definition Console_insert_new_line (c : Console) : exec Console :=
  c ← clear_cursor c;
  Done (set_position c (m_vPosition c + 1) 0).

Definition Console_insert_character (c : Console) (str : Z) : exec Console :=
  c ← put_cell c (here c) (vga_entry str (m_charColor c));
  let h := (m_hPosition c + 1) mod VGA_WIDTH in
  Done (set_position c (m_vPosition c + (if h =? 0 then 1 else 0)) h).

(** Back over the empty cells; each turn moves one cell back, or leaves at the first one. *)
Definition Console_insert_back_space (c : Console) : exec Console :=
  c ← clear_cursor c;
  c ← while (S (Z.to_nat (here c)))
    (fun c =>
       if 0 <? m_hPosition c then
         let c := set_position c (m_vPosition c) (m_hPosition c - 1) in
         cell ← aget (m_video_ram c) (here c);
         if cell =? 0 then Done (inl c) else Done (inr c)
       else if (m_hPosition c =? 0) && (0 <? m_vPosition c) then
         let c := set_position c (m_vPosition c - 1) (VGA_WIDTH - 1) in
         cell ← aget (m_video_ram c) (here c);
         if cell =? 0 then Done (inl c) else Done (inr c)
       else Done (inr c))
    c;
  put_cell c (here c) 0.

Definition Console_put_char (c : Console) (str : Z) : exec Console :=
  c ← (if m_vPosition c =? VGA_HEIGHT then
         c ← Console_page_up c; Done (set_position c (m_vPosition c - 1) (m_hPosition c))
       else Done c);
  c ← (if str =? 10 then Console_insert_new_line c
       else if str =? 8 then Console_insert_back_space c
       else if str =? 9 then for_ 4 0 (fun _ c => Console_insert_character c 32) c
       else Console_insert_character c str);
  Console_update_cursor c.

(** Gives the number of characters. *)
Definition Console_write (c : Console) (buff : list Z) : exec (Z * Console) :=
  c ← for_ (length buff) 0 (fun i c => x ← BufferView_at (BufferView_of_ptr buff) i; Console_put_char c x) c;
  Done (alen buff, c).

(** The line is cleared from its end, and the empty ones before it. *)
Definition Console_remove_line (c : Console) : exec Console :=
  c ← while (S (Z.to_nat (here c)))
    (fun c =>
       c ← clear_cursor c;
       if 0 <? m_hPosition c then
         let c := set_position c (m_vPosition c) (m_hPosition c - 1) in
         cell ← aget (m_video_ram c) (here c);
         if (cell =? 0) || negb (m_hPosition c =? 0) then Done (inl c) else Done (inr c)
       else if (m_hPosition c =? 0) && (0 <? m_vPosition c) then
         let c := set_position c (m_vPosition c - 1) (VGA_WIDTH - 1) in
         cell ← aget (m_video_ram c) (here c);
         if (cell =? 0) || negb (m_hPosition c =? 0) then Done (inl c) else Done (inr c)
       else Done (inr c))
    c;
  put_cell c (here c) 0.

(** * The video memory *)

Lemma memset_lookup (dst : list Z) (d x n : Z) :
  0 <= d -> 0 <= n -> d + n <= alen dst ->
  exists dst', memset dst d x n = Done dst' /\ alen dst' = alen dst /\
    forall k, dst' !! k = if bool_decide (d <= Z.of_nat k < d + n) then Some x else dst !! k.
Proof.
  intros Hd Hn Hl. unfold memset. match goal with |- context [for_ ?m ?lo ?body ?st] =>
    destruct (for_inv (fun i l => alen l = alen dst /\
      forall k, l !! k = if bool_decide (d <= Z.of_nat k < d + i) then Some x else dst !! k) body m lo st)
      as (l & E & Hll & Hk) end.
  - split; [done|]. intros k. rewrite bool_decide_eq_false_2; [done|lia].
  - intros j l Hj [Hll Hk]. rewrite aset_Done by lia. eexists. split; [done|]. rewrite alen_insert. split; [done|].
    intros k. destruct (decide (k = Z.to_nat (d + j))) as [->|Hne].
    + rewrite list_lookup_insert_eq by (unfold alen in *; lia). rewrite bool_decide_eq_true_2; [done|lia].
    + rewrite list_lookup_insert_ne by done. rewrite Hk. do 2 case_bool_decide; (done || lia).
  - exists l. rewrite Z.add_0_l, Z2Nat.id in Hk by lia. done.
Qed.

Lemma memcpy_lookup (dst src : list Z) (d s n : Z) :
  0 <= d -> 0 <= s -> 0 <= n -> d + n <= alen dst -> s + n <= alen src ->
  exists dst', memcpy dst d src s n = Done dst' /\ alen dst' = alen dst /\
    forall k, dst' !! k = if bool_decide (d <= Z.of_nat k < d + n) then src !! Z.to_nat (s + Z.of_nat k - d) else dst !! k.
Proof.
  intros Hd Hs Hn Hl Hls. unfold memcpy. match goal with |- context [for_ ?m ?lo ?body ?st] =>
    destruct (for_inv (fun i l => alen l = alen dst /\
      forall k, l !! k = if bool_decide (d <= Z.of_nat k < d + i) then src !! Z.to_nat (s + Z.of_nat k - d) else dst !! k)
      body m lo st) as (l & E & Hll & Hk) end.
  - split; [done|]. intros k. rewrite bool_decide_eq_false_2; [done|lia].
  - intros j l Hj [Hll Hk]. destruct (aget_in_range src (s + j)) as (x & -> & Hx); [lia|]. cbn [mbind exec_bind].
    rewrite aset_Done by lia. eexists. split; [done|]. rewrite alen_insert. split; [done|].
    intros k. destruct (decide (k = Z.to_nat (d + j))) as [->|Hne].
    + rewrite list_lookup_insert_eq by (unfold alen in *; lia). rewrite bool_decide_eq_true_2 by lia.
      rewrite <- Hx. f_equal. lia.
    + rewrite list_lookup_insert_ne by done. rewrite Hk. do 2 case_bool_decide; (done || lia).
  - exists l. rewrite Z.add_0_l, Z2Nat.id in Hk by lia. done.
Qed.

(** The cell of a row and a column. *)
Definition cell (c : Console) (i j : Z) : option Z := m_video_ram c !! Z.to_nat (j + i * VGA_WIDTH).

(** The position is on the screen, or at the start of the row behind it. *)
Record console_ok (c : Console) (slack : Z) : Prop := {
  co_ram : alen (m_video_ram c) = VGA_CELLS;
  co_h : 0 <= m_hPosition c < VGA_WIDTH;
  co_v : 0 <= m_vPosition c <= VGA_HEIGHT;
  co_low : m_vPosition c = VGA_HEIGHT -> m_hPosition c < slack
}.

Lemma page_up_spec c :
  alen (m_video_ram c) = VGA_CELLS ->
  exists c', Console_page_up c = Done c' /\ alen (m_video_ram c') = VGA_CELLS /\
    m_vPosition c' = m_vPosition c /\ m_hPosition c' = m_hPosition c /\ m_charColor c' = m_charColor c /\
    forall i j, 0 <= i < VGA_HEIGHT -> 0 <= j < VGA_WIDTH ->
      cell c' i j = if bool_decide (i = VGA_HEIGHT - 1) then Some 0 else cell c (i + 1) j.
Proof.
  intros Hl. unfold Console_page_up, VGA_HEIGHT, VGA_WIDTH, VGA_CELLS in *.
  match goal with |- context [for_ ?m ?lo ?body ?st] =>
    destruct (for_inv (fun i l => alen l = 2048 /\
      forall k, (k < 2000)%nat -> l !! k = if bool_decide (Z.of_nat k < 80 * i) then m_video_ram c !! (k + 80)%nat else m_video_ram c !! k)
      body m lo st) as (l & E & Hll & Hk) end.
  - split; [done|]. intros k Hk. rewrite bool_decide_eq_false_2; [done|lia].
  - intros r l Hr [Hll Hk]. destruct (memcpy_lookup l l (80 * r) (80 * (r + 1)) 80) as (l' & -> & Hl' & Hk'); [lia..|].
    exists l'. split; [done|]. split; [lia|]. intros k Hk2. rewrite Hk'.
    case_bool_decide; [rewrite bool_decide_eq_true_2 by lia; rewrite Hk, bool_decide_eq_false_2 by lia; f_equal; lia|].
    rewrite Hk by done. do 2 case_bool_decide; (done || lia).
  - rewrite E. cbn [mbind exec_bind]. change (0 + Z.of_nat (Z.to_nat (25 - 1))) with 24 in *.
    destruct (memset_lookup l (80 * (25 - 1)) 0 80) as (l' & -> & Hl' & Hk'); [lia..|]. cbn [mbind exec_bind].
    eexists. split; [done|]. split; [cbn [m_video_ram set_ram]; lia|]. do 3 (split; [done|]). intros i j Hi Hj.
    unfold cell, VGA_WIDTH. cbn [m_video_ram set_ram]. rewrite Hk'. case_bool_decide as H1; case_bool_decide as H2; try lia; [done|].
    rewrite Hk, bool_decide_eq_true_2 by lia. f_equal. lia.
Qed.

Lemma put_cell_spec c i j x :
  alen (m_video_ram c) = VGA_CELLS -> 0 <= i -> 0 <= j < VGA_WIDTH -> j + i * VGA_WIDTH < VGA_CELLS ->
  exists c', put_cell c (j + i * VGA_WIDTH) x = Done c' /\ alen (m_video_ram c') = VGA_CELLS /\
    m_vPosition c' = m_vPosition c /\ m_hPosition c' = m_hPosition c /\ m_charColor c' = m_charColor c /\
    forall i' j', 0 <= i' -> 0 <= j' < VGA_WIDTH ->
      cell c' i' j' = if bool_decide (i' = i /\ j' = j) then Some x else cell c i' j'.
Proof.
  intros Hl Hi Hj Hb. unfold put_cell. unfold VGA_WIDTH in *. rewrite aset_Done by lia. cbn [mbind exec_bind].
  eexists. split; [done|]. cbn [set_ram m_video_ram]. rewrite alen_insert. do 4 (split; [done|]). intros i' j' Hi' Hj'.
  unfold cell, VGA_WIDTH. cbn [set_ram m_video_ram]. case_bool_decide as H.
  - destruct H as [-> ->]. rewrite list_lookup_insert_eq by (unfold alen in *; lia). done.
  - rewrite list_lookup_insert_ne by lia. done.
Qed.

(** * Staying in the mapped page *)

Lemma clear_cursor_spec c slack :
  console_ok c slack -> slack <= 48 ->
  exists c', clear_cursor c = Done c' /\ console_ok c' slack /\
    m_vPosition c' = m_vPosition c /\ m_hPosition c' = m_hPosition c /\ m_charColor c' = m_charColor c /\
    forall i j, 0 <= i -> 0 <= j < VGA_WIDTH ->
      cell c' i j = if bool_decide (i = m_vPosition c /\ j = m_hPosition c) then Some 0 else cell c i j.
Proof.
  intros [Hl Hh Hv Hlow] Hs. unfold clear_cursor. rewrite (proj2 (Z.eqb_neq _ _)) by lia. cbn [negb].
  destruct (put_cell_spec c (m_vPosition c) (m_hPosition c) 0) as (c' & E & Hl' & Ev & Eh & Ec & Hc); [done|lia|done| |].
  { unfold VGA_HEIGHT, VGA_WIDTH, VGA_CELLS in *. destruct (Z.eq_dec (m_vPosition c) 25); lia. }
  exists c'. split; [exact E|]. split; [|done]. split; [done|by rewrite Eh|by rewrite Ev|by rewrite Ev, Eh].
Qed.

Lemma insert_character_spec c slack x :
  console_ok c slack -> 0 <= slack < 48 ->
  exists c', Console_insert_character c x = Done c' /\ console_ok c' (slack + 1) /\ m_charColor c' = m_charColor c /\
    m_hPosition c' = (if m_hPosition c =? VGA_WIDTH - 1 then 0 else m_hPosition c + 1) /\
    m_vPosition c' = (if m_hPosition c =? VGA_WIDTH - 1 then m_vPosition c + 1 else m_vPosition c) /\
    forall i j, 0 <= i -> 0 <= j < VGA_WIDTH ->
      cell c' i j = if bool_decide (i = m_vPosition c /\ j = m_hPosition c) then Some (vga_entry x (m_charColor c))
                    else cell c i j.
Proof.
  intros [Hl Hh Hv Hlow] Hs. unfold Console_insert_character.
  destruct (put_cell_spec c (m_vPosition c) (m_hPosition c) (vga_entry x (m_charColor c)))
    as (c' & E & Hl' & Ev & Eh & Ec & Hc); [done|lia|done| |].
  { unfold VGA_HEIGHT, VGA_WIDTH, VGA_CELLS in *. destruct (Z.eq_dec (m_vPosition c) 25); lia. }
  unfold here. rewrite E. cbn [mbind exec_bind]. eexists. split; [done|]. rewrite Eh, Ev.
  assert (Hmod : (m_hPosition c + 1) mod VGA_WIDTH = if m_hPosition c =? VGA_WIDTH - 1 then 0 else m_hPosition c + 1).
  { unfold VGA_WIDTH in *. case_test; [subst|]; [|apply Z.mod_small; lia]. by replace (m_hPosition c) with 79 by lia. }
  rewrite Hmod. unfold VGA_HEIGHT, VGA_WIDTH in *.
  assert (Hz : ((if m_hPosition c =? 80 - 1 then 0 else m_hPosition c + 1) =? 0) = (m_hPosition c =? 80 - 1)).
  { repeat case_test; lia. }
  rewrite Hz. split; [|split; [done|split; [done|split; [|done]]]].
  - split; cbn [set_position m_video_ram m_hPosition m_vPosition]; unfold VGA_WIDTH, VGA_HEIGHT; [done|case_test; lia..].
  - cbn [set_position m_vPosition]. case_test; lia.
Qed.

Lemma insert_new_line_spec c slack :
  console_ok c slack -> slack <= 48 -> 0 < slack -> m_vPosition c < VGA_HEIGHT ->
  exists c', Console_insert_new_line c = Done c' /\ console_ok c' slack /\ m_charColor c' = m_charColor c /\
    m_hPosition c' = 0 /\ m_vPosition c' = m_vPosition c + 1 /\
    forall i j, 0 <= i -> 0 <= j < VGA_WIDTH ->
      cell c' i j = if bool_decide (i = m_vPosition c /\ j = m_hPosition c) then Some 0 else cell c i j.
Proof.
  intros Hok Hs Hs0 Hv. unfold Console_insert_new_line.
  destruct (clear_cursor_spec c slack Hok Hs) as (c' & -> & [Hl' Hh' Hv' Hlow'] & Ev & Eh & Ec & Hc). cbn [mbind exec_bind].
  eexists. split; [done|]. rewrite Ev. split; [|done]. unfold VGA_HEIGHT, VGA_WIDTH in *.
  split; cbn [set_position m_video_ram m_hPosition m_vPosition]; unfold VGA_WIDTH, VGA_HEIGHT; (done || lia).
Qed.

Lemma insert_back_space_spec c slack :
  console_ok c slack -> slack <= 48 -> m_vPosition c < VGA_HEIGHT ->
  exists c', Console_insert_back_space c = Done c' /\ console_ok c' slack /\ m_charColor c' = m_charColor c /\
    m_vPosition c' < VGA_HEIGHT.
Proof.
  intros Hok Hs Hv. unfold Console_insert_back_space.
  destruct (clear_cursor_spec c slack Hok Hs) as (c1 & -> & Hok1 & Ev & Eh & Ec & _). cbn [mbind exec_bind].
  set (inv := fun c' => console_ok c' slack /\ m_charColor c' = m_charColor c /\ m_vPosition c' < VGA_HEIGHT).
  assert (Hback : forall c' v h, inv c' -> 0 <= v < VGA_HEIGHT -> 0 <= h < VGA_WIDTH -> here (set_position c' v h) < here c' ->
    (exists t, (cell ← aget (m_video_ram (set_position c' v h)) (here (set_position c' v h));
       if cell =? 0 then Done (inl (set_position c' v h)) else Done (inr (set_position c' v h))) = Done (inl t) /\
       inv t /\ (Z.to_nat (here t) < Z.to_nat (here c'))%nat) \/
    (exists t, (cell ← aget (m_video_ram (set_position c' v h)) (here (set_position c' v h));
       if cell =? 0 then Done (inl (set_position c' v h)) else Done (inr (set_position c' v h))) = Done (inr t) /\ inv t)).
  { intros c' v h ([Hl Hh Hv' Hlow] & Hc & _) Hv2 Hh2 Hlt.
    assert (Hinv : inv (set_position c' v h)).
    { split; [|split; [done|cbn [set_position m_vPosition]; lia]].
      split; cbn [set_position m_video_ram m_hPosition m_vPosition]; unfold VGA_HEIGHT in *; (done || lia). }
    unfold here in *. cbn [set_position m_hPosition m_vPosition m_video_ram] in *.
    destruct (aget_in_range (m_video_ram c') (h + v * VGA_WIDTH)) as (x & -> & _).
    { unfold VGA_HEIGHT, VGA_WIDTH, VGA_CELLS in *. lia. }
    cbn [mbind exec_bind]. unfold VGA_WIDTH, VGA_HEIGHT in *.
    destruct (x =? 0); [left|right]; eexists; (split; [done|]); [split; [done|]|done].
    cbn [set_position m_hPosition m_vPosition]. lia. }
  match goal with |- context [while ?f ?step ?st] =>
    destruct (while_inv inv inv (fun c' => Z.to_nat (here c')) step f st) as (c2 & E & [Hl2 Hh2 Hv2 Hlow2] & Hc2 & Hv2') end.
  - split; [done|]. by rewrite Ec, Ev.
  - lia.
  - intros t Ht. pose proof Ht as ([Hl Hh Hv' Hlow] & _ & Hvt). unfold VGA_WIDTH, VGA_HEIGHT in *.
    destruct (Z.ltb_spec 0 (m_hPosition t)).
    + apply Hback; [done|lia|lia|]. unfold here, VGA_WIDTH. cbn [set_position m_hPosition m_vPosition]. lia.
    + rewrite (proj2 (Z.eqb_eq _ _)) by lia. cbn [andb]. destruct (Z.ltb_spec 0 (m_vPosition t)); [|right; by exists t].
      apply Hback; [done|lia|lia|]. unfold here, VGA_WIDTH. cbn [set_position m_hPosition m_vPosition]. lia.
  - rewrite E. cbn [mbind exec_bind].
    destruct (put_cell_spec c2 (m_vPosition c2) (m_hPosition c2) 0) as (c' & E' & Hl' & Ev' & Eh' & Ec' & _); [done|lia|done| |].
    { unfold VGA_HEIGHT, VGA_WIDTH, VGA_CELLS in *. lia. }
    unfold here. rewrite E'. exists c'. split; [done|]. rewrite Ec', Ev'. split; [|done].
    split; [done|by rewrite Eh'|by rewrite Ev'|by rewrite Ev', Eh'].
Qed.

(** The page is scrolled before a character when the position is below it. *)
Lemma scroll_spec c slack :
  console_ok c slack ->
  exists c', (if m_vPosition c =? VGA_HEIGHT then
                c ← Console_page_up c; Done (set_position c (m_vPosition c - 1) (m_hPosition c))
              else Done c) = Done c' /\
    console_ok c' 0 /\ m_vPosition c' < VGA_HEIGHT /\ m_charColor c' = m_charColor c /\ m_hPosition c' = m_hPosition c /\
    if m_vPosition c =? VGA_HEIGHT then
      m_vPosition c' = VGA_HEIGHT - 1 /\
      forall i j, 0 <= i < VGA_HEIGHT -> 0 <= j < VGA_WIDTH ->
        cell c' i j = if bool_decide (i = VGA_HEIGHT - 1) then Some 0 else cell c (i + 1) j
    else c' = c.
Proof.
  intros [Hl Hh Hv Hlow]. destruct (Z.eqb_spec (m_vPosition c) VGA_HEIGHT) as [E|E].
  - destruct (page_up_spec c Hl) as (c1 & -> & Hl1 & Ev & Eh & Ec & Hc). cbn [mbind exec_bind].
    rewrite Ev, Eh, E. eexists. split; [done|]. unfold VGA_HEIGHT, VGA_WIDTH in *.
    split; [|by repeat split]. split; cbn [set_position m_video_ram m_hPosition m_vPosition]; unfold VGA_WIDTH, VGA_HEIGHT; (done || lia).
  - exists c. split; [done|]. unfold VGA_HEIGHT in *. split; [|split; [lia|done]]. split; (done || unfold VGA_HEIGHT; lia).
Qed.

Lemma console_ok_weaken c s s' : console_ok c s -> s <= s' -> console_ok c s'.
Proof. intros [? ? ? ?] Hs. split; try done. intros E. specialize (co_low0 E). lia. Qed.

Lemma update_cursor_spec c slack :
  console_ok c slack -> slack <= 48 ->
  exists c', Console_update_cursor c = Done c' /\ console_ok c' slack /\
    m_vPosition c' = m_vPosition c /\ m_hPosition c' = m_hPosition c /\ m_charColor c' = m_charColor c /\
    forall i j, 0 <= i -> 0 <= j < VGA_WIDTH ->
      cell c' i j = if bool_decide (i = m_vPosition c /\ j = m_hPosition c) then Some 0xF000 else cell c i j.
Proof.
  intros [Hl Hh Hv Hlow] Hs. unfold Console_update_cursor, here.
  change (vga_entry 0 (vga_entry_color VGA_COLOR_BLACK VGA_COLOR_WHITE)) with 0xF000.
  destruct (put_cell_spec c (m_vPosition c) (m_hPosition c) 0xF000) as (c' & E & Hl' & Ev & Eh & Ec & Hc); [done|lia|done| |].
  { unfold VGA_HEIGHT, VGA_WIDTH, VGA_CELLS in *. destruct (Z.eq_dec (m_vPosition c) 25); lia. }
  exists c'. split; [exact E|]. split; [|done]. split; [done|by rewrite Eh|by rewrite Ev|by rewrite Ev, Eh].
Qed.

Lemma tab_spec c : console_ok c 0 ->
  exists c', for_ 4 0 (fun _ c => Console_insert_character c 32) c = Done c' /\ console_ok c' 4 /\
    m_charColor c' = m_charColor c.
Proof.
  intros Hok. destruct (for_inv (fun k c' => console_ok c' k /\ m_charColor c' = m_charColor c)
    (fun _ c => Console_insert_character c 32) 4 0 c) as (c' & E & Hok' & Hc); [done| |by exists c'].
  intros k t Hk [Ht Hct]. destruct (insert_character_spec t k 32 Ht) as (t' & E & Ht' & Hct' & _); [lia|].
  exists t'. split; [done|]. split; [done|congruence].
Qed.

(** Whatever is written, the console stays in its page. *)
Lemma put_char_ok c x : console_ok c 4 ->
  exists c', Console_put_char c x = Done c' /\ console_ok c' 4 /\ m_charColor c' = m_charColor c.
Proof.
  intros Hok. unfold Console_put_char. destruct (scroll_spec c 4 Hok) as (c1 & E1 & Hok1 & Hv1 & Hc1 & _).
  rewrite E1. cbn [mbind exec_bind].
  assert (Hmid : exists c2, (if x =? 10 then Console_insert_new_line c1
       else if x =? 8 then Console_insert_back_space c1
       else if x =? 9 then for_ 4 0 (fun _ c => Console_insert_character c 32) c1
       else Console_insert_character c1 x) = Done c2 /\ console_ok c2 4 /\ m_charColor c2 = m_charColor c1).
  { pose proof (console_ok_weaken c1 0 4 Hok1 ltac:(lia)) as Hok4. destruct (x =? 10); [|destruct (x =? 8); [|destruct (x =? 9)]].
    - destruct (insert_new_line_spec c1 4 Hok4) as (c2 & ? & ? & ? & _); [lia|lia|done|]. by exists c2.
    - destruct (insert_back_space_spec c1 4 Hok4) as (c2 & ? & ? & ? & _); [lia|done|]. by exists c2.
    - by apply tab_spec.
    - destruct (insert_character_spec c1 0 x Hok1) as (c2 & ? & ? & ? & _); [lia|]. exists c2.
      split; [done|]. split; [|done]. eapply console_ok_weaken; [done|lia]. }
  destruct Hmid as (c2 & -> & Hok2 & Hc2). cbn [mbind exec_bind].
  destruct (update_cursor_spec c2 4 Hok2) as (c' & E & Hok' & _ & _ & Hc' & _); [lia|]. exists c'.
  split; [done|]. split; [done|congruence].
Qed.

(** * The text on the screen

    The text as on an endless sheet of rows of 80 cells, and the next position. *)

Record sheet := mkSheet {
  sh_cell : Z -> Z -> Z;
  sh_row : Z;
  sh_col : Z
}.

Definition blank : sheet := mkSheet (fun _ _ => 0) 0 0.

Definition put_sheet (color : Z) (s : sheet) (x : Z) : sheet :=
  if x =? 10 then mkSheet (sh_cell s) (sh_row s + 1) 0
  else
    let cells i j := if bool_decide (i = sh_row s /\ j = sh_col s) then vga_entry x color else sh_cell s i j in
    if sh_col s =? VGA_WIDTH - 1 then mkSheet cells (sh_row s + 1) 0 else mkSheet cells (sh_row s) (sh_col s + 1).

Definition layout (color : Z) (text : list Z) : sheet := foldl (put_sheet color) blank text.

(** The screen shows the sheet from its row [top] on; the cell of the position aside. *)
Record shows_sheet (c : Console) (s : sheet) (top : Z) : Prop := {
  ss_ok : console_ok c 1;
  ss_row : sh_row s = top + m_vPosition c;
  ss_col : sh_col s = m_hPosition c;
  ss_top : 0 <= top /\ (0 < top -> VGA_HEIGHT - 1 <= m_vPosition c);
  ss_cells : forall i j, 0 <= i < VGA_HEIGHT -> 0 <= j < VGA_WIDTH -> (i, j) <> (m_vPosition c, m_hPosition c) ->
    cell c i j = Some (sh_cell s (top + i) j);
  ss_blank : forall i j, 0 <= j < VGA_WIDTH -> sh_row s < i \/ (i = sh_row s /\ sh_col s <= j) -> sh_cell s i j = 0
}.

(** An ordinary character or the end of a line. *)
Definition plain_char (x : Z) : Prop := x <> 8 /\ x <> 9.

Lemma scroll_shows c s top : shows_sheet c s top ->
  exists c' top', (if m_vPosition c =? VGA_HEIGHT then
                     c ← Console_page_up c; Done (set_position c (m_vPosition c - 1) (m_hPosition c))
                   else Done c) = Done c' /\
    shows_sheet c' s top' /\ console_ok c' 0 /\ m_vPosition c' < VGA_HEIGHT /\ m_charColor c' = m_charColor c.
Proof.
  intros [Hok Hrow Hcol Htop Hcells Hblank]. destruct (scroll_spec c 1 Hok) as (c' & E & Hok' & Hv' & Hc' & Eh & Hsc).
  exists c', (if m_vPosition c =? VGA_HEIGHT then top + 1 else top). split; [done|].
  split; [|done]. destruct (Z.eqb_spec (m_vPosition c) VGA_HEIGHT) as [Ev|Ev]; [|by subst c'].
  destruct Hsc as [Ev' Hsc]. pose proof (co_low c 1 Hok Ev). pose proof (co_h c 1 Hok).
  unfold VGA_HEIGHT, VGA_WIDTH in *. split.
  - eapply console_ok_weaken; [done|lia].
  - lia.
  - by rewrite Eh.
  - unfold VGA_HEIGHT. lia.
  - intros i j Hi Hj Hne. unfold VGA_HEIGHT, VGA_WIDTH in *. rewrite Hsc by done. case_bool_decide as H25.
    + rewrite Hblank by lia. done.
    + rewrite Hcells; [f_equal; f_equal; lia|lia|done|]. intros [= ? ?]. lia.
  - done.
Qed.

Lemma put_char_shows c s top x :
  shows_sheet c s top -> plain_char x ->
  exists c' top', Console_put_char c x = Done c' /\ shows_sheet c' (put_sheet (m_charColor c) s x) top' /\
    m_charColor c' = m_charColor c /\ (m_vPosition c' < VGA_HEIGHT -> cell c' (m_vPosition c') (m_hPosition c') = Some 0xF000).
Proof.
  intros Hs [Hx8 Hx9]. unfold Console_put_char.
  destruct (scroll_shows c s top Hs) as (c1 & top1 & E1 & Hs1 & Hok1 & Hv1 & Hc1). rewrite E1. cbn [mbind exec_bind].
  rewrite (proj2 (Z.eqb_neq x 8)), (proj2 (Z.eqb_neq x 9)) by done.
  pose proof Hs1 as [_ Hrow Hcol Htop Hcells Hblank]. pose proof (co_h c1 0 Hok1). pose proof (co_v c1 0 Hok1).
  assert (Hmid : exists c2, (if x =? 10 then Console_insert_new_line c1 else Console_insert_character c1 x) = Done c2 /\
    console_ok c2 1 /\ m_charColor c2 = m_charColor c1 /\ shows_sheet c2 (put_sheet (m_charColor c) s x) top1).
  { rewrite <- Hc1. unfold put_sheet. destruct (Z.eqb_spec x 10) as [->|Hx].
    - destruct (insert_new_line_spec c1 1) as (c2 & E & Hok2 & Hc2 & Eh & Ev & Hcell);
        [by eapply console_ok_weaken|lia|lia|done|].
      exists c2. split; [done|]. split; [done|]. split; [done|]. unfold VGA_HEIGHT, VGA_WIDTH in *.
      split; cbn [sh_row sh_col sh_cell]; unfold VGA_HEIGHT, VGA_WIDTH; [done|lia|lia|lia| |].
      + intros i j Hi Hj Hne. rewrite Hcell by (done || unfold VGA_WIDTH; lia). case_bool_decide as Hb.
        * destruct Hb as [-> ->]. rewrite Hblank by lia. done.
        * apply Hcells; [done|done|]. intros [= ? ?]. by apply Hb.
      + intros i j Hj Hi. apply Hblank; lia.
    - destruct (insert_character_spec c1 0 x Hok1) as (c2 & E & Hok2 & Hc2 & Eh & Ev & Hcell); [lia|].
      exists c2. split; [done|]. split; [done|]. split; [done|]. rewrite Hcol. unfold VGA_HEIGHT, VGA_WIDTH in *.
      set (cells := fun i j => _).
      assert (Hshow : forall r k, r = top1 + m_vPosition c2 -> k = m_hPosition c2 -> shows_sheet c2 (mkSheet cells r k) top1).
      { intros r k Hr Hk. split; cbn [sh_row sh_col sh_cell]; unfold VGA_HEIGHT, VGA_WIDTH; [done|done|done| | |].
        - rewrite Ev. case_test; lia.
        - intros i j Hi Hj Hne. rewrite Hcell by (done || unfold VGA_WIDTH; lia). unfold cells.
          case_bool_decide as Hb; [rewrite bool_decide_eq_true_2 by lia; done|].
          rewrite bool_decide_eq_false_2 by lia. apply Hcells; [done|done|]. intros [= ? ?]. by apply Hb.
        - intros i j Hj Hi. unfold cells. subst r k. rewrite Ev, Eh in Hi.
          destruct (Z.eqb_spec (m_hPosition c1) (80 - 1)); (rewrite bool_decide_eq_false_2 by lia); (apply Hblank; lia). }
      destruct (Z.eqb_spec (m_hPosition c1) (80 - 1)); apply Hshow; lia. }
  destruct Hmid as (c2 & -> & Hok2 & Hc2 & [_ Hrow2 Hcol2 Htop2 Hcells2 Hblank2]). cbn [mbind exec_bind].
  destruct (update_cursor_spec c2 1 Hok2) as (c' & E & Hok' & Ev & Eh & Ec & Hcell); [lia|].
  exists c', top1. split; [done|]. split; [|split; [congruence|]].
  - split; rewrite ?Ev, ?Eh; try done. intros i j Hi Hj Hne. unfold VGA_HEIGHT, VGA_WIDTH in *.
    rewrite Hcell by (done || lia). rewrite bool_decide_eq_false_2; [by apply Hcells2|]. intros [-> ->]. done.
  - intros Hlt. rewrite Ev, Eh, Hcell, bool_decide_eq_true_2; [done|done|apply (co_v _ _ Hok2)|apply (co_h _ _ Hok2)].
Qed.

Lemma clearScreen_spec c : alen (m_video_ram c) = VGA_CELLS ->
  exists c', Console_clearScreen c = Done c' /\ shows_sheet c' blank 0 /\ m_charColor c' = m_charColor c.
Proof.
  intros Hl. unfold Console_clearScreen. unfold VGA_CELLS, VGA_WIDTH, VGA_HEIGHT in *.
  match goal with |- context [for_ ?m ?lo ?body ?st] =>
    destruct (for_inv (fun n l => alen l = 2048 /\ forall i j, 0 <= i < 25 -> 0 <= j < n -> l !! Z.to_nat (j + i * 80) = Some 0)
      body m lo st) as (l & E & Hll & Hz) end.
  - split; [done|]. lia.
  - intros n l Hn [Hll Hz]. match goal with |- context [for_ ?m ?lo ?body l] =>
      destruct (for_inv (fun r l' => alen l' = 2048 /\ (forall i j, 0 <= i < 25 -> 0 <= j < n -> l' !! Z.to_nat (j + i * 80) = Some 0) /\
        forall i, 0 <= i < r -> l' !! Z.to_nat (n + i * 80) = Some 0) body m lo l) as (l' & E & Hl' & Hz' & Hr) end.
    + split; [done|]. split; [done|]. lia.
    + intros r l' Hr (Hl' & Hz' & Hr'). change (Z.of_nat (Z.to_nat 80)) with 80 in Hn.
      change (Z.of_nat (Z.to_nat 25)) with 25 in Hr. rewrite aset_Done by lia. eexists. split; [done|].
      rewrite alen_insert. split; [done|]. split.
      * intros i j Hi Hj. rewrite list_lookup_insert_ne by lia. by apply Hz'.
      * intros i Hi. destruct (Z.eq_dec i r) as [->|Hne]; [apply list_lookup_insert_eq; unfold alen in *; lia|].
        rewrite list_lookup_insert_ne by lia. apply Hr'. lia.
    + exists l'. split; [done|]. split; [done|]. intros i j Hi Hj. change (0 + Z.of_nat (Z.to_nat 25)) with 25 in Hr.
      destruct (Z.eq_dec j n) as [->|Hne]; [by apply Hr|]. apply Hz'; lia.
  - rewrite E. cbn [mbind exec_bind]. eexists. split; [done|]. split; [|done]. change (0 + Z.of_nat (Z.to_nat 80)) with 80 in Hz.
    split; unfold VGA_CELLS, VGA_HEIGHT, VGA_WIDTH; cbn [blank sh_row sh_col sh_cell m_vPosition m_hPosition]; [|lia|lia|lia| |done].
    + split; cbn [m_video_ram m_vPosition m_hPosition]; unfold VGA_CELLS, VGA_HEIGHT, VGA_WIDTH; (done || lia).
    + intros i j Hi Hj _. by apply Hz.
Qed.

(** Writing is putting the characters one after the other. *)
Lemma write_loop (f : Console -> Z -> exec Console) xs : forall p c,
  for_ (length xs) (alen p) (fun i c => x ← BufferView_at (BufferView_of_ptr (p ++ xs)) i; f c x) c
  = foldl (fun m x => c ← m; f c x) (Done c) xs.
Proof.
  induction xs as [|x xs IH]; intros p c; [done|]. cbn [length for_ foldl].
  assert (Hat : BufferView_at (BufferView_of_ptr (p ++ x :: xs)) (alen p) = Done x).
  { unfold BufferView_at. cbn [BufferView_of_ptr bv_array bv_start]. rewrite Z.add_0_l. apply aget_middle. }
  rewrite Hat. cbn [mbind exec_bind].
  assert (Hstop : forall ys m, (forall c', m <> Done c') -> foldl (fun m x => c ← m; f c x) m ys = m).
  { induction ys as [|y ys IHy]; intros m Hm; [done|]. cbn [foldl]. destruct m as [c'| | |]; cbn [mbind exec_bind]; [by destruct (Hm c')|..];
      by apply IHy. }
  destruct (f c x) as [c'| | |]; cbn [mbind exec_bind]; [|by rewrite Hstop..].
  specialize (IH (p ++ [x]) c'). rewrite alen_snoc in IH. rewrite <- IH.
  replace (p ++ x :: xs) with ((p ++ [x]) ++ xs) by by rewrite <- app_assoc. done.
Qed.

Lemma write_fold c buff :
  Console_write c buff = (c ← foldl (fun m x => c ← m; Console_put_char c x) (Done c) buff; Done (alen buff, c)).
Proof.
  unfold Console_write. pose proof (write_loop Console_put_char buff [] c) as E. cbn [app] in E.
  rewrite (@alen_nil Z) in E. by rewrite E.
Qed.

Lemma write_ok buff : forall c, console_ok c 4 ->
  exists c', foldl (fun m x => c ← m; Console_put_char c x) (Done c) buff = Done c' /\ console_ok c' 4.
Proof.
  induction buff as [|x buff IH]; intros c Hok; [by exists c|]. cbn [foldl mbind exec_bind].
  destruct (put_char_ok c x Hok) as (c1 & -> & Hok1 & _). by apply IH.
Qed.

Lemma write_shows buff : forall c s top, shows_sheet c s top -> Forall plain_char buff ->
  exists c' top', foldl (fun m x => c ← m; Console_put_char c x) (Done c) buff = Done c' /\
    shows_sheet c' (foldl (put_sheet (m_charColor c)) s buff) top' /\
    (buff <> [] -> m_vPosition c' < VGA_HEIGHT -> cell c' (m_vPosition c') (m_hPosition c') = Some 0xF000).
Proof.
  induction buff as [|x buff IH]; intros c s top Hs Hp; [by exists c, top|]. apply Forall_cons in Hp as [Hx Hp].
  cbn [foldl mbind exec_bind]. destruct (put_char_shows c s top x Hs Hx) as (c1 & top1 & -> & Hs1 & Hc1 & Hcur).
  destruct (IH c1 _ top1 Hs1 Hp) as (c' & top' & E & Hs' & Hcur'). rewrite Hc1 in Hs'. exists c', top'.
  split; [done|]. split; [done|]. intros _. destruct buff; [|by apply Hcur']. injection E as <-. done.
Qed.

(** Calls of [write] one after the other: what each returned, and the console. *)
Fixpoint write_all (c : Console) (writes : list (list Z)) : exec (list Z * Console) :=
  match writes with
  | [] => Done ([], c)
  | buff :: writes => '(n, c) ← Console_write c buff; r ← write_all c writes; Done (n :: r.1, r.2)
  end.

Lemma write_all_ok writes : forall c, console_ok c 4 ->
  exists c', write_all c writes = Done (alen <$> writes, c').
Proof.
  induction writes as [|buff writes IH]; intros c Hok; [by exists c|]. cbn [write_all]. rewrite write_fold.
  destruct (write_ok buff c Hok) as (c1 & -> & Hok1). cbn [mbind exec_bind].
  destruct (IH c1 Hok1) as (c' & ->). by exists c'.
Qed.

(** The console. Whatever bytes are written, in any number of calls, each call takes
    all of its bytes, ends, and touches only cells of the mapped page. When a text without
    tabs and backspaces is written to a fresh console the screen shows it as laid out in
    rows of 80 cells, from a row on that leaves the next position in one of the last two
    rows once the text has scrolled, with the cursor in the cell of the next position; the
    cells behind the text are empty. *)
Theorem console_shows_text (ram text : list Z) (Hram : alen ram = VGA_CELLS) (Htext : Forall plain_char text) :
  exists c0, Console_initiate_console ram = Done c0 /\
    (forall writes, exists c, write_all c0 writes = Done (alen <$> writes, c)) /\
    exists c top, Console_write c0 text = Done (alen text, c) /\
      let s := layout 0x0F text in
      sh_row s = top + m_vPosition c /\ sh_col s = m_hPosition c /\
      0 <= top /\ (0 < top -> VGA_HEIGHT - 1 <= m_vPosition c) /\ m_vPosition c <= VGA_HEIGHT /\
      (forall i j, 0 <= i < VGA_HEIGHT -> 0 <= j < VGA_WIDTH -> (i, j) <> (m_vPosition c, m_hPosition c) ->
         cell c i j = Some (sh_cell s (top + i) j)) /\
      (text <> [] -> m_vPosition c < VGA_HEIGHT -> cell c (m_vPosition c) (m_hPosition c) = Some 0xF000).
Proof.
  destruct (clearScreen_spec (mkConsole ram 0 0 0x0F) Hram) as (c0 & E0 & Hs0 & Hc0). cbn [m_charColor] in Hc0.
  change (Console_clearScreen (mkConsole ram 0 0 0x0F)) with (Console_initiate_console ram) in E0.
  exists c0. split; [done|]. split.
  - intros writes. apply write_all_ok. eapply console_ok_weaken; [apply Hs0|lia].
  - destruct (write_shows text c0 blank 0 Hs0 Htext) as (c1 & top & E1 & [Hok1 H1 H2 [H3 H4] H5 H6] & Hcur).
    exists c1, top. rewrite write_fold, E1. rewrite Hc0 in *. fold (layout 0x0F text) in *.
    do 5 (split; [done|]). split; [apply (co_v _ _ Hok1)|]. split; [|done]. done.
Qed.

(** "a", the end of the line, "b": two rows of the screen. *)
Lemma console_shows_text_witness :
  exists c0 c, Console_initiate_console (replicate 2048 7) = Done c0 /\ Console_write c0 [97; 10; 98] = Done (3, c) /\
    cell c 0 0 = Some 0x0F61 /\ cell c 1 0 = Some 0x0F62 /\ cell c 1 1 = Some 0xF000.
Proof.
  destruct (console_shows_text (replicate 2048 7) [97; 10; 98]) as (c0 & E0 & _ & c & top & E & Hr & Hc & Ht & Ht' & Hv & Hcell & Hcur).
  - done.
  - repeat (apply Forall_cons; split; [done|]). by apply Forall_nil.
  - exists c0, c. split; [exact E0|]. split; [exact E|]. unfold VGA_HEIGHT, VGA_WIDTH in *.
    change (sh_row (layout 0x0F [97; 10; 98])) with 1 in Hr. change (sh_col (layout 0x0F [97; 10; 98])) with 1 in Hc.
    clear E0 E. assert (top = 0) as -> by lia. assert (Ev : m_vPosition c = 1) by lia.
    split; [apply (Hcell 0 0); [lia|lia|intros [= ? ?]; lia]|]. split; [apply (Hcell 1 0); [lia|lia|intros [= ? ?]; lia]|].
    rewrite Ev in Hcur. rewrite <- Hc in Hcur. apply Hcur; [done|lia].
Defined.
