(* ===== verification/Vfs.v ===== *)
(** The tree of file system nodes (fsnode.h) and the way of a path through it
    (virtual_filesystem.cpp), with the file systems that are mounted: pipes, domain
    sockets, devices, and the nodes of the boot archive, which Tar.v builds.

    A node is named by its place in a store of all nodes; the class of an object decides
    which of the virtual functions it has. Nodes are never destroyed while the tree
    refers to them. *)

From S2P Require Import Prelude Clib Strings PathView Buffers Files.

Definition ERROR_DEVICE_ALREADY_EXISTS : Z := 11.
Definition ERROR_DEVICE_DOESNOT_EXIST : Z := 12.

Inductive NodeType :=
| NT_Root | NT_Folder | NT_File | NT_Pipe | NT_Link | NT_Device | NT_DomainSocket | NT_IPSocket
| NT_Connection.

#[export] Instance NodeType_eq_dec : EqDecision NodeType.
Proof. solve_decision. Defined.

(** The classes derived from [FSNode] that are found in the tree. *)
Inductive node_class :=
| CINode | CTarFS | CPipeFS | CPipe | CDomainSocketFS | CDomainSocket | CDeviceFS | CKeyboard
| CConsole.

#[export] Instance node_class_eq_dec : EqDecision node_class.
Proof. solve_decision. Defined.

(** [fn_data] and [fn_children] are the members of the derived classes: [m_data] is the
    address of the contents of a file, zero when there are none. *)
Record FSNode := mkNode {
  fn_name : String;
  fn_permission : Z;
  fn_owner : Z;
  fn_type : NodeType;
  fn_size : Z;
  fn_class : node_class;
  fn_data : Z;
  fn_children : list nat
}.

(** All nodes, [VFS::fs_roots] and [DeviceFS::children], a pointer that is null until
    the file system of the devices is made. *)
Record Filesystem := mkFs {
  fs_nodes : list FSNode;
  fs_roots : list nat;
  devices : option (list nat)
}.

(** The state before anything is mounted. *)
Definition no_filesystem : Filesystem := mkFs [] [] None.

Definition node_at (fs : Filesystem) (i : nat) : exec FSNode :=
  match fs_nodes fs !! i with Some n => Done n | None => Fault end.

(** [FSNode::FSNode] of an object of the given class, when its name has been made. *)
Definition FSNode_with_name (fs : Filesystem) (m_name : String) (type : NodeType) (size : Z) (class : node_class)
    (data : Z) : Filesystem * nat :=
  (mkFs (fs_nodes fs ++ [mkNode m_name 0 0 type size class data []]) (fs_roots fs) (devices fs), length (fs_nodes fs)).

Definition FSNode_new (fs : Filesystem) (name : StringView) (type : NodeType) (size : Z) (class : node_class)
    (data : Z) : exec (Filesystem * nat) :=
  m_name ← String_of_view name;
  Done (FSNode_with_name fs m_name type size class data).

(** [m_children.emplace_back]: the new node is the last child of its parent. *)
Definition add_child (fs : Filesystem) (parent child : nat) : exec Filesystem :=
  p ← node_at fs parent;
  Done (mkFs (<[parent := mkNode (fn_name p) (fn_permission p) (fn_owner p) (fn_type p) (fn_size p) (fn_class p)
                            (fn_data p) (fn_children p ++ [child])]> (fs_nodes fs)) (fs_roots fs) (devices fs)).

(** The loop of the [dir_lookup] functions: the first child with the name. *)
Fixpoint find_child (fs : Filesystem) (children : list nat) (file_name : StringView) : exec (option nat) :=
  match children with
  | [] => Done None
  | i :: rest =>
      n ← node_at fs i;
      same ← String_eq_view (fn_name n) file_name;
      if same : bool then Done (Some i) else find_child fs rest file_name
  end.

(** [contains] with a comparison of names. *)
Fixpoint contains_name (fs : Filesystem) (children : list nat) (name : String) : exec bool :=
  match children with
  | [] => Done false
  | i :: rest =>
      n ← node_at fs i;
      same ← String_eq (fn_name n) name;
      if same : bool then Done true else contains_name fs rest name
  end.

Definition found (error : Z) (r : option nat) : Result nat :=
  match r with Some i => Value i | None => Error error end.

Definition INode_dir_lookup (fs : Filesystem) (n : FSNode) (file_name : StringView) : exec (Result nat) :=
  found ERROR_FILE_DOES_NOT_EXIST <$> find_child fs (fn_children n) file_name.

Definition TarFS_dir_lookup (fs : Filesystem) (n : FSNode) (file_name : StringView) : exec (Result nat) :=
  found ERROR_FILE_DOES_NOT_EXIST <$> find_child fs (fn_children n) file_name.

Definition PipeFS_dir_lookup (fs : Filesystem) (n : FSNode) (file_name : StringView) : exec (Result nat) :=
  found ERROR_FILE_DOES_NOT_EXIST <$> find_child fs (fn_children n) file_name.

Definition DomainSocketFS_dir_lookup (fs : Filesystem) (n : FSNode) (file_name : StringView) : exec (Result nat) :=
  found ERROR_FILE_DOES_NOT_EXIST <$> find_child fs (fn_children n) file_name.

Definition DeviceFS_dir_lookup (fs : Filesystem) (file_name : StringView) : exec (Result nat) :=
  match devices fs with
  | Some children => found ERROR_DEVICE_DOESNOT_EXIST <$> find_child fs children file_name
  | None => Fault
  end.

(** The virtual function of a node. *)
Definition dir_lookup (fs : Filesystem) (i : nat) (file_name : StringView) : exec (Result nat) :=
  n ← node_at fs i;
  match fn_class n with
  | CINode => INode_dir_lookup fs n file_name
  | CTarFS => TarFS_dir_lookup fs n file_name
  | CPipeFS => PipeFS_dir_lookup fs n file_name
  | CDomainSocketFS => DomainSocketFS_dir_lookup fs n file_name
  | CDeviceFS => DeviceFS_dir_lookup fs file_name
  | CPipe | CDomainSocket | CKeyboard | CConsole => Done (Error ERROR_INVALID_OPERATION)
  end.

(** The iterator is moved on [index] times from the first child. *)
Definition query_child (children : list nat) (index : Z) : exec (Result nat) :=
  if alen children <=? index then Done (Error ERROR_INVALID_PARAMETER)
  else Value <$> aget children index.

Definition INode_dir_query (n : FSNode) (index : Z) : exec (Result nat) := query_child (fn_children n) index.
Definition TarFS_dir_query (n : FSNode) (index : Z) : exec (Result nat) := query_child (fn_children n) index.
Definition PipeFS_dir_query (n : FSNode) (index : Z) : exec (Result nat) := query_child (fn_children n) index.
Definition DeviceFS_dir_query (index : Z) : exec (Result nat) := Done (Error ERROR_INVALID_OPERATION).

Definition dir_query (fs : Filesystem) (i : nat) (index : Z) : exec (Result nat) :=
  n ← node_at fs i;
  match fn_class n with
  | CINode => INode_dir_query n index
  | CTarFS => TarFS_dir_query n index
  | CPipeFS => PipeFS_dir_query n index
  | CDeviceFS => DeviceFS_dir_query index
  | CDomainSocketFS | CPipe | CDomainSocket | CKeyboard | CConsole => Done (Error ERROR_INVALID_OPERATION)
  end.

(** * The file systems *)

Definition PipeFS_alloc (fs : Filesystem) (name : StringView) : exec (Filesystem * nat) :=
  FSNode_new fs name NT_Root 0 CPipeFS 0.

Definition PipeFS_create (fs : Filesystem) (i : nat) (name : StringView) : exec (Filesystem * Result nat) :=
  '(fs, child) ← FSNode_new fs name NT_Pipe PIPE_BUFFER_SIZE CPipe 0;
  fs ← add_child fs i child;
  Done (fs, Value child).

Definition DomainSocketFS_alloc (fs : Filesystem) (name : StringView) : exec (Filesystem * nat) :=
  FSNode_new fs name NT_Root 0 CDomainSocketFS 0.

Definition DomainSocketFS_create (fs : Filesystem) (i : nat) (name : StringView) : exec (Filesystem * Result nat) :=
  n ← node_at fs i;
  existing ← find_child fs (fn_children n) name;
  if not_null existing then Done (fs, Error ERROR_FILE_ALREADY_EXISTS)
  else
    '(fs, child) ← FSNode_new fs name NT_DomainSocket 0 CDomainSocket 0;
    fs ← add_child fs i child;
    Done (fs, Value child).

Definition DeviceFS_alloc (fs : Filesystem) (name : StringView) : exec (Filesystem * nat) :=
  '(fs, i) ← FSNode_new fs name NT_Root 0 CDeviceFS 0;
  _ ← ASSERT (negb (not_null (devices fs)));
  Done (mkFs (fs_nodes fs) (fs_roots fs) (Some []), i).

(** The nodes of the two devices; their state is not part of the tree. *)
Definition Keyboard_node (fs : Filesystem) (name : StringView) : exec (Filesystem * nat) :=
  FSNode_new fs name NT_Device 1024 CKeyboard 0.

Definition Console_node (fs : Filesystem) (name : StringView) : exec (Filesystem * nat) :=
  FSNode_new fs name NT_Root 0 CConsole 0.

Definition DeviceFS_add_device (fs : Filesystem) (new_device : nat) : exec (Filesystem * Z) :=
  match devices fs with
  | None => Fault
  | Some children =>
      device ← node_at fs new_device;
      exists_ ← contains_name fs children (fn_name device);
      if exists_ : bool then Done (fs, ERROR_DEVICE_ALREADY_EXISTS)
      else Done (mkFs (fs_nodes fs) (fs_roots fs) (Some (children ++ [new_device])), ERROR_SUCCESS)
  end.

Definition DeviceFS_remove_device : Z := ERROR_INVALID_OPERATION.

(** The virtual function [create]. *)
Definition create (fs : Filesystem) (i : nat) (name : StringView) : exec (Filesystem * Result nat) :=
  n ← node_at fs i;
  match fn_class n with
  | CPipeFS => PipeFS_create fs i name
  | CDomainSocketFS => DomainSocketFS_create fs i name
  | CINode | CTarFS | CDeviceFS | CPipe | CDomainSocket | CKeyboard | CConsole =>
      Done (fs, Error ERROR_INVALID_OPERATION)
  end.

(** * VFS *)

Definition VFS_mount (fs : Filesystem) (new_fs_root : nat) : exec (Filesystem * Z) :=
  n ← node_at fs new_fs_root;
  exists_ ← contains_name fs (fs_roots fs) (fn_name n);
  if exists_ : bool then Done (fs, ERROR_FS_ALREADY_EXISTS)
  else Done (mkFs (fs_nodes fs) (fs_roots fs ++ [new_fs_root]) (devices fs), ERROR_SUCCESS).

Definition VFS_unmount : Z := ERROR_INVALID_PARAMETER.

Definition VFS_get_root_node (fs : Filesystem) (root_name : StringView) : exec (option nat) :=
  find_child fs (fs_roots fs) root_name.

(** The elements from the second on, one [dir_lookup] after the other: [inl] is an error
    that ends the walk. *)
Definition VFS_traverse_node (fs : Filesystem) (path : PathView) : exec (Result nat) :=
  if PathView_count path =? 0 then Done (Error ERROR_FILE_DOES_NOT_EXIST)
  else if alen (fs_roots fs) =? 0 then Done (Error ERROR_NO_ROOT_NODE)
  else
    first ← PathView_index path 0;
    root ← VFS_get_root_node fs first;
    match root with
    | None => Done (Error ERROR_FILE_DOES_NOT_EXIST)
    | Some root =>
        while (Z.to_nat (PathView_count path))
          (fun '(i, current) =>
             if i <? PathView_count path then
               element ← PathView_index path (s32 i);
               next_node ← dir_lookup fs current element;
               match next_node with
               | Error e => Done (inr (Error e))
               | Value n => Done (inl (u32 (i + 1), n))
               end
             else Done (inr (Value current)))
          (1, root)
    end.

Definition VFS_open_existing_node (fs : Filesystem) (path : PathView) : exec (Result nat) :=
  VFS_traverse_node fs path.

Definition VFS_create_new_node (fs : Filesystem) (path : PathView) : exec (Filesystem * Result nat) :=
  parent_path ← PathView_sub_path path 0 (-2);
  parent_node ← VFS_traverse_node fs parent_path;
  match parent_node with
  | Error e => Done (fs, Error e)
  | Value parent =>
      name ← PathView_index path (s32 (u32 (PathView_count path - 1)));
      create fs parent name
  end.

Definition OF_OPEN_EXISTING : Z := Bit 0.
Definition OF_CREATE_NEW : Z := Bit 1.

Definition VFS_get_node (fs : Filesystem) (path : PathView) (flags : Z) : exec (Filesystem * Result nat) :=
  if flags =? OF_CREATE_NEW then VFS_create_new_node fs path
  else if flags =? OF_OPEN_EXISTING then r ← VFS_open_existing_node fs path; Done (fs, r)
  else Done (fs, Error ERROR_INVALID_PARAMETER).

Definition VFS_check_exitsts (fs : Filesystem) (path : PathView) : exec bool :=
  '(_, r) ← VFS_get_node fs path OF_OPEN_EXISTING;
  Done (match r with Value _ => true | Error _ => false end).

(** [process_path] is the path of the process of the current thread. *)
Definition VFS_resolve_path (process_path : String) (path : PathView) : exec PathView :=
  if is_absolute (m_type path) then Done path
  else
    own ← PathView_of_string process_path;
    dir ← PathView_sub_path own 0 (-2);
    PathView_set_absolute_path path dir.

(** * Names as characters *)

(** The characters of a string. *)
Definition chars (s : String) : list Z := take (Z.to_nat (s_size s)) (s_bytes s).

Lemma chars_rep s cs : str_rep s cs -> chars s = cs.
Proof.
  intros (_ & j & ->). unfold chars, s_bytes. cbn [s_size s_data default]. unfold id, alen.
  by rewrite Nat2Z.id, take_app_length.
Qed.

(** A name that can be compared: its characters are not zero. *)
Definition named (s : String) : Prop := str_rep s (chars s) /\ Forall (fun x => x <> 0) (chars s).

Lemma named_rep s cs : str_rep s cs -> Forall (fun x => x <> 0) cs -> named s /\ chars s = cs.
Proof. intros Hs Hcs. unfold named. by rewrite (chars_rep s cs Hs). Qed.

Lemma String_eq_view_spec s v cs : named s -> view_rep v cs -> String_eq_view s v = Done (bool_decide (chars s = cs)).
Proof.
  intros [Hs _] Hv. change (String_eq_view s v) with (StringView_eq (StringView_of_string s) v).
  apply StringView_eq_spec; [by apply str_rep_view|done].
Qed.

Lemma String_eq_named s t : named s -> named t -> String_eq s t = Done (bool_decide (chars s = chars t)).
Proof.
  intros [Hs Hs0] [Ht Ht0]. set (cs := chars s) in *. set (ct := chars t) in *. clearbody cs ct.
  destruct Hs as (Hb & j & ->), Ht as (Hb' & j' & ->). unfold String_eq, s_bytes. cbn [s_size s_data default].
  pose proof (strcmp_spec [] cs j [] ct j' Hs0 Ht0 ltac:(lia) ltac:(lia)) as E. rewrite (@alen_nil Z) in E.
  cbn [app] in E. unfold id. rewrite E. destruct (Z.eqb_spec (alen cs) (alen ct)) as [|Hne]; simpl.
  - by rewrite negb_involutive.
  - rewrite bool_decide_eq_false_2; [done|]. intros ->. lia.
Qed.

(** * The tree

    What the paths mean: [step] is the child of a node with a name, [descend] goes down
    a list of names and [resolve] starts at the roots. *)

Section tree.
Context (fs : Filesystem).

Definition has_name (w : list Z) (i : nat) : bool :=
  match fs_nodes fs !! i with Some n => bool_decide (chars (fn_name n) = w) | None => false end.

(** The names in which a node looks for its children, and the error when there is none. *)
Definition below (n : FSNode) : option (list nat * Z) :=
  match fn_class n with
  | CINode | CTarFS | CPipeFS | CDomainSocketFS => Some (fn_children n, ERROR_FILE_DOES_NOT_EXIST)
  | CDeviceFS => Some (default [] (devices fs), ERROR_DEVICE_DOESNOT_EXIST)
  | CPipe | CDomainSocket | CKeyboard | CConsole => None
  end.

Definition step (i : nat) (w : list Z) : Result nat :=
  match fs_nodes fs !! i with
  | None => Error ERROR_INVALID_OPERATION
  | Some n => match below n with
              | None => Error ERROR_INVALID_OPERATION
              | Some (children, e) => found e (List.find (has_name w) children)
              end
  end.

Fixpoint descend (i : nat) (ws : list (list Z)) : Result nat :=
  match ws with
  | [] => Value i
  | w :: ws => match step i w with Value j => descend j ws | Error e => Error e end
  end.

Definition resolve (ws : list (list Z)) : Result nat :=
  match ws with
  | [] => Error ERROR_FILE_DOES_NOT_EXIST
  | w :: ws =>
      if bool_decide (fs_roots fs = []) then Error ERROR_NO_ROOT_NODE
      else match List.find (has_name w) (fs_roots fs) with
           | None => Error ERROR_FILE_DOES_NOT_EXIST
           | Some i => descend i ws
           end
  end.

Definition mountable (c : node_class) : bool :=
  match c with
  | CTarFS | CPipeFS | CDomainSocketFS | CDeviceFS => true
  | CINode | CPipe | CDomainSocket | CKeyboard | CConsole => false
  end.

(** A node that is not a file system. *)
Definition inner (i : nat) : Prop := exists n, fs_nodes fs !! i = Some n /\ mountable (fn_class n) = false.

(** A tree: the nodes it refers to exist and have names, only the roots are file systems,
    and [DeviceFS::children] is set when there is a file system of devices. *)
Record fs_ok : Prop := {
  ok_names : Forall (fun n => named (fn_name n)) (fs_nodes fs);
  ok_children : Forall (fun n => Forall inner (fn_children n)) (fs_nodes fs);
  ok_roots : Forall (fun i => (i < length (fs_nodes fs))%nat) (fs_roots fs);
  ok_devices : Forall inner (default [] (devices fs));
  ok_device_fs : Exists (fun n => fn_class n = CDeviceFS) (fs_nodes fs) -> devices fs <> None
}.

Context (Hok : fs_ok).

Lemma node_at_ok i : (i < length (fs_nodes fs))%nat ->
  exists n, fs_nodes fs !! i = Some n /\ node_at fs i = Done n /\ named (fn_name n).
Proof.
  intros Hi. destruct (lookup_lt_is_Some_2 _ _ Hi) as [n Hn]. exists n. unfold node_at. rewrite Hn.
  split; [done|]. split; [done|]. exact (proj1 (Forall_lookup _ _) (ok_names Hok) i n Hn).
Qed.

Lemma find_child_spec l v w :
  Forall (fun i => (i < length (fs_nodes fs))%nat) l -> view_rep v w ->
  find_child fs l v = Done (List.find (has_name w) l).
Proof.
  intros Hl Hv. induction Hl as [|i l Hi Hl IH]; [done|]. destruct (node_at_ok i Hi) as (n & Hn & E & Hname).
  cbn [find_child List.find]. rewrite E. cbn [mbind exec_bind]. rewrite (String_eq_view_spec _ v w Hname Hv).
  cbn [mbind exec_bind]. unfold has_name at 1. rewrite Hn. by case_bool_decide.
Qed.

Lemma contains_name_spec l s :
  Forall (fun i => (i < length (fs_nodes fs))%nat) l -> named s ->
  contains_name fs l s = Done (existsb (has_name (chars s)) l).
Proof.
  intros Hl Hs. induction Hl as [|i l Hi Hl IH]; [done|]. destruct (node_at_ok i Hi) as (n & Hn & E & Hname).
  cbn [contains_name existsb]. rewrite E. cbn [mbind exec_bind]. rewrite (String_eq_named _ s Hname Hs).
  cbn [mbind exec_bind]. unfold has_name at 1. rewrite Hn. case_bool_decide; [done|]. exact IH.
Qed.

Lemma inner_range l : Forall inner l -> Forall (fun i => (i < length (fs_nodes fs))%nat) l.
Proof. intros Hl. eapply Forall_impl; [exact Hl|]. intros i (n & Hn & _). by apply lookup_lt_Some in Hn. Qed.

Lemma below_inner i n l e : fs_nodes fs !! i = Some n -> below n = Some (l, e) -> Forall inner l.
Proof.
  intros Hn Hb. pose proof (proj1 (Forall_lookup _ _) (ok_children Hok) i n Hn) as Hc.
  unfold below in Hb. destruct (fn_class n); simplify_eq/=; (exact Hc || exact (ok_devices Hok)).
Qed.

Lemma dir_lookup_spec i v w : (i < length (fs_nodes fs))%nat -> view_rep v w -> dir_lookup fs i v = Done (step i w).
Proof.
  intros Hi Hv. destruct (node_at_ok i Hi) as (n & Hn & E & _). unfold dir_lookup, step. rewrite E, Hn.
  cbn [mbind exec_bind]. pose proof (fun l e Hn Hb => inner_range l (below_inner i n l e Hn Hb)) as Hb. unfold below in *. destruct (fn_class n) eqn:Hc; try done;
    unfold INode_dir_lookup, TarFS_dir_lookup, PipeFS_dir_lookup, DomainSocketFS_dir_lookup, DeviceFS_dir_lookup.
  1-4: by rewrite (find_child_spec _ v w) by (done || by eapply Hb).
  destruct (devices fs) as [l|] eqn:Hd.
  - by rewrite (find_child_spec _ v w) by (done || by eapply Hb).
  - exfalso. apply (ok_device_fs Hok); [|done]. apply Exists_exists. exists n. split; [|done].
    by apply list_elem_of_lookup_2 in Hn.
Qed.

Lemma find_in l w i : Forall (fun i => (i < length (fs_nodes fs))%nat) l ->
  List.find (has_name w) l = Some i -> (i < length (fs_nodes fs))%nat.
Proof.
  intros Hl Hf. apply List.find_some in Hf as [Hin _]. rewrite Forall_forall in Hl. apply Hl. by apply list_elem_of_In.
Qed.

Lemma step_inner i w j : step i w = Value j -> inner j.
Proof.
  unfold step. destruct (fs_nodes fs !! i) as [n|] eqn:Hn; [|done].
  destruct (below n) as [[l e]|] eqn:Hb; [|done]. destruct (List.find _ l) eqn:Hf; [|done]. intros [= <-].
  apply List.find_some in Hf as [Hin _]. pose proof (below_inner i n l e Hn Hb) as Hl. rewrite Forall_forall in Hl.
  apply Hl. by apply list_elem_of_In.
Qed.

Lemma step_in i w j : step i w = Value j -> (j < length (fs_nodes fs))%nat.
Proof. intros (n & Hn & _)%step_inner. by apply lookup_lt_Some in Hn. Qed.

Lemma descend_inner ws : forall i w j, descend i (w :: ws) = Value j -> inner j.
Proof.
  induction ws as [|w' ws IH]; intros i w j; cbn [descend].
  - destruct (step i w) eqn:Hs; [|done]. intros [= <-]. by eapply step_inner.
  - destruct (step i w) as [k|]; [|done]. apply (IH k w').
Qed.

(** Below the roots no node has [create]. *)
Lemma create_inner i name : inner i -> create fs i name = Done (fs, Error ERROR_INVALID_OPERATION).
Proof.
  intros (n & Hn & Hm). unfold create, node_at. rewrite Hn. cbn [mbind exec_bind].
  by destruct (fn_class n).
Qed.

End tree.

(** * Following a path *)

Section traversal.
Context (fs : Filesystem) (Hok : fs_ok fs) (p : PathView) (acs rcs : list Z) (Hp : path_rep p acs rcs).
#[local] Abbreviation ws := (parts acs ++ parts rcs).

Lemma path_element k w : ws !! k = Some w ->
  exists v, PathView_index p (s32 (Z.of_nat k)) = Done v /\ view_rep v w.
Proof.
  intros Hw. pose proof (lookup_lt_Some _ _ _ Hw) as Hk. destruct (PathView_count_spec p acs rcs Hp) as [_ Hb].
  pose proof (PathView_index_spec p acs rcs (Z.of_nat k) Hp) as Hi. cbv zeta in Hi. unfold alen in *.
  rewrite (proj2 (Z.leb_le _ _)), (proj2 (Z.ltb_lt _ _)), (proj2 (Z.ltb_ge _ _)) in Hi by lia. simpl in Hi.
  destruct Hi as (v & x & E & Hv & Hx). rewrite Nat2Z.id, Hw in Hx. injection Hx as ->.
  exists v. by rewrite s32_small by lia.
Qed.

Lemma traverse_resolves : VFS_traverse_node fs p = Done (resolve fs ws).
Proof.
  unfold VFS_traverse_node. destruct (PathView_count_spec p acs rcs Hp) as [-> Hb].
  pose proof path_element as Hel. destruct ws as [|w0 rest]; [done|]. rewrite alen_cons in *. pose proof (alen_nonneg rest).
  rewrite (proj2 (Z.eqb_neq _ _)) by lia. unfold resolve.
  destruct (decide (fs_roots fs = [])) as [Hr|Hr]; [by rewrite Hr|]. rewrite bool_decide_eq_false_2 by done.
  rewrite (proj2 (Z.eqb_neq _ _)) by (unfold alen; destruct (fs_roots fs); [done|simpl; lia]).
  destruct (Hel 0%nat w0 eq_refl) as (v & E & Hv). change (s32 (Z.of_nat 0)) with 0 in E. rewrite E.
  cbn [mbind exec_bind]. unfold VFS_get_root_node. rewrite (find_child_spec fs Hok _ v w0) by (done || apply ok_roots, Hok).
  cbn [mbind exec_bind]. destruct (List.find _ (fs_roots fs)) as [root|] eqn:Hroot; [|done].
  assert (Hin : (root < length (fs_nodes fs))%nat) by (eapply find_in; [apply ok_roots, Hok|done]).
  match goal with |- while ?f ?st ?s0 = _ =>
    destruct (while_inv (fun '(i, cur) => exists us vs, rest = us ++ vs /\ i = 1 + alen us /\
        (cur < length (fs_nodes fs))%nat /\ descend fs cur vs = descend fs root rest)
      (fun r => r = descend fs root rest) (fun '(i, _) => Z.to_nat (alen rest + 1 - i)) st f s0) as (r & E' & Hr') end.
  - exists [], rest. done.
  - unfold alen. lia.
  - intros [i cur] (us & vs & E2 & -> & Hcur & Hd). destruct vs as [|w vs].
    + right. rewrite E2, app_nil_r, (proj2 (Z.ltb_ge _ _)) by lia. eexists. split; [done|].
      rewrite app_nil_r in E2. subst us. by rewrite <- Hd.
    + rewrite E2, alen_app, alen_cons in *. pose proof (alen_nonneg us). pose proof (alen_nonneg vs).
      rewrite (proj2 (Z.ltb_lt _ _)) by lia.
      destruct (Hel (S (length us)) w) as (v' & Ev & Hv').
      { simpl. by rewrite lookup_app_r, Nat.sub_diag by lia. }
      replace (1 + alen us) with (Z.of_nat (S (length us))) by (unfold alen; lia). rewrite Ev. cbn [mbind exec_bind].
      rewrite (dir_lookup_spec fs Hok cur v' w Hcur Hv'). cbn [mbind exec_bind]. cbn [descend] in Hd.
      destruct (step fs cur w) as [j|e] eqn:Hs; [left|right]; eexists; (split; [done|]); [|done].
      split; [|unfold alen in *; rewrite u32_small by lia; lia].
      exists (us ++ [w]), vs. rewrite <- app_assoc, alen_snoc. split; [done|].
      split; [unfold alen in *; rewrite u32_small by lia; lia|]. split; [by eapply step_in|done].
  - by rewrite E', Hr'.
Qed.

End traversal.

(** The absolute path "/w1/.../wn". *)
Lemma absolute_path v ws :
  view_rep v (opened ws) -> Forall proper_element ws -> ws <> [] -> alen (opened ws) + 2 < 2 ^ 31 ->
  exists p, PathView_of_view v = Done p /\ m_type p = Absolute /\ path_rep p (opened ws) [] /\
    parts (opened ws) ++ parts [] = ws.
Proof.
  intros Hv Hws Hne Hb. destruct (PathView_of_view_spec v (opened ws) Hv) as (p & E & Ht & Hp);
    [by apply valid_opened|done|].
  assert (Hh : head (opened ws) = Some SPLITER) by by destruct ws.
  rewrite Hh, bool_decide_eq_true_2 in Hp by done. exists p. split; [done|].
  apply has_type_absolute in Ht. rewrite Hh, bool_decide_eq_true_2 in Ht by done. apply bool_decide_eq_true in Ht.
  split; [done|]. split; [done|]. unfold parts. rewrite bool_decide_eq_false_2 by by destruct ws.
  rewrite elements_opened by done. apply app_nil_r.
Qed.

(** The path of the parent, for a path of at least three elements. *)
Lemma parent_path p ws :
  Forall proper_element ws -> ws <> [] -> path_rep p (opened ws) [] ->
  if (alen ws <=? 2) then PathView_sub_path p 0 (-2) = Panic
  else exists q, PathView_sub_path p 0 (-2) = Done q /\ m_type q = Absolute /\
         path_rep q (opened (removelast ws)) [] /\ parts (opened (removelast ws)) ++ parts [] = removelast ws.
Proof.
  intros Hws Hne Hp. pose proof (sub_path_spec p ws 0 (-2) Hws Hne Hp) as Hs. cbv zeta in Hs.
  change (0 <? 0) with false in Hs. change (-2 <? 0) with true in Hs. cbn match in Hs.
  pose proof (alen_nonneg ws). destruct (Z.leb_spec (alen ws) 2).
  - rewrite bool_decide_eq_false_2 in Hs by lia. done.
  - rewrite bool_decide_eq_true_2 in Hs by lia. destruct Hs as (q & E & Ht & Hq).
    assert (Es : slice ws 0 (alen ws + -2) = removelast ws).
    { unfold slice. simpl. rewrite List.removelast_firstn_len. unfold alen. f_equal. lia. }
    rewrite Es in Hq. exists q. split; [done|]. split; [done|]. split; [done|].
    assert (Hl : length (removelast ws) = (length ws - 1)%nat).
    { rewrite List.removelast_firstn_len, length_take. lia. }
    assert (Hr : removelast ws <> []) by (intros E0; rewrite E0 in Hl; unfold alen in *; simpl in Hl; lia).
    unfold parts. rewrite bool_decide_eq_false_2 by by destruct (removelast ws).
    rewrite elements_opened; [apply app_nil_r| |done].
    rewrite List.removelast_firstn_len. by apply Forall_take.
Qed.

(** A relative path of a process is looked for below the parent of its executable. *)
Lemma resolve_path_spec ps ws p rcs :
  str_rep ps (opened ws) -> Forall proper_element ws -> ws <> [] -> alen (opened ws) + 2 < 2 ^ 31 ->
  alen (opened ws) + alen rcs + 2 < 2 ^ 31 ->
  m_type p <> Absolute -> path_rep p [] rcs ->
  if (alen ws <=? 2) then VFS_resolve_path ps p = Panic
  else exists q, VFS_resolve_path ps p = Done q /\ path_rep q (opened (removelast ws)) rcs.
Proof.
  intros Hps Hws Hne Hb Hb' Ht Hp. unfold VFS_resolve_path, is_absolute. rewrite bool_decide_eq_false_2 by done.
  destruct (absolute_path (StringView_of_string ps) ws) as (own & E & Hto & Hown & _); [by apply str_rep_view|done..|].
  unfold PathView_of_string. rewrite E. cbn [mbind exec_bind]. pose proof (parent_path own ws Hws Hne Hown) as Hpar.
  destruct (Z.leb_spec (alen ws) 2) as [|Hlong]; [by rewrite Hpar|]. destruct Hpar as (dir & -> & Htd & Hdir & Hels).
  cbn [mbind exec_bind]. unfold PathView_set_absolute_path, is_absolute. rewrite Htd.
  rewrite (bool_decide_eq_false_2 _ Ht), (bool_decide_eq_true_2 (Absolute = Absolute)) by done.
  cbn [negb ASSERT mbind exec_bind]. destruct Hdir as (Hva & Hvr & Hbd & Hca & Hcr). destruct Hp as (_ & Hv & _ & _ & Hc).
  assert (Hl : length (removelast ws) = (length ws - 1)%nat) by (rewrite List.removelast_firstn_len, length_take; lia).
  change (parts []) with (@nil (list Z)) in Hels, Hcr. rewrite app_nil_r in Hels.
  rewrite Hels in Hca. rewrite bind_ASSERT by (apply Z.ltb_lt; unfold alen in *; lia).
  rewrite Hcr, bind_ASSERT by done. eexists. split; [done|]. split; [done|]. split; [done|].
  split; [|by rewrite Hels]. assert (He : alen (opened (removelast ws)) <= alen (opened ws)); [|lia].
  destruct (exists_last Hne) as (us & w & ->). rewrite removelast_last, opened_app, alen_app.
  pose proof (alen_nonneg (opened [w])). lia.
Qed.

(** C9: finding a node. For the absolute path "/w1/.../wn", [get_node] with
    [OF_OPEN_EXISTING] gives exactly the node that is reached from the mounted file system
    named "w1" by going from name to name, each time to the first child of that name, and
    otherwise the error of the place where the way ends; [check_exitsts] tells which. Any
    flags but the two known ones are an invalid parameter. A relative path means the names
    below the directory of the executable of the process, which must have a path of at
    least three elements. With [OF_CREATE_NEW] no node is ever created: a path of one or
    two elements fails the assertion of [sub_path], and the parent of a longer one is never
    a file system, so that it has no [create]. *)
Theorem vfs_get_node (fs : Filesystem) (v rv : StringView) (ws : list (list Z)) (rcs : list Z) (ps : String)
    (flags : Z) (Hok : fs_ok fs) (Hv : view_rep v (opened ws)) (Hws : Forall proper_element ws) (Hne : ws <> [])
    (Hrv : view_rep rv rcs) (Hvalid : valid_path rcs = true) (Hrel : head rcs <> Some SPLITER)
    (Hps : str_rep ps (opened ws)) (Hb : alen (opened ws) + alen rcs + 2 < 2 ^ 31) :
  exists p q, PathView_of_view v = Done p /\ PathView_of_view rv = Done q /\
    VFS_resolve_path ps p = Done p /\
    VFS_get_node fs p OF_OPEN_EXISTING = Done (fs, resolve fs ws) /\
    VFS_check_exitsts fs p = Done (match resolve fs ws with Value _ => true | Error _ => false end) /\
    (flags <> OF_OPEN_EXISTING -> flags <> OF_CREATE_NEW ->
     VFS_get_node fs p flags = Done (fs, Error ERROR_INVALID_PARAMETER)) /\
    (if alen ws <=? 2 then VFS_resolve_path ps q = Panic
     else exists q', VFS_resolve_path ps q = Done q' /\
            VFS_get_node fs q' OF_OPEN_EXISTING = Done (fs, resolve fs (removelast ws ++ elements rcs))) /\
    VFS_get_node fs p OF_CREATE_NEW
    = (if alen ws <=? 2 then Panic
       else Done (fs, Error (match resolve fs (removelast ws) with
                             | Value _ => ERROR_INVALID_OPERATION
                             | Error e => e
                             end))).
Proof.
  pose proof (alen_nonneg rcs). pose proof (alen_nonneg (opened ws)).
  destruct (absolute_path v ws) as (p & Ep & Htp & Hp & Hels); [done..|lia|].
  destruct (PathView_of_view_spec rv rcs Hrv Hvalid) as (q & Eq & Htq & Hq); [lia|].
  rewrite bool_decide_eq_false_2 in Hq by done. apply has_type_absolute in Htq.
  rewrite (bool_decide_eq_false_2 _ Hrel) in Htq. apply bool_decide_eq_false in Htq.
  exists p, q. split; [done|]. split; [done|].
  split; [unfold VFS_resolve_path, is_absolute; by rewrite bool_decide_eq_true_2|].
  assert (Hopen : VFS_get_node fs p OF_OPEN_EXISTING = Done (fs, resolve fs ws)).
  { unfold VFS_get_node. change (OF_OPEN_EXISTING =? OF_CREATE_NEW) with false. rewrite Z.eqb_refl. cbn match.
    unfold VFS_open_existing_node. by rewrite (traverse_resolves fs Hok p _ _ Hp), Hels. }
  split; [done|]. split; [unfold VFS_check_exitsts; by rewrite Hopen|]. split; [|split].
  - intros Ho Hc. unfold VFS_get_node. by rewrite !(proj2 (Z.eqb_neq _ _)) by done.
  - pose proof (resolve_path_spec ps ws q rcs Hps Hws Hne ltac:(lia) Hb Htq Hq) as Hr.
    destruct (Z.leb_spec (alen ws) 2); [done|]. destruct Hr as (q' & -> & Hq'). exists q'. split; [done|].
    unfold VFS_get_node. change (OF_OPEN_EXISTING =? OF_CREATE_NEW) with false. rewrite Z.eqb_refl. cbn match.
    unfold VFS_open_existing_node. rewrite (traverse_resolves fs Hok q' _ _ Hq').
    pose proof (parent_path p ws Hws Hne Hp) as Hpar. rewrite (proj2 (Z.leb_gt _ _)) in Hpar by lia.
    destruct Hpar as (_ & _ & _ & _ & Hels'). change (parts []) with (@nil (list Z)) in Hels'. rewrite app_nil_r in Hels'.
    rewrite Hels'. unfold parts. by rewrite bool_decide_eq_false_2 by by destruct rcs.
  - unfold VFS_get_node. rewrite Z.eqb_refl. unfold VFS_create_new_node.
    pose proof (parent_path p ws Hws Hne Hp) as Hpar. destruct (Z.leb_spec (alen ws) 2); [by rewrite Hpar|].
    destruct Hpar as (d & -> & _ & Hd & Hels'). cbn [mbind exec_bind].
    rewrite (traverse_resolves fs Hok d _ _ Hd), Hels'. cbn [mbind exec_bind].
    destruct (resolve fs (removelast ws)) as [i|e] eqn:Hres; [|done].
    destruct (PathView_count_spec p _ _ Hp) as [-> Hn]. rewrite Hels in *.
    destruct (lookup_lt_is_Some_2 ws (length ws - 1)) as [w Hw]; [unfold alen in *; lia|].
    destruct (path_element p _ _ Hp (length ws - 1) w) as (nv & En & _); [by rewrite Hels|].
    rewrite u32_small by (unfold alen in *; lia).
    replace (alen ws - 1) with (Z.of_nat (length ws - 1)) by (unfold alen in *; lia). rewrite En. cbn [mbind exec_bind].
    apply create_inner. destruct ws as [|w0 [|w1 ws]]; [done|unfold alen in *; simpl in *; lia|].
    destruct ws as [|w2 ws]; [unfold alen in *; simpl in *; lia|]. change (removelast (w0 :: w1 :: w2 :: ws))
      with (w0 :: w1 :: removelast (w2 :: ws)) in Hres. unfold resolve in Hres.
    case_bool_decide; [done|]. destruct (List.find _ _); [|done]. by eapply descend_inner.
Qed.

(** "/t/b/s" is found, and so is "s" for a process with that path; "/t/b/x" cannot be created. *)
Lemma vfs_get_node_witness :
  let name c := mkString 1 (Some [c; 0]) in
  let fs := mkFs [mkNode (name 116) 0 0 NT_Root 0 CTarFS 0 [1%nat]; mkNode (name 98) 0 0 NT_Folder 0 CINode 0 [2%nat];
                  mkNode (name 115) 0 0 NT_File 5 CINode 4096 []] [0%nat] None in
  let path := [47; 116; 47; 98; 47; 115] in
  exists p q q', PathView_of_view (Strings.mkView 6 path 0) = Done p /\ PathView_of_view (Strings.mkView 1 [115; 0] 0) = Done q /\
    VFS_get_node fs p OF_OPEN_EXISTING = Done (fs, Value 2%nat) /\
    VFS_resolve_path (mkString 6 (Some (path ++ [0]))) q = Done q' /\
    VFS_get_node fs q' OF_OPEN_EXISTING = Done (fs, Value 2%nat) /\
    VFS_get_node fs p OF_CREATE_NEW = Done (fs, Error ERROR_INVALID_OPERATION).
Proof.
  intros name fs path.
  destruct (vfs_get_node fs (Strings.mkView 6 path 0) (Strings.mkView 1 [115; 0] 0) [[116]; [98]; [115]] [115]
    (mkString 6 (Some (path ++ [0]))) 0) as (p & q & Ep & Eq & _ & E1 & _ & _ & (q' & E2 & E3) & E4).
  - constructor; simpl.
    + repeat (apply Forall_cons; split; [split; [split; [done|by exists []]|by repeat constructor]|]). by apply Forall_nil.
    + repeat (apply Forall_cons; split; [repeat (apply Forall_cons; split; [by eexists|]); by apply Forall_nil|]).
      by apply Forall_nil.
    + repeat constructor.
    + constructor.
    + intros H. repeat (inversion_clear H as [? ? H'|? ? H']; [discriminate H'|rename H' into H]). inversion H.
  - split; [done|]. by exists [], [].
  - repeat (apply Forall_cons; split; [split; [intros H; by apply list_elem_of_singleton in H|done]|]). by apply Forall_nil.
  - done.
  - split; [done|]. by exists [], [0].
  - done.
  - done.
  - split; [done|]. by exists [].
  - done.
  - exists p, q, q'. repeat split; done.
Defined.

(** * Growing the tree

    Nodes are only added, behind the children that a node has already. *)

Definition same_file (n n' : FSNode) : Prop :=
  fn_type n' = fn_type n /\ fn_size n' = fn_size n /\ fn_data n' = fn_data n.

Definition grows (n n' : FSNode) : Prop :=
  same_file n n' /\
  fn_name n' = fn_name n /\ fn_class n' = fn_class n /\ exists l, fn_children n' = fn_children n ++ l.

Lemma grows_refl n : grows n n.
Proof. split; [done|]. split; [done|]. split; [done|]. exists []. by rewrite app_nil_r. Qed.

Record extends (fs fs' : Filesystem) : Prop := {
  ext_nodes : forall i n, fs_nodes fs !! i = Some n -> exists n', fs_nodes fs' !! i = Some n' /\ grows n n';
  ext_roots : exists l, fs_roots fs' = fs_roots fs ++ l;
  ext_devices : exists l, default [] (devices fs') = default [] (devices fs) ++ l
}.

#[export] Instance extends_preorder : PreOrder extends.
Proof.
  split.
  - intros fs. split; [|exists []; by rewrite app_nil_r..].
    intros i n Hn. exists n. split; [done|apply grows_refl].
  - intros fs1 fs2 fs3 [Hn1 [r1 Hr1] [d1 Hd1]] [Hn2 [r2 Hr2] [d2 Hd2]]. split.
    + intros i n Hn. destruct (Hn1 i n Hn) as (n' & Hn' & (E4 & E5 & E6) & E1 & E2 & l & E3).
      destruct (Hn2 i n' Hn') as (n'' & Hn'' & (F4 & F5 & F6) & F1 & F2 & l' & F3). exists n''. split; [done|].
      split; [split; [congruence|split; congruence]|]. split; [congruence|]. split; [congruence|]. exists (l ++ l'). by rewrite F3, E3, app_assoc.
    + exists (r1 ++ r2). by rewrite Hr2, Hr1, app_assoc.
    + exists (d1 ++ d2). by rewrite Hd2, Hd1, app_assoc.
Qed.

Section extension.
Context (fs fs' : Filesystem) (Hok : fs_ok fs) (Hext : extends fs fs').

Lemma extends_range i : (i < length (fs_nodes fs))%nat -> (i < length (fs_nodes fs'))%nat.
Proof.
  intros [n Hn]%lookup_lt_is_Some_2. destruct (ext_nodes _ _ Hext i n Hn) as (n' & Hn' & _).
  by apply lookup_lt_Some in Hn'.
Qed.

Lemma extends_inner i : inner fs i -> inner fs' i.
Proof.
  intros (n & Hn & Hm). destruct (ext_nodes _ _ Hext i n Hn) as (n' & Hn' & _ & _ & Hc & _).
  exists n'. by rewrite Hc.
Qed.

Lemma extends_has_name w i : (i < length (fs_nodes fs))%nat -> has_name fs' w i = has_name fs w i.
Proof.
  intros [n Hn]%lookup_lt_is_Some_2. destruct (ext_nodes _ _ Hext i n Hn) as (n' & Hn' & _ & Hname & _).
  unfold has_name. by rewrite Hn, Hn', Hname.
Qed.

Lemma extends_find w l l' :
  Forall (fun i => (i < length (fs_nodes fs))%nat) l ->
  List.find (has_name fs' w) (l ++ l')
  = match List.find (has_name fs w) l with Some i => Some i | None => List.find (has_name fs' w) l' end.
Proof.
  intros Hl. induction Hl as [|i l Hi Hl IH]; [done|]. simpl. rewrite (extends_has_name w i Hi).
  by destruct (has_name fs w i).
Qed.

Lemma extends_step i w j : step fs i w = Value j -> step fs' i w = Value j.
Proof.
  unfold step. destruct (fs_nodes fs !! i) as [n|] eqn:Hn; [|done].
  destruct (ext_nodes _ _ Hext i n Hn) as (n' & -> & _ & _ & Hc & l' & Hl').
  destruct (below fs n) as [[l e]|] eqn:Hb; [|done]. destruct (List.find _ l) as [k|] eqn:Hf; [|done].
  pose proof (inner_range fs _ (below_inner fs Hok i n l e Hn Hb)) as Hr. intros [= <-].
  destruct (ext_devices _ _ Hext) as [d Hd]. unfold below in *. rewrite Hc.
  destruct (fn_class n); simplify_eq/=; rewrite ?Hl', ?Hd, extends_find, Hf; done.
Qed.

Lemma extends_descend ws : forall i j, descend fs i ws = Value j -> descend fs' i ws = Value j.
Proof.
  induction ws as [|w ws IH]; intros i j; [done|]. cbn [descend]. destruct (step fs i w) as [k|] eqn:Hs; [|done].
  rewrite (extends_step i w k Hs). apply IH.
Qed.

(** A path keeps its node. *)
Lemma extends_resolve ws j : resolve fs ws = Value j -> resolve fs' ws = Value j.
Proof.
  destruct ws as [|w ws]; [done|]. unfold resolve. case_bool_decide as Hr; [done|].
  destruct (List.find _ _) as [i|] eqn:Hf; [|done]. intros Hd. destruct (ext_roots _ _ Hext) as [l ->].
  rewrite bool_decide_eq_false_2 by by destruct (fs_roots fs).
  rewrite extends_find, Hf by apply ok_roots, Hok. by apply extends_descend.
Qed.

End extension.

(** A fresh node. *)
Lemma new_node_ok fs n d :
  fs_ok fs -> named (fn_name n) -> fn_children n = [] -> default [] d = default [] (devices fs) ->
  (devices fs <> None -> d <> None) -> (fn_class n = CDeviceFS -> d <> None) ->
  let fs' := mkFs (fs_nodes fs ++ [n]) (fs_roots fs) d in
  fs_ok fs' /\ extends fs fs' /\ fs_nodes fs' !! length (fs_nodes fs) = Some n.
Proof.
  intros Hok Hn Hc Hd Hd' Hcl fs'. assert (Hext : extends fs fs').
  { split; [|by exists []; rewrite app_nil_r|by exists []; rewrite app_nil_r].
    intros i m Hm. exists m. split; [by apply lookup_app_l_Some|apply grows_refl]. }
  split; [|split; [done|unfold fs'; cbn [fs_nodes]; by rewrite lookup_app_r, Nat.sub_diag by lia]].
  destruct Hok as [H1 H2 H3 H4 H5]. split; unfold fs'; cbn [fs_nodes fs_roots devices].
  - apply Forall_app. split; [done|]. by apply Forall_singleton.
  - apply Forall_app. split; [|apply Forall_singleton; rewrite Hc; by apply Forall_nil].
    eapply Forall_impl; [exact H2|]. intros m Hm. eapply Forall_impl; [exact Hm|]. intros i. by apply extends_inner.
  - eapply Forall_impl; [exact H3|]. intros i Hi. cbv beta in *. rewrite length_app. lia.
  - rewrite Hd. eapply Forall_impl; [exact H4|]. intros i. by apply extends_inner.
  - intros [Hx|Hx]%Exists_app; [by apply Hd', H5|]. apply Hcl.
    by apply Exists_exists in Hx as (m & ->%list_elem_of_singleton & Hm).
Qed.

Lemma FSNode_new_spec fs v w type size class data :
  fs_ok fs -> view_rep v w -> Forall (fun x => x <> 0) w ->
  exists n, FSNode_new fs v type size class data
            = Done (mkFs (fs_nodes fs ++ [n]) (fs_roots fs) (devices fs), length (fs_nodes fs)) /\
    named (fn_name n) /\ chars (fn_name n) = w /\ fn_children n = [] /\ fn_class n = class /\
    fn_type n = type /\ fn_size n = size /\ fn_data n = data.
Proof.
  intros Hok Hv Hw. unfold FSNode_new. destruct (String_of_view_rep v w Hv) as (s & -> & Hs). cbn [mbind exec_bind].
  eexists. split; [done|]. destruct (named_rep s w Hs Hw). done.
Qed.

(** A new last child. *)
Lemma add_child_spec fs i n c :
  fs_ok fs -> fs_nodes fs !! i = Some n -> inner fs c ->
  exists fs', add_child fs i c = Done fs' /\ fs_ok fs' /\ extends fs fs' /\ length (fs_nodes fs') = length (fs_nodes fs) /\
    (forall j, j <> i -> fs_nodes fs' !! j = fs_nodes fs !! j) /\
    (exists n', fs_nodes fs' !! i = Some n' /\ grows n n' /\ fn_children n' = fn_children n ++ [c]) /\
    fs_roots fs' = fs_roots fs /\ devices fs' = devices fs.
Proof.
  intros Hok Hn Hc. unfold add_child, node_at. rewrite Hn. cbn [mbind exec_bind].
  set (n' := mkNode _ _ _ _ _ _ _ _). set (fs' := mkFs _ _ _). exists fs'. split; [done|].
  pose proof (lookup_lt_Some _ _ _ Hn) as Hi.
  assert (Hg : grows n n') by (split; [done|]; split; [done|]; split; [done|]; by eexists).
  assert (Hext : extends fs fs').
  { split; [|by exists []; rewrite app_nil_r|by exists []; rewrite app_nil_r]. intros j m Hm. unfold fs'. cbn [fs_nodes].
    destruct (decide (j = i)) as [->|Hne].
    - rewrite list_lookup_insert_eq by done. exists n'. rewrite Hn in Hm. injection Hm as <-. done.
    - rewrite list_lookup_insert_ne by done. exists m. split; [done|apply grows_refl]. }
  split; [|split; [done|]].
  - destruct Hok as [H1 H2 H3 H4 H5].
    assert (H2' : Forall (fun n => Forall (inner fs') (fn_children n)) (fs_nodes fs)).
    { eapply Forall_impl; [exact H2|]. intros m Hm. eapply Forall_impl; [exact Hm|]. intros j. by apply extends_inner. }
    split.
    + apply Forall_insert; [done|]. exact (proj1 (Forall_lookup _ _) H1 i n Hn).
    + apply Forall_insert; [done|]. apply Forall_app. split; [exact (proj1 (Forall_lookup _ _) H2' i n Hn)|].
      apply Forall_singleton. by apply (extends_inner fs).
    + unfold fs'. cbn [fs_nodes fs_roots]. by rewrite length_insert.
    + eapply Forall_impl; [exact H4|]. intros j. by apply extends_inner.
    + intros Hx. apply H5. apply Exists_exists in Hx as (m & Hm & Hcl). apply list_elem_of_lookup_1 in Hm as [j Hj].
      unfold fs' in Hj. cbn [fs_nodes] in Hj. destruct (decide (j = i)) as [->|Hne].
      * rewrite list_lookup_insert_eq in Hj by done. injection Hj as <-.
        apply Exists_exists. exists n. split; [by eapply list_elem_of_lookup_2|done].
      * rewrite list_lookup_insert_ne in Hj by done. apply Exists_exists. exists m.
        split; [by eapply list_elem_of_lookup_2|done].
  - split; [unfold fs'; cbn [fs_nodes]; by rewrite length_insert|].
    split; [intros j Hj; unfold fs'; cbn [fs_nodes]; by rewrite list_lookup_insert_ne|].
    split; [|done]. exists n'. unfold fs'. cbn [fs_nodes]. by rewrite list_lookup_insert_eq.
Qed.

(** The operations that add nodes; each gives the added node or an error. A device is
    allocated and added as kernel_init.cpp does, a file system allocated and mounted. *)
Inductive mount_kind := MPipeFS | MDomainSocketFS | MDeviceFS.

Inductive device_kind := DKeyboard | DConsole.

Inductive fs_op :=
| OMount (k : mount_kind) (name : StringView)
| OAddDevice (k : device_kind) (name : StringView)
| OCreate (i : nat) (name : StringView).

Definition status (code : Z) (i : nat) : Result nat := if code =? ERROR_SUCCESS then Value i else Error code.

Definition run_op (fs : Filesystem) (op : fs_op) : exec (Filesystem * Result nat) :=
  match op with
  | OMount k name =>
      '(fs, i) ← match k with
                 | MPipeFS => PipeFS_alloc fs name
                 | MDomainSocketFS => DomainSocketFS_alloc fs name
                 | MDeviceFS => DeviceFS_alloc fs name
                 end;
      '(fs, code) ← VFS_mount fs i;
      Done (fs, status code i)
  | OAddDevice k name =>
      '(fs, i) ← match k with DKeyboard => Keyboard_node fs name | DConsole => Console_node fs name end;
      '(fs, code) ← DeviceFS_add_device fs i;
      Done (fs, status code i)
  | OCreate i name => create fs i name
  end.

Definition op_name (op : fs_op) : StringView :=
  match op with OMount _ name | OAddDevice _ name | OCreate _ name => name end.

Lemma existsb_find {A} (f : A -> bool) l : existsb f l = not_null (List.find f l).
Proof. induction l as [|x l IH]; [done|]. simpl. by destruct (f x). Qed.

(** Mounting a node of the store. *)
Lemma mount_spec fs i n w :
  fs_ok fs -> fs_nodes fs !! i = Some n -> named (fn_name n) -> chars (fn_name n) = w ->
  exists fs' code, VFS_mount fs i = Done (fs', code) /\ fs_ok fs' /\ extends fs fs' /\
    match resolve fs [w] with
    | Value j => status code i = Error ERROR_FS_ALREADY_EXISTS
    | Error _ => status code i = Value i /\ resolve fs' [w] = Value i
    end.
Proof.
  intros Hok Hn Hname Hw. unfold VFS_mount, node_at. rewrite Hn. cbn [mbind exec_bind].
  rewrite (contains_name_spec fs Hok) by (done || apply ok_roots, Hok). rewrite Hw, existsb_find. cbn [mbind exec_bind].
  assert (Hres : resolve fs [w] = match List.find (has_name fs w) (fs_roots fs) with
    | Some j => Value j
    | None => Error (if bool_decide (fs_roots fs = []) then ERROR_NO_ROOT_NODE else ERROR_FILE_DOES_NOT_EXIST) end).
  { unfold resolve. case_bool_decide as Hr; [by rewrite Hr|done]. }
  rewrite Hres. destruct (List.find _ _) as [j|] eqn:Hf; cbn [not_null].
  - by exists fs, ERROR_FS_ALREADY_EXISTS.
  - set (fs' := mkFs _ _ _). assert (Hext : extends fs fs').
    { split; [|by exists [i]|by exists []; rewrite app_nil_r]. intros k m Hm. exists m. split; [done|apply grows_refl]. }
    exists fs', ERROR_SUCCESS. split; [done|]. split; [|split; [done|split; [done|]]].
    + destruct Hok as [H1 H2 H3 H4 H5]. split; [done|done| |done|done]. apply Forall_app. split; [done|].
      apply Forall_singleton. by apply lookup_lt_Some in Hn.
    + unfold resolve. rewrite bool_decide_eq_false_2 by (unfold fs'; cbn [fs_roots]; by destruct (fs_roots fs)).
      unfold fs' at 2. cbn [fs_roots]. rewrite (extends_find fs fs' Hext), Hf by apply ok_roots, Hok. cbn [List.find].
      unfold has_name. change (fs_nodes fs') with (fs_nodes fs). by rewrite Hn, bool_decide_eq_true_2.
Qed.

Lemma resolve_root fs fs' w :
  fs_ok fs -> extends fs fs' -> fs_roots fs' = fs_roots fs -> resolve fs' [w] = resolve fs [w].
Proof.
  intros Hok Hext Hr. unfold resolve. rewrite Hr. case_bool_decide; [done|].
  pose proof (extends_find fs fs' Hext w (fs_roots fs) [] (ok_roots _ Hok)) as Hf. rewrite app_nil_r in Hf.
  rewrite Hf. cbn [List.find]. by destruct (List.find (has_name fs w) (fs_roots fs)).
Qed.

Lemma mount_new fs n d w :
  fs_ok fs -> named (fn_name n) -> chars (fn_name n) = w -> fn_children n = [] ->
  default [] d = default [] (devices fs) -> (devices fs <> None -> d <> None) -> (fn_class n = CDeviceFS -> d <> None) ->
  exists fs' r,
    ('(fs1, code) ← VFS_mount (mkFs (fs_nodes fs ++ [n]) (fs_roots fs) d) (length (fs_nodes fs));
     Done (fs1, status code (length (fs_nodes fs)))) = Done (fs', r) /\ fs_ok fs' /\ extends fs fs' /\
    match resolve fs [w] with
    | Value j => r = Error ERROR_FS_ALREADY_EXISTS
    | Error _ => exists i, r = Value i /\ resolve fs' [w] = Value i
    end.
Proof.
  intros Hok Hname Hw Hc H1 H2 H3. destruct (new_node_ok fs n d Hok Hname Hc H1 H2 H3) as (Hok1 & Hext1 & Hn).
  set (fs1 := mkFs _ _ _) in *. destruct (mount_spec fs1 _ n w Hok1 Hn Hname Hw) as (fs' & code & E & Hok' & Hext' & Hr).
  rewrite E. cbn [mbind exec_bind]. rewrite (resolve_root fs fs1 w Hok Hext1 eq_refl) in Hr.
  eexists _, _. split; [done|]. split; [done|]. split; [by etrans|].
  destruct (resolve fs [w]) in Hr |- *; [done|]. destruct Hr as [-> ?]. by eexists.
Qed.

Lemma op_mount_spec fs k v w :
  fs_ok fs -> view_rep v w -> Forall (fun x => x <> 0) w ->
  match k, devices fs with
  | MDeviceFS, Some _ => run_op fs (OMount k v) = Panic
  | _, _ => exists fs' r, run_op fs (OMount k v) = Done (fs', r) /\ fs_ok fs' /\ extends fs fs' /\
      match resolve fs [w] with
      | Value j => r = Error ERROR_FS_ALREADY_EXISTS
      | Error _ => exists i, r = Value i /\ resolve fs' [w] = Value i
      end
  end.
Proof.
  intros Hok Hv Hw. destruct k; cbn [run_op]; unfold PipeFS_alloc, DomainSocketFS_alloc, DeviceFS_alloc.
  - destruct (FSNode_new_spec fs v w NT_Root 0 CPipeFS 0 Hok Hv Hw) as (n & -> & Hname & Hch & Hc & Hcl & _).
    apply mount_new; try done. by rewrite Hcl.
  - destruct (FSNode_new_spec fs v w NT_Root 0 CDomainSocketFS 0 Hok Hv Hw) as (n & -> & Hname & Hch & Hc & Hcl & _).
    apply mount_new; try done. by rewrite Hcl.
  - destruct (FSNode_new_spec fs v w NT_Root 0 CDeviceFS 0 Hok Hv Hw) as (n & -> & Hname & Hch & Hc & Hcl & _).
    cbn [mbind exec_bind devices]. destruct (devices fs) as [l|] eqn:Hd; [done|].
    cbn [not_null negb ASSERT mbind exec_bind fs_nodes fs_roots]. apply mount_new; try done. by rewrite Hd.
Qed.

(** The children of the file system of devices, wherever it is mounted. *)
Definition device_named (fs : Filesystem) (w : list Z) : option nat :=
  List.find (has_name fs w) (default [] (devices fs)).

Lemma step_device fs d n w :
  fs_nodes fs !! d = Some n -> fn_class n = CDeviceFS ->
  step fs d w = found ERROR_DEVICE_DOESNOT_EXIST (device_named fs w).
Proof. intros Hn Hc. unfold step, below. by rewrite Hn, Hc. Qed.

Lemma op_add_device_spec fs k v w :
  fs_ok fs -> view_rep v w -> Forall (fun x => x <> 0) w ->
  match devices fs with
  | None => run_op fs (OAddDevice k v) = Fault
  | Some _ => exists fs' r, run_op fs (OAddDevice k v) = Done (fs', r) /\ fs_ok fs' /\ extends fs fs' /\
      match device_named fs w with
      | Some j => r = Error ERROR_DEVICE_ALREADY_EXISTS
      | None => exists i, r = Value i /\ device_named fs' w = Some i
      end
  end.
Proof.
  intros Hok Hv Hw.
  assert (Hnew : exists n, match k with DKeyboard => Keyboard_node fs v | DConsole => Console_node fs v end
    = Done (mkFs (fs_nodes fs ++ [n]) (fs_roots fs) (devices fs), length (fs_nodes fs)) /\
    named (fn_name n) /\ chars (fn_name n) = w /\ fn_children n = [] /\ mountable (fn_class n) = false).
  { destruct k; [destruct (FSNode_new_spec fs v w NT_Device 1024 CKeyboard 0 Hok Hv Hw) as (n & E & H1 & H2 & H3 & H4 & _)
      |destruct (FSNode_new_spec fs v w NT_Root 0 CConsole 0 Hok Hv Hw) as (n & E & H1 & H2 & H3 & H4 & _)];
      exists n; by rewrite H4. }
  destruct Hnew as (n & E & Hname & Hch & Hc & Hcl). cbn [run_op]. rewrite E. cbn [mbind exec_bind].
  destruct (new_node_ok fs n (devices fs) Hok Hname Hc eq_refl (fun H => H)) as (Hok1 & Hext1 & Hn);
    [by intros E'; rewrite E' in Hcl|]. set (fs1 := mkFs _ _ _) in *. unfold DeviceFS_add_device. change (devices fs1) with (devices fs).
  destruct (devices fs) as [l|] eqn:Hd; [|done]. unfold node_at. rewrite Hn. cbn [mbind exec_bind].
  assert (Hl : Forall (fun i => (i < length (fs_nodes fs1))%nat) l).
  { apply inner_range. pose proof (ok_devices _ Hok1) as H. exact H. }
  assert (Hl0 : Forall (fun i => (i < length (fs_nodes fs))%nat) l).
  { apply inner_range. pose proof (ok_devices _ Hok) as H. by rewrite Hd in H. }
  rewrite (contains_name_spec fs1 Hok1 l _ Hl Hname), Hch, existsb_find.
  pose proof (extends_find fs fs1 Hext1 w l [] Hl0) as Hf. rewrite app_nil_r in Hf. rewrite Hf.
  unfold device_named at 1. rewrite Hd. cbn [default]. unfold id.
  destruct (List.find (has_name fs w) l) as [j|] eqn:Hfl; cbn [List.find not_null mbind exec_bind].
  - exists fs1. by eexists.
  - set (i := length (fs_nodes fs)) in *. set (fs' := mkFs _ _ _). assert (Hext' : extends fs1 fs').
    { split; [|by exists []; rewrite app_nil_r|].
      - intros j m Hm. exists m. split; [done|apply grows_refl].
      - by exists [i]. }
    exists fs', (Value i). split; [done|]. split; [|split; [by etrans|]].
    + destruct Hok1 as [H1 H2 H3 H4 H5]. split; [done|done|done| |done].
      unfold fs1 in H4. cbn [devices default] in H4. unfold id in H4. unfold fs'. cbn [devices default]. unfold id.
      apply Forall_app. split; [done|]. apply Forall_singleton. by exists n.
    + exists i. split; [done|]. unfold device_named. unfold fs' at 2. cbn [devices default]. unfold id.
      rewrite (extends_find fs1 fs' Hext' w l _ Hl), Hf. cbn [List.find]. unfold has_name.
      change (fs_nodes fs') with (fs_nodes fs1). by rewrite Hn, bool_decide_eq_true_2.
Qed.

(** A step that a new child makes possible leads to it. *)
Lemma new_child_steps fs fs' i n n' c m :
  fs_ok fs -> extends fs fs' -> fs_nodes fs !! i = Some n -> c = length (fs_nodes fs) ->
  fs_nodes fs' !! i = Some n' -> fn_class n' = fn_class n -> fn_children n' = fn_children n ++ [c] ->
  fs_nodes fs' !! c = Some m -> fn_children m = [] -> mountable (fn_class m) = false ->
  (forall k, k <> i -> k <> c -> fs_nodes fs' !! k = fs_nodes fs !! k) -> devices fs' = devices fs ->
  forall k w j, step fs' k w = Value j ->
    step fs k w = Value j \/ (k = i /\ w = chars (fn_name m) /\ j = c).
Proof.
  intros Hok Hext Hn Hc Hn' Hcl Hch Hm Hcm Hmm Hother Hd k w j. unfold step at 1.
  destruct (decide (k = c)) as [->|Hkc].
  { rewrite Hm. unfold below. rewrite Hcm. destruct (fn_class m); done. }
  assert (Hsame : forall l, Forall (inner fs) l -> List.find (has_name fs' w) l = List.find (has_name fs w) l).
  { intros l Hl. pose proof (extends_find fs fs' Hext w l [] (inner_range fs l Hl)) as E. rewrite app_nil_r in E.
    rewrite E. cbn [List.find]. by destruct (List.find (has_name fs w) l). }
  assert (Hbelow : below fs' = below fs) by (unfold below; by rewrite Hd). rewrite Hbelow.
  destruct (decide (k = i)) as [->|Hki].
  - rewrite Hn'. destruct (below fs n) as [[l e]|] eqn:Hb.
    + pose proof (below_inner fs Hok i n l e Hn Hb) as Hl. unfold step. rewrite Hn, Hb. unfold below in *. rewrite Hcl.
      destruct (fn_class n); simplify_eq/=; rewrite ?Hsame by done; try (by left); rewrite Hch;
        rewrite (extends_find fs fs' Hext) by by apply inner_range.
      all: destruct (List.find _ _); [by left|]; cbn [List.find]; destruct (has_name fs' w (length (fs_nodes fs))) eqn:Hh;
        [|done]; intros [= <-]; right; split; [done|]; split; [|done]; unfold has_name in Hh; rewrite Hm in Hh;
        by apply bool_decide_eq_true in Hh.
    + unfold below in *. rewrite Hcl. destruct (fn_class n); done.
  - rewrite (Hother k Hki Hkc). unfold step. destruct (fs_nodes fs !! k) as [nk|] eqn:Hk; [|done].
    destruct (below fs nk) as [[l e]|] eqn:Hb; [|done]. rewrite Hsame by by eapply below_inner. by left.
Qed.

(** A new node as the last child of a directory. *)
Lemma new_child_named fs i n m :
  fs_ok fs -> fs_nodes fs !! i = Some n -> below fs n = Some (fn_children n, ERROR_FILE_DOES_NOT_EXIST) ->
  mountable (fn_class m) = false -> named (fn_name m) -> fn_children m = [] ->
  let c := length (fs_nodes fs) in
  let w := chars (fn_name m) in
  exists fs', add_child (mkFs (fs_nodes fs ++ [m]) (fs_roots fs) (devices fs)) i c = Done fs' /\
    fs_ok fs' /\ extends fs fs' /\ length (fs_nodes fs') = S c /\
    fs_roots fs' = fs_roots fs /\ devices fs' = devices fs /\ fs_nodes fs' !! c = Some m /\
    step fs' i w = match step fs i w with Value j => Value j | Error _ => Value c end /\
    (forall k w' j, step fs' k w' = Value j -> step fs k w' = Value j \/ (k = i /\ w' = w /\ j = c)).
Proof.
  intros Hok Hi Hb Hcl Hname Hcm c w. pose proof (lookup_lt_Some _ _ _ Hi) as Hlt.
  destruct (new_node_ok fs m (devices fs) Hok Hname Hcm eq_refl (fun H => H)) as (Hok1 & Hext1 & Hm);
    [intros H; rewrite H in Hcl; discriminate Hcl|].
  fold c in Hm. set (fs1 := mkFs _ _ _) in *. assert (Hi1 : fs_nodes fs1 !! i = Some n) by by apply lookup_app_l_Some.
  destruct (add_child_spec fs1 i n c Hok1 Hi1) as (fs' & E' & Hok' & Hext' & Hlen & Hother & Hn' & Hr & Hd); [by exists m|].
  exists fs'. split; [done|]. split; [done|]. split; [by etrans|].
  split; [rewrite Hlen; unfold fs1; cbn [fs_nodes]; rewrite length_app; simpl; unfold c; lia|].
  split; [by rewrite Hr|]. split; [by rewrite Hd|].
  assert (Hci : c <> i) by (unfold c; lia). rewrite (Hother c Hci). split; [done|].
  destruct Hn' as (n' & Hn' & (_ & Hna & Hcla & _) & Hchn). split; cycle 1.
  { intros k w' j Hk. eapply (new_child_steps fs fs' i n n' c m); try done.
    - by etrans.
    - by rewrite (Hother c Hci).
    - intros k' Hki Hkc. rewrite (Hother k' Hki). unfold fs1. cbn [fs_nodes].
      destruct (decide (k' < c)%nat); [by rewrite lookup_app_l by done|].
      rewrite !lookup_ge_None_2; [done| |]; rewrite ?length_app; unfold c in *; simpl; lia. }
  unfold step. rewrite Hi, Hn', Hb.
  assert (Hb' : below fs' n' = Some (fn_children n ++ [c], ERROR_FILE_DOES_NOT_EXIST)).
  { unfold below in *. rewrite Hcla, Hchn. destruct (fn_class n); simplify_eq/=; done. }
  rewrite Hb', (extends_find fs fs').
  - destruct (List.find _ _) as [j|] eqn:Hf; [done|]. cbn [List.find found]. unfold has_name.
    by rewrite (Hother c Hci), Hm, bool_decide_eq_true_2.
  - by etrans.
  - apply inner_range. by eapply below_inner.
Qed.

Lemma new_child_spec fs i n v w type size class data :
  fs_ok fs -> fs_nodes fs !! i = Some n -> below fs n = Some (fn_children n, ERROR_FILE_DOES_NOT_EXIST) ->
  mountable class = false -> view_rep v w -> Forall (fun x => x <> 0) w ->
  let c := length (fs_nodes fs) in
  exists fs1 fs' m, FSNode_new fs v type size class data = Done (fs1, c) /\ add_child fs1 i c = Done fs' /\
    fs_ok fs' /\ extends fs fs' /\ length (fs_nodes fs') = S c /\
    fs_roots fs' = fs_roots fs /\ devices fs' = devices fs /\
    fs_nodes fs' !! c = Some m /\ chars (fn_name m) = w /\ fn_children m = [] /\ fn_class m = class /\
    fn_type m = type /\ fn_size m = size /\ fn_data m = data /\
    step fs' i w = match step fs i w with Value j => Value j | Error _ => Value c end /\
    (forall k w' j, step fs' k w' = Value j -> step fs k w' = Value j \/ (k = i /\ w' = w /\ j = c)).
Proof.
  intros Hok Hi Hb Hcl Hv Hw c.
  destruct (FSNode_new_spec fs v w type size class data Hok Hv Hw) as (m & E & Hname & Hch & Hcm & Hclm & Hrest).
  destruct (new_child_named fs i n m Hok Hi Hb) as (fs' & E' & Hfs); [by rewrite Hclm|done..|]. rewrite Hch in Hfs.
  destruct Hfs as (? & ? & ? & ? & ? & ? & ? & ?). exists (mkFs (fs_nodes fs ++ [m]) (fs_roots fs) (devices fs)), fs', m.
  split; [exact E|]. split; [exact E'|]. destruct Hrest as (? & ? & ?). done.
Qed.

Lemma op_create_spec fs i n v w :
  fs_ok fs -> fs_nodes fs !! i = Some n -> view_rep v w -> Forall (fun x => x <> 0) w ->
  exists fs' r, run_op fs (OCreate i v) = Done (fs', r) /\ fs_ok fs' /\ extends fs fs' /\
    match fn_class n with
    | CPipeFS => exists c, r = Value c /\
        step fs' i w = match step fs i w with Value j => Value j | Error _ => Value c end
    | CDomainSocketFS =>
        match step fs i w with
        | Value j => r = Error ERROR_FILE_ALREADY_EXISTS
        | Error _ => exists c, r = Value c /\ step fs' i w = Value c
        end
    | _ => r = Error ERROR_INVALID_OPERATION
    end.
Proof.
  intros Hok Hi Hv Hw. cbn [run_op]. unfold create, node_at. rewrite Hi. cbn [mbind exec_bind].
  destruct (fn_class n) eqn:Hcl; try (by exists fs; eexists).
  - destruct (new_child_spec fs i n v w NT_Pipe PIPE_BUFFER_SIZE CPipe 0 Hok Hi) as
      (fs1 & fs' & m & E1 & E2 & Hok' & Hext & Hlen & _ & _ & _ & _ & _ & _ & _ & _ & _ & Hs & _);
      [unfold below; by rewrite Hcl|done..|].
    unfold PipeFS_create. rewrite E1. cbn [mbind exec_bind]. rewrite E2. cbn [mbind exec_bind]. eexists _, _.
    split; [done|]. split; [done|]. split; [done|]. by eexists.
  - unfold DomainSocketFS_create, node_at. rewrite Hi. cbn [mbind exec_bind].
    assert (Hb : below fs n = Some (fn_children n, ERROR_FILE_DOES_NOT_EXIST)) by (unfold below; by rewrite Hcl).
    rewrite (find_child_spec fs Hok _ v w); [|apply inner_range; by eapply below_inner|done]. cbn [mbind exec_bind].
    assert (Hst : step fs i w = found ERROR_FILE_DOES_NOT_EXIST (List.find (has_name fs w) (fn_children n)))
      by (unfold step; by rewrite Hi, Hb).
    destruct (new_child_spec fs i n v w NT_DomainSocket 0 CDomainSocket 0 Hok Hi Hb) as
      (fs1 & fs' & m & E1 & E2 & Hok' & Hext & Hlen & _ & _ & _ & _ & _ & _ & _ & _ & _ & Hs & _); [done..|].
    rewrite Hst in *. destruct (List.find _ _) as [j|]; cbn [not_null found] in *.
    + by exists fs; eexists.
    + rewrite E1. cbn [mbind exec_bind]. rewrite E2. cbn [mbind exec_bind]. eexists _, _.
      split; [done|]. split; [done|]. split; [done|]. by eexists.
Qed.

(** Operations one after the other, whatever each of them answers. *)
Fixpoint run_ops (fs : Filesystem) (ops : list fs_op) : exec Filesystem :=
  match ops with
  | [] => Done fs
  | op :: ops => '(fs, _) ← run_op fs op; run_ops fs ops
  end.

(** The names can be compared. *)
Definition op_ok (op : fs_op) : Prop := exists w, view_rep (op_name op) w /\ Forall (fun x => x <> 0) w.

Lemma run_op_extends fs op fs' r :
  fs_ok fs -> op_ok op -> run_op fs op = Done (fs', r) -> fs_ok fs' /\ extends fs fs'.
Proof.
  intros Hok (w & Hv & Hw) E. destruct op as [k v|k v|i v]; cbn [op_name] in Hv.
  - pose proof (op_mount_spec fs k v w Hok Hv Hw) as H. destruct k, (devices fs); cbv beta iota in H; try (by rewrite H in E);
      destruct H as (fs2 & r2 & E2 & H & H' & _); rewrite E in E2; by simplify_eq.
  - pose proof (op_add_device_spec fs k v w Hok Hv Hw) as H. destruct (devices fs); [|by rewrite H in E].
    destruct H as (fs2 & r2 & E2 & H & H' & _). rewrite E in E2. by simplify_eq.
  - destruct (fs_nodes fs !! i) as [n|] eqn:Hi.
    + destruct (op_create_spec fs i n v w Hok Hi Hv Hw) as (fs2 & r2 & E2 & H & H' & _). rewrite E in E2. by simplify_eq.
    + cbn [run_op] in E. unfold create, node_at in E. by rewrite Hi in E.
Qed.

Lemma run_ops_extends ops : forall fs fs',
  fs_ok fs -> Forall op_ok ops -> run_ops fs ops = Done fs' -> fs_ok fs' /\ extends fs fs'.
Proof.
  induction ops as [|op ops IH]; intros fs fs' Hok Hops E; cbn [run_ops] in E; [by injection E as <-|].
  apply bind_Done_inv in E as ([fs1 r] & E1 & E2). apply Forall_cons in Hops as [Hop Hops].
  destruct (run_op_extends fs op fs1 r Hok Hop E1) as [Hok1 Hext1].
  destruct (IH fs1 fs' Hok1 Hops E2) as [Hok2 Hext2]. split; [done|]. by etrans.
Qed.


