(* ===== verification/Tar.v ===== *)
(** The boot archive (ustar/tar_fs.cpp): a USTAR archive in memory is cut into its entries,
    and each becomes a node of the tree of Vfs.v. The archive is the array of its bytes
    from the address [m_tar_address] on. *)

From S2P Require Import Prelude Clib Storage Stack Strings PathView Buffers Checksum Vfs.

Definition TAR_ALIGNMENT : Z := 512.
Definition TAR_OCTAL_SIZE_LEN : Z := 12.

(** [USTARFileType::Directory]: ['5']. *)
Definition USTAR_Directory : Z := 53.

(** The members of [TarHeader] that are used: their offsets, and the size of the header. *)
Definition tar_name : Z := 0.
Definition tar_size : Z := 124.
Definition tar_typeflag : Z := 156.
Definition tar_magic : Z := 257.
Definition sizeof_TarHeader : Z := 512.

Section tar.
Context (mem : list Z) (m_tar_address : Z).

(** The digits from the last one to the first; [i] counts down. *)
Definition octal_to_decimal (octal : Z) : exec Z :=
  '(size, _) ← for_ (Z.to_nat (TAR_OCTAL_SIZE_LEN - 1)) 0
    (fun k '(size, current_multiplier) =>
       let i := TAR_OCTAL_SIZE_LEN - 1 - k in
       c ← aget mem (octal + (i - 1));
       Done (u32 (size + u32 ((char_value c - 48) * current_multiplier)), u32 (current_multiplier * 8)))
    (0, 1);
  Done size.

Definition regulate_path (path : Z) : exec String :=
  full_path ← String_of_cstr mem path;
  full_path ← String_insert_cstr full_path 0 [SPLITER; 0] 0;
  c ← String_at full_path (u32 (s_size full_path - 1));
  if c =? SPLITER then String_pop_back full_path else Done full_path.

(** The slab from which [Heap::kmalloc] serves a request, by the size of its blocks; larger
    requests get pages of their own, which [kfree] unmaps. *)
Definition kmalloc_slab (size : Z) : option Z :=
  if size <=? 0x10 then Some 0x10 else if size <=? 0x20 then Some 0x20 else if size <=? 0x40 then Some 0x40
  else if size <=? 0x80 then Some 0x80 else if size <=? 0x100 then Some 0x100 else None.

(** [sizeof(List<INode>::Node)]: two links, the members of [FSNode] with their virtual table,
    the data pointer, the lock and the list of children. *)
Definition sizeof_Node : Z := 8 + (4 + 12 + 16) + (4 + 8 + 24).

(** [m_name{name}] of the new node, where [name] is a view of a string that has been
    destroyed. Its block, the storage of the view, is the one that its slab gives out next, and
    keeps its contents until then. The node is allocated first: if it gets the block, it
    has been written over the characters. If the string gets the block, the characters are
    copied within it. *)
Definition name_of_destroyed (name : StringView) : exec String :=
  let block := sv_data name in
  if bool_decide (kmalloc_slab (alen block) = None) || bool_decide (kmalloc_slab sizeof_Node = kmalloc_slab (alen block)) then Fault
  else if bool_decide (kmalloc_slab (sv_size name + 1) = kmalloc_slab (alen block)) then
    data ← memcpy_within block 0 (sv_off name) (sv_size name);
    data ← aset data (sv_size name) 0;
    Done (mkString (sv_size name) (Some data))
  else String_of_view name.

Definition add_child_node (fs : Filesystem) (parent : nat) (name : StringView) (type size data : Z)
    : exec (Filesystem * nat) :=
  let node_type := if type =? USTAR_Directory then NT_Folder else NT_File in
  m_name ← name_of_destroyed name;
  let '(fs, child) := FSNode_with_name fs m_name node_type size CINode data in
  fs ← add_child fs parent child;
  Done (fs, child).

(** [while (directories.back()->m_name != path[-2] && directories.size() > 1)
    directories.pop();] *)
Definition pop_to_parent (fs : Filesystem) (path : PathView) (directories : Stack nat) : exec (Stack nat) :=
  while (S (Z.to_nat (Stack_size directories)))
    (fun directories =>
       back ← Stack_back directories;
       n ← node_at fs back;
       name ← PathView_index path (-2);
       differ ← String_neq_view (fn_name n) name;
       if differ && (1 <? Stack_size directories) then
         '(_, directories) ← Stack_pop directories; Done (inl directories)
       else Done (inr directories))
    directories.

Definition pop_to_root (directories : Stack nat) : exec (Stack nat) :=
  while (S (Z.to_nat (Stack_size directories)))
    (fun directories =>
       if 1 <? Stack_size directories then
         '(_, directories) ← Stack_pop directories; Done (inl directories)
       else Done (inr directories))
    directories.

(** One turn of the loop of [parse_ustar]. The path is a view of a string that is destroyed
    at once: its characters are read as they were until the heap gives its block out again,
    which happens first when the new node is made. *)
Definition parse_entry (fs : Filesystem) (directories : Stack nat) (tar_parser : Z)
    : exec (Filesystem * Stack nat * Z) :=
  let header := tar_parser - m_tar_address in
  s ← regulate_path (header + tar_name);
  path ← PathView_of_string s;
  directories ← (if 1 <? PathView_count path then pop_to_parent fs path directories
                 else pop_to_root directories);
  parent ← Stack_back directories;
  name ← PathView_index path (-1);
  typeflag ← aget mem (header + tar_typeflag);
  size ← octal_to_decimal (header + tar_size);
  '(fs, new_node) ← add_child_node fs parent name typeflag size
    (if negb (typeflag =? USTAR_Directory) then u32 (tar_parser + sizeof_TarHeader) else 0);
  directories ← (if typeflag =? USTAR_Directory then Stack_push directories new_node else Done directories);
  size ← octal_to_decimal (header + tar_size);
  let aligned_size := align_to size TAR_ALIGNMENT false in
  Done (fs, directories, u32 (u32 (tar_parser + sizeof_TarHeader) + aligned_size)).

(** [this] is the node of the file system. *)
Definition parse_ustar (fuel : nat) (fs : Filesystem) (this : nat) (size : Z) : exec Filesystem :=
  directories ← Stack_push (Stack_new 10) this;
  while fuel
    (fun '(fs, directories, tar_parser) =>
       if tar_parser <? u32 (m_tar_address + size) then
         c ← aget mem (tar_parser - m_tar_address + tar_name);
         if negb (truthy c) then Done (inr fs)
         else r ← parse_entry fs directories tar_parser; Done (inl r)
       else Done (inr fs))
    (fs, directories, m_tar_address).

Definition TarFS_alloc (fuel : nat) (fs : Filesystem) (name : StringView) (size : Z) : exec (Filesystem * nat) :=
  '(fs, this) ← FSNode_new fs name NT_Root 0 CTarFS 0;
  _ ← ASSERT (negb (m_tar_address =? 0));
  differ ← strncmp mem tar_magic [117; 115; 116; 97; 114; 0] 0 5;
  _ ← ASSERT (negb differ);
  fs ← parse_ustar fuel fs this size;
  Done (fs, this).

End tar.

(** * Numbers and names in a header *)

(** The number that octal digits stand for. *)
Fixpoint octal (ds : list Z) : Z :=
  match ds with
  | [] => 0
  | d :: ds => d * 8 ^ alen ds + octal ds
  end.

Lemma octal_to_decimal_spec (pre ds post : list Z) :
  length ds = 11%nat -> Forall (fun d => 0 <= d < 8) ds ->
  octal_to_decimal (pre ++ (Z.add 48 <$> ds) ++ post) (alen pre) = Done (u32 (octal ds)).
Proof.
  intros Hl Hd. unfold octal_to_decimal. change (TAR_OCTAL_SIZE_LEN - 1) with 11.
  match goal with |- context [for_ ?n ?i ?body ?s] =>
    destruct (for_inv (fun k '(size, m) => size = u32 (octal (drop (Z.to_nat (11 - k)) ds)) /\ m = u32 (8 ^ k))
      body n i s) as ([size m] & E & Hs & _) end.
  - rewrite drop_ge by lia. done.
  - intros k [size m] Hk [-> ->]. change (Z.of_nat (Z.to_nat 11)) with 11 in Hk.
    set (j := Z.to_nat (11 - k - 1)). assert (Hj : (j < 11)%nat) by (unfold j; lia).
    destruct (lookup_lt_is_Some_2 ds j) as [d Hdj]; [lia|].
    assert (Hd8 : 0 <= d < 8) by (rewrite Forall_lookup in Hd; by eapply Hd).
    rewrite (aget_Done _ _ (48 + d)).
    + cbn [mbind exec_bind]. eexists. split; [done|].
      replace (Z.to_nat (11 - (k + 1))) with j by (unfold j; lia).
      rewrite (drop_S ds d j Hdj). replace (S j) with (Z.to_nat (11 - k)) by (unfold j; lia). cbn [octal].
      replace (alen (drop (Z.to_nat (11 - k)) ds)) with k by (unfold alen; rewrite length_drop; lia).
      unfold char_value. rewrite (proj2 (Z.ltb_lt _ _)) by lia. replace (48 + d - 48) with d by lia.
      split.
      * unfold u32. rewrite Zplus_mod_idemp_l, Zmult_mod_idemp_r, Zplus_mod_idemp_r. f_equal. lia.
      * unfold u32. rewrite Zmult_mod_idemp_l. f_equal. rewrite Z.pow_add_r by lia. done.
    + pose proof (alen_nonneg pre). lia.
    + rewrite lookup_app_r by (unfold alen; lia).
      rewrite lookup_app_l by (rewrite length_fmap; unfold alen; lia).
      rewrite list_lookup_fmap. replace (Z.to_nat (alen pre + (11 - k - 1)) - length pre)%nat with j by (unfold alen, j; lia).
      by rewrite Hdj.
  - cbn [mbind] in E. rewrite E. cbn [mbind exec_bind]. by rewrite Hs.
Qed.

Lemma String_of_cstr_rep (p cs r : list Z) :
  Forall (fun c => c <> 0) cs -> alen cs + 1 < 2 ^ 32 ->
  exists s, String_of_cstr (p ++ cs ++ 0 :: r) (alen p) = Done s /\ str_rep s cs.
Proof.
  intros Hnz Hb. unfold String_of_cstr. rewrite strlen_spec by (done || lia). cbn [mbind exec_bind].
  pose proof (alen_nonneg cs). rewrite u32_small by lia.
  assert (En : new_char (alen cs + 1) = replicate (length (cs ++ [0])) 0).
  { unfold new_char. rewrite u32_small by lia. f_equal. rewrite length_app. unfold alen. simpl. lia. }
  rewrite En. pose proof (memcpy_spec (cs ++ [0]) (replicate (length (cs ++ [0])) 0) [] [] p r) as E.
  rewrite (@alen_nil Z) in E. cbn [app] in E. rewrite !app_nil_r, alen_snoc, <- app_assoc in E. cbn [app] in E.
  rewrite E by by rewrite length_replicate. cbn [mbind exec_bind]. eexists. split; [done|]. split; [done|]. by exists [].
Qed.

(** The elements of a path with splitters only between them, as an archive has them. *)
Definition joined (ws : list (list Z)) : list Z := tail (opened ws).

Lemma opened_joined ws : ws <> [] -> opened ws = SPLITER :: joined ws.
Proof. by destruct ws. Qed.

Definition clean (ws : list (list Z)) : Prop :=
  ws <> [] /\ Forall proper_element ws /\ Forall (Forall (fun c => c <> 0)) ws.

Lemma opened_nonzero ws : Forall (Forall (fun c : Z => c <> 0)) ws -> Forall (fun c => c <> 0) (opened ws).
Proof.
  induction 1 as [|w ws Hw Hws IH]; [by apply Forall_nil|]. rewrite opened_cons. apply Forall_cons. split; [done|].
  by apply Forall_app.
Qed.

Lemma opened_last ws : ws <> [] -> Forall proper_element ws ->
  exists cs c, opened ws = cs ++ [c] /\ c <> SPLITER.
Proof.
  intros Hne Hws. destruct (exists_last Hne) as (us & w & ->). apply Forall_app in Hws as [_ Hw].
  apply Forall_singleton in Hw as [Hp Hw]. destruct (exists_last Hw) as (cs & c & ->).
  exists (opened us ++ SPLITER :: cs), c. split.
  - rewrite opened_app, opened_cons. unfold opened at 2. cbn. by rewrite app_nil_r, <- app_assoc.
  - intros ->. apply Hp. apply elem_of_app. right. by apply list_elem_of_singleton.
Qed.

Lemma String_at_last s cs c : str_rep s (cs ++ [c]) -> String_at s (u32 (s_size s - 1)) = Done c.
Proof.
  intros (Hb & j & ->). unfold String_at, s_bytes. cbn [s_size s_data default]. unfold id. rewrite alen_snoc in *.
  pose proof (alen_nonneg cs). rewrite u32_small by lia. replace (alen cs + 1 - 1) with (alen cs) by lia.
  rewrite <- app_assoc. apply aget_middle.
Qed.

Lemma regulate_path_spec (pre post : list Z) ws (slash : bool) :
  clean ws -> alen (opened ws) + 2 < 2 ^ 32 ->
  exists s, regulate_path (pre ++ joined ws ++ (if slash then [SPLITER] else []) ++ 0 :: post) (alen pre) = Done s /\
    str_rep s (opened ws) /\ alen (s_bytes s) = alen (joined ws) + (if slash then 1 else 0) + 2.
Proof.
  intros (Hne & Hws & Hnz) Hb. set (cs := joined ws ++ if slash then [SPLITER] else []).
  pose proof (opened_joined ws Hne) as Ho. pose proof (opened_nonzero ws Hnz) as Hnz'.
  assert (Hcs : Forall (fun c => c <> 0) cs).
  { rewrite Ho in Hnz'. apply Forall_cons in Hnz' as [_ H]. apply Forall_app. split; [done|].
    destruct slash; [by apply Forall_singleton|by apply Forall_nil]. }
  assert (Hl : alen cs + 1 = alen (opened ws) + (if slash then 1 else 0)).
  { unfold cs. rewrite Ho, alen_app, alen_cons. destruct slash; unfold alen; simpl; lia. }
  unfold regulate_path. rewrite (app_assoc (joined ws)). fold cs.
  destruct (String_of_cstr_rep pre cs post Hcs) as (s1 & -> & H1); [destruct slash; lia|]. cbn [mbind exec_bind].
  destruct (String_insert_cstr_rep s1 [] cs [] [SPLITER] [] H1) as (s2 & E2 & H2);
    [by apply Forall_singleton|cbn [app]; unfold alen in *; simpl; destruct slash; lia|].
  rewrite !(@alen_nil Z) in E2. cbn [app] in E2, H2. rewrite E2. cbn [mbind exec_bind].
  assert (Hst : alen (s_bytes s2) = alen cs + 2).
  { unfold String_insert_cstr in E2. inv_done. apply String_insert_storage in E2 as ->. destruct H2 as (H2 & j & ->). cbn [s_size].
    rewrite alen_cons in *. pose proof (alen_nonneg cs). rewrite u32_small; lia. }
  assert (Hcl : alen cs = alen (joined ws) + (if slash then 1 else 0)) by (unfold cs; rewrite alen_app; by destruct slash).
  assert (Ecs : SPLITER :: cs = opened ws ++ if slash then [SPLITER] else []) by (by unfold cs; rewrite Ho).
  rewrite Ecs in H2. destruct slash.
  - rewrite (String_at_last s2 _ _ H2). cbn [mbind exec_bind]. rewrite Z.eqb_refl.
    destruct (String_pop_back_rep s2 _ _ H2) as (s3 & E3 & H3). exists s3. split; [done|]. split; [done|].
    apply String_pop_back_storage in E3. lia.
  - rewrite app_nil_r in H2. destruct (opened_last ws Hne Hws) as (ds & c & Eo & Hc). rewrite Eo in *.
    rewrite (String_at_last s2 _ _ H2). cbn [mbind exec_bind]. rewrite (proj2 (Z.eqb_neq _ _)) by done. exists s2. split; [done|]. split; [done|lia].
Qed.

(** The name in the new node is the one in the destroyed string, when the node does not take
    its block. *)
Lemma name_of_destroyed_rep v w :
  view_rep v w -> alen w < alen (sv_data v) <= 64 -> exists s, name_of_destroyed v = Done s /\ str_rep s w.
Proof.
  intros Hv Hl. unfold name_of_destroyed. pose proof (alen_nonneg w).
  rewrite !bool_decide_eq_false_2 by (unfold kmalloc_slab; repeat case_test; (congruence || lia || done)). cbn [orb].
  case_bool_decide; [|by apply String_of_view_rep]. destruct Hv as (Hb & p & r & ->). cbn [sv_data sv_size sv_off] in *.
  destruct (memcpy_down [] p w r) as (z & Hz & E). cbn [app] in E. rewrite (@alen_nil Z) in E. rewrite Z.add_0_l in E. rewrite E. cbn [mbind exec_bind].
  assert (Hzr : exists x l, z ++ r = x :: l).
  { destruct (z ++ r) as [|x l] eqn:Ezr; [exfalso|by exists x, l]. apply (f_equal length) in Ezr. rewrite length_app in Ezr.
    rewrite !alen_app in Hl. unfold alen in Hl. simpl in *. lia. }
  destruct Hzr as (x & l & ->). rewrite aset_middle. cbn [mbind exec_bind]. eexists. split; [done|]. split; [done|]. by exists l.
Qed.

(** * The stack of open directories *)

(** [operator!=] does not find the name [d] of a directory different from [u] when both
    have the same length, or [d] is the beginning of [u]. *)
Definition taken_for (d u : list Z) : bool := bool_decide (alen d = alen u \/ d `prefix_of` u).

Lemma first_mismatch d : forall u w : list Z, plain d -> ~ d `prefix_of` u ->
  exists c x y a b, d = c ++ x :: a /\ u ++ SPLITER :: w = c ++ y :: b /\ x <> y.
Proof.
  induction d as [|x d IH]; intros u w Hp Hd; [by destruct Hd; apply prefix_nil|].
  assert (Hx : x <> SPLITER) by (intros ->; apply Hp; by left).
  destruct u as [|y u]; [by exists [], x, SPLITER, d, w|]. destruct (decide (x = y)) as [->|Hne].
  - destruct (IH u w) as (c & x' & y' & a & b & -> & E & Hne).
    + intros Hin. apply Hp. by right.
    + intros Hpre. apply Hd. by apply prefix_cons.
    + exists (y :: c), x', y', a, b. cbn [app]. by rewrite E.
  - by exists [], x, y, d, (u ++ SPLITER :: w).
Qed.

Lemma String_neq_view_parent s d v u w :
  str_rep s d -> plain d -> shows_before v u (SPLITER :: w) -> String_neq_view s v = Done (negb (taken_for d u)).
Proof.
  intros (Hb & j & ->) Hp (Hb' & p & r & ->). unfold String_neq_view, s_bytes, taken_for.
  cbn [s_size s_data sv_size sv_data sv_off default]. unfold id. destruct (Z.eqb_spec (alen d) (alen u)) as [E|Hne].
  { by rewrite bool_decide_eq_true_2 by by left. }
  destruct (decide (d `prefix_of` u)) as [[k ->]|Hpre].
  - rewrite bool_decide_eq_true_2 by (right; by exists k).
    pose proof (memcmp_spec d d [] p (0 :: j) (k ++ (SPLITER :: w) ++ r) eq_refl) as E. rewrite (@alen_nil Z) in E.
    rewrite bool_decide_eq_true_2 in E by done. cbn [app] in E. rewrite <- !app_assoc. cbn [app]. by rewrite E.
  - rewrite bool_decide_eq_false_2 by by intros [?|?].
    destruct (first_mismatch d u w Hp Hpre) as (c & x & y & a & b & -> & E & Hxy).
    pose proof (memcmp_differ [] c (a ++ 0 :: j) p (b ++ r) x y (alen (c ++ x :: a)) Hxy) as Em.
    rewrite (@alen_nil Z) in Em. rewrite (app_assoc u), E. rewrite <- !app_assoc. cbn [app] in *.
    rewrite Em; [done|]. rewrite alen_app, alen_cons. pose proof (alen_nonneg a). lia.
Qed.

Lemma Stack_back_rep (st : Stack nat) l x : st_rep st (l ++ [x]) -> Stack_back st = Done x.
Proof.
  intros H. destruct (top_read st l x H) as [Ht Hu]. unfold Stack_back. apply slot_read_Done; [|done].
  rewrite Hu. apply alen_nonneg.
Qed.

Lemma pop_to_root_spec st root ids :
  st_rep st (root :: ids) ->
  exists st', pop_to_root st = Done st' /\ st_rep st' [root] /\ st_capacity st' = st_capacity st.
Proof.
  intros Hst. unfold pop_to_root.
  match goal with |- exists st', while ?f ?step ?s = _ /\ _ =>
    destruct (while_inv (fun t => exists l, st_rep t (root :: l) /\ st_capacity t = st_capacity st)
      (fun t => st_rep t [root] /\ st_capacity t = st_capacity st) (fun t => Z.to_nat (st_size t)) step f s)
      as (t & E & Ht & Hc) end; [by exists ids|unfold Stack_size; lia| |by exists t].
  intros t (l & Ht & Hc). unfold Stack_size. rewrite (st_rep_size _ _ Ht).
  destruct l as [|x l _] using rev_ind; [right; by exists t|left].
  change (root :: l ++ [x]) with ((root :: l) ++ [x]) in *. rewrite alen_snoc, alen_cons. pose proof (alen_nonneg l).
  rewrite (proj2 (Z.ltb_lt _ _)) by lia. destruct (pop_rep t (root :: l) x Ht) as (t' & -> & Ht' & Hc').
  cbn [mbind exec_bind]. exists t'. split; [done|]. split; [exists l; by rewrite Hc'|].
  rewrite (st_rep_size _ _ Ht'), alen_cons. lia.
Qed.

(** The names of the nodes of the open directories. *)
Definition names_of (fs : Filesystem) (ids : list nat) (ds : list (list Z)) : Prop :=
  Forall2 (fun i d => exists n, fs_nodes fs !! i = Some n /\ fn_class n = CINode /\ chars (fn_name n) = d) ids ds.

Lemma pop_to_parent_spec fs p st root us u w ids ids' vs :
  fs_ok fs -> Forall proper_element (us ++ [u; w]) -> path_rep p (opened (us ++ [u; w])) [] ->
  st_rep st (root :: ids ++ ids') -> names_of fs ids (us ++ [u]) -> names_of fs ids' vs ->
  Forall plain vs -> Forall (fun d => taken_for d u = false) vs ->
  exists st', pop_to_parent fs p st = Done st' /\ st_rep st' (root :: ids) /\ st_capacity st' = st_capacity st.
Proof.
  intros Hok Hws Hp Hst Hids Hids' Hpl Hvs. unfold pop_to_parent.
  destruct (PathView_parent_element p us u w Hws Hp) as (v & Ev & Hv).
  assert (Hu : plain u). { apply Forall_app in Hws as [_ H]. apply Forall_cons in H as [[? _] _]. done. }
  assert (Hback : forall t l i d, st_rep t (root :: l ++ [i]) -> plain d -> (exists n, fs_nodes fs !! i = Some n /\
      fn_class n = CINode /\ chars (fn_name n) = d) ->
    (back ← Stack_back t; n ← node_at fs back; name ← PathView_index p (-2); String_neq_view (fn_name n) name)
    = Done (negb (taken_for d u))).
  { intros t l i d Ht Hpd (n & Hn & _ & Hd). change (root :: l ++ [i]) with ((root :: l) ++ [i]) in Ht.
    rewrite (Stack_back_rep t _ i Ht). cbn [mbind exec_bind]. unfold node_at. rewrite Hn, Ev. cbn [mbind exec_bind].
    pose proof (proj1 (Forall_lookup _ _) (ok_names _ Hok) i n Hn) as [Hs _]. rewrite Hd in Hs.
    by apply (String_neq_view_parent _ d v u w). }
  match goal with |- exists st', while ?f ?step ?s = _ /\ _ =>
    destruct (while_inv (fun t => exists l ls, st_rep t (root :: ids ++ l) /\ st_capacity t = st_capacity st /\
        names_of fs l ls /\ Forall plain ls /\ Forall (fun d => taken_for d u = false) ls)
      (fun t => st_rep t (root :: ids) /\ st_capacity t = st_capacity st) (fun t => Z.to_nat (st_size t)) step f s)
      as (t & E & Ht & Hc) end; [by exists ids', vs|unfold Stack_size; lia| |by exists t].
  intros t (l & ls & Ht & Hc & Hl & Hpls & Hls). unfold Stack_size. rewrite (st_rep_size _ _ Ht), alen_cons.
  destruct l as [|i l _] using rev_ind.
  - right. rewrite app_nil_r in Ht. destruct (exists_last (l := ids)) as (ids0 & i & ->).
    { intros ->. apply Forall2_length in Hids. rewrite length_app in Hids. simpl in Hids. lia. }
    apply Forall2_app_inv in Hids as [_ Hi]; [|apply Forall2_length in Hids; rewrite !length_app in Hids; simpl in Hids; lia].
    apply Forall2_cons in Hi as [Hi _]. pose proof (Hback t ids0 i u Ht Hu Hi) as Hb.
    destruct (Stack_back t) as [b| | |]; try done. cbn [mbind exec_bind] in *.
    destruct (node_at fs b) as [n| | |]; try done. cbn [mbind exec_bind] in *. rewrite Ev in *. cbn [mbind exec_bind] in *.
    rewrite Hb. cbn [mbind exec_bind]. unfold taken_for. rewrite bool_decide_eq_true_2 by by left. by exists t.
  - left. destruct (exists_last (l := ls)) as (ls0 & d & ->).
    { intros ->. apply Forall2_length in Hl. rewrite length_app in Hl. simpl in Hl. lia. }
    apply Forall2_app_inv in Hl as [Hl Hi]; [|apply Forall2_length in Hl; rewrite !length_app in Hl; simpl in Hl; lia].
    apply Forall2_cons in Hi as [Hi _]. apply Forall_app in Hpls as [Hpls Hpd]. rewrite Forall_singleton in Hpd.
    apply Forall_app in Hls as [Hls Hd]. rewrite Forall_singleton in Hd. rewrite app_assoc in Ht.
    pose proof (Hback t (ids ++ l) i d Ht Hpd Hi) as Hb.
    destruct (Stack_back t) as [b| | |]; try done. cbn [mbind exec_bind] in *.
    destruct (node_at fs b) as [n| | |]; try done. cbn [mbind exec_bind] in *. rewrite Ev in *. cbn [mbind exec_bind] in *.
    rewrite Hb, Hd. cbn [mbind exec_bind negb andb]. rewrite !alen_app, (alen_cons []). change (alen (@nil nat)) with 0.
    pose proof (alen_nonneg ids). pose proof (alen_nonneg l). rewrite (proj2 (Z.ltb_lt _ _)) by lia.
    change (root :: (ids ++ l) ++ [i]) with ((root :: ids ++ l) ++ [i]) in Ht.
    destruct (pop_rep t (root :: ids ++ l) i Ht) as (t' & -> & Ht' & Hc').
    cbn [mbind exec_bind]. exists t'. split; [done|]. split; [exists l, ls0; by rewrite Hc'|].
    rewrite (st_rep_size _ _ Ht'), alen_cons, alen_app. lia.
Qed.

(** * Archives *)

(** Names up to this length, with the slash of a directory, are in blocks of another slab
    than the nodes: two characters more are stored. *)
Definition MAX_KEPT_NAME : Z := 62.

(** An entry: the elements of its path, whether it is a directory, the size of its
    contents and the offset of its header. *)
Record tar_entry := mkTarEntry {
  te_path : list (list Z);
  te_dir : bool;
  te_size : Z;
  te_off : Z
}.

Section archive.
Context (mem : list Z) (base : Z).

(** The header of the entry is found at its offset. *)
Record entry_at (e : tar_entry) : Prop := {
  ea_clean : clean (te_path e);
  ea_short : alen (joined (te_path e)) + (if te_dir e then 1 else 0) <= MAX_KEPT_NAME;
  ea_name : exists pre post, alen pre = te_off e /\
    mem = pre ++ joined (te_path e) ++ (if te_dir e then [SPLITER] else []) ++ 0 :: post;
  ea_type : exists t, aget mem (te_off e + tar_typeflag) = Done t /\ (t =? USTAR_Directory) = te_dir e;
  ea_size : exists pre ds post, mem = pre ++ (Z.add 48 <$> ds) ++ post /\ alen pre = te_off e + tar_size /\
    length ds = 11%nat /\ Forall (fun d => 0 <= d < 8) ds /\ octal ds = te_size e;
  ea_range : 0 <= te_size e < 2 ^ 32
}.

(** The header behind an entry and its contents. *)
Definition te_next (e : tar_entry) : Z :=
  te_off e + sizeof_TarHeader + align_to (te_size e) TAR_ALIGNMENT false.

(** The entries from an offset on: the last one is followed by a header without a name or
    by the end of the archive. *)
Fixpoint archive_from (size off : Z) (es : list tar_entry) : Prop :=
  match es with
  | [] => size <= off \/ aget mem off = Done 0
  | e :: es => te_off e = off /\ off < size /\ entry_at e /\ base + te_next e < 2 ^ 32 /\ archive_from size (te_next e) es
  end.

(** The entries follow their directories: the parent of each one is open, and no
    directory that is open below it is taken for it. At most nine directories are open. *)
Fixpoint well_ordered (ds : list (list Z)) (es : list tar_entry) : Prop :=
  match es with
  | [] => True
  | e :: es => exists us w vs, te_path e = us ++ [w] /\ ds = us ++ vs /\
      match last us with Some u => Forall (fun d => taken_for d u = false) vs | None => True end /\
      (te_dir e = true -> (length us <= 8)%nat) /\
      well_ordered (if te_dir e then te_path e else us) es
  end.

(** The node of an entry. *)
Definition node_of (e : tar_entry) (n : FSNode) : Prop :=
  fn_class n = CINode /\ fn_type n = (if te_dir e then NT_Folder else NT_File) /\ fn_size n = te_size e /\
  fn_data n = (if te_dir e then 0 else base + te_off e + sizeof_TarHeader).

(** The paths below a node that lead to a node: the node itself, and the [k]-th path to
    the [k]-th node from [c0] on. *)
Definition finds (fs : Filesystem) (root : nat) (paths : list (list (list Z))) (c0 : nat) : Prop :=
  forall p j, descend fs root p = Value j <->
    (p = [] /\ j = root) \/ (exists k, paths !! k = Some p /\ j = (c0 + k)%nat).

Lemma descend_app fs us vs : forall i,
  descend fs i (us ++ vs) = match descend fs i us with Value k => descend fs k vs | Error e => Error e end.
Proof.
  induction us as [|u us IH]; intros i; [done|]. cbn [app descend]. by destruct (step fs i u).
Qed.

(** A new child makes exactly its own path a new one. *)
Lemma finds_add fs fs' root paths c0 us w i :
  fs_ok fs -> extends fs fs' -> finds fs root paths c0 -> (root < c0)%nat ->
  let c := length (fs_nodes fs) in
  c = (c0 + length paths)%nat -> descend fs root us = Value i -> us ++ [w] ∉ paths ->
  (forall k w' j, step fs' k w' = Value j -> step fs k w' = Value j \/ (k = i /\ w' = w /\ j = c)) ->
  step fs' i w = match step fs i w with Value j => Value j | Error _ => Value c end ->
  finds fs' root (paths ++ [us ++ [w]]) c0.
Proof.
  intros Hok Hext Hf Hr c Hc Hus Hnew Hinv Hstep.
  assert (Hlast : forall p j, descend fs' c p = Value j -> p = []).
  { intros [|w' p] j; [done|]. cbn [descend]. destruct (step fs' c w') as [k|] eqn:Hk; [|done].
    destruct (Hinv c w' k Hk) as [Hs|(Hci & _)].
    - exfalso. unfold step in Hs. by rewrite lookup_ge_None_2 in Hs.
    - exfalso. destruct (proj1 (Hf us i) Hus) as [[_ ->]|(k' & Hk' & ->)]; [lia|]. apply lookup_lt_Some in Hk'. lia. }
  assert (Hdown : forall p i0 j, descend fs' i0 p = Value j ->
    descend fs i0 p = Value j \/ exists q, p = q ++ [w] /\ descend fs i0 q = Value i /\ j = c).
  { induction p as [|w' p IH]; intros i0 j; [by left|]. cbn [descend].
    destruct (step fs' i0 w') as [k|] eqn:Hk; [|done]. intros Hp. destruct (Hinv i0 w' k Hk) as [Hs|(-> & -> & ->)].
    - rewrite Hs. destruct (IH k j Hp) as [?|(q & -> & Hq & ->)]; [by left|].
      right. exists (w' :: q). cbn [app descend]. by rewrite Hs.
    - pose proof (Hlast p j Hp) as ->. injection Hp as <-. right. by exists []. }
  assert (Hfree : forall j, step fs i w <> Value j).
  { intros j Hj. assert (Hd : descend fs root (us ++ [w]) = Value j).
    { rewrite descend_app, Hus. cbn [descend]. by rewrite Hj. }
    apply Hf in Hd as [[Hd _]|(k & Hk & _)]; [by destruct us|]. apply Hnew. by eapply list_elem_of_lookup_2. }
  intros p j. split.
  - intros Hp. destruct (Hdown p root j Hp) as [Hd|(q & -> & Hq & ->)].
    + apply Hf in Hd as [?|(k & Hk & ->)]; [by left|]. right. exists k. split; [|done]. by apply lookup_app_l_Some.
    + right. exists (length paths). split; [|lia]. assert (q = us) as ->.
      { apply Hf in Hq as [[-> ->]|(k & Hk & ->)]; apply Hf in Hus as [[-> E]|(k' & Hk' & E)]; try done; try lia.
        assert (k = k') as -> by lia. congruence. }
      by rewrite lookup_app_r, Nat.sub_diag by lia.
  - intros [[-> ->]|(k & Hk & ->)]; [done|]. apply lookup_app_Some in Hk as [Hk|[Hl Hk]].
    + apply (extends_descend fs fs' Hok Hext). apply Hf. right. by exists k.
    + apply list_lookup_singleton_Some in Hk as [Hk <-]. rewrite descend_app.
      rewrite (extends_descend fs fs' Hok Hext us root i Hus). cbn [descend]. rewrite Hstep.
      destruct (step fs i w) as [j|] eqn:Hs; [by destruct (Hfree j)|]. f_equal. lia.
Qed.

End archive.

(** * Parsing *)

Lemma align_to_nonneg num : 0 <= num -> 0 <= align_to num TAR_ALIGNMENT false.
Proof.
  intros Hn. unfold align_to. repeat case_test; try lia. apply u32_range.
Qed.

Section parsing.
Context (mem : list Z) (base : Z) (root c0 : nat).
Context (Hmem : alen mem + 3 < 2 ^ 31) (Hbase : 0 < base) (Hroot : (root < c0)%nat).

(** The open directories: their nodes, names and paths. *)
Definition opens (fs : Filesystem) (ids : list nat) (ds : list (list Z)) : Prop :=
  names_of fs ids ds /\ forall k i, ids !! k = Some i -> descend fs root (take (S k) ds) = Value i.

Record parse_inv (fs : Filesystem) (st : Stack nat) (ds : list (list Z)) (seen : list tar_entry) : Prop := {
  pi_ok : fs_ok fs;
  pi_root : exists n, fs_nodes fs !! root = Some n /\ fn_class n = CTarFS;
  pi_stack : exists ids, st_rep st (root :: ids) /\ opens fs ids ds;
  pi_cap : st_capacity st = 10;
  pi_plain : Forall plain ds;
  pi_len : length (fs_nodes fs) = (c0 + length seen)%nat;
  pi_finds : finds fs root (te_path <$> seen) c0;
  pi_files : forall k e, seen !! k = Some e -> exists n, fs_nodes fs !! (c0 + k)%nat = Some n /\ node_of base e n
}.

Lemma extends_names fs fs' ids ds : extends fs fs' -> names_of fs ids ds -> names_of fs' ids ds.
Proof.
  intros Hext H. eapply Forall2_impl; [exact H|]. intros i d (n & Hn & Hc & Hd).
  destruct (ext_nodes _ _ Hext i n Hn) as (n' & Hn' & _ & Hna & Hcl & _). exists n'. by rewrite Hna, Hcl.
Qed.

Lemma extends_opens fs fs' ids ds : fs_ok fs -> extends fs fs' -> opens fs ids ds -> opens fs' ids ds.
Proof.
  intros Hok Hext [Hn Hd]. split; [by eapply extends_names|]. intros k i Hk.
  apply (extends_descend fs fs' Hok Hext). by apply Hd.
Qed.

Lemma opens_app fs ids us vs :
  opens fs ids (us ++ vs) -> exists ids1 ids2, ids = ids1 ++ ids2 /\ opens fs ids1 us /\ names_of fs ids2 vs.
Proof.
  intros [Hn Hd]. apply Forall2_app_inv_r in Hn as (ids1 & ids2 & H1 & H2 & ->). exists ids1, ids2.
  split; [done|]. split; [|done]. split; [done|]. intros k i Hk.
  pose proof (lookup_lt_Some _ _ _ Hk). pose proof (Forall2_length _ _ _ H1).
  rewrite <- (take_app_le us vs) by lia. apply Hd. by apply lookup_app_l_Some.
Qed.

(** The node in which an entry is put. *)
Lemma opens_parent fs ids us : opens fs ids us ->
  exists parent ids0, root :: ids = ids0 ++ [parent] /\ descend fs root us = Value parent /\
    (us = [] -> parent = root) /\ (us <> [] -> exists n, fs_nodes fs !! parent = Some n /\ fn_class n = CINode).
Proof.
  intros [Hn Hd]. destruct us as [|u us0 _] using rev_ind.
  - apply Forall2_nil_inv_r in Hn as ->. by exists root, [].
  - apply Forall2_app_inv_r in Hn as (ids1 & ids2 & H1 & H2 & ->).
    apply Forall2_cons_inv_r in H2 as (i & ids3 & (n & Hn & Hc & _) & H3 & ->). apply Forall2_nil_inv_r in H3 as ->.
    exists i, (root :: ids1). split; [done|]. split; [|split; [by destruct us0|by exists n]].
    pose proof (Forall2_length _ _ _ H1) as Hl. specialize (Hd (length ids1) i).
    rewrite list_lookup_middle in Hd by done. rewrite <- Hd by done. f_equal. rewrite take_ge; [done|].
    rewrite length_app. simpl. lia.
Qed.

(** Closing directories until the parent of an entry is on top. *)
Lemma pop_directories fs p st us w vs ids :
  fs_ok fs -> Forall proper_element (us ++ [w]) -> path_rep p (opened (us ++ [w])) [] ->
  st_rep st (root :: ids) -> opens fs ids (us ++ vs) -> Forall plain (us ++ vs) ->
  match last us with Some u => Forall (fun d => taken_for d u = false) vs | None => True end ->
  exists st' ids', (if 1 <? PathView_count p then pop_to_parent fs p st else pop_to_root st) = Done st' /\
    st_rep st' (root :: ids') /\ opens fs ids' us /\ st_capacity st' = st_capacity st.
Proof.
  intros Hok Hws Hp Hst Ho Hpl Hvs. destruct (PathView_count_spec p _ _ Hp) as [-> _].
  assert (Hels : parts (opened (us ++ [w])) ++ parts [] = us ++ [w]).
  { unfold parts. rewrite bool_decide_eq_false_2 by by destruct us. rewrite elements_opened by (done || by destruct us).
    apply app_nil_r. }
  rewrite Hels, alen_snoc. destruct (opens_app fs ids us vs Ho) as (ids1 & ids2 & -> & Ho1 & Hn2).
  apply Forall_app in Hpl as [_ Hpl]. destruct us as [|u us0 _] using rev_ind.
  - destruct (pop_to_root_spec st root _ Hst) as (st' & E & Hst' & Hc). exists st', ids1.
    destruct Ho1 as [H1 H2]. apply Forall2_nil_inv_r in H1 as E1. subst ids1. by split.
  - rewrite last_snoc in Hvs. rewrite alen_snoc. pose proof (alen_nonneg us0). rewrite (proj2 (Z.ltb_lt _ _)) by lia.
    rewrite <- app_assoc in Hws, Hp. cbn [app] in Hws, Hp.
    destruct (pop_to_parent_spec fs p st root us0 u w ids1 ids2 vs) as (st' & E & Hst' & Hc); try done; [apply Ho1|].
    by exists st', ids1.
Qed.

Lemma add_child_node_spec fs parent n v w t size data :
  fs_ok fs -> fs_nodes fs !! parent = Some n -> fn_class n = CINode \/ fn_class n = CTarFS ->
  view_rep v w -> alen w < alen (sv_data v) <= 64 -> Forall (fun x => x <> 0) w ->
  let c := length (fs_nodes fs) in
  exists fs' m, add_child_node fs parent v t size data = Done (fs', c) /\
    fs_ok fs' /\ extends fs fs' /\ length (fs_nodes fs') = S c /\
    fs_nodes fs' !! c = Some m /\ chars (fn_name m) = w /\ fn_class m = CINode /\
    fn_type m = (if t =? USTAR_Directory then NT_Folder else NT_File) /\ fn_size m = size /\ fn_data m = data /\
    fs_roots fs' = fs_roots fs /\ devices fs' = devices fs /\
    step fs' parent w = match step fs parent w with Value j => Value j | Error _ => Value c end /\
    (forall k w' j, step fs' k w' = Value j -> step fs k w' = Value j \/ (k = parent /\ w' = w /\ j = c)).
Proof.
  intros Hok Hn Hcl Hv Hst Hw c. unfold add_child_node. destruct (name_of_destroyed_rep v w Hv Hst) as (nm & -> & Hnm).
  cbn [mbind exec_bind]. unfold FSNode_with_name. destruct (named_rep nm w Hnm Hw) as [Hname Hch].
  set (m := mkNode nm 0 0 _ size CINode data []).
  destruct (new_child_named fs parent n m Hok Hn) as (fs' & E & Hok' & Hext & Hlen & Hr & Hd & Hm & Hstep);
    [unfold below; by destruct Hcl as [-> | ->]|done|done|done|]. cbn [m fn_name] in Hstep. rewrite Hch in Hstep.
  exists fs', m. rewrite E. cbn [mbind exec_bind]. by repeat (split; [done|]).
Qed.

(** The path of an entry. *)
Lemma entry_path e : entry_at mem e ->
  exists s p v us w, te_path e = us ++ [w] /\ regulate_path mem (te_off e + tar_name) = Done s /\
    PathView_of_string s = Done p /\ path_rep p (opened (te_path e)) [] /\
    PathView_index p (-1) = Done v /\ view_rep v w /\ alen w < alen (sv_data v) <= 64 /\ Forall (fun x => x <> 0) w.
Proof.
  intros [Hclean Hshort (pre & post & Hpre & E) _ _ _]. pose proof Hclean as (Hne & Hws & Hnz).
  assert (Hb : alen (opened (te_path e)) + 2 < 2 ^ 31).
  { rewrite E, !alen_app, alen_cons in Hmem. rewrite (opened_joined _ Hne), alen_cons. pose proof (alen_nonneg pre).
    pose proof (alen_nonneg post). pose proof (alen_nonneg (if te_dir e then [SPLITER] else [])). lia. }
  destruct (regulate_path_spec pre post (te_path e) (te_dir e) Hclean) as (s & Es & Hs & Hblock); [lia|].
  rewrite <- E in Es. destruct (absolute_path (StringView_of_string s) (te_path e)) as (p & Ep & Habs & Hp & Hels);
    [by apply str_rep_view|done..|].
  destruct (exists_last Hne) as (us & w & Ew). pose proof (PathView_index_spec p _ _ (-1) Hp) as Hi. cbv zeta in Hi.
  rewrite Hels in Hi. pose proof (alen_nonneg us).
  assert (Hl : alen (te_path e) = alen us + 1) by (rewrite Ew; apply alen_snoc).
  rewrite (proj2 (Z.leb_le _ _)), (proj2 (Z.ltb_lt _ _)) in Hi by lia. cbn [andb] in Hi.
  change (-1 <? 0) with true in Hi. cbv iota in Hi. destruct Hi as (v & w' & Ev & Hv & Hw').
  rewrite Ew, alen_snoc in Hw'. replace (Z.to_nat (alen us + 1 + -1)) with (length us) in Hw' by (unfold alen; lia).
  rewrite list_lookup_middle in Hw' by done. injection Hw' as ->.
  exists s, p, v, us, w'. unfold tar_name. rewrite Z.add_0_r, <- Hpre. split; [done|]. split; [done|]. split; [done|].
  split; [done|]. split; [done|]. split; [done|]. split.
  { rewrite (PathView_index_storage p (opened (te_path e)) (-1) v Hp Ev), (PathView_of_view_storage _ _ Ep) by done.
    change (sv_data (StringView_of_string s)) with (s_bytes s). unfold MAX_KEPT_NAME in Hshort. split; [|lia].
    rewrite Hblock. pose proof (opened_joined _ Hne) as Ho. apply (f_equal alen) in Ho. rewrite alen_cons, Ew, opened_app, opened_cons in Ho.
    rewrite Ew. rewrite alen_app, alen_cons, alen_app in Ho. pose proof (alen_nonneg (opened us)). change (alen (opened [])) with 0 in Ho. destruct (te_dir e); lia. }
  rewrite Ew in Hnz. apply Forall_app in Hnz as [_ Hnz].
  by apply Forall_cons in Hnz as [? _].
Qed.

Lemma parse_entry_spec fs st ds seen e :
  parse_inv fs st ds seen -> entry_at mem e -> well_ordered ds [e] ->
  te_path e ∉ te_path <$> seen -> 0 <= te_off e -> base + te_next e < 2 ^ 32 ->
  exists fs' st', parse_entry mem base fs st (base + te_off e) = Done (fs', st', base + te_next e) /\
    parse_inv fs' st' (if te_dir e then te_path e else removelast (te_path e)) (seen ++ [e]) /\ extends fs fs' /\
    fs_roots fs' = fs_roots fs /\ devices fs' = devices fs.
Proof.
  intros [Hok (rn & Hrn & Hrc) (ids & Hst & Ho) Hcap Hpl Hlen Hf Hfiles] He
    (us & w & vs & Epath & -> & Hvs & Hdepth & _) Hnew Hoff Hnext.
  destruct (entry_path e He) as (s & p & v & us' & w' & Epath' & Es & Ep & Hp & Ev & Hv & Hkept & Hw).
  rewrite Epath in Epath'. apply app_inj_tail in Epath' as [<- <-].
  destruct He as [(Hne & Hws & Hnz) _ _ (t & Et & Hdir) (pre & digits & post & Em & Hpre & Hld & Hd8 & Hoct) Hrange].
  assert (Esize : octal_to_decimal mem (te_off e + tar_size) = Done (te_size e)).
  { rewrite Em, <- Hpre, octal_to_decimal_spec, Hoct, u32_small by done. done. }
  rewrite Epath in Hws, Hp. unfold parse_entry. replace (base + te_off e - base) with (te_off e) by lia.
  rewrite Es. cbn [mbind exec_bind]. rewrite Ep. cbn [mbind exec_bind].
  destruct (pop_directories fs p st us w vs ids Hok Hws Hp Hst Ho Hpl Hvs) as (st1 & ids1 & -> & Hst1 & Ho1 & Hcap1).
  cbn [mbind exec_bind]. destruct (opens_parent fs ids1 us Ho1) as (parent & ids0 & Etop & Hdesc & Hp1 & Hp2).
  rewrite Etop in Hst1. rewrite (Stack_back_rep st1 ids0 parent Hst1). cbn [mbind exec_bind].
  rewrite Ev. cbn [mbind exec_bind]. rewrite Et. cbn [mbind exec_bind]. rewrite Esize. cbn [mbind exec_bind].
  assert (Hpn : exists n, fs_nodes fs !! parent = Some n /\ (fn_class n = CINode \/ fn_class n = CTarFS)).
  { destruct (decide (us = [])) as [Hus|Hus]; [rewrite (Hp1 Hus); exists rn; auto|].
    destruct (Hp2 Hus) as (n & ? & ?). exists n. auto. }
  destruct Hpn as (pn & Hpn & Hpc). rewrite Hdir. unfold te_next in Hnext.
  pose proof (align_to_nonneg (te_size e) ltac:(lia)). unfold sizeof_TarHeader in *.
  set (data := if negb (te_dir e) then u32 (base + te_off e + 512) else 0).
  destruct (add_child_node_spec fs parent pn v w t (te_size e) data Hok Hpn Hpc Hv Hkept Hw)
    as (fs' & m & -> & Hok' & Hext & Hlen' & Hm & Hchm & Hclm & Htm & Hsm & Hdm & Hroots & Hdevs & Hstep & Hinv).
  cbn [mbind exec_bind]. rewrite Hdir in Htm.
  assert (Hf' : finds fs' root ((te_path <$> seen) ++ [us ++ [w]]) c0).
  { apply (finds_add fs fs' root _ c0 us w parent); try done; [by rewrite length_fmap|by rewrite <- Epath]. }
  assert (Hnode : node_of base e m).
  { split; [done|]. split; [done|]. split; [done|]. rewrite Hdm. unfold data, sizeof_TarHeader. destruct (te_dir e); [done|].
    cbn [negb]. apply u32_small. lia. }
  assert (Hend : u32 (u32 (base + te_off e + 512) + align_to (te_size e) TAR_ALIGNMENT false) = base + te_next e).
  { unfold te_next, sizeof_TarHeader. rewrite (u32_small (base + te_off e + 512)) by lia. rewrite u32_small; lia. }
  assert (Hrest : forall st' ds', st_capacity st' = 10 -> Forall plain ds' ->
    (exists ids, st_rep st' (root :: ids) /\ opens fs' ids ds') -> parse_inv fs' st' ds' (seen ++ [e])).
  { intros st' ds' Hc' Hpl' Hst'. split; try done.
    - destruct (ext_nodes _ _ Hext root rn Hrn) as (rn' & Hrn' & _ & _ & Hc & _). exists rn'. by rewrite Hc.
    - rewrite Hlen', length_app. simpl. lia.
    - rewrite fmap_app. cbn [fmap list_fmap]. by rewrite Epath.
    - intros k e' Hk. apply lookup_app_Some in Hk as [Hk|[Hlk Hk]].
      + destruct (Hfiles k e' Hk) as (n & Hn & Hne0 & Hne1 & Hne2 & Hne3).
        destruct (ext_nodes _ _ Hext _ n Hn) as (n' & Hn' & (E1 & E2 & E3) & _ & E4 & _). exists n'.
        unfold node_of. by rewrite E1, E2, E3, E4.
      + apply list_lookup_singleton_Some in Hk as [Hk <-]. exists m. split; [|done].
        replace (c0 + k)%nat with (length (fs_nodes fs)) by lia. done. }
  apply Forall_app in Hpl as [Hplu _]. rewrite Epath, removelast_last.
  destruct (te_dir e) eqn:Hde.
  - destruct (push_rep st1 _ (length (fs_nodes fs)) Hst1) as (st2 & -> & Hst2 & Hcap2).
    { rewrite Hcap1, Hcap. rewrite <- Etop, alen_cons. destruct Ho1 as [Hn1 _]. apply Forall2_length in Hn1.
      specialize (Hdepth eq_refl). unfold alen. lia. }
    cbn [mbind exec_bind]. rewrite Hend. exists fs', st2. split; [done|].
    split; [|done]. apply Hrest; [by rewrite Hcap2, Hcap1|rewrite Forall_app; split; [done|]|].
    + apply Forall_app in Hws as [_ Hw']. apply Forall_cons in Hw' as [[Hw' _] _]. by apply Forall_singleton.
    + rewrite <- Etop in Hst2. exists (ids1 ++ [length (fs_nodes fs)]). split; [done|].
      destruct (extends_opens fs fs' ids1 us Hok Hext Ho1) as [Hn1 Hd1]. pose proof (Forall2_length _ _ _ Hn1) as Hl1.
      split; [apply Forall2_app; [done|]; apply Forall2_cons; split; [|by apply Forall2_nil]; by exists m|].
      intros k i Hk. apply lookup_app_Some in Hk as [Hk|[Hlk Hk]].
      * pose proof (lookup_lt_Some _ _ _ Hk). rewrite take_app_le by lia. by apply Hd1.
      * apply list_lookup_singleton_Some in Hk as [Hk <-]. rewrite take_ge by (rewrite length_app; simpl; lia).
        apply Hf'. right. exists (length seen). rewrite lookup_app_r, length_fmap, Nat.sub_diag by by rewrite length_fmap.
        split; [done|lia].
  - cbn [mbind exec_bind]. rewrite Hend. exists fs', st1. split; [done|].
    split; [|done]. apply Hrest; [by rewrite Hcap1|done|]. exists ids1. rewrite Etop. split; [done|].
    by apply (extends_opens fs).
Qed.

(** The header of an entry starts with a character. *)
Lemma entry_first e : entry_at mem e -> exists c, aget mem (te_off e + tar_name) = Done c /\ truthy c = true.
Proof.
  intros [(Hne & Hws & Hnz) _ (pre & post & Hpre & ->) _ _ _]. destruct (te_path e) as [|[|c w] ws]; [done| |].
  { apply Forall_cons in Hws as [[_ H] _]. done. }
  exists c. unfold tar_name. rewrite Z.add_0_r, <- Hpre. unfold joined. rewrite opened_cons. cbn [tail app]. split.
  - apply aget_middle.
  - apply Forall_cons in Hnz as [Hc _]. apply Forall_cons in Hc as [Hc _]. unfold truthy.
    by rewrite (proj2 (Z.eqb_neq _ _)).
Qed.

Lemma well_ordered_next ds e es : well_ordered ds (e :: es) ->
  well_ordered ds [e] /\ well_ordered (if te_dir e then te_path e else removelast (te_path e)) es.
Proof.
  intros (us & w & vs & E & -> & Hvs & Hd & Hes). split; [by exists us, w, vs|].
  by rewrite E, removelast_last in *.
Qed.

Lemma parse_loop size es : forall fs st ds seen off fuel,
  parse_inv fs st ds seen -> archive_from mem base size off es -> well_ordered ds es ->
  NoDup (te_path <$> seen ++ es) -> 0 <= off -> base + size < 2 ^ 32 -> 0 <= size -> (length es < fuel)%nat ->
  exists fs' st' ds',
    while fuel (fun '(fs, directories, tar_parser) =>
       if tar_parser <? u32 (base + size) then
         c ← aget mem (tar_parser - base + tar_name);
         if negb (truthy c) then Done (inr fs)
         else r ← parse_entry mem base fs directories tar_parser; Done (inl r)
       else Done (inr fs)) (fs, st, base + off) = Done fs' /\
    parse_inv fs' st' ds' (seen ++ es) /\ extends fs fs' /\ fs_roots fs' = fs_roots fs /\ devices fs' = devices fs.
Proof.
  induction es as [|e es IH]; intros fs st ds seen off fuel Hinv Har Hord Hnd Hoff Hb Hs Hfuel;
    (destruct fuel as [|fuel]; [simpl in Hfuel; lia|]); cbn [while].
  - exists fs, st, ds. rewrite app_nil_r. split; [|done]. rewrite u32_small by lia.
    replace (base + off - base + tar_name) with off by (unfold tar_name; lia).
    destruct (Z.ltb_spec (base + off) (base + size)) as [Hlt|]; [|done]. destruct Har as [?|Har]; [lia|].
    by rewrite Har.
  - destruct Har as (<- & Hlt & He & Hnext & Har). rewrite u32_small, (proj2 (Z.ltb_lt _ _)) by lia.
    replace (base + te_off e - base + tar_name) with (te_off e + tar_name) by lia.
    destruct (entry_first e He) as (c & -> & Hc). cbn [mbind exec_bind]. rewrite Hc. cbn [negb].
    apply well_ordered_next in Hord as [Hord Hord'].
    destruct (parse_entry_spec fs st ds seen e Hinv He Hord) as (fs1 & st1 & E & Hinv1 & Hext1 & Hr1 & Hd1); [|done|done|].
    { rewrite fmap_app in Hnd. cbn [fmap list_fmap] in Hnd. by apply NoDup_middle in Hnd as [? _]. }
    rewrite E. cbn [mbind exec_bind].
    destruct (IH fs1 st1 _ (seen ++ [e]) (te_next e) fuel Hinv1 Har Hord') as (fs' & st' & ds' & E' & Hinv' & Hext' & Hr' & Hd');
      [by rewrite <- app_assoc| |done|done|simpl in Hfuel; lia|].
    { destruct He. unfold te_next, sizeof_TarHeader. pose proof (align_to_nonneg (te_size e) ltac:(lia)). lia. }
    rewrite <- app_assoc in Hinv'. exists fs', st', ds'. rewrite (u32_small (base + size)) in E' by lia.
    split; [exact E'|]. split; [exact Hinv'|]. split; [by etrans|]. by rewrite Hr', Hd'.
Qed.

End parsing.

(** The file system of an archive, with its root. *)
Lemma tar_built (mem : list Z) (base size : Z) (name : StringView) (w : list Z) (es : list tar_entry)
    (fs : Filesystem) (fuel : nat) :
  fs_ok fs -> view_rep name w -> Forall (fun x => x <> 0) w ->
  alen mem + 3 < 2 ^ 31 -> 0 < base -> 0 <= size -> base + size < 2 ^ 32 ->
  (exists pre post, mem = pre ++ [117; 115; 116; 97; 114] ++ post /\ alen pre = tar_magic) ->
  archive_from mem base size 0 es -> well_ordered [] es -> NoDup (te_path <$> es) -> (length es < fuel)%nat ->
  exists fs' root n, TarFS_alloc mem base fuel fs name size = Done (fs', root) /\ fs_ok fs' /\ extends fs fs' /\
    fs_roots fs' = fs_roots fs /\ devices fs' = devices fs /\
    fs_nodes fs' !! root = Some n /\ chars (fn_name n) = w /\ fn_class n = CTarFS /\
    finds fs' root (te_path <$> es) (root + 1) /\
    (forall k e, es !! k = Some e -> exists n, fs_nodes fs' !! (root + 1 + k)%nat = Some n /\ node_of base e n).
Proof.
  intros Hok Hname Hw Hmem Hbase Hsize Hb Hmagic Har Hord Hnd Hfuel.
  unfold TarFS_alloc.
  destruct (FSNode_new_spec fs name w NT_Root 0 CTarFS 0 Hok Hname Hw) as (rn & -> & Hrn & Hrw & Hch & Hcl & _).
  cbn [mbind exec_bind]. rewrite (proj2 (Z.eqb_neq _ _)) by lia. cbn [negb ASSERT mbind exec_bind].
  destruct Hmagic as (pre & post & Em & Hpre). assert (Es : strncmp mem tar_magic [117; 115; 116; 97; 114; 0] 0 5 = Done false).
  { rewrite Em, <- Hpre. apply (view_compare pre [117; 115; 116; 97; 114] post [] [117; 115; 116; 97; 114] [0]). done. }
  rewrite Es. cbn [negb ASSERT mbind exec_bind]. unfold parse_ustar.
  destruct (new_node_ok fs rn (devices fs) Hok Hrn Hch eq_refl (fun H => H)) as (Hok1 & Hext1 & Hn1); [by rewrite Hcl|].
  set (root := length (fs_nodes fs)) in *. set (fs1 := mkFs _ _ _) in *.
  destruct (push_rep (Stack_new 10) [] root) as (st & E & Hst & Hc); [by apply Stack_new_rep|done|].
  rewrite E. cbn [mbind exec_bind].
  assert (Hinv : parse_inv base root (root + 1) fs1 st [] []).
  { split; try done.
    - by exists rn.
    - exists []. split; [done|]. split; [by apply Forall2_nil|done].
    - unfold fs1. cbn [fs_nodes]. rewrite length_app. simpl. unfold root. lia.
    - intros [|w' p] j.
      { split; [intros [= <-]; by left|]. intros [[_ ->]|(k & Hk & _)]; [done|by destruct k]. }
      cbn [descend]. unfold step, below. rewrite Hn1, Hcl, Hch. cbn [List.find found].
      split; [done|]. intros [[? _]|(k & Hk & _)]; [done|by destruct k]. }
  destruct (parse_loop mem base root (root + 1) Hmem Hbase ltac:(lia) size es fs1 st [] [] 0 fuel Hinv Har Hord Hnd)
    as (fs' & st' & ds' & E' & [Hok' _ _ _ _ _ Hf Hfiles] & Hext' & Hr' & Hd'); [lia|done|done|done|].
  rewrite Z.add_0_r in E'. rewrite E'. cbn [mbind exec_bind]. destruct (ext_nodes _ _ Hext' root rn Hn1) as (n' & Hn' & _ & Hna & Hcl' & _).
  exists fs', root, n'. rewrite Hna, Hcl'. split; [done|]. split; [done|]. split; [by etrans|]. done.
Qed.

(** C13: the boot archive. Let the archive consist of entries, each with a path of names
    without "/" and zero, of at most 62 characters with the slash of a directory, a size in
    octal and a type, followed by its contents up to a multiple of 512 bytes; let every entry
    come after its directory, no path come twice, at most nine directories be open at a time,
    and no open directory be taken for another one ([operator!=] of names only tells names
    apart when neither their lengths agree nor one begins with the other). Then the file
    system is built, with a turn of the loop for each entry: below its root exactly the paths
    of the entries are found, each of them its own node, a folder or a file of the given size
    whose contents are those behind its header; and the other file systems stay as they are. *)
Theorem tar_entries_found (mem : list Z) (base size : Z) (name : StringView) (w : list Z) (es : list tar_entry)
    (fs : Filesystem) (fuel : nat) (Hok : fs_ok fs) (Hname : view_rep name w) (Hw : Forall (fun x => x <> 0) w)
    (Hmem : alen mem + 3 < 2 ^ 31) (Hbase : 0 < base) (Hsize : 0 <= size) (Hb : base + size < 2 ^ 32)
    (Hmagic : exists pre post, mem = pre ++ [117; 115; 116; 97; 114] ++ post /\ alen pre = tar_magic)
    (Har : archive_from mem base size 0 es) (Hord : well_ordered [] es) (Hnd : NoDup (te_path <$> es))
    (Hfuel : (length es < fuel)%nat) :
  exists fs' root, TarFS_alloc mem base fuel fs name size = Done (fs', root) /\ fs_ok fs' /\
    (forall ws j, resolve fs ws = Value j -> resolve fs' ws = Value j) /\
    (forall p j, descend fs' root p = Value j <->
       (p = [] /\ j = root) \/ exists k e, es !! k = Some e /\ te_path e = p /\ j = (root + 1 + k)%nat) /\
    (forall k e, es !! k = Some e -> exists n, fs_nodes fs' !! (root + 1 + k)%nat = Some n /\
       fn_type n = (if te_dir e then NT_Folder else NT_File) /\ fn_size n = te_size e /\
       fn_data n = (if te_dir e then 0 else base + te_off e + sizeof_TarHeader)).
Proof.
  destruct (tar_built mem base size name w es fs fuel) as (fs' & root & n & E & Hok' & Hext & _ & _ & _ & _ & _ & Hf & Hfiles); try done.
  exists fs', root. split; [done|]. split; [done|].
  split; [intros ws j Hr; by apply (extends_resolve fs fs')|]. split; [|intros k e Hk; by destruct (Hfiles k e Hk) as (m & ? & _ & ?); exists m].
  intros p j. rewrite (Hf p j). f_equiv. split.
  - intros (k & Hk & ->). apply list_lookup_fmap_Some in Hk as (e & -> & He). by exists k, e.
  - intros (k & e & Hk & <- & ->). exists k. split; [|done]. apply list_lookup_fmap_Some. by exists e.
Qed.

(** The archive of the examples: headers are filled up with zeros. *)
Definition padded (n : nat) (l : list Z) : list Z := l ++ replicate (n - length l) 0.

Definition example_header (name : list Z) (typeflag digit : Z) : list Z :=
  padded 100 name ++ replicate 24 48 ++ (replicate 10 48 ++ [48 + digit; 0]) ++ replicate 20 48 ++ [typeflag] ++
  replicate 100 0 ++ [117; 115; 116; 97; 114; 0] ++ replicate 249 0.

(** "d/", and the file "d/fg" of three bytes. *)
Definition example_archive : list Z :=
  example_header [100; 47] 53 0 ++ example_header [100; 47; 102; 103] 48 3 ++ padded 512 [1; 2; 3] ++ replicate 512 0.

Definition example_entries : list tar_entry := [mkTarEntry [[100]] true 0 0; mkTarEntry [[100]; [102; 103]] false 3 512].

Lemma example_magic : exists pre post, example_archive = pre ++ [117; 115; 116; 97; 114] ++ post /\ alen pre = tar_magic.
Proof. exists (take 257 example_archive), (drop 262 example_archive). split; vm_compute; done. Qed.

Lemma example_archived : archive_from example_archive 4096 2048 0 example_entries.
Proof.
  assert (Hd : proper_element [100]) by (split; [|done]; intros H; by apply list_elem_of_singleton in H).
  assert (Hf : proper_element [102; 103]) by (split; [|done]; by intros [?|[?|[]%elem_of_nil]%elem_of_cons]%elem_of_cons).
  cbn [archive_from te_off]. split; [done|]. split; [done|]. split; [|split; [done|split; [done|split; [done|split; [|split]]]]].
  + split.
    * split; [done|]. split; [by apply Forall_singleton|by repeat constructor].
    * vm_compute. congruence.
    * exists [], (drop 3 example_archive). split; vm_compute; done.
    * exists 53. split; vm_compute; done.
    * exists (take 124 example_archive), (replicate 11 0), (drop 135 example_archive).
      split; [vm_compute; done|]. split; [vm_compute; done|]. split; [done|]. split; [|done].
      repeat (apply Forall_cons; split; [done|]). by apply Forall_nil.
    * done.
  + split.
    * split; [done|]. split; [by apply Forall_cons; split; [|apply Forall_singleton]|by repeat constructor].
    * vm_compute. congruence.
    * exists (take 512 example_archive), (drop 517 example_archive). split; vm_compute; done.
    * exists 48. split; vm_compute; done.
    * exists (take 636 example_archive), (replicate 10 0 ++ [3]), (drop 647 example_archive).
      split; [vm_compute; done|]. split; [vm_compute; done|]. split; [done|]. split; [|done].
      repeat (apply Forall_cons; split; [done|]). by apply Forall_nil.
    * done.
  + done.
  + right. vm_compute. done.
Qed.

Lemma example_ordered : well_ordered [] example_entries.
Proof.
  exists [], [100], []. repeat split; try done; [simpl; lia|]. exists [[100]], [102; 103], [].
  repeat split; try done. by apply Forall_nil.
Qed.

Lemma example_paths : NoDup (te_path <$> example_entries).
Proof. apply NoDup_cons. split; [by intros ?%list_elem_of_singleton|apply NoDup_singleton]. Qed.

Lemma tar_entries_found_witness :
  exists fs root, TarFS_alloc example_archive 4096 3 no_filesystem (Strings.mkView 1 [116; 0] 0) 2048 = Done (fs, root) /\
    (forall j, descend fs root [[100]; [102; 103]] = Value j <-> j = (root + 2)%nat).
Proof.
  destruct (tar_entries_found example_archive 4096 2048 (Strings.mkView 1 [116; 0] 0) [116]
    example_entries no_filesystem 3)
    as (fs & root & E & _ & _ & Hd & _).
  - split; try by constructor. intros H. inversion H.
  - split; [done|]. by exists [], [0].
  - by repeat constructor.
  - vm_compute. done.
  - done.
  - done.
  - done.
  - exact example_magic.
  - exact example_archived.
  - exact example_ordered.
  - exact example_paths.
  - simpl. lia.
  - exists fs, root. split; [exact E|]. intros j. rewrite (Hd _ j). split.
    + intros [[? _]|(k & e & Hk & Hp & ->)]; [done|]. destruct k as [|[|k]]; [|lia|done]. injection Hk as <-. done.
    + intros ->. right. eexists 1%nat, _. split; [done|]. split; [done|]. lia.
Defined.

(** Of the entries "a/", "a/b/" and "a/c" the last one is put into "a/b", since the names
    "b" and "a" have the same length. *)
Lemma tar_misplaces_entry :
  let mem := example_header [97; 47] 53 0 ++ example_header [97; 47; 98; 47] 53 0 ++
             example_header [97; 47; 99] 48 0 ++ replicate 512 0 in
  exists fs root, TarFS_alloc mem 4096 4 no_filesystem (Strings.mkView 1 [116; 0] 0) 2048 = Done (fs, root) /\
    descend fs root [[97]; [99]] = Error ERROR_FILE_DOES_NOT_EXIST /\
    descend fs root [[97]; [98]; [99]] = Value (root + 3)%nat.
Proof. intros mem. eexists _, _. split; [vm_compute; reflexivity|]. split; vm_compute; reflexivity. Qed.

(** The name of an entry of 63 characters: the block of the destroyed path is the one that the
    new node gets, so the name is overwritten before it is copied. *)
Lemma tar_long_name_overwritten :
  TarFS_alloc (example_header (replicate 63 97) 48 0 ++ replicate 512 0) 4096 2 no_filesystem (Strings.mkView 1 [116; 0] 0) 1024 = Fault /\
  exists fs root, TarFS_alloc (example_header (replicate 62 97) 48 0 ++ replicate 512 0) 4096 2 no_filesystem (Strings.mkView 1 [116; 0] 0) 1024 =
    Done (fs, root).
Proof. split; [vm_compute; reflexivity|]. eexists _, _. vm_compute. reflexivity. Qed.
