(* ===== verification/Elf.v ===== *)
(** Executables (elfparser.cpp, tasking/loader/elf.cpp): the headers of an ELF file and the
    copy of its segments to a user address space. The file is a [BufferView]; a pointer
    into it is an offset, at which the fields of a structure are read where the code reads
    them. The address space is used through the interface [UserSpace]. *)

From S2P Require Import Prelude Clib Strings Buffers Physical Paging Memory.

(** * The address space of a process

    What the loader relies on, below the kernel: [valloc] at an address takes the pages from
    the one of the address on, as many as the size needs, unless one of them is taken (the
    pages need not be in frames that follow each other); storing a byte to a page that is
    not there is a page fault. [us_ok] is what the space keeps, [us_room] a number of pages
    that can still be taken. What a page holds before it is written is not said: [valloc]
    does not clear it. *)
Definition user_limit : Z := KERNEL_BASE / PAGE_SIZE.

Class UserSpace (S : Type) := {
  us_ok : S -> Prop;
  us_valloc : S -> Z -> Z -> Z -> exec (Z * S);
  us_store : S -> Z -> Z -> exec S;
  us_mapped : S -> Z -> bool;
  us_byte : S -> Z -> Z;
  us_room : S -> Z;
  us_valloc_law : forall s a n flags, us_ok s -> Z.testbit flags 3 = false -> 0 < a -> 0 < n ->
    a / PAGE_SIZE + GET_PAGES n <= user_limit -> GET_PAGES n <= us_room s ->
    if existsb (us_mapped s) (seqZ (a / PAGE_SIZE) (GET_PAGES n)) then us_valloc s a n flags = Done (0, s)
    else exists s', us_valloc s a n flags = Done (a, s') /\ us_ok s' /\ us_room s - GET_PAGES n <= us_room s' /\
      (forall p, us_mapped s' p = us_mapped s p || bool_decide (p ∈ seqZ (a / PAGE_SIZE) (GET_PAGES n))) /\
      (forall b, us_mapped s (b / PAGE_SIZE) = true -> us_byte s' b = us_byte s b);
  us_store_law : forall s a x, us_ok s -> 0 <= x < 2 ^ 8 -> us_mapped s (a / PAGE_SIZE) = true ->
    exists s', us_store s a x = Done s' /\ us_ok s' /\ us_room s' = us_room s /\
      (forall p, us_mapped s' p = us_mapped s p) /\ (forall b, us_byte s' b = if b =? a then x else us_byte s b);
  us_store_fault : forall s a x, us_ok s -> 0 <= a / PAGE_SIZE < user_limit -> us_mapped s (a / PAGE_SIZE) = false ->
    us_store s a x = Fault
}.

(** * The headers (elf.h) *)

Definition ELFMAG : list Z := [0x7F; 69; 76; 70; 0].
Definition SELFMAG : Z := 4.
Definition SHN_UNDEF : Z := 0.
Definition SHT_STRTAB : Z := 3.
Definition SHT_INIT_ARRAY : Z := 14.
Definition ERROR_INVALID_EXECUTABLE : Z := 6.
Definition ERROR_LOADING_EXECUTABLE : Z := 7.

(** [elf32_hdr] *)
Definition e_entry (f : BufferView) : exec Z := field32 f 24.
Definition e_phoff (f : BufferView) : exec Z := field32 f 28.
Definition e_shoff (f : BufferView) : exec Z := field32 f 32.
Definition e_phnum (f : BufferView) : exec Z := field16 f 44.
Definition e_shnum (f : BufferView) : exec Z := field16 f 48.
Definition e_shstrndx (f : BufferView) : exec Z := field16 f 50.

(** [elf32_phdr] at [p] *)
Definition sizeof_phdr : Z := 32.
Definition p_offset (f : BufferView) (p : Z) : exec Z := field32 f (p + 4).
Definition p_vaddr (f : BufferView) (p : Z) : exec Z := field32 f (p + 8).
Definition p_filesz (f : BufferView) (p : Z) : exec Z := field32 f (p + 16).
Definition p_memsz (f : BufferView) (p : Z) : exec Z := field32 f (p + 20).

(** [elf32_shdr] at [p] *)
Definition sizeof_shdr : Z := 40.
Definition sh_name (f : BufferView) (p : Z) : exec Z := field32 f p.
Definition sh_type (f : BufferView) (p : Z) : exec Z := field32 f (p + 4).
Definition sh_addr (f : BufferView) (p : Z) : exec Z := field32 f (p + 12).
Definition sh_offset (f : BufferView) (p : Z) : exec Z := field32 f (p + 16).
Definition sh_size (f : BufferView) (p : Z) : exec Z := field32 f (p + 20).

(** * The parser

    The pointers are offsets in the file; a null string table is [None]. *)

Record ELFParser := mkELF {
  m_file : BufferView;
  m_program_headers_array : Z;
  m_section_headers_array : Z;
  m_programs_number : Z;
  m_sections_number : Z;
  m_string_table : option Z
}.

Definition is_valid_elf (f : BufferView) : exec bool :=
  differ ← strncmp (bv_array f) (bv_start f) ELFMAG 0 SELFMAG; Done (negb differ).

Definition find_string_table (f : BufferView) (section_headers : Z) : exec (option Z) :=
  i ← e_shstrndx f;
  if negb (i =? SHN_UNDEF) then
    t ← sh_type f (section_headers + sizeof_shdr * i);
    if t =? SHT_STRTAB then
      i ← e_shstrndx f; off ← sh_offset f (section_headers + sizeof_shdr * i); Done (Some off)
    else Done None
  else Done None.

(** The members are not set when the file is not valid. *)
Definition ELFParser_new (f : BufferView) : exec (option ELFParser) :=
  valid ← is_valid_elf f;
  if negb valid then Done None
  else
    phoff ← e_phoff f; shoff ← e_shoff f; phnum ← e_phnum f; shnum ← e_shnum f;
    strings ← find_string_table f shoff;
    Done (Some (mkELF f phoff shoff phnum shnum strings)).

Definition program_header_by_index (elf : ELFParser) (index : Z) : Z :=
  if index <? m_sections_number elf then m_program_headers_array elf + sizeof_phdr * index
  else m_program_headers_array elf + sizeof_phdr * SHN_UNDEF.

Definition section_header_by_index (elf : ELFParser) (index : Z) : Z :=
  if index <? m_sections_number elf then m_section_headers_array elf + sizeof_shdr * index
  else m_section_headers_array elf + sizeof_shdr * SHN_UNDEF.

Definition lookup_for_string (elf : ELFParser) (index_in_string_table : Z) : exec StringView :=
  match m_string_table elf with
  | Some t => StringView_of_cstr (bv_array (m_file elf)) (bv_start (m_file elf) + t + index_in_string_table)
  | None => Fault
  end.

(** The first section from [i] on that passes the test, or the undefined one. *)
Fixpoint find_section (elf : ELFParser) (test : Z -> exec bool) (turns : nat) (i : Z) : exec Z :=
  match turns with
  | O => Done (m_section_headers_array elf + sizeof_shdr * SHN_UNDEF)
  | S turns =>
      let section := section_header_by_index elf i in
      found ← test section;
      if (found : bool) then Done section else find_section elf test turns (i + 1)
  end.

Definition section_header_by_name (elf : ELFParser) (name : StringView) : exec Z :=
  find_section elf
    (fun section => n ← sh_name (m_file elf) section; s ← lookup_for_string elf n; StringView_eq name s)
    (Z.to_nat (m_sections_number elf)) 0.

Definition section_header_by_type (elf : ELFParser) (type : Z) : exec Z :=
  find_section elf (fun section => t ← sh_type (m_file elf) section; Done (type =? t))
    (Z.to_nat (m_sections_number elf)) 0.

Definition sections_number (elf : ELFParser) : exec Z := e_shnum (m_file elf).
Definition programs_number (elf : ELFParser) : exec Z := e_phnum (m_file elf).
Definition entry_point (elf : ELFParser) : exec Z := e_entry (m_file elf).

(** * The loader *)

Record ExecutableInformation := mkExecutable {
  ei_entry_point : Z;
  constructors_array : Z;
  constructors_array_count : Z
}.

Section loader.
Context {S : Type} `{!UserSpace S}.

(** [BufferView::copy_to] with an address of the process. *)
Definition copy_to_space (s : S) (f : BufferView) (dest src_offset src_size : Z) : exec S :=
  _ ← ASSERT (u32 (src_offset + src_size) <=? bv_size f);
  for_ (Z.to_nat src_size) 0 (fun i s => x ← BufferView_at f (src_offset + i); us_store s (dest + i) x) s.

Fixpoint load_segments (s : S) (file : BufferView) (elf : ELFParser) (turns : nat) (i : Z) : exec (bool * S) :=
  match turns with
  | O => Done (true, s)
  | Datatypes.S turns =>
      let header := program_header_by_index elf i in
      memsz ← p_memsz (m_file elf) header;
      if memsz =? 0 then load_segments s file elf turns (i + 1)
      else
        vaddr ← p_vaddr (m_file elf) header;
        '(addr, s) ← us_valloc s vaddr memsz (Z.lor PAGE_USER PAGE_READWRITE);
        if negb (truthy addr) then Done (false, s)
        else
          offset ← p_offset (m_file elf) header;
          filesz ← p_filesz (m_file elf) header;
          s ← copy_to_space s file addr offset filesz;
          load_segments s file elf turns (i + 1)
  end.

Definition ELFLoader_load (s : S) (file : BufferView) : exec (Result ExecutableInformation * S) :=
  elf ← ELFParser_new file;
  match elf with
  | None => Done (Error ERROR_INVALID_EXECUTABLE, s)
  | Some elf =>
      n ← programs_number elf;
      '(loaded, s) ← load_segments s file elf (Z.to_nat n) 0;
      if negb loaded then Done (Error ERROR_LOADING_EXECUTABLE, s)
      else
        init_array_section ← section_header_by_type elf SHT_INIT_ARRAY;
        entry ← entry_point elf;
        a ← sh_addr (m_file elf) init_array_section;
        n ← sh_size (m_file elf) init_array_section;
        Done (Value (mkExecutable entry a (n / 4)), s)
  end.

End loader.

(** * What a file says *)

Record segment := mkSegment {
  sg_offset : Z;
  sg_vaddr : Z;
  sg_filesz : Z;
  sg_memsz : Z
}.

Definition sg_pages (sg : segment) : list Z :=
  if sg_memsz sg =? 0 then [] else seqZ (sg_vaddr sg / PAGE_SIZE) (GET_PAGES (sg_memsz sg)).

Definition file_byte (f : BufferView) (i : Z) : Z := default 0 (shown f !! Z.to_nat i).

(** A segment that has memory lies in the file, and the bytes it takes from there do not
    pass its last page. *)
Definition segment_ok (f : BufferView) (sg : segment) : Prop :=
  0 <= sg_memsz sg /\
  (sg_memsz sg <> 0 -> 0 < sg_vaddr sg /\ sg_vaddr sg / PAGE_SIZE + GET_PAGES (sg_memsz sg) <= user_limit /\
     0 <= sg_offset sg /\ 0 <= sg_filesz sg /\ sg_offset sg + sg_filesz sg <= bv_size f /\
     sg_vaddr sg mod PAGE_SIZE + sg_filesz sg <= PAGE_SIZE * GET_PAGES (sg_memsz sg)).

Definition phdr_rep (f : BufferView) (p : Z) (sg : segment) : Prop :=
  p_offset f p = Done (sg_offset sg) /\ p_vaddr f p = Done (sg_vaddr sg) /\
  p_filesz f p = Done (sg_filesz sg) /\ p_memsz f p = Done (sg_memsz sg).

(** A section: its type, its address and its size. *)
Record section := mkSection {
  sc_type : Z;
  sc_addr : Z;
  sc_size : Z
}.

Definition shdr_rep (f : BufferView) (p : Z) (sc : section) : Prop :=
  sh_type f p = Done (sc_type sc) /\ sh_addr f p = Done (sc_addr sc) /\ sh_size f p = Done (sc_size sc).

Record elf_file (f : BufferView) (entry : Z) (segs : list segment) (secs : list section) : Prop := {
  ef_view : view_ok f;
  ef_bytes : Forall is_byte (bv_array f);
  ef_magic : exists rest, shown f = take 4 ELFMAG ++ rest;
  ef_entry : e_entry f = Done entry;
  ef_programs : exists phoff, e_phoff f = Done phoff /\
    forall i sg, segs !! i = Some sg -> phdr_rep f (phoff + sizeof_phdr * Z.of_nat i) sg;
  ef_phnum : e_phnum f = Done (alen segs);
  ef_sections : exists shoff, e_shoff f = Done shoff /\ (exists o, find_string_table f shoff = Done o) /\
    forall i sc, secs !! i = Some sc -> shdr_rep f (shoff + sizeof_shdr * Z.of_nat i) sc;
  ef_shnum : e_shnum f = Done (alen secs)
}.

(** No segment needs a page that is taken, by the process or by an earlier segment. *)
Fixpoint loadable (taken : Z -> bool) (segs : list segment) : bool :=
  match segs with
  | [] => true
  | sg :: segs => negb (existsb taken (sg_pages sg)) && loadable (fun p => taken p || bool_decide (p ∈ sg_pages sg)) segs
  end.

(** The constructors of a program: the first section of their type, or else section 0. *)
Definition init_section (secs : list section) : section :=
  match list_find (fun sc => SHT_INIT_ARRAY = sc_type sc) secs with
  | Some (_, sc) => sc
  | None => default (mkSection 0 0 0) (head secs)
  end.

Section loading.
Context {S : Type} `{!UserSpace S} (f : BufferView) (Hview : view_ok f) (Hbytes : Forall is_byte (bv_array f)).

Lemma file_byte_at i : 0 <= i < bv_size f -> BufferView_at f i = Done (file_byte f i) /\ is_byte (file_byte f i).
Proof.
  intros Hi. rewrite view_at by done. pose proof (alen_shown f Hview).
  destruct (aget_in_range (shown f) i) as (x & E & Hx); [lia|]. rewrite E. unfold file_byte. rewrite Hx. split; [done|].
  destruct (view_split f Hview) as (p & r & Ea & _). rewrite Ea in Hbytes. apply Forall_app in Hbytes as [_ Hb].
  apply Forall_app in Hb as [Hb _]. by apply (proj1 (Forall_lookup _ _) Hb _ _ Hx).
Qed.

Lemma copy_to_space_spec (s : S) dest off size :
  us_ok s -> 0 <= off -> 0 <= size -> off + size <= bv_size f ->
  (forall k, 0 <= k < size -> us_mapped s ((dest + k) / PAGE_SIZE) = true) ->
  exists s', copy_to_space s f dest off size = Done s' /\ us_ok s' /\ us_room s' = us_room s /\
    (forall p, us_mapped s' p = us_mapped s p) /\
    (forall b, us_byte s' b = if (dest <=? b) && (b <? dest + size) then file_byte f (off + (b - dest)) else us_byte s b).
Proof.
  intros Hs Ho Hz Hb Hm. unfold copy_to_space. destruct Hview as (_ & ? & _).
  rewrite bind_ASSERT by (rewrite u32_small by lia; apply Z.leb_le; lia).
  match goal with |- context [for_ ?n ?lo ?body ?st] =>
    destruct (for_inv (fun i t => us_ok t /\ us_room t = us_room s /\ (forall p, us_mapped t p = us_mapped s p) /\
      forall b, us_byte t b = if (dest <=? b) && (b <? dest + i) then file_byte f (off + (b - dest)) else us_byte s b)
      body n lo st) as (s' & E & H0 & H1 & H2 & H3) end.
  - split; [done|]. split; [done|]. split; [done|]. intros b. destruct (Z.leb_spec dest b), (Z.ltb_spec b (dest + 0)); done || lia.
  - intros i t Hi (H0 & H1 & H2 & H3). destruct (file_byte_at (off + i)) as [-> Hx]; [lia|]. cbn [mbind exec_bind].
    destruct (us_store_law t (dest + i) _ H0 Hx) as (t' & E & Hot & Hr & Hmt & Hbt); [rewrite H2; apply Hm; lia|].
    exists t'. split; [done|]. split; [done|]. split; [by rewrite Hr|].
    split; [intros p; by rewrite Hmt|]. intros b. rewrite Hbt, H3. destruct (Z.eqb_spec b (dest + i)) as [->|].
    + rewrite (proj2 (Z.leb_le _ _)), (proj2 (Z.ltb_lt _ _)) by lia. cbn [andb]. f_equal. lia.
    + destruct (Z.leb_spec dest b), (Z.ltb_spec b (dest + i)), (Z.ltb_spec b (dest + (i + 1))); try lia; done.
  - exists s'. rewrite E. split; [done|]. split; [done|]. split; [done|]. split; [done|]. intros b. rewrite H3.
    by replace (dest + (0 + Z.of_nat (Z.to_nat size))) with (dest + size) by lia.
Qed.

Lemma GET_PAGES_pos n : 0 < n -> 0 < GET_PAGES n.
Proof. intros Hn. unfold GET_PAGES. change PAGE_SIZE with 4096. destruct (Z.eqb_spec (n mod 4096) 0); zdiv. Qed.

(** The bytes of a segment are on its pages. *)
Lemma segment_byte_page sg k :
  segment_ok f sg -> sg_memsz sg <> 0 -> 0 <= k < sg_filesz sg -> (sg_vaddr sg + k) / PAGE_SIZE ∈ sg_pages sg.
Proof.
  intros [H0 Hok] Hne Hk. destruct (Hok Hne) as (Hv & _ & _ & _ & _ & Hfit). unfold sg_pages.
  rewrite (proj2 (Z.eqb_neq _ _) Hne). apply elem_of_seqZ. change PAGE_SIZE with 4096 in *. zdiv.
Qed.

(** What loading [segs] makes of [s]. *)
Record segments_loaded (s s' : S) (segs : list segment) : Prop := {
  sl_mapped : forall p, us_mapped s' p = us_mapped s p || bool_decide (p ∈ segs ≫= sg_pages);
  sl_bytes : forall sg k, sg ∈ segs -> sg_memsz sg <> 0 -> 0 <= k < sg_filesz sg ->
    us_byte s' (sg_vaddr sg + k) = file_byte f (sg_offset sg + k)
}.

Definition keeps (s s' : S) : Prop :=
  (us_ok s -> us_ok s') /\
  forall b, us_mapped s (b / PAGE_SIZE) = true -> us_mapped s' (b / PAGE_SIZE) = true /\ us_byte s' b = us_byte s b.

Lemma keeps_trans s1 s2 s3 : keeps s1 s2 -> keeps s2 s3 -> keeps s1 s3.
Proof.
  intros [O1 H1] [O2 H2]. split; [by auto|]. intros b Hb. destruct (H1 b Hb) as [Hm E]. destruct (H2 b Hm) as [Hm' E'].
  by rewrite E', E.
Qed.

Lemma keeps_refl s : keeps s s.
Proof. by split. Qed.

(** One segment whose pages are free. *)
Lemma load_one (s : S) sg :
  us_ok s -> segment_ok f sg -> sg_memsz sg <> 0 -> GET_PAGES (sg_memsz sg) <= us_room s ->
  if existsb (us_mapped s) (sg_pages sg)
  then us_valloc s (sg_vaddr sg) (sg_memsz sg) (Z.lor PAGE_USER PAGE_READWRITE) = Done (0, s)
  else exists s1 s', us_valloc s (sg_vaddr sg) (sg_memsz sg) (Z.lor PAGE_USER PAGE_READWRITE) = Done (sg_vaddr sg, s1) /\
    copy_to_space s1 f (sg_vaddr sg) (sg_offset sg) (sg_filesz sg) = Done s' /\
    us_room s - GET_PAGES (sg_memsz sg) <= us_room s' /\
    keeps s s' /\ segments_loaded s s' [sg].
Proof.
  intros Hs Hok Hne Hr. pose proof Hok as [H0 Hok']. destruct (Hok' Hne) as (Hv & Hlim & Ho & Hf & Hend & Hfit).
  pose proof (us_valloc_law s (sg_vaddr sg) (sg_memsz sg) (Z.lor PAGE_USER PAGE_READWRITE) Hs eq_refl Hv ltac:(lia) Hlim Hr) as Hl.
  assert (Epg : sg_pages sg = seqZ (sg_vaddr sg / PAGE_SIZE) (GET_PAGES (sg_memsz sg)))
    by (unfold sg_pages; by rewrite (proj2 (Z.eqb_neq _ _) Hne)).
  rewrite Epg. destruct (existsb _ _) eqn:Ht; [done|]. destruct Hl as (s1 & E1 & Ho1 & Hr1 & Hm1 & Hb1).
  destruct (copy_to_space_spec s1 (sg_vaddr sg) (sg_offset sg) (sg_filesz sg)) as (s' & E2 & Ho2 & Hr2 & Hm2 & Hb2);
    [done|done|done|done| |].
  { intros k Hk. rewrite Hm1, <- Epg, bool_decide_eq_true_2, orb_true_r by by apply segment_byte_page. done. }
  exists s1, s'. split; [done|]. split; [done|]. split; [lia|].
  split.
  - split; [done|]. intros b Hb. rewrite Hm2, Hm1, Hb. split; [done|]. rewrite Hb2, <- Hb1 by done.
    destruct ((_ <=? _) && _) eqn:Hin; [|done]. to_prop. exfalso.
    assert (Hp : b / PAGE_SIZE ∈ sg_pages sg).
    { replace b with (sg_vaddr sg + (b - sg_vaddr sg)) by lia. apply segment_byte_page; [done|done|lia]. }
    rewrite Epg in Hp. apply not_true_iff_false in Ht. apply Ht, existsb_exists. exists (b / PAGE_SIZE).
    split; [by apply list_elem_of_In|done].
  - split.
    + intros p. rewrite Hm2, Hm1. cbn. by rewrite app_nil_r, Epg.
    + intros sg' k Hin Hne' Hk. apply list_elem_of_singleton in Hin as ->. rewrite Hb2.
      rewrite (proj2 (Z.leb_le _ _)), (proj2 (Z.ltb_lt _ _)) by lia. cbn [andb]. f_equal. lia.
Qed.

Lemma segments_loaded_cons s s1 s' sg segs :
  Forall (segment_ok f) (sg :: segs) -> segments_loaded s s1 [sg] -> keeps s1 s' -> segments_loaded s1 s' segs ->
  segments_loaded s s' (sg :: segs).
Proof.
  intros [Hok _]%Forall_cons [Hm1 Hb1] Hk [Hm2 Hb2]. split.
  - intros p. rewrite Hm2, Hm1, <- orb_assoc. f_equal. cbn. rewrite app_nil_r.
    rewrite <- bool_decide_or. apply bool_decide_ext. by rewrite elem_of_app.
  - intros sg' k Hin Hne Hk'. apply elem_of_cons in Hin as [->|Hin]; [|by apply Hb2].
    rewrite <- Hb1 by (done || by apply list_elem_of_singleton). apply (proj2 Hk). rewrite Hm1. cbn. rewrite app_nil_r.
    rewrite bool_decide_eq_true_2 by by apply segment_byte_page. apply orb_true_r.
Qed.

Lemma segments_loaded_empty s s' sg segs :
  sg_memsz sg = 0 -> segments_loaded s s' segs -> segments_loaded s s' (sg :: segs).
Proof.
  intros Hz [Hm Hb]. split.
  - intros p. rewrite Hm. cbn. replace (sg_pages sg) with (@nil Z); [done|].
    unfold sg_pages. by rewrite (proj2 (Z.eqb_eq _ _) Hz).
  - intros sg' k [->|Hin]%elem_of_cons; [done|]. by apply Hb.
Qed.

Lemma loadable_ext t1 t2 segs : (forall p, t1 p = t2 p) -> loadable t1 segs = loadable t2 segs.
Proof.
  revert t1 t2. induction segs as [|sg segs IH]; intros t1 t2 H; [done|]. simpl. f_equal.
  - f_equal. induction (sg_pages sg) as [|p ps IHp]; [done|]. simpl. by rewrite H, IHp.
  - apply IH. intros p. by rewrite H.
Qed.

(** Pages that the segments take altogether. *)
Definition pages_needed (segs : list segment) : Z := foldr (fun sg n => GET_PAGES (sg_memsz sg) + n) 0 segs.

Lemma pages_needed_nonneg segs : Forall (segment_ok f) segs -> 0 <= pages_needed segs.
Proof.
  induction 1 as [|sg segs [H0 _] _ IH]; [done|]. change (pages_needed (sg :: segs)) with (GET_PAGES (sg_memsz sg) + pages_needed segs).
  destruct (Z.eq_dec (sg_memsz sg) 0) as [->|]; [done|]. pose proof (GET_PAGES_pos (sg_memsz sg)). lia.
Qed.

Lemma load_segments_spec elf segs : forall i s,
  us_ok s -> m_file elf = f -> Forall (segment_ok f) segs ->
  (forall k sg, segs !! k = Some sg -> phdr_rep f (program_header_by_index elf (i + Z.of_nat k)) sg) ->
  pages_needed segs <= us_room s ->
  exists s', load_segments s f elf (length segs) i = Done (loadable (us_mapped s) segs, s') /\ keeps s s' /\
    (loadable (us_mapped s) segs = true -> segments_loaded s s' segs).
Proof.
  induction segs as [|sg segs IH]; intros i s Hs Hf Hok Hh Hr.
  { exists s. split; [done|]. split; [apply keeps_refl|]. intros _. split; [intros p; by rewrite orb_false_r|].
    by intros sg k ?%elem_of_nil. }
  pose proof Hok as [Hsg Hsegs]%Forall_cons. destruct (Hh 0%nat sg eq_refl) as (E1 & E2 & E3 & E4).
  rewrite Z.add_0_r in E1, E2, E3, E4. cbn [length load_segments]. rewrite Hf, E4. cbn [mbind exec_bind].
  assert (Hh' : forall k sg', segs !! k = Some sg' -> phdr_rep f (program_header_by_index elf (i + 1 + Z.of_nat k)) sg').
  { intros k sg' Hk. replace (i + 1 + Z.of_nat k) with (i + Z.of_nat (Datatypes.S k)) by lia. by apply Hh. }
  cbn [pages_needed foldr] in Hr. fold (pages_needed segs) in Hr. destruct (Z.eqb_spec (sg_memsz sg) 0) as [Hz|Hz].
  - rewrite Hz in Hr. change (GET_PAGES 0) with 0 in Hr.
    destruct (IH (i + 1) s Hs Hf Hsegs Hh' ltac:(lia)) as (s' & E & Hk & Hl). exists s'. rewrite E.
    assert (El : loadable (us_mapped s) (sg :: segs) = loadable (us_mapped s) segs).
    { cbn. unfold sg_pages. rewrite (proj2 (Z.eqb_eq _ _) Hz). cbn. apply loadable_ext. intros p. by rewrite orb_false_r. }
    rewrite El. split; [done|]. split; [done|]. intros H. by apply segments_loaded_empty, Hl.
  - pose proof (pages_needed_nonneg segs Hsegs) as Hn.
    rewrite E2. cbn [mbind exec_bind]. pose proof (load_one s sg Hs Hsg Hz ltac:(lia)) as Ho. cbn [loadable].
    destruct (existsb (us_mapped s) (sg_pages sg)) eqn:Ht.
    { rewrite Ho. exists s. split; [done|]. split; [apply keeps_refl|done]. }
    destruct Ho as (s1 & s2 & Ea & Ec & Hr2 & Hk2 & Hl2). rewrite Ea. cbn [mbind exec_bind].
    destruct Hsg as [H0 Hsg]. destruct (Hsg Hz) as (Hv & _). unfold truthy.
    rewrite (proj2 (Z.eqb_neq (sg_vaddr sg) 0)) by lia. cbn [negb]. rewrite E1. cbn [mbind exec_bind]. rewrite E3.
    cbn [mbind exec_bind]. rewrite Ec. cbn [mbind exec_bind].
    destruct (IH (i + 1) s2 (proj1 Hk2 Hs) Hf Hsegs Hh' ltac:(lia)) as (s' & E & Hk & Hl). exists s'. rewrite E. cbn [andb].
    assert (El : loadable (us_mapped s2) segs = loadable (fun p => us_mapped s p || bool_decide (p ∈ sg_pages sg)) segs).
    { apply loadable_ext. intros p. rewrite (sl_mapped _ _ _ Hl2). cbn. by rewrite app_nil_r. }
    rewrite El in *. split; [done|]. split; [by eapply keeps_trans|]. intros H.
    by eapply segments_loaded_cons; [|done|done|apply Hl].
Qed.

End loading.

(** * The parser *)

Lemma is_valid_elf_spec f :
  view_ok f -> SELFMAG <= bv_size f -> is_valid_elf f = Done (bool_decide (take 4 (shown f) = take 4 ELFMAG)).
Proof.
  intros Hv Hl. pose proof (alen_shown f Hv) as Hs. unfold SELFMAG in Hl. destruct (view_split f Hv) as (p & r & E & Ep).
  unfold is_valid_elf, strncmp. rewrite <- (take_drop 4 (shown f)), <- app_assoc in E. rewrite E, <- Ep.
  assert (H4 : length (take 4 (shown f)) = 4%nat) by (rewrite length_take; unfold alen in Hs; lia).
  pose proof (memcmp_spec (take 4 (shown f)) (take 4 ELFMAG) p [] (drop 4 (shown f) ++ r) [0]) as M.
  replace (alen (take 4 (shown f))) with SELFMAG in M by (unfold alen; by rewrite H4).
  change ([] ++ take 4 ELFMAG ++ [0]) with ELFMAG in M. rewrite (@alen_nil Z) in M. rewrite (M H4). cbn [mbind exec_bind]. by rewrite negb_involutive.
Qed.

(** The section of a type, from section [i] on. *)
Lemma find_section_type elf shoff secs type : forall k,
  m_section_headers_array elf = shoff -> m_sections_number elf = alen secs -> (k <= length secs)%nat ->
  (forall i sc, secs !! i = Some sc -> shdr_rep (m_file elf) (shoff + sizeof_shdr * Z.of_nat i) sc) ->
  find_section elf (fun section => t ← sh_type (m_file elf) section; Done (type =? t)) k (alen secs - Z.of_nat k) =
    Done (match list_find (fun sc => type = sc_type sc) (drop (length secs - k) secs) with
          | Some (j, _) => shoff + sizeof_shdr * Z.of_nat (length secs - k + j)
          | None => shoff
          end).
Proof.
  induction k as [|k IH]; intros Hs Hn Hk Hrep.
  { rewrite drop_ge by lia. cbn. rewrite Hs. f_equal. unfold SHN_UNDEF. lia. }
  cbn [find_section]. unfold section_header_by_index. rewrite Hn, (proj2 (Z.ltb_lt _ _)), Hs by (unfold alen; lia).
  destruct (lookup_lt_is_Some_2 secs (length secs - S k)) as [sc Hsc]; [lia|].
  destruct (Hrep _ _ Hsc) as (Ht & _). replace (alen secs - Z.of_nat (S k)) with (Z.of_nat (length secs - S k)) by (unfold alen; lia).
  rewrite Ht. cbn [mbind exec_bind]. rewrite (drop_S _ sc) by done. cbn [list_find].
  destruct (Z.eqb_spec type (sc_type sc)) as [->|Hne].
  { rewrite decide_True by done. by rewrite Nat.add_0_r. }
  rewrite decide_False by done. replace (Z.of_nat (length secs - S k) + 1) with (alen secs - Z.of_nat k) by (unfold alen; lia).
  rewrite IH by (done || lia). replace (S (length secs - S k)) with (length secs - k)%nat by lia.
  destruct (list_find _ _) as [[j sc']|]; [|done]. cbn. do 3 f_equal. lia.
Qed.

Lemma section_by_type_init elf shoff secs :
  m_section_headers_array elf = shoff -> m_sections_number elf = alen secs -> secs <> [] ->
  (forall i sc, secs !! i = Some sc -> shdr_rep (m_file elf) (shoff + sizeof_shdr * Z.of_nat i) sc) ->
  exists p, section_header_by_type elf SHT_INIT_ARRAY = Done p /\ shdr_rep (m_file elf) p (init_section secs).
Proof.
  intros Hs Hn Hne Hrep. unfold section_header_by_type. rewrite Hn.
  pose proof (find_section_type elf shoff secs SHT_INIT_ARRAY (length secs) Hs Hn (le_n _) Hrep) as E.
  replace (Z.to_nat (alen secs)) with (length secs) by (unfold alen; lia).
  replace (alen secs - Z.of_nat (length secs)) with 0 in E by (unfold alen; lia).
  rewrite E, Nat.sub_diag, drop_0. eexists. split; [done|]. unfold init_section.
  destruct (list_find _ secs) as [[j sc]|] eqn:Hf.
  - apply list_find_Some in Hf as (Hj & _). by apply Hrep.
  - destruct secs as [|sc secs]; [done|]. specialize (Hrep 0%nat sc eq_refl). by rewrite Z.mul_0_r, Z.add_0_r in Hrep.
Qed.

(** The parser of a file reads the tables that the file has. *)
Lemma ELFParser_new_spec f entry segs secs :
  elf_file f entry segs secs -> SELFMAG <= bv_size f ->
  exists elf, ELFParser_new f = Done (Some elf) /\ m_file elf = f /\
    m_sections_number elf = alen secs /\
    (forall i sg, segs !! i = Some sg -> phdr_rep f (m_program_headers_array elf + sizeof_phdr * Z.of_nat i) sg) /\
    (forall i sc, secs !! i = Some sc -> shdr_rep f (m_section_headers_array elf + sizeof_shdr * Z.of_nat i) sc).
Proof.
  intros [Hv _ (rest & Hm) _ (phoff & E1 & Hp) E2 (shoff & E3 & (o & Es) & Hsc) E4] Hl. unfold ELFParser_new.
  rewrite is_valid_elf_spec, bool_decide_eq_true_2 by (done || by rewrite Hm, take_app_length'). cbn [mbind exec_bind negb].
  rewrite E1. cbn [mbind exec_bind]. rewrite E3. cbn [mbind exec_bind]. rewrite E2. cbn [mbind exec_bind]. rewrite E4.
  cbn [mbind exec_bind]. rewrite Es. cbn [mbind exec_bind]. eexists. split; [done|]. done.
Qed.

(** Loading a program. For a file with the magic number whose headers describe its
    segments and sections (no more segments than sections, since the code checks the index
    of a program header against the number of sections), [ELFLoader::load] copies every
    byte that a segment has in the file to its address in the process, takes exactly the
    pages of the segments, keeps what was mapped before, and returns the entry point and
    the table of constructors. When a segment needs a page that is taken it gives
    [ERROR_LOADING_EXECUTABLE]. *)
Lemma elf_loaded {S : Type} `{!UserSpace S} (s : S) (f : BufferView) (entry : Z) (segs : list segment) (secs : list section)
    (Hf : elf_file f entry segs secs) (Hsize : SELFMAG <= bv_size f) (Hn : alen segs <= alen secs)
    (Hne : secs <> []) (Hok : Forall (segment_ok f) segs) (Hs : us_ok s) (Hroom : pages_needed segs <= us_room s) :
  exists s', ELFLoader_load s f =
       Done (if loadable (us_mapped s) segs
             then Value (mkExecutable entry (sc_addr (init_section secs)) (sc_size (init_section secs) / 4))
             else Error ERROR_LOADING_EXECUTABLE, s') /\ keeps s s' /\
     (loadable (us_mapped s) segs = true -> segments_loaded f s s' segs).
Proof.
  pose proof Hf as [Hv Hb _ He _ Ephn _ _].
  destruct (ELFParser_new_spec f entry segs secs Hf Hsize) as (elf & E & Hfile & Hsn & Hps & Hss).
  destruct (load_segments_spec f Hv Hb elf segs 0 s Hs Hfile Hok) as (s' & El & Hk & Hl); [|done|].
  { intros k sg Hsg. rewrite Z.add_0_l. apply lookup_lt_Some in Hsg as Hlt. unfold program_header_by_index.
    rewrite Hsn, (proj2 (Z.ltb_lt _ _)) by (unfold alen in *; lia). by apply Hps. }
  exists s'. split; [|done]. unfold ELFLoader_load. rewrite E. cbn [mbind exec_bind]. unfold programs_number.
  rewrite Hfile, Ephn. cbn [mbind exec_bind]. replace (Z.to_nat (alen segs)) with (length segs) by (unfold alen; lia).
  rewrite El. cbn [mbind exec_bind]. destruct (loadable (us_mapped s) segs); [|done]. cbn [negb].
  rewrite <- Hfile in Hss. destruct (section_by_type_init elf _ secs eq_refl Hsn Hne Hss) as (p & -> & Hp).
  cbn [mbind exec_bind]. unfold entry_point. rewrite Hfile, He. cbn [mbind exec_bind].
  rewrite Hfile in Hp. destruct Hp as (_ & -> & ->). done.
Qed.

(** A file without the magic number is refused before anything is allocated. *)
Lemma elf_refused {S : Type} `{!UserSpace S} (s : S) (g : BufferView) :
  view_ok g -> SELFMAG <= bv_size g -> take 4 (shown g) <> take 4 ELFMAG ->
  ELFLoader_load s g = Done (Error ERROR_INVALID_EXECUTABLE, s).
Proof.
  intros Hg Hgs Hmagic. unfold ELFLoader_load, ELFParser_new. by rewrite is_valid_elf_spec, bool_decide_eq_false_2.
Qed.

(** * An address space *)

(** The taken pages, the bytes that were stored, and the pages that are left. *)
Record paged := mkPaged {
  pg_taken : gset Z;
  pg_bytes : gmap Z Z;
  pg_left : Z
}.

Definition paged_mapped (s : paged) (p : Z) : bool := bool_decide (p ∈ pg_taken s).

Definition paged_valloc (s : paged) (a n flags : Z) : exec (Z * paged) :=
  let pages := seqZ (a / PAGE_SIZE) (GET_PAGES n) in
  if existsb (paged_mapped s) pages then Done (0, s)
  else if pg_left s <? GET_PAGES n then Panic
  else Done (a, mkPaged (pg_taken s ∪ list_to_set pages) (pg_bytes s) (pg_left s - GET_PAGES n)).

Definition paged_store (s : paged) (a x : Z) : exec paged :=
  if paged_mapped s (a / PAGE_SIZE) then Done (mkPaged (pg_taken s) (<[a := x]> (pg_bytes s)) (pg_left s)) else Fault.

#[export] Program Instance paged_UserSpace : UserSpace paged := {|
  us_ok _ := True;
  us_valloc := paged_valloc;
  us_store := paged_store;
  us_mapped := paged_mapped;
  us_byte s a := default 0 (pg_bytes s !! a);
  us_room := pg_left
|}.
Next Obligation.
  intros s a n flags _ _ Ha Hn Hlim Hr. destruct (existsb _ _) eqn:Ht; unfold paged_valloc; rewrite Ht; [done|].
  rewrite (proj2 (Z.ltb_ge _ _)) by lia. eexists. split; [done|]. split; [done|]. cbn [pg_left pg_bytes]. split; [lia|]. split; [|done].
  intros p. unfold paged_mapped. cbn [pg_taken]. rewrite <- bool_decide_or. apply bool_decide_ext.
  by rewrite elem_of_union, elem_of_list_to_set.
Qed.
Next Obligation.
  intros s a x _ Hx Hm. unfold paged_store. rewrite Hm. eexists. split; [done|].
  split; [done|]. split; [done|]. split; [done|]. intros b. cbn [pg_bytes]. destruct (Z.eqb_spec b a) as [->|].
  - by rewrite lookup_insert_eq.
  - by rewrite lookup_insert_ne by done.
Qed.
Next Obligation. intros s a x _ _ Hm. unfold paged_store. by rewrite Hm. Qed.

(** A little-endian word, and a program of two segments and [shnum] sections, all empty; the
    headers of the program follow the one of the file, then come the sections. *)
Definition le16 (x : Z) : list Z := [x mod 2 ^ 8; x / 2 ^ 8].
Definition le32 (x : Z) : list Z := le16 (x mod 2 ^ 16) ++ le16 (x / 2 ^ 16).

Definition example_program (shnum : nat) : list Z :=
  let phdr off vaddr filesz memsz := concat (le32 <$> [1; off; vaddr; vaddr; filesz; memsz; 7; 4096]) in
  take 4 ELFMAG ++ replicate 12 0 ++ le16 2 ++ le16 3 ++ concat (le32 <$> [1; 0x8048000; 52; 116; 0]) ++
  concat (le16 <$> [52; 32; 2; 40; Z.of_nat shnum; 0]) ++
  phdr 0 0x8048000 4 4 ++ phdr 4 0x8049000 2 0x1001 ++ replicate (40 * shnum) 0.

Definition empty_space : paged := mkPaged ∅ ∅ 16.

(** Without section headers the same program is refused: the header of the first segment
    stands in for every index, and the second time its page is taken. *)
Lemma elf_stripped_refused :
  (r ← ELFLoader_load empty_space (BufferView_of_ptr (example_program 0)); Done r.1) = Done (Error ERROR_LOADING_EXECUTABLE).
Proof. vm_compute. reflexivity. Qed.

(** Its headers say what it holds. *)
Lemma example_program_file :
  elf_file (BufferView_of_ptr (example_program 2)) 0x8048000
    [mkSegment 0 0x8048000 4 4; mkSegment 4 0x8049000 2 0x1001] [mkSection 0 0 0; mkSection 0 0 0] /\
  Forall (segment_ok (BufferView_of_ptr (example_program 2))) [mkSegment 0 0x8048000 4 4; mkSegment 4 0x8049000 2 0x1001].
Proof.
  split.
  - split; try (vm_compute; reflexivity).
    + split; [done|]. split; [done|vm_compute; congruence].
    + repeat (apply Forall_cons; split; [done|]). by apply Forall_nil.
    + exists (drop 4 (example_program 2)). vm_compute. reflexivity.
    + exists 52. split; [vm_compute; reflexivity|]. intros [|[|i]] sg Hsg; [..|done]; injection Hsg as <-;
        repeat split; vm_compute; reflexivity.
    + exists 116. split; [vm_compute; reflexivity|]. split; [exists None; vm_compute; reflexivity|].
      intros [|[|i]] sc Hsc; [..|done]; injection Hsc as <-; repeat split; vm_compute; reflexivity.
  - repeat (apply Forall_cons; split; [split; [done|intros _; repeat split; vm_compute; congruence]|]). by apply Forall_nil.
Qed.
