(* ===== verification/Pe.v ===== *)
(** * PE executables

    tasking/loader/pe.cpp: the headers of a PE file (winnt.h) and the copy of its sections to a
    user address space, over the interface of Elf. [file] are the bytes of memory from the
    pointer to the file on; a structure is an offset in it. *)
From S2P Require Import Prelude Clib Buffers Physical Paging Memory Checksum Elf.

(** ** The headers *)

Definition IMAGE_NT_SIGNATURE : Z := 0x00004550.
Definition IMAGE_DOS_SIGNATURE : Z := 0x5A4D.

Definition e_magic (file : list Z) : exec Z := field16 (BufferView_of_ptr file) 0.
Definition e_lfanew (file : list Z) : exec Z := field32 (BufferView_of_ptr file) 60.

(** Of the headers at [nt]. *)
Definition Signature (file : list Z) (nt : Z) : exec Z := field32 (BufferView_of_ptr file) nt.
Definition NumberOfSections (file : list Z) (nt : Z) : exec Z := field16 (BufferView_of_ptr file) (nt + 6).
Definition AddressOfEntryPoint (file : list Z) (nt : Z) : exec Z := field32 (BufferView_of_ptr file) (nt + 40).
Definition ImageBase (file : list Z) (nt : Z) : exec Z := field32 (BufferView_of_ptr file) (nt + 52).
Definition SectionAlignment (file : list Z) (nt : Z) : exec Z := field32 (BufferView_of_ptr file) (nt + 56).
Definition SizeOfHeaders (file : list Z) (nt : Z) : exec Z := field32 (BufferView_of_ptr file) (nt + 84).
Definition sizeof_nt_headers : Z := 248.

(** Of the section header at [p]. *)
Definition sizeof_section_header : Z := 40.
Definition VirtualSize (file : list Z) (p : Z) : exec Z := field32 (BufferView_of_ptr file) (p + 8).
Definition VirtualAddress (file : list Z) (p : Z) : exec Z := field32 (BufferView_of_ptr file) (p + 12).
Definition SizeOfRawData (file : list Z) (p : Z) : exec Z := field32 (BufferView_of_ptr file) (p + 16).
Definition PointerToRawData (file : list Z) (p : Z) : exec Z := field32 (BufferView_of_ptr file) (p + 20).

(** ** The loader *)

Section pe.
Context {S : Type} `{!UserSpace S}.

(** [memset] and [memcpy] to the process. *)
Definition memset_to_space (s : S) (dest value size : Z) : exec S :=
  for_ (Z.to_nat size) 0 (fun i s => us_store s (dest + i) value) s.

Definition memcpy_to_space (s : S) (dest : Z) (file : list Z) (src size : Z) : exec S :=
  for_ (Z.to_nat size) 0 (fun i s => x ← aget file (src + i); us_store s (dest + i) x) s.

(** The loop over the sections; false is the null pointer. *)
Fixpoint load_sections (s : S) (file : list Z) (section_header start alignment : Z) (turns : nat) (i : Z) : exec (bool * S) :=
  match turns with
  | O => Done (true, s)
  | Datatypes.S turns =>
      let p := section_header + sizeof_section_header * i in
      section_va ← VirtualAddress file p;
      section_rd ← PointerToRawData file p;
      section_raw_size ← SizeOfRawData file p;
      vir_size ← VirtualSize file p;
      section_vir_size ← (if alignment =? 0 then Fault else Done (align_to vir_size alignment true));
      '(current, s) ← us_valloc s (u32 (start + section_va)) section_vir_size (Z.lor PAGE_USER PAGE_READWRITE);
      if negb (truthy current) then Done (false, s)
      else
        s ← memcpy_to_space s current file section_rd section_raw_size;
        load_sections s file section_header start alignment turns (i + 1)
  end.

(** The start of the executable, or zero. *)
Definition load_pe_sections (s : S) (file : list Z) (nt : Z) : exec (Z * S) :=
  section_alignment ← SectionAlignment file nt;
  base ← ImageBase file nt;
  '(start, s) ← us_valloc s base section_alignment (Z.lor PAGE_USER PAGE_READWRITE);
  if negb (truthy start) then Done (0, s)
  else
    s ← memset_to_space s start 0 section_alignment;
    size ← SizeOfHeaders file nt;
    s ← memcpy_to_space s start file 0 size;
    n ← NumberOfSections file nt;
    '(loaded, s) ← load_sections s file (nt + sizeof_nt_headers) start section_alignment (Z.to_nat n) 0;
    Done (if (loaded : bool) then start else 0, s).

(** The checks of the sections. *)
Fixpoint sections_valid (file : list Z) (size section_header : Z) (turns : nat) (i : Z) : exec bool :=
  match turns with
  | O => Done true
  | Datatypes.S turns =>
      let p := section_header + sizeof_section_header * i in
      section_va ← VirtualAddress file p;
      section_rd ← PointerToRawData file p;
      section_raw_size ← SizeOfRawData file p;
      section_vir_size ← VirtualSize file p;
      if negb (truthy section_va) || negb (truthy section_vir_size) then Done false
      else if size <? u32 (section_rd + section_raw_size) then Done false
      else sections_valid file size section_header turns (i + 1)
  end.

Definition PELoader_load (s : S) (file : list Z) (size : Z) : exec (Result Z * S) :=
  _ ← ASSERT (truthy size);
  magic ← e_magic file;
  if negb (magic =? IMAGE_DOS_SIGNATURE) then Done (Error ERROR_INVALID_EXECUTABLE, s)
  else
    nt ← e_lfanew file;
    if negb (truthy nt) then Done (Error ERROR_INVALID_EXECUTABLE, s)
    else
      signature ← Signature file nt;
      if negb (signature =? IMAGE_NT_SIGNATURE) then Done (Error ERROR_INVALID_EXECUTABLE, s)
      else
        n ← NumberOfSections file nt;
        valid ← sections_valid file size (nt + sizeof_nt_headers) (Z.to_nat n) 0;
        if negb valid then Done (Error ERROR_INVALID_EXECUTABLE, s)
        else
          entry ← AddressOfEntryPoint file nt;
          if negb (truthy entry) then Done (Error ERROR_INVALID_EXECUTABLE, s)
          else
            '(start, s) ← load_pe_sections s file nt;
            if negb (truthy start) then Done (Error ERROR_LOADING_EXECUTABLE, s)
            else
              entry ← AddressOfEntryPoint file nt;
              Done (Value (u32 (start + entry)), s).

End pe.

(** ** What a file says *)

Record pe_section := mkPeSection { ps_va : Z; ps_vsize : Z; ps_rd : Z; ps_raw : Z }.

Definition section_rep (file : list Z) (p : Z) (ps : pe_section) : Prop :=
  VirtualAddress file p = Done (ps_va ps) /\ VirtualSize file p = Done (ps_vsize ps) /\
  PointerToRawData file p = Done (ps_rd ps) /\ SizeOfRawData file p = Done (ps_raw ps).

(** Where a section of an image at [base] goes. *)
Definition segment_of_section (base alignment : Z) (ps : pe_section) : segment :=
  mkSegment (ps_rd ps) (base + ps_va ps) (ps_raw ps) (align_to (ps_vsize ps) alignment true).

Record pe_file (file : list Z) (nt entry base alignment headers : Z) (secs : list pe_section) : Prop := {
  pf_length : alen file < 2 ^ 32;
  pf_bytes : Forall is_byte file;
  pf_magic : e_magic file = Done IMAGE_DOS_SIGNATURE;
  pf_nt : e_lfanew file = Done nt /\ nt <> 0;
  pf_signature : Signature file nt = Done IMAGE_NT_SIGNATURE;
  pf_number : NumberOfSections file nt = Done (alen secs);
  pf_entry : AddressOfEntryPoint file nt = Done entry /\ entry <> 0;
  pf_base : ImageBase file nt = Done base;
  pf_alignment : SectionAlignment file nt = Done alignment;
  pf_headers : SizeOfHeaders file nt = Done headers;
  pf_sections : forall i ps, secs !! i = Some ps ->
    section_rep file (nt + sizeof_nt_headers + sizeof_section_header * Z.of_nat i) ps
}.

(** The headers are the first segment. *)
Definition header_segment (base alignment headers : Z) : segment := mkSegment 0 base headers alignment.

(** A section has an address and a size, its bytes are in the file, and its memory does not
    pass the end of the address space. *)
Definition pe_section_ok (base size : Z) (ps : pe_section) : Prop :=
  0 < ps_va ps /\ 0 < ps_vsize ps /\ 0 <= ps_rd ps /\ 0 <= ps_raw ps /\ ps_rd ps + ps_raw ps <= size /\ base + ps_va ps < 2 ^ 32.

Lemma for_same_body {S} (body body' : Z -> S -> exec S) n : forall i s,
  (forall k t, i <= k < i + Z.of_nat n -> body k t = body' k t) -> for_ n i body s = for_ n i body' s.
Proof.
  induction n as [|n IH]; intros i s H; [done|]. cbn [for_]. rewrite H by lia. destruct (body' i s); cbn [mbind exec_bind]; [|done..].
  apply IH. intros k t Hk. apply H. lia.
Qed.

Section loading.
Context {S : Type} `{!UserSpace S} (file : list Z) (Hlen : alen file < 2 ^ 32) (Hbytes : Forall is_byte file).

Definition file_view : BufferView := BufferView_of_ptr file.

Lemma file_view_ok : view_ok file_view /\ bv_size file_view = alen file /\ Forall is_byte (bv_array file_view).
Proof. destruct (shown_of_ptr file Hlen) as [Hv _]. by split. Qed.

(** Inside the file [memcpy] is the copy of a view. *)
Lemma memcpy_is_copy (s : S) dest src size :
  0 <= src -> 0 <= size -> src + size <= alen file -> memcpy_to_space s dest file src size = copy_to_space s file_view dest src size.
Proof.
  intros Hsrc Hsize Hend. unfold copy_to_space. destruct file_view_ok as (Hv & Hsz & _). rewrite Hsz.
  rewrite bind_ASSERT by (rewrite u32_small by lia; apply Z.leb_le; lia). apply for_same_body. intros k t Hk.
  rewrite view_at by (done || rewrite Hsz; lia). unfold file_view. by rewrite (proj2 (shown_of_ptr file Hlen)).
Qed.

Lemma memset_to_space_spec (s : S) dest size :
  us_ok s -> 0 <= size -> (forall k, 0 <= k < size -> us_mapped s ((dest + k) / PAGE_SIZE) = true) ->
  exists s', memset_to_space s dest 0 size = Done s' /\ us_ok s' /\ us_room s' = us_room s /\ (forall p, us_mapped s' p = us_mapped s p) /\
    (forall b, us_byte s' b = if (dest <=? b) && (b <? dest + size) then 0 else us_byte s b).
Proof.
  intros Hs Hz Hm. unfold memset_to_space.
  match goal with |- context [for_ ?n ?lo ?body ?st] =>
    destruct (for_inv (fun i t => us_ok t /\ us_room t = us_room s /\ (forall p, us_mapped t p = us_mapped s p) /\
      forall b, us_byte t b = if (dest <=? b) && (b <? dest + i) then 0 else us_byte s b)
      body n lo st) as (s' & E & H0 & H1 & H2 & H3) end.
  - split; [done|]. split; [done|]. split; [done|]. intros b. destruct (Z.leb_spec dest b), (Z.ltb_spec b (dest + 0)); done || lia.
  - intros i t Hi (H0 & H1 & H2 & H3).
    destruct (us_store_law t (dest + i) 0 H0 ltac:(lia)) as (t' & E & Hot & Hr & Hmt & Hbt); [rewrite H2; apply Hm; lia|].
    exists t'. split; [done|]. split; [done|]. split; [by rewrite Hr|].
    split; [intros p; by rewrite Hmt|]. intros b. rewrite Hbt, H3. destruct (Z.eqb_spec b (dest + i)) as [->|].
    + rewrite (proj2 (Z.leb_le _ _)), (proj2 (Z.ltb_lt _ _)) by lia. done.
    + destruct (Z.leb_spec dest b), (Z.ltb_spec b (dest + i)), (Z.ltb_spec b (dest + (i + 1))); try lia; done.
  - exists s'. rewrite E. split; [done|]. split; [done|]. split; [done|]. split; [done|]. intros b. rewrite H3.
    by replace (dest + (0 + Z.of_nat (Z.to_nat size))) with (dest + size) by lia.
Qed.

(** The checks hold for sections that are well formed. *)
Lemma sections_valid_spec size header base secs : forall i,
  size < 2 ^ 32 -> Forall (pe_section_ok base size) secs ->
  (forall k ps, secs !! k = Some ps -> section_rep file (header + sizeof_section_header * (i + Z.of_nat k)) ps) ->
  sections_valid file size header (length secs) i = Done true.
Proof.
  induction secs as [|ps secs IH]; intros i Hs Hok Hrep; [done|]. cbn [length sections_valid].
  apply Forall_cons in Hok as [(H1 & H2 & H3 & H4 & H5 & _) Hok]. pose proof (Hrep 0%nat ps eq_refl) as Hp. rewrite Z.add_0_r in Hp.
  destruct Hp as (-> & -> & -> & ->). cbn [mbind exec_bind]. unfold truthy.
  rewrite (proj2 (Z.eqb_neq _ _)), (proj2 (Z.eqb_neq (ps_vsize ps) 0)) by lia. cbn [negb orb].
  rewrite u32_small, (proj2 (Z.ltb_ge _ _)) by lia. apply IH; [done|done|]. intros k ps' Hk.
  replace (i + 1 + Z.of_nat k) with (i + Z.of_nat (Datatypes.S k)) by lia. by apply Hrep.
Qed.

Lemma load_sections_spec header base alignment secs : forall i (s : S),
  us_ok s -> 0 < alignment -> Forall (pe_section_ok base (alen file)) secs -> 0 < base ->
  Forall (segment_ok file_view) (segment_of_section base alignment <$> secs) ->
  (forall ps, ps ∈ secs -> align_to (ps_vsize ps) alignment true <> 0) ->
  (forall k ps, secs !! k = Some ps -> section_rep file (header + sizeof_section_header * (i + Z.of_nat k)) ps) ->
  pages_needed (segment_of_section base alignment <$> secs) <= us_room s ->
  let segs := segment_of_section base alignment <$> secs in
  exists s', load_sections s file header base alignment (length secs) i = Done (loadable (us_mapped s) segs, s') /\ keeps s s' /\
    (loadable (us_mapped s) segs = true -> segments_loaded file_view s s' segs).
Proof.
  destruct file_view_ok as (Hv & Hsz & Hb).
  induction secs as [|ps secs IH]; intros i s Hs Ha Hps Hbase Hok Hne Hrep Hr segs.
  { exists s. split; [done|]. split; [apply keeps_refl|]. intros _. split; [intros p; by rewrite orb_false_r|]. by intros sg k ?%elem_of_nil. }
  apply Forall_cons in Hps as [(H1 & H2 & H3 & H4 & H5 & H6) Hps]. cbn [fmap list_fmap] in *.
  pose proof Hok as [Hsg Hsegs]%Forall_cons. set (sg := segment_of_section base alignment ps) in *.
  assert (Hz : sg_memsz sg <> 0) by (apply Hne; by left).
  assert (Hn : 0 <= pages_needed (segment_of_section base alignment <$> secs)) by exact (pages_needed_nonneg file_view _ Hsegs).
  cbn [pages_needed foldr] in Hr. fold (pages_needed (segment_of_section base alignment <$> secs)) in Hr.
  pose proof (Hrep 0%nat ps eq_refl) as Hp. rewrite Z.add_0_r in Hp. destruct Hp as (E1 & E2 & E3 & E4). cbn [length load_sections].
  rewrite E1, E3, E4, E2. cbn [mbind exec_bind]. rewrite (proj2 (Z.eqb_neq alignment 0)) by lia. cbn [mbind exec_bind]. rewrite u32_small by lia.
  assert (Hroom : GET_PAGES (sg_memsz sg) <= us_room s) by lia. pose proof (load_one file_view Hv Hb s sg Hs Hsg Hz Hroom) as Ho. unfold segs. cbn [loadable].
  change (base + ps_va ps) with (sg_vaddr sg). change (align_to (ps_vsize ps) alignment true) with (sg_memsz sg).
  destruct (existsb (us_mapped s) (sg_pages sg)) eqn:Ht.
  { rewrite Ho. exists s. split; [done|]. split; [apply keeps_refl|done]. }
  destruct Ho as (s1 & s2 & Ea & Ec & Hr2 & Hk2 & Hl2). rewrite Ea. cbn [mbind exec_bind]. unfold truthy.
  rewrite (proj2 (Z.eqb_neq (sg_vaddr sg) 0)) by (cbn [sg segment_of_section sg_vaddr]; lia). cbn [negb].
  rewrite memcpy_is_copy by lia. change (ps_rd ps) with (sg_offset sg). change (ps_raw ps) with (sg_filesz sg). rewrite Ec. cbn [mbind exec_bind andb].
  destruct (IH (i + 1) s2 (proj1 Hk2 Hs) Ha Hps Hbase Hsegs) as (s' & E & Hk & Hl); [by intros ps' Hin; apply Hne; right| |lia|].
  { intros k ps' Hk. replace (i + 1 + Z.of_nat k) with (i + Z.of_nat (Datatypes.S k)) by lia. by apply Hrep. }
  exists s'. rewrite E.
  assert (El : loadable (us_mapped s2) (segment_of_section base alignment <$> secs) =
    loadable (fun p => us_mapped s p || bool_decide (p ∈ sg_pages sg)) (segment_of_section base alignment <$> secs)).
  { apply loadable_ext. intros p. rewrite (sl_mapped _ _ _ _ Hl2). cbn. by rewrite app_nil_r. }
  rewrite El in *. split; [done|]. split; [by eapply keeps_trans|]. intros H.
  by eapply segments_loaded_cons; [|done|done|apply Hl].
Qed.

(** The headers: the memory is cleared, then they are copied. *)
Lemma load_header (s : S) base alignment headers :
  let sg := header_segment base alignment headers in
  us_ok s -> segment_ok file_view sg -> alignment <> 0 -> base mod PAGE_SIZE = 0 -> GET_PAGES alignment <= us_room s ->
  if existsb (us_mapped s) (sg_pages sg)
  then us_valloc s base alignment (Z.lor PAGE_USER PAGE_READWRITE) = Done (0, s)
  else exists s1 s2 s', us_valloc s base alignment (Z.lor PAGE_USER PAGE_READWRITE) = Done (base, s1) /\
    memset_to_space s1 base 0 alignment = Done s2 /\ memcpy_to_space s2 base file 0 headers = Done s' /\
    us_room s - GET_PAGES alignment <= us_room s' /\ keeps s s' /\ segments_loaded file_view s s' [sg] /\
    (forall k, headers <= k < alignment -> us_byte s' (base + k) = 0).
Proof.
  intros sg Hs Hok Hne Hbase Hr. destruct file_view_ok as (Hv & Hsz & Hb). pose proof Hok as [H0 Hok']. cbn [sg header_segment sg_memsz] in H0, Hok'.
  assert (Hseg : 0 < base /\ base / PAGE_SIZE + GET_PAGES alignment <= user_limit /\ 0 <= 0 /\ 0 <= headers /\ 0 + headers <= bv_size file_view /\
    base mod PAGE_SIZE + headers <= PAGE_SIZE * GET_PAGES alignment) by exact (Hok' Hne).
  destruct Hseg as (Hpos & Hlim & _ & Hf & Hend & Hfit).
  pose proof (us_valloc_law s base alignment (Z.lor PAGE_USER PAGE_READWRITE) Hs eq_refl Hpos ltac:(lia) Hlim Hr) as Hl.
  assert (Epg : sg_pages sg = seqZ (base / PAGE_SIZE) (GET_PAGES alignment)).
  { unfold sg_pages. cbn [sg header_segment sg_memsz sg_vaddr]. by rewrite (proj2 (Z.eqb_neq _ _) Hne). }
  rewrite Epg. destruct (existsb _ _) eqn:Ht; [done|]. destruct Hl as (s1 & E1 & Ho1 & Hr1 & Hm1 & Hb1).
  assert (Hpage : forall k, 0 <= k < PAGE_SIZE * GET_PAGES alignment -> (base + k) / PAGE_SIZE ∈ seqZ (base / PAGE_SIZE) (GET_PAGES alignment)).
  { intros k Hk. apply elem_of_seqZ. change PAGE_SIZE with 4096 in *. zdiv. }
  assert (Hal : alignment <= PAGE_SIZE * GET_PAGES alignment).
  { unfold GET_PAGES. change PAGE_SIZE with 4096. destruct (Z.eqb_spec (alignment mod 4096) 0); zdiv. }
  rewrite Hbase, Z.add_0_l in Hfit.
  destruct (memset_to_space_spec s1 base alignment) as (s2 & E2 & Ho2 & Hr2 & Hm2 & Hb2); [done|lia| |].
  { intros k Hk. rewrite Hm1, bool_decide_eq_true_2, orb_true_r by (apply Hpage; lia). done. }
  destruct (copy_to_space_spec file_view Hv Hb s2 base 0 headers) as (s' & E3 & Ho3 & Hr3 & Hm3 & Hb3); [done|lia|lia|lia| |].
  { intros k Hk. rewrite Hm2, Hm1, bool_decide_eq_true_2, orb_true_r by (apply Hpage; lia). done. }
  exists s1, s2, s'. split; [done|]. split; [done|]. split; [rewrite memcpy_is_copy by lia; done|]. split; [lia|].
  split; [|split; [split|]].
  - split; [done|]. intros b Hmb. rewrite Hm3, Hm2, Hm1, Hmb. split; [done|]. rewrite Hb3, Hb2, <- (Hb1 b Hmb).
    assert (Hout : ~ (base <= b < base + PAGE_SIZE * GET_PAGES alignment)).
    { intros Hin. apply not_true_iff_false in Ht. apply Ht, existsb_exists. exists (b / PAGE_SIZE). split; [|done].
      apply list_elem_of_In. replace b with (base + (b - base)) by lia. apply Hpage. lia. }
    destruct (Z.leb_spec base b), (Z.ltb_spec b (base + headers)), (Z.ltb_spec b (base + alignment)); cbn [andb]; try lia; done.
  - intros p. rewrite Hm3, Hm2, Hm1. cbn. by rewrite app_nil_r, Epg.
  - intros sg' k Hin _ Hk. apply list_elem_of_singleton in Hin as ->. cbn [sg header_segment sg_vaddr sg_offset sg_filesz] in *. rewrite Hb3.
    rewrite (proj2 (Z.leb_le _ _)), (proj2 (Z.ltb_lt _ _)) by lia. cbn [andb]. f_equal. lia.
  - intros k Hk. rewrite Hb3, Hb2. rewrite (proj2 (Z.leb_le _ _)), (proj2 (Z.ltb_ge (base + k) (base + headers))), (proj2 (Z.ltb_lt _ _)) by lia. done.
Qed.

End loading.

Section program.
Context {S : Type} `{!UserSpace S} (file : list Z) (nt entry base alignment headers : Z) (secs : list pe_section).
Context (Hfile : pe_file file nt entry base alignment headers secs) (Hbase : 0 < base) (Hpage : base mod PAGE_SIZE = 0) (Halign : 0 < alignment).

Lemma truthy_pos x : 0 < x -> truthy x = true.
Proof. intros H. unfold truthy. by rewrite (proj2 (Z.eqb_neq x 0)) by lia. Qed.

Definition pe_segments : list segment := header_segment base alignment headers :: (segment_of_section base alignment <$> secs).

(** The checks pass. *)
Lemma pe_checked (s : S) size :
  0 < size <= alen file -> Forall (pe_section_ok base size) secs ->
  PELoader_load s file size =
    ('(start, s) ← load_pe_sections s file nt;
     if negb (truthy start) then Done (Error ERROR_LOADING_EXECUTABLE, s) else Done (Value (u32 (start + entry)), s)).
Proof.
  destruct Hfile as [Hlen _ Hmagic [Hnt Hnt0] Hsig Hnum [Hentry Hentry0] _ _ _ Hsecs]. intros Hsize Hok.
  unfold PELoader_load. rewrite truthy_pos by lia. cbn [ASSERT mbind exec_bind]. rewrite Hmagic. cbn [mbind exec_bind].
  rewrite Z.eqb_refl. cbn [negb]. rewrite Hnt. cbn [mbind exec_bind]. unfold truthy at 1. rewrite (proj2 (Z.eqb_neq nt 0) Hnt0). cbn [negb].
  rewrite Hsig. cbn [mbind exec_bind]. rewrite Z.eqb_refl. cbn [negb]. rewrite Hnum. cbn [mbind exec_bind].
  replace (Z.to_nat (alen secs)) with (length secs) by (unfold alen; lia).
  rewrite (sections_valid_spec file size (nt + sizeof_nt_headers) base secs 0); [|lia|done|intros k ps Hk; by apply Hsecs].
  cbn [mbind exec_bind negb]. rewrite Hentry. cbn [mbind exec_bind]. unfold truthy at 1. by rewrite (proj2 (Z.eqb_neq entry 0) Hentry0).
Qed.

Lemma load_pe_sections_spec (s : S) :
  us_ok s -> Forall (pe_section_ok base (alen file)) secs -> Forall (segment_ok (BufferView_of_ptr file)) pe_segments ->
  (forall sg, sg ∈ pe_segments -> sg_memsz sg <> 0) -> pages_needed pe_segments <= us_room s ->
  exists s', load_pe_sections s file nt = Done (if loadable (us_mapped s) pe_segments then base else 0, s') /\ keeps s s' /\
    (loadable (us_mapped s) pe_segments = true -> segments_loaded (BufferView_of_ptr file) s s' pe_segments).
Proof.
  destruct Hfile as [Hlen Hbytes _ _ _ Hnum _ Hb Hal Hh Hsecs]. intros Hs Hok Hsegs Hne Hroom.
  pose proof Hsegs as [Hhead Htail]%Forall_cons. pose proof (pages_needed_nonneg (BufferView_of_ptr file) _ Htail) as Hn.
  assert (Hroom' : GET_PAGES alignment + pages_needed (segment_of_section base alignment <$> secs) <= us_room s) by exact Hroom.
  assert (Hgp : GET_PAGES alignment <= us_room s) by lia.
  pose proof (load_header file Hlen Hbytes s base alignment headers Hs Hhead ltac:(lia) Hpage Hgp) as Hhd. cbv zeta in Hhd.
  unfold pe_segments, load_pe_sections. cbn [loadable]. rewrite Hal, Hb. cbn [mbind exec_bind].
  destruct (existsb (us_mapped s) (sg_pages (header_segment base alignment headers))) eqn:Ht; cbn [negb andb].
  { rewrite Hhd. exists s. split; [done|]. split; [apply keeps_refl|done]. }
  destruct Hhd as (s1 & s2 & s3 & -> & E2 & E3 & Hr3 & Hk3 & Hl3 & _). cbn [mbind exec_bind]. rewrite truthy_pos by done. cbn [negb].
  rewrite E2. cbn [mbind exec_bind]. rewrite Hh. cbn [mbind exec_bind]. rewrite E3. cbn [mbind exec_bind]. rewrite Hnum. cbn [mbind exec_bind].
  replace (Z.to_nat (alen secs)) with (length secs) by (unfold alen; lia).
  assert (Hr3' : pages_needed (segment_of_section base alignment <$> secs) <= us_room s3) by lia.
  destruct (load_sections_spec file Hlen Hbytes (nt + sizeof_nt_headers) base alignment secs 0 s3 (proj1 Hk3 Hs) Halign Hok Hbase Htail) as (s' & -> & Hk4 & Hl4);
    [|intros k ps Hk; by apply Hsecs|done|].
  { intros ps Hin. apply (Hne (segment_of_section base alignment ps)). right. by apply list_elem_of_fmap_2. }
  assert (El : loadable (us_mapped s3) (segment_of_section base alignment <$> secs) =
    loadable (fun p => us_mapped s p || bool_decide (p ∈ sg_pages (header_segment base alignment headers))) (segment_of_section base alignment <$> secs)).
  { apply loadable_ext. intros p. rewrite (sl_mapped _ _ _ _ Hl3). cbn [mbind list_bind]. by rewrite app_nil_r. }
  rewrite El in *. exists s'. split; [done|]. split; [by eapply keeps_trans|].
  intros H. eapply segments_loaded_cons; [exact Hsegs|exact Hl3|exact Hk4|by apply Hl4].
Qed.

End program.

(** Loading a PE program. For a file whose headers describe its sections - the image starts
    on a page, every section has an address, a size and its bytes in the file, and none passes
    the end of its pages - [PELoader::load] copies the headers and every section to their places
    in the process, takes exactly their pages, keeps what was mapped before and returns the
    entry point; when a page is taken it gives [ERROR_LOADING_EXECUTABLE], and a file without
    the signature is refused before anything is allocated. *)
Theorem pe_load_exact {S : Type} `{!UserSpace S} (s : S) (file other : list Z) (size nt entry base alignment headers x : Z) (secs : list pe_section) :
  pe_file file nt entry base alignment headers secs -> 0 < size <= alen file -> Forall (pe_section_ok base size) secs ->
  us_ok s -> 0 < base -> base mod PAGE_SIZE = 0 -> 0 < alignment ->
  let segs := pe_segments base alignment headers secs in
  Forall (segment_ok (BufferView_of_ptr file)) segs -> (forall sg, sg ∈ segs -> sg_memsz sg <> 0) ->
  pages_needed segs <= us_room s -> e_magic other = Done x -> x <> IMAGE_DOS_SIGNATURE ->
  (exists s', PELoader_load s file size =
       Done (if loadable (us_mapped s) segs then Value (u32 (base + entry)) else Error ERROR_LOADING_EXECUTABLE, s') /\ keeps s s' /\
     (loadable (us_mapped s) segs = true -> segments_loaded (BufferView_of_ptr file) s s' segs)) /\
  PELoader_load s other size = Done (Error ERROR_INVALID_EXECUTABLE, s).
Proof.
  intros Hfile Hsize Hok Hs Hbase Hpage Halign segs Hsegs Hne Hroom Ho Hx. split.
  - assert (Hok' : Forall (pe_section_ok base (alen file)) secs).
    { eapply Forall_impl; [exact Hok|]. intros ps (? & ? & ? & ? & ? & ?). repeat split; lia. }
    destruct (load_pe_sections_spec file nt entry base alignment headers secs Hfile Hbase Hpage Halign s Hs Hok' Hsegs Hne Hroom) as (s' & E & Hk & Hl).
    exists s'. split; [|done]. rewrite (pe_checked file nt entry base alignment headers secs Hfile s size Hsize Hok), E. cbn [mbind exec_bind].
    fold segs. destruct (loadable (us_mapped s) segs); [|done]. by rewrite truthy_pos.
  - unfold PELoader_load. rewrite truthy_pos by lia. cbn [ASSERT mbind exec_bind]. rewrite Ho. cbn [mbind exec_bind].
    by rewrite (proj2 (Z.eqb_neq x _) Hx).
Qed.

(** An image of its headers and one section of two bytes. *)
Definition example_image : list Z :=
  le16 0x5A4D ++ replicate 58 0 ++ le32 64 ++ le32 0x4550 ++ le16 0x14C ++ le16 1 ++ replicate 32 0 ++ le32 0x1001 ++ replicate 8 0 ++
  le32 0x400000 ++ le32 4096 ++ replicate 24 0 ++ le32 352 ++ replicate 160 0 ++
  replicate 8 0 ++ le32 2 ++ le32 0x1000 ++ le32 2 ++ le32 352 ++ replicate 16 0 ++ [195; 144].

Lemma pe_load_exact_witness :
  exists s', PELoader_load empty_space example_image 354 = Done (Value 0x401001, s') /\ us_byte s' 0x401001 = 144 /\
    PELoader_load empty_space [127; 69; 76; 70] 354 = Done (Error ERROR_INVALID_EXECUTABLE, empty_space).
Proof.
  destruct (pe_load_exact empty_space example_image [127; 69; 76; 70] 354 64 0x1001 0x400000 4096 352 0x457F [mkPeSection 0x1000 2 352 2])
    as [(s' & E & _ & Hl) Eo].
  - split; try (vm_compute; reflexivity).
    + repeat (apply Forall_cons; split; [done|]). by apply Forall_nil.
    + split; [vm_compute; reflexivity|done].
    + split; [vm_compute; reflexivity|done].
    + intros [|i] ps Hps; [|done]. injection Hps as <-. repeat split; vm_compute; reflexivity.
  - split; vm_compute; congruence.
  - repeat constructor; vm_compute; congruence.
  - exact I.
  - lia.
  - reflexivity.
  - lia.
  - repeat (apply Forall_cons; split; [split; [vm_compute; congruence|intros _; repeat split; vm_compute; congruence]|]). by apply Forall_nil.
  - intros sg [->|[->|[]%elem_of_nil]%elem_of_cons]%elem_of_cons; vm_compute; congruence.
  - vm_compute. congruence.
  - vm_compute. reflexivity.
  - done.
  - change (loadable _ _) with true in *. destruct (Hl eq_refl) as [_ Hb]. exists s'. split; [exact E|]. split; [|exact Eo].
    exact (Hb (segment_of_section 0x400000 4096 (mkPeSection 0x1000 2 352 2)) 1 (list_elem_of_further _ _ _ (list_elem_of_here _ _))
      ltac:(vm_compute; congruence) ltac:(cbn; lia)).
Defined.
