(* ===== verification/AddressSpace.v ===== *)
(** * The address space of a program

    What [Memory] (Memory.v) does below the kernel: pages of a program are backed one by one,
    and a page table is made where there is none. Loaders (Elf.v, Pe.v) use it through the
    interface [UserSpace], which it is shown to implement; the bytes of a program are those of
    the frames that its pages lead to. *)
From S2P Require Import Prelude BitArray Scan Physical Paging Memory Buffers Elf.

(** ** Entries *)

(** The entry of page [p], whether it leads to a frame, and to which. *)
Definition entry (s : mmu) (p : Z) : Z := pread s (pt_address s (p * PAGE_SIZE)).
Definition page_present (s : mmu) (p : Z) : bool := pd_present s (p / 1024) && truthy (pte_present (entry s p)).
Definition frame_at (s : mmu) (p : Z) : Z := pte_frame (entry s p).

(** Pages outside the window of the tables. *)
Definition window_page : Z := 1023 * 1024.

Lemma PDE_of_page p : GET_PDE_INDEX (p * PAGE_SIZE) = p / 1024.
Proof. by rewrite PDE_page, page_of_base. Qed.

Lemma PTE_of_page p : GET_PTE_INDEX (p * PAGE_SIZE) = p mod 1024.
Proof. by rewrite PTE_page, page_of_base. Qed.

Lemma page_address_range p : 0 <= p < 2 ^ 20 -> 0 <= p * PAGE_SIZE < 2 ^ 32.
Proof. change PAGE_SIZE with 4096. lia. Qed.

Lemma pt_address_page s p : pt_address s (p * PAGE_SIZE) = table_of s (p / 1024) * PAGE_SIZE + 4 * (p mod 1024).
Proof. unfold pt_address. by rewrite PDE_of_page, PTE_of_page. Qed.

Section entries.
Context (s : mmu) (Hwf : paging_wf s).

Lemma translate_entry p off :
  0 <= p < 2 ^ 20 -> 0 <= off < PAGE_SIZE ->
  translate s (p * PAGE_SIZE + off) = if page_present s p then Done (frame_at s p * PAGE_SIZE + off) else Fault.
Proof.
  intros Hp Ho. assert (Hv : 0 <= p * PAGE_SIZE + off < 2 ^ 32) by (change PAGE_SIZE with 4096 in *; lia).
  rewrite translate_walk by done. unfold page_present, frame_at, entry.
  assert (Epd : GET_PDE_INDEX (p * PAGE_SIZE + off) = p / 1024) by (rewrite PDE_page, page_of_address by done; done).
  assert (Ept : pt_address s (p * PAGE_SIZE + off) = pt_address s (p * PAGE_SIZE)).
  { rewrite pt_address_page. unfold pt_address. rewrite Epd, PTE_page, page_of_address by done. done. }
  assert (Eoff : GET_OFFSET (p * PAGE_SIZE + off) = off).
  { rewrite GET_OFFSET_mod. change PAGE_SIZE with 4096 in *. zdiv. }
  rewrite Epd, Ept, Eoff. by destruct (pd_present s (p / 1024)).
Qed.

Lemma mapped_entry p : 0 <= p < 2 ^ 20 -> mapped s (p * PAGE_SIZE) = page_present s p.
Proof.
  intros Hp. unfold mapped. rewrite <- (Z.add_0_r (p * PAGE_SIZE)), translate_entry by (done || change PAGE_SIZE with 4096; lia).
  by destruct (page_present s p).
Qed.

(** Writing the entry of a page that has a table. *)
Section set_entry.
Context (q w : Z) (Hq : 0 <= q < window_page) (Hp : pd_present s (q / 1024) = true).
Abbreviation s' := (pwrite s (pt_address s (q * PAGE_SIZE)) w).

Lemma set_entry_hyps :
  0 <= q * PAGE_SIZE < 2 ^ 32 /\ GET_PDE_INDEX (q * PAGE_SIZE) <> RECURSIVE_ENTRY /\
  pd_present s (GET_PDE_INDEX (q * PAGE_SIZE)) = true.
Proof.
  rewrite PDE_of_page. split; [apply page_address_range; unfold window_page in Hq; lia|]. split; [|done].
  unfold window_page, RECURSIVE_ENTRY, NUMBER_OF_PAGE_DIRECOTRY_ENTRIES in *. zdiv.
Qed.

Lemma set_entry_wf : paging_wf s'.
Proof. destruct set_entry_hyps as (? & ? & ?). by apply update_wf. Qed.

Lemma set_entry_pd i : 0 <= i < 1024 -> pd_entry s' i = pd_entry s i.
Proof. destruct set_entry_hyps as (? & ? & ?). by apply update_pd_entry. Qed.

Lemma set_entry_entry p :
  0 <= p < 2 ^ 20 -> pd_present s (p / 1024) = true -> entry s' p = if p =? q then w else entry s p.
Proof.
  destruct set_entry_hyps as (H1 & H2 & H3). intros Hr Hpp. unfold entry.
  pose proof (page_address_range p Hr) as Hv. rewrite update_pt_address by done.
  destruct (Z.eqb_spec p q) as [->|Hne]; [by rewrite pread_same|]. apply pread_other. intros E. apply Hne.
  rewrite <- (page_of_base p), <- (page_of_base q). apply (pt_address_inj s Hwf); [done|done|by rewrite PDE_of_page|done|done].
Qed.

End set_entry.

(** Entering a table in the directory. *)
Section set_table.
Context (i w f : Z) (Hi : 0 <= i < 1023) (Hfree : pd_present s i = false).
Context (Hw : truthy (pte_present w) = true) (Hpse : pte_pse w = 0) (Hf : pte_frame w = f).
Context (Hnew : forall j, 0 <= j < 1024 -> pd_present s j = true -> table_of s j <> f).
Abbreviation s' := (pwrite s (pd_address s i) w).

Lemma set_table_pd j : pd_entry s' j = if j =? i then w else pd_entry s j.
Proof.
  unfold pd_entry. change (pd_address s' j) with (pd_address s j). destruct (Z.eqb_spec j i) as [->|].
  - by rewrite pread_same.
  - apply pread_other. unfold pd_address. lia.
Qed.

Lemma set_table_present j : pd_present s' j = if j =? i then true else pd_present s j.
Proof. unfold pd_present. rewrite set_table_pd. by destruct (j =? i). Qed.

Lemma set_table_table j : table_of s' j = if j =? i then f else table_of s j.
Proof. unfold table_of. rewrite set_table_pd. by destruct (j =? i). Qed.

Lemma set_table_wf : paging_wf s'.
Proof.
  destruct Hwf as [[Hr Ht] Hs Hd]. change RECURSIVE_ENTRY with 1023 in *. split.
  - change (cr3 s') with (cr3 s). change RECURSIVE_ENTRY with 1023.
    rewrite set_table_present, set_table_table. by rewrite (proj2 (Z.eqb_neq 1023 i)) by lia.
  - intros j Hj. rewrite set_table_present, set_table_pd. destruct (j =? i); [done|]. by apply Hs.
  - intros j k Hj Hk. rewrite !set_table_present, !set_table_table.
    destruct (Z.eqb_spec j i) as [->|], (Z.eqb_spec k i) as [->|]; [done| | |by apply Hd].
    + intros _ Hpk E. by destruct (Hnew k Hk Hpk).
    + intros Hpj _ E. by destruct (Hnew j Hj Hpj).
Qed.

Lemma directory_frame : table_of s RECURSIVE_ENTRY = GET_FRAME (cr3 s).
Proof. apply (pw_recursive _ Hwf). Qed.

Lemma set_table_entry p :
  0 <= p < window_page ->
  (pd_present s (p / 1024) = true -> entry s' p = entry s p) /\
  (p / 1024 = i -> entry s' p = pread s (f * PAGE_SIZE + 4 * (p mod 1024))).
Proof.
  intros Hp. unfold entry. unfold window_page in Hp. assert (Hd : 0 <= p / 1024 < 1023) by zdiv.
  assert (Hm : 0 <= p mod 1024 < 1024) by zdiv.
  pose proof directory_frame as Er. change RECURSIVE_ENTRY with 1023 in Er.
  assert (Hr : pd_present s 1023 = true) by apply (pw_recursive _ Hwf).
  split.
  - intros Hpp. assert (p / 1024 <> i) by congruence. rewrite !pt_address_page. rewrite set_table_table.
    rewrite (proj2 (Z.eqb_neq _ i)) by done. apply pread_other. unfold pd_address. rewrite <- Er.
    intros E. assert (table_of s (p / 1024) = table_of s 1023) by (change PAGE_SIZE with 4096 in E; lia).
    assert (p / 1024 = 1023) by (by apply (pw_tables _ Hwf); [lia|lia|..]). lia.
  - intros Ei. rewrite pt_address_page, set_table_table, Ei, Z.eqb_refl. apply pread_other. unfold pd_address.
    rewrite <- Er. intros E. destruct (Hnew 1023 ltac:(lia) Hr). change PAGE_SIZE with 4096 in E. lia.
Qed.

End set_table.

(** Writing a word of a frame that holds no table. *)
Section set_word.
Context (f o w : Z) (Ho : 0 <= o < PAGE_SIZE).
Context (Hf : forall j, 0 <= j < 1024 -> pd_present s j = true -> table_of s j <> f).
Abbreviation s' := (pwrite s (f * PAGE_SIZE + o) w).

Lemma set_word_pd j : 0 <= j < 1024 -> pd_entry s' j = pd_entry s j.
Proof.
  intros Hj. apply pread_other. change (pd_address s' j) with (pd_address s j). unfold pd_address. rewrite <- directory_frame.
  assert (Hr : pd_present s 1023 = true) by apply (pw_recursive _ Hwf).
  pose proof (Hf 1023 ltac:(lia) Hr) as Hne. change RECURSIVE_ENTRY with 1023. change PAGE_SIZE with 4096 in *. lia.
Qed.

Lemma set_word_wf : paging_wf s'.
Proof.
  pose proof set_word_pd as U. destruct Hwf as [[Hr Ht] Hs Hd]. split; unfold pd_present, table_of in *.
  - rewrite !U by (unfold RECURSIVE_ENTRY, NUMBER_OF_PAGE_DIRECOTRY_ENTRIES; lia). done.
  - intros j Hj. rewrite U by done. by apply Hs.
  - intros j k Hj Hk. rewrite !U by done. by apply Hd.
Qed.

Lemma set_word_entry p : 0 <= p < 2 ^ 20 -> pd_present s (p / 1024) = true -> entry s' p = entry s p.
Proof.
  intros Hp Hpp. assert (Hd : 0 <= p / 1024 < 1024) by zdiv. assert (Hm : 0 <= p mod 1024 < 1024) by zdiv.
  unfold entry. rewrite !pt_address_page. unfold table_of at 1. rewrite set_word_pd by done. apply pread_other.
  pose proof (Hf _ Hd Hpp). unfold table_of in *. change PAGE_SIZE with 4096 in *. lia.
Qed.

End set_word.
End entries.

(** ** The address space *)

Definition user_mapped (m : memory) (p : Z) : bool :=
  bool_decide (0 <= p < user_limit) && page_present (tables m) p.
Definition page_frame (m : memory) (p : Z) : Z := frame_at (tables m) p.

Definition is_table (s : mmu) (f : Z) : Prop := exists j, 0 <= j < 1024 /\ pd_present s j = true /\ table_of s j = f.

(** What [Memory] keeps: tables and the pages of the program lie in frames that are in use,
    different pages in different ones. Two more things hold of a memory that nobody has freed
    pages of: there is a page left in the kernel for a while, through which a new table is
    made, and the frames that are free hold nothing that a new table could take for an entry. *)
Record user_wf (m : memory) : Prop := {
  uw_memory : memory_wf m;
  uw_tables : forall j, 0 <= j < 1024 -> pd_present (tables m) j = true -> 0 <= table_of (tables m) j /\ used (frames m) (table_of (tables m) j) = true;
  uw_frames : forall p, user_mapped m p = true ->
    0 <= page_frame m p /\ used (frames m) (page_frame m p) = true /\ ~ is_table (tables m) (page_frame m p);
  uw_injective : forall p q, user_mapped m p = true -> user_mapped m q = true -> page_frame m p = page_frame m q -> p = q;
  uw_clear : forall f k, 256 <= f < 2 ^ 16 -> used (frames m) f = false -> 0 <= k < 1024 ->
    truthy (pte_present (pread (tables m) (f * PAGE_SIZE + 4 * k))) = false;
  uw_kernel : exists g, first_kernel_page <= g < last_kernel_page /\ page_present (tables m) g = false
}.

(** ** How many pages can still be backed *)

Definition free_frames (m : memory) : list Z := filter (fun f => used (frames m) f = false) (seqZ 256 (2 ^ 16 - 256)).
Definition missing_tables (m : memory) : list Z := filter (fun j => pd_present (tables m) j = false) (seqZ 0 768).
Definition user_room (m : memory) : Z := alen (free_frames m) - alen (missing_tables m).

(** A predicate that ceases to hold of one element. *)
Lemma filter_loses {A} `{EqDecision A} (P Q : A -> Prop) `{!forall x, Decision (P x)} `{!forall x, Decision (Q x)} (l : list A) (a : A) :
  NoDup l -> a ∈ l -> P a -> (forall x, x ∈ l -> Q x <-> P x /\ x <> a) -> alen (filter Q l) = alen (filter P l) - 1.
Proof.
  intros Hnd Hin HPa HQ.
  assert (Hnot : forall l' : list A, (forall x, x ∈ l' -> Q x <-> P x /\ x <> a) -> a ∉ l' -> filter Q l' = filter P l').
  { induction l' as [|x l' IH]; intros HQ' Hn; [done|]. rewrite !filter_cons. apply not_elem_of_cons in Hn as [Hxa Hn].
    rewrite IH by (try (intros; apply HQ'; by right); done). pose proof (HQ' x ltac:(by left)).
    assert (x <> a) by congruence. destruct (decide (Q x)), (decide (P x)); tauto || done. }
  apply list_elem_of_split in Hin as (l1 & l2 & ->). apply NoDup_middle in Hnd as (H1 & H2 & _).
  rewrite !filter_app, !filter_cons. rewrite (decide_True _ _ HPa).
  rewrite decide_False by (rewrite HQ by (apply elem_of_app; right; by left); tauto).
  rewrite (Hnot l1), (Hnot l2) by (try done; intros x Hx; apply HQ, elem_of_app; rewrite elem_of_cons; tauto). unfold alen. rewrite !length_app. cbn [length]. lia.
Qed.

Lemma filter_same {A} (P Q : A -> Prop) `{!forall x, Decision (P x)} `{!forall x, Decision (Q x)} (l : list A) :
  (forall x, x ∈ l -> Q x <-> P x) -> alen (filter Q l) = alen (filter P l).
Proof.
  intros HQ. f_equal. induction l as [|x l IH]; [done|]. rewrite !filter_cons, IH by (intros; apply HQ; by right).
  pose proof (HQ x ltac:(by left)). destruct (decide (Q x)), (decide (P x)); tauto || done.
Qed.

Lemma filter_all {A} (P : A -> Prop) `{!forall x, Decision (P x)} (l : list A) : (forall x, x ∈ l -> P x) -> filter P l = l.
Proof.
  intros HP. induction l as [|x l IH]; [done|]. rewrite filter_cons, decide_True by (apply HP; by left).
  rewrite IH; [done|]. intros y Hy. apply HP. by right.
Qed.

(** At least as many elements as the end of a run that passes. *)
Lemma filter_run (P : Z -> Prop) `{!forall x, Decision (P x)} lo a b :
  0 <= a -> 0 <= b -> (forall x, lo + a <= x < lo + a + b -> P x) -> b <= alen (filter P (seqZ lo (a + b))).
Proof.
  intros Ha Hb HP. rewrite seqZ_app, filter_app, alen_app by done. rewrite (filter_all P (seqZ (lo + a) b)).
  - pose proof (alen_nonneg (filter P (seqZ lo a))). unfold alen at 2. rewrite length_seqZ. lia.
  - intros x Hx. apply elem_of_seqZ in Hx. by apply HP.
Qed.

Lemma room_free_frame m : 0 < alen (free_frames m) -> exists f, 256 <= f < 2 ^ 16 /\ used (frames m) f = false.
Proof.
  intros Hl. destruct (free_frames m) as [|f l] eqn:E; [done|]. exists f.
  assert (Hf : f ∈ free_frames m) by (rewrite E; by left). unfold free_frames in Hf.
  apply list_elem_of_filter in Hf as [Hu Hr]. apply elem_of_seqZ in Hr. split; [lia|done].
Qed.

(** Taking one frame below 256 MiB. *)
Definition one_more (fr fr' : PhysicalMemory) (f : Z) : Prop :=
  forall q, 0 <= q -> used fr' q = used fr q || (q =? f).

Lemma free_frames_taken m m' f :
  256 <= f < 2 ^ 16 -> used (frames m) f = false -> one_more (frames m) (frames m') f ->
  alen (free_frames m') = alen (free_frames m) - 1.
Proof.
  intros Hf Hu Ho. unfold free_frames. apply (filter_loses _ _ _ f); [apply NoDup_seqZ|apply elem_of_seqZ; lia|done|].
  intros x Hx. apply elem_of_seqZ in Hx. rewrite Ho by lia. destruct (Z.eqb_spec x f) as [->|].
  - rewrite orb_true_r. split; [done|tauto].
  - rewrite orb_false_r. tauto.
Qed.

Lemma alloc_low_frame m :
  memory_wf m -> 0 < alen (free_frames m) ->
  exists f fr, PhysicalMemory_alloc_page (frames m) AVAILABLE_PAGES_START = Done (f * PAGE_SIZE, fr) /\
    256 <= f < 2 ^ 16 /\ used (frames m) f = false /\ Phys_wf fr /\ one_more (frames m) fr f.
Proof.
  intros (_ & Hpw & _) Hl. destruct (room_free_frame m Hl) as (f0 & Hf0 & Hu0). rewrite alloc_page_contagious.
  change AVAILABLE_PAGES_START with 256.
  assert (Hrun : free_run (frames m) f0 1) by (intros q Hq; by replace q with f0 by lia).
  destruct (alloc_contagious_spec (frames m) Hpw 256 1) as [(f & fr & E & (H1 & H2 & H3 & H4) & H5 & _ & H6)|[_ Hnone]]; [lia|lia| |].
  - change (first_candidate 256) with 256 in *. exists f, fr. split; [done|].
    split; [|split; [apply (H3 f); lia|split; [done|]]].
    + split; [done|]. destruct (decide (f0 < f)); [|lia]. destruct (H4 f0); [lia|done].
    + intros q Hq. rewrite H6 by done. f_equal. unfold in_run. lia.
  - destruct (Hnone f0); [change (first_candidate 256) with 256; lia|unfold MAX_PHYSICAL_4K_PAGES; lia|done].
Qed.

(** ** What changes leave alone *)

(** Pages of the program keep their frames and those their words, kernel pages their frames. *)
Record keeps_pages (m m' : memory) : Prop := {
  kp_pages : forall p, user_mapped m p = true -> user_mapped m' p = true /\ page_frame m' p = page_frame m p;
  kp_words : forall p off, user_mapped m p = true -> 0 <= off < PAGE_SIZE ->
    pread (tables m') (page_frame m p * PAGE_SIZE + off) = pread (tables m) (page_frame m p * PAGE_SIZE + off);
  kp_kernel : forall p, user_limit <= p < window_page -> page_present (tables m') p = page_present (tables m) p /\
    (page_present (tables m) p = true -> page_frame m' p = page_frame m p);
  kp_used : forall f, 0 <= f -> used (frames m) f = true -> used (frames m') f = true;
}.

#[export] Instance keeps_pages_preorder : PreOrder keeps_pages.
Proof.
  split; [by split|]. intros m1 m2 m3 [P1 W1 K1 U1] [P2 W2 K2 U2]. split.
  - intros p Hp. destruct (P1 p Hp) as [Hp' <-]. by apply P2.
  - intros p off Hp Ho. destruct (P1 p Hp) as [Hp' E]. rewrite <- (W1 p off Hp Ho), <- E. by apply W2.
  - intros p Hp. destruct (K1 p Hp) as [<- E1], (K2 p Hp) as [E2 E3]. split; [done|]. intros Hpp.
    rewrite <- E1 by done. by apply E3.
  - intros f Hf Hu. by apply U2, U1.
Qed.

(** An unused frame holds no table, and no page of the program. *)
Lemma free_not_table m f : user_wf m -> used (frames m) f = false -> ~ is_table (tables m) f.
Proof. intros Hwf Hu (j & Hj & Hp & E). destruct (uw_tables _ Hwf j Hj Hp) as [_ Hu']. congruence. Qed.

Lemma free_not_page m f p : user_wf m -> used (frames m) f = false -> user_mapped m p = true -> page_frame m p <> f.
Proof. intros Hwf Hu Hp. destruct (uw_frames _ Hwf p Hp) as (_ & Hu' & _). congruence. Qed.

Lemma user_mapped_present m p : user_mapped m p = true -> 0 <= p < user_limit /\ pd_present (tables m) (p / 1024) = true.
Proof.
  unfold user_mapped, page_present. intros [Hp [Hd _]%andb_prop]%andb_prop. by apply bool_decide_eq_true_1 in Hp.
Qed.

Lemma user_page_index p : 0 <= p < user_limit -> 0 <= p / 1024 < 768.
Proof. change user_limit with (768 * 1024). intros. zdiv. Qed.

(** A table word is not a word of another frame. *)
Lemma table_word s q w f off :
  0 <= q < window_page -> pd_present s (q / 1024) = true -> ~ is_table s f -> 0 <= off < PAGE_SIZE ->
  pread (pwrite s (pt_address s (q * PAGE_SIZE)) w) (f * PAGE_SIZE + off) = pread s (f * PAGE_SIZE + off).
Proof.
  intros Hq Hp Hf Ho. apply pread_other. rewrite pt_address_page. intros E. apply Hf. exists (q / 1024).
  assert (0 <= q mod 1024 < 1024) by zdiv. split; [unfold window_page in Hq; zdiv|]. split; [done|].
  change PAGE_SIZE with 4096 in *. lia.
Qed.

Lemma directory_is_table s : paging_wf s -> is_table s (GET_FRAME (cr3 s)).
Proof. intros Hwf. exists 1023. destruct (pw_recursive _ Hwf). split; [lia|done]. Qed.

Lemma directory_word s i w f off :
  paging_wf s -> 0 <= i < 1024 -> ~ is_table s f -> 0 <= off < PAGE_SIZE ->
  pread (pwrite s (pd_address s i) w) (f * PAGE_SIZE + off) = pread s (f * PAGE_SIZE + off).
Proof.
  intros Hwf Hi Hf Ho. apply pread_other. intros E. apply Hf. replace f with (GET_FRAME (cr3 s)); [by apply directory_is_table|].
  unfold pd_address in E. change PAGE_SIZE with 4096 in *. lia.
Qed.

(** Taking a frame. *)
Lemma frame_taken m fr f :
  user_wf m -> Phys_wf fr -> one_more (frames m) fr f -> user_wf (mkMemory (tables m) fr) /\ keeps_pages m (mkMemory (tables m) fr).
Proof.
  intros [Hm Ht Hf Hi Hc Hk] Hpw Ho.
  assert (Hmono : forall x, 0 <= x -> used (frames m) x = true -> used fr x = true) by (intros x Hx Hu; rewrite Ho, Hu by done; done).
  split; [|by split]. split; simpl.
  - destruct Hm as (? & _ & ?). done.
  - intros j Hj Hp. destruct (Ht j Hj Hp). auto.
  - intros p Hp. destruct (Hf p Hp) as (? & ? & ?). auto.
  - done.
  - intros x k Hx Hu Hk'. rewrite Ho in Hu by lia. apply orb_false_elim in Hu as [Hu _]. by apply Hc.
  - done.
Qed.

(** ** Mapping a page whose table is there *)

Definition present_flags (flags : Z) : Prop := Z.testbit flags 0 = true.

Lemma filled_entry e f flags : 0 <= f < 2 ^ 16 -> present_flags flags ->
  truthy (pte_present (fill_entry 0 e f flags)) = true /\ pte_frame (fill_entry 0 e f flags) = f /\
  pte_pse (fill_entry 0 e f flags) = 0.
Proof.
  intros Hf Hfl. rewrite fill_present, fill_frame, fill_pse. split; [|split; [by apply u16_small|done]].
  unfold BOOL. assert (E : truthy (Z.land flags PAGE_FLAGS_PRESENT) = true); [|by rewrite E].
  unfold truthy. change PAGE_FLAGS_PRESENT with (Z.ones 1). rewrite Z.land_ones by lia.
  change (2 ^ 1) with 2. by rewrite <- Z.bit0_mod, Hfl.
Qed.

Section map_frame.
Context (m : memory) (Hwf : user_wf m) (q f flags : Z).
Context (Hq : 0 <= q < user_limit) (Hp : pd_present (tables m) (q / 1024) = true) (Hnew : user_mapped m q = false).
Context (Hf : 0 <= f < 2 ^ 16) (Hu : used (frames m) f = true) (Htab : ~ is_table (tables m) f).
Context (Hown : forall p, user_mapped m p = true -> page_frame m p <> f) (Hflags : present_flags flags).

Let w := fill_entry 0 (entry (tables m) q) f flags.
Let s' := pwrite (tables m) (pt_address (tables m) (q * PAGE_SIZE)) w.

Lemma map_frame_pd j : 0 <= j < 1024 -> pd_entry s' j = pd_entry (tables m) j.
Proof.
  destruct (uw_memory _ Hwf) as (Hpg & _ & _). intros Hj. apply set_entry_pd; [done| |done|done].
  change user_limit with (768 * 1024) in Hq. unfold window_page. lia.
Qed.

Lemma map_frame_entry p : 0 <= p < 2 ^ 20 ->
  page_present s' p = page_present (tables m) p || (p =? q) /\ (page_present (tables m) p = true -> p <> q -> frame_at s' p = frame_at (tables m) p) /\
  (p = q -> frame_at s' p = f).
Proof.
  destruct (uw_memory _ Hwf) as (Hpg & _ & _). intros Hr.
  assert (Hqw : 0 <= q < window_page) by (change user_limit with (768 * 1024) in Hq; unfold window_page; lia).
  assert (Hd : 0 <= p / 1024 < 1024) by zdiv.
  destruct (filled_entry (entry (tables m) q) f flags Hf Hflags) as (F1 & F2 & _).
  pose proof (set_entry_entry (tables m) Hpg q w Hqw Hp p Hr) as E. fold s' in E.
  unfold page_present, frame_at. unfold pd_present at 1. rewrite map_frame_pd by done. fold (pd_present (tables m) (p / 1024)).
  destruct (pd_present (tables m) (p / 1024)) eqn:Ep; cbn [andb].
  - rewrite E by done. destruct (Z.eqb_spec p q) as [->|Hne].
    + unfold w. rewrite F1, F2. by rewrite orb_true_r.
    + rewrite orb_false_r. tauto.
  - destruct (Z.eqb_spec p q) as [->|Hne]; [congruence|]. split; [done|]. split; [done|tauto].
Qed.

Lemma map_frame_tables x : is_table s' x <-> is_table (tables m) x.
Proof.
  unfold is_table, pd_present, table_of.
  split; intros (j & Hj & H); exists j; (split; [done|]); [rewrite <- map_frame_pd by done|rewrite map_frame_pd by done]; done.
Qed.

Lemma map_frame_word x off : ~ is_table (tables m) x -> 0 <= off < PAGE_SIZE ->
  pread s' (x * PAGE_SIZE + off) = pread (tables m) (x * PAGE_SIZE + off).
Proof.
  intros Hx Ho. apply table_word; [|done|done|done].
  change user_limit with (768 * 1024) in Hq. unfold window_page. lia.
Qed.

Lemma user_mapped_range mm p : user_mapped mm p = true -> 0 <= p < 2 ^ 20.
Proof. intros [Hr _]%user_mapped_present. change user_limit with (768 * 1024) in Hr. lia. Qed.

Lemma map_frame_mapped p : user_mapped (mkMemory s' (frames m)) p = user_mapped m p || (p =? q).
Proof.
  unfold user_mapped. cbn [tables]. destruct (bool_decide (0 <= p < user_limit)) eqn:Eb; cbn [andb].
  - apply bool_decide_eq_true_1 in Eb. destruct (map_frame_entry p) as (-> & _); [|done].
    change user_limit with (768 * 1024) in Eb. lia.
  - apply bool_decide_eq_false_1 in Eb. symmetry. apply Z.eqb_neq. intros ->. tauto.
Qed.

Lemma map_frame_frame p : user_mapped m p = true -> page_frame (mkMemory s' (frames m)) p = page_frame m p.
Proof.
  intros Hm. unfold page_frame. cbn [tables]. destruct (map_frame_entry p) as (_ & E & _); [by eapply user_mapped_range|].
  apply E; [|by intros ->; rewrite Hnew in Hm]. unfold user_mapped in Hm. by apply andb_prop in Hm as [_ ->].
Qed.

Lemma map_frame_new : page_frame (mkMemory s' (frames m)) q = f.
Proof.
  unfold page_frame. cbn [tables]. destruct (map_frame_entry q) as (_ & _ & E); [|by apply E].
  change user_limit with (768 * 1024) in Hq. lia.
Qed.

Lemma map_frame_wf : user_wf (mkMemory s' (frames m)).
Proof.
  destruct Hwf as [(Hpg & Hpw & Hkt) Ht Hfr Hi Hc (g & Hg & Hgp)].
  split; cbn [tables frames].
  - split; [|split; [done|]].
    + apply set_entry_wf; [done| |done]. change user_limit with (768 * 1024) in Hq. unfold window_page. lia.
    + intros j Hj. unfold pd_present. rewrite map_frame_pd by lia. by apply Hkt.
  - intros j Hj. unfold pd_present, table_of. rewrite map_frame_pd by done. by apply Ht.
  - intros p Hm. rewrite map_frame_tables. rewrite map_frame_mapped in Hm.
    destruct (user_mapped m p) eqn:Em.
    + rewrite map_frame_frame by done. by apply Hfr.
    + apply Z.eqb_eq in Hm as ->. rewrite map_frame_new. split; [lia|done].
  - intros p r Hmp Hmr. rewrite map_frame_mapped in Hmp, Hmr. destruct (user_mapped m p) eqn:Ep, (user_mapped m r) eqn:Er.
    + rewrite !map_frame_frame by done. by apply Hi.
    + apply Z.eqb_eq in Hmr as ->. rewrite (map_frame_frame p), map_frame_new by done. intros E. by destruct (Hown p Ep).
    + apply Z.eqb_eq in Hmp as ->. rewrite (map_frame_frame r), map_frame_new by done. intros E. by destruct (Hown r Er).
    + apply Z.eqb_eq in Hmp as ->. by apply Z.eqb_eq in Hmr as ->.
  - intros x k Hx Hux Hk. rewrite map_frame_word; [by apply Hc|by apply free_not_table|change PAGE_SIZE with 4096; lia].
  - exists g. split; [done|]. destruct (map_frame_entry g) as (-> & _).
    { unfold first_kernel_page, last_kernel_page in Hg. lia. }
    rewrite Hgp. apply Z.eqb_neq. intros ->. change user_limit with (768 * 1024) in Hq. unfold first_kernel_page in Hg. lia.
Qed.

Lemma map_frame_keeps : keeps_pages m (mkMemory s' (frames m)).
Proof.
  split.
  - intros p Hm. rewrite map_frame_mapped, Hm. split; [done|by apply map_frame_frame].
  - intros p off Hm Ho. apply map_frame_word; [by apply (uw_frames _ Hwf)|done].
  - intros p Hr. cbn [tables]. unfold window_page in Hr. assert (Hpq : p <> q) by lia. unfold page_frame. cbn [tables].
    destruct (map_frame_entry p) as (-> & E & _); [change user_limit with (768 * 1024) in *; lia|].
    rewrite (proj2 (Z.eqb_neq p q)), orb_false_r by done. auto.
  - done.
Qed.

End map_frame.

(** ** Making a table *)

Lemma map_pages_one create m q pa flags :
  paging_wf (tables m) -> 0 <= q < 2 ^ 20 -> 0 <= pa < 2 ^ 32 -> pd_present (tables m) (q / 1024) = true ->
  VirtualMemory_map_pages_with create m (q * PAGE_SIZE) pa 1 flags =
    Done (mkMemory (pwrite (tables m) (pt_address (tables m) (q * PAGE_SIZE)) (fill_entry 0 (entry (tables m) q) (GET_FRAME pa) flags)) (frames m)).
Proof.
  intros Hwf Hq Hpa Hp. pose proof (page_address_range q Hq) as Hv. unfold VirtualMemory_map_pages_with.
  change (Z.to_nat 1) with 1%nat. cbn [for_]. rewrite check_page_table_exists_result, PDE_of_page, Hp by done.
  cbn [mbind exec_bind Bool.eqb]. rewrite !Z.mul_0_r, !Z.add_0_r, !u32_small by done.
  rewrite map_page_result by (rewrite ?PDE_of_page; done). by destruct m.
Qed.

(** One page for the kernel: the first free one leads to a frame that was free. *)
Lemma kernel_page create m :
  memory_wf m -> (exists g, first_kernel_page <= g < last_kernel_page /\ page_present (tables m) g = false) -> 0 < alen (free_frames m) ->
  exists g f fr w1,
    let s1 := pwrite (tables m) (pt_address (tables m) (g * PAGE_SIZE)) w1 in
    Memory_alloc_no_lock_with create m 0 PAGE_SIZE PAGE_READWRITE = Done (g * PAGE_SIZE, mkMemory s1 fr) /\
    first_kernel_page <= g < last_kernel_page /\ page_present (tables m) g = false /\
    256 <= f < 2 ^ 16 /\ used (frames m) f = false /\ Phys_wf fr /\ one_more (frames m) fr f /\
    w1 = fill_entry 0 (entry (tables m) g) f (Memory_parse_flags PAGE_READWRITE).
Proof.
  intros Hm (g0 & Hg0 & Hgp0) Hroom. pose proof Hm as (Hpg & Hpw & Hkt).
  destruct (alloc_low_frame m Hm Hroom) as (f & fr & Ef & Hf & Hu & Hpw' & Ho).
  destruct (vfind_spec (tables m) Hpg first_kernel_page last_kernel_page 1) as [(g & E & Hr1 & Hr2 & Hr3 & _)|[_ Hnone]];
    [vm_compute; split; congruence|vm_compute; congruence|done| |].
  2: { destruct (Hnone g0); [lia|lia|]. intros x Hx. replace x with g0 by lia. unfold page_taken.
       rewrite mapped_entry by (done || unfold first_kernel_page, last_kernel_page in *; lia). done. }
  assert (Hg : first_kernel_page <= g < last_kernel_page) by lia.
  assert (Hgr : 0 <= g < 2 ^ 20) by (unfold first_kernel_page, last_kernel_page in Hg; lia).
  assert (Hgpd : pd_present (tables m) (g / 1024) = true).
  { apply Hkt. unfold first_kernel_page, last_kernel_page in Hg. zdiv. }
  assert (Hgp : page_present (tables m) g = false).
  { rewrite <- mapped_entry by done. apply (Hr3 g). lia. }
  exists g, f, fr, (fill_entry 0 (entry (tables m) g) f (Memory_parse_flags PAGE_READWRITE)). cbn zeta. split; [|done].
  unfold Memory_alloc_no_lock_with, find_virtual.
  change (truthy (Z.land PAGE_READWRITE PAGE_USER)) with false.
  change (truthy (Z.land PAGE_READWRITE PAGE_CONTAGIOUS)) with false. change (truthy 0) with false. cbn iota.
  change (GET_PAGES PAGE_SIZE) with 1. change KERNEL_VIRTUAL_ADDRESS with (first_kernel_page * PAGE_SIZE).
  change LAST_PAGE_ADDRESS with (last_kernel_page * PAGE_SIZE). rewrite E. cbn [mbind exec_bind]. unfold back_pages.
  change (Z.to_nat 1) with 1%nat. cbn [for_]. rewrite Ef. cbn [mbind exec_bind]. rewrite Z.mul_0_r, Z.add_0_r.
  pose proof (page_address_range g Hgr) as Hv. rewrite u32_small by done.
  rewrite map_pages_one by (done || change PAGE_SIZE with 4096; lia). cbn [tables frames mbind exec_bind].
  by rewrite frame_of_page.
Qed.

(** What [create_page_table] leaves: page [g] of the kernel has led to the new frame for a
    while, and its entry still names it. *)
Lemma create_table m :
  user_wf m -> 0 < alen (free_frames m) ->
  exists g f fr w1 w2,
    let s1 := pwrite (tables m) (pt_address (tables m) (g * PAGE_SIZE)) w1 in
    let s2 := pwrite s1 (pt_address s1 (g * PAGE_SIZE)) w2 in
    VirtualMemory_create_page_table 2 m = Done (g * PAGE_SIZE, mkMemory s2 fr) /\
    first_kernel_page <= g < last_kernel_page /\ page_present (tables m) g = false /\
    256 <= f < 2 ^ 16 /\ used (frames m) f = false /\ Phys_wf fr /\ one_more (frames m) fr f /\
    truthy (pte_present w2) = false /\ pte_frame w2 = f.
Proof.
  intros Hwf Hroom. destruct (uw_memory _ Hwf) as (Hpg & _ & Hkt).
  destruct (kernel_page (VirtualMemory_create_page_table 1) m (uw_memory _ Hwf) (uw_kernel _ Hwf) Hroom)
    as (g & f & fr & w1 & E & Hg & Hgp & Hf & Hu & Hpw' & Ho & Hw1). cbn zeta in E.
  assert (Hgr : 0 <= g < 2 ^ 20) by (unfold first_kernel_page, last_kernel_page in Hg; lia).
  assert (Hgw : 0 <= g < window_page) by (unfold first_kernel_page, last_kernel_page, window_page in *; lia).
  assert (Hgpd : pd_present (tables m) (g / 1024) = true).
  { apply Hkt. unfold first_kernel_page, last_kernel_page in Hg. zdiv. }
  set (s1 := pwrite (tables m) (pt_address (tables m) (g * PAGE_SIZE)) w1) in *.
  assert (Hwf1 : paging_wf s1) by (by apply set_entry_wf).
  assert (Hpd1 : pd_present s1 (g / 1024) = true).
  { unfold pd_present, s1. rewrite set_entry_pd by (done || unfold window_page in Hgw; zdiv). exact Hgpd. }
  assert (Ee1 : entry s1 g = w1).
  { unfold s1. rewrite set_entry_entry by done. by rewrite Z.eqb_refl. }
  exists g, f, fr, w1, (set_field w1 0 1 0). cbn zeta. fold s1. split; [|split; [done|]].
  - change (VirtualMemory_create_page_table 2 m) with
      ('(pt_addr, m) ← Memory_alloc_no_lock_with (VirtualMemory_create_page_table 1) m 0 PAGE_SIZE PAGE_READWRITE;
       s ← Paging_unmap_pages (tables m) pt_addr (GET_PAGES PAGE_SIZE); Done (pt_addr, mkMemory s (frames m))). rewrite E. cbn [mbind exec_bind tables frames].
    pose proof (page_address_range g Hgr) as Hv. change (GET_PAGES PAGE_SIZE) with 1. unfold Paging_unmap_pages.
    change (Z.to_nat 1) with 1%nat. cbn [for_].
    rewrite Z.mul_0_r, Z.add_0_r, u32_small by done. rewrite unmap_page_result by (rewrite ?PDE_of_page; done).
    cbn [mbind exec_bind]. fold (entry s1 g). by rewrite Ee1.
  - split; [done|]. split; [done|]. split; [done|]. split; [done|]. split; [done|]. subst w1.
    destruct (filled_entry (entry (tables m) g) f (Memory_parse_flags PAGE_READWRITE)) as (_ & Ff & _); [lia|done|].
    unfold pte_present, pte_frame in *. rewrite get_set_same by lia. rewrite get_set_other by lia. split; [done|exact Ff].
Qed.

Section add_table.
Context (m : memory) (Hwf : user_wf m) (v : Z) (Hv : 0 <= v < 2 ^ 32).
Context (Hi : 0 <= GET_PDE_INDEX v < 768) (Hmiss : pd_present (tables m) (GET_PDE_INDEX v) = false).

(** The memory after the table has been entered, from what [create_table] gives. *)
Section entered.
Context (g f w1 w2 : Z) (fr : PhysicalMemory).
Let s := tables m.
Let s1 := pwrite s (pt_address s (g * PAGE_SIZE)) w1.
Let s2 := pwrite s1 (pt_address s1 (g * PAGE_SIZE)) w2.
Let w3 := fill_entry 0 (pd_entry s2 (GET_PDE_INDEX v)) f (Z.lor (Z.lor PAGE_FLAGS_PRESENT PAGE_FLAGS_WRITABLE) PAGE_FLAGS_USER).
Let s3 := pwrite s2 (pd_address s2 (GET_PDE_INDEX v)) w3.
Let m' := mkMemory s3 fr.
Context (Hg : first_kernel_page <= g < last_kernel_page) (Hgp : page_present s g = false).
Context (Hf : 256 <= f < 2 ^ 16) (Hu : used (frames m) f = false) (Hpw : Phys_wf fr) (Ho : one_more (frames m) fr f).
Context (Hw2 : truthy (pte_present w2) = false) (Hw2f : pte_frame w2 = f).

Lemma table_paging : paging_wf s.
Proof. apply (uw_memory _ Hwf). Qed.

Lemma window_kernel : 0 <= g < window_page /\ pd_present s (g / 1024) = true.
Proof.
  unfold first_kernel_page, last_kernel_page, window_page in *. split; [lia|].
  destruct (uw_memory _ Hwf) as (_ & _ & Hk). apply Hk. zdiv.
Qed.

Lemma touched_pd j : 0 <= j < 1024 -> pd_entry s2 j = pd_entry s j.
Proof.
  destruct window_kernel as [Hgw Hgd]. intros Hj. pose proof table_paging.
  assert (Hpd : forall x, 0 <= x < 1024 -> pd_entry s1 x = pd_entry s x) by (intros; by apply set_entry_pd).
  assert (Hd1 : pd_present s1 (g / 1024) = true) by (unfold pd_present; rewrite Hpd by (unfold window_page in Hgw; zdiv); done).
  unfold s2. rewrite set_entry_pd; [by apply Hpd|by apply set_entry_wf|done..].
Qed.

Lemma touched_wf : paging_wf s2.
Proof.
  destruct window_kernel as [Hgw Hgd]. pose proof table_paging. apply set_entry_wf; [by apply set_entry_wf|done|].
  unfold pd_present, s1. rewrite set_entry_pd by (done || unfold window_page in Hgw; zdiv). exact Hgd.
Qed.

Lemma touched_present j : 0 <= j < 1024 -> pd_present s2 j = pd_present s j /\ table_of s2 j = table_of s j.
Proof. intros Hj. unfold pd_present, table_of. by rewrite touched_pd. Qed.

Lemma touched_entry p : 0 <= p < 2 ^ 20 -> pd_present s (p / 1024) = true -> entry s2 p = if p =? g then w2 else entry s p.
Proof.
  destruct window_kernel as [Hgw Hgd]. intros Hp Hpp. pose proof table_paging.
  assert (Hd : 0 <= p / 1024 < 1024) by zdiv. assert (Hdg : 0 <= g / 1024 < 1024) by (unfold window_page in Hgw; zdiv).
  assert (Hpd : forall x, 0 <= x < 1024 -> pd_present s1 x = pd_present s x).
  { intros x Hx. unfold pd_present, s1. by rewrite set_entry_pd. }
  unfold s2. rewrite set_entry_entry; [|by apply set_entry_wf|done|by rewrite Hpd|done|by rewrite Hpd].
  unfold s1. rewrite set_entry_entry by done. by destruct (p =? g).
Qed.

Lemma touched_word x off : ~ is_table s x -> 0 <= off < PAGE_SIZE -> pread s2 (x * PAGE_SIZE + off) = pread s (x * PAGE_SIZE + off).
Proof.
  destruct window_kernel as [Hgw Hgd]. intros Hx Hoff. pose proof table_paging.
  assert (Hdg : 0 <= g / 1024 < 1024) by (unfold window_page in Hgw; zdiv).
  assert (Hpd : forall j, 0 <= j < 1024 -> pd_entry s1 j = pd_entry s j) by (intros; by apply set_entry_pd).
  unfold s2. rewrite table_word; [by apply table_word|done| | |done].
  - unfold pd_present. by rewrite Hpd.
  - intros (j & Hj & Hp & E). apply Hx. exists j. unfold pd_present, table_of in *. by rewrite Hpd in Hp, E.
Qed.

Lemma table_linked : Paging_map_page_table s2 v (g * PAGE_SIZE) = Done s3.
Proof.
  destruct window_kernel as [Hgw Hgd]. pose proof touched_wf. unfold Paging_map_page_table.
  assert (Hgr : 0 <= g < 2 ^ 20) by (unfold window_page in Hgw; lia). assert (Hdg : 0 <= g / 1024 < 1024) by zdiv.
  rewrite get_physical_page_result; [|done|by apply page_address_range|rewrite PDE_of_page; by rewrite (proj1 (touched_present _ Hdg))].
  cbn [mbind exec_bind]. rewrite vread_pde by done. cbn [mbind exec_bind]. unfold vwrite. rewrite translate_pde_address by done.
  cbn [mbind exec_bind]. fold (entry s2 g). rewrite touched_entry by done. by rewrite Z.eqb_refl, Hw2f.
Qed.

Lemma new_table_hyps : 0 <= GET_PDE_INDEX v < 1023 /\ pd_present s2 (GET_PDE_INDEX v) = false /\
  truthy (pte_present w3) = true /\ pte_pse w3 = 0 /\ pte_frame w3 = f /\
  forall j, 0 <= j < 1024 -> pd_present s2 j = true -> table_of s2 j <> f.
Proof.
  destruct (filled_entry (pd_entry s2 (GET_PDE_INDEX v)) f (Z.lor (Z.lor PAGE_FLAGS_PRESENT PAGE_FLAGS_WRITABLE) PAGE_FLAGS_USER))
    as (F1 & F2 & F3); [lia|done|]. fold w3 in F1, F2, F3.
  split; [lia|]. split; [by rewrite (proj1 (touched_present (GET_PDE_INDEX v) ltac:(lia)))|]. split; [done|]. split; [done|]. split; [done|].
  intros j Hj Hp E. destruct (touched_present j Hj) as [E1 E2]. rewrite E1 in Hp. rewrite E2 in E.
  apply (free_not_table m f Hwf Hu). by exists j.
Qed.

Lemma linked_present j : 0 <= j < 1024 ->
  pd_present s3 j = (j =? GET_PDE_INDEX v) || pd_present s j /\
  table_of s3 j = if j =? GET_PDE_INDEX v then f else table_of s j.
Proof.
  destruct new_table_hyps as (H1 & H2 & H3 & H4 & H5 & H6). intros Hj. destruct (touched_present j Hj) as [E1 E2].
  unfold s3. rewrite (set_table_present s2 _ w3), (set_table_table s2 _ w3 f), E1, E2 by done. by destruct (j =? _).
Qed.

Lemma linked_tables x : is_table s3 x <-> is_table s x \/ x = f.
Proof.
  split.
  - intros (j & Hj & Hp & E). destruct (linked_present j Hj) as [E1 E2]. rewrite E1 in Hp. rewrite E2 in E.
    destruct (j =? _); [by right|]. left. by exists j.
  - intros [(j & Hj & Hp & E)| ->].
    + exists j. destruct (linked_present j Hj) as [-> ->]. split; [done|]. destruct (Z.eqb_spec j (GET_PDE_INDEX v)) as [Ej|]; [|done].
      rewrite Ej in Hp. unfold s in Hp. congruence.
    + exists (GET_PDE_INDEX v). destruct (linked_present (GET_PDE_INDEX v)) as [-> ->]; [lia|].
      rewrite Z.eqb_refl. split; [lia|done].
Qed.

(** No page appears or disappears below the window, and none changes its frame. *)
Lemma linked_page p : 0 <= p < window_page ->
  page_present s3 p = page_present s p /\ (page_present s p = true -> frame_at s3 p = frame_at s p).
Proof.
  destruct new_table_hyps as (H1 & H2 & H3 & H4 & H5 & H6). intros Hp. unfold window_page in Hp.
  assert (Hd : 0 <= p / 1024 < 1024) by zdiv. assert (Hm : 0 <= p mod 1024 < 1024) by zdiv.
  destruct (linked_present _ Hd) as [Ep _]. destruct (set_table_entry s2 touched_wf _ w3 f H1 H2 H3 H5 H6 p Hp) as [E1 E2].
  fold s3 in E1, E2. destruct (touched_present _ Hd) as [Et _]. unfold page_present, frame_at. rewrite Ep, Et in *.
  destruct (Z.eqb_spec (p / 1024) (GET_PDE_INDEX v)) as [Ed|Ed]; cbn [orb].
  - assert (Hno : pd_present s (p / 1024) = false) by (unfold s; congruence). rewrite Hno, E2 by done. cbn [andb].
    rewrite touched_word by (try (apply free_not_table; done); change PAGE_SIZE with 4096; lia).
    split; [|done]. apply (uw_clear _ Hwf); [done|done|done].
  - destruct (pd_present s (p / 1024)) eqn:Es; [|done]. cbn [andb]. rewrite E1 by done.
    rewrite touched_entry by (done || lia). destruct (Z.eqb_spec p g) as [->|]; [|done].
    unfold page_present in Hgp. rewrite Es in Hgp. cbn [andb] in Hgp. rewrite Hw2, Hgp. done.
Qed.

Lemma linked_word x off : ~ is_table s x -> 0 <= off < PAGE_SIZE -> pread s3 (x * PAGE_SIZE + off) = pread s (x * PAGE_SIZE + off).
Proof.
  intros Hx Hoff. unfold s3. rewrite directory_word; [by apply touched_word|apply touched_wf|lia| |done].
  intros (j & Hj & Hp & E). apply Hx. exists j. destruct (touched_present j Hj) as [<- <-]. done.
Qed.

Lemma linked_user p : user_mapped m' p = user_mapped m p /\ (user_mapped m p = true -> page_frame m' p = page_frame m p).
Proof.
  unfold user_mapped, page_frame. cbn [tables m']. destruct (bool_decide (0 <= p < user_limit)) eqn:Eb; [|done].
  apply bool_decide_eq_true_1 in Eb. change user_limit with (768 * 1024) in Eb. cbn [andb].
  destruct (linked_page p) as [E1 E2]; [unfold window_page; lia|]. split; [exact E1|exact E2].
Qed.

Lemma linked_wf : user_wf m'.
Proof.
  destruct new_table_hyps as (H1 & H2 & H3 & H4 & H5 & H6). pose proof Hwf as [(Hpg & _ & Hkt) Ht Hfr Hi' Hc _].
  assert (Hmono : forall x, 0 <= x -> used (frames m) x = true -> used fr x = true) by (intros x Hx Hux; rewrite Ho, Hux by done; done).
  split; change (tables m') with s3; change (frames m') with fr.
  - split; [by apply set_table_wf with (f := f); try done; apply touched_wf|]. split; [done|].
    intros j Hj. change (tables m') with s3. destruct (linked_present j) as [-> _]; [lia|]. unfold s. rewrite Hkt by done. by rewrite orb_true_r.
  - intros j Hj. destruct (linked_present j Hj) as [-> ->]. destruct (j =? _).
    + intros _. split; [lia|]. rewrite Ho by lia. by rewrite Z.eqb_refl, orb_true_r.
    + intros Hp. destruct (Ht j Hj Hp). auto.
  - intros p. destruct (linked_user p) as [-> Ef]. intros Hp. rewrite Ef by done. destruct (Hfr p Hp) as (F1 & F2 & F3).
    split; [done|]. split; [auto|]. rewrite linked_tables. intros [?|E]; [done|].
    by apply (free_not_page m f p Hwf Hu Hp).
  - intros p r. destruct (linked_user p) as [-> Ep], (linked_user r) as [-> Er]. intros Hp Hr. rewrite Ep, Er by done. by apply Hi'.
  - intros x k Hx Hux Hk. rewrite Ho in Hux by lia. apply orb_false_elim in Hux as [Hux _].
    rewrite linked_word by (try (by apply free_not_table); change PAGE_SIZE with 4096; lia). by apply Hc.
  - exists g. split; [done|]. destruct window_kernel as [Hgw _]. destruct (linked_page g Hgw) as [-> _]. exact Hgp.
Qed.

Lemma linked_keeps : keeps_pages m m'.
Proof.
  split.
  - intros p Hp. destruct (linked_user p) as [-> E]. auto.
  - intros p off Hp Hoff. apply linked_word; [by apply (uw_frames _ Hwf)|done].
  - intros p Hp. apply linked_page. change user_limit with (768 * 1024) in Hp. lia.
  - intros x Hx Hux. cbn [frames m']. by rewrite Ho, Hux.
Qed.

Lemma linked_room : user_room m' = user_room m.
Proof.
  unfold user_room. rewrite (free_frames_taken m m' f) by done.
  assert (alen (missing_tables m') = alen (missing_tables m) - 1); [|lia].
  apply (filter_loses _ _ _ (GET_PDE_INDEX v)); [apply NoDup_seqZ|apply elem_of_seqZ; lia|done|].
  intros j Hj. apply elem_of_seqZ in Hj. change (tables m') with s3. destruct (linked_present j) as [-> _]; [lia|].
  destruct (Z.eqb_spec j (GET_PDE_INDEX v)) as [->|]; [split; [done|tauto]|]. cbn [orb]. tauto.
Qed.

Lemma linked_there : pd_present s3 (GET_PDE_INDEX v) = true.
Proof. destruct (linked_present (GET_PDE_INDEX v)) as [-> _]; [lia|]. by rewrite Z.eqb_refl. Qed.

End entered.

Lemma add_table :
  0 < alen (free_frames m) ->
  exists m' f, ('(pt, m1) ← VirtualMemory_create_page_table 2 m; s ← Paging_map_page_table (tables m1) v pt; Done (mkMemory s (frames m1))) = Done m' /\
    user_wf m' /\ keeps_pages m m' /\ (forall p, user_mapped m' p = user_mapped m p) /\
    pd_present (tables m') (GET_PDE_INDEX v) = true /\ user_room m' = user_room m /\
    used (frames m) f = false /\ (forall x, is_table (tables m') x -> is_table (tables m) x \/ x = f).
Proof.
  intros Hroom. destruct (create_table m Hwf Hroom) as (g & f & fr & w1 & w2 & E & Hg & Hgp & Hf & Hu & Hpw & Ho & Hw2 & Hw2f).
  cbn zeta in E. rewrite E. cbn [mbind exec_bind tables frames].
  rewrite (table_linked g f w1 w2) by done. cbn [mbind exec_bind]. eexists _, f. split; [reflexivity|].
  split; [by apply linked_wf|]. split; [by apply linked_keeps|]. split; [intros p; by apply linked_user|].
  split; [by apply linked_there|].
  split; [by apply linked_room|]. split; [done|]. intros x Hx. by apply (linked_tables g f w1 w2) in Hx.
Qed.

End add_table.

(** ** Backing pages *)

(** Pages [p] to [p + n - 1] of the program have been added, each with a frame of its own. *)
Record pages_added (m m' : memory) (p n : Z) : Prop := {
  pa_wf : user_wf m';
  pa_keeps : keeps_pages m m';
  pa_mapped : forall q, user_mapped m' q = user_mapped m q || bool_decide (q ∈ seqZ p n);
  pa_fresh : forall q, q ∈ seqZ p n -> used (frames m) (page_frame m' q) = false;
  pa_room : user_room m - n <= user_room m'
}.

Lemma pt_address_of_page s v : pt_address s v = pt_address s (page_of v * PAGE_SIZE).
Proof. rewrite pt_address_page. unfold pt_address. by rewrite PDE_page, PTE_page. Qed.

Lemma missing_counts m j : 0 <= j < 768 -> pd_present (tables m) j = false -> 0 < alen (missing_tables m).
Proof.
  intros Hj Hp. assert (Hin : j ∈ missing_tables m) by (apply list_elem_of_filter; split; [done|apply elem_of_seqZ; lia]).
  destruct (missing_tables m); [by apply not_elem_of_nil in Hin|]. rewrite alen_cons. pose proof (alen_nonneg l). lia.
Qed.

(** [map_pages] for one page, with its table made first if it is missing. *)
Lemma map_user_page m v f flags :
  user_wf m -> 0 <= v < 2 ^ 32 -> 0 <= page_of v < user_limit -> user_mapped m (page_of v) = false ->
  0 <= f < 2 ^ 16 -> used (frames m) f = true -> ~ is_table (tables m) f ->
  (forall p, user_mapped m p = true -> page_frame m p <> f) ->
  (pd_present (tables m) (page_of v / 1024) = false -> 0 < alen (free_frames m)) ->
  exists m', VirtualMemory_map_pages_with (VirtualMemory_create_page_table 2) m v (f * PAGE_SIZE) 1 (Memory_parse_flags flags) = Done m' /\
    user_wf m' /\ keeps_pages m m' /\ (forall p, user_mapped m' p = user_mapped m p || (p =? page_of v)) /\
    page_frame m' (page_of v) = f /\ user_room m' = user_room m.
Proof.
  intros Hwf Hv Hq Hno Hf Hu Htab Hown Hroom. pose proof (user_page_index _ Hq) as Hidx.
  assert (Hpd : GET_PDE_INDEX v = page_of v / 1024) by apply PDE_page.
  unfold VirtualMemory_map_pages_with. change (Z.to_nat 1) with 1%nat. cbn [for_].
  rewrite check_page_table_exists_result, Hpd by (done || apply (uw_memory _ Hwf)). cbn [mbind exec_bind].
  assert (Hsame : forall mm, user_wf mm -> keeps_pages m mm -> (forall p, user_mapped mm p = user_mapped m p) ->
    pd_present (tables mm) (page_of v / 1024) = true -> ~ is_table (tables mm) f -> user_room mm = user_room m ->
    exists m', (s ← Paging_map_page (tables mm) (u32 (v + PAGE_SIZE * 0)) (u32 (f * PAGE_SIZE + PAGE_SIZE * 0)) (Memory_parse_flags flags);
      Done (mkMemory s (frames mm))) = Done m' /\ user_wf m' /\ keeps_pages m m' /\
      (forall p, user_mapped m' p = user_mapped m p || (p =? page_of v)) /\ page_frame m' (page_of v) = f /\ user_room m' = user_room m).
  { intros mm Hw Hk Hm Hp Ht Hr. rewrite Z.mul_0_r, !Z.add_0_r, !u32_small by (done || change PAGE_SIZE with 4096; lia).
    rewrite map_page_result by (rewrite ?Hpd; done || apply (uw_memory _ Hw)). cbn [mbind exec_bind].
    rewrite pt_address_of_page, frame_of_page.
    fold (entry (tables mm) (page_of v)). eexists. split; [reflexivity|].
    assert (Hno' : user_mapped mm (page_of v) = false) by (by rewrite Hm).
    assert (Hu' : used (frames mm) f = true) by (apply (kp_used _ _ Hk); [lia|done]).
    assert (Hown' : forall p, user_mapped mm p = true -> page_frame mm p <> f).
    { intros p Hp'. rewrite Hm in Hp'. rewrite (proj2 (kp_pages _ _ Hk p Hp')). by apply Hown. }
    assert (Hfl : present_flags (Memory_parse_flags flags)) by apply parse_flags_present.
    split; [by apply map_frame_wf|]. split; [etrans; [exact Hk|]; by apply map_frame_keeps|].
    split; [intros p; rewrite map_frame_mapped by done; by rewrite Hm|]. split; [by apply map_frame_new|].
    rewrite <- Hr. unfold user_room. f_equal. apply filter_same. intros j Hj. apply elem_of_seqZ in Hj. cbn [tables].
    unfold pd_present. rewrite map_frame_pd by (done || lia). done. }
  destruct (pd_present (tables m) (page_of v / 1024)) eqn:Ep; cbn [Bool.eqb mbind exec_bind].
  - destruct (Hsame m) as (m' & E & H); [done..|]. rewrite E. cbn [mbind exec_bind]. by exists m'.
  - destruct (add_table m Hwf v Hv) as (m1 & f1 & E1 & Hw1 & Hk1 & Hm1 & Hp1 & Hr1 & Hu1 & Ht1);
      [by rewrite Hpd|by rewrite Hpd|by apply Hroom|]. rewrite E1. cbn [mbind exec_bind].
    destruct (Hsame m1) as (m' & E & H); [done|done|done|by rewrite <- Hpd| |done|rewrite E; cbn [mbind exec_bind]; by exists m'].
    intros [?|E]%Ht1; [done|congruence].
Qed.

(** One turn of the loop. *)
Lemma back_user_page m v flags :
  user_wf m -> 0 <= v < 2 ^ 32 -> 0 <= page_of v < user_limit -> user_mapped m (page_of v) = false -> 1 <= user_room m ->
  exists m', ('(pAdd, fr) ← PhysicalMemory_alloc_page (frames m) AVAILABLE_PAGES_START;
     VirtualMemory_map_pages_with (VirtualMemory_create_page_table 2) (mkMemory (tables m) fr) v pAdd 1 (Memory_parse_flags flags)) = Done m' /\
    pages_added m m' (page_of v) 1.
Proof.
  intros Hwf Hv Hq Hno Hroom. pose proof (alen_nonneg (missing_tables m)) as Hmt. unfold user_room in Hroom.
  destruct (alloc_low_frame m (uw_memory _ Hwf)) as (f & fr & E & Hf & Hu & Hpw & Ho); [lia|].
  rewrite E. cbn [mbind exec_bind]. destruct (frame_taken m fr f Hwf Hpw Ho) as [Hw1 Hk1].
  pose proof (free_frames_taken m (mkMemory (tables m) fr) f Hf Hu Ho) as Hfree.
  destruct (map_user_page (mkMemory (tables m) fr) v f flags) as (m' & E' & Hw & Hk & Hm & Hfr & Hr); try done.
  - lia.
  - cbn [frames]. rewrite Ho by lia. by rewrite Z.eqb_refl, orb_true_r.
  - exact (free_not_table m f Hwf Hu).
  - intros p Hp. by apply (free_not_page m f p Hwf Hu).
  - intros Hp. cbn [tables] in Hp. pose proof (missing_counts m _ (user_page_index _ Hq) Hp). lia.
  - exists m'. split; [done|]. split; [done| | | |].
    + etrans; [exact Hk1|exact Hk].
    + intros p. rewrite Hm. change (user_mapped (mkMemory (tables m) fr) p) with (user_mapped m p). f_equal.
      change (seqZ (page_of v) 1) with [0 + page_of v]. rewrite Z.add_0_l.
      destruct (Z.eqb_spec p (page_of v)) as [->|Hne]; symmetry; [by apply bool_decide_eq_true_2, list_elem_of_singleton|].
      by apply bool_decide_eq_false_2; rewrite list_elem_of_singleton.
    + intros p Hp. change (seqZ (page_of v) 1) with [0 + page_of v] in Hp. rewrite Z.add_0_l, list_elem_of_singleton in Hp.
      by rewrite Hp, Hfr.
    + rewrite Hr. unfold user_room. rewrite Hfree. unfold missing_tables. cbn [tables]. lia.
Qed.

Lemma pages_added_none m p : user_wf m -> pages_added m m p 0.
Proof.
  intros Hwf. split; [done|done| | |lia].
  - intros q. rewrite bool_decide_eq_false_2 by (rewrite elem_of_seqZ; lia). by rewrite orb_false_r.
  - intros q Hq. apply elem_of_seqZ in Hq. lia.
Qed.

Lemma pages_added_next m m1 m2 p n :
  0 <= n -> (forall q, q ∈ seqZ p n -> user_mapped m1 q = true) -> user_mapped m2 (p + n) = true ->
  pages_added m m1 p n -> pages_added m1 m2 (p + n) 1 -> pages_added m m2 p (n + 1).
Proof.
  intros Hn Hold Hnew [W1 K1 M1 F1 R1] [W2 K2 M2 F2 R2].
  assert (E1 : seqZ (p + n) 1 = [p + n]) by (unfold seqZ; simpl; f_equal; lia).
  assert (Es : forall q, q ∈ seqZ p (n + 1) <-> q ∈ seqZ p n \/ q = p + n) by (intros; rewrite !elem_of_seqZ; lia).
  split; [done|by etrans| | |lia].
  - intros q. rewrite M2, M1, E1, <- orb_assoc. f_equal. rewrite <- bool_decide_or. apply bool_decide_ext.
    rewrite Es, list_elem_of_singleton. done.
  - intros q [Hq| ->]%Es.
    + rewrite (proj2 (kp_pages _ _ K2 q (Hold q Hq))). by apply F1.
    + pose proof (F2 (p + n) ltac:(rewrite E1; by apply list_elem_of_singleton)) as Hu.
      destruct (used (frames m) (page_frame m2 (p + n))) eqn:E; [|done].
      rewrite (kp_used _ _ K1) in Hu; [done|by apply (uw_frames _ W2)|done].
Qed.

Lemma back_user_pages m v n flags :
  user_wf m -> 0 <= v < 2 ^ 32 -> 0 <= n -> page_of v + n <= user_limit -> n <= user_room m ->
  (forall q, q ∈ seqZ (page_of v) n -> user_mapped m q = false) ->
  exists m', back_pages (VirtualMemory_create_page_table 2) m v n flags = Done m' /\ pages_added m m' (page_of v) n.
Proof.
  intros Hwf Hv Hn Hlim Hroom Hfree. unfold back_pages.
  match goal with |- context [for_ ?turns ?lo ?body ?st] =>
    destruct (for_inv (fun i m1 => pages_added m m1 (page_of v) i) body turns lo st) as (m' & E & Hm)
  end.
  - by apply pages_added_none.
  - intros i m1 Hi Hm. rewrite Z.add_0_l, Z2Nat.id in Hi by lia.
    assert (Hpv : 0 <= page_of v) by (unfold page_of; zdiv).
    assert (Hw : u32 (v + PAGE_SIZE * i) = v + PAGE_SIZE * i).
    { apply u32_small. change user_limit with (768 * 1024) in Hlim. change PAGE_SIZE with 4096. unfold page_of in *. zdiv. }
    assert (Hpo : page_of (v + PAGE_SIZE * i) = page_of v + i).
    { unfold page_of. change PAGE_SIZE with (2 ^ 12). rewrite Z.mul_comm, Z.div_add by lia. done. }
    rewrite Hw. destruct (back_user_page m1 (v + PAGE_SIZE * i) flags) as (m2 & E2 & Hm2).
    + apply Hm.
    + rewrite <- Hw. apply u32_range.
    + rewrite Hpo. lia.
    + rewrite Hpo, (pa_mapped _ _ _ _ Hm), Hfree by (apply elem_of_seqZ; lia).
      apply bool_decide_eq_false_2. rewrite elem_of_seqZ. lia.
    + pose proof (pa_room _ _ _ _ Hm). lia.
    + exists m2. split; [exact E2|]. rewrite Hpo in Hm2. apply (pages_added_next m m1 m2); [lia| | |done|done].
      * intros q Hq. rewrite (pa_mapped _ _ _ _ Hm), bool_decide_eq_true_2 by done. by rewrite orb_true_r.
      * rewrite (pa_mapped _ _ _ _ Hm2), bool_decide_eq_true_2 by (apply elem_of_seqZ; lia). by rewrite orb_true_r.
  - exists m'. rewrite Z.add_0_l, Z2Nat.id in Hm by lia. split; [exact E|exact Hm].
Qed.

(** ** Allocation *)

Lemma mapped_page s v : paging_wf s -> 0 <= v < 2 ^ 32 -> mapped s v = page_present s (page_of v).
Proof.
  intros Hwf Hv. unfold mapped. assert (Ev : v = page_of v * PAGE_SIZE + v mod PAGE_SIZE) by (unfold page_of; change PAGE_SIZE with 4096; zdiv).
  rewrite Ev at 1. rewrite translate_entry; [by destruct (page_present s (page_of v))|done|unfold page_of; zdiv|].
  change PAGE_SIZE with 4096. zdiv.
Qed.

Lemma check_user_pages m a n :
  user_wf m -> 0 <= a < 2 ^ 32 -> 0 <= n -> page_of a + n <= user_limit ->
  VirtualMemory_check_free_pages (tables m) a n = Done (negb (existsb (user_mapped m) (seqZ (page_of a) n))).
Proof.
  intros Hwf Ha Hn Hlim. unfold VirtualMemory_check_free_pages.
  destruct (while_inv (fun i => 0 <= i <= n /\ forall q, q ∈ seqZ (page_of a) i -> user_mapped m q = false)
    (fun b => b = negb (existsb (user_mapped m) (seqZ (page_of a) n))) (fun i => Z.to_nat (n - i))
    (fun i => if i <? n then present ← Paging_check_page_present (tables m) (u32 (a + i * PAGE_SIZE));
       if (present : bool) then Done (inr false) else Done (inl (i + 1)) else Done (inr true)) (S (Z.to_nat n)) 0) as (b & E & ->).
  - split; [lia|]. intros q Hq. apply elem_of_seqZ in Hq. lia.
  - lia.
  - intros i [Hi Hq]. destruct (Z.ltb_spec i n) as [Hlt|].
    + assert (Hpv : 0 <= page_of a) by (unfold page_of; zdiv).
      assert (Hw : 0 <= a + i * PAGE_SIZE < 2 ^ 32).
      { change user_limit with (768 * 1024) in Hlim. change PAGE_SIZE with 4096. unfold page_of in *. zdiv. }
      assert (Hpo : page_of (a + i * PAGE_SIZE) = page_of a + i).
      { unfold page_of. change PAGE_SIZE with (2 ^ 12). by rewrite Z.div_add by lia. }
      rewrite u32_small by done. rewrite check_page_present_result by (done || apply (uw_memory _ Hwf)). cbn [mbind exec_bind].
      rewrite mapped_page, Hpo by (done || apply (uw_memory _ Hwf)).
      assert (Hup : user_mapped m (page_of a + i) = page_present (tables m) (page_of a + i)).
      { unfold user_mapped. by rewrite bool_decide_eq_true_2 by lia. }
      rewrite <- Hup. destruct (user_mapped m (page_of a + i)) eqn:Em; [right|left]; (eexists; split; [reflexivity|]).
      * symmetry. apply negb_false_iff, existsb_exists. exists (page_of a + i). split; [|done].
        apply list_elem_of_In, elem_of_seqZ. lia.
      * split; [|lia]. split; [lia|]. intros q Hq'. apply elem_of_seqZ in Hq'. destruct (decide (q = page_of a + i)) as [->|]; [done|].
        apply Hq, elem_of_seqZ. lia.
    + right. eexists. split; [reflexivity|]. symmetry. apply negb_true_iff. destruct (existsb _ _) eqn:Ex; [|done].
      apply existsb_exists in Ex as (q & Hin & Hm). apply list_elem_of_In in Hin. replace n with i in Hin by lia.
      by rewrite (Hq q Hin) in Hm.
  - exact E.
Qed.

Lemma not_contagious flags : Z.testbit flags 3 = false -> truthy (Z.land flags PAGE_CONTAGIOUS) = false.
Proof.
  intros Hc. unfold truthy. replace (Z.land flags PAGE_CONTAGIOUS) with 0; [done|]. symmetry.
  apply Z.bits_inj'. intros k Hk. rewrite Z.land_spec, Z.bits_0. change PAGE_CONTAGIOUS with (2 ^ 3).
  destruct (decide (k = 3)) as [->|]; [by rewrite Hc|]. by rewrite Z.pow2_bits_false, andb_false_r by lia.
Qed.

(** At an address: all pages or none. *)
Lemma user_alloc_at m a n flags :
  user_wf m -> 0 < a < 2 ^ 32 -> 0 <= n -> Z.testbit flags 3 = false ->
  page_of a + GET_PAGES n <= user_limit -> GET_PAGES n <= user_room m ->
  if existsb (user_mapped m) (seqZ (page_of a) (GET_PAGES n)) then Memory_alloc m a n flags = Done (0, m)
  else exists m', Memory_alloc m a n flags = Done (a, m') /\ pages_added m m' (page_of a) (GET_PAGES n).
Proof.
  intros Hwf Ha Hn Hc Hlim Hroom.
  assert (Hp : 0 <= GET_PAGES n) by (unfold GET_PAGES; change PAGE_SIZE with 4096; destruct (n mod 4096 =? 0); zdiv).
  unfold Memory_alloc, Memory_alloc_no_lock, Memory_alloc_no_lock_with.
  assert (Ea : truthy a = true) by (unfold truthy; rewrite (proj2 (Z.eqb_neq a 0)) by lia; done).
  rewrite Ea, check_user_pages by (done || lia). cbn [mbind exec_bind]. destruct (existsb _ _) eqn:Ex; cbn [negb mbind exec_bind]; [done|].
  rewrite not_contagious by done.
  destruct (back_user_pages m a (GET_PAGES n) flags) as (m' & E & Hm); [done|lia|done|done|done| |].
  - intros q Hq. destruct (user_mapped m q) eqn:Em; [|done]. assert (existsb (user_mapped m) (seqZ (page_of a) (GET_PAGES n)) = true) by
      (apply existsb_exists; exists q; split; [by apply list_elem_of_In|done]). congruence.
  - rewrite E. cbn [mbind exec_bind]. by exists m'.
Qed.

(** Anywhere: the first run of free pages after the first page. *)
Lemma user_alloc_anywhere m n flags g0 :
  user_wf m -> 0 < n < 2 ^ 32 -> Z.testbit flags 0 = true -> Z.testbit flags 3 = false -> GET_PAGES n <= user_room m ->
  1 <= g0 -> g0 + GET_PAGES n <= user_limit -> (forall q, q ∈ seqZ g0 (GET_PAGES n) -> user_mapped m q = false) ->
  exists g m', Memory_alloc m 0 n flags = Done (g * PAGE_SIZE, m') /\ pages_added m m' g (GET_PAGES n) /\ 1 <= g <= g0 /\
    (forall q, q ∈ seqZ g (GET_PAGES n) -> user_mapped m q = false) /\
    forall x, 1 <= x < g -> exists q, q ∈ seqZ x (GET_PAGES n) /\ user_mapped m q = true.
Proof.
  intros Hwf Hn Hu Hc Hroom Hg0 Hlim Hfree0.
  assert (Hp : 0 < GET_PAGES n < 2 ^ 32) by (unfold GET_PAGES; change PAGE_SIZE with 4096; destruct (Z.eqb_spec (n mod 4096) 0); zdiv).
  change user_limit with (768 * 1024) in Hlim.
  assert (Hpres : forall q, 0 <= q < 768 * 1024 -> page_taken (tables m) q = user_mapped m q).
  { intros q Hq. unfold page_taken. rewrite mapped_entry by (lia || apply (uw_memory _ Hwf)).
    unfold user_mapped. by rewrite bool_decide_eq_true_2 by done. }
  unfold Memory_alloc, Memory_alloc_no_lock, Memory_alloc_no_lock_with, find_virtual. change (truthy 0) with false. cbn iota.
  assert (Eu : truthy (Z.land flags PAGE_USER) = true).
  { unfold truthy. change PAGE_USER with (Z.ones 1). rewrite Z.land_ones by lia. change (2 ^ 1) with 2. by rewrite <- Z.bit0_mod, Hu. }
  rewrite Eu. change FIRST_PAGE_ADDRESS with (1 * PAGE_SIZE). change KERNEL_VIRTUAL_ADDRESS with (0xC0100 * PAGE_SIZE).
  destruct (vfind_spec (tables m) (proj1 (uw_memory _ Hwf)) 1 0xC0100 (GET_PAGES n)) as [(g & E & Hr1 & Hr2 & Hr3 & Hr4)|[_ Hnone]];
    [lia|lia|done| |].
  2: { destruct (Hnone g0); [lia|lia|]. intros q Hq. rewrite Hpres by lia. apply Hfree0, elem_of_seqZ. lia. }
  assert (Hgle : g <= g0).
  { destruct (decide (g0 < g)); [|lia]. destruct (Hr4 g0); [lia|]. intros q Hq. rewrite Hpres by lia. apply Hfree0, elem_of_seqZ. lia. }
  assert (Hfree : forall q, q ∈ seqZ g (GET_PAGES n) -> user_mapped m q = false).
  { intros q Hq. apply elem_of_seqZ in Hq. rewrite <- Hpres by lia. apply (Hr3 q). lia. }
  rewrite E. cbn [mbind exec_bind]. rewrite not_contagious by done.
  destruct (back_user_pages m (g * PAGE_SIZE) (GET_PAGES n) flags) as (m' & E' & Hm);
    [done|change PAGE_SIZE with 4096; lia|lia|rewrite page_of_base; change user_limit with (768 * 1024); lia|done|by rewrite page_of_base|].
  rewrite page_of_base in Hm. rewrite E'. cbn [mbind exec_bind]. exists g, m'. split; [done|]. split; [done|]. split; [lia|]. split; [done|].
  intros x Hx. destruct (existsb (user_mapped m) (seqZ x (GET_PAGES n))) eqn:Ex.
  - apply existsb_exists in Ex as (q & Hin & Hq). exists q. split; [by apply list_elem_of_In|done].
  - destruct (Hr4 x); [lia|]. intros q Hq. rewrite Hpres by lia. destruct (user_mapped m q) eqn:Eq; [|done].
    assert (existsb (user_mapped m) (seqZ x (GET_PAGES n)) = true); [|congruence].
    apply existsb_exists. exists q. split; [apply list_elem_of_In, elem_of_seqZ; lia|done].
Qed.

(** ** Bytes *)

(** The word that holds byte [b] of the program: its words are where its pages lead. *)
Definition word_of (m : memory) (b : Z) : Z := page_frame m (b / PAGE_SIZE) * PAGE_SIZE + (b mod PAGE_SIZE - b mod 4).

Definition user_byte (m : memory) (b : Z) : Z :=
  if user_mapped m (b / PAGE_SIZE) then get_field (pread (tables m) (word_of m b)) (8 * (b mod 4)) 8 else 0.

(** A store of a byte: the address is translated, and the byte changed in its word. *)
Definition store_byte (m : memory) (a x : Z) : exec memory :=
  pa ← translate (tables m) a;
  let w := pa - pa mod 4 in
  Done (mkMemory (pwrite (tables m) w (set_field (pread (tables m) w) (8 * (pa mod 4)) 8 x)) (frames m)).

Lemma byte_in_page b : 0 <= b mod 4 < 4 /\ 0 <= b mod PAGE_SIZE - b mod 4 < PAGE_SIZE /\ b = b / PAGE_SIZE * PAGE_SIZE + b mod PAGE_SIZE.
Proof. change PAGE_SIZE with 4096. zdiv. Qed.

Lemma words_differ m p q b c :
  user_wf m -> user_mapped m p = true -> user_mapped m q = true -> b / PAGE_SIZE = p -> c / PAGE_SIZE = q ->
  word_of m b = word_of m c -> b - b mod 4 = c - c mod 4.
Proof.
  intros Hwf Hp Hq Eb Ec E. unfold word_of in E. rewrite Eb, Ec in E.
  assert (Ef : page_frame m p = page_frame m q) by (change PAGE_SIZE with 4096 in E; zdiv).
  pose proof (uw_injective _ Hwf p q Hp Hq Ef) as <-.
  destruct (byte_in_page b) as (_ & _ & Hb), (byte_in_page c) as (_ & _ & Hc). change PAGE_SIZE with 4096 in *. lia.
Qed.

Section store.
Context (m : memory) (Hwf : user_wf m) (a x : Z) (Hm : user_mapped m (a / PAGE_SIZE) = true).

Let p := a / PAGE_SIZE.
Let off := a mod PAGE_SIZE - a mod 4.
Let w := set_field (pread (tables m) (word_of m a)) (8 * (a mod 4)) 8 x.
Let m' := mkMemory (pwrite (tables m) (page_frame m p * PAGE_SIZE + off) w) (frames m).

Lemma store_result : store_byte m a x = Done m'.
Proof.
  destruct (user_mapped_present m _ Hm) as [Hr Hp]. destruct (uw_memory _ Hwf) as (Hpg & _).
  assert (Hpp : page_present (tables m) (a / PAGE_SIZE) = true) by (unfold user_mapped in Hm; by apply andb_prop in Hm as [_ ?]).
  change user_limit with (768 * 1024) in Hr. destruct (byte_in_page a) as (H4 & Ho & Ea).
  unfold store_byte. rewrite Ea at 1. rewrite translate_entry by (done || (change PAGE_SIZE with 4096 in *; zdiv)).
  rewrite Hpp. cbn [mbind exec_bind].
  assert (Emod : (frame_at (tables m) (a / PAGE_SIZE) * PAGE_SIZE + a mod PAGE_SIZE) mod 4 = a mod 4) by (change PAGE_SIZE with 4096; zdiv).
  rewrite Emod. unfold m', w, word_of, p, off, page_frame. by rewrite Z.add_sub_assoc.
Qed.

Lemma store_apart j : 0 <= j < 1024 -> pd_present (tables m) j = true -> table_of (tables m) j <> page_frame m p.
Proof. intros Hj Hp E. destruct (uw_frames _ Hwf _ Hm) as (_ & _ & Ht). apply Ht. by exists j. Qed.

Lemma store_off : 0 <= off < PAGE_SIZE.
Proof. apply byte_in_page. Qed.

Lemma store_present q : 0 <= q < 2 ^ 20 -> page_present (tables m') q = page_present (tables m) q /\
  (page_present (tables m) q = true -> page_frame m' q = page_frame m q).
Proof.
  intros Hq. assert (Hd : 0 <= q / 1024 < 1024) by zdiv. destruct (uw_memory _ Hwf) as (Hpg & _).
  pose proof (set_word_pd (tables m) Hpg (page_frame m p) off w store_off store_apart (q / 1024) Hd) as Epd.
  assert (Epr : pd_present (tables m') (q / 1024) = pd_present (tables m) (q / 1024)) by (unfold pd_present; by rewrite <- Epd).
  unfold page_present. rewrite Epr. destruct (pd_present (tables m) (q / 1024)) eqn:Ep; [|done]. cbn [andb].
  assert (Ee : entry (tables m') q = entry (tables m) q)
    by exact (set_word_entry (tables m) Hpg (page_frame m p) off w store_off store_apart q Hq Ep).
  unfold page_frame, frame_at. by rewrite Ee.
Qed.

Lemma store_mapped q : user_mapped m' q = user_mapped m q /\ (user_mapped m q = true -> page_frame m' q = page_frame m q).
Proof.
  unfold user_mapped. destruct (bool_decide (0 <= q < user_limit)) eqn:Eb; [|done]. apply bool_decide_eq_true_1 in Eb. cbn [andb].
  apply store_present. change user_limit with (768 * 1024) in Eb. lia.
Qed.

Lemma store_other_frame f o : f <> page_frame m p -> 0 <= o < PAGE_SIZE ->
  pread (tables m') (f * PAGE_SIZE + o) = pread (tables m) (f * PAGE_SIZE + o).
Proof. intros Hf Ho. apply pread_other. pose proof store_off. change PAGE_SIZE with 4096 in *. lia. Qed.

Lemma store_wf : user_wf m'.
Proof.
  pose proof Hwf as [(Hpg & Hpw & Hkt) Ht Hfr Hi Hc (g & Hg & Hgp)].
  assert (Epd : forall j, 0 <= j < 1024 -> pd_entry (tables m') j = pd_entry (tables m) j)
    by exact (set_word_pd (tables m) Hpg (page_frame m p) off w store_off store_apart).
  split.
  - split; [|split; [done|]].
    + exact (set_word_wf (tables m) Hpg (page_frame m p) off w store_off store_apart).
    + intros j Hj. unfold pd_present. rewrite Epd by lia. by apply Hkt.
  - intros j Hj. unfold pd_present, table_of. rewrite Epd by done. by apply Ht.
  - intros q. destruct (store_mapped q) as [-> E]. intros Hq. rewrite E by done. destruct (Hfr q Hq) as (? & ? & Hn).
    split; [done|]. split; [done|]. intros (j & Hj & Hjp & Ej). apply Hn. exists j. unfold pd_present, table_of in *.
    by rewrite Epd in Hjp, Ej by done.
  - intros q r. destruct (store_mapped q) as [-> Eq], (store_mapped r) as [-> Er]. intros Hq Hr. rewrite Eq, Er by done. by apply Hi.
  - intros f k Hf Hu Hk. rewrite store_other_frame; [by apply Hc| |change PAGE_SIZE with 4096; lia].
    intros ->. by destruct (free_not_page m _ p Hwf Hu Hm).
  - exists g. split; [done|]. destruct (store_present g) as [-> _]; [|done]. unfold first_kernel_page, last_kernel_page in Hg. lia.
Qed.

Lemma store_byte_at b : 0 <= x < 2 ^ 8 -> user_byte m' b = if b =? a then x else user_byte m b.
Proof.
  intros Hx. unfold user_byte. destruct (store_mapped (b / PAGE_SIZE)) as [-> E].
  destruct (user_mapped m (b / PAGE_SIZE)) eqn:Hb.
  2: { destruct (Z.eqb_spec b a) as [->|]; [congruence|done]. }
  unfold word_of. rewrite E by done. fold (word_of m b). destruct (byte_in_page a) as (H4a & _ & _), (byte_in_page b) as (H4b & _ & _).
  change (page_frame m p * PAGE_SIZE + off) with (word_of m a) in m'.
  destruct (Z.eqb_spec b a) as [->|Hne].
  - cbn [tables m']. unfold word_of at 1. rewrite pread_same. unfold w. rewrite get_set_same, Z.land_ones by lia. by apply Z.mod_small.
  - cbn [tables m']. destruct (Z.eq_dec (word_of m b) (word_of m a)) as [Ew|Ew].
    + rewrite Ew, pread_same. unfold w. apply get_set_other; try lia.
      pose proof (words_differ m _ _ b a Hwf Hb Hm eq_refl eq_refl Ew). lia.
    + by rewrite pread_other.
Qed.

Lemma store_room : user_room m' = user_room m.
Proof.
  destruct (uw_memory _ Hwf) as (Hpg & _). unfold user_room. f_equal. apply filter_same. intros j Hj. apply elem_of_seqZ in Hj.
  unfold pd_present. cbn [tables m'].
  rewrite (set_word_pd (tables m) Hpg (page_frame m p) off w store_off store_apart) by lia. done.
Qed.

End store.

(** A load of a byte. *)
Definition load_byte (m : memory) (a : Z) : exec Z :=
  pa ← translate (tables m) a; Done (get_field (pread (tables m) (pa - pa mod 4)) (8 * (pa mod 4)) 8).

Lemma load_user_byte m a : user_wf m -> user_mapped m (a / PAGE_SIZE) = true -> load_byte m a = Done (user_byte m a).
Proof.
  intros Hwf Hm. destruct (user_mapped_present m _ Hm) as [Hr _]. destruct (uw_memory _ Hwf) as (Hpg & _).
  assert (Hpp : page_present (tables m) (a / PAGE_SIZE) = true) by (unfold user_mapped in Hm; by apply andb_prop in Hm as [_ ?]).
  change user_limit with (768 * 1024) in Hr. destruct (byte_in_page a) as (_ & _ & Ea). unfold load_byte, user_byte. rewrite Hm.
  rewrite Ea at 1. rewrite translate_entry by (done || (change PAGE_SIZE with 4096 in *; zdiv)). rewrite Hpp. cbn [mbind exec_bind].
  assert (Emod : (frame_at (tables m) (a / PAGE_SIZE) * PAGE_SIZE + a mod PAGE_SIZE) mod 4 = a mod 4) by (change PAGE_SIZE with 4096; zdiv).
  rewrite Emod. unfold word_of, page_frame. by rewrite Z.add_sub_assoc.
Qed.

Lemma kept_byte m m' b : keeps_pages m m' -> user_mapped m (b / PAGE_SIZE) = true -> user_byte m' b = user_byte m b.
Proof.
  intros Hk Hm. destruct (kp_pages _ _ Hk _ Hm) as [Hm' Ef]. unfold user_byte, word_of. rewrite Hm, Hm', Ef.
  by rewrite (kp_words _ _ Hk) by (done || apply byte_in_page).
Qed.

(** ** What loaders use *)

(** Pages of the kernel that lead where [k] says. *)
Definition kernel_kept (k : Z -> option Z) (m : memory) : Prop :=
  forall q f, user_limit <= q < window_page -> k q = Some f -> page_present (tables m) q = true /\ page_frame m q = f.

Lemma kernel_kept_keeps k m m' : kernel_kept k m -> keeps_pages m m' -> kernel_kept k m'.
Proof.
  intros Hk Hm q f Hq E. destruct (Hk q f Hq E) as [Hp Hf], (kp_kernel _ _ Hm q Hq) as [Ep Ef].
  split; [by rewrite Ep|]. by rewrite Ef.
Qed.

(** The interface of the loaders, for a memory in which the kernel stays mapped as [k] says. *)
#[program] Definition memory_space (k : Z -> option Z) : UserSpace memory := {|
  us_ok m := user_wf m /\ kernel_kept k m;
  us_valloc := Memory_alloc;
  us_store := store_byte;
  us_mapped := user_mapped;
  us_byte := user_byte;
  us_room := user_room
|}.
Next Obligation.
  intros k m a n flags [Hwf Hkk] Hc Ha Hn Hlim Hr. pose proof (GET_PAGES_pos n Hn) as Hp.
  assert (Ha32 : 0 < a < 2 ^ 32) by (change user_limit with (768 * 1024) in Hlim; change PAGE_SIZE with 4096 in Hlim; zdiv).
  pose proof (user_alloc_at m a n flags Hwf Ha32 ltac:(lia) Hc Hlim Hr) as H. change (page_of a) with (a / PAGE_SIZE) in H.
  destruct (existsb _ _); [done|]. destruct H as (m' & E & [H1 H2 H3 _ H5]). exists m'. split; [done|].
  split; [split; [done|by eapply kernel_kept_keeps]|]. split; [done|].
  split; [done|]. intros b Hb. by apply kept_byte.
Qed.
Next Obligation.
  intros k m a x [Hwf Hkk] Hx Hm. eexists. split; [by apply store_result|].
  split; [split; [by apply store_wf|]|].
  { intros q f Hq E. destruct (Hkk q f Hq E) as [Hp Hf]. unfold window_page in Hq. change user_limit with (768 * 1024) in Hq.
    destruct (store_present m Hwf a x Hm q) as [-> Efr]; [lia|]. split; [done|]. rewrite <- Hf. by apply Efr. }
  split; [by apply store_room|]. split; [intros p; by apply store_mapped|]. intros b. by apply store_byte_at.
Qed.
Next Obligation.
  intros k m a x [Hwf _] Hr Hm. destruct (uw_memory _ Hwf) as (Hpg & _). destruct (byte_in_page a) as (_ & _ & Ea).
  change user_limit with (768 * 1024) in Hr. unfold store_byte. rewrite Ea.
  rewrite translate_entry by (done || (change PAGE_SIZE with 4096 in *; zdiv)).
  unfold user_mapped in Hm. rewrite bool_decide_eq_true_2 in Hm by done. cbn [andb] in Hm. by rewrite Hm.
Qed.

#[export] Instance memory_UserSpace : UserSpace memory := memory_space (fun _ => None).

(** Loading a program: whatever of the kernel is mapped stays so. *)
Lemma program_loaded (k : Z -> option Z) (m : memory) (f : BufferView) (start : Z) (segs : list segment) (secs : list section) :
  user_wf m -> kernel_kept k m -> elf_file f start segs secs -> SELFMAG <= bv_size f -> alen segs <= alen secs -> secs <> [] ->
  Forall (segment_ok f) segs -> pages_needed segs <= user_room m ->
  exists m', ELFLoader_load m f =
      Done (if loadable (user_mapped m) segs
            then Value (mkExecutable start (sc_addr (init_section secs)) (sc_size (init_section secs) / 4))
            else Error ERROR_LOADING_EXECUTABLE, m') /\ user_wf m' /\ kernel_kept k m' /\
    (forall b, user_mapped m (b / PAGE_SIZE) = true -> load_byte m' b = load_byte m b) /\
    (loadable (user_mapped m) segs = true ->
       (forall p, user_mapped m' p = user_mapped m p || bool_decide (p ∈ segs ≫= sg_pages)) /\
       forall sg i, sg ∈ segs -> sg_memsz sg <> 0 -> 0 <= i < sg_filesz sg ->
         load_byte m' (sg_vaddr sg + i) = Done (file_byte f (sg_offset sg + i))).
Proof.
  intros Hwf Hkk Hf Hsize Hn Hne Hok Hroom.
  destruct (@elf_loaded memory (memory_space k) m f start segs secs Hf Hsize Hn Hne Hok (conj Hwf Hkk) Hroom) as (m' & E & [Hwf' Hk] & Hl).
  exists m'. split; [exact E|]. destruct (Hwf' (conj Hwf Hkk)) as [Hw Hkk']. split; [exact Hw|]. split; [exact Hkk'|]. split.
  - intros b Hb. destruct (Hk b Hb) as [Hm' Eb]. rewrite (load_user_byte m'), (load_user_byte m) by done. f_equal. exact Eb.
  - intros Hld. destruct (Hl Hld) as [Hmap Hbytes]. split; [done|]. intros sg i Hin Hz Hkr.
    rewrite load_user_byte; [f_equal; by apply Hbytes|done|]. change (user_mapped m' ((sg_vaddr sg + i) / PAGE_SIZE) = true).
    etrans; [apply Hmap|]. apply orb_true_intro. right.
    apply bool_decide_eq_true_2, list_elem_of_bind. exists sg. split; [|done].
    apply (segment_byte_page f); [by apply (proj1 (Forall_forall _ _) Hok)|done|done].
Qed.

(** ** Properties *)


(** A memory with the tables of the kernel, whose first 2048 frames are in use. *)
Definition program_frames : PhysicalMemory :=
  mkPhys (replicate 256 0xFF ++ replicate (Z.to_nat (MAX_PHYSICAL_4K_PAGES / 8) - 256) 0) 2048.
Definition program_memory : memory := mkMemory kernel_space program_frames.

Lemma program_frames_used f : 0 <= f -> used program_frames f = (f <? 2048).
Proof.
  intros Hf. unfold used, program_frames. cbn [physical_memory_tracer]. destruct (Z.ltb_spec f 2048).
  - rewrite (bit_on_byte _ f 0xFF).
    + change 0xFF with (Z.ones 8). apply Z.ones_spec_low. zdiv.
    + rewrite lookup_app_l by (rewrite length_replicate; zdiv). apply lookup_replicate_2. zdiv.
  - unfold bit_on. rewrite lookup_app_r by (rewrite length_replicate; zdiv).
    destruct (replicate _ 0 !! _) as [b|] eqn:E; [|done]. apply lookup_replicate in E as [-> _]. apply Z.bits_0.
Qed.

Lemma program_frames_wf : Phys_wf program_frames.
Proof.
  split; cbn [physical_memory_tracer program_frames].
  - apply Forall_app. split; apply Forall_replicate; done.
  - unfold alen. rewrite length_app, !length_replicate. unfold MAX_PHYSICAL_4K_PAGES. zdiv.
Qed.

Lemma kernel_space_words a : 8192 <= a -> pread kernel_space a = 0.
Proof.
  intros Ha. assert (H : bool_decide (map_Forall (fun k _ => k < 8192) (phys kernel_space)) = true) by (vm_compute; reflexivity).
  apply bool_decide_eq_true_1 in H.
  unfold pread. destruct (phys kernel_space !! a) as [w|] eqn:E; [|done]. apply H in E. lia.
Qed.

Lemma kernel_space_tables j : 0 <= j < 1024 -> pd_present kernel_space j = true -> 768 <= j /\ 0 <= table_of kernel_space j < 2048.
Proof.
  intros Hj. unfold pd_present, table_of. rewrite kernel_space_pd by done. unfold kernel_space_entry.
  destruct ((768 <=? j) && (j <? 1023)) eqn:E1.
  - to_prop. destruct (kernel_entry_fields j) as (_ & _ & ->); lia.
  - destruct (Z.eqb_spec j 1023) as [->|]; [|done]. intros _. split; [lia|]. vm_compute. split; congruence.
Qed.

Lemma program_memory_empty p : user_mapped program_memory p = false.
Proof.
  destruct (user_mapped program_memory p) eqn:E; [|done]. apply user_mapped_present in E as [Hp Hd].
  pose proof (user_page_index p Hp). apply kernel_space_tables in Hd; lia.
Qed.

Lemma program_memory_taken ps : existsb (user_mapped program_memory) ps = false.
Proof. induction ps as [|p ps IH]; [done|]. simpl. by rewrite program_memory_empty. Qed.

Lemma program_memory_wf : user_wf program_memory.
Proof.
  split; try change (tables program_memory) with kernel_space; try change (frames program_memory) with program_frames.
  - split; [apply kernel_space_wf|]. split; [apply program_frames_wf|apply kernel_space_wf].
  - intros j Hj Hp. destruct (kernel_space_tables j Hj Hp). rewrite program_frames_used by lia. split; [lia|]. apply Z.ltb_lt. lia.
  - intros p Hp. exfalso. rewrite program_memory_empty in Hp. by apply diff_false_true.
  - intros p q Hp. exfalso. rewrite program_memory_empty in Hp. by apply diff_false_true.
  - intros f k Hf Hu Hk. rewrite program_frames_used in Hu by lia. apply Z.ltb_ge in Hu.
    rewrite kernel_space_words; [done|]. change PAGE_SIZE with 4096. lia.
  - exists first_kernel_page. split; [done|]. vm_compute. reflexivity.
Qed.

Lemma room_of_run m lo : 256 <= lo < 2 ^ 16 -> (forall f, lo <= f < 2 ^ 16 -> used (frames m) f = false) -> 2 ^ 16 - lo - 768 <= user_room m.
Proof.
  intros Hlo Hu. unfold user_room.
  pose proof (filter_run (fun f => used (frames m) f = false) 256 (lo - 256) (2 ^ 16 - lo)) as Hf.
  replace (lo - 256 + (2 ^ 16 - lo)) with (2 ^ 16 - 256) in Hf by lia. fold (free_frames m) in Hf.
  assert (Ht : alen (missing_tables m) <= alen (seqZ 0 768)).
  { unfold missing_tables, alen. apply inj_le, length_filter. }
  unfold alen in Ht at 2. rewrite length_seqZ in Ht.
  assert (2 ^ 16 - lo <= alen (free_frames m)); [|lia]. apply Hf; [lia|lia|]. intros f Hr. apply Hu. lia.
Qed.

Lemma program_memory_room : 2 ^ 15 <= user_room program_memory.
Proof.
  assert (H : 2 ^ 16 - 2048 - 768 <= user_room program_memory); [|lia]. apply room_of_run; [lia|]. intros f Hf.
  change (frames program_memory) with program_frames. rewrite program_frames_used by lia. apply Z.ltb_ge. lia.
Qed.


(** Loading a program into memory. [ELFLoader::load], with [Memory::alloc] and the page
    tables below it instead of an interface, gives the program its pages and copies it there:
    afterwards an access to
    the address of a byte of a segment is translated to a frame where that byte of the file
    lies, the pages and bytes that were there before are unchanged, and the memory is well
    formed. When a page of the program is taken, the result is [ERROR_LOADING_EXECUTABLE]. *)
Theorem program_loaded_into_memory (m : memory) (f : BufferView) (start : Z) (segs : list segment) (secs : list section) :
  user_wf m -> elf_file f start segs secs -> SELFMAG <= bv_size f -> alen segs <= alen secs -> secs <> [] ->
  Forall (segment_ok f) segs -> pages_needed segs <= user_room m ->
  exists m', ELFLoader_load m f =
      Done (if loadable (user_mapped m) segs
            then Value (mkExecutable start (sc_addr (init_section secs)) (sc_size (init_section secs) / 4))
            else Error ERROR_LOADING_EXECUTABLE, m') /\ user_wf m' /\
    (forall b, user_mapped m (b / PAGE_SIZE) = true -> load_byte m' b = load_byte m b) /\
    (loadable (user_mapped m) segs = true ->
       (forall p, user_mapped m' p = user_mapped m p || bool_decide (p ∈ segs ≫= sg_pages)) /\
       forall sg k, sg ∈ segs -> sg_memsz sg <> 0 -> 0 <= k < sg_filesz sg ->
         load_byte m' (sg_vaddr sg + k) = Done (file_byte f (sg_offset sg + k))).
Proof.
  intros Hwf Hf Hsize Hn Hne Hok Hroom.
  destruct (program_loaded (fun _ => None) m f start segs secs) as (m' & E & Hw & _ & H); [done|by intros q x _|done..|].
  by exists m'.
Qed.

Lemma program_loaded_into_memory_witness :
  exists m', ELFLoader_load program_memory (BufferView_of_ptr (example_program 2)) = Done (Value (mkExecutable 0x8048000 0 0), m') /\
    user_wf m' /\ load_byte m' 0x8048001 = Done 69.
Proof.
  destruct example_program_file as [Hf Hok].
  destruct (program_loaded_into_memory program_memory (BufferView_of_ptr (example_program 2)) 0x8048000
    [mkSegment 0 0x8048000 4 4; mkSegment 4 0x8049000 2 0x1001] [mkSection 0 0 0; mkSection 0 0 0] program_memory_wf Hf)
    as (m' & E & Hwf & _ & Hl); [vm_compute; congruence|vm_compute; congruence|congruence|exact Hok| |].
  - pose proof program_memory_room as H. transitivity (2 ^ 15); [vm_compute; congruence|exact H].
  - assert (Hld : loadable (user_mapped program_memory) [mkSegment 0 0x8048000 4 4; mkSegment 4 0x8049000 2 0x1001] = true)
      by (vm_compute; reflexivity).
    rewrite Hld in E. exists m'. split; [exact E|]. split; [exact Hwf|]. destruct (Hl Hld) as [_ Hb].
    exact (Hb (mkSegment 0 0x8048000 4 4) 1 (list_elem_of_here _ _) ltac:(cbn; congruence) ltac:(cbn; lia)).
Defined.
