(* ===== verification/KernelSpace.v ===== *)
(** * The memory that the kernel starts with

    [Memory::setup] (memory.cpp) with [Paging::setup] (paging.cpp) builds the first page
    tables word by word before paging is on; [Memory::create_new_virtual_space] copies the
    part of the kernel to a new directory for each process. Here it is shown that they give
    what the theorems on memory ask for: [memory_wf] after boot, and [user_wf] in the space
    of a new process, so that a program can be loaded into it. *)
From S2P Require Import Prelude BitArray Scan Physical Paging Memory Buffers Elf AddressSpace.

(** ** Words by frame *)

(** Word [k] of frame [f]. *)
Definition frame_word (s : mmu) (f k : Z) : Z := pread s (f * PAGE_SIZE + 4 * k).

Lemma cell_write s f k w f' k' :
  0 <= k < 1024 -> 0 <= k' < 1024 ->
  frame_word (pwrite s (f * PAGE_SIZE + 4 * k) w) f' k' = if (f' =? f) && (k' =? k) then w else frame_word s f' k'.
Proof.
  intros Hk Hk'. unfold frame_word. destruct (Z.eqb_spec f' f) as [->|Hf], (Z.eqb_spec k' k) as [->|Hkk]; cbn [andb];
    [apply pread_same| | |]; apply pread_other; change PAGE_SIZE with 4096; lia.
Qed.

(** The entry leads to frame [t]. *)
Definition leads (w t : Z) : Prop := truthy (pte_present w) = true /\ pte_frame w = t /\ pte_pse w = 0.

Lemma filled_leads e t flags : 0 <= t < 2 ^ 16 -> present_flags flags -> leads (fill_entry 0 e t flags) t.
Proof. intros Ht Hf. destruct (filled_entry e t flags Ht Hf) as (? & ? & ?). done. Qed.

(** Clearing a page before paging is on. *)
Lemma clear_page s f :
  0 <= f < 2 ^ 16 ->
  exists s', Paging_initialize_page_directory boot_write s (f * PAGE_SIZE) = Done s' /\
    forall f' k, 0 <= k < 1024 -> frame_word s' f' k = if f' =? f then 0 else frame_word s f' k.
Proof.
  intros Hf. unfold Paging_initialize_page_directory, boot_write.
  match goal with |- context [for_ ?turns ?lo ?body ?st] =>
    destruct (for_inv (fun i t => forall f' k, 0 <= k < 1024 -> frame_word t f' k = if (f' =? f) && (k <? i) then 0 else frame_word s f' k)
      body turns lo st) as (s' & E & H) end.
  - intros f' k Hk. rewrite (proj2 (Z.ltb_ge k 0)) by lia. by rewrite andb_false_r.
  - intros i t Hi H. change (0 + Z.of_nat (Z.to_nat NUMBER_OF_PAGE_DIRECOTRY_ENTRIES)) with 1024 in Hi.
    rewrite u32_small by (change PAGE_SIZE with 4096; lia). eexists. split; [reflexivity|]. intros f' k Hk.
    rewrite cell_write, H by lia. destruct (f' =? f); cbn [andb]; [|done].
    destruct (Z.eqb_spec k i), (Z.ltb_spec k i), (Z.ltb_spec k (i + 1)); try lia; done.
  - exists s'. split; [exact E|]. intros f' k Hk. rewrite H by done.
    change (0 + Z.of_nat (Z.to_nat NUMBER_OF_PAGE_DIRECOTRY_ENTRIES)) with 1024. rewrite (proj2 (Z.ltb_lt k 1024)) by lia.
    by rewrite andb_true_r.
Qed.

Lemma clear_table write s a : Paging_initialize_page_table write s a = Paging_initialize_page_directory write s a.
Proof.
  unfold Paging_initialize_page_table, Paging_initialize_page_directory, NUMBER_OF_PAGE_TABLE_ENTRIES, NUMBER_OF_PAGE_DIRECOTRY_ENTRIES.
  reflexivity.
Qed.

(** ** Boot *)

Section boot.
Context (fd ft fb n : Z).
Context (Hn : 0 < n) (Hlow : 256 + n <= 2048).
Context (Hd : 256 <= fd < 256 + n) (Ht : 256 <= ft /\ ft + 256 <= 256 + n) (Hb : 256 <= fb /\ fb + 2 <= 256 + n).
Context (Hdt : ~ (ft <= fd < ft + 256)) (Hdb : ~ (fb <= fd < fb + 2)) (Htb : ft + 256 <= fb \/ fb + 2 <= ft).

(** The frames of the tables, by their index in the directory. *)
Definition table_frame (j : Z) : option Z :=
  if j <? 2 then Some (fb + j) else if (768 <=? j) && (j <? 1023) then Some (ft + (j - 768)) else if j =? 1023 then Some fd else None.

Definition is_boot_table (f : Z) : bool := (ft <=? f) && (f <? ft + 256) || (fb <=? f) && (f <? fb + 2).

Definition directory (s : mmu) : Prop :=
  forall j, 0 <= j < 1024 -> match table_frame j with Some t => leads (frame_word s fd j) t | None => frame_word s fd j = 0 end.

Let page_direcotry := KERNEL_BASE + fd * PAGE_SIZE.
Let kernel_page_tables := KERNEL_BASE + ft * PAGE_SIZE.
Let boostrap_page_table := KERNEL_BASE + fb * PAGE_SIZE.

Lemma physical_of f : 0 <= f < 2 ^ 16 -> VIR_TO_PHY (KERNEL_BASE + f * PAGE_SIZE) = f * PAGE_SIZE.
Proof. intros Hf. unfold VIR_TO_PHY. rewrite Z.add_simpl_l. apply u32_small. change PAGE_SIZE with 4096. lia. Qed.

(** The entries of the directory after [i] turns of the first loop and [j] of the second. *)
Definition linking (i j : Z) (s t : mmu) : Prop :=
  (forall k, 768 <= k < 768 + i -> leads (frame_word t fd k) (ft + (k - 768))) /\
  (forall k, 0 <= k < j -> leads (frame_word t fd k) (fb + k)) /\
  (forall k, j <= k < 768 -> frame_word t fd k = 0) /\
  (forall f k, f <> fd -> 0 <= k < 1024 ->
     frame_word t f k = if (ft <=? f) && (f <? ft + i) || (fb <=? f) && (f <? fb + j) then 0 else frame_word s f k).

Definition linked (t : mmu) (index table : Z) : mmu :=
  pwrite t (u32 (fd * PAGE_SIZE + 4 * index)) (Paging_fill_directory_entry (pread t (u32 (fd * PAGE_SIZE + 4 * index)))
    (GET_FRAME table) (Z.lor PAGE_FLAGS_PRESENT PAGE_FLAGS_WRITABLE)).

Lemma link_table t (index f : Z) :
  0 <= index < 1024 -> 0 <= f < 2 ^ 16 ->
  leads (frame_word (linked t index (f * PAGE_SIZE)) fd index) f /\
  forall f' k, 0 <= k < 1024 -> (f', k) <> (fd, index) -> frame_word (linked t index (f * PAGE_SIZE)) f' k = frame_word t f' k.
Proof.
  intros Hi Hf. unfold linked. rewrite u32_small, frame_of_page by (change PAGE_SIZE with 4096; lia). split.
  - rewrite cell_write, !Z.eqb_refl by done. cbn [andb]. by apply filled_leads.
  - intros f' k Hk Hne. rewrite cell_write by done. destruct (Z.eqb_spec f' fd), (Z.eqb_spec k index); cbn [andb]; congruence.
Qed.

(** A turn of the loops: a table is cleared and linked. *)
Lemma table_turn t start i index :
  0 <= index < 1024 -> 0 <= start -> 0 <= i -> start + i < 2 ^ 16 -> start + i <> fd ->
  exists t', (t1 ← Paging_initialize_page_table boot_write t (u32 (start * PAGE_SIZE + PAGE_SIZE * i));
      Done (linked t1 index (u32 (start * PAGE_SIZE + PAGE_SIZE * i)))) = Done t' /\
    leads (frame_word t' fd index) (start + i) /\ (forall k, 0 <= k < 1024 -> k <> index -> frame_word t' fd k = frame_word t fd k) /\
    forall f k, f <> fd -> 0 <= k < 1024 -> frame_word t' f k = if f =? start + i then 0 else frame_word t f k.
Proof.
  intros Hi Hs Hi' Hlim Hne.
  replace (u32 (start * PAGE_SIZE + PAGE_SIZE * i)) with ((start + i) * PAGE_SIZE) by (rewrite u32_small; change PAGE_SIZE with 4096; lia).
  destruct (clear_page t (start + i)) as (t1 & E & Hc); [lia|]. rewrite clear_table, E. cbn [mbind exec_bind].
  destruct (link_table t1 index (start + i)) as [Hl Hk]; [lia|lia|]. eexists. split; [reflexivity|]. split; [exact Hl|]. split.
  - intros k Hkr Hk'. rewrite Hk by (lia || congruence). rewrite Hc by done. by rewrite (proj2 (Z.eqb_neq fd (start + i))) by lia.
  - intros f k Hf Hkr. rewrite Hk by (lia || congruence). by apply Hc.
Qed.

Lemma kernel_table_turn s t i : 0 <= i < 256 -> linking i 0 s t ->
  exists t', (t1 ← Paging_initialize_page_table boot_write t (u32 (ft * PAGE_SIZE + PAGE_SIZE * i));
      Done (linked t1 (i + 768) (u32 (ft * PAGE_SIZE + PAGE_SIZE * i)))) = Done t' /\ linking (i + 1) 0 s t'.
Proof.
  intros Hi (L1 & L2 & L3 & L4). destruct (table_turn t ft i (i + 768)) as (t' & E & Hl & Hd' & Hc); [lia..|].
  exists t'. split; [exact E|]. split; [|split; [|split]].
  - intros k Hk. destruct (Z.eq_dec k (i + 768)) as [->|]; [replace (ft + (i + 768 - 768)) with (ft + i) by lia; exact Hl|].
    rewrite Hd' by lia. apply L1. lia.
  - intros k Hk. lia.
  - intros k Hk. rewrite Hd' by lia. by apply L3.
  - intros f k Hf Hk. rewrite Hc by done. destruct (Z.eqb_spec f (ft + i)) as [->|].
    + by replace ((ft <=? ft + i) && (ft + i <? ft + (i + 1)) || (fb <=? ft + i) && (ft + i <? fb + 0)) with true by lia.
    + rewrite L4 by done. match goal with |- (if ?a then _ else _) = (if ?b then _ else _) => by replace b with a by lia end.
Qed.

Lemma low_table_turn s t i : 0 <= i < 2 -> linking 256 i s t ->
  exists t', (t1 ← Paging_initialize_page_table boot_write t (u32 (fb * PAGE_SIZE + PAGE_SIZE * i));
      Done (linked t1 i (u32 (fb * PAGE_SIZE + PAGE_SIZE * i)))) = Done t' /\ linking 256 (i + 1) s t'.
Proof.
  intros Hi (L1 & L2 & L3 & L4). destruct (table_turn t fb i i) as (t' & E & Hl & Hd' & Hc); [lia..|].
  exists t'. split; [exact E|]. split; [|split; [|split]].
  - intros k Hk. rewrite Hd' by lia. apply L1. lia.
  - intros k Hk. destruct (Z.eq_dec k i) as [->|]; [exact Hl|]. rewrite Hd' by lia. apply L2. lia.
  - intros k Hk. rewrite Hd' by lia. apply L3. lia.
  - intros f k Hf Hk. rewrite Hc by done. destruct (Z.eqb_spec f (fb + i)) as [->|].
    + by replace ((ft <=? fb + i) && (fb + i <? ft + 256) || (fb <=? fb + i) && (fb + i <? fb + (i + 1))) with true by lia.
    + rewrite L4 by done. match goal with |- (if ?a then _ else _) = (if ?b then _ else _) => by replace b with a by lia end.
Qed.

Lemma directory_linked s t : linking 256 2 s t ->
  directory (linked t RECURSIVE_ENTRY (fd * PAGE_SIZE)) /\
  forall f k, f <> fd -> 0 <= k < 1024 -> frame_word (linked t RECURSIVE_ENTRY (fd * PAGE_SIZE)) f k = if is_boot_table f then 0 else frame_word s f k.
Proof.
  intros (L1 & L2 & L3 & L4). change RECURSIVE_ENTRY with 1023. destruct (link_table t 1023 fd) as [Hl Hk]; [lia|lia|]. split.
  - intros j Hj. unfold table_frame. destruct (Z.ltb_spec j 2).
    { rewrite Hk by (lia || (intros [=]; lia)). apply L2. lia. }
    destruct (Z.leb_spec 768 j); cbn [andb].
    + destruct (Z.ltb_spec j 1023).
      { rewrite Hk by (lia || (intros [=]; lia)). apply L1. lia. }
      replace j with 1023 by lia. exact Hl.
    + rewrite (proj2 (Z.eqb_neq j 1023)) by lia. rewrite Hk by (lia || (intros [=]; lia)). apply L3. lia.
  - intros f k Hf Hkr. rewrite Hk by (lia || congruence). by rewrite L4.
Qed.

Lemma kernel_tables_linked s s0 : linking 0 0 s s0 ->
  exists s1, for_ (Z.to_nat FULL_KERNEL_PAGES) 0 (fun i t =>
    t1 ← Paging_initialize_page_table boot_write t (u32 (ft * PAGE_SIZE + PAGE_SIZE * i));
    Done (linked t1 (i + 768) (u32 (ft * PAGE_SIZE + PAGE_SIZE * i)))) s0 = Done s1 /\ linking 256 0 s s1.
Proof.
  intros H0. change (Z.to_nat FULL_KERNEL_PAGES) with (Z.to_nat 256). apply (for_inv (fun i t => linking i 0 s t)); [exact H0|].
  intros i t Hi. apply kernel_table_turn. lia.
Qed.

Lemma low_tables_linked s s1 : linking 256 0 s s1 ->
  exists s2, for_ 2 0 (fun i t =>
    t1 ← Paging_initialize_page_table boot_write t (u32 (fb * PAGE_SIZE + PAGE_SIZE * i));
    Done (linked t1 i (u32 (fb * PAGE_SIZE + PAGE_SIZE * i)))) s1 = Done s2 /\ linking 256 2 s s2.
Proof.
  intros H1. apply (for_inv (fun i t => linking 256 i s t)); [exact H1|]. intros i t Hi. apply low_table_turn. lia.
Qed.

Lemma setup_page_tables_linked s :
  Paging_setup_page_tables page_direcotry kernel_page_tables boostrap_page_table s =
    (s0 ← Paging_initialize_page_directory boot_write s (fd * PAGE_SIZE);
     s1 ← for_ (Z.to_nat FULL_KERNEL_PAGES) 0 (fun i t =>
       t1 ← Paging_initialize_page_table boot_write t (u32 (ft * PAGE_SIZE + PAGE_SIZE * i));
       Done (linked t1 (i + 768) (u32 (ft * PAGE_SIZE + PAGE_SIZE * i)))) s0;
     s2 ← for_ 2 0 (fun i t =>
       t1 ← Paging_initialize_page_table boot_write t (u32 (fb * PAGE_SIZE + PAGE_SIZE * i));
       Done (linked t1 i (u32 (fb * PAGE_SIZE + PAGE_SIZE * i)))) s1;
     Done (linked s2 RECURSIVE_ENTRY (fd * PAGE_SIZE))).
Proof.
  unfold Paging_setup_page_tables, page_direcotry, kernel_page_tables, boostrap_page_table, linked. cbv zeta.
  rewrite !physical_of by lia. change (GET_PDE_INDEX KERNEL_BASE) with 768. reflexivity.
Qed.

Lemma nothing_linked s s0 :
  (forall f' k, 0 <= k < 1024 -> frame_word s0 f' k = if f' =? fd then 0 else frame_word s f' k) -> linking 0 0 s s0.
Proof.
  intros H0. split; [intros k Hk; lia|]. split; [intros k Hk; lia|]. split.
  - intros k Hk. rewrite H0 by lia. by rewrite Z.eqb_refl.
  - intros f k Hf Hk. rewrite H0, (proj2 (Z.eqb_neq f fd)) by done.
    by replace ((ft <=? f) && (f <? ft + 0) || (fb <=? f) && (f <? fb + 0)) with false by lia.
Qed.

Lemma tables_set_up s :
  exists s', Paging_setup_page_tables page_direcotry kernel_page_tables boostrap_page_table s = Done s' /\ directory s' /\
    forall f k, f <> fd -> 0 <= k < 1024 -> frame_word s' f k = if is_boot_table f then 0 else frame_word s f k.
Proof.
  destruct (clear_page s fd) as (s0 & E0 & H0); [lia|]. destruct (kernel_tables_linked s s0 (nothing_linked s s0 H0)) as (s1 & E1 & H1).
  destruct (low_tables_linked s s1 H1) as (s2 & E2 & H2). exists (linked s2 RECURSIVE_ENTRY (fd * PAGE_SIZE)).
  split; [|exact (directory_linked s s2 H2)]. rewrite setup_page_tables_linked, E0, bind_Done, E1, bind_Done, E2, bind_Done. reflexivity.
Qed.

(** The entry of page [p] in the tables of the directory. *)
Definition leaf (s : mmu) (p : Z) : Z := match table_frame (p / 1024) with Some t => frame_word s t (p mod 1024) | None => 0 end.

Lemma table_frame_range j t : 0 <= j < 1023 -> table_frame j = Some t -> is_boot_table t = true /\ t <> fd /\ 256 <= t < 2048.
Proof.
  intros Hj. unfold table_frame, is_boot_table. destruct (Z.ltb_spec j 2); [intros [= <-]; lia|].
  destruct (Z.leb_spec 768 j), (Z.ltb_spec j 1023); cbn [andb]; try lia; [intros [= <-]; lia|].
  by rewrite (proj2 (Z.eqb_neq j 1023)) by lia.
Qed.

Lemma table_frame_inj i j t : 0 <= i < 1024 -> 0 <= j < 1024 -> table_frame i = Some t -> table_frame j = Some t -> i = j.
Proof.
  intros Hi Hj. unfold table_frame.
  destruct (Z.ltb_spec i 2), (Z.ltb_spec j 2), (Z.leb_spec 768 i), (Z.leb_spec 768 j), (Z.ltb_spec i 1023), (Z.ltb_spec j 1023),
    (Z.eqb_spec i 1023), (Z.eqb_spec j 1023); cbn [andb]; intros [=] [=]; lia.
Qed.

Definition boot_flags : Z := Z.lor (Z.lor PAGE_FLAGS_PRESENT PAGE_FLAGS_WRITABLE) PAGE_FLAGS_GLOBAL.

Definition boot_page_turn (_ : Z) (st : mmu * Z * Z) : exec (mmu * Z * Z) :=
  let '(s, current_v_page, current_p_page) := st in
  let entry := u32 (u32 (pte_frame (pread s (u32 (fd * PAGE_SIZE + 4 * GET_PDE_INDEX current_v_page))) * PAGE_SIZE) +
                    4 * GET_PTE_INDEX current_v_page) in
  Done (pwrite s entry (Paging_fill_page_table_entry (pread s entry) (GET_FRAME current_p_page) boot_flags),
        u32 (current_v_page + PAGE_SIZE), u32 (current_p_page + PAGE_SIZE)).

Lemma map_boot_pages_turns s va pa pages :
  Paging_map_boot_pages page_direcotry s va pa pages =
    ('(s, _, _) ← for_ (Z.to_nat pages) 0 boot_page_turn (s, va, pa); Done s).
Proof.
  unfold Paging_map_boot_pages, page_direcotry, boot_page_turn, boot_flags. cbv zeta. by rewrite physical_of by lia.
Qed.

(** Pages [p0] on lead to the frames [q0] on. *)
Record boot_mapped (p0 q0 i : Z) (s t : mmu) : Prop := {
  bm_directory : directory t;
  bm_there : forall p, p0 <= p < p0 + i -> leads (leaf t p) (q0 + (p - p0));
  bm_others : forall p, 0 <= p < window_page -> ~ (p0 <= p < p0 + i) -> leaf t p = leaf s p;
  bm_frames : forall f k, is_boot_table f = false -> 0 <= k < 1024 -> frame_word t f k = frame_word s f k
}.

Lemma boot_page_mapped p0 q0 i s t :
  0 <= p0 -> 0 <= i -> p0 + i < window_page -> is_Some (table_frame ((p0 + i) / 1024)) -> 0 <= q0 -> q0 + i < 2 ^ 16 ->
  boot_mapped p0 q0 i s t ->
  exists t', boot_page_turn i (t, (p0 + i) * PAGE_SIZE, (q0 + i) * PAGE_SIZE) =
      Done (t', (p0 + (i + 1)) * PAGE_SIZE, (q0 + (i + 1)) * PAGE_SIZE) /\ boot_mapped p0 q0 (i + 1) s t'.
Proof.
  intros Hp0 Hi Hw [tf Htf] Hq0 Hq [Hdir Hthere Hothers Hframes]. unfold window_page in *.
  assert (Hj : 0 <= (p0 + i) / 1024 < 1023) by zdiv. assert (Hk : 0 <= (p0 + i) mod 1024 < 1024) by zdiv.
  destruct (table_frame_range _ _ Hj Htf) as (Hbt & Hfd & Htr).
  pose proof (Hdir ((p0 + i) / 1024) ltac:(lia)) as Hl. rewrite Htf in Hl. destruct Hl as (_ & Hl & _). unfold frame_word in Hl.
  unfold boot_page_turn. rewrite PDE_of_page, PTE_of_page, frame_of_page.
  rewrite (u32_small (fd * PAGE_SIZE + _)), Hl, (u32_small (tf * PAGE_SIZE)) by (change PAGE_SIZE with 4096; lia). rewrite !u32_small by (change PAGE_SIZE with 4096; lia).
  replace ((p0 + i) * PAGE_SIZE + PAGE_SIZE) with ((p0 + (i + 1)) * PAGE_SIZE) by lia.
  replace ((q0 + i) * PAGE_SIZE + PAGE_SIZE) with ((q0 + (i + 1)) * PAGE_SIZE) by lia.
  set (w := Paging_fill_page_table_entry _ _ _). eexists. split; [reflexivity|].
  assert (Hc : forall f k, 0 <= k < 1024 -> frame_word (pwrite t (tf * PAGE_SIZE + 4 * ((p0 + i) mod 1024)) w) f k =
    if (f =? tf) && (k =? (p0 + i) mod 1024) then w else frame_word t f k) by (intros; by apply cell_write).
  assert (Hleaf : forall p, 0 <= p < 1023 * 1024 -> leaf (pwrite t (tf * PAGE_SIZE + 4 * ((p0 + i) mod 1024)) w) p =
    if p =? p0 + i then w else leaf t p).
  { intros p Hp. unfold leaf. destruct (Z.eqb_spec p (p0 + i)) as [->|Hne]; [by rewrite Htf, Hc, !Z.eqb_refl by done|].
    destruct (table_frame (p / 1024)) as [t'|] eqn:Et; [|done]. rewrite Hc by zdiv. destruct (Z.eqb_spec t' tf) as [->|]; [|done].
    assert (p / 1024 = (p0 + i) / 1024) by (apply (table_frame_inj _ _ tf); [zdiv|lia|done|done]).
    destruct (Z.eqb_spec (p mod 1024) ((p0 + i) mod 1024)); [zdiv|done]. }
  split.
  - intros j Hjr. rewrite Hc by done. rewrite (proj2 (Z.eqb_neq fd tf)) by done. by apply Hdir.
  - intros p Hp. rewrite Hleaf by lia. destruct (Z.eqb_spec p (p0 + i)) as [->|].
    + replace (q0 + (p0 + i - p0)) with (q0 + i) by lia. apply filled_leads; [lia|reflexivity].
    + apply Hthere. lia.
  - intros p Hp Hout. rewrite Hleaf by done. rewrite (proj2 (Z.eqb_neq p (p0 + i))) by lia. apply Hothers; [done|lia].
  - intros f k Hf Hkr. rewrite Hc by done. rewrite (proj2 (Z.eqb_neq f tf)) by congruence. by apply Hframes.
Qed.

Lemma boot_pages_mapped s p0 q0 :
  directory s -> 0 <= p0 -> p0 + n < window_page -> (forall p, p0 <= p < p0 + n -> is_Some (table_frame (p / 1024))) ->
  0 <= q0 -> q0 + n < 2 ^ 16 ->
  exists s', Paging_map_boot_pages page_direcotry s (p0 * PAGE_SIZE) (q0 * PAGE_SIZE) n = Done s' /\ boot_mapped p0 q0 n s s'.
Proof.
  intros Hdir Hp0 Hw Htab Hq0 Hq. rewrite map_boot_pages_turns.
  destruct (for_inv (fun i (st : mmu * Z * Z) => exists t, st = (t, (p0 + i) * PAGE_SIZE, (q0 + i) * PAGE_SIZE) /\ boot_mapped p0 q0 i s t)
    boot_page_turn (Z.to_nat n) 0 (s, p0 * PAGE_SIZE, q0 * PAGE_SIZE)) as (st & E & t & -> & Hm).
  - exists s. rewrite !Z.add_0_r. split; [done|]. split; [done|intros; lia|done|done].
  - intros i st Hi (t & -> & Hm). destruct (boot_page_mapped p0 q0 i s t) as (t' & E & Hm'); [lia|lia|lia|apply Htab; lia|lia|lia|done|].
    eexists. split; [exact E|]. by exists t'.
  - rewrite E, bind_Done. exists t. split; [done|]. by rewrite Z.add_0_l, Z2Nat.id in Hm by lia.
Qed.

(** What [Paging::setup] makes: the kernel at its physical addresses and in the higher half,
    and nothing else. *)
Definition boot_frame (p : Z) : option Z :=
  if (256 <=? p) && (p <? 256 + n) then Some p
  else if (first_kernel_page <=? p) && (p <? first_kernel_page + n) then Some (p - KERNEL_BASE / PAGE_SIZE)
  else None.

Record boot_space (s s' : mmu) : Prop := {
  bs_cr3 : cr3 s' = fd * PAGE_SIZE;
  bs_directory : directory s';
  bs_leaves : forall p, 0 <= p < window_page -> match boot_frame p with Some f => leads (leaf s' p) f | None => leaf s' p = 0 end;
  bs_frames : forall f k, is_boot_table f = false -> f <> fd -> 0 <= k < 1024 -> frame_word s' f k = frame_word s f k
}.

Lemma low_table p : 256 <= p < 256 + n -> is_Some (table_frame (p / 1024)).
Proof. intros Hp. unfold table_frame. rewrite (proj2 (Z.ltb_lt _ _)) by zdiv. by eexists. Qed.

Lemma high_table p : first_kernel_page <= p < first_kernel_page + n -> is_Some (table_frame (p / 1024)).
Proof.
  unfold first_kernel_page. intros Hp. unfold table_frame. rewrite (proj2 (Z.ltb_ge _ _)) by zdiv.
  rewrite (proj2 (Z.leb_le _ _)), (proj2 (Z.ltb_lt _ _)) by zdiv. by eexists.
Qed.

Lemma space_mapped s s0 s1 s2 s3 :
  (forall f k, 0 <= k < 1024 -> frame_word s0 f k = if f =? fd then 0 else frame_word s f k) ->
  (forall f k, f <> fd -> 0 <= k < 1024 -> frame_word s1 f k = if is_boot_table f then 0 else frame_word s0 f k) ->
  boot_mapped 256 256 n s1 s2 -> boot_mapped first_kernel_page 256 n s2 s3 ->
  boot_space s (Paging_load_page_directory s3 (fd * PAGE_SIZE)).
Proof.
  intros H0 Hc1 H2 H3. split; [done|apply H3| |].
  - intros p Hp. change (leaf (Paging_load_page_directory s3 (fd * PAGE_SIZE)) p) with (leaf s3 p).
    assert (Hzero : leaf s1 p = 0).
    { unfold leaf. destruct (table_frame (p / 1024)) as [t|] eqn:Et; [|done]. unfold window_page in Hp.
      destruct (table_frame_range (p / 1024) t ltac:(zdiv) Et) as (Hbt & Hfd & _).
      rewrite Hc1; [by rewrite Hbt|exact Hfd|apply Z.mod_pos_bound; lia]. }
    unfold boot_frame. destruct ((256 <=? p) && (p <? 256 + n)) eqn:E.
    + to_prop. rewrite (bm_others _ _ _ _ _ H3) by (done || unfold first_kernel_page; lia).
      replace p with (256 + (p - 256)) at 2 by lia. apply (bm_there _ _ _ _ _ H2). lia.
    + destruct ((first_kernel_page <=? p) && (p <? first_kernel_page + n)) eqn:E'.
      * to_prop. replace (p - KERNEL_BASE / PAGE_SIZE) with (256 + (p - first_kernel_page)) by
          (change (KERNEL_BASE / PAGE_SIZE) with 0xC0000; unfold first_kernel_page; lia).
        apply (bm_there _ _ _ _ _ H3). lia.
      * rewrite (bm_others _ _ _ _ _ H3), (bm_others _ _ _ _ _ H2) by (done || lia). done.
  - intros f k Hf Hfd Hk. change (frame_word (Paging_load_page_directory s3 (fd * PAGE_SIZE)) f k) with (frame_word s3 f k).
    rewrite (bm_frames _ _ _ _ _ H3 f k Hf Hk), (bm_frames _ _ _ _ _ H2 f k Hf Hk), (Hc1 f k Hfd Hk), Hf, (H0 f k Hk).
    by rewrite (proj2 (Z.eqb_neq f fd) Hfd).
Qed.

Lemma paging_set_up s :
  exists s', Paging_setup page_direcotry kernel_page_tables boostrap_page_table s n = Done s' /\ boot_space s s'.
Proof.
  destruct (clear_page s fd) as (s0 & E0 & H0); [lia|]. destruct (tables_set_up s0) as (s1 & E1 & Hd1 & Hc1).
  destruct (boot_pages_mapped s1 256 256 Hd1) as (s2 & E2 & H2); [lia|unfold window_page; lia|apply low_table|lia|lia|].
  destruct (boot_pages_mapped s2 first_kernel_page 256 (bm_directory _ _ _ _ _ H2)) as (s3 & E3 & H3);
    [unfold first_kernel_page; lia|unfold window_page, first_kernel_page; lia|apply high_table|lia|lia|].
  exists (Paging_load_page_directory s3 (fd * PAGE_SIZE)). split; [|exact (space_mapped s s0 s1 s2 s3 H0 Hc1 H2 H3)].
  unfold Paging_setup. cbv zeta. replace (VIR_TO_PHY page_direcotry) with (fd * PAGE_SIZE) by (symmetry; apply physical_of; lia).
  rewrite E0, bind_Done, E1, bind_Done. change KERNEL_PHYSICAL_ADDRESS with (256 * PAGE_SIZE).
  change KERNEL_VIRTUAL_ADDRESS with (first_kernel_page * PAGE_SIZE). rewrite E2, bind_Done, E3, bind_Done. reflexivity.
Qed.

(** ** The space is usable *)

Section space.
Context (s s' : mmu) (Hbs : boot_space s s').

Lemma boot_pd_entry j : pd_entry s' j = frame_word s' fd j.
Proof. unfold pd_entry, pd_address, frame_word. by rewrite (bs_cr3 _ _ Hbs), frame_of_page. Qed.

Lemma boot_pd j : 0 <= j < 1024 ->
  pd_present s' j = bool_decide (is_Some (table_frame j)) /\ (forall t, table_frame j = Some t -> table_of s' j = t) /\
  (pd_present s' j = true -> pte_pse (pd_entry s' j) = 0).
Proof.
  intros Hj. pose proof (bs_directory _ _ Hbs j Hj) as H. unfold pd_present, table_of. rewrite boot_pd_entry.
  destruct (table_frame j) as [t|].
  - destruct H as (-> & <- & Hp). rewrite bool_decide_eq_true_2 by by eexists. split; [done|]. split; [by intros ? [= <-]|done].
  - rewrite H. rewrite bool_decide_eq_false_2 by by intros []. split; [done|]. split; [done|]. intros Hf. exfalso. revert Hf. by vm_compute.
Qed.

Lemma boot_table j : 0 <= j < 1024 -> pd_present s' j = true -> table_frame j = Some (table_of s' j).
Proof.
  intros Hj Hp. destruct (boot_pd j Hj) as (E & Hto & _). rewrite Hp in E. symmetry in E. apply bool_decide_eq_true_1 in E as [t Et].
  by rewrite (Hto t Et).
Qed.

Lemma boot_paging_wf : paging_wf s'.
Proof.
  assert (Er : table_frame 1023 = Some fd) by done. split.
  - change RECURSIVE_ENTRY with 1023. destruct (boot_pd 1023) as (-> & Hto & _); [lia|]. rewrite (Hto fd Er), (bs_cr3 _ _ Hbs), frame_of_page.
    split; [by apply bool_decide_eq_true_2; eexists|done].
  - intros j Hj. by destruct (boot_pd j Hj) as (_ & _ & Hp).
  - intros i j Hi Hj Hpi Hpj Et. apply (table_frame_inj i j (table_of s' i)); [done|done|by apply boot_table|]. rewrite Et. by apply boot_table.
Qed.

Lemma boot_kernel_tables : kernel_tables s'.
Proof.
  intros j Hj. destruct (boot_pd j) as (-> & _); [lia|]. apply bool_decide_eq_true_2. unfold table_frame.
  rewrite (proj2 (Z.ltb_ge _ _)), (proj2 (Z.leb_le _ _)), (proj2 (Z.ltb_lt _ _)) by lia. by eexists.
Qed.

Lemma boot_pages p : 0 <= p < window_page ->
  page_present s' p = bool_decide (is_Some (boot_frame p)) /\ forall f, boot_frame p = Some f -> frame_at s' p = f.
Proof.
  intros Hp. pose proof (bs_leaves _ _ Hbs p Hp) as H. assert (Hj : 0 <= p / 1024 < 1024) by (unfold window_page in Hp; zdiv).
  destruct (boot_pd (p / 1024) Hj) as (Epd & Hto & _). unfold page_present. rewrite Epd. unfold leaf in H.
  destruct (table_frame (p / 1024)) as [t|] eqn:Et.
  - assert (Ee : entry s' p = frame_word s' t (p mod 1024)) by (unfold entry; rewrite pt_address_page, (Hto t eq_refl); done).
    unfold frame_at. rewrite Ee. rewrite (bool_decide_eq_true_2 (is_Some (Some t))) by by eexists. cbn [andb].
    destruct (boot_frame p) as [f|].
    + destruct H as (-> & <- & _). rewrite bool_decide_eq_true_2 by by eexists. split; [done|]. by intros ? [= <-].
    + rewrite H, bool_decide_eq_false_2 by by intros []. done.
  - rewrite (bool_decide_eq_false_2 (is_Some None)) by by intros []. cbn [andb]. destruct (boot_frame p) as [f|].
    + destruct H as (Hf & _). exfalso. revert Hf. by vm_compute.
    + by rewrite bool_decide_eq_false_2 by by intros [].
Qed.

End space.

End boot.

(** ** [Memory::setup] *)

(** Where the linker puts the tables: in the pages of the kernel, which the two low tables
    reach, and apart from each other. *)
Record boot_layout (fd ft fb n : Z) : Prop := {
  bl_size : 0 < n /\ 256 + n <= 2048;
  bl_directory : 256 <= fd < 256 + n;
  bl_tables : 256 <= ft /\ ft + 256 <= 256 + n;
  bl_low : 256 <= fb /\ fb + 2 <= 256 + n;
  bl_apart : ~ (ft <= fd < ft + 256) /\ ~ (fb <= fd < fb + 2) /\ (ft + 256 <= fb \/ fb + 2 <= ft)
}.

(** What a memory has that spaces for processes can be made from: the directory of boot is
    mapped at [page_direcotry] and agrees with the current one on the part of the kernel. *)
Record kernel_shared (page_direcotry : Z) (m : memory) : Prop := {
  ks_memory : memory_wf m;
  ks_tables : forall j, 0 <= j < 1024 -> pd_present (tables m) j = true -> 0 <= table_of (tables m) j /\ used (frames m) (table_of (tables m) j) = true;
  ks_clear : forall f k, 256 <= f < 2 ^ 16 -> used (frames m) f = false -> 0 <= k < 1024 -> truthy (pte_present (frame_word (tables m) f k)) = false;
  ks_kernel : exists g, first_kernel_page <= g < last_kernel_page /\ page_present (tables m) g = false;
  ks_directory : exists p fd, page_direcotry = p * PAGE_SIZE /\ 0 <= p < window_page /\ page_present (tables m) p = true /\
    frame_at (tables m) p = fd /\ 0 <= fd /\ used (frames m) fd = true /\
    forall k, 768 <= k < 1023 -> frame_word (tables m) fd k = pd_entry (tables m) k /\ table_of (tables m) k <> fd
}.

Section setup.
Context (fd ft fb n : Z) (Hlayout : boot_layout fd ft fb n) (KERNEL_START KERNEL_END : Z).
Context (Hpages : Memory_get_kernel_pages KERNEL_START KERNEL_END = n).

Abbreviation page_direcotry := (KERNEL_BASE + fd * PAGE_SIZE).

Lemma memory_setup_made s :
  exists s' fr, Memory_setup KERNEL_START KERNEL_END page_direcotry (KERNEL_BASE + ft * PAGE_SIZE) (KERNEL_BASE + fb * PAGE_SIZE) s =
      Done (mkMemory s' fr) /\ boot_space fd ft fb n s s' /\ Phys_wf fr /\ forall q, 0 <= q -> used fr q = in_run 256 n q.
Proof.
  destruct Hlayout as [[Hn Hlow] Hd Ht Hb (Hdt & Hdb & Htb)].
  destruct (paging_set_up fd ft fb n Hn Hlow Hd Ht Hb Hdt Hdb Htb s) as (s' & E & Hs').
  destruct (set_used_pages_spec PhysicalMemory_setup setup_wf n ltac:(lia) 256) as (fr & Ef & Hfr & _ & Hu);
    [lia|unfold MAX_PHYSICAL_4K_PAGES; lia|].
  exists s', fr. unfold Memory_setup. rewrite Hpages, E, bind_Done. change (GET_FRAME KERNEL_PHYSICAL_ADDRESS) with 256.
  rewrite Ef, bind_Done. split; [done|]. split; [done|]. split; [done|]. intros q Hq. rewrite Hu by done.
  unfold used at 1, PhysicalMemory_setup. cbn [physical_memory_tracer]. by rewrite bit_on_zeros.
Qed.

Lemma boot_tables_in_kernel s s' j : boot_space fd ft fb n s s' -> 0 <= j < 1024 -> pd_present s' j = true -> 256 <= table_of s' j < 256 + n.
Proof.
  destruct Hlayout as [[Hn Hlow] Hd Ht Hb (Hdt & Hdb & Htb)]. intros Hs Hj Hp. eapply boot_table in Hp; [|done..]. unfold table_frame in Hp.
  destruct (Z.ltb_spec j 2); [injection Hp as <-; lia|].
  destruct ((768 <=? j) && (j <? 1023)) eqn:Ej; [injection Hp as <-; lia|]. destruct (j =? 1023); [injection Hp as <-; lia|done].
Qed.

Lemma setup_shared s s' fr :
  boot_space fd ft fb n s s' -> Phys_wf fr -> (forall q, 0 <= q -> used fr q = in_run 256 n q) ->
  (forall f k, 256 + n <= f < 2 ^ 16 -> 0 <= k < 1024 -> truthy (pte_present (frame_word s f k)) = false) ->
  kernel_shared page_direcotry (mkMemory s' fr).
Proof.
  destruct Hlayout as [[Hn Hlow] Hd Ht Hb (Hdt & Hdb & Htb)]. intros Hs Hpw Hu Hclear.
  assert (Hpg : forall p, 0 <= p < window_page -> page_present s' p = bool_decide (is_Some (boot_frame n p)) /\
    forall f, boot_frame n p = Some f -> frame_at s' p = f) by (intros p Hp; by eapply boot_pages).
  split; cbn [tables frames].
  - split; [by eapply boot_paging_wf|]. split; [done|by eapply boot_kernel_tables].
  - intros j Hj Hp. pose proof (boot_tables_in_kernel s s' j Hs Hj Hp) as H. split; [lia|]. rewrite Hu by lia. unfold in_run. lia.
  - intros f k Hf Huf Hk. rewrite Hu in Huf by lia. unfold in_run in Huf.
    rewrite (bs_frames _ _ _ _ _ _ Hs) by (done || unfold is_boot_table; lia). apply Hclear; [lia|done].
  - exists (first_kernel_page + n). unfold first_kernel_page, last_kernel_page. split; [lia|].
    destruct (Hpg (0xC0100 + n)) as [-> _]; [unfold window_page; lia|]. apply bool_decide_eq_false_2. unfold boot_frame, first_kernel_page.
    destruct ((256 <=? 0xC0100 + n) && _) eqn:E1; [lia|]. destruct ((0xC0100 <=? 0xC0100 + n) && _) eqn:E2; [lia|]. by intros [].
  - assert (Ef : boot_frame n (KERNEL_BASE / PAGE_SIZE + fd) = Some fd).
    { change (KERNEL_BASE / PAGE_SIZE) with 0xC0000. unfold boot_frame, first_kernel_page. change (KERNEL_BASE / PAGE_SIZE) with 0xC0000.
      destruct ((256 <=? _) && _) eqn:E1; [lia|]. destruct ((0xC0100 <=? _) && _) eqn:E2; [|lia]. f_equal. lia. }
    destruct (Hpg (KERNEL_BASE / PAGE_SIZE + fd)) as [Ep Efr]; [change (KERNEL_BASE / PAGE_SIZE) with 0xC0000; unfold window_page; lia|].
    exists (KERNEL_BASE / PAGE_SIZE + fd), fd. split; [change KERNEL_BASE with (0xC0000 * PAGE_SIZE) at 1; change (KERNEL_BASE / PAGE_SIZE) with 0xC0000; lia|].
    split; [change (KERNEL_BASE / PAGE_SIZE) with 0xC0000; unfold window_page; lia|].
    split; [rewrite Ep; apply bool_decide_eq_true_2; by rewrite Ef|]. split; [by apply Efr|]. split; [lia|].
    split; [rewrite Hu by lia; unfold in_run; lia|]. intros k Hk. split; [symmetry; by eapply boot_pd_entry|].
    destruct (boot_pd fd ft fb n s s' Hs k) as (_ & Hto & _); [lia|]. unfold table_frame in Hto.
    rewrite (proj2 (Z.ltb_ge k 2)), (proj2 (Z.leb_le 768 k)), (proj2 (Z.ltb_lt k 1023)) in Hto by lia. rewrite (Hto _ eq_refl). lia.
Qed.

Lemma setup_translate s s' v :
  boot_space fd ft fb n s s' -> 0 <= v < 2 ^ 32 -> page_of v < window_page -> translate s' v =
    if (KERNEL_PHYSICAL_ADDRESS <=? v) && (v <? KERNEL_PHYSICAL_ADDRESS + n * PAGE_SIZE) then Done v
    else if (KERNEL_VIRTUAL_ADDRESS <=? v) && (v <? KERNEL_VIRTUAL_ADDRESS + n * PAGE_SIZE) then Done (v - KERNEL_BASE)
    else Fault.
Proof.
  destruct Hlayout as [[Hn Hlow] Hd Ht Hb (Hdt & Hdb & Htb)]. intros Hs Hv Hw. assert (Hwf : paging_wf s') by by eapply boot_paging_wf.
  assert (Ev : v = page_of v * PAGE_SIZE + v mod PAGE_SIZE /\ 0 <= v mod PAGE_SIZE < PAGE_SIZE /\ 0 <= page_of v < 2 ^ 20).
  { unfold page_of. change PAGE_SIZE with 4096. change (2 ^ 12) with 4096. zdiv. }
  destruct Ev as (Ev & Ho & Hp). set (off := v mod PAGE_SIZE) in *. clearbody off. set (p := page_of v) in *. clearbody p. rewrite Ev.
  assert (Hpg : page_present s' p = bool_decide (is_Some (boot_frame n p)) /\ forall f, boot_frame n p = Some f -> frame_at s' p = f)
    by (eapply boot_pages; (done || lia)).
  destruct Hpg as [Epp Efr]. rewrite translate_entry, Epp by done. unfold boot_frame in *. change (KERNEL_BASE / PAGE_SIZE) with 0xC0000 in *.
  change KERNEL_PHYSICAL_ADDRESS with (256 * PAGE_SIZE). change KERNEL_VIRTUAL_ADDRESS with (first_kernel_page * PAGE_SIZE).
  change KERNEL_BASE with (0xC0000 * PAGE_SIZE). unfold first_kernel_page in *. change PAGE_SIZE with 4096 in *.
  destruct ((256 <=? p) && (p <? 256 + n)) eqn:E1.
  - rewrite bool_decide_eq_true_2 by by eexists. rewrite (Efr p eq_refl). destruct ((256 * 4096 <=? _) && _) eqn:E2; [done|lia].
  - destruct ((256 * 4096 <=? _) && _) eqn:E2; [lia|]. destruct ((0xC0100 <=? p) && _) eqn:E3.
    + rewrite bool_decide_eq_true_2 by by eexists. rewrite (Efr _ eq_refl). destruct ((0xC0100 * 4096 <=? _) && _) eqn:E4; [f_equal; lia|lia].
    + rewrite bool_decide_eq_false_2 by by intros []. destruct ((0xC0100 * 4096 <=? _) && _) eqn:E4; [lia|done].
Qed.

Lemma setup_memory_wf s s' fr : boot_space fd ft fb n s s' -> Phys_wf fr -> memory_wf (mkMemory s' fr).
Proof.
  destruct Hlayout as [[Hn Hlow] Hd Ht Hb (Hdt & Hdb & Htb)]. intros Hs Hpw.
  split; [by eapply boot_paging_wf|]. split; [done|by eapply boot_kernel_tables].
Qed.

End setup.

(** ** Writing a new directory

    A page of the kernel leads to a frame that holds no table: what is written there changes
    nothing of the space. *)
Section filling.
Context (s : mmu) (Hwf : paging_wf s) (g f : Z) (Hg : 0 <= g < window_page) (Hgp : page_present s g = true) (Hgf : frame_at s g = f).
Context (Hf : forall j, 0 <= j < 1024 -> pd_present s j = true -> table_of s j <> f).

Record filling (t : mmu) : Prop := {
  fi_wf : paging_wf t;
  fi_cr3 : cr3 t = cr3 s;
  fi_pd : forall j, 0 <= j < 1024 -> pd_entry t j = pd_entry s j;
  fi_entry : forall p, 0 <= p < 2 ^ 20 -> pd_present s (p / 1024) = true -> entry t p = entry s p;
  fi_cells : forall f' k, f' <> f -> 0 <= k < 1024 -> frame_word t f' k = frame_word s f' k
}.

Lemma filling_start : filling s.
Proof. by split. Qed.

Lemma filling_present t p : filling t -> 0 <= p < 2 ^ 20 -> page_present s p = true -> page_present t p = true /\ frame_at t p = frame_at s p.
Proof.
  intros Ht Hp Hpp. assert (Hj : 0 <= p / 1024 < 1024) by zdiv. unfold page_present, frame_at, pd_present in *.
  rewrite (fi_pd _ Ht) by done. apply andb_prop in Hpp as [Hd Hpp]. by rewrite (fi_entry _ Ht), Hd, Hpp.
Qed.

Lemma filling_translate t p off : filling t -> 0 <= p < 2 ^ 20 -> page_present s p = true -> 0 <= off < PAGE_SIZE ->
  translate t (p * PAGE_SIZE + off) = Done (frame_at s p * PAGE_SIZE + off).
Proof.
  intros Ht Hp Hpp Ho. destruct (filling_present t p Ht Hp Hpp) as [Hpt Hft].
  rewrite translate_entry by (done || apply (fi_wf _ Ht)). by rewrite Hpt, Hft.
Qed.

Lemma filling_table t j : filling t -> 0 <= j < 1024 -> pd_present t j = true -> table_of t j <> f.
Proof. intros Ht Hj. unfold pd_present, table_of. rewrite (fi_pd _ Ht) by done. by apply Hf. Qed.

Lemma filling_write t k w :
  filling t -> 0 <= k < 1024 ->
  exists t', vwrite t (u32 (g * PAGE_SIZE + 4 * k)) w = Done t' /\ filling t' /\
    forall j, 0 <= j < 1024 -> frame_word t' f j = if j =? k then w else frame_word t f j.
Proof.
  intros Ht Hk. unfold window_page in Hg. unfold vwrite. rewrite u32_small by (change PAGE_SIZE with 4096; lia).
  rewrite (filling_translate t g), Hgf by (done || (change PAGE_SIZE with 4096; lia)). rewrite bind_Done.
  assert (Ho : 0 <= 4 * k < PAGE_SIZE) by (change PAGE_SIZE with 4096; lia). pose proof (filling_table t) as Htab.
  eexists. split; [reflexivity|]. split.
  - split.
    + apply set_word_wf; [apply (fi_wf _ Ht)|done|intros j Hj; by apply (Htab j Ht Hj)].
    + exact (fi_cr3 _ Ht).
    + intros j Hj. rewrite <- (fi_pd _ Ht j Hj). apply set_word_pd; [apply (fi_wf _ Ht)|done|intros i Hi; by apply (Htab i Ht Hi)|done].
    + intros p Hp Hpp. rewrite <- (fi_entry _ Ht p Hp Hpp).
      apply set_word_entry; [apply (fi_wf _ Ht)|done|intros i Hi; by apply (Htab i Ht Hi)|done|].
      unfold pd_present in *. rewrite (fi_pd _ Ht) by zdiv. done.
    + intros f' j Hf' Hj. rewrite cell_write by done. rewrite (proj2 (Z.eqb_neq f' f)) by done. by apply (fi_cells _ Ht).
  - intros j Hj. rewrite cell_write by done. by rewrite Z.eqb_refl.
Qed.

(** The loop that clears the directory, and the one that copies the entries of the kernel. *)
Lemma filling_clear :
  exists t, Paging_initialize_page_directory vwrite s (g * PAGE_SIZE) = Done t /\ filling t /\ forall k, 0 <= k < 1024 -> frame_word t f k = 0.
Proof.
  unfold Paging_initialize_page_directory.
  destruct (for_inv (fun i t => filling t /\ forall k, 0 <= k < i -> frame_word t f k = 0)
    (fun i t => vwrite t (u32 (g * PAGE_SIZE + 4 * i)) 0) (Z.to_nat NUMBER_OF_PAGE_DIRECOTRY_ENTRIES) 0 s) as (t & E & Ht & Hz).
  - split; [apply filling_start|]. intros; lia.
  - intros i t Hi [Ht Hz]. change (0 + Z.of_nat (Z.to_nat NUMBER_OF_PAGE_DIRECOTRY_ENTRIES)) with 1024 in Hi.
    destruct (filling_write t i 0 Ht Hi) as (t' & E & Ht' & Hc). exists t'. split; [exact E|]. split; [exact Ht'|].
    intros k Hk. rewrite Hc by lia. destruct (Z.eqb_spec k i); [done|]. apply Hz. lia.
  - change (0 + Z.of_nat (Z.to_nat NUMBER_OF_PAGE_DIRECOTRY_ENTRIES)) with 1024 in Hz. exists t. split; [exact E|]. by split.
Qed.

Context (p fd : Z) (Hp : 0 <= p < window_page) (Hpp : page_present s p = true) (Hpf : frame_at s p = fd) (Hfd : fd <> f).

Lemma filling_copy t :
  filling t -> (forall k, 0 <= k < 1024 -> frame_word t f k = 0) ->
  exists t', for_ (Z.to_nat (RECURSIVE_ENTRY - 768)) 768
      (fun i s => e ← vread s (u32 (p * PAGE_SIZE + 4 * i)); vwrite s (u32 (g * PAGE_SIZE + 4 * i)) e) t = Done t' /\ filling t' /\
    forall k, 0 <= k < 1024 -> frame_word t' f k = if (768 <=? k) && (k <? 1023) then frame_word s fd k else 0.
Proof.
  intros Ht Hz.
  destruct (for_inv (fun i t => filling t /\ forall k, 0 <= k < 1024 -> frame_word t f k = if (768 <=? k) && (k <? i) then frame_word s fd k else 0)
    (fun i s => e ← vread s (u32 (p * PAGE_SIZE + 4 * i)); vwrite s (u32 (g * PAGE_SIZE + 4 * i)) e)
    (Z.to_nat (RECURSIVE_ENTRY - 768)) 768 t) as (t' & E & Ht' & Hc).
  - split; [done|]. intros k Hk. rewrite Hz by done. by replace ((768 <=? k) && (k <? 768)) with false by lia.
  - intros i u Hi [Hu Hc]. change (768 + Z.of_nat (Z.to_nat (RECURSIVE_ENTRY - 768))) with 1023 in Hi. unfold window_page in Hp.
    unfold vread. rewrite (u32_small (p * PAGE_SIZE + 4 * i)) by (change PAGE_SIZE with 4096; lia).
    rewrite (filling_translate u p), Hpf, !bind_Done by (done || (change PAGE_SIZE with 4096; lia)).
    change (pread u (fd * PAGE_SIZE + 4 * i)) with (frame_word u fd i). rewrite (fi_cells _ Hu) by (done || lia).
    destruct (filling_write u i (frame_word s fd i) Hu ltac:(lia)) as (u' & E & Hu' & Hc'). exists u'. split; [exact E|]. split; [exact Hu'|].
    intros k Hk. rewrite Hc', Hc by done. destruct (Z.eqb_spec k i) as [->|].
    + by replace ((768 <=? i) && (i <? i + 1)) with true by lia.
    + by replace ((768 <=? k) && (k <? i + 1)) with ((768 <=? k) && (k <? i)) by lia.
  - change (768 + Z.of_nat (Z.to_nat (RECURSIVE_ENTRY - 768))) with 1023 in Hc. exists t'. split; [exact E|]. by split.
Qed.

Lemma directory_filled :
  0 <= f < 2 ^ 16 ->
  exists t, Paging_map_kernel_pd_entries (p * PAGE_SIZE) s (g * PAGE_SIZE) = Done t /\ filling t /\
    (forall k, 0 <= k < 768 -> frame_word t f k = 0) /\ (forall k, 768 <= k < 1023 -> frame_word t f k = frame_word s fd k) /\ leads (frame_word t f 1023) f.
Proof.
  intros Hf16. destruct filling_clear as (t1 & E1 & H1 & Hz). destruct (filling_copy t1 H1 Hz) as (t2 & E2 & H2 & Hc2).
  assert (Hgr : 0 <= g < 2 ^ 20) by (unfold window_page in Hg; lia). destruct (filling_present t2 g H2 Hgr Hgp) as [Hg2 Hf2].
  assert (Hgd : pd_present t2 (g / 1024) = true) by (unfold page_present in Hg2; by apply andb_prop in Hg2 as [? _]).
  set (w := Paging_fill_directory_entry (frame_word t2 f 1023) f (Z.lor PAGE_FLAGS_PRESENT PAGE_FLAGS_WRITABLE)).
  destruct (filling_write t2 1023 w H2 ltac:(lia)) as (t3 & E3 & H3 & Hc3). exists t3. split; [|split; [done|]].
  - unfold Paging_map_kernel_pd_entries. rewrite E1, bind_Done. change (GET_PDE_INDEX KERNEL_VIRTUAL_ADDRESS) with 768. cbv zeta.
    rewrite E2, bind_Done. rewrite get_physical_page_result by (rewrite ?PDE_of_page; done || apply (fi_wf _ H2) || by apply page_address_range).
    change (pte_frame (pread t2 (pt_address t2 (g * PAGE_SIZE)))) with (frame_at t2 g). rewrite Hf2, Hgf, bind_Done.
    change RECURSIVE_ENTRY with 1023. unfold vread. rewrite (u32_small (g * PAGE_SIZE + 4 * 1023)) by (unfold window_page in Hg; change PAGE_SIZE with 4096; lia).
    rewrite (filling_translate t2 g), Hgf, !bind_Done by (done || (change PAGE_SIZE with 4096; lia)).
    rewrite u32_small in E3 by (unfold window_page in Hg; change PAGE_SIZE with 4096; lia). exact E3.
  - split; [|split].
    + intros k Hk. rewrite Hc3, Hc2 by lia. rewrite (proj2 (Z.eqb_neq k 1023)) by lia. by replace (768 <=? k) with false by lia.
    + intros k Hk. rewrite Hc3, Hc2 by lia. rewrite (proj2 (Z.eqb_neq k 1023)) by lia. by replace ((768 <=? k) && (k <? 1023)) with true by lia.
    + rewrite Hc3 by lia. by apply filled_leads.
Qed.

End filling.

(** ** The space of a process *)

(** The state after a new directory has been written through page [g] and the page unmapped
    again, as [Memory::create_new_virtual_space] leaves it. *)
Section new_space.
Context (page_direcotry : Z) (m : memory) (Hks : kernel_shared page_direcotry m).
Context (g f w1 : Z) (fr : PhysicalMemory) (Hg : first_kernel_page <= g < last_kernel_page) (Hgp : page_present (tables m) g = false).
Context (Hf : 256 <= f < 2 ^ 16) (Hu : used (frames m) f = false) (Hpw : Phys_wf fr) (Ho : one_more (frames m) fr f).
Context (Hw1 : w1 = fill_entry 0 (entry (tables m) g) f (Memory_parse_flags PAGE_READWRITE)).

Let s1 := pwrite (tables m) (pt_address (tables m) (g * PAGE_SIZE)) w1.

Lemma new_wf : paging_wf (tables m).
Proof. apply (ks_memory _ _ Hks). Qed.

Lemma new_page : 0 <= g < window_page /\ 0 <= g < 2 ^ 20 /\ 768 <= g / 1024 < 1023 /\ pd_present (tables m) (g / 1024) = true.
Proof.
  unfold first_kernel_page, last_kernel_page, window_page in *. split; [lia|]. split; [lia|]. split; [zdiv|].
  destruct (ks_memory _ _ Hks) as (_ & _ & Hk). apply Hk. zdiv.
Qed.

Lemma new_not_table j : 0 <= j < 1024 -> pd_present (tables m) j = true -> table_of (tables m) j <> f.
Proof. intros Hj Hp E. destruct (ks_tables _ _ Hks j Hj Hp) as [_ Hu']. congruence. Qed.

Lemma mapped_wf : paging_wf s1.
Proof. destruct new_page as (H1 & _ & _ & H4). apply set_entry_wf; [apply new_wf|exact H1|exact H4]. Qed.

Lemma mapped_pd j : 0 <= j < 1024 -> pd_entry s1 j = pd_entry (tables m) j.
Proof. destruct new_page as (H1 & _ & _ & H4). intros Hj. by apply set_entry_pd; [apply new_wf|..]. Qed.

Lemma mapped_table j : 0 <= j < 1024 -> pd_present s1 j = pd_present (tables m) j /\ table_of s1 j = table_of (tables m) j.
Proof. intros Hj. unfold pd_present, table_of. by rewrite mapped_pd. Qed.

Lemma mapped_page_entry q : 0 <= q < 2 ^ 20 -> pd_present (tables m) (q / 1024) = true ->
  entry s1 q = if q =? g then w1 else entry (tables m) q.
Proof. destruct new_page as (H1 & _ & _ & H4). intros Hq Hp. by apply set_entry_entry; [apply new_wf|..]. Qed.

Lemma mapped_there : page_present s1 g = true /\ frame_at s1 g = f.
Proof.
  destruct new_page as (_ & H2 & H3 & H4). destruct (filled_entry (entry (tables m) g) f (Memory_parse_flags PAGE_READWRITE)) as (F1 & F2 & _); [lia|done|].
  unfold page_present, frame_at. destruct (mapped_table (g / 1024)) as [-> _]; [lia|]. rewrite H4, mapped_page_entry, Z.eqb_refl by done.
  by rewrite Hw1, F1, F2.
Qed.

Lemma apart_cell (t : mmu) (w x k : Z) : 0 <= k < 1024 -> table_of t (g / 1024) <> x ->
  frame_word (pwrite t (pt_address t (g * PAGE_SIZE)) w) x k = frame_word t x k.
Proof.
  intros Hk Hne. apply pread_other. rewrite pt_address_page. assert (0 <= g mod 1024 < 1024) by zdiv. change PAGE_SIZE with 4096. lia.
Qed.

Lemma mapped_cell x k : 0 <= k < 1024 -> ~ is_table (tables m) x -> frame_word s1 x k = frame_word (tables m) x k.
Proof.
  destruct new_page as (H1 & _ & _ & H4). intros Hk Hx. apply table_word; [exact H1|exact H4|exact Hx|change PAGE_SIZE with 4096; lia].
Qed.

Context (s2 : mmu) (Hs2 : filling s1 f s2).
Context (Hlow : forall k, 0 <= k < 768 -> frame_word s2 f k = 0) (Hhigh : forall k, 768 <= k < 1023 -> frame_word s2 f k = pd_entry (tables m) k).
Context (Hrec : leads (frame_word s2 f 1023) f).

Let s3 := pwrite s2 (pt_address s2 (g * PAGE_SIZE)) (set_field (entry s2 g) 0 1 0).
Let m3 := mkMemory s3 fr.
Let m4 := Memory_switch_page_directory m3 (f * PAGE_SIZE).

Lemma written_table j : 0 <= j < 1024 -> pd_present s2 j = pd_present (tables m) j /\ table_of s2 j = table_of (tables m) j.
Proof. intros Hj. unfold pd_present, table_of. by rewrite (fi_pd _ _ _ Hs2), mapped_pd. Qed.

Lemma written_there : pd_present s2 (g / 1024) = true.
Proof. destruct new_page as (_ & _ & H3 & H4). destruct (written_table (g / 1024)) as [-> _]; [lia|exact H4]. Qed.

(** The old directory afterwards: page [g] is gone again, the rest is as before. *)
Lemma closed_pd j : 0 <= j < 1024 -> pd_entry s3 j = pd_entry (tables m) j.
Proof.
  destruct new_page as (H1 & _ & _ & _). intros Hj. rewrite <- mapped_pd, <- (fi_pd _ _ _ Hs2) by done.
  apply set_entry_pd; [apply (fi_wf _ _ _ Hs2)|exact H1|exact written_there|exact Hj].
Qed.

Lemma closed_entry q : 0 <= q < 2 ^ 20 -> pd_present (tables m) (q / 1024) = true ->
  entry s3 q = if q =? g then set_field w1 0 1 0 else entry (tables m) q.
Proof.
  destruct new_page as (H1 & H2 & _ & H4). intros Hq Hp. assert (Hj : 0 <= q / 1024 < 1024) by zdiv. unfold s3.
  assert (E : entry s2 g = w1).
  { rewrite (fi_entry _ _ _ Hs2) by (done || (destruct (mapped_table (g / 1024)) as [-> _]; [zdiv|done])).
    rewrite mapped_page_entry by done. by rewrite Z.eqb_refl. }
  rewrite set_entry_entry; [|apply (fi_wf _ _ _ Hs2)|exact H1|exact written_there|exact Hq|by destruct (written_table (q / 1024) Hj) as [-> _]].
  rewrite E. destruct (Z.eqb_spec q g); [done|]. rewrite (fi_entry _ _ _ Hs2) by (done || (destruct (mapped_table (q / 1024) Hj) as [-> _]; done)).
  rewrite mapped_page_entry by done. by rewrite (proj2 (Z.eqb_neq q g)).
Qed.

Lemma closed_page q : 0 <= q < 2 ^ 20 -> page_present s3 q = page_present (tables m) q /\
  (page_present (tables m) q = true -> frame_at s3 q = frame_at (tables m) q).
Proof.
  intros Hq. assert (Hj : 0 <= q / 1024 < 1024) by zdiv. unfold page_present, frame_at, pd_present. rewrite closed_pd by done.
  fold (pd_present (tables m) (q / 1024)). destruct (pd_present (tables m) (q / 1024)) eqn:Ep; [|done]. cbn [andb].
  rewrite closed_entry by done. destruct (Z.eqb_spec q g) as [->|]; [|done].
  unfold page_present in Hgp. rewrite Ep in Hgp. cbn [andb] in Hgp. rewrite Hgp. unfold pte_present. by rewrite get_set_same by lia.
Qed.

(** Words of frames that hold no table. *)
Lemma closed_cell x k : 0 <= k < 1024 -> ~ is_table (tables m) x -> x <> f -> frame_word s3 x k = frame_word (tables m) x k.
Proof.
  destruct new_page as (H1 & _ & _ & _). intros Hk Hx Hne. rewrite <- mapped_cell, <- (fi_cells _ _ _ Hs2) by done.
  apply table_word; [exact H1|exact written_there| |change PAGE_SIZE with 4096; lia].
  intros (j & Hj & Hp & E). apply Hx. exists j. destruct (written_table j Hj) as [Ep Et]. rewrite Ep in Hp. rewrite Et in E. done.
Qed.

Lemma closed_directory k : 0 <= k < 1024 -> frame_word s3 f k = frame_word s2 f k.
Proof.
  destruct new_page as (H1 & _ & _ & _). intros Hk. apply table_word; [exact H1|exact written_there| |change PAGE_SIZE with 4096; lia].
  intros (j & Hj & Hp & E). destruct (written_table j Hj) as [Ep Et]. rewrite Ep in Hp. rewrite Et in E. by apply (new_not_table j).
Qed.

(** The last steps of the code. *)
Lemma space_closed :
  (s ← Paging_unmap_pages s2 (g * PAGE_SIZE) (GET_PAGES sizeof_PAGE_DIRECTORY); page ← Paging_get_physical_page s (g * PAGE_SIZE);
   Done (u32 (page * PAGE_SIZE), mkMemory s fr)) = Done (f * PAGE_SIZE, m3).
Proof.
  destruct new_page as (Hgw & Hgr & Hgi & Hgd). pose proof (page_address_range g Hgr) as Hv.
  change (GET_PAGES sizeof_PAGE_DIRECTORY) with 1. unfold Paging_unmap_pages. change (Z.to_nat 1) with 1%nat. cbn [for_].
  rewrite Z.mul_0_r, Z.add_0_r, u32_small by exact Hv. pose proof written_there as Hth.
  rewrite unmap_page_result by (rewrite ?PDE_of_page; done || apply (fi_wf _ _ _ Hs2)). cbn [mbind exec_bind].
  change (pread s2 (pt_address s2 (g * PAGE_SIZE))) with (entry s2 g). fold s3.
  assert (Hs3 : paging_wf s3) by (apply set_entry_wf; [apply (fi_wf _ _ _ Hs2)|exact Hgw|exact Hth]).
  rewrite get_physical_page_result; [|exact Hs3|exact Hv|rewrite PDE_of_page; unfold pd_present; rewrite closed_pd by lia; exact Hgd].
  change (pread s3 (pt_address s3 (g * PAGE_SIZE))) with (entry s3 g). cbn [mbind exec_bind].
  rewrite (closed_entry g Hgr Hgd), Z.eqb_refl. unfold pte_frame. rewrite get_set_other by lia. fold (pte_frame w1).
  destruct (filled_entry (entry (tables m) g) f (Memory_parse_flags PAGE_READWRITE)) as (_ & F & _); [lia|done|].
  rewrite Hw1, F, u32_small by (change PAGE_SIZE with 4096; lia). done.
Qed.

(** The new directory. *)
Lemma new_pd k : 0 <= k < 1024 -> pd_entry (tables m4) k = frame_word s2 f k.
Proof.
  intros Hk. rewrite <- closed_directory by done. unfold pd_entry, pd_address. change (cr3 (tables m4)) with (f * PAGE_SIZE).
  by rewrite frame_of_page.
Qed.

Lemma new_present j : 0 <= j < 1024 -> pd_present (tables m4) j = (768 <=? j).
Proof.
  intros Hj. unfold pd_present. rewrite new_pd by done. destruct (Z.leb_spec 768 j).
  - destruct (Z.eq_dec j 1023) as [->|]; [by destruct Hrec|]. rewrite Hhigh by lia.
    destruct (ks_memory _ _ Hks) as (_ & _ & Hk). apply Hk. lia.
  - rewrite Hlow by lia. by vm_compute.
Qed.

Lemma new_table j : 768 <= j < 1023 -> table_of (tables m4) j = table_of (tables m) j /\ pd_entry (tables m4) j = pd_entry (tables m) j.
Proof. intros Hj. unfold table_of. by rewrite new_pd, Hhigh by lia. Qed.

Lemma new_recursive : table_of (tables m4) 1023 = f.
Proof. unfold table_of. rewrite new_pd by lia. by destruct Hrec as (_ & ? & _). Qed.

Lemma kernel_present j : 768 <= j < 1023 -> pd_present (tables m) j = true.
Proof. destruct (ks_memory _ _ Hks) as (_ & _ & Hk). apply Hk. Qed.

Lemma new_paging : paging_wf (tables m4).
Proof.
  split.
  - change RECURSIVE_ENTRY with 1023. rewrite new_present, new_recursive by lia. split; [done|].
    change (cr3 (tables m4)) with (f * PAGE_SIZE). by rewrite frame_of_page.
  - intros j Hj. rewrite new_present by done. intros Hj'%Z.leb_le. destruct (Z.eq_dec j 1023) as [->|].
    + rewrite new_pd by lia. by destruct Hrec as (_ & _ & ?).
    + destruct (new_table j) as [_ ->]; [lia|]. apply (pw_small _ new_wf); [lia|]. apply kernel_present. lia.
  - intros i j Hi Hj. rewrite !new_present by done. intros Hi'%Z.leb_le Hj'%Z.leb_le.
    destruct (Z.eq_dec i 1023) as [->|Hni], (Z.eq_dec j 1023) as [->|Hnj]; [done| | |].
    + rewrite new_recursive. destruct (new_table j) as [-> _]; [lia|]. intros E. symmetry in E. exfalso. revert E. apply new_not_table; [done|].
      apply kernel_present. lia.
    + rewrite new_recursive. destruct (new_table i) as [-> _]; [lia|]. intros E. exfalso. revert E. apply new_not_table; [done|].
      apply kernel_present. lia.
    + destruct (new_table i) as [-> _]; [lia|]. destruct (new_table j) as [-> _]; [lia|]. apply (pw_tables _ new_wf); [done|done| |];
        apply kernel_present; lia.
Qed.

Lemma new_kernel_page q : user_limit <= q < window_page -> page_present (tables m4) q = page_present (tables m) q /\
  (page_present (tables m) q = true -> frame_at (tables m4) q = frame_at (tables m) q).
Proof.
  intros Hq. change user_limit with (768 * 1024) in Hq. unfold window_page in Hq. assert (Hj : 768 <= q / 1024 < 1023) by zdiv.
  destruct (closed_page q) as [Hp Hfr]; [lia|]. rewrite <- Hp. unfold page_present, frame_at. rewrite new_present by lia.
  rewrite (proj2 (Z.leb_le _ _)) by lia. assert (Hs3 : pd_present s3 (q / 1024) = true).
  { unfold pd_present. rewrite closed_pd by lia. by apply kernel_present. }
  assert (Ee : entry (tables m4) q = entry s3 q).
  { unfold entry. rewrite !pt_address_page. destruct (new_table _ Hj) as [-> _]. unfold table_of at 2. by rewrite closed_pd by lia. }
  rewrite Hs3, Ee. split; [done|]. intros Hpp. rewrite <- Hp in Hfr. apply Hfr. unfold page_present. by rewrite Hs3.
Qed.

Lemma new_empty q : user_mapped m4 q = false.
Proof.
  destruct (user_mapped m4 q) eqn:E; [|done]. apply user_mapped_present in E as [Hq Hd]. pose proof (user_page_index q Hq).
  rewrite new_present in Hd by lia. lia.
Qed.

Lemma new_user_wf : user_wf m4.
Proof.
  split.
  - split; [exact new_paging|]. split; [exact Hpw|]. intros j Hj. rewrite new_present by lia. lia.
  - intros j Hj. rewrite new_present by done. intros Hj'%Z.leb_le. change (frames m4) with fr. destruct (Z.eq_dec j 1023) as [->|].
    + rewrite new_recursive. split; [lia|]. rewrite Ho by lia. rewrite Z.eqb_refl. apply orb_true_r.
    + destruct (new_table j) as [-> _]; [lia|]. destruct (ks_tables _ _ Hks j) as [H0 H1]; [done|apply kernel_present; lia|].
      split; [done|]. by rewrite Ho, H1.
  - intros q Hq. by rewrite new_empty in Hq.
  - intros q r Hq. by rewrite new_empty in Hq.
  - intros x k Hx Hux Hk. change (frames m4) with fr in Hux. rewrite Ho in Hux by lia. apply orb_false_elim in Hux as [Hux Hxf].
    change (truthy (pte_present (frame_word s3 x k)) = false). apply Z.eqb_neq in Hxf. rewrite closed_cell; [by apply (ks_clear _ _ Hks)|done| |done].
    intros (j & Hj & Hp & E). destruct (ks_tables _ _ Hks j Hj Hp) as [_ Hu']. congruence.
  - exists g. split; [exact Hg|]. destruct (new_kernel_page g) as [-> _]; [|exact Hgp].
    unfold first_kernel_page, last_kernel_page in Hg. change user_limit with (768 * 1024). unfold window_page. lia.
Qed.

Lemma new_room : user_room m4 = alen (free_frames m) - 769.
Proof.
  unfold user_room. rewrite (free_frames_taken m m4 f) by done. assert (E : missing_tables m4 = seqZ 0 768); [|rewrite E; unfold alen at 2; rewrite length_seqZ; lia].
  unfold missing_tables. apply filter_all. intros j Hj. apply elem_of_seqZ in Hj. rewrite new_present by lia. lia.
Qed.

End new_space.

(** What a process gets: a directory of its own in a frame that was free, in which nothing is
    mapped below the kernel and all that the kernel has is mapped as before. *)
Lemma new_space_made page_direcotry m :
  kernel_shared page_direcotry m -> 0 < alen (free_frames m) ->
  exists f m', Memory_create_new_virtual_space page_direcotry m = Done (f * PAGE_SIZE, m') /\
    256 <= f < 2 ^ 16 /\ used (frames m) f = false /\ one_more (frames m) (frames m') f /\
    (forall q, 0 <= q < 2 ^ 20 -> page_present (tables m') q = page_present (tables m) q /\
       (page_present (tables m) q = true -> frame_at (tables m') q = frame_at (tables m) q)) /\
    let space := Memory_switch_page_directory m' (f * PAGE_SIZE) in
    user_wf space /\ (forall q, user_mapped space q = false) /\ user_room space = alen (free_frames m) - 769 /\
    forall q, user_limit <= q < window_page -> page_present (tables space) q = page_present (tables m) q /\
      (page_present (tables m) q = true -> frame_at (tables space) q = frame_at (tables m) q).
Proof.
  intros Hks Hroom. destruct (kernel_page (VirtualMemory_create_page_table 2) m (ks_memory _ _ Hks) (ks_kernel _ _ Hks) Hroom)
    as (g & f & fr & w1 & E & Hg & Hgp & Hf & Hu & Hpw & Ho & Hw1). cbn zeta in E.
  destruct (ks_directory _ _ Hks) as (p & fd & Ep & Hp & Hpp & Hpf & Hfd0 & Hfdu & Hfdc).
  destruct (new_page page_direcotry m Hks g Hg) as (Hgw & Hgr & Hgi & Hgd).
  set (s1 := pwrite (tables m) (pt_address (tables m) (g * PAGE_SIZE)) w1) in *.
  destruct (mapped_there page_direcotry m Hks g f w1 Hg Hf Hw1) as [Hmp Hmf]. fold s1 in Hmp, Hmf.
  assert (Hpr : 0 <= p < 2 ^ 20) by (unfold window_page in Hp; lia).
  assert (Hpd : pd_present (tables m) (p / 1024) = true) by (unfold page_present in Hpp; by apply andb_prop in Hpp as [? _]).
  assert (Epe : entry s1 p = entry (tables m) p).
  { unfold s1. rewrite (mapped_page_entry page_direcotry m Hks g w1 Hg) by done. destruct (Z.eqb_spec p g) as [->|]; [congruence|done]. }
  destruct (mapped_table page_direcotry m Hks g w1 Hg (p / 1024)) as [Ed _]; [unfold window_page in Hp; zdiv|]. fold s1 in Ed.
  assert (Hnt : forall j, 0 <= j < 1024 -> pd_present s1 j = true -> table_of s1 j <> f).
  { intros j Hj. destruct (mapped_table page_direcotry m Hks g w1 Hg j Hj) as [E1 E2]. fold s1 in E1, E2. rewrite E1, E2.
    exact (new_not_table page_direcotry m Hks g f Hgp Hu j Hj). }
  destruct (directory_filled s1 (mapped_wf page_direcotry m Hks g w1 Hg) g f Hgw Hmp Hmf Hnt p fd Hp) as (s2 & E2 & Hs2 & Hlow & Hhigh & Hrec).
  { unfold page_present. by rewrite Ed, Epe. }
  { unfold frame_at. rewrite Epe. exact Hpf. }
  { intros ->. congruence. }
  { lia. }
  assert (Hhigh' : forall k, 768 <= k < 1023 -> frame_word s2 f k = pd_entry (tables m) k).
  { intros k Hk. destruct (Hfdc k Hk) as [<- _]. rewrite Hhigh by done. apply apart_cell; [lia|]. by apply Hfdc. }
  clear Hhigh. set (s3 := pwrite s2 (pt_address s2 (g * PAGE_SIZE)) (set_field (entry s2 g) 0 1 0)).
  exists f, (mkMemory s3 fr). split.
  { unfold Memory_create_new_virtual_space. change (Memory_alloc m 0 sizeof_PAGE_DIRECTORY PAGE_READWRITE) with
      (Memory_alloc_no_lock_with (VirtualMemory_create_page_table 2) m 0 PAGE_SIZE PAGE_READWRITE). rewrite E, bind_Done, Ep.
    cbn [tables frames]. rewrite E2, bind_Done. exact (space_closed page_direcotry m Hks g f w1 fr Hg Hf Hw1 s2 Hs2). }
  split; [exact Hf|]. split; [exact Hu|]. split; [exact Ho|].
  split; [exact (closed_page page_direcotry m Hks g f w1 Hg Hgp s2 Hs2)|]. cbv zeta.
  split; [exact (new_user_wf page_direcotry m Hks g f w1 fr Hg Hgp Hf Hu Hpw Ho s2 Hs2 Hlow Hhigh' Hrec)|].
  split; [exact (new_empty page_direcotry m Hks g f w1 fr Hg Hgp Hu s2 Hs2 Hlow Hhigh' Hrec)|].
  split; [exact (new_room page_direcotry m Hks g f w1 fr Hg Hgp Hf Hu Ho s2 Hs2 Hlow Hhigh' Hrec)|].
  exact (new_kernel_page page_direcotry m Hks g f w1 fr Hg Hgp Hu s2 Hs2 Hlow Hhigh' Hrec).
Qed.

(** ** Properties *)

(** The memory that the kernel starts with. When the linker has put the directory and
    the tables in the pages of the kernel, apart from each other, and the kernel ends below
    8 MiB, [Memory::setup] makes an address space in which the kernel is found at its
    physical addresses and in the higher half and nothing else is mapped, whatever the memory
    held before; exactly the frames of the kernel are in use; and the invariants of paging
    and of the memory hold. *)
Theorem memory_set_up (fd ft fb n KERNEL_START KERNEL_END : Z) (s : mmu) :
  boot_layout fd ft fb n -> Memory_get_kernel_pages KERNEL_START KERNEL_END = n ->
  exists m, Memory_setup KERNEL_START KERNEL_END (KERNEL_BASE + fd * PAGE_SIZE) (KERNEL_BASE + ft * PAGE_SIZE) (KERNEL_BASE + fb * PAGE_SIZE) s =
      Done m /\ memory_wf m /\
    (forall v, 0 <= v < 2 ^ 32 -> page_of v < window_page -> translate (tables m) v =
       if (KERNEL_PHYSICAL_ADDRESS <=? v) && (v <? KERNEL_PHYSICAL_ADDRESS + n * PAGE_SIZE) then Done v
       else if (KERNEL_VIRTUAL_ADDRESS <=? v) && (v <? KERNEL_VIRTUAL_ADDRESS + n * PAGE_SIZE) then Done (v - KERNEL_BASE)
       else Fault) /\
    forall f, 0 <= f -> used (frames m) f = in_run 256 n f.
Proof.
  intros Hlayout Hpages. destruct (memory_setup_made fd ft fb n Hlayout KERNEL_START KERNEL_END Hpages s) as (s' & fr & E & Hs & Hpw & Hu).
  exists (mkMemory s' fr). split; [exact E|]. clear E. split; [exact (setup_memory_wf fd ft fb n Hlayout s s' fr Hs Hpw)|].
  split; [|exact Hu]. intros v. exact (setup_translate fd ft fb n Hlayout s s' v Hs).
Qed.

(** A kernel of 512 pages, with its tables in the middle. *)
Lemma sample_layout : boot_layout 300 304 302 512.
Proof. repeat split; lia. Qed.

Lemma memory_set_up_witness :
  exists m, Memory_setup 0 (512 * 4096) 0xC012C000 0xC0130000 0xC012E000 (mkMMU ∅ 0) = Done m /\ memory_wf m /\
    translate (tables m) 0xC0101234 = Done 0x101234 /\ translate (tables m) 0x400000 = Fault.
Proof.
  destruct (memory_set_up 300 304 302 512 0 (512 * 4096) (mkMMU ∅ 0) sample_layout eq_refl) as (m & E & Hwf & Ht & _).
  exists m. split; [exact E|]. split; [exact Hwf|]. split; rewrite Ht by (vm_compute; try split; congruence); vm_compute; reflexivity.
Defined.

(** What the kernel has in the higher half. *)
Definition kernel_half (n q : Z) : option Z :=
  if (first_kernel_page <=? q) && (q <? first_kernel_page + n) then Some (q - KERNEL_BASE / PAGE_SIZE) else None.

Lemma kept_translate n m v :
  256 + n <= 2048 -> user_wf m -> kernel_kept (kernel_half n) m ->
  KERNEL_VIRTUAL_ADDRESS <= v < KERNEL_VIRTUAL_ADDRESS + n * PAGE_SIZE -> translate (tables m) v = Done (v - KERNEL_BASE).
Proof.
  intros Hn Hwf Hk Hv. change KERNEL_VIRTUAL_ADDRESS with (first_kernel_page * PAGE_SIZE) in Hv.
  assert (Hq : first_kernel_page <= v / PAGE_SIZE < first_kernel_page + n) by (change PAGE_SIZE with 4096 in *; zdiv).
  destruct (Hk (v / PAGE_SIZE) (v / PAGE_SIZE - KERNEL_BASE / PAGE_SIZE)) as [Hp Hf].
  - change user_limit with (768 * 1024). unfold window_page, first_kernel_page in *. lia.
  - unfold kernel_half. by replace ((first_kernel_page <=? _) && _) with true by lia.
  - destruct (byte_in_page v) as (_ & _ & Ev). unfold first_kernel_page in Hq. rewrite Ev at 1.
    rewrite translate_entry; [|apply (uw_memory _ Hwf)|lia|apply Z.mod_pos_bound; done].
    rewrite Hp. unfold page_frame in Hf. rewrite Hf. f_equal. change KERNEL_BASE with (0xC0000 * PAGE_SIZE).
    change (0xC0000 * PAGE_SIZE / PAGE_SIZE) with 0xC0000. lia.
Qed.

(** The space that the first process gets after boot. *)
Lemma first_space fd ft fb n s s' fr :
  boot_layout fd ft fb n -> boot_space fd ft fb n s s' -> Phys_wf fr -> (forall q, 0 <= q -> used fr q = in_run 256 n q) ->
  (forall f k, 256 + n <= f < 2 ^ 16 -> 0 <= k < 1024 -> truthy (pte_present (frame_word s f k)) = false) ->
  exists pd m1, Memory_create_new_virtual_space (KERNEL_BASE + fd * PAGE_SIZE) (mkMemory s' fr) = Done (pd, m1) /\
    let space := Memory_switch_page_directory m1 pd in
    user_wf space /\ (forall q, user_mapped space q = false) /\ 2 ^ 16 - 256 - n - 769 <= user_room space /\ kernel_kept (kernel_half n) space.
Proof.
  intros Hlayout Hs Hpw Hu Hclear. pose proof (setup_shared fd ft fb n Hlayout s s' fr Hs Hpw Hu Hclear) as Hks.
  destruct Hlayout as [[Hn Hlow] Hd Ht Hb (Hdt & Hdb & Htb)].
  assert (Hfree : 2 ^ 16 - 256 - n <= alen (free_frames (mkMemory s' fr))).
  { unfold free_frames. cbn [frames]. replace (2 ^ 16 - 256) with (n + (2 ^ 16 - 256 - n)) at 2 by lia. apply filter_run; [lia|lia|].
    intros x Hx. rewrite Hu by lia. unfold in_run. lia. }
  destruct (new_space_made _ _ Hks ltac:(lia)) as (f & m1 & E & _ & _ & _ & _ & Hwf & Hempty & Hroom & Hkernel).
  exists (f * PAGE_SIZE), m1. split; [exact E|]. cbv zeta. clear E. split; [exact Hwf|]. split; [exact Hempty|]. split; [lia|].
  intros q x Hq. unfold kernel_half. destruct ((first_kernel_page <=? q) && (q <? first_kernel_page + n)) eqn:Eq; [|done]. intros [= <-].
  assert (Hpg : page_present s' q = bool_decide (is_Some (boot_frame n q)) /\ forall f, boot_frame n q = Some f -> frame_at s' q = f).
  { eapply boot_pages; try done. change user_limit with (768 * 1024) in Hq. lia. }
  assert (Ebf : boot_frame n q = Some (q - KERNEL_BASE / PAGE_SIZE)).
  { unfold boot_frame. rewrite Eq. destruct ((256 <=? q) && _) eqn:E1; [|done]. change user_limit with (768 * 1024) in Hq. lia. }
  destruct Hpg as [Epp Efr]. rewrite Ebf, bool_decide_eq_true_2 in Epp by by eexists. destruct (Hkernel q Hq) as [Ek Ef].
  cbn [tables] in Ek, Ef. rewrite Ek. split; [exact Epp|]. unfold page_frame. rewrite Ef by exact Epp. by apply Efr.
Qed.


