(* ===== verification/SystemCalls.v ===== *)
(** The system calls on files (system_call.cpp), which put the tree of nodes (Vfs.v), the
    open files (Files.v, file_description.cpp), the devices and the handles of the calling
    process (Handles.v) together, and the dispatch of a system call by its number.

    An object made by [new] is its address, and [sy_fresh] the next one. A pointer of the
    caller is the array it points to. As in Files.v a call that waits gives [Blocks]. *)

From S2P Require Import Prelude Storage CircularBuffer Clib Strings PathView Buffers Files Keyboard Console Handles Vfs Tar.

Record System := mkSystem {
  sy_fs : Filesystem;
  sy_pipes : gmap nat Pipe;
  sy_keyboard : Keyboard;
  sy_console : Console;
  sy_handles : HandlesManager;
  sy_descriptions : gmap Z (nat * FileDescription);
  sy_fresh : Z;
  sy_path : String
}.

Definition with_pipe (s : System) (i : nat) (p : Pipe) : System :=
  mkSystem (sy_fs s) (<[i := p]> (sy_pipes s)) (sy_keyboard s) (sy_console s) (sy_handles s) (sy_descriptions s)
    (sy_fresh s) (sy_path s).
Definition with_keyboard (s : System) (kb : Keyboard) : System :=
  mkSystem (sy_fs s) (sy_pipes s) kb (sy_console s) (sy_handles s) (sy_descriptions s) (sy_fresh s) (sy_path s).
Definition with_console (s : System) (c : Console) : System :=
  mkSystem (sy_fs s) (sy_pipes s) (sy_keyboard s) c (sy_handles s) (sy_descriptions s) (sy_fresh s) (sy_path s).
Definition with_handles (s : System) (m : HandlesManager) : System :=
  mkSystem (sy_fs s) (sy_pipes s) (sy_keyboard s) (sy_console s) m (sy_descriptions s) (sy_fresh s) (sy_path s).
Definition with_descriptions (s : System) (ds : gmap Z (nat * FileDescription)) (fresh : Z) : System :=
  mkSystem (sy_fs s) (sy_pipes s) (sy_keyboard s) (sy_console s) (sy_handles s) ds fresh (sy_path s).
Definition with_fs (s : System) (fs : Filesystem) : System :=
  mkSystem fs (sy_pipes s) (sy_keyboard s) (sy_console s) (sy_handles s) (sy_descriptions s) (sy_fresh s) (sy_path s).

Definition pipe_at (s : System) (i : nat) : exec Pipe :=
  match sy_pipes s !! i with Some p => Done p | None => Fault end.

(** [FileInfo]: the name is an array of [MAX_FILE_NAME] characters. *)
Record FileInfo := mkInfo {
  fi_name : list Z;
  fi_size : Z;
  fi_type : NodeType
}.

Section calls.
(** The bytes of the memory from an address on, and the destructor of the description of a
    process, which is not part of this model. *)
Context (memory_at : Z -> list Z) (drop_process : Z -> System -> exec System).

(** * The virtual functions of the nodes *)

Definition node_open (s : System) (i : nat) (mode : Z) : exec (Z * System) :=
  n ← node_at (sy_fs s) i;
  match fn_class n with
  | CPipe => p ← pipe_at s i; let '(e, p) := Pipe_open p mode in Done (e, with_pipe s i p)
  | CINode | CTarFS | CDomainSocket | CKeyboard | CConsole => Done (ERROR_SUCCESS, s)
  | CPipeFS | CDomainSocketFS | CDeviceFS => Done (ERROR_INVALID_OPERATION, s)
  end.

Definition node_close (s : System) (i : nat) (mode : Z) : exec (Z * System) :=
  n ← node_at (sy_fs s) i;
  match fn_class n with
  | CPipe => p ← pipe_at s i; '(e, p) ← Pipe_close p mode; Done (e, with_pipe s i p)
  | CINode | CTarFS | CDomainSocket | CKeyboard | CConsole => Done (ERROR_SUCCESS, s)
  | CPipeFS | CDomainSocketFS | CDeviceFS => Done (ERROR_INVALID_OPERATION, s)
  end.

Definition node_read (s : System) (i : nat) (again : bool) (dest : list Z) (offset : Z)
    : exec (outcome System (Result Z * list Z * System)) :=
  n ← node_at (sy_fs s) i;
  match fn_class n with
  | CINode | CTarFS =>
      r ← INode_read (mkINode (fn_size n) (memory_at (fn_data n))) dest offset; Done (Returns (r.1, r.2, s))
  | CPipe =>
      p ← pipe_at s i; r ← Pipe_read p again dest;
      Done match r with
           | Blocks p => Blocks (with_pipe s i p)
           | Returns (v, dest, p) => Returns (v, dest, with_pipe s i p)
           end
  | CKeyboard =>
      r ← Keyboard_read (sy_keyboard s) again dest;
      Done match r with
           | Blocks kb => Blocks (with_keyboard s kb)
           | Returns (v, dest, kb) => Returns (v, dest, with_keyboard s kb)
           end
  | CPipeFS | CDomainSocketFS | CDomainSocket | CDeviceFS | CConsole =>
      Done (Returns (Error ERROR_INVALID_OPERATION, dest, s))
  end.

Definition node_write (s : System) (i : nat) (again : bool) (src : list Z)
    : exec (outcome System (Result Z * System)) :=
  n ← node_at (sy_fs s) i;
  match fn_class n with
  | CPipe =>
      p ← pipe_at s i; r ← Pipe_write p again src;
      Done match r with
           | Blocks p => Blocks (with_pipe s i p)
           | Returns (v, p) => Returns (v, with_pipe s i p)
           end
  | CConsole => '(k, c) ← Console_write (sy_console s) src; Done (Returns (Value k, with_console s c))
  | CINode | CTarFS | CPipeFS | CDomainSocketFS | CDomainSocket | CDeviceFS | CKeyboard =>
      Done (Returns (Error ERROR_INVALID_OPERATION, s))
  end.

(** * Descriptions *)

Definition description_at (s : System) (d : Z) : exec (nat * FileDescription) :=
  match sy_descriptions s !! d with Some x => Done x | None => Fault end.

(** [~FileDescription] closes the node. *)
Definition destroy_description (s : System) (d : Z) : exec System :=
  '(i, fd) ← description_at s d;
  '(_, s) ← node_close s i (fd_mode fd);
  Done (with_descriptions s (delete d (sy_descriptions s)) (sy_fresh s)).

(** A description whose node cannot be opened is destroyed. *)
Definition FileDescription_open (s : System) (path : PathView) (mode flags : Z) : exec (Result Z * System) :=
  '(fs, node) ← VFS_get_node (sy_fs s) path flags;
  let s := with_fs s fs in
  match node with
  | Error e => Done (Error e, s)
  | Value i =>
      let d := sy_fresh s in
      let s := with_descriptions s (<[d := (i, FileDescription_new mode)]> (sy_descriptions s)) (d + 1) in
      '(open_ret, s) ← node_open s i mode;
      if truthy open_ret then s ← destroy_description s d; Done (Error open_ret, s) else Done (Value d, s)
  end.

Definition FileDescription_dir_query (s : System) (d : Z) (info : FileInfo) : exec (Z * FileInfo * System) :=
  '(i, fd) ← description_at s d;
  r ← dir_query (sy_fs s) i (fd_position fd);
  match r with
  | Error e => Done (e, info, s)
  | Value j =>
      n ← node_at (sy_fs s) j;
      name ← memcpy (fi_name info) 0 (s_bytes (fn_name n)) 0 (s_size (fn_name n));
      name ← aset name (s_size (fn_name n)) 0;
      let fd := mkFD (fd_mode fd) (u32 (fd_position fd + 1)) in
      Done (ERROR_SUCCESS, mkInfo name (fi_size info) (fn_type n),
            with_descriptions s (<[d := (i, fd)]> (sy_descriptions s)) (sy_fresh s))
  end.

Definition FileDescription_file_query (s : System) (d : Z) (info : FileInfo) : exec (Z * FileInfo) :=
  '(i, _) ← description_at s d;
  n ← node_at (sy_fs s) i;
  name ← memcpy (fi_name info) 0 (s_bytes (fn_name n)) 0 (s_size (fn_name n));
  name ← aset name (s_size (fn_name n)) 0;
  Done (ERROR_SUCCESS, mkInfo name (fn_size n) (fn_type n)).

(** * The routines *)

(** [check_handle(handle) != HandleType::FileDescription]. *)
Definition is_file_handle (s : System) (handle : Z) : exec bool :=
  t ← HandlesManager_check_handle (sy_handles s) handle; Done (bool_decide (t = HFileDescription)).

Definition OpenFile (s : System) (path : list Z) (mode flags : Z) : exec (Result Z * System) :=
  v ← StringView_of_cstr path 0;
  valid ← PathView_is_valid v;
  if negb valid then Done (Error ERROR_INVALID_PARAMETER, s)
  else
    p ← PathView_of_cstr path 0;
    absolute_path ← VFS_resolve_path (sy_path s) p;
    exists_ ← VFS_check_exitsts (sy_fs s) absolute_path;
    if negb exists_ then Done (Error ERROR_FILE_DOES_NOT_EXIST, s)
    else
      '(file_description, s) ← FileDescription_open s absolute_path mode flags;
      match file_description with
      | Error e => Done (Error e, s)
      | Value d =>
          let '(fd, m) := HandlesManager_add_file (sy_handles s) d in
          Done (Value (s32 fd), with_handles s m)
      end.

Definition ReadFile (s : System) (handle : Z) (again : bool) (buff : list Z)
    : exec (outcome System (Result Z * list Z * System)) :=
  ok ← is_file_handle s handle;
  if negb ok then Done (Returns (Error ERROR_INVALID_HANDLE, buff, s))
  else
    d ← HandlesManager_get_file_description (sy_handles s) handle;
    '(i, fd) ← description_at s d;
    n ← node_at (sy_fs s) i;
    FileDescription_read (fn_size n) (node_read s i again) (fun e => Done (Returns (Error e, buff, s))) fd buff.

Definition WriteFile (s : System) (handle : Z) (again : bool) (buff : list Z)
    : exec (outcome System (Result Z * System)) :=
  ok ← is_file_handle s handle;
  if negb ok then Done (Returns (Error ERROR_INVALID_HANDLE, s))
  else
    d ← HandlesManager_get_file_description (sy_handles s) handle;
    '(i, fd) ← description_at s d;
    n ← node_at (sy_fs s) i;
    FileDescription_write (fn_size n) (fun src _ => node_write s i again src) (fun e => Done (Returns (Error e, s))) fd buff.

Definition QueryDirectory (s : System) (handle : Z) (info : FileInfo) : exec (Result Z * FileInfo * System) :=
  ok ← is_file_handle s handle;
  if negb ok then Done (Error ERROR_INVALID_HANDLE, info, s)
  else
    d ← HandlesManager_get_file_description (sy_handles s) handle;
    '(e, info, s) ← FileDescription_dir_query s d info;
    Done (if truthy e then Error e else Value 0, info, s).

(** The pointer to the information may be null. *)
Definition QueryFileInformation (s : System) (handle : Z) (info : option FileInfo) : exec (Result Z * option FileInfo) :=
  match info with
  | None => Done (Error ERROR_INVALID_PARAMETER, None)
  | Some info =>
      ok ← is_file_handle s handle;
      if negb ok then Done (Error ERROR_INVALID_HANDLE, Some info)
      else
        d ← HandlesManager_get_file_description (sy_handles s) handle;
        '(e, info) ← FileDescription_file_query s d info;
        Done (if truthy e then Error e else Value 0, Some info)
  end.

(** The objects that the manager drops are destroyed. *)
Definition CloseHandle (s : System) (handle : Z) : exec (Result Z * System) :=
  t ← HandlesManager_check_handle (sy_handles s) handle;
  if bool_decide (t = HInvalid) then Done (Error ERROR_INVALID_HANDLE, s)
  else
    '(gone, m) ← HandlesManager_remove_handle (sy_handles s) handle;
    s ← foldr (fun o m => s ← m; match o with File d => destroy_description s d | Process d => drop_process d s end)
          (Done (with_handles s m)) gone;
    Done (Value 0, s).

End calls.

(** * Dispatch *)

Inductive routine :=
| SC_OpenFile | SC_ReadFile | SC_WriteFile | SC_QueryDirectory | SC_CloseHandle | SC_Sleep | SC_Yield | SC_CreateThread
| SC_CreateProcess | SC_OpenProcess | SC_TerminateProcess | SC_TerminateThread | SC_WaitSignal | SC_VirtualAlloc
| SC_VirtualFree | SC_QueryFileInformation.

Definition systemcalls_routines : list routine :=
  [SC_OpenFile; SC_ReadFile; SC_WriteFile; SC_QueryDirectory; SC_CloseHandle; SC_Sleep; SC_Yield; SC_CreateThread;
   SC_CreateProcess; SC_OpenProcess; SC_TerminateProcess; SC_TerminateThread; SC_WaitSignal; SC_VirtualAlloc;
   SC_VirtualFree; SC_QueryFileInformation].

Definition get_syscall_routine (syscall_num : Z) : option routine :=
  if syscall_num <? alen systemcalls_routines then systemcalls_routines !! Z.to_nat syscall_num else None.

(** The two registers of the result, and what the routine returned with it; a number
    without a routine stops the machine. *)
Definition systemcall_handler {S : Type} (run : routine -> exec (Result Z * S)) (syscall_num : Z) : exec (Z * Z * S) :=
  match get_syscall_routine syscall_num with
  | None => Panic
  | Some syscall =>
      '(ret, s) ← run syscall;
      Done match ret with Value v => (ERROR_SUCCESS, v, s) | Error e => (e, 0, s) end
  end.

(** [CreateThread], [TerminateThread]: nothing yet. The queries are not in the table, and
    give the number of an error as if they had succeeded. *)
Definition CreateThread : Result Z := Value 0.
Definition TerminateThread : Result Z := Value 0.
Definition ERROR_ACCESS_DENIED : Z := 17.
Definition QueryProcessList : Result Z := Value ERROR_ACCESS_DENIED.
Definition QueryThreadList : Result Z := Value ERROR_ACCESS_DENIED.
Definition QuerySystemInformation : Result Z := Value ERROR_ACCESS_DENIED.
Definition QueryProcessInformation : Result Z := Value ERROR_ACCESS_DENIED.
Definition QueryThreadInformation : Result Z := Value ERROR_ACCESS_DENIED.

(** * Sessions *)

(** The objects left when a handle is removed. *)
Lemma removed_object (os : list (option object)) k d d' :
  NoDup (omap live_file os) -> os !! k = Some (Some (File d)) -> Some (File d') ∈ <[k := None]> os ->
  d' <> d /\ Some (File d') ∈ os.
Proof.
  intros Hnd Hk Hin. apply list_elem_of_split_length in Hk as (a & b & -> & ->).
  rewrite (insert_app_r_alt a (_ :: b)), Nat.sub_diag in Hin by lia. cbn in Hin.
  assert (Hab : Some (File d') ∈ a \/ Some (File d') ∈ b) by (apply elem_of_app in Hin as [|[?|]%elem_of_cons]; [by left|done|by right]).
  split; [|rewrite elem_of_app, elem_of_cons; tauto]. intros ->. rewrite omap_app in Hnd. cbn in Hnd.
  apply NoDup_app in Hnd as (_ & Hdis & Hnd). apply NoDup_cons in Hnd as [Hnb _].
  assert (Hlive : forall l : list (option object), Some (File d) ∈ l -> d ∈ omap live_file l).
  { intros l Hl. apply list_elem_of_omap. by exists (Some (File d)). }
  destruct Hab as [Ha|Hb]; [|by apply Hnb, Hlive]. apply (Hdis d); [by apply Hlive|apply elem_of_cons; by left].
Qed.

Section sessions.
Context (memory_at : Z -> list Z) (drop_process : Z -> System -> exec System).

(** The handles [os] of the caller stand for descriptions that exist; new ones get new
    addresses. *)
Record system_ok (s : System) (os : list (option object)) : Prop := {
  so_fs : fs_ok (sy_fs s);
  so_handles : handles_rep (sy_handles s) os;
  so_open : forall d, Some (File d) ∈ os -> exists i fd, sy_descriptions s !! d = Some (i, fd);
  so_fresh : 0 < sy_fresh s /\ forall d, Some (File d) ∈ os -> d < sy_fresh s
}.

(** A handle that is not one of an open file. *)
Lemma bad_handle s os h :
  system_ok s os -> 0 <= h -> (forall d, os !! Z.to_nat h <> Some (Some (File d))) ->
  is_file_handle s h = Done false.
Proof.
  intros Hs Hh Hbad. unfold is_file_handle. destruct (handles_read _ os (so_handles _ _ Hs) h Hh) as [-> _].
  cbn [mbind exec_bind]. destruct (os !! Z.to_nat h) as [[[d|d]|]|]; try done. by destruct (Hbad d).
Qed.

Lemma bad_handle_refused s os h again buff info info' :
  system_ok s os -> 0 <= h -> (forall d, os !! Z.to_nat h <> Some (Some (File d))) ->
  ReadFile memory_at s h again buff = Done (Returns (Error ERROR_INVALID_HANDLE, buff, s)) /\
  WriteFile s h again buff = Done (Returns (Error ERROR_INVALID_HANDLE, s)) /\
  QueryDirectory s h info = Done (Error ERROR_INVALID_HANDLE, info, s) /\
  QueryFileInformation s h (Some info') = Done (Error ERROR_INVALID_HANDLE, Some info') /\
  (os !! Z.to_nat h ≫= id = None -> CloseHandle drop_process s h = Done (Error ERROR_INVALID_HANDLE, s)).
Proof.
  intros Hs Hh Hbad. unfold ReadFile, WriteFile, QueryDirectory, QueryFileInformation.
  rewrite (bad_handle s os h Hs Hh Hbad). do 4 (split; [done|]). intros Hn. unfold CloseHandle.
  destruct (handles_read _ os (so_handles _ _ Hs) h Hh) as [-> _]. by rewrite Hn.
Qed.

(** A good one. *)
Lemma good_handle s os h d :
  system_ok s os -> 0 <= h -> os !! Z.to_nat h = Some (Some (File d)) ->
  is_file_handle s h = Done true /\ HandlesManager_get_file_description (sy_handles s) h = Done d.
Proof.
  intros Hs Hh Hd. destruct (handles_read _ os (so_handles _ _ Hs) h Hh) as [Hc Hg].
  apply lookup_lt_Some in Hd as Hlt. destruct Hg as [Hg _]; [unfold alen; lia|].
  unfold is_file_handle. rewrite Hc, Hg, Hd. done.
Qed.

(** The argument of a program: a path with a zero behind it. *)
Lemma path_argument ws rest :
  clean ws -> alen (opened ws) + 2 < 2 ^ 31 ->
  exists v p, StringView_of_cstr (opened ws ++ 0 :: rest) 0 = Done v /\ PathView_is_valid v = Done true /\
    PathView_of_cstr (opened ws ++ 0 :: rest) 0 = Done p /\ m_type p = Absolute /\
    path_rep p (opened ws) [] /\ parts (opened ws) ++ parts [] = ws.
Proof.
  intros (Hne & Hws & Hnz) Hb. pose proof (opened_nonzero ws Hnz) as Ho.
  pose proof (strlen_spec [] (opened ws) rest Ho ltac:(lia)) as E. rewrite (@alen_nil Z) in E. cbn [app] in E.
  set (v := Strings.mkView (alen (opened ws)) (opened ws ++ 0 :: rest) 0).
  assert (Hv : view_rep v (opened ws)) by (split; [lia|by exists [], (0 :: rest)]).
  assert (Ev : StringView_of_cstr (opened ws ++ 0 :: rest) 0 = Done v) by (unfold StringView_of_cstr; by rewrite E).
  destruct (absolute_path v ws Hv Hws Hne Hb) as (p & Ep & Ht & Hp & Hels).
  exists v, p. split; [done|]. split; [rewrite (is_valid_spec v _ Hv); f_equal; by apply valid_opened|].
  unfold PathView_of_cstr. rewrite Ev. cbn [mbind exec_bind]. done.
Qed.

Lemma get_node_absolute fs p ws :
  fs_ok fs -> path_rep p (opened ws) [] -> parts (opened ws) ++ parts [] = ws ->
  VFS_get_node fs p OF_OPEN_EXISTING = Done (fs, resolve fs ws).
Proof.
  intros Hok Hp Hels. unfold VFS_get_node. change (OF_OPEN_EXISTING =? OF_CREATE_NEW) with false.
  rewrite Z.eqb_refl. cbn match. unfold VFS_open_existing_node. by rewrite (traverse_resolves fs Hok p _ _ Hp), Hels.
Qed.

(** Nodes that anyone can open. *)
Definition openable (c : node_class) : bool :=
  match c with
  | CINode | CTarFS | CDomainSocket | CKeyboard | CConsole => true
  | CPipe | CPipeFS | CDomainSocketFS | CDeviceFS => false
  end.

Lemma resolve_in fs ws i : fs_ok fs -> resolve fs ws = Value i -> (i < length (fs_nodes fs))%nat.
Proof.
  intros Hok. destruct ws as [|w ws]; [done|]. unfold resolve. case_bool_decide; [done|].
  destruct (List.find _ _) as [r|] eqn:Hf; [|done].
  assert (Hr : (r < length (fs_nodes fs))%nat) by (eapply find_in; [apply ok_roots, Hok|done]).
  destruct ws as [|w' ws]; [by intros [= <-]|]. intros Hd.
  destruct (descend_inner fs Hok _ _ _ _ Hd) as (n & Hn & _). by apply lookup_lt_Some in Hn.
Qed.

(** Opening a path. *)
Lemma OpenFile_spec s os ws rest mode :
  system_ok s os -> clean ws -> alen (opened ws) + 2 < 2 ^ 31 -> alen os + 1 < 2 ^ 31 ->
  match resolve (sy_fs s) ws with
  | Error _ => OpenFile s (opened ws ++ 0 :: rest) mode OF_OPEN_EXISTING = Done (Error ERROR_FILE_DOES_NOT_EXIST, s)
  | Value i => forall n, fs_nodes (sy_fs s) !! i = Some n -> openable (fn_class n) = true ->
      let d := sy_fresh s in
      exists s', OpenFile s (opened ws ++ 0 :: rest) mode OF_OPEN_EXISTING = Done (Value (alen os), s') /\
        system_ok s' (os ++ [Some (File d)]) /\ sy_fs s' = sy_fs s /\
        sy_descriptions s' = <[d := (i, FileDescription_new mode)]> (sy_descriptions s) /\ sy_console s' = sy_console s
  end.
Proof.
  intros Hs Hws Hb Hos. destruct (path_argument ws rest Hws Hb) as (v & p & Ev & Hvalid & Ep & Ht & Hp & Hels).
  pose proof (get_node_absolute (sy_fs s) p ws (so_fs _ _ Hs) Hp Hels) as Hget.
  unfold OpenFile. rewrite Ev. cbn [mbind exec_bind]. rewrite Hvalid. cbn [mbind exec_bind negb]. rewrite Ep. cbn [mbind exec_bind].
  unfold VFS_resolve_path, is_absolute. rewrite (bool_decide_eq_true_2 _ Ht). cbn [mbind exec_bind].
  unfold VFS_check_exitsts. rewrite Hget. cbn [mbind exec_bind].
  destruct (resolve (sy_fs s) ws) as [i|e] eqn:Hres; [|done]. cbn [negb]. intros n Hn Hop. set (d := sy_fresh s).
  unfold FileDescription_open. rewrite Hget. cbn [mbind exec_bind sy_fresh with_fs sy_descriptions].
  unfold node_open, node_at. cbn [sy_fs with_descriptions with_fs]. rewrite Hn. cbn [mbind exec_bind].
  pose proof (so_fresh _ _ Hs) as [Hf Hfr].
  assert (Hadd : exists m, HandlesManager_add_file (sy_handles s) (sy_fresh s) = (alen os, m) /\
    handles_rep m (os ++ [Some (File (sy_fresh s))])).
  { destruct (handles_step_refines (sy_handles s) os (AddFile (sy_fresh s)) (so_handles _ _ Hs)) as (m & E & Hm).
    - split; [lia|]. intros Hin. specialize (Hfr _ Hin). lia.
    - lia.
    - unfold handles_step in E. destruct (HandlesManager_add_file _ _) as [h m'] eqn:E'. exists m. simplify_eq. done. }
  destruct Hadd as (m & Em & Hm).
  assert (Hend : exists s', (let '(fd, m) := HandlesManager_add_file (sy_handles s) (sy_fresh s) in
      Done (Value (s32 fd), with_handles (with_descriptions (with_fs s (sy_fs s))
        (<[sy_fresh s := (i, FileDescription_new mode)]> (sy_descriptions s)) (sy_fresh s + 1)) m)) = Done (Value (alen os), s') /\
      system_ok s' (os ++ [Some (File d)]) /\ sy_fs s' = sy_fs s /\
      sy_descriptions s' = <[d := (i, FileDescription_new mode)]> (sy_descriptions s) /\ sy_console s' = sy_console s).
  { rewrite Em. pose proof (alen_nonneg os). rewrite s32_small by lia. eexists. split; [done|]. split; [|done].
    split; cbn [with_handles with_descriptions with_fs sy_fs sy_handles sy_descriptions sy_fresh].
    - apply (so_fs _ _ Hs).
    - done.
    - intros d' [Hd'|Hd']%elem_of_app.
      + pose proof (Hfr d' Hd'). rewrite lookup_insert_ne by lia. by apply (so_open _ _ Hs).
      + apply list_elem_of_singleton in Hd'. injection Hd' as ->. rewrite lookup_insert_eq. by eexists _, _.
    - split; [lia|]. intros d' [Hd'|Hd']%elem_of_app; [specialize (Hfr d' Hd'); lia|].
      apply list_elem_of_singleton in Hd'. injection Hd' as ->. unfold d. lia. }
  destruct (fn_class n); (discriminate Hop || exact Hend).
Qed.

(** The name of a node, with its zero, over the start of an array. *)
Lemma name_copied (name : String) cs dest :
  str_rep name cs -> alen cs < alen dest ->
  (d ← memcpy dest 0 (s_bytes name) 0 (s_size name); aset d (s_size name) 0)
  = Done (cs ++ 0 :: drop (S (length cs)) dest).
Proof.
  intros (_ & junk & ->) Hl. change (s_bytes _) with (cs ++ 0 :: junk). cbn [s_size].
  pose proof (memcpy_spec cs (take (length cs) dest) [] (drop (length cs) dest) [] (0 :: junk)) as E.
  rewrite (@alen_nil Z) in E. cbn [app] in E. rewrite take_drop in E.
  rewrite E by (rewrite length_take; unfold alen in Hl; lia). cbn [mbind exec_bind].
  destruct (drop (length cs) dest) as [|o r] eqn:Hd.
  - apply (f_equal length) in Hd. rewrite length_drop in Hd. unfold alen in Hl. simpl in Hd. lia.
  - rewrite aset_middle. do 3 f_equal. replace (S (length cs)) with (length cs + 1)%nat by lia.
    by rewrite <- drop_drop, Hd.
Qed.

(** An open file of the archive: the handle [h] of the caller stands for a description at
    the start of the node [n]. *)
Record open_file (s : System) (os : list (option object)) (h : Z) (n : FSNode) : Prop := {
  of_handle : 0 <= h;
  of_file : exists d i mode, os !! Z.to_nat h = Some (Some (File d)) /\
    sy_descriptions s !! d = Some (i, mkFD mode 0) /\ fs_nodes (sy_fs s) !! i = Some n;
  of_class : fn_class n = CINode;
  of_size : 0 < fn_size n < 2 ^ 31;
  of_data : fn_size n <= alen (memory_at (fn_data n))
}.

Lemma open_file_reads s os h n again buff :
  system_ok s os -> open_file s os h n -> alen buff < 2 ^ 31 ->
  ReadFile memory_at s h again buff =
    Done (Returns (if fn_size n <? alen buff then (Error ERROR_EOF, buff, s)
                   else (Value (alen buff), take (length buff) (memory_at (fn_data n)), s))).
Proof.
  intros Hs [Hh (d & i & mode & Hd & Hi & Hn) Hc Hsz Hdata] Hb. destruct (good_handle s os h d Hs Hh Hd) as [Hg Hf].
  pose proof (alen_nonneg buff). unfold ReadFile. rewrite Hg. cbn [mbind exec_bind negb]. rewrite Hf. cbn [mbind exec_bind].
  unfold description_at, node_at. rewrite Hi. cbn [mbind exec_bind]. rewrite Hn. cbn [mbind exec_bind].
  unfold FileDescription_read, beyond_end. cbn [fd_position]. rewrite Z.add_0_l, (u32_small (alen buff)) by lia.
  rewrite (proj2 (Z.eqb_neq (fn_size n) 0)) by lia. cbn [negb]. rewrite andb_true_r.
  destruct (Z.ltb_spec (fn_size n) (alen buff)); [done|]. unfold node_read, node_at. rewrite Hn. cbn [mbind exec_bind].
  rewrite Hc. unfold INode_read. cbn [in_size in_data]. rewrite Z.sub_0_r, u32_small, Z.min_l by lia.
  unfold alen in *. rewrite fill_from_start by (unfold alen; lia). cbn [mbind exec_bind fst snd].
  by rewrite drop_ge, app_nil_r by lia.
Qed.

Lemma open_file_refuses_writes s os h n again buff :
  system_ok s os -> open_file s os h n -> alen buff <= fn_size n ->
  WriteFile s h again buff = Done (Returns (Error ERROR_INVALID_OPERATION, s)).
Proof.
  intros Hs [Hh (d & i & mode & Hd & Hi & Hn) Hc Hsz Hdata] Hb. destruct (good_handle s os h d Hs Hh Hd) as [Hg Hf].
  pose proof (alen_nonneg buff). unfold WriteFile. rewrite Hg. cbn [mbind exec_bind negb]. rewrite Hf. cbn [mbind exec_bind].
  unfold description_at, node_at. rewrite Hi. cbn [mbind exec_bind]. rewrite Hn. cbn [mbind exec_bind].
  unfold FileDescription_write, beyond_end. cbn [fd_position]. rewrite Z.add_0_l, (u32_small (alen buff)) by lia.
  rewrite (proj2 (Z.ltb_ge _ _)) by lia. cbn [andb]. unfold node_write, node_at. rewrite Hn. cbn [mbind exec_bind].
  by rewrite Hc.
Qed.

Lemma open_file_information s os h n cs info :
  system_ok s os -> open_file s os h n -> str_rep (fn_name n) cs -> alen cs < alen (fi_name info) ->
  QueryFileInformation s h (Some info) =
    Done (Value 0, Some (mkInfo (cs ++ 0 :: drop (S (length cs)) (fi_name info)) (fn_size n) (fn_type n))).
Proof.
  intros Hs [Hh (d & i & mode & Hd & Hi & Hn) Hc Hsz Hdata] Hcs Hl.
  destruct (good_handle s os h d Hs Hh Hd) as [Hg Hf]. unfold QueryFileInformation. rewrite Hg. cbn [mbind exec_bind negb].
  rewrite Hf. cbn [mbind exec_bind]. unfold FileDescription_file_query, description_at, node_at. rewrite Hi.
  cbn [mbind exec_bind]. rewrite Hn. cbn [mbind exec_bind]. pose proof (name_copied (fn_name n) cs (fi_name info) Hcs Hl) as E.
  destruct (memcpy _ _ _ _ _); try discriminate E. cbn [mbind exec_bind] in E |- *. rewrite E. done.
Qed.

(** Closing the handle of a file of the archive destroys its description and nothing else. *)
Lemma open_file_closes s os h n :
  system_ok s os -> open_file s os h n ->
  exists d s', os !! Z.to_nat h = Some (Some (File d)) /\ CloseHandle drop_process s h = Done (Value 0, s') /\
    system_ok s' (<[Z.to_nat h := None]> os) /\ sy_fs s' = sy_fs s /\ sy_descriptions s' = delete d (sy_descriptions s) /\
    sy_console s' = sy_console s.
Proof.
  intros Hs [Hh (d & i & mode & Hd & Hi & Hn) Hc Hsz Hdata]. pose proof (so_handles _ _ Hs) as Hm.
  apply lookup_lt_Some in Hd as Hlt. assert (Hr : 0 <= h < alen os) by (unfold alen; lia).
  pose proof (remove_handle_rep _ os Hm h Hr) as Hrem. rewrite Hd in Hrem. destruct Hrem as (m & Em & Hm').
  unfold CloseHandle. destruct (handles_read _ os Hm h Hh) as [-> _]. rewrite Hd. cbn [mbind exec_bind].
  rewrite Em. cbn [mbind exec_bind foldr]. unfold destroy_description, description_at. cbn [with_handles sy_descriptions].
  rewrite Hi. cbn [mbind exec_bind]. unfold node_close, node_at. cbn [sy_fs with_handles]. rewrite Hn. cbn [mbind exec_bind].
  rewrite Hc. cbn [mbind exec_bind]. exists d. eexists. split; [done|]. split; [done|]. split; [|done].
  pose proof (hm_nodup_files _ _ Hm) as Hnd.
  split; cbn [with_handles with_descriptions sy_fs sy_handles sy_descriptions sy_fresh].
  - apply (so_fs _ _ Hs).
  - done.
  - intros d' Hd'. assert (d' <> d /\ Some (File d') ∈ os) as [Hne Hin].
    { apply (removed_object os (Z.to_nat h) d d' Hnd Hd Hd'). }
    rewrite lookup_delete_ne by done. by apply (so_open _ _ Hs).
  - destruct (so_fresh _ _ Hs) as [Hf Hfr]. split; [done|]. intros d' Hd'. apply Hfr.
    by apply (removed_object os (Z.to_nat h) d d' Hnd Hd Hd').
Qed.

End sessions.

(** C6: a session with a file, from the path to the closed handle. Opening a path of proper
    elements that names no node is refused with [ERROR_FILE_DOES_NOT_EXIST] and changes
    nothing. For the path of a file of the archive, [OpenFile] gives the next handle and
    changes neither the tree nor an open file; with that handle [ReadFile] gives the first
    bytes of the file, however often it is called, and refuses a buffer larger than the
    file with [ERROR_EOF]; a write that fits is refused as invalid; [QueryFileInformation]
    gives the name, the size and the type. [CloseHandle] destroys the description that the
    call made, after which every call refuses the handle with [ERROR_INVALID_HANDLE]. *)
Theorem file_session (memory_at : Z -> list Z) (drop_process : Z -> System -> exec System) (s : System)
    (os : list (option object)) (ws : list (list Z)) (rest : list Z) (mode : Z)
    (Hs : system_ok s os) (Hws : clean ws) (Hb : alen (opened ws) + 2 < 2 ^ 31) (Hos : alen os + 1 < 2 ^ 31)
    (Hnew : sy_descriptions s !! sy_fresh s = None) :
  let path := opened ws ++ 0 :: rest in
  let h := alen os in
  match resolve (sy_fs s) ws with
  | Error _ => OpenFile s path mode OF_OPEN_EXISTING = Done (Error ERROR_FILE_DOES_NOT_EXIST, s)
  | Value i => forall n cs, fs_nodes (sy_fs s) !! i = Some n -> fn_class n = CINode -> 0 < fn_size n < 2 ^ 31 ->
      fn_size n <= alen (memory_at (fn_data n)) -> str_rep (fn_name n) cs ->
      exists s1 s2, OpenFile s path mode OF_OPEN_EXISTING = Done (Value h, s1) /\
        sy_fs s1 = sy_fs s /\ (forall d, d <> sy_fresh s -> sy_descriptions s1 !! d = sy_descriptions s !! d) /\
        (forall again buff, alen buff < 2 ^ 31 ->
           ReadFile memory_at s1 h again buff =
             Done (Returns (if fn_size n <? alen buff then (Error ERROR_EOF, buff, s1)
                            else (Value (alen buff), take (length buff) (memory_at (fn_data n)), s1)))) /\
        (forall again buff, alen buff <= fn_size n ->
           WriteFile s1 h again buff = Done (Returns (Error ERROR_INVALID_OPERATION, s1))) /\
        (forall info, alen cs < alen (fi_name info) ->
           QueryFileInformation s1 h (Some info) =
             Done (Value 0, Some (mkInfo (cs ++ 0 :: drop (S (length cs)) (fi_name info)) (fn_size n) (fn_type n)))) /\
        CloseHandle drop_process s1 h = Done (Value 0, s2) /\
        system_ok s2 (os ++ [None]) /\ sy_fs s2 = sy_fs s /\ sy_descriptions s2 = sy_descriptions s /\
        (forall again buff info info',
           ReadFile memory_at s2 h again buff = Done (Returns (Error ERROR_INVALID_HANDLE, buff, s2)) /\
           WriteFile s2 h again buff = Done (Returns (Error ERROR_INVALID_HANDLE, s2)) /\
           QueryDirectory s2 h info = Done (Error ERROR_INVALID_HANDLE, info, s2) /\
           QueryFileInformation s2 h (Some info') = Done (Error ERROR_INVALID_HANDLE, Some info') /\
           CloseHandle drop_process s2 h = Done (Error ERROR_INVALID_HANDLE, s2))
  end.
Proof.
  intros path h. pose proof (OpenFile_spec s os ws rest mode Hs Hws Hb Hos) as Hopen.
  destruct (resolve (sy_fs s) ws) as [i|e]; [|done]. intros n cs Hn Hc Hsz Hdata Hcs. pose proof (alen_nonneg os).
  destruct (Hopen n Hn) as (s1 & E1 & Hs1 & Hfs1 & Hd1 & _); [by rewrite Hc|].
  assert (Hh : Z.to_nat h = length os) by (unfold h, alen; lia).
  assert (Hof : open_file memory_at s1 (os ++ [Some (File (sy_fresh s))]) h n).
  { split; [unfold h; lia| |done..]. exists (sy_fresh s), i, mode. rewrite Hh, Hd1, Hfs1.
    split; [by apply list_lookup_middle|]. split; [apply lookup_insert_eq|done]. }
  destruct (open_file_closes memory_at drop_process _ _ _ _ Hs1 Hof) as (d & s2 & Hd & E2 & Hs2 & Hfs2 & Hd2 & _).
  rewrite Hh, (list_lookup_middle os []) in Hd by done. injection Hd as <-.
  rewrite Hh, insert_app_r_alt, Nat.sub_diag in Hs2 by lia. cbn in Hs2.
  exists s1, s2. split; [done|]. split; [done|]. split; [intros d' Hd'; by rewrite Hd1, lookup_insert_ne|].
  split; [intros again buff Hbuff; by eapply open_file_reads|].
  split; [intros again buff Hbuff; by eapply open_file_refuses_writes|].
  split; [intros info Hinfo; by eapply open_file_information|].
  split; [done|]. split; [done|]. split; [by rewrite Hfs2|]. split.
  { by rewrite Hd2, Hd1, delete_insert_id. }
  intros again buff info info'. assert (Hnone : (os ++ [None]) !! Z.to_nat h = Some None)
    by (rewrite Hh; by apply list_lookup_middle).
  destruct (bad_handle_refused memory_at drop_process s2 _ h again buff info info' Hs2) as (? & ? & ? & ? & Hcl);
    [unfold h; lia|by rewrite Hnone|]. rewrite Hnone in Hcl. by repeat (split; [done|]); apply Hcl.
Qed.

(** A system with the file "/t/f" of some bytes. *)
Definition sample_name (c : Z) : String := mkString 1 (Some [c; 0]).

Definition sample_file (size : Z) : FSNode := mkNode (sample_name 102) 0 0 NT_File size CINode 4096 [].

Definition sample_fs (size : Z) : Filesystem :=
  mkFs [mkNode (sample_name 116) 0 0 NT_Root 0 CTarFS 0 [1%nat]; sample_file size] [0%nat] None.

Definition sample_system (size : Z) : System :=
  mkSystem (sample_fs size) ∅ Keyboard_new (mkConsole [] 0 0 0x0F) HandlesManager_new ∅ 1 (sample_name 47).

Lemma sample_fs_ok size : fs_ok (sample_fs size).
Proof.
  constructor; simpl.
  - repeat (apply Forall_cons; split; [split; [split; [done|by exists []]|by repeat constructor]|]). by apply Forall_nil.
  - repeat (apply Forall_cons; split; [repeat (apply Forall_cons; split; [by eexists|]); by apply Forall_nil|]).
    by apply Forall_nil.
  - repeat constructor.
  - constructor.
  - intros H. repeat (inversion_clear H as [? ? H'|? ? H']; [discriminate H'|rename H' into H]). inversion H.
Qed.

Lemma sample_path_clean : clean [[116]; [102]].
Proof.
  split; [done|]. split; [|by repeat constructor].
  repeat (apply Forall_cons; split; [split; [intros H; by apply list_elem_of_singleton in H|done]|]). by apply Forall_nil.
Qed.

(** Three bytes, and the first file the process opens. *)
Lemma file_session_witness :
  let memory_at (_ : Z) := [10; 20; 30; 0] in
  exists s1 s2,
    OpenFile (sample_system 3) [47; 116; 47; 102; 0] OM_READ OF_OPEN_EXISTING = Done (Value 0, s1) /\
    ReadFile memory_at s1 0 false [0; 0] = Done (Returns (Value 2, [10; 20], s1)) /\
    CloseHandle (fun _ s => Done s) s1 0 = Done (Value 0, s2) /\
    ReadFile memory_at s2 0 false [0; 0] = Done (Returns (Error ERROR_INVALID_HANDLE, [0; 0], s2)).
Proof.
  intros memory_at.
  assert (Hs : system_ok (sample_system 3) []).
  { split; [apply sample_fs_ok|apply handles_new_rep|by intros d ?%elem_of_nil|]. split; [done|]. by intros d ?%elem_of_nil. }
  pose proof (file_session memory_at (fun _ s => Done s) (sample_system 3) [] [[116]; [102]] [] OM_READ Hs sample_path_clean
    ltac:(done) ltac:(done) ltac:(done)) as H.
  destruct (H (sample_file 3) [102]) as (s1 & s2 & E1 & _ & _ & E2 & _ & _ & E3 & _ & _ & _ & E4);
    [done|done|done|done|split; [done|by exists []]|].
  exists s1, s2. split; [exact E1|]. split; [exact (E2 false [0; 0] ltac:(done))|]. split; [exact E3|].
  apply (E4 false [0; 0] (mkInfo [] 0 NT_File) (mkInfo [] 0 NT_File)).
Defined.
