(* ===== verification/Ports.v ===== *)
(** * Ports

    The input and output instructions of arch/x86/asm.h. What is behind a port is hardware:
    a state of which the drivers only know that their accesses read and change it. Each
    driver states the documented behaviour of its device as the laws of a class over
    [PortIO]; an instance shows that the laws can be met. *)
From S2P Require Import Prelude.

(** An access has a width of 1, 2 or 4 bytes. A read may change the state as well: the
    device goes on while the processor polls it. *)
Class PortIO (H : Type) := {
  port_in : Z -> Z -> H -> Z * H;
  port_out : Z -> Z -> Z -> H -> H;
}.

Section ports.
Context {H : Type} `{PortIO H}.

Definition in8 (port : Z) (h : H) : Z * H :=
  let '(data, h) := port_in 1 (u16 port) h in (u8 data, h).
Definition in16 (port : Z) (h : H) : Z * H :=
  let '(data, h) := port_in 2 (u16 port) h in (u16 data, h).
Definition in32 (port : Z) (h : H) : Z * H :=
  let '(data, h) := port_in 4 (u16 port) h in (u32 data, h).
Definition out8 (port data : Z) (h : H) : H := port_out 1 (u16 port) (u8 data) h.
Definition out16 (port data : Z) (h : H) : H := port_out 2 (u16 port) (u16 data) h.
Definition out32 (port data : Z) (h : H) : H := port_out 4 (u16 port) (u32 data) h.

End ports.

(** The little-endian number of the [n] bytes that start at [o]. *)
Fixpoint le_word (n : nat) (bytes : Z -> Z) (o : Z) : Z :=
  match n with
  | O => 0
  | S n => bytes o + 256 * le_word n bytes (o + 1)
  end.

Lemma le_word_ext n f g o :
  (forall i, o <= i < o + Z.of_nat n -> f i = g i) -> le_word n f o = le_word n g o.
Proof.
  revert o. induction n as [|n IH]; intros o E; [done|]. simpl.
  rewrite E, (IH (o + 1)); [done| |lia]. intros i Hi. apply E. lia.
Qed.

Lemma le_word_range n f o :
  (forall i, 0 <= f i < 256) -> 0 <= le_word n f o < 256 ^ Z.of_nat n.
Proof.
  intros Hf. revert o. induction n as [|n IH]; intros o; [simpl; lia|].
  cbn [le_word]. specialize (Hf o). specialize (IH (o + 1)).
  rewrite Nat2Z.inj_succ, Z.pow_succ_r by lia. lia.
Qed.

(** One byte of the word. *)
Lemma le_word_byte n f o k :
  (forall i, 0 <= f i < 256) -> (k < n)%nat ->
  le_word n f o / 256 ^ Z.of_nat k mod 256 = f (o + Z.of_nat k).
Proof.
  intros Hf. revert o n. induction k as [|k IH]; intros o [|n] Hk; try lia; cbn [le_word].
  - rewrite Z.pow_0_r, Z.div_1_r, (Z.mul_comm 256), Z.mod_add, Z.mod_small by (done || lia).
    by rewrite Z.add_0_r.
  - rewrite Nat2Z.inj_succ, Z.pow_succ_r, <- Z.div_div by lia.
    replace ((f o + 256 * le_word n f (o + 1)) / 256) with (le_word n f (o + 1)).
    + rewrite IH by lia. f_equal. lia.
    + specialize (Hf o). rewrite (Z.mul_comm 256), Z.div_add, Z.div_small by lia. lia.
Qed.

Lemma le_word_shift n f c o : le_word n f (c + o) = le_word n (fun i => f (c + i)) o.
Proof.
  revert o. induction n as [|n IH]; intros o; [done|]. cbn [le_word].
  by rewrite <- Z.add_assoc, IH.
Qed.
