(* ===== verification/PciNames.v ===== *)
(** * Names of PCI devices

    kernel/devices/bus/pciidentification.cpp: the names that are shown for classes, vendors
    and devices. *)
From S2P Require Import Prelude.

Local Open Scope string_scope.

Definition storage_class_name (subclass_id : Z) : string :=
  match subclass_id with
  | 0 => "SCSI storage controller"
  | 1 => "IDE interface"
  | 2 => "Floppy disk controller"
  | 3 => "IPI bus controller"
  | 4 => "RAID bus controller"
  | 5 => "ATA controller"
  | 6 => "SATA controller"
  | 7 => "Serial Attached SCSI controller"
  | 8 => "Non-Volatile memory controller"
  | _ => "Mass Storage Controller"
  end.

Definition network_class_name (subclass_id : Z) : string :=
  match subclass_id with
  | 0 => "Ethernet controller"
  | 1 => "Token ring network controller"
  | 2 => "FDDI network controller"
  | 3 => "ATM network controller"
  | 4 => "ISDN controller"
  | 5 => "WorldFip controller"
  | 6 => "PICMG controller"
  | 7 => "Infiniband controller"
  | 8 => "Fabric controller"
  | _ => "Network controller"
  end.

Definition display_class_name (subclass_id : Z) : string :=
  match subclass_id with
  | 0 => "VGA compatible controller"
  | 1 => "XGA compatible controller"
  | 2 => "3D controller"
  | _ => "Display controller"
  end.

Definition multimedia_class_name (subclass_id : Z) : string :=
  match subclass_id with
  | 0 => "Multimedia video controller"
  | 1 => "Multimedia audio controller"
  | 2 => "Computer telephony device"
  | 3 => "Audio device"
  | _ => "Multimedia controller"
  end.

Definition memory_class_name (subclass_id : Z) : string :=
  match subclass_id with
  | 0 => "RAM memory"
  | 1 => "FLASH memory"
  | _ => "Memory controller"
  end.

Definition bridge_class_name (subclass_id : Z) : string :=
  match subclass_id with
  | 0 => "Host bridge"
  | 1 => "ISA bridge"
  | 2 => "EISA bridge"
  | 3 => "MicroChannel bridge"
  | 4 => "PCI bridge"
  | 5 => "PCMCIA bridge"
  | 6 => "NuBus bridge"
  | 7 => "CardBus bridge"
  | 8 => "RACEway bridge"
  | 9 => "Semi-transparent PCI-to-PCI bridge"
  | 0xa => "InfiniBand to PCI host bridge"
  | _ => "Bridge"
  end.

Definition communication_class_name (subclass_id : Z) : string :=
  match subclass_id with
  | 0 => "Serial controller"
  | 1 => "Parallel controller"
  | 2 => "Multiport serial controller"
  | 3 => "Modem"
  | 4 => "GPIB controller"
  | 5 => "Smard Card controller"
  | _ => "Communication controller"
  end.

Definition peripheral_class_name (subclass_id : Z) : string :=
  match subclass_id with
  | 0 => "PIC"
  | 1 => "DMA controller"
  | 2 => "Timer"
  | 3 => "RTC"
  | 4 => "PCI Hot-plug controller"
  | 5 => "SD Host controller"
  | 6 => "IOMMU"
  | _ => "System peripheral"
  end.

Definition input_class_name (subclass_id : Z) : string :=
  match subclass_id with
  | 0 => "Keyboard controller"
  | 1 => "Digitizer Pen"
  | 2 => "Mouse controller"
  | 3 => "Scanner controller"
  | 4 => "Gameport controller"
  | _ => "Input device controller"
  end.

Definition docking_class_name (subclass_id : Z) : string :=
  match subclass_id with
  | 0 => "Generic Docking Station"
  | _ => "Docking Station"
  end.

Definition processor_class_name (subclass_id : Z) : string :=
  match subclass_id with
  | 0 => "386"
  | 1 => "486"
  | 2 => "Pentium"
  | 10 => "Alpha"
  | 20 => "Power PC"
  | 30 => "MIPS"
  | 40 => "Co-processor"
  | _ => "Processor"
  end.

Definition serial_bus_class_name (subclass_id : Z) : string :=
  match subclass_id with
  | 0 => "FireWire (IEEE 1394)"
  | 1 => "ACCESS Bus"
  | 2 => "SSA"
  | 3 => "USB controller"
  | 4 => "Fibre Channel"
  | 5 => "SMBus"
  | 6 => "InfiniBand"
  | 7 => "IPMI Interface"
  | 8 => "SERCOS interface"
  | 9 => "CANBUS"
  | _ => "Serial bus controller"
  end.

Definition wireless_class_name (subclass_id : Z) : string :=
  match subclass_id with
  | 0 => "IRDA controller"
  | 1 => "Consumer IR controller"
  | 10 => "RF controller"
  | 11 => "Bluetooth"
  | 12 => "Broadband"
  | 20 => "802.1a controller"
  | 21 => "802.1b controller"
  | _ => "Wireless controller"
  end.

Definition intelligent_class_name (subclass_id : Z) : string :=
  match subclass_id with
  | 0 => "I2O"
  | _ => "Intelligent controller"
  end.

Definition PCI_id_to_string (class_id subclass_id : Z) : string :=
  match class_id with
  | 0 => "Unknown"
  | 1 => storage_class_name subclass_id
  | 2 => network_class_name subclass_id
  | 3 => display_class_name subclass_id
  | 4 => multimedia_class_name subclass_id
  | 5 => memory_class_name subclass_id
  | 6 => bridge_class_name subclass_id
  | 7 => communication_class_name subclass_id
  | 8 => peripheral_class_name subclass_id
  | 9 => input_class_name subclass_id
  | 0xa => docking_class_name subclass_id
  | 0xb => processor_class_name subclass_id
  | 0xc => serial_bus_class_name subclass_id
  | 0xd => wireless_class_name subclass_id
  | 0xe => intelligent_class_name subclass_id
  | _ => "Unknown device"
  end.

Definition PCI_vendor_to_string (vendor_id : Z) : string :=
  match vendor_id with
  | 0x1002 => "Advanced Micro Devices (AMD) inc."
  | 0x8086 => "Intel Corporation"
  | 0x168C => "Qualcomm Atheros"
  | 0x10DE => "NVIDIA"
  | 0x10ec => "Realtek Semiconductor Co., Ltd."
  | 0x1a58 => "Razer USA Ltd."
  | 0x1014 => "IBM"
  | 0x1414 => "Microsoft Corporation"
  | 0x1234 => "Technical Corp."
  | 0x1AE0 => "Google, Inc."
  | 0x80EE => "Oracle Corporation"
  | 0x1af4 => "Red Hat"
  | _ => "Unknown vendor"
  end.

Definition intel_device_name (device_id : Z) : string :=
  match device_id with
  | 0x100E => "Gigabit Ethernet Controller"
  | 0x153A => "Ethernet Connection I217-LM"
  | 0x10EA => "Gigabit Network Connection"
  | _ => "Unknown device"
  end.

Definition realtek_device_name (device_id : Z) : string :=
  match device_id with
  | 0x8139 => "RTL-8100/8101L/8139 PCI Fast Ethernet Adapter"
  | _ => "Unknown device"
  end.

Definition qemu_device_name (device_id : Z) : string :=
  match device_id with
  | 0x1111 => "QEMU Virtual Video Controller"
  | _ => "Unknown device"
  end.

Definition virtualbox_device_name (device_id : Z) : string :=
  match device_id with
  | 0xBEEF => "VirtualBox Graphics Adapter"
  | 0xCAFE => "VirtualBox Guest Service"
  | _ => "Unknown device"
  end.

Definition PCI_device_id_to_string (vendor_id device_id : Z) : string :=
  match vendor_id with
  | 0x8086 => intel_device_name device_id
  | 0x10EC => realtek_device_name device_id
  | 0x1234 => qemu_device_name device_id
  | 0x80EE => virtualbox_device_name device_id
  | _ => "Unknown device"
  end.
