(* ===== verification/Pci.v ===== *)
(** * PCI

    kernel/devices/bus: the configuration space behind the ports 0xCF8 and 0xCFC, the
    registers of a function of a device, and the scan for devices. The host bridge is
    hardware; [PciHost] states the documented behaviour of its configuration mechanism. *)
From stdpp Require Import sorting.
From S2P Require Import Prelude Ports.

Definition PCI_PORT_ADDRESS_PORT : Z := 0xCF8.
Definition PCI_PORT_VALUE_PORT : Z := 0xCFC.
Definition PCI_PORT_VENDOR_ID : Z := 0x00.
Definition PCI_PORT_DEVICE_ID : Z := 0x02.
Definition PCI_PORT_COMMAND : Z := 0x04.
Definition PCI_PORT_STATUS : Z := 0x06.
Definition PCI_PORT_REVISION_ID : Z := 0x08.
Definition PCI_PORT_PROG_IF : Z := 0x09.
Definition PCI_PORT_SUBCLASS : Z := 0x0a.
Definition PCI_PORT_CLASS : Z := 0x0b.
Definition PCI_PORT_CACHE_LINE_SIZE : Z := 0x0c.
Definition PCI_PORT_LATENCY_TIMER : Z := 0x0d.
Definition PCI_PORT_HEADER_TYPE : Z := 0x0e.
Definition PCI_PORT_BIST : Z := 0x0f.
Definition PCI_COMMAND_BUS_MASTER : Z := Z.shiftl 1 2.
Definition PCI_COMMAND_INTERRUPT_DISABLE : Z := Z.shiftl 1 10.
Definition DEVICE_DOES_NOT_EXIST : Z := 0xffff.
Definition PCI_PORT_BAR0 : Z := 0x10.
Definition PCI_PORT_BAR1 : Z := 0x14.
Definition PCI_PORT_BAR2 : Z := 0x18.
Definition PCI_PORT_BAR3 : Z := 0x1C.
Definition PCI_PORT_BAR4 : Z := 0x20.
Definition PCI_PORT_BAR5 : Z := 0x24.
Definition PCI_PORT_PRIMARY_BUS_NUMBER : Z := 0x18.
Definition PCI_PORT_SECONDARY_BUS_NUMBER : Z := 0x19.
Definition PCI_PORT_SUBORDINATE_BUS_NUMBER : Z := 0x1A.
Definition PCI_PORT_SECONDARY_LATENCY_TIMER : Z := 0x1B.
Definition PCI_PORT_INTERRUPT_LINE : Z := 0x3C.
Definition PCI_PORT_INTERRUPT_PIN : Z := 0x3D.

Record PCIDevice := mkPCI {
  m_bus_number : Z;
  m_slot_number : Z;
  m_function_number : Z;
}.

#[export] Instance PCIDevice_eq_dec : EqDecision PCIDevice.
Proof. solve_decision. Defined.

(** [HeaderType] has the byte it was read from: the cast accepts every value. *)
Definition HeaderType_GeneralDevice : Z := 0.
Definition HeaderType_PCIBridge : Z := 1.
Definition HeaderType_CardBus : Z := 3.

(** ** Base address registers *)

Inductive BarType := MemoryMapped | IOMapped.
Inductive BarSize := BAR32 | BAR64 | NoSize.

Record PCIBaseAddressRegister := mkBar { m_value : Z; m_type : BarType }.

Definition PCIBaseAddressRegister_new (value : Z) : PCIBaseAddressRegister :=
  mkBar value (if truthy (Z.land value 1) then IOMapped else MemoryMapped).

Definition PCIBaseAddressRegister_type (b : PCIBaseAddressRegister) : BarType := m_type b.

Definition PCIBaseAddressRegister_size (b : PCIBaseAddressRegister) : BarSize :=
  match m_type b with
  | MemoryMapped =>
      let size := u8 (Z.shiftr (Z.land (m_value b) 0x6) 1) in
      if size =? 0x0 then BAR32 else if size =? 0x2 then BAR64 else NoSize
  | IOMapped => NoSize
  end.

Definition PCIBaseAddressRegister_io_address (b : PCIBaseAddressRegister) : Z :=
  u16 (Z.land (m_value b) 0xFFFFFFFC).

Definition PCIBaseAddressRegister_mmio_address (b : PCIBaseAddressRegister) : Z :=
  Z.land (m_value b) 0xFFFFFFF0.

(** ** Configuration registers *)

Section device.
Context {H : Type} `{PortIO H}.
Implicit Types (d : PCIDevice) (h : H).

Definition PCIDevice_bus d : Z := m_bus_number d.
Definition PCIDevice_slot d : Z := m_slot_number d.
Definition PCIDevice_function d : Z := m_function_number d.

Definition config_address d (offset : Z) : Z :=
  u32 (Z.lor (Z.lor (Z.lor (Z.lor (Z.shiftl (m_bus_number d) 16) (Z.shiftl (m_slot_number d) 11))
                           (Z.shiftl (m_function_number d) 8))
                    (Z.land offset 0xFC))
             (Z.shiftl 1 31)).

Definition PCIDevice_select_port d (offset : Z) h : H :=
  out32 PCI_PORT_ADDRESS_PORT (config_address d offset) h.

Definition PCIDevice_read_config_word8 d (offset : Z) h : Z * H :=
  in8 (PCI_PORT_VALUE_PORT + Z.land offset 0x3) (PCIDevice_select_port d offset h).

Definition PCIDevice_read_config_word16 d (offset : Z) h : Z * H :=
  in16 (PCI_PORT_VALUE_PORT + Z.land offset 0x2) (PCIDevice_select_port d offset h).

Definition PCIDevice_read_config_word32 d (offset : Z) h : Z * H :=
  in32 PCI_PORT_VALUE_PORT (PCIDevice_select_port d offset h).

Definition PCIDevice_write_config_word8 d (offset data : Z) h : H :=
  out8 (PCI_PORT_VALUE_PORT + Z.land offset 0x3) data (PCIDevice_select_port d offset h).

Definition PCIDevice_write_config_word16 d (offset data : Z) h : H :=
  out16 (PCI_PORT_VALUE_PORT + Z.land offset 0x2) data (PCIDevice_select_port d offset h).

Definition PCIDevice_write_config_word32 d (offset data : Z) h : H :=
  out32 PCI_PORT_VALUE_PORT data (PCIDevice_select_port d offset h).

Definition PCIDevice_vendor_id d h : Z * H := PCIDevice_read_config_word16 d PCI_PORT_VENDOR_ID h.
Definition PCIDevice_device_id d h : Z * H := PCIDevice_read_config_word16 d PCI_PORT_DEVICE_ID h.
Definition PCIDevice_command d h : Z * H := PCIDevice_read_config_word16 d PCI_PORT_COMMAND h.
Definition PCIDevice_status d h : Z * H := PCIDevice_read_config_word16 d PCI_PORT_STATUS h.
Definition PCIDevice_revision_id d h : Z * H := PCIDevice_read_config_word8 d PCI_PORT_REVISION_ID h.
Definition PCIDevice_prog_if d h : Z * H := PCIDevice_read_config_word8 d PCI_PORT_PROG_IF h.
Definition PCIDevice_device_class d h : Z * H := PCIDevice_read_config_word8 d PCI_PORT_CLASS h.
Definition PCIDevice_device_subclass d h : Z * H := PCIDevice_read_config_word8 d PCI_PORT_SUBCLASS h.
Definition PCIDevice_cache_line_size d h : Z * H := PCIDevice_read_config_word8 d PCI_PORT_CACHE_LINE_SIZE h.
Definition PCIDevice_latency_timer d h : Z * H := PCIDevice_read_config_word8 d PCI_PORT_LATENCY_TIMER h.
Definition PCIDevice_bist d h : Z * H := PCIDevice_read_config_word8 d PCI_PORT_BIST h.

Definition PCIDevice_does_exist d h : bool * H :=
  let '(id, h) := PCIDevice_vendor_id d h in (negb (id =? DEVICE_DOES_NOT_EXIST), h).

Definition PCIDevice_header_type d h : Z * H :=
  let '(header_type, h) := PCIDevice_read_config_word8 d PCI_PORT_HEADER_TYPE h in
  (Z.land header_type 0x7F, h).

Definition PCIDevice_has_multiple_functions d h : bool * H :=
  let '(header_type, h) := PCIDevice_read_config_word8 d PCI_PORT_HEADER_TYPE h in
  (truthy (Z.land header_type 0x80), h).

Definition PCIDevice_enable_bus_mastering d h : H :=
  let '(command_port, h) := PCIDevice_read_config_word16 d PCI_PORT_COMMAND h in
  PCIDevice_write_config_word16 d PCI_PORT_COMMAND (Z.lor command_port PCI_COMMAND_BUS_MASTER) h.

Definition PCIDevice_disable_bus_mastering d h : H :=
  let '(command_port, h) := PCIDevice_read_config_word16 d PCI_PORT_COMMAND h in
  PCIDevice_write_config_word16 d PCI_PORT_COMMAND (Z.land command_port (Z.lnot PCI_COMMAND_BUS_MASTER)) h.

Definition PCIDevice_disable_interrupts d h : H :=
  let '(command_port, h) := PCIDevice_read_config_word16 d PCI_PORT_COMMAND h in
  PCIDevice_write_config_word16 d PCI_PORT_COMMAND (Z.lor command_port PCI_COMMAND_INTERRUPT_DISABLE) h.

Definition PCIDevice_enable_interrupts d h : H :=
  let '(command_port, h) := PCIDevice_read_config_word16 d PCI_PORT_COMMAND h in
  PCIDevice_write_config_word16 d PCI_PORT_COMMAND
    (Z.land command_port (Z.lnot PCI_COMMAND_INTERRUPT_DISABLE)) h.

(** The registers of a bridge. They are read as words of 32 bits and cut to a byte. *)
Definition PCIBridge_bar (offset : Z) d h : PCIBaseAddressRegister * H :=
  let '(value, h) := PCIDevice_read_config_word32 d offset h in (PCIBaseAddressRegister_new value, h).

Definition PCIBridge_BAR0 d h : PCIBaseAddressRegister * H := PCIBridge_bar PCI_PORT_BAR0 d h.
Definition PCIBridge_BAR1 d h : PCIBaseAddressRegister * H := PCIBridge_bar PCI_PORT_BAR1 d h.

Definition PCIBridge_byte (offset : Z) d h : Z * H :=
  let '(value, h) := PCIDevice_read_config_word32 d offset h in (u8 value, h).

Definition PCIBridge_primary_bus_number d h : Z * H := PCIBridge_byte PCI_PORT_PRIMARY_BUS_NUMBER d h.
Definition PCIBridge_secondary_bus_number d h : Z * H := PCIBridge_byte PCI_PORT_SECONDARY_BUS_NUMBER d h.
Definition PCIBridge_subordinate_bus_number d h : Z * H := PCIBridge_byte PCI_PORT_SUBORDINATE_BUS_NUMBER d h.
Definition PCIBridge_secondary_latency_timer d h : Z * H := PCIBridge_byte PCI_PORT_SECONDARY_LATENCY_TIMER d h.

(** The registers of another device. *)
Definition GenericPCIDevice_bar (offset : Z) d h : PCIBaseAddressRegister * H :=
  let '(value, h) := PCIDevice_read_config_word32 d offset h in (PCIBaseAddressRegister_new value, h).

Definition GenericPCIDevice_BAR0 d h : PCIBaseAddressRegister * H := GenericPCIDevice_bar PCI_PORT_BAR0 d h.
Definition GenericPCIDevice_BAR1 d h : PCIBaseAddressRegister * H := GenericPCIDevice_bar PCI_PORT_BAR1 d h.
Definition GenericPCIDevice_BAR2 d h : PCIBaseAddressRegister * H := GenericPCIDevice_bar PCI_PORT_BAR2 d h.
Definition GenericPCIDevice_BAR3 d h : PCIBaseAddressRegister * H := GenericPCIDevice_bar PCI_PORT_BAR3 d h.
Definition GenericPCIDevice_BAR4 d h : PCIBaseAddressRegister * H := GenericPCIDevice_bar PCI_PORT_BAR4 d h.
Definition GenericPCIDevice_BAR5 d h : PCIBaseAddressRegister * H := GenericPCIDevice_bar PCI_PORT_BAR5 d h.
Definition GenericPCIDevice_interrupt_line d h : Z * H := PCIDevice_read_config_word8 d PCI_PORT_INTERRUPT_LINE h.
Definition GenericPCIDevice_interrupt_pin d h : Z * H := PCIDevice_read_config_word8 d PCI_PORT_INTERRUPT_PIN h.

End device.

(** ** The scan

    The callback may change the hardware and the state [S] that it captures. Behind a bridge
    the scan calls itself; [fuel] bounds how deep. *)
Section scan.
Context {H S : Type} `{PortIO H}.
Implicit Types (bus slot function : Z) (w : H * S) (callback : PCIDevice -> H * S -> exec (H * S)).

Definition PCI_scan_function (scan_bus : Z -> H * S -> exec (H * S)) callback bus slot function w : exec (H * S) :=
  let '(h, s) := w in
  let function_device := mkPCI bus slot function in
  let '(found, h) := PCIDevice_does_exist function_device h in
  if (found : bool) then
    '(h, s) ← callback function_device (h, s);
    let '(header, h) := PCIDevice_header_type (mkPCI bus slot function) h in
    if header =? HeaderType_PCIBridge then
      let '(secondary, h) := PCIBridge_secondary_bus_number (mkPCI bus slot function) h in
      scan_bus secondary (h, s)
    else Done (h, s)
  else Done (h, s).

Definition PCI_scan_slot (scan_bus : Z -> H * S -> exec (H * S)) callback bus slot w : exec (H * S) :=
  let '(h, s) := w in
  let slot_device := mkPCI bus slot 0 in
  let '(found, h) := PCIDevice_does_exist slot_device h in
  if (found : bool) then
    '(h, s) ← PCI_scan_function scan_bus callback bus slot 0 (h, s);
    let '(multiple, h) := PCIDevice_has_multiple_functions slot_device h in
    if (multiple : bool) then
      for_ 7 1 (fun function w => PCI_scan_function scan_bus callback bus slot (u8 function) w) (h, s)
    else Done (h, s)
  else Done (h, s).

Fixpoint PCI_scan_bus (fuel : nat) callback bus w : exec (H * S) :=
  match fuel with
  | O => OutOfFuel
  | Datatypes.S fuel =>
      for_ 32 0 (fun slot w => PCI_scan_slot (PCI_scan_bus fuel callback) callback bus (u8 slot) w) w
  end.

Definition PCI_scan_pci (fuel : nat) callback w : exec (H * S) :=
  let '(h, s) := w in
  let '(multiple, h) := PCIDevice_has_multiple_functions (mkPCI 0 0 0) h in
  if (multiple : bool) then
    for_ 8 0 (fun bus w => PCI_scan_bus fuel callback (u8 bus) w) (h, s)
  else PCI_scan_bus fuel callback 0 (h, s).

End scan.

(** ** The configuration mechanism

    What the PCI specification says of the ports: the address that was written last selects
    a word of four bytes of one function, of which the value port shows the bytes. Reading
    changes nothing, and of the command register the bits that a function implements can be
    written. *)

Definition function_ok (d : PCIDevice) : Prop :=
  0 <= m_bus_number d < 256 /\ 0 <= m_slot_number d < 32 /\ 0 <= m_function_number d < 8.

#[export] Instance function_ok_dec d : Decision (function_ok d).
Proof. unfold function_ok. apply _. Defined.

Definition mechanism_address (d : PCIDevice) (o : Z) : Z :=
  2 ^ 31 + m_bus_number d * 2 ^ 16 + m_slot_number d * 2 ^ 11 + m_function_number d * 2 ^ 8 + o.

Class PciHost (H : Type) `{PortIO H} := {
  config : H -> PCIDevice -> Z -> Z;
  command_mask : PCIDevice -> Z;
  config_byte h d o : 0 <= config h d o < 256;
  config_read h d o k (n : nat) :
    function_ok d -> 0 <= o < 256 -> o mod 4 = 0 -> 0 <= k -> k + Z.of_nat n <= 4 ->
    exists h', port_in (Z.of_nat n) (0xCFC + k) (port_out 4 0xCF8 (mechanism_address d o) h)
               = (le_word n (config h d) (o + k), h') /\
      forall d' o', config h' d' o' = config h d' o';
  config_command h d v :
    function_ok d -> 0 <= v < 2 ^ 16 ->
    let h' := port_out 2 0xCFC v (port_out 4 0xCF8 (mechanism_address d 4) h) in
    (forall d' o, function_ok d' -> 0 <= o < 256 -> ~ (d' = d /\ 4 <= o < 6) ->
       config h' d' o = config h d' o) /\
    le_word 2 (config h' d) 4 =
      Z.lor (Z.land (le_word 2 (config h d) 4) (Z.lnot (command_mask d))) (Z.land v (command_mask d));
}.

(** A host for examples: the selected address and the bytes of the functions that exist, by
    address; other bytes read as ones. *)
Record HostMemory := mkHost { hm_selected : Z; hm_bytes : gmap Z Z }.

Definition host_byte (m : gmap Z Z) (a : Z) : Z := default 0xFF (m !! a) mod 256.

Fixpoint host_store (n : nat) (m : gmap Z Z) (a v : Z) : gmap Z Z :=
  match n with
  | O => m
  | S n => host_store n (<[a := v mod 256]> m) (a + 1) (v / 256)
  end.

#[export] Instance HostMemory_ports : PortIO HostMemory := {|
  port_in width port h :=
    if (0xCFC <=? port) && (port <? 0xD00) then
      (le_word (Z.to_nat width) (host_byte (hm_bytes h)) (hm_selected h + (port - 0xCFC)), h)
    else (0, h);
  port_out width port v h :=
    if port =? 0xCF8 then mkHost v (hm_bytes h)
    else if (0xCFC <=? port) && (port <? 0xD00) then
      mkHost (hm_selected h) (host_store (Z.to_nat width) (hm_bytes h) (hm_selected h + (port - 0xCFC)) v)
    else h;
|}.

Lemma host_store_other n m a v b : ~ (a <= b < a + Z.of_nat n) -> host_byte (host_store n m a v) b = host_byte m b.
Proof.
  revert m a v. induction n as [|n IH]; intros m a v Hb; [done|]. cbn [host_store].
  rewrite IH by lia. unfold host_byte. by rewrite lookup_insert_ne by lia.
Qed.

Lemma host_store_word m a v : 0 <= v < 2 ^ 16 -> le_word 2 (host_byte (host_store 2 m a v)) a = v.
Proof.
  intros Hv. cbn [le_word host_store]. unfold host_byte.
  rewrite (lookup_insert_ne _ (a + 1) a), !lookup_insert_eq by lia. cbn [default from_option id]. zdiv.
Qed.

(** Different registers have different addresses. *)
Lemma mechanism_address_inj d d' o o' :
  function_ok d -> function_ok d' -> 0 <= o < 256 -> 0 <= o' < 256 ->
  mechanism_address d o = mechanism_address d' o' -> d = d' /\ o = o'.
Proof.
  unfold function_ok, mechanism_address. destruct d as [b s f], d' as [b' s' f']; simpl. intros.
  assert (o = o') by lia. assert (f = f') by lia. assert (s = s') by lia. split; [f_equal|]; lia.
Qed.

#[export] Program Instance HostMemory_pci : PciHost HostMemory := {|
  config h d o := host_byte (hm_bytes h) (mechanism_address d o);
  command_mask _ := 0xFFFF;
|}.
Next Obligation. intros. apply Z.mod_pos_bound. lia. Qed.
Next Obligation.
  intros h d o k n Hd Ho Hm Hk Hn. cbn -[le_word Z.leb Z.ltb mechanism_address].
  destruct (Z.leb_spec 0xCFC (0xCFC + k)), (Z.ltb_spec (0xCFC + k) 0xD00); simpl; try lia.
  - exists (mkHost (mechanism_address d o) (hm_bytes h)). split; [|done]. f_equal. rewrite Nat2Z.id.
    replace (mechanism_address d o + (0xCFC + k - 0xCFC)) with (mechanism_address d 0 + (o + k))
      by (unfold mechanism_address; lia).
    rewrite le_word_shift. apply le_word_ext. intros i _. f_equal. unfold mechanism_address. lia.
  - assert (n = 0%nat) as -> by lia. by eexists (mkHost _ _).
Qed.
Next Obligation.
  intros h d v Hd Hv. cbn -[le_word host_store mechanism_address]. rewrite Z.add_0_r. split.
  - intros d' o Hd' Ho Hne. apply host_store_other. intros Hin. apply Hne.
    set (j := mechanism_address d' o - mechanism_address d 4).
    destruct (mechanism_address_inj d' d o (4 + j)) as [Ed Eo]; [done..|lia| |split; [done|lia]].
    unfold j, mechanism_address in *. lia.
  - change 0xFFFF with (Z.ones 16). rewrite (Z.land_ones v), Z.mod_small by lia.
    assert (E : forall a b, 0 <= a < 2 ^ 16 -> Z.lor (Z.land a (Z.lnot (Z.ones 16))) b = b).
    { intros a b Ha. rewrite <- Z.ldiff_land, Z.ldiff_ones_r, Z.shiftr_div_pow2, Z.div_small by lia. done. }
    rewrite E; [|apply (le_word_range 2); intros; apply Z.mod_pos_bound; lia].
    transitivity (le_word 2 (host_byte (host_store 2 (hm_bytes h) (mechanism_address d 4) v)) (mechanism_address d 4));
      [|by apply host_store_word].
    cbn [le_word].
    by replace (mechanism_address d (4 + 1)) with (mechanism_address d 4 + 1) by (unfold mechanism_address; lia).
Qed.

(** ** Reading registers *)

Section laws.
Context {H : Type} `{PciHost H}.
Implicit Types (d : PCIDevice) (h : H).

(** Hosts that show the same registers; the selected address is not visible. *)
#[export] Instance host_equiv : Equiv H := fun h h' => forall d o, config h d o = config h' d o.

#[export] Instance host_equivalence : Equivalence (≡@{H}).
Proof.
  split; [done|intros h h' E d o; by rewrite E|]. intros h h' h'' E E' d o. by rewrite E, E'.
Qed.

#[export] Instance config_proper : Proper ((≡) ==> (=) ==> (=) ==> (=)) config.
Proof. intros h h' E d ? <- o ? <-. apply E. Qed.

Definition config8 h d o : Z := config h d o.
Definition config16 h d o : Z := le_word 2 (config h d) o.
Definition config32 h d o : Z := le_word 4 (config h d) o.

#[export] Instance config16_proper : Proper ((≡) ==> (=) ==> (=) ==> (=)) config16.
Proof. intros h h' E d ? <- o ? <-. apply le_word_ext. intros i _. apply E. Qed.

#[export] Instance config32_proper : Proper ((≡) ==> (=) ==> (=) ==> (=)) config32.
Proof. intros h h' E d ? <- o ? <-. apply le_word_ext. intros i _. apply E. Qed.

(** The address that the code composes is that of the mechanism. *)
Lemma config_address_mechanism d offset :
  function_ok d -> 0 <= offset < 256 ->
  config_address d offset = mechanism_address d (offset - offset mod 4).
Proof.
  intros (Hb & Hs & Hf) Ho. unfold config_address, mechanism_address.
  assert (E : Z.land offset 0xFC = offset - offset mod 4).
  { change 0xFC with (Z.land (Z.ones 8) (Z.lnot (Z.ones 2))).
    by rewrite Z.land_assoc, Z.land_ones, Z.mod_small, land_lnot_ones by lia. }
  rewrite E, !Z.shiftl_mul_pow2 by lia. destruct d as [b s f]; cbn in *.
  set (o := offset - offset mod 4). assert (0 <= o < 256) by (unfold o; zdiv).
  rewrite (Z.lor_comm (b * 2 ^ 16)), (Z.mul_comm b), lor_parts by lia.
  rewrite (Z.lor_comm _ (f * 2 ^ 8)).
  replace (s * 2 ^ 11 + 2 ^ 16 * b) with (2 ^ 11 * (s + 2 ^ 5 * b)) by lia. rewrite lor_parts by lia.
  rewrite (Z.lor_comm _ o).
  replace (f * 2 ^ 8 + 2 ^ 11 * (s + 2 ^ 5 * b)) with (2 ^ 8 * (f + 2 ^ 3 * (s + 2 ^ 5 * b))) by lia.
  rewrite lor_parts by lia. rewrite (Z.mul_comm 1), lor_parts, u32_small by lia. lia.
Qed.

Lemma read_config d offset k n h :
  function_ok d -> 0 <= offset < 256 -> 0 <= k -> k + Z.of_nat n <= 4 ->
  exists h', port_in (Z.of_nat n) (u16 (PCI_PORT_VALUE_PORT + k)) (PCIDevice_select_port d offset h)
             = (le_word n (config h d) (offset - offset mod 4 + k), h') /\ h' ≡ h.
Proof.
  intros Hd Ho Hk Hn. unfold PCIDevice_select_port, out32.
  rewrite config_address_mechanism, (u16_small PCI_PORT_ADDRESS_PORT), (u16_small (_ + k)) by
    (unfold PCI_PORT_ADDRESS_PORT, PCI_PORT_VALUE_PORT; done || lia).
  destruct Hd as (Hb & Hs & Hf). rewrite u32_small by (unfold mechanism_address; zdiv).
  apply config_read; [done|zdiv..].
Qed.

Lemma read_config_word8_spec d offset h :
  function_ok d -> 0 <= offset < 256 ->
  exists h', PCIDevice_read_config_word8 d offset h = (config8 h d offset, h') /\ h' ≡ h.
Proof.
  intros Hd Ho. unfold PCIDevice_read_config_word8, in8.
  change 0x3 with (Z.ones 2). rewrite Z.land_ones by lia.
  destruct (read_config d offset (offset mod 4) 1 h) as (h' & E & Eh); [done|done|zdiv..|].
  change (Z.of_nat 1) with 1 in E. change (2 ^ 2) with 4. rewrite E. exists h'. split; [|done]. f_equal.
  cbn [le_word]. rewrite Z.sub_add, Z.mul_0_r, Z.add_0_r. apply u8_small, config_byte.
Qed.

Lemma read_config_word16_spec d offset h :
  function_ok d -> 0 <= offset < 256 -> offset mod 2 = 0 ->
  exists h', PCIDevice_read_config_word16 d offset h = (config16 h d offset, h') /\ h' ≡ h.
Proof.
  intros Hd Ho Hm. unfold PCIDevice_read_config_word16, in16.
  assert (E2 : Z.land offset 0x2 = offset mod 4).
  { change 0x2 with (Z.land (Z.ones 2) (Z.lnot (Z.ones 1))).
    rewrite Z.land_assoc, Z.land_ones, land_lnot_ones by lia. zdiv. }
  rewrite E2. destruct (read_config d offset (offset mod 4) 2 h) as (h' & E & Eh); [done|done|zdiv..|].
  change (Z.of_nat 2) with 2 in E. rewrite E. exists h'. split; [|done]. f_equal.
  rewrite Z.sub_add. apply u16_small, (le_word_range 2), config_byte.
Qed.

Lemma read_config_word32_spec d offset h :
  function_ok d -> 0 <= offset < 256 ->
  exists h', PCIDevice_read_config_word32 d offset h = (config32 h d (offset - offset mod 4), h') /\ h' ≡ h.
Proof.
  intros Hd Ho. unfold PCIDevice_read_config_word32, in32.
  destruct (read_config d offset 0 4 h) as (h' & E & Eh); [done|done|zdiv..|].
  change (Z.of_nat 4) with 4 in E. rewrite Z.add_0_r in E. rewrite E. exists h'. split; [|done]. f_equal.
  rewrite Z.add_0_r. apply u32_small, (le_word_range 4), config_byte.
Qed.

(** ** The command register *)

(** One bit of a command word becomes [v] and reaches the function. *)
Lemma write_command h0 h d (i : Z) (v : bool) data :
  function_ok d -> h ≡ h0 -> 0 <= i < 16 ->
  (forall j, 0 <= j -> Z.testbit data j = if j =? i then v else Z.testbit (config16 h0 d 4) j) ->
  let h' := PCIDevice_write_config_word16 d PCI_PORT_COMMAND data h in
  (forall d' o, function_ok d' -> 0 <= o < 256 -> ~ (d' = d /\ 4 <= o < 6) -> config h' d' o = config h0 d' o) /\
  forall j, 0 <= j -> Z.testbit (config16 h' d 4) j =
    if (j =? i) && Z.testbit (command_mask d) i then v else Z.testbit (config16 h0 d 4) j.
Proof.
  intros Hd Eh Hi Hdata. unfold PCIDevice_write_config_word16, PCIDevice_select_port, out32, out16.
  rewrite config_address_mechanism by (done || (unfold PCI_PORT_COMMAND; lia)).
  change (PCI_PORT_COMMAND - PCI_PORT_COMMAND mod 4) with 4.
  change (u16 (PCI_PORT_VALUE_PORT + Z.land PCI_PORT_COMMAND 2)) with 0xCFC.
  change (u16 PCI_PORT_ADDRESS_PORT) with 0xCF8.
  assert (Ha : 0 <= mechanism_address d 4 < 2 ^ 32).
  { destruct Hd as (Hb & Hs & Hf). unfold mechanism_address. lia. }
  rewrite u32_small by done. cbv zeta.
  destruct (config_command h d (u16 data) Hd (u16_range data)) as [Hother Hword]. cbv zeta in Hother, Hword. split.
  - intros d' o Hd' Ho Hne. rewrite Hother by done. apply Eh.
  - intros j Hj. unfold config16. rewrite Hword. fold (config16 h d 4). rewrite (config16_proper h h0 Eh d d eq_refl 4 4 eq_refl).
    assert (Hc : 0 <= config16 h0 d 4 < 2 ^ 16) by apply (le_word_range 2), config_byte.
    rewrite Z.lor_spec, !Z.land_spec, Z.lnot_spec by done.
    assert (Hu : Z.testbit (u16 data) j = if j =? i then v else Z.testbit (config16 h0 d 4) j).
    { unfold u16. destruct (Z.ltb_spec j 16) as [Hl|Hl].
      - by rewrite Z.mod_pow2_bits_low, Hdata by lia.
      - rewrite Z.mod_pow2_bits_high by lia. destruct (Z.eqb_spec j i); [lia|].
        rewrite <- (Z.mod_small _ _ Hc), Z.mod_pow2_bits_high by lia. done. }
    rewrite Hu. destruct (Z.eqb_spec j i) as [->|Hne]; simpl;
      repeat destruct (Z.testbit _ _); by destruct v.
Qed.

Inductive CommandChange := EnableBusMastering | DisableBusMastering | EnableInterrupts | DisableInterrupts.

Definition change_command (c : CommandChange) d h : H :=
  match c with
  | EnableBusMastering => PCIDevice_enable_bus_mastering d h
  | DisableBusMastering => PCIDevice_disable_bus_mastering d h
  | EnableInterrupts => PCIDevice_enable_interrupts d h
  | DisableInterrupts => PCIDevice_disable_interrupts d h
  end.

Definition command_bit (c : CommandChange) : Z :=
  match c with EnableBusMastering | DisableBusMastering => 2 | _ => 10 end.

Definition command_value (c : CommandChange) : bool :=
  match c with EnableBusMastering | DisableInterrupts => true | _ => false end.

Lemma lor_bit a i j : 0 <= i -> 0 <= j -> Z.testbit (Z.lor a (Z.shiftl 1 i)) j = if j =? i then true else Z.testbit a j.
Proof.
  intros Hi Hj. rewrite Z.shiftl_1_l, Z.lor_spec, Z.pow2_bits_eqb by done.
  rewrite (Z.eqb_sym i). destruct (j =? i); [apply orb_true_r|apply orb_false_r].
Qed.

Lemma land_lnot_bit a i j :
  0 <= i -> 0 <= j -> Z.testbit (Z.land a (Z.lnot (Z.shiftl 1 i))) j = if j =? i then false else Z.testbit a j.
Proof.
  intros Hi Hj. rewrite Z.shiftl_1_l, Z.land_spec, Z.lnot_spec, Z.pow2_bits_eqb by done.
  rewrite (Z.eqb_sym i). destruct (j =? i); [apply andb_false_r|apply andb_true_r].
Qed.

Lemma change_command_spec c d h :
  function_ok d ->
  (forall d' o, function_ok d' -> 0 <= o < 256 -> ~ (d' = d /\ 4 <= o < 6) ->
     config (change_command c d h) d' o = config h d' o) /\
  forall j, 0 <= j -> Z.testbit (config16 (change_command c d h) d 4) j =
    if (j =? command_bit c) && Z.testbit (command_mask d) (command_bit c) then command_value c
    else Z.testbit (config16 h d 4) j.
Proof.
  intros Hd.
  destruct (read_config_word16_spec d PCI_PORT_COMMAND h Hd) as (h1 & E & Eh); [by unfold PCI_PORT_COMMAND|done|].
  destruct c; simpl;
    unfold PCIDevice_enable_bus_mastering, PCIDevice_disable_bus_mastering,
      PCIDevice_enable_interrupts, PCIDevice_disable_interrupts; rewrite E;
    apply (write_command h); try done; intros j Hj; by apply lor_bit || by apply land_lnot_bit.
Qed.

End laws.

(** ** What a scan visits *)

Section scan_spec.
Context {H S : Type} `{PciHost H}.
Implicit Types (d : PCIDevice) (h : H) (s : S).

(** The registers that direct the scan. *)
Definition scan_register (o : Z) : bool := (o <? 2) || (o =? 0xE) || ((0x18 <=? o) && (o <? 0x1C)).

Definition same_ids h h' : Prop :=
  forall d o, function_ok d -> 0 <= o < 256 -> scan_register o = true -> config h d o = config h' d o.

#[export] Instance same_ids_equivalence : Equivalence same_ids.
Proof.
  split; [done|intros h h' E d o Hd Ho Hr; by rewrite E|].
  intros h h' h'' E E' d o Hd Ho Hr. by rewrite E, E'.
Qed.

Lemma equiv_same_ids h h' : h ≡ h' -> same_ids h h'.
Proof. intros E d o _ _ _. apply E. Qed.

Definition present h d : bool := negb (config16 h d 0 =? 0xFFFF).
Definition multiple h d : bool := 0x80 <=? config8 h d 0xE.
Definition bridge h d : bool := config8 h d 0xE mod 128 =? 1.

Definition slot_functions h bus slot : list PCIDevice :=
  if present h (mkPCI bus slot 0) then
    mkPCI bus slot 0 ::
    (if multiple h (mkPCI bus slot 0) then filter (fun d => present h d = true) (mkPCI bus slot <$> seqZ 1 7) else [])
  else [].

Definition bus_functions h bus : list PCIDevice := seqZ 0 32 ≫= slot_functions h bus.

Definition pci_functions h : list PCIDevice :=
  if multiple h (mkPCI 0 0 0) then seqZ 0 8 ≫= bus_functions h else bus_functions h 0.

Lemma same_present h h' d : function_ok d -> same_ids h h' -> present h d = present h' d.
Proof.
  intros Hd E. unfold present, config16. f_equal. f_equal. apply le_word_ext.
  intros i Hi. apply E; [done|lia|]. unfold scan_register. case_test; done || lia.
Qed.

Lemma same_header h h' d : function_ok d -> same_ids h h' -> config8 h d 0xE = config8 h' d 0xE.
Proof. intros Hd E. by apply E. Qed.

Lemma does_exist_spec d h :
  function_ok d -> exists h', PCIDevice_does_exist d h = (present h d, h') /\ h' ≡ h.
Proof.
  intros Hd. unfold PCIDevice_does_exist, PCIDevice_vendor_id.
  destruct (read_config_word16_spec d PCI_PORT_VENDOR_ID h Hd) as (h' & E & Eh); [by unfold PCI_PORT_VENDOR_ID|done|].
  rewrite E. by exists h'.
Qed.

Lemma header_type_spec d h :
  function_ok d -> exists h', PCIDevice_header_type d h = (config8 h d 0xE mod 128, h') /\ h' ≡ h.
Proof.
  intros Hd. unfold PCIDevice_header_type.
  destruct (read_config_word8_spec d PCI_PORT_HEADER_TYPE h Hd) as (h' & E & Eh); [by unfold PCI_PORT_HEADER_TYPE|].
  rewrite E. exists h'. change 0x7F with (Z.ones 7). by rewrite Z.land_ones by lia.
Qed.

Lemma has_multiple_functions_spec d h :
  function_ok d -> exists h', PCIDevice_has_multiple_functions d h = (multiple h d, h') /\ h' ≡ h.
Proof.
  intros Hd. unfold PCIDevice_has_multiple_functions.
  destruct (read_config_word8_spec d PCI_PORT_HEADER_TYPE h Hd) as (h' & E & Eh); [by unfold PCI_PORT_HEADER_TYPE|].
  rewrite E. exists h'. split; [|done]. f_equal. unfold multiple. pose proof (config_byte h d 0xE) as Hc.
  unfold config8, truthy. change PCI_PORT_HEADER_TYPE with 0xE. rewrite high_bit_clear by done.
  destruct (Z.ltb_spec (config h d 0xE) 0x80), (Z.leb_spec 0x80 (config h d 0xE)); done || lia.
Qed.

Lemma secondary_bus_number_spec d h :
  function_ok d -> exists h', PCIBridge_secondary_bus_number d h = (config8 h d 0x18, h') /\ h' ≡ h.
Proof.
  intros Hd. unfold PCIBridge_secondary_bus_number, PCIBridge_byte.
  destruct (read_config_word32_spec d PCI_PORT_SECONDARY_BUS_NUMBER h Hd) as (h' & E & Eh);
    [by unfold PCI_PORT_SECONDARY_BUS_NUMBER|].
  rewrite E. exists h'. split; [|done]. f_equal. change (_ - _) with 0x18.
  unfold config8, u8, config32. rewrite <- (le_word_byte 4 (config h d) 0x18 0); [|apply config_byte|lia].
  by rewrite Z.pow_0_r, Z.div_1_r.
Qed.

Lemma quiet_step h0 h h' : same_ids h0 h -> h' ≡ h -> same_ids h0 h'.
Proof. intros E Q. rewrite E. symmetry. by apply equiv_same_ids. Qed.

Lemma filter_bind {A} (p : A -> bool) (l : list A) :
  filter (fun a => p a = true) l = l ≫= (fun a => if p a then [a] else []).
Proof. induction l as [|a l IH]; [done|]. rewrite filter_cons. simpl. rewrite IH. destruct (p a); by case_decide. Qed.

Lemma bind_fmap {A B C} (f : A -> B) (g : B -> list C) l : (f <$> l) ≫= g = l ≫= (fun a => g (f a)).
Proof. induction l as [|a l IH]; [done|]. cbn. f_equal. exact IH. Qed.

Definition no_bridges h : Prop := forall d, function_ok d -> present h d = true -> bridge h d = false.

(** *** The rule of a scan

    [I visited w] holds before the callback is called for the next function of [h0]. *)
Section rule.
Variable callback : PCIDevice -> H * S -> exec (H * S).
Variable h0 : H.
Variable I : list PCIDevice -> H * S -> Prop.
Hypothesis I_ids : forall v w, I v w -> same_ids h0 w.1.
Hypothesis I_equiv : forall v h h' s, I v (h, s) -> h' ≡ h -> I v (h', s).
Hypothesis I_callback : forall v d rest w, pci_functions h0 = v ++ d :: rest -> function_ok d -> I v w ->
  exists w', callback d w = Done w' /\ I (v ++ [d]) w'.
Hypothesis Hnb : no_bridges h0.

Lemma rule_function scan v rest bus slot function w :
  let d := mkPCI bus slot function in let g := if present h0 d then [d] else [] in
  function_ok d -> pci_functions h0 = v ++ g ++ rest -> I v w ->
  exists w', PCI_scan_function scan callback bus slot function w = Done w' /\ I (v ++ g) w'.
Proof.
  intros d g Hd HL HI. destruct w as [h s]. unfold PCI_scan_function. fold d. pose proof (I_ids _ _ HI) as E0. simpl in E0.
  destruct (does_exist_spec d h Hd) as (h1 & E1 & Q1). rewrite E1, <- (same_present h0 h) by done.
  pose proof (I_equiv _ _ _ _ HI Q1) as HI1. subst g. destruct (present h0 d) eqn:Ep.
  2: { exists (h1, s). split; [done|]. by rewrite app_nil_r. }
  destruct (I_callback v d rest (h1, s) HL Hd HI1) as ([h2 s2] & E2 & HI2). rewrite E2, bind_Done.
  destruct (header_type_spec d h2 Hd) as (h3 & E3 & Q3). rewrite E3, <- (same_header h0 h2) by (done || apply (I_ids _ _ HI2)).
  change (_ =? HeaderType_PCIBridge) with (bridge h0 d). rewrite Hnb by done.
  exists (h3, s2). split; [done|]. by eapply I_equiv.
Qed.

(** A loop whose turns visit the functions of [g]. *)
Lemma rule_loop (body : Z -> H * S -> exec (H * S)) (g : Z -> list PCIDevice) n :
  forall lo v rest w,
  (forall i v rest w, lo <= i < lo + Z.of_nat n -> pci_functions h0 = v ++ g i ++ rest -> I v w ->
     exists w', body i w = Done w' /\ I (v ++ g i) w') ->
  pci_functions h0 = v ++ (seqZ lo (Z.of_nat n) ≫= g) ++ rest -> I v w ->
  exists w', for_ n lo body w = Done w' /\ I (v ++ (seqZ lo (Z.of_nat n) ≫= g)) w'.
Proof.
  induction n as [|n IH]; intros lo v rest w Hbody HL HI.
  - exists w. split; [done|]. by rewrite app_nil_r.
  - rewrite Nat2Z.inj_succ, seqZ_cons, Z.pred_succ in * by lia. cbn [mbind list_bind] in *. rewrite <- app_assoc in HL.
    destruct (Hbody lo v _ w ltac:(lia) HL HI) as (w1 & E1 & HI1). cbn [for_]. rewrite E1, bind_Done.
    rewrite app_assoc in HL |- *. apply (IH (Z.succ lo) (v ++ g lo) rest w1); [|exact HL|done].
    intros i v' rest' w' Hi. apply Hbody. lia.
Qed.

Lemma rule_slot scan v rest bus slot w :
  0 <= bus < 256 -> 0 <= slot < 32 -> pci_functions h0 = v ++ slot_functions h0 bus slot ++ rest -> I v w ->
  exists w', PCI_scan_slot scan callback bus slot w = Done w' /\ I (v ++ slot_functions h0 bus slot) w'.
Proof.
  intros Hb Hs HL HI. destruct w as [h s]. unfold PCI_scan_slot, slot_functions in *. set (d := mkPCI bus slot 0) in *.
  assert (Hok : forall f, 0 <= f < 8 -> function_ok (mkPCI bus slot f)) by done. pose proof (I_ids _ _ HI) as E0. simpl in E0.
  destruct (does_exist_spec d h (Hok 0 ltac:(lia))) as (h1 & E1 & Q1). rewrite E1, <- (same_present h0 h) by (done || apply Hok; lia).
  pose proof (I_equiv _ _ _ _ HI Q1) as HI1.
  destruct (present h0 d) eqn:Ep; [|exists (h1, s); by rewrite app_nil_r].
  set (others := if multiple h0 d then _ else []) in *.
  destruct (rule_function scan v (others ++ rest) bus slot 0 (h1, s)) as ([h2 s2] & E2 & HI2);
    [apply Hok; lia|fold d; by rewrite Ep|done|].
  fold d in HI2. rewrite Ep in HI2. rewrite E2, bind_Done.
  destruct (has_multiple_functions_spec d h2 (Hok 0 ltac:(lia))) as (h3 & E3 & Q3). rewrite E3.
  pose proof (I_equiv _ _ _ _ HI2 Q3) as HI3.
  assert (Em : multiple h2 d = multiple h0 d).
  { unfold multiple. by rewrite (same_header h0 h2 d (Hok 0 ltac:(lia)) (I_ids _ _ HI2)). }
  rewrite Em. replace (v ++ d :: others) with ((v ++ [d]) ++ others) by by rewrite <- app_assoc.
  unfold others in *. destruct (multiple h0 d); [|exists (h3, s2); by rewrite app_nil_r].
  rewrite filter_bind, bind_fmap in *.
  apply (rule_loop _ (fun f => if present h0 (mkPCI bus slot f) then [mkPCI bus slot f] else []) 7 1 (v ++ [d]) rest (h3, s2));
    [|by rewrite <- app_assoc|done].
  intros f v' rest' w' Hf HL' HI'. rewrite u8_small by lia. apply (rule_function scan v' rest'); [apply Hok; lia|done|done].
Qed.

Lemma rule_bus fuel v rest bus w :
  0 <= bus < 256 -> (0 < fuel)%nat -> pci_functions h0 = v ++ bus_functions h0 bus ++ rest -> I v w ->
  exists w', PCI_scan_bus fuel callback bus w = Done w' /\ I (v ++ bus_functions h0 bus) w'.
Proof.
  intros Hb Hf HL HI. destruct fuel as [|fuel]; [lia|]. apply (rule_loop _ (slot_functions h0 bus) 32 0 v rest w); [|done|done].
  intros slot v' rest' w' Hs HL' HI'. rewrite u8_small by lia. apply (rule_slot _ v' rest'); done || lia.
Qed.

Lemma rule_pci fuel w :
  (0 < fuel)%nat -> I [] w -> exists w', PCI_scan_pci fuel callback w = Done w' /\ I (pci_functions h0) w'.
Proof.
  intros Hf HI. destruct w as [h s]. unfold PCI_scan_pci. pose proof (I_ids _ _ HI) as E0. simpl in E0.
  destruct (has_multiple_functions_spec (mkPCI 0 0 0) h) as (h1 & E1 & Q1); [done|]. rewrite E1.
  pose proof (I_equiv _ _ _ _ HI Q1) as HI1.
  assert (Em : multiple h (mkPCI 0 0 0) = multiple h0 (mkPCI 0 0 0)) by (unfold multiple; by rewrite <- (same_header h0 h)).
  assert (EL : pci_functions h0 = if multiple h0 (mkPCI 0 0 0) then seqZ 0 8 ≫= bus_functions h0 else bus_functions h0 0) by done.
  rewrite Em. destruct (multiple h0 (mkPCI 0 0 0)); rewrite EL.
  - apply (rule_loop _ (bus_functions h0) 8 0 [] [] (h1, s)); [|cbn [app]; by rewrite app_nil_r|done].
    intros bus v rest w Hb HL HI'. rewrite u8_small by lia. apply (rule_bus _ v rest); done || lia.
  - apply (rule_bus _ [] []); [lia|done|cbn [app]; by rewrite app_nil_r|done].
Qed.

End rule.

(** A callback that leaves those registers alone and acts as [effect] on its own state. *)
Section quiet.
Variable callback : PCIDevice -> H * S -> exec (H * S).
Variable effect : S -> PCIDevice -> S.
Hypothesis callback_quiet : forall d h s, function_ok d ->
  exists h', callback d (h, s) = Done (h', effect s d) /\ same_ids h h'.

Lemma scan_pci_spec fuel h s :
  no_bridges h -> (0 < fuel)%nat ->
  exists h', PCI_scan_pci fuel callback (h, s) = Done (h', foldl effect s (pci_functions h)) /\ same_ids h h'.
Proof.
  intros Hnb Hf.
  destruct (rule_pci callback h (fun v w => same_ids h w.1 /\ w.2 = foldl effect s v)) with (fuel := fuel) (w := (h, s))
    as ([h' s'] & E & Hids & Hs); [by intros v w []| | |done|done|done|].
  - intros v h1 h2 s1 [Hids Hs] Q. split; [|done]. by eapply quiet_step.
  - intros v d rest [h1 s1] _ Hd [Hids Hs]. simpl in *. destruct (callback_quiet d h1 s1 Hd) as (h2 & E2 & Q2).
    exists (h2, effect s1 d). split; [done|]. simpl. split; [by rewrite Hids|]. by rewrite foldl_app, <- Hs.
  - simpl in *. exists h'. by rewrite E, Hs.
Qed.

(** Whatever a scan that returns has visited, it has kept those registers. *)
Definition scan_keeps (scan : Z -> H * S -> exec (H * S)) : Prop :=
  forall bus w w', 0 <= bus < 256 -> scan bus w = Done w' -> same_ids w.1 w'.1.

Lemma scan_function_keeps scan bus slot function w w' :
  scan_keeps scan -> function_ok (mkPCI bus slot function) ->
  PCI_scan_function scan callback bus slot function w = Done w' -> same_ids w.1 w'.1.
Proof.
  intros Hk Hd. destruct w as [h s]. unfold PCI_scan_function. set (d := mkPCI bus slot function) in *.
  destruct (does_exist_spec d h Hd) as (h1 & E1 & Q1). rewrite E1.
  assert (E01 : same_ids h h1) by (symmetry; by apply equiv_same_ids).
  destruct (present h d); [|by intros [= <-]].
  destruct (callback_quiet d h1 s Hd) as (h2 & E2 & Q2). rewrite E2, bind_Done.
  destruct (header_type_spec d h2 Hd) as (h3 & E3 & Q3). rewrite E3.
  assert (E03 : same_ids h h3) by (eapply quiet_step; [|exact Q3]; by rewrite E01).
  destruct (_ =? _); [|by intros [= <-]].
  destruct (secondary_bus_number_spec d h3 Hd) as (h4 & E4 & Q4). rewrite E4.
  intros E. rewrite (quiet_step _ _ _ E03 Q4). apply (Hk _ _ _ (config_byte h3 d 0x18) E).
Qed.

Lemma for_keeps (body : Z -> H * S -> exec (H * S)) lo n w w' :
  (forall i w w', lo <= i < lo + Z.of_nat n -> body i w = Done w' -> same_ids w.1 w'.1) ->
  for_ n lo body w = Done w' -> same_ids w.1 w'.1.
Proof.
  intros Hb. apply (for_inv_done (fun _ u => same_ids w.1 u.1)); [done|].
  intros i u u' Hi Hu E. rewrite Hu. by eapply Hb.
Qed.

Lemma scan_slot_keeps scan bus slot w w' :
  scan_keeps scan -> 0 <= bus < 256 -> 0 <= slot < 32 ->
  PCI_scan_slot scan callback bus slot w = Done w' -> same_ids w.1 w'.1.
Proof.
  intros Hk Hb Hs. destruct w as [h s]. unfold PCI_scan_slot. set (d := mkPCI bus slot 0).
  assert (Hd : function_ok d) by done.
  destruct (does_exist_spec d h Hd) as (h1 & E1 & Q1). rewrite E1.
  assert (E01 : same_ids h h1) by (symmetry; by apply equiv_same_ids).
  destruct (present h d); [|by intros [= <-]]. intros E.
  apply bind_Done_inv in E as ([h2 s2] & E2 & E).
  apply scan_function_keeps in E2; [|done..]. simpl in E2.
  destruct (has_multiple_functions_spec d h2 Hd) as (h3 & E3 & Q3). rewrite E3 in E.
  assert (E03 : same_ids h h3) by (eapply quiet_step; [|exact Q3]; by rewrite E01).
  destruct (multiple h2 d); [|by injection E as <-].
  apply for_keeps in E; [by rewrite E03|]. intros f u u' Hf. rewrite u8_small by lia.
  apply scan_function_keeps; [done|]. by repeat split; simpl; lia.
Qed.

Lemma scan_bus_keeps fuel : scan_keeps (PCI_scan_bus fuel callback).
Proof.
  induction fuel as [|fuel IH]; intros bus w w' Hb; [done|]. apply for_keeps.
  intros slot u u' Hs. rewrite u8_small by lia. apply scan_slot_keeps; done || lia.
Qed.

(** Behind a bridge the scan goes to the bus of the byte 0x18, which is the primary bus of
    the bridge, the one it is on: the scan never returns. *)
Definition bridge_at h bus slot : Prop :=
  present h (mkPCI bus slot 0) = true /\ bridge h (mkPCI bus slot 0) = true /\ config8 h (mkPCI bus slot 0) 0x18 = bus.

Lemma scan_function_bridge scan h0 h s bus slot w :
  0 <= bus < 256 -> 0 <= slot < 32 -> bridge_at h0 bus slot -> same_ids h0 h ->
  (forall h s w, same_ids h0 h -> scan bus (h, s) <> Done w) ->
  PCI_scan_function scan callback bus slot 0 (h, s) <> Done w.
Proof.
  intros Hb Hs (Hp & Hbr & H18) E0 Hscan. unfold PCI_scan_function.
  set (d := mkPCI bus slot 0) in *. assert (Hd : function_ok d) by done.
  destruct (does_exist_spec d h Hd) as (h1 & E1 & Q1). rewrite E1, <- (same_present h0 h), Hp by done.
  pose proof (quiet_step _ _ _ E0 Q1) as E02.
  destruct (callback_quiet d h1 s Hd) as (h3 & E3 & Q3). rewrite E3, bind_Done. rewrite Q3 in E02.
  destruct (header_type_spec d h3 Hd) as (h4 & E4 & Q4). rewrite E4, <- (same_header h0 h3) by done.
  pose proof (quiet_step _ _ _ E02 Q4) as E04.
  change (_ =? HeaderType_PCIBridge) with (bridge h0 d). rewrite Hbr.
  destruct (secondary_bus_number_spec d h4 Hd) as (h5 & E5 & Q5). rewrite E5.
  pose proof (quiet_step _ _ _ E04 Q5) as E05. unfold config8. rewrite <- (E04 d 0x18) by done.
  fold (config8 h0 d 0x18). rewrite H18. by apply Hscan.
Qed.

Lemma scan_slot_bridge scan h0 h s bus slot w :
  0 <= bus < 256 -> 0 <= slot < 32 -> bridge_at h0 bus slot -> same_ids h0 h ->
  (forall h s w, same_ids h0 h -> scan bus (h, s) <> Done w) ->
  PCI_scan_slot scan callback bus slot (h, s) <> Done w.
Proof.
  intros Hb Hs Hat E0 Hscan. unfold PCI_scan_slot. destruct Hat as (Hp & Hat').
  destruct (does_exist_spec (mkPCI bus slot 0) h) as (h1 & E1 & Q1); [done|].
  rewrite E1, <- (same_present h0 h), Hp by done. intros E. apply bind_Done_inv in E as (w1 & E & _).
  revert E. apply (scan_function_bridge _ h0); try done. by eapply quiet_step.
Qed.

Lemma scan_bridge_hangs fuel h0 bus slot :
  0 <= bus < 256 -> 0 <= slot < 32 -> bridge_at h0 bus slot ->
  forall h s w, same_ids h0 h -> PCI_scan_bus fuel callback bus (h, s) <> Done w.
Proof.
  intros Hb Hs Hat. induction fuel as [|fuel IH]; intros h s w E0 E; [done|].
  cbn [PCI_scan_bus] in E.
  assert (32 <= slot); [|lia].
  refine (proj2 (for_inv_done (fun i u => same_ids h0 u.1 /\ i <= slot) _ 32 0 (h, s) w _ _ E)); [split; [done|lia]|].
  intros i [h1 s1] [h2 s2] Hi [E1 Hle] Eb. rewrite u8_small in Eb by lia. simpl in E1.
  assert (i <> slot). { intros ->. revert Eb. by apply (scan_slot_bridge _ h0). }
  apply scan_slot_keeps in Eb; [|apply scan_bus_keeps|lia..]. simpl in *. split; [by rewrite E1|lia].
Qed.

End quiet.

(** The functions that exist: a slot whose function 0 answers, and its other functions that
    answer if it says that it has several; on bus 0, or on the first eight buses if the
    host bridge has several functions. *)
Definition reachable h d : Prop :=
  function_ok d /\
  (m_bus_number d = 0 \/ (m_bus_number d < 8 /\ multiple h (mkPCI 0 0 0) = true)) /\
  let first := mkPCI (m_bus_number d) (m_slot_number d) 0 in
  present h first = true /\ (d = first \/ (multiple h first = true /\ present h d = true)).

Lemma elem_of_slot_functions h bus slot d :
  0 <= bus < 256 -> 0 <= slot < 32 ->
  d ∈ slot_functions h bus slot <->
  function_ok d /\ m_bus_number d = bus /\ m_slot_number d = slot /\ present h (mkPCI bus slot 0) = true /\
  (d = mkPCI bus slot 0 \/ (multiple h (mkPCI bus slot 0) = true /\ present h d = true)).
Proof.
  intros Hb Hs. unfold slot_functions.
  assert (Hok : forall f, 0 <= f < 8 -> function_ok (mkPCI bus slot f)) by done.
  destruct (present h (mkPCI bus slot 0)) eqn:Hp; [|split; [by intros ?%elem_of_nil|by intros (_ & _ & _ & ? & _)]].
  destruct (multiple h (mkPCI bus slot 0)).
  - rewrite elem_of_cons, list_elem_of_filter, list_elem_of_fmap. split.
    + intros [->|[Hpd (f & -> & Hf%elem_of_seqZ)]].
      * split; [apply Hok; lia|]. auto.
      * split; [apply Hok; lia|]. split; [done|]. split; [done|]. split; [done|]. by right.
    + intros (Hd & <- & <- & _ & [->|[_ Hpd]]); [by left|].
      destruct (decide (m_function_number d = 0)) as [E0|Hne]; [left; destruct d; simpl in *; by subst|right].
      split; [done|]. exists (m_function_number d). split; [by destruct d|]. apply elem_of_seqZ.
      destruct Hd as (_ & _ & Hf). lia.
  - rewrite list_elem_of_singleton. split.
    + intros ->. split; [apply Hok; lia|]. auto.
    + by intros (_ & _ & _ & _ & [->|[? _]]).
Qed.

Lemma elem_of_bus_functions h bus d :
  0 <= bus < 256 ->
  d ∈ bus_functions h bus <->
  function_ok d /\ m_bus_number d = bus /\
  let first := mkPCI bus (m_slot_number d) 0 in
  present h first = true /\ (d = first \/ (multiple h first = true /\ present h d = true)).
Proof.
  intros Hb. unfold bus_functions. rewrite list_elem_of_bind. split.
  - intros (slot & Hd & Hs%elem_of_seqZ). apply elem_of_slot_functions in Hd as (Hd & E & <- & Hrest); [|lia..]. auto.
  - intros (Hd & E & Hrest). exists (m_slot_number d). destruct Hd as (Hd1 & Hd2 & Hd3).
    rewrite elem_of_slot_functions, elem_of_seqZ by lia. split; [|lia]. by split.
Qed.

Lemma elem_of_pci_functions h d : d ∈ pci_functions h <-> reachable h d.
Proof.
  unfold pci_functions, reachable. destruct (multiple h (mkPCI 0 0 0)) eqn:Em.
  - rewrite list_elem_of_bind. split.
    + intros (bus & Hd & Hb%elem_of_seqZ). apply elem_of_bus_functions in Hd as (Hd & <- & Hrest); [|lia].
      split; [done|]. split; [right; split; [lia|done]|done].
    + intros (Hd & Hb & Hrest). exists (m_bus_number d). destruct Hd as (Hd1 & Hd2 & Hd3).
      rewrite elem_of_bus_functions, elem_of_seqZ by lia. split; [|destruct Hb as [Hb|[Hb _]]; lia]. by split.
  - rewrite elem_of_bus_functions by lia. split.
    + intros (Hd & E & Hrest). rewrite E. auto.
    + intros (Hd & [E|[_ ?]] & Hrest); [|done]. rewrite E in Hrest. auto.
Qed.

(** Functions in the order of buses, slots and functions. *)
Definition before d d' : Prop :=
  m_bus_number d < m_bus_number d' \/
  (m_bus_number d = m_bus_number d' /\ (m_slot_number d < m_slot_number d' \/
     (m_slot_number d = m_slot_number d' /\ m_function_number d < m_function_number d'))).

Lemma sorted_seqZ lo n : StronglySorted Z.lt (seqZ lo (Z.of_nat n)).
Proof.
  revert lo. induction n as [|n IH]; intros lo; [constructor|]. rewrite Nat2Z.inj_succ, seqZ_cons by lia.
  rewrite Z.pred_succ. constructor; [apply IH|]. apply Forall_forall. intros x Hx%elem_of_seqZ. lia.
Qed.

(** Sequences that are in order, one behind the other. *)
Lemma sorted_bind (f : Z -> list PCIDevice) l :
  StronglySorted Z.lt l -> (forall x, x ∈ l -> StronglySorted before (f x)) ->
  (forall x y a b, x ∈ l -> y ∈ l -> x < y -> a ∈ f x -> b ∈ f y -> before a b) -> StronglySorted before (l ≫= f).
Proof.
  induction 1 as [|x l Hl IH Hx]; intros Hf Hc; [constructor|]. cbn [mbind list_bind]. apply StronglySorted_app. split; [|split].
  - intros a b Ha (y & Hb & Hy)%list_elem_of_bind. rewrite Forall_forall in Hx.
    apply (Hc x y); [left|by right|by apply Hx|done|done].
  - apply Hf. left.
  - apply IH; [intros y Hy; apply Hf; by right|]. intros y z a b Hy Hz. apply Hc; by right.
Qed.

Lemma sorted_slot_functions h bus slot : StronglySorted before (slot_functions h bus slot).
Proof.
  unfold slot_functions. destruct (present _ _); [|constructor]. destruct (multiple _ _); [|repeat constructor].
  constructor.
  - rewrite filter_bind, bind_fmap. apply sorted_bind; [apply (sorted_seqZ 1 7)| |].
    + intros x _. destruct (present _ _); repeat constructor.
    + intros x y a b _ _ Hxy. destruct (present _ (mkPCI _ _ x)); [|by intros ?%elem_of_nil].
      destruct (present _ (mkPCI _ _ y)); [|by intros _ ?%elem_of_nil].
      intros ->%list_elem_of_singleton ->%list_elem_of_singleton. right. split; [done|]. by right.
  - apply Forall_forall. intros d [_ Hd]%list_elem_of_filter. apply list_elem_of_fmap in Hd as (f & -> & Hf%elem_of_seqZ).
    right. split; [done|]. right. split; [done|]. simpl. lia.
Qed.

Lemma sorted_bus_functions h bus : 0 <= bus < 256 -> StronglySorted before (bus_functions h bus).
Proof.
  intros Hb. apply sorted_bind; [apply (sorted_seqZ 0 32)|intros; apply sorted_slot_functions|].
  intros x y a b Hx%elem_of_seqZ Hy%elem_of_seqZ Hxy Ha Hb'.
  apply elem_of_slot_functions in Ha as (_ & Ea & Ea' & _), Hb' as (_ & Eb & Eb' & _); [|lia..].
  right. split; [congruence|]. left. lia.
Qed.

Lemma sorted_pci_functions h : StronglySorted before (pci_functions h).
Proof.
  unfold pci_functions. destruct (multiple _ _); [|apply sorted_bus_functions; lia].
  apply sorted_bind; [apply (sorted_seqZ 0 8)|intros x Hx%elem_of_seqZ; apply sorted_bus_functions; lia|].
  intros x y a b Hx%elem_of_seqZ Hy%elem_of_seqZ Hxy Ha Hb'.
  apply elem_of_bus_functions in Ha as (_ & Ea & _), Hb' as (_ & Eb & _); [|lia..]. left. lia.
Qed.

End scan_spec.

(** C35: Without bridges, a scan of the buses with a callback that returns and leaves the
    identification of the functions alone returns, and it has called the callback once for
    every function that exists and for no other, in the order of buses, slots and functions:
    for every slot whose function 0 answers, for that function and, if it says that it has
    several, for the others that answer; on bus 0, and on the first eight buses if the host
    bridge has several functions. *)
Theorem pci_scan_visits {H S : Type} `{PciHost H} (callback : PCIDevice -> H * S -> exec (H * S)) (effect : S -> PCIDevice -> S) fuel h s :
  (forall d h s, function_ok d -> exists h', callback d (h, s) = Done (h', effect s d) /\ same_ids h h') ->
  no_bridges h -> (0 < fuel)%nat ->
  exists h' visited, PCI_scan_pci fuel callback (h, s) = Done (h', foldl effect s visited) /\ same_ids h h' /\
    StronglySorted before visited /\ forall d, d ∈ visited <-> reachable h d.
Proof.
  intros Hq Hnb Hf. destruct (scan_pci_spec callback effect Hq fuel h s Hnb Hf) as (h' & E & Hids).
  exists h', (pci_functions h). split; [done|]. split; [done|].
  split; [apply sorted_pci_functions|apply elem_of_pci_functions].
Qed.

(** Turning bus mastering or interrupts of a function on or off changes one bit of its
    command register, if the function implements that bit, and no other register of any
    function. *)
Theorem pci_command_bits {H : Type} `{PciHost H} c d (h : H) :
  function_ok d ->
  (forall d' o, function_ok d' -> 0 <= o < 256 -> ~ (d' = d /\ 4 <= o < 6) ->
     config (change_command c d h) d' o = config h d' o) /\
  forall j, 0 <= j -> Z.testbit (config16 (change_command c d h) d PCI_PORT_COMMAND) j =
    if (j =? command_bit c) && Z.testbit (command_mask d) (command_bit c) then command_value c
    else Z.testbit (config16 h d PCI_PORT_COMMAND) j.
Proof. apply change_command_spec. Qed.

(** A bridge that names the bus it is on as its primary bus, as bridges do, makes the
    scan of that bus endless: the number of the bus behind it is read from the wrong byte. *)
Theorem pci_bridge_hangs {H S : Type} `{PciHost H} (callback : PCIDevice -> H * S -> exec (H * S)) (effect : S -> PCIDevice -> S) fuel h s bus slot :
  (forall d h s, function_ok d -> exists h', callback d (h, s) = Done (h', effect s d) /\ same_ids h h') ->
  0 <= bus < 256 -> 0 <= slot < 32 -> bridge_at h bus slot ->
  forall w, PCI_scan_bus fuel callback bus (h, s) <> Done w.
Proof. intros Hq Hb Hs Hat w. by eapply (scan_bridge_hangs callback effect Hq fuel h bus slot). Qed.

(** ** Concrete hosts *)

Definition id_bytes (d : PCIDevice) (vendor header : Z) : list (Z * Z) :=
  [(mechanism_address d 0, vendor mod 256); (mechanism_address d 1, vendor / 256);
   (mechanism_address d 4, 0); (mechanism_address d 5, 4); (mechanism_address d 0xE, header)].

(** A host bridge, and a device with the functions 0 and 2. *)
Definition small_host : HostMemory :=
  mkHost 0 (list_to_map (id_bytes (mkPCI 0 0 0) 0x8086 0 ++ id_bytes (mkPCI 0 3 0) 0x10EC 0x80 ++
                         id_bytes (mkPCI 0 3 2) 0x1002 0)).

Definition note_device (d : PCIDevice) (w : HostMemory * list PCIDevice) : exec (HostMemory * list PCIDevice) :=
  Done (w.1, w.2 ++ [d]).

Lemma note_device_quiet d h s :
  function_ok d -> exists h', note_device d (h, s) = Done (h', s ++ [d]) /\ same_ids h h'.
Proof. intros _. by exists h. Qed.

Lemma small_host_no_bridges : no_bridges small_host.
Proof.
  assert (E : map_Forall (fun _ v => v mod 256 mod 128 <> 1) (hm_bytes small_host)).
  { apply map_Forall_to_list.
    assert (E : Forall (fun kv : Z * Z => kv.2 mod 256 mod 128 <> 1) (map_to_list (hm_bytes small_host))).
    { apply (bool_decide_unpack _). by vm_compute. }
    eapply Forall_impl; [exact E|]. by intros []. }
  intros d _ _. unfold bridge, config8. cbn [config HostMemory_pci]. unfold host_byte.
  destruct (hm_bytes small_host !! _) as [v|] eqn:Ev; [|done]. apply E in Ev. simpl in *. by apply Z.eqb_neq.
Qed.

Lemma pci_scan_visits_witness :
  PCI_scan_pci 1 note_device (small_host, []) =
    Done (mkHost (mechanism_address (mkPCI 0 31 0) 0) (hm_bytes small_host), [mkPCI 0 0 0; mkPCI 0 3 0; mkPCI 0 3 2]) /\
  exists h' visited, PCI_scan_pci 1 note_device (small_host, []) =
      Done (h', foldl (fun s d => s ++ [d]) [] visited) /\ same_ids small_host h' /\
    StronglySorted before visited /\ forall d, d ∈ visited <-> reachable small_host d.
Proof.
  split; [by vm_compute|].
  apply (pci_scan_visits note_device (fun s d => s ++ [d]) 1 small_host []);
    [apply note_device_quiet|apply small_host_no_bridges|lia].
Defined.

Lemma pci_command_bits_witness :
  config16 (change_command EnableBusMastering (mkPCI 0 3 0) small_host) (mkPCI 0 3 0) 4 = 0x404 /\
  config (change_command EnableBusMastering (mkPCI 0 3 0) small_host) (mkPCI 0 0 0) 4 = config small_host (mkPCI 0 0 0) 4.
Proof.
  split; [by vm_compute|].
  apply (proj1 (pci_command_bits EnableBusMastering (mkPCI 0 3 0) small_host ltac:(by vm_compute))); [by vm_compute|lia|].
  by intros [? _].
Defined.

Definition bridge_host : HostMemory :=
  mkHost 0 (list_to_map (id_bytes (mkPCI 0 1 0) 0x8086 1 ++
    [(mechanism_address (mkPCI 0 1 0) 0x18, 0); (mechanism_address (mkPCI 0 1 0) 0x19, 1)])).

Lemma pci_bridge_hangs_witness : forall w, PCI_scan_bus 50 note_device 0 (bridge_host, []) <> Done w.
Proof.
  apply (pci_bridge_hangs note_device (fun s d => s ++ [d]) 50 bridge_host [] 0 1);
    [apply note_device_quiet|lia|lia|repeat split; by vm_compute].
Defined.
