(* ===== verification/Logger.v ===== *)
(** * The debug port and the logger

    kernel/devices/debug_port: messages go to the serial port byte by byte, every part of a
    message between two escape sequences that set and reset its colour. A statement such as
    [info() << "a" << 3] makes a logger, which takes the lock, prints its items and, at the
    end, a line feed, and gives the lock back. *)
From S2P Require Import Prelude Clib Ports Sync.

Inductive DebugColor :=
| Black | Red | Green | Yellow | Blue | Magenta | Cyan | White
| Bright_Black | Bright_Red | Bright_Green | Bright_Yellow | Bright_Blue | Bright_Magenta
| Bright_Cyan | Bright_White.

Definition color_code (c : DebugColor) : Z :=
  match c with
  | Black => 30 | Red => 31 | Green => 32 | Yellow => 33
  | Blue => 34 | Magenta => 35 | Cyan => 36 | White => 37
  | Bright_Black => 90 | Bright_Red => 91 | Bright_Green => 92 | Bright_Yellow => 93
  | Bright_Blue => 94 | Bright_Magenta => 95 | Bright_Cyan => 96 | Bright_White => 97
  end.

Definition DEBUG_PORT : Z := 0x3F8.

(** An array that is not initialised: nothing is read from it before it is written. *)
Definition uninitialised (n : nat) : list Z := replicate n 0xCC.

Section port.
Context {H : Type} `{PortIO H}.
Implicit Types (h : H) (data : list Z).

Definition DebugPort_put_char (data : Z) h : H := out8 DEBUG_PORT data h.

Definition DebugPort_put data (size : Z) h : exec H :=
  for_ (Z.to_nat size) 0 (fun i h => c ← aget data i; Done (out8 DEBUG_PORT c h)) h.

(** The literals are ["\x1B["] and ["\x1B[0m"]. *)
Definition DebugPort_write_sized data (size : Z) (color : DebugColor) h : exec H :=
  num ← itoa (uninitialised 3) (color_code color) 10;
  h ← DebugPort_put (c_str [0x1B; 91]) 2 h;
  h ← DebugPort_put num 2 h;
  let h := DebugPort_put_char 109 h in
  h ← DebugPort_put data size h;
  DebugPort_put (c_str [0x1B; 91; 48; 109]) 4 h.

Definition DebugPort_write data (color : DebugColor) h : exec H :=
  num ← itoa (uninitialised 3) (color_code color) 10;
  h ← DebugPort_put (c_str [0x1B; 91]) 2 h;
  h ← DebugPort_put num 2 h;
  let h := DebugPort_put_char 109 h in
  size ← strlen data 0;
  h ← DebugPort_put data size h;
  DebugPort_put (c_str [0x1B; 91; 48; 109]) 4 h.

(** ** Items of a message *)

Definition Logger_print_hex (m_color : DebugColor) (value size : Z) h : exec H :=
  buf ← itoa (uninitialised 9) value 16;
  '(_, buf) ← toupper buf;
  len ← strlen buf 0;
  let leading_zeros := u32 (size * 2 - len) in
  h ← for_ (Z.to_nat leading_zeros) 0 (fun _ h => DebugPort_write (c_str [48]) m_color h) h;
  DebugPort_write buf m_color h.

Definition Logger_print_unsigned (m_color : DebugColor) (value : Z) h : exec H :=
  buf ← itoa (uninitialised 11) value 10;
  DebugPort_write buf m_color h.

(** The negation of the least [int] is that number again. *)
Definition Logger_print_signed (m_color : DebugColor) (value : Z) h : exec H :=
  '(value, h) ← (if value <? 0 then
                   h ← DebugPort_write (c_str [45]) m_color h; Done (s32 (0 - value), h)
                 else Done (value, h));
  buf ← itoa (uninitialised 11) (u32 value) 10;
  DebugPort_write buf m_color h.

(** What can be printed: an [operator<<] each. [Hex] has the size of the type it was made
    from; the 64 bits of [Hex64] are kept in a [long int], which has 32. *)
Inductive log_item :=
| LogString (str : list Z)
| LogChar (c : Z)
| LogInt (value : Z)
| LogUnsigned (value : Z)
| LogHex (m_data m_size : Z)
| LogHex8 (m_data : Z)
| LogHex16 (m_data : Z)
| LogHex32 (m_data : Z)
| LogHex64 (value : Z)
| LogPointer (ptr : Z)
| LogMAC (mac : list Z)
| LogIPv4 (ip : list Z).

Definition hex_prefix : list Z := c_str [48; 120].

(** [s64_bits]: an [int] converted to 64 unsigned bits. *)
Definition s64_bits (v : Z) : Z := v mod 2 ^ 64.

Definition Logger_hex (m_color : DebugColor) (value size : Z) h : exec H :=
  h ← DebugPort_write hex_prefix m_color h;
  Logger_print_hex m_color value size h.

Definition Logger_hex64 (m_color : DebugColor) (value : Z) h : exec H :=
  let m_data := s32 value in
  h ← DebugPort_write hex_prefix m_color h;
  h ← Logger_print_hex m_color (u32 (Z.shiftr (Z.land (s64_bits m_data) 0xFFFFFFFF00000000) 32)) 4 h;
  Logger_print_hex m_color (u32 (Z.land m_data 0xFFFFFFFF)) 4 h.

Definition Logger_mac (m_color : DebugColor) (mac : list Z) h : exec H :=
  mac_data ← memcpy (uninitialised 6) 0 mac 0 6;
  for_ 6 0 (fun i h =>
    x ← aget mac_data i;
    h ← Logger_print_hex m_color x 1 h;
    if negb (i =? 5) then DebugPort_write (c_str [58]) m_color h else Done h) h.

Definition Logger_ipv4 (m_color : DebugColor) (ip : list Z) h : exec H :=
  mac_data ← memcpy (uninitialised 6) 0 ip 0 4;
  for_ 4 0 (fun i h =>
    x ← aget mac_data i;
    h ← Logger_print_unsigned m_color x h;
    if negb (i =? 3) then DebugPort_write (c_str [46]) m_color h else Done h) h.

(** [operator<<]. A single character is printed through its address, as a string. *)
Definition Logger_print (m_color : DebugColor) (item : log_item) h : exec H :=
  match item with
  | LogString str => DebugPort_write str m_color h
  | LogChar c => DebugPort_write [c] m_color h
  | LogInt value => Logger_print_signed m_color value h
  | LogUnsigned value => Logger_print_unsigned m_color value h
  | LogHex m_data m_size => Logger_hex m_color m_data (u8 m_size) h
  | LogHex8 m_data => Logger_hex m_color m_data 1 h
  | LogHex16 m_data => Logger_hex m_color m_data 2 h
  | LogHex32 m_data => Logger_hex m_color (u32 (s32 m_data)) 4 h
  | LogHex64 value => Logger_hex64 m_color value h
  | LogPointer ptr => Logger_hex m_color ptr 4 h
  | LogMAC mac => Logger_mac m_color mac h
  | LogIPv4 ip => Logger_ipv4 m_color ip h
  end.

Fixpoint Logger_prints (m_color : DebugColor) (items : list log_item) h : exec H :=
  match items with
  | [] => Done h
  | item :: items => h ← Logger_print m_color item h; Logger_prints m_color items h
  end.

(** ** The lock around a message *)

Record LogState := mkLog { lg_ports : H; lg_lock : StaticSpinlock; lg_eflags : Z }.

Definition Logger_init (st : LogState) : LogState :=
  mkLog (lg_ports st) (StaticSpinlock_init (lg_lock st)) (lg_eflags st).

Definition Logger_new (fuel : nat) (st : LogState) : exec LogState :=
  '(lock, eflags) ← StaticSpinlock_acquire fuel (lg_lock st) (lg_eflags st);
  Done (mkLog (lg_ports st) lock eflags).

Definition Logger_destroy (m_color : DebugColor) (st : LogState) : exec LogState :=
  h ← DebugPort_write (c_str [10]) m_color (lg_ports st);
  '(lock, eflags) ← StaticSpinlock_release (lg_lock st) (lg_eflags st);
  Done (mkLog h lock eflags).

(** The whole statement, in the colour of [dbg], [info], [warn] or [err]. *)
Definition log_statement (fuel : nat) (m_color : DebugColor) (items : list log_item) (st : LogState) : exec LogState :=
  st ← Logger_new fuel st;
  h ← Logger_prints m_color items (lg_ports st);
  Logger_destroy m_color (mkLog h (lg_lock st) (lg_eflags st)).

Definition dbg_color : DebugColor := Bright_Blue.
Definition info_color : DebugColor := Green.
Definition warn_color : DebugColor := Yellow.
Definition err_color : DebugColor := Red.

End port.

(** ** What reaches the port *)

Section spec.
Context {H : Type} `{PortIO H}.
Implicit Types (h : H) (t : list Z).

Definition send (bytes : list Z) h : H := foldl (fun h b => out8 DEBUG_PORT b h) h bytes.

Lemma send_app a b h : send (a ++ b) h = send b (send a h).
Proof. apply foldl_app. Qed.

(** A text in its colour: [ESC [ n m text ESC [ 0 m]. *)
Definition framed (c : DebugColor) t : list Z :=
  [0x1B; 91; 48 + color_code c / 10; 48 + color_code c mod 10; 109] ++ t ++ [0x1B; 91; 48; 109].

Definition framed_all (c : DebugColor) (ts : list (list Z)) : list Z := ts ≫= framed c.

Lemma put_spec t r h : DebugPort_put (t ++ r) (alen t) h = Done (send t h).
Proof.
  unfold DebugPort_put.
  destruct (for_inv (fun i h' => h' = send (take (Z.to_nat i) t) h)
    (fun i h => c ← aget (t ++ r) i; Done (out8 DEBUG_PORT c h)) (Z.to_nat (alen t)) 0 h) as (h' & E & ->).
  - done.
  - intros j h1 Hj ->. unfold alen in Hj. destruct (lookup_lt_is_Some_2 t (Z.to_nat j)) as [c Hc]; [lia|].
    rewrite (aget_Done _ _ c); [|lia|by rewrite lookup_app_l by lia]. eexists. split; [done|].
    replace (Z.to_nat (j + 1)) with (S (Z.to_nat j)) by lia. rewrite (take_S_r _ _ c) by done.
    by rewrite send_app.
  - rewrite E. unfold alen. rewrite !Z.add_0_l, !Nat2Z.id, firstn_all. done.
Qed.

Lemma color_digits c :
  itoa (uninitialised 3) (color_code c) 10 = Done (c_str [48 + color_code c / 10; 48 + color_code c mod 10]).
Proof. by destruct c. Qed.

Lemma write_spec c t r h :
  Forall (fun x => x <> 0) t -> alen t < 2 ^ 32 -> DebugPort_write (t ++ 0 :: r) c h = Done (send (framed c t) h).
Proof.
  intros Hnz Hb. unfold DebugPort_write. rewrite color_digits. cbn [mbind exec_bind].
  rewrite (put_spec [0x1B; 91] [0]). cbn [mbind exec_bind]. unfold c_str.
  rewrite (put_spec [_; _] [0]). cbn [mbind exec_bind].
  change (strlen (t ++ 0 :: r) 0) with (strlen ([] ++ t ++ 0 :: r) (alen (@nil Z))).
  rewrite strlen_spec by done. cbn [mbind exec_bind].
  rewrite (put_spec t (0 :: r)). cbn [mbind exec_bind].
  rewrite (put_spec [0x1B; 91; 48; 109] [0]). unfold framed. rewrite !send_app. done.
Qed.

Lemma write_sized_spec c t r h : DebugPort_write_sized (t ++ r) (alen t) c h = Done (send (framed c t) h).
Proof.
  unfold DebugPort_write_sized. rewrite color_digits. cbn [mbind exec_bind].
  rewrite (put_spec [0x1B; 91] [0]). cbn [mbind exec_bind]. unfold c_str.
  rewrite (put_spec [_; _] [0]). cbn [mbind exec_bind]. rewrite (put_spec t r). cbn [mbind exec_bind].
  rewrite (put_spec [0x1B; 91; 48; 109] [0]). unfold framed. rewrite !send_app. done.
Qed.

(** Several writes one after another. *)
Definition prints (c : DebugColor) (ts : list (list Z)) (run : H -> exec H) : Prop :=
  forall h, run h = Done (send (framed_all c ts) h).

Lemma prints_bind c ts ts' run run' :
  prints c ts run -> prints c ts' run' -> prints c (ts ++ ts') (fun h => h ← run h; run' h).
Proof.
  intros Hr Hr' h. rewrite Hr. cbn [mbind exec_bind]. rewrite Hr'. unfold framed_all.
  by rewrite bind_app, send_app.
Qed.

Lemma prints_write c t r :
  Forall (fun x => x <> 0) t -> alen t < 2 ^ 32 -> prints c [t] (DebugPort_write (t ++ 0 :: r) c).
Proof. intros Hnz Hb h. rewrite write_spec by done. unfold framed_all. cbn. by rewrite app_nil_r. Qed.

Lemma prints_literal c t : Forall (fun x => x <> 0) t -> alen t < 2 ^ 32 -> prints c [t] (DebugPort_write (c_str t) c).
Proof. apply prints_write. Qed.

Lemma prints_for c (g : Z -> list (list Z)) (body : Z -> H -> exec H) n lo :
  (forall i, lo <= i < lo + Z.of_nat n -> prints c (g i) (body i)) ->
  prints c (seqZ lo (Z.of_nat n) ≫= g) (for_ n lo body).
Proof.
  revert lo. induction n as [|n IH]; intros lo Hb h; [done|].
  rewrite seqZ_cons by lia. cbn [for_ mbind exec_bind].
  rewrite (prints_bind c (g lo) (seqZ (lo + 1) (Z.of_nat n) ≫= g) (body lo) (for_ n (lo + 1) body)).
  - by replace (Z.pred (Z.of_nat (S n))) with (Z.of_nat n) by lia.
  - apply Hb. lia.
  - apply IH. intros i Hi. apply Hb. lia.
Qed.

(** ** Numbers *)

Definition is_hex (size v : Z) t : Prop := alen t = 2 * size /\ number 16 (lower <$> t) = v.

Definition is_decimal (v : Z) t : Prop := number 10 t = v /\ Forall (is_digit 10) t /\ 0 < alen t <= 10.

Lemma lower_upper_digit base x : 2 <= base <= 36 -> is_digit base x -> lower (upper x) = x /\ upper x <> 0 /\ lower x = x.
Proof.
  intros Hb (d & Hd & ->).
  assert (E : Forall (fun d => lower (upper (digit_char d)) = digit_char d /\ upper (digit_char d) <> 0 /\
                               lower (digit_char d) = digit_char d) (seqZ 0 36)).
  { apply (bool_decide_unpack _). by vm_compute. }
  rewrite Forall_forall in E. apply E, elem_of_seqZ. lia.
Qed.

Lemma number_zeros base n ds : number base (replicate n 48 ++ ds) = number base ds.
Proof.
  unfold number. rewrite foldl_app. f_equal. induction n as [|n IH]; [done|]. cbn [replicate foldl].
  by replace (0 * base + char_digit 48) with 0.
Qed.

Lemma lower_zeros n : lower <$> replicate n 48 = replicate n 48.
Proof. by rewrite fmap_replicate. Qed.

Lemma lower_upper_digits base ds :
  2 <= base <= 36 -> Forall (is_digit base) ds -> lower <$> (upper <$> ds) = ds /\ Forall (fun x => x <> 0) (upper <$> ds).
Proof.
  intros Hb Hds. induction Hds as [|x ds Hx Hds [IH1 IH2]]; [done|]. rewrite !fmap_cons, IH1.
  destruct (lower_upper_digit base x Hb Hx) as (E & Hnz & _). rewrite E. split; [done|]. by constructor.
Qed.

Lemma bind_const {A B} (l : list A) (x : B) : l ≫= (fun _ => [x]) = replicate (length l) x.
Proof. induction l as [|a l IH]; [done|]. cbn. by f_equal. Qed.

Lemma mjoin_singletons {A} n (x : A) : mjoin (replicate n [x]) = replicate n x.
Proof. induction n as [|n IH]; [done|]. cbn. by f_equal. Qed.

Lemma print_hex_spec c v size :
  0 < size <= 4 -> 0 <= v < 256 ^ size ->
  exists ts, prints c ts (Logger_print_hex c v size) /\ is_hex size v (mjoin ts).
Proof.
  intros Hs Hv. assert (H256 : 256 ^ size = 16 ^ (2 * size)) by (rewrite Z.pow_mul_r by lia; done).
  assert (Hv32 : 256 ^ size <= 256 ^ 4) by (apply Z.pow_le_mono_r; lia). change (256 ^ 4) with (2 ^ 32) in Hv32.
  destruct (itoa_spec (uninitialised 9) v 16 (2 * size)) as (ds & r & E & Hn & Hl & Hd & Hr);
    [lia|lia|change (alen (uninitialised 9)) with 9; lia|lia|].
  destruct (lower_upper_digits 16 ds) as [Elu Hnz]; [lia|done|].
  set (n := Z.to_nat (2 * size - alen ds)).
  exists (replicate n [48] ++ [upper <$> ds]). split.
  - intros h. unfold Logger_print_hex. rewrite E. cbn [mbind exec_bind].
    rewrite toupper_spec by ((by apply (is_digit_nonzero 16); [lia|]) || lia). cbn [mbind exec_bind].
    change (strlen ((upper <$> ds) ++ 0 :: r) 0) with (strlen ([] ++ (upper <$> ds) ++ 0 :: r) (alen (@nil Z))).
    rewrite strlen_spec by (rewrite ?alen_fmap; done || lia). cbn [mbind exec_bind].
    rewrite alen_fmap, u32_small, (Z.mul_comm size) by lia. fold n.
    apply (prints_bind c (replicate n [48]) [upper <$> ds]).
    + pose proof (prints_for c (fun _ => [[48]]) (fun _ => DebugPort_write (c_str [48]) c) n 0) as Hz.
      rewrite bind_const, length_seqZ, Nat2Z.id in Hz. apply Hz. intros i _. by apply prints_literal; [constructor|].
    + apply prints_write; [done|]. rewrite alen_fmap. lia.
  - rewrite join_app, mjoin_singletons. cbn [mjoin list_join]. rewrite app_nil_r. split.
    + rewrite alen_app, alen_replicate, alen_fmap. lia.
    + by rewrite fmap_app, lower_zeros, number_zeros, Elu.
Qed.

Lemma print_unsigned_spec c v :
  0 <= v < 2 ^ 32 -> exists t, prints c [t] (Logger_print_unsigned c v) /\ is_decimal v t.
Proof.
  intros Hv. destruct (itoa_spec (uninitialised 11) v 10 10) as (ds & r & E & Hn & Hl & Hd & Hr);
    [lia|lia|done|lia|].
  exists ds. split; [|done]. intros h. unfold Logger_print_unsigned. rewrite E. cbn [mbind exec_bind].
  apply prints_write; [by apply (is_digit_nonzero 10)|lia].
Qed.

(** The least [int] is printed as well: as an unsigned number it is its own negation. *)
Lemma print_signed_spec c v :
  - 2 ^ 31 <= v < 2 ^ 31 ->
  exists ts ds, prints c ts (Logger_print_signed c v) /\ mjoin ts = (if v <? 0 then 45 :: ds else ds) /\
    is_decimal (Z.abs v) ds.
Proof.
  intros Hv. unfold Logger_print_signed. destruct (Z.ltb_spec v 0).
  - assert (E : u32 (s32 (0 - v)) = Z.abs v) by (unfold u32, s32; zdiv).
    destruct (print_unsigned_spec c (Z.abs v)) as (t & Ht & Hd); [lia|].
    exists ([[45]] ++ [t]), t. split; [|by rewrite join_app; cbn; rewrite app_nil_r].
    intros h. rewrite (prints_literal c [45]) by (done || by constructor). cbn [mbind exec_bind]. rewrite E.
    change (Logger_print_unsigned c (Z.abs v) (send (framed_all c [[45]]) h) = Done (send (framed_all c ([[45]] ++ [t])) h)).
    rewrite Ht, <- send_app. unfold framed_all. by rewrite bind_app.
  - destruct (print_unsigned_spec c v) as (t & Ht & Hd); [lia|].
    exists [t], t. rewrite Z.abs_eq by lia. cbn [mjoin list_join]. rewrite app_nil_r. split; [|done].
    intros h. cbn [mbind exec_bind]. rewrite u32_small by lia. apply Ht.
Qed.

(** ** Messages *)

(** Texts with a separator between them. *)
Fixpoint separated (sep : list Z) (ts : list (list Z)) : list Z :=
  match ts with
  | [] => []
  | [t] => t
  | t :: ts => t ++ sep ++ separated sep ts
  end.

Definition hex_text (size v : Z) t : Prop := exists d, t = [48; 120] ++ d /\ is_hex size v d.

(** The text of an item. [LogHex64] has lost the upper half of its number. *)
Definition shows (item : log_item) t : Prop :=
  match item with
  | LogString str => exists r, str = t ++ 0 :: r
  | LogChar c => t = [c]
  | LogInt v => exists d, t = (if v <? 0 then 45 :: d else d) /\ is_decimal (Z.abs v) d
  | LogUnsigned v => is_decimal v t
  | LogHex v size => hex_text size v t
  | LogHex8 v => hex_text 1 v t
  | LogHex16 v => hex_text 2 v t
  | LogHex32 v => hex_text 4 v t
  | LogHex64 v => exists hi lo, t = [48; 120] ++ hi ++ lo /\ is_hex 4 (if s32 v <? 0 then 2 ^ 32 - 1 else 0) hi /\ is_hex 4 (u32 v) lo
  | LogPointer v => hex_text 4 v t
  | LogMAC mac => exists ds, Forall2 (is_hex 1) mac ds /\ t = separated [58] ds
  | LogIPv4 ip => exists ds, Forall2 is_decimal ip ds /\ t = separated [46] ds
  end.

Definition item_ok (item : log_item) : Prop :=
  match item with
  | LogString str => exists t r, str = t ++ 0 :: r /\ Forall (fun x => x <> 0) t /\ alen t < 2 ^ 32
  | LogChar _ => False
  | LogInt v => - 2 ^ 31 <= v < 2 ^ 31
  | LogUnsigned v | LogHex32 v | LogPointer v => 0 <= v < 2 ^ 32
  | LogHex v size => 0 < size <= 4 /\ 0 <= v < 256 ^ size
  | LogHex8 v => 0 <= v < 2 ^ 8
  | LogHex16 v => 0 <= v < 2 ^ 16
  | LogHex64 v => 0 <= v < 2 ^ 64
  | LogMAC mac => length mac = 6%nat /\ Forall (fun x => 0 <= x < 2 ^ 8) mac
  | LogIPv4 ip => length ip = 4%nat /\ Forall (fun x => 0 <= x < 2 ^ 8) ip
  end.

Lemma hex_spec c v size :
  0 < size <= 4 -> 0 <= v < 256 ^ size ->
  exists ts, prints c ts (Logger_hex c v size) /\ hex_text size v (mjoin ts).
Proof.
  intros Hs Hv. destruct (print_hex_spec c v size Hs Hv) as (ts & Hts & Hx).
  exists ([[48; 120]] ++ ts). split; [|exists (mjoin ts); by rewrite join_app].
  intros h. apply (prints_bind c [[48; 120]] ts); [|done]. apply prints_literal; [by repeat constructor|done].
Qed.

Lemma hex64_spec c v :
  0 <= v < 2 ^ 64 -> exists ts, prints c ts (Logger_hex64 c v) /\ shows (LogHex64 v) (mjoin ts).
Proof.
  intros Hv. set (hi := if s32 v <? 0 then 2 ^ 32 - 1 else 0).
  assert (Ehi : u32 (Z.shiftr (Z.land (s64_bits (s32 v)) 0xFFFFFFFF00000000) 32) = hi).
  { change 0xFFFFFFFF00000000 with (Z.shiftl (Z.ones 32) 32). rewrite bits_part by lia.
    assert (Hw : - 2 ^ 31 <= s32 v < 2 ^ 31) by (unfold s32; zdiv).
    unfold hi, u32, s64_bits. destruct (Z.ltb_spec (s32 v) 0).
    - rewrite <- (Z_mod_plus_full _ 1 (2 ^ 64)), (Z.mod_small _ (2 ^ 64)) by lia. zdiv.
    - rewrite (Z.mod_small _ (2 ^ 64)) by lia. zdiv. }
  assert (Elo : u32 (Z.land (s32 v) 0xFFFFFFFF) = u32 v).
  { change 0xFFFFFFFF with (Z.ones 32). rewrite Z.land_ones by lia. unfold u32, s32. zdiv. }
  destruct (print_hex_spec c hi 4) as (th & Hth & Hxh); [lia|unfold hi; case_match; lia|].
  destruct (print_hex_spec c (u32 v) 4) as (tl & Htl & Hxl); [lia|apply u32_range|].
  exists ([[48; 120]] ++ (th ++ tl)). split; [|exists (mjoin th), (mjoin tl); by rewrite !join_app].
  intros h. unfold Logger_hex64. cbv zeta. rewrite Ehi, Elo.
  apply (prints_bind c [[48; 120]] (th ++ tl)); [apply prints_literal; [by repeat constructor|done]|].
  by apply prints_bind.
Qed.

(** A list of numbers with separators, as the loops over the bytes of an address print it. *)
Lemma separated_spec c (P : Z -> list Z -> Prop) (one : Z -> H -> exec H) sep (l : list Z) (body : Z -> H -> exec H) :
  Forall (fun x => x <> 0) sep -> alen sep < 2 ^ 32 ->
  (forall x, x ∈ l -> exists ts, prints c ts (one x) /\ P x (mjoin ts)) ->
  (forall i x, l !! Z.to_nat i = Some x -> 0 <= i -> forall h, body i h =
     (h ← one x h; if negb (i =? alen l - 1) then DebugPort_write (c_str sep) c h else Done h)) ->
  exists ts ds, prints c ts (for_ (length l) 0 body) /\ Forall2 P l ds /\ mjoin ts = separated sep ds.
Proof.
  intros Hsep Hlen Hone Hbody.
  assert (Hgen : forall l2 l1, l = l1 ++ l2 -> exists ts ds,
    prints c ts (for_ (length l2) (alen l1) body) /\ Forall2 P l2 ds /\ mjoin ts = separated sep ds).
  { induction l2 as [|x l2 IH]; intros l1 El; [by exists [], []|].
    destruct (Hone x) as (t & Ht & HP); [rewrite El; apply elem_of_app; right; left|].
    assert (Hb : forall h, body (alen l1) h = (h ← one x h; if negb (alen l1 =? alen l - 1) then DebugPort_write (c_str sep) c h else Done h)).
    { apply Hbody; [|apply alen_nonneg]. unfold alen. by rewrite El, Nat2Z.id, list_lookup_middle. }
    destruct (IH (l1 ++ [x])) as (ts & ds & Hts & HF & Ej); [by rewrite El, <- app_assoc|].
    rewrite alen_snoc in Hts. destruct l2 as [|y l2].
    - exists t, [mjoin t]. split; [|by repeat constructor]. intros h. cbn [for_ length].
      rewrite Hb. rewrite (proj2 (Z.eqb_eq (alen l1) (alen l - 1))) by (rewrite El, alen_app, alen_cons, alen_nil; lia).
      rewrite Ht. done.
    - exists ((t ++ [sep]) ++ ts), (mjoin t :: ds). split; [|split; [by constructor|]].
      + intros h. change (for_ (length (x :: y :: l2)) (alen l1) body h) with
          (h ← body (alen l1) h; for_ (length (y :: l2)) (alen l1 + 1) body h).
        apply prints_bind; [|done]. intros h'. rewrite Hb.
        rewrite (proj2 (Z.eqb_neq (alen l1) (alen l - 1)))
          by (rewrite El, alen_app, !alen_cons; pose proof (alen_nonneg l2); lia).
        apply (prints_bind c t [sep]); [done|]. by apply prints_literal.
      + inversion HF; subst. rewrite !join_app, Ej. cbn [mjoin list_join separated]. by rewrite app_nil_r, <- app_assoc. }
  apply (Hgen l []). done.
Qed.

Lemma print_spec c item :
  item_ok item -> exists ts, prints c ts (Logger_print c item) /\ shows item (mjoin ts).
Proof.
  destruct item as [str|x|v|v|v size|v|v|v|v|v|mac|ip]; cbn [item_ok Logger_print shows]; intros Hok.
  - destruct Hok as (t & r & -> & Hnz & Hl). exists [t]. split; [by apply prints_write|].
    exists r. cbn. by rewrite app_nil_r.
  - done.
  - destruct (print_signed_spec c v Hok) as (ts & ds & Hts & Ej & Hd). exists ts. eauto.
  - destruct (print_unsigned_spec c v Hok) as (t & Ht & Hd). exists [t]. cbn. by rewrite app_nil_r.
  - destruct Hok as [Hs Hv]. change (Logger_print c (LogHex v size)) with (Logger_hex c v (u8 size)).
    rewrite u8_small by lia. by apply hex_spec.
  - by apply hex_spec.
  - by apply hex_spec.
  - change (Logger_print c (LogHex32 v)) with (Logger_hex c (u32 (s32 v)) 4).
    replace (u32 (s32 v)) with v by (unfold u32, s32; zdiv). by apply hex_spec.
  - by apply hex64_spec.
  - by apply hex_spec.
  - destruct Hok as [Hl Hb]. rewrite Forall_forall in Hb.
    pose proof (memcpy_spec mac (uninitialised 6) [] [] [] [] ltac:(by rewrite Hl)) as Em.
    unfold alen in Em at 3. rewrite Hl, !app_nil_r in Em.
    destruct (separated_spec c (is_hex 1) (fun x => Logger_print_hex c x 1) [58] mac
      (fun i h => x ← aget mac i; h ← Logger_print_hex c x 1 h;
         if negb (i =? 5) then DebugPort_write (c_str [58]) c h else Done h)) as (ts & ds & Hts & HF & Ej);
      [by repeat constructor|done| | |].
    + intros x Hx. by apply print_hex_spec; [|apply Hb].
    + intros i x Hx Hi h. rewrite (aget_Done _ _ x) by done. unfold alen. by rewrite Hl.
    + exists ts. split; [|by exists ds]. intros h. cbn [Logger_print]. unfold Logger_mac.
      change (memcpy _ _ _ _ _) with (memcpy ([] ++ uninitialised 6) (alen (@nil Z)) ([] ++ mac) (alen (@nil Z)) (Z.of_nat 6)).
      rewrite Em. cbn [mbind exec_bind app]. rewrite Hl in Hts. apply Hts.
  - destruct Hok as [Hl Hb]. rewrite Forall_forall in Hb.
    pose proof (memcpy_spec ip (uninitialised 4) [] (uninitialised 2) [] [] ltac:(by rewrite Hl)) as Em.
    unfold alen in Em at 3. rewrite Hl, !app_nil_r in Em.
    destruct (separated_spec c is_decimal (fun x => Logger_print_unsigned c x) [46] ip
      (fun i h => x ← aget (ip ++ uninitialised 2) i; h ← Logger_print_unsigned c x h;
         if negb (i =? 3) then DebugPort_write (c_str [46]) c h else Done h)) as (ts & ds & Hts & HF & Ej);
      [by repeat constructor|done| | |].
    + intros x Hx. destruct (print_unsigned_spec c x) as (t & Ht & Hd); [apply Hb in Hx; lia|].
      exists [t]. cbn. by rewrite app_nil_r.
    + intros i x Hx Hi h. rewrite (aget_Done _ _ x); [|done|by apply lookup_app_l_Some].
      unfold alen. by rewrite Hl.
    + exists ts. split; [|by exists ds]. intros h. cbn [Logger_print]. unfold Logger_ipv4.
      change (memcpy _ _ _ _ _) with (memcpy ([] ++ uninitialised 4 ++ uninitialised 2) (alen (@nil Z)) ([] ++ ip) (alen (@nil Z)) (Z.of_nat 4)).
      rewrite Em. cbn [mbind exec_bind app]. rewrite Hl in Hts. apply Hts.
Qed.

Lemma prints_items c items :
  Forall item_ok items ->
  exists tss, prints c (mjoin tss) (Logger_prints c items) /\ Forall2 shows items (mjoin <$> tss).
Proof.
  induction 1 as [|item items Hi _ (tss & Htss & HF)]; [by exists []|].
  destruct (print_spec c item Hi) as (ts & Hts & Hs). exists (ts :: tss). split.
  - intros h. by apply (prints_bind c ts (mjoin tss)).
  - by constructor.
Qed.

End spec.

(** A log statement with the lock free prints its items one after another and a line
    feed, every piece of text in the colour of the logger, and leaves the lock free and the
    interrupt flag as it was. A number is printed with the decimal digits of its value and
    its sign, also the least one; a hexadecimal one with two digits for every byte; the bytes
    of addresses with colons or dots between them. *)
Theorem log_statement_prints {H} `{PortIO H} fuel c items (st : LogState (H := H)) :
  (0 < fuel)%nat -> sp_value (lg_lock st) = 0 -> Forall item_ok items ->
  exists pieces texts,
    log_statement fuel c items st =
      Done (mkLog (send (pieces ≫= framed c) (lg_ports st)) (mkSpinlock 0 (lg_eflags st)) (lg_eflags st)) /\
    mjoin pieces = mjoin texts ++ [10] /\ Forall2 shows items texts.
Proof.
  intros Hf Hlock Hitems. destruct (prints_items c items Hitems) as (tss & Hp & HF).
  exists (mjoin tss ++ [[10]]), ((fun ts : list (list Z) => mjoin ts) <$> tss). split; [|split; [|done]].
  - destruct fuel as [|fuel]; [lia|]. unfold log_statement, Logger_new. rewrite acquire_free by done.
    cbn [mbind exec_bind lg_ports]. rewrite Hp. cbn [mbind exec_bind]. unfold Logger_destroy.
    cbn [lg_ports lg_lock lg_eflags]. rewrite (prints_literal c [10]) by (done || by constructor).
    cbn [mbind exec_bind]. rewrite <- send_app. unfold framed_all. rewrite bind_app. done.
  - rewrite join_app. f_equal. clear. induction tss as [|ts tss IH]; [done|].
    change (mjoin (ts ++ mjoin tss) = mjoin ts ++ mjoin ((fun ts : list (list Z) => mjoin ts) <$> tss)).
    by rewrite join_app, IH.
Qed.

(** A character that is printed by its address is not a string: the search for its end
    leaves it. *)
Lemma log_char_faults {H} `{PortIO H} c x (h : H) : x <> 0 -> Logger_print c (LogChar x) h = Fault.
Proof.
  intros Hx. cbn [Logger_print]. unfold DebugPort_write. rewrite color_digits. cbn [mbind exec_bind].
  rewrite (put_spec [0x1B; 91] [0]). cbn [mbind exec_bind]. unfold c_str. rewrite (put_spec [_; _] [0]).
  cbn. destruct x; done.
Qed.

(** The port as the list of what was written to it. *)
#[export] Instance written_ports : PortIO (list (Z * Z)) := {|
  port_in _ _ h := (0, h);
  port_out _ port v h := h ++ [(port, v)];
|}.

Lemma log_statement_prints_witness :
  exists pieces texts,
    log_statement 1 Green [LogUnsigned 42; LogHex 255 2] (mkLog [] (mkSpinlock 0 0) 0x200) =
      Done (mkLog (send (pieces ≫= framed Green) []) (mkSpinlock 0 0x200) 0x200) /\
    mjoin pieces = mjoin texts ++ [10] /\ Forall2 shows [LogUnsigned 42; LogHex 255 2] texts.
Proof.
  apply (log_statement_prints 1 Green [LogUnsigned 42; LogHex 255 2] (mkLog [] (mkSpinlock 0 0) 0x200));
    [lia|done|].
  constructor; [by split|]. constructor; [|constructor]. split; [lia|]. split; [lia|done].
Defined.
