(* ===== verification/Rtc.v ===== *)
(** * The real time clock

    kernel/devices/rtc: the registers of the clock hold the time in binary coded decimals
    and are read one after another. *)
From S2P Require Import Prelude Ports.

Definition CMOS_ADDRESS_PORT : Z := 0x70.
Definition CMOS_DATA_PORT : Z := 0x71.
Definition NMI_DISABLE_FLAG : Z := 0x80.
Definition RTC_REG_SECONDS : Z := 0x00.
Definition RTC_REG_MIMUTES : Z := 0x02.
Definition RTC_REG_HOURS : Z := 0x04.
Definition RTC_REG_WEEKDAY : Z := 0x06.
Definition RTC_REG_DAYOFMONTH : Z := 0x07.
Definition RTC_REG_MONTH : Z := 0x08.
Definition RTC_REG_YEAR : Z := 0x09.

Record DATE_TIME := mkTime {
  seconds : Z;
  minutes : Z;
  hours : Z;
  day_of_month : Z;
  day_of_week : Z;
  month : Z;
  year : Z;
}.

Definition RTC_BCDtoBYTE (BCD : Z) : Z :=
  let H := u8 (Z.shiftr BCD 4) in
  let L := u8 (Z.land BCD 0x0F) in
  u8 (H * 10 + L).

Section clock.
Context {H : Type} `{PortIO H}.

(** The two accesses for one register. *)
Definition read_clock (register : Z) (h : H) : Z * H :=
  let h := out8 CMOS_ADDRESS_PORT (Z.lor NMI_DISABLE_FLAG register) h in
  let '(value, h) := in8 CMOS_DATA_PORT h in
  (RTC_BCDtoBYTE value, h).

Definition RTC_get_time (h : H) : DATE_TIME * H :=
  let '(seconds, h) := read_clock RTC_REG_SECONDS h in
  let '(minutes, h) := read_clock RTC_REG_MIMUTES h in
  let '(hours, h) := read_clock RTC_REG_HOURS h in
  let '(day_of_week, h) := read_clock RTC_REG_WEEKDAY h in
  let '(day_of_month, h) := read_clock RTC_REG_DAYOFMONTH h in
  let '(month, h) := read_clock RTC_REG_MONTH h in
  let '(year, h) := read_clock RTC_REG_YEAR h in
  (mkTime seconds minutes hours day_of_month day_of_week month year, h).

End clock.

(** ** The clock

    The documented behaviour of the ports: the register of the last address is read. The
    bit 7 of the address masks the NMI and selects nothing. Between two reads the clock may
    go on: [clock_now] is the register as it is when it is read. *)
Class ClockHost (H : Type) `{PortIO H} := {
  clock_now : H -> Z -> Z;
  clock_byte h r : 0 <= clock_now h r < 256;
  clock_read h r : 0 <= r < 128 ->
    exists h', port_in 1 0x71 (port_out 1 0x70 (128 + r) h) = (clock_now h r, h');
}.

(** A number below 100 as a register has it. *)
Definition to_BCD (v : Z) : Z := v / 10 * 16 + v mod 10.

Lemma BCD_roundtrip v : 0 <= v < 100 -> RTC_BCDtoBYTE (to_BCD v) = v.
Proof.
  intros Hv.
  assert (E : Forall (fun v => RTC_BCDtoBYTE (to_BCD v) = v) (seqZ 0 100)).
  { apply (bool_decide_unpack _). by vm_compute. }
  rewrite Forall_forall in E. apply E, elem_of_seqZ. lia.
Qed.

(** Membership in a list that is written out. *)
Ltac member := repeat (apply list_elem_of_here || apply list_elem_of_further).

Section spec.
Context {H : Type} `{ClockHost H}.

Lemma read_clock_spec r h :
  0 <= r < 128 -> exists h', read_clock r h = (RTC_BCDtoBYTE (clock_now h r), h').
Proof.
  intros Hr. destruct (clock_read h r Hr) as (h' & E). exists h'. unfold read_clock, out8, in8.
  assert (Ea : Z.lor NMI_DISABLE_FLAG r = 128 + r).
  { rewrite Z.lor_comm. change NMI_DISABLE_FLAG with (2 ^ 7 * 1). rewrite lor_parts by lia. lia. }
  rewrite Ea, (u8_small (128 + r)) by lia.
  change (u16 CMOS_DATA_PORT) with 0x71. change (u16 CMOS_ADDRESS_PORT) with 0x70. rewrite E.
  by rewrite u8_small by apply clock_byte.
Qed.

(** The registers that show a time. *)
Definition time_registers (t : DATE_TIME) : list (Z * Z) :=
    [(RTC_REG_SECONDS, seconds t); (RTC_REG_MIMUTES, minutes t); (RTC_REG_HOURS, hours t);
     (RTC_REG_WEEKDAY, day_of_week t); (RTC_REG_DAYOFMONTH, day_of_month t);
     (RTC_REG_MONTH, month t); (RTC_REG_YEAR, year t)].

Definition shows_time (h : H) (t : DATE_TIME) : Prop :=
  Forall (fun '(r, v) => clock_now h r = to_BCD v /\ 0 <= v < 100) (time_registers t).

(** As long as the clock does not go on meanwhile, the time that it shows is read. *)
Lemma rtc_reads_time h t :
  (forall h r r', 0 <= r < 128 -> clock_now (read_clock r h).2 r' = clock_now h r') ->
  shows_time h t -> (RTC_get_time h).1 = t.
Proof.
  intros Hstill Ht. unfold shows_time in Ht. rewrite Forall_forall in Ht.
  assert (Hread : forall r v h', (r, v) ∈ time_registers t -> 0 <= r < 128 -> (forall r', clock_now h' r' = clock_now h r') ->
    exists h'', read_clock r h' = (v, h'') /\ forall r', clock_now h'' r' = clock_now h r').
  { intros r v h' Hin Hr Hs. destruct (read_clock_spec r h' Hr) as (h'' & E). exists h''.
    destruct (Ht _ Hin) as [Ev Hv]. rewrite E, Hs, Ev, BCD_roundtrip by done. split; [done|].
    intros r'. specialize (Hstill h' r r' Hr). rewrite E in Hstill. simpl in Hstill. by rewrite Hstill. }
  unfold RTC_get_time, time_registers in *. destruct t as [s m ho dm dw mo y]; cbn [seconds minutes hours day_of_week day_of_month month year] in *.
  destruct (Hread RTC_REG_SECONDS s h) as (h1 & E1 & S1); [member|done|done|]. rewrite E1.
  destruct (Hread RTC_REG_MIMUTES m h1) as (h2 & E2 & S2); [member|done|done|]. rewrite E2.
  destruct (Hread RTC_REG_HOURS ho h2) as (h3 & E3 & S3); [member|done|done|]. rewrite E3.
  destruct (Hread RTC_REG_WEEKDAY dw h3) as (h4 & E4 & S4); [member|done|done|]. rewrite E4.
  destruct (Hread RTC_REG_DAYOFMONTH dm h4) as (h5 & E5 & S5); [member|done|done|]. rewrite E5.
  destruct (Hread RTC_REG_MONTH mo h5) as (h6 & E6 & S6); [member|done|done|]. rewrite E6.
  destruct (Hread RTC_REG_YEAR y h6) as (h7 & E7 & S7); [member|done|done|]. by rewrite E7.
Qed.

End spec.

(** A clock that stands still. *)
Record StoppedClock := mkClock { ck_selected : Z; ck_registers : list Z }.

#[export] Instance StoppedClock_ports : PortIO StoppedClock := {|
  port_in _ port h :=
    (if port =? 0x71 then default 0 (ck_registers h !! Z.to_nat (ck_selected h mod 128)) mod 256 else 0, h);
  port_out _ port v h := if port =? 0x70 then mkClock v (ck_registers h) else h;
|}.

#[export] Program Instance StoppedClock_clock : ClockHost StoppedClock := {|
  clock_now h r := default 0 (ck_registers h !! Z.to_nat (r mod 128)) mod 256;
|}.
Next Obligation. intros. apply Z.mod_pos_bound. lia. Qed.
Next Obligation.
  intros h r Hr. eexists. simpl. do 2 f_equal. by replace ((128 + r) mod 128) with (r mod 128) by zdiv.
Qed.

(** 31 December, 23:59:58. *)
Example stopped_clock_time :
  (RTC_get_time (mkClock 0 [0x58; 0; 0x59; 0; 0x23; 0; 4; 0x31; 0x12; 0x20])).1 = mkTime 58 59 23 31 4 12 20.
Proof. by vm_compute. Qed.
