(* ===== verification/Rtl8139.v ===== *)
(** * The RTL8139 network card

    kernel/devices/ethernet/rtl8139.cpp: the driver sets the card up through its registers,
    walks over the received packets in a ring that the card writes, and copies frames to the
    four transmit buffers in turn. The card and its memory are hardware; [NicHost] states what
    the data sheet says of them. The messages of the driver to the log are left out. *)
From S2P Require Import Prelude Clib Ports Pci PciNames Logger Files.

Definition RTL8139_VENDOR_ID : Z := 0x10EC.
Definition RTL8139_DEVICE_ID : Z := 0x8139.
Definition NUMBER_TX_BUFFERS : Z := 4.
Definition MAX_TX_BUFFER_SIZE : Z := 0x700.
Definition MAX_RX_BUFFER_SIZE : Z := 8192 + 1536 + 16.
Definition PORT_RX_BUF : Z := 0x30.
Definition PORT_CHIP_CMD : Z := 0x37.
Definition PORT_RX_BUF_PTR : Z := 0x38.
Definition PORT_INTR_MASK : Z := 0x3C.
Definition PORT_INTR_STATUS : Z := 0x3E.
Definition PORT_RX_CONFIG : Z := 0x44.
Definition PORT_CONFIG1 : Z := 0x52.
Definition COMMAND_BUFFER_EMPTY : Z := Bit 0.
Definition COMMAND_TX_ENABLE : Z := Bit 2.
Definition COMMAND_RX_ENABLE : Z := Bit 3.
Definition COMMAND_RESET : Z := Bit 4.
Definition INTERRUPT_MASK_RX_OK : Z := Bit 0.
Definition INTERRUPT_MASK_TX_OK : Z := Bit 2.
Definition INTERRUPT_STATUS_RX_OK : Z := Bit 0.
Definition INTERRUPT_STATUS_TX_OK : Z := Bit 2.
Definition RX_CONFIG_ACCEPT_PHYSICAL_ADDRESS_PACKETS : Z := Bit 0.
Definition RX_CONFIG_ACCEPT_PHYSICAL_MATCH_PACKETS : Z := Bit 1.
Definition RX_CONFIG_ACCEPT_MULTICAST_PACKETS : Z := Bit 2.
Definition RX_CONFIG_ACCEPT_BROADCAST_PACKETS : Z := Bit 3.
Definition RX_CONFIG_WRAP : Z := Bit 7.
Definition RX_CONFIG_MAX_DMA_BURST_SIZE_256 : Z := Z.shiftl 4 8.
Definition RX_PACKET_STATUS_ROK : Z := Bit 0.
Definition TX_STATUS_TOK : Z := Bit 15.
Definition TSD_array : list Z := [0x10; 0x14; 0x18; 0x1C].
Definition TSAD_array : list Z := [0x20; 0x24; 0x28; 0x2C].
Definition RX_READ_POINTER_MASK : Z := u32 (Z.lnot 3).
Definition RX_PAD : Z := 0x10.
Definition RX_PACKET_HEADER_SIZE : Z := 4.
Definition PAGE_READWRITE_CONTAGIOUS : Z := Z.lor 2 8.

(** What the driver uses of the kernel: allocated memory that lies contiguously for the card
    as well, and its bytes. *)
Class DriverServices (H : Type) := {
  valloc : Z -> Z -> H -> Z * H;
  virtual_to_physical_address : Z -> H -> Z;
  load8 : Z -> H -> Z;
  store8 : Z -> Z -> H -> H;
}.

(** The handlers of interrupts and the lines that are open, to which the driver adds its own
    handler for a line. *)
Class InterruptTable (T : Type) := {
  register_hardware_interrupt_handler : Z -> T -> exec T;
}.

(** [m_rx_ports_semaphore] is the count of the semaphore; below zero threads wait. *)
Record RTL8139 := mkRTL {
  rt_pci : PCIDevice;
  m_ports : Z;
  m_mac : list Z;
  m_current_tx_buffer : Z;
  m_current_rx_pointer : Z;
  m_tx_buffers : list Z;
  m_rx_buffer : Z;
  m_rx_ports_semaphore : Z;
}.

Definition set_tx_buffer (i : Z) (n : RTL8139) : RTL8139 :=
  mkRTL (rt_pci n) (m_ports n) (m_mac n) i (m_current_rx_pointer n) (m_tx_buffers n) (m_rx_buffer n) (m_rx_ports_semaphore n).
Definition set_rx_pointer (p : Z) (n : RTL8139) : RTL8139 :=
  mkRTL (rt_pci n) (m_ports n) (m_mac n) (m_current_tx_buffer n) p (m_tx_buffers n) (m_rx_buffer n) (m_rx_ports_semaphore n).
Definition set_tx_buffers (l : list Z) (n : RTL8139) : RTL8139 :=
  mkRTL (rt_pci n) (m_ports n) (m_mac n) (m_current_tx_buffer n) (m_current_rx_pointer n) l (m_rx_buffer n) (m_rx_ports_semaphore n).
Definition set_rx_buffer (a : Z) (n : RTL8139) : RTL8139 :=
  mkRTL (rt_pci n) (m_ports n) (m_mac n) (m_current_tx_buffer n) (m_current_rx_pointer n) (m_tx_buffers n) a (m_rx_ports_semaphore n).
Definition set_semaphore (c : Z) (n : RTL8139) : RTL8139 :=
  mkRTL (rt_pci n) (m_ports n) (m_mac n) (m_current_tx_buffer n) (m_current_rx_pointer n) (m_tx_buffers n) (m_rx_buffer n) c.

Section driver.
Context {H : Type} `{PortIO H} `{DriverServices H}.
Implicit Types (n : RTL8139) (h : H).

Definition RTL8139_write_register8 (ports address value : Z) h : H := out8 (ports + address) value h.
Definition RTL8139_write_register16 (ports address value : Z) h : H := out16 (ports + address) value h.
Definition RTL8139_write_register32 (ports address value : Z) h : H := out32 (ports + address) value h.
Definition RTL8139_read_register8 (ports address : Z) h : Z * H := in8 (ports + address) h.
Definition RTL8139_read_register16 (ports address : Z) h : Z * H := in16 (ports + address) h.
Definition RTL8139_read_register32 (ports address : Z) h : Z * H := in32 (ports + address) h.

(** ** Setting up *)

Definition RTL8139_turn_on n h : H := RTL8139_write_register8 (m_ports n) PORT_CONFIG1 0 h.

(** [fuel] bounds the number of polls: how long the card takes is its own matter. *)
Definition RTL8139_software_rest (fuel : nat) n h : exec H :=
  let h := RTL8139_write_register8 (m_ports n) PORT_CHIP_CMD COMMAND_RESET h in
  while fuel
    (fun h => let '(command, h) := RTL8139_read_register8 (m_ports n) PORT_CHIP_CMD h in
       if truthy (Z.land command COMMAND_RESET) then Done (inl h) else Done (inr h))
    h.

Definition RTL8139_setup_tx n h : exec (RTL8139 * H) :=
  for_ (Z.to_nat NUMBER_TX_BUFFERS) 0
    (fun i '(n, h) =>
       let '(buffer, h) := valloc MAX_TX_BUFFER_SIZE PAGE_READWRITE_CONTAGIOUS h in
       buffers ← aset (m_tx_buffers n) i buffer;
       let n := set_tx_buffers buffers n in
       register ← aget TSAD_array i;
       address ← aget (m_tx_buffers n) i;
       Done (n, RTL8139_write_register32 (m_ports n) register (virtual_to_physical_address address h) h))
    (n, h).

Definition RTL8139_setup_rx n h : RTL8139 * H :=
  let '(buffer, h) := valloc MAX_RX_BUFFER_SIZE PAGE_READWRITE_CONTAGIOUS h in
  let n := set_rx_buffer buffer n in
  let h := RTL8139_write_register32 (m_ports n) PORT_RX_BUF (virtual_to_physical_address buffer h) h in
  (n, RTL8139_write_register32 (m_ports n) PORT_RX_CONFIG
        (Z.lor (Z.lor (Z.lor (Z.lor (Z.lor RX_CONFIG_ACCEPT_PHYSICAL_MATCH_PACKETS RX_CONFIG_ACCEPT_PHYSICAL_ADDRESS_PACKETS)
                                    RX_CONFIG_ACCEPT_MULTICAST_PACKETS) RX_CONFIG_ACCEPT_BROADCAST_PACKETS)
                      RX_CONFIG_WRAP) RX_CONFIG_MAX_DMA_BURST_SIZE_256) h).

Definition RTL8139_start n h : H :=
  let h := RTL8139_write_register8 (m_ports n) PORT_CHIP_CMD (Z.lor COMMAND_RX_ENABLE COMMAND_TX_ENABLE) h in
  RTL8139_write_register16 (m_ports n) PORT_INTR_MASK (Z.lor INTERRUPT_MASK_RX_OK INTERRUPT_MASK_TX_OK) h.

Definition RTL8139_read_mac (ports : Z) h : list Z * H :=
  let '(mac1, h) := RTL8139_read_register32 ports 0 h in
  let '(mac2, h) := RTL8139_read_register32 ports 4 h in
  ([Z.land mac1 0xFF; Z.land (Z.shiftr mac1 8) 0xFF; Z.land (Z.shiftr mac1 16) 0xFF;
    Z.land (Z.shiftr mac1 24) 0xFF; Z.land mac2 0xFF; Z.land (Z.shiftr mac2 8) 0xFF], h).

Definition RTL8139_mac n : list Z := m_mac n.

(** The card becomes the [instance] that the interrupt handler uses; there is one at most. *)
Definition RTL8139_new `{IT : InterruptTable T} (fuel : nat) (device : PCIDevice) (instance : option RTL8139) h (t : T) :
    exec (RTL8139 * H * T) :=
  let '(bar, h) := GenericPCIDevice_BAR0 device h in
  let ports := PCIBaseAddressRegister_io_address bar in
  let '(mac, h) := RTL8139_read_mac ports h in
  let n := mkRTL device ports mac 0 0 (replicate (Z.to_nat NUMBER_TX_BUFFERS) 0) 0 4 in
  _ ← ASSERT (negb (not_null instance));
  let h := PCIDevice_enable_bus_mastering device h in
  let h := PCIDevice_enable_interrupts device h in
  let h := RTL8139_turn_on n h in
  h ← RTL8139_software_rest fuel n h;
  let h := RTL8139_start n h in
  '(n, h) ← RTL8139_setup_tx n h;
  let '(n, h) := RTL8139_setup_rx n h in
  let '(line, h) := GenericPCIDevice_interrupt_line device h in
  t ← register_hardware_interrupt_handler line t;
  Done (n, h, t).

(** ** Receiving *)

Definition RTL8139_is_packet_ok (status : Z) : bool :=
  if truthy (Z.land status RX_PACKET_STATUS_ROK) then true else false.

Definition load16 (address : Z) h : Z := load8 address h + 256 * load8 (address + 1) h.

Fixpoint load_bytes (count : nat) (address : Z) h : list Z :=
  match count with O => [] | S count => load8 address h :: load_bytes count (address + 1) h end.

(** The pointer behind a packet of [size] bytes. *)
Definition next_rx_pointer (pointer size : Z) : Z :=
  let pointer := Z.land (u32 (pointer + size + RX_PACKET_HEADER_SIZE + 3)) RX_READ_POINTER_MASK in
  if pointer >? MAX_RX_BUFFER_SIZE then pointer - MAX_RX_BUFFER_SIZE else pointer.

(** One turn for every packet; [W] is the state of the network above, which
    [handle_received_ethernet_frame] hands the frame to. *)
Definition RTL8139_handle_rx {W} (handle_received_ethernet_frame : list Z -> W -> exec W) (fuel : nat) n h (w : W)
    : exec (RTL8139 * H * W) :=
  while fuel
    (fun '(n, h, w) =>
       let '(command, h) := RTL8139_read_register8 (m_ports n) PORT_CHIP_CMD h in
       if negb (truthy (Z.land command COMMAND_BUFFER_EMPTY)) then
         let received_packet := m_rx_buffer n + m_current_rx_pointer n in
         let status := load16 received_packet h in
         let size := load16 (received_packet + 2) h in
         w ← (if RTL8139_is_packet_ok status && truthy size then
                handle_received_ethernet_frame (load_bytes (Z.to_nat (u16 (size - 4))) (received_packet + 4) h) w
              else Done w);
         let n := set_rx_pointer (next_rx_pointer (m_current_rx_pointer n) size) n in
         let h := RTL8139_write_register16 (m_ports n) PORT_RX_BUF_PTR (m_current_rx_pointer n - RX_PAD) h in
         Done (inl (n, h, w))
       else Done (inr (n, h, w)))
    (n, h, w).

(** Does nothing yet. *)
Definition RTL8139_handle_tx (h : H) : H := h.

Definition RTL8139_rx_tx_handler {W} (handle_received_ethernet_frame : list Z -> W -> exec W) (fuel : nat) n h (w : W)
    : exec (RTL8139 * H * W) :=
  let '(status, h) := RTL8139_read_register16 (m_ports n) PORT_INTR_STATUS h in
  let h := if truthy (Z.land status INTERRUPT_STATUS_TX_OK) then RTL8139_handle_tx h else h in
  '(n, h, w) ← (if truthy (Z.land status INTERRUPT_STATUS_RX_OK) then
                  RTL8139_handle_rx handle_received_ethernet_frame fuel n h w
                else Done (n, h, w));
  Done (n, RTL8139_write_register16 (m_ports n) PORT_INTR_STATUS status h, w).

Definition irq_handler {W} (handle_received_ethernet_frame : list Z -> W -> exec W) (fuel : nat)
    (instance : option RTL8139) h (w : W) : exec (option RTL8139 * H * W) :=
  _ ← ASSERT (not_null instance);
  match instance with
  | None => Panic
  | Some n =>
      '(n, h, w) ← RTL8139_rx_tx_handler handle_received_ethernet_frame fuel n h w;
      Done (Some n, h, w)
  end.

(** ** Sending *)

Fixpoint store_bytes (data : list Z) (address : Z) h : H :=
  match data with [] => h | x :: data => store_bytes data (address + 1) (store8 address x h) end.

(** When the semaphore has been acquired. *)
Definition RTL8139_send_acquired (fuel : nat) (data : list Z) n h : exec (RTL8139 * H) :=
  if alen data >? MAX_TX_BUFFER_SIZE then Done (n, h)
  else
    let used_tx_buffer := m_current_tx_buffer n in
    let n := set_tx_buffer (u8 ((m_current_tx_buffer n + 1) mod NUMBER_TX_BUFFERS)) n in
    buffer ← aget (m_tx_buffers n) used_tx_buffer;
    let h := store_bytes data buffer h in
    register ← aget TSD_array used_tx_buffer;
    let h := RTL8139_write_register32 (m_ports n) register (alen data) h in
    h ← while fuel
      (fun h => let '(status, h) := RTL8139_read_register32 (m_ports n) register h in
         if negb (truthy (Z.land status TX_STATUS_TOK)) then Done (inl h) else Done (inr h))
      h;
    Done (set_semaphore (m_rx_ports_semaphore n + 1) n, h).

(** [Blocks] when the semaphore makes the thread wait. *)
Definition RTL8139_send_ethernet_frame (fuel : nat) (data : list Z) n h : exec (outcome RTL8139 (RTL8139 * H)) :=
  let n := set_semaphore (m_rx_ports_semaphore n - 1) n in
  if m_rx_ports_semaphore n <? 0 then Done (Blocks n)
  else r ← RTL8139_send_acquired fuel data n h; Done (Returns r).

(** ** Finding the card *)

Definition name_line (label : string) (name : string) : list log_item := [LogString (literal label); LogString (literal name)].
Definition hex_line (label : string) (v size : Z) : list log_item := [LogString (literal label); LogHex v size].

(** The messages about the card, a list of items each, and the registers that they show. *)
Definition device_report (device : PCIDevice) h : list (list log_item) * H :=
  let '(class, h) := PCIDevice_device_class device h in
  let '(subclass, h) := PCIDevice_device_subclass device h in
  let '(vendor, h) := PCIDevice_vendor_id device h in
  let '(vendor', h) := PCIDevice_vendor_id device h in
  let '(id, h) := PCIDevice_device_id device h in
  let '(vendor'', h) := PCIDevice_vendor_id device h in
  let '(id', h) := PCIDevice_device_id device h in
  let '(command, h) := PCIDevice_command device h in
  let '(status, h) := PCIDevice_status device h in
  ([[LogString (literal "----------------------------------------------------")];
    name_line "Class: " (PCI_id_to_string class subclass);
    name_line "Vendor: " (PCI_vendor_to_string vendor);
    name_line "Device: " (PCI_device_id_to_string vendor' id);
    hex_line "Vendor ID: " vendor'' 2;
    hex_line "Device ID: " id' 2;
    hex_line "Bus Number     : " (PCIDevice_bus device) 1;
    hex_line "Slot Number    : " (PCIDevice_slot device) 1;
    hex_line "Function Number: " (PCIDevice_function device) 1;
    hex_line "PCI_COMMAND    : " command 2;
    hex_line "PCI_STATUS     : " status 2], h).

(** The state that the callback changes: the card that was found, the handlers of interrupts,
    the messages, and the rest [W]. [start_network] stands for the network that is made for
    the card and started. *)
Record Enumeration (T W : Type) := mkEnum {
  en_instance : option RTL8139;
  en_table : T;
  en_log : list (list log_item);
  en_rest : W;
}.
#[global] Arguments mkEnum {T W}.
#[global] Arguments en_instance {T W}.
#[global] Arguments en_table {T W}.
#[global] Arguments en_log {T W}.
#[global] Arguments en_rest {T W}.

Definition PCI_enumerate_callback `{IT : InterruptTable T} {W} (fuel : nat)
    (start_network : RTL8139 -> H -> T -> W -> exec (H * T * W)) (device : PCIDevice) (s : H * Enumeration T W) :
    exec (H * Enumeration T W) :=
  let '(h, e) := s in
  let '(vendor, h) := PCIDevice_vendor_id device h in
  if vendor =? RTL8139_VENDOR_ID then
    let '(id, h) := PCIDevice_device_id device h in
    if id =? RTL8139_DEVICE_ID then
      let '(report, h) := device_report device h in
      '(eth0, h, t) ← RTL8139_new fuel device (en_instance e) h (en_table e);
      '(h, t, w) ← start_network eth0 h t (en_rest e);
      Done (h, mkEnum (Some eth0) t (en_log e ++ report) w)
    else Done (h, e)
  else Done (h, e).

Definition PCI_enumerate_pci_devices `{IT : InterruptTable T} {W} (depth fuel : nat)
    (start_network : RTL8139 -> H -> T -> W -> exec (H * T * W)) (s : H * Enumeration T W) : exec (H * Enumeration T W) :=
  PCI_scan_pci depth (PCI_enumerate_callback fuel start_network) s.

End driver.

(** ** The card comes up

    The registers of a card lie outside of the configuration mechanism, memory is not device
    registers, and a reset is done after some reads of the command register. *)

(** Configurations that differ in command and status registers only. *)
Definition same_setup {H} `{PciHost H} (h h' : H) : Prop :=
  forall d o, function_ok d -> 0 <= o < 256 -> ~ (4 <= o < 8) -> config h d o = config h' d o.

Definition device_port (p : Z) : Prop := 0xD00 <= p < 2 ^ 16.

Class CardHost (H : Type) `{PciHost H} `{DriverServices H} := {
  reset_wait : H -> nat;
  reset_bound : nat;
  device_read w p h : device_port p -> same_setup h (port_in w p h).2;
  device_write w p v h : device_port p -> same_setup h (port_out w p v h);
  valloc_setup size f h : same_setup h (valloc size f h).2;
  reset_started p h : device_port p -> (reset_wait (port_out 1 p COMMAND_RESET h) <= reset_bound)%nat;
  reset_poll p h : device_port p -> let r := port_in 1 p h in
    Z.testbit r.1 4 = true -> (reset_wait r.2 < reset_wait h)%nat;
}.

#[export] Instance same_setup_equivalence {H} `{PciHost H} : Equivalence same_setup.
Proof.
  split; [done|intros h h' E d o Hd Ho Hr; by rewrite E|].
  intros h h' h'' E E' d o Hd Ho Hr. by rewrite E, E'.
Qed.

Lemma bit_truthy v i : 0 <= i -> truthy (Z.land v (Bit i)) = Z.testbit v i.
Proof.
  intros Hi. unfold truthy, Bit. rewrite Z.shiftl_1_l.
  destruct (Z.testbit v i) eqn:E.
  - destruct (Z.eqb_spec (Z.land v (2 ^ i)) 0) as [E0|]; [|done].
    assert (Ht : Z.testbit (Z.land v (2 ^ i)) i = true) by (by rewrite Z.land_spec, E, Z.pow2_bits_true).
    by rewrite E0, Z.bits_0 in Ht.
  - replace (Z.land v (2 ^ i)) with 0; [done|]. symmetry. apply Z.bits_inj'. intros j Hj.
    rewrite Z.land_spec, Z.bits_0, Z.pow2_bits_eqb by done.
    destruct (Z.eqb_spec i j) as [->|]; [by rewrite E|apply andb_false_r].
Qed.

Section setup.
Context {H : Type} `{CardHost H}.
Implicit Types (h : H) (d : PCIDevice).

(** A register of the configuration. *)
Lemma equiv_same_setup h h' : h' ≡ h -> same_setup h h'.
Proof. intros E d o _ _ _. by rewrite E. Qed.

Lemma same_setup_ids h h' : same_setup h h' -> same_ids h h'.
Proof. intros E d o Hd Ho Hr. apply E; [done|done|]. unfold scan_register in Hr. revert Hr. case_test; done || lia. Qed.

Lemma same_setup_config8 h h' d o : same_setup h h' -> function_ok d -> 8 <= o < 256 -> config8 h' d o = config8 h d o.
Proof. intros E Hd Ho. symmetry. apply E; [done|lia..]. Qed.

Lemma same_setup_config32 h h' d o : same_setup h h' -> function_ok d -> 8 <= o < 253 -> config32 h' d o = config32 h d o.
Proof. intros E Hd Ho. apply le_word_ext. intros i Hi. symmetry. apply E; [done|lia..]. Qed.

Lemma same_setup_config16 h h' d o : same_setup h h' -> function_ok d -> 0 <= o < 3 -> config16 h' d o = config16 h d o.
Proof. intros E Hd Ho. apply le_word_ext. intros i Hi. symmetry. apply E; [done|lia..]. Qed.

Lemma read8_setup d o h :
  function_ok d -> 0 <= o < 256 -> exists h', PCIDevice_read_config_word8 d o h = (config8 h d o, h') /\ same_setup h h'.
Proof. intros Hd Ho. destruct (read_config_word8_spec d o h Hd Ho) as (h' & E & Eh). exists h'. split; [done|]. by apply equiv_same_setup. Qed.

Lemma read16_setup d o h :
  function_ok d -> 0 <= o < 256 -> o mod 2 = 0 ->
  exists h', PCIDevice_read_config_word16 d o h = (config16 h d o, h') /\ same_setup h h'.
Proof. intros Hd Ho Hm. destruct (read_config_word16_spec d o h Hd Ho Hm) as (h' & E & Eh). exists h'. split; [done|]. by apply equiv_same_setup. Qed.

Lemma bar0_setup d h :
  function_ok d ->
  exists h', GenericPCIDevice_BAR0 d h = (PCIBaseAddressRegister_new (config32 h d 0x10), h') /\ same_setup h h'.
Proof.
  intros Hd. unfold GenericPCIDevice_BAR0, GenericPCIDevice_bar.
  destruct (read_config_word32_spec d PCI_PORT_BAR0 h Hd) as (h' & E & Eh); [by unfold PCI_PORT_BAR0|].
  rewrite E. exists h'. split; [done|]. by apply equiv_same_setup.
Qed.

Lemma command_setup c d h : function_ok d -> same_setup h (change_command c d h).
Proof.
  intros Hd d' o Hd' Ho Hne. symmetry. apply (change_command_spec c d h Hd); [done|done|]. intros [_ ?]. lia.
Qed.

(** The registers of the card. *)
Definition card_ports (ports : Z) : Prop := 0xD00 <= ports < 2 ^ 16 - 256.

Lemma card_port ports a : card_ports ports -> 0 <= a < 256 -> u16 (ports + a) = ports + a /\ device_port (ports + a).
Proof. unfold card_ports, device_port. intros Hp Ha. rewrite u16_small by lia. lia. Qed.

Lemma register_setup w ports a v h : card_ports ports -> 0 <= a < 256 -> same_setup h (port_out w (u16 (ports + a)) v h).
Proof. intros Hp Ha. destruct (card_port ports a Hp Ha) as [-> Hd]. by apply device_write. Qed.

Lemma mac_setup ports h : card_ports ports -> exists mac h', RTL8139_read_mac ports h = (mac, h') /\ same_setup h h'.
Proof.
  intros Hp. unfold RTL8139_read_mac, RTL8139_read_register32, in32.
  destruct (card_port ports 0 Hp) as [-> Hd0]; [lia|]. destruct (card_port ports 4 Hp) as [-> Hd4]; [lia|].
  pose proof (device_read 4 _ h Hd0) as S1. destruct (port_in 4 _ h) as [v1 h1].
  pose proof (device_read 4 _ h1 Hd4) as S2. destruct (port_in 4 _ h1) as [v2 h2].
  eexists _, h2. split; [done|]. by etrans.
Qed.

(** The wait for the end of the reset. *)
Lemma reset_setup fuel n h :
  card_ports (m_ports n) -> (reset_bound < fuel)%nat -> exists h', RTL8139_software_rest fuel n h = Done h' /\ same_setup h h'.
Proof.
  intros Hp Hf. unfold RTL8139_software_rest, RTL8139_write_register8, RTL8139_read_register8, out8, in8, PORT_CHIP_CMD.
  destruct (card_port (m_ports n) 0x37 Hp) as [-> Hd]; [lia|]. change (u8 COMMAND_RESET) with COMMAND_RESET.
  apply (while_inv (same_setup h) (same_setup h) reset_wait); [by apply device_write| |].
  - pose proof (reset_started _ h Hd). lia.
  - intros h1 S1. pose proof (device_read 1 _ h1 Hd) as S2. pose proof (reset_poll _ h1 Hd) as Hw. cbv zeta in Hw.
    destruct (port_in 1 _ h1) as [v h2]. cbn [fst snd] in S2, Hw. unfold COMMAND_RESET. rewrite bit_truthy by lia.
    assert (Et : Z.testbit (u8 v) 4 = Z.testbit v 4) by (unfold u8; change 256 with (2 ^ 8); by rewrite Z.mod_pow2_bits_low by lia).
    rewrite Et. destruct (Z.testbit v 4); [left|right]; exists h2; (split; [done|]).
    + split; [by etrans|by apply Hw].
    + by etrans.
Qed.

Lemma tx_setup n h :
  card_ports (m_ports n) -> alen (m_tx_buffers n) = NUMBER_TX_BUFFERS ->
  exists n' h', RTL8139_setup_tx n h = Done (n', h') /\ same_setup h h' /\ m_ports n' = m_ports n /\ rt_pci n' = rt_pci n.
Proof.
  intros Hp Hl. unfold RTL8139_setup_tx.
  destruct (for_inv (fun _ s => same_setup h s.2 /\ m_ports s.1 = m_ports n /\ rt_pci s.1 = rt_pci n /\ alen (m_tx_buffers s.1) = 4)
    (fun i '(n, h) =>
       let '(buffer, h) := valloc MAX_TX_BUFFER_SIZE PAGE_READWRITE_CONTAGIOUS h in
       buffers ← aset (m_tx_buffers n) i buffer;
       let n := set_tx_buffers buffers n in
       register ← aget TSAD_array i;
       address ← aget (m_tx_buffers n) i;
       Done (n, RTL8139_write_register32 (m_ports n) register (virtual_to_physical_address address h) h))
    (Z.to_nat NUMBER_TX_BUFFERS) 0 (n, h)) as ([n' h'] & E & S & Ep & Er & _).
  - by repeat split.
  - intros i [n1 h1] Hi (S1 & Ep1 & Er1 & Hl1). change (Z.of_nat (Z.to_nat NUMBER_TX_BUFFERS)) with 4 in Hi. cbn [fst snd] in *.
    pose proof (valloc_setup MAX_TX_BUFFER_SIZE PAGE_READWRITE_CONTAGIOUS h1) as S2.
    destruct (valloc _ _ h1) as [buffer h2]. cbn [snd] in S2. rewrite aset_Done by lia. cbn [mbind exec_bind].
    destruct (aget_in_range TSAD_array i) as (r & Er' & Hr); [exact Hi|]. rewrite Er'. cbn [mbind exec_bind m_tx_buffers set_tx_buffers m_ports].
    destruct (aget_in_range (<[Z.to_nat i:=buffer]> (m_tx_buffers n1)) i) as (x & -> & _); [rewrite alen_insert; lia|].
    cbn [mbind exec_bind]. eexists (_, _). split; [done|]. cbn [fst snd m_ports rt_pci m_tx_buffers set_tx_buffers].
    rewrite alen_insert. split; [|done]. rewrite S1, S2. apply register_setup; [by rewrite Ep1|].
    assert (Hin : r ∈ TSAD_array) by by eapply list_elem_of_lookup_2. revert Hin. unfold TSAD_array.
    rewrite !elem_of_cons, elem_of_nil. lia.
  - by exists n', h'.
Qed.

Lemma rx_setup n h :
  card_ports (m_ports n) ->
  exists n' h', RTL8139_setup_rx n h = (n', h') /\ same_setup h h' /\ m_ports n' = m_ports n /\ rt_pci n' = rt_pci n.
Proof.
  intros Hp. unfold RTL8139_setup_rx. pose proof (valloc_setup MAX_RX_BUFFER_SIZE PAGE_READWRITE_CONTAGIOUS h) as S1.
  destruct (valloc _ _ h) as [buffer h1]. cbn [snd] in S1. eexists _, _. split; [done|]. split; [|done].
  rewrite S1. etrans; apply register_setup; done.
Qed.

(** The driver comes up: the card stays where it is, and its line gets the handler. *)
Lemma new_setup `{InterruptTable T} fuel d h (t : T) :
  function_ok d -> card_ports (PCIBaseAddressRegister_io_address (PCIBaseAddressRegister_new (config32 h d 0x10))) ->
  (reset_bound < fuel)%nat ->
  exists n h', same_setup h h' /\ rt_pci n = d /\
    RTL8139_new fuel d None h t = (t ← register_hardware_interrupt_handler (config8 h d 0x3C) t; Done (n, h', t)).
Proof.
  intros Hd Hp Hf. unfold RTL8139_new. destruct (bar0_setup d h Hd) as (h1 & -> & S1).
  set (ports := PCIBaseAddressRegister_io_address _) in *.
  destruct (mac_setup ports h1 Hp) as (mac & h2 & -> & S2). cbn [not_null negb ASSERT mbind exec_bind].
  set (n0 := mkRTL d ports mac 0 0 _ 0 4).
  pose proof (command_setup EnableBusMastering d h2 Hd) as S3. cbn [change_command] in S3.
  set (h3 := PCIDevice_enable_bus_mastering d h2) in *.
  pose proof (command_setup EnableInterrupts d h3 Hd) as S4. cbn [change_command] in S4.
  set (h4 := PCIDevice_enable_interrupts d h3) in *.
  assert (S5 : same_setup h4 (RTL8139_turn_on n0 h4)) by (by apply register_setup).
  destruct (reset_setup fuel n0 (RTL8139_turn_on n0 h4) Hp Hf) as (h6 & -> & S6). cbn [mbind exec_bind].
  assert (S7 : same_setup h6 (RTL8139_start n0 h6)) by (etrans; apply register_setup; done).
  destruct (tx_setup n0 (RTL8139_start n0 h6) Hp) as (n1 & h8 & -> & S8 & Ep1 & Er1); [done|]. cbn [mbind exec_bind].
  destruct (rx_setup n1 h8) as (n2 & h9 & -> & S9 & Ep2 & Er2); [by rewrite Ep1|].
  unfold GenericPCIDevice_interrupt_line. destruct (read8_setup d PCI_PORT_INTERRUPT_LINE h9 Hd) as (h10 & -> & S10); [done|].
  assert (S : same_setup h h9) by (by rewrite S1, S2, S3, S4, S5, S6, S7, S8).
  exists n2, h10. split; [by rewrite S|]. split; [by rewrite Er2|].
  change PCI_PORT_INTERRUPT_LINE with 0x3C. by rewrite (same_setup_config8 h h9) by done.
Qed.

Lemma report_setup d h : function_ok d -> exists report h', device_report d h = (report, h') /\ same_setup h h'.
Proof.
  intros Hd. unfold device_report, PCIDevice_device_class, PCIDevice_device_subclass, PCIDevice_vendor_id, PCIDevice_device_id,
    PCIDevice_command, PCIDevice_status.
  destruct (read8_setup d PCI_PORT_CLASS h Hd) as (h1 & -> & S1); [done|].
  destruct (read8_setup d PCI_PORT_SUBCLASS h1 Hd) as (h2 & -> & S2); [done|].
  destruct (read16_setup d PCI_PORT_VENDOR_ID h2 Hd) as (h3 & -> & S3); [done..|].
  destruct (read16_setup d PCI_PORT_VENDOR_ID h3 Hd) as (h4 & -> & S4); [done..|].
  destruct (read16_setup d PCI_PORT_DEVICE_ID h4 Hd) as (h5 & -> & S5); [done..|].
  destruct (read16_setup d PCI_PORT_VENDOR_ID h5 Hd) as (h6 & -> & S6); [done..|].
  destruct (read16_setup d PCI_PORT_DEVICE_ID h6 Hd) as (h7 & -> & S7); [done..|].
  destruct (read16_setup d PCI_PORT_COMMAND h7 Hd) as (h8 & -> & S8); [done..|].
  destruct (read16_setup d PCI_PORT_STATUS h8 Hd) as (h9 & -> & S9); [done..|].
  eexists _, h9. split; [done|]. by rewrite S1, S2, S3, S4, S5, S6, S7, S8.
Qed.

(** ** The search for the card *)

Definition is_card h d : bool := (config16 h d 0 =? RTL8139_VENDOR_ID) && (config16 h d 2 =? RTL8139_DEVICE_ID).

(** The cards that the scan comes to. *)
Definition cards h : list PCIDevice := filter (fun d => is_card h d = true) (pci_functions h).

Section search.
Context {T W : Type} `{IT : InterruptTable T}.
Variables (fuel : nat) (start_network : RTL8139 -> H -> T -> W -> exec (H * T * W)).
Implicit Types (e : Enumeration T W).

Lemma callback_other d h e :
  function_ok d -> is_card h d = false ->
  exists h', PCI_enumerate_callback fuel start_network d (h, e) = Done (h', e) /\ same_setup h h'.
Proof.
  intros Hd Hc. unfold PCI_enumerate_callback, PCIDevice_vendor_id, PCIDevice_device_id.
  destruct (read16_setup d PCI_PORT_VENDOR_ID h Hd) as (h1 & -> & S1); [done..|]. unfold is_card in Hc.
  change PCI_PORT_VENDOR_ID with 0. destruct (_ =? RTL8139_VENDOR_ID); [|by exists h1].
  destruct (read16_setup d PCI_PORT_DEVICE_ID h1 Hd) as (h2 & -> & S2); [done..|]. change PCI_PORT_DEVICE_ID with 2.
  rewrite (same_setup_config16 h h1) by done. simpl in Hc. rewrite Hc. exists h2. split; [done|]. by rewrite S1.
Qed.

Lemma callback_card d h e :
  function_ok d -> is_card h d = true -> en_instance e = None ->
  card_ports (PCIBaseAddressRegister_io_address (PCIBaseAddressRegister_new (config32 h d 0x10))) -> (reset_bound < fuel)%nat ->
  exists n h' report, same_setup h h' /\ rt_pci n = d /\
    PCI_enumerate_callback fuel start_network d (h, e) =
      (t ← register_hardware_interrupt_handler (config8 h d 0x3C) (en_table e);
       '(h, t, w) ← start_network n h' t (en_rest e);
       Done (h, mkEnum (Some n) t (en_log e ++ report) w)).
Proof.
  intros Hd Hc He Hp Hf. unfold PCI_enumerate_callback, PCIDevice_vendor_id, PCIDevice_device_id.
  unfold is_card in Hc. apply andb_true_iff in Hc as [Hv Hi].
  destruct (read16_setup d PCI_PORT_VENDOR_ID h Hd) as (h1 & -> & S1); [done..|].
  change PCI_PORT_VENDOR_ID with 0. rewrite Hv.
  destruct (read16_setup d PCI_PORT_DEVICE_ID h1 Hd) as (h2 & -> & S2); [done..|]. change PCI_PORT_DEVICE_ID with 2.
  rewrite (same_setup_config16 h h1), Hi by done.
  destruct (report_setup d h2 Hd) as (report & h3 & -> & S3).
  assert (S : same_setup h h3) by (by rewrite S1, S2).
  destruct (new_setup fuel d h3 (en_table e) Hd) as (n & h4 & S4 & En & E); [by rewrite (same_setup_config32 h h3)|done|].
  exists n, h4, report. split; [by rewrite S|]. split; [done|]. rewrite He, E, (same_setup_config8 h h3) by done.
  by destruct (register_hardware_interrupt_handler (config8 h d 60) (en_table e)).
Qed.

(** What the search has found: nothing, or a card that has been set up and given to the
    network. *)
Definition card_found h (t0 : T) (w0 : W) (ds : list PCIDevice) e : Prop :=
  match ds with
  | [] => e = mkEnum None t0 [] w0
  | d :: _ => exists n h1 h2 t1, rt_pci n = d /\ same_setup h h1 /\
      register_hardware_interrupt_handler (config8 h d 0x3C) t0 = Done t1 /\
      en_instance e = Some n /\ start_network n h1 t1 w0 = Done (h2, en_table e, en_rest e)
  end.

Definition usable_card h (t0 : T) d : Prop :=
  card_ports (PCIBaseAddressRegister_io_address (PCIBaseAddressRegister_new (config32 h d 0x10))) /\
  exists t, register_hardware_interrupt_handler (config8 h d 0x3C) t0 = Done t.

Lemma is_card_setup h h' d : same_setup h h' -> function_ok d -> is_card h' d = is_card h d.
Proof. intros S Hd. unfold is_card. by rewrite !(same_setup_config16 h h') by done. Qed.

(** A machine without the card, or with one. *)
Lemma enumerate_spec depth h (t0 : T) (w0 : W) card :
  cards h = option_list card -> (forall d, card = Some d -> usable_card h t0 d) ->
  (forall n h1 t w, exists h2 t' w', start_network n h1 t w = Done (h2, t', w') /\ same_setup h1 h2) ->
  no_bridges h -> (0 < depth)%nat -> (reset_bound < fuel)%nat ->
  exists h' e, PCI_enumerate_pci_devices depth fuel start_network (h, mkEnum None t0 [] w0) = Done (h', e) /\
    same_setup h h' /\ card_found h t0 w0 (option_list card) e.
Proof.
  intros Hcards Hok Hnet Hnb Hdepth Hfuel.
  destruct (rule_pci (PCI_enumerate_callback fuel start_network) h
    (fun v s => same_setup h s.1 /\ card_found h t0 w0 (filter (fun d => is_card h d = true) v) s.2)) with (fuel := depth)
    (w := (h, mkEnum (W := W) None t0 [] w0)) as ([h' e] & E & S & Hfound).
  - intros v [h1 e] [S _]. by apply same_setup_ids.
  - intros v h1 h2 e [S F] Q. split; [|exact F]. cbn [fst] in *. rewrite S. by apply equiv_same_setup.
  - intros v d rest [h1 e] EL Hd [S F]. cbn [fst snd] in *. rewrite filter_app, filter_cons, filter_nil.
    destruct (is_card h d) eqn:Ec.
    + assert (Hcd : filter (fun d => is_card h d = true) v = [] /\ card = Some d).
      { unfold cards in Hcards. rewrite EL, filter_app, filter_cons, decide_True in Hcards by done.
        destruct card as [c|]; [|by destruct (filter _ v)]. destruct (filter _ v) as [|x [|? ?]]; by simplify_eq/=. }
      destruct Hcd as [Ev Ecard]. rewrite Ev in *. rewrite decide_True by done. cbn [app card_found] in *. subst e.
      destruct (Hok d Ecard) as (Hp & t1 & Et).
      destruct (callback_card d h1 (mkEnum None t0 [] w0)) as (n & h2 & report & S2 & En & ->);
        [done|by rewrite (is_card_setup h)|done|by rewrite (same_setup_config32 h)|done|].
      cbn [en_table en_log en_rest]. rewrite (same_setup_config8 h h1), Et by done. cbn [mbind exec_bind].
      destruct (Hnet n h2 t1 w0) as (h3 & t2 & w2 & E3 & S3). rewrite E3. cbn [mbind exec_bind].
      eexists (_, _). split; [done|]. cbn [fst snd]. split; [by rewrite S, S2|].
      exists n, h2, h3, t1. split; [done|]. split; [by rewrite S|]. done.
    + rewrite decide_False by done. rewrite app_nil_r.
      destruct (callback_other d h1 e Hd) as (h2 & -> & S2); [by rewrite (is_card_setup h)|].
      eexists (_, _). split; [done|]. cbn [fst snd]. split; [by rewrite S|done].
  - done.
  - done.
  - by split.
  - exists h', e. split; [exact E|]. split; [exact S|]. cbn [snd] in Hfound. by rewrite <- Hcards.
Qed.

End search.

End setup.

(** ** The card

    What the data sheet says. With the configuration of [setup_rx] the ring has 8192 bytes:
    a packet that does not fit runs over its end, but the next one starts at the offset modulo
    8192, at a multiple of four. The size of a packet counts four bytes of checksum behind its
    data. The bit 0 of the command register says that the ring is empty; writing the place
    behind the first packet, less 16, to the read pointer gives it back to the card. A
    transmission starts when a size is written to a status register and sends the bytes of
    the buffer of that register; after some reads the register says that it is done. The bit 0
    of the interrupt status says that packets have been received; writing ones clears bits. *)

Definition ring_size : Z := 8192.

Definition packet : Type := Z * list Z.

Definition align4 (o : Z) : Z := (o + 3) / 4 * 4.

(** Where the packet at [o] ends. *)
Definition packet_end (o : Z) (p : packet) : Z := align4 (o + 4 + alen p.2 + 4).

Definition ring_next (o : Z) (p : packet) : Z := packet_end o p mod ring_size.

Definition packet_at (mem : Z -> Z) (o : Z) (p : packet) : Prop :=
  mem o + 256 * mem (o + 1) = p.1 /\ mem (o + 2) + 256 * mem (o + 3) = alen p.2 + 4 /\
  forall i x, p.2 !! i = Some x -> mem (o + 4 + Z.of_nat i) = x.

Fixpoint ring_holds (mem : Z -> Z) (o : Z) (ps : list packet) : Prop :=
  match ps with
  | [] => True
  | p :: ps => packet_at mem o p /\ ring_holds mem (ring_next o p) ps
  end.

Class NicHost (H : Type) `{PortIO H} `{DriverServices H} := {
  nic_ports : Z;
  rx_buffer : Z;
  rx_offset : H -> Z;
  rx_packets : H -> list packet;
  rx_interrupt : H -> bool;
  tx_buffer : Z -> Z;
  tx_sent : H -> list (list Z);
  tx_wait : H -> Z -> nat;
  tx_bound : nat;
  memory_store h a x b : load8 b (store8 a x h) = if b =? a then x else load8 b h;
  memory_store_card h a x : tx_sent (store8 a x h) = tx_sent h;
  nic_ports_range : 0 <= nic_ports < 2 ^ 16 - 256;
  nic_command h :
    exists v h', port_in 1 (nic_ports + 0x37) h = (v, h') /\ 0 <= v < 256 /\
      Z.testbit v 0 = bool_decide (rx_packets h = []) /\
      rx_packets h' = rx_packets h /\ rx_offset h' = rx_offset h /\ forall a, load8 a h' = load8 a h;
  nic_release h p ps :
    rx_packets h = p :: ps ->
    let h' := port_out 2 (nic_ports + 0x38) (u16 (ring_next (rx_offset h) p - 16)) h in
    rx_packets h' = ps /\ rx_offset h' = ring_next (rx_offset h) p /\ forall a, load8 a h' = load8 a h;
  nic_interrupt h :
    exists v h', port_in 2 (nic_ports + 0x3E) h = (v, h') /\ 0 <= v < 2 ^ 16 /\ Z.testbit v 0 = rx_interrupt h /\
      rx_packets h' = rx_packets h /\ rx_offset h' = rx_offset h /\ forall a, load8 a h' = load8 a h;
  nic_acknowledge h v :
    0 <= v < 2 ^ 16 -> let h' := port_out 2 (nic_ports + 0x3E) v h in
    (Z.testbit v 0 = true -> rx_interrupt h' = false) /\
    rx_packets h' = rx_packets h /\ rx_offset h' = rx_offset h /\ forall a, load8 a h' = load8 a h;
  nic_transmit h i size :
    0 <= i < 4 -> 0 <= size < 0x2000 ->
    let h' := port_out 4 (nic_ports + 0x10 + 4 * i) size h in
    tx_sent h' = tx_sent h ++ [load_bytes (Z.to_nat size) (tx_buffer i) h] /\ (tx_wait h' i <= tx_bound)%nat;
  nic_status h i :
    0 <= i < 4 ->
    exists v h', port_in 4 (nic_ports + 0x10 + 4 * i) h = (v, h') /\ 0 <= v < 2 ^ 32 /\
      Z.testbit v 15 = bool_decide (tx_wait h i = 0%nat) /\ tx_wait h' i = pred (tx_wait h i) /\
      tx_sent h' = tx_sent h;
}.

Section card.
Context {H : Type} `{NicHost H}.
Implicit Types (n : RTL8139) (h : H).

(** ** The receive ring *)

Lemma next_rx_pointer_eq o size :
  0 <= o -> 0 <= size -> o + size + 7 < 2 ^ 32 ->
  next_rx_pointer o size =
    let e := align4 (o + 4 + size) in if e >? MAX_RX_BUFFER_SIZE then e - MAX_RX_BUFFER_SIZE else e.
Proof.
  intros Ho Hs Hn. unfold next_rx_pointer, align4, RX_PACKET_HEADER_SIZE, RX_READ_POINTER_MASK.
  assert (E : Z.land (u32 (o + size + 4 + 3)) (u32 (Z.lnot 3)) = (o + 4 + size + 3) / 4 * 4); [|by rewrite E].
  rewrite u32_small by zdiv. change (u32 (Z.lnot 3)) with (Z.land (Z.ones 32) (Z.lnot (Z.ones 2))).
  rewrite Z.land_assoc, Z.land_ones, (Z.mod_small _ (2 ^ 32)), land_lnot_ones by zdiv. zdiv.
Qed.

(** Below the end of the ring the driver and the card agree. *)
Lemma next_rx_pointer_ring o p :
  0 <= o -> packet_end o p < ring_size -> next_rx_pointer o (alen p.2 + 4) = ring_next o p.
Proof.
  intros Ho He. pose proof (alen_nonneg p.2). unfold ring_next, packet_end, ring_size in *.
  assert (o + 4 + alen p.2 + 4 <= align4 (o + 4 + alen p.2 + 4)) by (unfold align4; zdiv).
  rewrite next_rx_pointer_eq by lia. replace (o + 4 + (alen p.2 + 4)) with (o + 4 + alen p.2 + 4) by lia.
  cbv zeta. unfold MAX_RX_BUFFER_SIZE.
  destruct (Z.gtb_spec (align4 (o + 4 + alen p.2 + 4)) (8192 + 1536 + 16)); [lia|].
  by rewrite Z.mod_small by lia.
Qed.

(** A packet that runs over the end of the ring takes the driver to another place than the
    card: it goes on behind the end of the ring. *)
Lemma next_rx_pointer_overrun o p :
  0 <= o < ring_size -> alen p.2 <= 1514 -> ring_size <= packet_end o p ->
  next_rx_pointer o (alen p.2 + 4) = ring_next o p + ring_size.
Proof.
  intros Ho Hp He. pose proof (alen_nonneg p.2). unfold ring_next, packet_end, ring_size in *.
  assert (align4 (o + 4 + alen p.2 + 4) <= o + 4 + alen p.2 + 4 + 3) by (unfold align4; zdiv).
  rewrite next_rx_pointer_eq by lia. replace (o + 4 + (alen p.2 + 4)) with (o + 4 + alen p.2 + 4) by lia.
  cbv zeta. unfold MAX_RX_BUFFER_SIZE.
  destruct (Z.gtb_spec (align4 (o + 4 + alen p.2 + 4)) (8192 + 1536 + 16)); [lia|].
  rewrite Z.mod_eq by lia. assert (align4 (o + 4 + alen p.2 + 4) / 8192 = 1) by zdiv. lia.
Qed.

(** ** Receiving *)

(** The frames of good packets are handed over in order. *)
Fixpoint deliver_all {W} (deliver : list Z -> W -> exec W) (ps : list packet) (w : W) : exec W :=
  match ps with
  | [] => Done w
  | p :: ps => w ← (if Z.testbit p.1 0 then deliver p.2 w else Done w); deliver_all deliver ps w
  end.

Lemma load_bytes_packet (l : list Z) a h :
  (forall i x, l !! i = Some x -> load8 (a + Z.of_nat i) h = x) -> load_bytes (length l) a h = l.
Proof.
  revert a. induction l as [|x l IH]; intros a Hl; [done|]. cbn [load_bytes length].
  rewrite (IH (a + 1)); [|intros i y Hy; rewrite <- (Hl (S i) y Hy); f_equal; lia].
  by rewrite <- (Hl 0%nat x eq_refl), Z.add_0_r.
Qed.

(** The driver reads where the card has its first packet. *)
Definition rx_in_step n h : Prop :=
  m_ports n = nic_ports /\ m_rx_buffer n = rx_buffer /\ m_current_rx_pointer n = rx_offset h /\
  ring_holds (fun o => load8 (rx_buffer + o) h) (rx_offset h) (rx_packets h).

(** All packets, one behind the other, end before the end of the ring. *)
Fixpoint fits (o : Z) (ps : list packet) : Prop :=
  match ps with [] => True | p :: ps => packet_end o p < ring_size /\ fits (packet_end o p) ps end.

Lemma ring_holds_ext mem mem' o ps : (forall a, mem' a = mem a) -> ring_holds mem o ps -> ring_holds mem' o ps.
Proof.
  intros E. revert o. induction ps as [|p ps IH]; intros o; [done|]. intros [(Hst & Hsz & Hdata) Hr].
  split; [|by apply IH]. unfold packet_at. rewrite !E. repeat split; [done..|]. intros i x Hx. rewrite E. by apply Hdata.
Qed.

Lemma read_command n h :
  m_ports n = nic_ports ->
  exists v h', RTL8139_read_register8 (m_ports n) PORT_CHIP_CMD h = (v, h') /\
    truthy (Z.land v COMMAND_BUFFER_EMPTY) = bool_decide (rx_packets h = []) /\
    rx_packets h' = rx_packets h /\ rx_offset h' = rx_offset h /\ forall a, load8 a h' = load8 a h.
Proof.
  intros ->. destruct (nic_command h) as (v & h' & E & Hv & Hbit & Hrest). exists v, h'.
  pose proof nic_ports_range. unfold RTL8139_read_register8, in8, PORT_CHIP_CMD.
  rewrite u16_small, E, u8_small by lia. unfold COMMAND_BUFFER_EMPTY. by rewrite bit_truthy.
Qed.

(** What the driver reads of the first packet. *)
Lemma read_packet n h p ps :
  m_rx_buffer n = rx_buffer -> m_current_rx_pointer n = rx_offset h -> rx_packets h = p :: ps ->
  packet_at (fun o => load8 (rx_buffer + o) h) (rx_offset h) p -> alen p.2 + 4 < 2 ^ 16 ->
  let a := m_rx_buffer n + m_current_rx_pointer n in
  load16 a h = p.1 /\ load16 (a + 2) h = alen p.2 + 4 /\
  load_bytes (Z.to_nat (u16 (alen p.2 + 4 - 4))) (a + 4) h = p.2.
Proof.
  intros -> -> _ (Hst & Hsz & Hdata) Hl. cbv zeta. pose proof (alen_nonneg p.2). unfold load16.
  rewrite <- !Z.add_assoc. split; [done|]. split; [done|].
  rewrite Z.add_simpl_r, u16_small by lia. unfold alen. rewrite Nat2Z.id.
  apply load_bytes_packet. intros i x Hx. rewrite <- (Hdata i x Hx). f_equal. lia.
Qed.

Lemma handle_rx_spec {W} (deliver : list Z -> W -> exec W) fuel n h (w w' : W) :
  rx_in_step n h -> 0 <= rx_offset h -> fits (rx_offset h) (rx_packets h) -> (length (rx_packets h) < fuel)%nat ->
  deliver_all deliver (rx_packets h) w = Done w' ->
  exists h', RTL8139_handle_rx deliver fuel n h w = Done (set_rx_pointer (rx_offset h') n, h', w') /\
    rx_packets h' = [] /\ rx_in_step (set_rx_pointer (rx_offset h') n) h'.
Proof.
  remember (rx_packets h) as ps eqn:Eps. revert fuel n h w Eps.
  induction ps as [|p ps IH]; intros fuel n h w Eps (Hp & Hb & Hptr & Hring) Ho Hfit Hfuel Hdel;
    destruct (read_command n h Hp) as (v & h1 & E & Hbit & Hps1 & Hoff1 & Hmem1); (destruct fuel as [|fuel]; [lia|]);
    rewrite <- Eps in *; unfold RTL8139_handle_rx.
  - injection Hdel as ->. exists h1. rewrite (while_out _ _ _ (n, h1, w')); [|by rewrite E, Hbit].
    assert (En : set_rx_pointer (rx_offset h1) n = n) by (rewrite Hoff1, <- Hptr; by destruct n).
    rewrite En. split; [done|]. split; [done|]. repeat split; [done|done|congruence|]. by rewrite Hps1.
  - destruct Hring as [Hat Hring], Hfit as [He Hfit].
    assert (Hl : alen p.2 + 4 < 2 ^ 16).
    { unfold packet_end, align4, ring_size in He. zdiv. }
    destruct (read_packet n h1 p ps) as (E1 & E2 & E3); [done|congruence|done| |done|].
    { rewrite Hoff1. destruct Hat as (Ha & Hb' & Hc). unfold packet_at. setoid_rewrite Hmem1. done. }
    pose proof (nic_release h1 p ps Hps1) as Hrel. cbv zeta in Hrel.
    set (h2 := port_out 2 (nic_ports + 0x38) (u16 (ring_next (rx_offset h1) p - 16)) h1) in *.
    destruct Hrel as (Hps2 & Hoff2 & Hmem2).
    set (n2 := set_rx_pointer (ring_next (rx_offset h) p) n).
    cbn [deliver_all] in Hdel. apply bind_Done_inv in Hdel as (w1 & Hd1 & Hdel).
    assert (Enext : ring_next (rx_offset h) p = packet_end (rx_offset h) p).
    { unfold ring_next. rewrite Z.mod_small; [done|]. split; [|done].
      pose proof (alen_nonneg p.2). unfold packet_end, align4. zdiv. }
    rewrite (while_next _ fuel (n, h, w) (n2, h2, w1)).
    + destruct (IH fuel n2 h2 w1) as (h' & E' & Hps' & Hstep'); [done| | | | |done|].
      * repeat split; [done|done|cbn; congruence|]. rewrite Hps2, Hoff2, Hoff1.
        eapply ring_holds_ext; [|exact Hring]. intros a. cbv beta. by rewrite Hmem2, Hmem1.
      * rewrite Hoff2, Hoff1, Enext. unfold packet_end, align4. pose proof (alen_nonneg p.2). zdiv.
      * by rewrite Hoff2, Hoff1, Enext.
      * simpl in Hfuel. lia.
      * exists h'. split; [exact E'|]. done.
    + rewrite E, Hbit. cbn [bool_decide negb]. rewrite bool_decide_eq_false_2 by done. cbn [negb].
      rewrite E1, E2, E3. unfold RTL8139_is_packet_ok, RX_PACKET_STATUS_ROK. rewrite bit_truthy by lia.
      assert (Ht : truthy (alen p.2 + 4) = true).
      { unfold truthy. pose proof (alen_nonneg p.2). by rewrite (proj2 (Z.eqb_neq _ _)) by lia. }
      rewrite Ht, andb_true_r. destruct (Z.testbit p.1 0); rewrite Hd1; cbn [mbind exec_bind];
        rewrite Hptr, next_rx_pointer_ring by done; cbn [m_ports m_current_rx_pointer set_rx_pointer];
        unfold RTL8139_write_register16, out16, PORT_RX_BUF_PTR, RX_PAD; pose proof nic_ports_range;
        rewrite Hp, (u16_small (nic_ports + _)) by lia; unfold h2; rewrite Hoff1; done.
Qed.

(** The whole handler: the status is read, the packets are taken, the status is written back. *)
Lemma irq_handler_spec {W} (deliver : list Z -> W -> exec W) fuel n h (w w' : W) :
  rx_in_step n h -> rx_interrupt h = true -> 0 <= rx_offset h -> fits (rx_offset h) (rx_packets h) ->
  (length (rx_packets h) < fuel)%nat -> deliver_all deliver (rx_packets h) w = Done w' ->
  exists h', irq_handler deliver fuel (Some n) h w = Done (Some (set_rx_pointer (rx_offset h') n), h', w') /\
    rx_packets h' = [] /\ rx_interrupt h' = false /\ rx_in_step (set_rx_pointer (rx_offset h') n) h'.
Proof.
  intros (Hp & Hb & Hptr & Hring) Hi Ho Hfit Hfuel Hdel. pose proof nic_ports_range as Hr.
  destruct (nic_interrupt h) as (v & h1 & E1 & Hv & Hbit & Hps1 & Hoff1 & Hmem1).
  destruct (handle_rx_spec deliver fuel n h1 w w') as (h2 & E2 & Hps2 & Hstep2); [|by rewrite Hoff1|by rewrite Hoff1, Hps1|by rewrite Hps1|by rewrite Hps1|].
  { repeat split; [done|done|congruence|]. rewrite Hps1, Hoff1. eapply ring_holds_ext; [|exact Hring]. intros a. cbv beta. by rewrite Hmem1. }
  destruct (nic_acknowledge h2 v Hv) as (Hack & Hps3 & Hoff3 & Hmem3). cbv zeta in *.
  set (h3 := port_out 2 (nic_ports + 0x3E) v h2) in *. exists h3. rewrite Hoff3. split; [|split; [by rewrite Hps3|split]].
  - unfold irq_handler, RTL8139_rx_tx_handler, RTL8139_read_register16, in16, PORT_INTR_STATUS. cbn [not_null ASSERT mbind exec_bind].
    rewrite Hp, (u16_small (nic_ports + 0x3E)), E1 by lia. rewrite (u16_small v) by lia. unfold RTL8139_handle_tx.
    unfold INTERRUPT_STATUS_RX_OK, INTERRUPT_STATUS_TX_OK. rewrite (bit_truthy v 0), Hbit, Hi by lia.
    replace (if truthy (Z.land v (Bit 2)) then h1 else h1) with h1 by by destruct (truthy _). rewrite E2.
    cbn [mbind exec_bind m_ports set_rx_pointer]. unfold RTL8139_write_register16, out16. rewrite Hp.
    by rewrite (u16_small (nic_ports + 62)), (u16_small v) by lia.
  - apply Hack. congruence.
  - destruct Hstep2 as (Hp2 & Hb2 & Hptr2 & Hring2). repeat split; [done|done|cbn; congruence|]. rewrite Hps3, Hoff3.
    eapply ring_holds_ext; [|exact Hring2]. intros a. cbv beta. by rewrite Hmem3.
Qed.

(** ** Sending *)

Lemma store_bytes_below data a b h : b < a -> load8 b (store_bytes data a h) = load8 b h.
Proof.
  revert a h. induction data as [|x data IH]; intros a h Hb; [done|]. cbn [store_bytes].
  rewrite IH, memory_store, (proj2 (Z.eqb_neq b a)) by lia. done.
Qed.

Lemma load_stored data a h : load_bytes (length data) a (store_bytes data a h) = data.
Proof.
  revert a h. induction data as [|x data IH]; intros a h; [done|]. cbn [load_bytes store_bytes length].
  by rewrite IH, store_bytes_below, memory_store, Z.eqb_refl by lia.
Qed.

Lemma store_bytes_sent data a h : tx_sent (store_bytes data a h) = tx_sent h.
Proof.
  revert a h. induction data as [|x data IH]; intros a h; [done|]. cbn [store_bytes].
  by rewrite IH, memory_store_card.
Qed.

(** The wait for the card ends. *)
Lemma wait_transmitted fuel n h i :
  m_ports n = nic_ports -> 0 <= i < 4 -> (tx_wait h i < fuel)%nat ->
  exists h', while fuel
      (fun h => let '(status, h) := RTL8139_read_register32 (m_ports n) (0x10 + 4 * i) h in
         if negb (truthy (Z.land status TX_STATUS_TOK)) then Done (inl h) else Done (inr h)) h = Done h' /\
    tx_sent h' = tx_sent h.
Proof.
  intros Hp Hi Hf. apply (while_inv (fun h' => tx_sent h' = tx_sent h) _ (fun h' => tx_wait h' i)); [done|done|].
  intros h1 Hs. destruct (nic_status h1 i Hi) as (v & h2 & E & Hv & Hbit & Hw & Hs2).
  pose proof nic_ports_range. unfold RTL8139_read_register32, in32.
  rewrite Hp, (u16_small (nic_ports + _)), Z.add_assoc, E, u32_small by lia.
  unfold TX_STATUS_TOK. rewrite bit_truthy, Hbit by lia. case_bool_decide as E0.
  - right. exists h2. split; [done|congruence].
  - left. exists h2. split; [done|]. split; [congruence|]. rewrite Hw. lia.
Qed.

(** The buffers are those of the card, and the next one is one of them. *)
Definition tx_ready n : Prop :=
  m_ports n = nic_ports /\ m_tx_buffers n = tx_buffer <$> seqZ 0 4 /\ 0 <= m_current_tx_buffer n < 4.

Lemma tsd_register i : 0 <= i < 4 -> aget TSD_array i = Done (0x10 + 4 * i).
Proof.
  intros Hi. assert (i = 0 \/ i = 1 \/ i = 2 \/ i = 3) as [->|[->|[->| ->]]] by lia; done.
Qed.

Lemma send_spec fuel data n h :
  tx_ready n -> alen data <= MAX_TX_BUFFER_SIZE -> 0 < m_rx_ports_semaphore n -> (tx_bound < fuel)%nat ->
  exists h', RTL8139_send_ethernet_frame fuel data n h =
      Done (Returns (set_tx_buffer ((m_current_tx_buffer n + 1) mod 4) n, h')) /\
    tx_sent h' = tx_sent h ++ [data].
Proof.
  intros (Hp & Hbufs & Hcur) Hlen Hsem Hfuel. unfold RTL8139_send_ethernet_frame.
  cbn [m_rx_ports_semaphore set_semaphore]. rewrite (proj2 (Z.ltb_ge _ _)) by lia.
  unfold RTL8139_send_acquired, MAX_TX_BUFFER_SIZE in *. pose proof (alen_nonneg data).
  destruct (Z.gtb_spec (alen data) 0x700); [lia|].
  cbn [m_current_tx_buffer m_tx_buffers m_ports m_rx_ports_semaphore set_tx_buffer set_semaphore].
  set (i := m_current_tx_buffer n) in *. unfold NUMBER_TX_BUFFERS. rewrite u8_small by zdiv.
  rewrite Hbufs, (aget_Done (tx_buffer <$> seqZ 0 4) i (tx_buffer i)); [|lia|].
  2: { rewrite list_lookup_fmap, lookup_seqZ_lt by lia. simpl. do 2 f_equal. lia. }
  cbn [mbind exec_bind]. rewrite tsd_register by done. cbn [mbind exec_bind].
  set (h1 := store_bytes data (tx_buffer i) h).
  destruct (nic_transmit h1 i (alen data) Hcur) as [Hsent Hwait]; [lia|]. cbv zeta in Hsent, Hwait.
  set (h2 := port_out 4 (nic_ports + 0x10 + 4 * i) (alen data) h1) in *.
  pose proof nic_ports_range.
  assert (E2 : RTL8139_write_register32 (m_ports n) (0x10 + 4 * i) (alen data) h1 = h2).
  { unfold RTL8139_write_register32, out32. by rewrite Hp, Z.add_assoc, u16_small, u32_small by lia. }
  rewrite E2. destruct (wait_transmitted fuel n h2 i Hp Hcur) as (h3 & E3 & Hs3); [lia|].
  rewrite E3. cbn [mbind exec_bind]. exists h3. split.
  - do 3 f_equal. destruct n; unfold set_semaphore, set_tx_buffer; cbn. f_equal. lia.
  - rewrite Hs3, Hsent. unfold alen. rewrite Nat2Z.id. unfold h1. by rewrite load_stored, store_bytes_sent.
Qed.

(** A frame that is too large takes a permit of the semaphore and does not give it back. *)
Lemma send_too_large fuel data n h :
  alen data > MAX_TX_BUFFER_SIZE -> 0 < m_rx_ports_semaphore n ->
  RTL8139_send_ethernet_frame fuel data n h = Done (Returns (set_semaphore (m_rx_ports_semaphore n - 1) n, h)).
Proof.
  intros Hlen Hsem. unfold RTL8139_send_ethernet_frame. cbn [m_rx_ports_semaphore set_semaphore].
  rewrite (proj2 (Z.ltb_ge _ _)) by lia. unfold RTL8139_send_acquired.
  by rewrite (proj2 (Z.gtb_lt _ _)) by lia.
Qed.

(** Frames sent one after another; [None] when one of them makes the sender wait. *)
Fixpoint send_all (fuel : nat) (frames : list (list Z)) n h : exec (option (RTL8139 * H)) :=
  match frames with
  | [] => Done (Some (n, h))
  | data :: frames =>
      r ← RTL8139_send_ethernet_frame fuel data n h;
      match r with Blocks _ => Done None | Returns (n, h) => send_all fuel frames n h end
  end.

Lemma send_all_spec fuel frames n h :
  tx_ready n -> 0 < m_rx_ports_semaphore n -> (tx_bound < fuel)%nat ->
  Forall (fun data => alen data <= MAX_TX_BUFFER_SIZE) frames ->
  exists h', send_all fuel frames n h =
      Done (Some (set_tx_buffer ((m_current_tx_buffer n + alen frames) mod 4) n, h')) /\
    tx_sent h' = tx_sent h ++ frames.
Proof.
  intros Hr Hsem Hfuel Hfr. revert n h Hr Hsem.
  induction Hfr as [|data frames Hd Hfr IH]; intros n h Hr Hsem.
  - exists h. rewrite app_nil_r. split; [|done]. cbn [send_all]. rewrite alen_nil, Z.add_0_r, Z.mod_small by apply Hr.
    by destruct n.
  - destruct (send_spec fuel data n h Hr Hd Hsem Hfuel) as (h1 & E1 & Hs1). cbn [send_all]. rewrite E1.
    cbn [mbind exec_bind]. destruct Hr as (Hp & Hb & Hcur).
    destruct (IH (set_tx_buffer ((m_current_tx_buffer n + 1) mod 4) n) h1) as (h2 & E2 & Hs2); [|done|].
    { repeat split; [done|done| |]; cbn; zdiv. }
    exists h2. rewrite E2, Hs2, Hs1, <- app_assoc, alen_cons. split; [|done]. do 3 f_equal.
    destruct n; unfold set_tx_buffer; cbn. f_equal. zdiv.
Qed.

End card.

(** C36: When the card interrupts because it has received packets, all of which end before the
    end of the ring of 8192 bytes, and the driver reads where the card has the first of them,
    the interrupt handler ends and has handed the frames of all good packets to the network,
    which takes them, in the order in which they came and without their checksums; the ring
    is empty, the interrupt is acknowledged, and the driver and the card agree on where the
    next packet will be. (Past the end of the ring they lose step: [next_rx_pointer_overrun].) *)
Theorem rtl8139_receives {H W} `{NicHost H} (deliver : list Z -> W -> exec W) fuel n (h : H) (w w' : W) :
  rx_in_step n h -> rx_interrupt h = true -> 0 <= rx_offset h -> fits (rx_offset h) (rx_packets h) ->
  (length (rx_packets h) < fuel)%nat -> deliver_all deliver (rx_packets h) w = Done w' ->
  exists h', irq_handler deliver fuel (Some n) h w = Done (Some (set_rx_pointer (rx_offset h') n), h', w') /\
    rx_packets h' = [] /\ rx_interrupt h' = false /\ rx_in_step (set_rx_pointer (rx_offset h') n) h'.
Proof. apply irq_handler_spec. Qed.

(** Frames of at most 0x700 bytes that are sent one after another all leave the card, as
    they were and in their order; the transmit buffers are used in turn, every wait for the
    card ends and the semaphore has its permits back. A frame that is larger is dropped with
    the permit it took: four of them, and the next sender waits for ever. *)
Theorem rtl8139_sends {H} `{NicHost H} fuel frames n (h : H) :
  tx_ready n -> (tx_bound < fuel)%nat -> m_rx_ports_semaphore n = 4 ->
  Forall (fun data => alen data <= MAX_TX_BUFFER_SIZE) frames ->
  (exists h', send_all fuel frames n h =
      Done (Some (set_tx_buffer ((m_current_tx_buffer n + alen frames) mod 4) n, h')) /\
    tx_sent h' = tx_sent h ++ frames) /\
  forall large data, Forall (fun data => alen data > MAX_TX_BUFFER_SIZE) large -> length large = 4%nat ->
    send_all fuel (large ++ [data]) n h = Done None.
Proof.
  intros Hr Hfuel Hsem Hfr. split; [by apply send_all_spec; rewrite ?Hsem|].
  intros large data Hl H4. destruct large as [|a [|b [|c [|d [|? ?]]]]]; try done.
  rewrite !Forall_cons in Hl. destruct Hl as (Ha & Hb & Hc & Hd & _).
  cbn [app send_all]. do 4 (rewrite send_too_large; cbn [mbind exec_bind m_rx_ports_semaphore set_semaphore]; [|done|lia]).
  unfold RTL8139_send_ethernet_frame. cbn [m_rx_ports_semaphore set_semaphore]. by rewrite Hsem.
Qed.

(** ** A card for examples *)

(** The bytes of the memory, the packets in the ring and where they start, what was sent. A
    transmission is done at the second look. *)
Record NicMemory := mkNic {
  nm_bytes : gmap Z Z;
  nm_offset : Z;
  nm_packets : list packet;
  nm_sent : list (list Z);
  nm_wait : list nat;
  nm_interrupt : bool;
}.

Definition nm_rx_buffer : Z := 0x100000.
Definition nm_tx_buffer (i : Z) : Z := 0x200000 + 0x1000 * i.

#[export] Instance NicMemory_services : DriverServices NicMemory := {|
  valloc _ _ h := (0, h);
  virtual_to_physical_address a _ := a;
  load8 a h := default 0 (nm_bytes h !! a);
  store8 a x h := mkNic (<[a := x]> (nm_bytes h)) (nm_offset h) (nm_packets h) (nm_sent h) (nm_wait h) (nm_interrupt h);
|}.

Definition nm_wait_of (h : NicMemory) (i : Z) : nat := default 0%nat (nm_wait h !! Z.to_nat i).

#[export] Instance NicMemory_ports : PortIO NicMemory := {|
  port_in _ port h :=
    if port =? 0x37 then (if bool_decide (nm_packets h = []) then 1 else 0, h)
    else if port =? 0x3E then (if nm_interrupt h then 1 else 0, h)
    else
      let i := (port - 0x10) / 4 in
      (if bool_decide (nm_wait_of h i = 0%nat) then 0x8000 else 0,
       mkNic (nm_bytes h) (nm_offset h) (nm_packets h) (nm_sent h)
         (<[Z.to_nat i := pred (nm_wait_of h i)]> (nm_wait h)) (nm_interrupt h));
  port_out _ port v h :=
    if port =? 0x38 then
      match nm_packets h with
      | [] => h
      | p :: ps => mkNic (nm_bytes h) (ring_next (nm_offset h) p) ps (nm_sent h) (nm_wait h) (nm_interrupt h)
      end
    else if port =? 0x3E then
      mkNic (nm_bytes h) (nm_offset h) (nm_packets h) (nm_sent h) (nm_wait h) (nm_interrupt h && negb (Z.testbit v 0))
    else
      let i := (port - 0x10) / 4 in
      mkNic (nm_bytes h) (nm_offset h) (nm_packets h)
        (nm_sent h ++ [load_bytes (Z.to_nat v) (nm_tx_buffer i) h]) (<[Z.to_nat i := 1%nat]> (nm_wait h)) (nm_interrupt h);
|}.

#[export] Program Instance NicMemory_card : NicHost NicMemory := {|
  nic_ports := 0;
  rx_buffer := nm_rx_buffer;
  rx_offset := nm_offset;
  rx_packets := nm_packets;
  rx_interrupt := nm_interrupt;
  tx_buffer := nm_tx_buffer;
  tx_sent := nm_sent;
  tx_wait := nm_wait_of;
  tx_bound := 1;
|}.
Next Obligation.
  intros h a x b. simpl. destruct (Z.eqb_spec b a) as [->|Hne]; [by rewrite lookup_insert_eq|].
  by rewrite lookup_insert_ne by done.
Qed.
Next Obligation. done. Qed.
Next Obligation. lia. Qed.
Next Obligation. intros h. simpl. eexists _, h. split; [done|]. case_bool_decide; repeat split; done || lia. Qed.
Next Obligation. intros h p ps E. simpl. by rewrite E. Qed.
Next Obligation. intros h. simpl. eexists _, h. split; [done|]. by destruct (nm_interrupt h). Qed.
Next Obligation. intros h v Hv. simpl. split; [|done]. intros ->. apply andb_false_r. Qed.
Next Obligation.
  intros h i size Hi Hs. cbn -[Z.add Z.mul Z.sub Z.div Z.eqb load_bytes].
  rewrite (proj2 (Z.eqb_neq (0 + 16 + 4 * i) 0x38)), (proj2 (Z.eqb_neq (0 + 16 + 4 * i) 0x3E)) by lia.
  replace ((0 + 16 + 4 * i - 16) / 4) with i by zdiv. split; [done|]. unfold nm_wait_of. cbn [nm_wait].
  destruct (decide (Z.to_nat i < length (nm_wait h))%nat); [by rewrite list_lookup_insert_eq|].
  rewrite lookup_ge_None_2; [simpl; lia|]. rewrite length_insert. lia.
Qed.
Next Obligation.
  intros h i Hi. cbn -[Z.add Z.mul Z.sub Z.div Z.eqb].
  rewrite (proj2 (Z.eqb_neq (0 + 16 + 4 * i) 0x37)), (proj2 (Z.eqb_neq (0 + 16 + 4 * i) 0x3E)) by lia.
  replace ((0 + 16 + 4 * i - 16) / 4) with i by zdiv. eexists _, _. split; [done|].
  split; [case_bool_decide; lia|]. split; [by case_bool_decide|]. split; [|done]. unfold nm_wait_of. cbn [nm_wait].
  destruct (decide (Z.to_nat i < length (nm_wait h))%nat); [by rewrite list_lookup_insert_eq|].
  rewrite !lookup_ge_None_2; [done|lia|]. rewrite length_insert. lia.
Qed.

(** Two packets in the ring, the second with an error. *)
Definition two_packets : list packet := [(1, [10; 20; 30; 40; 50]); (0, [7])].

Definition card_with_packets : NicMemory :=
  mkNic (list_to_map (imap (fun i x => (nm_rx_buffer + Z.of_nat i, x))
           [1; 0; 9; 0; 10; 20; 30; 40; 50; 0; 0; 0; 0; 0; 0; 0; 0; 0; 5; 0; 7]))
    0 two_packets [] [0; 0; 0; 0]%nat true.

Definition idle_driver : RTL8139 := mkRTL (mkPCI 0 3 0) 0 [] 0 0 (nm_tx_buffer <$> seqZ 0 4) nm_rx_buffer 4.

Definition collect (data : list Z) (w : list (list Z)) : exec (list (list Z)) := Done (w ++ [data]).

Lemma rtl8139_receives_witness :
  exists h', irq_handler collect 3 (Some idle_driver) card_with_packets [] =
      Done (Some (set_rx_pointer (rx_offset h') idle_driver), h', [[10; 20; 30; 40; 50]]) /\
    rx_packets h' = [] /\ rx_interrupt h' = false /\ rx_in_step (set_rx_pointer (rx_offset h') idle_driver) h'.
Proof.
  apply (rtl8139_receives collect 3 idle_driver card_with_packets [] [[10; 20; 30; 40; 50]]);
    [|done|done|by repeat split|simpl; lia|done].
  split; [done|]. split; [done|]. split; [done|]. split; [|split; [|done]]; (split; [done|]; split; [done|]).
  - intros [|[|[|[|[|?]]]]] x [= <-]; done.
  - intros [|?] x [= <-]; done.
Defined.

Lemma rtl8139_sends_witness :
  exists h', send_all 2 [[1; 2; 3]; [4]; []; [5]; [6; 7]] idle_driver card_with_packets =
      Done (Some (set_tx_buffer 1 idle_driver, h')) /\ tx_sent h' = [[1; 2; 3]; [4]; []; [5]; [6; 7]].
Proof.
  refine (proj1 (rtl8139_sends 2 [[1; 2; 3]; [4]; []; [5]; [6; 7]] idle_driver card_with_packets _ _ _ _)).
  - repeat split; simpl; lia.
  - simpl. lia.
  - done.
  - by repeat constructor.
Defined.
