(* ===== verification/Process.v ===== *)
(** * Processes

    kernel/tasking/process.cpp, kernel/filesystem/process_description.cpp and the system calls
    on processes: the list of all processes, their identifiers, and the descriptions through
    which handles refer to processes. A process that has ended lives on as a zombie until the
    last description of it is gone; its own handles are then destroyed, which may end other
    zombies in turn. Processes and descriptions are known by their addresses; the use of one
    that was destroyed is a [Fault]. *)
From S2P Require Import Prelude Bitmap Clib Buffers Files Handles.

Inductive ProcessState := PReady | PBlocked | PSuspended | PZombie.
Inductive ProcessPrivilege := PKernel | PUser.

#[export] Instance ProcessState_eq_dec : EqDecision ProcessState.
Proof. solve_decision. Defined.

Definition MAX_PATH_SIZE : Z := 512.
Definition ERROR_INVALID_PID : Z := 15.

(** The array of constructors and its count are set when the program has been loaded. *)
Record UserProcessInformationBlock := mkPib {
  pib_address : Z;
  pib_pid : Z;
  path_data : list Z;
  argument_data : list Z;
  pib_constructors_array : Z;
  pib_constructors_array_count : Z;
}.

Record process_block := mkProcess {
  m_singal_waiting_queue : list Z;
  m_pid : Z;
  m_name : list Z;
  m_path : list Z;
  m_argument : list Z;
  m_privilege_level : ProcessPrivilege;
  m_page_directory : Z;
  m_descriptor_references : Z;
  m_state : ProcessState;
  m_handles : HandlesManager;
  m_threads : list Z;
  m_pib : option UserProcessInformationBlock;
  m_return_status : Z;
}.

(** What processes use of the other components, which share the state [T]: address spaces,
    threads by their addresses, and the descriptions of files. *)
Class ProcessServices (T : Type) := {
  create_new_virtual_space : T -> exec (Z * T);
  switch_page_directory : Z -> T -> T;
  current_page_directory : T -> option Z;
  valloc_user : Z -> T -> exec (Z * T);
  create_thread : Z -> T -> exec (Z * T);
  terminate_thread : Z -> T -> exec T;
  wake_up_thread : Z -> T -> exec T;
  yield_thread : T -> exec T;
  destroy_file : Z -> T -> exec T;
  path_is_valid : list Z -> bool;
  vfs_resolve_path : list Z -> T -> exec (list Z);
  vfs_check_exists : list Z -> T -> exec bool;
}.

Record Processes (P T : Type) := mkProcesses {
  ps_list : list (Z * process_block);
  ps_descriptions : gmap Z Z;
  ps_pids : P;
  ps_fresh : Z;
  ps_services : T;
}.
Arguments mkProcesses {P T}.
Arguments ps_list {P T}.
Arguments ps_descriptions {P T}.
Arguments ps_pids {P T}.
Arguments ps_fresh {P T}.
Arguments ps_services {P T}.

Section process.
Context {P T : Type} `{IdPool P} `{ProcessServices T}.
Implicit Types (ps : Processes P T) (b : process_block) (p d t : Z).

(** ** The list of processes *)

Definition find_block ps p : option process_block := snd <$> List.find (fun e => e.1 =? p) (ps_list ps).

Definition get_block ps p : exec process_block :=
  match find_block ps p with Some b => Done b | None => Fault end.

Definition set_processes ps l : Processes P T :=
  mkProcesses l (ps_descriptions ps) (ps_pids ps) (ps_fresh ps) (ps_services ps).

Definition with_block ps p b : Processes P T :=
  set_processes ps ((fun e => if e.1 =? p then (p, b) else e) <$> ps_list ps).

Definition set_process_services ps (s : T) : Processes P T :=
  mkProcesses (ps_list ps) (ps_descriptions ps) (ps_pids ps) (ps_fresh ps) s.

Definition set_process_pids ps (pids : P) : Processes P T :=
  mkProcesses (ps_list ps) (ps_descriptions ps) pids (ps_fresh ps) (ps_services ps).

Definition set_descriptions ps ds : Processes P T :=
  mkProcesses (ps_list ps) ds (ps_pids ps) (ps_fresh ps) (ps_services ps).

Definition block_with_references (n : Z) b : process_block :=
  mkProcess (m_singal_waiting_queue b) (m_pid b) (m_name b) (m_path b) (m_argument b) (m_privilege_level b)
    (m_page_directory b) n (m_state b) (m_handles b) (m_threads b) (m_pib b) (m_return_status b).
Definition block_with_handles b (h : HandlesManager) : process_block :=
  mkProcess (m_singal_waiting_queue b) (m_pid b) (m_name b) (m_path b) (m_argument b) (m_privilege_level b)
    (m_page_directory b) (m_descriptor_references b) (m_state b) h (m_threads b) (m_pib b) (m_return_status b).
Definition block_with_threads b (l : list Z) : process_block :=
  mkProcess (m_singal_waiting_queue b) (m_pid b) (m_name b) (m_path b) (m_argument b) (m_privilege_level b)
    (m_page_directory b) (m_descriptor_references b) (m_state b) (m_handles b) l (m_pib b) (m_return_status b).
Definition block_with_waiting b (l : list Z) : process_block :=
  mkProcess l (m_pid b) (m_name b) (m_path b) (m_argument b) (m_privilege_level b)
    (m_page_directory b) (m_descriptor_references b) (m_state b) (m_handles b) (m_threads b) (m_pib b) (m_return_status b).
Definition as_zombie b (status : Z) : process_block :=
  mkProcess (m_singal_waiting_queue b) (m_pid b) (m_name b) (m_path b) (m_argument b) (m_privilege_level b)
    (m_page_directory b) (m_descriptor_references b) PZombie (m_handles b) (m_threads b) (m_pib b) status.

Definition Process_get_process_from_pid ps (pid : Z) : Result Z :=
  match List.find (fun e => m_pid e.2 =? pid) (ps_list ps) with
  | Some e => Value e.1
  | None => Error ERROR_INVALID_PID
  end.

(** ** Making a process *)

Definition Process_reserve_pid ps : exec (Z * Processes P T) :=
  '(id, pids) ← reserve_id (ps_pids ps);
  Done (id, set_process_pids ps pids).

(** The members; [status] is what the member holds that no constructor sets. *)
Definition new_block (status pid : Z) (name path argument : list Z) (privilege : ProcessPrivilege) (directory : Z) : process_block :=
  mkProcess [] pid name path argument privilege directory 0 PReady HandlesManager_new [] None status.

(** [emplace_back]: the node at a new address. *)
Definition append_block ps b : Z * Processes P T :=
  (ps_fresh ps,
   mkProcesses (ps_list ps ++ [(ps_fresh ps, b)]) (ps_descriptions ps) (ps_pids ps) (ps_fresh ps + 1) (ps_services ps)).

Definition Process_create_virtual_process (status : Z) ps (name : list Z) : exec (Z * Processes P T) :=
  '(pid, ps) ← Process_reserve_pid ps;
  '(directory, s) ← create_new_virtual_space (ps_services ps);
  Done (append_block (set_process_services ps s) (new_block status pid name [47] [] PKernel directory)).

(** A string copied to an array of the information block and terminated there. *)
Definition copy_terminated (data : list Z) (cs : list Z) : exec (list Z) :=
  data ← memcpy data 0 (cs ++ [0]) 0 (alen cs);
  aset data (alen cs) 0.

Definition sizeof_UserProcessInformationBlock : Z := 4 + 4 + 4 + MAX_PATH_SIZE + MAX_PATH_SIZE + 4 + 4.

(** [junk] is what the new page holds. *)
Definition fill_information (junk : Z -> Z) (address pid : Z) (path argument : list Z) : exec UserProcessInformationBlock :=
  let array k := (fun i => junk (k + i)) <$> seqZ 0 MAX_PATH_SIZE in
  argument_data ← copy_terminated (array 0) argument;
  path_data ← copy_terminated (array MAX_PATH_SIZE) path;
  Done (mkPib address pid path_data argument_data (junk (2 * MAX_PATH_SIZE)) (junk (2 * MAX_PATH_SIZE + 1))).

(** The constructor works in the new address space, and lists the first thread. *)
Definition Process_create_new_process (junk : Z -> Z) (status : Z) ps (name path argument : list Z) (privilege : ProcessPrivilege)
    : exec (Z * Processes P T) :=
  '(pid, ps) ← Process_reserve_pid ps;
  '(directory, s) ← create_new_virtual_space (ps_services ps);
  let s := switch_page_directory directory s in
  '(address, s) ← valloc_user sizeof_UserProcessInformationBlock s;
  pib ← fill_information junk address pid path argument;
  let s := match current_page_directory s with Some current => switch_page_directory current s | None => s end in
  '(thread, s) ← create_thread (ps_fresh ps) s;
  Done (append_block (set_process_services ps s)
          (mkProcess [] pid name path argument privilege directory 0 PReady HandlesManager_new [thread] (Some pib) status)).

(** The getters, each under the lock of the process. The pointer to the parent is null in
    every process. *)
Definition Process_pid ps p : exec Z := b ← get_block ps p; Done (m_pid b).
Definition Process_name ps p : exec (list Z) := b ← get_block ps p; Done (m_name b).
Definition Process_path ps p : exec (list Z) := b ← get_block ps p; Done (m_path b).
Definition Process_privilege_level ps p : exec ProcessPrivilege := b ← get_block ps p; Done (m_privilege_level b).
Definition Process_page_directory ps p : exec Z := b ← get_block ps p; Done (m_page_directory b).
Definition Process_parent ps p : exec (option Z) := _ ← get_block ps p; Done None.
Definition Process_state ps p : exec ProcessState := b ← get_block ps p; Done (m_state b).
Definition Process_handles ps p : exec HandlesManager := b ← get_block ps p; Done (m_handles b).
Definition Process_pib ps p : exec (option UserProcessInformationBlock) := b ← get_block ps p; Done (m_pib b).

(** ** Threads of a process *)

Definition process_list_thread ps p t : exec (Processes P T) :=
  b ← get_block ps p;
  Done (with_block ps p (block_with_threads b (m_threads b ++ [t]))).

(** [Thread::create_thread] for a process that exists: the new thread is listed there. *)
Definition Process_new_thread ps p : exec (Processes P T) :=
  '(t, s) ← create_thread p (ps_services ps);
  process_list_thread (set_process_services ps s) p t.

Definition process_unlist_thread ps p t : exec (Processes P T) :=
  b ← get_block ps p;
  Done (with_block ps p (block_with_threads b (List.filter (fun u => negb (u =? t)) (m_threads b)))).

(** [WaitQueue::handle_thread_terminated]: a thread that ends leaves the queue it waits in. *)
Definition forget_waiting (t : Z) b : process_block :=
  block_with_waiting b (List.filter (fun u => negb (u =? t)) (m_singal_waiting_queue b)).

Definition process_thread_terminated (t : Z) ps : Processes P T :=
  set_processes ps ((fun e => (e.1, forget_waiting t e.2)) <$> ps_list ps).

(** The loop of [terminate] over the list of threads. Ending a thread removes and frees its
    node, from which the loop then takes the step to the next one; nothing is allocated in
    between, so the freed node still holds it: the loop visits the threads that were listed
    when it began. *)
Fixpoint terminate_threads (nodes : list Z) p ps : exec (Processes P T) :=
  match nodes with
  | [] => Done ps
  | t :: nodes =>
      s ← terminate_thread t (ps_services ps);
      ps ← process_unlist_thread (process_thread_terminated t (set_process_services ps s)) p t;
      terminate_threads nodes p ps
  end.

(** ** Descriptions and the end of a process *)

Definition Process_descriptor_referenced ps p : exec (Processes P T) :=
  b ← get_block ps p;
  Done (with_block ps p (block_with_references (m_descriptor_references b + 1) b)).

Definition Process_descriptor_dereferenced (cleanup : Z -> Processes P T -> exec (Processes P T)) ps p : exec (Processes P T) :=
  b ← get_block ps p;
  _ ← ASSERT (truthy (m_descriptor_references b));
  let b := block_with_references (m_descriptor_references b - 1) b in
  let ps := with_block ps p b in
  if bool_decide (m_state b = PZombie) && (m_descriptor_references b =? 0) then cleanup p ps else Done ps.

Definition description_process ps d : exec Z :=
  match ps_descriptions ps !! d with Some p => Done p | None => Fault end.

(** [~ProcessDescription], for a description that nothing refers to any more. *)
Definition ProcessDescription_destroy (cleanup : Z -> Processes P T -> exec (Processes P T)) d ps : exec (Processes P T) :=
  p ← description_process ps d;
  Process_descriptor_dereferenced cleanup (set_descriptions ps (delete d (ps_descriptions ps))) p.

Fixpoint destroy_descriptions (cleanup : Z -> Processes P T -> exec (Processes P T)) (ds : list Z) ps : exec (Processes P T) :=
  match ds with
  | [] => Done ps
  | d :: ds => ps ← ProcessDescription_destroy cleanup d ps; destroy_descriptions cleanup ds ps
  end.

Fixpoint destroy_files (fs : list Z) (s : T) : exec T :=
  match fs with [] => Done s | f :: fs => s ← destroy_file f s; destroy_files fs s end.

(** [~Process]: the identifier is free again; then the tables of the handles. *)
Definition Process_destroy (cleanup : Z -> Processes P T -> exec (Processes P T)) b ps : exec (Processes P T) :=
  set ← pool_check_set (ps_pids ps) (m_pid b);
  _ ← ASSERT set;
  pids ← pool_clear (ps_pids ps) (m_pid b);
  ps ← destroy_descriptions cleanup (process_description_table (m_handles b)) (set_process_pids ps pids);
  s ← destroy_files (file_description_table (m_handles b)) (ps_services ps);
  Done (set_process_services ps s).

(** The process leaves the list and is destroyed. One process after another can go this way:
    as deep as there are processes. The caller holds the lock of the process, which it releases
    in the freed block before anything else is allocated. *)
Fixpoint Process_cleanup (fuel : nat) p ps : exec (Processes P T) :=
  match fuel with
  | O => OutOfFuel
  | S fuel =>
      b ← get_block ps p;
      Process_destroy (Process_cleanup fuel) b (set_processes ps (List.filter (fun e => negb (e.1 =? p)) (ps_list ps)))
  end.

Definition cleanup_fuel ps : nat := length (ps_list ps).

Fixpoint wake_up_all (ts : list Z) (s : T) : exec T :=
  match ts with [] => Done s | t :: ts => s ← wake_up_thread t s; wake_up_all ts s end.

Definition Process_terminate ps p (status_code : Z) : exec (Processes P T) :=
  b ← get_block ps p;
  ps ← terminate_threads (m_threads b) p ps;
  b ← get_block ps p;
  _ ← ASSERT (negb (bool_decide (m_state b = PZombie)));
  let b := as_zombie b status_code in
  s ← wake_up_all (m_singal_waiting_queue b) (ps_services ps);
  let b := block_with_waiting b [] in
  let ps := with_block (set_process_services ps s) p b in
  if m_descriptor_references b =? 0 then Process_cleanup (cleanup_fuel ps) p ps else Done ps.

(** The caller [current] waits until the process has ended. *)
Definition Process_wait_for_signal ps p (current : Z) : exec (outcome (Processes P T) Z) :=
  b ← get_block ps p;
  if negb (bool_decide (m_state b = PZombie)) then
    Done (Blocks (with_block ps p (block_with_waiting b (m_singal_waiting_queue b ++ [current]))))
  else Done (Returns (m_return_status b)).

(** When it has been woken. *)
Definition Process_wait_resumed ps p : exec Z := b ← get_block ps p; Done (m_return_status b).

Definition ProcessDescription_open ps (pid : Z) : exec (Result Z * Processes P T) :=
  match Process_get_process_from_pid ps pid with
  | Error e => Done (Error e, ps)
  | Value p =>
      let d := ps_fresh ps in
      ps ← Process_descriptor_referenced
             (mkProcesses (ps_list ps) (<[d := p]> (ps_descriptions ps)) (ps_pids ps) (d + 1) (ps_services ps)) p;
      Done (Value d, ps)
  end.

(** ** System calls of the process [cur] *)

Definition OpenProcess ps (cur pid : Z) : exec (Result Z * Processes P T) :=
  '(r, ps) ← ProcessDescription_open ps pid;
  match r with
  | Error e => Done (Error e, ps)
  | Value d =>
      b ← get_block ps cur;
      let '(fp, handles) := HandlesManager_add_process (m_handles b) d in
      Done (Value fp, with_block ps cur (block_with_handles b handles))
  end.

(** [name] is the last element of a path; the argument may be null. *)
Definition CreateProcess (junk : Z -> Z) (status : Z) (name : list Z -> list Z) ps (cur : Z) (path : list Z) (argument : option (list Z))
    : exec (Result Z * Processes P T) :=
  if negb (path_is_valid (T := T) path) then Done (Error ERROR_INVALID_PARAMETER, ps)
  else
    absolute_path ← vfs_resolve_path path (ps_services ps);
    found ← vfs_check_exists absolute_path (ps_services ps);
    if negb found then Done (Error ERROR_FILE_DOES_NOT_EXIST, ps)
    else
      '(process, ps) ← Process_create_new_process junk status ps (name absolute_path) absolute_path (default [] argument) PUser;
      pid ← Process_pid ps process;
      '(fp, ps) ← OpenProcess ps cur pid;
      match fp with Value fp => Done (Value fp, ps) | Error _ => Panic end.

Definition is_process_handle ps (cur handle : Z) : exec bool :=
  b ← get_block ps cur;
  t ← HandlesManager_check_handle (m_handles b) handle;
  Done (bool_decide (t = HProcessDescription)).

Definition handle_process ps (cur handle : Z) : exec Z :=
  b ← get_block ps cur;
  d ← HandlesManager_get_process_description (m_handles b) handle;
  description_process ps d.

(** The handle [-1] is the process itself. *)
Definition TerminateProcess ps (cur handle status : Z) : exec (Result Z * Processes P T) :=
  if handle =? u32 (-1) then
    ps ← Process_terminate ps cur status;
    s ← yield_thread (ps_services ps);
    Done (Value 0, set_process_services ps s)
  else
    ok ← is_process_handle ps cur handle;
    if negb ok then Done (Error ERROR_INVALID_HANDLE, ps)
    else
      p ← handle_process ps cur handle;
      ps ← Process_terminate ps p status;
      Done (Value 0, ps).

Definition WaitSignal ps (cur handle thread : Z) : exec (outcome (Processes P T) (Result Z * Processes P T)) :=
  ok ← is_process_handle ps cur handle;
  if negb ok then Done (Returns (Error ERROR_INVALID_HANDLE, ps))
  else
    p ← handle_process ps cur handle;
    r ← Process_wait_for_signal ps p thread;
    Done match r with Blocks ps => Blocks ps | Returns v => Returns (Value v, ps) end.

(** [CloseHandle] on a handle of either kind. *)
Definition close_handle ps (cur handle : Z) : exec (Result Z * Processes P T) :=
  b ← get_block ps cur;
  t ← HandlesManager_check_handle (m_handles b) handle;
  if bool_decide (t = HInvalid) then Done (Error ERROR_INVALID_HANDLE, ps)
  else
    '(gone, handles) ← HandlesManager_remove_handle (m_handles b) handle;
    let ps := with_block ps cur (block_with_handles b handles) in
    ps ← foldr (fun o m => ps ← m;
                 match o with
                 | File f => s ← destroy_file f (ps_services ps); Done (set_process_services ps s)
                 | Process d => ProcessDescription_destroy (Process_cleanup (cleanup_fuel ps)) d ps
                 end) (Done ps) gone;
    Done (Value 0, ps).

End process.

(** ** Consistency *)

(** How many descriptions refer to a process. *)
Definition references (ds : gmap Z Z) (p : Z) : Z := Z.of_nat (size (filter (fun kv : Z * Z => kv.2 = p) ds)).

Lemma references_insert ds d p q :
  ds !! d = None -> references (<[d := p]> ds) q = references ds q + (if q =? p then 1 else 0).
Proof.
  intros Hd. unfold references. destruct (Z.eqb_spec q p) as [->|Hne].
  - rewrite map_filter_insert_True by done. rewrite map_size_insert_None; [lia|].
    apply map_lookup_filter_None. by left.
  - rewrite map_filter_insert_False, delete_id by (done || simpl; congruence). lia.
Qed.

Lemma references_delete ds d p q :
  ds !! d = Some p -> references (delete d ds) q = references ds q - (if q =? p then 1 else 0).
Proof.
  intros Hd. rewrite <- (insert_delete_id ds d p Hd) at 2.
  rewrite references_insert by apply lookup_delete_eq. lia.
Qed.

Lemma references_zero ds p : references ds p = 0 -> forall d, ds !! d <> Some p.
Proof.
  unfold references. intros E d Hd.
  assert (Ez : size (filter (fun kv : Z * Z => kv.2 = p) ds) = 0%nat) by lia.
  apply map_size_empty_iff in Ez.
  assert (Hf : filter (fun kv : Z * Z => kv.2 = p) ds !! d = Some p) by by apply map_lookup_filter_Some_2.
  by rewrite Ez, lookup_empty in Hf.
Qed.

Lemma references_none ds p : (forall d, ds !! d <> Some p) -> references ds p = 0.
Proof.
  intros Hn. unfold references. replace (filter (fun kv : Z * Z => kv.2 = p) ds) with (∅ : gmap Z Z); [done|].
  symmetry. apply map_eq. intros d. rewrite lookup_empty. apply map_lookup_filter_None. right.
  intros q Hq Eq. simpl in Eq. subst q. by apply Hn in Hq.
Qed.

(** What processes rely on. Threads are live from when they are made until they are ended; a
    new thread is not one of the live ones. The calls of the other components return, those
    on a thread for a live one, and end no other thread. *)
Class ReturningServices (T : Type) `{ProcessServices T} := {
  live_thread : Z -> T -> Prop;
  rs_destroy_file f (s : T) : exists s', destroy_file f s = Done s' /\ forall u, live_thread u s -> live_thread u s';
  rs_wake_up t (s : T) :
    live_thread t s -> exists s', wake_up_thread t s = Done s' /\ forall u, live_thread u s -> live_thread u s';
  rs_terminate t (s : T) :
    live_thread t s -> exists s', terminate_thread t s = Done s' /\ forall u, u <> t -> live_thread u s -> live_thread u s';
  rs_new_space (s : T) :
    exists a s', create_new_virtual_space s = Done (a, s') /\ forall u, live_thread u s -> live_thread u s';
  rs_switch d (s : T) u : live_thread u s -> live_thread u (switch_page_directory d s);
  rs_valloc n (s : T) : exists a s', valloc_user n s = Done (a, s') /\ forall u, live_thread u s -> live_thread u s';
  rs_create_thread p (s : T) : exists t s', create_thread p s = Done (t, s') /\
    ~ live_thread t s /\ live_thread t s' /\ forall u, live_thread u s -> live_thread u s';
}.

Section consistency.
Context {P T : Type} {IP : IdPool P} {PS : ProcessServices T} {RS : ReturningServices T}.
Implicit Types (ps : Processes P T) (b : process_block) (p d t : Z).

Definition tables (l : list (Z * process_block)) : list Z :=
  l ≫= (fun e => process_description_table (m_handles e.2)).

Definition keys (l : list (Z * process_block)) : list Z := l.*1.
Definition pids (l : list (Z * process_block)) : list Z := (fun e => m_pid e.2) <$> l.

(** A live description is in the table of exactly one process or, while its owner is taken
    apart, among the [pending] ones, and its process exists. A process counts its
    descriptions; it is not a zombie without any, but for the one that is being destroyed.
    The identifiers in use are those of the processes, all different. *)
Record processes_ok (leaving : option Z) (pending : list Z) ps : Prop := {
  po_keys : NoDup (keys (ps_list ps));
  po_owned : NoDup (tables (ps_list ps) ++ pending);
  po_live d : d ∈ tables (ps_list ps) ++ pending <-> is_Some (ps_descriptions ps !! d);
  po_target d p : ps_descriptions ps !! d = Some p -> p ∈ keys (ps_list ps);
  po_references p b : (p, b) ∈ ps_list ps -> m_descriptor_references b = references (ps_descriptions ps) p;
  po_zombie p b : (p, b) ∈ ps_list ps -> leaving <> Some p -> m_state b = PZombie -> m_descriptor_references b <> 0;
  po_pids : NoDup (pids (ps_list ps));
  po_pool : pool_wf (ps_pids ps);
  po_used i : 0 <= i -> pool_mem (ps_pids ps) i = true <-> i ∈ pids (ps_list ps);
  po_range p b : (p, b) ∈ ps_list ps -> 0 <= m_pid b < pool_limit (ps_pids ps);
  po_handles p b : (p, b) ∈ ps_list ps -> exists os, handles_rep (m_handles b) os;
  po_fresh a : a ∈ keys (ps_list ps) \/ is_Some (ps_descriptions ps !! a) -> 0 < a < ps_fresh ps;
  po_positive : 0 < ps_fresh ps;
}.

(** ** Parts of the list *)

Lemma find_split (l : list (Z * process_block)) p b :
  snd <$> List.find (fun e => e.1 =? p) l = Some b -> exists l1 l2, l = l1 ++ (p, b) :: l2.
Proof.
  induction l as [|[q c] l IH]; [done|]. cbn [List.find fst]. destruct (Z.eqb_spec q p) as [->|Hne].
  - intros [= <-]. by exists [], l.
  - intros E. destruct (IH E) as (l1 & l2 & ->). by exists ((q, c) :: l1), l2.
Qed.

Lemma find_middle (l1 l2 : list (Z * process_block)) p b :
  NoDup (keys (l1 ++ (p, b) :: l2)) -> snd <$> List.find (fun e => e.1 =? p) (l1 ++ (p, b) :: l2) = Some b.
Proof.
  unfold keys. rewrite fmap_app, fmap_cons. intros Hnd. apply NoDup_middle in Hnd as (Hn & _ & _).
  induction l1 as [|[q c] l1 IH]; cbn [app List.find fst]; [by rewrite Z.eqb_refl|].
  cbn in Hn. apply not_elem_of_cons in Hn as [Hne Hn]. rewrite (proj2 (Z.eqb_neq q p)) by congruence. by apply IH.
Qed.

Lemma fmap_other (l : list (Z * process_block)) p b :
  p ∉ keys l -> (fun e => if e.1 =? p then (p, b) else e) <$> l = l.
Proof.
  unfold keys. induction l as [|[q c] l IH]; [done|]. cbn. intros Hn. apply not_elem_of_cons in Hn as [Hne Hn].
  rewrite (proj2 (Z.eqb_neq q p)) by congruence. f_equal. by apply IH.
Qed.

Lemma filter_other (l : list (Z * process_block)) p :
  p ∉ keys l -> List.filter (fun e => negb (e.1 =? p)) l = l.
Proof.
  unfold keys. induction l as [|[q c] l IH]; [done|]. cbn. intros Hn. apply not_elem_of_cons in Hn as [Hne Hn].
  rewrite (proj2 (Z.eqb_neq q p)) by congruence. cbn. f_equal. by apply IH.
Qed.

Lemma put_middle ps l1 l2 p b b' :
  ps_list ps = l1 ++ (p, b) :: l2 -> NoDup (keys (ps_list ps)) ->
  ps_list (with_block ps p b') = l1 ++ (p, b') :: l2.
Proof.
  intros E Hnd. rewrite E in Hnd. unfold keys in Hnd. rewrite fmap_app, fmap_cons in Hnd.
  apply NoDup_middle in Hnd as (H1 & H2 & _). cbn. rewrite E, fmap_app, fmap_cons, !fmap_other by done.
  cbn. by rewrite Z.eqb_refl.
Qed.

Lemma remove_middle l1 l2 p b :
  NoDup (keys (l1 ++ (p, b) :: l2)) -> List.filter (fun e => negb (e.1 =? p)) (l1 ++ (p, b) :: l2) = l1 ++ l2.
Proof.
  unfold keys. rewrite fmap_app, fmap_cons. intros Hnd. apply NoDup_middle in Hnd as (H1 & H2 & _).
  rewrite List.filter_app. cbn. rewrite Z.eqb_refl. cbn. by rewrite !filter_other by done.
Qed.

Lemma elem_of_middle {A} (l1 l2 : list A) x y : y ∈ l1 ++ x :: l2 <-> y = x \/ y ∈ l1 ++ l2.
Proof. rewrite !elem_of_app, elem_of_cons. tauto. Qed.

Lemma keys_middle l1 l2 p b b' : keys (l1 ++ (p, b') :: l2) = keys (l1 ++ (p, b) :: l2).
Proof. unfold keys. by rewrite !fmap_app. Qed.

Lemma pids_middle l1 l2 p b b' : m_pid b' = m_pid b -> pids (l1 ++ (p, b') :: l2) = pids (l1 ++ (p, b) :: l2).
Proof. intros E. unfold pids. rewrite !fmap_app, !fmap_cons. cbn. by rewrite E. Qed.

Lemma tables_middle l1 l2 p b :
  tables (l1 ++ (p, b) :: l2) = tables l1 ++ process_description_table (m_handles b) ++ tables l2.
Proof. unfold tables. by rewrite bind_app. Qed.

(** An entry of the list is the block that is found under its address. *)
Lemma unique_block (l1 l2 : list (Z * process_block)) p b c :
  NoDup (keys (l1 ++ (p, b) :: l2)) -> (p, c) ∈ l1 ++ (p, b) :: l2 -> c = b.
Proof.
  intros Hnd Hin. unfold keys in Hnd. rewrite fmap_app, fmap_cons in Hnd. apply NoDup_middle in Hnd as (Hn1 & Hn2 & _).
  apply elem_of_middle in Hin as [[= ->]|[Hin|Hin]%elem_of_app]; [done| |];
    by apply (list_elem_of_fmap_2 fst) in Hin.
Qed.

(** Changing a block without its identifier and handles, and the descriptions with it. *)
Lemma ok_change leaving leaving' pending pending' ps ps' l1 l2 p b b' :
  processes_ok leaving pending ps -> ps_list ps = l1 ++ (p, b) :: l2 -> ps_list ps' = l1 ++ (p, b') :: l2 ->
  m_pid b' = m_pid b -> ps_pids ps' = ps_pids ps -> ps_fresh ps <= ps_fresh ps' ->
  (exists os, handles_rep (m_handles b') os) ->
  NoDup (tables (ps_list ps') ++ pending') ->
  (forall d, d ∈ tables (ps_list ps') ++ pending' <-> is_Some (ps_descriptions ps' !! d)) ->
  (forall d q, ps_descriptions ps' !! d = Some q -> q = p \/ ps_descriptions ps !! d = Some q) ->
  (forall d, is_Some (ps_descriptions ps' !! d) -> is_Some (ps_descriptions ps !! d) \/ 0 < d < ps_fresh ps') ->
  m_descriptor_references b' = references (ps_descriptions ps') p ->
  (forall q, q <> p -> references (ps_descriptions ps') q = references (ps_descriptions ps) q) ->
  (leaving' <> Some p -> m_state b' = PZombie -> m_descriptor_references b' <> 0) ->
  (forall q, q <> p -> leaving = Some q -> leaving' = Some q) ->
  processes_ok leaving' pending' ps'.
Proof.
  intros [Hk Ho Hlv Ht Hr Hz Hp Hpool Hu Hrg Hh Hf Hpo] E E' Epid Epool Hfr Hhb Hown Hlive Htgt Hnew Href Hrefs Hzb Hlv'.
  rewrite E in *. rewrite E' in *.
  assert (Hin : forall q c, (q, c) ∈ l1 ++ (p, b') :: l2 -> (q = p /\ c = b') \/ (q <> p /\ (q, c) ∈ l1 ++ (p, b) :: l2)).
  { intros q c Hqc. destruct (decide (q = p)) as [->|Hne].
    - left. split; [done|]. apply (unique_block l1 l2 p b'); [by rewrite (keys_middle l1 l2 p b)|done].
    - right. split; [done|]. apply elem_of_middle in Hqc as [[= ? ?]|Hqc]; [done|]. apply elem_of_middle. by right. }
  constructor; rewrite ?E', ?Epool; [| done | done | | | | | done | | | | |lia].
  - by rewrite (keys_middle l1 l2 p b).
  - intros d q Hd. rewrite (keys_middle l1 l2 p b). destruct (Htgt d q Hd) as [->|Hd']; [|by eapply Ht].
    unfold keys. rewrite fmap_app, elem_of_app. right. left.
  - intros q c [[-> ->]|[Hne Hqc]]%Hin; [done|]. rewrite Hrefs by done. by apply Hr.
  - intros q c [[-> ->]|[Hne Hqc]]%Hin Hl Hs; [by apply Hzb|]. apply (Hz q c Hqc); [|done].
    intros El. apply Hl. by apply Hlv'.
  - by rewrite (pids_middle l1 l2 p b).
  - intros i Hi. rewrite (pids_middle l1 l2 p b) by done. by apply Hu.
  - intros q c [[-> ->]|[Hne Hqc]]%Hin; [|by eapply Hrg]. rewrite Epid. apply (Hrg p b). apply elem_of_middle. by left.
  - intros q c [[-> ->]|[Hne Hqc]]%Hin; [done|]. by eapply Hh.
  - intros a [Ha|Ha].
    + rewrite (keys_middle l1 l2 p b) in Ha. specialize (Hf a (or_introl Ha)). lia.
    + destruct (Hnew a Ha) as [Ha'|Ha']; [|done]. specialize (Hf a (or_intror Ha')). lia.
Qed.

Lemma block_split leaving pending ps p b :
  processes_ok leaving pending ps -> find_block ps p = Some b ->
  exists l1 l2, ps_list ps = l1 ++ (p, b) :: l2 /\
    forall b', ps_list (with_block ps p b') = l1 ++ (p, b') :: l2.
Proof.
  intros Hok Hb. destruct (find_split (ps_list ps) p b Hb) as (l1 & l2 & E). exists l1, l2. split; [done|].
  intros b'. apply (put_middle ps l1 l2 p b b' E). apply Hok.
Qed.

(** Fields that consistency does not depend on. *)
Lemma ok_put leaving leaving' pending ps s p b b' :
  processes_ok leaving pending ps -> find_block ps p = Some b ->
  m_pid b' = m_pid b -> m_handles b' = m_handles b -> m_descriptor_references b' = m_descriptor_references b ->
  (leaving' <> Some p -> m_state b' = PZombie -> m_descriptor_references b <> 0) ->
  (forall q, q <> p -> leaving = Some q -> leaving' = Some q) ->
  processes_ok leaving' pending (with_block (set_process_services ps s) p b').
Proof.
  intros Hok Hb Epid Eh Er Hz Hl. destruct (block_split _ _ _ _ _ Hok Hb) as (l1 & l2 & E & Eput).
  assert (Hin : (p, b) ∈ ps_list ps) by (rewrite E; apply elem_of_middle; by left).
  assert (Et : tables (ps_list (with_block (set_process_services ps s) p b')) = tables (ps_list ps)).
  { change (ps_list (with_block (set_process_services ps s) p b')) with (ps_list (with_block ps p b')).
    by rewrite Eput, E, !tables_middle, Eh. }
  eapply (ok_change leaving leaving' pending pending ps _ l1 l2 p b b'); try done.
  - apply Eput.
  - rewrite Eh. by eapply (po_handles _ _ _ Hok).
  - rewrite Et. apply Hok.
  - intros d. rewrite Et. apply Hok.
  - intros d q Hd. by right.
  - intros d Hd. by left.
  - rewrite Er. by apply (po_references _ _ _ Hok).
  - rewrite Er. done.
Qed.

(** A description is taken away from its process, which may now have none. *)
Lemma ok_dereferenced pending ps d p b :
  processes_ok None (d :: pending) ps -> ps_descriptions ps !! d = Some p -> find_block ps p = Some b ->
  processes_ok (Some p) pending
    (with_block (set_descriptions ps (delete d (ps_descriptions ps))) p (block_with_references (m_descriptor_references b - 1) b)) /\
  m_descriptor_references b <> 0.
Proof.
  intros Hok Hd Hb. destruct (block_split _ _ _ _ _ Hok Hb) as (l1 & l2 & E & Eput).
  assert (Hin : (p, b) ∈ ps_list ps) by (rewrite E; apply elem_of_middle; by left).
  pose proof (po_references _ _ _ Hok p b Hin) as Hrb.
  assert (Hn0 : references (ps_descriptions ps) p <> 0) by (intros E0; by apply (references_zero _ _ E0 d)).
  split; [|by rewrite Hrb].
  set (b' := block_with_references _ b). set (ps' := with_block _ p b').
  assert (Et : tables (ps_list ps') = tables (ps_list ps)).
  { change (ps_list ps') with (ps_list (with_block ps p b')). by rewrite Eput, E, !tables_middle. }
  pose proof (po_owned _ _ _ Hok) as Hown. apply NoDup_middle in Hown as (Hn1 & Hn2 & Hown).
  eapply (ok_change None (Some p) (d :: pending) pending ps ps' l1 l2 p b b'); try done.
  - apply Eput.
  - exact (po_handles _ _ _ Hok p b Hin).
  - by rewrite Et.
  - intros d'. rewrite Et. unfold ps'. cbn. split.
    + intros Hd'. assert (d' <> d) by (intros ->; by apply elem_of_app in Hd' as [?|?]).
      rewrite lookup_delete_ne by done. apply Hok. apply elem_of_middle. by right.
    + intros [q Hq]. apply lookup_delete_Some in Hq as [Hne Hq].
      assert (Hl : is_Some (ps_descriptions ps !! d')) by by exists q.
      apply Hok in Hl. apply elem_of_middle in Hl as [->|Hl]; done.
  - intros d' q Hq. unfold ps' in Hq. cbn in Hq. apply lookup_delete_Some in Hq as [_ Hq]. by right.
  - intros d' [q Hq]. unfold ps' in Hq. cbn in Hq. apply lookup_delete_Some in Hq as [_ Hq]. left. by exists q.
  - unfold ps', b'. cbn. rewrite (references_delete _ _ p) by done. rewrite Z.eqb_refl, Hrb. done.
  - intros q Hne. unfold ps'. cbn. rewrite (references_delete _ _ p) by done.
    rewrite (proj2 (Z.eqb_neq q p)) by done. lia.
Qed.

(** A process without descriptions leaves; those that it owns remain to be destroyed. *)
Lemma ok_removed pending ps p b pool :
  processes_ok (Some p) pending ps -> find_block ps p = Some b -> m_descriptor_references b = 0 ->
  pool_wf pool -> pool_limit pool = pool_limit (ps_pids ps) ->
  (forall q, 0 <= q -> pool_mem pool q = pool_mem (ps_pids ps) q && negb (q =? m_pid b)) ->
  processes_ok None (process_description_table (m_handles b) ++ pending)
    (set_process_pids (set_processes ps (List.filter (fun e => negb (e.1 =? p)) (ps_list ps))) pool).
Proof.
  intros Hok Hb Hzero Hwf Hlim Hmem. destruct (block_split _ _ _ _ _ Hok Hb) as (l1 & l2 & E & _).
  destruct Hok as [Hk Ho Hlv Ht Hr Hz Hp Hpool Hu Hrg Hh Hf Hpo]. rewrite E in *.
  rewrite remove_middle by done.
  assert (Hnone : forall d, ps_descriptions ps !! d <> Some p).
  { apply references_zero. rewrite <- Hzero. symmetry. apply Hr. apply elem_of_middle. by left. }
  assert (Hperm : tables (l1 ++ l2) ++ process_description_table (m_handles b) ++ pending
                  ≡ₚ tables (l1 ++ (p, b) :: l2) ++ pending).
  { rewrite tables_middle. unfold tables. rewrite bind_app. solve_Permutation. }
  unfold keys in Hk. rewrite fmap_app, fmap_cons in Hk. apply NoDup_middle in Hk as (Hk1 & Hk2 & Hk).
  unfold pids in Hp. rewrite fmap_app, fmap_cons in Hp. apply NoDup_middle in Hp as (Hp1 & Hp2 & Hp).
  assert (Hin : forall q c, (q, c) ∈ l1 ++ l2 -> q <> p /\ (q, c) ∈ l1 ++ (p, b) :: l2).
  { intros q c Hqc. split; [|apply elem_of_middle; by right]. intros ->.
    apply elem_of_app in Hqc as [Hqc|Hqc]; by apply (list_elem_of_fmap_2 fst) in Hqc. }
  constructor; cbn [ps_list ps_descriptions ps_pids ps_fresh set_process_pids set_processes].
  - unfold keys. by rewrite fmap_app.
  - by rewrite Hperm.
  - intros d. rewrite Hperm. apply Hlv.
  - intros d q Hd. specialize (Ht d q Hd). unfold keys in Ht |- *. rewrite fmap_app, fmap_cons in Ht.
    apply elem_of_middle in Ht as [->|Ht]; [by apply Hnone in Hd|]. by rewrite fmap_app.
  - intros q c [_ Hqc]%Hin. by apply Hr.
  - intros q c [Hne Hqc]%Hin _. apply (Hz q c Hqc). congruence.
  - unfold pids. by rewrite fmap_app.
  - done.
  - intros i Hi. rewrite Hmem, andb_true_iff, Hu by done. unfold pids. rewrite !fmap_app, fmap_cons, elem_of_middle.
    destruct (Z.eqb_spec i (m_pid b)) as [->|Hne]; cbn [negb].
    + split; [by intros [_ ?]|]. intros Hi'. exfalso. apply elem_of_app in Hi' as [?|?]; done.
    + split; [by intros [[?|?] _]|]. intros Hi'. split; [by right|done].
  - intros q c [_ Hqc]%Hin. rewrite Hlim. by eapply Hrg.
  - intros q c [_ Hqc]%Hin. by eapply Hh.
  - intros a [Ha|Ha]; apply Hf; [left|by right]. unfold keys in Ha |- *. rewrite !fmap_app, fmap_cons in *.
    apply elem_of_middle. by right.
  - done.
Qed.

(** ** One zombie after another *)

(** A process of [ps] is in [ps'] but for its count of descriptions, or it was a zombie and
    is gone; there are no others. *)
Record shrinks ps ps' : Prop := {
  sh_block p : match find_block ps p with
               | Some b => (exists r, find_block ps' p = Some (block_with_references r b)) \/
                           (m_state b = PZombie /\ find_block ps' p = None)
               | None => find_block ps' p = None
               end;
  sh_length : (length (ps_list ps') <= length (ps_list ps))%nat;
  sh_descriptions : ps_descriptions ps' ⊆ ps_descriptions ps;
  sh_live u : live_thread u (ps_services ps) -> live_thread u (ps_services ps');
}.

Lemma block_references_same b : block_with_references (m_descriptor_references b) b = b.
Proof. by destruct b. Qed.

Lemma shrinks_refl ps : shrinks ps ps.
Proof.
  constructor; [|done|done|done]. intros p. destruct (find_block ps p) as [b|]; [|done]. left.
  exists (m_descriptor_references b). by rewrite block_references_same.
Qed.

Lemma shrinks_trans ps1 ps2 ps3 : shrinks ps1 ps2 -> shrinks ps2 ps3 -> shrinks ps1 ps3.
Proof.
  intros [Hb1 Hl1 Hd1 Hv1] [Hb2 Hl2 Hd2 Hv2]. constructor; [|lia|by etransitivity|auto]. intros p. specialize (Hb1 p). specialize (Hb2 p).
  destruct (find_block ps1 p) as [b|]; [|by rewrite Hb1 in Hb2].
  destruct Hb1 as [[r Er]|[Hz Er]]; rewrite Er in Hb2; [|right; by split].
  destruct Hb2 as [[r' Er']|[Hz Er']]; [left; by exists r'|right; by split].
Qed.

Lemma ok_services leaving pending ps s :
  processes_ok leaving pending ps -> processes_ok leaving pending (set_process_services ps s).
Proof. by intros []. Qed.

Lemma find_put ps p b b' q :
  find_block ps p = Some b -> find_block (with_block ps p b') q = if q =? p then Some b' else find_block ps q.
Proof.
  unfold find_block, with_block, set_processes. cbn [ps_list]. intros Hb.
  induction (ps_list ps) as [|[a c] l IH]; [done|]. cbn [fmap list_fmap List.find fst] in *.
  destruct (Z.eqb_spec a p) as [->|Hne]; cbn [List.find fst].
  - rewrite (Z.eqb_sym q). destruct (Z.eqb_spec p q) as [->|Hpq]; [done|]. clear IH Hb. cbn.
    induction l as [|[a' c'] l IH]; [done|]. cbn [fmap list_fmap List.find fst].
    destruct (Z.eqb_spec a' p) as [->|Hne']; cbn [List.find fst].
    + by rewrite (proj2 (Z.eqb_neq p q) Hpq).
    + destruct (a' =? q); [done|apply IH].
  - destruct (Z.eqb_spec a q) as [->|Hne']; [by rewrite (proj2 (Z.eqb_neq q p) Hne)|by apply IH].
Qed.

Lemma find_removed ps p q :
  find_block (set_processes ps (List.filter (fun e => negb (e.1 =? p)) (ps_list ps))) q
  = if q =? p then None else find_block ps q.
Proof.
  unfold find_block, set_processes. cbn [ps_list].
  induction (ps_list ps) as [|[a c] l IH]; [by destruct (q =? p)|]. cbn [List.filter List.find fst].
  destruct (Z.eqb_spec a p) as [->|Hne]; cbn [negb List.find fst].
  - rewrite IH, (Z.eqb_sym q). destruct (Z.eqb_spec p q) as [->|Hpq]; [done|done].
  - destruct (Z.eqb_spec a q) as [->|Hne']; [by rewrite (proj2 (Z.eqb_neq q p) Hne)|done].
Qed.

Lemma find_target leaving pending ps d p :
  processes_ok leaving pending ps -> ps_descriptions ps !! d = Some p -> exists b, find_block ps p = Some b.
Proof.
  intros Hok Hd. pose proof (po_target _ _ _ Hok d p Hd) as Hin. unfold keys in Hin.
  apply list_elem_of_fmap in Hin as ([q b] & E & Hin). simpl in E. subst q.
  apply list_elem_of_split in Hin as (l1 & l2 & E). exists b. unfold find_block.
  pose proof (po_keys _ _ _ Hok) as Hk. rewrite E in *. by apply find_middle.
Qed.

Lemma destroy_files_returns fs (s : T) :
  exists s', destroy_files fs s = Done s' /\ forall u, live_thread u s -> live_thread u s'.
Proof.
  revert s. induction fs as [|f fs IH]; intros s; [by exists s|]. cbn [destroy_files].
  destruct (rs_destroy_file f s) as (s1 & E & Hl). rewrite E. destruct (IH s1) as (s2 & E2 & Hl2).
  exists s2. split; [exact E2|auto].
Qed.

(** ** The threads of the processes *)

(** The listed threads and the waiting ones are live; no thread is listed twice; a process
    that has ended has none and nobody waits for it. *)
Record threads_ok ps : Prop := {
  to_live p b t : find_block ps p = Some b -> t ∈ m_threads b \/ t ∈ m_singal_waiting_queue b -> live_thread t (ps_services ps);
  to_distinct p b : find_block ps p = Some b -> NoDup (m_threads b);
  to_apart p b q c t : find_block ps p = Some b -> find_block ps q = Some c -> t ∈ m_threads b -> t ∈ m_threads c -> p = q;
  to_zombie p b : find_block ps p = Some b -> m_state b = PZombie -> m_threads b = [] /\ m_singal_waiting_queue b = [];
}.

(** Nothing new is listed or waits. *)
Lemma threads_keep ps ps' :
  threads_ok ps -> (forall u, live_thread u (ps_services ps) -> live_thread u (ps_services ps')) ->
  (forall p b', find_block ps' p = Some b' -> exists b, find_block ps p = Some b /\ m_threads b' = m_threads b /\
     m_singal_waiting_queue b' ⊆ m_singal_waiting_queue b /\ m_state b' = m_state b) ->
  threads_ok ps'.
Proof.
  intros [Hl Hd Ha Hz] Hlive Hk. constructor.
  - intros p b' t Hb Ht. destruct (Hk p b' Hb) as (b & Hb0 & Et & Ew & _). apply Hlive, (Hl p b); [done|].
    rewrite Et in Ht. destruct Ht as [Ht|Ht]; [by left|right; by apply Ew].
  - intros p b' Hb. destruct (Hk p b' Hb) as (b & Hb0 & -> & _). by eapply Hd.
  - intros p b' q c' t Hb Hc. destruct (Hk p b' Hb) as (b & Hb0 & -> & _). destruct (Hk q c' Hc) as (c & Hc0 & -> & _).
    by eapply Ha.
  - intros p b' Hb. destruct (Hk p b' Hb) as (b & Hb0 & -> & Hw & ->). intros Es. destruct (Hz p b Hb0 Es) as [E1 E2].
    split; [done|]. rewrite E2 in Hw. by apply list_nil_subseteq in Hw.
Qed.

Lemma threads_put ps p b b' :
  threads_ok ps -> find_block ps p = Some b -> m_threads b' = m_threads b ->
  m_singal_waiting_queue b' = m_singal_waiting_queue b -> m_state b' = m_state b -> threads_ok (with_block ps p b').
Proof.
  intros Hok Hb Et Ew Es. apply (threads_keep ps); [done|done|]. intros q c. rewrite (find_put ps p b) by done.
  destruct (Z.eqb_spec q p) as [->|Hne].
  - intros [= <-]. exists b. by rewrite Ew.
  - intros Hc. by exists c.
Qed.

Lemma threads_services ps s :
  threads_ok ps -> (forall u, live_thread u (ps_services ps) -> live_thread u s) -> threads_ok (set_process_services ps s).
Proof. intros Hok Hl. apply (threads_keep ps); [done|done|]. intros p b Hb. by exists b. Qed.

Lemma shrinks_threads ps ps' : shrinks ps ps' -> threads_ok ps -> threads_ok ps'.
Proof.
  intros Hs Hok. apply (threads_keep ps); [done|by apply sh_live|]. intros p b' Hb'. pose proof (sh_block _ _ Hs p) as Hp.
  destruct (find_block ps p) as [b|]; [|by rewrite Hb' in Hp].
  destruct Hp as [[r Er]|[_ Er]]; rewrite Er in Hb'; [|done]. injection Hb' as <-. by exists b.
Qed.

(** A new process, with threads that were not there before. *)
Lemma threads_append ps b s pool :
  processes_ok None [] ps -> threads_ok ps -> (forall u, live_thread u (ps_services ps) -> live_thread u s) ->
  NoDup (m_threads b) -> m_singal_waiting_queue b = [] -> m_state b = PReady ->
  (forall t, t ∈ m_threads b -> ~ live_thread t (ps_services ps) /\ live_thread t s) ->
  threads_ok (append_block (set_process_services (set_process_pids ps pool) s) b).2.
Proof.
  intros Hok [Hl Hd Ha Hz] Hlive Hnd Hw Es Hnew. set (a := ps_fresh ps).
  assert (Hf : forall q, find_block (append_block (set_process_services (set_process_pids ps pool) s) b).2 q =
    match find_block ps q with Some c => Some c | None => if a =? q then Some b else None end).
  { intros q. unfold find_block. cbn [append_block snd ps_list set_process_services set_process_pids ps_fresh]. fold a.
    induction (ps_list ps) as [|[k c] l IH]; cbn [app List.find fst]; [by destruct (a =? q)|]. by destruct (k =? q). }
  assert (Hcase : forall q c, find_block (append_block (set_process_services (set_process_pids ps pool) s) b).2 q = Some c ->
    find_block ps q = Some c \/ (q = a /\ c = b)).
  { intros q c. rewrite Hf. destruct (find_block ps q) as [c'|]; [by left|]. destruct (Z.eqb_spec a q) as [<-|]; [|done].
    intros [= <-]. by right. }
  constructor.
  - intros q c t [Hc|[-> ->]]%Hcase Ht; [apply Hlive; by eapply Hl|]. apply Hnew. destruct Ht as [Ht|Ht]; [done|].
    rewrite Hw in Ht. by apply elem_of_nil in Ht.
  - intros q c [Hc|[-> ->]]%Hcase; [by eapply Hd|done].
  - intros p c q d t [Hc|[-> ->]]%Hcase [Hd'|[-> ->]]%Hcase Hp Hq; [by eapply Ha|exfalso|exfalso|done].
    + apply (proj1 (Hnew t Hq)). eapply Hl; eauto.
    + apply (proj1 (Hnew t Hp)). eapply Hl; eauto.
  - intros q c [Hc|[-> ->]]%Hcase; [by eapply Hz|]. congruence.
Qed.

(** What is true of a way to destroy one description is true of many. *)
Definition destroys (cleanup : Z -> Processes P T -> exec (Processes P T)) (n : nat) : Prop :=
  forall d pending ps, processes_ok None (d :: pending) ps -> (length (ps_list ps) <= n)%nat ->
  exists ps', ProcessDescription_destroy cleanup d ps = Done ps' /\ processes_ok None pending ps' /\ shrinks ps ps' /\
    ps_descriptions ps' ⊆ delete d (ps_descriptions ps).

Lemma destroy_descriptions_ok cleanup n ds pending ps :
  destroys cleanup n -> processes_ok None (ds ++ pending) ps -> (length (ps_list ps) <= n)%nat ->
  exists ps', destroy_descriptions cleanup ds ps = Done ps' /\ processes_ok None pending ps' /\ shrinks ps ps'.
Proof.
  intros Hd. revert ps. induction ds as [|d ds IH]; intros ps Hok Hn; [exists ps; by split; [|split; [|apply shrinks_refl]]|].
  destruct (Hd d (ds ++ pending) ps Hok Hn) as (ps1 & E1 & Hok1 & Hs1 & _). cbn [destroy_descriptions]. rewrite E1.
  pose proof (sh_length _ _ Hs1). destruct (IH ps1 Hok1) as (ps2 & E2 & Hok2 & Hs2); [lia|].
  exists ps2. split; [done|]. split; [done|]. by eapply shrinks_trans.
Qed.

(** A zombie without descriptions is destroyed with all that it owns. *)
Lemma cleanup_ok n pending ps p b :
  destroys (Process_cleanup n) n -> processes_ok (Some p) pending ps -> find_block ps p = Some b ->
  m_descriptor_references b = 0 -> (length (ps_list ps) <= S n)%nat ->
  exists ps', Process_cleanup (S n) p ps = Done ps' /\ processes_ok None pending ps' /\ find_block ps' p = None /\
    (length (ps_list ps') < length (ps_list ps))%nat /\ ps_descriptions ps' ⊆ ps_descriptions ps /\
    (forall u, live_thread u (ps_services ps) -> live_thread u (ps_services ps')) /\
    forall q, q <> p -> match find_block ps q with
      | Some c => (exists r, find_block ps' q = Some (block_with_references r c)) \/ (m_state c = PZombie /\ find_block ps' q = None)
      | None => find_block ps' q = None end.
Proof.
  intros Hdes Hok Hb Hzero Hn. cbn [Process_cleanup]. unfold get_block. rewrite Hb. cbn [mbind exec_bind].
  destruct (block_split _ _ _ _ _ Hok Hb) as (l1 & l2 & E & _).
  assert (Hin : (p, b) ∈ ps_list ps) by (rewrite E; apply elem_of_middle; by left).
  pose proof (po_range _ _ _ Hok p b Hin) as Hpid. unfold Process_destroy. cbn [ps_pids set_processes].
  rewrite pool_check_law by (apply Hok || lia). cbn [mbind exec_bind].
  assert (Hmem : pool_mem (ps_pids ps) (m_pid b) = true).
  { apply (po_used _ _ _ Hok); [lia|]. unfold pids. by apply (list_elem_of_fmap_2 (fun e => m_pid e.2)) in Hin. }
  rewrite Hmem. cbn [ASSERT mbind exec_bind].
  destruct (pool_clear_law (ps_pids ps) (m_pid b)) as (pool & Ec & Hwf & Hlim & Hm); [apply Hok|lia|].
  rewrite Ec. cbn [mbind exec_bind].
  pose proof (ok_removed pending ps p b pool Hok Hb Hzero Hwf Hlim Hm) as Hok1.
  set (ps1 := set_process_pids _ pool) in *.
  assert (Hlen : length (ps_list ps1) = pred (length (ps_list ps))).
  { unfold ps1. cbn. pose proof (po_keys _ _ _ Hok) as Hk. rewrite E in *. rewrite remove_middle by done.
    rewrite !length_app. simpl. lia. }
  assert (Hpos : (0 < length (ps_list ps))%nat) by (rewrite E, length_app; simpl; lia).
  destruct (destroy_descriptions_ok (Process_cleanup n) n (process_description_table (m_handles b)) pending ps1)
    as (ps2 & E2 & Hok2 & Hs2); [done|done|lia|].
  rewrite E2. cbn [mbind exec_bind].
  destruct (destroy_files_returns (file_description_table (m_handles b)) (ps_services ps2)) as (s' & Es & Hls). rewrite Es.
  cbn [mbind exec_bind]. exists (set_process_services ps2 s'). split; [done|]. split; [by apply ok_services|].
  pose proof (sh_length _ _ Hs2).
  assert (Hf1 : forall q, find_block ps1 q = if q =? p then None else find_block ps q) by (intros q; apply (find_removed ps)).
  split; [|split; [|split; [|split]]].
  - pose proof (sh_block _ _ Hs2 p) as Hp. by rewrite Hf1, Z.eqb_refl in Hp.
  - cbn. lia.
  - apply (sh_descriptions _ _ Hs2).
  - intros u Hu. apply Hls, (sh_live _ _ Hs2). exact Hu.
  - intros q Hq. pose proof (sh_block _ _ Hs2 q) as Hq2. by rewrite Hf1, (proj2 (Z.eqb_neq q p) Hq) in Hq2.
Qed.

Lemma leave_nobody p pending ps b :
  processes_ok (Some p) pending ps -> find_block ps p = Some b ->
  (m_state b = PZombie -> m_descriptor_references b <> 0) -> processes_ok None pending ps.
Proof.
  intros Hok Hb Hz. pose proof (block_split _ _ _ _ _ Hok Hb) as (l1 & l2 & E & _).
  destruct Hok as [Hk Ho Hlv Ht Hr Hz' Hp Hpool Hu Hrg Hh Hf Hpo]. constructor; try done.
  intros q c Hqc _ Hs. destruct (decide (q = p)) as [->|Hne]; [|apply (Hz' q c Hqc); [congruence|done]].
  rewrite E in *. rewrite (unique_block l1 l2 p b c) in * by done. by apply Hz.
Qed.

Lemma length_put ps p b : length (ps_list (with_block ps p b)) = length (ps_list ps).
Proof. cbn. apply length_fmap. Qed.

Lemma destroys_cleanup n : destroys (Process_cleanup n) n.
Proof.
  induction n as [|n IH]; intros d pending ps Hok Hn.
  - exfalso. assert (Hd : is_Some (ps_descriptions ps !! d)) by (apply Hok, elem_of_app; right; left).
    destruct Hd as [p Hp]. pose proof (po_target _ _ _ Hok d p Hp) as Hin.
    destruct (ps_list ps); [by apply elem_of_nil in Hin|simpl in Hn; lia].
  - assert (Hd : is_Some (ps_descriptions ps !! d)) by (apply Hok, elem_of_app; right; left).
    destruct Hd as [p Hp]. destruct (find_target _ _ _ _ _ Hok Hp) as [b Hb].
    destruct (ok_dereferenced pending ps d p b Hok Hp Hb) as [Hok1 Hn0].
    unfold ProcessDescription_destroy, description_process. rewrite Hp. cbn [mbind exec_bind].
    unfold Process_descriptor_dereferenced, get_block.
    change (find_block (set_descriptions ps _) p) with (find_block ps p). rewrite Hb. cbn [mbind exec_bind].
    unfold truthy. rewrite (proj2 (Z.eqb_neq _ 0) Hn0). cbn [negb ASSERT mbind exec_bind].
    set (b' := block_with_references _ b) in *. set (ps1 := with_block _ p b') in *.
    assert (Hf1 : forall q, find_block ps1 q = if q =? p then Some b' else find_block ps q).
    { intros q. by apply (find_put (set_descriptions ps _) p b). }
    assert (Hl1 : length (ps_list ps1) = length (ps_list ps)) by (unfold ps1; by rewrite length_put).
    assert (Hb1 : find_block ps1 p = Some b') by by rewrite Hf1, Z.eqb_refl.
    destruct (bool_decide (m_state b' = PZombie) && (m_descriptor_references b' =? 0)) eqn:Ez.
    + apply andb_true_iff in Ez as [Ez%bool_decide_eq_true_1 E0%Z.eqb_eq].
      destruct (cleanup_ok n pending ps1 p b' IH Hok1 Hb1 E0) as (ps2 & E2 & Hok2 & Hgone & Hlen & Hsub & Hlive & Hrest); [lia|].
      exists ps2. split; [exact E2|]. split; [done|]. split; [|exact Hsub].
      constructor; [|lia|etransitivity; [exact Hsub|apply delete_subseteq]|exact Hlive]. intros q.
      destruct (decide (q = p)) as [->|Hne]; [rewrite Hb; by right|].
      specialize (Hrest q Hne). by rewrite Hf1, (proj2 (Z.eqb_neq q p) Hne) in Hrest.
    + exists ps1. split; [done|]. split; [|split; [|done]].
      * apply (leave_nobody p pending ps1 b'); [done|done|]. intros Ezs. rewrite (bool_decide_eq_true_2 _ Ezs) in Ez.
        by apply Z.eqb_neq.
      * constructor; [|lia|apply delete_subseteq|done]. intros q. rewrite Hf1. destruct (Z.eqb_spec q p) as [->|Hne].
        -- rewrite Hb. left. by eexists.
        -- destruct (find_block ps q) as [c|]; [|done]. left. exists (m_descriptor_references c).
           by rewrite block_references_same.
Qed.

(** ** Handles to processes *)

Lemma live_process_removed (os : list (option object)) k o :
  os !! k = Some (Some o) ->
  match o with
  | Process d => omap live_process os ≡ₚ d :: omap live_process (<[k := None]> os)
  | File _ => omap live_process os = omap live_process (<[k := None]> os)
  end.
Proof.
  intros Hk. apply list_elem_of_split_length in Hk as (a & c & -> & ->).
  rewrite (insert_app_r_alt a (_ :: c)), Nat.sub_diag by lia. cbn [list_insert insert].
  rewrite !omap_app. destruct o as [f|d]; cbn; [done|]. by rewrite Permutation_middle.
Qed.

(** The table of a process has changed. *)
Lemma ok_handles pending pending' ps p b m os :
  processes_ok None pending ps -> find_block ps p = Some b -> handles_rep m os ->
  process_description_table (m_handles b) ++ pending ≡ₚ process_description_table m ++ pending' ->
  processes_ok None pending' (with_block ps p (block_with_handles b m)).
Proof.
  intros Hok Hb Hm Hperm. destruct (block_split _ _ _ _ _ Hok Hb) as (l1 & l2 & E & Eput).
  assert (Hin : (p, b) ∈ ps_list ps) by (rewrite E; apply elem_of_middle; by left).
  set (b' := block_with_handles b m).
  assert (Ht : tables (ps_list (with_block ps p b')) ++ pending' ≡ₚ tables (ps_list ps) ++ pending).
  { rewrite Eput, E, !tables_middle. unfold b'. cbn [m_handles block_with_handles].
    transitivity ((tables l1 ++ tables l2) ++ process_description_table m ++ pending'); [solve_Permutation|].
    rewrite <- Hperm. solve_Permutation. }
  eapply (ok_change None None pending pending' ps _ l1 l2 p b b'); try done.
  - by exists os.
  - rewrite Ht. apply Hok.
  - intros d. rewrite Ht. apply Hok.
  - intros d q Hd. by right.
  - intros d Hd. by left.
  - exact (po_references _ _ _ Hok p b Hin).
  - intros _ Hs. apply (po_zombie _ _ _ Hok p b Hin); done.
Qed.

Lemma block_handles leaving pending ps p b :
  processes_ok leaving pending ps -> find_block ps p = Some b -> exists os, handles_rep (m_handles b) os.
Proof.
  intros Hok Hb. destruct (find_split _ _ _ Hb) as (l1 & l2 & E). apply (po_handles _ _ _ Hok p b).
  rewrite E. apply elem_of_middle. by left.
Qed.

(** Closing the handle of a process. *)
Lemma close_process_ok ps cur b os handle d :
  processes_ok None [] ps -> find_block ps cur = Some b -> handles_rep (m_handles b) os -> 0 <= handle ->
  os !! Z.to_nat handle = Some (Some (Process d)) ->
  exists m ps', close_handle ps cur handle = Done (Value 0, ps') /\ processes_ok None [] ps' /\
    shrinks (with_block ps cur (block_with_handles b m)) ps' /\ ps_descriptions ps' ⊆ delete d (ps_descriptions ps).
Proof.
  intros Hok Hb Hos Hh Eo. unfold close_handle, get_block. rewrite Hb. cbn [mbind exec_bind].
  destruct (handles_read _ os Hos handle Hh) as [Ec _]. rewrite Ec, Eo. cbn [mbind exec_bind option_bind id object_type].
  assert (Hlt : handle < alen os) by (apply lookup_lt_Some in Eo; unfold alen; lia).
  pose proof (remove_handle_rep _ os Hos handle (conj Hh Hlt)) as Hrm. rewrite Eo in Hrm.
  destruct Hrm as (m' & Erm & Hm'). rewrite bool_decide_eq_false_2 by done. rewrite Erm. cbn [mbind exec_bind foldr].
  pose proof (live_process_removed os (Z.to_nat handle) _ Eo) as Hperm.
  rewrite <- (hm_processes _ _ Hos), <- (hm_processes _ _ Hm') in Hperm.
  assert (Hok1 : processes_ok None [d] (with_block ps cur (block_with_handles b m'))).
  { eapply ok_handles; [done|done|exact Hm'|]. rewrite Hperm. solve_Permutation. }
  destruct (destroys_cleanup (cleanup_fuel (with_block ps cur (block_with_handles b m'))) d [] _ Hok1)
    as (ps' & E' & Hok' & Hs' & Hd'); [done|].
  rewrite E'. cbn [mbind exec_bind]. by exists m', ps'.
Qed.

(** Closing any handle. *)
Lemma close_handle_ok ps cur b handle :
  processes_ok None [] ps -> find_block ps cur = Some b -> 0 <= handle ->
  exists r ps', close_handle ps cur handle = Done (r, ps') /\ processes_ok None [] ps' /\ (threads_ok ps -> threads_ok ps').
Proof.
  intros Hok Hb Hh. destruct (block_handles _ _ _ _ _ Hok Hb) as [os Hos].
  destruct (os !! Z.to_nat handle) as [[[f|d]|]|] eqn:Eo.
  2: { destruct (close_process_ok ps cur b os handle d) as (m & ps' & E & Hok' & Hs & _); [done..|].
       eexists _, ps'. split; [done|]. split; [done|]. intros Ht. eapply shrinks_threads; [exact Hs|]. by eapply threads_put. }
  all: unfold close_handle, get_block; rewrite Hb; cbn [mbind exec_bind];
    destruct (handles_read _ os Hos handle Hh) as [Ec _]; rewrite Ec, Eo;
    cbn [mbind exec_bind option_bind id object_type].
  2, 3: by eauto.
  assert (Hlt : handle < alen os) by (apply lookup_lt_Some in Eo; unfold alen; lia).
  pose proof (remove_handle_rep _ os Hos handle (conj Hh Hlt)) as Hrm. rewrite Eo in Hrm.
  destruct Hrm as (m' & Erm & Hm'). rewrite bool_decide_eq_false_2 by done. rewrite Erm. cbn [mbind exec_bind foldr].
  pose proof (live_process_removed os (Z.to_nat handle) _ Eo) as Hperm.
  rewrite <- (hm_processes _ _ Hos), <- (hm_processes _ _ Hm') in Hperm.
  destruct (rs_destroy_file f (ps_services (with_block ps cur (block_with_handles b m')))) as (s' & Es & Hl).
  rewrite Es. cbn [mbind exec_bind]. eexists _, _. split; [done|]. split.
  - apply ok_services. eapply ok_handles; [done|done|exact Hm'|]. by rewrite Hperm.
  - intros Ht. apply threads_services; [by eapply threads_put|exact Hl].
Qed.

(** ** Opening a process *)

Lemma find_pid leaving pending ps pid :
  processes_ok leaving pending ps ->
  match Process_get_process_from_pid ps pid with
  | Value p => exists b, find_block ps p = Some b /\ m_pid b = pid
  | Error e => e = ERROR_INVALID_PID /\ pid ∉ pids (ps_list ps)
  end.
Proof.
  intros Hok. unfold Process_get_process_from_pid.
  destruct (List.find _ (ps_list ps)) as [[p b]|] eqn:Ef.
  - apply List.find_some in Ef as [Hin Epid%Z.eqb_eq]. exists b. split; [|done]. apply list_elem_of_In in Hin.
    apply list_elem_of_split in Hin as (l1 & l2 & E). unfold find_block. cbn [fst].
    pose proof (po_keys _ _ _ Hok) as Hk. rewrite E in *. by apply find_middle.
  - split; [done|]. intros Hin. unfold pids in Hin. apply list_elem_of_fmap in Hin as ([p b] & -> & Hin).
    apply list_elem_of_In in Hin. pose proof (List.find_none _ _ Ef _ Hin) as Hn. simpl in Hn. by rewrite Z.eqb_refl in Hn.
Qed.

(** A new description, which is still to be put into a table. *)
Lemma description_open_ok pending ps pid :
  processes_ok None pending ps ->
  match Process_get_process_from_pid ps pid with
  | Value p => exists b ps', ProcessDescription_open ps pid = Done (Value (ps_fresh ps), ps') /\
      processes_ok None (ps_fresh ps :: pending) ps' /\ find_block ps p = Some b /\
      ps_descriptions ps' !! ps_fresh ps = Some p /\ ps_fresh ps' = ps_fresh ps + 1 /\ ps_services ps' = ps_services ps /\
      (forall q, find_block ps' q =
         if q =? p then Some (block_with_references (m_descriptor_references b + 1) b) else find_block ps q)
  | Error e => ProcessDescription_open ps pid = Done (Error e, ps)
  end.
Proof.
  intros Hok. pose proof (po_positive _ _ _ Hok) as Hpos. pose proof (find_pid _ _ _ pid Hok) as Hpid. unfold ProcessDescription_open.
  destruct (Process_get_process_from_pid ps pid) as [p|e]; [|done]. destruct Hpid as (b & Hb & Hbp).
  exists b. unfold Process_descriptor_referenced, get_block. cbv zeta.
  change (find_block (mkProcesses (ps_list ps) _ _ _ _) p) with (find_block ps p). rewrite Hb. cbn [mbind exec_bind].
  destruct (block_split _ _ _ _ _ Hok Hb) as (l1 & l2 & E & Eput).
  assert (Hin : (p, b) ∈ ps_list ps) by (rewrite E; apply elem_of_middle; by left).
  set (d := ps_fresh ps). set (b' := block_with_references _ b).
  assert (Hnew : ps_descriptions ps !! d = None).
  { destruct (ps_descriptions ps !! d) as [q|] eqn:Eq; [|done].
    pose proof (po_fresh _ _ _ Hok d (or_intror (mk_is_Some _ _ Eq))). unfold d in *. lia. }
  eexists. split; [done|]. split; [|split; [done|split; [apply lookup_insert_eq|split; [done|split; [done|]]]]].
  - set (ps' := with_block _ p b').
    assert (Et : tables (ps_list ps') = tables (ps_list ps)).
    { change (ps_list ps') with (ps_list (with_block ps p b')). by rewrite Eput, E, !tables_middle. }
    assert (Hnin : d ∉ tables (ps_list ps) ++ pending) by (intros Hd%(po_live _ _ _ Hok); by rewrite Hnew in Hd; destruct Hd).
    eapply (ok_change None None pending (d :: pending) ps ps' l1 l2 p b b'); try done.
    + apply Eput.
    + unfold ps', d. cbn. lia.
    + exact (po_handles _ _ _ Hok p b Hin).
    + rewrite Et, <- Permutation_middle. apply NoDup_cons. split; [done|apply Hok].
    + intros d'. rewrite Et. unfold ps'. cbn. rewrite elem_of_middle, lookup_insert_is_Some'.
      rewrite (po_live _ _ _ Hok). split; (intros [?|?]; [left; congruence|by right]).
    + intros d' q Hq. unfold ps' in Hq. cbn in Hq. apply lookup_insert_Some in Hq as [[_ <-]|[_ Hq]]; [by left|by right].
    + intros d' [q Hq]. unfold ps' in *. cbn in *. apply lookup_insert_Some in Hq as [[<- _]|[_ Hq]].
      * right. unfold d. lia.
      * left. by exists q.
    + unfold ps', b'. cbn. rewrite references_insert by done. rewrite Z.eqb_refl.
      by rewrite (po_references _ _ _ Hok p b Hin).
    + intros q Hq. unfold ps'. cbn. rewrite references_insert by done. rewrite (proj2 (Z.eqb_neq q p)) by done. lia.
    + intros _ _. unfold b'. cbn. rewrite (po_references _ _ _ Hok p b Hin). unfold references. lia.
  - intros q. exact (find_put (mkProcesses (ps_list ps) _ _ _ _) p b b' q Hb).
Qed.

(** Room for one more handle. *)
Definition handle_room b : Prop := alen (handle_table (m_handles b)) + 1 < 2 ^ 31.

(** The handle of the process [cur] stands for the process [p]. *)
Definition refers ps (cur handle p : Z) : Prop :=
  exists b os d, find_block ps cur = Some b /\ handles_rep (m_handles b) os /\ 0 <= handle /\
    os !! Z.to_nat handle = Some (Some (Process d)) /\ ps_descriptions ps !! d = Some p.

Lemma open_process_ok ps cur bc pid :
  processes_ok None [] ps -> find_block ps cur = Some bc -> handle_room bc ->
  match Process_get_process_from_pid ps pid with
  | Value p => exists ps', OpenProcess ps cur pid = Done (Value (alen (handle_table (m_handles bc))), ps') /\
      processes_ok None [] ps' /\ refers ps' cur (alen (handle_table (m_handles bc))) p /\
      (threads_ok ps -> threads_ok ps') /\ ps_services ps' = ps_services ps /\
      (forall q c, find_block ps q = Some c -> exists c', find_block ps' q = Some c' /\
         m_state c' = m_state c /\ m_threads c' = m_threads c /\ m_pid c' = m_pid c /\ m_return_status c' = m_return_status c /\
         m_singal_waiting_queue c' = m_singal_waiting_queue c /\
         m_descriptor_references c' = m_descriptor_references c + (if q =? p then 1 else 0))
  | Error e => OpenProcess ps cur pid = Done (Error e, ps)
  end.
Proof.
  intros Hok Hbc Hroom. pose proof (po_positive _ _ _ Hok) as Hpos. pose proof (description_open_ok [] ps pid Hok) as Hd. unfold OpenProcess.
  destruct (Process_get_process_from_pid ps pid) as [p|e]; [|by rewrite Hd].
  destruct Hd as (b & ps1 & E1 & Hok1 & Hb & Hdesc & Hfr & Hsv & Hf1). rewrite E1. cbn [mbind exec_bind].
  assert (Hbc1 : exists bc1, find_block ps1 cur = Some bc1 /\ m_handles bc1 = m_handles bc).
  { rewrite Hf1. destruct (Z.eqb_spec cur p) as [->|Hne]; [|by exists bc]. rewrite Hb in Hbc. injection Hbc as ->. by eexists. }
  destruct Hbc1 as (bc1 & Hbc1 & Eh). unfold get_block. rewrite Hbc1. cbn [mbind exec_bind]. rewrite Eh.
  destruct (block_handles _ _ _ _ _ Hok Hbc) as [os Hos]. set (d := ps_fresh ps) in *.
  assert (Hlen : alen (handle_table (m_handles bc)) = alen os).
  { unfold alen. f_equal. apply (Forall2_length _ _ _ (hm_table _ _ Hos)). }
  assert (Hnin : Some (Process d) ∉ os).
  { intros Hin. assert (Hin' : d ∈ process_description_table (m_handles bc)).
    { rewrite (hm_processes _ _ Hos). apply list_elem_of_omap. exists (Some (Process d)). done. }
    assert (Hlv : is_Some (ps_descriptions ps !! d)).
    { apply Hok. apply elem_of_app. left. unfold tables. apply list_elem_of_bind. exists (cur, bc). split; [done|].
      destruct (find_split _ _ _ Hbc) as (l1 & l2 & E). rewrite E. apply elem_of_middle. by left. }
    pose proof (po_fresh _ _ _ Hok d (or_intror Hlv)). unfold d in *. lia. }
  pose proof (handles_step_refines (m_handles bc) os (AddProcess d) Hos) as Hadd. cbn [objects_step handles_step] in Hadd.
  destruct Hadd as (m' & Em & Hm'); [by split; [unfold d; lia|]|unfold handle_room in Hroom; lia|].
  destruct (HandlesManager_add_process (m_handles bc) d) as [fp m1] eqn:Eadd. injection Em as Efp <-.
  assert (Hok2 : processes_ok None [] (with_block ps1 cur (block_with_handles bc1 m1))).
  { eapply ok_handles; [exact Hok1|exact Hbc1|exact Hm'|]. rewrite Eh.
    unfold HandlesManager_add_process in Eadd. injection Eadd as _ <-. cbn. by rewrite app_nil_r, Permutation_cons_append. }
  exists (with_block ps1 cur (block_with_handles bc1 m1)). rewrite Efp, Hlen. split; [done|]. split; [done|].
  assert (Hf2 : forall q, find_block (with_block ps1 cur (block_with_handles bc1 m1)) q =
    if q =? cur then Some (block_with_handles bc1 m1) else find_block ps1 q) by (intros q; by apply (find_put ps1 cur bc1)).
  split.
  - exists (block_with_handles bc1 m1), (os ++ [Some (Process d)]), d. rewrite Hf2, Z.eqb_refl. split; [done|].
    split; [exact Hm'|]. split; [apply alen_nonneg|]. unfold alen. rewrite Nat2Z.id, list_lookup_middle by done. done.
  - split; [|split; [exact Hsv|]].
    { intros Ht. eapply threads_put; [|exact Hbc1|done..]. apply (threads_keep ps); [done|by rewrite Hsv|].
      intros q c. rewrite Hf1. destruct (Z.eqb_spec q p) as [->|Hne]; [|intros Hc; by exists c].
      intros [= <-]. by exists b. }
    intros q c Hc. rewrite Hf2. destruct (Z.eqb_spec q cur) as [->|Hne].
    + rewrite Hf1 in Hbc1. destruct (Z.eqb_spec cur p) as [->|Hne].
      * rewrite Hb in Hc. injection Hc as ->. injection Hbc1 as <-. eexists. split; [done|]. done.
      * rewrite Hc in Hbc1. injection Hbc1 as <-. eexists. split; [done|]. cbn. repeat split; lia.
    + rewrite Hf1. destruct (Z.eqb_spec q p) as [->|Hnp].
      * rewrite Hb in Hc. injection Hc as ->. eexists. split; [done|]. done.
      * eexists. split; [done|]. repeat split; lia.
Qed.

(** ** The end of a process *)

Lemma wake_up_all_returns ts (s : T) :
  (forall t, t ∈ ts -> live_thread t s) ->
  exists s', wake_up_all ts s = Done s' /\ forall u, live_thread u s -> live_thread u s'.
Proof.
  revert s. induction ts as [|t ts IH]; intros s Hts; [by exists s|]. cbn [wake_up_all].
  destruct (rs_wake_up t s) as (s1 & E & Hl); [apply Hts; left|]. rewrite E.
  destruct (IH s1) as (s2 & E2 & Hl2); [intros u Hu; apply Hl, Hts; by right|]. exists s2. split; [exact E2|auto].
Qed.

Lemma pid_unique leaving pending ps p b q c :
  processes_ok leaving pending ps -> find_block ps p = Some b -> find_block ps q = Some c -> m_pid c = m_pid b -> q = p.
Proof.
  intros Hok Hb Hc Epid. destruct (decide (q = p)) as [|Hne]; [done|exfalso].
  destruct (block_split _ _ _ _ _ Hok Hb) as (k1 & k2 & Ek & _). destruct (find_split _ _ _ Hc) as (j1 & j2 & Ej).
  assert (Hq : (q, c) ∈ k1 ++ k2).
  { assert (Hq : (q, c) ∈ ps_list ps) by (rewrite Ej; apply elem_of_middle; by left).
    rewrite Ek in Hq. apply elem_of_middle in Hq as [[= -> ->]|Hq]; done. }
  pose proof (po_pids _ _ _ Hok) as Hnd. unfold pids in Hnd. rewrite Ek, fmap_app, fmap_cons in Hnd.
  apply NoDup_middle in Hnd as (Hn1 & Hn2 & _).
  assert (Hpq : m_pid b ∈ (fun e : Z * process_block => m_pid e.2) <$> k1 ++ k2).
  { apply list_elem_of_fmap. exists (q, c). simpl. split; [congruence|done]. }
  rewrite fmap_app in Hpq. by apply elem_of_app in Hpq as [?|?].
Qed.

Lemma pid_gone leaving pending ps ps' p b :
  processes_ok leaving pending ps -> find_block ps p = Some b ->
  (forall q c', find_block ps' q = Some c' -> q <> p /\ exists c, find_block ps q = Some c /\ m_pid c = m_pid c') ->
  NoDup (keys (ps_list ps')) -> m_pid b ∉ pids (ps_list ps').
Proof.
  intros Hok Hb Hsub Hk Hin. unfold pids in Hin. apply list_elem_of_fmap in Hin as ([q c'] & Epid & Hin).
  apply list_elem_of_split in Hin as (l1 & l2 & E). assert (Hc' : find_block ps' q = Some c').
  { unfold find_block. rewrite E in *. by apply find_middle. }
  destruct (Hsub q c' Hc') as (Hne & c & Hc & Epid'). apply Hne, (pid_unique _ _ _ _ _ _ _ Hok Hb Hc). simpl in Epid. congruence.
Qed.

(** A change of the threads and the waiting ones of every block. *)
Lemma ok_map leaving pending ps (g : process_block -> process_block) :
  (forall b, m_pid (g b) = m_pid b /\ m_handles (g b) = m_handles b /\
     m_descriptor_references (g b) = m_descriptor_references b /\ m_state (g b) = m_state b) ->
  processes_ok leaving pending ps -> processes_ok leaving pending (set_processes ps ((fun e => (e.1, g e.2)) <$> ps_list ps)).
Proof.
  intros Hg [Hk Ho Hlv Ht Hr Hz Hp Hpool Hu Hrg Hh Hf Hpo]. set (l := (fun e => (e.1, g e.2)) <$> ps_list ps).
  assert (Ek : keys l = keys (ps_list ps)) by (unfold keys, l; by rewrite <- list_fmap_compose).
  assert (Ep : pids l = pids (ps_list ps)).
  { unfold pids, l. rewrite <- list_fmap_compose. apply list_fmap_ext. intros _ e _. apply Hg. }
  assert (Et : tables l = tables (ps_list ps)).
  { unfold tables, l. clear -Hg. induction (ps_list ps) as [|e k IH]; [done|]. cbn. rewrite (proj1 (proj2 (Hg e.2))). by f_equal. }
  assert (Hin : forall q c, (q, c) ∈ l -> exists b, c = g b /\ (q, b) ∈ ps_list ps).
  { intros q c Hc. apply list_elem_of_fmap in Hc as ([k b] & [= -> ->] & Hb). by exists b. }
  constructor; cbn [set_processes ps_list ps_descriptions ps_pids ps_fresh]; fold l; rewrite ?Ek, ?Ep, ?Et; try done.
  - intros q c (b & -> & Hb)%Hin. destruct (Hg b) as (_ & _ & -> & _). by apply Hr.
  - intros q c (b & -> & Hb)%Hin. destruct (Hg b) as (_ & _ & -> & ->). by apply Hz.
  - intros q c (b & -> & Hb)%Hin. destruct (Hg b) as (-> & _). by eapply Hrg.
  - intros q c (b & -> & Hb)%Hin. destruct (Hg b) as (_ & -> & _). by eapply Hh.
Qed.

Lemma find_map ps (g : process_block -> process_block) q :
  find_block (set_processes ps ((fun e => (e.1, g e.2)) <$> ps_list ps)) q = g <$> find_block ps q.
Proof.
  unfold find_block, set_processes. cbn [ps_list]. induction (ps_list ps) as [|[k c] l IH]; [done|].
  cbn [fmap list_fmap List.find fst]. by destruct (k =? q).
Qed.

(** What remains of those that wait when the threads [ts] have ended. *)
Definition still_waiting (ts waiting : list Z) : list Z := List.filter (fun u => negb (bool_decide (u ∈ ts))) waiting.

Definition threads_gone (ts : list Z) p q b : process_block :=
  block_with_waiting (if q =? p then block_with_threads b [] else b) (still_waiting ts (m_singal_waiting_queue b)).

Lemma still_waiting_nil w : still_waiting [] w = w.
Proof. unfold still_waiting. induction w as [|u w IH]; [done|]. cbn. by rewrite IH. Qed.

Lemma still_waiting_cons t ts w :
  still_waiting ts (List.filter (fun u => negb (u =? t)) w) = still_waiting (t :: ts) w.
Proof.
  unfold still_waiting. induction w as [|u w IH]; [done|]. cbn [List.filter].
  destruct (Z.eqb_spec u t) as [->|Hne]; cbn [negb List.filter].
  - rewrite (bool_decide_eq_true_2 (t ∈ t :: ts)) by left. exact IH.
  - rewrite (bool_decide_ext (u ∈ t :: ts) (u ∈ ts)) by (rewrite elem_of_cons; tauto). by rewrite IH.
Qed.

Lemma unlisted t (ts : list Z) : t ∉ ts -> List.filter (fun u => negb (u =? t)) ts = ts.
Proof.
  induction ts as [|u ts IH]; [done|]. intros [Hne Hn]%not_elem_of_cons. cbn. rewrite (proj2 (Z.eqb_neq u t)) by congruence.
  cbn. by rewrite IH.
Qed.

(** One round of the loop. *)
Definition thread_ended (t : Z) p (s : T) ps b (ts : list Z) : Processes P T :=
  with_block (process_thread_terminated t (set_process_services ps s)) p (block_with_threads (forget_waiting t b) ts).

Lemma find_ended t ps s q :
  find_block (process_thread_terminated t (set_process_services ps s)) q = forget_waiting t <$> find_block ps q.
Proof. apply (find_map (set_process_services ps s)). Qed.

Lemma thread_ended_find t p s ps b ts q :
  find_block ps p = Some b ->
  find_block (thread_ended t p s ps b ts) q =
    if q =? p then Some (block_with_threads (forget_waiting t b) ts) else forget_waiting t <$> find_block ps q.
Proof.
  intros Hb. unfold thread_ended. rewrite (find_put _ p (forget_waiting t b)) by (rewrite find_ended, Hb; done).
  by rewrite find_ended.
Qed.

Lemma thread_ended_ok t ts p s ps b :
  processes_ok None [] ps -> threads_ok ps -> find_block ps p = Some b -> m_threads b = t :: ts ->
  (forall u, u <> t -> live_thread u (ps_services ps) -> live_thread u s) ->
  processes_ok None [] (thread_ended t p s ps b ts) /\ threads_ok (thread_ended t p s ps b ts).
Proof.
  intros Hok [Hl Hd Ha Hz] Hb Et Hlive.
  assert (Hnd := Hd p b Hb). rewrite Et in Hnd. apply NoDup_cons in Hnd as [Hnt Hnd].
  assert (Htb : t ∈ m_threads b) by (rewrite Et; left).
  assert (Hcase : forall q c, find_block (thread_ended t p s ps b ts) q = Some c ->
    exists c0, find_block ps q = Some c0 /\ m_state c = m_state c0 /\ (forall u, u ∈ m_threads c -> u <> t /\ u ∈ m_threads c0) /\
      m_singal_waiting_queue c = List.filter (fun u => negb (u =? t)) (m_singal_waiting_queue c0) /\ NoDup (m_threads c)).
  { intros q c. rewrite thread_ended_find by done. destruct (Z.eqb_spec q p) as [->|Hne].
    - intros [= <-]. exists b. split; [done|]. split; [done|]. split; [|done]. cbn. intros u Hu. rewrite Et. split; [|by right].
      by intros ->.
    - destruct (find_block ps q) as [c0|] eqn:Ec; [|done]. intros [= <-]. exists c0. split; [done|]. split; [done|].
      split; [|split; [done|exact (Hd q c0 Ec)]]. cbn. intros u Hu. split; [|done]. intros Eu. rewrite Eu in Hu.
      apply Hne. by eapply (Ha q c0 p b t). }
  split.
  - unfold thread_ended. pose proof (ok_map None [] (set_process_services ps s) (forget_waiting t) (fun b => ltac:(done))
      (ok_services _ _ _ s Hok)) as Hok1. fold (process_thread_terminated t (set_process_services ps s)) in Hok1.
    set (ps1 := process_thread_terminated t (set_process_services ps s)) in *.
    replace ps1 with (set_process_services ps1 (ps_services ps1)) at 1 by done.
    apply (ok_put None None [] ps1 _ p (forget_waiting t b)); try done.
    + unfold ps1. by rewrite find_ended, Hb.
    + intros _ Es. cbn in Es. destruct (Hz p b Hb Es) as [E _]. by rewrite E in Et.
  - constructor.
    + intros q c u (c0 & Hc0 & _ & Hth & Ew & _)%Hcase Hu. cbn.
      assert (Hu' : u <> t /\ (u ∈ m_threads c0 \/ u ∈ m_singal_waiting_queue c0)).
      { destruct Hu as [Hu|Hu]; [destruct (Hth u Hu); auto|]. rewrite Ew, list_elem_of_In, List.filter_In in Hu.
        destruct Hu as [Hu Hn]. apply list_elem_of_In in Hu. apply negb_true_iff, Z.eqb_neq in Hn. auto. }
      destruct Hu' as [Hne Hu']. apply Hlive; [done|]. by eapply Hl.
    + intros q c (c0 & _ & _ & _ & _ & Hc)%Hcase. exact Hc.
    + intros q c k d u (c0 & Hc0 & _ & Hth & _)%Hcase (d0 & Hd0 & _ & Hth' & _)%Hcase Hu Hu'.
      destruct (Hth u Hu) as [_ Hu1]. destruct (Hth' u Hu') as [_ Hu2]. by eapply Ha.
    + intros q c (c0 & Hc0 & Es & Hth & Ew & _)%Hcase Ez. rewrite Es in Ez. destruct (Hz q c0 Hc0 Ez) as [E1 E2].
      rewrite Ew, E2. split; [|done]. destruct (m_threads c) as [|u l]; [done|]. destruct (Hth u ltac:(left)) as [_ Hu].
      rewrite E1 in Hu. by apply elem_of_nil in Hu.
Qed.

(** The whole loop: all threads of the process are ended. *)
Lemma terminate_threads_ok nodes ps p b :
  processes_ok None [] ps -> threads_ok ps -> find_block ps p = Some b -> m_threads b = nodes ->
  exists ps', terminate_threads nodes p ps = Done ps' /\ processes_ok None [] ps' /\ threads_ok ps' /\
    ps_descriptions ps' = ps_descriptions ps /\
    forall q, find_block ps' q = threads_gone nodes p q <$> find_block ps q.
Proof.
  revert ps b. induction nodes as [|t nodes IH]; intros ps b Hok Ht Hb Et.
  - exists ps. split; [done|]. split; [done|]. split; [done|]. split; [done|]. intros q. unfold threads_gone.
    destruct (Z.eqb_spec q p) as [->|Hne].
    + rewrite Hb. cbn. rewrite still_waiting_nil, <- Et. by destruct b.
    + destruct (find_block ps q) as [c|]; [|done]. cbn. rewrite still_waiting_nil. by destruct c.
  - cbn [terminate_threads]. destruct (rs_terminate t (ps_services ps)) as (s & E & Hlive).
    { eapply (to_live _ Ht p b); [done|]. left. rewrite Et. left. }
    rewrite E. cbn [mbind exec_bind]. destruct (thread_ended_ok t nodes p s ps b Hok Ht Hb Et Hlive) as [Hok1 Ht1].
    assert (Eu : process_unlist_thread (process_thread_terminated t (set_process_services ps s)) p t = Done (thread_ended t p s ps b nodes)).
    { unfold process_unlist_thread, get_block. rewrite find_ended, Hb. cbn [fmap option_fmap option_map mbind exec_bind].
      change (m_threads (forget_waiting t b)) with (m_threads b). rewrite Et. cbn [List.filter]. rewrite Z.eqb_refl. cbn [negb].
      pose proof (to_distinct _ Ht p b Hb) as Hnd. rewrite Et in Hnd. apply NoDup_cons in Hnd as [Hn _].
      by rewrite unlisted. }
    rewrite Eu. cbn [mbind exec_bind].
    destruct (IH (thread_ended t p s ps b nodes) (block_with_threads (forget_waiting t b) nodes) Hok1 Ht1)
      as (ps' & E' & Hok' & Ht' & Ed & Hf); [by rewrite thread_ended_find, Z.eqb_refl|done|].
    exists ps'. split; [exact E'|]. split; [done|]. split; [done|]. split; [done|]. intros q. rewrite Hf, thread_ended_find by done.
    unfold threads_gone. destruct (Z.eqb_spec q p) as [->|Hne].
    + rewrite Hb. cbn [fmap option_fmap option_map m_singal_waiting_queue block_with_threads block_with_waiting forget_waiting].
      by rewrite still_waiting_cons.
    + destruct (find_block ps q) as [c|]; [|done].
      cbn [fmap option_fmap option_map m_singal_waiting_queue block_with_waiting forget_waiting]. by rewrite still_waiting_cons.
Qed.

Definition ended_block b status : process_block := block_with_waiting (as_zombie (block_with_threads b []) status) [].

(** The rest of [terminate], when the threads are gone. *)
Lemma becomes_zombie_ok ps p b status s' :
  processes_ok None [] ps -> threads_ok ps -> find_block ps p = Some b -> m_state b <> PZombie -> m_threads b = [] ->
  (forall u, live_thread u (ps_services ps) -> live_thread u s') ->
  let b' := block_with_waiting (as_zombie b status) [] in
  let ps1 := with_block (set_process_services ps s') p b' in
  processes_ok (Some p) [] ps1 /\ threads_ok ps1 /\ forall q, find_block ps1 q = if q =? p then Some b' else find_block ps q.
Proof.
  intros Hok [Hl Hd Ha Hz] Hb Hs Et Hlive b' ps1.
  assert (Hf1 : forall q, find_block ps1 q = if q =? p then Some b' else find_block ps q).
  { intros q. by apply (find_put (set_process_services ps s') p b). }
  split; [by eapply ok_put|]. split; [|exact Hf1].
  assert (Hcase : forall q c, find_block ps1 q = Some c -> find_block ps q = Some c \/
    (m_threads c = [] /\ m_singal_waiting_queue c = [])).
  { intros q c. rewrite Hf1. destruct (q =? p); [|by left]. intros [= <-]. by right. }
  constructor.
  - intros q c t [Hc|[E1 E2]]%Hcase Ht; [apply Hlive; by eapply Hl|]. rewrite E1, E2 in Ht.
    destruct Ht as [Ht|Ht]; by apply elem_of_nil in Ht.
  - intros q c [Hc|[E1 _]]%Hcase; [by eapply Hd|]. rewrite E1. constructor.
  - intros q c k d t [Hc|[E1 _]]%Hcase [Hd'|[E2 _]]%Hcase Hq Hk; [by eapply Ha| | |].
    + rewrite E2 in Hk. by apply elem_of_nil in Hk.
    + rewrite E1 in Hq. by apply elem_of_nil in Hq.
    + rewrite E1 in Hq. by apply elem_of_nil in Hq.
  - intros q c [Hc|Hc]%Hcase; [by eapply Hz|done].
Qed.

Lemma terminate_ok ps p b status :
  processes_ok None [] ps -> threads_ok ps -> find_block ps p = Some b -> m_state b <> PZombie ->
  exists ps', Process_terminate ps p status = Done ps' /\ processes_ok None [] ps' /\ threads_ok ps' /\
    (m_descriptor_references b = 0 -> find_block ps' p = None /\ m_pid b ∉ pids (ps_list ps')) /\
    (m_descriptor_references b <> 0 ->
       (forall q, find_block ps' q = if q =? p then Some (ended_block b status) else threads_gone (m_threads b) p q <$> find_block ps q) /\
       ps_descriptions ps' = ps_descriptions ps /\
       exists s, wake_up_all (still_waiting (m_threads b) (m_singal_waiting_queue b)) s = Done (ps_services ps')).
Proof.
  intros Hok Ht Hb Hs. unfold Process_terminate, get_block. rewrite Hb. cbn [mbind exec_bind].
  destruct (terminate_threads_ok (m_threads b) ps p b Hok Ht Hb eq_refl) as (ps0 & E0 & Hok0 & Ht0 & Ed0 & Hf0).
  rewrite E0. cbn [mbind exec_bind]. set (b0 := threads_gone (m_threads b) p p b).
  assert (Hb0 : find_block ps0 p = Some b0) by by rewrite Hf0, Hb. rewrite Hb0. cbn [mbind exec_bind].
  assert (Eb0 : b0 = block_with_waiting (block_with_threads b []) (still_waiting (m_threads b) (m_singal_waiting_queue b))).
  { unfold b0, threads_gone. by rewrite Z.eqb_refl. }
  assert (Es0 : m_state b0 = m_state b) by by rewrite Eb0.
  rewrite bool_decide_eq_false_2 by by rewrite Es0. cbn [negb ASSERT mbind exec_bind].
  destruct (wake_up_all_returns (m_singal_waiting_queue (as_zombie b0 status)) (ps_services ps0)) as (s' & Es & Hlive).
  { intros t Hw. eapply (to_live _ Ht0 p b0); [done|]. by right. }
  rewrite Es. cbn [mbind exec_bind m_descriptor_references block_with_waiting as_zombie].
  destruct (becomes_zombie_ok ps0 p b0 status s' Hok0 Ht0 Hb0) as (Hok1 & Ht1 & Hf1); [by rewrite Es0|by rewrite Eb0|exact Hlive|].
  set (b' := block_with_waiting (as_zombie b0 status) []) in *. set (ps1 := with_block (set_process_services ps0 s') p b') in *.
  assert (Eb' : b' = ended_block b status) by (unfold b'; by rewrite Eb0).
  assert (Hb1 : find_block ps1 p = Some b') by by rewrite Hf1, Z.eqb_refl.
  assert (Er : m_descriptor_references b0 = m_descriptor_references b) by by rewrite Eb0. rewrite Er.
  destruct (Z.eqb_spec (m_descriptor_references b) 0) as [Ez|Hn0].
  - assert (Hl : exists n, cleanup_fuel ps1 = S n).
    { unfold cleanup_fuel. destruct (block_split _ _ _ _ _ Hok1 Hb1) as (l1 & l2 & E & _). rewrite E, length_app. simpl.
      exists (length l1 + length l2)%nat. lia. }
    destruct Hl as [n Hn]. rewrite Hn.
    destruct (cleanup_ok n [] ps1 p b' (destroys_cleanup n) Hok1 Hb1) as (ps2 & E2 & Hok2 & Hgone & _ & _ & Hlive2 & Hrest).
    { by rewrite Eb'. } { unfold cleanup_fuel in Hn. lia. }
    assert (Hsub : forall q c', find_block ps2 q = Some c' -> q <> p /\ exists c, find_block ps1 q = Some c /\
      exists r, c' = block_with_references r c).
    { intros q c' Hc'. destruct (decide (q = p)) as [->|Hne]; [by rewrite Hgone in Hc'|]. split; [done|].
      specialize (Hrest q Hne). destruct (find_block ps1 q) as [c|]; [|by rewrite Hrest in Hc'].
      exists c. split; [done|]. destruct Hrest as [[r Hr]|[_ Hr]]; rewrite Hr in Hc'; [|done]. injection Hc' as <-. by exists r. }
    exists ps2. split; [exact E2|]. split; [done|]. split; [|split; [|done]].
    + apply (threads_keep ps1); [done|done|]. intros q c' (_ & c & Hc & r & ->)%Hsub. by exists c.
    + intros _. split; [done|]. replace (m_pid b) with (m_pid b') by by rewrite Eb'.
      apply (pid_gone (Some p) [] ps1 ps2 p b' Hok1 Hb1); [|apply Hok2].
      intros q c' (Hne & c & Hc & r & ->)%Hsub. split; [done|]. by exists c.
  - exists ps1. split; [done|]. split; [|split; [done|split; [done|]]].
    + eapply leave_nobody; [exact Hok1|exact Hb1|]. intros _. by rewrite Eb'.
    + intros _. split; [|split; [done|]].
      * intros q. rewrite Hf1, Hf0. destruct (q =? p); [by rewrite Eb'|done].
      * exists (ps_services ps0). exact Es.
Qed.

(** ** Making a process *)

Lemma handles_new_ok : handles_rep HandlesManager_new [].
Proof. constructor; try done; constructor. Qed.

Lemma append_ok ps pool id b :
  processes_ok None [] ps ->
  pool_wf pool -> pool_limit pool = pool_limit (ps_pids ps) -> 0 <= id < pool_limit (ps_pids ps) ->
  pool_mem (ps_pids ps) id = false -> (forall q, 0 <= q -> pool_mem pool q = pool_mem (ps_pids ps) q || (q =? id)) ->
  m_pid b = id -> m_handles b = HandlesManager_new -> m_descriptor_references b = 0 -> m_state b = PReady ->
  forall s, processes_ok None [] (append_block (set_process_services (set_process_pids ps pool) s) b).2.
Proof.
  intros [Hk Ho Hlv Ht Hr Hz Hp Hpool Hu Hrg Hh Hf Hpos] Hwf Hlim Hid Hfree Hmem Epid Ehm Er Est s.
  set (a := ps_fresh ps).
  assert (Hnk : a ∉ keys (ps_list ps)) by (intros Ha; specialize (Hf a (or_introl Ha)); unfold a in *; lia).
  assert (Hnt : forall d, ps_descriptions ps !! d <> Some a) by (intros d Hd; by apply Hnk, (Ht d)).
  assert (Hin : forall q c, (q, c) ∈ ps_list ps ++ [(a, b)] -> (q, c) ∈ ps_list ps \/ (q = a /\ c = b)).
  { intros q c [Hqc|Hqc%list_elem_of_singleton]%elem_of_app; [by left|right; by injection Hqc as -> ->]. }
  assert (Et : tables (ps_list ps ++ [(a, b)]) = tables (ps_list ps)).
  { unfold tables. rewrite bind_app. cbn. rewrite Ehm. cbn. by rewrite app_nil_r. }
  constructor; cbn [append_block snd ps_list ps_descriptions ps_pids ps_fresh set_process_services set_process_pids]; fold a.
  - unfold keys. rewrite fmap_app. apply NoDup_app. split; [done|]. split; [|apply NoDup_singleton].
    intros x Hx Hx'%list_elem_of_singleton. by subst x.
  - by rewrite Et.
  - intros d. rewrite Et. apply Hlv.
  - intros d q Hd. unfold keys. rewrite fmap_app, elem_of_app. left. by apply (Ht d).
  - intros q c [Hqc|[-> ->]]%Hin; [by apply Hr|]. rewrite Er. symmetry. by apply references_none.
  - intros q c [Hqc|[-> ->]]%Hin; [by apply Hz|]. intros _ Hzb. congruence.
  - unfold pids. rewrite fmap_app. apply NoDup_app. split; [done|]. split; [|apply NoDup_singleton].
    intros x Hx Hx'%list_elem_of_singleton. simpl in Hx'. subst x. rewrite Epid in Hx. apply Hu in Hx; [congruence|lia].
  - done.
  - intros i Hi. rewrite Hmem, orb_true_iff, Hu by done. unfold pids. rewrite fmap_app, elem_of_app.
    cbn. rewrite list_elem_of_singleton, Epid, Z.eqb_eq. done.
  - intros q c [Hqc|[-> ->]]%Hin; [rewrite Hlim; by eapply Hrg|lia].
  - intros q c [Hqc|[-> ->]]%Hin; [by eapply Hh|]. rewrite Ehm. exists []. apply handles_new_ok.
  - intros x [Hx|Hx].
    + unfold keys in Hx. rewrite fmap_app in Hx. apply elem_of_app in Hx as [Hx|Hx%list_elem_of_singleton].
      * specialize (Hf x (or_introl Hx)). unfold a. lia.
      * simpl in Hx. unfold a in *. lia.
    + specialize (Hf x (or_intror Hx)). unfold a. lia.
  - unfold a. lia.
Qed.

(** One more thread of a process that has not ended. *)
Lemma new_thread_ok ps p b :
  processes_ok None [] ps -> threads_ok ps -> find_block ps p = Some b -> m_state b <> PZombie ->
  exists ps', Process_new_thread ps p = Done ps' /\ processes_ok None [] ps' /\ threads_ok ps'.
Proof.
  intros Hok [Hl Hd Ha Hz] Hb Hs. unfold Process_new_thread.
  destruct (rs_create_thread p (ps_services ps)) as (t & s & E & Hn & Hy & Hlive). rewrite E. cbn [mbind exec_bind].
  unfold process_list_thread, get_block. change (find_block (set_process_services ps s) p) with (find_block ps p).
  rewrite Hb. cbn [mbind exec_bind]. set (b' := block_with_threads b (m_threads b ++ [t])). eexists. split; [done|].
  set (ps' := with_block _ p b'). split; [by eapply ok_put|].
  assert (Hnew : forall q x, find_block ps q = Some x -> t ∉ m_threads x) by (intros q x Hx Ht; apply Hn; eapply Hl; eauto).
  assert (Hcase : forall q x, find_block ps' q = Some x -> exists x0, find_block ps q = Some x0 /\
    m_singal_waiting_queue x = m_singal_waiting_queue x0 /\ m_state x = m_state x0 /\
    ((q = p /\ x = b' /\ x0 = b) \/ x = x0)).
  { intros q x. unfold ps'. rewrite (find_put (set_process_services ps s) p b) by done.
    destruct (Z.eqb_spec q p) as [->|Hne]; [intros [= <-]; exists b|intros Hx; exists x; by auto].
    split; [done|]. split; [done|]. split; [done|]. by left. }
  assert (Hin : forall u, u ∈ m_threads b' <-> u ∈ m_threads b \/ u = t).
  { intros u. unfold b'. cbn. by rewrite elem_of_app, list_elem_of_singleton. }
  constructor.
  - intros q x u (x0 & Hx0 & Ew & _ & Hor)%Hcase Hu. rewrite Ew in Hu. cbn.
    destruct Hor as [(-> & -> & ->)| ->]; [|apply Hlive; by eapply Hl]. rewrite Hin in Hu.
    destruct Hu as [[Hu| ->]|Hu]; [apply Hlive, (Hl p b); auto|done|apply Hlive, (Hl p b); auto].
  - intros q x (x0 & Hx0 & _ & _ & [(-> & -> & ->)| ->])%Hcase; [|exact (Hd q x0 Hx0)].
    apply NoDup_app. split; [exact (Hd p b Hb)|]. split; [|apply NoDup_singleton].
    intros u Hu ->%list_elem_of_singleton. by apply (Hnew p b Hb).
  - intros q x k y u (x0 & Hx0 & _ & _ & Hor)%Hcase (y0 & Hy0 & _ & _ & Hor')%Hcase Hu Hu'.
    destruct Hor as [(-> & -> & ->)| ->]; destruct Hor' as [(-> & -> & ->)| ->]; [done| | |by eapply Ha].
    + apply Hin in Hu as [Hu| ->]; [exact (Ha p b k y0 u Hb Hy0 Hu Hu')|by destruct (Hnew k y0 Hy0)].
    + apply Hin in Hu' as [Hu'| ->]; [exact (Ha q x0 p b u Hx0 Hb Hu Hu')|by destruct (Hnew q x0 Hx0)].
  - intros q x (x0 & Hx0 & Ew & Es & [(-> & -> & ->)| ->])%Hcase Ex; [done|by eapply Hz].
Qed.

(** A string that is shorter than the array is copied and terminated. *)
Lemma copy_terminated_spec data cs :
  alen cs < alen data -> copy_terminated data cs = Done (cs ++ 0 :: drop (S (length cs)) data).
Proof.
  intros Hl. unfold copy_terminated. unfold alen in Hl.
  pose proof (memcpy_spec cs (take (length cs) data) [] (drop (length cs) data) [] [0]) as Hc.
  rewrite take_drop in Hc. cbn [app] in Hc. change (alen (@nil Z)) with 0 in Hc.
  rewrite Hc by (rewrite length_take; lia). cbn [mbind exec_bind].
  destruct (drop_next data (length cs)) as [o Ho]; [lia|]. by rewrite Ho, aset_middle.
Qed.

(** One of the length of the array leaves no room for the terminating zero. *)
Lemma copy_terminated_full data cs : alen cs = alen data -> copy_terminated data cs = Fault.
Proof.
  intros Hl. unfold copy_terminated.
  pose proof (memcpy_spec cs data [] [] [] [0]) as Hc. cbn [app] in Hc. rewrite !app_nil_r in Hc.
  change (alen (@nil Z)) with 0 in Hc. rewrite Hc by (unfold alen in Hl; lia). cbn [mbind exec_bind].
  rewrite aset_out_of_range by lia. done.
Qed.

Lemma fill_information_spec junk address pid path argument :
  alen path < MAX_PATH_SIZE -> alen argument < MAX_PATH_SIZE ->
  exists pib, fill_information junk address pid path argument = Done pib /\ pib_pid pib = pid /\
    (exists r, path_data pib = path ++ 0 :: r) /\ exists r, argument_data pib = argument ++ 0 :: r.
Proof.
  intros Hp Ha. unfold fill_information.
  assert (Hl : forall k, alen ((fun i => junk (k + i)) <$> seqZ 0 MAX_PATH_SIZE) = MAX_PATH_SIZE).
  { intros k. rewrite alen_fmap. unfold alen. by rewrite length_seqZ. }
  rewrite !copy_terminated_spec by (by rewrite Hl).
  cbn [mbind exec_bind]. eexists. split; [done|]. cbn. eauto.
Qed.

Definition free_pid ps : Prop := exists i, 0 <= i < pool_limit (ps_pids ps) /\ pool_mem (ps_pids ps) i = false.

Lemma reserve_pid_ok ps :
  processes_ok None [] ps -> free_pid ps ->
  exists id pool, Process_reserve_pid ps = Done (id, set_process_pids ps pool) /\ pool_wf pool /\
    pool_limit pool = pool_limit (ps_pids ps) /\ 0 <= id < pool_limit (ps_pids ps) /\
    pool_mem (ps_pids ps) id = false /\ forall q, 0 <= q -> pool_mem pool q = pool_mem (ps_pids ps) q || (q =? id).
Proof.
  intros Hok (i & Hi & Hf). destruct (reserve_id_spec (ps_pids ps)) as (id & pool & E & Hwf & Hl & Hc); [apply Hok|].
  unfold Process_reserve_pid. rewrite E. cbn [mbind exec_bind]. exists id, pool. split; [done|].
  destruct Hc as [(_ & _ & Hfull)|(Hid & Hfree & Hm)]; [by rewrite Hfull in Hf|]. done.
Qed.

Lemma create_virtual_ok status ps name :
  processes_ok None [] ps -> free_pid ps ->
  exists p ps', Process_create_virtual_process status ps name = Done (p, ps') /\ processes_ok None [] ps' /\
    (threads_ok ps -> threads_ok ps').
Proof.
  intros Hok Hfree. destruct (reserve_pid_ok ps Hok Hfree) as (id & pool & E & Hwf & Hl & Hid & Hf & Hm).
  unfold Process_create_virtual_process. rewrite E. cbn [mbind exec_bind].
  destruct (rs_new_space (ps_services (set_process_pids ps pool))) as (a & s' & Es & Hsp). rewrite Es. cbn [mbind exec_bind].
  eexists _, _. split; [apply f_equal, surjective_pairing|]. split; [by eapply (append_ok ps pool id)|].
  intros Ht. apply threads_append; try done; [constructor|]. by intros t ?%elem_of_nil.
Qed.

Lemma create_new_ok junk status ps name path argument privilege :
  processes_ok None [] ps -> free_pid ps ->
  alen path < MAX_PATH_SIZE -> alen argument < MAX_PATH_SIZE ->
  exists p ps', Process_create_new_process junk status ps name path argument privilege = Done (p, ps') /\
    processes_ok None [] ps' /\ (threads_ok ps -> threads_ok ps').
Proof.
  intros Hok Hfree Hp Ha. destruct (reserve_pid_ok ps Hok Hfree) as (id & pool & E & Hwf & Hl & Hid & Hf & Hm).
  unfold Process_create_new_process. rewrite E. cbn [mbind exec_bind].
  destruct (rs_new_space (ps_services (set_process_pids ps pool))) as (a & s1 & Es & Hl1). rewrite Es. cbn [mbind exec_bind].
  destruct (rs_valloc sizeof_UserProcessInformationBlock (switch_page_directory a s1)) as (v & s2 & Ev & Hl2).
  rewrite Ev. cbn [mbind exec_bind].
  destruct (fill_information_spec junk v id path argument Hp Ha) as (pib & Epib & _). rewrite Epib. cbn [mbind exec_bind].
  set (s3 := match current_page_directory s2 with Some c => _ | None => _ end).
  assert (Hl3 : forall u, live_thread u (ps_services ps) -> live_thread u s3).
  { intros u Hu. unfold s3. assert (Hu2 : live_thread u s2) by (apply Hl2, rs_switch, Hl1, Hu).
    destruct (current_page_directory s2); [by apply rs_switch|done]. }
  destruct (rs_create_thread (ps_fresh (set_process_pids ps pool)) s3) as (t & s4 & Et & Hn & Hy & Hl4). rewrite Et. cbn [mbind exec_bind].
  eexists _, _. split; [apply f_equal, surjective_pairing|]. split; [by eapply (append_ok ps pool id)|].
  intros Ht. apply threads_append; try done; [auto|apply NoDup_singleton|].
  intros u ->%list_elem_of_singleton. split; [|done]. intros Hu. by apply Hn, Hl3.
Qed.

(** ** Waiting *)

Lemma is_process_handle_spec ps cur b os handle :
  find_block ps cur = Some b -> handles_rep (m_handles b) os -> 0 <= handle ->
  is_process_handle ps cur handle = Done (bool_decide (object_type (os !! Z.to_nat handle ≫= id) = HProcessDescription)).
Proof.
  intros Hb Hos Hh. unfold is_process_handle, get_block. rewrite Hb. cbn [mbind exec_bind].
  destruct (handles_read _ os Hos handle Hh) as [Ec _]. by rewrite Ec.
Qed.

(** What a process handle refers to exists. *)
Lemma handle_process_spec leaving pending ps cur b os handle d :
  processes_ok leaving pending ps -> find_block ps cur = Some b -> handles_rep (m_handles b) os -> 0 <= handle ->
  os !! Z.to_nat handle = Some (Some (Process d)) ->
  exists p c, handle_process ps cur handle = Done p /\ ps_descriptions ps !! d = Some p /\ find_block ps p = Some c.
Proof.
  intros Hok Hb Hos Hh Eo. unfold handle_process, get_block. rewrite Hb. cbn [mbind exec_bind].
  destruct (handles_read _ os Hos handle Hh) as [_ Hget].
  destruct Hget as [_ Hget]; [apply lookup_lt_Some in Eo; unfold alen; lia|]. rewrite Hget, Eo. cbn [mbind exec_bind].
  assert (Hlv : is_Some (ps_descriptions ps !! d)).
  { apply Hok. apply elem_of_app. left. unfold tables. apply list_elem_of_bind. exists (cur, b). split.
    - simpl. rewrite (hm_processes _ _ Hos). apply list_elem_of_omap. exists (Some (Process d)). split; [|done].
      by eapply list_elem_of_lookup_2.
    - destruct (find_split _ _ _ Hb) as (l1 & l2 & E). rewrite E. apply elem_of_middle. by left. }
  destruct Hlv as [p Hp]. destruct (find_target _ _ _ _ _ Hok Hp) as [c Hc].
  exists p, c. unfold description_process. rewrite Hp. done.
Qed.

Lemma wait_signal_eq ps cur handle thread p c :
  processes_ok None [] ps -> refers ps cur handle p -> find_block ps p = Some c ->
  WaitSignal ps cur handle thread =
    Done (if bool_decide (m_state c = PZombie) then Returns (Value (m_return_status c), ps)
          else Blocks (with_block ps p (block_with_waiting c (m_singal_waiting_queue c ++ [thread])))).
Proof.
  intros Hok (b & os & d & Hb & Hos & Hh & Eo & Hd) Hc. unfold WaitSignal.
  rewrite (is_process_handle_spec ps cur b os) by done. rewrite Eo. cbn [mbind option_bind exec_bind id object_type].
  rewrite bool_decide_eq_true_2 by done. cbn [negb].
  destruct (handle_process_spec _ _ _ _ _ _ _ _ Hok Hb Hos Hh Eo) as (p' & c' & Ep & Hd' & _).
  rewrite Hd in Hd'. injection Hd' as <-. rewrite Ep. cbn [mbind exec_bind].
  unfold Process_wait_for_signal, get_block. rewrite Hc. cbn [mbind exec_bind]. by destruct (bool_decide (m_state c = PZombie)).
Qed.

Lemma refers_keeps ps ps' cur handle p :
  refers ps cur handle p -> ps_descriptions ps' = ps_descriptions ps ->
  (forall b, find_block ps cur = Some b -> exists b', find_block ps' cur = Some b' /\ m_handles b' = m_handles b) ->
  refers ps' cur handle p.
Proof.
  intros (b & os & d & Hb & Hos & Hh & Eo & Hd) Ed Hk. destruct (Hk b Hb) as (b' & Hb' & Eh).
  exists b', os, d. rewrite Eh, Ed. done.
Qed.

(** One more thread that waits for a process. *)
Lemma waits_ok ps p c thread :
  processes_ok None [] ps -> find_block ps p = Some c -> m_state c <> PZombie ->
  let ps' := with_block ps p (block_with_waiting c (m_singal_waiting_queue c ++ [thread])) in
  processes_ok None [] ps' /\ (threads_ok ps -> live_thread thread (ps_services ps) -> threads_ok ps').
Proof.
  intros Hok Hc Hs ps'. set (c' := block_with_waiting c (m_singal_waiting_queue c ++ [thread])).
  assert (Hf : forall q, find_block ps' q = if q =? p then Some c' else find_block ps q) by (intros q; by apply (find_put ps p c)).
  split.
  - unfold ps'. replace ps with (set_process_services ps (ps_services ps)) at 1 by by destruct ps.
    by eapply ok_put.
  - intros [Hl Hd Ha Hz] Hlive.
    assert (Hcase : forall q x, find_block ps' q = Some x -> exists x0, find_block ps q = Some x0 /\ m_threads x = m_threads x0 /\
      m_state x = m_state x0 /\ ((q = p /\ x0 = c /\ x = c') \/ x = x0)).
    { intros q x. rewrite Hf. destruct (Z.eqb_spec q p) as [->|Hne]; [intros [= <-]; exists c|intros Hx; by exists x; auto].
      split; [done|]. split; [done|]. split; [done|]. by left. }
    constructor.
    + intros q x t (x0 & Hx0 & Et & _ & Hor)%Hcase Ht. destruct Hor as [(-> & -> & ->)| ->]; [|by eapply Hl].
      cbn in Ht. rewrite elem_of_app, list_elem_of_singleton in Ht.
      destruct Ht as [Ht|[Ht| ->]]; [eapply Hl; [exact Hc|by left]|eapply Hl; [exact Hc|by right]|exact Hlive].
    + intros q x (x0 & Hx0 & -> & _)%Hcase. by eapply Hd.
    + intros q x k y t (x0 & Hx0 & -> & _)%Hcase (y0 & Hy0 & -> & _)%Hcase. by eapply Ha.
    + intros q x (x0 & Hx0 & _ & Es & Hor)%Hcase Ex. destruct Hor as [(-> & -> & ->)| ->]; [done|by eapply Hz].
Qed.

(** Waiting never reaches a process that is gone: it returns the status of one that has
    ended, or the caller waits. *)
Lemma wait_signal_ok ps cur b handle thread :
  processes_ok None [] ps -> find_block ps cur = Some b -> 0 <= handle ->
  exists r, WaitSignal ps cur handle thread = Done r /\
    match r with
    | Blocks ps' => processes_ok None [] ps' /\ (threads_ok ps -> live_thread thread (ps_services ps) -> threads_ok ps')
    | Returns (_, ps') => ps' = ps
    end.
Proof.
  intros Hok Hb Hh. destruct (block_handles _ _ _ _ _ Hok Hb) as [os Hos]. unfold WaitSignal.
  rewrite (is_process_handle_spec ps cur b os) by done. cbn [mbind exec_bind].
  destruct (os !! Z.to_nat handle) as [[[f|d]|]|] eqn:Eo; cbn [mbind option_bind id object_type];
    try (rewrite bool_decide_eq_false_2 by done; cbn [negb]; by eexists).
  destruct (handle_process_spec _ _ _ _ _ _ _ _ Hok Hb Hos Hh Eo) as (p & c & _ & Hd & Hc).
  pose proof (wait_signal_eq ps cur handle thread p c Hok) as Hw. unfold WaitSignal in Hw.
  rewrite (is_process_handle_spec ps cur b os), Eo in Hw by done. cbn [mbind option_bind exec_bind id object_type] in Hw.
  rewrite Hw; [|by exists b, os, d|done]. destruct (bool_decide (m_state c = PZombie)) eqn:Ez; eexists; (split; [done|]); [done|].
  apply bool_decide_eq_false_1 in Ez. by apply waits_ok.
Qed.

(** Closing the last handle of a zombie. *)
Lemma close_last ps cur handle p c :
  processes_ok None [] ps -> threads_ok ps -> refers ps cur handle p -> p <> cur -> find_block ps p = Some c ->
  m_state c = PZombie -> m_descriptor_references c = 1 ->
  exists ps', close_handle ps cur handle = Done (Value 0, ps') /\ processes_ok None [] ps' /\ threads_ok ps' /\
    find_block ps' p = None /\ m_pid c ∉ pids (ps_list ps').
Proof.
  intros Hok Hth (b & os & d & Hb & Hos & Hh & Eo & Hd) Hne Hc Hz H1.
  destruct (close_process_ok ps cur b os handle d Hok Hb Hos Hh Eo) as (m & ps' & E & Hok' & Hs & Hsub).
  exists ps'. split; [done|]. split; [done|]. split; [eapply shrinks_threads; [exact Hs|by eapply threads_put]|].
  assert (Hput : forall q, find_block (with_block ps cur (block_with_handles b m)) q =
    if q =? cur then Some (block_with_handles b m) else find_block ps q) by (intros q; by apply (find_put ps cur b)).
  assert (Hgone : find_block ps' p = None).
  { pose proof (sh_block _ _ Hs p) as Hp. rewrite Hput, (proj2 (Z.eqb_neq p cur) Hne), Hc in Hp.
    destruct Hp as [[r Hr]|[_ Hn]]; [exfalso|done].
    destruct (find_split _ _ _ Hr) as (l1 & l2 & El).
    assert (Hin : (p, block_with_references r c) ∈ ps_list ps') by (rewrite El; apply elem_of_middle; by left).
    pose proof (po_zombie _ _ _ Hok' p _ Hin ltac:(done) Hz) as Hnz. apply Hnz.
    rewrite (po_references _ _ _ Hok' p _ Hin). apply references_none. intros d' Hd'.
    pose proof (lookup_weaken _ _ _ _ Hd' Hsub) as Hdd. revert Hdd. apply references_zero.
    rewrite (references_delete _ _ p) by done. rewrite Z.eqb_refl.
    destruct (find_split _ _ _ Hc) as (k1 & k2 & Ek).
    rewrite <- (po_references _ _ _ Hok p c); [lia|]. rewrite Ek. apply elem_of_middle. by left. }
  split; [done|]. apply (pid_gone None [] ps ps' p c Hok Hc); [|apply Hok'].
  intros q c' Hc'. assert (Hqp : q <> p) by (intros ->; by rewrite Hgone in Hc'). split; [done|].
  pose proof (sh_block _ _ Hs q) as Hq. rewrite Hput in Hq. destruct (Z.eqb_spec q cur) as [->|Hnc].
  - destruct Hq as [[r Hr]|[_ Hn]]; [|by rewrite Hn in Hc']. rewrite Hr in Hc'. injection Hc' as <-. by exists b.
  - destruct (find_block ps q) as [cq|]; [|by rewrite Hq in Hc']. exists cq. split; [done|].
    destruct Hq as [[r Hr]|[_ Hn]]; [|by rewrite Hn in Hc']. rewrite Hr in Hc'. by injection Hc' as <-.
Qed.

End consistency.

(** ** Sequences of calls *)

Inductive process_call :=
| CreateVirtual (name : list Z)
| CreateNew (name path argument : list Z)
| ThreadCall (p : Z)
| OpenCall (cur pid : Z)
| CloseCall (cur handle : Z)
| WaitCall (cur handle thread : Z)
| TerminateCall (p status : Z).

Section calls.
Context {P T : Type} {IP : IdPool P} {PS : ProcessServices T} {RS : ReturningServices T} (junk : Z -> Z) (status : Z).
Implicit Types (ps : Processes P T) (c : process_call).

Definition process_step ps c : exec (Processes P T) :=
  match c with
  | CreateVirtual name => snd <$> Process_create_virtual_process status ps name
  | CreateNew name path argument => snd <$> Process_create_new_process junk status ps name path argument PUser
  | ThreadCall p => Process_new_thread ps p
  | OpenCall cur pid => snd <$> OpenProcess ps cur pid
  | CloseCall cur handle => snd <$> close_handle ps cur handle
  | WaitCall cur handle thread =>
      r ← WaitSignal ps cur handle thread; Done match r with Blocks ps => ps | Returns (_, ps) => ps end
  | TerminateCall p status => Process_terminate ps p status
  end.

(** The callers exist, identifiers and handles are left, paths and arguments fit their
    arrays, a thread that waits is live, and a process that is ended or given a thread has
    not ended yet. *)
Definition process_call_ok ps c : Prop :=
  match c with
  | CreateVirtual _ => free_pid ps
  | CreateNew _ path argument => free_pid ps /\ alen path < MAX_PATH_SIZE /\ alen argument < MAX_PATH_SIZE
  | OpenCall cur _ => exists b, find_block ps cur = Some b /\ handle_room b
  | CloseCall cur handle => is_Some (find_block ps cur) /\ 0 <= handle
  | WaitCall cur handle thread => is_Some (find_block ps cur) /\ 0 <= handle /\ live_thread thread (ps_services ps)
  | ThreadCall p | TerminateCall p _ => exists b, find_block ps p = Some b /\ m_state b <> PZombie
  end.

Fixpoint process_calls ps (cs : list process_call) : exec (Processes P T) :=
  match cs with [] => Done ps | c :: cs => ps ← process_step ps c; process_calls ps cs end.

(** Every call is made in a state that allows it. *)
Fixpoint process_calls_ok ps (cs : list process_call) : Prop :=
  match cs with
  | [] => True
  | c :: cs => process_call_ok ps c /\
      match process_step ps c with Done ps' => process_calls_ok ps' cs | _ => True end
  end.

Lemma process_step_ok ps c :
  processes_ok None [] ps -> threads_ok ps -> process_call_ok ps c ->
  exists ps', process_step ps c = Done ps' /\ processes_ok None [] ps' /\ threads_ok ps'.
Proof.
  intros Hok Hth Hc. destruct c as [name|name path argument|p|cur pid|cur handle|cur handle thread|p st]; cbn [process_call_ok process_step] in *.
  - destruct (create_virtual_ok status ps name Hok Hc) as (p & ps' & E & Hok' & Ht). rewrite E. exists ps'. auto.
  - destruct Hc as (Hf & Hp & Ha).
    destruct (create_new_ok junk status ps name path argument PUser Hok Hf Hp Ha) as (p & ps' & E & Hok' & Ht).
    rewrite E. exists ps'. auto.
  - destruct Hc as (b & Hb & Hs). by apply (new_thread_ok ps p b).
  - destruct Hc as (b & Hb & Hroom). pose proof (open_process_ok ps cur b pid Hok Hb Hroom) as Ho.
    destruct (Process_get_process_from_pid ps pid) as [p|e]; [|rewrite Ho; by exists ps].
    destruct Ho as (ps' & E & Hok' & _ & Ht & _). rewrite E. exists ps'. auto.
  - destruct Hc as ([b Hb] & Hh). destruct (close_handle_ok ps cur b handle Hok Hb Hh) as (r & ps' & E & Hok' & Ht).
    rewrite E. exists ps'. auto.
  - destruct Hc as ([b Hb] & Hh & Hlive). destruct (wait_signal_ok ps cur b handle thread Hok Hb Hh) as (r & E & Hr). rewrite E.
    cbn [mbind exec_bind]. eexists. split; [done|]. destruct r as [ps'|[v ps']]; [|by rewrite Hr].
    destruct Hr as [Hok' Ht]. auto.
  - destruct Hc as (b & Hb & Hs). destruct (terminate_ok ps p b st Hok Hth Hb Hs) as (ps' & E & Hok' & Ht & _).
    by exists ps'.
Qed.

End calls.


(** The process with an identifier that is in use. *)
Lemma pid_found (P T : Type) (IP : IdPool P) (ps : Processes P T) p b :
  processes_ok None [] ps -> find_block ps p = Some b -> Process_get_process_from_pid ps (m_pid b) = Value p.
Proof.
  intros Hok Hb. pose proof (find_pid _ _ _ (m_pid b) Hok) as Hpid.
  destruct (Process_get_process_from_pid ps (m_pid b)) as [p'|e].
  - destruct Hpid as (b' & Hb' & Epid). by rewrite (pid_unique _ _ _ _ _ _ _ Hok Hb Hb' Epid).
  - exfalso. destruct Hpid as [_ Hn]. apply Hn. unfold pids. apply list_elem_of_fmap.
    destruct (find_split _ _ _ Hb) as (l1 & l2 & E). exists (p, b). split; [done|]. rewrite E. apply elem_of_middle. by left.
Qed.

Lemma open_unknown (P T : Type) (IP : IdPool P) (ps : Processes P T) cur pid :
  processes_ok None [] ps -> pid ∉ pids (ps_list ps) -> OpenProcess ps cur pid = Done (Error ERROR_INVALID_PID, ps).
Proof.
  intros Hok Hpid. pose proof (find_pid _ _ _ pid Hok) as Hn. unfold OpenProcess, ProcessDescription_open.
  destruct (Process_get_process_from_pid ps pid) as [q|e].
  - destruct Hn as (bq & Hbq & Epq). exfalso. apply Hpid. unfold pids. apply list_elem_of_fmap.
    destruct (find_split _ _ _ Hbq) as (l1 & l2 & E). exists (q, bq). split; [done|]. rewrite E. apply elem_of_middle. by left.
  - by destruct Hn as [-> _].
Qed.

(** C19: The life of a process, with its threads, as its parent sees it. The parent opens the
    child, of which no description existed, by its identifier and waits: its thread, which
    is not one of the child's, blocks while the child runs. When the child ends with a
    status, all its threads are ended, the waiting thread is among those that are woken, and
    the wait gives that status, at once from then on, since the child is kept as a zombie.
    Closing the handle destroys it, and its identifier is unknown. *)
Theorem process_lifecycle {P T} {IP : IdPool P} {PS : ProcessServices T} {RS : ReturningServices T}
    (ps : Processes P T) cur bc p b thread status :
  processes_ok None [] ps -> threads_ok ps -> find_block ps cur = Some bc -> handle_room bc -> p <> cur ->
  find_block ps p = Some b -> m_state b <> PZombie -> m_descriptor_references b = 0 ->
  live_thread thread (ps_services ps) -> thread ∉ m_threads b ->
  let h := alen (handle_table (m_handles bc)) in
  exists ps1 ps2 ps3 ps4,
    OpenProcess ps cur (m_pid b) = Done (Value h, ps1) /\
    WaitSignal ps1 cur h thread = Done (Blocks ps2) /\
    Process_terminate ps2 p status = Done ps3 /\
    (exists zombie, find_block ps3 p = Some zombie /\ m_state zombie = PZombie /\ m_threads zombie = []) /\
    (exists woken s, thread ∈ woken /\ wake_up_all woken s = Done (ps_services ps3)) /\
    Process_wait_resumed ps3 p = Done status /\
    WaitSignal ps3 cur h thread = Done (Returns (Value status, ps3)) /\
    close_handle ps3 cur h = Done (Value 0, ps4) /\ processes_ok None [] ps4 /\ threads_ok ps4 /\ find_block ps4 p = None /\
    OpenProcess ps4 cur (m_pid b) = Done (Error ERROR_INVALID_PID, ps4).
Proof.
  intros Hok Hth Hbc Hroom Hne Hb Hs Hr0 Hlive Hnt h.
  pose proof (open_process_ok ps cur bc (m_pid b) Hok Hbc Hroom) as Ho. rewrite (pid_found P T IP ps p b) in Ho by done.
  destruct Ho as (ps1 & E1 & Hok1 & Href1 & Hth1 & Esv1 & Hbl1). specialize (Hth1 Hth). fold h in E1, Href1.
  destruct (Hbl1 p b Hb) as (b1 & Hb1 & Es1 & Et1 & Ep1 & _ & _ & Er1). rewrite Z.eqb_refl, Hr0 in Er1.
  pose proof (wait_signal_eq ps1 cur h thread p b1 Hok1 Href1 Hb1) as E2.
  rewrite bool_decide_eq_false_2 in E2 by congruence.
  destruct (waits_ok ps1 p b1 thread Hok1 Hb1) as [Hok2 Hth2]; [congruence|].
  specialize (Hth2 Hth1 ltac:(by rewrite Esv1)).
  set (b2 := block_with_waiting b1 (m_singal_waiting_queue b1 ++ [thread])) in *. set (ps2 := with_block ps1 p b2) in *.
  assert (Hf2 : forall q, find_block ps2 q = if q =? p then Some b2 else find_block ps1 q) by (intros q; by apply (find_put ps1 p b1)).
  assert (Hb2 : find_block ps2 p = Some b2) by by rewrite Hf2, Z.eqb_refl.
  destruct (terminate_ok ps2 p b2 status Hok2 Hth2 Hb2) as (ps3 & E3 & Hok3 & Hth3 & _ & Hz3); [cbn; congruence|].
  destruct Hz3 as (Hf3 & Ed3 & s3 & Ew3); [cbn; lia|].
  assert (Hb3 : find_block ps3 p = Some (ended_block b2 status)) by by rewrite Hf3, Z.eqb_refl.
  assert (Href3 : refers ps3 cur h p).
  { eapply refers_keeps; [exact Href1|by rewrite Ed3|]. intros bb Hbb. rewrite Hf3, Hf2.
    rewrite (proj2 (Z.eqb_neq cur p)) by congruence. rewrite Hbb. eexists. split; [done|]. unfold threads_gone.
    by rewrite (proj2 (Z.eqb_neq cur p)) by congruence. }
  destruct (close_last ps3 cur h p (ended_block b2 status)) as (ps4 & E4 & Hok4 & Hth4 & Hgone & Hpid4); [done..|].
  exists ps1, ps2, ps3, ps4. do 3 (split; [done|]). split; [by eexists|]. split.
  { exists (still_waiting (m_threads b2) (m_singal_waiting_queue b2)), s3. split; [|exact Ew3].
    apply list_elem_of_In. unfold still_waiting. apply List.filter_In. split.
    - apply list_elem_of_In. cbn. apply elem_of_app. right. by apply list_elem_of_singleton.
    - change (m_threads b2) with (m_threads b1). by rewrite bool_decide_eq_false_2 by by rewrite Et1. }
  split; [unfold Process_wait_resumed, get_block; by rewrite Hb3|].
  split; [by rewrite (wait_signal_eq ps3 cur h thread p (ended_block b2 status))|].
  do 4 (split; [done|]). eapply open_unknown; [exact Hok4|].
  assert (Epid4 : m_pid b = m_pid (ended_block b2 status)) by (symmetry; exact Ep1). by rewrite Epid4.
Qed.

(** ** A small system *)

(** Services whose state is the number of calls, which serves as an address, and the threads;
    a call on a thread that is not there is a fault. *)
#[export] Instance counting_services : ProcessServices (Z * list Z) := {|
  create_new_virtual_space s := Done (0x1000 + s.1, (s.1 + 1, s.2));
  switch_page_directory _ s := s;
  current_page_directory _ := None;
  valloc_user _ s := Done (0x2000 + s.1, (s.1 + 1, s.2));
  create_thread _ s := Done (0x3000 + s.1, (s.1 + 1, 0x3000 + s.1 :: s.2));
  terminate_thread t s := if bool_decide (t ∈ s.2) then Done (s.1 + 1, List.filter (fun u => negb (u =? t)) s.2) else Fault;
  wake_up_thread t s := if bool_decide (t ∈ s.2) then Done (s.1 + 1, s.2) else Fault;
  yield_thread s := Done (s.1 + 1, s.2);
  destroy_file _ s := Done (s.1 + 1, s.2);
  path_is_valid _ := true;
  vfs_resolve_path p _ := Done p;
  vfs_check_exists _ _ := Done true;
|}.

#[export, refine] Instance counting_returns : ReturningServices (Z * list Z) := {|
  live_thread u s := u ∈ s.2 /\ u < 0x3000 + s.1;
|}.
Proof.
  - intros f [n l]. eexists. split; [done|]. simpl. intros u [Hu Hn]. split; [done|lia].
  - intros t [n l] [Ht Hn]. simpl in *. rewrite bool_decide_eq_true_2 by done. eexists. split; [done|]. simpl.
    intros u [Hu Hun]. split; [done|lia].
  - intros t [n l] [Ht Hn]. simpl in *. rewrite bool_decide_eq_true_2 by done. eexists. split; [done|]. simpl.
    intros u Hne [Hu Hun]. split; [|lia]. apply list_elem_of_In, List.filter_In. split; [by apply list_elem_of_In|].
    apply negb_true_iff, Z.eqb_neq. done.
  - intros [n l]. eexists _, _. split; [done|]. simpl. intros u [Hu Hn]. split; [done|lia].
  - intros d [n l] u Hu. exact Hu.
  - intros k [n l]. eexists _, _. split; [done|]. simpl. intros u [Hu Hn]. split; [done|lia].
  - intros p [n l]. eexists _, _. split; [done|]. simpl. split; [intros [_ ?]; lia|]. split; [split; [left|lia]|].
    intros u [Hu Hn]. split; [by right|lia].
Defined.

Definition no_processes : Processes Bitmap (Z * list Z) := mkProcesses [] ∅ (Bitmap_new 8) 1 (0, []).

Lemma no_processes_ok : processes_ok None [] no_processes.
Proof.
  constructor; cbn [no_processes ps_list ps_descriptions ps_pids ps_fresh].
  - constructor.
  - constructor.
  - intros d. rewrite lookup_empty. cbn. split; [by intros ?%elem_of_nil|by intros []].
  - intros d p. by rewrite lookup_empty.
  - by intros p b ?%elem_of_nil.
  - by intros p b ?%elem_of_nil.
  - constructor.
  - apply Bitmap_new_wf. lia.
  - intros i Hi. change (pool_mem (Bitmap_new 8) i) with (Bitmap_mem (Bitmap_new 8) i). rewrite Bitmap_new_mem.
    by split; [|intros ?%elem_of_nil].
  - by intros p b ?%elem_of_nil.
  - by intros p b ?%elem_of_nil.
  - intros a [Ha|Ha]; [by apply elem_of_nil in Ha|]. rewrite lookup_empty in Ha. by destruct Ha.
  - done.
Qed.

Lemma no_processes_threads : threads_ok no_processes.
Proof. by constructor. Qed.

(** A call of which the result is computed. *)
Ltac compute_step :=
  match goal with |- context [process_step ?j ?st ?ps ?c] =>
    let r := eval vm_compute in (process_step j st ps c) in
    replace (process_step j st ps c) with r by (vm_compute; reflexivity)
  end.

(** Two processes, each with its thread, and one more; the first opens the second and its thread waits for
    it, the second ends, and the first closes its handle. *)
Definition parent_and_child : list process_call :=
  [CreateNew [112] [47; 112] []; CreateNew [99] [47; 99] [120]; ThreadCall 2; OpenCall 1 1; WaitCall 1 0 0x3002; TerminateCall 2 5; CloseCall 1 0].


(** The system after the first two calls. *)
Definition parent_block : process_block :=
  Eval vm_compute in
    match process_calls (fun _ => 0) 0 no_processes [CreateNew [112] [47; 112] []; CreateNew [99] [47; 99] [120]] with
    | Done ps => default (new_block 0 0 [] [] [] PUser 0) (find_block ps 1)
    | _ => new_block 0 0 [] [] [] PUser 0
    end.

Definition child_block : process_block :=
  Eval vm_compute in
    match process_calls (fun _ => 0) 0 no_processes [CreateNew [112] [47; 112] []; CreateNew [99] [47; 99] [120]] with
    | Done ps => default (new_block 0 0 [] [] [] PUser 0) (find_block ps 2)
    | _ => new_block 0 0 [] [] [] PUser 0
    end.

Definition two_processes : Processes Bitmap (Z * list Z) :=
  mkProcesses [(1, parent_block); (2, child_block)] ∅ (mkBitmap 8 [3; 0]) 3 (6, [0x3005; 0x3002]).

Lemma two_processes_ok : processes_ok None [] two_processes /\ threads_ok two_processes.
Proof.
  destruct (process_step_ok (fun _ => 0) 0 no_processes (CreateNew [112] [47; 112] []) no_processes_ok no_processes_threads)
    as (ps1 & E1 & Hok1 & Ht1); [split; [exists 0; by vm_compute|by vm_compute]|].
  vm_compute in E1. injection E1 as <-.
  destruct (process_step_ok (fun _ => 0) 0 _ (CreateNew [99] [47; 99] [120]) Hok1 Ht1) as (ps2 & E2 & Hok2 & Ht2);
    [split; [exists 1; by vm_compute|by vm_compute]|].
  vm_compute in E2. injection E2 as <-. by split.
Qed.

(** The thread of the first process waits; that of the second is ended. *)
Lemma process_lifecycle_witness :
  exists ps1 ps2 ps3 ps4,
    OpenProcess two_processes 1 1 = Done (Value 0, ps1) /\
    WaitSignal ps1 1 0 0x3002 = Done (Blocks ps2) /\
    Process_terminate ps2 2 5 = Done ps3 /\
    (exists zombie, find_block ps3 2 = Some zombie /\ m_state zombie = PZombie /\ m_threads zombie = []) /\
    (exists woken s, 0x3002 ∈ woken /\ wake_up_all woken s = Done (ps_services ps3)) /\
    Process_wait_resumed ps3 2 = Done 5 /\
    WaitSignal ps3 1 0 0x3002 = Done (Returns (Value 5, ps3)) /\
    close_handle ps3 1 0 = Done (Value 0, ps4) /\ processes_ok None [] ps4 /\ threads_ok ps4 /\ find_block ps4 2 = None /\
    OpenProcess ps4 1 1 = Done (Error ERROR_INVALID_PID, ps4).
Proof.
  apply (process_lifecycle two_processes 1 parent_block 2 child_block 0x3002 5);
    [apply two_processes_ok|apply two_processes_ok|by vm_compute|by vm_compute|done|by vm_compute|by vm_compute|by vm_compute| |].
  - split; [by apply (bool_decide_unpack _); vm_compute|by vm_compute].
  - by apply (bool_decide_unpack _); vm_compute.
Defined.
