(* ===== verification/Execute.v ===== *)
(** * Starting a program

    [Process::load_executable] and [Process::initiate_process] (tasking/process.cpp): the first
    thread of a process opens the file of its program, reads it, loads its segments and goes
    to user mode. This puts the tree of nodes, the open files (SystemCalls.v) and the loader
    (Elf.v) together. *)
From S2P Require Import Prelude Storage CircularBuffer Bitmap Clib Strings PathView Buffers Files Keyboard Console Handles Vfs Tar.
From S2P Require Import SystemCalls Memory Elf Process.

Definition MAX_FILE_NAME : Z := 64.
Definition PROCESS_STACK_SIZE : Z := 0x1000.

Section load.
Context {U : Type} `{!UserSpace U} (memory_at : Z -> list Z).

(** [FileInfo file_info], [Buffer buff]: what they hold before is [junk]. The read of a
    device may wait. *)
Definition Process_load_executable (junk : Z -> Z) (again : bool) (s : System) (u : U) (path : PathView)
    : exec (outcome System (Result ExecutableInformation * System * U)) :=
  '(fd, s) ← FileDescription_open s path OM_READ OF_OPEN_EXISTING;
  match fd with
  | Error e => Done (Returns (Error e, s, u))
  | Value d =>
      '(_, file_info) ← FileDescription_file_query s d (mkInfo (junk <$> seqZ 0 MAX_FILE_NAME) (junk 0) NT_File);
      let buff := junk <$> seqZ MAX_FILE_NAME (fi_size file_info) in
      '(i, description) ← description_at s d;
      n ← node_at (sy_fs s) i;
      r ← FileDescription_read (fn_size n) (node_read memory_at s i again)
            (fun e => Done (Returns (Error e, buff, s))) description buff;
      match r with
      | Blocks s => Done (Blocks s)
      | Returns (Error e, _, s) => s ← destroy_description s d; Done (Returns (Error e, s, u))
      | Returns (Value _, buff, s) =>
          '(execable_info, u) ← ELFLoader_load u (BufferView_of_ptr buff);
          s ← destroy_description s d;
          Done (Returns (execable_info, s, u))
      end
  end.

End load.

(** What the first thread of a process comes to. *)
Inductive initiated (A : Type) :=
| Ended (a : A)
| EntersUserMode (entry_point stack : Z) (a : A).
Arguments Ended {A}.
Arguments EntersUserMode {A}.

Section initiate.
Context {P T : Type} `{IdPool P} `{ProcessServices T}.
Context (load_executable : list Z -> T -> exec (Result ExecutableInformation * T)).

Definition with_constructors (pib : UserProcessInformationBlock) (info : ExecutableInformation) : UserProcessInformationBlock :=
  mkPib (pib_address pib) (pib_pid pib) (path_data pib) (argument_data pib)
    (constructors_array info) (constructors_array_count info).

Definition block_with_pib (b : process_block) (pib : UserProcessInformationBlock) : process_block :=
  mkProcess (m_singal_waiting_queue b) (m_pid b) (m_name b) (m_path b) (m_argument b) (m_privilege_level b)
    (m_page_directory b) (m_descriptor_references b) (m_state b) (m_handles b) (m_threads b) (Some pib) (m_return_status b).

(** Entering user mode does not return; a process of the kernel fails an assertion. *)
Definition Process_initiate_process (ps : Processes P T) (p : Z) : exec (initiated (Processes P T)) :=
  b ← get_block ps p;
  '(execable_info, s) ← load_executable (m_path b) (ps_services ps);
  let ps := set_process_services ps s in
  match execable_info with
  | Error e => ps ← Process_terminate ps p e; Done (Ended ps)
  | Value info =>
      pib ← match m_pib b with Some pib => Done pib | None => Fault end;
      let ps := with_block ps p (block_with_pib b (with_constructors pib info)) in
      match m_privilege_level b with
      | PUser =>
          '(thread_user_stack, s) ← valloc_user PROCESS_STACK_SIZE (ps_services ps);
          Done (EntersUserMode (ei_entry_point info) (u32 (thread_user_stack + PROCESS_STACK_SIZE - 4)) (set_process_services ps s))
      | PKernel => Panic
      end
  end.

End initiate.

(** A program that cannot be loaded ends its process with the error as its status, and with it
    the thread that runs this code. *)
Lemma failed_start_ends {P T} {IP : IdPool P} {PS : ProcessServices T} {RS : ReturningServices T}
    load (ps : Processes P T) p b e s :
  processes_ok None [] ps -> threads_ok ps -> find_block ps p = Some b -> m_state b <> PZombie ->
  load (m_path b) (ps_services ps) = Done (Error e, s) ->
  (forall u, live_thread u (ps_services ps) -> live_thread u s) ->
  exists ps', Process_initiate_process load ps p = Done (Ended ps') /\ processes_ok None [] ps' /\ threads_ok ps' /\
    find_block ps' p = if m_descriptor_references b =? 0 then None else Some (ended_block b e).
Proof.
  intros Hok Hth Hb Hs El Hlive. unfold Process_initiate_process, get_block. rewrite Hb. cbn [mbind exec_bind]. rewrite El.
  cbn [mbind exec_bind].
  destruct (terminate_ok (set_process_services ps s) p b e) as (ps' & E & Hok' & Hth' & Hz & Hnz);
    [by apply ok_services|by apply threads_services|done|done|].
  rewrite E. cbn [mbind exec_bind]. exists ps'. split; [done|]. split; [done|]. split; [done|].
  destruct (Z.eqb_spec (m_descriptor_references b) 0) as [E0|Hn]; [by apply Hz|].
  destruct (Hnz Hn) as (Hf & _). by rewrite Hf, Z.eqb_refl.
Qed.

Section load_spec.
Context {U : Type} `{!UserSpace U} (memory_at : Z -> list Z).

(** A program file: a node of an archive whose name fits, with its bytes in memory. *)
Record program_file (s : System) (ws : list (list Z)) (n : FSNode) (name : list Z) : Prop := {
  pf_node : exists i, resolve (sy_fs s) ws = Value i /\ fs_nodes (sy_fs s) !! i = Some n;
  pf_class : fn_class n = CINode;
  pf_name : str_rep (fn_name n) name;
  pf_short : alen name < MAX_FILE_NAME;
  pf_size : 0 < fn_size n < 2 ^ 31;
  pf_data : fn_size n <= alen (memory_at (fn_data n));
}.

Lemma load_program junk again s u p ws n name :
  fs_ok (sy_fs s) -> sy_descriptions s !! sy_fresh s = None ->
  path_rep p (opened ws) [] -> parts (opened ws) ++ parts [] = ws -> program_file s ws n name ->
  exists s', sy_fs s' = sy_fs s /\ sy_descriptions s' = sy_descriptions s /\
    Process_load_executable memory_at junk again s u p =
      ('(r, u) ← ELFLoader_load u (BufferView_of_ptr (take (Z.to_nat (fn_size n)) (memory_at (fn_data n))));
       Done (Returns (r, s', u))).
Proof.
  intros Hfs Hfresh Hp Hels [(i & Hres & Hn) Hclass Hname Hshort Hsize Hdata].
  pose proof (get_node_absolute (sy_fs s) p ws Hfs Hp Hels) as Hget. rewrite Hres in Hget.
  set (d := sy_fresh s). set (fd := FileDescription_new OM_READ).
  set (s1 := with_descriptions (with_fs s (sy_fs s)) (<[d := (i, fd)]> (sy_descriptions s)) (d + 1)).
  assert (Hn1 : node_at (sy_fs s1) i = Done n) by (unfold node_at; cbn; by rewrite Hn).
  assert (Hd1 : description_at s1 d = Done (i, fd)) by (unfold description_at; cbn; by rewrite lookup_insert_eq).
  exists (with_descriptions s1 (delete d (sy_descriptions s1)) (sy_fresh s1)). split; [done|].
  split; [cbn; by rewrite delete_insert_id|].
  assert (Eopen : FileDescription_open s p OM_READ OF_OPEN_EXISTING = Done (Value d, s1)).
  { unfold FileDescription_open. rewrite Hget. cbn [mbind exec_bind]. change (sy_fresh (with_fs s (sy_fs s))) with d.
    change (sy_descriptions (with_fs s (sy_fs s))) with (sy_descriptions s). fold fd. fold s1.
    unfold node_open. rewrite Hn1. cbn [mbind exec_bind]. rewrite Hclass. done. }
  assert (Equery : exists nm, FileDescription_file_query s1 d (mkInfo (junk <$> seqZ 0 MAX_FILE_NAME) (junk 0) NT_File) =
    Done (ERROR_SUCCESS, mkInfo nm (fn_size n) (fn_type n))).
  { unfold FileDescription_file_query. rewrite Hd1. cbn [mbind exec_bind]. rewrite Hn1. cbn [mbind exec_bind fi_name].
    pose proof (name_copied (fn_name n) name (junk <$> seqZ 0 MAX_FILE_NAME) Hname) as Ecopy.
    rewrite alen_fmap in Ecopy. unfold alen in Ecopy at 2. rewrite length_seqZ in Ecopy. specialize (Ecopy Hshort).
    destruct (memcpy _ _ _ _ _); try discriminate Ecopy. cbn [mbind exec_bind] in Ecopy |- *. rewrite Ecopy. by eexists. }
  destruct Equery as [nm Equery].
  unfold Process_load_executable. rewrite Eopen. cbn [mbind exec_bind]. rewrite Equery. cbn [mbind exec_bind fi_size].
  rewrite Hd1. cbn [mbind exec_bind]. rewrite Hn1. cbn [mbind exec_bind].
  set (buff := junk <$> seqZ MAX_FILE_NAME (fn_size n)).
  assert (Hlb : length buff = Z.to_nat (fn_size n)) by (unfold buff; by rewrite length_fmap, length_seqZ).
  assert (Hab : alen buff = fn_size n) by (unfold alen; rewrite Hlb; lia).
  unfold FileDescription_read, beyond_end. cbn [fd_position fd FileDescription_new]. rewrite Z.add_0_l, Hab, u32_small by lia.
  rewrite (proj2 (Z.ltb_ge _ _)) by lia. cbn [andb]. unfold node_read. rewrite Hn1. cbn [mbind exec_bind]. rewrite Hclass.
  unfold INode_read. cbn [in_size in_data]. rewrite Hab, Z.sub_0_r, u32_small, Z.min_id by lia.
  pose proof (fill_from_start buff (memory_at (fn_data n)) (Z.to_nat (fn_size n))) as Hfill.
  rewrite Z2Nat.id in Hfill by lia. rewrite Hfill by (unfold alen in *; lia). cbn [mbind exec_bind fst snd].
  rewrite drop_ge, app_nil_r by lia.
  destruct (ELFLoader_load u _) as [[r u']| | |]; [|done..]. cbn [mbind exec_bind].
  unfold destroy_description. rewrite Hd1. cbn [mbind exec_bind]. unfold node_close. rewrite Hn1. cbn [mbind exec_bind].
  by rewrite Hclass.
Qed.

End load_spec.


