(* ===== verification/Interrupts.v ===== *)
(** * Interrupts

    How interrupts reach the code that handles them: the gates, the interrupt controller and
    the table of handlers of Segments.v as [kernel_init] sets them up, with the handlers of
    the timer (Scheduler.v), the keyboard (Keyboard.v), the network card (Rtl8139.v), system
    calls (SystemCalls.v) and page faults (virtual_memory/memory.cpp), and the calls that
    threads make through them. *)
From S2P Require Import Prelude BitArray Storage Bitmap Clib Vector IntrusiveList Physical Paging Memory Segments Thread.
From S2P Require Import Scheduler Sync Ports Logger Pci Rtl8139 Keyboard Buffers SystemCalls.

Definition PIC_PIT : Z := 0.
Definition PIC_KEYBOARD : Z := 1.
Definition SCHEDULE_IRQ : Z := 0x81.
Definition SYSCALL_IRQ : Z := 0x80.
Definition IRQ_PF : Z := 14.
Definition I86_PIT_REG_COUNTER0 : Z := 0x40.
Definition I86_PIT_REG_COMMAND : Z := 0x43.
Definition I86_PIT_OCW_COUNTER_0 : Z := 0.
Definition I86_PIT_OCW_RL_DATA : Z := 0x30.
Definition I86_PIT_OCW_MODE_SQUAREWAVEGEN : Z := 0x6.
Definition KBD_DATA_PORT : Z := 0x60.

Definition PF_PRESENT (x : Z) : Z := Z.land x 1.
Definition PF_WR (x : Z) : Z := Z.land x 2.
Definition PF_US (x : Z) : Z := Z.land x 4.

(** ** Messages *)

Definition exception_messages : list string :=
  ["Division by zero"; "Debug"; "Non-maskable interrupt"; "Breakpoint"; "Detected overflow"; "Out-of-bounds";
   "Invalid opcode"; "No coprocessor"; "Double fault"; "Coprocessor segment overrun"; "Bad TSS"; "Segment not present";
   "Stack fault"; "General protection fault"; "Page fault"; "Unknown interrupt"; "Coprocessor fault"; "Alignment check";
   "Machine check"]%string.

Definition log_text (s : string) : log_item := LogString (literal s).
Definition log_line (s : string) : log_item := LogString (c_str (removelast (literal s) ++ [10])).
Definition line_feed : log_item := LogString (c_str [10]).
Definition log_word (w : Z) : log_item := LogHex w 4.

(** What an interrupt without a handler prints. *)
Definition default_interrupt_message (info : ISRContextFrame) : exec (list log_item) :=
  if irq_number info <? 19 then
    message ← aget exception_messages (irq_number info);
    Done [log_line "Exception: "; log_text message; line_feed; log_line "Context Dump:";
          log_text "EIP="; log_word (f_eip info); log_text "  CS=%X "; log_word (f_cs info); log_text "  ESP=";
          log_word (context_stack info); line_feed]
  else if irq_number info <? NUMBER_OF_IDT_EXCEPTIONS then Done [log_text "Reserved Exception Number"]
  else Done [log_text "Undefined IRQ Number (IRQ"; LogUnsigned (irq_number info); log_text ")"].

(** [dump_memory]: the words from [addr] on, four to a line. *)
Definition dump_memory (m : memory) (addr size : Z) : exec (list log_item) :=
  for_ (Z.to_nat (size / 4)) 0
    (fun i items =>
       let items := if i mod 4 =? 0 then items ++ [line_feed; LogPointer (u32 (addr + 4 * i)); log_text ": "] else items in
       w ← vread (tables m) (u32 (addr + 4 * i));
       Done (items ++ [log_word w; log_text "   "])) [].

(** [page_fault_handler] up to its [PANIC]: one message each. [cr2] is the address that the
    processor could not translate. *)
Definition page_fault_report (m : memory) (cr2 : Z) (info : ISRContextFrame) : exec (list (list log_item)) :=
  dump ← dump_memory m (r_esp (registers info)) 0x20;
  Done ([[log_text "--------------------"]; [log_text "Page Fault:"];
         [log_text "Instruction: "; log_word (f_eip info)]; [log_text "Addr: "; log_word cr2]] ++
        (if negb (truthy (PF_PRESENT (error_code info))) then [[log_text "accessing non-present page"]] else []) ++
        (if truthy (PF_US (error_code info)) then [[log_text "accessing kernel page from user mode"]] else []) ++
        (if truthy (PF_WR (error_code info)) then [[log_text "writing to read only page"]] else []) ++ [dump]).

Section machine.
Context {H P D W : Type} `{ListStore H} `{IdPool P} `{PortIO D} `{DriverServices D}.
Abbreviation kern := (kernel H P).

(** What the handlers work on: threads and memory, the keyboard behind
    [Keyboard::current_instance], the ports and the lock of the logger, the card behind the
    [instance] of rtl8139.cpp, and the network above the card. *)
Record Machine := mkMachine {
  mc_kernel : kern;
  mc_keyboard : option Keyboard;
  mc_log : LogState (H := D);
  mc_card : option RTL8139;
  mc_network : W;
}.
Implicit Types (mc : Machine) (k : kern) (info : ISRContextFrame).

Definition with_kernel mc k : Machine := mkMachine k (mc_keyboard mc) (mc_log mc) (mc_card mc) (mc_network mc).
Definition with_keyboard_state mc kb : Machine := mkMachine (mc_kernel mc) kb (mc_log mc) (mc_card mc) (mc_network mc).
Definition with_log mc st : Machine := mkMachine (mc_kernel mc) (mc_keyboard mc) st (mc_card mc) (mc_network mc).
Definition with_ports mc (h : D) : Machine := with_log mc (mkLog h (lg_lock (mc_log mc)) (lg_eflags (mc_log mc))).
Definition with_card mc card : Machine := mkMachine (mc_kernel mc) (mc_keyboard mc) (mc_log mc) card (mc_network mc).
Definition with_network mc w : Machine := mkMachine (mc_kernel mc) (mc_keyboard mc) (mc_log mc) (mc_card mc) w.

(** ** The handlers *)

(** [fuel]: turns of the lock of the logger. The processor halts for good: interrupts are off
    in a handler. *)
Definition ISR_default_interrupt_handler (fuel : nat) mc info : exec (Machine * ISRContextFrame) :=
  items ← default_interrupt_message info;
  _ ← log_statement fuel err_color items (mc_log mc);
  Panic.

Fixpoint log_messages (fuel : nat) (messages : list (list log_item)) (st : LogState (H := D)) : exec (LogState (H := D)) :=
  match messages with
  | [] => Done st
  | items :: messages => st ← log_statement fuel err_color items st; log_messages fuel messages st
  end.

Definition Memory_page_fault_handler (fuel : nat) (cr2 : Z) mc info : exec (Machine * ISRContextFrame) :=
  report ← page_fault_report (k_memory (mc_kernel mc)) cr2 info;
  _ ← log_messages fuel report (mc_log mc);
  Panic.

Definition run_pit_handler mc info : exec (Machine * ISRContextFrame) :=
  '(info, k) ← PIT_pit_handler (mc_kernel mc) info;
  Done (with_kernel mc k, info).

Definition run_schedule_handler mc info : exec (Machine * ISRContextFrame) :=
  '(info, k) ← Scheduler_schedule_handler (mc_kernel mc) info;
  Done (with_kernel mc k, info).

Definition run_keyboard_handler mc info : exec (Machine * ISRContextFrame) :=
  _ ← ASSERT (not_null (mc_keyboard mc));
  let '(data, h) := in8 KBD_DATA_PORT (lg_ports (mc_log mc)) in
  kb ← keyboard_driver_handler (mc_keyboard mc) data;
  Done (with_ports (with_keyboard_state mc kb) h, info).

(** The network takes a frame (Network.v); [fuel] bounds the number of packets in the ring. *)
Context (handle_received_ethernet_frame : list Z -> W -> exec W).

Definition run_card_handler (fuel : nat) mc info : exec (Machine * ISRContextFrame) :=
  '(card, h, w) ← irq_handler handle_received_ethernet_frame fuel (mc_card mc) (lg_ports (mc_log mc)) (mc_network mc);
  Done (with_network (with_card (with_ports mc h) card) w, info).

(** ** Calls of threads *)

Definition Thread_tid k (t : Z) : exec Z := th ← get_thread k t; Done (t_tid th).
Definition Thread_parent_process k (t : Z) : exec Z := th ← get_thread k t; Done (t_parent th).
Definition Thread_state k (t : Z) : exec ThreadState := th ← get_thread k t; Done (t_state th).

(** [Sleep] and [Yield] up to the point where the thread yields; it goes on with their result
    0 when it is chosen again. *)
Definition Sleep k (size : Z) : exec (Result Z * kern) :=
  cur ← current k;
  k ← Thread_sleep k cur size;
  Done (Value 0, k).

Definition VirtualAlloc k (address size flags : Z) : exec (Result Z * kern) :=
  '(ret_address, m) ← (if truthy address then Memory_alloc (k_memory k) address size (Z.lor flags PAGE_USER)
                       else Memory_alloc (k_memory k) 0 size (Z.lor flags PAGE_USER));
  Done (Value (s32 ret_address), set_memory k m).

Definition VirtualFree k (address size : Z) : exec (Result Z * kern) :=
  m ← Memory_free (k_memory k) address size 0;
  Done (Value 0, set_memory k m).

(** The routines on files and processes have a state of their own and their results in
    SystemCalls.v and Process.v. *)
Context (other_routine : routine -> ISRContextFrame -> Machine -> exec (Result Z * Machine)).

Definition call_routine (r : routine) info mc : exec (Result Z * Machine) :=
  let on_kernel (x : exec (Result Z * kern)) := '(ret, k) ← x; Done (ret, with_kernel mc k) in
  match r with
  | SC_Sleep => on_kernel (Sleep (mc_kernel mc) (Context_syscall_param1 info))
  | SC_Yield => Done (Value 0, mc)
  | SC_CreateThread => Done (CreateThread, mc)
  | SC_TerminateThread => Done (TerminateThread, mc)
  | SC_VirtualAlloc =>
      on_kernel (VirtualAlloc (mc_kernel mc) (Context_syscall_param1 info) (Context_syscall_param2 info)
                   (Context_syscall_param3 info))
  | SC_VirtualFree => on_kernel (VirtualFree (mc_kernel mc) (Context_syscall_param1 info) (Context_syscall_param2 info))
  | _ => other_routine r info mc
  end.

(** The two registers for the caller: the error and the value. *)
Definition run_systemcall_handler mc info : exec (Machine * ISRContextFrame) :=
  '(error, value, mc) ← systemcall_handler (fun r => call_routine r info mc) (Context_syscall_num info);
  Done (mc, Context_set_return_arg1 (Context_set_return_value info (u32 error)) (u32 value)).

(** ** The set-up *)

Abbreviation table := (handlers (K := Machine)).

Definition Memory_setup_page_fault_handler (fuel : nat) (cr2 : Z) (v : table) : exec table :=
  ISR_register_software_interrupt_handler v (Memory_page_fault_handler fuel cr2) IRQ_PF.

(** The timer gives a square wave with a period of 0x499 of its ticks. *)
Definition PIT_setup mc (v : table) (log : port_log) : exec (Machine * table * port_log) :=
  let log := PIC_enable_irq PIC_PIT log in
  '(v, log) ← ISR_register_hardware_interrupt_handler v log run_pit_handler PIC_PIT;
  let log := log_out8 I86_PIT_REG_COMMAND
    (Z.lor (Z.lor I86_PIT_OCW_COUNTER_0 I86_PIT_OCW_RL_DATA) I86_PIT_OCW_MODE_SQUAREWAVEGEN) log in
  let log := log_out8 I86_PIT_REG_COUNTER0 0x99 log in
  Done (with_kernel mc (set_ticks (mc_kernel mc) 0), v, log_out8 I86_PIT_REG_COUNTER0 0x04 log).

Definition SystemCall_setup (v : table) : exec table :=
  ISR_register_software_interrupt_handler v run_systemcall_handler SYSCALL_IRQ.

Definition Scheduler_setup (v : table) : exec table :=
  v ← ISR_register_software_interrupt_handler v run_schedule_handler SCHEDULE_IRQ;
  SystemCall_setup v.

(** The constructor of the keyboard, which [kernel_init] calls for the device. *)
Definition Keyboard_construct mc (v : table) (log : port_log) : exec (Machine * table * port_log) :=
  _ ← ASSERT (negb (not_null (mc_keyboard mc)));
  '(v, log) ← ISR_register_hardware_interrupt_handler v log run_keyboard_handler PIC_KEYBOARD;
  Done (with_keyboard_state mc (Some Keyboard_new), v, log).

(** What [kernel_init] does to the interrupts before it looks for devices on the bus, in its
    order. *)
Definition setup_core_interrupts (fuel : nat) (cr2 : Z) (isr_vector : list Z) (entries : list IDTEntry) mc (v : table)
    (log : port_log) : exec (list IDTEntry * Machine * table * port_log) :=
  entries ← IDT_setup entries isr_vector;
  let log := PIC_setup log in
  v ← Memory_setup_page_fault_handler fuel cr2 v;
  '(mc, v, log) ← PIT_setup mc v log;
  v ← Scheduler_setup v;
  '(mc, v, log) ← Keyboard_construct mc v log;
  Done (entries, mc, v, log).

(** The handlers and the lines, as the driver of the card adds to them. *)
Definition card_interrupt (fuel : nat) : InterruptTable (table * port_log) := {|
  register_hardware_interrupt_handler line '(v, log) :=
    ISR_register_hardware_interrupt_handler v log (run_card_handler fuel) line;
|}.

(** [start_network] stands for the network that is made for the card and started: it creates
    threads and waits for an address, while other threads run and interrupts come. [fuel] also
    bounds the polls of the card and the bridges behind one another. *)
Definition find_network_card (fuel : nat)
    (start_network : RTL8139 -> D -> table * port_log -> Machine -> exec (D * (table * port_log) * Machine))
    mc (v : table) (log : port_log) : exec (Machine * table * port_log) :=
  '(h, e) ← PCI_enumerate_pci_devices (IT := card_interrupt fuel) fuel fuel start_network
              (lg_ports (mc_log mc), mkEnum (mc_card mc) (v, log) [] mc);
  Done (with_card (with_ports (en_rest e) h) (en_instance e), (en_table e).1, (en_table e).2).

(** What [kernel_init] does to the interrupts. *)
Definition setup_interrupts (fuel : nat) start_network (cr2 : Z) (isr_vector : list Z) (entries : list IDTEntry) mc
    (v : table) (log : port_log) : exec (list IDTEntry * Machine * table * port_log) :=
  '(entries, mc, v, log) ← setup_core_interrupts fuel cr2 isr_vector entries mc v log;
  '(mc, v, log) ← find_network_card fuel start_network mc v log;
  Done (entries, mc, v, log).

(** An interrupt that the processor delivers: the gate, then the dispatcher. *)
Definition deliver (fuel : nat) (v : table) (log : port_log) mc info : exec (Machine * ISRContextFrame * port_log) :=
  interrupt_dispatcher (ISR_default_interrupt_handler fuel) v log mc info.

(** [Thread::yield]: the instruction [int $0x81]. *)
Definition Thread_yield (fuel : nat) (v : table) (log : port_log) mc (pushed : ISRContextFrame) :
    exec (Machine * ISRContextFrame * port_log) :=
  deliver fuel v log mc
    (mkFrame (context_stack pushed) (registers pushed) SCHEDULE_IRQ (error_code pushed) (f_eip pushed) (f_cs pushed)
       (f_eflags pushed)).

End machine.

(** * What the gates hold *)

Definition gate_for (address : Z) : IDTEntry :=
  mkIDTEntry (u16 (Z.land address 0xFFFF)) (u16 KCS_SELECTOR) 0 0xEE (u16 (Z.shiftr (Z.land address 0xFFFF0000) 16)).

Lemma idt_filled entries isr_vector :
  alen entries = NUMBER_OF_IDT_ENTRIES -> alen isr_vector = NUMBER_OF_IDT_ENTRIES ->
  IDT_setup entries isr_vector = Done (gate_for <$> isr_vector).
Proof.
  intros He Hv. unfold IDT_setup. change NUMBER_OF_IDT_ENTRIES with 256 in *.
  assert (Hgen : forall l1 l2 old, isr_vector = l1 ++ l2 -> length old = length l2 ->
    for_ (length l2) (alen l1) (fun i entries => address ← aget isr_vector i;
      IDT_fill_idt_entry entries i address KCS_SELECTOR
        (Z.lor (Z.lor (Z.lor IDT_PRESENT IDT_GATE_32) IDT_INT_GATE) IDT_RING3)) ((gate_for <$> l1) ++ old) =
    Done (gate_for <$> isr_vector)).
  { intros l1 l2. revert l1. induction l2 as [|a l2 IH]; intros l1 old E Hl.
    - destruct old; [|done]. cbn [for_ length]. by rewrite E, !app_nil_r.
    - destruct old as [|o old]; [done|]. cbn [for_ length].
      rewrite (aget_Done _ _ a), bind_Done; [|apply alen_nonneg|rewrite E; unfold alen; rewrite Nat2Z.id; by apply list_lookup_middle].
      assert (Hr : 0 <= alen l1 < 256) by (rewrite E, alen_app, alen_cons in Hv; pose proof (alen_nonneg l1); pose proof (alen_nonneg l2); lia).
      unfold IDT_fill_idt_entry. rewrite (u8_small (alen l1)) by lia.
      rewrite aset_Done by (rewrite alen_app, alen_fmap, alen_cons; pose proof (alen_nonneg old); lia).
      cbn [mbind exec_bind]. unfold alen at 2. rewrite Nat2Z.id, <- (length_fmap gate_for l1), insert_app_r_alt, Nat.sub_diag by lia.
      specialize (IH (l1 ++ [a]) old). rewrite alen_snoc in IH.
      replace ((gate_for <$> l1 ++ [a]) ++ old) with ((gate_for <$> l1) ++ gate_for a :: old) in IH
        by (by rewrite fmap_app, <- app_assoc).
      apply IH; [by rewrite <- app_assoc|]. by injection Hl. }
  replace (Z.to_nat 256) with (length isr_vector) by (unfold alen in Hv; lia).
  apply (Hgen [] isr_vector entries); [done|]. unfold alen in *. lia.
Qed.

(** * Who handles what *)

Section wiring.
Context {H P D W : Type} `{ListStore H} `{IdPool P} `{CardHost D}.
Abbreviation machine := (Machine (H := H) (P := P) (D := D) (W := W)).
Context (handle_received_ethernet_frame : list Z -> W -> exec W).
Context (other_routine : routine -> ISRContextFrame -> machine -> exec (Result Z * machine)).
Context (fuel : nat) (cr2 : Z).
Implicit Types (mc : machine) (info : ISRContextFrame) (log : port_log).

(** The handler of an interrupt number, and whether it is acknowledged; [lines] is the line of
    the card, if there is one. *)
Definition wired (lines : list Z) (n : Z) : option (ISRFunction (K := machine) * ISRType) :=
  if n =? SCHEDULE_IRQ then Some (run_schedule_handler, Software)
  else if n =? SYSCALL_IRQ then Some (run_systemcall_handler other_routine, Software)
  else if n =? PIC1_IDT_OFFSET + PIC_KEYBOARD then Some (run_keyboard_handler, Hardware)
  else if n =? PIC1_IDT_OFFSET + PIC_PIT then Some (run_pit_handler, Hardware)
  else if n =? IRQ_PF then Some (Memory_page_fault_handler fuel cr2, Software)
  else if bool_decide (n - PIC1_IDT_OFFSET ∈ lines) then Some (run_card_handler handle_received_ethernet_frame fuel, Hardware)
  else None.

(** A table in which one handler has been entered. *)
Definition handler_entered (v v' : handlers (K := machine)) (i : Z) x : Prop :=
  alen v' = alen v /\ forall j, 0 <= j -> aget v' j = if i =? j then Done (Some x) else aget v j.

Lemma software_registered (v : handlers (K := machine)) f i :
  0 <= i < alen v ->
  exists v', ISR_register_software_interrupt_handler v f i = Done v' /\ handler_entered v v' i (f, Software).
Proof.
  intros Hi. unfold ISR_register_software_interrupt_handler. rewrite aset_Done by done. eexists. split; [done|].
  split; [by rewrite alen_insert|]. intros j Hj. by apply aget_insert.
Qed.

Lemma hardware_registered (v : handlers (K := machine)) log f line :
  0 <= line + PIC1_IDT_OFFSET < alen v ->
  exists v', ISR_register_hardware_interrupt_handler v log f line = Done (v', PIC_enable_irq line log) /\
    handler_entered v v' (line + PIC1_IDT_OFFSET) (f, Hardware).
Proof.
  intros Hi. unfold ISR_register_hardware_interrupt_handler. rewrite aset_Done by done. eexists. split; [done|].
  split; [by rewrite alen_insert|]. intros j Hj. by apply aget_insert.
Qed.

Lemma other_port_mask port data log line :
  port <> PIC1_DATA -> port <> PIC2_DATA -> line_masked (log_out8 port data log) line = line_masked log line.
Proof.
  intros Hp1 Hp2. unfold line_masked, log_out8. cbn [log_in8].
  by destruct (line <? 8); rewrite (proj2 (Z.eqb_neq port _)) by done.
Qed.

Lemma core_result isr_vector entries mc log :
  alen entries = NUMBER_OF_IDT_ENTRIES -> alen isr_vector = NUMBER_OF_IDT_ENTRIES -> mc_keyboard mc = None ->
  exists v log', setup_core_interrupts other_routine fuel cr2 isr_vector entries mc (replicate 256 None) log =
    Done (gate_for <$> isr_vector, with_keyboard_state (with_kernel mc (set_ticks (mc_kernel mc) 0)) (Some Keyboard_new), v, log') /\
    alen v = 256 /\ (forall n, 0 <= n < 256 -> aget v n = Done (wired [] n)) /\
    forall line, 0 <= line < 16 -> line_masked log' line = negb (bool_decide (line ∈ [PIC_PIT; PIC_KEYBOARD; 2])).
Proof.
  intros He Hv Hk. unfold setup_core_interrupts. rewrite idt_filled by done. cbn [mbind exec_bind].
  unfold Memory_setup_page_fault_handler, Scheduler_setup, SystemCall_setup, PIT_setup, Keyboard_construct.
  destruct (software_registered (replicate 256 None) (Memory_page_fault_handler fuel cr2) IRQ_PF)
    as (v1 & -> & L1 & G1); [done|]. cbn [mbind exec_bind]. change (alen (replicate _ _)) with 256 in L1.
  destruct (hardware_registered v1 (PIC_enable_irq PIC_PIT (PIC_setup log)) run_pit_handler PIC_PIT)
    as (v2 & -> & L2 & G2); [by rewrite L1|]. cbn [mbind exec_bind]. rewrite L1 in L2.
  destruct (software_registered v2 run_schedule_handler SCHEDULE_IRQ) as (v3 & -> & L3 & G3); [by rewrite L2|].
  cbn [mbind exec_bind]. rewrite L2 in L3.
  destruct (software_registered v3 (run_systemcall_handler other_routine) SYSCALL_IRQ) as (v4 & -> & L4 & G4); [by rewrite L3|].
  cbn [mbind exec_bind with_kernel mc_keyboard]. rewrite Hk, L3 in *. cbn [not_null negb ASSERT mbind exec_bind].
  match goal with |- context [ISR_register_hardware_interrupt_handler v4 ?l _ _] =>
    destruct (hardware_registered v4 l run_keyboard_handler PIC_KEYBOARD) as (v5 & -> & L5 & G5) end; [by rewrite L4|].
  cbn [mbind exec_bind]. eexists _, _. split; [reflexivity|]. split; [congruence|]. split.
  - intros n Hn. rewrite G5, G4, G3, G2, G1 by lia. unfold wired.
    unfold IRQ_PF, PIC_PIT, PIC_KEYBOARD, PIC1_IDT_OFFSET, SCHEDULE_IRQ, SYSCALL_IRQ.
    destruct (Z.eqb_spec n 0x81) as [->|]; [done|]. destruct (Z.eqb_spec n 0x80) as [->|]; [done|].
    destruct (Z.eqb_spec n (0x20 + 1)) as [->|]; [done|]. destruct (Z.eqb_spec n (0x20 + 0)) as [->|]; [done|].
    destruct (Z.eqb_spec n 14) as [->|]; [done|].
    rewrite !(proj2 (Z.eqb_neq _ n)) by lia. rewrite (aget_Done _ _ None); [done|lia|].
    apply lookup_replicate_2. lia.
  - intros line Hl. rewrite enable_line_mask, !other_port_mask, !enable_line_mask, setup_masks by done.
    destruct (Z.eqb_spec line 0) as [->|]; [done|]. destruct (Z.eqb_spec line 1) as [->|]; [done|].
    destruct (Z.eqb_spec line 2) as [->|]; [done|]. unfold PIC_PIT, PIC_KEYBOARD.
    rewrite !(proj2 (Z.eqb_neq line _)) by done. rewrite bool_decide_eq_false_2; [done|].
    rewrite !elem_of_cons, elem_of_nil. tauto.
Qed.

(** The line of a card that the scan comes to, if there is one. *)
Definition card_lines (h : D) (card : option PCIDevice) : list Z := (fun d => config8 h d 0x3C) <$> option_list card.

(** Where the registers of the card are, and which line it has. *)
Definition card_ok (h : D) (d : PCIDevice) : Prop :=
  card_ports (PCIBaseAddressRegister_io_address (PCIBaseAddressRegister_new (config32 h d 0x10))) /\
  2 < config8 h d 0x3C < 16.

(** The network starts, and leaves the registers that say what a device is, the handlers and
    the lines as they are. *)
Definition network_starts
    (start_network : RTL8139 -> D -> handlers (K := machine) * port_log -> machine -> exec (D * (handlers (K := machine) * port_log) * machine)) : Prop :=
  forall n h t mc, exists h' t' mc', start_network n h t mc = Done (h', t', mc') /\ same_setup h h' /\ t'.1 = t.1 /\
    forall line, 0 <= line < 16 -> line_masked t'.2 line = line_masked t.2 line.

Lemma wired_card line n :
  2 < line < 16 -> 0 <= n < 256 ->
  wired [line] n = if line + PIC1_IDT_OFFSET =? n then Some (run_card_handler handle_received_ethernet_frame fuel, Hardware)
    else wired [] n.
Proof.
  intros Hl Hn. unfold wired. rewrite (bool_decide_eq_false_2 (_ ∈ ([] : list Z))) by apply not_elem_of_nil.
  unfold SCHEDULE_IRQ, SYSCALL_IRQ, IRQ_PF, PIC_KEYBOARD, PIC_PIT, PIC1_IDT_OFFSET.
  destruct (Z.eqb_spec (line + 0x20) n) as [<-|Hne].
  - rewrite !(proj2 (Z.eqb_neq (line + 0x20) _)) by lia. rewrite bool_decide_eq_true_2; [done|]. apply list_elem_of_singleton. lia.
  - rewrite (bool_decide_eq_false_2 (n - 0x20 ∈ [line])); [done|]. rewrite list_elem_of_singleton. lia.
Qed.

(** The whole set-up, on a machine with one card or none. *)
Lemma setup_result start_network isr_vector entries mc log card :
  let hw := lg_ports (mc_log mc) in
  alen entries = NUMBER_OF_IDT_ENTRIES -> alen isr_vector = NUMBER_OF_IDT_ENTRIES -> mc_keyboard mc = None -> mc_card mc = None ->
  no_bridges hw -> cards hw = option_list card -> (forall d, card = Some d -> card_ok hw d) -> network_starts start_network ->
  (reset_bound < fuel)%nat ->
  exists mc' v log',
    setup_interrupts handle_received_ethernet_frame other_routine fuel start_network cr2 isr_vector entries mc (replicate 256 None) log =
      Done (gate_for <$> isr_vector, mc', v, log') /\
    same_setup hw (lg_ports (mc_log mc')) /\ rt_pci <$> mc_card mc' = card /\
    (forall n, 0 <= n < 256 -> aget v n = Done (wired (card_lines hw card) n)) /\
    forall line, 0 <= line < 16 ->
      line_masked log' line = negb (bool_decide (line ∈ [PIC_PIT; PIC_KEYBOARD; 2] ++ card_lines hw card)).
Proof.
  intros hw He Hv Hk Hc Hnb Hcards Hok Hnet Hf. unfold setup_interrupts.
  destruct (core_result isr_vector entries mc log He Hv Hk) as (v & log1 & -> & Lv & Hw & Hl). cbn [mbind exec_bind].
  unfold find_network_card. cbn [with_keyboard_state with_kernel mc_card mc_log lg_ports]. rewrite Hc. fold hw.
  set (mc1 := with_keyboard_state _ _).
  assert (Hreg : forall line, 2 < line < 16 -> exists v', ISR_register_hardware_interrupt_handler v log1
    (run_card_handler handle_received_ethernet_frame fuel) line = Done (v', PIC_enable_irq line log1) /\
    handler_entered v v' (line + PIC1_IDT_OFFSET) (run_card_handler handle_received_ethernet_frame fuel, Hardware)).
  { intros line Hline. apply hardware_registered. rewrite Lv. unfold PIC1_IDT_OFFSET. lia. }
  destruct (enumerate_spec (IT := card_interrupt handle_received_ethernet_frame fuel) fuel start_network fuel hw (v, log1) mc1 card)
    as (hw' & e & -> & S & Hfound); [done| | |done|lia|done|].
  - intros d Ed. destruct (Hok d Ed) as [Hp Hline]. split; [done|]. destruct (Hreg _ Hline) as (v' & E & _). by eexists.
  - intros n h1 t w. destruct (Hnet n h1 t w) as (h2 & t' & w' & E & S & _). by exists h2, t', w'.
  - cbn [mbind exec_bind]. eexists _, _, _. split; [done|]. cbn [with_card with_ports with_log mc_log lg_ports mc_card].
    split; [done|]. destruct card as [d|]; cbn [option_list card_found] in *.
    + change (card_lines hw (Some d)) with [config8 hw d 0x3C]. destruct Hfound as (n & h1 & h2 & t1 & En & S1 & Et & -> & Est). destruct (Hok d eq_refl) as [_ Hline].
      cbn [register_hardware_interrupt_handler card_interrupt] in Et.
      destruct (Hreg _ Hline) as (v1 & E1 & _ & G1). rewrite E1 in Et. injection Et as <-.
      destruct (Hnet n h1 (v1, PIC_enable_irq (config8 hw d 0x3C) log1) mc1) as (h3 & t3 & mc3 & E3 & _ & Hv3 & Hl3).
      rewrite E3 in Est. injection Est as _ <- _. cbn [fst snd] in *. split; [by rewrite <- En|]. split.
      * intros i Hi. rewrite Hv3, G1, wired_card by lia. destruct (_ =? i); [done|]. by apply Hw.
      * intros line Hl'. rewrite Hl3, enable_line_mask, Hl by lia.
        destruct (Z.eqb_spec line (config8 hw d 0x3C)) as [->|Hne].
        -- rewrite andb_false_r, bool_decide_eq_true_2; [done|]. apply elem_of_app. right. left.
        -- rewrite andb_true_r. f_equal. apply bool_decide_ext. rewrite elem_of_app, list_elem_of_singleton. tauto.
    + change (card_lines hw None) with (@nil Z). simpl in Hfound. subst e. split; [done|]. cbn [fst snd en_table]. split; [exact Hw|]. intros line Hl'. by rewrite app_nil_r, Hl.
Qed.

(** Handlers leave the number of the interrupt in its frame: the acknowledgement is for it. *)
Lemma schedule_keeps_number (k : kernel H P) info type info' k' :
  Scheduler_schedule k info type = Done (info', k') -> irq_number info' = irq_number info.
Proof.
  unfold Scheduler_schedule. intros E. inv_done. case_match; [|by inv_done].
  unfold Scheduler_load_context in E. by inv_done.
Qed.

Lemma pit_keeps_number mc info mc' info' : run_pit_handler mc info = Done (mc', info') -> irq_number info' = irq_number info.
Proof.
  unfold run_pit_handler, PIT_pit_handler. intros E. inv_done. destruct x0 as [i k], x as [i2 k2]. inv_done. by eapply schedule_keeps_number.
Qed.

Lemma keyboard_keeps_frame mc info mc' info' : run_keyboard_handler mc info = Done (mc', info') -> info' = info.
Proof. unfold run_keyboard_handler. intros E. inv_done. destruct (in8 _ _) as [data h]. by inv_done. Qed.

Lemma card_keeps_frame mc info mc' info' :
  run_card_handler handle_received_ethernet_frame fuel mc info = Done (mc', info') -> info' = info.
Proof. unfold run_card_handler. intros E. apply bind_Done_inv in E as ([[? ?] ?] & _ & E). by injection E. Qed.

(** What an interrupt does. *)
Definition reaction (lines : list Z) log mc info : exec (machine * ISRContextFrame * port_log) :=
  let software (r : exec (machine * ISRContextFrame)) := '(mc, info) ← r; Done (mc, info, log) in
  let hardware (r : exec (machine * ISRContextFrame)) := '(mc, info) ← r; Done (mc, info, (PIC1_COMMAND, PIC_EOI) :: log) in
  let hardware2 (r : exec (machine * ISRContextFrame)) :=
    '(mc, info) ← r; Done (mc, info, (PIC2_COMMAND, PIC_EOI) :: (PIC1_COMMAND, PIC_EOI) :: log) in
  if irq_number info =? 0x20 then hardware (run_pit_handler mc info)
  else if irq_number info =? 0x21 then hardware (run_keyboard_handler mc info)
  else if irq_number info =? 0x80 then software (run_systemcall_handler other_routine mc info)
  else if irq_number info =? 0x81 then software (run_schedule_handler mc info)
  else if irq_number info =? 14 then software (Memory_page_fault_handler fuel cr2 mc info)
  else if bool_decide (irq_number info - 0x20 ∈ lines) then
    (if irq_number info <? 0x28 then hardware else hardware2) (run_card_handler handle_received_ethernet_frame fuel mc info)
  else software (ISR_default_interrupt_handler fuel mc info).

Lemma acknowledged (r : exec (machine * ISRContextFrame)) log n :
  (forall mc' info', r = Done (mc', info') -> irq_number info' = n) ->
  ('(mc, info) ← r; Done (mc, info, PIC_acknowledge_pic (irq_number info) log)) =
  if n <? 0x28 then ('(mc, info) ← r; Done (mc, info, (PIC1_COMMAND, PIC_EOI) :: log))
  else ('(mc, info) ← r; Done (mc, info, (PIC2_COMMAND, PIC_EOI) :: (PIC1_COMMAND, PIC_EOI) :: log)).
Proof.
  intros Hr. destruct r as [[mc' info']| | |]; [|by destruct (n <? 0x28)..]. cbn [mbind exec_bind]. rewrite (Hr mc' info' eq_refl).
  unfold PIC_acknowledge_pic. change (PIC1_IDT_OFFSET + 8) with 0x28. by destruct (n <? 0x28).
Qed.

Lemma delivered (v : handlers (K := machine)) lines log mc info :
  (forall n, 0 <= n < 256 -> aget v n = Done (wired lines n)) -> 0 <= irq_number info < 256 ->
  deliver fuel v log mc info = reaction lines log mc info.
Proof.
  intros Hv Hn. unfold deliver, interrupt_dispatcher. rewrite Hv by done. cbn [mbind exec_bind]. unfold wired, reaction.
  unfold SCHEDULE_IRQ, SYSCALL_IRQ, IRQ_PF. change (PIC1_IDT_OFFSET + PIC_KEYBOARD) with 0x21.
  change (PIC1_IDT_OFFSET + PIC_PIT) with 0x20. change PIC1_IDT_OFFSET with 0x20.
  destruct (Z.eqb_spec (irq_number info) 0x81) as [E|]; [by rewrite E|].
  destruct (Z.eqb_spec (irq_number info) 0x80) as [E|]; [by rewrite E|].
  destruct (Z.eqb_spec (irq_number info) 0x21) as [E|].
  { rewrite E. apply (acknowledged _ log 0x21). intros mc' info' Er. by rewrite (keyboard_keeps_frame _ _ _ _ Er). }
  destruct (Z.eqb_spec (irq_number info) 0x20) as [E|].
  { apply (acknowledged _ log 0x20). intros mc' info' Er. by rewrite (pit_keeps_number _ _ _ _ Er). }
  destruct (irq_number info =? 14); [done|]. destruct (bool_decide _); [|done].
  rewrite (acknowledged _ log (irq_number info)); [by destruct (_ <? _)|]. intros mc' info' Er. by rewrite (card_keeps_frame _ _ _ _ Er).
Qed.

(** An interrupt that nobody handles stops the machine, and so does a page fault. *)
Lemma unhandled_stops lines log mc info r :
  irq_number info ∉ [0x20; 0x21; 0x80; 0x81] ++ (Z.add 0x20 <$> lines) -> reaction lines log mc info <> Done r.
Proof.
  rewrite elem_of_app, !elem_of_cons, elem_of_nil. intros Hn. unfold reaction. rewrite !(proj2 (Z.eqb_neq (irq_number info) _)) by tauto.
  rewrite bool_decide_eq_false_2.
  2: { intros Hin. apply Hn. right. apply list_elem_of_fmap. exists (irq_number info - 0x20). split; [lia|done]. }
  unfold Memory_page_fault_handler, ISR_default_interrupt_handler.
  destruct (irq_number info =? 14); intros E; apply bind_Done_inv in E as (? & E & _); by inv_done.
Qed.

End wiring.

(** * Properties *)

(** C34: after [kernel_init] has set the interrupts up, on a machine without bridges on its
    PCI bus and with one RTL8139 that the scan comes to, or none, every interrupt reaches its
    handler. The card has its registers in the ports from 0xD00 on and one of the lines 3 to
    15, its reset ends within the fuel, and the start of the network above it returns and
    leaves handlers and open lines as they are. Gate [n] leads to the entry point [n] of the
    dispatcher, in the segment of the kernel; of the lines only those of the timer, the
    keyboard, the second controller and the card get through; the dispatcher runs the scheduler
    for 0x81, the system calls for 0x80, the timer for 0x20, the keyboard for 0x21 and the
    driver of the card for 0x20 and its line, acknowledges exactly these hardware interrupts,
    from line 8 on at both controllers, and for any other number the machine stops. *)
Theorem kernel_interrupts_wired {H P D W} `{ListStore H} `{IdPool P} `{CardHost D} receive other_routine fuel start_network
    cr2 isr_vector entries (mc : Machine (H := H) (P := P) (D := D) (W := W)) log card :
  let hw := lg_ports (mc_log mc) in
  alen entries = NUMBER_OF_IDT_ENTRIES -> alen isr_vector = NUMBER_OF_IDT_ENTRIES ->
  Forall (fun a => 0 <= a < 2 ^ 32) isr_vector -> mc_keyboard mc = None -> mc_card mc = None ->
  no_bridges hw -> cards hw = option_list card -> (forall d, card = Some d -> card_ok hw d) -> network_starts start_network ->
  (reset_bound < fuel)%nat ->
  exists gates mc' v log',
    setup_interrupts receive other_routine fuel start_network cr2 isr_vector entries mc (replicate 256 None) log =
      Done (gates, mc', v, log') /\ rt_pci <$> mc_card mc' = card /\
    (forall n a, isr_vector !! n = Some a -> exists g, gates !! n = Some g /\ gate_offset g = a /\ idt_segment g = KCS_SELECTOR) /\
    (forall line, 0 <= line < 16 ->
       line_masked log' line = negb (bool_decide (line ∈ [PIC_PIT; PIC_KEYBOARD; 2] ++ card_lines hw card))) /\
    forall log mc info, 0 <= irq_number info < 256 ->
      deliver fuel v log mc info = reaction receive other_routine fuel cr2 (card_lines hw card) log mc info /\
      (irq_number info ∉ [0x20; 0x21; 0x80; 0x81] ++ (Z.add 0x20 <$> card_lines hw card) ->
       forall r, deliver fuel v log mc info <> Done r).
Proof.
  intros hw He Hv Ha Hk Hc Hnb Hcards Hok Hnet Hf.
  destruct (setup_result receive other_routine fuel cr2 start_network isr_vector entries mc log card He Hv Hk Hc Hnb Hcards Hok Hnet Hf)
    as (mc' & v & log' & E & _ & Hcard & Hw & Hl).
  exists (gate_for <$> isr_vector), mc', v, log'. split; [done|]. split; [done|]. split; [|split; [done|]].
  - intros n a En. exists (gate_for a). rewrite list_lookup_fmap, En. split; [done|]. split; [|done].
    apply gate_offset_spec. rewrite Forall_forall in Ha. by eapply Ha, list_elem_of_lookup_2.
  - intros log1 mc1 info Hn. rewrite (delivered receive other_routine fuel cr2 _ (card_lines hw card)) by done. split; [done|].
    intros Hno r. by apply unhandled_stops.
Qed.

(** The host of Pci.v with the memory that the driver asks for; its cards are reset at once. *)
#[export] Instance HostMemory_services : DriverServices HostMemory := {|
  valloc _ _ h := (0x100000, h);
  virtual_to_physical_address a _ := a;
  load8 _ _ := 0;
  store8 _ _ h := h;
|}.

#[export] Program Instance HostMemory_cards : CardHost HostMemory := {| reset_wait _ := 0%nat; reset_bound := 0 |}.
Next Obligation.
  unfold device_port. intros w p h Hp. cbn [port_in HostMemory_ports].
  by destruct (Z.leb_spec 0xCFC p), (Z.ltb_spec p 0xD00); try lia.
Qed.
Next Obligation.
  unfold device_port. intros w p v h Hp. cbn [port_out HostMemory_ports]. rewrite (proj2 (Z.eqb_neq p _)) by lia.
  by destruct (Z.leb_spec 0xCFC p), (Z.ltb_spec p 0xD00); try lia.
Qed.
Next Obligation. done. Qed.
Next Obligation. done. Qed.
Next Obligation.
  unfold device_port. intros p h Hp. cbn [port_in HostMemory_ports].
  by destruct (Z.leb_spec 0xCFC p), (Z.ltb_spec p 0xD00); try lia.
Qed.

(** A host bridge and a card in slot 3, with its registers at the port 0xC000 and line 11. *)
Definition card_host : HostMemory :=
  mkHost 0 (list_to_map (id_bytes (mkPCI 0 0 0) 0x8086 0 ++ id_bytes (mkPCI 0 3 0) 0x10EC 0 ++
    ((fun '(o, x) => (mechanism_address (mkPCI 0 3 0) o, x)) <$>
       [(2, 0x39); (3, 0x81); (0x10, 1); (0x11, 0xC0); (0x12, 0); (0x13, 0); (0x3C, 11)]))).

Lemma card_host_no_bridges : no_bridges card_host.
Proof.
  assert (E : Forall (fun kv : Z * Z => kv.1 mod 256 = 0xE -> kv.2 mod 256 mod 128 <> 1) (map_to_list (hm_bytes card_host))).
  { apply (bool_decide_unpack _). by vm_compute. }
  intros d (Hb & Hs & Hf) _. unfold bridge, config8. cbn [config HostMemory_pci]. unfold host_byte.
  destruct (hm_bytes card_host !! _) as [v|] eqn:Ev; [|done]. apply elem_of_map_to_list in Ev.
  rewrite Forall_forall in E. apply Z.eqb_neq, (E _ Ev). cbn [fst]. unfold mechanism_address. zdiv.
Qed.

(** The kernel of Thread.v with its interrupts; the entry points lie behind one another. *)
Definition sample_machine : Machine (H := node_heap) (P := Bitmap) (D := HostMemory) (W := list (list Z)) :=
  mkMachine (sample_kernel 7) None (mkLog card_host (mkSpinlock 0 0) 0) None [].

Definition sample_entry_points : list Z := (fun i => 0xC0100000 + 16 * i) <$> seqZ 0 256.

Lemma kernel_interrupts_wired_witness :
  exists gates mc' v log',
    setup_interrupts collect (fun _ _ mc => Done (Value 0, mc)) 1 (fun _ h t mc => Done (h, t, mc)) 0 sample_entry_points
      (replicate 256 (mkIDTEntry 0 0 0 0 0)) sample_machine (replicate 256 None) [] = Done (gates, mc', v, log') /\
    rt_pci <$> mc_card mc' = Some (mkPCI 0 3 0) /\
    line_masked log' 1 = false /\ line_masked log' 11 = false /\ line_masked log' 12 = true /\
    exists g, gates !! 0x80%nat = Some g /\ gate_offset g = 0xC0100800.
Proof.
  destruct (kernel_interrupts_wired collect (fun _ _ mc => Done (Value 0, mc)) 1 (fun _ h t mc => Done (h, t, mc)) 0
    sample_entry_points (replicate 256 (mkIDTEntry 0 0 0 0 0)) sample_machine [] (Some (mkPCI 0 3 0)))
    as (gates & mc' & v & log' & E & Ecard & Hg & Hl & _).
  - reflexivity.
  - reflexivity.
  - apply Forall_forall. intros a. unfold sample_entry_points. rewrite list_elem_of_fmap. intros (i & -> & Hi).
    apply elem_of_seqZ in Hi. lia.
  - reflexivity.
  - reflexivity.
  - exact card_host_no_bridges.
  - vm_compute. reflexivity.
  - intros d Ed. injection Ed as <-. split; [split|split]; vm_compute; congruence.
  - intros n h t mc. exists h, t, mc. split; [reflexivity|]. split; [reflexivity|]. split; reflexivity.
  - vm_compute. lia.
  - exists gates, mc', v, log'. split; [exact E|]. split; [exact Ecard|].
    assert (El : card_lines (lg_ports (mc_log sample_machine)) (Some (mkPCI 0 3 0)) = [11]) by (vm_compute; reflexivity).
    cbv zeta in Hl. rewrite El in Hl. rewrite !Hl by lia. split; [reflexivity|]. split; [reflexivity|]. split; [reflexivity|].
    destruct (Hg 0x80%nat 0xC0100800 ltac:(vm_compute; reflexivity)) as (g & Hgate & Ho & _).
    exists g. split; [exact Hgate|exact Ho].
Defined.

(** ** What the handlers print *)

(** Every number has a message; the names of the exceptions are never read out of range. *)
Lemma every_interrupt_has_message info :
  0 <= irq_number info -> exists items, default_interrupt_message info = Done items /\ items <> [].
Proof.
  intros Hn. unfold default_interrupt_message. destruct (Z.ltb_spec (irq_number info) 19) as [Hlt|].
  - destruct (aget_in_range exception_messages (irq_number info)) as (m & -> & _); [split; [done|exact Hlt]|by eexists].
  - destruct (_ <? _); by eexists.
Qed.

(** A page fault in the middle of a message prints nothing: the handler waits for the lock of
    the logger, which the interrupted statement holds. *)
Lemma page_fault_in_message_hangs {H P D W} `{ListStore H} `{IdPool P} `{PortIO D} fuel cr2
    (mc : Machine (H := H) (P := P) (D := D) (W := W)) info report :
  page_fault_report (k_memory (mc_kernel mc)) cr2 info = Done report -> sp_value (lg_lock (mc_log mc)) <> 0 ->
  Memory_page_fault_handler fuel cr2 mc info = OutOfFuel.
Proof.
  intros Er Hl. unfold Memory_page_fault_handler. rewrite Er. cbn [mbind exec_bind]. unfold page_fault_report in Er.
  inv_done. unfold log_messages, log_statement, Logger_new. cbn [app]. by rewrite acquire_held.
Qed.
