(* ===== verification/Arguments.v ===== *)
(** * The command line of a program

    libraries/stdlib/argument_parser.cpp: a copy of the line is trimmed and cut at its blanks,
    in place: every blank becomes a terminating zero, and the arguments are views into the
    copy. The parser is a part of user programs, where assertions are compiled to nothing. *)
From S2P Require Import Prelude Clib Strings.

(** An argument is the place of its first character in [m_data] and its length; the vector is
    the sequence it holds. *)
Record ArgumentParser := mkArguments { ap_data : String; m_argument_list : list (Z * Z) }.

Definition BLANK : Z := 32.

(** The function object of the first step, with the variable [last_char] that it captures. *)
Definition repeated_blank (last_char c : Z) : bool * Z :=
  if (c =? BLANK) && (c =? last_char) then (true, last_char) else (false, c).

Definition trim_arguments (m_data : String) : exec String :=
  m_data ← String_erase_if_with repeated_blank 0 m_data;
  c ← String_at m_data 0;
  m_data ← (if c =? BLANK then String_erase m_data 0 1 else Done m_data);
  c ← String_at m_data (u32 (s_size m_data - 1));
  if c =? BLANK then String_erase m_data (u32 (s_size m_data - 1)) 1 else Done m_data.

Definition split_step (m_data : String) (l : list (Z * Z)) (pos : Z) : exec (String * list (Z * Z) * Z + ArgumentParser) :=
  next_pos ← String_find_char m_data BLANK pos;
  if negb (next_pos =? NOT_FOUND) then
    m_data ← String_set_at m_data next_pos 0;
    v ← StringView_of_cstr_len (s_bytes m_data) pos (u32 (next_pos - pos));
    Done (inl (m_data, l ++ [(pos, sv_size v)], u32 (next_pos + 1)))
  else
    v ← StringView_of_cstr_len (s_bytes m_data) pos END;
    Done (inr (mkArguments m_data (l ++ [(pos, sv_size v)]))).

(** Every turn but the last passes a blank. *)
Definition split_arguments (m_data : String) : exec ArgumentParser :=
  while (S (Z.to_nat (s_size m_data))) (fun '(m_data, l, pos) => split_step m_data l pos) (m_data, [], 0).

Definition ArgumentParser_new (argument : StringView) : exec ArgumentParser :=
  m_data ← String_of_view argument;
  if s_size m_data =? 0 then Done (mkArguments m_data [])
  else m_data ← trim_arguments m_data; split_arguments m_data.

Definition ArgumentParser_count (p : ArgumentParser) : Z := alen (m_argument_list p).

(** An assertion of the libraries as it is compiled: a check in the kernel, nothing in a
    program. *)
Definition ASSERT_in (kernel_build b : bool) : exec unit := if kernel_build then ASSERT b else Done tt.

Definition ArgumentParser_at (kernel_build : bool) (p : ArgumentParser) (index : Z) : exec StringView :=
  _ ← ASSERT_in kernel_build (index <? alen (m_argument_list p));
  '(off, size) ← aget (m_argument_list p) index;
  Done (mkView size (s_bytes (ap_data p)) off).

(** ** The words of a line *)

(** [cur] are the characters of a word that is being read. *)
Fixpoint words_from (cur cs : list Z) : list (list Z) :=
  match cs with
  | [] => if bool_decide (cur = []) then [] else [cur]
  | c :: cs =>
      if c =? BLANK then (if bool_decide (cur = []) then [] else [cur]) ++ words_from [] cs
      else words_from (cur ++ [c]) cs
  end.

Definition line_words (cs : list Z) : list (list Z) := words_from [] cs.

Definition is_word (w : list Z) : Prop := w <> [] /\ Forall (fun c => c <> BLANK /\ c <> 0) w.

(** The words with one blank between them, and with a zero behind each. *)
Fixpoint spaced (ws : list (list Z)) : list Z :=
  match ws with [] => [] | [w] => w | w :: ws => w ++ BLANK :: spaced ws end.

Definition ended_words (ws : list (list Z)) : list Z := ws ≫= (fun w => w ++ [0]).

Fixpoint places (k : Z) (ws : list (list Z)) : list (Z * Z) :=
  match ws with [] => [] | w :: ws => (k, alen w) :: places (k + alen w + 1) ws end.

Lemma words_from_ok cur cs :
  Forall (fun c => c <> BLANK /\ c <> 0) cur -> Forall (fun c => c <> 0) cs -> Forall is_word (words_from cur cs).
Proof.
  revert cur. induction cs as [|c cs IH]; intros cur Hcur Hcs; cbn.
  - destruct (bool_decide_reflect (cur = [])); by repeat constructor.
  - apply Forall_cons in Hcs as [Hc Hcs]. destruct (Z.eqb_spec c BLANK) as [->|Hne].
    + apply Forall_app. split; [|by apply IH]. destruct (bool_decide_reflect (cur = [])); by repeat constructor.
    + apply IH; [|done]. apply Forall_app. split; [done|]. by repeat constructor.
Qed.

Lemma spaced_cons w ws : ws <> [] -> spaced (w :: ws) = w ++ BLANK :: spaced ws.
Proof. by destruct ws. Qed.

Lemma repeated_other last c : c <> BLANK -> repeated_blank last c = (false, c).
Proof. intros Hc. unfold repeated_blank. by rewrite (proj2 (Z.eqb_neq c BLANK)). Qed.

(** What is left of a line when repeated blanks are removed, behind a blank and inside a
    word: the words, perhaps with a blank behind them. *)
Lemma kept_words cs :
  (exists tail, passed_by repeated_blank BLANK cs = spaced (line_words cs) ++ tail /\
     (tail = [] \/ tail = [BLANK] /\ line_words cs <> [])) /\
  (forall cur last, cur <> [] -> last <> BLANK -> exists tail,
     cur ++ passed_by repeated_blank last cs = spaced (words_from cur cs) ++ tail /\
     words_from cur cs <> [] /\ (tail = [] \/ tail = [BLANK])).
Proof.
  induction cs as [|c cs [(tb & Eb & Hb) IHw]].
  - split; [exists []; by split; [|left]|]. intros cur last Hcur _. exists []. cbn.
    rewrite bool_decide_eq_false_2 by done. cbn. auto.
  - destruct (Z.eqb_spec c BLANK) as [->|Hne].
    + split; [by exists tb|]. intros cur last Hcur Hlast.
      cbn [passed_by words_from]. unfold repeated_blank at 1. rewrite Z.eqb_refl, (proj2 (Z.eqb_neq BLANK last)) by done.
      cbn -[spaced]. rewrite bool_decide_eq_false_2, Eb by done. cbn -[spaced]. change (words_from [] cs) with (line_words cs).
      destruct (decide (line_words cs = [])) as [Ew|Ew].
      * rewrite Ew in *. destruct Hb as [->|[_ ?]]; [|done]. exists [BLANK]. cbn. auto.
      * exists tb. rewrite spaced_cons, <- app_assoc by done. split; [done|]. split; [done|]. tauto.
    + split.
      * destruct (IHw [c] c ltac:(done) Hne) as (tail & E & Hw & Ht). exists tail. cbn [passed_by].
        rewrite repeated_other by done. unfold line_words. cbn [words_from]. rewrite (proj2 (Z.eqb_neq c BLANK)) by done.
        split; [exact E|]. tauto.
      * intros cur last Hcur Hlast. destruct (IHw (cur ++ [c]) c ltac:(by destruct cur) Hne) as (tail & E & Hw & Ht).
        exists tail. cbn [passed_by words_from]. rewrite repeated_other, (proj2 (Z.eqb_neq c BLANK)) by done.
        rewrite <- app_assoc in E. split; [done|]. tauto.
Qed.

Lemma kept_line cs :
  line_words cs <> [] -> exists head tail, passed_by repeated_blank 0 cs = head ++ spaced (line_words cs) ++ tail /\
    (head = [] \/ head = [BLANK]) /\ (tail = [] \/ tail = [BLANK]).
Proof.
  destruct cs as [|c cs]; [done|]. intros Hw. destruct (kept_words cs) as [(tail & E & Ht) Hin]. cbn [passed_by].
  unfold line_words in *. cbn [words_from] in *. destruct (Z.eqb_spec c BLANK) as [->|Hne].
  - exists [BLANK], tail. cbn in *. rewrite E. split; [done|]. tauto.
  - destruct (Hin [c] c ltac:(done) Hne) as (t & E' & _ & Ht'). exists [], t. rewrite repeated_other by done.
    cbn in *. rewrite E'. tauto.
Qed.

(** The ends of the text of the words. *)
Lemma spaced_ends ws :
  Forall is_word ws -> ws <> [] -> (exists c t, spaced ws = c :: t /\ c <> BLANK) /\ (exists t c, spaced ws = t ++ [c] /\ c <> BLANK).
Proof.
  intros Hws. induction Hws as [|w ws [Hne Hw] Hws IH]; [done|]. intros _. split.
  - destruct w as [|c w]; [done|]. apply Forall_cons in Hw as [[Hc _] _]. destruct ws; by repeat eexists.
  - destruct (decide (ws = [])) as [->|Hnil].
    + destruct (exists_last Hne) as (t & c & ->). exists t, c. apply Forall_app in Hw as [_ Hc]. by apply Forall_cons in Hc as [[? _] _].
    + destruct (IH Hnil) as [_ (t & c & E & Hc)]. exists (w ++ BLANK :: t), c. rewrite spaced_cons, E by done.
      by rewrite <- app_assoc.
Qed.

Lemma String_at_head s c cs : str_rep s (c :: cs) -> String_at s 0 = Done c.
Proof. by intros (_ & j & ->). Qed.

Lemma String_at_end s cs c : str_rep s (cs ++ [c]) -> u32 (s_size s - 1) = alen cs /\ String_at s (u32 (s_size s - 1)) = Done c.
Proof.
  intros (Hb & j & ->). unfold String_at, s_bytes. cbn [s_size s_data default]. unfold id. rewrite alen_snoc in *.
  pose proof (alen_nonneg cs). rewrite u32_small by lia. replace (alen cs + 1 - 1) with (alen cs) by lia.
  split; [done|]. rewrite <- app_assoc. apply aget_middle.
Qed.

Lemma trim_head s c cs head :
  c <> BLANK -> head = [] \/ head = [BLANK] -> str_rep s (head ++ c :: cs) ->
  exists x s', String_at s 0 = Done x /\ (if x =? BLANK then String_erase s 0 1 else Done s) = Done s' /\ str_rep s' (c :: cs).
Proof.
  intros Hc [->| ->] Hs; cbn in Hs; rewrite (String_at_head _ _ _ Hs); eexists.
  - exists s. by rewrite (proj2 (Z.eqb_neq c BLANK)).
  - destruct (String_erase_rep s [] [BLANK] (c :: cs) Hs) as (s' & E & Hs'). exists s'. by rewrite Z.eqb_refl.
Qed.

Lemma trim_tail s c cs tail :
  c <> BLANK -> tail = [] \/ tail = [BLANK] -> str_rep s ((cs ++ [c]) ++ tail) ->
  exists x s', String_at s (u32 (s_size s - 1)) = Done x /\
    (if x =? BLANK then String_erase s (u32 (s_size s - 1)) 1 else Done s) = Done s' /\ str_rep s' (cs ++ [c]).
Proof.
  intros Hc [->| ->] Hs.
  - rewrite app_nil_r in Hs. destruct (String_at_end _ _ _ Hs) as [_ E]. exists c, s. by rewrite E, (proj2 (Z.eqb_neq c BLANK)).
  - destruct (String_at_end _ _ _ Hs) as [El E]. exists BLANK. rewrite E, Z.eqb_refl, El.
    destruct (String_erase_rep s (cs ++ [c]) [BLANK] []) as (s' & Ee & Hs'); [done|]. rewrite app_nil_r in Hs'. by exists s'.
Qed.

Lemma trim_spec s cs :
  str_rep s cs -> Forall (fun c => c <> 0) cs -> line_words cs <> [] ->
  exists s', trim_arguments s = Done s' /\ str_rep s' (spaced (line_words cs)).
Proof.
  intros Hs Hnz Hw. destruct (kept_line cs Hw) as (head & tail & Ek & Hh & Ht).
  destruct (spaced_ends (line_words cs)) as [(c & t & Ec & Hc) (t' & c' & Ec' & Hc')]; [by apply words_from_ok|done|].
  destruct (String_erase_if_with_rep repeated_blank 0 s cs Hs) as (s1 & E1 & Hs1). unfold trim_arguments.
  rewrite E1. cbn [mbind exec_bind]. rewrite Ek, Ec in Hs1. cbn in Hs1.
  destruct (trim_head s1 c (t ++ tail) head Hc Hh Hs1) as (x & s2 & Ex & E2 & Hs2). rewrite Ex. cbn [mbind exec_bind]. rewrite E2.
  cbn [mbind exec_bind]. change (c :: t ++ tail) with ((c :: t) ++ tail) in Hs2. rewrite <- Ec, Ec' in Hs2.
  destruct (trim_tail s2 c' t' tail Hc' Ht Hs2) as (y & s3 & Ey & E3 & Hs3). rewrite Ey. cbn [mbind exec_bind].
  exists s3. by rewrite Ec'.
Qed.

(** ** Cutting *)

Lemma places_app k ws vs : places k (ws ++ vs) = places k ws ++ places (k + alen (ended_words ws)) vs.
Proof.
  revert k. induction ws as [|w ws IH]; intros k; cbn [app places ended_words mbind list_bind].
  - by rewrite (@alen_nil Z), Z.add_0_r.
  - rewrite IH. do 3 f_equal. unfold ended_words. rewrite !alen_app. cbn [alen]. change (alen [0]) with 1. lia.
Qed.

Lemma terminated_snoc ws w : ended_words (ws ++ [w]) = ended_words ws ++ w ++ [0].
Proof. unfold ended_words. rewrite bind_app. cbn. by rewrite app_nil_r. Qed.

(** Finding the next blank. *)
Lemma next_blank (pre w rest : list Z) r :
  Forall (fun c => c <> BLANK) w -> first_occurrence (pre ++ w ++ rest) [BLANK] (alen pre) r ->
  (rest = [] -> r = NOT_FOUND) /\ (forall t, rest = BLANK :: t -> r = alen pre + alen w).
Proof.
  intros Hw Hr.
  assert (Hnone : forall i, alen pre <= i < alen pre + alen w -> ~ occurs_at (pre ++ w ++ rest) [BLANK] i).
  { intros i Hi (a & b & E & Ha). pose proof (alen_nonneg pre). unfold alen in *.
    assert (El : (pre ++ w ++ rest) !! length a = Some BLANK) by (rewrite E; by apply list_lookup_middle).
    rewrite lookup_app_r, lookup_app_l in El by lia. apply list_elem_of_lookup_2 in El.
    rewrite Forall_forall in Hw. by apply (Hw BLANK). }
  split.
  - intros ->. rewrite app_nil_r in *. destruct Hr as [[-> _]|(H1 & H2 & _)]; [done|].
    exfalso. apply (Hnone r); [|done]. apply occurs_at_bound in H2. rewrite alen_app in H2. change (alen [BLANK]) with 1 in H2. lia.
  - intros t ->. assert (Hat : occurs_at (pre ++ w ++ BLANK :: t) [BLANK] (alen pre + alen w)).
    { exists (pre ++ w), t. rewrite <- app_assoc, alen_app. done. }
    pose proof (alen_nonneg w). destruct Hr as [[-> Hn]|(H1 & H2 & H3)]; [by apply (Hn (alen pre + alen w)) in Hat; [|lia]|].
    destruct (Z.lt_trichotomy r (alen pre + alen w)) as [Hlt|[->|Hgt]]; [exfalso; by apply (Hnone r)|done|].
    by apply (H3 (alen pre + alen w)) in Hat; [|lia].
Qed.

(** A turn at a word with more behind it, and at the last one. *)
Lemma split_turn m_data pre w t l :
  is_word w -> str_rep m_data (pre ++ w ++ BLANK :: t) -> exists s',
    split_step m_data l (alen pre) =
    Done (inl (s', l ++ [(alen pre, alen w)], alen pre + alen w + 1)) /\ str_rep s' ((pre ++ w ++ [0]) ++ t).
Proof.
  intros [Hne Hw] Hs. unfold split_step. pose proof (proj1 Hs) as Hb. rewrite !alen_app, alen_cons in Hb.
  pose proof (alen_nonneg pre). pose proof (alen_nonneg w). pose proof (alen_nonneg t).
  assert (Hw' : Forall (fun c => c <> BLANK) w) by (eapply Forall_impl; [exact Hw|]; by intros ? []).
  destruct (StringView_find_char_spec (StringView_of_string m_data) _ BLANK (alen pre) (str_rep_view _ _ Hs) ltac:(done))
    as (r & E & Hr); [rewrite !alen_app, alen_cons; lia|].
  change (String_find_char m_data BLANK (alen pre)) with (StringView_find_char (StringView_of_string m_data) BLANK (alen pre)).
  rewrite E. cbn [mbind exec_bind]. destruct (next_blank pre w (BLANK :: t) r Hw' Hr) as [_ Hfound].
  rewrite (Hfound t eq_refl), (proj2 (Z.eqb_neq _ _)) by (unfold NOT_FOUND; lia). cbn [negb].
  destruct (String_set_at_rep m_data (pre ++ w) BLANK t 0) as (s' & Es & Hs'); [by rewrite <- app_assoc|].
  rewrite alen_app in Es. rewrite Es. cbn [mbind exec_bind]. unfold StringView_of_cstr_len.
  replace (alen pre + alen w - alen pre) with (alen w) by lia. rewrite !u32_small by lia.
  rewrite (proj2 (Z.eqb_neq (alen w) END)) by (unfold END; lia). cbn [mbind exec_bind sv_size].
  exists s'. split; [done|].
  rewrite <- !app_assoc in *. done.
Qed.

Lemma split_last m_data pre w l :
  is_word w -> str_rep m_data (pre ++ w) ->
    split_step m_data l (alen pre) =
    Done (inr (mkArguments m_data (l ++ [(alen pre, alen w)]))).
Proof.
  intros [Hne Hw] Hs. unfold split_step. pose proof (proj1 Hs) as Hb. rewrite !alen_app in Hb.
  pose proof (alen_nonneg pre). pose proof (alen_nonneg w).
  assert (Hw' : Forall (fun c => c <> BLANK) w) by (eapply Forall_impl; [exact Hw|]; by intros ? []).
  assert (Hnz : Forall (fun c => c <> 0) w) by (eapply Forall_impl; [exact Hw|]; by intros ? []).
  destruct (StringView_find_char_spec (StringView_of_string m_data) _ BLANK (alen pre) (str_rep_view _ _ Hs) ltac:(done))
    as (r & E & Hr); [rewrite alen_app; lia|].
  change (String_find_char m_data BLANK (alen pre)) with (StringView_find_char (StringView_of_string m_data) BLANK (alen pre)).
  rewrite E. cbn [mbind exec_bind]. rewrite <- (app_nil_r w) in Hr. destruct (next_blank pre w [] r Hw' Hr) as [-> _]; [|done].
  rewrite Z.eqb_refl. cbn [negb]. destruct Hs as (_ & j & ->). unfold s_bytes, StringView_of_cstr_len. cbn [s_data default].
  rewrite Z.eqb_refl. unfold id. rewrite <- app_assoc, strlen_spec by (done || lia). done.
Qed.

Lemma split_spec m_data ws :
  Forall is_word ws -> ws <> [] -> str_rep m_data (spaced ws) -> exists s' j, split_arguments m_data = Done (mkArguments s' (places 0 ws)) /\
    s_bytes s' = ended_words ws ++ j.
Proof.
  intros Hws Hnil Hs. unfold split_arguments.
  match goal with |- context [while ?f ?step ?w] =>
    destruct (while_inv
      (fun '(t, l, pos) => exists a b, ws = a ++ b /\ b <> [] /\ str_rep t (ended_words a ++ spaced b) /\
         l = places 0 a /\ pos = alen (ended_words a) /\
         alen (ended_words a) + alen (spaced b) = s_size m_data)
      (fun r => exists s' j, r = mkArguments s' (places 0 ws) /\ s_bytes s' = ended_words ws ++ j)
      (fun '(t, l, pos) => Z.to_nat (s_size m_data - pos)) step f w) as (r & E & s' & j & -> & Hj) end.
  - exists [], ws. repeat split; [done|apply Hs..|]. by destruct Hs as (_ & j & ->).
  - lia.
  - intros [[t l] pos] (a & b & Eab & Hb & Ht & -> & -> & Hsz). destruct b as [|w b]; [done|].
    rewrite Eab in Hws. apply Forall_app in Hws as [_ Hws]. apply Forall_cons in Hws as [Hw Hws].
    destruct (decide (b = [])) as [->|Hbn].
    + right. cbn in Ht. rewrite (split_last t (ended_words a) w (places 0 a) Hw Ht). eexists. split; [done|].
      destruct Ht as (_ & j & ->). eexists _, j. rewrite Eab, places_app, terminated_snoc. cbn [places].
      split; [done|]. unfold s_bytes. cbn. by rewrite <- !app_assoc.
    + left. rewrite spaced_cons in Ht, Hsz by done. rewrite alen_app, alen_cons in Hsz.
      pose proof (alen_nonneg w). pose proof (alen_nonneg (spaced b)).
      destruct (split_turn t (ended_words a) w (spaced b) (places 0 a) Hw Ht) as (s' & E & Hs'). rewrite E.
      eexists. split; [done|]. split.
      * exists (a ++ [w]), b. rewrite <- app_assoc, terminated_snoc, places_app. rewrite !alen_app. change (alen [0]) with 1.
        repeat split; [done|done|apply Hs'..|lia|lia].
      * lia.
  - by exists s', j.
Qed.

(** ** The arguments *)

Lemma places_lookup ws k i w :
  ws !! i = Some w -> exists a b, ws = a ++ w :: b /\ places k ws !! i = Some (k + alen (ended_words a), alen w).
Proof.
  revert k i. induction ws as [|v ws IH]; intros k [|i] Hi; [done..|injection Hi as ->|].
  - exists [], ws. cbn. by rewrite Z.add_0_r.
  - destruct (IH (k + alen v + 1) i Hi) as (a & b & -> & E). exists (v :: a), b. split; [done|]. cbn [places].
    transitivity (places (k + alen v + 1) (a ++ w :: b) !! i); [done|]. rewrite E. unfold ended_words. cbn [mbind list_bind]. rewrite !alen_app. change (alen [0]) with 1.
    do 2 f_equal. lia.
Qed.

Lemma length_places k ws : length (places k ws) = length ws.
Proof. revert k. induction ws as [|w ws IH]; intros k; [done|]. cbn. by rewrite IH. Qed.

(** The view [v] shows [w], and behind it is a zero: its pointer is a string of C. *)
Definition shows_word (v : StringView) (w : list Z) : Prop :=
  exists p r, v = mkView (alen w) (p ++ w ++ 0 :: r) (alen p).

Lemma arguments_lookup s' ws j i w :
  s_bytes s' = ended_words ws ++ j -> ws !! i = Some w ->
  exists v, (forall kernel_build, ArgumentParser_at kernel_build (mkArguments s' (places 0 ws)) (Z.of_nat i) = Done v) /\ shows_word v w.
Proof.
  intros Hj Hi. destruct (places_lookup ws 0 i w Hi) as (a & b & -> & Ep). set (ps := places 0 (a ++ w :: b)) in *.
  assert (Hlt : (Z.of_nat i <? alen ps) = true) by (apply Z.ltb_lt; apply lookup_lt_Some in Ep; unfold alen; lia).
  exists (mkView (alen w) (s_bytes s') (0 + alen (ended_words a))). split.
  { intros kernel_build. unfold ArgumentParser_at. cbn [m_argument_list ap_data]. rewrite Hlt.
    rewrite (aget_Done _ _ (0 + alen (ended_words a), alen w)) by (rewrite ?Nat2Z.id; done || lia). by destruct kernel_build. }
  exists (ended_words a), (ended_words b ++ j). rewrite Hj, Z.add_0_l. f_equal.
  unfold ended_words. rewrite bind_app. cbn [mbind list_bind]. by rewrite <- !app_assoc.
Qed.

(** An index past the last word: stopped in the kernel, outside of the list in a program. *)
Lemma arguments_beyond p i :
  alen (m_argument_list p) <= i -> ArgumentParser_at true p i = Panic /\ ArgumentParser_at false p i = Fault.
Proof.
  intros Hi. unfold ArgumentParser_at, ASSERT_in. rewrite (proj2 (Z.ltb_ge _ _)) by lia. split; [done|].
  cbn [mbind exec_bind]. by rewrite aget_out_of_range by lia.
Qed.

Lemma arguments_parsed v cs :
  view_rep v cs -> Forall (fun c => c <> 0) cs -> cs = [] \/ line_words cs <> [] ->
  exists p, ArgumentParser_new v = Done p /\ ArgumentParser_count p = alen (line_words cs) /\
    (forall i w, line_words cs !! i = Some w ->
      exists u, (forall kernel_build, ArgumentParser_at kernel_build p (Z.of_nat i) = Done u) /\ shows_word u w) /\
    (forall i, alen (line_words cs) <= i -> ArgumentParser_at true p i = Panic /\ ArgumentParser_at false p i = Fault).
Proof.
  intros Hv Hnz Hcs. destruct (String_of_view_rep v cs Hv) as (s & E & Hs). unfold ArgumentParser_new. rewrite E.
  cbn [mbind exec_bind]. destruct Hs as (Hb & j & ->). cbn [s_size].
  destruct Hcs as [->|Hw].
  { eexists. split; [done|]. split; [done|]. split; [done|]. intros i Hi. by apply arguments_beyond. }
  pose proof (alen_nonneg cs). assert (alen cs <> 0) by (destruct cs; [done|]; rewrite alen_cons; pose proof (alen_nonneg cs); lia).
  rewrite (proj2 (Z.eqb_neq _ _)) by done.
  destruct (trim_spec (mkString (alen cs) (Some (cs ++ 0 :: j))) cs) as (s1 & E1 & Hs1); [by split; [|exists j]|done..|].
  rewrite E1. cbn [mbind exec_bind].
  destruct (split_spec s1 (line_words cs)) as (s2 & j2 & E2 & Hj2); [by apply words_from_ok|done..|].
  assert (El : alen (places 0 (line_words cs)) = alen (line_words cs)) by (unfold alen; by rewrite length_places).
  exists (mkArguments s2 (places 0 (line_words cs))). split; [done|]. split; [exact El|].
  split; [intros i w Hi; by eapply arguments_lookup|]. intros i Hi. apply arguments_beyond. cbn. by rewrite El.
Qed.

(** C27: The arguments of a command line without zeros, that is empty or has a word, are its
    words: the parser ends with as many arguments as there are words between blanks, however
    many blanks there are before, between and behind them; an index gives the view of that
    word, whose pointer is a terminated string. Another index fails the assertion in the
    kernel; in a program, where assertions are compiled to nothing, it reads outside of the
    list. *)
Theorem arguments_are_words v cs :
  view_rep v cs -> Forall (fun c => c <> 0) cs -> cs = [] \/ line_words cs <> [] ->
  exists p, ArgumentParser_new v = Done p /\ ArgumentParser_count p = alen (line_words cs) /\
    (forall i w, line_words cs !! i = Some w ->
      exists u, (forall kernel_build, ArgumentParser_at kernel_build p (Z.of_nat i) = Done u) /\ shows_word u w) /\
    (forall i, alen (line_words cs) <= i -> ArgumentParser_at true p i = Panic /\ ArgumentParser_at false p i = Fault).
Proof. apply arguments_parsed. Qed.

(** The line ["  ls   /tar "]. *)
Lemma arguments_are_words_witness :
  let line := [32; 32; 108; 115; 32; 32; 32; 47; 116; 97; 114; 32] in
  line_words line = [[108; 115]; [47; 116; 97; 114]] /\
  exists p, ArgumentParser_new (mkView 12 (line ++ [0]) 0) = Done p /\ ArgumentParser_count p = 2.
Proof.
  intros line. split; [done|].
  destruct (arguments_are_words (mkView 12 (line ++ [0]) 0) line) as (p & E & Hc & _).
  - split; [done|]. by exists [], [0].
  - by repeat constructor.
  - by right.
  - exists p. by rewrite Hc.
Defined.

(** A line of blanks only is trimmed to nothing, and its last character is then looked for
    before its first. *)
Example blank_line_faults : ArgumentParser_new (mkView 3 [32; 32; 32; 0] 0) = Fault.
Proof. reflexivity. Qed.
