(* ===== verification/SystemLibrary.v ===== *)
(** * The system library of user programs

    libraries/systemlib: the functions that enter the kernel by the number of a system call
    (systemcalls), the console and the keyboard of a program (iostream) and what runs before
    [main] (startup). A program has the kernel behind it as an interface: what the routine of
    a system call does with its arguments. A call that waits is one that returns later. *)
From S2P Require Import Prelude Clib Strings Buffers Files Vfs SystemCalls.

(** What a register of a call holds: a number, the address of a string (its characters up to
    the terminating zero), of memory of the program, of a [FileInfo], or null. *)
Inductive argument :=
| Number (n : Z)
| Chars (cs : list Z)
| Memory (bytes : list Z)
| Info (info : FileInfo)
| Null.

(** The memory that a routine has written to is in the arguments that come back. *)
Class KernelRoutines (K : Type) := {
  run_routine : routine -> list argument -> K -> exec (Result Z * list argument * K);
}.

(** A program: the kernel, the error of the last call in its thread block ([fs:4]), and the
    handles of iostream.cpp. *)
Record Program (K : Type) := mkProgram {
  pg_kernel : K;
  pg_error : Z;
  con_fd : Z;
  kb_fd : Z;
}.
Arguments mkProgram {K}.
Arguments pg_kernel {K}.
Arguments pg_error {K}.
Arguments con_fd {K}.
Arguments kb_fd {K}.

Definition INVALID_FD : Z := u32 (-1).

Section library.
Context {K : Type} `{KernelRoutines K}.
Implicit Types (p : Program K).

(** [syscall0] to [syscall3]: the interrupt, then the error to the thread block. *)
Definition syscall (sysnum : Z) (params : list argument) p : exec (Z * list argument * Program K) :=
  '(error, ret_value, (params, k)) ←
    systemcall_handler (fun r => '(v, params, k) ← run_routine r params (pg_kernel p); Done (v, (params, k))) sysnum;
  Done (ret_value, params, mkProgram k error (con_fd p) (kb_fd p)).

(** The string at [off] of an array, as the kernel reads it. *)
Definition string_at (str : list Z) (off : Z) : exec (list Z) :=
  n ← strlen str off;
  Done (take (Z.to_nat n) (drop (Z.to_nat off) str)).

Definition Sys_OpenFile (path : list Z) (off mode flags : Z) p : exec (Z * Program K) :=
  path ← string_at path off;
  '(h, _, p) ← syscall 0 [Chars path; Number mode; Number flags] p;
  Done (h, p).

Definition Sys_ReadFile (handle : Z) (buff : list Z) (count : Z) p : exec (Z * list Z * Program K) :=
  '(n, params, p) ← syscall 1 [Number handle; Memory buff; Number count] p;
  match params with [_; Memory buff; _] => Done (n, buff, p) | _ => Fault end.

Definition Sys_WriteFile (handle : Z) (buff : list Z) (count : Z) p : exec (Z * Program K) :=
  '(n, _, p) ← syscall 2 [Number handle; Memory buff; Number count] p;
  Done (n, p).

Definition Sys_QueryDirectory (handle : Z) (info : FileInfo) p : exec (FileInfo * Program K) :=
  '(_, params, p) ← syscall 3 [Number handle; Info info] p;
  match params with [_; Info info] => Done (info, p) | _ => Fault end.

Definition Sys_CloseHandle (handle : Z) p : exec (Program K) :=
  '(_, _, p) ← syscall 4 [Number handle] p; Done p.

Definition Sys_Sleep (ms : Z) p : exec (Program K) := '(_, _, p) ← syscall 5 [Number ms] p; Done p.

Definition Sys_Yield p : exec (Program K) := '(_, _, p) ← syscall 6 [] p; Done p.

Definition Sys_CreateThread (handle address arg : Z) p : exec (Z * Program K) :=
  '(h, _, p) ← syscall 7 [Number handle; Number address; Number arg] p; Done (h, p).

(** The argument is a string of its own, or null. *)
Definition Sys_CreateProcess (path : list Z) (off : Z) (argument : option (list Z * Z)) (flags : Z) p : exec (Z * Program K) :=
  path ← string_at path off;
  argument ← match argument with None => Done Null | Some (a, o) => cs ← string_at a o; Done (Chars cs) end;
  '(h, _, p) ← syscall 8 [Chars path; argument; Number flags] p;
  Done (h, p).

Definition Sys_OpenProcess (pid access : Z) p : exec (Z * Program K) :=
  '(h, _, p) ← syscall 9 [Number pid; Number access] p; Done (h, p).

Definition Sys_TerminateProcess (handle status : Z) p : exec (Program K) :=
  '(_, _, p) ← syscall 10 [Number handle; Number status] p; Done p.

Definition Sys_TerminateThread (handle status : Z) p : exec (Program K) :=
  '(_, _, p) ← syscall 11 [Number handle; Number status] p; Done p.

Definition Sys_WaitSignal (handle signal : Z) p : exec (Program K) :=
  '(_, _, p) ← syscall 12 [Number handle; Number signal] p; Done p.

Definition Sys_VirtualAlloc (address size flags : Z) p : exec (Z * Program K) :=
  '(a, _, p) ← syscall 13 [Number address; Number size; Number flags] p; Done (a, p).

Definition Sys_VirtualFree (address size : Z) p : exec (Program K) :=
  '(_, _, p) ← syscall 14 [Number address; Number size] p; Done p.

Definition Sys_QueryFileInformation (handle : Z) (info : FileInfo) p : exec (FileInfo * Program K) :=
  '(_, params, p) ← syscall 15 [Number handle; Info info] p;
  match params with [_; Info info] => Done (info, p) | _ => Fault end.

Definition GetCurrentProcess : Z := u32 (-1).

Definition GetLastError p : Z := pg_error p.

(** ** Input and output *)

Definition set_con_fd (h : Z) p : Program K := mkProgram (pg_kernel p) (pg_error p) h (kb_fd p).
Definition set_kb_fd (h : Z) p : Program K := mkProgram (pg_kernel p) (pg_error p) (con_fd p) h.

(** The console is opened at its first use. *)
Definition open_console p : exec (Program K) :=
  if con_fd p =? INVALID_FD then
    '(h, p) ← Sys_OpenFile (literal "/devices/console") 0 1 1 p; Done (set_con_fd h p)
  else Done p.

Definition printf (str : list Z) p : exec (Program K) :=
  p ← open_console p;
  n ← strlen str 0;
  '(_, p) ← Sys_WriteFile (con_fd p) str n p;
  Done p.

Definition putchar (c : Z) p : exec (Program K) :=
  p ← open_console p;
  '(_, p) ← Sys_WriteFile (con_fd p) [c] 1 p;
  Done p.

Definition get_char p : exec (Z * Program K) :=
  p ← (if kb_fd p =? INVALID_FD then
         '(h, p) ← Sys_OpenFile (literal "/devices/keyboard") 0 0 1 p; Done (set_kb_fd h p)
       else Done p);
  '(_, buff, p) ← Sys_ReadFile (kb_fd p) [0] 1 p;
  c ← aget buff 0;
  Done (c, p).

(** ** Start of a program *)

(** The array of constructors, [call] running the one at an address. The pointer moves on
    only behind a constructor that was called. *)
Definition call_constructors (call : Z -> Program K -> exec (Program K)) (constructors : list Z) (count : Z) p : exec (Program K) :=
  '(_, p) ← for_ (Z.to_nat count) 0 (fun _ '(at_, p) =>
    x ← aget constructors at_;
    if truthy x && negb (x =? u32 (-1)) then p ← call x p; Done (at_ + 1, p) else Done (at_, p)) (0, p);
  Done p.

(** [main] gets the path and the argument of the information block; its value is dropped. *)
Definition startup (call : Z -> Program K -> exec (Program K)) (constructors : list Z) (count : Z) (path arguments : list Z)
    (main : Z -> list (list Z) -> Program K -> exec (Z * Program K)) p : exec (Program K) :=
  p ← call_constructors call constructors count p;
  '(_, p) ← main 2 [path; arguments] p;
  Sys_TerminateProcess (u32 (-1)) 0 p.

End library.

(** ** The numbers of the calls *)

(** A call reaches the routine of its name: the table of the kernel and the numbers of the
    library agree. *)
Lemma syscall_reaches {K} `{KernelRoutines K} n r params (p : Program K) :
  systemcalls_routines !! Z.to_nat n = Some r -> (0 <=? n) && (n <? 16) = true ->
  syscall n params p =
    ('(v, params, k) ← run_routine r params (pg_kernel p);
     Done match v with
          | Value x => (x, params, mkProgram k ERROR_SUCCESS (con_fd p) (kb_fd p))
          | Error e => (0, params, mkProgram k e (con_fd p) (kb_fd p))
          end).
Proof.
  intros Hr [Hn0 Hn]%andb_prop. apply Z.ltb_lt in Hn. unfold syscall, systemcall_handler, get_syscall_routine.
  rewrite (proj2 (Z.ltb_lt n _)) by (change (alen systemcalls_routines) with 16; lia). rewrite Hr.
  destruct (run_routine r params (pg_kernel p)) as [[[[x|e] a] k]| | |]; done.
Qed.

(** ** Constructors *)

Definition is_constructor (x : Z) : bool := truthy x && negb (x =? u32 (-1)).

Fixpoint constructors_before_hole (xs : list Z) : list Z :=
  match xs with [] => [] | x :: xs => if is_constructor x then x :: constructors_before_hole xs else [] end.

(** The constructors up to the first hole are called, in order; those behind a hole never are. *)
Lemma constructors_called {K} `{KernelRoutines K} call (xs : list Z) count (p : Program K) :
  0 <= count <= alen xs ->
  call_constructors call xs count p =
    foldl (fun m x => p ← m; call x p) (Done p) (constructors_before_hole (take (Z.to_nat count) xs)).
Proof.
  intros Hc. unfold call_constructors.
  set (body := fun (_ : Z) '(at_, p) => x ← aget xs at_;
     if truthy x && negb (x =? u32 (-1)) then p ← call x p; Done (at_ + 1, p) else Done (at_, p)).
  assert (Hbody : forall lo pre x rest q, xs = pre ++ x :: rest -> body lo (alen pre, q) =
    if is_constructor x then p ← call x q; Done (alen pre + 1, p) else Done (alen pre, q)).
  { intros lo pre x rest q E. unfold body. by rewrite E, aget_middle. }
  assert (Hstuck : forall n lo pre x rest p, xs = pre ++ x :: rest -> is_constructor x = false ->
    for_ n lo body (alen pre, p) = Done (alen pre, p)).
  { induction n as [|n IH]; intros lo pre x rest q E Hx; [done|]. cbn [for_].
    rewrite (Hbody lo pre x rest q E), Hx. cbn [mbind exec_bind]. by eapply IH. }
  assert (Hfold : forall ys (m : exec (Program K)), (forall q, m <> Done q) -> foldl (fun m x => p ← m; call x p) m ys = m).
  { induction ys as [|y ys IH]; intros m Hm; [done|]. cbn [foldl]. destruct m; [by destruct (Hm a)| | |]; cbn; by apply IH. }
  assert (Hrun : forall n lo pre rest p, xs = pre ++ rest -> (n <= length rest)%nat ->
    ('(_, p) ← for_ n lo body (alen pre, p); Done p) =
      foldl (fun m x => p ← m; call x p) (Done p) (constructors_before_hole (take n rest))).
  { induction n as [|n IH]; intros lo pre rest q E Hn; [by rewrite take_0|]. destruct rest as [|x rest]; [cbn in Hn; lia|].
    cbn [take constructors_before_hole]. destruct (is_constructor x) eqn:Hx.
    - cbn [for_]. rewrite (Hbody lo pre x rest q E), Hx.
      cbn [foldl mbind exec_bind]. destruct (call x q) as [q'| | |]; cbn [mbind exec_bind]; [|by rewrite Hfold..].
      rewrite <- (alen_snoc pre x). apply (IH (lo + 1) (pre ++ [x]) rest q'); [by rewrite <- app_assoc|cbn in Hn; lia].
    - rewrite (Hstuck _ lo pre x rest q E Hx). done. }
  apply (Hrun (Z.to_nat count) 0 [] xs p); [done|]. unfold alen in Hc. lia.
Qed.
