(* ===== verification/Shell.v ===== *)
(** * User programs

    userspace: the shell, [cat] and the test program, over the system library. In a user
    program assertions are compiled to nothing: the functions of a path that the shell calls
    are given here without theirs. *)
From S2P Require Import Prelude Clib Strings PathView Buffers Files Vfs SystemCalls Arguments SystemLibrary.

(** A literal that ends with a line feed. *)
Definition literal_line (s : string) : list Z := removelast (literal s) ++ [10; 0].

(** ** Paths without assertions *)

Definition User_get_type (path : StringView) : exec PathType :=
  c ← StringView_at path 0;
  if c =? SPLITER then Done Absolute
  else
    dots ← StringView_find_cstr path [46; 46; 0] 0 0;
    if negb (dots =? END) then Done RelativeRecursive else Done Relative.

Definition User_PathView_of_view (path : StringView) : exec PathView :=
  type ← User_get_type path;
  let absolute_path := if is_absolute type then path else empty_view in
  let relative_path := if is_absolute type then empty_view else path in
  absolute_count ← (if is_absolute type then count_elements absolute_path else Done 0);
  relative_count ← (if is_absolute type then Done 0 else count_elements relative_path);
  Done (mkPath type absolute_path relative_path absolute_count relative_count).

Definition User_PathView_of_views (working_dir relative_path : StringView) : exec PathView :=
  absolute_count ← count_elements working_dir;
  relative_count ← count_elements relative_path;
  Done (mkPath Absolute working_dir relative_path absolute_count relative_count).

Definition User_sub_path (p : PathView) (start_index end_index : Z) : exec PathView :=
  let start_index := normal_index p start_index in
  let end_index := normal_index p end_index in
  new_absolute_path ← sub_absolute_path p (u32 start_index) (u32 end_index);
  new_relative_path ← sub_relative_path p (u32 start_index) (u32 end_index);
  no_absolute ← StringView_eq_cstr new_absolute_path [0] 0;
  if no_absolute : bool then User_PathView_of_view new_relative_path
  else
    no_relative ← StringView_eq_cstr new_relative_path [0] 0;
    if no_relative : bool then User_PathView_of_view new_absolute_path
    else User_PathView_of_views new_absolute_path new_relative_path.

(** ** The shell *)

Inductive InternalCommands := IC_cd | IC_cwd | IC_ls | IC_Invalid.

Record Shell (K : Type) := mkShell { sh_program : Program K; working_directory : String }.
Arguments mkShell {K}.
Arguments sh_program {K}.
Arguments working_directory {K}.

Section shell.
Context {K : Type} `{KernelRoutines K}.
Implicit Types (sh : Shell K) (arguments : ArgumentParser).

(** A function of the library in the shell. *)
Definition within (f : Program K -> exec (Program K)) sh : exec (Shell K) :=
  p ← f (sh_program sh); Done (mkShell p (working_directory sh)).

Definition parse_internal_command arguments : exec InternalCommands :=
  v ← ArgumentParser_at false arguments 0; cd ← StringView_eq_cstr v (literal "cd") 0;
  if cd : bool then Done IC_cd
  else
    v ← ArgumentParser_at false arguments 0; cwd ← StringView_eq_cstr v (literal "cwd") 0;
    if cwd : bool then Done IC_cwd
    else
      v ← ArgumentParser_at false arguments 0; ls ← StringView_eq_cstr v (literal "ls") 0;
      Done (if ls : bool then IC_ls else IC_Invalid).

Definition execute_external_command arguments sh : exec (Shell K) :=
  args ← (if ArgumentParser_count arguments >? 1 then
            v ← ArgumentParser_at false arguments 1; Done (Some (sv_data v, sv_off v))
          else Done None);
  program ← ArgumentParser_at false arguments 0;
  '(child, p) ← Sys_CreateProcess (sv_data program) (sv_off program) args 0 (sh_program sh);
  '(child, p) ← (if child =? 0 then
                   wd ← StringView_of_cstr (s_bytes (working_directory sh)) 0;
                   path ← User_PathView_of_views wd program;
                   path ← PathView_full_path path;
                   Sys_CreateProcess (s_bytes path) 0 args 0 p
                 else Done (child, p));
  p ← (if child =? 0 then printf (literal_line "Undefined command.") p
       else p ← Sys_WaitSignal child 0 p; Sys_CloseHandle child p);
  Done (mkShell p (working_directory sh)).

(** The path that [cd] goes to. *)
Definition cd_path arguments (cwd : String) : exec String :=
  v ← ArgumentParser_at false arguments 1;
  dots ← StringView_eq_cstr v (literal "..") 0;
  back ← (if dots : bool then Done true else v ← ArgumentParser_at false arguments 1; StringView_eq_cstr v (literal "-") 0);
  if back : bool then
    cwd_view ← User_PathView_of_view (StringView_of_string cwd);
    if PathView_count cwd_view <=? 1 then String_copy cwd
    else path ← User_sub_path cwd_view 0 (-2); PathView_full_path path
  else
    type ← User_get_type v;
    if bool_decide (type = Relative) then
      relative ← StringView_of_cstr (sv_data v) (sv_off v);
      path ← User_PathView_of_views (StringView_of_string cwd) relative;
      PathView_full_path path
    else String_of_view v.

(** [info] is what the variable of that name holds before it is filled. *)
Definition command_cd (info : FileInfo) arguments sh : exec (Shell K) :=
  if ArgumentParser_count arguments <? 2 then within (printf (literal_line "You need to specify a path.")) sh
  else
    new_path ← cd_path arguments (working_directory sh);
    '(dummy, p) ← Sys_OpenFile (s_bytes new_path) 0 OM_READ OF_OPEN_EXISTING (sh_program sh);
    if truthy (GetLastError p) then
      p ← printf (literal_line "Cannot access this directory.") p;
      Done (mkShell p (working_directory sh))
    else
      '(info, p) ← Sys_QueryFileInformation dummy info p;
      '(p, cwd) ←
        (if truthy (GetLastError p) then
           p ← printf (literal_line "Cannot access this directory.") p; Done (p, working_directory sh)
         else if negb (bool_decide (fi_type info = NT_Folder)) && negb (bool_decide (fi_type info = NT_Root)) then
           p ← printf (literal_line "Path is not direcotry.") p; Done (p, working_directory sh)
         else cwd ← String_assign new_path; Done (p, cwd));
      p ← Sys_CloseHandle dummy p;
      Done (mkShell p cwd).

Definition command_cwd sh : exec (Shell K) :=
  sh ← within (printf (s_bytes (working_directory sh))) sh;
  within (printf (c_str [10])) sh.

(** [fuel] is more than the number of entries. *)
Definition command_ls (fuel : nat) (info : FileInfo) arguments sh : exec (Shell K) :=
  '(fd, p) ← (if ArgumentParser_count arguments >? 1 then
                v ← ArgumentParser_at false arguments 1;
                Sys_OpenFile (sv_data v) (sv_off v) OM_READ OF_OPEN_EXISTING (sh_program sh)
              else Sys_OpenFile (s_bytes (working_directory sh)) 0 OM_READ OF_OPEN_EXISTING (sh_program sh));
  p ← (if truthy (GetLastError p) then printf (literal_line "Cannot open the directory.") p else Done p);
  '(info, p) ← Sys_QueryDirectory fd info p;
  p ← while fuel
    (fun '(info, p) =>
       if negb (truthy (GetLastError p)) then
         p ← printf (fi_name info) p;
         p ← printf (c_str [10]) p;
         '(info, p) ← Sys_QueryDirectory fd info p;
         Done (inl (info, p))
       else Done (inr p))
    (info, p);
  p ← Sys_CloseHandle fd p;
  Done (mkShell p (working_directory sh)).

Definition execute_internal_command (fuel : nat) (info : FileInfo) (type : InternalCommands) arguments sh : exec (Shell K) :=
  match type with
  | IC_cd => command_cd info arguments sh
  | IC_cwd => command_cwd sh
  | IC_ls => command_ls fuel info arguments sh
  | IC_Invalid => Done sh
  end.

Definition execute_command (fuel : nat) (info : FileInfo) (command : list Z) sh : exec (Shell K) :=
  v ← StringView_of_cstr command 0;
  arguments ← ArgumentParser_new v;
  if ArgumentParser_count arguments =? 0 then Done sh
  else
    com ← parse_internal_command arguments;
    match com with
    | IC_Invalid => execute_external_command arguments sh
    | _ => execute_internal_command fuel info com arguments sh
    end.

(** *** The main loop *)

Definition COMMAND_MAX : Z := 1000.

Definition prompt sh : exec (Shell K) :=
  sh ← within (printf (s_bytes (working_directory sh))) sh;
  within (printf (literal " $> ")) sh.

(** What a character does to the line in [buff] and its end [index]. *)
Definition handle_character (execute : list Z -> Shell K -> exec (Shell K)) (c : Z) (buff : list Z) (index : Z) sh
    : exec (list Z * Z * Shell K) :=
  if index <? COMMAND_MAX then
    if c =? 10 then
      buff ← aset buff index 0;
      sh ← within (printf (c_str [10])) sh;
      sh ← execute buff sh;
      sh ← prompt sh;
      Done (buff, 0, sh)
    else if c =? 8 then
      if index >? 0 then sh ← within (printf (c_str [8])) sh; Done (buff, index - 1, sh)
      else Done (buff, index, sh)
    else
      buff ← aset buff index c;
      sh ← within (putchar c) sh;
      Done (buff, index + 1, sh)
  else
    sh ← within (printf (c_str (10 :: removelast (literal "command is too long!")))) sh;
    Done (buff, 0, sh).

(** A turn for every character; the loop ends at a zero. *)
Definition shell_loop (execute : list Z -> Shell K -> exec (Shell K)) (fuel : nat) (buff : list Z) sh : exec (Shell K) :=
  while fuel
    (fun '(buff, index, sh) =>
       '(c, p) ← get_char (sh_program sh);
       let sh := mkShell p (working_directory sh) in
       if truthy c then w ← handle_character execute c buff index sh; Done (inl w) else Done (inr sh))
    (buff, 0, sh).

(** [main], up to its endless loop. [buff] has [COMMAND_MAX] characters. *)
Definition shell_main (fuel entries : nat) (info : FileInfo) (buff : list Z) sh : exec (Shell K) :=
  working_directory ← String_assign_cstr (literal "/tar/bin") 0;
  let sh := mkShell (sh_program sh) working_directory in
  sh ← within (printf (literal_line "Welcome To CyanOS")) sh;
  sh ← within (printf (literal_line "Version 0.1 Alpha")) sh;
  sh ← prompt sh;
  shell_loop (execute_command entries info) fuel buff sh.

(** ** cat and the test program *)

(** [argv] are the strings of the arguments, [junk] what new memory holds. *)
Definition cat_main (info : FileInfo) (junk : Z -> Z) (argc : Z) (argv : list (list Z)) (p : Program K) : exec (Z * Program K) :=
  if argc <=? 1 then Done (1, p)
  else
    path ← aget argv 1;
    '(fd, p) ← Sys_OpenFile path 0 (Z.lor OM_WRITE OM_READ) OF_OPEN_EXISTING p;
    let result := GetLastError p in
    if truthy result then p ← printf (literal_line "Cannot open the file.") p; Done (result, p)
    else
      '(info, p) ← Sys_QueryFileInformation fd info p;
      let result := GetLastError p in
      if truthy result then
        p ← printf (literal_line "Cannot read the file.") p; p ← Sys_CloseHandle fd p; Done (result, p)
      else
        let size := u32 (fi_size info + 1) in
        buff ← memset (junk <$> seqZ 0 size) 0 0 size;
        '(_, buff, p) ← Sys_ReadFile fd buff (fi_size info) p;
        let result := GetLastError p in
        if truthy result then
          p ← printf (literal_line "Cannot read the file.") p; p ← Sys_CloseHandle fd p; Done (result, p)
        else
          p ← printf buff p;
          p ← printf (c_str [10]) p;
          p ← Sys_CloseHandle fd p;
          Done (0, p).

(** Up to the call that ends the process. *)
Definition test_app_main (argv : list (list Z)) (p : Program K) : exec (Program K) :=
  p ← printf (literal_line "Hello I'm cute child") p;
  p ← printf (literal "My path is: ") p;
  path ← aget argv 0; p ← printf path p;
  p ← printf (c_str (10 :: removelast (literal "My argument is: "))) p;
  argument ← aget argv 1; p ← printf argument p;
  p ← printf (c_str (10 :: removelast (literal_line "I'm going to die now :("))) p;
  p ← printf (literal_line "Bye...") p;
  Sys_TerminateProcess (u32 (-1)) 0 p.

End shell.

(** ** What is typed is executed *)

(** The lines that a sequence of characters makes: a line feed ends a line, a backspace takes
    the last character back, and a character behind a full line drops the line. *)
Fixpoint typed_lines (line cs : list Z) : list (list Z) :=
  match cs with
  | [] => []
  | c :: cs =>
      if alen line <? COMMAND_MAX then
        if c =? 10 then line :: typed_lines [] cs
        else if c =? 8 then typed_lines (removelast line) cs
        else typed_lines (line ++ [c]) cs
      else typed_lines [] cs
  end.

(** A world around the loop: [T done input sh] when the lines [done] have been executed and
    [input] is still to be typed. Characters are read in their order, printing a string and
    executing a line of the kind [ok] returns. *)
Record shell_world {K} `{KernelRoutines K} (T : list (list Z) -> list Z -> Shell K -> Prop)
    (ok : list Z -> Prop) (execute : list Z -> Shell K -> exec (Shell K)) : Prop := {
  sw_read done c input sh : T done (c :: input) sh ->
    exists p, get_char (sh_program sh) = Done (c, p) /\ T done input (mkShell p (working_directory sh));
  sw_print done input sh cs r : Forall (fun c => c <> 0) cs -> alen cs < 2 ^ 32 -> T done input sh ->
    exists p, printf (cs ++ 0 :: r) (sh_program sh) = Done p /\ T done input (mkShell p (working_directory sh));
  sw_put done input sh c : T done input sh ->
    exists p, putchar c (sh_program sh) = Done p /\ T done input (mkShell p (working_directory sh));
  sw_execute done input sh line r : Forall (fun c => c <> 0) line -> alen line < COMMAND_MAX -> ok line -> T done input sh ->
    exists sh', execute (line ++ 0 :: r) sh = Done sh' /\ T (done ++ [line]) input sh';
  sw_directory done input sh : T done input sh ->
    exists cs, str_rep (working_directory sh) cs /\ Forall (fun c => c <> 0) cs;
}.

Section typing.
Context {K : Type} `{KernelRoutines K} (T : list (list Z) -> list Z -> Shell K -> Prop).
Context (ok : list Z -> Prop) (execute : list Z -> Shell K -> exec (Shell K)) (W : shell_world T ok execute).

Lemma within_print d i sh cs r :
  Forall (fun c => c <> 0) cs -> alen cs < 2 ^ 32 -> T d i sh ->
  exists sh', within (printf (cs ++ 0 :: r)) sh = Done sh' /\ T d i sh'.
Proof.
  intros Hcs Hl HT. destruct (sw_print _ _ _ W d i sh cs r Hcs Hl HT) as (p & E & HT'). unfold within. rewrite E.
  cbn [mbind exec_bind]. by eexists.
Qed.

Lemma within_put d i sh c : T d i sh -> exists sh', within (putchar c) sh = Done sh' /\ T d i sh'.
Proof.
  intros HT. destruct (sw_put _ _ _ W d i sh c HT) as (p & E & HT'). unfold within. rewrite E.
  cbn [mbind exec_bind]. by eexists.
Qed.

Lemma prompt_prints d i sh : T d i sh -> exists sh', prompt sh = Done sh' /\ T d i sh'.
Proof.
  intros HT. unfold prompt. destruct (sw_directory _ _ _ W d i sh HT) as (cs & (Hl & j & E) & Hcs).
  destruct (within_print d i sh cs j Hcs ltac:(lia) HT) as (sh1 & E1 & HT1). unfold s_bytes. rewrite E. cbn [s_data default].
  unfold id. rewrite E1. cbn [mbind exec_bind].
  apply (within_print d i sh1 [32; 36; 62; 32] []); [by repeat constructor|done|done].
Qed.

Lemma removelast_app_last (l : list Z) x : removelast (l ++ [x]) = l.
Proof. apply removelast_last. Qed.

(** The characters of the line are at the beginning of the buffer. *)
Lemma character_typed d i sh buff line c r :
  buff = line ++ r -> alen buff = COMMAND_MAX -> c <> 0 -> Forall (fun c => c <> 0) line ->
  (alen line < COMMAND_MAX -> c = 10 -> ok line) -> T d i sh ->
  let line' := if alen line <? COMMAND_MAX then
                 if c =? 10 then [] else if c =? 8 then removelast line else line ++ [c]
               else [] in
  exists r' sh', handle_character execute c buff (alen line) sh = Done (line' ++ r', alen line', sh') /\
    alen (line' ++ r') = COMMAND_MAX /\ Forall (fun c => c <> 0) line' /\
    T (d ++ (if (alen line <? COMMAND_MAX) && (c =? 10) then [line] else [])) i sh'.
Proof.
  intros Eb Hlen Hc Hline Hok HT. pose proof (alen_nonneg line). unfold handle_character.
  destruct (Z.ltb_spec (alen line) COMMAND_MAX) as [Hlt|Hge]; cbn [andb].
  2: { destruct (within_print d i sh (10 :: removelast (literal "command is too long!")) []) as (sh' & E & HT');
         [by repeat constructor|done|done|].
       unfold c_str. rewrite E. cbn [mbind exec_bind].
       exists buff, sh'. rewrite app_nil_r. repeat split; done. }
  assert (exists x r', r = x :: r') as (x & r' & ->).
  { destruct r as [|x r']; [|by eexists _, _]. rewrite app_nil_r in Eb. subst buff. lia. }
  destruct (Z.eqb_spec c 10) as [E10|Hn10].
  - rewrite Eb, aset_middle. cbn [mbind exec_bind].
    destruct (within_print d i sh [10] []) as (sh1 & E1 & HT1); [by repeat constructor|done|done|].
    change (c_str [10]) with ([10] ++ [0]). rewrite E1. cbn [mbind exec_bind].
    destruct (sw_execute _ _ _ W d i sh1 line r' Hline Hlt (Hok Hlt E10) HT1) as (sh2 & E2 & HT2). rewrite E2. cbn [mbind exec_bind].
    destruct (prompt_prints _ i sh2 HT2) as (sh3 & E3 & HT3). rewrite E3. cbn [mbind exec_bind].
    exists (line ++ 0 :: r'), sh3. repeat split; [|done..]. subst buff. cbn [app] in *. rewrite !alen_app, !alen_cons in *. done.
  - destruct (Z.eqb_spec c 8) as [E8|Hn8].
    + rewrite app_nil_r. destruct (decide (line = [])) as [->|Hne].
      * exists (x :: r'), sh. rewrite Eb in *. cbn. by repeat split.
      * destruct (exists_last Hne) as (l & y & ->). rewrite removelast_app_last. apply Forall_app in Hline as [Hline _].
        rewrite alen_snoc in *. pose proof (alen_nonneg l). rewrite (proj2 (Z.gtb_lt _ _)) by lia.
        destruct (within_print d i sh [8] []) as (sh1 & E1 & HT1); [by repeat constructor|done|done|].
        change (c_str [8]) with ([8] ++ [0]). rewrite E1. cbn [mbind exec_bind].
        exists (y :: x :: r'), sh1. rewrite Eb, <- app_assoc. replace (alen l + 1 - 1) with (alen l) by lia.
        rewrite Eb, <- app_assoc in Hlen. done.
    + rewrite Eb, aset_middle. cbn [mbind exec_bind].
      destruct (within_put d i sh c HT) as (sh1 & E1 & HT1). rewrite E1. cbn [mbind exec_bind].
      exists r', sh1. rewrite app_nil_r, <- app_assoc, alen_snoc. repeat split; [|by apply Forall_app; repeat constructor|done].
      subst buff. cbn [app]. rewrite alen_app, alen_cons in Hlen |- *. lia.
Qed.

Definition lines_ok (line cs : list Z) : Prop := Forall ok (typed_lines line cs).

Lemma loop_typed cs :
  forall d sh buff line r fuel,
  buff = line ++ r -> alen buff = COMMAND_MAX -> Forall (fun c => c <> 0) line -> Forall (fun c => c <> 0) cs ->
  lines_ok line cs -> T d (cs ++ [0]) sh -> (length cs < fuel)%nat ->
  exists sh',
    while fuel
      (fun '(buff, index, sh) =>
         '(c, p) ← get_char (sh_program sh);
         let sh := mkShell p (working_directory sh) in
         if truthy c then w ← handle_character execute c buff index sh; Done (inl w) else Done (inr sh))
      (buff, alen line, sh) = Done sh' /\ T (d ++ typed_lines line cs) [] sh'.
Proof.
  induction cs as [|c cs IH]; intros d sh buff line r [|fuel] Eb Hlen Hline Hcs Hok HT Hf; cbn [length] in Hf; [lia| |lia|].
  - destruct (sw_read _ _ _ W d 0 [] sh HT) as (p & E & HT'). exists (mkShell p (working_directory sh)).
    cbn [while]. rewrite E. cbn. by rewrite app_nil_r.
  - apply Forall_cons in Hcs as [Hc Hcs]. destruct (sw_read _ _ _ W d c (cs ++ [0]) sh HT) as (p & E & HT').
    cbn [while]. rewrite E. cbn [mbind exec_bind]. unfold truthy. rewrite (proj2 (Z.eqb_neq c 0)) by done. cbn [negb].
    unfold lines_ok in Hok. cbn [typed_lines] in Hok |- *.
    destruct (character_typed d (cs ++ [0]) (mkShell p (working_directory sh)) buff line c r Eb Hlen Hc Hline)
      as (r' & sh' & E1 & Hl' & Hn' & HT1); [|done|].
    { intros Hlt ->. rewrite (proj2 (Z.ltb_lt _ _)) in Hok by done. cbn in Hok. by apply Forall_cons in Hok as [? _]. }
    rewrite E1. cbn [mbind exec_bind].
    edestruct (fun Hx => IH _ sh' _ _ r' fuel eq_refl Hl' Hn' Hcs Hx HT1) as (sh2 & E2 & HT2); [|lia|].
    + unfold lines_ok. destruct (alen line <? COMMAND_MAX); [|done]. destruct (c =? 10); [by apply Forall_cons in Hok as [_ ?]|].
      by destruct (c =? 8).
    + exists sh2. split; [exact E2|]. rewrite <- app_assoc in HT2.
      destruct (alen line <? COMMAND_MAX), (c =? 10), (c =? 8); exact HT2.
Qed.

End typing.

(** ** A command that is a program *)

Lemma eq_literal v w b :
  shows_word v w -> Forall (fun c => c <> 0) b -> alen b < 2 ^ 32 -> StringView_eq_cstr v (c_str b) 0 = Done (bool_decide (w = b)).
Proof.
  intros (p & r & ->) Hb Hl. unfold StringView_eq_cstr, c_str. cbn [sv_size sv_data sv_off].
  change (strlen (b ++ [0]) 0) with (strlen ([] ++ b ++ 0 :: []) (alen (@nil Z))). rewrite strlen_spec by done.
  cbn [mbind exec_bind]. destruct (Z.eqb_spec (alen w) (alen b)) as [E|E]; cbn [negb].
  - pose proof (view_compare p w (0 :: r) [] b [0] E) as Ec. rewrite (@alen_nil Z) in Ec. cbn [app] in Ec. rewrite Ec.
    cbn [mbind exec_bind]. by rewrite negb_involutive.
  - rewrite bool_decide_eq_false_2; [done|]. intros ->. lia.
Qed.

Lemma string_at_word v w :
  shows_word v w -> Forall (fun c => c <> 0) w -> alen w < 2 ^ 32 -> string_at (sv_data v) (sv_off v) = Done w.
Proof.
  intros (p & r & ->) Hw Hl. unfold string_at. cbn [sv_data sv_off]. rewrite strlen_spec by done. cbn [mbind exec_bind].
  unfold alen. rewrite !Nat2Z.id, drop_app_length, take_app_length. done.
Qed.

(** The commands of the shell itself. *)
Definition internal : list (list Z) := [[99; 100]; [99; 119; 100]; [108; 115]].

Lemma word_not_longer cur cs w : w ∈ words_from cur cs -> alen w <= alen cur + alen cs.
Proof.
  revert cur. induction cs as [|c cs IH]; intros cur; cbn [words_from]; rewrite ?alen_cons.
  - destruct (bool_decide (cur = [])); [by intros ?%elem_of_nil|]. rewrite list_elem_of_singleton. intros ->. rewrite (@alen_nil Z). lia.
  - pose proof (alen_nonneg cs). destruct (c =? BLANK).
    + rewrite elem_of_app. intros [Hw|Hw].
      * destruct (bool_decide (cur = [])); [by apply elem_of_nil in Hw|]. apply list_elem_of_singleton in Hw as ->. lia.
      * apply IH in Hw. rewrite (@alen_nil Z) in Hw. pose proof (alen_nonneg cur). lia.
    + intros Hw. apply IH in Hw. rewrite alen_snoc in Hw. lia.
Qed.

Lemma parse_external args u w :
  ArgumentParser_at false args 0 = Done u -> shows_word u w -> w ∉ internal -> parse_internal_command args = Done IC_Invalid.
Proof.
  intros Eu Hu Hint.
  unfold parse_internal_command. rewrite Eu. cbn [mbind exec_bind]. change (literal "cd") with (c_str [99; 100]).
  change (literal "cwd") with (c_str [99; 119; 100]). change (literal "ls") with (c_str [108; 115]).
  assert (Hne : forall b, b ∈ internal -> w <> b) by (intros b Hb ->; done).
  rewrite (eq_literal u w [99; 100]) by (done || by repeat constructor). cbn [mbind exec_bind].
  rewrite bool_decide_eq_false_2 by (apply Hne; unfold internal; left).
  rewrite (eq_literal u w [99; 119; 100]) by (done || by repeat constructor). cbn [mbind exec_bind].
  rewrite bool_decide_eq_false_2 by (apply Hne; unfold internal; right; left).
  rewrite (eq_literal u w [108; 115]) by (done || by repeat constructor). cbn [mbind exec_bind].
  rewrite bool_decide_eq_false_2 by (apply Hne; unfold internal; right; right; left).
  done.
Qed.

Section external.
Context {K : Type} `{KernelRoutines K}.
Implicit Types (sh : Shell K).

Lemma execute_external fuel info line r sh w ws child a k :
  Forall (fun c => c <> 0) line -> alen line + 1 < 2 ^ 32 -> line_words line = w :: ws -> w ∉ internal ->
  let p := sh_program sh in
  child <> 0 ->
  run_routine SC_CreateProcess [Chars w; match ws with [] => Null | v :: _ => Chars v end; Number 0] (pg_kernel p)
    = Done (Value child, a, k) ->
  execute_command fuel info (line ++ 0 :: r) sh =
    (p ← Sys_WaitSignal child 0 (mkProgram k ERROR_SUCCESS (con_fd p) (kb_fd p));
     p ← Sys_CloseHandle child p;
     Done (mkShell p (working_directory sh))).
Proof.
  intros Hnz Hl Hw Hint p Hchild Hrun. unfold execute_command, StringView_of_cstr.
  change (strlen (line ++ 0 :: r) 0) with (strlen ([] ++ line ++ 0 :: r) (alen (@nil Z))).
  rewrite strlen_spec by (done || lia). cbn [mbind exec_bind].
  destruct (arguments_parsed (Strings.mkView (alen line) (line ++ 0 :: r) 0) line) as (args & E & Hc & Hat);
    [by split; [|exists [], (0 :: r)]|done|right; by rewrite Hw|].
  rewrite E. cbn [mbind exec_bind]. rewrite Hc, Hw, alen_cons. pose proof (alen_nonneg ws).
  rewrite (proj2 (Z.eqb_neq _ _)) by lia.
  assert (Hok : Forall is_word (w :: ws)) by (rewrite <- Hw; by apply words_from_ok).
  assert (Hlen : Forall (fun v => Forall (fun c => c <> 0) v /\ alen v < 2 ^ 32) (w :: ws)).
  { apply Forall_forall. intros v Hv. rewrite Forall_forall in Hok. split.
    - destruct (Hok v Hv) as [_ Hv']. eapply Forall_impl; [exact Hv'|]. by intros ? [].
    - rewrite <- Hw in Hv. apply word_not_longer in Hv. rewrite (@alen_nil Z) in Hv. lia. }
  rewrite Hw in Hat. destruct Hat as [Hat _]. destruct (Hat 0%nat w eq_refl) as (u & Eu & Hu). specialize (Eu false). change (Z.of_nat 0) with 0 in Eu.
  apply Forall_cons in Hlen as [[Hwnz Hwl] Hlen].
  rewrite (parse_external args u w) by done. cbn [mbind exec_bind].
  unfold execute_external_command. rewrite Hc, Hw, alen_cons.
  assert (Hargs : exists pr, (if 1 + alen ws >? 1 then v ← ArgumentParser_at false args 1; Done (Some (sv_data v, sv_off v)) else Done None) = Done pr /\
    match pr with None => Done Null | Some (a, o) => cs ← string_at a o; Done (Chars cs) end =
      Done (match ws with [] => Null | v :: _ => Chars v end)).
  { destruct ws as [|v ws]; [by eexists|]. rewrite alen_cons, (proj2 (Z.gtb_lt _ _)) by (pose proof (alen_nonneg ws); lia).
    destruct (Hat 1%nat v eq_refl) as (u1 & Eu1 & Hu1). specialize (Eu1 false). change (Z.of_nat 1) with 1 in Eu1. rewrite Eu1. cbn [mbind exec_bind].
    eexists. split; [done|]. apply Forall_cons in Hlen as [[Hvnz Hvl] _]. rewrite (string_at_word u1 v) by done. done. }
  destruct Hargs as (pr & Ep1 & Ep2). replace (alen ws + 1) with (1 + alen ws) by lia. rewrite Ep1. cbn [mbind exec_bind].
  rewrite Eu. cbn [mbind exec_bind]. unfold Sys_CreateProcess. rewrite (string_at_word u w) by done. cbn [mbind exec_bind].
  rewrite Ep2. cbn [mbind exec_bind]. rewrite (syscall_reaches 8 SC_CreateProcess _ _ eq_refl eq_refl). fold p. rewrite Hrun.
  cbn [mbind exec_bind]. rewrite (proj2 (Z.eqb_neq child 0)) by done. cbn [mbind exec_bind].
  rewrite (proj2 (Z.eqb_neq child 0)) by done. by destruct (Sys_WaitSignal child 0 _).
Qed.

End external.

(** ** A directory that is not there *)

(** When the directory of [ls] cannot be opened, the handle that the failed call gave back, 0,
    is asked for entries and closed: it is the first handle of the program, its console. *)
Lemma ls_missing_closes_zero {K} `{KernelRoutines K} fuel info args (sh : Shell K) u w a e k1 p2 info' p3 :
  (ArgumentParser_count args >? 1) = true -> ArgumentParser_at false args 1 = Done u -> shows_word u w ->
  Forall (fun c => c <> 0) w -> alen w < 2 ^ 32 -> let p := sh_program sh in
  run_routine SC_OpenFile [Chars w; Number OM_READ; Number OF_OPEN_EXISTING] (pg_kernel p) = Done (Error e, a, k1) -> e <> 0 ->
  printf (literal_line "Cannot open the directory.") (mkProgram k1 e (con_fd p) (kb_fd p)) = Done p2 ->
  Sys_QueryDirectory 0 info p2 = Done (info', p3) -> GetLastError p3 <> 0 ->
  command_ls (S fuel) info args sh = (p ← Sys_CloseHandle 0 p3; Done (mkShell p (working_directory sh))).
Proof.
  intros Hc Hat Hu Hw Hl p Hrun He Hprint Hquery Hlast. unfold command_ls. rewrite Hc, Hat. cbn [mbind exec_bind].
  unfold Sys_OpenFile. rewrite (string_at_word u w) by done. cbn [mbind exec_bind].
  rewrite (syscall_reaches 0 SC_OpenFile _ _ eq_refl eq_refl). fold p. rewrite Hrun. cbn [mbind exec_bind GetLastError pg_error].
  unfold truthy. rewrite (proj2 (Z.eqb_neq e 0)) by done. cbn [negb]. rewrite Hprint. cbn [mbind exec_bind]. rewrite Hquery.
  cbn [mbind exec_bind while]. rewrite (proj2 (Z.eqb_neq _ 0) Hlast). done.
Qed.

(** C16: the shell executes exactly the lines that were typed, in order, each as the terminated
    string of its characters, for any kernel that reads the typed characters in their order and
    prints, and in which executing a line of a kind [ok] returns ([shell_world]); no character
    is zero, and all lines are [ok] - a line of blanks is not, as its arguments cannot be parsed
    ([blank_line_faults]). The lines are those of [typed_lines]: a line feed ends a line, a
    backspace takes the last character of the line back if there is one, and a line of 1000
    characters is dropped together with the character that follows it, so that what is typed
    behind them starts a new line. The buffer is never left, and the loop ends at the first zero
    that is read. *)
Theorem shell_runs_typed_lines {K} `{KernelRoutines K} T ok execute (sh : Shell K) cs buff fuel :
  shell_world T ok execute -> alen buff = COMMAND_MAX -> Forall (fun c => c <> 0) cs -> Forall ok (typed_lines [] cs) ->
  T [] (cs ++ [0]) sh -> (length cs < fuel)%nat ->
  exists sh', shell_loop execute fuel buff sh = Done sh' /\ T (typed_lines [] cs) [] sh'.
Proof.
  intros W Hb Hcs Hok HT Hf. apply (loop_typed T ok execute W cs [] sh buff [] buff fuel); done.
Qed.

(** ** A world in which commands are programs *)

Record Desk := mkDesk { desk_keys : list Z; desk_screen : list Z; desk_ran : list (list Z) }.

#[export] Instance DeskRoutines : KernelRoutines Desk := {|
  run_routine r params k :=
    match r, params with
    | SC_OpenFile, _ => Done (Value 7, params, k)
    | SC_ReadFile, [Number h; Memory b; Number n] =>
        match desk_keys k with
        | c :: keys => Done (Value 1, [Number h; Memory [c]; Number n], mkDesk keys (desk_screen k) (desk_ran k))
        | [] => Done (Error ERROR_EOF, params, k)
        end
    | SC_WriteFile, [_; Memory b; Number n] =>
        Done (Value n, params, mkDesk (desk_keys k) (desk_screen k ++ take (Z.to_nat n) b) (desk_ran k))
    | SC_CreateProcess, Chars path :: _ => Done (Value 8, params, mkDesk (desk_keys k) (desk_screen k) (desk_ran k ++ [path]))
    | _, _ => Done (Value 0, params, k)
    end
|}.

Definition program_line (line : list Z) : Prop := exists w ws, line_words line = w :: ws /\ w ∉ internal.

Definition program_of (line : list Z) : list Z := default [] (head (line_words line)).

Definition at_desk (done : list (list Z)) (input : list Z) (sh : Shell Desk) : Prop :=
  desk_keys (pg_kernel (sh_program sh)) = input /\ desk_ran (pg_kernel (sh_program sh)) = program_of <$> done /\
  working_directory sh = mkString 4 (Some (literal "/tar")).

Lemma desk_print (f : Program Desk -> exec (Program Desk)) d i sh :
  (forall p, exists p', f p = Done p' /\ desk_keys (pg_kernel p') = desk_keys (pg_kernel p) /\ desk_ran (pg_kernel p') = desk_ran (pg_kernel p)) ->
  at_desk d i sh -> exists p, f (sh_program sh) = Done p /\ at_desk d i (mkShell p (working_directory sh)).
Proof.
  intros Hf (Hk & Hr & Hw). destruct (Hf (sh_program sh)) as (p & E & Ek & Er). exists p. split; [done|].
  split; [by cbn; rewrite Ek|]. split; [by cbn; rewrite Er|done].
Qed.

Lemma desk_open path cs mode flags (p : Program Desk) :
  string_at path 0 = Done cs ->
  Sys_OpenFile path 0 mode flags p = Done (7, mkProgram (pg_kernel p) ERROR_SUCCESS (con_fd p) (kb_fd p)).
Proof. intros E. unfold Sys_OpenFile. rewrite E. cbn [mbind exec_bind]. by rewrite (syscall_reaches 0 SC_OpenFile _ _ eq_refl eq_refl). Qed.

Lemma desk_console (p : Program Desk) :
  exists e h, open_console p = Done (mkProgram (pg_kernel p) e h (kb_fd p)).
Proof.
  unfold open_console. destruct (con_fd p =? INVALID_FD); [|destruct p; by eexists _, _].
  rewrite (desk_open _ (removelast (literal "/devices/console"))) by reflexivity. by eexists _, _.
Qed.

Lemma desk_world fuel info : shell_world at_desk program_line (execute_command fuel info).
Proof.
  split.
  - intros d c i [[k e con kb] wd] (Hk & Hr & Hw). cbn [sh_program pg_kernel working_directory] in *. unfold get_char. cbn [kb_fd].
    assert (exists e' h, (if kb =? INVALID_FD then
        '(h, p) ← Sys_OpenFile (literal "/devices/keyboard") 0 0 1 (mkProgram k e con kb); Done (set_kb_fd h p)
      else Done (mkProgram k e con kb)) = Done (mkProgram k e' con h)) as (e' & h & ->).
    { destruct (kb =? INVALID_FD); [|by eexists _, _].
      rewrite (desk_open _ (removelast (literal "/devices/keyboard"))) by reflexivity. by eexists _, _. }
    cbn [mbind exec_bind]. unfold Sys_ReadFile. rewrite (syscall_reaches 1 SC_ReadFile _ _ eq_refl eq_refl).
    cbn. rewrite Hk. cbn. eexists. split; [done|]. by repeat split.
  - intros d i sh cs r Hcs Hl. apply desk_print. intros p. unfold printf. destruct (desk_console p) as (e & h & ->).
    cbn [mbind exec_bind]. change (strlen (cs ++ 0 :: r) 0) with (strlen ([] ++ cs ++ 0 :: r) (alen (@nil Z))).
    rewrite strlen_spec by done. cbn [mbind exec_bind]. unfold Sys_WriteFile.
    rewrite (syscall_reaches 2 SC_WriteFile _ _ eq_refl eq_refl). cbn. by eexists.
  - intros d i sh c. apply desk_print. intros p. unfold putchar. destruct (desk_console p) as (e & h & ->).
    cbn [mbind exec_bind]. unfold Sys_WriteFile. rewrite (syscall_reaches 2 SC_WriteFile _ _ eq_refl eq_refl). cbn. by eexists.
  - intros d i [[k e con kb] wd] line r Hnz Hl (w & ws & Ew & Hint) (Hk & Hr & Hw). cbn in Hk, Hr, Hw. unfold COMMAND_MAX in Hl.
    rewrite (execute_external fuel info line r _ w ws 8 [Chars w; match ws with [] => Null | v :: _ => Chars v end; Number 0]
      (mkDesk (desk_keys k) (desk_screen k) (desk_ran k ++ [w]))) by (done || lia).
    cbn. eexists. split; [done|]. split; [done|]. split; [|done]. cbn [sh_program pg_kernel desk_ran].
    rewrite Hr, fmap_app. cbn [fmap list_fmap]. unfold program_of at 3. by rewrite Ew.
  - intros d i sh (_ & _ & ->). exists [47; 116; 97; 114]. split; [split; [done|by exists []]|by repeat constructor].
Qed.

(** Typing ["catX", backspace, " a" and a line feed]: the program [cat] is run. *)
Lemma shell_runs_typed_lines_witness :
  let keys := [99; 97; 116; 88; 8; 32; 97; 10] in
  typed_lines [] keys = [[99; 97; 116; 32; 97]] /\
  exists sh', shell_loop (execute_command 1 (mkInfo [] 0 NT_File)) 9 (replicate 1000 0)
      (mkShell (mkProgram (mkDesk (keys ++ [0]) [] []) 0 INVALID_FD INVALID_FD) (mkString 4 (Some (literal "/tar")))) = Done sh' /\
    desk_ran (pg_kernel (sh_program sh')) = [[99; 97; 116]].
Proof.
  intros keys. split; [done|].
  destruct (shell_runs_typed_lines at_desk program_line (execute_command 1 (mkInfo [] 0 NT_File))
    (mkShell (mkProgram (mkDesk (keys ++ [0]) [] []) 0 INVALID_FD INVALID_FD) (mkString 4 (Some (literal "/tar"))))
    keys (replicate 1000 0) 9) as (sh' & E & _ & Hr & _).
  - apply desk_world.
  - reflexivity.
  - by repeat constructor.
  - constructor; [|constructor]. exists [99; 97; 116], [[97]]. split; [done|]. by apply (bool_decide_unpack _).
  - done.
  - unfold keys. cbn. lia.
  - exists sh'. split; [exact E|]. by rewrite Hr.
Defined.
