(* ===== verification/Cat.v ===== *)
(** * A program and the kernel together

    [cat] of userspace/cat/main.cpp on the file system calls of SystemCalls.v: the numbers of
    the library reach the routines of the kernel, the path leads through the tree to a file of
    the archive, its bytes come back and go to the console. *)
From S2P Require Import Prelude Storage CircularBuffer Clib Strings PathView Buffers Files Keyboard Console Handles Vfs Tar.
From S2P Require Import SystemCalls SystemLibrary Shell.

Section kernel.
Context (memory_at : Z -> list Z) (drop_process : Z -> System -> exec System).

(** The kernel behind the calls on files. A read that waits does not return here; the calls
    on processes and memory are refused. *)
#[local] Instance SystemRoutines : KernelRoutines System := {|
  run_routine r params s :=
    match r, params with
    | SC_OpenFile, [Chars path; Number mode; Number flags] =>
        '(v, s) ← OpenFile s (c_str path) mode flags; Done (v, params, s)
    | SC_ReadFile, [Number h; Memory buff; Number n] =>
        r ← ReadFile memory_at s h false (take (Z.to_nat n) buff);
        match r with
        | Returns (v, got, s) => Done (v, [Number h; Memory (got ++ drop (Z.to_nat n) buff); Number n], s)
        | Blocks _ => OutOfFuel
        end
    | SC_WriteFile, [Number h; Memory buff; Number n] =>
        r ← WriteFile s h false (take (Z.to_nat n) buff);
        match r with Returns (v, s) => Done (v, params, s) | Blocks _ => OutOfFuel end
    | SC_QueryDirectory, [Number h; Info info] =>
        '(v, info, s) ← QueryDirectory s h info; Done (v, [Number h; Info info], s)
    | SC_QueryFileInformation, [Number h; Info info] =>
        '(v, info) ← QueryFileInformation s h (Some info);
        match info with Some info => Done (v, [Number h; Info info], s) | None => Fault end
    | SC_CloseHandle, [Number h] => '(v, s) ← CloseHandle drop_process s h; Done (v, params, s)
    | _, _ => Done (Error ERROR_INVALID_OPERATION, params, s)
    end
|}.

Implicit Types (s : System) (os : list (option object)).

Definition console_path : list (list Z) := [removelast (literal "devices"); removelast (literal "console")].

(** The tree has the console, and the driver is in order. *)
Record has_console s : Prop := {
  hc_node : exists j n, resolve (sy_fs s) console_path = Value j /\ fs_nodes (sy_fs s) !! j = Some n /\
    fn_class n = CConsole /\ fn_size n = 0;
  hc_ok : console_ok (sy_console s) 4;
}.

(** The handle [h] is one of the console. *)
Definition console_handle s os (h : Z) : Prop :=
  0 <= h < 2 ^ 31 /\ exists d j n mode, os !! Z.to_nat h = Some (Some (File d)) /\
    sy_descriptions s !! d = Some (j, mkFD mode 0) /\ fs_nodes (sy_fs s) !! j = Some n /\
    fn_class n = CConsole /\ fn_size n = 0.

Lemma console_written c buff :
  console_ok c 4 -> exists c', Console_write c buff = Done (alen buff, c') /\ console_ok c' 4.
Proof.
  intros Hc. destruct (write_ok buff c Hc) as (c' & E & Hc'). exists c'. split; [|done]. by rewrite write_fold, E.
Qed.

Lemma system_with_console s os c : system_ok s os -> system_ok (with_console s c) os.
Proof. by intros []. Qed.

Lemma write_reaches_console s os h buff :
  system_ok s os -> console_handle s os h -> console_ok (sy_console s) 4 ->
  exists c, Console_write (sy_console s) buff = Done (alen buff, c) /\ console_ok c 4 /\
    WriteFile s h false buff = Done (Returns (Value (alen buff), with_console s c)).
Proof.
  intros Hs (Hh & d & j & n & mode & Hd & Hj & Hn & Hc & Hsz) Hok.
  destruct (console_written (sy_console s) buff Hok) as (c & Ec & Hc'). exists c. split; [done|]. split; [done|].
  destruct (good_handle s os h d Hs (proj1 Hh) Hd) as [Hg Hf]. unfold WriteFile. rewrite Hg. cbn [mbind exec_bind negb].
  rewrite Hf. cbn [mbind exec_bind]. unfold description_at, node_at. rewrite Hj. cbn [mbind exec_bind]. rewrite Hn.
  cbn [mbind exec_bind]. unfold FileDescription_write, beyond_end. rewrite Hsz, andb_false_r.
  unfold node_write, node_at. rewrite Hn. cbn [mbind exec_bind]. rewrite Hc, Ec. done.
Qed.

(** Printing a text through an open console. *)
Lemma printf_prints s os e h kb text r :
  system_ok s os -> console_handle s os h -> console_ok (sy_console s) 4 ->
  Forall (fun c => c <> 0) text -> alen text < 2 ^ 32 ->
  exists c, Console_write (sy_console s) text = Done (alen text, c) /\ console_ok c 4 /\
    printf (text ++ 0 :: r) (mkProgram s e h kb) = Done (mkProgram (with_console s c) ERROR_SUCCESS h kb).
Proof.
  intros Hs Hh Hok Hnz Hl. destruct (write_reaches_console s os h text Hs Hh Hok) as (c & Ec & Hc & Ew).
  exists c. split; [done|]. split; [done|]. unfold printf, open_console. cbn [con_fd].
  rewrite (proj2 (Z.eqb_neq h INVALID_FD)) by (destruct Hh as [Hh _]; change INVALID_FD with (2 ^ 32 - 1); lia).
  cbn [mbind exec_bind]. change (strlen (text ++ 0 :: r) 0) with (strlen ([] ++ text ++ 0 :: r) (alen (@nil Z))).
  rewrite strlen_spec by done. cbn [mbind exec_bind con_fd]. unfold Sys_WriteFile.
  rewrite (syscall_reaches 2 SC_WriteFile _ _ eq_refl eq_refl). cbn [run_routine SystemRoutines pg_kernel].
  replace (take (Z.to_nat (alen text)) (text ++ 0 :: r)) with text by (unfold alen; by rewrite Nat2Z.id, take_app_length).
  by rewrite Ew.
Qed.

Lemma console_path_clean : clean console_path.
Proof.
  split; [done|]. split; [|by repeat constructor].
  repeat (apply Forall_cons; split; [split; [by apply (bool_decide_unpack _)|done]|]). by apply Forall_nil.
Qed.

(** The console is opened by the first text. *)
Lemma console_opens s os e kb :
  system_ok s os -> has_console s -> alen os + 1 < 2 ^ 31 ->
  exists s', open_console (mkProgram s e INVALID_FD kb) = Done (mkProgram s' ERROR_SUCCESS (alen os) kb) /\
    system_ok s' (os ++ [Some (File (sy_fresh s))]) /\ console_handle s' (os ++ [Some (File (sy_fresh s))]) (alen os) /\
    sy_fs s' = sy_fs s /\ sy_console s' = sy_console s /\
    forall d, d <> sy_fresh s -> sy_descriptions s' !! d = sy_descriptions s !! d.
Proof.
  intros Hs [(j & n & Hj & Hn & Hc & Hsz) _] Hl. pose proof (alen_nonneg os).
  pose proof (OpenFile_spec s os console_path [] 1 Hs console_path_clean ltac:(done) Hl) as Ho.
  rewrite Hj in Ho. destruct (Ho n Hn) as (s' & E & Hs' & Hfs & Hd & Hcon); [by rewrite Hc|]. exists s'.
  unfold open_console. cbn [con_fd]. rewrite Z.eqb_refl. unfold Sys_OpenFile.
  replace (string_at (literal "/devices/console") 0) with (Done (opened console_path)) by reflexivity. cbn [mbind exec_bind].
  rewrite (syscall_reaches 0 SC_OpenFile _ _ eq_refl eq_refl). cbn [run_routine SystemRoutines pg_kernel].
  unfold c_str. change OF_OPEN_EXISTING with 1 in E. rewrite E. cbn [mbind exec_bind]. split; [done|].
  split; [done|]. split; [|split; [done|]; split; [done|]; intros d Hne; by rewrite Hd, lookup_insert_ne].
  split; [lia|]. exists (sy_fresh s), j, n, 1. unfold alen. rewrite Nat2Z.id, Hfs, Hd, lookup_insert_eq.
  split; [by apply list_lookup_middle|]. split; [reflexivity|]. split; [exact Hn|]. by split.
Qed.

(** The first text of a program, and the ones after it. *)
Lemma first_printf s os e kb text r :
  system_ok s os -> has_console s -> alen os + 1 < 2 ^ 31 -> Forall (fun c => c <> 0) text -> alen text < 2 ^ 32 ->
  let os' := os ++ [Some (File (sy_fresh s))] in
  exists s' c, printf (text ++ 0 :: r) (mkProgram s e INVALID_FD kb) = Done (mkProgram s' ERROR_SUCCESS (alen os) kb) /\
    Console_write (sy_console s) text = Done (alen text, c) /\ console_ok c 4 /\ sy_console s' = c /\
    system_ok s' os' /\ console_handle s' os' (alen os) /\ sy_fs s' = sy_fs s /\
    forall d, d <> sy_fresh s -> sy_descriptions s' !! d = sy_descriptions s !! d.
Proof.
  intros Hs Hcon Hl Hnz Ht os'. destruct (console_opens s os e kb Hs Hcon Hl) as (s1 & E1 & Hs1 & Hh1 & Hfs1 & Hc1 & Hd1).
  destruct (printf_prints s1 os' ERROR_SUCCESS (alen os) kb text r Hs1 Hh1) as (c & Ec & Hc & E2);
    [by rewrite Hc1; apply Hcon|done..|].
  rewrite Hc1 in Ec. exists (with_console s1 c), c. split; [|split; [done|]; split; [done|]; split; [done|]].
  - unfold printf in *. rewrite E1. unfold open_console at 1 in E2. cbn [con_fd] in E2.
    rewrite (proj2 (Z.eqb_neq (alen os) INVALID_FD)) in E2
      by (pose proof (alen_nonneg os); change INVALID_FD with (2 ^ 32 - 1); lia). exact E2.
  - split; [by apply system_with_console|]. split; [exact Hh1|]. split; [exact Hfs1|exact Hd1].
Qed.

Lemma string_of_path ws rest :
  clean ws -> alen (opened ws) + 2 < 2 ^ 31 -> string_at (opened ws ++ 0 :: rest) 0 = Done (opened ws).
Proof.
  intros (_ & _ & Hnz) Hl. pose proof (opened_nonzero ws Hnz) as Ho. unfold string_at.
  change (strlen (opened ws ++ 0 :: rest) 0) with (strlen ([] ++ opened ws ++ 0 :: rest) (alen (@nil Z))).
  rewrite strlen_spec by (done || lia). cbn [mbind exec_bind]. unfold alen. by rewrite Nat2Z.id, drop_0, take_app_length.
Qed.

Lemma memset_all (l : list Z) x : memset l 0 x (alen l) = Done (replicate (length l) x).
Proof.
  destruct (memset_lookup l 0 x (alen l)) as (l' & E & Hl & Hk); [lia|apply alen_nonneg|lia|]. rewrite E. f_equal.
  apply list_eq. intros k. rewrite Hk. unfold alen in *. case_bool_decide as Hin.
  - symmetry. apply lookup_replicate_2. lia.
  - rewrite lookup_ge_None_2 by lia. symmetry. apply lookup_replicate_None. lia.
Qed.

(** The file that [cat] is called with, its bytes and the text before the first zero. *)
Record text_file s (ws : list (list Z)) (n : FSNode) (name text tail : list Z) : Prop := {
  tf_node : exists i, resolve (sy_fs s) ws = Value i /\ fs_nodes (sy_fs s) !! i = Some n;
  tf_class : fn_class n = CINode;
  tf_size : 0 < fn_size n < 2 ^ 31 - 1;
  tf_name : str_rep (fn_name n) name;
  tf_bytes : memory_at (fn_data n) = text ++ tail ++ drop (Z.to_nat (fn_size n)) (memory_at (fn_data n));
  tf_length : alen (text ++ tail) = fn_size n;
  tf_text : Forall (fun c => c <> 0) text;
  tf_tail : tail = [] \/ head tail = Some 0;
}.

Lemma text_terminated text tail : tail = [] \/ head tail = Some 0 -> exists r, (text ++ tail) ++ [0] = text ++ 0 :: r.
Proof.
  intros [->|Ht]; [exists []; by rewrite app_nil_r|]. destruct tail as [|x tail]; [done|]. injection Ht as ->.
  exists (tail ++ [0]). by rewrite <- app_assoc.
Qed.

(** What the read gives: the bytes, and the zero behind them that was there before. *)
Lemma read_gives s os h n name text tail ws :
  system_ok s os -> text_file s ws n name text tail -> open_file memory_at s os h n ->
  run_routine SC_ReadFile [Number h; Memory (replicate (Z.to_nat (fn_size n + 1)) 0); Number (fn_size n)] s =
    Done (Value (fn_size n), [Number h; Memory ((text ++ tail) ++ [0]); Number (fn_size n)], s).
Proof.
  intros Hs [_ _ Hsz _ Hb Hl _ _] Ho. cbn [run_routine SystemRoutines].
  set (buff := take (Z.to_nat (fn_size n)) (replicate (Z.to_nat (fn_size n + 1)) 0)).
  assert (Hlen : length buff = Z.to_nat (fn_size n)) by (unfold buff; rewrite length_take, length_replicate; lia).
  assert (Ha : alen buff = fn_size n) by (unfold alen; rewrite Hlen; lia).
  rewrite (open_file_reads memory_at s os h n false buff Hs Ho) by lia. rewrite Ha, Z.ltb_irrefl. cbn [mbind exec_bind].
  rewrite Hlen, drop_replicate. replace (Z.to_nat (fn_size n + 1) - Z.to_nat (fn_size n))%nat with 1%nat by lia.
  replace (take (Z.to_nat (fn_size n)) (memory_at (fn_data n))) with (text ++ tail); [done|].
  rewrite app_assoc in Hb. symmetry in Hb. rewrite <- Hb. rewrite take_app_length'; [done|]. unfold alen in Hl. lia.
Qed.

(** A file stays open when the console is opened. *)
Lemma still_open s s' os x h n :
  system_ok s os -> open_file memory_at s os h n -> sy_fs s' = sy_fs s ->
  (forall d, d <> sy_fresh s -> sy_descriptions s' !! d = sy_descriptions s !! d) ->
  open_file memory_at s' (os ++ [x]) h n.
Proof.
  intros Hs [Hh (d & i & mode & Hd & Hi & Hn) Hc Hsz Hdata] Hfs Hds. split; [done| |done..]. exists d, i, mode.
  pose proof (lookup_lt_Some _ _ _ Hd). rewrite lookup_app_l by done. split; [done|]. rewrite Hfs. split; [|done].
  rewrite Hds; [done|]. destruct (so_fresh _ _ Hs) as [_ Hfr]. specialize (Hfr d (list_elem_of_lookup_2 _ _ _ Hd)). lia.
Qed.

(** The first call of [cat]. *)
Lemma cat_opens s os ws rest e kb n name text tail :
  system_ok s os -> clean ws -> alen (opened ws) + 2 < 2 ^ 31 -> alen os + 2 < 2 ^ 31 -> text_file s ws n name text tail ->
  let os1 := os ++ [Some (File (sy_fresh s))] in
  exists s1, Sys_OpenFile (opened ws ++ 0 :: rest) 0 (Z.lor OM_WRITE OM_READ) OF_OPEN_EXISTING (mkProgram s e INVALID_FD kb) =
      Done (alen os, mkProgram s1 ERROR_SUCCESS INVALID_FD kb) /\
    system_ok s1 os1 /\ open_file memory_at s1 os1 (alen os) n /\ sy_fs s1 = sy_fs s /\ sy_console s1 = sy_console s.
Proof.
  intros Hs Hws Hl Hos [(i & Hi & Hn) Hc Hsz Hname Hb Hlen _ _] os1. pose proof (alen_nonneg os).
  pose proof (OpenFile_spec s os ws [] (Z.lor OM_WRITE OM_READ) Hs Hws Hl ltac:(lia)) as Ho.
  rewrite Hi in Ho. destruct (Ho n Hn) as (s1 & E & Hs1 & Hfs1 & Hd1 & Hc1); [by rewrite Hc|]. exists s1.
  unfold Sys_OpenFile. rewrite string_of_path by done. cbn [mbind exec_bind].
  rewrite (syscall_reaches 0 SC_OpenFile _ _ eq_refl eq_refl). cbn [run_routine SystemRoutines pg_kernel]. unfold c_str.
  rewrite E. cbn [mbind exec_bind]. split; [done|]. split; [done|]. split; [|done]. split; [lia| |done|lia|].
  - exists (sy_fresh s), i, (Z.lor OM_WRITE OM_READ). unfold os1, alen. rewrite Nat2Z.id, Hd1, Hfs1, lookup_insert_eq.
    split; [by apply list_lookup_middle|]. by split.
  - rewrite Hb, !alen_app. rewrite alen_app in Hlen. pose proof (alen_nonneg (drop (Z.to_nat (fn_size n)) (memory_at (fn_data n)))). lia.
Qed.

(** The two texts, and the end. *)
Lemma cat_writes s os h kb n text r :
  system_ok s os -> has_console s -> open_file memory_at s os h n -> alen os + 1 < 2 ^ 31 ->
  Forall (fun c => c <> 0) text -> alen text < 2 ^ 32 ->
  exists d c1 c2 s', (p ← printf (text ++ 0 :: r) (mkProgram s ERROR_SUCCESS INVALID_FD kb);
      p ← printf (c_str [10]) p; p ← Sys_CloseHandle h p; Done (0, p)) = Done (0, mkProgram s' ERROR_SUCCESS (alen os) kb) /\
    Console_write (sy_console s) text = Done (alen text, c1) /\ Console_write c1 [10] = Done (1, c2) /\ sy_console s' = c2 /\
    system_ok s' (<[Z.to_nat h := None]> os ++ [Some (File d)]) /\ sy_fs s' = sy_fs s.
Proof.
  intros Hs Hcon Ho Hl Hnz Ht.
  destruct (first_printf s os ERROR_SUCCESS kb text r Hs Hcon Hl Hnz Ht) as (s1 & c1 & E1 & Ec1 & Hok1 & Hc1 & Hs1 & Hh1 & Hfs1 & Hd1).
  destruct (printf_prints s1 _ ERROR_SUCCESS (alen os) kb [10] [] Hs1 Hh1) as (c2 & Ec2 & Hok2 & E2);
    [by rewrite Hc1|by repeat constructor|done|].
  rewrite Hc1 in Ec2. pose proof (system_with_console _ _ c2 Hs1) as Hs2.
  assert (Ho2 : open_file memory_at (with_console s1 c2) (os ++ [Some (File (sy_fresh s))]) h n) by by eapply still_open.
  destruct (open_file_closes memory_at drop_process _ _ _ _ Hs2 Ho2) as (d & s3 & _ & E3 & Hs3 & Hfs3 & _ & Hc3).
  exists (sy_fresh s), c1, c2, s3. rewrite E1. cbn [mbind exec_bind]. change (c_str [10]) with ([10] ++ [0]). rewrite E2.
  cbn [mbind exec_bind]. unfold Sys_CloseHandle. rewrite (syscall_reaches 4 SC_CloseHandle _ _ eq_refl eq_refl).
  cbn [run_routine SystemRoutines pg_kernel]. rewrite E3. cbn [mbind exec_bind]. do 3 (split; [done|]). split; [by rewrite Hc3|].
  split; [|by rewrite Hfs3]. destruct (of_file _ _ _ _ _ Ho) as (d' & i' & m' & Hd' & _). apply lookup_lt_Some in Hd'.
  by rewrite insert_app_l in Hs3.
Qed.

Lemma cat_prints s os ws rest e kb info junk program n name text tail :
  system_ok s os -> has_console s -> clean ws -> alen (opened ws) + 2 < 2 ^ 31 -> alen os + 2 < 2 ^ 31 ->
  text_file s ws n name text tail -> alen name < alen (fi_name info) ->
  exists d c1 c2 s', cat_main info junk 2 [program; opened ws ++ 0 :: rest] (mkProgram s e INVALID_FD kb) =
      Done (0, mkProgram s' ERROR_SUCCESS (alen os + 1) kb) /\
    Console_write (sy_console s) text = Done (alen text, c1) /\ Console_write c1 [10] = Done (1, c2) /\
    sy_console s' = c2 /\ system_ok s' (os ++ [None; Some (File d)]) /\ sy_fs s' = sy_fs s.
Proof.
  intros Hs Hcon Hws Hl Hos Hf Hname. pose proof (alen_nonneg os).
  destruct (cat_opens s os ws rest e kb n name text tail Hs Hws Hl Hos Hf) as (s1 & E1 & Hs1 & Ho1 & Hfs1 & Hc1).
  assert (Hf1 : text_file s1 ws n name text tail) by (destruct Hf; split; by rewrite ?Hfs1).
  assert (Hcon1 : has_console s1) by (destruct Hcon; split; by rewrite ?Hfs1, ?Hc1).
  pose proof (tf_size _ _ _ _ _ _ Hf) as Hsz. pose proof (tf_length _ _ _ _ _ _ Hf) as Hlen. rewrite alen_app in Hlen.
  pose proof (alen_nonneg tail). destruct (text_terminated text tail (tf_tail _ _ _ _ _ _ Hf)) as (r & Er).
  destruct (cat_writes s1 _ (alen os) kb n text r Hs1 Hcon1 Ho1) as (d & c1 & c2 & s' & E & Ec1 & Ec2 & Hc' & Hs' & Hfs');
    [rewrite alen_snoc; lia|by apply (tf_text _ _ _ _ _ _ Hf)|lia|].
  exists d, c1, c2, s'. rewrite alen_snoc in E. rewrite Hc1 in Ec1. rewrite Hfs1 in Hfs'.
  split; [|split; [done|]; split; [done|]; split; [done|]; split; [|done]].
  - unfold cat_main. cbn [Z.leb Z.compare Pos.compare Pos.compare_cont]. change (aget [program; opened ws ++ 0 :: rest] 1) with (Done (opened ws ++ 0 :: rest)).
    cbn [mbind exec_bind]. rewrite E1. cbn [mbind exec_bind GetLastError pg_error]. change (truthy ERROR_SUCCESS) with false. cbn match.
    unfold Sys_QueryFileInformation. rewrite (syscall_reaches 15 SC_QueryFileInformation _ _ eq_refl eq_refl).
    cbn [run_routine SystemRoutines pg_kernel].
    rewrite (open_file_information memory_at s1 _ (alen os) n name info Hs1 Ho1 (tf_name _ _ _ _ _ _ Hf) Hname).
    cbn [mbind exec_bind pg_error fi_size con_fd kb_fd]. change (truthy ERROR_SUCCESS) with false. cbn match.
    rewrite u32_small by lia. set (l := junk <$> seqZ 0 (fn_size n + 1)).
    assert (Hll : length l = Z.to_nat (fn_size n + 1)) by (unfold l; by rewrite length_fmap, length_seqZ).
    replace (fn_size n + 1) with (alen l) by (unfold alen; lia). rewrite memset_all, Hll. cbn [mbind exec_bind].
    unfold Sys_ReadFile. rewrite (syscall_reaches 1 SC_ReadFile _ _ eq_refl eq_refl). cbn [pg_kernel].
    rewrite (read_gives s1 _ (alen os) n name text tail ws Hs1 Hf1 Ho1). cbn [mbind exec_bind pg_error con_fd kb_fd].
    change (truthy ERROR_SUCCESS) with false. cbn match. rewrite Er. exact E.
  - unfold alen in Hs'. rewrite Nat2Z.id, insert_app_r_alt, Nat.sub_diag, <- app_assoc in Hs' by lia. exact Hs'.
Qed.

Lemma cat_refuses s os ws rest e kb info junk program err :
  system_ok s os -> has_console s -> clean ws -> alen (opened ws) + 2 < 2 ^ 31 -> alen os + 2 < 2 ^ 31 ->
  resolve (sy_fs s) ws = Error err ->
  exists c s', cat_main info junk 2 [program; opened ws ++ 0 :: rest] (mkProgram s e INVALID_FD kb) =
      Done (ERROR_FILE_DOES_NOT_EXIST, mkProgram s' ERROR_SUCCESS (alen os) kb) /\
    Console_write (sy_console s) (removelast (literal_line "Cannot open the file.")) = Done (22, c) /\ sy_console s' = c.
Proof.
  intros Hs Hcon Hws Hl Hos Herr.
  pose proof (OpenFile_spec s os ws [] (Z.lor OM_WRITE OM_READ) Hs Hws Hl ltac:(lia)) as Ho. rewrite Herr in Ho.
  destruct (first_printf s os ERROR_FILE_DOES_NOT_EXIST kb (removelast (literal_line "Cannot open the file.")) [] Hs Hcon ltac:(lia))
    as (s' & c & E & Ec & _ & Hc & _); [by repeat constructor|done|].
  exists c, s'. split; [|split; [exact Ec|exact Hc]]. unfold cat_main. cbn [Z.leb Z.compare Pos.compare Pos.compare_cont].
  change (aget [program; opened ws ++ 0 :: rest] 1) with (Done (opened ws ++ 0 :: rest)).
  cbn [mbind exec_bind]. unfold Sys_OpenFile. rewrite string_of_path by done. cbn [mbind exec_bind].
  rewrite (syscall_reaches 0 SC_OpenFile _ _ eq_refl eq_refl). cbn [run_routine SystemRoutines pg_kernel]. unfold c_str.
  rewrite Ho. cbn [mbind exec_bind GetLastError pg_error con_fd kb_fd]. change (truthy ERROR_FILE_DOES_NOT_EXIST) with true.
  change (literal_line "Cannot open the file.") with (removelast (literal_line "Cannot open the file.") ++ [0]). cbn match.
  rewrite E. done.
Qed.

(** C14: [cat] with the path of a file opens it, asks for its size, reads all of it and writes
    to the console what is in it up to the first zero, and a line feed; it closes the file,
    changes nothing else in the kernel but the console that it opened, and returns 0. With a
    path that names nothing it says so on the console and returns the error. *)
Theorem cat_shows_file s os ws rest e kb info junk program
    (Hs : system_ok s os) (Hcon : has_console s) (Hws : clean ws) (Hl : alen (opened ws) + 2 < 2 ^ 31) (Hos : alen os + 2 < 2 ^ 31) :
  let run := cat_main info junk 2 [program; opened ws ++ 0 :: rest] (mkProgram s e INVALID_FD kb) in
  (forall n name text tail, text_file s ws n name text tail -> alen name < alen (fi_name info) ->
     exists d c1 c2 s', run = Done (0, mkProgram s' ERROR_SUCCESS (alen os + 1) kb) /\
       Console_write (sy_console s) text = Done (alen text, c1) /\ Console_write c1 [10] = Done (1, c2) /\
       sy_console s' = c2 /\ system_ok s' (os ++ [None; Some (File d)]) /\ sy_fs s' = sy_fs s) /\
  (forall err, resolve (sy_fs s) ws = Error err ->
     exists c s', run = Done (ERROR_FILE_DOES_NOT_EXIST, mkProgram s' ERROR_SUCCESS (alen os) kb) /\
       Console_write (sy_console s) (removelast (literal_line "Cannot open the file.")) = Done (22, c) /\ sy_console s' = c).
Proof.
  intros run. split; [intros n name text tail Hf Hname; by eapply cat_prints|intros err He; by eapply cat_refuses].
Qed.

End kernel.

(** A system with the file "/t/f" and the console. *)
Definition desk_fs (size : Z) : Filesystem :=
  let name s := mkString (alen (literal s) - 1) (Some (literal s)) in
  mkFs [mkNode (sample_name 116) 0 0 NT_Root 0 CTarFS 0 [1%nat]; sample_file size;
        mkNode (name "devices") 0 0 NT_Root 0 CDeviceFS 0 []; mkNode (name "console") 0 0 NT_Device 0 CConsole 0 []]
       [0%nat; 2%nat] (Some [3%nat]).

Definition desk_system (size : Z) : System :=
  mkSystem (desk_fs size) ∅ Keyboard_new (mkConsole (replicate (Z.to_nat VGA_CELLS) 0) 0 0 0x0F) HandlesManager_new ∅ 1 (sample_name 47).

Lemma desk_fs_ok size : fs_ok (desk_fs size).
Proof.
  constructor; simpl.
  - repeat (apply Forall_cons; split; [split; [split; [done|by exists []]|by repeat constructor]|]). by apply Forall_nil.
  - repeat (apply Forall_cons; split; [repeat (apply Forall_cons; split; [by eexists|]); by apply Forall_nil|]).
    by apply Forall_nil.
  - repeat (constructor; [lia|]). constructor.
  - apply Forall_cons. split; [by eexists|]. by apply Forall_nil.
  - done.
Qed.

(** The bytes "Hi!". *)
Lemma cat_shows_file_witness :
  let memory_at (_ : Z) := [72; 105; 33; 0] in
  let drop_process (_ : Z) (s : System) := Done s in
  exists c1 s' d, cat_main (K := System) (H := SystemRoutines memory_at drop_process) (mkInfo (replicate 64 0) 0 NT_File) (fun _ => 7) 2
      [literal "/t/cat"; [47; 116; 47; 102; 0]] (mkProgram (desk_system 3) 0 INVALID_FD INVALID_FD)
    = Done (0, mkProgram s' ERROR_SUCCESS 1 INVALID_FD) /\
    Console_write (sy_console (desk_system 3)) [72; 105; 33] = Done (3, c1) /\ system_ok s' [None; Some (File d)].
Proof.
  intros memory_at drop_process.
  assert (Hs : system_ok (desk_system 3) []).
  { split; [apply desk_fs_ok|apply handles_new_rep|by intros d ?%elem_of_nil|]. split; [done|]. by intros d ?%elem_of_nil. }
  assert (Hcon : has_console (desk_system 3)).
  { split; [by exists 3%nat; eexists|]. split; [done|split; done..|done]. }
  destruct (cat_shows_file memory_at drop_process (desk_system 3) [] [[116]; [102]] [] 0 INVALID_FD (mkInfo (replicate 64 0) 0 NT_File)
    (fun _ => 7) (literal "/t/cat") Hs Hcon sample_path_clean ltac:(done) ltac:(done)) as [Hrun _].
  destruct (Hrun (sample_file 3) [102] [72; 105; 33] []) as (d & c1 & c2 & s' & E & Ec & _ & _ & Hs' & _).
  - split; [by exists 1%nat|done|done|split; [done|by exists []]|done|done|by repeat constructor|by left].
  - done.
  - exists c1, s', d. split; [exact E|]. split; [exact Ec|exact Hs'].
Defined.
