(* ===== verification/Boot.v ===== *)
(** * Boot

    kernel/boot/boot.cpp and kernel/kernel_init.cpp: the archive with the programs is a module
    that the boot loader has put into memory, found in the list of tags it leaves; then the
    file systems are mounted and the devices added. *)
From S2P Require Import Prelude Clib Strings PathView Buffers Checksum Network Tcp Files Vfs Tar SystemCalls Console SystemLibrary Cat.

(** ** The tags of the boot loader *)

Definition MULTIBOOT_TAG_TYPE_END : Z := 0.
Definition MULTIBOOT_TAG_TYPE_MODULE : Z := 3.
Definition MULTIBOOT_INFO_ALIGN : Z := 8.
Definition sizeof_multiboot_tag_start : Z := 8.

(** The fields of the tag at [t], an offset in the information. *)
Definition tag_type (info : list Z) (t : Z) : exec Z := field32 (BufferView_of_ptr info) t.
Definition tag_size (info : list Z) (t : Z) : exec Z := field32 (BufferView_of_ptr info) (t + 4).
Definition tag_mod_start (info : list Z) (t : Z) : exec Z := field32 (BufferView_of_ptr info) (t + 8).
Definition tag_mod_end (info : list Z) (t : Z) : exec Z := field32 (BufferView_of_ptr info) (t + 12).
Definition offsetof_cmdline : Z := 16.

Record Module := mkModule { mo_start : Z; mo_size : Z }.

(** A turn of the loop: the next tag, or the result. *)
Definition ramdisk_step (multiboot_info : list Z) (current_tag : Z) : exec (Z + Module) :=
  type ← tag_type multiboot_info current_tag;
  if negb (type =? MULTIBOOT_TAG_TYPE_END) then
    found ← (if type =? MULTIBOOT_TAG_TYPE_MODULE then
               differ ← strcmp multiboot_info (current_tag + offsetof_cmdline) (literal "ramdisk") 0;
               if negb differ then
                 start ← tag_mod_start multiboot_info current_tag;
                 end_ ← tag_mod_end multiboot_info current_tag;
                 Done (Some (mkModule start (u32 (end_ - start))))
               else Done None
             else Done None);
    match found with
    | Some m => Done (inr m)
    | None =>
        size ← tag_size multiboot_info current_tag;
        Done (inl (u32 (current_tag + align_to size MULTIBOOT_INFO_ALIGN true)))
    end
  else Done (inr (mkModule 0 0)).

Definition get_ramdisk (fuel : nat) (multiboot_info : list Z) : exec Module :=
  while fuel (ramdisk_step multiboot_info) sizeof_multiboot_tag_start.

(** *** What the boot loader leaves *)

(** A module, or a tag of another type with its bytes. *)
Inductive boot_tag :=
| ModuleTag (start end_ : Z) (cmdline : list Z)
| OtherTag (type : Z) (body : list Z).

Definition tag_bytes (t : boot_tag) : list Z :=
  match t with
  | ModuleTag start end_ cmdline =>
      bytes32 MULTIBOOT_TAG_TYPE_MODULE ++ bytes32 (16 + alen cmdline + 1) ++ bytes32 start ++ bytes32 end_ ++ cmdline ++ [0]
  | OtherTag type body => bytes32 type ++ bytes32 (8 + alen body) ++ body
  end.

(** Tags begin at multiples of eight; [fill] are the bytes between them. *)
Fixpoint boot_information (fill : Z) (ts : list boot_tag) : list Z :=
  match ts with
  | [] => bytes32 MULTIBOOT_TAG_TYPE_END ++ bytes32 8
  | t :: ts => tag_bytes t ++ replicate (Z.to_nat (- alen (tag_bytes t) mod 8)) fill ++ boot_information fill ts
  end.

Definition tag_ok (t : boot_tag) : Prop :=
  match t with
  | ModuleTag start end_ cmdline => 0 <= start <= end_ /\ end_ < 2 ^ 32 /\ Forall (fun c => c <> 0) cmdline
  | OtherTag type _ => 0 < type < 2 ^ 32 /\ type <> MULTIBOOT_TAG_TYPE_MODULE
  end.

(** The first module with the name. *)
Fixpoint ramdisk_of (ts : list boot_tag) : Module :=
  match ts with
  | [] => mkModule 0 0
  | ModuleTag start end_ cmdline :: ts =>
      if bool_decide (cmdline = removelast (literal "ramdisk")) then mkModule start (end_ - start) else ramdisk_of ts
  | OtherTag _ _ :: ts => ramdisk_of ts
  end.

Lemma alen_bytes32 x : alen (bytes32 x) = 4.
Proof. done. Qed.

(** A field behind [p]. *)
Lemma field_at info p x rest :
  alen info < 2 ^ 32 -> info = p ++ bytes32 x ++ rest -> 0 <= x < 2 ^ 32 -> field32 (BufferView_of_ptr info) (alen p) = Done x.
Proof.
  intros Hl E Hx. destruct (shown_of_ptr info Hl) as [Hv Hs]. apply (field32_at _ p x rest); [done|by rewrite Hs|done|done].
Qed.

Lemma tag_length t : 8 <= alen (tag_bytes t) /\ exists p r, tag_bytes t = p ++ bytes32 (alen (tag_bytes t)) ++ r /\ alen p = 4.
Proof.
  destruct t as [start end_ cmdline|type body]; cbn [tag_bytes].
  - pose proof (alen_nonneg cmdline). rewrite !alen_app, !alen_bytes32. change (alen [0]) with 1.
    replace (4 + (4 + (4 + (4 + (alen cmdline + 1))))) with (16 + alen cmdline + 1) by lia.
    split; [lia|]. exists (bytes32 MULTIBOOT_TAG_TYPE_MODULE). by eexists.
  - pose proof (alen_nonneg body). rewrite !alen_app, !alen_bytes32.
    replace (4 + (4 + alen body)) with (8 + alen body) by lia. split; [lia|]. by exists (bytes32 type), body.
Qed.

Lemma align_tag n : 0 < n -> n + 8 < 2 ^ 32 -> align_to n MULTIBOOT_INFO_ALIGN true = n + - n mod 8.
Proof.
  intros Hn Hb. unfold align_to, MULTIBOOT_INFO_ALIGN. rewrite (proj2 (Z.eqb_neq n 0)) by lia.
  destruct (Z.eqb_spec (n mod 8) 0) as [E|E]; [rewrite Z.mod_opp_l_z by lia; lia|].
  rewrite Z.mod_opp_l_nz by lia. rewrite u32_small; [lia|]. pose proof (Z.mod_pos_bound n 8). lia.
Qed.

Section tags.
Context (fill : Z).

(** Behind a tag. *)
Lemma tag_passed info pre t ts :
  info = pre ++ boot_information fill (t :: ts) -> alen info < 2 ^ 31 ->
  exists pre', info = pre' ++ boot_information fill ts /\
    (size ← tag_size info (alen pre); Done (inl (B := Module) (u32 (alen pre + align_to size MULTIBOOT_INFO_ALIGN true)))) =
      Done (inl (alen pre')).
Proof.
  intros E Hl. cbn [boot_information] in E. destruct (tag_length t) as (Hn & p & r & Et & Hp).
  set (n := alen (tag_bytes t)) in *. set (gap := replicate (Z.to_nat (- n mod 8)) fill) in *.
  assert (Hg : alen gap = - n mod 8) by (unfold gap; rewrite alen_replicate; pose proof (Z.mod_pos_bound (- n) 8); lia).
  exists (pre ++ tag_bytes t ++ gap). split; [by rewrite E, <- !app_assoc|].
  pose proof (f_equal alen E) as El. rewrite !alen_app in El. fold n in El. rewrite Hg in El.
  pose proof (alen_nonneg pre). pose proof (alen_nonneg (boot_information fill ts)). pose proof (Z.mod_pos_bound (- n) 8).
  unfold tag_size. replace (alen pre + 4) with (alen (pre ++ p)) by (rewrite alen_app; lia).
  rewrite (field_at info (pre ++ p) n (r ++ gap ++ boot_information fill ts)); [|lia| |lia].
  2: { rewrite E, Et, <- !app_assoc. done. }
  cbn [mbind exec_bind]. rewrite align_tag, u32_small by lia. rewrite !alen_app. fold n. by rewrite Hg.
Qed.

Lemma module_named info pre start end_ cmdline ts :
  info = pre ++ boot_information fill (ModuleTag start end_ cmdline :: ts) -> tag_ok (ModuleTag start end_ cmdline) -> alen info < 2 ^ 31 ->
  strcmp info (alen pre + offsetof_cmdline) (literal "ramdisk") 0 = Done (negb (bool_decide (cmdline = removelast (literal "ramdisk")))) /\
  tag_mod_start info (alen pre) = Done start /\ tag_mod_end info (alen pre) = Done end_.
Proof.
  intros E (Hs & He & Hc) Hl. cbn [boot_information tag_bytes] in E. set (rest := replicate _ fill ++ boot_information fill ts) in *.
  set (size := bytes32 (16 + alen cmdline + 1)) in *. rewrite <- !app_assoc in E. split; [|split].
  - replace (alen pre + offsetof_cmdline) with (alen (pre ++ bytes32 MULTIBOOT_TAG_TYPE_MODULE ++ size ++ bytes32 start ++ bytes32 end_))
      by (rewrite !alen_app, !alen_bytes32; unfold size; rewrite alen_bytes32; unfold offsetof_cmdline; lia).
    pose proof (strcmp_spec (pre ++ bytes32 MULTIBOOT_TAG_TYPE_MODULE ++ size ++ bytes32 start ++ bytes32 end_) cmdline rest
      [] (removelast (literal "ramdisk")) []) as Hcmp.
    pose proof (f_equal alen E) as El. rewrite !alen_app in El. change (alen [0]) with 1 in El.
    pose proof (alen_nonneg pre). pose proof (alen_nonneg rest). pose proof (alen_nonneg size).
    rewrite E, <- Hcmp; [by rewrite <- !app_assoc|done|by repeat constructor| |done].
    rewrite !alen_bytes32 in El. lia.
  - unfold tag_mod_start. replace (alen pre + 8) with (alen (pre ++ bytes32 MULTIBOOT_TAG_TYPE_MODULE ++ size))
      by (rewrite !alen_app, alen_bytes32; unfold size; rewrite alen_bytes32; lia).
    eapply field_at; [lia|rewrite E, <- !app_assoc; reflexivity|lia].
  - unfold tag_mod_end. replace (alen pre + 12) with (alen (pre ++ bytes32 MULTIBOOT_TAG_TYPE_MODULE ++ size ++ bytes32 start))
      by (rewrite !alen_app, !alen_bytes32; unfold size; rewrite alen_bytes32; lia).
    eapply field_at; [lia|rewrite E, <- !app_assoc; reflexivity|lia].
Qed.

Lemma ramdisk_turn info pre t ts :
  info = pre ++ boot_information fill (t :: ts) -> tag_ok t -> alen info < 2 ^ 31 ->
  (exists m, ramdisk_step info (alen pre) = Done (inr m) /\ ramdisk_of (t :: ts) = m) \/
  (exists pre', info = pre' ++ boot_information fill ts /\ ramdisk_step info (alen pre) = Done (inl (alen pre')) /\
     ramdisk_of (t :: ts) = ramdisk_of ts).
Proof.
  intros E Ht Hl. destruct (tag_passed info pre t ts E Hl) as (pre' & E' & Hpass). unfold ramdisk_step, tag_type.
  destruct t as [start end_ cmdline|type body].
  - destruct (module_named info pre start end_ cmdline ts E Ht Hl) as (Hcmp & Hstart & Hend). destruct Ht as (Hs & He & _).
    erewrite (field_at info pre MULTIBOOT_TAG_TYPE_MODULE);
      [|lia|rewrite E; cbn [boot_information tag_bytes]; rewrite <- !app_assoc; reflexivity|done].
    cbn [mbind exec_bind]. change (MULTIBOOT_TAG_TYPE_MODULE =? MULTIBOOT_TAG_TYPE_END) with false.
    rewrite Z.eqb_refl. cbn [negb]. rewrite Hcmp. cbn [mbind exec_bind ramdisk_of]. rewrite negb_involutive.
    case_bool_decide.
    + left. rewrite Hstart, Hend. cbn [mbind exec_bind]. eexists. split; [done|]. by rewrite u32_small by lia.
    + right. exists pre'. cbn [mbind exec_bind]. done.
  - destruct Ht as (Ht & Hne).
    erewrite (field_at info pre type);
      [|lia|rewrite E; cbn [boot_information tag_bytes]; rewrite <- !app_assoc; reflexivity|lia].
    cbn [mbind exec_bind]. rewrite (proj2 (Z.eqb_neq type MULTIBOOT_TAG_TYPE_END)) by (unfold MULTIBOOT_TAG_TYPE_END; lia).
    rewrite (proj2 (Z.eqb_neq type MULTIBOOT_TAG_TYPE_MODULE)) by done. cbn [negb mbind exec_bind]. right. by exists pre'.
Qed.

Lemma ramdisk_loop info ts :
  Forall tag_ok ts -> alen info < 2 ^ 31 -> forall pre fuel, info = pre ++ boot_information fill ts -> (length ts < fuel)%nat ->
  while fuel (ramdisk_step info) (alen pre) = Done (ramdisk_of ts).
Proof.
  intros Hts Hl. induction Hts as [|t ts Ht Hts IH]; intros pre [|fuel] E Hf; cbn [length] in Hf; [lia| |lia|]; cbn [while].
  - unfold ramdisk_step, tag_type. rewrite (field_at info pre MULTIBOOT_TAG_TYPE_END (bytes32 8)); [done|lia|done|done].
  - destruct (ramdisk_turn info pre t ts E Ht Hl) as [(m & -> & ->)|(pre' & E' & -> & ->)]; [done|].
    cbn [mbind exec_bind]. apply IH; [done|lia].
Qed.

End tags.

(** The archive that the kernel mounts is the first module of the boot loader whose command
    line is "ramdisk", whatever tags and gaps precede it, with the addresses that the boot
    loader gives; when no module has that name, the result is the null module. *)
Theorem boot_finds_ramdisk fuel fill total reserved ts :
  Forall tag_ok ts -> alen (boot_information fill ts) < 2 ^ 31 - 8 -> (length ts < fuel)%nat ->
  get_ramdisk fuel (bytes32 total ++ bytes32 reserved ++ boot_information fill ts) = Done (ramdisk_of ts).
Proof.
  intros Hts Hl Hf. unfold get_ramdisk. change sizeof_multiboot_tag_start with (alen (bytes32 total ++ bytes32 reserved)).
  apply (ramdisk_loop fill); [done| |by rewrite <- app_assoc|done].
  rewrite !alen_app, !alen_bytes32. lia.
Qed.

Lemma boot_finds_ramdisk_witness :
  get_ramdisk 4 (bytes32 112 ++ bytes32 0 ++
    boot_information 170 [OtherTag 1 [0; 0; 0]; ModuleTag 4096 8192 [109]; ModuleTag 12288 65536 (removelast (literal "ramdisk"))]) =
    Done (mkModule 12288 53248).
Proof.
  refine (boot_finds_ramdisk 4 170 112 0
    [OtherTag 1 [0; 0; 0]; ModuleTag 4096 8192 [109]; ModuleTag 12288 65536 (removelast (literal "ramdisk"))] _ _ _).
  - repeat constructor; vm_compute; congruence.
  - vm_compute. reflexivity.
  - cbn. lia.
Defined.

(** ** The file systems *)

Definition mount_tar (mem : list Z) (start : Z) (fuel : nat) (size : Z) (fs : Filesystem) : exec Filesystem :=
  name ← StringView_of_cstr (literal "tar") 0;
  '(fs, root) ← TarFS_alloc mem start fuel fs name size;
  '(fs, _) ← VFS_mount fs root;
  Done fs.

Definition mount_pipes (fs : Filesystem) : exec Filesystem :=
  name ← StringView_of_cstr (literal "pipes") 0;
  '(fs, root) ← PipeFS_alloc fs name;
  '(fs, _) ← VFS_mount fs root;
  Done fs.

Definition mount_devices (fs : Filesystem) : exec Filesystem :=
  name ← StringView_of_cstr (literal "devices") 0;
  '(fs, root) ← DeviceFS_alloc fs name;
  '(fs, _) ← VFS_mount fs root;
  Done fs.

Definition mount_sockets (fs : Filesystem) : exec Filesystem :=
  name ← StringView_of_cstr (literal "sockets") 0;
  '(fs, root) ← DomainSocketFS_alloc fs name;
  '(fs, _) ← VFS_mount fs root;
  Done fs.

Definition add_keyboard (fs : Filesystem) : exec Filesystem :=
  name ← StringView_of_cstr (literal "keyboard") 0;
  '(fs, device) ← Keyboard_node fs name;
  '(fs, _) ← DeviceFS_add_device fs device;
  Done fs.

Definition add_console (fs : Filesystem) : exec Filesystem :=
  name ← StringView_of_cstr (literal "console") 0;
  '(fs, device) ← Console_node fs name;
  '(fs, _) ← DeviceFS_add_device fs device;
  Done fs.

(** The part of [kernel_init] between the interrupts and the processes; [mem] is the memory
    from the start of the ramdisk on. *)
Definition setup_filesystems (mem : list Z) (ramdisk : Module) (fuel : nat) (fs : Filesystem) : exec Filesystem :=
  fs ← mount_tar mem (mo_start ramdisk) fuel (mo_size ramdisk) fs;
  fs ← mount_pipes fs;
  fs ← mount_devices fs;
  fs ← mount_sockets fs;
  fs ← add_keyboard fs;
  add_console fs.

(** The file systems that are mounted: names, nodes and classes. *)
Definition is_node (fs : Filesystem) (m : list Z * nat * node_class) : Prop :=
  exists n, fs_nodes fs !! m.1.2 = Some n /\ chars (fn_name n) = m.1.1 /\ fn_class n = m.2.

Record mounted (fs : Filesystem) (ms : list (list Z * nat * node_class)) : Prop := {
  mt_ok : fs_ok fs;
  mt_roots : fs_roots fs = (fun m => m.1.2) <$> ms;
  mt_nodes : Forall (is_node fs) ms
}.

Lemma is_node_extends fs fs' ms : extends fs fs' -> Forall (is_node fs) ms -> Forall (is_node fs') ms.
Proof.
  intros Hext H. eapply Forall_impl; [exact H|]. intros m (n & Hn & Hw & Hc).
  destruct (ext_nodes _ _ Hext _ n Hn) as (n' & Hn' & _ & Hna & Hcl & _). exists n'. by rewrite Hna, Hcl.
Qed.

(** The node with a name. *)
Lemma find_node fs w ms :
  Forall (is_node fs) ms ->
  List.find (has_name fs w) ((fun m => m.1.2) <$> ms) = (fun m => m.1.2) <$> List.find (fun m => bool_decide (m.1.1 = w)) ms.
Proof.
  induction 1 as [|m ms (n & Hn & Hw & _) _ IH]; [done|]. cbn [fmap list_fmap List.find]. unfold has_name at 1.
  rewrite Hn, Hw. case_bool_decide; [done|exact IH].
Qed.

Lemma mounted_resolve fs ms w ws :
  mounted fs ms -> ms <> [] ->
  resolve fs (w :: ws) = match List.find (fun m => bool_decide (m.1.1 = w)) ms with
                         | Some m => descend fs m.1.2 ws
                         | None => Error ERROR_FILE_DOES_NOT_EXIST
                         end.
Proof.
  intros [_ Hr Hn] Hne. unfold resolve. rewrite Hr, bool_decide_eq_false_2 by (by destruct ms). rewrite find_node by done.
  by destruct (List.find _ ms).
Qed.

(** A node with a new name is mounted. *)
Lemma mounted_next fs ms i n :
  mounted fs ms -> fs_nodes fs !! i = Some n -> named (fn_name n) ->
  List.find (fun m => bool_decide (m.1.1 = chars (fn_name n))) ms = None ->
  exists fs', VFS_mount fs i = Done (fs', ERROR_SUCCESS) /\ mounted fs' (ms ++ [(chars (fn_name n), i, fn_class n)]) /\
    extends fs fs' /\ fs_nodes fs' = fs_nodes fs /\ devices fs' = devices fs.
Proof.
  intros Hm Hn Hname Hf. pose proof Hm as [Hok Hr Hms].
  destruct (mount_spec fs i n _ Hok Hn Hname eq_refl) as (fs' & code & E & Hok' & Hext & _). exists fs'.
  unfold VFS_mount, node_at in E |- *. rewrite Hn in E |- *. cbn [mbind exec_bind] in E |- *.
  rewrite (contains_name_spec fs Hok) in E |- * by (done || apply ok_roots, Hok).
  rewrite existsb_find, Hr, find_node, Hf in E |- * by done. cbn [mbind exec_bind fmap option_fmap option_map not_null] in E |- *.
  injection E as <- <-. split; [done|]. split; [|done]. split; [done|cbn [fs_roots]; by rewrite fmap_app|].
  apply Forall_app. split; [by apply (is_node_extends fs)|]. apply Forall_singleton. by exists n.
Qed.

Lemma mounted_grows fs fs' ms : mounted fs ms -> fs_ok fs' -> extends fs fs' -> fs_roots fs' = fs_roots fs -> mounted fs' ms.
Proof. intros [? Hr ?] Hok Hext Hr'. split; [done|by rewrite Hr'|by apply (is_node_extends fs)]. Qed.

(** A file system is made and mounted. *)
Lemma mount_made fs ms v w type size class d :
  mounted fs ms -> view_rep v w -> Forall (fun x => x <> 0) w -> List.find (fun m => bool_decide (m.1.1 = w)) ms = None ->
  default [] d = default [] (devices fs) -> (devices fs <> None -> d <> None) -> (class = CDeviceFS -> d <> None) ->
  let i := length (fs_nodes fs) in
  exists n fs', FSNode_new fs v type size class 0 = Done (mkFs (fs_nodes fs ++ [n]) (fs_roots fs) (devices fs), i) /\
    VFS_mount (mkFs (fs_nodes fs ++ [n]) (fs_roots fs) d) i = Done (fs', ERROR_SUCCESS) /\
    mounted fs' (ms ++ [(w, i, class)]) /\ extends fs fs' /\ devices fs' = d.
Proof.
  intros Hm Hv Hw Hf H1 H2 H3 i. pose proof Hm as [Hok _ _].
  destruct (FSNode_new_spec fs v w type size class 0 Hok Hv Hw) as (n & E & Hname & Hch & Hc & Hcl & _).
  destruct (new_node_ok fs n d Hok Hname Hc H1 H2) as (Hok1 & Hext1 & Hn); [by rewrite Hcl|].
  destruct (mounted_next _ ms i n (mounted_grows _ _ ms Hm Hok1 Hext1 eq_refl) Hn Hname) as (fs' & E' & Hm' & Hext & _ & Hd);
    [by rewrite Hch|].
  exists n, fs'. rewrite Hch, Hcl in Hm'. do 3 (split; [done|]). split; [by etrans|done].
Qed.

(** A device with a new name is added. *)
Lemma device_added fs ms ds v w type size class :
  mounted fs ms -> devices fs = Some ((fun m => m.1.2) <$> ds) -> Forall (is_node fs) ds ->
  view_rep v w -> Forall (fun x => x <> 0) w -> mountable class = false -> List.find (fun m => bool_decide (m.1.1 = w)) ds = None ->
  let i := length (fs_nodes fs) in
  exists fs1 fs' n, FSNode_new fs v type size class 0 = Done (fs1, i) /\
    DeviceFS_add_device fs1 i = Done (fs', ERROR_SUCCESS) /\ mounted fs' ms /\ extends fs fs' /\
    devices fs' = Some ((fun m => m.1.2) <$> ds ++ [(w, i, class)]) /\ Forall (is_node fs') (ds ++ [(w, i, class)]) /\
    fs_nodes fs' !! i = Some n /\ fn_class n = class /\ fn_size n = size.
Proof.
  intros Hm Hd Hds Hv Hw Hcl Hf i. pose proof Hm as [Hok _ _].
  destruct (FSNode_new_spec fs v w type size class 0 Hok Hv Hw) as (n & E & Hname & Hch & Hc & Hcn & Ht & Hsz & _).
  destruct (new_node_ok fs n (devices fs) Hok Hname Hc eq_refl (fun H => H)) as (Hok1 & Hext1 & Hn);
    [intros E'; rewrite Hcn in E'; rewrite E' in Hcl; discriminate Hcl|].
  set (fs1 := mkFs _ _ _) in *. pose proof (is_node_extends fs fs1 ds Hext1 Hds) as Hds1.
  assert (Hdr : Forall (inner fs1) ((fun m => m.1.2) <$> ds)).
  { pose proof (ok_devices _ Hok1) as H. change (devices fs1) with (devices fs) in H. by rewrite Hd in H. }
  exists fs1. unfold DeviceFS_add_device. change (devices fs1) with (devices fs). rewrite Hd. unfold node_at.
  fold i in Hn. rewrite Hn. cbn [mbind exec_bind].
  rewrite (contains_name_spec fs1 Hok1) by (done || by apply inner_range). rewrite Hch, existsb_find, find_node, Hf by done.
  cbn [fmap option_fmap option_map not_null mbind exec_bind]. set (fs' := mkFs _ _ _). exists fs', n.
  assert (Hext' : extends fs1 fs').
  { split; [|by exists []; rewrite app_nil_r|].
    - intros j m Hj. exists m. split; [done|apply grows_refl].
    - exists [i]. change (devices fs1) with (devices fs). by rewrite Hd. }
  assert (Hok' : fs_ok fs').
  { destruct Hok1 as [H1 H2 H3 H4 H5]. split; [done|done|done| |done]. unfold fs'. cbn [devices default]. unfold id.
    apply Forall_app. split; [done|]. apply Forall_singleton. exists n. by rewrite Hcn. }
  split; [done|]. split; [done|]. split; [|split; [by etrans|]].
  - apply (mounted_grows fs); [exact Hm|exact Hok'|by etrans|reflexivity].
  - split; [unfold fs'; cbn [devices]; by rewrite fmap_app|]. split; [|done].
    apply Forall_app. split; [by apply (is_node_extends fs1)|]. apply Forall_singleton. by exists n.
Qed.

(** The names of the file systems and devices. *)
Definition tar_word : list Z := [116; 97; 114].
Definition pipes_word : list Z := [112; 105; 112; 101; 115].
Definition devices_word : list Z := [100; 101; 118; 105; 99; 101; 115].
Definition sockets_word : list Z := [115; 111; 99; 107; 101; 116; 115].
Definition keyboard_word : list Z := [107; 101; 121; 98; 111; 97; 114; 100].
Definition console_word : list Z := [99; 111; 110; 115; 111; 108; 101].

Definition view_of_word (w : list Z) : StringView := Strings.mkView (alen w) (w ++ [0]) 0.

Lemma word_view w : alen w + 1 < 2 ^ 32 -> view_rep (view_of_word w) w.
Proof. intros H. split; [exact H|]. by exists [], [0]. Qed.

Lemma pipes_mounted fs ms :
  mounted fs ms -> List.find (fun m => bool_decide (m.1.1 = pipes_word)) ms = None ->
  exists fs' i, mount_pipes fs = Done fs' /\ mounted fs' (ms ++ [(pipes_word, i, CPipeFS)]) /\ extends fs fs' /\ devices fs' = devices fs.
Proof.
  intros Hm Hf. unfold mount_pipes. change (StringView_of_cstr _ 0) with (Done (view_of_word pipes_word)).
  destruct (mount_made fs ms (view_of_word pipes_word) pipes_word NT_Root 0 CPipeFS (devices fs) Hm) as (n & fs' & E & E' & H);
    [by apply word_view|by repeat constructor|exact Hf|done..|]. cbn [mbind exec_bind]. unfold PipeFS_alloc. rewrite E. cbn [mbind exec_bind]. rewrite E'. by eexists _, _.
Qed.

Lemma sockets_mounted fs ms :
  mounted fs ms -> List.find (fun m => bool_decide (m.1.1 = sockets_word)) ms = None ->
  exists fs' i, mount_sockets fs = Done fs' /\ mounted fs' (ms ++ [(sockets_word, i, CDomainSocketFS)]) /\ extends fs fs' /\
    devices fs' = devices fs.
Proof.
  intros Hm Hf. unfold mount_sockets. change (StringView_of_cstr _ 0) with (Done (view_of_word sockets_word)).
  destruct (mount_made fs ms (view_of_word sockets_word) sockets_word NT_Root 0 CDomainSocketFS (devices fs) Hm) as (n & fs' & E & E' & H);
    [by apply word_view|by repeat constructor|exact Hf|done..|]. cbn [mbind exec_bind]. unfold DomainSocketFS_alloc. rewrite E. cbn [mbind exec_bind]. rewrite E'. by eexists _, _.
Qed.

Lemma devices_mounted fs ms :
  mounted fs ms -> List.find (fun m => bool_decide (m.1.1 = devices_word)) ms = None -> devices fs = None ->
  exists fs' i, mount_devices fs = Done fs' /\ mounted fs' (ms ++ [(devices_word, i, CDeviceFS)]) /\ extends fs fs' /\
    devices fs' = Some [].
Proof.
  intros Hm Hf Hd. unfold mount_devices. change (StringView_of_cstr _ 0) with (Done (view_of_word devices_word)).
  destruct (mount_made fs ms (view_of_word devices_word) devices_word NT_Root 0 CDeviceFS (Some []) Hm) as (n & fs' & E & E' & H);
    [by apply word_view|by repeat constructor|done|by rewrite Hd|done|done|].
  cbn [mbind exec_bind]. unfold DeviceFS_alloc. rewrite E. cbn [mbind exec_bind devices]. rewrite Hd.
  cbn [not_null negb ASSERT mbind exec_bind fs_nodes fs_roots]. rewrite E'. by eexists _, _.
Qed.

Lemma keyboard_added fs ms :
  mounted fs ms -> devices fs = Some [] ->
  exists fs' i, add_keyboard fs = Done fs' /\ mounted fs' ms /\ extends fs fs' /\
    devices fs' = Some [i] /\ is_node fs' (keyboard_word, i, CKeyboard).
Proof.
  intros Hm Hd. unfold add_keyboard.
  change (StringView_of_cstr _ 0) with (Done (view_of_word keyboard_word)).
  destruct (device_added fs ms [] (view_of_word keyboard_word) keyboard_word NT_Device 1024 CKeyboard Hm Hd) as (fs1 & fs' & n & E & E' & Hm' & Hext & Hd' & Hds & _);
    [done|by apply word_view|by repeat constructor|done|done|].
  cbn [mbind exec_bind]. unfold Keyboard_node. rewrite E. cbn [mbind exec_bind]. rewrite E'. exists fs', (length (fs_nodes fs)). do 4 (split; [done|]).
  exact (proj1 (Forall_singleton _ _) Hds).
Qed.

Lemma console_added fs ms k :
  mounted fs ms -> devices fs = Some [k] -> is_node fs (keyboard_word, k, CKeyboard) ->
  exists fs' i n, add_console fs = Done fs' /\ mounted fs' ms /\ extends fs fs' /\
    devices fs' = Some [k; i] /\ is_node fs' (keyboard_word, k, CKeyboard) /\ is_node fs' (console_word, i, CConsole) /\
    fs_nodes fs' !! i = Some n /\ fn_class n = CConsole /\ fn_size n = 0.
Proof.
  intros Hm Hd Hk. unfold add_console.
  change (StringView_of_cstr _ 0) with (Done (view_of_word console_word)).
  destruct (device_added fs ms [(keyboard_word, k, CKeyboard)] (view_of_word console_word) console_word NT_Root 0 CConsole Hm Hd)
    as (fs1 & fs' & n & E & E' & Hm' & Hext & Hd' & Hds & Hn);
    [by apply Forall_singleton|by apply word_view|by repeat constructor|done|reflexivity|].
  cbn [mbind exec_bind]. unfold Console_node. rewrite E. cbn [mbind exec_bind]. rewrite E'. exists fs', (length (fs_nodes fs)), n. do 4 (split; [done|]).
  apply Forall_app in Hds as [Hds1 Hds2]. split; [exact (proj1 (Forall_singleton _ _) Hds1)|].
  split; [exact (proj1 (Forall_singleton _ _) Hds2)|done].
Qed.

(** The node of the devices leads to them. *)
Lemma device_found fs d k i w c :
  is_node fs d -> d.2 = CDeviceFS -> devices fs = Some [k; i] -> is_node fs (keyboard_word, k, CKeyboard) ->
  is_node fs (console_word, i, CConsole) -> (w, c) = (keyboard_word, k) \/ (w, c) = (console_word, i) ->
  descend fs d.1.2 [w] = Value c.
Proof.
  intros (n & Hn & _ & Hc) Hd Hds Hk Hi Hw. cbn [descend]. rewrite (step_device fs _ n w Hn) by congruence.
  unfold device_named. rewrite Hds. cbn [default]. unfold id.
  pose proof (find_node fs w [(keyboard_word, k, CKeyboard); (console_word, i, CConsole)]) as Hf. cbn [fmap list_fmap fst snd] in Hf.
  rewrite Hf by (repeat constructor; done). by destruct Hw as [[= -> ->]|[= -> ->]].
Qed.

Lemma no_filesystem_ok : fs_ok no_filesystem.
Proof. split; try by constructor. intros H. inversion H. Qed.

(** What the archive must be like: see the theorem on the archive in Tar. *)
Record ramdisk_ok (mem : list Z) (start size : Z) (es : list tar_entry) : Prop := {
  rd_mem : alen mem + 3 < 2 ^ 31;
  rd_range : 0 < start /\ 0 <= size /\ start + size < 2 ^ 32;
  rd_magic : exists pre post, mem = pre ++ [117; 115; 116; 97; 114] ++ post /\ alen pre = tar_magic;
  rd_entries : archive_from mem start size 0 es;
  rd_order : well_ordered [] es;
  rd_paths : NoDup (te_path <$> es)
}.

Lemma tar_mounted mem start size es fuel :
  ramdisk_ok mem start size es -> (length es < fuel)%nat ->
  exists fs i, mount_tar mem start fuel size no_filesystem = Done fs /\ mounted fs [(tar_word, i, CTarFS)] /\ devices fs = None /\
    finds fs i (te_path <$> es) (i + 1) /\
    (forall k e, es !! k = Some e -> exists n, fs_nodes fs !! (i + 1 + k)%nat = Some n /\ node_of start e n).
Proof.
  intros [Hmem (H1 & H2 & H3) Hmagic He Ho Hnd] Hf. unfold mount_tar. change (StringView_of_cstr _ 0) with (Done (view_of_word tar_word)).
  destruct (tar_built mem start size (view_of_word tar_word) tar_word es no_filesystem fuel)
    as (fs & i & n & E & Hok & _ & Hr & Hd & Hn & Hw & Hc & Hfinds & Hfiles);
    [apply no_filesystem_ok|by apply word_view|by repeat constructor|done..|].
  cbn [mbind exec_bind]. rewrite E. cbn [mbind exec_bind].
  destruct (mounted_next fs [] i n) as (fs' & -> & Hm & _ & Hns & Hd'); [by split|done|by eapply (Forall_lookup_1 _ _ _ _ (ok_names _ Hok))|done|].
  cbn [mbind exec_bind]. exists fs', i. split; [done|]. rewrite Hw, Hc in Hm. split; [exact Hm|]. split; [by rewrite Hd', Hd|].
  rewrite Hns. split; [|exact Hfiles]. intros p j. rewrite <- (Hfinds p j).
  assert (Hsame : forall p i, descend fs' i p = descend fs i p).
  { induction p0 as [|w p0 IH]; intros k; [done|]. cbn [descend]. unfold step, below, has_name. rewrite Hns, Hd'.
    destruct (fs_nodes fs !! k); [|done]. destruct (match fn_class f with CTarFS => _ | _ => _ end) as [[l err]|]; [|done].
    by destruct (found err _). }
  by rewrite Hsame.
Qed.

(** A path that leads to a node of a class. *)
Definition leads_to (fs : Filesystem) (ws : list (list Z)) (c : node_class) : Prop :=
  exists j n, resolve fs ws = Value j /\ fs_nodes fs !! j = Some n /\ fn_class n = c.

(** All of it. *)
Lemma filesystems_set_up mem start size es fuel :
  ramdisk_ok mem start size es -> (length es < fuel)%nat ->
  exists fs, setup_filesystems mem (mkModule start size) fuel no_filesystem = Done fs /\ fs_ok fs /\
    (forall e, e ∈ es -> exists j n, resolve fs (tar_word :: te_path e) = Value j /\ fs_nodes fs !! j = Some n /\ node_of start e n) /\
    leads_to fs [pipes_word] CPipeFS /\ leads_to fs [sockets_word] CDomainSocketFS /\
    leads_to fs [devices_word; keyboard_word] CKeyboard /\ (exists j n, resolve fs console_path = Value j /\ fs_nodes fs !! j = Some n /\ fn_class n = CConsole /\ fn_size n = 0) /\
    (forall w ws, w ∉ [tar_word; pipes_word; devices_word; sockets_word] -> resolve fs (w :: ws) = Error ERROR_FILE_DOES_NOT_EXIST).
Proof.
  intros Hrd Hf. unfold setup_filesystems. cbn [mo_start mo_size].
  destruct (tar_mounted mem start size es fuel Hrd Hf) as (fs1 & i1 & -> & Hm1 & Hd1 & Hfinds & Hfiles). cbn [mbind exec_bind].
  destruct (pipes_mounted fs1 _ Hm1 eq_refl) as (fs2 & i2 & -> & Hm2 & Hx2 & Hd2). cbn [mbind exec_bind].
  destruct (devices_mounted fs2 _ Hm2 eq_refl) as (fs3 & i3 & -> & Hm3 & Hx3 & Hd3); [by rewrite Hd2|]. cbn [mbind exec_bind].
  destruct (sockets_mounted fs3 _ Hm3 eq_refl) as (fs4 & i4 & -> & Hm4 & Hx4 & Hd4). cbn [mbind exec_bind].
  destruct (keyboard_added fs4 _ Hm4) as (fs5 & k & -> & Hm5 & Hx5 & Hd5 & Hk); [by rewrite Hd4|]. cbn [mbind exec_bind].
  destruct (console_added fs5 _ k Hm5 Hd5 Hk) as (fs & c & cn & E & Hm & Hx & Hd & Hk' & Hc & Hcn & Hcc & Hcs).
  exists fs. split; [exact E|]. pose proof Hm as [Hok _ Hms]. split; [done|]. cbn [app] in Hm, Hms.
  assert (Hext : extends fs1 fs) by (do 4 (etrans; [eassumption|]); done).
  pose proof (fun w ws => mounted_resolve fs _ w ws Hm ltac:(discriminate)) as Hres.
  apply Forall_cons in Hms as [_ Hms]. apply Forall_cons in Hms as [Hp Hms]. apply Forall_cons in Hms as [Hdn Hms].
  apply Forall_cons in Hms as [Hs _]. split; [|split; [|split; [|split; [|split]]]].
  - intros e He. apply list_elem_of_lookup_1 in He as [j Hj]. destruct (Hfiles j e Hj) as (n & Hn & Hnode).
    destruct (ext_nodes _ _ Hext _ n Hn) as (n' & Hn' & (E1 & E2 & E3) & _ & E4 & _).
    exists (i1 + 1 + j)%nat, n'. rewrite Hres. split; [|split; [done|unfold node_of; by rewrite E1, E2, E3, E4]].
    change (descend fs i1 (te_path e) = Value (i1 + 1 + j)%nat).
    apply (extends_descend fs1 fs); [apply Hm1|done|]. apply Hfinds. right. exists j. split; [|done].
    apply list_lookup_fmap_Some. by exists e.
  - destruct Hp as (n & Hn & _ & Hcl). exists i2, n. by rewrite Hres.
  - destruct Hs as (n & Hn & _ & Hcl). exists i4, n. by rewrite Hres.
  - destruct Hk' as (n & Hn & Hw & Hcl). exists k, n. rewrite Hres. split; [|done].
    apply (device_found fs _ k c keyboard_word k Hdn); [done..|by exists n|done|by left].
  - exists c, cn. unfold console_path. rewrite Hres. split; [|done].
    apply (device_found fs _ k c console_word c Hdn); [done..|by right].
  - intros w ws Hw. rewrite Hres. destruct (List.find _ _) as [m|] eqn:Em; [|done]. exfalso. apply Hw.
    apply List.find_some in Em as [Hin Hb]. apply bool_decide_eq_true in Hb as <-.
    by repeat destruct Hin as [<-|Hin]; [repeat constructor..|].
Qed.

(** C15: The boot loader's module becomes the tree of files. When the ramdisk is an archive of
    the kind that Tar reads ([ramdisk_ok]: every entry behind its directory, paths of at most 62
    characters, no path twice, at most nine directories open at a time and none of them taken
    for another one), [kernel_init] mounts all four file systems and adds both devices: every
    entry of the archive is found under /tar, a folder or a file of its size whose contents are
    those in the archive, and /pipes, /sockets, /devices/keyboard and /devices/console lead to
    nodes of their classes; no other file system is mounted, so any other first name is an
    error. *)
Theorem kernel_mounts_filesystems mem start size es fuel :
  ramdisk_ok mem start size es -> (length es < fuel)%nat ->
  exists fs, setup_filesystems mem (mkModule start size) fuel no_filesystem = Done fs /\ fs_ok fs /\
    (forall e, e ∈ es -> exists j n, resolve fs (tar_word :: te_path e) = Value j /\ fs_nodes fs !! j = Some n /\ node_of start e n) /\
    leads_to fs [pipes_word] CPipeFS /\ leads_to fs [sockets_word] CDomainSocketFS /\
    leads_to fs [devices_word; keyboard_word] CKeyboard /\ leads_to fs console_path CConsole /\
    (forall w ws, w ∉ [tar_word; pipes_word; devices_word; sockets_word] -> resolve fs (w :: ws) = Error ERROR_FILE_DOES_NOT_EXIST).
Proof.
  intros Hrd Hf. destruct (filesystems_set_up mem start size es fuel Hrd Hf) as (fs & E & Hok & He & Hp & Hs & Hk & (j & n & Hj & Hn & Hc & _) & Ho).
  exists fs. do 6 (split; [done|]). split; [by exists j, n|done].
Qed.

Lemma kernel_mounts_filesystems_witness :
  exists fs, setup_filesystems example_archive (mkModule 4096 2048) 3 no_filesystem = Done fs /\
    leads_to fs console_path CConsole /\
    exists j n, resolve fs [tar_word; [100]; [102; 103]] = Value j /\ fs_nodes fs !! j = Some n /\ fn_size n = 3.
Proof.
  destruct (kernel_mounts_filesystems example_archive 4096 2048 example_entries 3) as (fs & E & _ & Hfiles & _ & _ & _ & Hc & _).
  - split; [vm_compute; reflexivity|split; [lia|split; lia]|exact example_magic|exact example_archived|exact example_ordered|exact example_paths].
  - cbn. lia.
  - exists fs. split; [exact E|]. split; [exact Hc|].
    destruct (Hfiles (mkTarEntry [[100]; [102; 103]] false 3 512)) as (j & n & Hj & Hn & _ & _ & Hs & _); [by right; left|].
    exists j, n. split; [exact Hj|]. split; [exact Hn|exact Hs].
Defined.

(** ** The constructors of the kernel *)

Section constructors.
Context {K : Type} (call : Z -> K -> exec K).

(** [constructor_array] is an index in the array, whose end is that of the list. *)
Definition call_constrcutors (fuel : nat) (constructors : list Z) (k : K) : exec K :=
  while fuel (fun '(constructor_array, k) =>
    if negb (constructor_array =? alen constructors) then
      x ← aget constructors constructor_array;
      if truthy x && negb (x =? u32 (-1)) then k ← call x k; Done (inl (constructor_array + 1, k))
      else Done (inr k)
    else Done (inr k)) (0, k).

Lemma fold_stops xs (m : exec K) : (forall k, m <> Done k) -> foldl (fun m x => k ← m; call x k) m xs = m.
Proof.
  induction xs as [|x xs IH] in m |- *; intros Hm; [done|]. cbn [foldl]. destruct m as [k| | |]; [by destruct (Hm k)|by apply IH..].
Qed.

(** The kernel, too, calls the constructors in front of the first hole, in their order. *)
Lemma kernel_constructors_called constructors k :
  forall fuel, (length constructors < fuel)%nat ->
  call_constrcutors fuel constructors k = foldl (fun m x => k ← m; call x k) (Done k) (constructors_before_hole constructors).
Proof.
  assert (H : forall rest pre k fuel, constructors = pre ++ rest -> (length rest < fuel)%nat ->
    while fuel (fun '(constructor_array, k) =>
      if negb (constructor_array =? alen constructors) then
        x ← aget constructors constructor_array;
        if truthy x && negb (x =? u32 (-1)) then k ← call x k; Done (inl (constructor_array + 1, k))
        else Done (inr k)
      else Done (inr k)) (alen pre, k) = foldl (fun m x => k ← m; call x k) (Done k) (constructors_before_hole rest)).
  { induction rest as [|x rest IH]; intros pre k0 [|fuel] E Hf; cbn [length] in Hf; try lia; cbn [while].
    - by rewrite E, app_nil_r, Z.eqb_refl.
    - assert (Hne : (alen pre =? alen constructors) = false).
      { apply Z.eqb_neq. rewrite E, alen_app, alen_cons. pose proof (alen_nonneg rest). lia. }
      rewrite Hne. rewrite E at 1. rewrite aget_middle. cbn [negb mbind exec_bind constructors_before_hole].
      change (truthy x && negb (x =? u32 (-1))) with (is_constructor x). destruct (is_constructor x); [|done].
      cbn [foldl mbind exec_bind]. destruct (call x k0) as [k1| | |]; cbn [mbind exec_bind]; [|by rewrite fold_stops..].
      rewrite <- (alen_snoc pre x). apply IH; [by rewrite <- app_assoc|lia]. }
  intros fuel Hf. by apply (H constructors [] k fuel).
Qed.

End constructors.
