(* ===== verification/BootStage.v ===== *)
(** * From the boot loader to [kernel_init]

    [kernel_boot_stage2] (boot/boot.cpp): the ramdisk is looked up in the information of the
    boot loader (Boot.v), the memory is set up (KernelSpace.v), the ramdisk is mapped into the
    kernel with [Memory::map] and the stack of the kernel is allocated (Memory.v). Besides the
    translation of addresses, the words in memory are followed: what the boot loader has put
    at the physical address of the ramdisk is what the kernel reads at its virtual address. *)
From S2P Require Import Prelude BitArray Scan Physical Paging Memory Buffers Elf AddressSpace KernelSpace Clib Tcp Boot.

Definition MULTIBOOT2_BOOTLOADER_MAGIC : Z := 0x36d76289.
Definition Boot_STACK_SIZE : Z := 0x4000.

Record BootloaderInfo := mkBootloaderInfo { bi_ramdisk : Module }.

(** The result is the argument of [kernel_init], its stack pointer and its memory. [HLT] on a
    wrong magic number stops the processor, because interrupts are off. *)
Definition kernel_boot_stage2 (fuel : nat) (KERNEL_START KERNEL_END page_direcotry kernel_page_tables boostrap_page_table : Z)
    (magic : Z) (boot_info : list Z) (s : mmu) : exec (BootloaderInfo * Z * memory) :=
  if negb (magic =? MULTIBOOT2_BOOTLOADER_MAGIC) then Panic
  else
    ramdisk_module ← get_ramdisk fuel boot_info;
    m ← Memory_setup KERNEL_START KERNEL_END page_direcotry kernel_page_tables boostrap_page_table s;
    '(start, m) ← Memory_map m (mo_start ramdisk_module) (mo_size ramdisk_module) PAGE_READWRITE;
    '(new_stack, m) ← valloc m 0 Boot_STACK_SIZE PAGE_READWRITE;
    Done (mkBootloaderInfo (mkModule start (mo_size ramdisk_module)), u32 (new_stack + Boot_STACK_SIZE), m).

(** ** What changes when pages of the kernel are mapped

    The directory stays, and so does every word outside the tables. *)
Record tables_kept (s s' : mmu) : Prop := {
  tk_pd : forall j, 0 <= j < 1024 -> pd_entry s' j = pd_entry s j;
  tk_words : forall f k, ~ is_table s f -> 0 <= k < 1024 -> frame_word s' f k = frame_word s f k
}.

Lemma tables_kept_refl s : tables_kept s s.
Proof. by split. Qed.

Lemma tables_kept_same s s' f : tables_kept s s' -> is_table s' f -> is_table s f.
Proof.
  intros [Hpd _] (j & Hj & Hp & Ht). exists j. unfold pd_present, table_of in *. rewrite Hpd in Hp, Ht by done. done.
Qed.

Lemma tables_kept_trans s s1 s2 : tables_kept s s1 -> tables_kept s1 s2 -> tables_kept s s2.
Proof.
  intros H1 H2. split.
  - intros j Hj. rewrite (tk_pd _ _ H2) by done. by apply H1.
  - intros f k Hf Hk. rewrite (tk_words _ _ H2) by (done || (intros Ht; apply Hf; by eapply tables_kept_same)). by apply H1.
Qed.

Lemma tables_kept_kernel s s' : tables_kept s s' -> kernel_tables s -> kernel_tables s'.
Proof. intros [Hpd _] Hk i Hi. unfold pd_present. rewrite Hpd by lia. by apply Hk. Qed.

Lemma kernel_page_there s q : kernel_tables s -> first_kernel_page <= q < last_kernel_page ->
  0 <= q < window_page /\ 0 <= q * PAGE_SIZE < 2 ^ 32 /\ pd_present s (q / 1024) = true.
Proof.
  unfold first_kernel_page, last_kernel_page, window_page. change PAGE_SIZE with 4096. intros Hk Hq.
  split; [lia|]. split; [lia|]. apply Hk. zdiv.
Qed.

Lemma kernel_entry_kept s q w :
  paging_wf s -> kernel_tables s -> first_kernel_page <= q < last_kernel_page ->
  paging_wf (pwrite s (pt_address s (q * PAGE_SIZE)) w) /\ tables_kept s (pwrite s (pt_address s (q * PAGE_SIZE)) w).
Proof.
  intros Hwf Hk Hq. destruct (kernel_page_there s q Hk Hq) as (Hw & _ & Hp). split; [by apply set_entry_wf|]. split.
  - intros j Hj. by apply set_entry_pd.
  - intros f k Hf Hj. unfold frame_word. apply table_word; [done|done|done|]. change PAGE_SIZE with 4096. lia.
Qed.

(** [Paging::map_page] for a page of the kernel. *)
Lemma kernel_page_mapped s q f flags :
  paging_wf s -> kernel_tables s -> first_kernel_page <= q < last_kernel_page -> 0 <= f < 2 ^ 16 -> Z.testbit flags 0 = true ->
  exists s', Paging_map_page s (q * PAGE_SIZE) (f * PAGE_SIZE) flags = Done s' /\ paging_wf s' /\ tables_kept s s' /\
    forall v, 0 <= v < 2 ^ 32 -> translate s' v = if page_of v =? q then Done (f * PAGE_SIZE + v mod PAGE_SIZE) else translate s v.
Proof.
  intros Hwf Hk Hq Hf Hfl. destruct (kernel_page_there s q Hk Hq) as (Hw & Hv & Hp). pose proof (kernel_page_index q Hq) as Hi.
  destruct (map_page_spec s Hwf (q * PAGE_SIZE) (f * PAGE_SIZE) flags) as (s' & E & Hwf' & _ & _ & Ht);
    [done|unfold RECURSIVE_ENTRY, NUMBER_OF_PAGE_DIRECOTRY_ENTRIES; lia|by rewrite PDE_of_page|done|].
  exists s'. split; [exact E|]. split; [exact Hwf'|]. split.
  - rewrite map_page_result in E by (done || by rewrite PDE_of_page). injection E as <-. by apply kernel_entry_kept.
  - intros v Hvr. rewrite Ht, page_of_base, GET_OFFSET_mod, frame_of_page, u16_small by done. by case_decide; destruct (Z.eqb_spec (page_of v) q).
Qed.

(** ** Mapping an object of physical memory

    Pages [g], ..., [g + n - 1] lead to the frames from [f] on. *)
Record remapped (s s' : mmu) (g f n : Z) : Prop := {
  rm_paging : paging_wf s';
  rm_kept : tables_kept s s';
  rm_translate : forall v, 0 <= v < 2 ^ 32 -> translate s' v =
    if (g <=? page_of v) && (page_of v <? g + n) then Done (v - g * PAGE_SIZE + f * PAGE_SIZE) else translate s v
}.

Lemma remapped_none s g f : paging_wf s -> remapped s s g f 0.
Proof.
  intros Hwf. split; [done|apply tables_kept_refl|]. intros v Hv. by replace ((g <=? page_of v) && _) with false by lia.
Qed.

Lemma in_page v : v = page_of v * PAGE_SIZE + v mod PAGE_SIZE /\ 0 <= v mod PAGE_SIZE < PAGE_SIZE.
Proof. unfold page_of. change (2 ^ 12) with 4096. change PAGE_SIZE with 4096. zdiv. Qed.

Lemma remapped_next s s1 g f n flags :
  0 <= n -> kernel_tables s -> first_kernel_page <= g -> g + n < last_kernel_page -> 0 <= f -> f + n < 2 ^ 16 -> Z.testbit flags 0 = true ->
  remapped s s1 g f n ->
  exists s2, Paging_map_page s1 ((g + n) * PAGE_SIZE) ((f + n) * PAGE_SIZE) flags = Done s2 /\ remapped s s2 g f (n + 1).
Proof.
  intros Hn Hk Hg Hl Hf Hfl Hp [H1 H2 H3].
  destruct (kernel_page_mapped s1 (g + n) (f + n) flags H1) as (s2 & E & Hwf & Hkept & Ht);
    [by eapply tables_kept_kernel|lia|lia|done|].
  exists s2. split; [exact E|]. split; [done|by eapply tables_kept_trans|]. intros v Hv. rewrite Ht, H3 by done.
  destruct (in_page v) as [Ev _]. destruct (Z.eqb_spec (page_of v) (g + n)) as [Eq|].
  - replace ((g <=? page_of v) && _) with true by lia. f_equal. lia.
  - by replace (page_of v <? g + (n + 1)) with (page_of v <? g + n) by lia.
Qed.

(** [VirtualMemory::map_pages] in the part of the kernel, where every table is there. *)
Lemma kernel_pages_mapped m g f n flags :
  paging_wf (tables m) -> kernel_tables (tables m) -> first_kernel_page <= g -> 0 < n -> g + n <= last_kernel_page ->
  0 <= f -> f + n <= 2 ^ 16 -> Z.testbit flags 0 = true ->
  exists s', VirtualMemory_map_pages m (g * PAGE_SIZE) (f * PAGE_SIZE) n flags = Done (mkMemory s' (frames m)) /\ remapped (tables m) s' g f n.
Proof.
  intros Hwf Hk Hg Hn Hl Hf Hfl Hp. unfold VirtualMemory_map_pages, VirtualMemory_map_pages_with.
  match goal with |- context [for_ ?turns ?lo ?body ?st] =>
    destruct (for_inv (fun i m1 => frames m1 = frames m /\ remapped (tables m) (tables m1) g f i) body turns lo st) as (m' & E & Ef & Hr)
  end.
  - split; [done|by apply remapped_none].
  - intros i m1 Hi [Ef Hr]. destruct (kernel_page_there (tables m) g Hk) as (Hw & Hv & Hpd); [lia|].
    assert (Hex : Paging_check_page_table_exists (tables m1) (g * PAGE_SIZE) = Done true).
    { rewrite check_page_table_exists_result by (done || apply Hr). unfold pd_present.
      rewrite PDE_of_page, (tk_pd _ _ (rm_kept _ _ _ _ _ Hr)) by (unfold window_page in Hw; zdiv). by fold (pd_present (tables m) (g / 1024)); rewrite Hpd. }
    rewrite Hex, bind_Done. cbn [Bool.eqb]. rewrite bind_Done.
    destruct (remapped_next (tables m) (tables m1) g f i flags) as (s2 & E & Hr2); [lia|done|done|lia|done|lia|done|done|].
    unfold first_kernel_page, last_kernel_page in *.
    rewrite !u32_small by (change PAGE_SIZE with 4096; lia). replace (g * PAGE_SIZE + PAGE_SIZE * i) with ((g + i) * PAGE_SIZE) by lia.
    replace (f * PAGE_SIZE + PAGE_SIZE * i) with ((f + i) * PAGE_SIZE) by lia. rewrite E, bind_Done. by eexists.
  - rewrite E. exists (tables m'). rewrite <- Ef. split; [by destruct m'|]. by replace (0 + Z.of_nat (Z.to_nat n)) with n in Hr by lia.
Qed.

Lemma pages_of_size size : 0 < size < 2 ^ 32 -> 0 < GET_PAGES size <= 2 ^ 20 /\ size <= GET_PAGES size * PAGE_SIZE.
Proof. unfold GET_PAGES. change PAGE_SIZE with 4096. intros. destruct (Z.eqb_spec (size mod 4096) 0); zdiv. Qed.

(** [Memory::map] for the kernel, of an object that begins a page: its frames are taken and
    it is found at the first run of free pages; nothing else changes. *)
Lemma object_mapped m f size g0 :
  memory_wf m -> 0 < size < 2 ^ 32 -> 0 <= f -> f + GET_PAGES size <= 2 ^ 16 -> free_run (frames m) f (GET_PAGES size) ->
  first_kernel_page <= g0 -> g0 + GET_PAGES size <= last_kernel_page -> untaken_run (page_taken (tables m)) g0 (GET_PAGES size) ->
  exists g s' fr, Memory_map m (f * PAGE_SIZE) size PAGE_READWRITE = Done (g * PAGE_SIZE, mkMemory s' fr) /\
    scan_result (page_taken (tables m)) last_kernel_page first_kernel_page (GET_PAGES size) g /\
    remapped (tables m) s' g f (GET_PAGES size) /\ Phys_wf fr /\
    forall q, 0 <= q -> used fr q = used (frames m) q || in_run f (GET_PAGES size) q.
Proof.
  intros (Hwf & Hpw & Hk) Hs Hf Hfl Hfree Hg Hgl Hrun. destruct (pages_of_size size Hs) as [Hn _].
  destruct (vfind_spec (tables m) Hwf first_kernel_page last_kernel_page (GET_PAGES size)) as [(g & E & Hres)|[_ Hnone]];
    [vm_compute; split; congruence|vm_compute; congruence|lia| |by destruct (Hnone g0)].
  pose proof Hres as (Hr1 & Hr2 & _).
  destruct (check_free_pages_spec (frames m) f (GET_PAGES size)) as (b & Ec & Hb); [done|done|lia|unfold MAX_PHYSICAL_4K_PAGES; lia|].
  apply Hb in Hfree as ->.
  destruct (set_used_pages_spec (frames m) Hpw (GET_PAGES size) ltac:(lia) f) as (fr & Eu & Hpw' & _ & Hu); [done|unfold MAX_PHYSICAL_4K_PAGES; lia|].
  destruct (kernel_pages_mapped (mkMemory (tables m) fr) g f (GET_PAGES size) (Memory_parse_flags PAGE_READWRITE)) as (s' & Em & Hr);
    [done|done|lia|lia|lia|lia|lia|reflexivity|].
  exists g, s', fr. split; [|done]. unfold Memory_map, Memory_map_no_lock, find_virtual. cbv zeta.
  rewrite (Z.mod_mul f PAGE_SIZE) by done. change (truthy 0) with false. cbn iota. rewrite (Z.sub_0_r (f * PAGE_SIZE)), frame_of_page. replace (truthy size) with true by (unfold truthy; destruct (Z.eqb_spec size 0); [lia|done]).
  cbn [negb]. rewrite Ec, bind_Done. cbn [negb]. change (truthy (Z.land PAGE_READWRITE PAGE_USER)) with false. cbn iota.
  change KERNEL_VIRTUAL_ADDRESS with (first_kernel_page * PAGE_SIZE). change LAST_PAGE_ADDRESS with (last_kernel_page * PAGE_SIZE).
  rewrite E, bind_Done, Eu, bind_Done, Em, bind_Done, Z.add_0_r, u32_small; [done|].
  unfold first_kernel_page, last_kernel_page in *. change PAGE_SIZE with 4096. lia.
Qed.

(** ** Allocation of kernel pages *)

Lemma kernel_alloc_keeps m n a m' :
  memory_wf m -> 0 < n < 2 ^ 32 -> Memory_alloc m 0 n PAGE_READWRITE = Done (a, m') -> tables_kept (tables m) (tables m').
Proof.
  intros Hm Hn E. destruct (pages_of_size n Hn) as [Hp _].
  unfold Memory_alloc, Memory_alloc_no_lock, Memory_alloc_no_lock_with, find_virtual in E.
  change (truthy (Z.land PAGE_READWRITE PAGE_USER)) with false in E. change (truthy (Z.land PAGE_READWRITE PAGE_CONTAGIOUS)) with false in E.
  change (truthy 0) with false in E. cbn iota in E.
  change KERNEL_VIRTUAL_ADDRESS with (first_kernel_page * PAGE_SIZE) in E. change LAST_PAGE_ADDRESS with (last_kernel_page * PAGE_SIZE) in E.
  destruct (vfind_spec (tables m) (proj1 Hm) first_kernel_page last_kernel_page (GET_PAGES n)) as [(g & Ef & Hr1 & Hr2 & _)|[Ef _]];
    [vm_compute; split; congruence|vm_compute; congruence|lia| |by rewrite Ef in E].
  rewrite Ef, !bind_Done in E. cbn iota beta in E. apply bind_Done_inv in E as (m1 & Eb & E). injection E as _ <-. clear Ef.
  unfold back_pages in Eb. apply (for_inv_done (fun _ m1 => memory_wf m1 /\ tables_kept (tables m) (tables m1))) in Eb; [apply Eb|by split|].
  clear Eb m1. intros i m1 m2 Hi ((Hw & Hpw & Hk) & Hkept) E.
  apply bind_Done_inv in E as ([pAdd fr] & Ea & E). rewrite alloc_page_contagious in Ea.
  destruct (alloc_contagious_spec (frames m1) Hpw AVAILABLE_PAGES_START 1) as [(f & fr' & Ea' & (Hf1 & Hf2 & _) & Hpw' & _)|[Ea' _]];
    [by vm_compute|lia| |congruence].
  rewrite Ea' in Ea. injection Ea as <- <-. change (first_candidate AVAILABLE_PAGES_START) with 256 in Hf1. unfold MAX_PHYSICAL_4K_PAGES in Hf2.
  destruct (kernel_page_there (tables m1) (g + i) Hk) as (Hwin & Hv & Hpd); [lia|].
  replace (u32 (g * PAGE_SIZE + PAGE_SIZE * i)) with ((g + i) * PAGE_SIZE) in E by (rewrite u32_small; lia).
  rewrite map_pages_one in E by (done || (unfold window_page in Hwin; change PAGE_SIZE with 4096; lia)). injection E as <-. cbn [tables frames] in *.
  destruct (kernel_entry_kept (tables m1) (g + i) (fill_entry 0 (entry (tables m1) (g + i)) (GET_FRAME (f * PAGE_SIZE)) (Memory_parse_flags PAGE_READWRITE)))
    as [H1 H2]; [done|done|lia|].
  split; [|by eapply tables_kept_trans]. split; [done|]. split; [done|by eapply tables_kept_kernel].
Qed.

(** The first run is the one behind what is taken. *)
Lemma first_run taken limit s0 count lim g :
  0 < count -> s0 <= lim -> (forall q, s0 <= q < lim -> taken q = true) -> untaken_run taken lim count ->
  scan_result taken limit s0 count g -> g = lim.
Proof.
  intros Hc Hs Ht Hu (H1 & _ & H3 & H4). destruct (Z.lt_trichotomy g lim) as [Hl|[He|Hl]]; [|done|].
  - specialize (H3 g). rewrite Ht in H3 by lia. by specialize (H3 ltac:(lia)).
  - by destruct (H4 lim).
Qed.

(** ** Bytes of physical memory *)

Definition physical_byte (s : mmu) (a : Z) : Z := get_field (pread s (a - a mod 4)) (8 * (a mod 4)) 8.

Lemma physical_byte_word s a : physical_byte s a = get_field (frame_word s (a / PAGE_SIZE) (a mod PAGE_SIZE / 4)) (8 * (a mod 4)) 8.
Proof. unfold physical_byte, frame_word. do 2 f_equal. change PAGE_SIZE with 4096. zdiv. Qed.

Lemma word_in_frame a : 0 <= a mod PAGE_SIZE / 4 < 1024.
Proof. change PAGE_SIZE with 4096. zdiv. Qed.

Lemma kept_physical_byte s s' a : tables_kept s s' -> ~ is_table s (a / PAGE_SIZE) -> physical_byte s' a = physical_byte s a.
Proof. intros Hk Ht. rewrite !physical_byte_word, (tk_words _ _ Hk); [done|done|apply word_in_frame]. Qed.

Lemma load_translated m v a : translate (tables m) v = Done a -> load_byte m v = Done (physical_byte (tables m) a).
Proof. intros E. unfold load_byte. by rewrite E, bind_Done. Qed.

(** ** The stage *)

(** The boot loader has put the ramdisk behind the kernel, at the beginning of a page, as the
    header asks, and below 256 MiB with room for the stack of the kernel. *)
Definition ramdisk_placed (n : Z) (r : Module) : Prop :=
  mo_size r <> 0 -> mo_start r mod PAGE_SIZE = 0 /\ 256 + n <= mo_start r / PAGE_SIZE /\
    mo_start r / PAGE_SIZE + GET_PAGES (mo_size r) + GET_PAGES Boot_STACK_SIZE <= 2 ^ 16.

(** Where the kernel finds it, and the first page behind it. *)
Definition ramdisk_page (n : Z) : Z := first_kernel_page + n.
Definition ramdisk_address (n : Z) (r : Module) : Z := if mo_size r =? 0 then 0 else ramdisk_page n * PAGE_SIZE.
Definition stack_page (n : Z) (r : Module) : Z := ramdisk_page n + GET_PAGES (mo_size r).

Lemma ramdisk_size ts : Forall tag_ok ts -> 0 <= mo_size (ramdisk_of ts) < 2 ^ 32.
Proof.
  induction 1 as [|t ts Ht _ IH]; [done|]. destruct t as [start end_ cmdline|type body]; cbn [ramdisk_of]; [|done].
  destruct (bool_decide _); [|done]. cbn in *. lia.
Qed.

Section stage.
Context (fd ft fb n : Z) (Hlayout : boot_layout fd ft fb n) (s s' : mmu) (Hs : boot_space fd ft fb n s s').
Context (fr : PhysicalMemory) (Hpw : Phys_wf fr) (Hu : forall q, 0 <= q -> used fr q = in_run 256 n q).
Context (r : Module) (Hsize : 0 <= mo_size r < 2 ^ 32) (Hplaced : ramdisk_placed n r).

Abbreviation f := (mo_start r / PAGE_SIZE).
Abbreviation k := (GET_PAGES (mo_size r)).

Lemma stage_wf : memory_wf (mkMemory s' fr).
Proof. by eapply setup_memory_wf. Qed.

Lemma ramdisk_room : 0 < n <= 1792 /\ 0 <= k < 2 ^ 16 /\ (mo_size r = 0 -> k = 0) /\ (mo_size r <> 0 -> 256 + n <= f /\ mo_start r = f * PAGE_SIZE /\ f + k + 4 <= 2 ^ 16).
Proof.
  destruct (bl_size _ _ _ _ Hlayout). split; [lia|]. destruct (Z.eq_dec (mo_size r) 0) as [E|E].
  - rewrite E. by repeat split.
  - destruct (Hplaced E) as (H1 & H2 & H3). destruct (pages_of_size (mo_size r)) as [Hk _]; [lia|]. change (GET_PAGES Boot_STACK_SIZE) with 4 in H3.
    split; [lia|]. split; [lia|]. intros _. split; [done|]. split; [|lia]. change PAGE_SIZE with 4096 in *. zdiv.
Qed.

Lemma boot_taken q : first_kernel_page <= q < last_kernel_page -> page_taken s' q = (q <? ramdisk_page n).
Proof.
  intros Hq. unfold page_taken, mapped. destruct ramdisk_room as (Hn & _). unfold first_kernel_page, last_kernel_page, ramdisk_page in *.
  rewrite (setup_translate fd ft fb n Hlayout s s') by (done || rewrite ?page_of_base; unfold window_page; change PAGE_SIZE with 4096; lia).
  unfold first_kernel_page in *. change KERNEL_PHYSICAL_ADDRESS with 0x100000. change KERNEL_VIRTUAL_ADDRESS with 0xC0100000. change PAGE_SIZE with 4096.
  replace ((0x100000 <=? q * 4096) && _) with false by lia. destruct (Z.ltb_spec q (0xC0100 + n)).
  - by replace ((0xC0100000 <=? q * 4096) && _) with true by lia.
  - by replace ((0xC0100000 <=? q * 4096) && _) with false by lia.
Qed.

(** The ramdisk is found right behind the kernel. *)
Lemma ramdisk_mapped :
  exists s1 fr1, Memory_map (mkMemory s' fr) (mo_start r) (mo_size r) PAGE_READWRITE = Done (ramdisk_address n r, mkMemory s1 fr1) /\
    remapped s' s1 (ramdisk_page n) f k /\ Phys_wf fr1 /\ forall q, 0 <= q -> used fr1 q = in_run 256 n q || in_run f k q.
Proof.
  destruct ramdisk_room as (Hn & Hk & Hk0 & Hf). unfold ramdisk_address. destruct (Z.eqb_spec (mo_size r) 0) as [E|E].
  - exists s', fr. split; [unfold Memory_map, Memory_map_no_lock; by rewrite E|]. rewrite (Hk0 E).
    split; [apply remapped_none, stage_wf|]. split; [done|]. intros q Hq. rewrite Hu by done. unfold in_run. lia.
  - destruct (Hf E) as (Hf1 & Hf2 & Hf3). pose proof (boot_taken) as Ht. unfold ramdisk_page in *.
    destruct (object_mapped (mkMemory s' fr) f (mo_size r) (first_kernel_page + n)) as (g & s1 & fr1 & Em & Hres & Hr & Hpw1 & Hu1);
      [apply stage_wf|lia|lia|lia| |lia|unfold first_kernel_page, last_kernel_page; lia| |].
    + intros q Hq. cbn [frames]. rewrite Hu by lia. unfold in_run. lia.
    + intros q Hq. cbn [tables]. rewrite Ht by (unfold first_kernel_page, last_kernel_page in *; lia). lia.
    + assert (g = first_kernel_page + n) as ->.
      { destruct (pages_of_size (mo_size r)) as [Hk' _]; [lia|]. refine (first_run _ _ _ _ _ _ _ _ _ _ Hres); [lia|lia| |].
        - intros q Hq. cbn [tables]. rewrite Ht by (unfold first_kernel_page, last_kernel_page in *; lia). lia.
        - intros q Hq. cbn [tables]. rewrite Ht by (unfold first_kernel_page, last_kernel_page in *; lia). lia. }
      exists s1, fr1. rewrite <- Hf2 in Em. split; [exact Em|]. split; [exact Hr|]. split; [exact Hpw1|].
      intros q Hq. rewrite Hu1 by done. cbn [frames]. by rewrite Hu.
Qed.

(** The memory with the ramdisk, and then with the stack. *)
Section stack.
Context (s1 : mmu) (fr1 : PhysicalMemory) (Hr : remapped s' s1 (ramdisk_page n) f k) (Hpw1 : Phys_wf fr1).
Context (Hu1 : forall q, 0 <= q -> used fr1 q = in_run 256 n q || in_run f k q).

Lemma ramdisk_taken q : first_kernel_page <= q < last_kernel_page -> page_taken s1 q = (q <? stack_page n r).
Proof.
  intros Hq. destruct ramdisk_room as (_ & Hk & _). pose proof (boot_taken q Hq) as Ht. unfold page_taken, mapped, stack_page in *.
  rewrite (rm_translate _ _ _ _ _ Hr), page_of_base by (unfold first_kernel_page, last_kernel_page in *; change PAGE_SIZE with 4096; lia).
  destruct ((ramdisk_page n <=? q) && (q <? ramdisk_page n + k)) eqn:E; [lia|]. rewrite Ht. lia.
Qed.

Lemma stack_wf : memory_wf (mkMemory s1 fr1).
Proof. split; [apply Hr|]. split; [done|]. eapply tables_kept_kernel; [apply Hr|apply stage_wf]. Qed.

Lemma stack_allocated :
  exists m fs, valloc (mkMemory s1 fr1) 0 Boot_STACK_SIZE PAGE_READWRITE = Done (stack_page n r * PAGE_SIZE, m) /\
    alen fs = GET_PAGES Boot_STACK_SIZE /\ backed (mkMemory s1 fr1) m (stack_page n r) fs /\ tables_kept s1 (tables m).
Proof.
  destruct ramdisk_room as (Hn & Hk & Hk0 & Hf). pose proof ramdisk_taken as Ht. pose proof stack_wf as (Hw & _ & Hkt).
  assert (Hin : first_kernel_page <= stack_page n r /\ stack_page n r + 4 <= last_kernel_page).
  { unfold stack_page, ramdisk_page, first_kernel_page, last_kernel_page. lia. }
  destruct (kernel_alloc_spec (mkMemory s1 fr1) Boot_STACK_SIZE PAGE_READWRITE (if mo_size r =? 0 then 256 + n else f + k) (stack_page n r))
    as (g & m & fs & E & Hres & Hl & Hb); try done.
  - destruct (Z.eqb_spec (mo_size r) 0) as [E|E]; [lia|]. destruct (Hf E) as (H1 & H2 & H3). lia.
  - change (GET_PAGES Boot_STACK_SIZE) with 4. destruct (Z.eqb_spec (mo_size r) 0) as [E|E]; [lia|]. destruct (Hf E) as (H1 & H2 & H3). lia.
  - change (GET_PAGES Boot_STACK_SIZE) with 4. intros q Hq. cbn [frames]. destruct (Z.eqb_spec (mo_size r) 0) as [E|E].
    + rewrite Hu1 by lia. rewrite (Hk0 E). unfold in_run. lia.
    + destruct (Hf E) as (H1 & H2 & H3). rewrite Hu1 by lia. unfold in_run. lia.
  - lia.
  - change (GET_PAGES Boot_STACK_SIZE) with 4. lia.
  - change (GET_PAGES Boot_STACK_SIZE) with 4. intros q Hq. cbn [tables]. rewrite Ht by lia. lia.
  - assert (g = stack_page n r) as ->.
    { refine (first_run _ _ _ _ _ _ _ _ _ _ Hres); [done|lia| |].
      - intros q Hq. cbn [tables]. rewrite Ht by lia. lia.
      - change (GET_PAGES Boot_STACK_SIZE) with 4. intros q Hq. cbn [tables]. rewrite Ht by lia. lia. }
    exists m, fs. split; [exact E|]. split; [done|]. split; [done|]. eapply (kernel_alloc_keeps (mkMemory s1 fr1)); [exact stack_wf| |exact E]. done.
Qed.

Lemma ramdisk_bytes m i : tables_kept s1 (tables m) ->
  (forall v, 0 <= v < 2 ^ 32 -> page_of v < stack_page n r -> translate (tables m) v = translate s1 v) -> 0 <= i < mo_size r ->
  load_byte m (ramdisk_address n r + i) = Done (physical_byte s (mo_start r + i)).
Proof.
  intros Hkept Hsame Hi. destruct ramdisk_room as (Hn & Hk & _ & Hf). destruct Hf as (Hf1 & Hf2 & Hf3); [lia|].
  destruct (pages_of_size (mo_size r)) as [_ Hcover]; [lia|].
  assert (Hpage : page_of (ramdisk_page n * PAGE_SIZE + i) = ramdisk_page n + i / PAGE_SIZE /\ 0 <= i / PAGE_SIZE < k).
  { unfold page_of. change (2 ^ 12) with 4096. change PAGE_SIZE with 4096 in *. zdiv. }
  assert (Haddr : 0 <= ramdisk_page n * PAGE_SIZE + i < 2 ^ 32) by (unfold ramdisk_page, first_kernel_page; change PAGE_SIZE with 4096 in *; lia).
  unfold ramdisk_address. rewrite (proj2 (Z.eqb_neq _ _)) by lia.
  rewrite (load_translated _ _ (mo_start r + i)).
  - f_equal. assert (Hframe : 256 + n <= (mo_start r + i) / PAGE_SIZE) by (rewrite Hf2; change PAGE_SIZE with 4096 in *; zdiv).
    assert (Hno : ~ is_table s' ((mo_start r + i) / PAGE_SIZE)).
    { intros (j & Hj & Hp & Et). pose proof (boot_tables_in_kernel fd ft fb n Hlayout s s' j Hs Hj Hp). lia. }
    rewrite (kept_physical_byte s' (tables m)); [|eapply tables_kept_trans; [apply Hr|done]|done].
    destruct Hlayout as [_ Hd Ht Hb _]. rewrite !physical_byte_word, (bs_frames _ _ _ _ _ _ Hs); [done| |lia|apply word_in_frame].
    unfold is_boot_table. lia.
  - destruct Hpage as [Hp1 Hp2]. rewrite Hsame by (rewrite ?Hp1; unfold stack_page; lia).
    rewrite (rm_translate _ _ _ _ _ Hr), Hp1 by done. replace ((_ <=? _) && _) with true by lia. f_equal. rewrite Hf2 at 2. lia.
Qed.

Lemma stage_translate v : 0 <= v < 2 ^ 32 -> page_of v < window_page ->
  translate s1 v =
    if (KERNEL_PHYSICAL_ADDRESS <=? v) && (v <? KERNEL_PHYSICAL_ADDRESS + n * PAGE_SIZE) then Done v
    else if (KERNEL_VIRTUAL_ADDRESS <=? v) && (v <? ramdisk_page n * PAGE_SIZE) then Done (v - KERNEL_BASE)
    else if (ramdisk_page n * PAGE_SIZE <=? v) && (v <? stack_page n r * PAGE_SIZE) then Done (v - ramdisk_page n * PAGE_SIZE + mo_start r)
    else Fault.
Proof.
  intros Hv Hw. destruct ramdisk_room as (Hn & Hk & Hk0 & Hf). rewrite (rm_translate _ _ _ _ _ Hr) by done.
  rewrite (setup_translate fd ft fb n Hlayout s s' v Hs Hv Hw). destruct (in_page v) as [Ev Ho].
  unfold stack_page, ramdisk_page, first_kernel_page in *. change KERNEL_PHYSICAL_ADDRESS with 0x100000. change KERNEL_VIRTUAL_ADDRESS with 0xC0100000.
  change PAGE_SIZE with 4096 in *. destruct ((0xC0100 + n <=? page_of v) && _) eqn:E1.
  - replace ((0x100000 <=? v) && _) with false by lia. replace ((0xC0100000 <=? v) && _) with false by lia.
    replace (((0xC0100 + n) * 4096 <=? v) && _) with true by lia. destruct Hf as (_ & Ef & _); [lia|f_equal; lia].
  - replace (((0xC0100 + n) * 4096 <=? v) && _) with false by lia. replace (0xC0100000 + n * 4096) with ((0xC0100 + n) * 4096) by lia. done.
Qed.

End stack.
End stage.

(** C7: from the boot loader to [kernel_init]. When the linker has put the directory and the
    tables in the pages of the kernel, and the boot loader has put the ramdisk, if there is
    one, behind the kernel, [kernel_boot_stage2] returns, whatever the memory held before and
    whatever other tags the boot loader gives: [kernel_init] is given the size of the ramdisk
    and an address right behind the kernel at which exactly the bytes that the boot loader has
    put there are read, and a stack of four pages with frames of their own. The kernel is
    found at its physical addresses and in the higher half, nothing else is mapped, exactly
    the frames of the kernel, the ramdisk and the stack are in use, and the invariants of the
    memory hold. *)
Theorem kernel_memory_ready (fd ft fb n KERNEL_START KERNEL_END : Z) (s : mmu) (fuel : nat) (fill total reserved : Z) (ts : list boot_tag) :
  boot_layout fd ft fb n -> Memory_get_kernel_pages KERNEL_START KERNEL_END = n ->
  Forall tag_ok ts -> alen (boot_information fill ts) < 2 ^ 31 - 8 -> (length ts < fuel)%nat -> ramdisk_placed n (ramdisk_of ts) ->
  let r := ramdisk_of ts in
  exists m fs,
    kernel_boot_stage2 fuel KERNEL_START KERNEL_END (KERNEL_BASE + fd * PAGE_SIZE) (KERNEL_BASE + ft * PAGE_SIZE) (KERNEL_BASE + fb * PAGE_SIZE)
      MULTIBOOT2_BOOTLOADER_MAGIC (bytes32 total ++ bytes32 reserved ++ boot_information fill ts) s =
      Done (mkBootloaderInfo (mkModule (ramdisk_address n r) (mo_size r)), stack_page n r * PAGE_SIZE + Boot_STACK_SIZE, m) /\ memory_wf m /\
    (forall i, 0 <= i < mo_size r -> load_byte m (ramdisk_address n r + i) = Done (physical_byte s (mo_start r + i))) /\
    (alen fs = GET_PAGES Boot_STACK_SIZE /\ NoDup fs /\ forall j f, fs !! j = Some f ->
       256 <= f < 2 ^ 16 /\ in_run 256 n f || in_run (mo_start r / PAGE_SIZE) (GET_PAGES (mo_size r)) f = false /\
       forall i, 0 <= i < PAGE_SIZE -> translate (tables m) ((stack_page n r + Z.of_nat j) * PAGE_SIZE + i) = Done (f * PAGE_SIZE + i)) /\
    (forall v, 0 <= v < 2 ^ 32 -> page_of v < window_page -> ~ (stack_page n r <= page_of v < stack_page n r + GET_PAGES Boot_STACK_SIZE) ->
       translate (tables m) v =
         if (KERNEL_PHYSICAL_ADDRESS <=? v) && (v <? KERNEL_PHYSICAL_ADDRESS + n * PAGE_SIZE) then Done v
         else if (KERNEL_VIRTUAL_ADDRESS <=? v) && (v <? ramdisk_page n * PAGE_SIZE) then Done (v - KERNEL_BASE)
         else if (ramdisk_page n * PAGE_SIZE <=? v) && (v <? stack_page n r * PAGE_SIZE) then Done (v - ramdisk_page n * PAGE_SIZE + mo_start r)
         else Fault) /\
    forall f, 0 <= f -> used (frames m) f =
      in_run 256 n f || in_run (mo_start r / PAGE_SIZE) (GET_PAGES (mo_size r)) f || bool_decide (f ∈ fs).
Proof.
  intros Hlayout Hpages Hts Hlen Hfuel Hplaced r. pose proof (ramdisk_size ts Hts) as Hsize. fold r in Hplaced, Hsize.
  destruct (memory_setup_made fd ft fb n Hlayout KERNEL_START KERNEL_END Hpages s) as (s' & fr & E0 & Hs & Hpw & Hu).
  destruct (ramdisk_mapped fd ft fb n Hlayout s s' Hs fr Hpw Hu r Hsize Hplaced) as (s1 & fr1 & E1 & Hr & Hpw1 & Hu1).
  destruct (stack_allocated fd ft fb n Hlayout s s' Hs fr Hpw r Hsize Hplaced s1 fr1 Hr Hpw1 Hu1) as (m & fs & E2 & Hl & Hb & Hkept).
  destruct (ramdisk_room fd ft fb n Hlayout r Hsize Hplaced) as (Hn & Hk & _).
  assert (Hsame : forall v, 0 <= v < 2 ^ 32 -> ~ (stack_page n r <= page_of v < stack_page n r + GET_PAGES Boot_STACK_SIZE) -> translate (tables m) v = translate s1 v).
  { intros v Hv Ho. rewrite <- Hl in Ho. by apply (bk_others _ _ _ _ Hb). }
  exists m, fs. split.
  - unfold kernel_boot_stage2. rewrite Z.eqb_refl. cbn [negb]. rewrite (boot_finds_ramdisk fuel fill total reserved ts) by done.
    rewrite bind_Done, E0, bind_Done. fold r. rewrite E1, bind_Done, E2, bind_Done, u32_small; [done|].
    unfold stack_page, ramdisk_page, first_kernel_page, Boot_STACK_SIZE. change PAGE_SIZE with 4096. lia.
  - clear E0 E1 E2. split; [exact (bk_wf _ _ _ _ Hb)|]. split; [|split; [|split]].
    + intros i. apply (ramdisk_bytes fd ft fb n Hlayout s s' Hs r Hsize Hplaced s1 Hr m i Hkept).
      intros v Hv Hp. apply Hsame; [done|lia].
    + split; [done|]. split; [apply Hb|]. intros j f Hj. destruct (bk_fresh _ _ _ _ Hb f) as [Hf Hfree]; [by eapply list_elem_of_lookup_2|].
      split; [done|]. cbn [frames] in Hfree. rewrite Hu1 in Hfree by lia. split; [done|]. intros i Hi. by apply (bk_mapped _ _ _ _ Hb).
    + intros v Hv Hw Ho. rewrite Hsame by done. by apply (stage_translate fd ft fb n Hlayout s s' Hs r Hsize Hplaced s1 Hr).
    + intros f Hf. rewrite (bk_used _ _ _ _ Hb) by done. cbn [frames]. by rewrite Hu1.
Qed.

Lemma kernel_memory_ready_witness :
  exists m fs, kernel_boot_stage2 4 0 (512 * 4096) 0xC012C000 0xC0130000 0xC012E000 MULTIBOOT2_BOOTLOADER_MAGIC
      (bytes32 112 ++ bytes32 0 ++ boot_information 170
        [OtherTag 1 [0; 0; 0]; ModuleTag 0x200000 0x300000 [109]; ModuleTag 0x400000 0x401800 (removelast (literal "ramdisk"))])
      (mkMMU {[0x401004 := 0x64636261]} 0) = Done (mkBootloaderInfo (mkModule 0xC0300000 0x1800), 0xC0306000, m) /\
    load_byte m 0xC0301006 = Done 99 /\ translate (tables m) 0xC0101234 = Done 0x101234 /\ alen fs = 4 /\
    used (frames m) 1026 = bool_decide (1026 ∈ fs).
Proof.
  destruct (kernel_memory_ready 300 304 302 512 0 (512 * 4096) (mkMMU {[0x401004 := 0x64636261]} 0) 4 170 112 0
    [OtherTag 1 [0; 0; 0]; ModuleTag 0x200000 0x300000 [109]; ModuleTag 0x400000 0x401800 (removelast (literal "ramdisk"))]
    sample_layout eq_refl) as (m & fs & E & _ & Hb & (Hl & _) & Ht & Hu).
  - repeat constructor; vm_compute; congruence.
  - vm_compute. reflexivity.
  - cbn. lia.
  - intros _. vm_compute. repeat split; congruence.
  - exists m, fs. split; [exact E|]. split; [exact (Hb 0x1006 ltac:(vm_compute; split; congruence))|].
    split; [|split; [exact Hl|exact (Hu 1026 ltac:(lia))]].
    rewrite Ht by (vm_compute; (split || intros []); congruence). vm_compute. reflexivity.
Defined.
