(* ===== verification/Booted.v ===== *)
(** * The booted system

    From the bytes of the ramdisk to the screen: the file systems that [kernel_init] sets up, and
    the first program that reads one of the files in them. *)
From S2P Require Import Prelude Clib Strings PathView Buffers Files Keyboard Console Handles Vfs Tar SystemCalls SystemLibrary Shell Cat Boot.

(** The system when the first program runs: no handles, the working directory [path]. *)
Definition booted (fs : Filesystem) (c : Console) (path : String) : System :=
  mkSystem fs ∅ Keyboard_new c HandlesManager_new ∅ 1 path.

(** The memory of the ramdisk, from an address on. *)
Definition ramdisk_memory (mem : list Z) (start address : Z) : list Z := drop (Z.to_nat (address - start)) mem.

(** The node at the end of a path has the last name of it. *)
Lemma descend_named fs us w : forall i j, descend fs i (us ++ [w]) = Value j -> has_name fs w j = true.
Proof.
  induction us as [|u us IH]; intros i j; cbn [app descend].
  - unfold step. destruct (fs_nodes fs !! i) as [n|]; [|done]. destruct (below fs n) as [[l e]|]; [|done].
    destruct (List.find (has_name fs w) l) as [k|] eqn:E; cbn [found]; [|done]. intros [= ->]. by apply List.find_some in E as [_ ?].
  - destruct (step fs i u); [apply IH|done].
Qed.

Lemma resolve_named fs u us w j n :
  resolve fs (u :: us ++ [w]) = Value j -> fs_nodes fs !! j = Some n -> chars (fn_name n) = w.
Proof.
  unfold resolve. case_bool_decide; [done|]. destruct (List.find _ _); [|done]. intros Hd Hn.
  apply descend_named in Hd. unfold has_name in Hd. rewrite Hn in Hd. by apply bool_decide_eq_true in Hd.
Qed.

Lemma booted_ok fs c path : fs_ok fs -> system_ok (booted fs c path) [].
Proof. intros Hok. split; [done|apply handles_new_rep|by intros d ?%elem_of_nil|]. split; [done|]. by intros d ?%elem_of_nil. Qed.

Lemma archive_entry mem base size e : forall es off,
  0 <= off -> archive_from mem base size off es -> e ∈ es -> entry_at mem e /\ 0 <= te_off e.
Proof.
  induction es as [|e' es IH]; intros off Hoff Har He; [by apply elem_of_nil in He|]. destruct Har as (E & _ & Hat & _ & Har).
  apply elem_of_cons in He as [->|He]; [by rewrite E|]. apply (IH (te_next e')); [|done|done].
  pose proof (align_to_nonneg (te_size e') (proj1 (ea_range _ _ Hat))). unfold te_next, sizeof_TarHeader. lia.
Qed.

Lemma tar_word_clean ws : clean ws -> clean (tar_word :: ws).
Proof.
  intros (Hne & Hp & Hnz). split; [done|]. split; apply Forall_cons; (split; [|done]); [|by repeat constructor].
  split; [|done]. intros H. unfold tar_word in H. by repeat apply elem_of_cons in H as [?|H]; try apply elem_of_nil in H.
Qed.

(** C1: Boot to screen. Let the ramdisk be an archive that Tar reads ([ramdisk_ok]: every entry
    behind its directory, paths of at most 62 characters, no path twice, at most nine
    directories open at a time and none of them taken for another one). Then the kernel sets up
    its file systems, and [cat] of /tar and the path of a file in it - a file that is not empty,
    is smaller than 2 GiB, lies in the ramdisk and has a name that fits the file information -
    run as the first program, through the system calls, the handles and the tree of files,
    writes to the console the bytes that the archive has for that file, up to the first zero,
    and a line feed, and returns 0. *)
Theorem booted_kernel_shows_files mem start size es fuel e us w text tail c path rest error kb info junk program drop_process :
  ramdisk_ok mem start size es -> (length es < fuel)%nat -> e ∈ es -> te_dir e = false -> te_path e = us ++ [w] ->
  0 < te_size e < 2 ^ 31 - 1 -> te_off e + sizeof_TarHeader + te_size e <= alen mem ->
  take (Z.to_nat (te_size e)) (drop (Z.to_nat (te_off e + sizeof_TarHeader)) mem) = text ++ tail ->
  Forall (fun x => x <> 0) text -> tail = [] \/ head tail = Some 0 ->
  alen (opened (tar_word :: te_path e)) + 2 < 2 ^ 31 -> alen w < alen (fi_name info) ->
  console_ok c 4 ->
  exists fs c1 c2 s', setup_filesystems mem (mkModule start size) fuel no_filesystem = Done fs /\
    cat_main (K := System) (H := SystemRoutines (ramdisk_memory mem start) drop_process) info junk 2
      [program; opened (tar_word :: te_path e) ++ 0 :: rest] (mkProgram (booted fs c path) error INVALID_FD kb) =
      Done (0, mkProgram s' ERROR_SUCCESS 1 kb) /\
    Console_write c text = Done (alen text, c1) /\ Console_write c1 [10] = Done (1, c2) /\ sy_console s' = c2.
Proof.
  intros Hrd Hf He Hdir Hpath Hsize Hend Htext Hnz Htail Hlen Hname Hc.
  destruct (archive_entry mem start size e es 0 ltac:(lia) (rd_entries _ _ _ _ Hrd) He) as [[Hclean _ _ _ _] Hoff].
  apply tar_word_clean in Hclean.
  destruct (filesystems_set_up mem start size es fuel Hrd Hf) as (fs & E & Hok & Hes & _ & _ & _ & Hcon & _).
  destruct (Hes e He) as (j & n & Hj & Hn & Hcl & Hty & Hsz & Hdata). rewrite Hdir in Hdata.
  pose proof (Forall_lookup_1 _ _ _ _ (ok_names _ Hok) Hn) as [Hrep _].
  assert (Hw : chars (fn_name n) = w) by (rewrite Hpath in Hj; by eapply resolve_named).
  set (mem_at := ramdisk_memory mem start).
  assert (Hmem : mem_at (fn_data n) = drop (Z.to_nat (te_off e + sizeof_TarHeader)) mem).
  { unfold mem_at, ramdisk_memory. rewrite Hdata. do 2 f_equal. lia. }
  assert (Htf : text_file mem_at (booted fs c path) (tar_word :: te_path e) n w text tail).
  { split; [by exists j|done|by rewrite Hsz|by rewrite <- Hw| |by rewrite <- Htext, Hsz; unfold alen; rewrite length_take, length_drop; unfold sizeof_TarHeader, alen in *; lia|done|done].
    rewrite Hmem, app_assoc, <- Htext, Hsz. by rewrite take_drop. }
  destruct (cat_prints mem_at drop_process (booted fs c path) [] (tar_word :: te_path e) rest error kb info junk program n w text tail)
    as (d & c1 & c2 & s' & Erun & Ec1 & Ec2 & Hs' & _); [by apply booted_ok|by split|done..|].
  by exists fs, c1, c2, s'.
Qed.

(** The file "d/fg" of the example. *)
Lemma booted_kernel_shows_files_witness :
  let c := mkConsole (replicate (Z.to_nat VGA_CELLS) 0) 0 0 0x0F in
  exists fs c1 s', setup_filesystems example_archive (mkModule 4096 2048) 3 no_filesystem = Done fs /\
    cat_main (K := System) (H := SystemRoutines (ramdisk_memory example_archive 4096) (fun _ s => Done s)) (mkInfo (replicate 64 0) 0 NT_File) (fun _ => 7) 2
      [literal "/tar/bin/cat"; literal "/tar/d/fg"] (mkProgram (booted fs c (sample_name 47)) 0 INVALID_FD INVALID_FD) =
      Done (0, mkProgram s' ERROR_SUCCESS 1 INVALID_FD) /\
    Console_write c [1; 2; 3] = Done (3, c1) /\ Console_write c1 [10] = Done (1, sy_console s').
Proof.
  intros c. destruct (booted_kernel_shows_files example_archive 4096 2048 example_entries 3 (mkTarEntry [[100]; [102; 103]] false 3 512) [[100]] [102; 103]
    [1; 2; 3] [] c (sample_name 47) [] 0 INVALID_FD (mkInfo (replicate 64 0) 0 NT_File) (fun _ => 7) (literal "/tar/bin/cat") (fun _ s => Done s))
    as (fs & c1 & c2 & s' & E & Ecat & Ec1 & Ec2 & <-).
  - split; [vm_compute; reflexivity|split; [lia|split; lia]|exact example_magic|exact example_archived|exact example_ordered|exact example_paths].
  - cbn. lia.
  - by right; left.
  - reflexivity.
  - reflexivity.
  - cbn. lia.
  - vm_compute. congruence.
  - vm_compute. reflexivity.
  - by repeat constructor.
  - by left.
  - reflexivity.
  - reflexivity.
  - split; [reflexivity|split; done..|done].
  - exists fs, c1, s'. split; [exact E|]. split; [exact Ecat|]. split; [exact Ec1|exact Ec2].
Defined.
