(* ===== verification/Sockets.v ===== *)
(** * Sockets

    kernel/filesystem/ipsocket: the nodes for TCP and UDP, over the transport layers; the
    functions of [TCP] (tcp.cpp) and [UDP] (udp.cpp) that they call; creating a socket
    (ipsocket.cpp) and [FileDescription::socket], [connect] and [accept] (file_description.cpp).
    A call that waits gives [None] when the events end before it returns. *)
From S2P Require Import Prelude Bitmap Buffers Files DomainSocket Checksum Network Datagram Tcp.

(** ** The sessions of TCP *)

(** The sessions share the map of ports. *)
Record TCP := mkTCPLayer { m_connection_sessions : list TCPSession; m_ports : Bitmap }.

Definition waiting (A : Type) := option (A * list (list Z * list Z) * list wake).

(** A new session goes to the end; what the session's own function gives is the result. *)
Definition new_session (t : TCP) (r : sending) : waiting (Result nat * TCP) :=
  match r with
  | None => None
  | Some (error, s, sent, events) =>
      let t' := mkTCPLayer (m_connection_sessions t ++ [s]) (ts_ports s) in
      Some (if truthy error then Error error else Value (length (m_connection_sessions t)), t', sent, events)
  end.

Definition TCP_accept (device_ip : list Z) (t : TCP) (port : Z) (events : list wake) : exec (waiting (Result nat * TCP)) :=
  r ← TCPSession_accept device_ip (TCPSession_new (m_ports t)) port events;
  Done (new_session t r).

Definition TCP_connect (device_ip : list Z) (t : TCP) (ip : list Z) (port : Z) (events : list wake) : exec (waiting (Result nat * TCP)) :=
  r ← TCPSession_connect device_ip (TCPSession_new (m_ports t)) ip port events;
  Done (new_session t r).

Definition TCPSession_address (s : TCPSession) : list Z * Z := (ts_remote_ip s, ts_remote_port s).

(** ** TCPSocket *)

Inductive SocketType := UnSpecfied | Server | Client.

#[export] Instance SocketType_eq_dec : EqDecision SocketType.
Proof. solve_decision. Defined.

(** [m_session] is null or one of the sessions. *)
Record TCPSocket := mkTCPSocket { so_type : SocketType; so_session : option nat; so_address : list Z * Z }.

Definition TCPSocket_new (address : list Z * Z) : TCPSocket := mkTCPSocket UnSpecfied None address.

Definition TCPSocket_of_session (t : TCP) (session : nat) : exec TCPSocket :=
  match m_connection_sessions t !! session with
  | Some s => Done (mkTCPSocket UnSpecfied (Some session) (TCPSession_address s))
  | None => Fault
  end.

Definition TCPSocket_open (so : TCPSocket) : Result unit := Value tt.
Definition TCPSocket_close (so : TCPSocket) : Result unit := Value tt.

(** The result of [TCP::connect] is dropped. *)
Definition TCPSocket_connect (device_ip : list Z) (so : TCPSocket) (t : TCP) (events : list wake)
    : exec (waiting (Result unit * TCPSocket * TCP)) :=
  if negb (bool_decide (so_type so = UnSpecfied)) then Done (Some (Error ERROR_INVALID_OPERATION, so, t, [], events))
  else
    let so := mkTCPSocket Client (so_session so) (so_address so) in
    r ← TCP_connect device_ip t (so_address so).1 (so_address so).2 events;
    Done match r with
         | None => None
         | Some (_, t, sent, events) => Some (Value tt, so, t, sent, events)
         end.

Definition TCPSocket_listen (so : TCPSocket) : Result unit * TCPSocket :=
  if negb (bool_decide (so_type so = UnSpecfied)) then (Error ERROR_INVALID_OPERATION, so)
  else (Value tt, mkTCPSocket Server (so_session so) (so_address so)).

(** The socket of the accepted connection goes to the end of [sockets]. *)
Definition TCPSocket_accept (device_ip : list Z) (so : TCPSocket) (sockets : list TCPSocket) (t : TCP) (events : list wake)
    : exec (waiting (Result nat * list TCPSocket * TCP)) :=
  if negb (bool_decide (so_type so = Server)) then Done (Some (Error ERROR_INVALID_OPERATION, sockets, t, [], events))
  else
    r ← TCP_accept device_ip t (so_address so).2 events;
    match r with
    | None => Done None
    | Some (Error e, t, sent, events) => Done (Some (Error e, sockets, t, sent, events))
    | Some (Value session, t, sent, events) =>
        accepted ← TCPSocket_of_session t session;
        Done (Some (Value (length sockets), sockets ++ [accepted], t, sent, events))
    end.

(** Reading and writing are those of the session. *)
Definition socket_session (so : TCPSocket) (t : TCP) : exec (Result TCPSession) :=
  match so_session so with
  | None => Done (Error ERROR_INVALID_OPERATION)
  | Some i => match m_connection_sessions t !! i with Some s => Done (Value s) | None => Fault end
  end.

Definition with_session (so : TCPSocket) (t : TCP) (s : TCPSession) : TCP :=
  match so_session so with
  | Some i => mkTCPLayer (<[i := s]> (m_connection_sessions t)) (ts_ports s)
  | None => t
  end.

Definition TCPSocket_read (so : TCPSocket) (t : TCP) : exec (Result TCP) :=
  r ← socket_session so t;
  Done match r with
       | Error e => Error e
       | Value s => match TCPSession_receive s with Error e => Error e | Value s => Value (with_session so t s) end
       end.

Definition TCPSocket_write (device_ip : list Z) (so : TCPSocket) (t : TCP) (src : BufferView) (events : list wake)
    : exec (waiting (Z * TCP)) :=
  r ← socket_session so t;
  match r with
  | Error e => Done (Some (e, t, [], events))
  | Value s =>
      r ← TCPSession_send device_ip s src events;
      Done match r with
           | None => None
           | Some (error, s, sent, events) => Some (error, with_session so t s, sent, events)
           end
  end.

(** ** UDPSocket *)

Record UDPSocket := mkUDPSocket { us_address : list Z * Z }.

Definition UDPSocket_open (so : UDPSocket) : Result unit := Value tt.
Definition UDPSocket_close (so : UDPSocket) : Result unit := Value tt.

(** Before it waits, and when it was woken: the connection at [i] has the size and the bytes. *)
Definition UDPSocket_read (junk : Z -> Z) (so : UDPSocket) (cs : list UDPConnection) (dest : list Z) : exec (list UDPConnection) :=
  receive_segment junk cs (us_address so).2 dest.

Definition UDPSocket_read_resume (cs : list UDPConnection) (i : Z) : exec (Result Z * list Z * list UDPConnection) :=
  '(size, _, _, buffer, cs) ← receive_segment_resume cs i;
  Done (Value size, buffer, cs).

Definition UDPSocket_write (junk : Z -> Z) (so : UDPSocket) (n : Network) (ports : Bitmap) (src : BufferView)
    : exec (Result Z * option (list Z) * Network * Bitmap) :=
  UDP_send junk n ports (us_address so).1 (us_address so).2 src.

(** ** Making a socket *)

Inductive SocketProtocol := ProtocolUDP | ProtocolTCP.

(** The nodes in [sockets]. [PlainNode] is an [FSNode] itself, of no derived class. *)
Inductive socket_node := PlainNode | TCPNode (so : TCPSocket) | UDPNode (so : UDPSocket).

(** [new FSNode{...}] of an object of a derived class copies only the part that is an [FSNode]. *)
Definition make_unique_node (n : socket_node) : socket_node := PlainNode.

Definition create_socket (sockets : list socket_node) (addr : list Z * Z) (protocol : SocketProtocol)
    : Result socket_node * list socket_node :=
  let node := match protocol with
              | ProtocolTCP => make_unique_node (TCPNode (TCPSocket_new addr))
              | ProtocolUDP => make_unique_node (UDPNode (mkUDPSocket addr))
              end in
  (Value node, sockets ++ [node]).

(** The virtual function [open]. *)
Definition socket_open (n : socket_node) : Result unit :=
  match n with
  | PlainNode => Error ERROR_INVALID_OPERATION
  | TCPNode so => TCPSocket_open so
  | UDPNode so => UDPSocket_open so
  end.

(** The description that is made is not part of the result. *)
Definition FileDescription_socket (sockets : list socket_node) (addr : list Z * Z) (protocol : SocketProtocol)
    : Result socket_node * list socket_node :=
  match create_socket sockets addr protocol with
  | (Error e, sockets) => (Error e, sockets)
  | (Value node, sockets) =>
      match socket_open node with Error e => (Error e, sockets) | Value _ => (Value node, sockets) end
  end.

(** What [connection_desc] is comes from the node: sockets answer as above, other nodes with
    [INVALID_OP]. A description keeps its node and its mode. *)
Definition FSNode_connect : Result unit := Error ERROR_INVALID_OPERATION.
Definition FSNode_accept : Result nat := Error ERROR_INVALID_OPERATION.

Definition FileDescription_connect (connection_desc : Result unit) : Result unit :=
  match connection_desc with Error e => Error e | Value _ => Value tt end.

Definition FileDescription_accept (connection_desc : Result nat) : Result (nat * Z) :=
  match connection_desc with Error e => Error e | Value node => Value (node, OM_SERVER) end.

Definition FileDescription_ioctl : Result unit := Error ERROR_INVALID_PARAMETER.
Definition FileDescription_mmap : Result unit := Error ERROR_INVALID_PARAMETER.

(** No socket can be opened: the node that is made has lost its class. *)
Lemma socket_never_opens sockets addr protocol : (FileDescription_socket sockets addr protocol).1 = Error ERROR_INVALID_OPERATION.
Proof. by destruct protocol. Qed.

(** A socket that has connected has no session: its calls of [read] and [write] are refused,
    although the connection stands; nor can it connect again or listen. *)
Lemma connected_socket_useless device_ip addr t events so t' sent events' r src :
  TCPSocket_connect device_ip (TCPSocket_new addr) t events = Done (Some (r, so, t', sent, events')) ->
  r = Value tt /\ TCPSocket_read so t' = Done (Error ERROR_INVALID_OPERATION) /\
  TCPSocket_write device_ip so t' src events' = Done (Some (ERROR_INVALID_OPERATION, t', [], events')) /\
  TCPSocket_listen so = (Error ERROR_INVALID_OPERATION, so) /\
  TCPSocket_connect device_ip so t' events' = Done (Some (Error ERROR_INVALID_OPERATION, so, t', [], events')).
Proof.
  unfold TCPSocket_connect at 1. cbn [TCPSocket_new so_type so_session so_address]. rewrite bool_decide_eq_true_2 by done. cbn [negb].
  destruct (TCP_connect device_ip t addr.1 addr.2 events) as [[[[[x t1] sent1] events1]|]| | |]; cbn [mbind exec_bind]; intros E; inv_done; try done.
Qed.

(** A socket that listens gives, for each connection that is made, a new socket with the address
    of the other side; what is read from it and written to it goes through the session. *)
Lemma accepted_socket_serves device_ip addr sockets t events s sent events' :
  TCPSession_accept device_ip (TCPSession_new (m_ports t)) addr.2 events = Done (Some (ERROR_SUCCESS, s, sent, events')) ->
  let t' := mkTCPLayer (m_connection_sessions t ++ [s]) (ts_ports s) in
  exists accepted,
    TCPSocket_accept device_ip (TCPSocket_listen (TCPSocket_new addr)).2 sockets t events =
      Done (Some (Value (length sockets), sockets ++ [accepted], t', sent, events')) /\
    so_address accepted = TCPSession_address s /\
    (forall src ev r s' sent' ev', TCPSession_send device_ip s src ev = Done (Some (r, s', sent', ev')) ->
       TCPSocket_write device_ip accepted t' src ev =
         Done (Some (r, mkTCPLayer (m_connection_sessions t ++ [s']) (ts_ports s'), sent', ev'))) /\
    (forall s', TCPSession_receive s = Value s' ->
       TCPSocket_read accepted t' = Done (Value (mkTCPLayer (m_connection_sessions t ++ [s']) (ts_ports s')))).
Proof.
  intros E t'. set (i := length (m_connection_sessions t)).
  assert (Hi : m_connection_sessions t' !! i = Some s) by (unfold t', i; cbn [m_connection_sessions]; by rewrite list_lookup_middle).
  assert (Hset : forall s', <[i := s']> (m_connection_sessions t') = m_connection_sessions t ++ [s']).
  { intros s'. unfold t', i. cbn [m_connection_sessions]. rewrite insert_app_r_alt by lia. by rewrite Nat.sub_diag. }
  exists (mkTCPSocket UnSpecfied (Some i) (TCPSession_address s)). split; [|split; [done|split]].
  - change (TCPSocket_listen (TCPSocket_new addr)).2 with (mkTCPSocket Server None addr). unfold TCPSocket_accept, TCP_accept.
    cbn [so_type so_address]. rewrite bool_decide_eq_true_2 by done. cbn [negb].
    rewrite E. cbn [mbind exec_bind new_session]. change (truthy ERROR_SUCCESS) with false. cbv iota. fold t'. fold i.
    unfold TCPSocket_of_session. rewrite Hi. done.
  - intros src ev r s' sent' ev' Es. unfold TCPSocket_write, socket_session, with_session. cbn [so_session]. rewrite Hi.
    cbn [mbind exec_bind]. rewrite Es. cbn [mbind exec_bind]. by rewrite Hset.
  - intros s' Es. unfold TCPSocket_read, socket_session, with_session. cbn [so_session]. rewrite Hi.
    cbn [mbind exec_bind]. by rewrite Es, Hset.
Qed.

(** ** The network of a device *)

(** [default_network_ptr]: the first network that was made. *)
Definition Network_new (default_network_ptr : option nat) (this : nat) : option nat :=
  match default_network_ptr with None => Some this | Some n => Some n end.

Definition default_network (default_network_ptr : option nat) : exec nat :=
  match default_network_ptr with Some n => Done n | None => Fault end.

(** The default is the first network that was made; before that there is none to be used. *)
Lemma default_network_first ns :
  default_network (foldl Network_new None ns) = match ns with n :: _ => Done n | [] => Fault end.
Proof.
  destruct ns as [|n ns]; [done|]. cbn [foldl Network_new]. induction ns as [|k ns IH]; [done|]. exact IH.
Qed.
